(* ===== verification/_CoqProject ===== *)
-Q . S2P
Prelude.v
Values.v
RunEntity.v
TaskEntity.v
StepEntity.v
ToolEntity.v
ApprovalEntity.v
EventEntity.v
ScheduleEntity.v
Canonical.v
PyText.v
Regex.v
ResultSafety.v
MemoryContext.v
MemoryQuery.v
RetryPolicy.v
JsonText.v
JsonPrint.v
ScheduleDelivery.v
DeliveryEntity.v
DelegationEntity.v
WorkQueue.v
AgentEntity.v
SkillEntity.v
ConversationEntity.v
WorkflowGraph.v
WorkflowEntity.v
WorkflowExecutionEntity.v
ImprovementEntity.v
Tables.v
Codec.v
RowMappers.v
Store.v
WorkflowStore.v
DeliveryStore.v
SkillStore.v
ImprovementStore.v
Transactions.v
Lifecycle.v
MemoryAudit.v
RunUseCases.v
TaskUseCases.v
StepUseCases.v
ApprovalUseCases.v
ToolExecution.v
RuntimeActions.v
RuntimeContext.v
AgentUseCases.v
SkillUseCases.v
SkillPromotion.v
SkillEvaluation.v
SkillImprovement.v
ConversationUseCases.v
WorkflowUseCases.v
WorkflowEngine.v
Snapshot.v
DeliveryUseCases.v
DelegationUseCases.v
ScheduleUseCases.v
WorkerUseCases.v
System.v
AgentLoop.v
EventLogs.v
Rows.v
AgentMappers.v
RowHistory.v
WorkflowScheduling.v
WorkflowProgress.v
DeliveryHistory.v
Dispatcher.v
ConversationHistory.v
PromotionHistory.v
AgentLoopFacts.v
ClaimHistory.v
Settlement.v
WorkerLoop.v
WorkerHistory.v
