(* ===== verification/Prelude.v ===== *)
(** * Friday assistant: a verification library

    Friday is a personal assistant backend.  Its core, modelled here, turns a
    user's task into durable runs: a worker claims a run from a work queue under
    a lease, executes steps and tool invocations, parks on human approvals or
    delegated child runs, and finishes, fails or retries, while every change of
    state is recorded in per-run and per-task event logs.  All of it lives in
    [src/src/friday/domain] (entities), [src/src/friday/application] (use cases,
    one transaction each) and [src/src/friday/infrastructure/persistence]
    (repositories, work queue, unit of work).

    ** Files, in dependency order

    - [Prelude]: exceptions, the state-and-error monad [M S A] every method and
      use case is written in, its proof rules ([wp1], [preserves], [yields],
      [evolves]), reachability [reach], lexicographic [order_by] (SQL ORDER BY),
      closed-test automation, the hint database [py].
    - [Values]: [domain/time.py], [identifiers.py], [json_value.py],
      [failure.py], [tool_provenance.py].
    - [RunEntity], [TaskEntity], [StepEntity], [ToolEntity], [ApprovalEntity],
      [ScheduleEntity], [ScheduleDelivery], [DeliveryEntity],
      [DelegationEntity], [AgentEntity], [SkillEntity], [ConversationEntity],
      [ImprovementEntity], [EventEntity]: the module of the same
      name in [domain/] ([ImprovementEntity] has the six modules of skill evaluation,
      improvement and promotion).  An entity is a record, a method is a [M Entity unit]
      (the state left behind when it raises is part of the model), the machine of
      all methods is [<entity>_exec].
    - [Canonical]: [json.dumps] with sorted keys, UTF-8 and SHA-256 (a
      parameter), as used for content digests and authorisation fingerprints.
    - [PyText], [Regex]: the string methods and the regular expressions the text
      components use, as executable functions.
    - [ResultSafety]: [delegation_result_safety.py]; [MemoryContext]: the context
      types of [memory/models.py] and [memory/context.py]; [MemoryQuery]: the query,
      write and audit types of [memory/models.py] and [memory/query_builder.py].
    - [RetryPolicy]: [application/retry_policy.py], with binary floating point
      powers as a parameter whose documented behaviour is [FloatPowSpec].
    - [JsonText]: [json.loads], as a parser of code points with the errors it raises;
      [JsonPrint]: what a canonical text says of the value it was printed from, under
      [FloatRepr], the documented behaviour of [repr] of a float.
    - [WorkQueue]: [infrastructure/persistence/work_queue.py], the leased queue.
    - [WorkflowGraph], [WorkflowEntity], [WorkflowExecutionEntity]:
      [domain/workflow.py] (validation, Kahn's algorithm, revisions) and
      [domain/workflow_execution.py].
    - [Tables]: the database as a record of tables, and the small evidence rows.
    - [Store], [WorkflowStore], [DeliveryStore], [SkillStore],
      [ImprovementStore]: the session of a unit of work (staged writes,
      commit, rollback on exception), id and clock sources, and every repository
      method the use cases call.
    - [Transactions]: a Hoare logic for one transaction: what it stages and what
      it commits, through a view of the database.
    - [Lifecycle]: [lifecycle_events.py], [skill_usage.py],
      [retry_inheritance.py], [delegation_reconciliation.py]; [MemoryAudit]: the
      retrieval records of a run and the events the processor appends with them.
    - [ToolExecution]: [claim_aware_tool_execution.py], [tool_gateway.py] and
      [artifact_use_cases.py]; [RuntimeActions]: [runtime_actions.py], the
      validator of brain proposals; [RuntimeContext]: [runtime_context.py] and the
      section of [conversation_context.py]; [AgentUseCases]: [agent_registry.py] and
      [brain_runtime_registry.py]; [DelegationUseCases]: [delegation.py];
      [ScheduleUseCases]: [schedule_recurrence.py], [schedule_lifecycle.py],
      [put_schedule_delivery_policy.py], [materialize_due_schedule.py].
    - [RunUseCases], [TaskUseCases], [StepUseCases], [ApprovalUseCases],
      [WorkerUseCases]: [run_lifecycle.py], [task_lifecycle.py],
      [create_task.py], [start_run.py], [run_step_lifecycle.py],
      [tool_invocation_lifecycle.py], [approval_workflow.py],
      [tool_authorization.py], [worker_coordination.py] and the lease and
      approval ticks of [worker_maintenance.py].
    - [SkillUseCases]: [skill_registry.py] and the feedback of [skill_usage.py];
      [ConversationUseCases]: [submit_conversation_turn.py],
      [conversation_lifecycle.py] and the assembler of
      [conversation_context.py].
    - [SkillPromotion]: [skill_promotion.py], requests for promotion and rollback,
      their fingerprints, and what executes or closes them; [SkillEvaluation]:
      [skill_evaluation.py], the evaluators, the evaluation of a suite by a brain and
      the comparison of a candidate with its baseline; [SkillImprovement]:
      [skill_improvement.py], [skill_improvement_policy.py] and the improvement tick
      of [worker_maintenance.py].
    - [WorkflowUseCases]: [workflow_registry.py]; [WorkflowEngine]:
      [workflow_context.py] and [workflow_execution_use_cases.py].
    - [Snapshot]: what the agent run processor reads in one transaction before a
      turn, with the walk over delegated work that collects authority values.
    - [DeliveryUseCases]: [delivery_lifecycle.py], the transaction of
      [message_tool_gateway.py] and the scheduled answers of
      [worker_maintenance.py].
    - [System]: the machine of all use cases ([app_op], [app_exec]) over a
      [World], reachability from the empty database, concrete histories.
    - [AgentLoop]: [agent_run_processor.py], [run_processor.py],
      [brain_runtime.py] and the composition of [claim_aware_tool_execution.py]:
      [process] claims nothing and ends nothing, it runs turns under a claim and
      returns a [ProcessingOutcome].  The record [Outside] holds what it calls (the
      brain, the tool gateway, the memory retriever, the monotonic clock, the lease
      flag) over a state of its own, and [meanwhile], the use cases that other
      processes commit before each transaction of the processor.
    - [Codec], [RowMappers], [AgentMappers]: identifiers, enumerations, failures
      and timestamps as columns, and the [<entity>_to_row] and [<entity>_from_row]
      functions of [infrastructure/persistence/mappers.py].
    - [EventLogs]: the event logs over whole histories.
    - [Rows], [RowHistory]: the tables as one family (validity and transitions of
      a row), and what any history of use cases does to stored rows.
    - [WorkflowScheduling], [WorkflowProgress]: termination of the engine's
      scheduling loop, and that no history strands a running execution.
    - [DeliveryHistory]: the deliveries and their attempts over whole histories;
      [Dispatcher]: [infrastructure/messaging/dispatcher.py], the delivery worker and
      the delivery thread of [worker_loop.py] as threads of transactions and calls of
      the transport (a parameter), any number of which are interleaved with each other
      and with all use cases, and what they send.
    - [ConversationHistory]: resolved skills and conversation turns over whole
      histories.
    - [PromotionHistory]: what stands behind a generated skill revision, over whole
      histories, and a history that makes one.
    - [AgentLoopFacts]: what one processing can do to the database, to the outside
      and to the snapshot a brain is shown.
    - [ClaimHistory]: claims over whole histories; [Settlement]: what the
      transactions that end a processing do to the claim.
    - [WorkerLoop]: [src/apps/worker/worker_loop.py], the iteration of a worker with its
      heartbeat thread, the maintenance tick and the rounds of the loop;
      [WorkerHistory]: what an iteration does to the world, and that it lets go of its
      claim.
    ** What the theorems show

    - Entities: every object a constructor and any sequence of method calls lead
      to has the shape its status calls for, terminal objects are final, and a
      raising method is atomic except where stated ([run_reachable_inv],
      [run_methods_atomic], [task_lifecycle], [step_lifecycle],
      [tool_lifecycle], [approval_one_shot], [schedule_checks_invariant],
      [delegation_lifecycle], [delivery_lifecycle], [workflow_lifecycle],
      [workflow_execution_lifecycle], [node_execution_lifecycle]).
    - Work queue: only the holder of a live claim can renew, release, requeue or
      complete an item, a lost claim never becomes valid again, due candidates
      come in the documented order ([claim_fencing], [lost_claim_stays_lost],
      [due_candidates_fair]).  In the whole system a lost claim is lost for
      good ([claim_lost_for_good]).
    - The worker: an iteration acts under the one claim it takes
      ([worker_acts_under_its_claim]) and when it returns that claim is over, unless its
      heartbeat failed with something else than the loss of the claim
      ([claim_settled]).
    - Workflows: the validator accepts exactly the well-formed acyclic graphs and
      a revision's digest pins its content ([validate_workflow_dag_correct],
      [workflow_revision_integrity]); an agent revision's
      covers instructions, runtime kind and configuration ([agent_revision_integrity]).
    - Retries: the delays of retries lie between the base and the maximum
      ([retry_delay_bounds]); [compute_delay_overflows] shows the overflow.
    - The whole system, over every history of use cases: event logs are gapless
      ([event_logs_gapless]), stored rows are valid ([stored_entities_valid]),
      change only through the methods of their entity or the guarded UPDATEs that stand
      for them ([rows_follow_machines]) and never again once terminal ([terminal_rows_frozen]).
    - The workflow engine: its scheduling loop terminates at a fixed point
      ([scheduling_terminates]), and every running execution of every history has
      a dispatched node whose end brings the engine back
      ([no_execution_stranded]).
    - Persistence: writing an entity of one of the 28 kinds of [AgentMappers.Entity] to
      its row and reading it back, whether or not the driver keeps time zones, gives the
      same entity ([rows_roundtrip]).
    - Skill improvement: the verdict on a candidate is decided case by case
      ([verdict_case_by_case]), and over every history a generated revision is the
      one that a spent approval and a favourable comparison stand behind
      ([generated_revisions_authorised]).
    - Outbound deliveries: however dispatchers are interleaved with each other and with
      everything else, the transport is called at most once for a delivery
      ([at_most_one_send]); over every history the ledger of attempts agrees
      with the deliveries ([delivery_ledger]), and deliveries only move forward
      ([deliveries_move_forward]).
    - Conversations and skills, over every history: a client turn becomes one task
      and one run however often it is submitted ([turn_materialised_once]), and the
      skills of a run are chosen once ([skills_resolved_once]).
    - What a brain sees and says: delegated results carry no known authority value
      ([no_authority_crosses]), the context document keeps its budget
      ([context_within_budget]) and its instructions whole, but for the cases shown
      ([instructions_whole]), memory stays in its wrapper
      ([memory_section_wrapped]), and the validator of proposals is exact
      ([brain_action_contract]) and raises what it should, but for the cases shown
      ([brain_action_errors]).
    - The agent run processor: whatever brain, tools and the other processes do, a
      processing changes the database only through fenced use cases for its own run
      and never ends a run itself ([processor_proposes_only]), it calls the brain
      and executes tools at most as often as its limits allow
      ([processor_budgets]), and the snapshot it shows collects the authority values
      of a whole delegated subtree and carries none of them
      ([snapshot_keeps_authority]).
    ** Modelling choices

    - Strings are lists of code points; [len] counts code points as Python does.
      Datetimes are microseconds since the epoch with an awareness flag, so
      [ensure_utc] can refuse a naive one.  Integers are unbounded, as in Python;
      [timedelta] arithmetic keeps its range and raises outside it.
    - An exception is a constructor of [exn]; a raising method keeps the
      assignments made before the raise.  Messages are kept only where two
      branches of one function differ by them.
    - [World] holds the committed database and the open session.  [with_uow]
      starts from the committed state and drops what was not committed; [commit]
      checks the uniqueness and CHECK constraints named in [Store.integrity].
      Foreign keys are not modelled: rows are never deleted by the modelled code
      except work items and the bindings of a task.  Transactions run one after the other, as SQLite's and
      PostgreSQL's serialised writers do; a history interleaves whole use cases of
      API callers, workers and maintenance in any order.
    - [uuid4] and the clock are the class [Env]: an arbitrary stream of ids (a
      colliding id makes [add] raise, as the primary key does) and an arbitrary,
      possibly backward, clock.  SHA-256 and float powers are the classes
      [Digest] and [FloatPow]; character categories and case folding are the class
      [Unicode].
    - Fuel: Kahn's loop takes one unit per node, which
      [WorkflowGraph.dag_correct] shows is enough; the engine's scheduling loop
      one unit per node and one more, enough by [scheduling_terminates].
      The walk over delegated work takes one unit per stored delegation and two
      more, enough by [Snapshot.lineage_values_exact]; the turns of a processing are
      the loop bound of the code.  Everything else recurses on its data.
    - Threads of a worker meet in the database and in flags.  The heartbeat is composed
      with the processor at transaction boundaries ([WorkerLoop.beside_heartbeat]); a
      heartbeat may also fail for a reason of its own.  For the main thread the delivery
      thread is one of the others; [Dispatcher] models it by itself.
    - The monotonic clock of the processor counts in one unit for the clock, the
      deadline and the processing limit; only differences and comparisons of it are
      used.
    - The improvement of skills calls a brain and custom evaluators between its
      transactions: they are arguments of the operations, so they may answer anything.
      The JSON Schema validator is the class [JsonSchema].  Scores are dyadic
      rationals; [sum] of scores is exact, as CPython's compensated summation is for
      the scores the evaluators give (0 and 1).  The improvement tick is a sequence of operations
      of [System], since other processes may commit between them.  [json_loads] takes
      two units of fuel per character and one more, enough by [JsonText.json_loads_fuel].

    ** Not modelled

    The HTTP API, the start-up and settings of the worker process, the web client and
    the migrations with the triggers they install
    (request parsing, serialisation and schema history around the use cases); the
    brain, MCP, computer-use, memory, messaging and tool adapters (external processes
    and I/O); the retrieval and index coordination of memory, which are calls to an
    index outside.  The manifest lists each with its reason. *)

From Stdlib Require Export ZArith Lia.
From stdpp Require Export sorting strings gmap countable base list.

#[export] Set Warnings "-register-all".
#[export] Set Default Goal Selector "!".
Open Scope Z_scope.

(** ** Python strings

    A [str] is its list of code points, so [len] counts code points as Python
    does and every Unicode string is representable.  [u] embeds a literal. *)
Abbreviation str := (list Z).

Fixpoint u (s : string) : str :=
  match s with
  | EmptyString => []
  | String c s' => Z.of_N (Ascii.N_of_ascii c) :: u s'
  end.

(** [x is not None] *)
Definition not_none {A} (o : option A) : bool :=
  match o with Some _ => true | None => false end.

(** ** Exceptions

    One constructor per exception class the modelled code raises.  Texts are
    kept verbatim where they are static; interpolated values are dropped from
    the text (they never influence control flow). *)
Inductive exn : Type :=
| DomainValidationError (msg : string)
| InvalidStateTransition (entity current_status target_status : string)
| EntityConflict (msg : string)
| DelegatedManualRetryForbidden
| WorkflowNodeManualRetryForbidden
| WorkflowCancelNotSupportedWhileActive
| TaskNotFound (id : str)
| RunNotFound (id : str)
| RunStepNotFound (id : str)
| ApprovalNotFound (id : str)
| ToolInvocationNotFound (id : str)
| ScheduleNotFound (id : str)
| DelegationRequestNotFound (id : str)
| SkillNotFound (id : str)
| AgentNotFound (id : str)
| ClaimLost (msg : string)
| ToolInputInvalid (msg : string)
| ToolExecutionAmbiguous (msg : string)
| ValueError (msg : string)
| WorkflowNodeContextTooLarge (msg : string)
| AssertionError
| IndexError
| KeyError
| OtherError (cls : string).

(** [except ValueError] *)
Definition is_value_error (e : exn) : bool :=
  match e with ValueError _ | WorkflowNodeContextTooLarge _ => true | _ => false end.

(** [except EntityConflict] also catches its three subclasses. *)
Definition is_entity_conflict (e : exn) : bool :=
  match e with
  | EntityConflict _ | DelegatedManualRetryForbidden
  | WorkflowNodeManualRetryForbidden | WorkflowCancelNotSupportedWhileActive => true
  | _ => false
  end.

Inductive res (A : Type) : Type :=
| Ok (a : A)
| Raise (e : exn).
Arguments Ok {A} a.
Arguments Raise {A} e.

Definition res_bind {A B} (r : res A) (f : A -> res B) : res B :=
  match r with Ok a => f a | Raise e => Raise e end.

(** ** The Python effect monad

    [M S A] is a computation over a mutable state [S] that returns an [A] or
    raises.  As in Python, assignments made before a [raise] persist: the
    final state is returned on both outcomes. *)
Definition M (S A : Type) : Type := S -> res A * S.

Section Combinators.
Context {S : Type}.

Definition ret {A} (a : A) : M S A := fun s => (Ok a, s).
Definition raise {A} (e : exn) : M S A := fun s => (Raise e, s).
Definition bind {A B} (m : M S A) (f : A -> M S B) : M S B :=
  fun s => match m s with
           | (Ok a, s') => f a s'
           | (Raise e, s') => (Raise e, s')
           end.
Definition get : M S S := fun s => (Ok s, s).
Definition gets {A} (f : S -> A) : M S A := fun s => (Ok (f s), s).
Definition modify (f : S -> S) : M S unit := fun s => (Ok tt, f s).
Definition lift {A} (r : res A) : M S A := fun s => (r, s).

(** [if cond: raise e] *)
Definition raise_if (cond : bool) (e : exn) : M S unit :=
  if cond then raise e else ret tt.

(** [x = table.get(k); if x is None: raise e] *)
Definition need {A} (o : option A) (e : exn) : M S A :=
  match o with Some a => ret a | None => raise e end.

(** [for x in l: f(x)] over a list evaluated before the loop starts. *)
Fixpoint for_each {A} (l : list A) (f : A -> M S unit) : M S unit :=
  match l with
  | [] => ret tt
  | x :: l' => bind (f x) (fun _ => for_each l' f)
  end.

(** [acc = []; for x in l: acc.extend(f(x))] *)
Fixpoint collect {A B} (l : list A) (f : A -> M S (list B)) : M S (list B) :=
  match l with
  | [] => ret []
  | x :: l' => bind (f x) (fun ys => bind (collect l' f) (fun zs => ret (ys ++ zs)))
  end.

(** [try: m  except <matching>: handler] *)
Definition try_except {A} (m : M S A) (h : exn -> option (M S A)) : M S A :=
  fun s => match m s with
           | (Ok a, s') => (Ok a, s')
           | (Raise e, s') =>
               match h e with Some k => k s' | None => (Raise e, s') end
           end.

(** Calling a mutating method on a local object: the object after the call
    is handed back; an exception propagates (and the local object is gone
    with the frame that held it). *)
Definition call {O A} (m : M O A) (o : O) : M S (O * A) :=
  fun s => match m o with
           | (Ok a, o') => (Ok (o', a), s)
           | (Raise e, _) => (Raise e, s)
           end.
Lemma bind_ok {A B} (m : M S A) (f : A -> M S B) s b s' :
  bind m f s = (Ok b, s') -> exists a s1, m s = (Ok a, s1) /\ f a s1 = (Ok b, s').
Proof. unfold bind. destruct (m s) as [[a|e] s1]; [|done]. intros E. by exists a, s1. Qed.
End Combinators.

Declare Scope py_scope.
Delimit Scope py_scope with py.
Notation "x <- m ;; k" := (bind m (fun x => k))
  (at level 100, m at next level, right associativity) : py_scope.
Notation "'let*' p ':=' m 'in' k" := (bind m (fun x => match x with p => k end))
  (at level 100, p pattern, m at next level, k at level 200) : py_scope.
Notation "m ;;; k" := (bind m (fun _ => k))
  (at level 100, right associativity) : py_scope.
Open Scope py_scope.

(** ** Reasoning about [M]: weakest preconditions

    [wp m Q s] says that running [m] from [s] ends in an outcome and a state
    related by [Q].  Execution is total, so this is total correctness. *)
Definition wp {S A} (m : M S A) (Q : res A -> S -> Prop) (s : S) : Prop :=
  Q (fst (m s)) (snd (m s)).

Section WpRules.
Context {S : Type}.
Implicit Types s : S.

Lemma wp_ret {A} (a : A) Q s : wp (ret a) Q s <-> Q (Ok a) s.
Proof. reflexivity. Qed.
Lemma wp_raise {A} (e : exn) (Q : res A -> S -> Prop) s : wp (raise e) Q s <-> Q (Raise e) s.
Proof. reflexivity. Qed.
Lemma wp_get Q s : wp get Q s <-> Q (Ok s) s.
Proof. reflexivity. Qed.
Lemma wp_gets {A} (f : S -> A) Q s : wp (gets f) Q s <-> Q (Ok (f s)) s.
Proof. reflexivity. Qed.
Lemma wp_modify f Q s : wp (modify f) Q s <-> Q (Ok tt) (f s).
Proof. reflexivity. Qed.
Lemma wp_lift {A} (r : res A) Q s : wp (lift r) Q s <-> Q r s.
Proof. reflexivity. Qed.

Lemma wp_bind {A B} (m : M S A) (f : A -> M S B) Q s :
  wp (bind m f) Q s <->
  wp m (fun r s' => match r with Ok a => wp (f a) Q s' | Raise e => Q (Raise e) s' end) s.
Proof. unfold wp, bind. by destruct (m s) as [[a|e] s']. Qed.

Lemma wp_raise_if (b : bool) e Q s :
  wp (raise_if b e) Q s <-> (if b then Q (Raise e) s else Q (Ok tt) s).
Proof. by destruct b. Qed.

Lemma wp_need {A} (o : option A) e Q s :
  wp (need o e) Q s <-> match o with Some a => Q (Ok a) s | None => Q (Raise e) s end.
Proof. by destruct o. Qed.

Lemma wp_call {O A} (m : M O A) (o : O) (Q : res (O * A) -> S -> Prop) s :
  wp (call m o) Q s <->
  match m o with (Ok a, o') => Q (Ok (o', a)) s | (Raise e, _) => Q (Raise e) s end.
Proof. unfold wp, call. by destruct (m o) as [[a|e] o']. Qed.

Lemma wp_try {A} (m : M S A) h Q s :
  wp (try_except m h) Q s <->
  wp m (fun r s' => match r with
                    | Ok a => Q (Ok a) s'
                    | Raise e => match h e with
                                 | Some k => wp k Q s'
                                 | None => Q (Raise e) s'
                                 end
                    end) s.
Proof.
  unfold wp, try_except. destruct (m s) as [[a|e] s']; simpl; [done|].
  by destruct (h e).
Qed.

Lemma wp_mono {A} (m : M S A) (Q Q' : res A -> S -> Prop) s :
  wp m Q s -> (forall r s', Q r s' -> Q' r s') -> wp m Q' s.
Proof. unfold wp. auto. Qed.

Lemma wp_for_each {A} (l : list A) (f : A -> M S unit) (I : list A -> S -> Prop) Q s :
  I l s ->
  (forall s', I [] s' -> Q (Ok tt) s') ->
  (forall x l' s', I (x :: l') s' ->
     wp (f x) (fun r s'' => match r with
                            | Ok _ => I l' s''
                            | Raise e => Q (Raise e) s''
                            end) s') ->
  wp (for_each l f) Q s.
Proof.
  intros HI Hnil Hcons. revert s HI.
  induction l as [|x l IH]; intros s HI; simpl.
  - by apply Hnil.
  - rewrite wp_bind. eapply wp_mono; [by apply Hcons|].
    intros [a|e] s'; simpl; auto.
Qed.
End WpRules.

(** One symbolic-execution step; [wps] runs until a test is met. *)
Ltac wp1 :=
  match goal with
  | |- wp (bind _ _) _ _ => rewrite wp_bind
  | |- wp (ret _) _ _ => rewrite wp_ret
  | |- wp (raise _) _ _ => rewrite wp_raise
  | |- wp get _ _ => rewrite wp_get
  | |- wp (gets _) _ _ => rewrite wp_gets
  | |- wp (modify _) _ _ => rewrite wp_modify
  | |- wp (lift _) _ _ => rewrite wp_lift
  | |- wp (raise_if _ _) _ _ => rewrite wp_raise_if
  | |- wp (need _ _) _ _ => rewrite wp_need
  | |- wp (call _ _) _ _ => rewrite wp_call
  | |- wp (try_except _ _) _ _ => rewrite wp_try
  end.
Ltac wps := repeat (wp1; cbn beta iota).

(** Symbolic execution with a case split at every test. *)
Ltac returns :=
  repeat (wps; try (lazymatch goal with
    | |- if ?b then _ else _ => destruct b eqn:?
    | |- match ?r with Ok _ => _ | Raise _ => _ end => destruct r eqn:?
    end)); try done.

(** ** State relations and invariants *)

(** [evolves R m]: whatever the outcome, [m] moves the state along [R]. *)
Definition evolves {S A} (R : S -> S -> Prop) (m : M S A) : Prop :=
  forall s, R s (snd (m s)).

(** [preserves I m]: whatever the outcome, [m] keeps [I]. *)
Definition preserves {S A} (I : S -> Prop) (m : M S A) : Prop :=
  forall s, I s -> I (snd (m s)).

Create HintDb py discriminated.
#[export] Hint Constants Opaque : py.

Section Preserves.
Context {S : Type} (I : S -> Prop).

Lemma preserves_wp {A} (m : M S A) :
  preserves I m <-> forall s, I s -> wp m (fun _ s' => I s') s.
Proof. reflexivity. Qed.
Lemma preserves_ret {A} (a : A) : preserves I (ret a).
Proof. by intros s. Qed.
Lemma preserves_raise {A} e : preserves I (raise (A:=A) e).
Proof. by intros s. Qed.
Lemma preserves_gets {A} (f : S -> A) : preserves I (gets f).
Proof. by intros s. Qed.
Lemma preserves_lift {A} (r : res A) : preserves I (lift r).
Proof. by intros s. Qed.
Lemma preserves_raise_if b e : preserves I (raise_if b e).
Proof. by destruct b; intros s. Qed.
Lemma preserves_need {A} (o : option A) e : preserves I (need o e).
Proof. by destruct o; intros s. Qed.
Lemma preserves_call {O A} (m : M O A) o : preserves I (call m o).
Proof. intros s. unfold call. by destruct (m o) as [[a|e] o']. Qed.
Lemma preserves_bind {A B} (m : M S A) (f : A -> M S B) :
  preserves I m -> (forall a, preserves I (f a)) -> preserves I (bind m f).
Proof.
  intros Hm Hf s Hs. specialize (Hm s Hs). unfold bind.
  destruct (m s) as [[a|e] s']; simpl in *; [by apply Hf | done].
Qed.
Lemma preserves_if {A} (b : bool) (m1 m2 : M S A) :
  preserves I m1 -> preserves I m2 -> preserves I (if b then m1 else m2).
Proof. by destruct b. Qed.
Lemma preserves_for_each {A} (l : list A) f :
  (forall x, preserves I (f x)) -> preserves I (for_each l f).
Proof.
  intros Hf. induction l; simpl; [apply preserves_ret|].
  apply preserves_bind; auto.
Qed.
Lemma preserves_collect {A B} (l : list A) (f : A -> M S (list B)) :
  (forall x, preserves I (f x)) -> preserves I (collect l f).
Proof.
  intros Hf. induction l; simpl; [apply preserves_ret|].
  apply preserves_bind; [done|]. intros ?. apply preserves_bind; [done|].
  intros ?. apply preserves_ret.
Qed.
Lemma preserves_try {A} (m : M S A) h :
  preserves I m -> (forall e, from_option (preserves I) True (h e)) -> preserves I (try_except m h).
Proof.
  intros Hm Hh s Hs. specialize (Hm s Hs). unfold try_except. destruct (m s) as [[a|e] s']; simpl in *; [done|].
  specialize (Hh e). destruct (h e) as [k|]; [by apply Hh|done].
Qed.
End Preserves.

#[export] Hint Resolve preserves_ret preserves_raise preserves_gets preserves_lift
  preserves_raise_if preserves_need preserves_call preserves_bind preserves_if
  preserves_for_each preserves_collect : py.

(** [yields I m Q]: [m] keeps [I] whatever the outcome, and what it returns
    satisfies [Q], a fact that does not mention the state and so stays true. *)
Definition yields {S A} (I : S -> Prop) (m : M S A) (Q : A -> Prop) : Prop :=
  forall s, I s -> match m s with (Ok a, s') => I s' /\ Q a | (Raise _, s') => I s' end.

Section Yields.
Context {S : Type} (I : S -> Prop).

Lemma yields_preserves {A} (m : M S A) Q : yields I m Q -> preserves I m.
Proof. intros Hm s Hs. specialize (Hm s Hs). destruct (m s) as [[a|e] s']; [by destruct Hm|done]. Qed.
Lemma preserves_yields {A} (m : M S A) : preserves I m -> yields I m (fun _ => True).
Proof. intros Hm s Hs. specialize (Hm s Hs). by destruct (m s) as [[a|e] s']. Qed.
Lemma yields_mono {A} (m : M S A) (Q Q' : A -> Prop) :
  yields I m Q -> (forall a, Q a -> Q' a) -> yields I m Q'.
Proof.
  intros Hm HQ s Hs. specialize (Hm s Hs). destruct (m s) as [[a|e] s']; [|done].
  destruct Hm. auto.
Qed.
Lemma yields_ret {A} (a : A) : yields I (ret a) (fun x => x = a).
Proof. by intros s. Qed.
Lemma yields_raise {A} e (Q : A -> Prop) : yields I (raise e) Q.
Proof. by intros s. Qed.
Lemma yields_lift {A} (r : res A) : yields I (lift r) (fun a => r = Ok a).
Proof. intros s Hs. unfold lift. by destruct r. Qed.
Lemma yields_raise_if b e : yields I (raise_if b e) (fun _ => b = false).
Proof. intros s Hs. by destruct b. Qed.
Lemma yields_need {A} (o : option A) e : yields I (need o e) (fun a => o = Some a).
Proof. intros s Hs. by destruct o. Qed.
Lemma yields_call {O A} (m : M O A) o : yields I (call m o) (fun p => m o = (Ok p.2, p.1)).
Proof. intros s Hs. unfold call. by destruct (m o) as [[a|e] o']. Qed.
Lemma yields_bind {A B} (m : M S A) (f : A -> M S B) Q R :
  yields I m Q -> (forall a, Q a -> yields I (f a) R) -> yields I (bind m f) R.
Proof.
  intros Hm Hf s Hs. specialize (Hm s Hs). unfold bind.
  destruct (m s) as [[a|e] s']; [|done]. destruct Hm. by apply Hf.
Qed.
Lemma yields_try {A} (m : M S A) h (Q : A -> Prop) :
  yields I m Q -> (forall e, from_option (fun k => yields I k Q) True (h e)) -> yields I (try_except m h) Q.
Proof.
  intros Hm Hh s Hs. specialize (Hm s Hs). unfold try_except.
  destruct (m s) as [[a|e] s']; simpl in *; [done|].
  specialize (Hh e). destruct (h e) as [k|]; [by apply Hh|done].
Qed.
Lemma yields_for_each {A} (l : list A) f :
  (forall x, x ∈ l -> yields I (f x) (fun _ => True)) -> yields I (for_each l f) (fun _ => True).
Proof.
  induction l as [|x l IH]; intros Hf; cbn [for_each]; [by intros s|].
  eapply yields_bind; [apply Hf; set_solver|]. intros _ _. apply IH. set_solver.
Qed.
Lemma yields_collect {A B} (l : list A) (f : A -> M S (list B)) :
  (forall x, x ∈ l -> yields I (f x) (fun _ => True)) -> yields I (collect l f) (fun _ => True).
Proof.
  induction l as [|x l IH]; intros Hf; cbn [collect]; [by intros s|].
  eapply yields_bind; [apply Hf; set_solver|]. intros ys _.
  eapply yields_bind; [apply IH; set_solver|]. by intros zs _ s.
Qed.
End Yields.

(** ** Object histories

    A domain entity is a machine: objects come from a constructor, then any
    sequence of method calls is applied, failing calls included. *)
Section Machine.
Context {S O : Type} (init : S -> Prop) (exec : O -> M S unit).

Inductive reach : S -> Prop :=
| reach_init s : init s -> reach s
| reach_op o s : reach s -> reach (snd (exec o s)).

Lemma reach_invariant (I : S -> Prop) :
  (forall s, init s -> I s) -> (forall o s, I s -> I (snd (exec o s))) ->
  forall s, reach s -> I s.
Proof. intros Hi Ho s H. induction H; auto. Qed.
End Machine.

(** ** Lexicographic order on code points and sort keys

    A sort key is a list of integers; [created_at, id] becomes
    [created_at :: code points of id], whose lexicographic order is the
    pairwise one. *)
Fixpoint lex_leb (a b : list Z) : bool :=
  match a, b with
  | [], _ => true
  | _ :: _, [] => false
  | x :: a', y :: b' => (x <? y) || ((x =? y) && lex_leb a' b')
  end.

Definition lex_le (a b : list Z) : Prop := lex_leb a b = true.
#[global] Instance lex_le_dec a b : Decision (lex_le a b).
Proof. unfold lex_le. apply _. Defined.

Lemma lex_le_refl a : lex_le a a.
Proof.
  unfold lex_le. induction a as [|x a IH]; simpl; [done|].
  by rewrite Z.ltb_irrefl, Z.eqb_refl, IH.
Qed.
Lemma lex_le_trans a b c : lex_le a b -> lex_le b c -> lex_le a c.
Proof.
  unfold lex_le. revert b c.
  induction a as [|x a IH]; intros [|y b] [|z c]; simpl; try done.
  rewrite !orb_true_iff, !andb_true_iff, !Z.ltb_lt, !Z.eqb_eq.
  intros [?|[-> ?]] [?|[-> ?]]; try (left; lia). right. eauto.
Qed.
Lemma lex_le_total a b : lex_le a b \/ lex_le b a.
Proof.
  unfold lex_le. revert b. induction a as [|x a IH]; intros [|y b]; simpl; auto.
  rewrite !orb_true_iff, !andb_true_iff, !Z.ltb_lt, !Z.eqb_eq.
  destruct (Z.lt_trichotomy x y) as [?|[->|?]]; auto.
  destruct (IH b); auto.
Qed.
Lemma lex_le_antisymm a b : lex_le a b -> lex_le b a -> a = b.
Proof.
  unfold lex_le. revert b. induction a as [|x a IH]; intros [|y b]; simpl; try done.
  rewrite !orb_true_iff, !andb_true_iff, !Z.ltb_lt, !Z.eqb_eq.
  intros [?|[-> ?]] [?|[? ?]]; try lia. f_equal. auto.
Qed.

(** [ORDER BY key] *)
Definition key_le {A} (key : A -> list Z) (a b : A) : Prop := lex_le (key a) (key b).
#[global] Instance key_le_dec {A} (key : A -> list Z) a b : Decision (key_le key a b).
Proof. unfold key_le. apply _. Defined.
#[global] Instance key_le_trans {A} (key : A -> list Z) : Transitive (key_le key).
Proof. intros a b c. apply lex_le_trans. Qed.
#[global] Instance key_le_total {A} (key : A -> list Z) : Total (key_le key).
Proof. intros a b. apply lex_le_total. Qed.

Definition order_by {A} (key : A -> list Z) (l : list A) : list A :=
  merge_sort (key_le key) l.

Lemma order_by_perm {A} (key : A -> list Z) l : order_by key l ≡ₚ l.
Proof. apply merge_sort_Permutation. Qed.
Lemma order_by_sorted {A} (key : A -> list Z) l : StronglySorted (key_le key) (order_by key l).
Proof. apply StronglySorted_merge_sort; apply _. Qed.
Lemma elem_of_order_by {A} (key : A -> list Z) l x : x ∈ order_by key l <-> x ∈ l.
Proof. by rewrite order_by_perm. Qed.

(** A sort whose order is antisymmetric on the elements has one result for
    all orders of its input. *)
Lemma merge_sort_unique {A} (R : relation A) `{!RelDecision R} `{!Transitive R} `{!Total R}
    (l l' : list A) :
  (forall x y, x ∈ l -> y ∈ l -> R x y -> R y x -> x = y) ->
  l ≡ₚ l' -> merge_sort R l = merge_sort R l'.
Proof.
  intros Hinj HP. apply (StronglySorted_unique_strong R).
  - intros x y. rewrite !merge_sort_Permutation, <- HP. apply Hinj.
  - by apply StronglySorted_merge_sort.
  - by apply StronglySorted_merge_sort.
  - by rewrite !merge_sort_Permutation.
Qed.

Lemma order_by_unique {A} (key : A -> list Z) (l l' : list A) :
  (forall x y, x ∈ l -> y ∈ l -> key x = key y -> x = y) ->
  l ≡ₚ l' -> order_by key l = order_by key l'.
Proof.
  intros Hinj. apply merge_sort_unique; try apply _.
  intros x y Hx Hy Hxy Hyx. apply Hinj; try done. by apply lex_le_antisymm.
Qed.

(** Comparing tuples of two strings *)
Definition lex2_le (a b : list Z * list Z) : Prop :=
  (lex_le a.1 b.1 /\ a.1 <> b.1) \/ (a.1 = b.1 /\ lex_le a.2 b.2).
Definition key2_le {A} (key : A -> list Z * list Z) (a b : A) : Prop := lex2_le (key a) (key b).
#[global] Instance key2_le_dec {A} (key : A -> list Z * list Z) : RelDecision (key2_le key).
Proof. unfold key2_le, lex2_le. intros a b. apply _. Defined.
#[global] Instance key2_le_trans {A} (key : A -> list Z * list Z) : Transitive (key2_le key).
Proof.
  intros a b c. unfold key2_le, lex2_le.
  destruct (key a) as [a1 a2], (key b) as [b1 b2], (key c) as [c1 c2]; simpl.
  intros [[H1 N1]|[-> H1]] [[H2 N2]|[-> H2]]; auto.
  - left. split; [by eapply lex_le_trans|]. intros ->. by apply N1, lex_le_antisymm.
  - right. split; [done|by eapply lex_le_trans].
Qed.
#[global] Instance key2_le_total {A} (key : A -> list Z * list Z) : Total (key2_le key).
Proof.
  intros a b. unfold key2_le, lex2_le.
  destruct (decide ((key a).1 = (key b).1)) as [E|N].
  - destruct (lex_le_total (key a).2 (key b).2); auto.
  - destruct (lex_le_total (key a).1 (key b).1); auto.
Qed.
Lemma key2_le_antisymm {A} (key : A -> list Z * list Z) a b :
  key2_le key a b -> key2_le key b a -> key a = key b.
Proof.
  unfold key2_le, lex2_le. destruct (key a) as [a1 a2], (key b) as [b1 b2]; simpl.
  intros [[H1 N1]|[E1 H1]] [[H2 N2]|[E2 H2]]; simplify_eq.
  - by destruct N1; apply lex_le_antisymm.
  - f_equal. by apply lex_le_antisymm.
Qed.

(** ** Filters that keep everything or nothing *)
Section Filters.
Context {A} (P : A -> Prop) `{forall x, Decision (P x)}.
Lemma filter_all (l : list A) : (forall x, x ∈ l -> P x) -> filter P l = l.
Proof.
  induction l as [|x l IH]; intros Hl; [done|]. rewrite filter_cons_True by set_solver.
  f_equal. apply IH. set_solver.
Qed.
Lemma filter_none (l : list A) : (forall x, x ∈ l -> ~ P x) -> filter P l = [].
Proof.
  induction l as [|x l IH]; intros Hl; [done|]. rewrite filter_cons_False by set_solver.
  apply IH. set_solver.
Qed.
End Filters.

(** ** Deciding closed tests

    [closed_tests] evaluates the boolean tests of a goal whose operands are
    constructors, as a method's status guard is after a case split. *)
Ltac closed_tests :=
  repeat match goal with
  | |- context [bool_decide ?P] =>
      let b := eval vm_compute in (bool_decide P) in
      lazymatch b with
      | true => change (bool_decide P) with true
      | false => change (bool_decide P) with false
      end
  | H : context [bool_decide ?P] |- _ =>
      let b := eval vm_compute in (bool_decide P) in
      lazymatch b with
      | true => change (bool_decide P) with true in H
      | false => change (bool_decide P) with false in H
      end
  end.

(** Case analysis on the scrutinee of the first [match] or [if] in sight. *)
Ltac split_match :=
  match goal with
  | |- context [match ?x with _ => _ end] => destruct x eqn:?
  | H : context [match ?x with _ => _ end] |- _ => destruct x eqn:?
  end.
