(* ===== verification/Values.v ===== *)
(** * Shared value objects

    [src/friday/domain/time.py], [identifiers.py], [json_value.py],
    [failure.py] and [tool_provenance.py]: timestamps, identifiers, JSON
    payloads and structured failures, with the string operations they use. *)

From S2P Require Import Prelude.
Open Scope Z_scope.

(** ** Strings: [str.strip], [not s], [len] *)

(** The code points for which [str.isspace] holds, which [str.strip] removes. *)
Definition is_space (c : Z) : bool :=
  ((9 <=? c) && (c <=? 13)) || ((28 <=? c) && (c <=? 32)) || (c =? 133) || (c =? 160)
  || (c =? 5760) || ((8192 <=? c) && (c <=? 8202)) || (c =? 8232) || (c =? 8233)
  || (c =? 8239) || (c =? 8287) || (c =? 12288).

Fixpoint lstrip (s : str) : str :=
  match s with
  | [] => []
  | c :: s' => if is_space c then lstrip s' else s
  end.
Definition rstrip (s : str) : str := reverse (lstrip (reverse s)).
Definition strip (s : str) : str := rstrip (lstrip s).

Definition empty_str (s : str) : bool := match s with [] => true | _ => false end.
Definition len {A} (s : list A) : Z := Z.of_nat (length s).

Lemma lstrip_head s c t : lstrip s = c :: t -> is_space c = false.
Proof.
  induction s as [|d s IH]; simpl; [done|].
  destruct (is_space d) eqn:E; [auto|]. by intros [= <- <-].
Qed.
Lemma lstrip_id s : (forall c t, s = c :: t -> is_space c = false) -> lstrip s = s.
Proof. destruct s as [|c s]; simpl; [done|]. intros H. by rewrite (H c s eq_refl). Qed.
Lemma lstrip_suffix s : exists p, s = p ++ lstrip s /\ Forall (fun c => is_space c = true) p.
Proof.
  induction s as [|c s (p & E & Hp)]; simpl; [by exists []|].
  destruct (is_space c) eqn:Ec; [|by exists []].
  exists (c :: p). split; [by rewrite E at 1 | by constructor].
Qed.
Lemma rstrip_prefix s : exists p, s = rstrip s ++ p /\ Forall (fun c => is_space c = true) p.
Proof.
  destruct (lstrip_suffix (reverse s)) as (p & E & Hp).
  exists (reverse p). unfold rstrip. split.
  - rewrite <- reverse_app, <- E. by rewrite reverse_involutive.
  - by apply Forall_reverse.
Qed.

Lemma rstrip_head s c t : lstrip s = s -> rstrip s = c :: t -> is_space c = false.
Proof.
  intros Hl E. destruct (rstrip_prefix s) as (p & Es & _). rewrite E in Es.
  apply (lstrip_head s c (t ++ p)). rewrite Hl. by rewrite Es at 1.
Qed.

(** Trimming twice is trimming once: what the constructors store is stable
    under the validation that reads it back. *)
Lemma strip_idem s : strip (strip s) = strip s.
Proof.
  unfold strip.
  assert (Hl : lstrip (lstrip s) = lstrip s) by (apply lstrip_id; intros; eapply lstrip_head; eauto).
  rewrite (lstrip_id (rstrip (lstrip s))).
  - unfold rstrip at 1. unfold rstrip at 1. rewrite reverse_involutive.
    rewrite (lstrip_id (lstrip _)); [done|].
    intros; eapply lstrip_head; eauto.
  - intros c t. by apply rstrip_head.
Qed.

(** ** [time.py]: UTC normalisation

    A [datetime] is a wall-clock reading in microseconds since the epoch with
    an optional UTC offset; [tzinfo is None] is [dt_offset = None].  A value
    stored by an entity is always normalised, so it is just its instant. *)
Record datetime : Type := mkDatetime { dt_wall : Z; dt_offset : option Z }.

Definition ensure_utc (value : datetime) : res Z :=
  match dt_offset value with
  | None => Raise (DomainValidationError "timestamp must be timezone-aware, got a naive datetime")
  | Some off => Ok (dt_wall value - off)
  end.

(** [value.tzinfo is not None] *)
Definition is_aware (value : datetime) : bool := not_none (dt_offset value).

(** The reading of [SystemClock.now]: aware, offset zero. *)
Definition utc (t : Z) : datetime := mkDatetime t (Some 0).
Lemma ensure_utc_utc t : ensure_utc (utc t) = Ok t.
Proof. unfold ensure_utc, utc. simpl. f_equal. lia. Qed.

(** ** [identifiers.py]: type-distinct identifiers

    The phantom index keeps a [TaskId] and a [RunId] over the same string in
    different types, as the dataclass equality of the source does. *)
Inductive id_kind : Type :=
| KTask | KRun | KStep | KRunEvent | KTaskEvent | KApproval | KArtifact | KTool
| KSchedule | KFire | KDelegation | KWorkflowExecution | KWorkflowNodeExecution
| KSkill | KSkillRevision | KSkillResolution | KSkillUsage | KSkillFeedback | KMemoryRecord
| KAgent | KAgentRevision | KAgentResolution
| KWorkflow | KWorkflowResolution | KWorkflowRevision | KWorkflowNode | KWorkflowEdge
| KPlan | KConversation | KTurn | KDelivery | KDeliveryAttempt
| KSuite | KCase | KEvaluationRun | KCandidateEvaluation | KProposal | KImprovementWork | KEvidence
| KPromotion | KRollback.

Record Id (k : id_kind) : Type := mkId { value : str }.
Arguments mkId {k} value.
Arguments value {k} _.

#[global] Instance Id_eq_dec k : EqDecision (Id k).
Proof. solve_decision. Defined.
#[global] Instance Id_countable k : Countable (Id k).
Proof. apply (inj_countable' (@value k) (@mkId k)). by intros []. Defined.

Abbreviation TaskId := (Id KTask).
Abbreviation RunId := (Id KRun).
Abbreviation RunStepId := (Id KStep).
Abbreviation RunEventId := (Id KRunEvent).
Abbreviation TaskEventId := (Id KTaskEvent).
Abbreviation ApprovalRequestId := (Id KApproval).
Abbreviation ArtifactId := (Id KArtifact).
Abbreviation ToolInvocationId := (Id KTool).
Abbreviation ScheduleId := (Id KSchedule).
Abbreviation ScheduleFireId := (Id KFire).
Abbreviation ScheduleFireDeliveryPlanId := (Id KPlan).
Abbreviation ConversationId := (Id KConversation).
Abbreviation ConversationTurnId := (Id KTurn).
Abbreviation DeliveryId := (Id KDelivery).
Abbreviation DeliveryAttemptId := (Id KDeliveryAttempt).
Abbreviation DelegationRequestId := (Id KDelegation).
Abbreviation WorkflowExecutionId := (Id KWorkflowExecution).
Abbreviation WorkflowNodeExecutionId := (Id KWorkflowNodeExecution).
Abbreviation SkillId := (Id KSkill).
Abbreviation SkillRevisionId := (Id KSkillRevision).
Abbreviation RunSkillResolutionId := (Id KSkillResolution).
Abbreviation SkillUsageRecordId := (Id KSkillUsage).
Abbreviation SkillRunFeedbackId := (Id KSkillFeedback).
Abbreviation MemoryRetrievalRecordId := (Id KMemoryRecord).
Abbreviation AgentId := (Id KAgent).
Abbreviation AgentRevisionId := (Id KAgentRevision).
Abbreviation RunAgentResolutionId := (Id KAgentResolution).
Abbreviation WorkflowId := (Id KWorkflow).
Abbreviation RunWorkflowResolutionId := (Id KWorkflowResolution).
Abbreviation WorkflowRevisionId := (Id KWorkflowRevision).
Abbreviation WorkflowNodeId := (Id KWorkflowNode).
Abbreviation WorkflowEdgeId := (Id KWorkflowEdge).
Abbreviation SkillEvaluationSuiteId := (Id KSuite).
Abbreviation SkillEvaluationCaseId := (Id KCase).
Abbreviation SkillEvaluationRunId := (Id KEvaluationRun).
Abbreviation SkillCandidateEvaluationId := (Id KCandidateEvaluation).
Abbreviation SkillImprovementProposalId := (Id KProposal).
Abbreviation SkillImprovementWorkId := (Id KImprovementWork).
Abbreviation SkillEvidenceSnapshotId := (Id KEvidence).
Abbreviation SkillPromotionRequestId := (Id KPromotion).
Abbreviation SkillRollbackRequestId := (Id KRollback).

(** [a == b] on identifiers, and [a is not None and a == b] style tests. *)
Definition id_eqb {k} (a b : Id k) : bool := bool_decide (a = b).
Definition opt_id_eqb {k} (a : option (Id k)) (b : Id k) : bool := bool_decide (a = Some b).

(** ** [json_value.py]

    [pyval] is the part of the Python object space that reaches
    [ensure_json_value]: everything JSON can carry plus what it rejects.
    A finite float is a dyadic rational [m * 2^e]. *)
Inductive pyval : Type :=
| PyNone
| PyStr (s : str)
| PyBool (b : bool)
| PyInt (z : Z)
| PyFloat (m e : Z)
| PyNonFinite (nan : bool)
| PyList (l : list pyval)
| PyDict (d : list (pyval * pyval))
| PyOther (type_name : string).

Inductive json : Type :=
| JNull
| JStr (s : str)
| JBool (b : bool)
| JInt (z : Z)
| JFloat (m e : Z)
| JList (l : list json)
| JDict (d : list (str * json)).

Section EnsureJson.
(** The list and dict comprehensions, with the recursive call abstracted. *)
Variable rec : pyval -> res json.
Fixpoint ensure_items (l : list pyval) : res (list json) :=
  match l with
  | [] => Ok []
  | x :: l' => res_bind (rec x) (fun y => res_bind (ensure_items l') (fun ys => Ok (y :: ys)))
  end.
Fixpoint ensure_entries (d : list (pyval * pyval)) : res (list (str * json)) :=
  match d with
  | [] => Ok []
  | (k, v) :: d' =>
      match k with
      | PyStr key => res_bind (rec v) (fun y =>
                       res_bind (ensure_entries d') (fun ys => Ok ((key, y) :: ys)))
      | _ => Raise (DomainValidationError "mapping key is not a string")
      end
  end.
End EnsureJson.

(** [ensure_json_value]: bottom-up on the value, entries in iteration order. *)
Fixpoint ensure_json_value (value : pyval) : res json :=
  match value with
  | PyNone => Ok JNull
  | PyStr s => Ok (JStr s)
  | PyBool b => Ok (JBool b)
  | PyInt z => Ok (JInt z)
  | PyFloat m e => Ok (JFloat m e)
  | PyNonFinite _ => Raise (DomainValidationError "non-finite float is not JSON-compatible")
  | PyList l => res_bind (ensure_items ensure_json_value l) (fun l' => Ok (JList l'))
  | PyDict d => res_bind (ensure_entries ensure_json_value d) (fun d' => Ok (JDict d'))
  | PyOther _ => Raise (DomainValidationError "value is not JSON-compatible")
  end.

(** The Python object a JSON value is. *)
Fixpoint to_py (j : json) : pyval :=
  match j with
  | JNull => PyNone
  | JStr s => PyStr s
  | JBool b => PyBool b
  | JInt z => PyInt z
  | JFloat m e => PyFloat m e
  | JList l => PyList (map to_py l)
  | JDict d => PyDict (map (fun p => (PyStr (fst p), to_py (snd p))) d)
  end.

(** Induction that reaches the elements of lists and dicts. *)
Section PyvalInd.
Variable P : pyval -> Prop.
Hypothesis Hnone : P PyNone.
Hypothesis Hstr : forall s, P (PyStr s).
Hypothesis Hbool : forall b, P (PyBool b).
Hypothesis Hint : forall z, P (PyInt z).
Hypothesis Hfloat : forall m e, P (PyFloat m e).
Hypothesis Hnonfin : forall b, P (PyNonFinite b).
Hypothesis Hlist : forall l, Forall P l -> P (PyList l).
Hypothesis Hdict : forall d, Forall (fun p => P (snd p)) d -> P (PyDict d).
Hypothesis Hother : forall t, P (PyOther t).
Fixpoint pyval_ind' (v : pyval) : P v :=
  match v with
  | PyNone => Hnone
  | PyStr s => Hstr s
  | PyBool b => Hbool b
  | PyInt z => Hint z
  | PyFloat m e => Hfloat m e
  | PyNonFinite b => Hnonfin b
  | PyList l => Hlist l ((fix go l : Forall P l :=
      match l with [] => Forall_nil_2 _ | x :: l' => Forall_cons_2 _ _ _ (pyval_ind' x) (go l') end) l)
  | PyDict d => Hdict d ((fix go d : Forall (fun p => P (snd p)) d :=
      match d with
      | [] => Forall_nil_2 _
      | p :: d' => Forall_cons_2 (fun q => P (snd q)) p d'
          (match p as q return P (snd q) with (_, x) => pyval_ind' x end) (go d')
      end) d)
  | PyOther t => Hother t
  end.
End PyvalInd.

Section JsonInd.
Variable P : json -> Prop.
Hypothesis Hnull : P JNull.
Hypothesis Hstr : forall s, P (JStr s).
Hypothesis Hbool : forall b, P (JBool b).
Hypothesis Hint : forall z, P (JInt z).
Hypothesis Hfloat : forall m e, P (JFloat m e).
Hypothesis Hlist : forall l, Forall P l -> P (JList l).
Hypothesis Hdict : forall d, Forall (fun p => P (snd p)) d -> P (JDict d).
Fixpoint json_ind' (v : json) : P v :=
  match v with
  | JNull => Hnull
  | JStr s => Hstr s
  | JBool b => Hbool b
  | JInt z => Hint z
  | JFloat m e => Hfloat m e
  | JList l => Hlist l ((fix go l : Forall P l :=
      match l with [] => Forall_nil_2 _ | x :: l' => Forall_cons_2 _ _ _ (json_ind' x) (go l') end) l)
  | JDict d => Hdict d ((fix go d : Forall (fun p => P (snd p)) d :=
      match d with
      | [] => Forall_nil_2 _
      | p :: d' => Forall_cons_2 (fun q => P (snd q)) p d'
          (match p as q return P (snd q) with (_, x) => json_ind' x end) (go d')
      end) d)
  end.
End JsonInd.

(** A value is accepted exactly when it is (the Python object of) a JSON
    value, and it is then returned unchanged. *)
Lemma ensure_json_to_py j : ensure_json_value (to_py j) = Ok j.
Proof.
  induction j as [| | | | |l IH|d IH] using json_ind'; simpl; try done.
  - assert (E : ensure_items ensure_json_value (map to_py l) = Ok l).
    { induction IH as [|x l Hx _ IHl]; simpl; [done|]. by rewrite Hx; simpl; rewrite IHl. }
    by rewrite E.
  - assert (E : ensure_entries ensure_json_value
                  (map (fun p => (PyStr (fst p), to_py (snd p))) d) = Ok d).
    { induction IH as [|[k x] d Hx _ IHd]; simpl in *; [done|].
      by rewrite Hx; simpl; rewrite IHd. }
    by rewrite E.
Qed.

Lemma ensure_items_ok l l' :
  Forall (fun v => forall j, ensure_json_value v = Ok j -> v = to_py j) l ->
  ensure_items ensure_json_value l = Ok l' -> l = map to_py l'.
Proof.
  intros IH. revert l'. induction IH as [|x l Hx _ IHl]; intros l'; simpl.
  { by intros [= <-]. }
  destruct (ensure_json_value x) as [y|] eqn:Ex; simpl; [|done].
  destruct (ensure_items _ l) as [ys|] eqn:El; simpl; [|done].
  intros [= <-]. simpl. by rewrite (Hx y), (IHl ys) by done.
Qed.

Lemma ensure_entries_ok d d' :
  Forall (fun p => forall j, ensure_json_value (snd p) = Ok j -> snd p = to_py j) d ->
  ensure_entries ensure_json_value d = Ok d' ->
  d = map (fun p => (PyStr (fst p), to_py (snd p))) d'.
Proof.
  intros IH. revert d'. induction IH as [|[k x] d Hx _ IHd]; intros d'; simpl in *.
  { by intros [= <-]. }
  destruct k; try done. destruct (ensure_json_value x) as [y|] eqn:Ex; simpl; [|done].
  destruct (ensure_entries _ d) as [ys|] eqn:El; simpl; [|done].
  intros [= <-]. simpl. by rewrite (Hx y), (IHd ys) by done.
Qed.

Lemma ensure_json_ok v j : ensure_json_value v = Ok j -> v = to_py j.
Proof.
  revert j. induction v as [| | | | | |l IH|d IH|] using pyval_ind'; intros j; simpl;
    try by intros [= <-].
  - destruct (ensure_items _ l) as [l'|] eqn:E; simpl; [|done]. intros [= <-]. simpl.
    f_equal. by apply ensure_items_ok.
  - destruct (ensure_entries _ d) as [d'|] eqn:E; simpl; [|done]. intros [= <-]. simpl.
    f_equal. by apply ensure_entries_ok.
Qed.

(** ** Python equality of JSON values

    [==] crosses [bool], [int] and [float] by numeric value and compares
    dicts as maps; the idempotency checks of the use cases rely on it. *)
Definition num_val (j : json) : option (Z * Z) :=
  match j with
  | JBool b => Some (if b then 1 else 0, 0)
  | JInt z => Some (z, 0)
  | JFloat m e => Some (m, e)
  | _ => None
  end.

Definition num_eqb (p q : Z * Z) : bool :=
  let e := Z.min (snd p) (snd q) in
  fst p * 2 ^ (snd p - e) =? fst q * 2 ^ (snd q - e).

Fixpoint dict_get {A} (k : str) (d : list (str * A)) : option A :=
  match d with
  | [] => None
  | (k', v) :: d' => if bool_decide (k = k') then Some v else dict_get k d'
  end.

Fixpoint json_eqb (a b : json) {struct a} : bool :=
  match a, b with
  | JNull, JNull => true
  | JStr s, JStr t => bool_decide (s = t)
  | JList l, JList l' =>
      (fix go (l l' : list json) : bool :=
         match l, l' with
         | [], [] => true
         | x :: r, y :: r' => json_eqb x y && go r r'
         | _, _ => false
         end) l l'
  | JDict d, JDict d' =>
      (len d =? len d') &&
      (fix go (d : list (str * json)) : bool :=
         match d with
         | [] => true
         | (k, x) :: r =>
             match dict_get k d' with Some y => json_eqb x y | None => false end && go r
         end) d
  | _, _ =>
      match num_val a, num_val b with Some p, Some q => num_eqb p q | _, _ => false end
  end.

Example json_eqb_numbers : json_eqb (JInt 1) (JBool true) && json_eqb (JFloat 1 1) (JInt 2) = true.
Proof. reflexivity. Qed.

(** ** [failure.py] *)
Inductive FailureCause : Type :=
| FC_VALIDATION | FC_TOOL | FC_RUNTIME | FC_APPROVAL | FC_CANCELLED | FC_TIMEOUT | FC_INTERNAL.
#[global] Instance FailureCause_eq_dec : EqDecision FailureCause.
Proof. solve_decision. Defined.

Record Failure : Type := mkFailure {
  fl_code : str; fl_message : str; fl_retryable : bool;
  fl_cause : FailureCause; fl_details : json }.

(** [Failure(...)] with its [__post_init__]. *)
Definition Failure_new (code message : str) (retryable : bool) (cause : FailureCause)
    (details : pyval) : res Failure :=
  if empty_str (strip code) then Raise (DomainValidationError "Failure.code must not be empty")
  else if empty_str (strip message)
  then Raise (DomainValidationError "Failure.message must not be empty")
  else res_bind (ensure_json_value details) (fun d => Ok (mkFailure code message retryable cause d)).

(** [f == g] on the frozen dataclass. *)
Definition failure_eqb (f g : Failure) : bool :=
  bool_decide (fl_code f = fl_code g) && bool_decide (fl_message f = fl_message g)
  && bool_decide (fl_retryable f = fl_retryable g) && bool_decide (fl_cause f = fl_cause g)
  && json_eqb (fl_details f) (fl_details g).

(** [x.failure != command.failure] where [x.failure] may be [None]. *)
Definition opt_failure_eqb (f : option Failure) (g : Failure) : bool :=
  match f with Some f' => failure_eqb f' g | None => false end.

(** ** [tool_provenance.py] *)
Definition MAX_PROVENANCE_FIELD_CHARS : Z := 200.
Record ToolProvenance : Type := mkProvenance {
  pv_kind : str; pv_target : str; pv_remote_name : str; pv_binding_fingerprint : str }.

Definition provenance_field (v : str) : res unit :=
  if empty_str (strip v) then Raise (DomainValidationError "ToolProvenance field must not be empty")
  else if MAX_PROVENANCE_FIELD_CHARS <? len v
  then Raise (DomainValidationError "ToolProvenance field must not exceed 200 characters")
  else Ok tt.

Definition ToolProvenance_new (kind target remote_name binding_fingerprint : str) : res ToolProvenance :=
  res_bind (provenance_field kind) (fun _ =>
  res_bind (provenance_field target) (fun _ =>
  res_bind (provenance_field remote_name) (fun _ =>
  res_bind (provenance_field binding_fingerprint) (fun _ =>
  Ok (mkProvenance kind target remote_name binding_fingerprint))))).

(** [lower-case hexadecimal SHA-256]: [re.fullmatch(r"[0-9a-f]{64}", s)]. *)
Definition is_hex_digit (c : Z) : bool :=
  ((48 <=? c) && (c <=? 57)) || ((97 <=? c) && (c <=? 102)).
Definition is_sha256_hex (s : str) : bool := (len s =? 64) && forallb is_hex_digit s.

(** ** Machine-readable keys

    The anchored regular expression [[a-z][a-z0-9]*(?:[SEP][a-z0-9]+)*] that
    agents, skills, runtimes and workflows share up to the separator class, as
    an automaton. *)
Definition is_lower (c : Z) : bool := (97 <=? c) && (c <=? 122).
Definition is_lower_digit (c : Z) : bool := is_lower c || ((48 <=? c) && (c <=? 57)).

Fixpoint key_tail (is_sep : Z -> bool) (after_sep : bool) (s : str) : bool :=
  match s with
  | [] => negb after_sep
  | c :: s' => if is_lower_digit c then key_tail is_sep false s'
               else if after_sep then false
               else if is_sep c then key_tail is_sep true s' else false
  end.
Definition machine_key (is_sep : Z -> bool) (s : str) : bool :=
  match s with [] => false | c :: s' => is_lower c && key_tail is_sep false s' end.

(** What such a key guarantees: its characters come from the fixed alphabet. *)
Lemma machine_key_chars is_sep s :
  machine_key is_sep s = true -> Forall (fun c => is_lower_digit c || is_sep c = true) s.
Proof.
  assert (Ht : forall b s, key_tail is_sep b s = true ->
    Forall (fun c => is_lower_digit c || is_sep c = true) s).
  { intros b t. revert b. induction t as [|c t IH]; intros b; simpl; [by constructor|].
    destruct (is_lower_digit c) eqn:E; [intros H; constructor; [by rewrite E|by eapply IH]|].
    destruct b; [done|]. destruct (is_sep c) eqn:E'; [|done].
    intros H. constructor; [by rewrite E', orb_true_r|by eapply IH]. }
  destruct s as [|c s]; simpl; [done|]. intros [Hc Hs]%andb_true_iff. constructor.
  - unfold is_lower_digit. by rewrite Hc.
  - by eapply Ht.
Qed.
