(* ===== verification/RunEntity.v ===== *)
(** * The [Run] entity

    [src/friday/domain/run.py]: one execution attempt for a Task and its
    lifecycle.  The methods are state-passing computations over the object;
    what they assign before raising stays assigned.  The file proves the
    state machine correct: the persisted wait-marker CHECK constraint
    ([ck_runs_wait_marker_shape] in
    [src/friday/infrastructure/persistence/models.py]) is an invariant of
    every reachable object, terminal runs are frozen, and a raising method
    leaves the object as it was. *)

From S2P Require Import Prelude Values.

Open Scope Z_scope.

Inductive RunStatus : Type :=
| RQUEUED | RRUNNING | RWAITING_FOR_APPROVAL | RWAITING_FOR_DELEGATION | RWAITING_FOR_WORKFLOW
| RSUCCEEDED | RFAILED | RCANCELLED.
#[global] Instance RunStatus_eq_dec : EqDecision RunStatus.
Proof. solve_decision. Defined.

Definition run_status_value (s : RunStatus) : string :=
  match s with
  | RQUEUED => "queued" | RRUNNING => "running"
  | RWAITING_FOR_APPROVAL => "waiting_for_approval"
  | RWAITING_FOR_DELEGATION => "waiting_for_delegation"
  | RWAITING_FOR_WORKFLOW => "waiting_for_workflow"
  | RSUCCEEDED => "succeeded" | RFAILED => "failed" | RCANCELLED => "cancelled"
  end.

Definition TERMINAL_RUN_STATUSES : list RunStatus := [RSUCCEEDED; RFAILED; RCANCELLED].
Definition run_terminal (s : RunStatus) : bool := bool_decide (s ∈ TERMINAL_RUN_STATUSES).

Record Run : Type := mkRun {
  run_id : RunId; run_task_id : TaskId; run_execution_id : RunId; run_status : RunStatus;
  run_created_at : Z; run_started_at : option Z; run_ended_at : option Z;
  run_failure : option Failure; run_approval_request_id : option ApprovalRequestId;
  run_delegation_request_id : option DelegationRequestId;
  run_workflow_execution_id : option WorkflowExecutionId }.

Definition set_run_status (v : RunStatus) (x : Run) : Run :=
  mkRun (run_id x) (run_task_id x) (run_execution_id x) v (run_created_at x)
    (run_started_at x) (run_ended_at x) (run_failure x) (run_approval_request_id x)
    (run_delegation_request_id x) (run_workflow_execution_id x).
Definition set_run_started_at (v : option Z) (x : Run) : Run :=
  mkRun (run_id x) (run_task_id x) (run_execution_id x) (run_status x) (run_created_at x)
    v (run_ended_at x) (run_failure x) (run_approval_request_id x)
    (run_delegation_request_id x) (run_workflow_execution_id x).
Definition set_run_ended_at (v : option Z) (x : Run) : Run :=
  mkRun (run_id x) (run_task_id x) (run_execution_id x) (run_status x) (run_created_at x)
    (run_started_at x) v (run_failure x) (run_approval_request_id x)
    (run_delegation_request_id x) (run_workflow_execution_id x).
Definition set_run_failure (v : option Failure) (x : Run) : Run :=
  mkRun (run_id x) (run_task_id x) (run_execution_id x) (run_status x) (run_created_at x)
    (run_started_at x) (run_ended_at x) v (run_approval_request_id x)
    (run_delegation_request_id x) (run_workflow_execution_id x).
Definition set_run_approval_request_id (v : option ApprovalRequestId) (x : Run) : Run :=
  mkRun (run_id x) (run_task_id x) (run_execution_id x) (run_status x) (run_created_at x)
    (run_started_at x) (run_ended_at x) (run_failure x) v (run_delegation_request_id x)
    (run_workflow_execution_id x).
Definition set_run_delegation_request_id (v : option DelegationRequestId) (x : Run) : Run :=
  mkRun (run_id x) (run_task_id x) (run_execution_id x) (run_status x) (run_created_at x)
    (run_started_at x) (run_ended_at x) (run_failure x) (run_approval_request_id x) v
    (run_workflow_execution_id x).
Definition set_run_workflow_execution_id (v : option WorkflowExecutionId) (x : Run) : Run :=
  mkRun (run_id x) (run_task_id x) (run_execution_id x) (run_status x) (run_created_at x)
    (run_started_at x) (run_ended_at x) (run_failure x) (run_approval_request_id x)
    (run_delegation_request_id x) v.

Definition Run_new (id : RunId) (task_id : TaskId) (created_at : datetime)
    (execution_id : option RunId) : res Run :=
  res_bind (ensure_utc created_at) (fun t =>
  Ok (mkRun id task_id (default id execution_id) RQUEUED t None None None None None None)).

(** ** Methods *)

Definition run_require_status (allowed : list RunStatus) (target : RunStatus) : M Run unit :=
  st <- gets run_status ;;
  raise_if (negb (bool_decide (st ∈ allowed)))
    (InvalidStateTransition "Run" (run_status_value st) (run_status_value target)).

Definition run_start (at_ : datetime) : M Run unit :=
  run_require_status [RQUEUED] RRUNNING ;;;
  t <- lift (ensure_utc at_) ;;
  modify (set_run_started_at (Some t)) ;;;
  modify (set_run_status RRUNNING).

Definition run_wait_for_approval (at_ : datetime) (approval_request_id : ApprovalRequestId)
    : M Run unit :=
  run_require_status [RRUNNING] RWAITING_FOR_APPROVAL ;;;
  busy <- gets (fun r => not_none (run_delegation_request_id r)
                         || not_none (run_workflow_execution_id r)) ;;
  raise_if busy (DomainValidationError
    "approval, delegation, and workflow wait markers are mutually exclusive") ;;;
  lift (ensure_utc at_) ;;;
  modify (set_run_approval_request_id (Some approval_request_id)) ;;;
  modify (set_run_status RWAITING_FOR_APPROVAL).

Definition run_wait_for_delegation (at_ : datetime) (delegation_request_id : DelegationRequestId)
    : M Run unit :=
  run_require_status [RRUNNING] RWAITING_FOR_DELEGATION ;;;
  busy <- gets (fun r => not_none (run_approval_request_id r)
                         || not_none (run_workflow_execution_id r)) ;;
  raise_if busy (DomainValidationError
    "approval, delegation, and workflow wait markers are mutually exclusive") ;;;
  lift (ensure_utc at_) ;;;
  modify (set_run_delegation_request_id (Some delegation_request_id)) ;;;
  modify (set_run_status RWAITING_FOR_DELEGATION).

Definition run_wait_for_workflow (at_ : datetime) (workflow_execution_id : WorkflowExecutionId)
    : M Run unit :=
  run_require_status [RRUNNING] RWAITING_FOR_WORKFLOW ;;;
  busy <- gets (fun r => not_none (run_approval_request_id r)
                         || not_none (run_delegation_request_id r)) ;;
  raise_if busy (DomainValidationError
    "workflow and other wait markers are mutually exclusive") ;;;
  owned <- gets (fun r => not_none (run_workflow_execution_id r)) ;;
  raise_if owned (DomainValidationError "Run already has a Workflow execution owner") ;;;
  lift (ensure_utc at_) ;;;
  modify (set_run_workflow_execution_id (Some workflow_execution_id)) ;;;
  modify (set_run_status RWAITING_FOR_WORKFLOW).

Definition run_resume (at_ : datetime) : M Run unit :=
  run_require_status [RWAITING_FOR_APPROVAL; RWAITING_FOR_DELEGATION] RRUNNING ;;;
  lift (ensure_utc at_) ;;;
  modify (set_run_approval_request_id None) ;;;
  modify (set_run_delegation_request_id None) ;;;
  modify (set_run_status RRUNNING).

Definition run_resume_from_delegation (at_ : datetime) : M Run unit :=
  run_require_status [RWAITING_FOR_DELEGATION] RRUNNING ;;;
  lift (ensure_utc at_) ;;;
  modify (set_run_delegation_request_id None) ;;;
  modify (set_run_status RRUNNING).

Definition run_validated_end (at_ : datetime) : M Run Z :=
  end_ <- lift (ensure_utc at_) ;;
  reference <- gets (fun r => default (run_created_at r) (run_started_at r)) ;;
  raise_if (end_ <? reference)
    (DomainValidationError "Run end timestamp precedes its start/creation time") ;;;
  ret end_.

Definition run_succeed (at_ : datetime) : M Run unit :=
  run_require_status [RRUNNING; RWAITING_FOR_WORKFLOW] RSUCCEEDED ;;;
  t <- run_validated_end at_ ;;
  modify (set_run_ended_at (Some t)) ;;;
  modify (set_run_status RSUCCEEDED).

Definition run_fail (at_ : datetime) (failure : Failure) : M Run unit :=
  run_require_status [RRUNNING; RWAITING_FOR_WORKFLOW] RFAILED ;;;
  t <- run_validated_end at_ ;;
  modify (set_run_ended_at (Some t)) ;;;
  modify (set_run_failure (Some failure)) ;;;
  modify (set_run_status RFAILED).

Definition run_cancel (at_ : datetime) : M Run unit :=
  run_require_status [RQUEUED; RRUNNING; RWAITING_FOR_APPROVAL; RWAITING_FOR_DELEGATION;
                      RWAITING_FOR_WORKFLOW] RCANCELLED ;;;
  t <- run_validated_end at_ ;;
  modify (set_run_ended_at (Some t)) ;;;
  modify (set_run_approval_request_id None) ;;;
  modify (set_run_delegation_request_id None) ;;;
  modify (set_run_status RCANCELLED).

Definition run_succeed_workflow (at_ : datetime) : M Run unit :=
  run_require_status [RWAITING_FOR_WORKFLOW] RSUCCEEDED ;;; run_succeed at_.

Definition run_fail_workflow (at_ : datetime) (failure : Failure) : M Run unit :=
  run_require_status [RWAITING_FOR_WORKFLOW] RFAILED ;;; run_fail at_ failure.

Definition run_cancel_workflow (at_ : datetime) : M Run unit :=
  run_require_status [RWAITING_FOR_WORKFLOW] RCANCELLED ;;; run_cancel at_.

(** ** The state machine

    The methods as the operations of a [Prelude] machine. *)
Inductive run_op : Type :=
| RunStart (at_ : datetime)
| RunWaitForApproval (at_ : datetime) (a : ApprovalRequestId)
| RunWaitForDelegation (at_ : datetime) (d : DelegationRequestId)
| RunWaitForWorkflow (at_ : datetime) (w : WorkflowExecutionId)
| RunResume (at_ : datetime)
| RunResumeFromDelegation (at_ : datetime)
| RunSucceed (at_ : datetime)
| RunFail (at_ : datetime) (f : Failure)
| RunCancel (at_ : datetime)
| RunSucceedWorkflow (at_ : datetime)
| RunFailWorkflow (at_ : datetime) (f : Failure)
| RunCancelWorkflow (at_ : datetime).

Definition run_exec (o : run_op) : M Run unit :=
  match o with
  | RunStart t => run_start t
  | RunWaitForApproval t a => run_wait_for_approval t a
  | RunWaitForDelegation t d => run_wait_for_delegation t d
  | RunWaitForWorkflow t w => run_wait_for_workflow t w
  | RunResume t => run_resume t
  | RunResumeFromDelegation t => run_resume_from_delegation t
  | RunSucceed t => run_succeed t
  | RunFail t f => run_fail t f
  | RunCancel t => run_cancel t
  | RunSucceedWorkflow t => run_succeed_workflow t
  | RunFailWorkflow t f => run_fail_workflow t f
  | RunCancelWorkflow t => run_cancel_workflow t
  end.

Definition run_init (r : Run) : Prop :=
  exists id task_id t exec, Run_new id task_id t exec = Ok r.
Definition run_reach : Run -> Prop := reach run_init run_exec.

(** [ck_runs_wait_marker_shape], clause by clause. *)
Definition ck_runs_wait_marker_shape (r : Run) : bool :=
  let appr := not_none (run_approval_request_id r) in
  let dele := not_none (run_delegation_request_id r) in
  let work := not_none (run_workflow_execution_id r) in
  match run_status r with
  | RWAITING_FOR_APPROVAL => appr && negb dele && negb work
  | RWAITING_FOR_DELEGATION => dele && negb appr && negb work
  | RWAITING_FOR_WORKFLOW => work && negb appr && negb dele
  | s => negb appr && negb dele
         && (negb work || bool_decide (s ∈ [RSUCCEEDED; RFAILED; RCANCELLED]))
  end.

(** The lifecycle facts a reader of a persisted run relies on. *)
Record run_inv (r : Run) : Prop := mk_run_inv {
  run_inv_markers : ck_runs_wait_marker_shape r = true;
  run_inv_queued : run_status r = RQUEUED -> run_started_at r = None;
  run_inv_started : run_status r <> RQUEUED -> run_status r <> RCANCELLED ->
                    run_started_at r <> None;
  run_inv_ended : run_ended_at r <> None <-> run_terminal (run_status r) = true;
  run_inv_order : forall e, run_ended_at r = Some e ->
                  default (run_created_at r) (run_started_at r) <= e;
  run_inv_failure : run_failure r <> None <-> run_status r = RFAILED }.

(** The same facts per status, which is what a method's proof needs. *)
Definition run_shape (r : Run) : Prop :=
  let started := not_none (run_started_at r) in
  let ended := not_none (run_ended_at r) in
  let failed := not_none (run_failure r) in
  let appr := not_none (run_approval_request_id r) in
  let dele := not_none (run_delegation_request_id r) in
  let work := not_none (run_workflow_execution_id r) in
  let row a b c d e f :=
    started = a /\ ended = b /\ failed = c /\ appr = d /\ dele = e /\ work = f in
  match run_status r with
  | RQUEUED => row false false false false false false
  | RRUNNING => row true false false false false false
  | RWAITING_FOR_APPROVAL => row true false false true false false
  | RWAITING_FOR_DELEGATION => row true false false false true false
  | RWAITING_FOR_WORKFLOW => row true false false false false true
  | RSUCCEEDED => row true true false false false work
  | RFAILED => row true true true false false work
  | RCANCELLED => row started true false false false work
  end /\
  match run_ended_at r with
  | Some e => default (run_created_at r) (run_started_at r) <= e
  | None => True
  end.

Lemma run_shape_inv r : run_shape r -> run_inv r.
Proof.
  destruct r as [? ? ? s ? st en f a d w]. unfold run_shape; cbn. intros [Hs Ho].
  destruct st, en, f, a, d, w, s; cbn in *; destruct_and?; try done;
    (split; cbn; [reflexivity | done | done | done | | done]); intros; simplify_eq; lia.
Qed.

(** Symbolic execution of one method on a run whose status is a constructor:
    the guard evaluates, the remaining tests are split. *)
Ltac run_cases :=
  cbv [run_exec run_start run_wait_for_approval run_wait_for_delegation run_wait_for_workflow
       run_resume run_resume_from_delegation run_succeed run_fail run_cancel
       run_succeed_workflow run_fail_workflow run_cancel_workflow run_validated_end
       run_require_status bind gets modify lift raise_if ret raise];
  cbn [run_status run_id run_task_id run_execution_id run_created_at run_started_at run_ended_at
       run_failure run_approval_request_id run_delegation_request_id run_workflow_execution_id
       default from_option id negb fst snd
       set_run_status set_run_started_at set_run_ended_at set_run_failure
       set_run_approval_request_id set_run_delegation_request_id set_run_workflow_execution_id].
Ltac run_split :=
  repeat (split_match; cbn [negb andb orb] in *; simplify_eq); intros; simplify_eq.

Lemma run_exec_raise o r e r' : run_exec o r = (Raise e, r') -> r' = r.
Proof.
  destruct r as [? ? ? s ? ? ? ? ? ? ?]. destruct o, s; run_cases; closed_tests; cbn [negb];
    run_split; done.
Qed.

(** A method never touches the identity fields. *)
Lemma run_exec_identity o r :
  let r' := snd (run_exec o r) in
  run_id r' = run_id r /\ run_task_id r' = run_task_id r /\
  run_execution_id r' = run_execution_id r /\ run_created_at r' = run_created_at r.
Proof.
  destruct r as [? ? ? s ? ? ? ? ? ? ?]. destruct o, s; run_cases; closed_tests; cbn [negb];
    run_split; done.
Qed.

Lemma run_exec_terminal o r :
  run_terminal (run_status r) = true ->
  exists target, run_exec o r =
    (Raise (InvalidStateTransition "Run" (run_status_value (run_status r)) target), r).
Proof.
  destruct r as [? ? ? s ? ? ? ? ? ? ?]. cbn [run_status].
  destruct s; intros Ht; try done;
    destruct o; run_cases; closed_tests; cbn [negb]; eexists; reflexivity.
Qed.

(** The status graph of [docs/architecture/domain-model.md] extended by the
    delegation and workflow waits of the source. *)
Definition run_edge (a b : RunStatus) : bool :=
  match a, b with
  | RQUEUED, RRUNNING => true
  | RRUNNING, (RWAITING_FOR_APPROVAL | RWAITING_FOR_DELEGATION | RWAITING_FOR_WORKFLOW) => true
  | (RWAITING_FOR_APPROVAL | RWAITING_FOR_DELEGATION), RRUNNING => true
  | (RRUNNING | RWAITING_FOR_WORKFLOW), (RSUCCEEDED | RFAILED) => true
  | (RQUEUED | RRUNNING | RWAITING_FOR_APPROVAL | RWAITING_FOR_DELEGATION
     | RWAITING_FOR_WORKFLOW), RCANCELLED => true
  | _, _ => false
  end.

Lemma run_exec_edge o r r' :
  run_exec o r = (Ok tt, r') -> run_edge (run_status r) (run_status r') = true.
Proof.
  destruct r as [? ? ? s ? ? ? ? ? ? ?]. destruct o, s; run_cases; closed_tests; cbn [negb];
    run_split; done.
Qed.

Lemma run_exec_shape o r : run_shape r -> run_shape (snd (run_exec o r)).
Proof.
  destruct (run_exec o r) as [[[]|e] r'] eqn:E; simpl;
    [|by rewrite (run_exec_raise _ _ _ _ E)].
  revert E. unfold run_shape at 1.
  destruct r as [? ? ? s ? st en f a d w]; cbn [run_status]; intros E [Hs Ho].
  destruct s; cbn in Hs; destruct_and?; destruct o; revert E;
    run_cases; closed_tests; cbn [negb]; run_split;
    unfold run_shape; cbn in *; repeat split; first [done | lia | by destruct en].
Qed.

Lemma run_init_shape r : run_init r -> run_shape r.
Proof.
  intros (id & task & t & exec & E). unfold Run_new in E.
  destruct (ensure_utc t); simpl in E; by simplify_eq.
Qed.

Lemma run_reach_shape r : run_reach r -> run_shape r.
Proof. apply reach_invariant; [apply run_init_shape | apply run_exec_shape]. Qed.

(** ** Properties *)

(** C29: every Run object reachable from its constructor by any sequence of
    method calls (failing ones included) satisfies the database CHECK on wait
    markers, is started exactly when its status says so, carries an end
    timestamp exactly when terminal (never before its start or creation), and
    carries a failure exactly when failed. *)
Theorem run_reachable_inv r : run_reach r -> run_inv r.
Proof. intros H. by apply run_shape_inv, run_reach_shape. Qed.

Definition ex_run_id : RunId := mkId (u "11111111-1111-4111-8111-111111111111").
Definition ex_task_id : TaskId := mkId (u "22222222-2222-4222-8222-222222222222").
Definition ex_approval_id : ApprovalRequestId := mkId (u "33333333-3333-4333-8333-333333333333").
Definition ex_run : Run :=
  mkRun ex_run_id ex_task_id ex_run_id RQUEUED 10 None None None None None None.

Lemma run_reachable_inv_witness :
  run_inv (snd (run_exec (RunCancel (utc 40))
    (snd (run_exec (RunWaitForApproval (utc 30) ex_approval_id)
      (snd (run_exec (RunStart (utc 20)) ex_run)))))).
Proof.
  apply run_reachable_inv. do 3 apply reach_op. apply reach_init.
  exists ex_run_id, ex_task_id, (utc 10), None. reflexivity.
Defined.

(** C30: a method that raises leaves the Run exactly as it was, a terminal Run
    rejects every method with [InvalidStateTransition], and a successful
    method moves along [run_edge], the status graph the guards of [run.py] allow, and
    keeps id, task, execution lineage and creation time.  That graph has the edges of
    docs/architecture/domain-model.md and more: waiting for a delegation or a workflow,
    with the ways back and out, cancelling included. *)
Theorem run_methods_atomic o r :
  match run_exec o r with
  | (Ok _, r') =>
      run_edge (run_status r) (run_status r') = true /\ run_id r' = run_id r /\
      run_task_id r' = run_task_id r /\ run_execution_id r' = run_execution_id r /\
      run_created_at r' = run_created_at r /\ run_terminal (run_status r) = false
  | (Raise e, r') => r' = r /\
      (run_terminal (run_status r) = true ->
       exists target, e = InvalidStateTransition "Run" (run_status_value (run_status r)) target)
  end.
Proof.
  pose proof (run_exec_identity o r) as Hid. pose proof (run_exec_terminal o r) as Ht.
  destruct (run_exec o r) as [[[]|e] r'] eqn:E; simpl in Hid.
  - pose proof (run_exec_edge _ _ _ E). destruct_and!. repeat split; try done.
    destruct (run_terminal _); [|done]. destruct (Ht eq_refl) as [? ?]. simplify_eq.
  - split; [by eapply run_exec_raise|]. intros H. destruct (Ht H) as [tg ?]. simplify_eq. eauto.
Qed.
