(* ===== verification/TaskEntity.v ===== *)
(** * The [Task] entity

    [src/friday/domain/task.py]: a user-level requested outcome.  Proved: the
    title is stored trimmed and non-empty, the timestamp and the failure that
    are set are exactly those the status calls for, and a completed, failed or
    cancelled task is frozen. *)

From S2P Require Import Prelude Values.

Open Scope Z_scope.

Inductive TaskStatus : Type := TPENDING | TACTIVE | TCOMPLETED | TFAILED | TCANCELLED.
#[global] Instance TaskStatus_eq_dec : EqDecision TaskStatus.
Proof. solve_decision. Defined.

Definition task_status_value (s : TaskStatus) : string :=
  match s with
  | TPENDING => "pending" | TACTIVE => "active" | TCOMPLETED => "completed"
  | TFAILED => "failed" | TCANCELLED => "cancelled"
  end.

Definition TERMINAL_TASK_STATUSES : list TaskStatus := [TCOMPLETED; TFAILED; TCANCELLED].
Definition task_terminal (s : TaskStatus) : bool := bool_decide (s ∈ TERMINAL_TASK_STATUSES).

Record Task : Type := mkTask {
  task_id : TaskId; task_title : str; task_description : str; task_status : TaskStatus;
  task_created_at : Z; task_started_at : option Z; task_completed_at : option Z;
  task_failed_at : option Z; task_cancelled_at : option Z; task_failure : option Failure }.

Definition set_task_status (v : TaskStatus) (x : Task) : Task :=
  mkTask (task_id x) (task_title x) (task_description x) v (task_created_at x)
    (task_started_at x) (task_completed_at x) (task_failed_at x) (task_cancelled_at x)
    (task_failure x).
Definition set_task_started_at (v : option Z) (x : Task) : Task :=
  mkTask (task_id x) (task_title x) (task_description x) (task_status x) (task_created_at
    x) v (task_completed_at x) (task_failed_at x) (task_cancelled_at x) (task_failure x).
Definition set_task_completed_at (v : option Z) (x : Task) : Task :=
  mkTask (task_id x) (task_title x) (task_description x) (task_status x) (task_created_at
    x) (task_started_at x) v (task_failed_at x) (task_cancelled_at x) (task_failure x).
Definition set_task_failed_at (v : option Z) (x : Task) : Task :=
  mkTask (task_id x) (task_title x) (task_description x) (task_status x) (task_created_at
    x) (task_started_at x) (task_completed_at x) v (task_cancelled_at x) (task_failure x).
Definition set_task_cancelled_at (v : option Z) (x : Task) : Task :=
  mkTask (task_id x) (task_title x) (task_description x) (task_status x) (task_created_at
    x) (task_started_at x) (task_completed_at x) (task_failed_at x) v (task_failure x).
Definition set_task_failure (v : option Failure) (x : Task) : Task :=
  mkTask (task_id x) (task_title x) (task_description x) (task_status x) (task_created_at
    x) (task_started_at x) (task_completed_at x) (task_failed_at x) (task_cancelled_at x) v.

Definition Task_new (id : TaskId) (title description : str) (created_at : datetime) : res Task :=
  let normalized_title := strip title in
  if empty_str normalized_title
  then Raise (DomainValidationError "Task.title must not be empty after trimming")
  else res_bind (ensure_utc created_at) (fun t =>
    Ok (mkTask id normalized_title (strip description) TPENDING t None None None None None)).

Definition task_require_status (allowed : list TaskStatus) (target : TaskStatus) : M Task unit :=
  st <- gets task_status ;;
  raise_if (negb (bool_decide (st ∈ allowed)))
    (InvalidStateTransition "Task" (task_status_value st) (task_status_value target)).

Definition task_start (at_ : datetime) : M Task unit :=
  task_require_status [TPENDING] TACTIVE ;;;
  t <- lift (ensure_utc at_) ;;
  modify (set_task_started_at (Some t)) ;;;
  modify (set_task_status TACTIVE).

Definition task_complete (at_ : datetime) : M Task unit :=
  task_require_status [TACTIVE] TCOMPLETED ;;;
  t <- lift (ensure_utc at_) ;;
  modify (set_task_completed_at (Some t)) ;;;
  modify (set_task_status TCOMPLETED).

Definition task_fail (at_ : datetime) (failure : Failure) : M Task unit :=
  task_require_status [TACTIVE] TFAILED ;;;
  t <- lift (ensure_utc at_) ;;
  modify (set_task_failed_at (Some t)) ;;;
  modify (set_task_failure (Some failure)) ;;;
  modify (set_task_status TFAILED).

Definition task_cancel (at_ : datetime) : M Task unit :=
  task_require_status [TPENDING; TACTIVE] TCANCELLED ;;;
  t <- lift (ensure_utc at_) ;;
  modify (set_task_cancelled_at (Some t)) ;;;
  modify (set_task_status TCANCELLED).

(** ** The state machine *)
Inductive task_op : Type :=
| TaskStart (at_ : datetime) | TaskComplete (at_ : datetime)
| TaskFail (at_ : datetime) (f : Failure) | TaskCancel (at_ : datetime).

Definition task_exec (o : task_op) : M Task unit :=
  match o with
  | TaskStart t => task_start t
  | TaskComplete t => task_complete t
  | TaskFail t f => task_fail t f
  | TaskCancel t => task_cancel t
  end.

Definition task_init (x : Task) : Prop :=
  exists id title descr t, Task_new id title descr t = Ok x.
Definition task_reach : Task -> Prop := reach task_init task_exec.

Ltac task_cases :=
  cbv [task_exec task_start task_complete task_fail task_cancel task_require_status
       bind gets modify lift raise_if ret raise];
  cbn [task_status task_id task_title task_description task_created_at task_started_at
       task_completed_at task_failed_at task_cancelled_at task_failure fst snd negb
       set_task_status set_task_started_at set_task_completed_at set_task_failed_at
       set_task_cancelled_at set_task_failure].
Ltac task_split :=
  closed_tests; cbn [negb];
  repeat (split_match; cbn [negb andb orb] in *; simplify_eq); intros; simplify_eq.

Lemma task_exec_raise o x e x' : task_exec o x = (Raise e, x') -> x' = x.
Proof.
  destruct x as [? ? ? s ? ? ? ? ? ?]. destruct o, s; task_cases; task_split; done.
Qed.

Lemma task_exec_terminal o x :
  task_terminal (task_status x) = true ->
  exists target, task_exec o x =
    (Raise (InvalidStateTransition "Task" (task_status_value (task_status x)) target), x).
Proof.
  destruct x as [? ? ? s ? ? ? ? ? ?]; cbn [task_status].
  destruct s; intros Ht; try done; destruct o; task_cases; closed_tests; cbn [negb];
    eexists; reflexivity.
Qed.

Lemma task_exec_identity o x :
  let x' := snd (task_exec o x) in
  task_id x' = task_id x /\ task_created_at x' = task_created_at x.
Proof.
  destruct x as [? ? ? s ? ? ? ? ? ?]. destruct o, s; task_cases; task_split; done.
Qed.

(** Which optional fields a status fills in. *)
Definition task_shape (x : Task) : Prop :=
  let row st c f x' fl :=
    not_none (task_started_at x) = st /\ not_none (task_completed_at x) = c /\
    not_none (task_failed_at x) = f /\ not_none (task_cancelled_at x) = x' /\
    not_none (task_failure x) = fl in
  strip (task_title x) = task_title x /\ task_title x <> [] /\
  match task_status x with
  | TPENDING => row false false false false false
  | TACTIVE => row true false false false false
  | TCOMPLETED => row true true false false false
  | TFAILED => row true false true false true
  | TCANCELLED => row (not_none (task_started_at x)) false false true false
  end.

Lemma task_exec_shape o x : task_shape x -> task_shape (snd (task_exec o x)).
Proof.
  destruct (task_exec o x) as [[[]|e] x'] eqn:E; simpl;
    [|by rewrite (task_exec_raise _ _ _ _ E)].
  revert E. unfold task_shape at 1.
  destruct x as [? ? ? s ? ? ? ? ? ?]; cbn [task_status]; intros E (Ht & Hn & Hs).
  destruct s; cbn in Hs; destruct_and?; destruct o; revert E; task_cases; task_split;
    unfold task_shape; cbn in *; repeat split; done.
Qed.

Lemma task_init_shape x : task_init x -> task_shape x.
Proof.
  intros (id & title & descr & t & E). unfold Task_new in E.
  destruct (strip title) as [|c l] eqn:Es; simpl in E; [done|].
  destruct (ensure_utc t); simpl in E; simplify_eq.
  repeat split; try done. cbn [task_title]. rewrite <- Es. apply strip_idem.
Qed.

(** ** Properties *)

Lemma task_reach_shape x : task_reach x -> task_shape x.
Proof. revert x. apply reach_invariant; [apply task_init_shape | apply task_exec_shape]. Qed.

(** Every reachable Task has a trimmed, non-empty title and carries exactly
    the timestamps and the failure its status calls for; a completed, failed or
    cancelled Task rejects every method and stays as it is, and a raising method
    never leaves a Task half-updated. *)
Theorem task_lifecycle o x :
  task_reach x ->
  task_shape x /\ (forall e x', task_exec o x = (Raise e, x') -> x' = x) /\
  (task_terminal (task_status x) = true -> snd (task_exec o x) = x /\ fst (task_exec o x) <> Ok tt).
Proof.
  intros H. split; [|split].
  - by apply task_reach_shape.
  - intros e x'. apply task_exec_raise.
  - intros Ht. destruct (task_exec_terminal o x Ht) as [tg ->]. done.
Qed.

Definition ex_task : Task :=
  mkTask (mkId (u "t")) (u "buy milk") (u "") TPENDING 5 None None None None None.

Lemma task_lifecycle_witness :
  task_shape (snd (task_exec (TaskCancel (utc 9)) ex_task)).
Proof.
  apply (task_lifecycle (TaskStart (utc 10))). apply reach_op, reach_init.
  exists (mkId (u "t")), (u "  buy milk "), (u ""), (utc 5). reflexivity.
Defined.
