(* ===== verification/StepEntity.v ===== *)
(** * The [RunStep] entity

    [src/friday/domain/step.py]: an ordered unit of execution within a Run.
    Proved: name and position are valid, a step waits for an approval exactly
    while it names one, it has an end timestamp exactly when terminal, and
    terminal steps are frozen. *)

From S2P Require Import Prelude Values.

Open Scope Z_scope.

Inductive RunStepStatus : Type :=
| SPENDING | SRUNNING | SWAITING_FOR_APPROVAL | SSUCCEEDED | SFAILED | SSKIPPED | SCANCELLED.
#[global] Instance RunStepStatus_eq_dec : EqDecision RunStepStatus.
Proof. solve_decision. Defined.

Definition step_status_value (s : RunStepStatus) : string :=
  match s with
  | SPENDING => "pending" | SRUNNING => "running"
  | SWAITING_FOR_APPROVAL => "waiting_for_approval" | SSUCCEEDED => "succeeded"
  | SFAILED => "failed" | SSKIPPED => "skipped" | SCANCELLED => "cancelled"
  end.

Definition TERMINAL_RUN_STEP_STATUSES : list RunStepStatus :=
  [SSUCCEEDED; SFAILED; SSKIPPED; SCANCELLED].
Definition step_terminal (s : RunStepStatus) : bool :=
  bool_decide (s ∈ TERMINAL_RUN_STEP_STATUSES).

Record RunStep : Type := mkStep {
  step_id : RunStepId; step_run_id : RunId; step_name : str; step_position : Z;
  step_status : RunStepStatus; step_created_at : Z; step_started_at : option Z;
  step_ended_at : option Z; step_failure : option Failure;
  step_approval_request_id : option ApprovalRequestId }.

Definition set_step_status (v : RunStepStatus) (x : RunStep) : RunStep :=
  mkStep (step_id x) (step_run_id x) (step_name x) (step_position x) v (step_created_at x)
    (step_started_at x) (step_ended_at x) (step_failure x) (step_approval_request_id x).
Definition set_step_started_at (v : option Z) (x : RunStep) : RunStep :=
  mkStep (step_id x) (step_run_id x) (step_name x) (step_position x) (step_status x)
    (step_created_at x) v (step_ended_at x) (step_failure x) (step_approval_request_id x).
Definition set_step_ended_at (v : option Z) (x : RunStep) : RunStep :=
  mkStep (step_id x) (step_run_id x) (step_name x) (step_position x) (step_status x)
    (step_created_at x) (step_started_at x) v (step_failure x) (step_approval_request_id x).
Definition set_step_failure (v : option Failure) (x : RunStep) : RunStep :=
  mkStep (step_id x) (step_run_id x) (step_name x) (step_position x) (step_status x)
    (step_created_at x) (step_started_at x) (step_ended_at x) v (step_approval_request_id x).
Definition set_step_approval_request_id (v : option ApprovalRequestId) (x : RunStep) : RunStep :=
  mkStep (step_id x) (step_run_id x) (step_name x) (step_position x) (step_status x)
    (step_created_at x) (step_started_at x) (step_ended_at x) (step_failure x) v.

Definition RunStep_new (id : RunStepId) (run_id : RunId) (name : str) (position : Z)
    (created_at : datetime) : res RunStep :=
  let normalized_name := strip name in
  if empty_str normalized_name
  then Raise (DomainValidationError "RunStep.name must not be empty after trimming")
  else if position <? 0
  then Raise (DomainValidationError "RunStep.position must be non-negative")
  else res_bind (ensure_utc created_at) (fun t =>
    Ok (mkStep id run_id normalized_name position SPENDING t None None None None)).

Definition step_require_status (allowed : list RunStepStatus) (target : RunStepStatus)
    : M RunStep unit :=
  st <- gets step_status ;;
  raise_if (negb (bool_decide (st ∈ allowed)))
    (InvalidStateTransition "RunStep" (step_status_value st) (step_status_value target)).

Definition step_start (at_ : datetime) : M RunStep unit :=
  step_require_status [SPENDING] SRUNNING ;;;
  t <- lift (ensure_utc at_) ;;
  modify (set_step_started_at (Some t)) ;;;
  modify (set_step_status SRUNNING).

Definition step_wait_for_approval (at_ : datetime) (a : ApprovalRequestId) : M RunStep unit :=
  step_require_status [SRUNNING] SWAITING_FOR_APPROVAL ;;;
  lift (ensure_utc at_) ;;;
  modify (set_step_approval_request_id (Some a)) ;;;
  modify (set_step_status SWAITING_FOR_APPROVAL).

Definition step_resume (at_ : datetime) : M RunStep unit :=
  step_require_status [SWAITING_FOR_APPROVAL] SRUNNING ;;;
  lift (ensure_utc at_) ;;;
  modify (set_step_approval_request_id None) ;;;
  modify (set_step_status SRUNNING).

Definition step_validated_end (at_ : datetime) : M RunStep Z :=
  end_ <- lift (ensure_utc at_) ;;
  reference <- gets (fun x => default (step_created_at x) (step_started_at x)) ;;
  raise_if (end_ <? reference)
    (DomainValidationError "RunStep end timestamp precedes its start/creation time") ;;;
  ret end_.

Definition step_succeed (at_ : datetime) : M RunStep unit :=
  step_require_status [SRUNNING] SSUCCEEDED ;;;
  t <- step_validated_end at_ ;;
  modify (set_step_ended_at (Some t)) ;;;
  modify (set_step_status SSUCCEEDED).

Definition step_fail (at_ : datetime) (failure : Failure) : M RunStep unit :=
  step_require_status [SRUNNING] SFAILED ;;;
  t <- step_validated_end at_ ;;
  modify (set_step_ended_at (Some t)) ;;;
  modify (set_step_failure (Some failure)) ;;;
  modify (set_step_status SFAILED).

Definition step_skip (at_ : datetime) : M RunStep unit :=
  step_require_status [SPENDING] SSKIPPED ;;;
  t <- step_validated_end at_ ;;
  modify (set_step_ended_at (Some t)) ;;;
  modify (set_step_status SSKIPPED).

Definition step_cancel (at_ : datetime) : M RunStep unit :=
  step_require_status [SPENDING; SRUNNING; SWAITING_FOR_APPROVAL] SCANCELLED ;;;
  t <- step_validated_end at_ ;;
  modify (set_step_ended_at (Some t)) ;;;
  modify (set_step_approval_request_id None) ;;;
  modify (set_step_status SCANCELLED).

(** ** The state machine *)
Inductive step_op : Type :=
| StepStart (at_ : datetime) | StepWaitForApproval (at_ : datetime) (a : ApprovalRequestId)
| StepResume (at_ : datetime) | StepSucceed (at_ : datetime)
| StepFail (at_ : datetime) (f : Failure) | StepSkip (at_ : datetime) | StepCancel (at_ : datetime).

Definition step_exec (o : step_op) : M RunStep unit :=
  match o with
  | StepStart t => step_start t
  | StepWaitForApproval t a => step_wait_for_approval t a
  | StepResume t => step_resume t
  | StepSucceed t => step_succeed t
  | StepFail t f => step_fail t f
  | StepSkip t => step_skip t
  | StepCancel t => step_cancel t
  end.

Definition step_init (x : RunStep) : Prop :=
  exists id run_id name pos t, RunStep_new id run_id name pos t = Ok x.
Definition step_reach : RunStep -> Prop := reach step_init step_exec.

Ltac step_cases :=
  cbv [step_exec step_start step_wait_for_approval step_resume step_succeed step_fail step_skip
       step_cancel step_validated_end step_require_status bind gets modify lift raise_if ret raise];
  cbn [step_status step_id step_run_id step_name step_position step_created_at step_started_at
       step_ended_at step_failure step_approval_request_id fst snd negb default from_option id
       set_step_status set_step_started_at set_step_ended_at set_step_failure
       set_step_approval_request_id].
Ltac step_split :=
  closed_tests; cbn [negb];
  repeat (split_match; cbn [negb andb orb] in *; simplify_eq); intros; simplify_eq.

Lemma step_exec_raise o x e x' : step_exec o x = (Raise e, x') -> x' = x.
Proof.
  destruct x as [? ? ? ? s ? ? ? ? ?]. destruct o, s; step_cases; step_split; done.
Qed.

Lemma step_exec_terminal o x :
  step_terminal (step_status x) = true ->
  exists target, step_exec o x =
    (Raise (InvalidStateTransition "RunStep" (step_status_value (step_status x)) target), x).
Proof.
  destruct x as [? ? ? ? s ? ? ? ? ?]; cbn [step_status].
  destruct s; intros Ht; try done; destruct o; step_cases; closed_tests; cbn [negb];
    eexists; reflexivity.
Qed.

Lemma step_exec_identity o x :
  let x' := snd (step_exec o x) in
  step_id x' = step_id x /\ step_run_id x' = step_run_id x /\
  step_position x' = step_position x /\ step_created_at x' = step_created_at x.
Proof.
  destruct x as [? ? ? ? s ? ? ? ? ?]. destruct o, s; step_cases; step_split; done.
Qed.

Definition step_shape (x : RunStep) : Prop :=
  let row st e f a :=
    not_none (step_started_at x) = st /\ not_none (step_ended_at x) = e /\
    not_none (step_failure x) = f /\ not_none (step_approval_request_id x) = a in
  strip (step_name x) = step_name x /\ step_name x <> [] /\ 0 <= step_position x /\
  match step_status x with
  | SPENDING => row false false false false
  | SRUNNING => row true false false false
  | SWAITING_FOR_APPROVAL => row true false false true
  | SSUCCEEDED => row true true false false
  | SFAILED => row true true true false
  | SSKIPPED => row false true false false
  | SCANCELLED => row (not_none (step_started_at x)) true false false
  end /\
  match step_ended_at x with
  | Some e => default (step_created_at x) (step_started_at x) <= e
  | None => True
  end.

Lemma step_exec_shape o x : step_shape x -> step_shape (snd (step_exec o x)).
Proof.
  destruct (step_exec o x) as [[[]|e] x'] eqn:E; simpl;
    [|by rewrite (step_exec_raise _ _ _ _ E)].
  revert E. unfold step_shape at 1.
  destruct x as [? ? ? ? s ? ? en ? ?]; cbn [step_status]; intros E (Ht & Hn & Hp & Hs & Ho).
  destruct s; cbn in Hs; destruct_and?; destruct o; revert E; step_cases; step_split;
    unfold step_shape; cbn in *; repeat split; first [done | lia | by destruct en].
Qed.

Lemma step_init_shape x : step_init x -> step_shape x.
Proof.
  intros (id & rid & name & pos & t & E). unfold RunStep_new in E.
  destruct (strip name) as [|c l] eqn:Es; simpl in E; [done|].
  destruct (Z.ltb_spec pos 0); [done|].
  destruct (ensure_utc t); simpl in E; simplify_eq.
  repeat split; try done. cbn [step_name]. rewrite <- Es. apply strip_idem.
Qed.

Lemma step_reach_shape x : step_reach x -> step_shape x.
Proof. apply reach_invariant; [apply step_init_shape | apply step_exec_shape]. Qed.

(** ** Properties *)

(** Every reachable RunStep has a trimmed non-empty name and a non-negative
    position, names an approval exactly while it waits for one, has an end
    timestamp exactly when terminal (never before its start or creation) and a
    failure exactly when failed; terminal steps reject every method, and a
    raising method leaves the step as it was. *)
Theorem step_lifecycle o x :
  step_reach x ->
  step_shape x /\ (forall e x', step_exec o x = (Raise e, x') -> x' = x) /\
  (step_terminal (step_status x) = true -> snd (step_exec o x) = x /\ fst (step_exec o x) <> Ok tt).
Proof.
  intros H. split; [by apply step_reach_shape|]. split.
  - intros e x'. apply step_exec_raise.
  - intros Ht. destruct (step_exec_terminal o x Ht) as [tg ->]. done.
Qed.

Definition ex_step : RunStep :=
  mkStep (mkId (u "s")) (mkId (u "r")) (u "plan") 0 SPENDING 5 None None None None.

Lemma step_lifecycle_witness : step_shape (snd (step_exec (StepSkip (utc 9)) ex_step)).
Proof.
  apply (step_lifecycle (StepStart (utc 10))). apply reach_op, reach_init.
  exists (mkId (u "s")), (mkId (u "r")), (u " plan"), 0, (utc 5). reflexivity.
Defined.
