(* ===== verification/ToolEntity.v ===== *)
(** * The [ToolInvocation] entity

    [src/friday/domain/tool.py]: one attempt to invoke a tool, metadata only.
    [succeed] assigns [_completed_at] before it validates the output, so an
    output that is not JSON leaves a RUNNING invocation with a completion
    time; the model keeps that behaviour and the theorems say exactly what a
    raising method can leave behind. *)

From S2P Require Import Prelude Values.

Open Scope Z_scope.

Inductive ToolInvocationStatus : Type := IREQUESTED | IRUNNING | ISUCCEEDED | IFAILED | ICANCELLED.
#[global] Instance ToolInvocationStatus_eq_dec : EqDecision ToolInvocationStatus.
Proof. solve_decision. Defined.

Definition tool_status_value (s : ToolInvocationStatus) : string :=
  match s with
  | IREQUESTED => "requested" | IRUNNING => "running" | ISUCCEEDED => "succeeded"
  | IFAILED => "failed" | ICANCELLED => "cancelled"
  end.

Definition TERMINAL_TOOL_INVOCATION_STATUSES : list ToolInvocationStatus :=
  [ISUCCEEDED; IFAILED; ICANCELLED].
Definition tool_terminal (s : ToolInvocationStatus) : bool :=
  bool_decide (s ∈ TERMINAL_TOOL_INVOCATION_STATUSES).

Record ToolInvocation : Type := mkTool {
  tool_id : ToolInvocationId; tool_run_id : RunId; tool_tool_name : str;
  tool_requested_input : json; tool_status : ToolInvocationStatus; tool_requested_at : Z;
  tool_step_id : option RunStepId; tool_approval_request_id : option ApprovalRequestId;
  tool_started_at : option Z; tool_completed_at : option Z; tool_output : json;
  tool_output_set : bool; tool_failure : option Failure;
  tool_provenance : option ToolProvenance }.

Definition set_tool_status (v : ToolInvocationStatus) (x : ToolInvocation) : ToolInvocation :=
  mkTool (tool_id x) (tool_run_id x) (tool_tool_name x) (tool_requested_input x) v
    (tool_requested_at x) (tool_step_id x) (tool_approval_request_id x) (tool_started_at x)
    (tool_completed_at x) (tool_output x) (tool_output_set x) (tool_failure x)
    (tool_provenance x).
Definition set_tool_started_at (v : option Z) (x : ToolInvocation) : ToolInvocation :=
  mkTool (tool_id x) (tool_run_id x) (tool_tool_name x) (tool_requested_input x)
    (tool_status x) (tool_requested_at x) (tool_step_id x) (tool_approval_request_id x) v
    (tool_completed_at x) (tool_output x) (tool_output_set x) (tool_failure x)
    (tool_provenance x).
Definition set_tool_completed_at (v : option Z) (x : ToolInvocation) : ToolInvocation :=
  mkTool (tool_id x) (tool_run_id x) (tool_tool_name x) (tool_requested_input x)
    (tool_status x) (tool_requested_at x) (tool_step_id x) (tool_approval_request_id x)
    (tool_started_at x) v (tool_output x) (tool_output_set x) (tool_failure x)
    (tool_provenance x).
Definition set_tool_output (v : json) (x : ToolInvocation) : ToolInvocation :=
  mkTool (tool_id x) (tool_run_id x) (tool_tool_name x) (tool_requested_input x)
    (tool_status x) (tool_requested_at x) (tool_step_id x) (tool_approval_request_id x)
    (tool_started_at x) (tool_completed_at x) v (tool_output_set x) (tool_failure x)
    (tool_provenance x).
Definition set_tool_output_set (v : bool) (x : ToolInvocation) : ToolInvocation :=
  mkTool (tool_id x) (tool_run_id x) (tool_tool_name x) (tool_requested_input x)
    (tool_status x) (tool_requested_at x) (tool_step_id x) (tool_approval_request_id x)
    (tool_started_at x) (tool_completed_at x) (tool_output x) v (tool_failure x)
    (tool_provenance x).
Definition set_tool_failure (v : option Failure) (x : ToolInvocation) : ToolInvocation :=
  mkTool (tool_id x) (tool_run_id x) (tool_tool_name x) (tool_requested_input x)
    (tool_status x) (tool_requested_at x) (tool_step_id x) (tool_approval_request_id x)
    (tool_started_at x) (tool_completed_at x) (tool_output x) (tool_output_set x) v
    (tool_provenance x).

Definition ToolInvocation_new (id : ToolInvocationId) (run_id : RunId) (tool_name : str)
    (requested_input : pyval) (requested_at : datetime) (step_id : option RunStepId)
    (approval_request_id : option ApprovalRequestId) (provenance : option ToolProvenance)
    : res ToolInvocation :=
  let normalized_name := strip tool_name in
  if empty_str normalized_name
  then Raise (DomainValidationError "ToolInvocation.tool_name must not be empty")
  else res_bind (ensure_json_value requested_input) (fun input =>
       res_bind (ensure_utc requested_at) (fun t =>
    Ok (mkTool id run_id normalized_name input IREQUESTED t step_id approval_request_id
          None None JNull false None provenance))).

Definition tool_require_status (allowed : list ToolInvocationStatus)
    (target : ToolInvocationStatus) : M ToolInvocation unit :=
  st <- gets tool_status ;;
  raise_if (negb (bool_decide (st ∈ allowed)))
    (InvalidStateTransition "ToolInvocation" (tool_status_value st) (tool_status_value target)).

Definition tool_start (at_ : datetime) : M ToolInvocation unit :=
  tool_require_status [IREQUESTED] IRUNNING ;;;
  t <- lift (ensure_utc at_) ;;
  modify (set_tool_started_at (Some t)) ;;;
  modify (set_tool_status IRUNNING).

Definition tool_validated_end (at_ : datetime) : M ToolInvocation Z :=
  end_ <- lift (ensure_utc at_) ;;
  reference <- gets (fun x => default (tool_requested_at x) (tool_started_at x)) ;;
  raise_if (end_ <? reference)
    (DomainValidationError "ToolInvocation end timestamp precedes its start/request time") ;;;
  ret end_.

(** [output = None] stands for the [_UNSET] sentinel. *)
Definition tool_succeed (at_ : datetime) (output : option pyval) : M ToolInvocation unit :=
  tool_require_status [IRUNNING] ISUCCEEDED ;;;
  out <- need output (DomainValidationError
           "ToolInvocation.succeed requires an explicit output (None is a valid output)") ;;
  t <- tool_validated_end at_ ;;
  modify (set_tool_completed_at (Some t)) ;;;
  j <- lift (ensure_json_value out) ;;
  modify (set_tool_output j) ;;;
  modify (set_tool_output_set true) ;;;
  modify (set_tool_status ISUCCEEDED).

Definition tool_fail (at_ : datetime) (failure : Failure) : M ToolInvocation unit :=
  tool_require_status [IRUNNING] IFAILED ;;;
  t <- tool_validated_end at_ ;;
  modify (set_tool_completed_at (Some t)) ;;;
  modify (set_tool_failure (Some failure)) ;;;
  modify (set_tool_status IFAILED).

Definition tool_cancel (at_ : datetime) : M ToolInvocation unit :=
  tool_require_status [IREQUESTED; IRUNNING] ICANCELLED ;;;
  t <- tool_validated_end at_ ;;
  modify (set_tool_completed_at (Some t)) ;;;
  modify (set_tool_status ICANCELLED).

(** ** The state machine *)
Inductive tool_op : Type :=
| ToolStart (at_ : datetime) | ToolSucceed (at_ : datetime) (output : option pyval)
| ToolFail (at_ : datetime) (f : Failure) | ToolCancel (at_ : datetime).

Definition tool_exec (o : tool_op) : M ToolInvocation unit :=
  match o with
  | ToolStart t => tool_start t
  | ToolSucceed t out => tool_succeed t out
  | ToolFail t f => tool_fail t f
  | ToolCancel t => tool_cancel t
  end.

Definition tool_init (x : ToolInvocation) : Prop :=
  exists id run_id name input t step appr prov,
    ToolInvocation_new id run_id name input t step appr prov = Ok x.
Definition tool_reach : ToolInvocation -> Prop := reach tool_init tool_exec.

Ltac tool_cases :=
  cbv [tool_exec tool_start tool_succeed tool_fail tool_cancel tool_validated_end
       tool_require_status need bind gets modify lift raise_if ret raise];
  cbn [tool_status tool_id tool_run_id tool_tool_name tool_requested_input tool_requested_at
       tool_step_id tool_approval_request_id tool_started_at tool_completed_at tool_output
       tool_output_set tool_failure tool_provenance fst snd negb default from_option id
       set_tool_status set_tool_started_at set_tool_completed_at set_tool_output
       set_tool_output_set set_tool_failure].
Ltac tool_split :=
  closed_tests; cbn [negb];
  repeat (split_match; cbn [negb andb orb] in *; simplify_eq); intros; simplify_eq.

(** What a raising method may have assigned: the completion time, by [succeed] on a
    running invocation, when the time is accepted and the output is no JSON. *)
Definition half_succeeded (o : tool_op) (x : ToolInvocation) (e : exn) (x' : ToolInvocation) : Prop :=
  tool_status x = IRUNNING /\ exists at_ out t,
    o = ToolSucceed at_ (Some out) /\ ensure_utc at_ = Ok t /\
    default (tool_requested_at x) (tool_started_at x) <= t /\ ensure_json_value out = Raise e /\
    x' = set_tool_completed_at (Some t) x.
Lemma tool_exec_raise o x e x' :
  tool_exec o x = (Raise e, x') -> x' = x \/ half_succeeded o x e x'.
Proof.
  unfold half_succeeded. destruct x as [? ? ? ? s ? ? ? ? ? ? ? ? ?]. destruct o, s; tool_cases; tool_split;
    try by left. right. split; [done|]. eexists at_, _, _. split_and!; [done|done|by apply Z.ltb_ge|done|done].
Qed.

Lemma tool_exec_terminal o x :
  tool_terminal (tool_status x) = true ->
  exists target, tool_exec o x =
    (Raise (InvalidStateTransition "ToolInvocation" (tool_status_value (tool_status x)) target), x).
Proof.
  destruct x as [? ? ? ? s ? ? ? ? ? ? ? ? ?]; cbn [tool_status].
  destruct s; intros Ht; try done; destruct o; tool_cases; closed_tests; cbn [negb];
    eexists; reflexivity.
Qed.

(** Everything that identifies and authorises the call is immutable. *)
Lemma tool_exec_identity o x :
  let x' := snd (tool_exec o x) in
  tool_id x' = tool_id x /\ tool_run_id x' = tool_run_id x /\ tool_step_id x' = tool_step_id x /\
  tool_tool_name x' = tool_tool_name x /\ tool_requested_input x' = tool_requested_input x /\
  tool_requested_at x' = tool_requested_at x /\
  tool_approval_request_id x' = tool_approval_request_id x /\ tool_provenance x' = tool_provenance x.
Proof.
  destruct x as [? ? ? ? s ? ? ? ? ? ? ? ? ?]. destruct o, s; tool_cases; tool_split; done.
Qed.

Definition tool_shape (x : ToolInvocation) : Prop :=
  let row st o f :=
    not_none (tool_started_at x) = st /\ tool_output_set x = o /\ not_none (tool_failure x) = f in
  strip (tool_tool_name x) = tool_tool_name x /\ tool_tool_name x <> [] /\
  match tool_status x with
  | IREQUESTED => row false false false
  | IRUNNING => row true false false
  | ISUCCEEDED => row true true false /\ not_none (tool_completed_at x) = true
  | IFAILED => row true false true /\ not_none (tool_completed_at x) = true
  | ICANCELLED => row (not_none (tool_started_at x)) false false /\
                  not_none (tool_completed_at x) = true
  end /\
  (tool_output_set x = false -> tool_output x = JNull) /\
  match tool_completed_at x with
  | Some e => default (tool_requested_at x) (tool_started_at x) <= e /\ tool_status x <> IREQUESTED
  | None => True
  end.

Lemma tool_exec_shape o x : tool_shape x -> tool_shape (snd (tool_exec o x)).
Proof.
  unfold tool_shape at 1.
  destruct x as [? ? ? ? s ? ? ? ? en ? ? ? ?]; cbn [tool_status]; intros (Ht & Hn & Hs & Hu & Ho).
  destruct s; cbn in Hs; destruct_and?; destruct o; tool_cases; tool_split;
    unfold tool_shape; cbn in *; repeat split; 
      first [done | tauto | lia | destruct en; simplify_eq; tauto].
Qed.

Lemma tool_init_shape x : tool_init x -> tool_shape x.
Proof.
  intros (id & rid & name & input & t & step & appr & prov & E). unfold ToolInvocation_new in E.
  destruct (strip name) as [|c l] eqn:Es; simpl in E; [done|].
  destruct (ensure_json_value input); simpl in E; [|done].
  destruct (ensure_utc t); simpl in E; simplify_eq.
  repeat split; try done. cbn [tool_tool_name]. rewrite <- Es. apply strip_idem.
Qed.

Lemma tool_reach_shape x : tool_reach x -> tool_shape x.
Proof. apply reach_invariant; [apply tool_init_shape | apply tool_exec_shape]. Qed.

(** ** Properties *)

(** C37: every reachable ToolInvocation records an output exactly when it
    succeeded and a failure exactly when it failed, a terminal one is completed
    no earlier than its start (or request) and rejects every further method; a
    raising method changes nothing, but for [succeed] on a running invocation with an
    acceptable time and an output that is not JSON, which leaves the completion time
    assigned; the tool name, the input, the run, the
    approval that authorised it and the external target never change. *)
Theorem tool_lifecycle o x :
  tool_reach x ->
  tool_shape x /\
  (tool_terminal (tool_status x) = true -> snd (tool_exec o x) = x /\ fst (tool_exec o x) <> Ok tt) /\
  (forall e x', tool_exec o x = (Raise e, x') ->
     x' = x \/ half_succeeded o x e x') /\
  let x' := snd (tool_exec o x) in
  tool_id x' = tool_id x /\ tool_run_id x' = tool_run_id x /\ tool_step_id x' = tool_step_id x /\
  tool_tool_name x' = tool_tool_name x /\ tool_requested_input x' = tool_requested_input x /\
  tool_requested_at x' = tool_requested_at x /\
  tool_approval_request_id x' = tool_approval_request_id x /\ tool_provenance x' = tool_provenance x.
Proof.
  intros H. split; [by apply tool_reach_shape|]. split; [|split].
  - intros Ht. destruct (tool_exec_terminal o x Ht) as [tg ->]. done.
  - intros e x'. apply tool_exec_raise.
  - apply tool_exec_identity.
Qed.

Definition ex_tool : ToolInvocation :=
  mkTool (mkId (u "i")) (mkId (u "r")) (u "workspace.read_text") (JDict []) IREQUESTED 5
    None None None None JNull false None None.

Lemma tool_lifecycle_witness :
  tool_shape (snd (tool_exec (ToolSucceed (utc 9) (Some (PyOther "datetime")))
    (snd (tool_exec (ToolStart (utc 6)) ex_tool)))).
Proof.
  apply (tool_lifecycle (ToolCancel (utc 10))). do 2 apply reach_op. apply reach_init.
  exists (mkId (u "i")), (mkId (u "r")), (u "workspace.read_text"), (PyDict []), (utc 5), None, None, None.
  reflexivity.
Defined.
