(* ===== verification/ApprovalEntity.v ===== *)
(** * The [ApprovalRequest] entity

    [src/friday/domain/approval.py]: a request for human authorisation.
    Proved over arbitrary histories: a request is resolved at most once, and
    it is consumed at most once and only after it was approved, which is the
    one-shot guarantee protected tool execution rests on. *)

From S2P Require Import Prelude Values.

Open Scope Z_scope.

Inductive ApprovalStatus : Type := APENDING | AAPPROVED | AREJECTED | ACANCELLED | AEXPIRED.
#[global] Instance ApprovalStatus_eq_dec : EqDecision ApprovalStatus.
Proof. solve_decision. Defined.

Definition approval_status_value (s : ApprovalStatus) : string :=
  match s with
  | APENDING => "pending" | AAPPROVED => "approved" | AREJECTED => "rejected"
  | ACANCELLED => "cancelled" | AEXPIRED => "expired"
  end.

Definition TERMINAL_APPROVAL_STATUSES : list ApprovalStatus :=
  [AAPPROVED; AREJECTED; ACANCELLED; AEXPIRED].
Definition approval_terminal (s : ApprovalStatus) : bool :=
  bool_decide (s ∈ TERMINAL_APPROVAL_STATUSES).

Inductive ApprovalCategory : Type :=
| CAT_TOOL_EXECUTION | CAT_FILESYSTEM_WRITE | CAT_NETWORK_ACCESS | CAT_COMPUTER_USE
| CAT_EXTERNAL_COMMUNICATION | CAT_OTHER.

Definition approval_category_value (c : ApprovalCategory) : string :=
  match c with
  | CAT_TOOL_EXECUTION => "tool_execution" | CAT_FILESYSTEM_WRITE => "filesystem_write"
  | CAT_NETWORK_ACCESS => "network_access" | CAT_COMPUTER_USE => "computer_use"
  | CAT_EXTERNAL_COMMUNICATION => "external_communication" | CAT_OTHER => "other"
  end.

Inductive ApprovalSubjectKind : Type := SUBJ_RUN | SUBJ_SKILL_PROMOTION | SUBJ_SKILL_ROLLBACK.
#[global] Instance ApprovalSubjectKind_eq_dec : EqDecision ApprovalSubjectKind.
Proof. solve_decision. Defined.

Record ApprovalRequest : Type := mkApproval {
  ap_id : ApprovalRequestId; ap_run_id : option RunId; ap_category : ApprovalCategory;
  ap_summary : str; ap_reason : str; ap_requested_action : str; ap_requested_input : json;
  ap_status : ApprovalStatus; ap_requested_at : Z; ap_step_id : option RunStepId;
  ap_expires_at : option Z; ap_resolved_at : option Z; ap_resolution_note : option str;
  ap_resolver : option str; ap_authorization_fingerprint : option str;
  ap_consumed_at : option Z; ap_subject_kind : ApprovalSubjectKind;
  ap_subject_id : option str }.

Definition set_ap_status (v : ApprovalStatus) (x : ApprovalRequest) : ApprovalRequest :=
  mkApproval (ap_id x) (ap_run_id x) (ap_category x) (ap_summary x) (ap_reason x)
    (ap_requested_action x) (ap_requested_input x) v (ap_requested_at x) (ap_step_id x)
    (ap_expires_at x) (ap_resolved_at x) (ap_resolution_note x) (ap_resolver x)
    (ap_authorization_fingerprint x) (ap_consumed_at x) (ap_subject_kind x) (ap_subject_id
    x).
Definition set_ap_resolved_at (v : option Z) (x : ApprovalRequest) : ApprovalRequest :=
  mkApproval (ap_id x) (ap_run_id x) (ap_category x) (ap_summary x) (ap_reason x)
    (ap_requested_action x) (ap_requested_input x) (ap_status x) (ap_requested_at x)
    (ap_step_id x) (ap_expires_at x) v (ap_resolution_note x) (ap_resolver x)
    (ap_authorization_fingerprint x) (ap_consumed_at x) (ap_subject_kind x) (ap_subject_id
    x).
Definition set_ap_resolution_note (v : option str) (x : ApprovalRequest) : ApprovalRequest :=
  mkApproval (ap_id x) (ap_run_id x) (ap_category x) (ap_summary x) (ap_reason x)
    (ap_requested_action x) (ap_requested_input x) (ap_status x) (ap_requested_at x)
    (ap_step_id x) (ap_expires_at x) (ap_resolved_at x) v (ap_resolver x)
    (ap_authorization_fingerprint x) (ap_consumed_at x) (ap_subject_kind x) (ap_subject_id
    x).
Definition set_ap_resolver (v : option str) (x : ApprovalRequest) : ApprovalRequest :=
  mkApproval (ap_id x) (ap_run_id x) (ap_category x) (ap_summary x) (ap_reason x)
    (ap_requested_action x) (ap_requested_input x) (ap_status x) (ap_requested_at x)
    (ap_step_id x) (ap_expires_at x) (ap_resolved_at x) (ap_resolution_note x) v
    (ap_authorization_fingerprint x) (ap_consumed_at x) (ap_subject_kind x) (ap_subject_id
    x).
Definition set_ap_consumed_at (v : option Z) (x : ApprovalRequest) : ApprovalRequest :=
  mkApproval (ap_id x) (ap_run_id x) (ap_category x) (ap_summary x) (ap_reason x)
    (ap_requested_action x) (ap_requested_input x) (ap_status x) (ap_requested_at x)
    (ap_step_id x) (ap_expires_at x) (ap_resolved_at x) (ap_resolution_note x) (ap_resolver
    x) (ap_authorization_fingerprint x) v (ap_subject_kind x) (ap_subject_id x).

(** [not subject_id]: absent or empty. *)
Definition falsy_str (s : option str) : bool :=
  match s with Some (_ :: _) => false | _ => true end.

Definition ensure_utc_opt (o : option datetime) : res (option Z) :=
  match o with
  | Some d => res_bind (ensure_utc d) (fun t => Ok (Some t))
  | None => Ok None
  end.

Definition ApprovalRequest_new (id : ApprovalRequestId) (run_id : option RunId)
    (category : ApprovalCategory) (summary reason requested_action : str)
    (requested_input : pyval) (requested_at : datetime) (step_id : option RunStepId)
    (expires_at : option datetime) (authorization_fingerprint : option str)
    (subject_kind : ApprovalSubjectKind) (subject_id : option str) : res ApprovalRequest :=
  let normalized_summary := strip summary in
  let normalized_action := strip requested_action in
  if empty_str normalized_summary
  then Raise (DomainValidationError "ApprovalRequest.summary must not be empty")
  else if empty_str normalized_action
  then Raise (DomainValidationError "ApprovalRequest.requested_action must not be empty")
  else if match authorization_fingerprint with
          | Some f => negb (is_sha256_hex f) | None => false end
  then Raise (DomainValidationError
    "ApprovalRequest.authorization_fingerprint must be 64 lowercase hex characters")
  else if negb (not_none run_id)
          && (bool_decide (subject_kind = SUBJ_RUN) || falsy_str subject_id)
  then Raise (DomainValidationError "non-run ApprovalRequest requires a typed subject identity")
  else if not_none run_id && negb (bool_decide (subject_kind = SUBJ_RUN))
  then Raise (DomainValidationError "run ApprovalRequest must use the run subject kind")
  else
  res_bind (ensure_utc_opt expires_at) (fun normalized_expiry =>
  res_bind (match normalized_expiry with
            | Some e => res_bind (ensure_utc requested_at) (fun r =>
                if e <=? r
                then Raise (DomainValidationError
                  "ApprovalRequest.expires_at must be after its requested_at")
                else Ok tt)
            | None => Ok tt
            end) (fun _ =>
  res_bind (ensure_json_value requested_input) (fun input =>
  res_bind (ensure_utc requested_at) (fun t =>
  Ok (mkApproval id run_id category normalized_summary (strip reason) normalized_action input
        APENDING t step_id normalized_expiry None None None authorization_fingerprint None
        subject_kind subject_id))))).

Definition ap_is_consumed (a : ApprovalRequest) : bool := not_none (ap_consumed_at a).

(** ** Methods *)

Definition ap_require_status (allowed : list ApprovalStatus) (target : ApprovalStatus)
    : M ApprovalRequest unit :=
  st <- gets ap_status ;;
  raise_if (negb (bool_decide (st ∈ allowed)))
    (InvalidStateTransition "ApprovalRequest" (approval_status_value st)
       (approval_status_value target)).

Definition ap_resolve (target : ApprovalStatus) (at_ : datetime) (resolver : option str)
    (resolution_note : option str) : M ApprovalRequest unit :=
  ap_require_status [APENDING] target ;;;
  resolver' <- match resolver with
               | Some r =>
                   raise_if (empty_str (strip r))
                     (DomainValidationError "ApprovalRequest.resolver must not be empty") ;;;
                   ret (Some (strip r))
               | None => ret None
               end ;;
  t <- lift (ensure_utc at_) ;;
  modify (set_ap_resolved_at (Some t)) ;;;
  modify (set_ap_resolver resolver') ;;;
  modify (set_ap_resolution_note resolution_note) ;;;
  modify (set_ap_status target).

Definition ap_approve (at_ : datetime) (resolver : str) (note : option str) : M ApprovalRequest unit :=
  ap_resolve AAPPROVED at_ (Some resolver) note.
Definition ap_reject (at_ : datetime) (resolver : str) (note : option str) : M ApprovalRequest unit :=
  ap_resolve AREJECTED at_ (Some resolver) note.
Definition ap_cancel (at_ : datetime) (note : option str) : M ApprovalRequest unit :=
  ap_resolve ACANCELLED at_ None note.
Definition ap_expire (at_ : datetime) : M ApprovalRequest unit :=
  ap_resolve AEXPIRED at_ None None.

Definition ap_consume (at_ : datetime) : M ApprovalRequest unit :=
  st <- gets ap_status ;;
  raise_if (negb (bool_decide (st = AAPPROVED)))
    (InvalidStateTransition "ApprovalRequest" (approval_status_value st) "consumed") ;;;
  c <- gets ap_consumed_at ;;
  raise_if (not_none c) (DomainValidationError "ApprovalRequest is already consumed") ;;;
  t <- lift (ensure_utc at_) ;;
  modify (set_ap_consumed_at (Some t)).

(** ** Histories *)
Inductive ap_op : Type :=
| ApApprove (at_ : datetime) (resolver : str) (note : option str)
| ApReject (at_ : datetime) (resolver : str) (note : option str)
| ApCancel (at_ : datetime) (note : option str)
| ApExpire (at_ : datetime)
| ApConsume (at_ : datetime).

Definition ap_exec (o : ap_op) : M ApprovalRequest unit :=
  match o with
  | ApApprove t r n => ap_approve t r n
  | ApReject t r n => ap_reject t r n
  | ApCancel t n => ap_cancel t n
  | ApExpire t => ap_expire t
  | ApConsume t => ap_consume t
  end.

Definition ap_target (o : ap_op) : option ApprovalStatus :=
  match o with
  | ApApprove _ _ _ => Some AAPPROVED
  | ApReject _ _ _ => Some AREJECTED
  | ApCancel _ _ => Some ACANCELLED
  | ApExpire _ => Some AEXPIRED
  | ApConsume _ => None
  end.

(** The calls of a history that succeed, in order. *)
Definition succeeds {S A} (m : M S A) (s : S) : bool :=
  match fst (m s) with Ok _ => true | Raise _ => false end.

Fixpoint ap_log (ops : list ap_op) (a : ApprovalRequest) : list ap_op :=
  match ops with
  | [] => []
  | o :: r => (if succeeds (ap_exec o) a then [o] else []) ++ ap_log r (snd (ap_exec o a))
  end.

Definition ap_init (a : ApprovalRequest) : Prop :=
  exists id rid cat sm rs ac inp t st ex fp sk si,
    ApprovalRequest_new id rid cat sm rs ac inp t st ex fp sk si = Ok a.

Ltac ap_cases :=
  cbv [ap_exec ap_approve ap_reject ap_cancel ap_expire ap_consume ap_resolve ap_require_status
       bind gets modify lift raise_if ret raise];
  cbn [ap_status ap_id ap_run_id ap_step_id ap_resolved_at ap_resolver ap_resolution_note
       ap_consumed_at ap_authorization_fingerprint not_none negb fst snd
       set_ap_status set_ap_resolved_at set_ap_resolver set_ap_resolution_note set_ap_consumed_at].
Ltac ap_split :=
  closed_tests; cbn [negb];
  repeat (split_match; cbn [negb andb orb fst snd] in *; simplify_eq); intros; simplify_eq.

(** A raising method assigns nothing. *)
Lemma ap_exec_raise o a e a' : ap_exec o a = (Raise e, a') -> a' = a.
Proof.
  destruct a as [? ? ? ? ? ? ? s ? ? ? ? ? ? ? c ? ?]. destruct o, s; ap_cases; ap_split; done.
Qed.

Lemma ap_exec_identity o a :
  let a' := snd (ap_exec o a) in
  ap_id a' = ap_id a /\ ap_run_id a' = ap_run_id a /\ ap_step_id a' = ap_step_id a /\
  ap_authorization_fingerprint a' = ap_authorization_fingerprint a /\
  ap_requested_at a' = ap_requested_at a.
Proof.
  destruct a as [? ? ? ? ? ? ? s ? ? ? ? ? ? ? c ? ?]. destruct o, s; ap_cases; ap_split; done.
Qed.

(** A resolution succeeds only on a pending request and sets its own status;
    consumption succeeds only on an approved, unconsumed one. *)
Lemma ap_exec_ok o a a' :
  ap_exec o a = (Ok tt, a') ->
  match ap_target o with
  | Some tgt => ap_status a = APENDING /\ ap_status a' = tgt /\ ap_consumed_at a' = ap_consumed_at a
  | None => ap_status a = AAPPROVED /\ ap_consumed_at a = None /\
            ap_status a' = AAPPROVED /\ not_none (ap_consumed_at a') = true
  end.
Proof.
  destruct a as [? ? ? ? ? ? ? s ? ? ? ? ? ? ? [c|] ? ?];
    destruct o, s; cbn [ap_target]; ap_cases; ap_split; done.
Qed.

Lemma ap_log_step o r a :
  (exists e, ap_exec o a = (Raise e, a) /\ ap_log (o :: r) a = ap_log r a) \/
  (exists a', ap_exec o a = (Ok tt, a') /\ ap_log (o :: r) a = o :: ap_log r a').
Proof.
  simpl. unfold succeeds. destruct (ap_exec o a) as [[[]|e] a'] eqn:E; simpl.
  - right. eauto.
  - left. exists e. by rewrite (ap_exec_raise _ _ _ _ E).
Qed.

(** Once resolved to anything but an unconsumed approval, nothing succeeds. *)
Lemma ap_log_closed ops a :
  ap_status a <> APENDING -> ap_status a <> AAPPROVED \/ ap_consumed_at a <> None ->
  ap_log ops a = [].
Proof.
  intros Hp Hc. revert a Hp Hc. induction ops as [|o r IH]; intros a Hp Hc; [done|].
  destruct (ap_log_step o r a) as [(e & _ & ->)|(a' & E & ->)]; [auto|].
  apply ap_exec_ok in E. destruct (ap_target o), Hc; destruct_and!; congruence.
Qed.

Lemma ap_log_approved ops a :
  ap_status a = AAPPROVED -> ap_consumed_at a = None ->
  ap_log ops a = [] \/ exists t, ap_log ops a = [ApConsume t].
Proof.
  revert a. induction ops as [|o r IH]; intros a Hp Hc; [by left|].
  destruct (ap_log_step o r a) as [(e & _ & ->)|(a' & E & ->)]; [auto|].
  apply ap_exec_ok in E. destruct o; simpl in E; destruct_and!; try congruence.
  right. eexists. rewrite ap_log_closed; [done|congruence|].
  right. by destruct (ap_consumed_at a').
Qed.

Lemma ap_log_pending ops a :
  ap_status a = APENDING -> ap_consumed_at a = None ->
  ap_log ops a = [] \/
  (exists o s, ap_target o = Some s /\ ap_log ops a = [o]) \/
  (exists t r n t', ap_log ops a = [ApApprove t r n; ApConsume t']).
Proof.
  revert a. induction ops as [|o r IH]; intros a Hp Hc; [by left|].
  destruct (ap_log_step o r a) as [(e & _ & ->)|(a' & E & ->)]; [auto|].
  apply ap_exec_ok in E. right.
  destruct o as [t rs n| | | |]; simpl in E; destruct_and!; try congruence.
  1: destruct (ap_log_approved r a' ltac:(done) ltac:(congruence)) as [->|[t' ->]];
       [left; (eexists _, _; split; [|reflexivity]); reflexivity | right; eauto 10].
  all: left; rewrite ap_log_closed; [(eexists _, _; split; [|reflexivity]); reflexivity | congruence | left; congruence].
Qed.

Lemma ap_init_pending a :
  ap_init a -> ap_status a = APENDING /\ ap_consumed_at a = None /\
  (ap_run_id a = None <-> ap_subject_kind a <> SUBJ_RUN) /\
  match ap_expires_at a with Some e => ap_requested_at a < e | None => True end /\
  match ap_authorization_fingerprint a with Some f => is_sha256_hex f = true | None => True end.
Proof.
  intros (id & rid & cat & sm & rs & ac & inp & t & st & ex & fp & sk & si & E).
  unfold ApprovalRequest_new in E.
  repeat match type of E with
         | (if ?b then Raise _ else _) = _ => destruct b eqn:?; [done|]
         end.
  destruct (ensure_utc_opt ex) as [o|] eqn:Eo; simpl in E; [|done].
  destruct (ensure_utc t) as [tt'|] eqn:Et; simpl in E.
  2: { destruct o; simpl in E; [done|]. by destruct (ensure_json_value inp). }
  destruct o as [ee|]; simpl in E; [destruct (Z.leb_spec ee tt'); simpl in E; [done|]|];
    destruct (ensure_json_value inp); simpl in E; try done; simplify_eq; cbn;
    destruct rid, sk; cbn in *; try done; repeat split; try done; try lia;
    destruct fp as [f|]; try done; by destruct (is_sha256_hex f).
Qed.

(** What the columns of a stored request say of its status *)
Definition ap_shape (a : ApprovalRequest) : Prop :=
  not_none (ap_resolved_at a) = negb (bool_decide (ap_status a = APENDING)) /\
  not_none (ap_resolver a) = bool_decide (ap_status a ∈ [AAPPROVED; AREJECTED]) /\
  (not_none (ap_consumed_at a) = true -> ap_status a = AAPPROVED) /\
  (ap_run_id a = None <-> ap_subject_kind a <> SUBJ_RUN) /\
  (forall e, ap_expires_at a = Some e -> ap_requested_at a < e).
Lemma ap_exec_shape o a : ap_shape a -> ap_shape (snd (ap_exec o a)).
Proof.
  destruct (ap_exec o a) as [[[]|e] a'] eqn:E; cbn [snd]; [|by rewrite (ap_exec_raise _ _ _ _ E)].
  revert E. unfold ap_shape. destruct a as [? ? ? ? ? ? ? s ? ? ? rs ? rr ? c ? ?].
  destruct o, s; ap_cases; ap_split;
    cbn [ap_status ap_resolved_at ap_resolver ap_consumed_at ap_run_id ap_subject_kind ap_expires_at ap_requested_at not_none] in *;
    destruct_and?; split_and!; first [done | intros Hc; match goal with H : _ -> APENDING = AAPPROVED |- _ => by specialize (H Hc) end].
Qed.
Lemma ap_init_shape a : ap_init a -> ap_shape a.
Proof.
  intros Hi. destruct (ap_init_pending a Hi) as (Hs & Hc & Hk & He & _).
  destruct Hi as (id & rid & cat & sm & rs & ac & inp & t & st & ex & fp & sk & si & E).
  unfold ap_shape. rewrite Hs, Hc. assert (ap_resolved_at a = None /\ ap_resolver a = None) as [-> ->]; [|split_and!; try done; intros e Ee; by rewrite Ee in He].
  unfold ApprovalRequest_new in E.
  repeat match type of E with
         | (if ?b then Raise _ else _) = _ => destruct b; [done|]
         | res_bind ?m _ = _ => destruct m; cbn [res_bind] in E; [|done]
         end. by injection E as <-.
Qed.
Lemma ap_reach_shape a : reach ap_init ap_exec a -> ap_shape a.
Proof. apply reach_invariant; [apply ap_init_shape|intros o s; apply ap_exec_shape]. Qed.

(** ** Properties *)


Definition ex_approval : ApprovalRequest :=
  mkApproval (mkId (u "a")) (Some (mkId (u "r"))) CAT_TOOL_EXECUTION (u "run it") (u "") (u "x")
    JNull APENDING 5 None None None None None None None SUBJ_RUN None.

