(* ===== verification/EventEntity.v ===== *)
(** * Append-only facts: [RunEvent], [TaskEvent], [Artifact]

    [src/friday/domain/event.py], [task_event.py] and [artifact.py].  All
    three are frozen dataclasses validated by [__post_init__]. *)

From S2P Require Import Prelude Values.

Open Scope Z_scope.

Inductive RunEventType : Type :=
| RUN_CREATED | RUN_STARTED | RUN_WAITING_FOR_APPROVAL | RUN_WAITING_FOR_DELEGATION
| RUN_RESUMED | RUN_SUCCEEDED | RUN_FAILED | RUN_CANCELLED
| STEP_CREATED | STEP_STARTED | STEP_SUCCEEDED | STEP_FAILED | STEP_SKIPPED | STEP_CANCELLED
| APPROVAL_REQUESTED | APPROVAL_RESOLVED
| TOOL_INVOCATION_REQUESTED | TOOL_INVOCATION_STARTED | TOOL_INVOCATION_SUCCEEDED
| TOOL_INVOCATION_FAILED | TOOL_INVOCATION_CANCELLED
| ARTIFACT_CREATED | AGENT_FINISHED
| DELEGATION_DISPATCHED | DELEGATION_SUCCEEDED
| WORKFLOW_EXECUTION_STARTED | WORKFLOW_NODE_DISPATCHED | WORKFLOW_NODE_SUCCEEDED
| WORKFLOW_NODE_FAILED | WORKFLOW_NODE_CANCELLED | WORKFLOW_NODE_BLOCKED
| WORKFLOW_EXECUTION_SUCCEEDED | WORKFLOW_EXECUTION_FAILED
| DELEGATION_FAILED | DELEGATION_CANCELLED
| MEMORY_CONTEXT_ATTACHED | MEMORY_RETRIEVAL_DEGRADED | MEMORY_WRITE_REQUESTED
| MEMORY_WRITE_COMMITTED | MEMORY_WRITE_CONFLICTED | MEMORY_INDEX_MARKED_STALE.
#[global] Instance RunEventType_eq_dec : EqDecision RunEventType.
Proof. solve_decision. Defined.

Record RunEvent : Type := mkRunEvent {
  ev_id : RunEventId; ev_run_id : RunId; ev_type : RunEventType; ev_sequence : Z;
  ev_occurred_at : Z; ev_payload : json; ev_step_id : option RunStepId }.

Definition RunEvent_new (id : RunEventId) (run_id : RunId) (type_ : RunEventType) (sequence : Z)
    (occurred_at : datetime) (payload : pyval) (step_id : option RunStepId) : res RunEvent :=
  if sequence <? 1
  then Raise (DomainValidationError "RunEvent.sequence must be a positive integer")
  else res_bind (ensure_utc occurred_at) (fun t =>
       res_bind (ensure_json_value payload) (fun p =>
       Ok (mkRunEvent id run_id type_ sequence t p step_id))).

Inductive TaskEventType : Type := TASK_COMPLETED | TASK_FAILED | TASK_CANCELLED.

Record TaskEvent : Type := mkTaskEvent {
  tev_id : TaskEventId; tev_task_id : TaskId; tev_type : TaskEventType; tev_sequence : Z;
  tev_occurred_at : Z; tev_payload : json }.

Definition TaskEvent_new (id : TaskEventId) (task_id : TaskId) (type_ : TaskEventType)
    (sequence : Z) (occurred_at : datetime) (payload : pyval) : res TaskEvent :=
  if sequence <? 1
  then Raise (DomainValidationError "TaskEvent.sequence must be a positive integer")
  else res_bind (ensure_utc occurred_at) (fun t =>
       res_bind (ensure_json_value payload) (fun p =>
       Ok (mkTaskEvent id task_id type_ sequence t p))).

Inductive ArtifactKind : Type :=
| AK_TEXT | AK_FILE | AK_DIRECTORY | AK_URL | AK_JSON | AK_IMAGE | AK_OTHER.
#[global] Instance ArtifactKind_eq_dec : EqDecision ArtifactKind.
Proof. solve_decision. Defined.

Definition artifact_kind_value (k : ArtifactKind) : string :=
  match k with
  | AK_TEXT => "text" | AK_FILE => "file" | AK_DIRECTORY => "directory" | AK_URL => "url"
  | AK_JSON => "json" | AK_IMAGE => "image" | AK_OTHER => "other"
  end.

Record Artifact : Type := mkArtifact {
  art_id : ArtifactId; art_run_id : RunId; art_kind : ArtifactKind; art_name : str;
  art_media_type : str; art_location : str; art_created_at : Z; art_step_id : option RunStepId;
  art_size : option Z; art_checksum : option str; art_metadata : json }.

Definition Artifact_new (id : ArtifactId) (run_id : RunId) (kind : ArtifactKind)
    (name media_type location : str) (created_at : datetime) (step_id : option RunStepId)
    (size : option Z) (checksum : option str) (metadata : pyval) : res Artifact :=
  if empty_str (strip name) then Raise (DomainValidationError "Artifact.name must not be empty")
  else if empty_str (strip location)
  then Raise (DomainValidationError "Artifact.location must not be empty")
  else if match size with Some s => s <? 0 | None => false end
  then Raise (DomainValidationError "Artifact.size must not be negative")
  else res_bind (ensure_utc created_at) (fun t =>
       res_bind (ensure_json_value metadata) (fun m =>
       Ok (mkArtifact id run_id kind name media_type location t step_id size checksum m))).

(** Building an event inside a use case never fails: sequences are positive,
    the clock is aware and payloads are JSON by construction. *)
Lemma RunEvent_new_ok id run_id ty n t j step :
  1 <= n -> RunEvent_new id run_id ty n (utc t) (to_py j) step
            = Ok (mkRunEvent id run_id ty n t j step).
Proof.
  intros Hn. unfold RunEvent_new. destruct (Z.ltb_spec n 1); [lia|].
  by rewrite ensure_utc_utc; simpl; rewrite ensure_json_to_py.
Qed.
Lemma TaskEvent_new_ok id task_id ty n t j :
  1 <= n -> TaskEvent_new id task_id ty n (utc t) (to_py j)
            = Ok (mkTaskEvent id task_id ty n t j).
Proof.
  intros Hn. unfold TaskEvent_new. destruct (Z.ltb_spec n 1); [lia|].
  by rewrite ensure_utc_utc; simpl; rewrite ensure_json_to_py.
Qed.
