(* ===== verification/ScheduleEntity.v ===== *)
(** * [Schedule] and [ScheduleFire]

    [src/friday/domain/schedule.py] and [schedule_fire.py].  The IANA database
    behind [ZoneInfo] is a parameter ([zone_known]).  Proved: the CHECK
    constraints [ck_schedules_kind_shape] and [ck_schedules_status_next_fire]
    are invariants of every schedule built and driven through its methods with
    aware timestamps. *)

From S2P Require Import Prelude Values.

Open Scope Z_scope.

Inductive ScheduleKind : Type := SK_ONCE | SK_CRON.
Inductive ScheduleStatus : Type := SCH_ACTIVE | SCH_PAUSED | SCH_COMPLETED | SCH_CANCELLED.
#[global] Instance ScheduleKind_eq_dec : EqDecision ScheduleKind.
Proof. solve_decision. Defined.
#[global] Instance ScheduleStatus_eq_dec : EqDecision ScheduleStatus.
Proof. solve_decision. Defined.

Definition schedule_status_value (s : ScheduleStatus) : string :=
  match s with
  | SCH_ACTIVE => "active" | SCH_PAUSED => "paused" | SCH_COMPLETED => "completed"
  | SCH_CANCELLED => "cancelled"
  end.

Definition TERMINAL_SCHEDULE_STATUSES : list ScheduleStatus := [SCH_COMPLETED; SCH_CANCELLED].
Definition schedule_terminal (s : ScheduleStatus) : bool :=
  bool_decide (s ∈ TERMINAL_SCHEDULE_STATUSES).

Record Schedule : Type := mkSchedule {
  sc_id : ScheduleId; sc_task_id : TaskId; sc_kind : ScheduleKind; sc_cron : option str;
  sc_run_at : option Z; sc_timezone : str; sc_status : ScheduleStatus;
  sc_next_fire_at : option Z; sc_created_at : Z; sc_updated_at : Z }.

Definition set_sc_status (v : ScheduleStatus) (x : Schedule) : Schedule :=
  mkSchedule (sc_id x) (sc_task_id x) (sc_kind x) (sc_cron x) (sc_run_at x) (sc_timezone
    x) v (sc_next_fire_at x) (sc_created_at x) (sc_updated_at x).
Definition set_sc_next_fire_at (v : option Z) (x : Schedule) : Schedule :=
  mkSchedule (sc_id x) (sc_task_id x) (sc_kind x) (sc_cron x) (sc_run_at x) (sc_timezone
    x) (sc_status x) v (sc_created_at x) (sc_updated_at x).
Definition set_sc_updated_at (v : Z) (x : Schedule) : Schedule :=
  mkSchedule (sc_id x) (sc_task_id x) (sc_kind x) (sc_cron x) (sc_run_at x) (sc_timezone
    x) (sc_status x) (sc_next_fire_at x) (sc_created_at x) v.

Definition validate_timezone (zone_known : str -> bool) (value : str) : res str :=
  if zone_known value then Ok value
  else Raise (DomainValidationError "Schedule.timezone must be an IANA timezone").

(** [ensure_utc(next_fire_at) if next_fire_at else None] *)
Definition ensure_next (o : option datetime) : res (option Z) :=
  match o with
  | Some d => res_bind (ensure_utc d) (fun t => Ok (Some t))
  | None => Ok None
  end.

Definition active_or_completed (next : option Z) : ScheduleStatus :=
  match next with Some _ => SCH_ACTIVE | None => SCH_COMPLETED end.

Definition Schedule_new (zone_known : str -> bool) (id : ScheduleId) (task_id : TaskId)
    (kind : ScheduleKind) (cron : option str) (run_at : option datetime) (timezone : str)
    (now : datetime) (next_fire_at : option datetime) : res Schedule :=
  res_bind (ensure_utc now) (fun now =>
  res_bind (validate_timezone zone_known timezone) (fun timezone =>
  res_bind (match kind with
            | SK_ONCE =>
                match run_at, cron with
                | Some r, None => res_bind (ensure_utc r) (fun r => Ok (None, Some r))
                | _, _ => Raise (DomainValidationError
                            "once schedules require run_at and forbid cron")
                end
            | SK_CRON =>
                match cron, run_at with
                | Some c, None => Ok (Some (strip c), None)
                | _, _ => Raise (DomainValidationError
                            "cron schedules require cron and forbid run_at")
                end
            end) (fun cr =>
  res_bind (ensure_next next_fire_at) (fun next =>
  Ok (mkSchedule id task_id kind (fst cr) (snd cr) timezone (active_or_completed next) next
        now now))))).

Definition sc_pause (at_ : datetime) : M Schedule unit :=
  st <- gets sc_status ;;
  raise_if (negb (bool_decide (st = SCH_ACTIVE)))
    (InvalidStateTransition "Schedule" (schedule_status_value st) "paused") ;;;
  t <- lift (ensure_utc at_) ;;
  modify (fun x => set_sc_updated_at t (set_sc_status SCH_PAUSED x)).

Definition sc_resume (at_ : datetime) (next_fire_at : option datetime) : M Schedule unit :=
  st <- gets sc_status ;;
  raise_if (negb (bool_decide (st = SCH_PAUSED)))
    (InvalidStateTransition "Schedule" (schedule_status_value st) "active") ;;;
  next <- lift (ensure_next next_fire_at) ;;
  modify (set_sc_next_fire_at next) ;;;
  modify (set_sc_status (active_or_completed next)) ;;;
  t <- lift (ensure_utc at_) ;;
  modify (set_sc_updated_at t).

Definition sc_cancel (at_ : datetime) : M Schedule unit :=
  st <- gets sc_status ;;
  raise_if (bool_decide (st ∈ TERMINAL_SCHEDULE_STATUSES))
    (InvalidStateTransition "Schedule" (schedule_status_value st) "cancelled") ;;;
  t <- lift (ensure_utc at_) ;;
  modify (fun x => set_sc_updated_at t (set_sc_next_fire_at None (set_sc_status SCH_CANCELLED x))).

Definition sc_complete (at_ : datetime) : M Schedule unit :=
  t <- lift (ensure_utc at_) ;;
  modify (fun x => set_sc_updated_at t (set_sc_next_fire_at None (set_sc_status SCH_COMPLETED x))).

Definition sc_advance_after_fire (now : datetime) (next_fire_at : option datetime) : M Schedule unit :=
  next <- lift (ensure_next next_fire_at) ;;
  modify (set_sc_next_fire_at next) ;;;
  modify (set_sc_status (active_or_completed next)) ;;;
  t <- lift (ensure_utc now) ;;
  modify (set_sc_updated_at t).

Record ScheduleFire : Type := mkFire {
  sf_id : ScheduleFireId; sf_schedule_id : ScheduleId; sf_scheduled_for : Z; sf_fired_at : Z;
  sf_run_id : RunId }.

Definition ScheduleFire_new (id : ScheduleFireId) (schedule_id : ScheduleId)
    (scheduled_for fired_at : datetime) (run_id : RunId) : res ScheduleFire :=
  res_bind (ensure_utc scheduled_for) (fun s =>
  res_bind (ensure_utc fired_at) (fun f => Ok (mkFire id schedule_id s f run_id))).

(** ** Invariants *)

(** [ck_schedules_kind_shape] and [ck_schedules_status_next_fire]. *)
Definition ck_schedules_kind_shape (x : Schedule) : bool :=
  match sc_kind x with
  | SK_ONCE => not_none (sc_run_at x) && negb (not_none (sc_cron x))
  | SK_CRON => not_none (sc_cron x) && negb (not_none (sc_run_at x))
  end.
Definition ck_schedules_status_next_fire (x : Schedule) : bool :=
  match sc_status x with
  | SCH_ACTIVE => not_none (sc_next_fire_at x)
  | SCH_PAUSED => true
  | SCH_COMPLETED | SCH_CANCELLED => negb (not_none (sc_next_fire_at x))
  end.
Definition schedule_checks (x : Schedule) : bool :=
  ck_schedules_kind_shape x && ck_schedules_status_next_fire x.

Inductive sc_op : Type :=
| ScPause (at_ : datetime) | ScResume (at_ : datetime) (next : option datetime)
| ScCancel (at_ : datetime) | ScComplete (at_ : datetime)
| ScAdvance (now : datetime) (next : option datetime).

Definition sc_exec (o : sc_op) : M Schedule unit :=
  match o with
  | ScPause t => sc_pause t
  | ScResume t n => sc_resume t n
  | ScCancel t => sc_cancel t
  | ScComplete t => sc_complete t
  | ScAdvance t n => sc_advance_after_fire t n
  end.

Definition sc_init (zone_known : str -> bool) (x : Schedule) : Prop :=
  exists id task kind cron run_at tz now next,
    Schedule_new zone_known id task kind cron run_at tz now next = Ok x.

Ltac sc_cases :=
  cbv [sc_exec sc_pause sc_resume sc_cancel sc_complete sc_advance_after_fire
       bind gets modify lift raise_if ret raise active_or_completed];
  cbn [sc_id sc_task_id sc_kind sc_cron sc_run_at sc_timezone sc_status sc_next_fire_at
       sc_created_at sc_updated_at fst snd negb
       set_sc_status set_sc_next_fire_at set_sc_updated_at].

Lemma sc_exec_checks o x : schedule_checks x = true -> schedule_checks (snd (sc_exec o x)) = true.
Proof.
  unfold schedule_checks. rewrite !andb_true_iff. intros [Hk Hs]. revert Hk Hs.
  destruct x as [? ? k cr ra ? s nx ? ?]. unfold ck_schedules_kind_shape, ck_schedules_status_next_fire.
  cbn. destruct o as [|? n| | |? n], s; sc_cases; closed_tests; cbn;
    try (destruct (ensure_next n) as [[?|]|]; cbn);
    try destruct (ensure_utc _); cbn; done.
Qed.

Lemma sc_init_checks zk x : sc_init zk x -> schedule_checks x = true.
Proof.
  intros (id & task & kind & cron & run_at & tz & now & next & E). unfold Schedule_new in E.
  destruct (ensure_utc now); simpl in E; [|done].
  destruct (validate_timezone zk tz); simpl in E; [|done].
  destruct kind, run_at as [r|], cron as [c|]; simpl in E; try done;
    try (destruct (ensure_utc r); simpl in E; [|done]);
    destruct (ensure_next next) as [[?|]|]; simpl in E; by simplify_eq.
Qed.

(** ** Properties *)

(** Whatever sequence of pause, resume, cancel, complete and advance calls a
    Schedule goes through (failing calls included, even those that assigned
    before raising), it satisfies both database CHECK constraints: a one-shot has
    a run time and no cron, a cron the converse, and an active schedule always
    has a next fire time while a completed or cancelled one has none. *)
Theorem schedule_checks_invariant zone_known x :
  reach (sc_init zone_known) sc_exec x -> schedule_checks x = true.
Proof.
  revert x. apply reach_invariant; [apply sc_init_checks | apply sc_exec_checks].
Qed.

Lemma schedule_checks_invariant_witness :
  schedule_checks (snd (sc_exec (ScResume (mkDatetime 9 None) (Some (utc 20)))
    (snd (sc_exec (ScPause (utc 8))
      (mkSchedule (mkId (u "s")) (mkId (u "t")) SK_CRON (Some (u "* * * * *")) None (u "UTC")
         SCH_ACTIVE (Some 10) 5 5))))) = true.
Proof.
  apply (schedule_checks_invariant (fun _ => true)). do 2 apply reach_op. apply reach_init.
  exists (mkId (u "s")), (mkId (u "t")), SK_CRON, (Some (u " * * * * *")), None, (u "UTC"), (utc 5),
    (Some (utc 10)). reflexivity.
Defined.
