(* ===== verification/Canonical.v ===== *)
(** * Canonical JSON and digests

    [json.dumps(value, sort_keys=True, separators=(",", ":"))] as the
    fingerprint and integrity digests use it
    ([src/friday/domain/delegation.py], [domain/workflow.py],
    [application/tool_authorization.py]).  The decimal rendering of a float
    and SHA-256 are parameters of the model ([Digest]). *)

From S2P Require Import Prelude Values.
From stdpp Require Import pretty.

Open Scope Z_scope.

(** [hashlib.sha256(data).hexdigest()] of a byte string and [repr] of a finite
    float. *)
Class Digest : Type := {
  sha256_hex : str -> str;
  float_repr : Z -> Z -> str }.

(** What the code relies on: a digest is 64 lower-case hexadecimal digits. *)
Class DigestShape `{Digest} : Prop :=
  sha256_hex_shape : forall s, is_sha256_hex (sha256_hex s) = true.

Definition int_repr (z : Z) : str := u (pretty z).

(** [datetime.isoformat()] of an aware UTC datetime: days are turned into a
    date of the proleptic Gregorian calendar in 400-year eras that start in
    March. *)
Definition pad (width : nat) (n : Z) : str :=
  let s := int_repr n in replicate (width - length s)%nat 48 ++ s.
Definition civil_from_days (days : Z) : Z * Z * Z :=
  let z := days + 719468 in
  let era := z / 146097 in
  let doe := z mod 146097 in
  let yoe := (doe - doe / 1460 + doe / 36524 - doe / 146096) / 365 in
  let doy := doe - (365 * yoe + yoe / 4 - yoe / 100) in
  let mp := (5 * doy + 2) / 153 in
  let m := if mp <? 10 then mp + 3 else mp - 9 in
  ((yoe + era * 400) + (if m <=? 2 then 1 else 0), m, doy - (153 * mp + 2) / 5 + 1).
Definition isoformat (t : Z) : str :=
  let us := t mod 1000000 in
  let s := (t / 1000000) mod 86400 in
  let '(year, month, day) := civil_from_days (t / 1000000 / 86400) in
  pad 4 year ++ u "-" ++ pad 2 month ++ u "-" ++ pad 2 day ++ u "T" ++
  pad 2 (s / 3600) ++ u ":" ++ pad 2 (s / 60 mod 60) ++ u ":" ++ pad 2 (s mod 60) ++
  (if us =? 0 then [] else u "." ++ pad 6 us) ++ u "+00:00".
Example isoformat_leap_day : isoformat 951868799000042 = u "2000-02-29T23:59:59.000042+00:00".
Proof. vm_compute. reflexivity. Qed.

Definition hex_digit (d : Z) : Z := if d <? 10 then 48 + d else 87 + d.
Definition u_escape (c : Z) : str :=
  [92; 117; hex_digit (c / 4096 mod 16); hex_digit (c / 256 mod 16);
   hex_digit (c / 16 mod 16); hex_digit (c mod 16)].

(** The escape table of the C encoder, with [ensure_ascii] as a flag. *)
Definition escape_char (ensure_ascii : bool) (c : Z) : str :=
  if c =? 34 then [92; 34] else if c =? 92 then [92; 92]
  else if c =? 10 then [92; 110] else if c =? 13 then [92; 114] else if c =? 9 then [92; 116]
  else if c =? 12 then [92; 102] else if c =? 8 then [92; 98]
  else if c <? 32 then u_escape c
  else if ensure_ascii && (127 <=? c) then
    if c <? 65536 then u_escape c
    else let v := c - 65536 in
         u_escape (55296 + (v / 1024) mod 1024) ++ u_escape (56320 + v mod 1024)
  else [c].

Definition quote (ensure_ascii : bool) (s : str) : str :=
  [34] ++ concat (map (escape_char ensure_ascii) s) ++ [34].

(** [sep.join(parts)] *)
Fixpoint join (sep : str) (parts : list str) : str :=
  match parts with
  | [] => []
  | [p] => p
  | p :: ps => p ++ sep ++ join sep ps
  end.

(** [s.encode()]: UTF-8, which refuses lone surrogates. *)
Definition utf8_char (c : Z) : res (list Z) :=
  if c <? 128 then Ok [c]
  else if c <? 2048 then Ok [192 + c / 64; 128 + c mod 64]
  else if (55296 <=? c) && (c <? 57344) then Raise (OtherError "UnicodeEncodeError")
  else if c <? 65536 then Ok [224 + c / 4096; 128 + c / 64 mod 64; 128 + c mod 64]
  else Ok [240 + c / 262144; 128 + c / 4096 mod 64; 128 + c / 64 mod 64; 128 + c mod 64].

Fixpoint encode (s : str) : res (list Z) :=
  match s with
  | [] => Ok []
  | c :: s' => res_bind (utf8_char c) (fun b => res_bind (encode s') (fun bs => Ok (b ++ bs)))
  end.

Section Dumps.
Context `{Digest} (ensure_ascii : bool).

Fixpoint json_dumps (j : json) : str :=
  match j with
  | JNull => u "null"
  | JBool b => if b then u "true" else u "false"
  | JInt z => int_repr z
  | JFloat m e => float_repr m e
  | JStr s => quote ensure_ascii s
  | JList l => [91] ++ join [44] (map json_dumps l) ++ [93]
  | JDict d =>
      let entries := map (fun p => (fst p, json_dumps (snd p))) d in
      [123] ++ join [44] (map (fun p => quote ensure_ascii (fst p) ++ [58] ++ snd p)
                            (order_by fst entries)) ++ [125]
  end.
End Dumps.

(** Dictionaries with the same entries in another order print alike. *)
Lemma assoc_unique {K V} (d : list (K * V)) k v v' :
  NoDup (map fst d) -> (k, v) ∈ d -> (k, v') ∈ d -> v = v'.
Proof.
  induction d as [|[k0 v0] d IH]; intros Hnd Hv Hv'; [by apply not_elem_of_nil in Hv|].
  simpl in Hnd. apply NoDup_cons in Hnd as [Hn Hnd].
  assert (Hin : forall w, (k, w) ∈ d -> k ∈ map fst d)
    by (intros w Hw; apply list_elem_of_fmap; by exists (k, w)).
  apply elem_of_cons in Hv as [Hv|Hv], Hv' as [Hv'|Hv']; simplify_eq; try done.
  - by apply Hin in Hv'.
  - by apply Hin in Hv.
  - by apply IH.
Qed.

Lemma json_dumps_dict_order `{Digest} ensure_ascii d d' :
  NoDup (map fst d) -> d ≡ₚ d' ->
  json_dumps ensure_ascii (JDict d) = json_dumps ensure_ascii (JDict d').
Proof.
  intros Hnd HP. simpl.
  erewrite (order_by_unique fst); [reflexivity| |by apply Permutation_map].
  intros x y Hx Hy Hk.
  apply list_elem_of_fmap in Hx as ([k v] & -> & Hx).
  apply list_elem_of_fmap in Hy as ([k' v'] & -> & Hy). simpl in *. subst k'.
  by rewrite (assoc_unique d k v v').
Qed.

(** A digest of the right shape to run the definitions on. *)
Definition toy_digest : Digest := {|
  sha256_hex bytes := replicate 64 (48 + len bytes mod 10);
  float_repr m e := int_repr m ++ u "e" ++ int_repr e |}.
