(* ===== verification/PyText.v ===== *)
(** * Text operations

    The string methods the context builder, the redaction of delegated results
    and the conversation use cases call: slices, [in], [str.replace],
    [str.split()] and [startswith], with the lemmas about occurrences that their
    theorems share. *)

From S2P Require Import Prelude Values Canonical.

Open Scope Z_scope.

(** [s[:n]], also for a negative [n] *)
Definition slice_to (n : Z) (s : str) : str :=
  if 0 <=? n then take (Z.to_nat n) s else take (length s - Z.to_nat (- n)) s.

(** [s.startswith(p)] *)
Fixpoint starts (p s : str) : bool :=
  match p, s with
  | [], _ => true
  | c :: p', d :: s' => (c =? d) && starts p' s'
  | _ :: _, [] => false
  end.
(** [p in s] *)
Fixpoint contains (p s : str) : bool :=
  starts p s || match s with [] => false | _ :: s' => contains p s' end.

(** [s.replace(old, new)] for a non-empty [old]: left to right, without
    overlaps.  [skip] characters of a match are still to be dropped. *)
Fixpoint replace_from (old new : str) (skip : nat) (s : str) : str :=
  match s with
  | [] => []
  | c :: s' =>
      match skip with
      | S k => replace_from old new k s'
      | O => if starts old s then new ++ replace_from old new (length old - 1) s'
             else c :: replace_from old new 0 s'
      end
  end.
Definition str_replace (old new s : str) : str := replace_from old new 0 s.

(** [s.split()]: the maximal runs of characters that are not white space *)
Fixpoint words_from (word : str) (s : str) : list str :=
  match s with
  | [] => match word with [] => [] | _ => [reverse word] end
  | c :: s' =>
      if is_space c then match word with [] => words_from [] s' | _ => reverse word :: words_from [] s' end
      else words_from (c :: word) s'
  end.
Definition split_words (s : str) : list str := words_from [] s.

Example replace_ex : str_replace (u "aa") (u "b") (u "aaaxaa") = u "baxb".
Proof. reflexivity. Qed.
Example split_words_ex : split_words (u "  to   be ") = [u "to"; u "be"].
Proof. reflexivity. Qed.

(** ** Lengths *)
Lemma len_app {A} (a b : list A) : len (a ++ b) = len a + len b.
Proof. unfold len. rewrite length_app. lia. Qed.
Lemma len_nonneg {A} (a : list A) : 0 <= len a.
Proof. unfold len. lia. Qed.
Lemma len_cons {A} (x : A) a : len (x :: a) = 1 + len a.
Proof. unfold len. cbn [length]. lia. Qed.
Lemma slice_to_le n s : 0 <= n -> len (slice_to n s) <= n.
Proof.
  intros Hn. unfold slice_to, len. destruct (0 <=? n) eqn:E; [|lia].
  rewrite length_take. lia.
Qed.
Lemma slice_to_len n s : len (slice_to n s) <= len s.
Proof. unfold slice_to, len. case_match; rewrite length_take; lia. Qed.

(** ** Occurrences *)
Lemma starts_spec p s : starts p s = true <-> exists r, s = p ++ r.
Proof.
  revert s. induction p as [|c p IH]; intros s; cbn [starts].
  - split; [intros _; by exists s|done].
  - destruct s as [|d s]; [split; [done|by intros [r E]]|]. rewrite andb_true_iff, Z.eqb_eq, IH. split.
    + intros [-> [r ->]]. by exists r.
    + intros [r [= -> ->]]. split; [done|by exists r].
Qed.
Lemma contains_spec p s : contains p s = true <-> exists a b, s = a ++ p ++ b.
Proof.
  induction s as [|c s IH]; cbn [contains].
  - rewrite orb_false_r, starts_spec. split; [intros [r E]; by exists [], r|].
    intros (a & b & E). exists b. symmetry in E. by apply app_nil in E as [-> <-].
  - rewrite orb_true_iff, starts_spec, IH. split.
    + intros [[r E]|(a & b & ->)]; [by exists [], r|by exists (c :: a), b].
    + intros (a & b & E). destruct a as [|c' a]; [left; by exists b|right].
      injection E as <- ->. by exists a, b.
Qed.
Lemma contains_refl p a b : contains p (a ++ p ++ b) = true.
Proof. apply contains_spec. by exists a, b. Qed.
Lemma contains_app_l p a b : contains p a = true -> contains p (a ++ b) = true.
Proof. rewrite !contains_spec. intros (x & y & ->). exists x, (y ++ b). by rewrite <- !app_assoc. Qed.
Lemma contains_app_r p a b : contains p b = true -> contains p (a ++ b) = true.
Proof. rewrite !contains_spec. intros (x & y & ->). exists (a ++ x), y. by rewrite <- !app_assoc. Qed.
Lemma contains_trans p q s : contains p q = true -> contains q s = true -> contains p s = true.
Proof. rewrite (contains_spec q). intros Hp (a & b & ->). by apply contains_app_r, contains_app_l. Qed.

(** A string without the character [c] occurs on one side of it. *)
Lemma starts_cut p a c b : c ∉ p -> starts p (a ++ c :: b) = true -> starts p a = true.
Proof.
  revert a. induction p as [|e p IH]; intros a Hc; [done|]. apply not_elem_of_cons in Hc as [Hne Hc].
  destruct a as [|f a]; cbn; rewrite !andb_true_iff, Z.eqb_eq; [by intros [-> _]|].
  intros [-> Hs]. split; [done|by apply IH].
Qed.
Lemma contains_starts p s : starts p s = true -> contains p s = true.
Proof. intros H. destruct s; cbn [contains]; by rewrite H. Qed.
Lemma contains_cut p a c b :
  c ∉ p -> contains p (a ++ c :: b) = true -> contains p a = true \/ contains p b = true.
Proof.
  intros Hc. induction a as [|d a IH]; cbn [app]; intros [Hs|Hb]%orb_true_iff.
  - left. apply contains_starts, (starts_cut _ [] c b Hc Hs).
  - by right.
  - left. apply contains_starts, (starts_cut _ (d :: a) c b Hc Hs).
  - destruct (IH Hb) as [Ha|Hb']; [left; cbn; rewrite Ha; apply orb_true_r|by right].
Qed.

(** ** [str.replace] *)
Lemma replace_skip old new x s : replace_from old new (length x) (x ++ s) = str_replace old new s.
Proof. by induction x. Qed.
Section Replace.
Context (old new : str) (Hold : old <> []).

(** Either nothing is replaced, or the text up to the first occurrence is kept. *)
Lemma replace_cases s :
  (contains old s = false /\ str_replace old new s = s) \/
  exists a b, s = a ++ old ++ b /\ contains old a = false /\
    str_replace old new s = a ++ new ++ str_replace old new b.
Proof.
  induction s as [|c s IH].
  { left. split; [|done]. destruct old; [done|reflexivity]. }
  unfold str_replace. cbn [replace_from contains].
  destruct (starts old (c :: s)) eqn:Es.
  - right. apply starts_spec in Es as [b Eb]. exists [], b. split; [done|]. split; [by destruct old|].
    cbn [app]. f_equal. destruct old as [|d o]; [done|]. injection Eb as -> ->. cbn [length].
    replace (S (length o) - 1)%nat with (length o) by lia. apply replace_skip.
  - destruct IH as [[Hn E]|(a & b & -> & Ha & E)]; unfold str_replace in E; rewrite E; [by left|].
    right. exists (c :: a), b. split; [done|]. split; [|done]. cbn [contains]. rewrite Ha, orb_false_r.
    destruct (starts old (c :: a)) eqn:Ec; [|done]. apply starts_spec in Ec as [r Er].
    rewrite <- not_true_iff_false in Es. destruct Es. apply starts_spec. exists (r ++ old ++ b).
    by rewrite app_comm_cons, Er, <- app_assoc.
Qed.
Lemma str_replace_ind (P : str -> str -> Prop) :
  (forall s, contains old s = false -> P s s) ->
  (forall a b t, contains old a = false -> P b t -> P (a ++ old ++ b) (a ++ new ++ t)) ->
  forall s, P s (str_replace old new s).
Proof.
  intros Hn Hs s. remember (length s) as n eqn:En. revert s En.
  induction n as [n IH] using lt_wf_ind. intros s ->.
  destruct (replace_cases s) as [[Hc E]|(a & b & Es & Ha & E)]; rewrite E; [by apply Hn|].
  rewrite Es at 1. apply Hs; [done|]. eapply IH; [|done]. rewrite Es, !length_app.
  destruct old; [done|]. cbn. lia.
Qed.
End Replace.
