(* ===== verification/Regex.v ===== *)
(** * Regular expressions

    The backtracking matcher of Python's [re] for the operators the modelled
    code uses: a pattern is tried left to right, alternatives in order,
    repetitions greedily, and a failing continuation makes it try the next way.
    Membership in Unicode's alphanumeric characters, which [\b] needs, and
    [str.casefold] are parameters. *)

From S2P Require Import Prelude Values PyText.

Open Scope Z_scope.

(** Tables of the Unicode character database *)
Class Unicode : Type := { is_alnum : Z -> bool; casefold : str -> str }.
(** Python's tables restricted to ASCII *)
Definition ascii_unicode : Unicode :=
  {| is_alnum := fun c => is_lower_digit c || ((65 <=? c) && (c <=? 90));
     casefold := map (fun c => if (65 <=? c) && (c <=? 90) then c + 32 else c) |}.

Inductive re : Type :=
| Chr (p : Z -> bool)
| Eps
| Seq (a b : re)
| Alt (a b : re)
| Star (a : re)
| Boundary.

Definition Opt (a : re) : re := Alt a Eps.
Definition Plus (a : re) : re := Seq a (Star a).
Fixpoint seqs (l : list re) : re := match l with [] => Eps | [a] => a | a :: l' => Seq a (seqs l') end.
Fixpoint alts (l : list re) : re := match l with [] => Chr (fun _ => false) | [a] => a | a :: l' => Alt a (alts l') end.

(** A literal under [(?i)]: the two cases of an ASCII letter, and the few other
    letters with the same simple lower case. *)
Definition ci (x c : Z) : bool :=
  (c =? x) || ((97 <=? x) && (x <=? 122) && (c =? x - 32))
  || ((x =? 105) && ((c =? 305) || (c =? 304))) || ((x =? 115) && (c =? 383)) || ((x =? 107) && (c =? 8490)).
Definition lit (s : string) : re := seqs (map (fun x => Chr (ci x)) (u s)).
Definition any_of (s : string) : re := Chr (fun c => bool_decide (c ∈ u s)).

Section Match.
Context `{Unicode} {A : Type}.

Definition is_word (c : Z) : bool := is_alnum c || (c =? 95).
Definition word_opt (o : option Z) : bool := match o with Some c => is_word c | None => false end.

(** [run r prev s k]: match [r] at [s], preceded by [prev], and go on with [k]. *)
Fixpoint run (r : re) (prev : option Z) (s : str) (k : option Z -> str -> option A) : option A :=
  match r with
  | Chr p => match s with c :: s' => if p c then k (Some c) s' else None | [] => None end
  | Eps => k prev s
  | Seq a b => run a prev s (fun prev' s' => run b prev' s' k)
  | Alt a b => match run a prev s k with Some x => Some x | None => run b prev s k end
  | Star a =>
      (fix go (n : nat) (prev : option Z) (s : str) : option A :=
         match n with
         | O => k prev s
         | S n' =>
             match run a prev s (fun prev' s' =>
                     if (length s' <? length s)%nat then go n' prev' s' else None) with
             | Some x => Some x
             | None => k prev s
             end
         end) (length s) prev s
  | Boundary =>
      if Bool.eqb (word_opt prev) (word_opt (head s)) then None else k prev s
  end.
End Match.

(** The rest of the subject after a match of [r] at its start *)
Definition match_rest `{Unicode} (r : re) (prev : option Z) (s : str) : option str :=
  run r prev s (fun _ rest => Some rest).
(** [re.fullmatch] *)
Definition full_match `{Unicode} (r : re) (s : str) : bool :=
  not_none (run r None s (fun _ rest => match rest with [] => Some tt | _ => None end)).

(** What a match consumes is a prefix of the subject. *)
Lemma run_suffix `{Unicode} {A} r prev s (k : option Z -> str -> option A) a :
  run r prev s k = Some a -> exists prev' x s', s = x ++ s' /\ k prev' s' = Some a.
Proof.
  revert prev s k. induction r as [p| |r1 IH1 r2 IH2|r1 IH1 r2 IH2|r IH|]; intros prev s k; cbn [run].
  - destruct s as [|c s]; [done|]. destruct (p c); [|done]. intros E. by exists (Some c), [c], s.
  - intros E. by exists prev, [], s.
  - intros (p1 & x & s1 & -> & (p2 & y & s2 & -> & E)%IH2)%IH1. exists p2, (x ++ y), s2.
    by rewrite app_assoc.
  - destruct (run r1 prev s k) eqn:E1; [|apply IH2]. intros [= ->]. by apply IH1 in E1.
  - generalize (length s) as n. intros n. revert prev s. induction n as [|n IHn]; intros prev s.
    { intros E. by exists prev, [], s. }
    destruct (run r prev s _) as [a'|] eqn:E1.
    + intros [= ->]. apply IH in E1 as (p1 & x & s1 & -> & E1).
      destruct (_ <? _)%nat; [|done]. apply IHn in E1 as (p2 & y & s2 & -> & E2).
      exists p2, (x ++ y), s2. by rewrite app_assoc.
    + intros E. by exists prev, [], s.
  - destruct (Bool.eqb _ _); [done|]. intros E. by exists prev, [], s.
Qed.
