(* ===== verification/ResultSafety.v ===== *)
(** * What of a delegated result the parent sees

    [src/friday/application/delegation_result_safety.py]: the redaction of a
    child's result on its way to the parent agent, as patterns for labelled
    values and literal replacement of the known ones. *)

From S2P Require Import Prelude Values Canonical PyText Regex.

Open Scope Z_scope.

Definition REDACTED_DELEGATION_AUTHORITY : str := u "[redacted]".
Inductive AuthorityValue : Type := AuthStr (s : str) | AuthInt (z : Z).

(** ** Keys *)
Definition SENSITIVE_KEYS : list str := map u
  ["access_token"; "api_key"; "approval_id"; "approval_request_id"; "authorization_fingerprint";
   "authorization_state"; "authorization_token"; "bearer_token"; "claim_generation";
   "claim_token"; "credential"; "credentials"; "password"; "provider_credentials";
   "provider_handle"; "provider_secret"; "provider_session"; "refresh_token"; "runtime_handle";
   "runtime_session"; "secret"; "tool_authorization"; "tool_invocation_authorization_state";
   "tool_invocation_id"]%string.
Definition SENSITIVE_SUFFIXES : list str := map u
  ["_access_token"; "_api_key"; "_approval_id"; "_approval_request_id";
   "_authorization_fingerprint"; "_authorization_state"; "_authorization_token"; "_bearer_token";
   "_claim_generation"; "_claim_token"; "_credential"; "_credentials"; "_password";
   "_provider_handle"; "_provider_secret"; "_provider_session"; "_refresh_token";
   "_runtime_handle"; "_runtime_session"; "_secret"; "_tool_authorization";
   "_tool_invocation_authorization_state"; "_tool_invocation_id"]%string.

(** [re.sub(r"[^a-z0-9]+", "_", key.casefold()).strip("_")] *)
Fixpoint squeeze (in_gap : bool) (s : str) : str :=
  match s with
  | [] => []
  | c :: s' => if is_lower_digit c then c :: squeeze false s'
               else if in_gap then squeeze true s' else 95 :: squeeze true s'
  end.
Fixpoint lstrip_underscores (s : str) : str :=
  match s with 95 :: s' => lstrip_underscores s' | _ => s end.
Definition strip_underscores (s : str) : str :=
  reverse (lstrip_underscores (reverse (lstrip_underscores s))).
Definition ends_with (s p : str) : bool := starts (reverse p) (reverse s).

(** ** Substitution

    [m] says whether a pattern matches at a position: what is left after the part
    of the match that is kept, and after the whole match.  Every pattern here
    consumes a character. *)
Section Sub.
Variable m : option Z -> str -> option (str * str).
Variable new : str.
Fixpoint sub_from (prev : option Z) (skip : nat) (s : str) : str :=
  match s with
  | [] => []
  | c :: s' =>
      match skip with
      | S n => sub_from (Some c) n s'
      | O =>
          match m prev s with
          | Some (kept, rest) =>
              if (length rest <? length s)%nat
              then take (length s - length kept) s ++ new ++ sub_from (Some c) (length s - length rest - 1) s'
              else c :: sub_from (Some c) 0 s'
          | None => c :: sub_from (Some c) 0 s'
          end
      end
  end.
End Sub.

Section Safety.
Context `{Unicode}.

Definition normalize_key (key : str) : str := strip_underscores (squeeze false (casefold key)).
Definition is_sensitive_key (key : str) : bool :=
  let normalized := normalize_key key in
  bool_decide (normalized ∈ SENSITIVE_KEYS) || existsb (ends_with normalized) SENSITIVE_SUFFIXES.

(** ** Labels in free text *)
Definition gap : re := Opt (any_of "_ -").
Definition two (a b : string) : re := seqs [lit a; gap; lit b].
Definition LABEL_PATTERNS : re := alts
  [two "access" "token"; two "api" "key";
   seqs [lit "approval"; Opt (seqs [gap; lit "request"]); gap; lit "id"];
   two "authorization" "fingerprint"; two "authorization" "state"; two "authorization" "token";
   two "bearer" "token"; two "claim" "generation"; two "claim" "token";
   seqs [lit "credential"; Opt (lit "s")]; lit "password";
   seqs [lit "provider"; gap; alts [lit "credentials"; lit "handle"; lit "secret"; lit "session"]];
   two "refresh" "token"; seqs [lit "runtime"; gap; alts [lit "handle"; lit "session"]]; lit "secret";
   seqs [lit "tool"; gap; lit "invocation"; gap; alts [two "authorization" "state"; lit "id"]]].
(** Group 1: [\b(?:LABELS)\b\s*[:=]\s*] *)
Definition label_prefix : re :=
  seqs [Boundary; LABEL_PATTERNS; Boundary; Star (Chr is_space); any_of ":="; Star (Chr is_space)].
Definition quoted (q : Z) : re :=
  seqs [Chr (Z.eqb q); Star (Chr (fun c => negb (c =? q) && negb (c =? 10))); Chr (Z.eqb q)].
Definition label_value : re :=
  alts [quoted 34; quoted 39; Plus (Chr (fun c => negb (is_space c || bool_decide (c ∈ u ",;}]"))))].
Definition match_label (prev : option Z) (s : str) : option (str * str) :=
  run label_prefix prev s (fun p kept => run label_value p kept (fun _ rest => Some (kept, rest))).
(** [_LABELED_AUTHORITY_VALUE.sub] *)
Definition redact_labels (s : str) : str :=
  sub_from match_label REDACTED_DELEGATION_AUTHORITY None 0 s.
End Safety.

(** ** Known values *)

(** [_normalize_authority_values]: distinct values, longest first *)
Definition authority_strings (values : list AuthorityValue) : list str :=
  order_by (fun s => - len s :: s)
    (remove_dups (omap (fun v => match v with AuthStr s => if empty_str s then None else Some s | _ => None end)
                    values)).
Definition authority_integers (values : list AuthorityValue) : list Z :=
  order_by (fun z => [- len (int_repr z); z])
    (remove_dups (omap (fun v => match v with AuthInt z => if z >? 0 then Some z else None | _ => None end)
                    values)).

(** [(?<![A-Za-z0-9_])N(?![A-Za-z0-9_])] *)
Definition ascii_word (o : option Z) : bool :=
  match o with
  | Some c => is_lower_digit c || ((65 <=? c) && (c <=? 90)) || (c =? 95)
  | None => false
  end.
Definition match_integer (z : Z) (prev : option Z) (s : str) : option (str * str) :=
  let n := int_repr z in
  let rest := drop (length n) s in
  if negb (ascii_word prev) && starts n s && negb (ascii_word (head rest)) then Some (s, rest) else None.
(** [_scrub_literal_authority_text] *)
Definition scrub_text (strings : list str) (integers : list Z) (text : str) : str :=
  foldl (fun t z => sub_from (match_integer z) REDACTED_DELEGATION_AUTHORITY None 0 t)
    (foldl (fun t k => str_replace k REDACTED_DELEGATION_AUTHORITY t) text strings) integers.

Section Projection.
Context `{Unicode} (strings : list str) (integers : list Z).

(** [_sanitize_text_with_known_authority] *)
Definition sanitize_text (value : str) : str := scrub_text strings integers (redact_labels value).

(** [d[k] = v] on a dictionary in insertion order *)
Fixpoint dict_put {A} (k : str) (v : A) (d : list (str * A)) : list (str * A) :=
  match d with
  | [] => [(k, v)]
  | (k', v') :: d' => if bool_decide (k = k') then (k', v) :: d' else (k', v') :: dict_put k v d'
  end.
Definition dict_of {A} (l : list (str * A)) : list (str * A) := foldl (fun d p => dict_put p.1 p.2 d) [] l.

(** [sanitize] *)
Fixpoint sanitize (current : json) : json :=
  match current with
  | JDict d =>
      JDict (dict_of (map (fun p => (scrub_text strings integers (fst p),
                                     if is_sensitive_key (fst p) then JStr REDACTED_DELEGATION_AUTHORITY
                                     else sanitize (snd p))) d))
  | JList l => JList (map sanitize l)
  | JStr s => JStr (sanitize_text s)
  | JInt z => if bool_decide (z ∈ integers) then JStr REDACTED_DELEGATION_AUTHORITY else JInt z
  | _ => current
  end.
End Projection.

Section Results.
Context `{Unicode}.
Definition sanitize_delegation_result_text (value : str) (authority : list AuthorityValue) : str :=
  sanitize_text (authority_strings authority) (authority_integers authority) value.
Definition sanitize_delegation_result_value (value : json) (authority : list AuthorityValue) : json :=
  sanitize (authority_strings authority) (authority_integers authority) value.
Definition project_delegated_result (summary : option str) (details : json) (authority : list AuthorityValue)
    : option str * json :=
  ((fun s => sanitize_delegation_result_text s authority) <$> summary,
   sanitize_delegation_result_value details authority).
End Results.

Example label_ex :
  @redact_labels ascii_unicode (u "Access-Token: 'a b', token_count=12; approval id=x9") =
  u "Access-Token: [redacted], token_count=12; approval id=[redacted]".
Proof. vm_compute. reflexivity. Qed.
Example key_ex :
  map (@is_sensitive_key ascii_unicode) [u "X Claim.Token"; u "token_count"; u "Passwords"] = [true; false; false].
Proof. vm_compute. reflexivity. Qed.

(** ** Masking

    [t] is [s] with some disjoint stretches replaced by the marker. *)
Inductive masked : str -> str -> Prop :=
| masked_refl s : masked s s
| masked_cut a x b t : masked b t -> masked (a ++ x ++ b) (a ++ REDACTED_DELEGATION_AUTHORITY ++ t).

Lemma masked_cons c s t : masked s t -> masked (c :: s) (c :: t).
Proof. intros [?|a x b t' Ht]; [constructor|]. by apply (masked_cut (c :: a)). Qed.
Lemma masked_replace old s : old <> [] -> masked s (str_replace old REDACTED_DELEGATION_AUTHORITY s).
Proof. intros Ho. apply str_replace_ind; [done|constructor|]. intros. by apply masked_cut. Qed.

(** A pattern that keeps a prefix of its match and consumes the rest *)
Definition prefix_match (m : option Z -> str -> option (str * str)) : Prop :=
  forall prev s kept rest, m prev s = Some (kept, rest) -> exists x y, s = x ++ kept /\ kept = y ++ rest.
Lemma sub_skip m new x prev s : exists prev', sub_from m new prev (length x) (x ++ s) = sub_from m new prev' 0 s.
Proof. revert prev. induction x as [|c x IH]; intros prev; cbn; [by exists prev|apply IH]. Qed.
Lemma masked_sub m prev s : prefix_match m -> masked s (sub_from m REDACTED_DELEGATION_AUTHORITY prev 0 s).
Proof.
  intros Hm. remember (length s) as n eqn:En. revert prev s En.
  induction n as [n IH] using lt_wf_ind. intros prev s ->. destruct s as [|c s]; [constructor|].
  cbn [sub_from]. destruct (m prev (c :: s)) as [[kept rest]|] eqn:E;
    [|apply masked_cons; by eapply IH; [|done]; cbn; lia].
  destruct (Nat.ltb_spec (length rest) (length (c :: s))); [|apply masked_cons; by eapply IH; [|done]; cbn; lia].
  apply Hm in E as (x & y & Es & ->). 
  assert (Ht : take (length (c :: s) - length (y ++ rest)) (c :: s) = x).
  { rewrite Es, length_app. replace (_ + _ - _)%nat with (length x) by lia. apply take_app_length. }
  rewrite Ht.
  assert (Hs : exists z, s = z ++ rest /\ (length (c :: s) - length rest - 1)%nat = length z).
  { destruct x as [|c' x]; [destruct y as [|c' y]|]; cbn [app] in Es.
    - rewrite Es in *. cbn in *. lia.
    - injection Es as _ ->. exists y. rewrite ?length_app. cbn. rewrite length_app. split; [done|lia].
    - injection Es as _ ->. exists (x ++ y). rewrite <- app_assoc. split; [done|].
      cbn. rewrite !length_app. lia. }
  destruct Hs as (z & -> & Hz). rewrite Hz. destruct (sub_skip m REDACTED_DELEGATION_AUTHORITY z (Some c) rest) as [p' ->].
  rewrite Es. apply masked_cut. eapply IH; [|done]. cbn in *. rewrite length_app. lia.
Qed.

(** ** Known values do not survive *)

(** A value the marker cannot complete: it has no bracket, and is not a part of
    the word between them. *)
Definition opaque_value (k : str) : Prop :=
  k <> [] /\ 91 ∉ k /\ 93 ∉ k /\ contains k (u "redacted") = false.
(** Identifiers and digests are such values. *)
Definition is_handle_char (c : Z) : bool := is_hex_digit c || (c =? 45).
Lemma starts_length p s : starts p s = true -> (length p <= length s)%nat.
Proof. intros [r ->]%starts_spec. rewrite length_app. lia. Qed.
Lemma contains_length p s : contains p s = true -> (length p <= length s)%nat.
Proof. intros (a & b & ->)%contains_spec. rewrite !length_app. lia. Qed.
Lemma handle_opaque k : forallb is_handle_char k = true -> 8 < len k -> opaque_value k.
Proof.
  intros Hk Hl. rewrite forallb_forall in Hk. split; [by intros ->|].
  split; [intros Hin%list_elem_of_In%Hk; done|]. split; [intros Hin%list_elem_of_In%Hk; done|].
  destruct (contains k _) eqn:E; [|done]. apply contains_length in E. unfold len in Hl. cbn in E. lia.
Qed.

Lemma marker_cut k a t : opaque_value k ->
  contains k (a ++ REDACTED_DELEGATION_AUTHORITY ++ t) = true -> contains k a = true \/ contains k t = true.
Proof.
  intros (_ & Ho & Hc & Hr).
  change (REDACTED_DELEGATION_AUTHORITY ++ t) with (91 :: u "redacted" ++ 93 :: t).
  intros [Ha|[Ha|Ha]%contains_cut]%contains_cut; auto. congruence.
Qed.
Lemma masked_contains k s t : opaque_value k -> masked s t -> contains k t = true -> contains k s = true.
Proof.
  intros Hk. induction 1 as [|a x b t _ IH]; [done|].
  intros [Ha|Ht]%marker_cut; [by apply contains_app_l| |done].
  by apply contains_app_r, contains_app_r, IH.
Qed.
Lemma masked_absent k s t : opaque_value k -> masked s t -> contains k s = false -> contains k t = false.
Proof. intros Hk Hm Hs. destruct (contains k t) eqn:E; [|done]. by rewrite (masked_contains k s t) in Hs. Qed.
Lemma replaced_absent k s : opaque_value k -> contains k (str_replace k REDACTED_DELEGATION_AUTHORITY s) = false.
Proof.
  intros Hk. apply str_replace_ind; [by destruct Hk|done|]. intros a b t Ha Ht.
  destruct (contains k (a ++ _)) eqn:E; [|done]. apply marker_cut in E as [E|E]; [congruence..|done].
Qed.
Lemma match_integer_prefix z : prefix_match (match_integer z).
Proof.
  intros prev s kept rest. unfold match_integer. destruct (_ && _); [|done]. intros [= <- <-].
  exists [], (take (length (int_repr z)) s). by rewrite take_drop.
Qed.
Lemma match_label_prefix `{Unicode} : prefix_match match_label.
Proof.
  intros prev s kept rest (p & x & s' & -> & (p' & y & s'' & -> & [= <- <-])%run_suffix)%run_suffix.
  by exists x, y.
Qed.

Lemma strings_absent k ks text : Forall opaque_value ks -> opaque_value k ->
  contains k text = false \/ k ∈ ks ->
  contains k (foldl (fun t k => str_replace k REDACTED_DELEGATION_AUTHORITY t) text ks) = false.
Proof.
  intros Hks Hk. revert text. induction Hks as [|k' ks Hk' _ IH]; intros text; cbn [foldl].
  { intros [?|?%elem_of_nil]; done. }
  intros [Hn|[->|Hin]%elem_of_cons]; apply IH; [left| |by right].
  - eapply masked_absent; [done| |exact Hn]. apply masked_replace. by destruct Hk'.
  - left. by apply replaced_absent.
Qed.
Lemma integers_absent k zs text : opaque_value k -> contains k text = false ->
  contains k (foldl (fun t z => sub_from (match_integer z) REDACTED_DELEGATION_AUTHORITY None 0 t) text zs) = false.
Proof.
  intros Hk. revert text. induction zs as [|z zs IH]; intros text Hn; cbn [foldl]; [done|].
  apply IH. eapply masked_absent; [done|apply masked_sub, match_integer_prefix|done].
Qed.
Lemma scrub_absent ks zs k text : Forall opaque_value ks -> k ∈ ks -> contains k (scrub_text ks zs text) = false.
Proof.
  intros Hks Hk. pose proof (proj1 (Forall_forall _ _) Hks k Hk). apply integers_absent; [done|].
  apply strings_absent; auto.
Qed.

(** Every text of a JSON value, keys included, and every integer in it *)
Fixpoint json_texts (j : json) : list str :=
  match j with
  | JStr s => [s]
  | JList l => concat (map json_texts l)
  | JDict d => concat (map (fun p => fst p :: json_texts (snd p)) d)
  | _ => []
  end.
Fixpoint json_ints (j : json) : list Z :=
  match j with
  | JInt z => [z]
  | JList l => concat (map json_ints l)
  | JDict d => concat (map (fun p => json_ints (snd p)) d)
  | _ => []
  end.

Lemma dict_put_Forall {A} (P : str * A -> Prop) k v d : P (k, v) -> Forall P d -> Forall P (dict_put k v d).
Proof.
  intros Hp. induction 1 as [|[k' v'] d Hkv Hd IH]; cbn [dict_put]; [by constructor|].
  case_bool_decide as E; [subst|]; by constructor.
Qed.
Lemma dict_of_Forall {A} (P : str * A -> Prop) l : Forall P l -> Forall P (dict_of l).
Proof.
  unfold dict_of. assert (Hd : Forall P []) by constructor. revert Hd. generalize (@nil (str * A)) as d.
  intros d Hd Hl. revert d Hd. induction Hl as [|[k v] l Hp _ IH]; intros d Hd; cbn [foldl]; [done|].
  apply IH. by apply dict_put_Forall.
Qed.
Lemma elem_of_concat_map {A B} (f : A -> list B) l y : y ∈ concat (map f l) <-> exists x, x ∈ l /\ y ∈ f x.
Proof.
  rewrite list_elem_of_In, <- flat_map_concat_map, in_flat_map.
  by split; intros (x & Hx & Hy); exists x; rewrite !list_elem_of_In in *.
Qed.

Section Absence.
Context `{Unicode} (ks : list str) (zs : list Z) (Hks : Forall opaque_value ks).

Lemma marker_absent k : opaque_value k -> contains k REDACTED_DELEGATION_AUTHORITY = false.
Proof.
  intros Hk. destruct (contains k _) eqn:E; [|done]. apply (marker_cut k [] []) in E; [|done].
  assert (Hn : contains k [] = false) by (destruct k; [by destruct Hk|done]). destruct E; congruence.
Qed.
Lemma sanitize_absent k j t : k ∈ ks -> t ∈ json_texts (sanitize ks zs j) -> contains k t = false.
Proof.
  intros Hk. pose proof (proj1 (Forall_forall _ _) Hks k Hk) as Ho.
  induction j as [|s|b|z|m e|l IH|d IH] using json_ind'; cbn [sanitize json_texts]; try by intros ?%elem_of_nil.
  - intros ->%list_elem_of_singleton. by apply scrub_absent.
  - case_bool_decide; cbn [json_texts]; [|by intros ?%elem_of_nil].
    intros ->%list_elem_of_singleton. by apply marker_absent.
  - rewrite map_map. intros (x & Hx & Ht)%elem_of_concat_map. by eapply (proj1 (Forall_forall _ _) IH).
  - intros (x & Hx & Ht)%elem_of_concat_map. revert x Hx Ht.
    apply (Forall_forall (fun x : str * json => t ∈ x.1 :: json_texts x.2 -> contains k t = false)).
    apply dict_of_Forall, Forall_fmap, (Forall_impl _ _ _ IH). intros [key v] IHv. cbn in *.
    intros [->|Ht]%elem_of_cons; [by apply scrub_absent|].
    destruct (is_sensitive_key key); [|by apply IHv]. apply list_elem_of_singleton in Ht as ->. by apply marker_absent.
Qed.
Lemma sanitize_ints z j : z ∈ zs -> z ∉ json_ints (sanitize ks zs j).
Proof.
  intros Hz. induction j as [|s|b|z'|m e|l IH|d IH] using json_ind'; cbn [sanitize json_ints];
    try by intros ?%elem_of_nil.
  - case_bool_decide; cbn [json_ints]; [by intros ?%elem_of_nil|]. by intros ->%list_elem_of_singleton.
  - rewrite map_map. intros (x & Hx & Ht)%elem_of_concat_map. by apply (proj1 (Forall_forall _ _) IH x).
  - intros (x & Hx & Ht)%elem_of_concat_map. revert x Hx Ht.
    apply (Forall_forall (fun x : str * json => z ∉ json_ints x.2)).
    apply dict_of_Forall, Forall_fmap, (Forall_impl _ _ _ IH). intros [key v] IHv. cbn in *.
    destruct (is_sensitive_key key); [by intros ?%elem_of_nil|done].
Qed.
End Absence.

(** ** Ordinary data survives *)
Fixpoint keys_distinct (j : json) : Prop :=
  match j with
  | JList l => foldr and True (map keys_distinct l)
  | JDict d => NoDup (map fst d) /\ foldr and True (map (fun p => keys_distinct (snd p)) d)
  | _ => True
  end.
Fixpoint json_keys (j : json) : list str :=
  match j with
  | JList l => concat (map json_keys l)
  | JDict d => concat (map (fun p => fst p :: json_keys (snd p)) d)
  | _ => []
  end.
Lemma replace_absent k s : k <> [] -> contains k s = false -> str_replace k REDACTED_DELEGATION_AUTHORITY s = s.
Proof.
  intros Hk Hs. destruct (replace_cases k REDACTED_DELEGATION_AUTHORITY Hk s) as [[_ E]|(a & b & -> & _)]; [done|].
  by rewrite contains_refl in Hs.
Qed.
Lemma scrub_ordinary ks s : Forall (fun k => k <> [] /\ contains k s = false) ks -> scrub_text ks [] s = s.
Proof.
  unfold scrub_text. cbn [foldl]. induction 1 as [|k ks [Hn Hk] _ IH]; cbn [foldl]; [done|].
  by rewrite replace_absent.
Qed.
Lemma dict_put_new {A} k (v : A) d : k ∉ map fst d -> dict_put k v d = d ++ [(k, v)].
Proof.
  induction d as [|[k' v'] d IH]; cbn; [done|]. intros [Hne Hn]%not_elem_of_cons.
  rewrite bool_decide_eq_false_2 by done. by rewrite IH.
Qed.
Lemma dict_of_distinct {A} (l : list (str * A)) : NoDup (map fst l) -> dict_of l = l.
Proof.
  unfold dict_of. change l with ([] ++ l) at 1 3. generalize (@nil (str * A)) as d. induction l as [|[k v] l IH];
    intros d; cbn [foldl]; [by rewrite app_nil_r|]. intros Hnd. cbn [fst snd].
  assert (Hk : k ∉ map fst d).
  { rewrite map_app in Hnd. cbn in Hnd. apply NoDup_app in Hnd as (_ & Hd & _). intros Hin.
    apply (Hd k Hin). by left. }
  rewrite dict_put_new by done. specialize (IH (d ++ [(k, v)])). rewrite <- !app_assoc in IH. by apply IH.
Qed.
Lemma sanitize_ordinary `{Unicode} ks j :
  keys_distinct j -> (forall key, key ∈ json_keys j -> is_sensitive_key key = false) ->
  (forall t, t ∈ json_texts j -> redact_labels t = t /\ Forall (fun k => k <> [] /\ contains k t = false) ks) ->
  sanitize ks [] j = j.
Proof.
  induction j as [|s|b|z|m e|l IH|d IH] using json_ind'; cbn [sanitize json_texts json_keys keys_distinct];
    intros Hd Hk Ht; try done.
  - f_equal. destruct (Ht s) as [Hl Hs]; [by left|]. unfold sanitize_text. rewrite Hl. by apply scrub_ordinary.
  - f_equal. rewrite <- (map_id l) at 2. apply map_ext_in. intros x Hx%list_elem_of_In.
    apply (proj1 (Forall_forall _ _) IH x Hx).
    + clear -Hd Hx. induction l as [|y l IHl]; [by apply elem_of_nil in Hx|]. cbn in Hd.
      apply elem_of_cons in Hx as [->|Hx]; [tauto|]. apply IHl; tauto.
    + intros key Hin. apply Hk. apply elem_of_concat_map. by exists x.
    + intros t Hin. apply Ht. apply elem_of_concat_map. by exists x.
  - f_equal. destruct Hd as [Hnd Hd].
    assert (E : map (fun p => (scrub_text ks [] p.1, if is_sensitive_key p.1
                  then JStr REDACTED_DELEGATION_AUTHORITY else sanitize ks [] p.2)) d = d).
    { rewrite <- (map_id d) at 2. apply map_ext_in. intros [key x] Hx%list_elem_of_In. cbn [fst snd].
      assert (Hkey : forall t, t ∈ key :: json_texts x -> t ∈ concat (map (fun p => p.1 :: json_texts p.2) d))
        by (intros t Hin; apply elem_of_concat_map; by exists (key, x)).
      rewrite scrub_ordinary by (apply Ht, Hkey; by left). rewrite Hk by (apply elem_of_concat_map; exists (key, x); split; [done|by left]).
      f_equal. apply (proj1 (Forall_forall _ _) IH (key, x) Hx).
      + clear -Hd Hx. induction d as [|y d IHl]; [by apply elem_of_nil in Hx|]. cbn in Hd.
        apply elem_of_cons in Hx as [<-|Hx]; [tauto|]. apply IHl; tauto.
      + intros k Hin. apply Hk. apply elem_of_concat_map. exists (key, x). split; [done|by right].
      + intros t Hin. apply Ht, Hkey. by right. }
    by rewrite E, dict_of_distinct.
Qed.

Lemma authority_strings_elem authority k : AuthStr k ∈ authority -> k <> [] -> k ∈ authority_strings authority.
Proof.
  intros Hin Hk. unfold authority_strings. rewrite order_by_perm. apply elem_of_remove_dups.
  apply list_elem_of_omap. exists (AuthStr k). by destruct k.
Qed.
Lemma authority_strings_from authority k : k ∈ authority_strings authority -> AuthStr k ∈ authority.
Proof.
  unfold authority_strings. rewrite order_by_perm, elem_of_remove_dups, list_elem_of_omap.
  intros ([s|z] & Hin & E); [|done]. destruct (empty_str s); [done|]. by injection E as <-.
Qed.
Lemma authority_integers_elem authority z : AuthInt z ∈ authority -> 0 < z -> z ∈ authority_integers authority.
Proof.
  intros Hin Hz. unfold authority_integers. rewrite order_by_perm. apply elem_of_remove_dups.
  apply list_elem_of_omap. exists (AuthInt z). split; [done|]. by rewrite (proj2 (Z.gtb_lt z 0)).
Qed.

(** What the projection leaves of texts *)
Lemma projected_clean `{Unicode} summary details authority :
  (forall k, AuthStr k ∈ authority -> opaque_value k) ->
  let '(summary', details') := project_delegated_result summary details authority in
  (forall k t, AuthStr k ∈ authority -> summary' = Some t -> contains k t = false) /\
  (forall k t, AuthStr k ∈ authority -> t ∈ json_texts details' -> contains k t = false).
Proof.
  intros Ha. cbn.
  assert (Hks : Forall opaque_value (authority_strings authority))
    by (apply Forall_forall; intros k Hk; by apply Ha, authority_strings_from).
  split.
  - intros k t Hk Ht. destruct summary as [s|]; [|done]. injection Ht as <-.
    apply scrub_absent; [done|]. apply authority_strings_elem; [done|by apply Ha].
  - intros k t Hk Ht. eapply sanitize_absent; [done| |exact Ht].
    apply authority_strings_elem; [done|by apply Ha].
Qed.

(** ** Properties *)

(** C21: no authority value of the child's lineage crosses the delegation
    boundary.  When every known string is one the marker cannot complete (an
    identifier, a token or a digest is), none of them occurs anywhere in the
    projected summary, nor in any text or key of the projected details, however
    the child quoted, nested or labelled it, and no known positive integer is left in
    the details (the code does not collect a known integer of zero or below, so such a
    one may stay).  When no positive integer is known, details whose objects have
    distinct keys and that hold no sensitive key, no label and no known string are
    projected unchanged. *)
Theorem no_authority_crosses `{Unicode} summary details authority :
  (forall k, AuthStr k ∈ authority -> opaque_value k) ->
  let '(summary', details') := project_delegated_result summary details authority in
  (forall k t, AuthStr k ∈ authority -> summary' = Some t -> contains k t = false) /\
  (forall k t, AuthStr k ∈ authority -> t ∈ json_texts details' -> contains k t = false) /\
  (forall z, AuthInt z ∈ authority -> 0 < z -> z ∉ json_ints details') /\
  (keys_distinct details -> authority_integers authority = [] ->
   (forall key, key ∈ json_keys details -> is_sensitive_key key = false) ->
   (forall t, t ∈ json_texts details ->
      redact_labels t = t /\ forall k, AuthStr k ∈ authority -> contains k t = false) ->
   details' = details).
Proof.
  intros Ha. pose proof (projected_clean summary details authority Ha) as Hc. cbn in Hc |- *. destruct Hc as [Hsum Htext].
  split_and!; [done..| |].
  - intros z Hz Hp. by apply sanitize_ints, authority_integers_elem.
  - intros Hd Hi Hk Ht. unfold sanitize_delegation_result_value. rewrite Hi. apply sanitize_ordinary; [done..|].
    intros t Hin. destruct (Ht t Hin) as [Hl Hc]. split; [done|]. apply Forall_forall.
    intros k Hin'%authority_strings_from. split; [by apply Ha|by apply Hc].
Qed.

(** A claim token smuggled out under a harmless key, in the middle of a sentence *)
Definition toy_token : str := u "f47ac10b-58cc-4372".
Lemma no_authority_crosses_witness :
  let details := JDict [(u "note", JStr (u "use " ++ toy_token ++ u " twice")); (toy_token, JInt 3)] in
  @project_delegated_result ascii_unicode (Some (u "done: " ++ toy_token)) details [AuthStr toy_token] =
    (Some (u "done: [redacted]"), JDict [(u "note", JStr (u "use [redacted] twice")); (u "[redacted]", JInt 3)]) /\
  (forall t, t ∈ json_texts (snd (@project_delegated_result ascii_unicode None details [AuthStr toy_token])) ->
     contains toy_token t = false).
Proof.
  cbv zeta. split; [vm_compute; reflexivity|].
  pose proof (@no_authority_crosses ascii_unicode None
    (JDict [(u "note", JStr (u "use " ++ toy_token ++ u " twice")); (toy_token, JInt 3)]) [AuthStr toy_token]) as Hp.
  destruct (project_delegated_result _ _ _) as [s' d'].
  destruct Hp as (_ & Hp & _).
  { intros k [= ->]%list_elem_of_singleton. apply handle_opaque; [reflexivity|]. vm_compute. reflexivity. }
  intros t. apply Hp. apply list_elem_of_singleton. reflexivity.
Defined.
