(* ===== verification/MemoryQuery.v ===== *)
(** * Memory queries and their audit records

    [src/friday/application/memory/query_builder.py] and the query, write and
    audit values of [memory/models.py].  Proved: a built query keeps its caps and
    holds no term twice, and the hash that the audit stores depends only on the
    case-folded sets of the query's fields. *)

From S2P Require Import Prelude Values Canonical PyText Regex MemoryContext.

Open Scope Z_scope.

(** ** [MemoryQuery] *)
Record MemoryQuery : Type := mkQuery {
  mq_terms : list str; mq_phrases : list str; mq_tags : list str; mq_titles : list str }.
Definition query_empty (q : MemoryQuery) : bool :=
  match mq_terms q, mq_phrases q, mq_tags q, mq_titles q with [], [], [], [] => true | _, _, _, _ => false end.
Definition MemoryQuery_check (q : MemoryQuery) : res MemoryQuery :=
  if query_empty q then Raise (ValueError "MemoryQuery must not be wholly empty") else Ok q.

Section Hash.
Context `{Digest} `{Unicode}.

(** [sorted({x.casefold() for x in field})] *)
Definition folded (field : list str) : list str := order_by id (remove_dups (map casefold field)).
Definition query_hash (q : MemoryQuery) : res str :=
  let strings (l : list str) := JList (map JStr l) in
  let normalized := JDict [(u "terms", strings (folded (mq_terms q))); (u "phrases", strings (folded (mq_phrases q)));
                           (u "tags", strings (folded (mq_tags q))); (u "titles", strings (folded (mq_titles q)))] in
  res_bind (encode (json_dumps true normalized)) (fun bytes => Ok (sha256_hex bytes)).
End Hash.

(** ** Writes ([MemoryWriteCandidate]) *)
Inductive MemoryWriteOperation : Type := CREATE_NOTE | APPEND_MANAGED_NOTE.
Definition memory_write_operation_value (o : MemoryWriteOperation) : string :=
  match o with CREATE_NOTE => "create_note" | APPEND_MANAGED_NOTE => "append_managed_note" end.
Record MemoryWriteCandidate : Type := mkWriteCandidate {
  mw_operation : MemoryWriteOperation; mw_path : str; mw_observed_content_hash : option str; mw_payload : str;
  mw_frontmatter : list (str * str); mw_memory_category : str }.
Definition MemoryWriteCandidate_check (x : MemoryWriteCandidate) : res MemoryWriteCandidate :=
  res_bind (ensure_relative_path (mw_path x)) (fun _ =>
  match mw_operation x, mw_observed_content_hash x with
  | APPEND_MANAGED_NOTE, None =>
      Raise (ValueError "MemoryWriteCandidate.observed_content_hash is required for append_managed_note")
  | CREATE_NOTE, Some _ =>
      Raise (ValueError "MemoryWriteCandidate.observed_content_hash must be None for create_note")
  | _, _ => Ok x
  end).

(** ** Audit ([MemoryRetrievalItem], [MemoryRetrievalRecord]) *)
Record MemoryRetrievalItem : Type := mkRetrievalItem {
  ri_path : str; ri_heading : option str; ri_start_line : Z; ri_end_line : Z; ri_content_hash : str;
  ri_rank : Z; ri_methods : list RetrievalMethod; ri_truncated : bool }.
Definition MemoryRetrievalItem_check (x : MemoryRetrievalItem) : res MemoryRetrievalItem :=
  res_bind (ensure_relative_path (ri_path x)) (fun _ =>
  res_bind (check_lines (ri_start_line x) (ri_end_line x)) (fun _ => Ok x)).

(** [id] is [str(uuid.uuid4())], a plain string in the code *)
Record MemoryRetrievalRecord : Type := mkRetrievalRecord {
  mr_id : MemoryRetrievalRecordId; mr_run_id : RunId; mr_turn_number : Z; mr_query_hash : str;
  mr_source_snapshot_id : option str; mr_index_snapshot_id : option str; mr_created_at : Z;
  mr_candidate_count : Z; mr_selected_count : Z; mr_items : list MemoryRetrievalItem }.

(** ** [query_builder.py] *)
Definition DEFAULT_MAX_TERMS : Z := 20.
Definition DEFAULT_MAX_PHRASES : Z := 5.
Definition DEFAULT_MAX_TAGS : Z := 10.
Definition DEFAULT_MAX_TITLES : Z := 10.
Definition DEFAULT_MAX_TERM_LENGTH : Z := 100.
Definition DEFAULT_MIN_TOKEN_LENGTH : Z := 2.

Definition STOPWORDS : list str :=
  map u
    ["a"; "about"; "above"; "after"; "again"; "all"; "also"; "am"; "an"; "and"; "any"; "are"; "as"; "at"; "be";
     "because"; "been"; "before"; "being"; "below"; "between"; "both"; "but"; "by"; "can"; "could"; "did"; "do";
     "does"; "done"; "down"; "each"; "few"; "for"; "from"; "further"; "had"; "has"; "have"; "having"; "here";
     "how"; "i"; "if"; "in"; "into"; "is"; "it"; "its"; "just"; "may"; "me"; "might"; "more"; "most"; "my"; "no";
     "nor"; "not"; "now"; "of"; "off"; "on"; "once"; "only"; "or"; "other"; "our"; "out"; "over"; "own"; "per";
     "said"; "same"; "shall"; "she"; "should"; "so"; "some"; "such"; "than"; "that"; "the"; "their"; "them";
     "then"; "there"; "these"; "they"; "this"; "those"; "through"; "to"; "too"; "under"; "up"; "upon"; "very";
     "was"; "we"; "were"; "what"; "when"; "where"; "which"; "while"; "who"; "why"; "will"; "with"; "would";
     "you"]%string.

(** [RunSnapshot] of the builder: the allowed sources of a query *)
Record MemoryRunSnapshot : Type := mkMemorySnapshot {
  ms_task_title : str; ms_task_description : str; ms_objective : str; ms_step_names : list str;
  ms_failure_codes : list str; ms_tool_names : list str; ms_memory_search_term : option str }.

Record MemoryQueryBuilder : Type := mkQueryBuilder {
  qb_max_terms : Z; qb_max_phrases : Z; qb_max_tags : Z; qb_max_titles : Z; qb_max_term_length : Z;
  qb_min_token_length : Z }.
Definition default_query_builder : MemoryQueryBuilder :=
  mkQueryBuilder DEFAULT_MAX_TERMS DEFAULT_MAX_PHRASES DEFAULT_MAX_TAGS DEFAULT_MAX_TITLES
    DEFAULT_MAX_TERM_LENGTH DEFAULT_MIN_TOKEN_LENGTH.
Definition MemoryQueryBuilder_check (b : MemoryQueryBuilder) : res MemoryQueryBuilder :=
  if qb_max_terms b <? 1 then Raise (ValueError "max_terms must be >= 1")
  else if qb_max_phrases b <? 1 then Raise (ValueError "max_phrases must be >= 1")
  else if qb_max_tags b <? 1 then Raise (ValueError "max_tags must be >= 1")
  else if qb_max_titles b <? 1 then Raise (ValueError "max_titles must be >= 1")
  else if qb_max_term_length b <? 1 then Raise (ValueError "max_term_length must be >= 1")
  else if qb_min_token_length b <? 1 then Raise (ValueError "min_token_length must be >= 1")
  else Ok b.

Section Builder.
Context `{Unicode}.

Definition normalize_text (text : str) : str := casefold (strip text).
Definition is_valid_term (min_length max_length : Z) (token : str) : bool :=
  (min_length <=? len token) && (len token <=? max_length) && negb (bool_decide (token ∈ STOPWORDS)).

(** [_TOKEN_SPLIT.split(text)] without its empty pieces: the maximal runs of word
    characters *)
Fixpoint word_runs (word : str) (s : str) : list str :=
  match s with
  | [] => match word with [] => [] | _ => [reverse word] end
  | c :: s' =>
      if is_word c then word_runs (c :: word) s'
      else match word with [] => word_runs [] s' | _ => reverse word :: word_runs [] s' end
  end.
(** The loop both functions share: keep the items whose key is new and not
    empty, as [f] of the item *)
Fixpoint first_seen (f : str -> str) (seen : list str) (items : list str) : list str :=
  match items with
  | [] => []
  | item :: items' =>
      let key := casefold item in
      if negb (empty_str key) && negb (bool_decide (key ∈ seen))
      then f item :: first_seen f (key :: seen) items'
      else first_seen f seen items'
  end.
Definition split_into_tokens (text : str) : list str := first_seen casefold [] (word_runs [] text).
Definition dedupe_preserve_order (items : list str) : list str := first_seen id [] items.
Definition cap (limit : Z) (items : list str) : list str :=
  if len items <=? limit then items else take (Z.to_nat limit) items.
(** [re.sub(r"[{}():;`]", "", term)] *)
Definition strip_graphify (term : str) : str :=
  List.filter (fun c => negb (bool_decide (c ∈ u "{}():;`"))) term.
(** [if x: items.append(x)] *)
Definition present (items : list str) : list str := List.filter (fun x => negb (empty_str x)) items.

(** [MemoryQueryBuilder.build] *)
Definition build_query (b : MemoryQueryBuilder) (s : MemoryRunSnapshot) : option MemoryQuery :=
  let description := List.filter (is_valid_term (qb_min_token_length b) (qb_max_term_length b))
                       (map strip_graphify (split_into_tokens (ms_task_description s))) in
  let tools := map strip_graphify (present (map normalize_text (ms_tool_names s))) in
  let terms := cap (qb_max_terms b) (dedupe_preserve_order (description ++ tools)) in
  let search := match ms_memory_search_term s with Some t => present [normalize_text t] | None => [] end in
  let phrases := cap (qb_max_phrases b) (dedupe_preserve_order (present [normalize_text (ms_objective s)] ++ search)) in
  let tags := cap (qb_max_tags b) (dedupe_preserve_order (present (map normalize_text (ms_failure_codes s)))) in
  let titles := cap (qb_max_titles b)
                  (dedupe_preserve_order (present (map normalize_text (ms_task_title s :: ms_step_names s)))) in
  let q := mkQuery terms phrases tags titles in
  if query_empty q then None else Some q.
End Builder.

Example build_query_ex :
  @build_query ascii_unicode default_query_builder
    (mkMemorySnapshot (u "Buy milk") (u "Buy the milk, the oat milk!") (u "Buy milk") [u "Plan"; u "plan "] []
       [u "fs.read"] None)
  = Some (mkQuery [u "buy"; u "milk"; u "oat"; u "fs.read"] [u "buy milk"] [] [u "buy milk"; u "plan"]).
Proof. vm_compute. reflexivity. Qed.

Section Facts.
Context `{Unicode}.

Lemma first_seen_NoDup f seen items :
  (forall x, casefold (f x) = casefold x) ->
  NoDup (map casefold (first_seen f seen items)) /\
  Forall (fun x => casefold x ∉ seen /\ casefold x <> []) (first_seen f seen items).
Proof.
  intros Hf. revert seen. induction items as [|x items IH]; intros seen; cbn [first_seen].
  { split; constructor. }
  destruct (negb (empty_str (casefold x)) && negb (bool_decide (casefold x ∈ seen))) eqn:E; [|apply IH].
  apply andb_true_iff in E as [E1 E2%negb_true_iff%bool_decide_eq_false].
  destruct (IH (casefold x :: seen)) as [Hnd Hall]. cbn. rewrite Hf. split.
  - apply NoDup_cons. split; [|done]. rewrite list_elem_of_fmap. intros (y & Hy & Hin).
    rewrite Forall_forall in Hall. apply Hall in Hin as [Hin _]. rewrite <- Hy in Hin. by apply Hin; left.
  - constructor; [rewrite Hf; split; [done|by intros E; rewrite E in E1]|].
    eapply Forall_impl; [exact Hall|]. intros y [Hy Hne]. split; [|done]. intros ?. by apply Hy; right.
Qed.

Lemma cap_len n l : 0 <= n -> len (cap n l) <= n.
Proof. intros Hn. unfold cap, len. case_match; [lia|]. rewrite length_take. lia. Qed.
Lemma cap_prefix n l : exists rest, l = cap n l ++ rest.
Proof.
  unfold cap. case_match; [exists []; by rewrite app_nil_r|].
  exists (drop (Z.to_nat n) l). by rewrite take_drop.
Qed.

(** One field of a built query: capped, without repetitions under case folding,
    and without empty entries *)
Definition field_ok (n : Z) (l : list str) : Prop :=
  len l <= n /\ NoDup (map casefold l) /\ Forall (fun x => casefold x <> []) l.
Lemma field_built n l : 0 <= n -> field_ok n (cap n (dedupe_preserve_order l)).
Proof.
  intros Hn. destruct (first_seen_NoDup id [] l ltac:(done)) as [Hnd Hall].
  destruct (cap_prefix n (dedupe_preserve_order l)) as [rest E]. unfold dedupe_preserve_order in *.
  split; [by apply cap_len|]. rewrite E in Hnd, Hall. rewrite map_app in Hnd. apply NoDup_app in Hnd as [Hnd _].
  apply Forall_app in Hall as [Hall _]. split; [done|]. eapply Forall_impl; [exact Hall|]. by intros x [_ ?].
Qed.

(** A built query is a [MemoryQuery] within the caps of its builder. *)
Lemma build_query_ok b s q :
  MemoryQueryBuilder_check b = Ok b -> build_query b s = Some q ->
  MemoryQuery_check q = Ok q /\ field_ok (qb_max_terms b) (mq_terms q) /\
  field_ok (qb_max_phrases b) (mq_phrases q) /\ field_ok (qb_max_tags b) (mq_tags q) /\
  field_ok (qb_max_titles b) (mq_titles q).
Proof.
  unfold MemoryQueryBuilder_check, build_query, MemoryQuery_check. intros Hb.
  repeat match type of Hb with (if ?x then _ else _) = _ => destruct x eqn:?; [discriminate Hb|] end.
  set (fields := mkQuery _ _ _ _). destruct (query_empty fields) eqn:E; [done|]. intros [= <-]. rewrite E.
  split; [done|]. split_and!; apply field_built; lia.
Qed.
End Facts.

(** Queries with the same case-folded fields, in any order and with any
    repetitions, have the same hash. *)
Lemma folded_set `{Unicode} l l' :
  (forall x, x ∈ map casefold l <-> x ∈ map casefold l') -> folded l = folded l'.
Proof.
  intros Hl. unfold folded. apply order_by_unique; [done|].
  apply NoDup_Permutation; try apply NoDup_remove_dups. intros x. by rewrite !elem_of_remove_dups.
Qed.
Lemma query_hash_set `{Digest} `{Unicode} q q' :
  (forall field, field ∈ [mq_terms; mq_phrases; mq_tags; mq_titles] ->
     forall x, x ∈ map casefold (field q) <-> x ∈ map casefold (field q')) ->
  query_hash q = query_hash q'.
Proof.
  intros Hq. unfold query_hash. rewrite (folded_set (mq_terms q) (mq_terms q')), (folded_set (mq_phrases q) (mq_phrases q')),
    (folded_set (mq_tags q) (mq_tags q')), (folded_set (mq_titles q) (mq_titles q')); [done|..];
    apply Hq; set_solver.
Qed.
