(* ===== verification/JsonText.v ===== *)
(** * Reading JSON text

    [json.loads] on a string, as the evaluators and the parser of candidates use
    it: the C scanner of the standard library with its extensions ([NaN],
    [Infinity], duplicate keys, lone surrogates), the correctly rounded
    conversion of decimal literals, and the limit on the digits of an integer.
    Nesting is not bounded, and the sign of a zero float is not kept. *)

From S2P Require Import Prelude Values RetryPolicy.

Open Scope Z_scope.

(** ** Binary floating point *)
Fixpoint strip_twos (p : positive) (e : Z) : Z * Z :=
  match p with xO p' => strip_twos p' (e + 1) | _ => (Zpos p, e) end.
(** [m * 2^e] with an odd mantissa *)
Definition normal_float (m e : Z) : Z * Z :=
  match m with
  | Z0 => (0, 0)
  | Zpos p => strip_twos p e
  | Zneg p => let '(m', e') := strip_twos p e in (- m', e')
  end.
(** The double nearest to [num / den] for positive [num] and [den], ties to even; [None] on overflow *)
Definition nearest_double (num den : Z) : option (Z * Z) :=
  let l := Z.log2 num - Z.log2 den in
  let at_least k := if 0 <=? k then den * 2 ^ k <=? num else den <=? num * 2 ^ (- k) in
  let e := Z.max ((if at_least l then l else l - 1) - 52) (-1074) in
  let m := if 0 <=? e then divide_nearest num (den * 2 ^ e) else divide_nearest (num * 2 ^ (- e)) den in
  if (0 <=? e) && (2 ^ 1024 <=? m * 2 ^ e) then None else Some (normal_float m e).
Definition float_of_ratio (num den : Z) : option (Z * Z) :=
  if num =? 0 then Some (0, 0)
  else if 0 <? num then nearest_double num den
  else match nearest_double (- num) den with Some (m, e) => Some (- m, e) | None => None end.

(** ** The scanner *)
Definition JSONDecodeError : exn := OtherError "JSONDecodeError".
Definition bad_json {A} : res A := Raise JSONDecodeError.
Definition is_ws (c : Z) : bool := (c =? 32) || (c =? 9) || (c =? 10) || (c =? 13).
Fixpoint skip_ws (s : str) : str :=
  match s with c :: s' => if is_ws c then skip_ws s' else s | [] => [] end.
Definition is_digit (c : Z) : bool := (48 <=? c) && (c <=? 57).
Definition hex_value (c : Z) : option Z :=
  if is_digit c then Some (c - 48)
  else if (97 <=? c) && (c <=? 102) then Some (c - 87)
  else if (65 <=? c) && (c <=? 70) then Some (c - 55)
  else None.
Definition hex4 (s : str) : option (Z * str) :=
  match s with
  | a :: b :: c :: d :: s' =>
      match hex_value a, hex_value b, hex_value c, hex_value d with
      | Some a, Some b, Some c, Some d => Some (((a * 16 + b) * 16 + c) * 16 + d, s')
      | _, _, _, _ => None
      end
  | _ => None
  end.

(** [\uXXXX], where a high surrogate takes the low one that follows it *)
Definition scan_u (s : str) : option (Z * str) :=
  match hex4 s with
  | Some (c, s') =>
      if (55296 <=? c) && (c <=? 56319) then
        match s' with
        | 92 :: 117 :: s'' =>
            match hex4 s'' with
            | Some (c2, s3) =>
                if (56320 <=? c2) && (c2 <=? 57343)
                then Some (65536 + (c - 55296) * 1024 + (c2 - 56320), s3)
                else Some (c, s')
            | None => None
            end
        | _ => Some (c, s')
        end
      else Some (c, s')
  | None => None
  end.
Definition simple_escape (c : Z) : option Z :=
  if (c =? 34) || (c =? 92) || (c =? 47) then Some c
  else if c =? 98 then Some 8 else if c =? 102 then Some 12 else if c =? 110 then Some 10
  else if c =? 114 then Some 13 else if c =? 116 then Some 9 else None.
(** The rest of a string after its opening quote *)
Fixpoint scan_string (fuel : nat) (s : str) : res (str * str) :=
  match fuel with
  | O => bad_json
  | S fuel' =>
      match s with
      | [] => bad_json
      | 34 :: s' => Ok ([], s')
      | 92 :: 117 :: s' =>
          match scan_u s' with
          | Some (c, s'') => res_bind (scan_string fuel' s'') (fun '(t, rest) => Ok (c :: t, rest))
          | None => bad_json
          end
      | 92 :: c :: s' =>
          match simple_escape c with
          | Some c' => res_bind (scan_string fuel' s') (fun '(t, rest) => Ok (c' :: t, rest))
          | None => bad_json
          end
      | c :: s' =>
          if c <? 32 then bad_json
          else res_bind (scan_string fuel' s') (fun '(t, rest) => Ok (c :: t, rest))
      end
  end.

(** ** Numbers *)
Fixpoint digits (s : str) : str * str :=
  match s with
  | c :: s' => if is_digit c then let '(ds, rest) := digits s' in (c :: ds, rest) else ([], s)
  | [] => ([], [])
  end.
Definition decimal (ds : str) : Z := foldl (fun n c => n * 10 + (c - 48)) 0 ds.
Definition MAX_INT_DIGITS : Z := 4300.
(** A zero, or digits that do not start with one *)
Definition scan_integer (s : str) : option (str * str) :=
  match s with
  | c :: s' =>
      if c =? 48 then Some ([48], s')
      else if is_digit c then Some (digits s) else None
  | [] => None
  end.
Definition scan_fraction (s : str) : str * str :=
  match s with
  | 46 :: s' => match digits s' with ([], _) => ([], s) | p => p end
  | _ => ([], s)
  end.
Definition exponent_sign (s : str) : Z * str :=
  match s with 45 :: r => (-1, r) | 43 :: r => (1, r) | _ => (1, s) end.
Definition scan_exponent (s : str) : option (Z * str) :=
  match s with
  | c :: s' =>
      if (c =? 101) || (c =? 69) then
        let '(sign, s'') := exponent_sign s' in
        match digits s'' with ([], _) => None | (ds, rest) => Some (sign * decimal ds, rest) end
      else None
  | [] => None
  end.
Definition number (neg : bool) (int frac : str) (exponent : option Z) : res pyval :=
  let sign n := if neg then - n else n in
  match frac, exponent with
  | [], None =>
      if len int >? MAX_INT_DIGITS
      then Raise (ValueError "Exceeds the limit (4300 digits) for integer string conversion")
      else Ok (PyInt (sign (decimal int)))
  | _, _ =>
      let e := default 0 exponent - len frac in
      let n := decimal (int ++ frac) in
      let v := if 0 <=? e then float_of_ratio (sign (n * 10 ^ e)) 1
               else float_of_ratio (sign n) (10 ^ (- e)) in
      Ok (match v with Some (m, e) => PyFloat m e | None => PyNonFinite false end)
  end.
Definition scan_number (neg : bool) (s : str) : res (pyval * str) :=
  match scan_integer s with
  | Some (int, s1) =>
      let '(frac, s2) := scan_fraction s1 in
      let '(exponent, s3) := match scan_exponent s2 with Some (e, r) => (Some e, r) | None => (None, s2) end in
      res_bind (number neg int frac exponent) (fun v => Ok (v, s3))
  | None => bad_json
  end.

(** ** Values *)
(** [d[key] = value] *)
Fixpoint dict_set (k : str) (v : pyval) (d : list (pyval * pyval)) : list (pyval * pyval) :=
  match d with
  | [] => [(PyStr k, v)]
  | (PyStr k', v') :: d' => if bool_decide (k = k') then (PyStr k, v) :: d' else (PyStr k', v') :: dict_set k v d'
  | p :: d' => p :: dict_set k v d'
  end.
(** A keyword at the head of the text *)
Fixpoint after_word (w s : str) : option str :=
  match w, s with
  | [], _ => Some s
  | c :: w', c' :: s' => if c =? c' then after_word w' s' else None
  | _ :: _, [] => None
  end.
Definition words : list (str * pyval) :=
  [(u "null", PyNone); (u "true", PyBool true); (u "false", PyBool false); (u "NaN", PyNonFinite true);
   (u "Infinity", PyNonFinite false); (u "-Infinity", PyNonFinite false)].
Fixpoint scan_word (ws : list (str * pyval)) (s : str) : option (pyval * str) :=
  match ws with
  | [] => None
  | (w, v) :: ws' => match after_word w s with Some rest => Some (v, rest) | None => scan_word ws' s end
  end.
(** One expected character *)
Definition expect (c : Z) (s : str) : option str :=
  match s with c' :: s' => if c =? c' then Some s' else None | [] => None end.
Fixpoint scan_value (fuel : nat) (s : str) {struct fuel} : res (pyval * str) :=
  match fuel with
  | O => bad_json
  | S fuel' =>
      match expect 34 s, expect 123 s, expect 91 s with
      | Some s', _, _ => res_bind (scan_string fuel' s') (fun p => Ok (PyStr (fst p), snd p))
      | _, Some s', _ =>
          match expect 125 (skip_ws s') with
          | Some rest => Ok (PyDict [], rest)
          | None => scan_members fuel' [] (skip_ws s')
          end
      | _, _, Some s' =>
          match expect 93 (skip_ws s') with
          | Some rest => Ok (PyList [], rest)
          | None => scan_elements fuel' [] (skip_ws s')
          end
      | _, _, _ =>
          match scan_word words s, expect 45 s with
          | Some p, _ => Ok p
          | None, Some s' => scan_number true s'
          | None, None => scan_number false s
          end
      end
  end
(** The members of an object whose opening brace and space have been read, and the
    elements of an array, with what was read so far *)
with scan_members (fuel : nat) (d : list (pyval * pyval)) (s : str) {struct fuel} : res (pyval * str) :=
  match fuel with
  | O => bad_json
  | S fuel' =>
      match expect 34 s with
      | Some s' =>
          res_bind (scan_string fuel' s') (fun k =>
          match expect 58 (skip_ws (snd k)) with
          | Some s2 =>
              res_bind (scan_value fuel' (skip_ws s2)) (fun v =>
              let d' := dict_set (fst k) (fst v) d in
              match expect 44 (skip_ws (snd v)), expect 125 (skip_ws (snd v)) with
              | Some s4, _ => scan_members fuel' d' (skip_ws s4)
              | None, Some rest => Ok (PyDict d', rest)
              | None, None => bad_json
              end)
          | None => bad_json
          end)
      | None => bad_json
      end
  end
with scan_elements (fuel : nat) (l : list pyval) (s : str) {struct fuel} : res (pyval * str) :=
  match fuel with
  | O => bad_json
  | S fuel' =>
      res_bind (scan_value fuel' s) (fun v =>
      match expect 44 (skip_ws (snd v)), expect 93 (skip_ws (snd v)) with
      | Some s2, _ => scan_elements fuel' (l ++ [fst v]) (skip_ws s2)
      | None, Some rest => Ok (PyList (l ++ [fst v]), rest)
      | None, None => bad_json
      end)
  end.

(** Of two nested calls one reads a character, so twice the length of the text is
    fuel enough ([scan_fuel]). *)
Definition json_fuel (s : str) : nat := 2 * length s + 1.
Definition json_loads (s : str) : res pyval :=
  match s with
  | 65279 :: _ => bad_json
  | _ => match scan_value (json_fuel s) (skip_ws s) with
         | Ok (v, rest) => if empty_str (skip_ws rest) then Ok v else bad_json
         | Raise e => Raise e
         end
  end.

Example json_loads_ex :
  json_loads (u "{ 'a' : [1, -2.5e1, 0.1], 'b': NaN, 'a': 'x\u00e9\n' } " ) = bad_json /\
  json_loads (map (fun c => if c =? 39 then 34 else c) (u "{ 'a' : [1, -2.5e1, 0.1], 'b': NaN, 'c': 'x\ud83d\ude00', 'b':{}} "))
  = Ok (PyDict [(PyStr (u "a"), PyList [PyInt 1; PyFloat (-25) 0; PyFloat 3602879701896397 (-55)]);
                (PyStr (u "b"), PyDict []); (PyStr (u "c"), PyStr [120; 128512])]).
Proof. vm_compute. auto. Qed.

(** ** Enough fuel *)
Lemma skip_ws_length s : (length (skip_ws s) <= length s)%nat.
Proof. induction s as [|c s IH]; cbn; [lia|]. destruct (is_ws c); cbn; lia. Qed.
Lemma hex4_length s c s' : hex4 s = Some (c, s') -> (length s' < length s)%nat.
Proof. unfold hex4. repeat case_match; intros E; simplify_eq; cbn; lia. Qed.
Lemma scan_u_length s c s' : scan_u s = Some (c, s') -> (length s' < length s)%nat.
Proof.
  unfold scan_u. destruct (hex4 s) as [[a r]|] eqn:E; [|done]. apply hex4_length in E.
  repeat case_match; intros [= <- <-]; try done.
  match goal with H : hex4 _ = Some _ |- _ => apply hex4_length in H end. cbn in *. lia.
Qed.
Lemma scan_string_length n s t r : scan_string n s = Ok (t, r) -> (length r < length s)%nat.
Proof.
  revert s t r. induction n as [|n IH]; intros s t r; [done|]. cbn [scan_string].
  assert (Hk : forall c s1, (length s1 < length s)%nat ->
    res_bind (scan_string n s1) (fun '(t0, rest) => Ok (c :: t0, rest)) = Ok (t, r) -> (length r < length s)%nat).
  { intros c s1 Hl E. destruct (scan_string n s1) as [[t1 r1]|] eqn:E1; [|done]. injection E as _ <-.
    apply IH in E1. lia. }
  repeat case_match; intros E; simplify_eq; try (eapply Hk; [|exact E]; cbn; try lia); cbn; try lia.
  match goal with H : scan_u _ = Some _ |- _ => apply scan_u_length in H end. cbn in *. lia.
Qed.
Lemma digits_length s : (length (snd (digits s)) <= length s)%nat.
Proof. induction s as [|c s IH]; cbn; [lia|]. destruct (is_digit c), (digits s); cbn in *; lia. Qed.
Lemma scan_integer_length s ds r : scan_integer s = Some (ds, r) -> (length r < length s)%nat.
Proof.
  destruct s as [|c s]; [done|]. cbn. destruct (c =? 48); [intros [= _ <-]; lia|].
  pose proof (digits_length s) as Hd. destruct (is_digit c); [|done]. destruct (digits s). intros [= _ <-]. cbn in *. lia.
Qed.
Lemma scan_fraction_length s : (length (snd (scan_fraction s)) <= length s)%nat.
Proof.
  unfold scan_fraction. repeat case_match; subst; cbn; try lia.
  match goal with H : digits ?x = _ |- _ => pose proof (digits_length x) as Hd; rewrite H in Hd end. cbn in *. lia.
Qed.
Lemma exponent_sign_length s : (length (snd (exponent_sign s)) <= length s)%nat.
Proof. unfold exponent_sign. repeat case_match; subst; cbn; lia. Qed.
Lemma scan_exponent_length s e r : scan_exponent s = Some (e, r) -> (length r <= length s)%nat.
Proof.
  destruct s as [|c s]; [done|]. unfold scan_exponent. destruct (_ || _); [|done].
  pose proof (exponent_sign_length s) as Hs. destruct (exponent_sign s) as [sg x]. cbn in Hs.
  pose proof (digits_length x) as Hd. destruct (digits x) as [[|d ds] rest]; [done|].
  intros [= _ <-]. cbn in *. lia.
Qed.
Lemma scan_number_length neg s v r : scan_number neg s = Ok (v, r) -> (length r < length s)%nat.
Proof.
  unfold scan_number. destruct (scan_integer s) as [[int s1]|] eqn:E1; [|done]. apply scan_integer_length in E1.
  pose proof (scan_fraction_length s1) as H2. destruct (scan_fraction s1) as [frac s2]. cbn in H2.
  destruct (scan_exponent s2) as [[e r3]|] eqn:E3.
  - apply scan_exponent_length in E3. destruct (number _ _ _ _); [|done]. intros [= _ <-]. lia.
  - destruct (number _ _ _ _); [|done]. intros [= _ <-]. lia.
Qed.
Lemma after_word_length w s r : after_word w s = Some r -> (length s = length w + length r)%nat.
Proof.
  revert s. induction w as [|c w IH]; intros s; cbn; [by intros [= ->]|]. destruct s as [|c' s]; [done|].
  destruct (c =? c'); [|done]. intros E%IH. cbn. lia.
Qed.
Lemma scan_word_length ws s v r : Forall (fun p : str * pyval => fst p <> []) ws ->
  scan_word ws s = Some (v, r) -> (length r < length s)%nat.
Proof.
  induction 1 as [|[w x] ws Hw _ IH]; cbn; [done|]. destruct (after_word w s) as [rest|] eqn:E; [|done].
  intros [= _ <-]. apply after_word_length in E. destruct w; [done|]. cbn in E. lia.
Qed.
Lemma expect_length c s r : expect c s = Some r -> (length r < length s)%nat.
Proof. destruct s as [|c' s]; [done|]. cbn. destruct (c =? c'); [|done]. intros [= <-]. lia. Qed.
Lemma words_nonempty : Forall (fun p : str * pyval => fst p <> []) words.
Proof. repeat (constructor; [done|]). constructor. Qed.

(** Bring in the length of everything the goal has read. *)
Ltac lengths :=
  repeat match goal with
  | H : expect ?c ?s = Some ?r |- _ => pose proof (expect_length c s r H); clear H
  | H : scan_string ?n ?s = Ok ?p |- _ => destruct p; apply scan_string_length in H
  | H : scan_number _ _ = Ok (_, _) |- _ => apply scan_number_length in H
  | H : scan_word words _ = Some (_, _) |- _ => apply (scan_word_length _ _ _ _ words_nonempty) in H
  | H : context [length (skip_ws ?s)] |- _ =>
      lazymatch goal with _ : (length (skip_ws s) <= length s)%nat |- _ => fail | _ => idtac end; pose proof (skip_ws_length s)
  | |- context [length (skip_ws ?s)] =>
      lazymatch goal with _ : (length (skip_ws s) <= length s)%nat |- _ => fail | _ => idtac end; pose proof (skip_ws_length s)
  end; cbn [fst snd] in *; try lia.
Lemma scan_length n :
  (forall s v r, scan_value n s = Ok (v, r) -> (length r < length s)%nat) /\
  (forall d s v r, scan_members n d s = Ok (v, r) -> (length r < length s)%nat) /\
  (forall l s v r, scan_elements n l s = Ok (v, r) -> (length r < length s)%nat).
Proof.
  induction n as [|n (IHv & IHm & IHe)]; [done|]. split_and!.
  - intros s v r. cbn [scan_value].
    destruct (expect 34 s) as [s1|] eqn:?; [destruct (scan_string n s1) as [p|] eqn:?; [|done]; intros [= _ <-]; lengths|].
    destruct (expect 123 s) eqn:?; [destruct (expect 125 _) eqn:?; [intros [= _ <-]|intros E%IHm]; lengths|].
    destruct (expect 91 s) eqn:?; [destruct (expect 93 _) eqn:?; [intros [= _ <-]|intros E%IHe]; lengths|].
    destruct (scan_word words s) as [[v' r']|] eqn:?; [intros [= _ <-]; lengths|].
    destruct (expect 45 s) eqn:?; intros E; lengths.
  - intros d s v r. cbn [scan_members]. destruct (expect 34 s) as [s1|] eqn:?; [|done].
    destruct (scan_string n s1) as [k|] eqn:?; [|done]. cbn [res_bind]. destruct (expect 58 _) as [s2|] eqn:?; [|done].
    destruct (scan_value n (skip_ws s2)) as [[v' r']|] eqn:Ev; [|done]. apply IHv in Ev. cbn [res_bind fst snd].
    destruct (expect 44 _) as [s4|] eqn:?; [intros E%IHm; lengths|].
    destruct (expect 125 _) eqn:?; [|done]. intros [= _ <-]. lengths.
  - intros l s v r. cbn [scan_elements]. destruct (scan_value n s) as [[v' r']|] eqn:Ev; [|done]. apply IHv in Ev.
    cbn [res_bind fst snd]. destruct (expect 44 _) as [s2|] eqn:?; [intros E%IHe; lengths|].
    destruct (expect 93 _) eqn:?; [|done]. intros [= _ <-]. lengths.
Qed.
Lemma scan_string_fuel n m s : (length s < n)%nat -> (length s < m)%nat -> scan_string n s = scan_string m s.
Proof.
  revert m s. induction n as [|n IH]; intros m s Hn Hm; [lia|]. destruct m as [|m]; [lia|]. cbn [scan_string].
  repeat case_match; try done; try (rewrite (IH m); cbn in *; [done|lia..]).
  match goal with H : scan_u _ = Some _ |- _ => apply scan_u_length in H end. rewrite (IH m); cbn in *; [done|lia..].
Qed.
(** The result does not depend on the fuel once there is enough of it. *)
Lemma scan_fuel n :
  (forall m s, (2 * length s < n)%nat -> (2 * length s < m)%nat -> scan_value n s = scan_value m s) /\
  (forall m d s, (2 * length s < n)%nat -> (2 * length s < m)%nat -> scan_members n d s = scan_members m d s) /\
  (forall m l s, (2 * length s + 1 < n)%nat -> (2 * length s + 1 < m)%nat ->
     scan_elements n l s = scan_elements m l s).
Proof.
  induction n as [|n (IHv & IHm & IHe)]; [split_and!; intros; lia|]. split_and!.
  - intros [|m] s Hn Hm; [lia|]. cbn [scan_value].
    destruct (expect 34 s) eqn:?; [lengths; rewrite (scan_string_fuel n m) by lia; done|].
    destruct (expect 123 s) eqn:?; [lengths; rewrite (IHm m) by lengths; done|].
    destruct (expect 91 s) eqn:?; [lengths; rewrite (IHe m) by lengths; done|]. done.
  - intros [|m] d s Hn Hm; [lia|]. cbn [scan_members]. destruct (expect 34 s) as [s1|] eqn:?; [|done].
    lengths. rewrite (scan_string_fuel n m) by lia. destruct (scan_string m s1) as [k|] eqn:?; [|done].
    cbn [res_bind]. lengths. destruct (expect 58 _) as [s2|] eqn:?; [|done]. rewrite (IHv m) by lengths.
    destruct (scan_value m (skip_ws s2)) as [[v r]|] eqn:Ev; [|done]. apply (proj1 (scan_length m)) in Ev.
    cbn [res_bind fst snd]. destruct (expect 44 _) as [s4|] eqn:?; [|done]. apply IHm; lengths.
  - intros [|m] l s Hn Hm; [lia|]. cbn [scan_elements]. rewrite (IHv m) by lia.
    destruct (scan_value m s) as [[v r]|] eqn:Ev; [|done]. apply (proj1 (scan_length m)) in Ev.
    cbn [res_bind fst snd]. destruct (expect 44 _) as [s2|] eqn:?; [|done]. apply IHe; lengths.
Qed.
Lemma json_loads_fuel n s : (json_fuel s <= n)%nat ->
  scan_value n (skip_ws s) = scan_value (json_fuel s) (skip_ws s).
Proof. unfold json_fuel. intros Hn. pose proof (skip_ws_length s). apply scan_fuel; lia. Qed.
