(* ===== verification/JsonPrint.v ===== *)
(** * What a printed JSON value says

    [json.dumps(value, sort_keys=True, separators=(",", ":"))] loses nothing but the
    order of dictionary entries and the representation of floats: values that print
    alike are equal when their dictionaries are sorted and their floats reduced
    ([json_dumps_inj]).  The digests of the domain are digests of such texts. *)

From stdpp Require Import pretty.
From S2P Require Import Prelude Values RetryPolicy JsonText Canonical.

Open Scope Z_scope.

(** What the digests rely on of [float.__repr__]: it is made of digits, signs, points and
    exponents, is no integer literal, and determines the float. *)
Definition number_char (c : Z) : bool := is_digit c || bool_decide (c ∈ [43; 45; 46; 101]).
Definition float_mark (c : Z) : bool := (c =? 46) || (c =? 101).
Class FloatRepr `{Digest} : Prop := {
  float_repr_chars : forall m e, Forall (fun c => number_char c = true) (float_repr m e);
  float_repr_marked : forall m e, existsb float_mark (float_repr m e) = true;
  float_repr_value : forall m e m' e', float_repr m e = float_repr m' e' -> normal_float m e = normal_float m' e' }.

(** A text of Unicode scalar values: lone surrogates would print like the character that
    a pair of them stands for. *)
Definition scalar (c : Z) : bool := (0 <=? c) && (c <? 1114112) && negb ((55296 <=? c) && (c <? 57344)).
Definition plain (s : str) : bool := forallb scalar s.
Fixpoint plain_json (j : json) : Prop :=
  match j with
  | JStr s => plain s = true
  | JList l => (fix go (l : list json) : Prop := match l with [] => True | x :: l' => plain_json x /\ go l' end) l
  | JDict d =>
      NoDup (map fst d) /\
      (fix go (d : list (str * json)) : Prop :=
         match d with [] => True | p :: d' => (plain (fst p) = true /\ plain_json (snd p)) /\ go d' end) d
  | _ => True
  end.
(** Sorted dictionaries, reduced floats *)
Fixpoint normal_json (j : json) : json :=
  match j with
  | JFloat m e => let '(m', e') := normal_float m e in JFloat m' e'
  | JList l => JList (map normal_json l)
  | JDict d => JDict (order_by fst (map (fun p => (fst p, normal_json (snd p))) d))
  | _ => j
  end.

Lemma plain_list l : plain_json (JList l) <-> Forall plain_json l.
Proof. cbn. induction l as [|x l IH]; [by split; [constructor|]|]. rewrite Forall_cons. by rewrite IH. Qed.
Lemma plain_dict d : plain_json (JDict d) <->
  NoDup (map fst d) /\ Forall (fun p => plain (fst p) = true /\ plain_json (snd p)) d.
Proof.
  cbn. f_equiv. induction d as [|p d IH]; [by split; [constructor|]|]. rewrite Forall_cons. by rewrite IH.
Qed.

(** ** Strings *)
Lemma hex_digit_value d : 0 <= d < 16 -> hex_value (hex_digit d) = Some d.
Proof.
  intros Hd. assert (d ∈ [0;1;2;3;4;5;6;7;8;9;10;11;12;13;14;15]) as Hin.
  { rewrite !elem_of_cons, elem_of_nil. lia. }
  clear Hd. revert d Hin. apply Forall_forall. repeat (constructor; [reflexivity|]). constructor.
Qed.
Lemma u_escape_value c r : 0 <= c < 65536 -> hex4 (drop 2 (u_escape c) ++ r) = Some (c, r).
Proof.
  intros Hc. unfold u_escape. cbn [drop app]. unfold hex4.
  rewrite !hex_digit_value by (apply Z.mod_pos_bound; lia). f_equal. f_equal.
  rewrite (Z.mod_small (c / 4096)) by (split; [apply Z.div_pos; lia|apply Z.div_lt_upper_bound; lia]).
  pose proof (Z.div_mod c 16 ltac:(lia)). pose proof (Z.div_mod (c / 16) 16 ltac:(lia)).
  pose proof (Z.div_mod (c / 256) 16 ltac:(lia)).
  assert (E1 : c / 16 / 16 = c / 256) by (rewrite Z.div_div by lia; done).
  assert (E2 : c / 256 / 16 = c / 4096) by (rewrite Z.div_div by lia; done).
  rewrite E1 in *. rewrite E2 in *. lia.
Qed.
Lemma u_escape_head c : u_escape c = 92 :: 117 :: drop 2 (u_escape c).
Proof. done. Qed.

(** The scanner reads back what the encoder wrote for one character. *)
Lemma scan_escaped fuel c r :
  scalar c = true ->
  scan_string (S fuel) (escape_char true c ++ r) =
  res_bind (scan_string fuel r) (fun '(t, rest) => Ok (c :: t, rest)).
Proof.
  unfold scalar. intros Hc. unfold escape_char.
  repeat match goal with
  | |- context [if ?c =? ?k then _ else _] => destruct (Z.eqb_spec c k) as [->|?]; [reflexivity|]
  end.
  assert (Hu : forall c', 0 <= c' < 65536 -> negb ((55296 <=? c') && (c' <? 57344)) = true ->
    scan_string (S fuel) (u_escape c' ++ r) = res_bind (scan_string fuel r) (fun '(t, rest) => Ok (c' :: t, rest))).
  { intros c' Hb Hs. rewrite u_escape_head. cbn [app scan_string]. unfold scan_u. rewrite u_escape_value by done.
    replace ((55296 <=? c') && (c' <=? 56319)) with false by lia. done. }
  destruct (c <? 32) eqn:E1; [apply Hu; lia|]. cbn [andb]. destruct (127 <=? c) eqn:E2; cbn [andb].
  - destruct (c <? 65536) eqn:E3; [apply Hu; lia|]. clear Hu.
    set (v := c - 65536). assert (0 <= v < 1048576) by lia.
    assert (Hh : 0 <= v / 1024 < 1024) by (split; [apply Z.div_pos; lia|apply Z.div_lt_upper_bound; lia]).
    rewrite (Z.mod_small (v / 1024)) by done. pose proof (Z.mod_pos_bound v 1024 ltac:(lia)) as Hl.
    rewrite <- app_assoc, u_escape_head. cbn [app scan_string]. unfold scan_u. rewrite u_escape_value by lia.
    replace ((55296 <=? 55296 + v / 1024) && (55296 + v / 1024 <=? 56319)) with true by lia.
    rewrite u_escape_head. cbn [app]. rewrite u_escape_value by lia.
    replace ((56320 <=? 56320 + v mod 1024) && (56320 + v mod 1024 <=? 57343)) with true by lia.
    replace (65536 + (55296 + v / 1024 - 55296) * 1024 + (56320 + v mod 1024 - 56320)) with c; [done|].
    pose proof (Z.div_mod v 1024 ltac:(lia)). lia.
  - cbn [app]. cbn [scan_string]. rewrite E1. repeat (case_match; try done); congruence.
Qed.
Lemma scan_quoted s r fuel : plain s = true -> (length s < fuel)%nat ->
  scan_string fuel (concat (map (escape_char true) s) ++ 34 :: r) = Ok (s, r).
Proof.
  revert fuel. induction s as [|c s IH]; intros [|fuel] Hp Hf; try (cbn in Hf; lia); [done|].
  cbn [plain forallb] in Hp. apply andb_true_iff in Hp as [Hc Hp]. cbn [map concat]. rewrite <- app_assoc.
  rewrite scan_escaped by done. rewrite IH; [done|done|cbn in Hf; lia].
Qed.
Lemma quote_inj s s' r r' : plain s = true -> plain s' = true ->
  quote true s ++ r = quote true s' ++ r' -> s = s' /\ r = r'.
Proof.
  unfold quote. intros Hs Hs' E. rewrite <- !app_assoc in E. injection E as E.
  set (fuel := S (length s + length s')). pose proof (scan_quoted s r fuel Hs ltac:(lia)) as H1.
  pose proof (scan_quoted s' r' fuel Hs' ltac:(lia)) as H2. cbn [app] in E. rewrite E, H2 in H1. by injection H1 as -> ->.
Qed.

(** ** Numbers *)
Lemma u_inj s s' : u s = u s' -> s = s'.
Proof.
  revert s'. induction s as [|c s IH]; intros [|c' s']; try done. cbn. intros [= Hc Hs].
  f_equal; [|by apply IH]. apply N2Z.inj in Hc. rewrite <- (Ascii.ascii_N_embedding c), Hc. apply Ascii.ascii_N_embedding.
Qed.
Lemma u_app s s' : u (s +:+ s') = u s ++ u s'.
Proof.
  induction s as [|c s IH]; [done|]. change (u (String c s +:+ s')) with (Z.of_N (Ascii.N_of_ascii c) :: u (s +:+ s')). by rewrite IH.
Qed.
Lemma int_repr_inj z z' : int_repr z = int_repr z' -> z = z'.
Proof. intros E%u_inj. by apply (inj pretty). Qed.

Definition digit_string (s : string) : Prop := Forall (fun c => is_digit c = true) (u s).
Lemma pretty_go_digits x s : digit_string s -> digit_string (pretty_N_go x s).
Proof.
  revert s. induction (N.lt_wf_0 x) as [x _ IH]; intros s Hs.
  destruct (decide (x = 0)%N) as [->|Hx]; [by rewrite pretty_N_go_0|].
  rewrite pretty_N_go_step by lia. apply IH; [apply N.div_lt; lia|]. unfold digit_string. cbn [u].
  constructor; [|done]. unfold pretty_N_char. by repeat case_match.
Qed.
Lemma pretty_digits (n : N) : digit_string (pretty n : string) /\ u (pretty n) <> [].
Proof.
  unfold pretty, pretty_N. case_decide as Hn; [split; [by repeat constructor|done]|]. split; [by apply pretty_go_digits; constructor|].
  intros E. assert (pretty_N_go n "" = "") as E' by (by destruct (pretty_N_go n "")).
  assert (pretty n = pretty 0%N) as Hp; [|by apply (inj pretty) in Hp].
  destruct (pretty_N_go_ne_0 n ""); [done|]. exfalso. revert E'. clear -Hn.
  assert (Hlen : forall x s, (String.length s <= String.length (pretty_N_go x s))%nat).
  { intros x. induction (N.lt_wf_0 x) as [x _ IH]; intros s.
    destruct (decide (x = 0)%N) as [->|Hx]; [by rewrite pretty_N_go_0|]. rewrite pretty_N_go_step by lia.
    etrans; [|apply IH, N.div_lt; lia]. cbn. lia. }
  intros E. rewrite pretty_N_go_step in E by lia.
  specialize (Hlen (n `div` 10)%N (String (pretty_N_char (n `mod` 10)) "")). rewrite E in Hlen. cbn in Hlen. lia.
Qed.
Definition int_char (c : Z) : bool := is_digit c || (c =? 45).
Lemma int_repr_chars z : Forall (fun c => int_char c = true) (int_repr z) /\ int_repr z <> [].
Proof.
  assert (Hn : forall n : N, Forall (fun c => int_char c = true) (u (pretty n)) /\ u (pretty n) <> []).
  { intros n. destruct (pretty_digits n) as [Hd Hne]. split; [|done]. eapply Forall_impl; [exact Hd|].
    intros c Hc. unfold int_char. by rewrite Hc. }
  unfold int_repr. destruct z as [|p|p].
  - split; [by repeat constructor|done].
  - apply (Hn (N.pos p)).
  - change (pretty (Zneg p)) with ("-" +:+ pretty (N.pos p)). rewrite u_app. cbn [u app].
    split; [|done]. constructor; [done|apply Hn].
Qed.

(** A run of characters of one class ends where the class does. *)
Definition ends (P : Z -> bool) (r : str) : Prop := match r with [] => True | c :: _ => P c = false end.
Lemma run_split P a b r r' :
  Forall (fun c => P c = true) a -> Forall (fun c => P c = true) b ->
  ends P r -> ends P r' -> a ++ r = b ++ r' -> a = b /\ r = r'.
Proof.
  intros Ha. revert b. induction Ha as [|c a Hc Ha IH]; intros b Hb Hr Hr' E.
  - destruct b as [|c b]; [done|]. apply Forall_cons in Hb as [Hc _]. cbn in E. subst r. cbn in Hr. congruence.
  - destruct b as [|c' b].
    + cbn in E. subst r'. cbn in Hr'. congruence.
    + apply Forall_cons in Hb as [_ Hb]. injection E as -> E. by destruct (IH b Hb Hr Hr' E) as [-> ->].
Qed.
(** What may follow a number *)
Abbreviation ends_number := (ends number_char).
Lemma int_number c : int_char c = true -> number_char c = true.
Proof.
  unfold int_char, number_char. intros [->|Hc]%orb_true_iff; [done|]. apply Z.eqb_eq in Hc as ->. by rewrite orb_true_r.
Qed.

(** ** Values *)
Section Injective.
Context `{FloatRepr}.
Abbreviation dumps := (json_dumps true).

(** How each kind of value begins *)
Definition head_of (j : json) (c : Z) : Prop :=
  match j with
  | JNull => c = 110 | JBool b => c = (if b then 116 else 102) | JStr _ => c = 34 | JList _ => c = 91 | JDict _ => c = 123
  | JInt _ | JFloat _ _ => number_char c = true
  end.
Lemma dumps_head j : exists c s, dumps j = c :: s /\ head_of j c.
Proof.
  destruct j as [|s|[]|z|m e|l|d]; try by (eexists _, _; split; [reflexivity|done]).
  - cbn. destruct (int_repr_chars z) as [Hc Hn]. destruct (int_repr z) as [|c s]; [done|]. apply Forall_cons in Hc as [Hc _].
    exists c, s. split; [done|by apply int_number].
  - cbn. pose proof (float_repr_chars m e) as Hc. pose proof (float_repr_marked m e) as Hm.
    destruct (float_repr m e) as [|c s]; [done|]. apply Forall_cons in Hc as [Hc _]. by exists c, s.
Qed.
(** Values of different kinds begin differently. *)
Definition kind_of (j : json) : Z :=
  match j with
  | JNull => 0 | JStr _ => 1 | JBool true => 2 | JBool false => 3 | JInt _ | JFloat _ _ => 4 | JList _ => 5 | JDict _ => 6
  end.
Lemma same_kind j j' r r' : dumps j ++ r = dumps j' ++ r' -> kind_of j = kind_of j'.
Proof.
  destruct (dumps_head j) as (c & s & -> & Hc), (dumps_head j') as (c' & s' & -> & Hc'). intros [= -> _].
  assert (Hn : forall k, k ∈ [110; 116; 102; 34; 91; 123] -> number_char k = false).
  { apply Forall_forall. repeat (constructor; [reflexivity|]). constructor. }
  destruct j as [|?|[]|?|? ?|?|?], j' as [|?|[]|?|? ?|?|?]; cbn [head_of kind_of] in *; try done; subst; try done;
    rewrite Hn in *; try done; rewrite !elem_of_cons; tauto.
Qed.
Lemma number_inj j j' r r' :
  kind_of j = 4 -> kind_of j' = 4 -> ends_number r -> ends_number r' ->
  dumps j ++ r = dumps j' ++ r' -> normal_json j = normal_json j' /\ r = r'.
Proof.
  assert (Hi : forall z, Forall (fun c => number_char c = true) (int_repr z)).
  { intros z. eapply Forall_impl; [apply int_repr_chars|]. apply int_number. }
  assert (Hd : forall z m e, int_repr z <> float_repr m e).
  { intros z m e E. pose proof (float_repr_marked m e) as Hm. rewrite <- E in Hm. apply existsb_exists in Hm as (c & Hin & Hc).
    pose proof (proj1 (Forall_forall _ _) (proj1 (int_repr_chars z)) c (proj2 (list_elem_of_In _ _) Hin)) as Hic.
    revert Hc Hic. unfold float_mark, int_char, is_digit. lia. }
  destruct j as [|?|[]|z|m e|?|?]; try done; destruct j' as [|?|[]|z'|m' e'|?|?]; try done; intros _ _ Hr Hr' E;
    cbn [json_dumps] in E; apply (run_split number_char) in E as [E ->]; auto using float_repr_chars.
  - by apply int_repr_inj in E as ->.
  - by apply Hd in E.
  - symmetry in E. by apply Hd in E.
  - apply float_repr_value in E. cbn. by rewrite E.
Qed.

(** A separated list ends where its bracket says.  [f] prints an element, [n] is what the
    text tells of it. *)
Lemma join_cons (s : str) ss : join [44] (s :: ss) = s ++ concat (map (fun s => 44 :: s) ss).
Proof.
  revert s. induction ss as [|t ss IH]; intros s; [by rewrite app_nil_r|].
  change (join [44] (s :: t :: ss)) with (s ++ [44] ++ join [44] (t :: ss)). by rewrite IH.
Qed.
Section Separated.
Context {A B} (f : A -> str) (n : A -> B) (close : Z) (l l' : list A).
Context (Hclose : close <> 44 /\ number_char close = false).
Context (Hhead : forall a, a ∈ l \/ a ∈ l' -> exists c s, f a = c :: s /\ c <> close).
Context (Hinj : forall a a' x x', a ∈ l -> a' ∈ l' -> ends_number x -> ends_number x' ->
  f a ++ x = f a' ++ x' -> n a = n a' /\ x = x').
Lemma tail_ends (m : list A) r : ends_number (concat (map (fun s => 44 :: s) (map f m)) ++ close :: r).
Proof. destruct m as [|a m]; [apply Hclose|done]. Qed.
Lemma tails_inj m m' r r' : m ⊆ l -> m' ⊆ l' ->
  concat (map (fun s => 44 :: s) (map f m)) ++ close :: r = concat (map (fun s => 44 :: s) (map f m')) ++ close :: r' ->
  map n m = map n m' /\ r = r'.
Proof.
  revert m'. induction m as [|a m IH]; intros [|a' m'] Hm Hm' E; cbn [map concat app] in E.
  - by injection E.
  - injection E as E _. by destruct Hclose.
  - injection E as E _. by destruct Hclose.
  - injection E as E. rewrite <- !app_assoc in E.
    apply Hinj in E as [Ha E]; [|apply Hm; left|apply Hm'; left|apply tail_ends|apply tail_ends].
    destruct (IH m') as [Et Er]; [set_solver|set_solver|exact E|]. cbn [map]. by rewrite Ha, Et.
Qed.
Lemma joined_inj m m' r r' : m ⊆ l -> m' ⊆ l' ->
  join [44] (map f m) ++ close :: r = join [44] (map f m') ++ close :: r' -> map n m = map n m' /\ r = r'.
Proof.
  intros Hm Hm'. destruct m as [|a m], m' as [|a' m']; cbn [map]; rewrite ?join_cons; intros E.
  - by injection E.
  - destruct (Hhead a') as (c & s & Hs & Hc); [right; apply Hm'; left|]. rewrite Hs in E. injection E as E _. by destruct Hc.
  - destruct (Hhead a) as (c & s & Hs & Hc); [left; apply Hm; left|]. rewrite Hs in E. injection E as E _. by destruct Hc.
  - rewrite <- !app_assoc in E.
    apply Hinj in E as [Ha E]; [|apply Hm; left|apply Hm'; left|apply tail_ends|apply tail_ends].
    apply tails_inj in E as [Et Er]; [|set_solver..]. by rewrite Ha, Et.
Qed.
End Separated.

(** Sorting by key sees the keys only. *)
Lemma order_by_values {V W} (g : V -> W) (d : list (str * V)) :
  NoDup (map fst d) ->
  order_by fst (map (fun p => (fst p, g (snd p))) d) = map (fun p => (fst p, g (snd p))) (order_by fst d).
Proof.
  intros Hnd. apply (StronglySorted_unique_strong (key_le fst)).
  - intros x y Hx%elem_of_order_by Hy Hxy Hyx.
    apply list_elem_of_fmap in Hx as ([k v] & -> & Hx). apply list_elem_of_fmap in Hy as ([k' v'] & -> & Hy%elem_of_order_by).
    unfold key_le in *. cbn in *. assert (k = k') as -> by by apply lex_le_antisymm. by rewrite (assoc_unique d k' v v').
  - apply order_by_sorted.
  - pose proof (order_by_sorted fst d) as Hs. induction Hs as [|p d' Hs IH Hp]; cbn; constructor; [done|].
    apply Forall_fmap. eapply Forall_impl; [exact Hp|]. by intros q.
  - by rewrite !order_by_perm.
Qed.

(** Values that print alike are the same up to order of entries and form of floats. *)
Theorem json_dumps_inj j j' r r' :
  plain_json j -> plain_json j' -> ends_number r -> ends_number r' ->
  dumps j ++ r = dumps j' ++ r' -> normal_json j = normal_json j' /\ r = r'.
Proof.
  revert j' r r'. induction j as [|s|b|z|m e|l IH|d IH] using json_ind'; intros j' r r' Hp Hp' Hr Hr' E;
    pose proof (same_kind _ _ _ _ E) as Hk.
  - destruct j' as [|?|[]|?|? ?|?|?]; try done. by injection E as ->.
  - destruct j' as [|s'|[]|?|? ?|?|?]; try done. apply quote_inj in E as [-> ->]; done.
  - destruct b, j' as [|?|[]|?|? ?|?|?]; try done; by injection E as ->.
  - by apply number_inj.
  - by apply number_inj.
  - destruct j' as [|?|[]|?|? ?|l'|?]; try done. cbn [json_dumps] in E. rewrite <- !app_assoc in E. apply (inj (app [91])) in E.
    apply plain_list in Hp, Hp'. rewrite Forall_forall in IH, Hp, Hp'.
    apply (joined_inj dumps normal_json 93 l l') in E as [E ->]; [cbn; by rewrite E|done| | |done|done].
    + intros a _. destruct (dumps_head a) as (c & s & Hs & Hc). exists c, s. split; [done|].
      intros ->. by destruct a as [|?|[]|?|? ?|?|?].
    + intros a a' x x' Ha Ha' Hx Hx' Ea. by apply IH; [|apply Hp|apply Hp'|..].
  - destruct j' as [|?|[]|?|? ?|?|d']; try done. cbn [json_dumps] in E. rewrite <- !app_assoc in E. apply (inj (app [123])) in E.
    apply plain_dict in Hp as [Hnd Hp], Hp' as [Hnd' Hp']. rewrite Forall_forall in IH, Hp, Hp'.
    cbn [normal_json]. rewrite !(order_by_values _ _ Hnd), !(order_by_values _ _ Hnd') in *. rewrite !map_map in E.
    apply (joined_inj _ (fun p => (fst p, normal_json (snd p))) 125 (order_by fst d) (order_by fst d')) in E as [E ->];
      [by rewrite E|done| | |done|done].
    + intros a _. eexists _, _. split; [reflexivity|done].
    + intros [k v] [k' v'] x x' Ha%elem_of_order_by Ha'%elem_of_order_by Hx Hx' Ea. cbn [fst snd] in Ea.
      rewrite <- !app_assoc in Ea. destruct (Hp _ Ha) as [Hpk Hpv], (Hp' _ Ha') as [Hpk' Hpv'].
      apply quote_inj in Ea as [-> Ea]; [|done..]. apply (inj (app [58])) in Ea.
      destruct (IH _ Ha v' x x' Hpv Hpv' Hx Hx' Ea) as [-> ->]. done.
Qed.

(** ** The bytes of a text *)
Definition ascii_text (s : str) : Prop := Forall (fun c => 0 <= c < 128) s.
Lemma encode_ascii s : ascii_text s -> encode s = Ok s.
Proof.
  induction 1 as [|c s Hc _ IH]; [done|]. cbn [encode]. unfold utf8_char. replace (c <? 128) with true by lia.
  cbn [res_bind]. by rewrite IH.
Qed.
Lemma number_ascii s : Forall (fun c => number_char c = true) s -> ascii_text s.
Proof.
  intros Hs. eapply Forall_impl; [exact Hs|]. intros c. unfold number_char, is_digit.
  intros [Hc|Hc]%orb_true_iff; [lia|]. apply bool_decide_eq_true in Hc. rewrite !elem_of_cons, elem_of_nil in Hc. lia.
Qed.
Lemma hex_ascii d : 0 <= d < 16 -> 0 <= hex_digit d < 128.
Proof. intros Hd. unfold hex_digit. case_match; lia. Qed.
Lemma u_escape_ascii c : ascii_text (u_escape c).
Proof. unfold u_escape. repeat (constructor; [first [lia | apply hex_ascii, Z.mod_pos_bound; lia]|]). constructor. Qed.
Lemma quote_ascii s : plain s = true -> ascii_text (quote true s).
Proof.
  intros Hs. unfold quote. apply Forall_app. split; [by repeat constructor|]. apply Forall_app. split; [|by repeat constructor].
  apply Forall_concat, Forall_fmap, Forall_forall. intros c Hc. apply list_elem_of_In in Hc.
  pose proof (proj1 (forallb_forall _ _) Hs c Hc) as Hsc. unfold scalar in Hsc. cbn. unfold escape_char.
  repeat (case_match; [first [apply u_escape_ascii | by repeat constructor]|]).
  destruct (127 <=? c) eqn:E; cbn [andb]; [destruct (c <? 65536); [apply u_escape_ascii|apply Forall_app; split; apply u_escape_ascii]|].
  repeat constructor; lia.
Qed.
Lemma join_ascii ss : Forall ascii_text ss -> ascii_text (join [44] ss).
Proof.
  intros Hs. destruct Hs as [|s ss Hs Hss]; [constructor|]. rewrite join_cons. apply Forall_app. split; [done|].
  apply Forall_concat, Forall_fmap. eapply Forall_impl; [exact Hss|]. intros t Ht. constructor; [lia|done].
Qed.
Lemma dumps_ascii j : plain_json j -> ascii_text (dumps j).
Proof.
  induction j as [|s|b|z|m e|l IH|d IH] using json_ind'; intros Hp; cbn [json_dumps].
  - by repeat constructor.
  - by apply quote_ascii.
  - destruct b; by repeat constructor.
  - apply number_ascii. eapply Forall_impl; [apply int_repr_chars|]. apply int_number.
  - apply number_ascii, float_repr_chars.
  - apply plain_list in Hp. rewrite Forall_forall in IH, Hp. apply Forall_app. split; [by repeat constructor|].
    apply Forall_app. split; [|by repeat constructor]. apply join_ascii, Forall_fmap, Forall_forall. intros x Hx.
    by apply IH, Hp.
  - apply plain_dict in Hp as [Hnd Hp]. rewrite Forall_forall in IH, Hp. apply Forall_app. split; [by repeat constructor|].
    apply Forall_app. split; [|by repeat constructor]. apply join_ascii, Forall_fmap, Forall_forall.
    intros q Hq%elem_of_order_by. apply list_elem_of_fmap in Hq as (p & -> & Hx). destruct (Hp p Hx). cbn [fst snd].
    apply Forall_app. split; [by apply quote_ascii|]. constructor; [lia|]. by apply IH.
Qed.
(** Equal bytes are bytes of equal values. *)
Lemma dumps_bytes_inj j j' b :
  plain_json j -> plain_json j' -> encode (dumps j) = Ok b -> encode (dumps j') = Ok b -> normal_json j = normal_json j'.
Proof.
  intros Hj Hj'. rewrite !encode_ascii by by apply dumps_ascii. intros [= Eb] [= Eb'].
  apply (json_dumps_inj j j' [] []); [done..|]. by rewrite !app_nil_r, Eb, Eb'.
Qed.
End Injective.

Lemma toy_float_repr : @FloatRepr toy_digest.
Proof.
  assert (Hi : forall z, Forall (fun c => number_char c = true) (int_repr z)).
  { intros z. eapply Forall_impl; [apply int_repr_chars|]. apply int_number. }
  split; cbn.
  - intros m e. apply Forall_app. split; [done|]. by constructor.
  - intros m e. rewrite existsb_app. cbn. by rewrite orb_true_r.
  - intros m e m' e' E. apply (run_split int_char) in E as [Em Ee]; [|apply int_repr_chars..|done|done].
    apply int_repr_inj in Em as ->. injection Ee as Ee. by apply int_repr_inj in Ee as ->.
Qed.
