(* ===== verification/ScheduleDelivery.v ===== *)
(** * Delivery of scheduled answers: policies and plans

    [src/friday/domain/delivery_route.py], [schedule_delivery_policy.py] and
    [schedule_fire_delivery_plan.py]: which route the answer of a scheduled run
    goes to, and the plan frozen for each fire. *)

From S2P Require Import Prelude Values.

Open Scope Z_scope.

Definition MAX_ROUTE_ID_LENGTH : Z := 64.

(** The pattern is applied with [fullmatch], so its [$] cannot let a final line
    feed through. *)
Definition validate_route_id (value : str) : res str :=
  if (len value >? MAX_ROUTE_ID_LENGTH)
     || negb (machine_key (fun c => (c =? 46) || (c =? 95) || (c =? 45)) value)
  then Raise (DomainValidationError "delivery route_id is invalid")
  else Ok value.

Record DeliveryRouteAuthority : Type := mkAuthority {
  ra_route_id : str; ra_enabled : bool; ra_fingerprint : str; ra_max_body_chars : Z }.
Definition DeliveryRouteAuthority_new (route_id : str) (enabled : bool) (fingerprint : str)
    (max_body_chars : Z) : res DeliveryRouteAuthority :=
  res_bind (validate_route_id route_id) (fun r =>
  if negb (is_sha256_hex fingerprint) || (max_body_chars <=? 0)
  then Raise (DomainValidationError "delivery route authority is invalid")
  else Ok (mkAuthority r enabled fingerprint max_body_chars)).

(** ** [ScheduleDeliveryPolicy] *)
Record ScheduleDeliveryPolicy : Type := mkDeliveryPolicy {
  dp_schedule_id : ScheduleId; dp_route_id : str; dp_enabled : bool; dp_created_at : Z;
  dp_updated_at : Z }.

Definition policy_order_error : exn :=
  DomainValidationError "ScheduleDeliveryPolicy.updated_at must not precede created_at".

Definition ScheduleDeliveryPolicy_new (schedule_id : ScheduleId) (route_id : str) (enabled : bool)
    (now : datetime) : res ScheduleDeliveryPolicy :=
  res_bind (ensure_utc now) (fun t =>
  res_bind (validate_route_id route_id) (fun r =>
  Ok (mkDeliveryPolicy schedule_id r enabled t t))).

Definition dp_update_route (route_id : str) (at_ : datetime) : M ScheduleDeliveryPolicy unit :=
  r <- lift (validate_route_id route_id) ;;
  t <- lift (ensure_utc at_) ;;
  p <- get ;;
  raise_if (t <? dp_created_at p) policy_order_error ;;;
  modify (fun p => mkDeliveryPolicy (dp_schedule_id p) r (dp_enabled p) (dp_created_at p) t).

(** [enable] and [disable] *)
Definition dp_set_enabled (enabled : bool) (at_ : datetime) : M ScheduleDeliveryPolicy unit :=
  t <- lift (ensure_utc at_) ;;
  p <- get ;;
  raise_if (t <? dp_created_at p) policy_order_error ;;;
  modify (fun p => mkDeliveryPolicy (dp_schedule_id p) (dp_route_id p) enabled (dp_created_at p) t).

(** ** [ScheduleFireDeliveryPlan] *)
Inductive DeliveryPlanStatus : Type := PLAN_READY | PLAN_SUPPRESSED.
#[global] Instance DeliveryPlanStatus_eq_dec : EqDecision DeliveryPlanStatus.
Proof. solve_decision. Defined.

Record ScheduleFireDeliveryPlan : Type := mkPlan {
  pl_id : ScheduleFireDeliveryPlanId; pl_schedule_fire_id : ScheduleFireId;
  pl_schedule_id : ScheduleId; pl_execution_id : RunId; pl_route_id : str;
  pl_route_fingerprint : option str; pl_route_max_body_chars : option Z;
  pl_status : DeliveryPlanStatus; pl_reason_code : option str;
  pl_content_rejected_run_id : option RunId; pl_created_at : Z }.

Definition plan_reasons : list str :=
  [u "schedule_delivery_route_missing"; u "schedule_delivery_route_disabled"].

(** [__post_init__]; [content_source] has one value and is not kept. *)
Definition DeliveryPlan_init (id : ScheduleFireDeliveryPlanId) (fire : ScheduleFireId)
    (schedule : ScheduleId) (execution : RunId) (route_id : str) (fingerprint : option str)
    (max_body : option Z) (status : DeliveryPlanStatus) (reason : option str) (rejected : option RunId)
    (created_at : datetime) : res ScheduleFireDeliveryPlan :=
  res_bind (validate_route_id route_id) (fun r =>
  res_bind (ensure_utc created_at) (fun t =>
  if bool_decide (status = PLAN_READY)
     && (match fingerprint with Some f => negb (is_sha256_hex f) | None => true end
         || match max_body with Some m => m <=? 0 | None => false end || not_none reason)
  then Raise (DomainValidationError "ready delivery plan requires fingerprint and no reason")
  else if bool_decide (status = PLAN_SUPPRESSED)
     && (not_none fingerprint || not_none max_body
         || match reason with Some c => negb (bool_decide (c ∈ plan_reasons)) | None => true end)
  then Raise (DomainValidationError
         "suppressed delivery plan requires a stable reason and no fingerprint")
  else Ok (mkPlan id fire schedule execution r fingerprint max_body status reason rejected t))).

Definition DeliveryPlan_ready (id : ScheduleFireDeliveryPlanId) (fire : ScheduleFireId)
    (schedule : ScheduleId) (execution : RunId) (route_id fingerprint : str) (max_body : Z)
    (created_at : datetime) : res ScheduleFireDeliveryPlan :=
  if max_body <=? 0
  then Raise (DomainValidationError "ready delivery plan requires a route body bound")
  else DeliveryPlan_init id fire schedule execution route_id (Some fingerprint) (Some max_body)
         PLAN_READY None None created_at.
Definition DeliveryPlan_suppressed (id : ScheduleFireDeliveryPlanId) (fire : ScheduleFireId)
    (schedule : ScheduleId) (execution : RunId) (route_id reason : str) (created_at : datetime)
    : res ScheduleFireDeliveryPlan :=
  DeliveryPlan_init id fire schedule execution route_id None None PLAN_SUPPRESSED (Some reason) None
    created_at.
