(* ===== verification/DeliveryEntity.v ===== *)
(** * Outbound deliveries and their attempts

    [src/friday/domain/outbound_delivery.py] and [delivery_attempt.py]: the
    durable intent to send one message, with the one-way marker
    [dispatch_started_at] that separates "nothing was sent" from "a message may
    exist", and the audit record of one crossing of that boundary.

    The guards of [__setattr__] refuse assignments from outside the class; no
    method of the class attempts one, so they leave no trace in the model. *)

From S2P Require Import Prelude Values Canonical.

Open Scope Z_scope.

Definition MAX_DELIVERY_ROUTE_ID_LENGTH : Z := 64.
Definition MAX_SUBJECT_LENGTH : Z := 512.
Definition MAX_BODY_LENGTH : Z := 16000.
Definition MAX_CLAIM_VALUE_LENGTH : Z := 256.
Definition MAX_PROVIDER_MESSAGE_ID_LENGTH : Z := 512.
Definition MAX_FAILURE_CODE_LENGTH : Z := 128.
Definition MAX_FAILURE_MESSAGE_LENGTH : Z := 2048.

Inductive DeliveryStatus : Type :=
| DQUEUED | DSENDING | DDELIVERED | DFAILED | DAMBIGUOUS | DCANCELLED.
#[global] Instance DeliveryStatus_eq_dec : EqDecision DeliveryStatus.
Proof. solve_decision. Defined.
Definition delivery_status_value (s : DeliveryStatus) : string :=
  match s with
  | DQUEUED => "queued" | DSENDING => "sending" | DDELIVERED => "delivered"
  | DFAILED => "failed" | DAMBIGUOUS => "ambiguous" | DCANCELLED => "cancelled"
  end.
Definition TERMINAL_DELIVERY_STATUSES : list DeliveryStatus := [DDELIVERED; DFAILED; DAMBIGUOUS; DCANCELLED].
Definition delivery_terminal (s : DeliveryStatus) : bool := bool_decide (s ∈ TERMINAL_DELIVERY_STATUSES).

Inductive DeliverySourceKind : Type := AGENT_REQUEST | SCHEDULED_RUN_ANSWER.
#[global] Instance DeliverySourceKind_eq_dec : EqDecision DeliverySourceKind.
Proof. solve_decision. Defined.

(** [_bounded], [_optional_bounded] *)
Definition delivery_bounded (value : str) (field : string) (maximum : Z) : res str :=
  if empty_str (strip value)
  then Raise (DomainValidationError ("OutboundDelivery." ++ field ++ " must not be empty"))
  else if len value >? maximum
  then Raise (DomainValidationError ("OutboundDelivery." ++ field ++ " is too long"))
  else Ok value.
Definition delivery_optional_bounded (value : option str) (field : string) (maximum : Z) : res (option str) :=
  match value with
  | None => Ok None
  | Some v => res_bind (delivery_bounded v field maximum) (fun v => Ok (Some v))
  end.
Definition validate_claim_identity_value (value : str) (field : string) : res str :=
  delivery_bounded value field MAX_CLAIM_VALUE_LENGTH.

Record OutboundDelivery : Type := mkDelivery {
  od_id : DeliveryId; od_source_kind : DeliverySourceKind; od_source_run_id : RunId;
  od_source_tool_invocation_id : option ToolInvocationId;
  od_source_schedule_fire_id : option ScheduleFireId; od_route_id : str;
  od_route_fingerprint : str; od_subject : option str; od_body : str; od_body_sha256 : str;
  od_status : DeliveryStatus; od_available_at : Z; od_attempt_count : Z;
  od_claim_owner : option str; od_claim_token : option str; od_claim_generation : Z;
  od_claim_expires_at : option Z; od_provider_message_id : option str;
  od_failure_code : option str; od_failure_message : option str; od_created_at : Z;
  od_updated_at : Z; od_delivered_at : option Z; od_dispatch_started_at : option Z }.

Definition set_od_status (v : DeliveryStatus) (x : OutboundDelivery) : OutboundDelivery :=
  mkDelivery (od_id x) (od_source_kind x) (od_source_run_id x)
    (od_source_tool_invocation_id x) (od_source_schedule_fire_id x) (od_route_id x)
    (od_route_fingerprint x) (od_subject x) (od_body x) (od_body_sha256 x) v
    (od_available_at x) (od_attempt_count x) (od_claim_owner x) (od_claim_token x)
    (od_claim_generation x) (od_claim_expires_at x) (od_provider_message_id x)
    (od_failure_code x) (od_failure_message x) (od_created_at x) (od_updated_at x)
    (od_delivered_at x) (od_dispatch_started_at x).
Definition set_od_available_at (v : Z) (x : OutboundDelivery) : OutboundDelivery :=
  mkDelivery (od_id x) (od_source_kind x) (od_source_run_id x)
    (od_source_tool_invocation_id x) (od_source_schedule_fire_id x) (od_route_id x)
    (od_route_fingerprint x) (od_subject x) (od_body x) (od_body_sha256 x) (od_status x) v
    (od_attempt_count x) (od_claim_owner x) (od_claim_token x) (od_claim_generation x)
    (od_claim_expires_at x) (od_provider_message_id x) (od_failure_code x)
    (od_failure_message x) (od_created_at x) (od_updated_at x) (od_delivered_at x)
    (od_dispatch_started_at x).
Definition set_od_attempt_count (v : Z) (x : OutboundDelivery) : OutboundDelivery :=
  mkDelivery (od_id x) (od_source_kind x) (od_source_run_id x)
    (od_source_tool_invocation_id x) (od_source_schedule_fire_id x) (od_route_id x)
    (od_route_fingerprint x) (od_subject x) (od_body x) (od_body_sha256 x) (od_status x)
    (od_available_at x) v (od_claim_owner x) (od_claim_token x) (od_claim_generation x)
    (od_claim_expires_at x) (od_provider_message_id x) (od_failure_code x)
    (od_failure_message x) (od_created_at x) (od_updated_at x) (od_delivered_at x)
    (od_dispatch_started_at x).
Definition set_od_claim_owner (v : option str) (x : OutboundDelivery) : OutboundDelivery :=
  mkDelivery (od_id x) (od_source_kind x) (od_source_run_id x)
    (od_source_tool_invocation_id x) (od_source_schedule_fire_id x) (od_route_id x)
    (od_route_fingerprint x) (od_subject x) (od_body x) (od_body_sha256 x) (od_status x)
    (od_available_at x) (od_attempt_count x) v (od_claim_token x) (od_claim_generation x)
    (od_claim_expires_at x) (od_provider_message_id x) (od_failure_code x)
    (od_failure_message x) (od_created_at x) (od_updated_at x) (od_delivered_at x)
    (od_dispatch_started_at x).
Definition set_od_claim_token (v : option str) (x : OutboundDelivery) : OutboundDelivery :=
  mkDelivery (od_id x) (od_source_kind x) (od_source_run_id x)
    (od_source_tool_invocation_id x) (od_source_schedule_fire_id x) (od_route_id x)
    (od_route_fingerprint x) (od_subject x) (od_body x) (od_body_sha256 x) (od_status x)
    (od_available_at x) (od_attempt_count x) (od_claim_owner x) v (od_claim_generation x)
    (od_claim_expires_at x) (od_provider_message_id x) (od_failure_code x)
    (od_failure_message x) (od_created_at x) (od_updated_at x) (od_delivered_at x)
    (od_dispatch_started_at x).
Definition set_od_claim_generation (v : Z) (x : OutboundDelivery) : OutboundDelivery :=
  mkDelivery (od_id x) (od_source_kind x) (od_source_run_id x)
    (od_source_tool_invocation_id x) (od_source_schedule_fire_id x) (od_route_id x)
    (od_route_fingerprint x) (od_subject x) (od_body x) (od_body_sha256 x) (od_status x)
    (od_available_at x) (od_attempt_count x) (od_claim_owner x) (od_claim_token x) v
    (od_claim_expires_at x) (od_provider_message_id x) (od_failure_code x)
    (od_failure_message x) (od_created_at x) (od_updated_at x) (od_delivered_at x)
    (od_dispatch_started_at x).
Definition set_od_claim_expires_at (v : option Z) (x : OutboundDelivery) : OutboundDelivery :=
  mkDelivery (od_id x) (od_source_kind x) (od_source_run_id x)
    (od_source_tool_invocation_id x) (od_source_schedule_fire_id x) (od_route_id x)
    (od_route_fingerprint x) (od_subject x) (od_body x) (od_body_sha256 x) (od_status x)
    (od_available_at x) (od_attempt_count x) (od_claim_owner x) (od_claim_token x)
    (od_claim_generation x) v (od_provider_message_id x) (od_failure_code x)
    (od_failure_message x) (od_created_at x) (od_updated_at x) (od_delivered_at x)
    (od_dispatch_started_at x).
Definition set_od_provider_message_id (v : option str) (x : OutboundDelivery) : OutboundDelivery :=
  mkDelivery (od_id x) (od_source_kind x) (od_source_run_id x)
    (od_source_tool_invocation_id x) (od_source_schedule_fire_id x) (od_route_id x)
    (od_route_fingerprint x) (od_subject x) (od_body x) (od_body_sha256 x) (od_status x)
    (od_available_at x) (od_attempt_count x) (od_claim_owner x) (od_claim_token x)
    (od_claim_generation x) (od_claim_expires_at x) v (od_failure_code x)
    (od_failure_message x) (od_created_at x) (od_updated_at x) (od_delivered_at x)
    (od_dispatch_started_at x).
Definition set_od_failure_code (v : option str) (x : OutboundDelivery) : OutboundDelivery :=
  mkDelivery (od_id x) (od_source_kind x) (od_source_run_id x)
    (od_source_tool_invocation_id x) (od_source_schedule_fire_id x) (od_route_id x)
    (od_route_fingerprint x) (od_subject x) (od_body x) (od_body_sha256 x) (od_status x)
    (od_available_at x) (od_attempt_count x) (od_claim_owner x) (od_claim_token x)
    (od_claim_generation x) (od_claim_expires_at x) (od_provider_message_id x) v
    (od_failure_message x) (od_created_at x) (od_updated_at x) (od_delivered_at x)
    (od_dispatch_started_at x).
Definition set_od_failure_message (v : option str) (x : OutboundDelivery) : OutboundDelivery :=
  mkDelivery (od_id x) (od_source_kind x) (od_source_run_id x)
    (od_source_tool_invocation_id x) (od_source_schedule_fire_id x) (od_route_id x)
    (od_route_fingerprint x) (od_subject x) (od_body x) (od_body_sha256 x) (od_status x)
    (od_available_at x) (od_attempt_count x) (od_claim_owner x) (od_claim_token x)
    (od_claim_generation x) (od_claim_expires_at x) (od_provider_message_id x)
    (od_failure_code x) v (od_created_at x) (od_updated_at x) (od_delivered_at x)
    (od_dispatch_started_at x).
Definition set_od_updated_at (v : Z) (x : OutboundDelivery) : OutboundDelivery :=
  mkDelivery (od_id x) (od_source_kind x) (od_source_run_id x)
    (od_source_tool_invocation_id x) (od_source_schedule_fire_id x) (od_route_id x)
    (od_route_fingerprint x) (od_subject x) (od_body x) (od_body_sha256 x) (od_status x)
    (od_available_at x) (od_attempt_count x) (od_claim_owner x) (od_claim_token x)
    (od_claim_generation x) (od_claim_expires_at x) (od_provider_message_id x)
    (od_failure_code x) (od_failure_message x) (od_created_at x) v (od_delivered_at x)
    (od_dispatch_started_at x).
Definition set_od_delivered_at (v : option Z) (x : OutboundDelivery) : OutboundDelivery :=
  mkDelivery (od_id x) (od_source_kind x) (od_source_run_id x)
    (od_source_tool_invocation_id x) (od_source_schedule_fire_id x) (od_route_id x)
    (od_route_fingerprint x) (od_subject x) (od_body x) (od_body_sha256 x) (od_status x)
    (od_available_at x) (od_attempt_count x) (od_claim_owner x) (od_claim_token x)
    (od_claim_generation x) (od_claim_expires_at x) (od_provider_message_id x)
    (od_failure_code x) (od_failure_message x) (od_created_at x) (od_updated_at x) v
    (od_dispatch_started_at x).
Definition set_od_dispatch_started_at (v : option Z) (x : OutboundDelivery) : OutboundDelivery :=
  mkDelivery (od_id x) (od_source_kind x) (od_source_run_id x)
    (od_source_tool_invocation_id x) (od_source_schedule_fire_id x) (od_route_id x)
    (od_route_fingerprint x) (od_subject x) (od_body x) (od_body_sha256 x) (od_status x)
    (od_available_at x) (od_attempt_count x) (od_claim_owner x) (od_claim_token x)
    (od_claim_generation x) (od_claim_expires_at x) (od_provider_message_id x)
    (od_failure_code x) (od_failure_message x) (od_created_at x) (od_updated_at x)
    (od_delivered_at x) v.

(** [hashlib.sha256(body.encode("utf-8")).hexdigest()] *)
Definition body_digest `{Digest} (body : str) : res str :=
  res_bind (encode body) (fun b => Ok (sha256_hex b)).

(** [_validate_source_shape] *)
Definition od_source_shape (x : OutboundDelivery) : bool :=
  let tool := not_none (od_source_tool_invocation_id x) in
  let fire := not_none (od_source_schedule_fire_id x) in
  match od_source_kind x with
  | AGENT_REQUEST => tool && negb fire
  | SCHEDULED_RUN_ANSWER => negb tool && fire
  end.

(** [__post_init__] on normalised times *)
Definition OutboundDelivery_init `{Digest} (x : OutboundDelivery) : res OutboundDelivery :=
  let bad msg := Raise (DomainValidationError msg) in
  res_bind (delivery_bounded (od_route_id x) "route_id" MAX_DELIVERY_ROUTE_ID_LENGTH) (fun _ =>
  if negb (is_sha256_hex (od_route_fingerprint x))
  then bad "OutboundDelivery.route_fingerprint must be a lowercase SHA-256 hex digest"
  else if empty_str (od_body x) then bad "OutboundDelivery.body must not be empty"
  else if len (od_body x) >? MAX_BODY_LENGTH
  then bad "OutboundDelivery.body must be at most 16000 characters"
  else
  res_bind (delivery_optional_bounded (od_subject x) "subject" MAX_SUBJECT_LENGTH) (fun _ =>
  if negb (is_sha256_hex (od_body_sha256 x))
  then bad "OutboundDelivery.body_sha256 must be a lowercase SHA-256 hex digest"
  else
  res_bind (body_digest (od_body x)) (fun digest =>
  if negb (bool_decide (od_body_sha256 x = digest))
  then bad "OutboundDelivery.body_sha256 does not match body"
  else if negb (od_source_shape x)
  then bad "OutboundDelivery source references do not match source_kind"
  else if (od_attempt_count x <? 0) || (od_claim_generation x <? 0)
  then bad "OutboundDelivery attempt and claim generations must be non-negative"
  else
  res_bind (delivery_optional_bounded (od_claim_owner x) "claim_owner" MAX_CLAIM_VALUE_LENGTH) (fun _ =>
  res_bind (delivery_optional_bounded (od_claim_token x) "claim_token" MAX_CLAIM_VALUE_LENGTH) (fun _ =>
  if negb (Bool.eqb (not_none (od_claim_owner x)) (not_none (od_claim_token x)))
  then bad "OutboundDelivery claim owner and token must be set together"
  else
  res_bind (delivery_optional_bounded (od_provider_message_id x) "provider_message_id"
              MAX_PROVIDER_MESSAGE_ID_LENGTH) (fun _ =>
  res_bind (delivery_optional_bounded (od_failure_code x) "failure_code" MAX_FAILURE_CODE_LENGTH) (fun _ =>
  res_bind (delivery_optional_bounded (od_failure_message x) "failure_message"
              MAX_FAILURE_MESSAGE_LENGTH) (fun _ =>
  Ok x)))))))).

Definition OutboundDelivery_new `{Digest} (id : DeliveryId) (source_kind : DeliverySourceKind)
    (source_run_id : RunId) (source_tool_invocation_id : option ToolInvocationId)
    (source_schedule_fire_id : option ScheduleFireId) (route_id route_fingerprint body : str)
    (available_at created_at : datetime) (subject body_sha256 : option str) : res OutboundDelivery :=
  res_bind (body_digest body) (fun digest =>
  if match body_sha256 with Some d => negb (bool_decide (d = digest)) | None => false end
  then Raise (DomainValidationError "OutboundDelivery.body_sha256 does not match body")
  else
  res_bind (ensure_utc created_at) (fun created =>
  res_bind (ensure_utc available_at) (fun available =>
  OutboundDelivery_init
    (mkDelivery id source_kind source_run_id source_tool_invocation_id source_schedule_fire_id route_id
       route_fingerprint subject body digest DQUEUED available 0 None None 0 None None None None
       created created None None)))).

(** ** Methods *)
Definition od_require_status (allowed : DeliveryStatus) (target : DeliveryStatus) : M OutboundDelivery unit :=
  st <- gets od_status ;;
  raise_if (negb (bool_decide (st = allowed)))
    (InvalidStateTransition "OutboundDelivery" (delivery_status_value st) (delivery_status_value target)).

Definition od_mark_sending (at_ : datetime) (claim_owner claim_token : str) (claim_expires_at : datetime)
    : M OutboundDelivery unit :=
  od_require_status DQUEUED DSENDING ;;;
  t <- lift (ensure_utc at_) ;;
  expiry <- lift (ensure_utc claim_expires_at) ;;
  raise_if (expiry <=? t) (DomainValidationError "OutboundDelivery claim expiry must be after claim time") ;;;
  owner <- lift (delivery_bounded claim_owner "claim_owner" MAX_CLAIM_VALUE_LENGTH) ;;
  modify (set_od_claim_owner (Some owner)) ;;;
  token <- lift (delivery_bounded claim_token "claim_token" MAX_CLAIM_VALUE_LENGTH) ;;
  modify (set_od_claim_token (Some token)) ;;;
  modify (set_od_claim_expires_at (Some expiry)) ;;;
  modify (fun x => set_od_claim_generation (od_claim_generation x + 1) x) ;;;
  modify (fun x => set_od_attempt_count (od_attempt_count x + 1) x) ;;;
  modify (set_od_status DSENDING) ;;;
  modify (set_od_updated_at t).

Definition od_mark_dispatch_started (at_ : datetime) : M OutboundDelivery unit :=
  od_require_status DSENDING DSENDING ;;;
  started <- gets od_dispatch_started_at ;;
  raise_if (not_none started) (InvalidStateTransition "OutboundDelivery" "dispatch_started" "dispatch_started") ;;;
  t <- lift (ensure_utc at_) ;;
  expiry <- gets od_claim_expires_at ;;
  raise_if (match expiry with None => true | Some e => e <=? t end)
    (DomainValidationError "OutboundDelivery dispatch requires an unexpired claim lease") ;;;
  modify (set_od_dispatch_started_at (Some t)) ;;;
  modify (set_od_updated_at t).

Definition od_release_for_retry (at_ available_at : datetime) : M OutboundDelivery unit :=
  od_require_status DSENDING DQUEUED ;;;
  started <- gets od_dispatch_started_at ;;
  raise_if (not_none started) (InvalidStateTransition "OutboundDelivery" "dispatch_started" "queued") ;;;
  t <- lift (ensure_utc at_) ;;
  retry_at <- lift (ensure_utc available_at) ;;
  raise_if (retry_at <? t)
    (DomainValidationError "OutboundDelivery retry availability must not be in the past") ;;;
  modify (set_od_claim_owner None) ;;;
  modify (set_od_claim_token None) ;;;
  modify (set_od_claim_expires_at None) ;;;
  modify (set_od_available_at retry_at) ;;;
  modify (set_od_status DQUEUED) ;;;
  modify (set_od_updated_at t).

Definition od_require_dispatch_boundary (target : DeliveryStatus) : M OutboundDelivery unit :=
  started <- gets od_dispatch_started_at ;;
  raise_if (negb (not_none started))
    (InvalidStateTransition "OutboundDelivery" "sending" (delivery_status_value target)).

Definition od_deliver (at_ : datetime) (provider_message_id : option str) : M OutboundDelivery unit :=
  od_require_status DSENDING DDELIVERED ;;;
  od_require_dispatch_boundary DDELIVERED ;;;
  p <- lift (delivery_optional_bounded provider_message_id "provider_message_id"
               MAX_PROVIDER_MESSAGE_ID_LENGTH) ;;
  modify (set_od_provider_message_id p) ;;;
  t <- lift (ensure_utc at_) ;;
  modify (set_od_delivered_at (Some t)) ;;;
  modify (set_od_updated_at t) ;;;
  modify (set_od_status DDELIVERED).

(** The assignments [fail], [mark_ambiguous] and [mark_route_ambiguous] share *)
Definition od_end_with (target : DeliveryStatus) (at_ : datetime) (failure_code failure_message : str)
    : M OutboundDelivery unit :=
  code <- lift (delivery_bounded failure_code "failure_code" MAX_FAILURE_CODE_LENGTH) ;;
  modify (set_od_failure_code (Some code)) ;;;
  message <- lift (delivery_bounded failure_message "failure_message" MAX_FAILURE_MESSAGE_LENGTH) ;;
  modify (set_od_failure_message (Some message)) ;;;
  t <- lift (ensure_utc at_) ;;
  modify (set_od_updated_at t) ;;;
  modify (set_od_status target).
Definition od_fail (at_ : datetime) (failure_code failure_message : str) : M OutboundDelivery unit :=
  od_require_status DSENDING DFAILED ;;;
  od_end_with DFAILED at_ failure_code failure_message.
Definition od_mark_ambiguous (at_ : datetime) (failure_code failure_message : str) : M OutboundDelivery unit :=
  od_require_status DSENDING DAMBIGUOUS ;;;
  od_require_dispatch_boundary DAMBIGUOUS ;;;
  od_end_with DAMBIGUOUS at_ failure_code failure_message.
Definition od_mark_route_ambiguous (at_ : datetime) (failure_code failure_message : str)
    : M OutboundDelivery unit :=
  od_require_status DSENDING DAMBIGUOUS ;;;
  od_end_with DAMBIGUOUS at_ failure_code failure_message.
Definition od_cancel (at_ : datetime) : M OutboundDelivery unit :=
  od_require_status DQUEUED DCANCELLED ;;;
  t <- lift (ensure_utc at_) ;;
  modify (set_od_updated_at t) ;;;
  modify (set_od_status DCANCELLED).

(** ** The state machine *)
Inductive od_op : Type :=
| OdMarkSending (at_ : datetime) (owner token : str) (expires : datetime)
| OdMarkDispatchStarted (at_ : datetime)
| OdReleaseForRetry (at_ available_at : datetime)
| OdDeliver (at_ : datetime) (provider_message_id : option str)
| OdFail (at_ : datetime) (code message : str)
| OdMarkAmbiguous (at_ : datetime) (code message : str)
| OdMarkRouteAmbiguous (at_ : datetime) (code message : str)
| OdCancel (at_ : datetime).
Definition od_exec (o : od_op) : M OutboundDelivery unit :=
  match o with
  | OdMarkSending t w k e => od_mark_sending t w k e
  | OdMarkDispatchStarted t => od_mark_dispatch_started t
  | OdReleaseForRetry t a => od_release_for_retry t a
  | OdDeliver t p => od_deliver t p
  | OdFail t c m => od_fail t c m
  | OdMarkAmbiguous t c m => od_mark_ambiguous t c m
  | OdMarkRouteAmbiguous t c m => od_mark_route_ambiguous t c m
  | OdCancel t => od_cancel t
  end.

Ltac od_cases :=
  cbv [od_exec od_mark_sending od_mark_dispatch_started od_release_for_retry od_require_dispatch_boundary
       od_deliver od_end_with od_fail od_mark_ambiguous od_mark_route_ambiguous od_cancel od_require_status
       bind get gets modify lift raise_if ret raise];
  cbn [od_id od_source_kind od_source_run_id od_source_tool_invocation_id od_source_schedule_fire_id
       od_route_id od_route_fingerprint od_subject od_body od_body_sha256 od_status od_available_at
       od_attempt_count od_claim_owner od_claim_token od_claim_generation od_claim_expires_at
       od_provider_message_id od_failure_code od_failure_message od_created_at od_updated_at
       od_delivered_at od_dispatch_started_at fst snd negb not_none
       set_od_status set_od_available_at set_od_attempt_count set_od_claim_owner set_od_claim_token
       set_od_claim_generation set_od_claim_expires_at set_od_provider_message_id set_od_failure_code
       set_od_failure_message set_od_updated_at set_od_delivered_at set_od_dispatch_started_at].
Ltac od_split :=
  closed_tests; cbn [negb];
  repeat (split_match; cbn [negb andb orb] in *; simplify_eq); intros; simplify_eq.

(** What no method changes: the identity, the source, the route and the content *)
Definition od_authority (x : OutboundDelivery) :=
  (od_id x, od_source_kind x, od_source_run_id x, od_source_tool_invocation_id x,
   od_source_schedule_fire_id x, (od_route_id x, od_route_fingerprint x, od_subject x, od_body x,
   od_body_sha256 x), od_created_at x).

Lemma od_exec_authority o x : od_authority (snd (od_exec o x)) = od_authority x.
Proof.
  destruct x as [? ? ? ? ? ? ? ? ? ? s ? ? ? ? ? ? ? ? ? ? ? ? ds]. unfold od_authority.
  destruct o, s, ds; od_cases; od_split; done.
Qed.
(** A method that raises leaves status, marker, counters and claim times alone. *)
Lemma od_exec_raise o x e x' :
  od_exec o x = (Raise e, x') ->
  od_status x' = od_status x /\ od_dispatch_started_at x' = od_dispatch_started_at x /\
  od_claim_generation x' = od_claim_generation x /\ od_attempt_count x' = od_attempt_count x /\
  od_claim_expires_at x' = od_claim_expires_at x /\ od_delivered_at x' = od_delivered_at x.
Proof.
  destruct x as [? ? ? ? ? ? ? ? ? ? s ? ? ? ? ? ? ? ? ? ? ? ? ds].
  destruct o, s, ds; od_cases; od_split; done.
Qed.
Lemma od_exec_terminal o x :
  delivery_terminal (od_status x) = true -> exists e, od_exec o x = (Raise e, x).
Proof.
  destruct x as [? ? ? ? ? ? ? ? ? ? s ? ? ? ? ? ? ? ? ? ? ? ? ds]; cbn [od_status].
  intros Ht. destruct s; try done; destruct o; od_cases; closed_tests; cbn [negb]; by eexists.
Qed.
(** Once crossed, the boundary stays crossed and the delivery never queues again. *)
Lemma od_exec_boundary o x t :
  od_dispatch_started_at x = Some t -> od_status x <> DQUEUED ->
  let x' := snd (od_exec o x) in od_dispatch_started_at x' = Some t /\ od_status x' <> DQUEUED.
Proof.
  destruct x as [? ? ? ? ? ? ? ? ? ? s ? ? ? ? ? ? ? ? ? ? ? ? ds]. cbn [od_dispatch_started_at od_status].
  intros ->. destruct o, s; od_cases; od_split; done.
Qed.
Lemma od_exec_counters o x :
  od_claim_generation x <= od_claim_generation (snd (od_exec o x)) /\
  od_attempt_count x <= od_attempt_count (snd (od_exec o x)).
Proof.
  destruct x as [? ? ? ? ? ? ? ? ? ? s ? ? ? ? ? ? ? ? ? ? ? ? ds].
  destruct o, s, ds; od_cases; od_split; split; cbn; lia.
Qed.

(** ** The shape of a delivery in each status *)
Definition od_shape (x : OutboundDelivery) : Prop :=
  let claimed := not_none (od_claim_owner x) && not_none (od_claim_token x)
                 && not_none (od_claim_expires_at x) in
  let free := negb (not_none (od_claim_owner x)) && negb (not_none (od_claim_token x))
              && negb (not_none (od_claim_expires_at x)) in
  let failure := not_none (od_failure_code x) && not_none (od_failure_message x) in
  let no_failure := negb (not_none (od_failure_code x)) && negb (not_none (od_failure_message x)) in
  let crossed := not_none (od_dispatch_started_at x) in
  0 <= od_attempt_count x /\ od_claim_generation x = od_attempt_count x /\
  (crossed = true -> 0 < od_claim_generation x) /\
  match od_status x with
  | DQUEUED => free = true /\ no_failure = true /\ crossed = false
  | DSENDING => claimed = true /\ no_failure = true /\ 0 < od_claim_generation x
  | DDELIVERED => no_failure = true /\ crossed = true
  | DFAILED | DAMBIGUOUS => failure = true /\ 0 < od_claim_generation x
  | DCANCELLED => no_failure = true /\ crossed = false
  end /\
  not_none (od_delivered_at x) = bool_decide (od_status x = DDELIVERED).

Lemma od_exec_shape o x x' : od_exec o x = (Ok tt, x') -> od_shape x -> od_shape x'.
Proof.
  destruct x as [? ? ? ? ? ? ? ? ? ? s ? ? ow tk ? ex ? fc fm ? ? dl ds].
  destruct s, ds, o; od_cases; closed_tests; cbn [negb];
    repeat (split_match; cbn [negb andb orb] in *; simplify_eq); intros E; simplify_eq;
    unfold od_shape; cbn -[Z.lt Z.le] in *; intros Hs; destruct_and?; destruct dl; simplify_eq/=;
    closed_tests; cbn [negb andb] in *; split_and!; try done; try lia; intuition (try done; try lia).
Qed.
(** The claim columns are there from the claim on; only a release takes them back, a
    delivery that ended keeps the claim it ended under. *)
Definition od_claim_kept (x : OutboundDelivery) : bool :=
  let some := match od_status x with DQUEUED | DCANCELLED => false | _ => true end in
  eqb (not_none (od_claim_owner x)) some && eqb (not_none (od_claim_token x)) some
  && eqb (not_none (od_claim_expires_at x)) some.
Lemma od_exec_claim o x x' : od_exec o x = (Ok tt, x') -> od_claim_kept x = true -> od_claim_kept x' = true.
Proof.
  destruct x as [? ? ? ? ? ? ? ? ? ? s ? ? ow tk ? ex ? fc fm ? ? dl ds].
  destruct s, ds, o; od_cases; closed_tests; cbn [negb];
    repeat (split_match; cbn [negb andb orb] in *; simplify_eq); intros E; simplify_eq;
    unfold od_claim_kept; cbn; done.
Qed.
Lemma od_new_shape `{Digest} id k r tool fire route fp body av cr sub sha x :
  OutboundDelivery_new id k r tool fire route fp body av cr sub sha = Ok x ->
  od_shape x /\ od_claim_kept x = true /\ body_digest (od_body x) = Ok (od_body_sha256 x).
Proof.
  unfold OutboundDelivery_new. destruct (body_digest body) as [d|] eqn:Ed; cbn [res_bind]; [|done].
  destruct (match sha with Some _ => _ | None => _ end); [done|].
  destruct (ensure_utc cr); cbn [res_bind]; [|done]. destruct (ensure_utc av); cbn [res_bind]; [|done].
  set (y := mkDelivery _ _ _ _ _ _ _ _ _ _ _ _ _ _ _ _ _ _ _ _ _ _ _ _). intros E.
  assert (y = x) as <-.
  { revert E. unfold OutboundDelivery_init.
    repeat (let Hm := fresh in match goal with
      | |- res_bind ?r _ = Ok _ -> _ => destruct r; cbn [res_bind]; [|done]
      | |- (if ?b then _ else _) = Ok _ -> _ => destruct b; [done|] end). by intros [= <-]. }
  done.
Qed.

(** ** [DeliveryAttempt] *)
Inductive DeliveryAttemptOutcome : Type := AO_IN_PROGRESS | AO_DELIVERED | AO_FAILED | AO_AMBIGUOUS.
#[global] Instance DeliveryAttemptOutcome_eq_dec : EqDecision DeliveryAttemptOutcome.
Proof. solve_decision. Defined.
Definition attempt_outcome_value (o : DeliveryAttemptOutcome) : string :=
  match o with
  | AO_IN_PROGRESS => "in_progress" | AO_DELIVERED => "delivered" | AO_FAILED => "failed"
  | AO_AMBIGUOUS => "ambiguous"
  end.

Record DeliveryAttempt : Type := mkAttempt {
  da_id : DeliveryAttemptId; da_delivery_id : DeliveryId; da_claim_generation : Z; da_started_at : Z;
  da_finished_at : option Z; da_outcome : DeliveryAttemptOutcome; da_failure_code : option str }.

Definition MAX_DELIVERY_ATTEMPT_FAILURE_CODE_LENGTH : Z := 128.
(** [fullmatch] of [[a-z0-9_]+] *)
Definition stable_code (s : str) : bool :=
  negb (empty_str s) && forallb (fun c => is_lower_digit c || (c =? 95)) s.
Definition validate_delivery_attempt_failure_code (value : option str) : res (option str) :=
  match value with
  | None => Ok None
  | Some v =>
      if negb (stable_code v)
      then Raise (DomainValidationError "DeliveryAttempt.failure_code must be a stable lowercase code")
      else if len v >? MAX_DELIVERY_ATTEMPT_FAILURE_CODE_LENGTH
      then Raise (DomainValidationError "DeliveryAttempt.failure_code must be at most 128 characters")
      else Ok (Some v)
  end.

Definition validate_delivery_attempt_shape (outcome : DeliveryAttemptOutcome) (started_at : Z)
    (finished_at : option Z) (failure_code : option str) : res (option str) :=
  let bad msg := Raise (DomainValidationError msg) in
  match outcome with
  | AO_IN_PROGRESS =>
      if not_none finished_at then bad "DeliveryAttempt in_progress must have no finished_at"
      else if not_none failure_code then bad "DeliveryAttempt in_progress must have no failure_code"
      else Ok None
  | _ =>
      match finished_at with
      | None => bad "DeliveryAttempt terminal outcome requires finished_at"
      | Some f =>
          if f <? started_at then bad "DeliveryAttempt.finished_at must not precede started_at"
          else if bool_decide (outcome = AO_DELIVERED) && not_none failure_code
          then bad "DeliveryAttempt delivered must have no failure_code"
          else if bool_decide (outcome ∈ [AO_FAILED; AO_AMBIGUOUS]) && negb (not_none failure_code)
          then bad "DeliveryAttempt terminal outcome requires a stable failure_code"
          else validate_delivery_attempt_failure_code failure_code
      end
  end.

(** [__post_init__] on normalised times, and [begin] *)
Definition DeliveryAttempt_init (x : DeliveryAttempt) : res DeliveryAttempt :=
  if da_claim_generation x <=? 0
  then Raise (DomainValidationError "DeliveryAttempt.claim_generation must be greater than zero")
  else res_bind (validate_delivery_attempt_shape (da_outcome x) (da_started_at x) (da_finished_at x)
                   (da_failure_code x)) (fun code =>
       Ok (mkAttempt (da_id x) (da_delivery_id x) (da_claim_generation x) (da_started_at x)
             (da_finished_at x) (da_outcome x) code)).
Definition da_begin (id : DeliveryAttemptId) (delivery_id : DeliveryId) (claim_generation : Z)
    (started_at : datetime) : res DeliveryAttempt :=
  res_bind (ensure_utc started_at) (fun t =>
  DeliveryAttempt_init (mkAttempt id delivery_id claim_generation t None AO_IN_PROGRESS None)).

Definition da_complete (outcome : DeliveryAttemptOutcome) (finished_at : datetime)
    (failure_code : option str) : M DeliveryAttempt unit :=
  x <- get ;;
  raise_if (negb (bool_decide (da_outcome x = AO_IN_PROGRESS)))
    (InvalidStateTransition "DeliveryAttempt" (attempt_outcome_value (da_outcome x))
       (attempt_outcome_value outcome)) ;;;
  raise_if (bool_decide (outcome = AO_IN_PROGRESS))
    (DomainValidationError "DeliveryAttempt cannot complete as in_progress") ;;;
  finished <- lift (ensure_utc finished_at) ;;
  code <- lift (validate_delivery_attempt_shape outcome (da_started_at x) (Some finished) failure_code) ;;
  modify (fun x => mkAttempt (da_id x) (da_delivery_id x) (da_claim_generation x) (da_started_at x)
                     (Some finished) outcome code).

(** ** Properties *)


Definition ex_delivery `{Digest} : res OutboundDelivery :=
  OutboundDelivery_new (mkId (u "d")) AGENT_REQUEST (mkId (u "r")) (Some (mkId (u "i"))) None (u "ops")
    (replicate 64 97) (u "hello") (utc 5) (utc 5) None None.
Definition ex_delivery_ops : list od_op :=
  [OdMarkSending (utc 6) (u "w") (u "t") (utc 9); OdMarkDispatchStarted (utc 7)].
