(* ===== verification/DelegationEntity.v ===== *)
(** * The [DelegationRequest] entity

    [src/friday/domain/delegation.py]: a durable provenance edge from a parent
    run to a child run.  Proved: whatever [new] and the transition methods
    produce satisfies [_validate_state_shape] and still carries the fingerprint
    of its own intent, and a finished delegation is frozen. *)

From S2P Require Import Prelude Values Canonical.

Open Scope Z_scope.

Definition MAX_OBJECTIVE_LENGTH : Z := 4000.
Definition MAX_OUTPUT_CONTRACT_LENGTH : Z := 4000.
Definition MAX_FAILURE_CODE_LENGTH : Z := 128.
Definition FINGERPRINT_VERSION : Z := 1.
Definition MAX_DELEGATIONS_PER_RUN : Z := 4.
Definition MAX_DELEGATIONS_PER_TREE : Z := 16.
Definition ROOT_DELEGATION_DEPTH : Z := 1.
Definition MAX_DELEGATION_DEPTH : Z := 3.

Inductive DelegationStatus : Type := DREQUESTED | DDISPATCHED | DSUCCEEDED | DFAILED | DCANCELLED.
#[global] Instance DelegationStatus_eq_dec : EqDecision DelegationStatus.
Proof. solve_decision. Defined.
Definition delegation_status_value (s : DelegationStatus) : string :=
  match s with
  | DREQUESTED => "requested" | DDISPATCHED => "dispatched" | DSUCCEEDED => "succeeded"
  | DFAILED => "failed" | DCANCELLED => "cancelled"
  end.
Definition TERMINAL_DELEGATION_STATUSES : list DelegationStatus := [DSUCCEEDED; DFAILED; DCANCELLED].
Definition delegation_terminal (s : DelegationStatus) : bool :=
  bool_decide (s ∈ TERMINAL_DELEGATION_STATUSES).

Record DelegationRequest : Type := mkDelegation {
  dl_id : DelegationRequestId; dl_parent_run_id : RunId; dl_target_agent_id : AgentId;
  dl_objective : str; dl_input_payload : json; dl_expected_output_contract : str;
  dl_authorization_fingerprint : str; dl_status : DelegationStatus; dl_created_at : Z;
  dl_parent_run_step_id : option RunStepId; dl_child_task_id : option TaskId;
  dl_child_run_id : option RunId; dl_started_at : option Z; dl_completed_at : option Z;
  dl_failure_code : option str; dl_root_delegation_id : DelegationRequestId; dl_depth : Z }.

Definition set_dl_status (v : DelegationStatus) (x : DelegationRequest) : DelegationRequest :=
  mkDelegation (dl_id x) (dl_parent_run_id x) (dl_target_agent_id x) (dl_objective x)
    (dl_input_payload x) (dl_expected_output_contract x) (dl_authorization_fingerprint x) v
    (dl_created_at x) (dl_parent_run_step_id x) (dl_child_task_id x) (dl_child_run_id x)
    (dl_started_at x) (dl_completed_at x) (dl_failure_code x) (dl_root_delegation_id x)
    (dl_depth x).
Definition set_dl_child_task_id (v : option TaskId) (x : DelegationRequest) : DelegationRequest :=
  mkDelegation (dl_id x) (dl_parent_run_id x) (dl_target_agent_id x) (dl_objective x)
    (dl_input_payload x) (dl_expected_output_contract x) (dl_authorization_fingerprint x)
    (dl_status x) (dl_created_at x) (dl_parent_run_step_id x) v (dl_child_run_id x)
    (dl_started_at x) (dl_completed_at x) (dl_failure_code x) (dl_root_delegation_id x)
    (dl_depth x).
Definition set_dl_child_run_id (v : option RunId) (x : DelegationRequest) : DelegationRequest :=
  mkDelegation (dl_id x) (dl_parent_run_id x) (dl_target_agent_id x) (dl_objective x)
    (dl_input_payload x) (dl_expected_output_contract x) (dl_authorization_fingerprint x)
    (dl_status x) (dl_created_at x) (dl_parent_run_step_id x) (dl_child_task_id x) v
    (dl_started_at x) (dl_completed_at x) (dl_failure_code x) (dl_root_delegation_id x)
    (dl_depth x).
Definition set_dl_started_at (v : option Z) (x : DelegationRequest) : DelegationRequest :=
  mkDelegation (dl_id x) (dl_parent_run_id x) (dl_target_agent_id x) (dl_objective x)
    (dl_input_payload x) (dl_expected_output_contract x) (dl_authorization_fingerprint x)
    (dl_status x) (dl_created_at x) (dl_parent_run_step_id x) (dl_child_task_id x)
    (dl_child_run_id x) v (dl_completed_at x) (dl_failure_code x) (dl_root_delegation_id x)
    (dl_depth x).
Definition set_dl_completed_at (v : option Z) (x : DelegationRequest) : DelegationRequest :=
  mkDelegation (dl_id x) (dl_parent_run_id x) (dl_target_agent_id x) (dl_objective x)
    (dl_input_payload x) (dl_expected_output_contract x) (dl_authorization_fingerprint x)
    (dl_status x) (dl_created_at x) (dl_parent_run_step_id x) (dl_child_task_id x)
    (dl_child_run_id x) (dl_started_at x) v (dl_failure_code x) (dl_root_delegation_id x)
    (dl_depth x).
Definition set_dl_failure_code (v : option str) (x : DelegationRequest) : DelegationRequest :=
  mkDelegation (dl_id x) (dl_parent_run_id x) (dl_target_agent_id x) (dl_objective x)
    (dl_input_payload x) (dl_expected_output_contract x) (dl_authorization_fingerprint x)
    (dl_status x) (dl_created_at x) (dl_parent_run_step_id x) (dl_child_task_id x)
    (dl_child_run_id x) (dl_started_at x) (dl_completed_at x) v (dl_root_delegation_id x)
    (dl_depth x).

(** [None if x is None else str(x)] as JSON *)
Definition opt_id_json {k} (o : option (Id k)) : json :=
  match o with Some i => JStr (value i) | None => JNull end.

Definition compute_delegation_fingerprint `{Digest} (delegation_request_id : DelegationRequestId)
    (parent_run_id : RunId) (parent_run_step_id : option RunStepId) (target_agent_id : AgentId)
    (objective : str) (input_payload : json) (expected_output_contract : str) : res str :=
  res_bind (encode (json_dumps true (JDict
    [(u "version", JInt FINGERPRINT_VERSION);
     (u "delegation_request_id", JStr (value delegation_request_id));
     (u "parent_run_id", JStr (value parent_run_id));
     (u "parent_run_step_id", opt_id_json parent_run_step_id);
     (u "target_agent_id", JStr (value target_agent_id));
     (u "objective", JStr objective);
     (u "input_payload", input_payload);
     (u "expected_output_contract", JStr expected_output_contract)])))
  (fun bytes => Ok (sha256_hex bytes)).

(** [_validate_state_shape] *)
Definition validate_state_shape (d : DelegationRequest) : res unit :=
  let has {A} (o : option A) := not_none o in
  let dispatched := has (dl_child_task_id d) && has (dl_child_run_id d) in
  let bad msg := Raise (DomainValidationError msg) in
  if negb (eqb (has (dl_child_task_id d)) (has (dl_child_run_id d)))
  then bad "delegation child task/run ids must be paired"
  else match dl_status d with
  | DREQUESTED =>
      if dispatched || has (dl_started_at d) || has (dl_completed_at d)
      then bad "requested delegation cannot have child execution state"
      else if has (dl_failure_code d) then bad "requested delegation cannot have a failure code"
      else Ok tt
  | DDISPATCHED =>
      if negb dispatched || negb (has (dl_started_at d)) || has (dl_completed_at d)
      then bad "dispatched delegation has invalid execution state"
      else if has (dl_failure_code d) then bad "dispatched delegation cannot have a failure code"
      else Ok tt
  | DSUCCEEDED =>
      if negb dispatched || negb (has (dl_started_at d)) || negb (has (dl_completed_at d))
      then bad "succeeded delegation has invalid execution state"
      else if has (dl_failure_code d) then bad "succeeded delegation cannot have a failure code"
      else Ok tt
  | DFAILED =>
      if negb dispatched || negb (has (dl_started_at d)) || negb (has (dl_completed_at d))
      then bad "failed delegation has invalid execution state"
      else match dl_failure_code d with
           | None | Some [] => bad "failed DelegationRequest requires a failure_code"
           | Some _ => Ok tt
           end
  | DCANCELLED =>
      if has (dl_failure_code d) then bad "cancelled delegation cannot have a failure code"
      else if dispatched && (negb (has (dl_started_at d)) || negb (has (dl_completed_at d)))
      then bad "dispatched cancelled delegation has invalid execution state"
      else Ok tt
  end.

Definition opt_ensure_utc (o : option datetime) : res (option Z) :=
  match o with None => Ok None | Some t => res_bind (ensure_utc t) (fun z => Ok (Some z)) end.

(** [DelegationRequest(...)], i.e. [__post_init__] *)
Definition DelegationRequest_init `{Digest} (id : DelegationRequestId) (parent_run_id : RunId)
    (target_agent_id : AgentId) (objective : str) (input_payload : pyval)
    (expected_output_contract authorization_fingerprint : str) (status : DelegationStatus)
    (created_at : datetime) (parent_run_step_id : option RunStepId) (child_task_id : option TaskId)
    (child_run_id : option RunId) (started_at completed_at : option datetime)
    (failure_code : option str) (root_delegation_id : option DelegationRequestId)
    (depth : option Z) : res DelegationRequest :=
  let bad msg := Raise (DomainValidationError msg) in
  let objective := strip objective in
  if empty_str objective || (len objective >? MAX_OBJECTIVE_LENGTH)
  then bad "DelegationRequest.objective must be non-empty and within the maximum length"
  else
  let contract := strip expected_output_contract in
  if empty_str contract || (len contract >? MAX_OUTPUT_CONTRACT_LENGTH)
  then bad "DelegationRequest.expected_output_contract must be non-empty and within the maximum length"
  else
  res_bind (ensure_json_value input_payload) (fun payload =>
  if negb (is_sha256_hex authorization_fingerprint)
  then bad "DelegationRequest.authorization_fingerprint must be lowercase sha256"
  else
  res_bind (compute_delegation_fingerprint id parent_run_id parent_run_step_id target_agent_id
              objective payload contract) (fun expected_fingerprint =>
  if negb (bool_decide (authorization_fingerprint = expected_fingerprint))
  then bad "delegation_fingerprint_mismatch"
  else if match failure_code with Some c => len c >? MAX_FAILURE_CODE_LENGTH | None => false end
  then bad "DelegationRequest.failure_code exceeds the maximum length"
  else if bool_decide (status = DFAILED) && negb (not_none failure_code)
  then bad "failed DelegationRequest requires a failure_code"
  else if negb (bool_decide (status = DFAILED)) && not_none failure_code
  then bad "only a failed DelegationRequest may carry a failure_code"
  else
  let root := default id root_delegation_id in
  let depth := default ROOT_DELEGATION_DEPTH depth in
  if depth <? ROOT_DELEGATION_DEPTH then bad "DelegationRequest.depth must be at least 1"
  else if negb (eqb (depth =? ROOT_DELEGATION_DEPTH) (id_eqb root id))
  then bad "a root delegation has depth 1 and is its own root; a nested delegation has depth > 1 and names another delegation as root"
  else
  res_bind (ensure_utc created_at) (fun created =>
  res_bind (opt_ensure_utc started_at) (fun started =>
  res_bind (opt_ensure_utc completed_at) (fun completed =>
  let d := mkDelegation id parent_run_id target_agent_id objective payload contract
             authorization_fingerprint status created parent_run_step_id child_task_id child_run_id
             started completed failure_code root depth in
  res_bind (validate_state_shape d) (fun _ => Ok d)))))).

Definition DelegationRequest_new `{Digest} (id : DelegationRequestId) (parent_run_id : RunId)
    (target_agent_id : AgentId) (objective : str) (input_payload : pyval)
    (expected_output_contract : str) (created_at : datetime) (parent_run_step_id : option RunStepId)
    (root_delegation_id : option DelegationRequestId) (depth : option Z) : res DelegationRequest :=
  let normalized_objective := strip objective in
  let normalized_contract := strip expected_output_contract in
  res_bind (ensure_json_value input_payload) (fun canonical_input =>
  res_bind (compute_delegation_fingerprint id parent_run_id parent_run_step_id target_agent_id
              normalized_objective canonical_input normalized_contract) (fun fingerprint =>
  res_bind (ensure_utc created_at) (fun created =>
  DelegationRequest_init id parent_run_id target_agent_id normalized_objective
    (to_py canonical_input) normalized_contract fingerprint DREQUESTED (utc created)
    parent_run_step_id None None None None None root_delegation_id depth))).

(** ** Transitions

    Assignments happen in the order of the source, so a naive timestamp stops
    [dispatch] and [fail] after their first assignments. *)
Definition dl_require (allowed : list DelegationStatus) (target : string) : M DelegationRequest unit :=
  st <- gets dl_status ;;
  raise_if (negb (bool_decide (st ∈ allowed)))
    (InvalidStateTransition "DelegationRequest" (delegation_status_value st) target).

Definition dl_dispatch (child_task_id : TaskId) (child_run_id : RunId) (at_ : datetime)
    : M DelegationRequest unit :=
  dl_require [DREQUESTED] "dispatched" ;;;
  modify (set_dl_child_task_id (Some child_task_id)) ;;;
  modify (set_dl_child_run_id (Some child_run_id)) ;;;
  t <- lift (ensure_utc at_) ;;
  modify (set_dl_started_at (Some t)) ;;;
  modify (set_dl_status DDISPATCHED).

Definition dl_succeed (at_ : datetime) : M DelegationRequest unit :=
  dl_require [DDISPATCHED] "succeeded" ;;;
  t <- lift (ensure_utc at_) ;;
  modify (set_dl_completed_at (Some t)) ;;;
  modify (set_dl_status DSUCCEEDED).

Definition dl_fail (at_ : datetime) (failure_code : str) : M DelegationRequest unit :=
  dl_require [DDISPATCHED] "failed" ;;;
  let code := strip failure_code in
  raise_if (empty_str code || (len code >? MAX_FAILURE_CODE_LENGTH))
    (DomainValidationError "delegation failure code is empty or too long") ;;;
  modify (set_dl_failure_code (Some code)) ;;;
  t <- lift (ensure_utc at_) ;;
  modify (set_dl_completed_at (Some t)) ;;;
  modify (set_dl_status DFAILED).

Definition dl_cancel (at_ : datetime) : M DelegationRequest unit :=
  dl_require [DREQUESTED; DDISPATCHED] "cancelled" ;;;
  t <- lift (ensure_utc at_) ;;
  modify (set_dl_completed_at (Some t)) ;;;
  modify (set_dl_status DCANCELLED).

(** ** Histories *)
Inductive dl_op : Type :=
| DlDispatch (child_task_id : TaskId) (child_run_id : RunId) (at_ : datetime)
| DlSucceed (at_ : datetime)
| DlFail (at_ : datetime) (failure_code : str)
| DlCancel (at_ : datetime).

Definition dl_exec (o : dl_op) : M DelegationRequest unit :=
  match o with
  | DlDispatch t r a => dl_dispatch t r a
  | DlSucceed a => dl_succeed a
  | DlFail a c => dl_fail a c
  | DlCancel a => dl_cancel a
  end.

(** [at] is timezone-aware, as every [Clock] reading is. *)
Definition dl_op_aware (o : dl_op) : bool :=
  match o with DlDispatch _ _ a | DlSucceed a | DlFail a _ | DlCancel a => not_none (dt_offset a) end.

(** Building the entity again from its stored columns, as
    [delegation_request_from_row] does. *)
Definition dl_reload `{Digest} (d : DelegationRequest) : res DelegationRequest :=
  DelegationRequest_init (dl_id d) (dl_parent_run_id d) (dl_target_agent_id d) (dl_objective d)
    (to_py (dl_input_payload d)) (dl_expected_output_contract d) (dl_authorization_fingerprint d)
    (dl_status d) (utc (dl_created_at d)) (dl_parent_run_step_id d) (dl_child_task_id d)
    (dl_child_run_id d) (utc <$> dl_started_at d) (utc <$> dl_completed_at d) (dl_failure_code d)
    (Some (dl_root_delegation_id d)) (Some (dl_depth d)).

(** The part of the invariant about the immutable intent. *)
Record dl_intent `{Digest} (d : DelegationRequest) : Prop := {
  di_objective : strip (dl_objective d) = dl_objective d;
  di_objective_len : empty_str (dl_objective d) || (len (dl_objective d) >? MAX_OBJECTIVE_LENGTH) = false;
  di_contract : strip (dl_expected_output_contract d) = dl_expected_output_contract d;
  di_contract_len : empty_str (dl_expected_output_contract d)
                    || (len (dl_expected_output_contract d) >? MAX_OUTPUT_CONTRACT_LENGTH) = false;
  di_hex : is_sha256_hex (dl_authorization_fingerprint d) = true;
  di_fingerprint : compute_delegation_fingerprint (dl_id d) (dl_parent_run_id d)
    (dl_parent_run_step_id d) (dl_target_agent_id d) (dl_objective d) (dl_input_payload d)
    (dl_expected_output_contract d) = Ok (dl_authorization_fingerprint d);
  di_depth : ROOT_DELEGATION_DEPTH <= dl_depth d;
  di_root : (dl_depth d =? ROOT_DELEGATION_DEPTH) = id_eqb (dl_root_delegation_id d) (dl_id d) }.

(** The part about the status. *)
Definition dl_state (d : DelegationRequest) : Prop :=
  validate_state_shape d = Ok tt /\
  not_none (dl_failure_code d) = bool_decide (dl_status d = DFAILED) /\
  (forall c, dl_failure_code d = Some c -> len c <= MAX_FAILURE_CODE_LENGTH).

Lemma opt_ensure_utc_utc o : opt_ensure_utc (utc <$> o) = Ok o.
Proof. destruct o; [|done]. cbn -[ensure_utc utc]. by rewrite ensure_utc_utc. Qed.

Lemma dl_reload_ok `{Digest} d : dl_intent d -> dl_state d -> dl_reload d = Ok d.
Proof.
  intros [Ho Hol Hc Hcl Hx Hf Hd Hr] (Hs & Hfc & Hlen).
  unfold dl_reload, DelegationRequest_init. rewrite Ho, Hol, Hc, Hcl, ensure_json_to_py.
  cbn [res_bind]. rewrite Hx. cbn [negb]. rewrite Hf. cbn [res_bind].
  rewrite bool_decide_eq_true_2 by done. cbn [negb].
  replace (match dl_failure_code d with Some c => _ | None => _ end) with false
    by (destruct (dl_failure_code d) eqn:E; [|done]; specialize (Hlen _ eq_refl); lia).
  rewrite Hfc, andb_negb_r, (andb_comm (negb _)), andb_negb_r. cbv zeta.
  change (default ?a (Some ?b)) with b. cbn [from_option]. change (id ?x) with x.
  replace (dl_depth d <? ROOT_DELEGATION_DEPTH) with false by lia.
  rewrite Hr, eqb_reflx. cbn [negb]. rewrite ensure_utc_utc, !opt_ensure_utc_utc.
  cbn [res_bind]. destruct d; cbn in *. by rewrite Hs.
Qed.

Lemma dl_new_ok `{Digest} id run agent obj payload contract at_ step root depth d :
  DelegationRequest_new id run agent obj payload contract at_ step root depth = Ok d ->
  dl_intent d /\ dl_state d.
Proof.
  unfold DelegationRequest_new. destruct (ensure_json_value payload) as [j|]; cbn [res_bind]; [|done].
  destruct (compute_delegation_fingerprint _ _ _ _ _ j _) as [fp|] eqn:Ef; cbn [res_bind]; [|done].
  destruct (ensure_utc at_) as [t|]; cbn [res_bind]; [|done].
  unfold DelegationRequest_init. rewrite !strip_idem, ensure_json_to_py. cbn [res_bind].
  destruct (empty_str (strip obj) || _) eqn:E1; [done|].
  destruct (empty_str (strip contract) || _) eqn:E2; [done|].
  destruct (is_sha256_hex fp) eqn:E3; cbn [negb]; [|done].
  rewrite Ef. cbn [res_bind]. rewrite bool_decide_eq_true_2 by done. cbn -[default ROOT_DELEGATION_DEPTH].
  destruct (_ <? _) eqn:E4; [done|]. destruct (eqb _ _) eqn:E5; [|done]. apply eqb_prop in E5.
  intros [= <-]. split; [|by repeat split].
  split; cbn -[ROOT_DELEGATION_DEPTH strip]; try apply strip_idem; try done. lia.
Qed.

Ltac dl_cases :=
  cbv [dl_exec dl_dispatch dl_succeed dl_fail dl_cancel dl_require
       bind gets modify lift raise_if ret raise ensure_utc];
  cbn [dl_id dl_parent_run_id dl_target_agent_id dl_objective dl_input_payload
       dl_expected_output_contract dl_authorization_fingerprint dl_status dl_created_at
       dl_parent_run_step_id dl_child_task_id dl_child_run_id dl_started_at dl_completed_at
       dl_failure_code dl_root_delegation_id dl_depth fst snd negb dt_offset
       set_dl_status set_dl_child_task_id set_dl_child_run_id set_dl_started_at
       set_dl_completed_at set_dl_failure_code].
Ltac dl_split :=
  closed_tests; cbn [negb];
  repeat (split_match; cbn [negb andb orb] in *; simplify_eq); intros; simplify_eq.

Lemma dl_exec_raise o d e d' :
  dl_op_aware o = true -> dl_exec o d = (Raise e, d') -> d' = d.
Proof.
  destruct d as [? ? ? ? ? ? ? s ? ? ? ? ? ? ? ? ?].
  destruct o as [? ? [w [f|]]|[w [f|]]|[w [f|]] ?|[w [f|]]]; intros Ha; try done;
    destruct s; dl_cases; dl_split; done.
Qed.

Lemma dl_exec_intent `{Digest} o d : dl_intent d -> dl_intent (snd (dl_exec o d)).
Proof.
  intros [? ? ? ? ? ? ? ?]. destruct d as [? ? ? ? ? ? ? s ? ? ? ? ? ? ? ? ?]; cbn in *.
  destruct o, s; dl_cases; dl_split; by split.
Qed.

Lemma dl_exec_state o d : dl_op_aware o = true -> dl_state d -> dl_state (snd (dl_exec o d)).
Proof.
  intros Ha. destruct (dl_exec o d) as [[[]|e] d'] eqn:E; simpl;
    [|by rewrite (dl_exec_raise _ _ _ _ Ha E)].
  revert E. destruct d as [? ? ? ? ? ? ? s ? ? ct cr st cp fc ? ?]; unfold dl_state, validate_state_shape.
  cbn [dl_status dl_child_task_id dl_child_run_id dl_started_at dl_completed_at dl_failure_code].
  intros E (Hs & Hf & Hl).
  destruct s, ct, cr, st, cp, fc; cbn in Hs, Hf; try done; clear Hf;
  destruct o; revert E; dl_cases; dl_split; cbn in *; split_and!; try done;
    intros; simplify_eq;
    repeat match goal with
    | H : Some _ = Some _ |- _ => injection H as H
    | H : strip ?c = _, H' : context [strip ?c] |- _ => rewrite H in H'
    | H : _ || _ = false |- _ => apply orb_false_iff in H as [? ?]
    end; try done; lia.
Qed.

Lemma dl_exec_terminal o d :
  delegation_terminal (dl_status d) = true -> snd (dl_exec o d) = d /\ fst (dl_exec o d) <> Ok tt.
Proof.
  destruct d as [? ? ? ? ? ? ? s ? ? ? ? ? ? ? ? ?]; cbn [dl_status].
  destruct s; intros Ht; try done; destruct o; dl_cases; closed_tests; cbn [negb]; done.
Qed.

Definition dl_run (ops : list dl_op) (d : DelegationRequest) : DelegationRequest :=
  foldl (fun d o => snd (dl_exec o d)) d ops.

Lemma dl_run_inv `{Digest} ops d :
  forallb dl_op_aware ops = true -> dl_intent d -> dl_state d ->
  dl_intent (dl_run ops d) /\ dl_state (dl_run ops d).
Proof.
  revert d. induction ops as [|o ops IH]; intros d Ha Hi Hs; simpl; [done|].
  simpl in Ha. apply andb_prop in Ha as [Ho Ha].
  apply IH; [done|by apply dl_exec_intent|by apply dl_exec_state].
Qed.

(** C33: a DelegationRequest obtained from [new] and any sequence of [dispatch],
    [succeed], [fail] and [cancel] calls with timezone-aware times, as every clock
    gives them (failing calls included; with a naive time [dispatch] and [fail] raise
    after their first assignments, see [naive_time_breaks_shape]), always has the
    execution state its status calls for, and its stored columns are accepted
    by the constructor again, unchanged: in particular its fingerprint is still
    the digest of its own intent.  Once succeeded, failed or cancelled, no call
    changes it. *)
Theorem delegation_lifecycle `{Digest} id run agent obj payload contract at_ step root depth d ops o :
  DelegationRequest_new id run agent obj payload contract at_ step root depth = Ok d ->
  forallb dl_op_aware ops = true ->
  let d' := dl_run ops d in
  validate_state_shape d' = Ok tt /\ dl_reload d' = Ok d' /\
  (delegation_terminal (dl_status d') = true -> snd (dl_exec o d') = d' /\ fst (dl_exec o d') <> Ok tt).
Proof.
  intros Hn Ha d'. destruct (dl_new_ok _ _ _ _ _ _ _ _ _ _ _ Hn) as [Hi Hs].
  destruct (dl_run_inv ops d Ha Hi Hs) as [Hi' Hs']. split_and!.
  - apply Hs'.
  - by apply dl_reload_ok.
  - apply dl_exec_terminal.
Qed.

(** A naive time is refused only after the children have been assigned: what is left is
    a requested delegation with children, which the constructor refuses. *)
Example naive_time_breaks_shape :
  exists d, @DelegationRequest_new toy_digest (mkId (u "d")) (mkId (u "r")) (mkId (u "a")) (u "go")
              (PyDict []) (u "text") (utc 1) None None None = Ok d /\
    validate_state_shape d = Ok tt /\
    let '(r, d') := dl_exec (DlDispatch (mkId (u "t")) (mkId (u "c")) (mkDatetime 3 None)) d in
    r <> Ok tt /\ validate_state_shape d' <> Ok tt.
Proof. eexists. split; [vm_compute; reflexivity|]. by vm_compute. Qed.

Definition ex_dl_ops : list dl_op :=
  [DlSucceed (utc 2); DlDispatch (mkId (u "t")) (mkId (u "c")) (utc 3); DlFail (utc 4) (u " boom ")].

Lemma delegation_lifecycle_witness :
  exists d, @DelegationRequest_new toy_digest (mkId (u "d")) (mkId (u "r")) (mkId (u "a")) (u " go ")
              (PyDict [(PyStr (u "k"), PyInt 1)]) (u "text") (utc 1) None None None = Ok d /\
    @dl_reload toy_digest (dl_run ex_dl_ops d) = Ok (dl_run ex_dl_ops d) /\
    dl_failure_code (dl_run ex_dl_ops d) = Some (u "boom").
Proof.
  eexists. split; [vm_compute; reflexivity|]. split; [|vm_compute; reflexivity].
  eapply (@delegation_lifecycle toy_digest (mkId (u "d")) (mkId (u "r")) (mkId (u "a")) (u " go ")
              (PyDict [(PyStr (u "k"), PyInt 1)]) (u "text") (utc 1) None None None _ ex_dl_ops
              (DlCancel (utc 9))); vm_compute; reflexivity.
Defined.
