(* ===== verification/WorkQueue.v ===== *)
(** * The durable work queue

    [src/friday/infrastructure/persistence/work_queue.py]: one row per queued
    run, claimed by workers under a lease.  A claim is the triple
    [(worker_id, claim_token, claim_generation)]; every operation of a claim
    holder is an [UPDATE ... WHERE] or [DELETE ... WHERE] that fences on it.
    Proved: an operation succeeds exactly when the claim is active and then
    only touches its row; a claim that is no longer active never becomes active
    again; the candidates offered to a worker are sorted and claimable. *)

From S2P Require Import Prelude Values.

Open Scope Z_scope.

Record RunWorkItem : Type := mkItem {
  wi_available_at : Z; wi_enqueued_at : Z; wi_claimed_by : option str;
  wi_claim_token : option str; wi_claim_generation : Z; wi_claimed_at : option Z;
  wi_heartbeat_at : option Z; wi_lease_expires_at : option Z }.


#[global] Instance RunWorkItem_eq_dec : EqDecision RunWorkItem.
Proof. solve_decision. Defined.

(** The table, by primary key [run_id]. *)
Abbreviation Queue := (gmap RunId RunWorkItem).

(** What a worker quotes to act on a run it has claimed. *)
Record Claim : Type := mkClaim { cl_worker_id : str; cl_token : str; cl_generation : Z }.
#[global] Instance Claim_eq_dec : EqDecision Claim.
Proof. solve_decision. Defined.

(** [column == value], [column <= value] and [column > value] on a nullable
    column: a comparison with [NULL] is not satisfied. *)
Definition col_eq {A} `{EqDecision A} (c : option A) (v : A) : bool := bool_decide (c = Some v).
Definition col_le (c : option Z) (v : Z) : bool := match c with Some x => x <=? v | None => false end.
Definition col_gt (c : option Z) (v : Z) : bool := match c with Some x => x >? v | None => false end.

(** [UPDATE ... WHERE run_id = r AND p]; the result is [rowcount == 1]. *)
Definition update_where (r : RunId) (p : RunWorkItem -> bool) (f : RunWorkItem -> RunWorkItem)
    : M Queue bool := fun q =>
  match q !! r with
  | Some row => if p row then (Ok true, <[r := f row]> q) else (Ok false, q)
  | None => (Ok false, q)
  end.
Definition delete_where (r : RunId) (p : RunWorkItem -> bool) : M Queue bool := fun q =>
  match q !! r with
  | Some row => if p row then (Ok true, delete r q) else (Ok false, q)
  | None => (Ok false, q)
  end.

Definition enqueue (run_id : RunId) (available_at enqueued_at : Z) : M Queue unit :=
  row <- gets (fun q => q !! run_id) ;;
  match row with
  | None =>
      modify <[run_id := mkItem available_at enqueued_at None None 0 None None None]>
  | Some w =>
      modify <[run_id := mkItem available_at enqueued_at (wi_claimed_by w) (wi_claim_token w)
        (wi_claim_generation w) (wi_claimed_at w) (wi_heartbeat_at w) (wi_lease_expires_at w)]>
  end.

Definition wq_get (run_id : RunId) : M Queue (option RunWorkItem) := gets (fun q => q !! run_id).

(** [WHERE available_at <= now AND (claimed_by IS NULL OR lease_expires_at <= now)] *)
Definition claimable (now : Z) (w : RunWorkItem) : bool :=
  (wi_available_at w <=? now) && (negb (not_none (wi_claimed_by w)) || col_le (wi_lease_expires_at w) now).
Definition claim_expired (now : Z) (w : RunWorkItem) : bool :=
  not_none (wi_claimed_by w) && not_none (wi_lease_expires_at w) && col_le (wi_lease_expires_at w) now.

Definition queue_key (p : RunId * RunWorkItem) : list Z :=
  wi_available_at p.2 :: wi_enqueued_at p.2 :: value p.1.
Definition select_where (p : RunWorkItem -> bool) (limit : nat) (q : Queue) : list (RunId * RunWorkItem) :=
  take limit (order_by queue_key (filter (fun x => p x.2 = true) (map_to_list q))).

Definition find_due_candidates (now : Z) (limit : nat) : M Queue (list (RunId * RunWorkItem)) :=
  gets (select_where (claimable now) limit).
Definition find_expired_claims (now : Z) (limit : nat) : M Queue (list (RunId * RunWorkItem)) :=
  gets (select_where (claim_expired now) limit).

Definition wq_remove (run_id : RunId) : M Queue unit :=
  row <- gets (fun q => q !! run_id) ;;
  match row with Some _ => modify (delete run_id) | None => ret tt end.

Definition try_claim (run_id : RunId) (worker_id claim_token : str) (now lease_expires_at : Z)
    : M Queue bool :=
  update_where run_id (claimable now)
    (fun w => mkItem (wi_available_at w) (wi_enqueued_at w) (Some worker_id) (Some claim_token)
                (wi_claim_generation w + 1) (Some now) (Some now) (Some lease_expires_at)).

(** The fence shared by the operations of a claim holder *)
Definition fence (c : Claim) (now : Z) (w : RunWorkItem) : bool :=
  col_eq (wi_claimed_by w) (cl_worker_id c) && col_eq (wi_claim_token w) (cl_token c) &&
  (wi_claim_generation w =? cl_generation c) && col_gt (wi_lease_expires_at w) now.
Definition clear_claim (available_at enqueued_at : Z) (w : RunWorkItem) : RunWorkItem :=
  mkItem available_at enqueued_at None None (wi_claim_generation w) None None None.

Definition renew_lease (run_id : RunId) (c : Claim) (now lease_expires_at : Z) : M Queue bool :=
  update_where run_id (fence c now)
    (fun w => mkItem (wi_available_at w) (wi_enqueued_at w) (wi_claimed_by w) (wi_claim_token w)
                (wi_claim_generation w) (wi_claimed_at w) (Some now) (Some lease_expires_at)).

Definition release_claim (run_id : RunId) (c : Claim) (now : Z) : M Queue bool :=
  update_where run_id (fun w => fence c now w && not_none (wi_lease_expires_at w))
    (fun w => clear_claim (wi_available_at w) (wi_enqueued_at w) w).

Definition requeue_claimed (run_id : RunId) (c : Claim) (available_at enqueued_at now : Z) : M Queue bool :=
  update_where run_id (fun w => fence c now w && not_none (wi_lease_expires_at w))
    (clear_claim available_at enqueued_at).

Definition remove_if_claimed (run_id : RunId) (c : Claim) (now : Z) : M Queue bool :=
  delete_where run_id (fun w => fence c now w && not_none (wi_lease_expires_at w)).

Definition clear_expired_claim (run_id : RunId) (now : Z) : M Queue bool :=
  update_where run_id (claim_expired now)
    (fun w => clear_claim (wi_available_at w) (wi_enqueued_at w) w).

Definition remove_if_lease_expired (run_id : RunId) (now : Z) : M Queue bool :=
  delete_where run_id (claim_expired now).

Definition is_claim_active (run_id : RunId) (c : Claim) (now : Z) : M Queue bool :=
  row <- gets (fun q => q !! run_id) ;;
  match row with
  | None => ret false
  | Some w =>
      if negb (bool_decide (wi_claimed_by w = Some (cl_worker_id c)))
         || negb (bool_decide (wi_claim_token w = Some (cl_token c)))
         || negb (wi_claim_generation w =? cl_generation c)
      then ret false
      else match wi_lease_expires_at w with
           | None => ret false
           | Some lease => ret (lease >? now)
           end
  end.

(** ** The queue as a machine *)
Inductive wq_op : Type :=
| WqEnqueue (available_at enqueued_at : Z)
| WqRemove
| WqTryClaim (worker_id token : str) (lease_expires_at : Z)
| WqRenew (c : Claim) (lease_expires_at : Z)
| WqRelease (c : Claim)
| WqRequeue (c : Claim) (available_at enqueued_at : Z)
| WqRemoveIfClaimed (c : Claim)
| WqClearExpired
| WqRemoveIfExpired.

(** An operation on a row at a time [now]; the result is what it returns,
    with [true] for the unconditional ones. *)
Definition wq_exec (r : RunId) (now : Z) (o : wq_op) : M Queue bool :=
  match o with
  | WqEnqueue a e => enqueue r a e ;;; ret true
  | WqRemove => wq_remove r ;;; ret true
  | WqTryClaim w t l => try_claim r w t now l
  | WqRenew c l => renew_lease r c now l
  | WqRelease c => release_claim r c now
  | WqRequeue c a e => requeue_claimed r c a e now
  | WqRemoveIfClaimed c => remove_if_claimed r c now
  | WqClearExpired => clear_expired_claim r now
  | WqRemoveIfExpired => remove_if_lease_expired r now
  end.

(** The claim an operation quotes. *)
Definition op_claim (o : wq_op) : option Claim :=
  match o with
  | WqRenew c _ | WqRelease c | WqRequeue c _ _ | WqRemoveIfClaimed c => Some c
  | _ => None
  end.

Definition active (q : Queue) (r : RunId) (c : Claim) (now : Z) : bool :=
  match q !! r with Some w => fence c now w | None => false end.

Lemma is_claim_active_spec r c now q : is_claim_active r c now q = (Ok (active q r c now), q).
Proof.
  unfold is_claim_active, active, fence, col_eq, bind, gets, ret.
  destruct (q !! r) as [w|]; [|done].
  destruct (bool_decide _), (bool_decide _), (_ =? _); try done.
  by destruct (wi_lease_expires_at w).
Qed.

Lemma fence_lease c now w : fence c now w = true -> not_none (wi_lease_expires_at w) = true.
Proof. unfold fence. destruct (wi_lease_expires_at w); [done|]. by rewrite andb_false_r. Qed.
Lemma fence_lease_and c now w : fence c now w && not_none (wi_lease_expires_at w) = fence c now w.
Proof. destruct (fence c now w) eqn:E; [|done]. by rewrite (fence_lease _ _ _ E). Qed.

Ltac wq_unfold :=
  cbv [wq_exec enqueue wq_remove try_claim renew_lease release_claim requeue_claimed
       remove_if_claimed clear_expired_claim remove_if_lease_expired update_where delete_where
       bind gets ret modify].

(** An operation is confined to its row. *)
Lemma wq_exec_frame r now o q r' : r' <> r -> snd (wq_exec r now o q) !! r' = q !! r'.
Proof.
  intros Hne. destruct o; wq_unfold; destruct (q !! r) as [w|]; cbn [fst snd];
    repeat match goal with |- context [if ?b then _ else _] => destruct b end; cbn [snd];
    rewrite ?lookup_insert_ne, ?lookup_delete_ne by done; done.
Qed.

(** What each operation does to its row. *)
Lemma wq_exec_row r now o q :
  snd (wq_exec r now o q) !! r =
  match o, q !! r with
  | WqEnqueue a e, None => Some (mkItem a e None None 0 None None None)
  | WqEnqueue a e, Some w =>
      Some (mkItem a e (wi_claimed_by w) (wi_claim_token w) (wi_claim_generation w)
              (wi_claimed_at w) (wi_heartbeat_at w) (wi_lease_expires_at w))
  | WqRemove, _ => None
  | _, None => None
  | WqTryClaim wk t l, Some w =>
      Some (if claimable now w
            then mkItem (wi_available_at w) (wi_enqueued_at w) (Some wk) (Some t)
                   (wi_claim_generation w + 1) (Some now) (Some now) (Some l) else w)
  | WqRenew c l, Some w =>
      Some (if fence c now w
            then mkItem (wi_available_at w) (wi_enqueued_at w) (wi_claimed_by w) (wi_claim_token w)
                   (wi_claim_generation w) (wi_claimed_at w) (Some now) (Some l) else w)
  | WqRelease c, Some w =>
      Some (if fence c now w then clear_claim (wi_available_at w) (wi_enqueued_at w) w else w)
  | WqRequeue c a e, Some w => Some (if fence c now w then clear_claim a e w else w)
  | WqRemoveIfClaimed c, Some w => if fence c now w then None else Some w
  | WqClearExpired, Some w =>
      Some (if claim_expired now w then clear_claim (wi_available_at w) (wi_enqueued_at w) w else w)
  | WqRemoveIfExpired, Some w => if claim_expired now w then None else Some w
  end.
Proof.
  destruct o; wq_unfold; destruct (q !! r) as [w|] eqn:E; cbn [fst snd]; rewrite ?fence_lease_and;
    repeat match goal with |- context [if ?b then _ else _] => destruct b end; cbn [snd];
    rewrite ?lookup_insert_eq, ?lookup_delete_eq; done.
Qed.

(** C12: the operations of a claim holder (renew, release, requeue, complete) are
    fenced: each returns [True] exactly when [is_claim_active] says that the
    claim it quotes is active on the run; otherwise it returns [False] and
    changes nothing; and it never touches another run's row. *)
Theorem claim_fencing r now o q c :
  op_claim o = Some c ->
  fst (wq_exec r now o q) = fst (is_claim_active r c now q) /\
  (fst (is_claim_active r c now q) = Ok false -> snd (wq_exec r now o q) = q) /\
  (forall r', r' <> r -> snd (wq_exec r now o q) !! r' = q !! r').
Proof.
  rewrite is_claim_active_spec. cbn [fst]. unfold active.
  intros Ho. split_and!; [| |intros r' Hr'; by apply wq_exec_frame].
  - destruct o; simplify_eq/=; wq_unfold; destruct (q !! r) as [w|]; rewrite ?fence_lease_and;
      try done; by destruct (fence _ _ w).
  - intros [= Hf]. destruct o; simplify_eq/=; wq_unfold; destruct (q !! r) as [w|];
      rewrite ?fence_lease_and; try done; by rewrite Hf.
Qed.

Definition ex_claim : Claim := mkClaim (u "worker-1") (u "tok") 1.
Definition ex_queue : Queue :=
  {[ mkId (u "r1") := mkItem 0 0 (Some (u "worker-1")) (Some (u "tok")) 1 (Some 5) (Some 5) (Some 10) ]}.

Lemma claim_fencing_witness :
  wq_exec (mkId (u "r1")) 12 (WqRelease ex_claim) ex_queue = (Ok false, ex_queue).
Proof.
  destruct (claim_fencing (mkId (u "r1")) 12 (WqRelease ex_claim) ex_queue ex_claim)
    as (H1 & H2 & _); [reflexivity|].
  rewrite (surjective_pairing (wq_exec _ _ _ _)), H1, H2; reflexivity.
Defined.

(** ** A lost claim is lost for good *)

(** A history: who did what to which run, when. *)
Definition wq_step : Type := Z * RunId * wq_op.
Definition wq_run (h : list wq_step) (q : Queue) : Queue :=
  foldl (fun q '(now, r, o) => snd (wq_exec r now o q)) q h.

(** Time does not go back, from [t] on. *)
Fixpoint times_from (t : Z) (h : list wq_step) : Prop :=
  match h with [] => True | (now, _, _) :: h' => t <= now /\ times_from now h' end.
Definition last_time (t : Z) (h : list wq_step) : Z :=
  foldl (fun _ '(now, _, _) => now) t h.

(** [token] is not handed out again ([uuid4] tokens do not repeat). *)
Definition never_reissued (token : str) (h : list wq_step) : Prop :=
  Forall (fun '(_, _, o) => match o with WqTryClaim _ t _ => t <> token | _ => True end) h.

Lemma fence_mono c t t' w : t <= t' -> fence c t w = false -> fence c t' w = false.
Proof.
  unfold fence. intros Ht. destruct (col_eq _ _ && _ && _); simpl; [|done].
  destruct (wi_lease_expires_at w); simpl; lia.
Qed.

Lemma inactive_step q r c t now r' o :
  active q r c t = false -> t <= now ->
  (match o with WqTryClaim _ tok _ => tok <> cl_token c | _ => True end) ->
  active (snd (wq_exec r' now o q)) r c now = false.
Proof.
  intros Hi Ht Hfresh. unfold active in *. destruct (decide (r = r')) as [<-|Hne].
  2: { rewrite wq_exec_frame by done. destruct (q !! r); [|done]. by eapply fence_mono. }
  rewrite wq_exec_row. destruct (q !! r) as [w|]; [|by destruct o].
  pose proof (fence_mono _ _ _ _ Ht Hi) as Hn.
  assert (Hnone : forall a e, fence c now (clear_claim a e w) = false) by done.
  destruct o as [a e| |wk tok l|c' l|c'|c' a e|c'| |]; try done.
  - destruct (claimable now w); [|done]. unfold fence. simpl.
    unfold col_eq at 2. rewrite (bool_decide_eq_false_2 (Some tok = _)) by congruence.
    by rewrite andb_false_r.
  - destruct (fence c' now w) eqn:Hc'; [|done].
    assert (Hcc : c' <> c) by congruence.
    unfold fence, col_eq in Hc' |- *. cbn.
    rewrite !andb_true_iff, !bool_decide_eq_true, Z.eqb_eq in Hc'.
    destruct Hc' as [[[Hw Htk] Hg] _]. rewrite Hw, Htk.
    destruct (decide (cl_worker_id c' = cl_worker_id c)) as [E1|E1].
    2: { by rewrite (bool_decide_eq_false_2 (Some (cl_worker_id c') = _)) by congruence. }
    destruct (decide (cl_token c' = cl_token c)) as [E2|E2].
    2: { rewrite (bool_decide_eq_false_2 (Some (cl_token c') = _)) by congruence.
         by rewrite andb_false_r. }
    replace (wi_claim_generation w =? cl_generation c) with false; [by rewrite andb_false_r|].
    symmetry. apply Z.eqb_neq. intros E3. apply Hcc. destruct c, c'; simpl in *. f_equal; try done. lia.
  - by destruct (fence c' now w).
  - by destruct (fence c' now w).
  - by destruct (fence c' now w).
  - by destruct (claim_expired now w).
  - by destruct (claim_expired now w).
Qed.

(** Once a claim is not active any more (its lease ran out, it was released,
    requeued, completed, recovered or the row was removed), no later history of
    queue operations makes it active again, whatever other workers do: the
    generation counter, the worker name and the single-use token together rule
    out a revival even though removing and re-enqueueing a run restarts the
    generation at 0. *)
Theorem lost_claim_stays_lost q r c t h :
  active q r c t = false -> times_from t h -> never_reissued (cl_token c) h ->
  forall t', last_time t h <= t' ->
  fst (is_claim_active r c t' (wq_run h q)) = Ok false.
Proof.
  intros Hi Ht Hf t' Hle. rewrite is_claim_active_spec. simpl. f_equal. revert q t Hi Ht Hle.
  induction h as [|[[now r'] o] h IH]; intros q t Hi Ht Hle; simpl in *.
  - unfold active in *. destruct (q !! r); [|done]. by eapply fence_mono.
  - destruct Ht as [Ht Hts]. apply Forall_cons_iff in Hf as [Ho Hf].
    apply (IH Hf _ now); [by eapply inactive_step|done|done].
Qed.

(** worker-1's lease of run r1 ran out at 10; worker-2 removes the row and the
    run is enqueued and claimed again, at generation 1 once more. *)
Definition ex_history : list wq_step :=
  [(11, mkId (u "r1"), WqRemoveIfExpired); (12, mkId (u "r1"), WqEnqueue 12 12);
   (13, mkId (u "r1"), WqTryClaim (u "worker-1") (u "tok2") 99)].

Lemma lost_claim_stays_lost_witness :
  fst (is_claim_active (mkId (u "r1")) (mkClaim (u "worker-1") (u "tok2") 1) 14
         (wq_run ex_history ex_queue)) = Ok true /\
  fst (is_claim_active (mkId (u "r1")) ex_claim 14 (wq_run ex_history ex_queue)) = Ok false.
Proof.
  split; [reflexivity|].
  apply (lost_claim_stays_lost ex_queue (mkId (u "r1")) ex_claim 11 ex_history).
  - reflexivity.
  - cbn. lia.
  - repeat constructor. by vm_compute.
  - cbn. lia.
Defined.

(** ** Candidate selection *)
Lemma elem_of_select p limit q x :
  x ∈ select_where p limit q -> q !! x.1 = Some x.2 /\ p x.2 = true.
Proof.
  unfold select_where. intros (i & Hx & _)%elem_of_take. apply list_elem_of_lookup_2 in Hx.
  rewrite elem_of_order_by in Hx. apply list_elem_of_filter in Hx as [Hp Hx].
  destruct x. by apply elem_of_map_to_list in Hx.
Qed.

Lemma select_where_first p limit q r w :
  q !! r = Some w -> p w = true -> (r, w) ∉ select_where p limit q ->
  length (select_where p limit q) = limit /\
  forall x, x ∈ select_where p limit q -> key_le queue_key x (r, w).
Proof.
  unfold select_where. intros Hw Hp Hno.
  set (l := order_by queue_key (filter (fun x => p x.2 = true) (map_to_list q))) in *.
  assert (Hin : (r, w) ∈ take limit l ++ drop limit l).
  { rewrite take_drop. unfold l. rewrite elem_of_order_by. apply list_elem_of_filter.
    split; [done|]. by apply elem_of_map_to_list. }
  apply elem_of_app in Hin as [?|Hd]; [done|]. split.
  - apply length_take_le. destruct (decide (limit <= length l)%nat); [done|].
    rewrite drop_ge in Hd by lia. by apply not_elem_of_nil in Hd.
  - intros x Hx. eapply StronglySorted_app_1_elem_of; [|exact Hx|exact Hd].
    rewrite take_drop. apply order_by_sorted.
Qed.

(** C40: [find_due_candidates] returns at most [limit] rows, oldest first by
    (available_at, enqueued_at, run_id); every row it returns is in the queue and
    would be claimed by [try_claim] at that moment; and a claimable row is left
    out only when the limit is reached by rows that come before it. *)
Theorem due_candidates_fair now limit q :
  exists l, find_due_candidates now limit q = (Ok l, q) /\
  (length l <= limit)%nat /\ StronglySorted (key_le queue_key) l /\
  (forall r w, (r, w) ∈ l -> q !! r = Some w /\
     forall worker token lease, fst (try_claim r worker token now lease q) = Ok true) /\
  (forall r w, q !! r = Some w -> fst (try_claim r (u "w") (u "t") now (now + 1) q) = Ok true ->
     (r, w) ∈ l \/ (length l = limit /\ forall x, x ∈ l -> key_le queue_key x (r, w))).
Proof.
  exists (select_where (claimable now) limit q). split; [done|]. split_and!.
  - unfold select_where. rewrite length_take. lia.
  - unfold select_where. eapply StronglySorted_app_1_l. rewrite take_drop. apply order_by_sorted.
  - intros r w Hx. apply elem_of_select in Hx as [Hw Hc]. simpl in *. split; [done|].
    intros worker token lease. wq_unfold. by rewrite Hw, Hc.
  - intros r w Hw. wq_unfold. rewrite Hw. destruct (claimable now w) eqn:Hc; [intros _|done].
    destruct (decide ((r, w) ∈ select_where (claimable now) limit q)); [by left|].
    right. by apply select_where_first.
Qed.
