(* ===== verification/AgentEntity.v ===== *)
(** * Agents

    [src/friday/domain/agent.py]: the [Agent] aggregate, immutable agent
    revisions with their integrity digest, and the bindings that tie tasks and
    runs to agents.  Proved: a stored revision passes the integrity check it
    meets when it is loaded, its digest pins runtime kind, instructions and
    configuration up to the order of configuration entries, and the aggregate's
    invariant. *)

From S2P Require Import Prelude Values RetryPolicy JsonText Canonical JsonPrint.

Open Scope Z_scope.

Definition MAX_AGENT_KEY_LENGTH : Z := 96.
Definition MAX_AGENT_INSTRUCTIONS_LENGTH : Z := 32000.
Definition MAX_RUNTIME_KIND_LENGTH : Z := 64.

Inductive AgentStatus : Type := AG_ACTIVE | AG_DISABLED | AG_ARCHIVED.
#[global] Instance AgentStatus_eq_dec : EqDecision AgentStatus.
Proof. solve_decision. Defined.
Definition agent_status_value (s : AgentStatus) : string :=
  match s with AG_ACTIVE => "active" | AG_DISABLED => "disabled" | AG_ARCHIVED => "archived" end.

Inductive AgentRevisionSourceKind : Type := AS_OPERATOR | AS_IMPORTED.

(** The test [value != value.lower()] is implied by the pattern, whose
    alphabet has no upper-case letter. *)
Definition validate_agent_key (value : str) : res str :=
  if empty_str value || (len value >? MAX_AGENT_KEY_LENGTH)
     || negb (machine_key (fun c => (c =? 46) || (c =? 45)) value)
  then Raise (DomainValidationError
         "Agent.key must be lowercase dot-or-hyphen separated machine identity")
  else Ok value.

(** A control character other than line feed, carriage return and tab *)
Definition disallowed_control (c : Z) : bool :=
  ((c <? 32) && negb ((c =? 10) || (c =? 13) || (c =? 9))) || (c =? 127).

Definition validate_agent_instructions (value : str) : res str :=
  if empty_str value || (len value >? MAX_AGENT_INSTRUCTIONS_LENGTH)
  then Raise (DomainValidationError
         "AgentRevision.instructions must be non-empty and within the maximum length")
  else match encode value with
       | Raise _ => Raise (DomainValidationError "AgentRevision.instructions must be UTF-8 encodable")
       | Ok _ =>
           if existsb disallowed_control value
           then Raise (DomainValidationError
                  "AgentRevision.instructions contains disallowed control content")
           else Ok value
       end.

Definition validate_runtime_kind (value : str) : res str :=
  if empty_str value || (len value >? MAX_RUNTIME_KIND_LENGTH)
     || negb (machine_key (fun c => (c =? 46) || (c =? 95) || (c =? 45)) value)
  then Raise (DomainValidationError "AgentRevision.runtime_kind must be a lowercase machine identity")
  else Ok value.

Record AgentRevision : Type := mkAgentRevision {
  av_id : AgentRevisionId; av_agent_id : AgentId; av_version : Z; av_instructions : str;
  av_runtime_kind : str; av_runtime_config : json; av_content_sha256 : str;
  av_source_kind : AgentRevisionSourceKind; av_created_at : Z }.

Section Revisions.
Context `{Digest}.

(** [_canonical_revision_content] *)
Definition canonical_revision_content (instructions runtime_kind : str) (runtime_config : json) : str :=
  json_dumps true (JDict
    [(u "instructions", JStr instructions); (u "runtime_kind", JStr runtime_kind);
     (u "runtime_config", runtime_config)]).

(** [AgentRevision.__post_init__] *)
Definition AgentRevision_init (id : AgentRevisionId) (agent_id : AgentId) (version : Z)
    (instructions runtime_kind : str) (runtime_config : json) (content_sha256 : str)
    (source_kind : AgentRevisionSourceKind) (created_at : datetime) : res AgentRevision :=
  res_bind (validate_agent_instructions instructions) (fun _ =>
  res_bind (validate_runtime_kind runtime_kind) (fun _ =>
  res_bind (ensure_json_value (to_py runtime_config)) (fun _ =>
  res_bind (encode (canonical_revision_content instructions runtime_kind runtime_config)) (fun bytes =>
  if negb (bool_decide (content_sha256 = sha256_hex bytes))
  then Raise (DomainValidationError "agent_integrity_failed")
  else if negb (is_sha256_hex content_sha256)
  then Raise (DomainValidationError "AgentRevision.content_sha256 must be lowercase sha256")
  else res_bind (ensure_utc created_at) (fun t =>
    Ok (mkAgentRevision id agent_id version instructions runtime_kind runtime_config
          content_sha256 source_kind t)))))).

Definition AgentRevision_new (id : AgentRevisionId) (agent_id : AgentId) (version : Z)
    (instructions runtime_kind : str) (runtime_config : pyval)
    (source_kind : AgentRevisionSourceKind) (created_at : datetime) : res AgentRevision :=
  if version <? 1 then Raise (DomainValidationError "AgentRevision.version must be positive")
  else
    res_bind (validate_agent_instructions instructions) (fun instructions =>
    res_bind (validate_runtime_kind runtime_kind) (fun runtime_kind =>
    res_bind (ensure_json_value runtime_config) (fun runtime_config =>
    res_bind (encode (canonical_revision_content instructions runtime_kind runtime_config)) (fun bytes =>
    res_bind (ensure_utc created_at) (fun t =>
    AgentRevision_init id agent_id version instructions runtime_kind runtime_config
      (sha256_hex bytes) source_kind (utc t)))))).
End Revisions.

Record TaskAgentBinding : Type := mkTaskAgent {
  ta_task_id : TaskId; ta_agent_id : AgentId; ta_created_at : Z }.

(** ** The [Agent] aggregate *)
Record Agent : Type := mkAgent {
  ag_id : AgentId; ag_key : str; ag_display_name : str; ag_description : str;
  ag_status : AgentStatus; ag_active_revision_id : option AgentRevisionId;
  ag_created_at : Z; ag_updated_at : Z }.

Definition Agent_new (id : AgentId) (key display_name description : str) (created_at : datetime)
    : res Agent :=
  if empty_str (strip display_name)
  then Raise (DomainValidationError "Agent.display_name must not be empty")
  else res_bind (ensure_utc created_at) (fun now =>
       res_bind (validate_agent_key key) (fun key' =>
       Ok (mkAgent id key' (strip display_name) (strip description) AG_ACTIVE None now now))).

(** [activate] assigns the pointer before it evaluates [ensure_utc(at)]. *)
Definition ag_activate (revision : AgentRevision) (at_ : datetime) : M Agent unit :=
  a <- get ;;
  raise_if (bool_decide (ag_status a = AG_ARCHIVED))
    (InvalidStateTransition "Agent" (agent_status_value (ag_status a)) "activate") ;;;
  raise_if (negb (id_eqb (av_agent_id revision) (ag_id a)))
    (DomainValidationError "Agent revision does not belong to agent") ;;;
  modify (fun a => mkAgent (ag_id a) (ag_key a) (ag_display_name a) (ag_description a) (ag_status a)
                     (Some (av_id revision)) (ag_created_at a) (ag_updated_at a)) ;;;
  t <- lift (ensure_utc at_) ;;
  modify (fun a => mkAgent (ag_id a) (ag_key a) (ag_display_name a) (ag_description a) AG_ACTIVE
                     (ag_active_revision_id a) (ag_created_at a) t).

Definition ag_set_status (s : AgentStatus) (at_ : datetime) : M Agent unit :=
  t <- lift (ensure_utc at_) ;;
  modify (fun a => mkAgent (ag_id a) (ag_key a) (ag_display_name a) (ag_description a) s
                     (ag_active_revision_id a) (ag_created_at a) t).

Definition ag_disable (at_ : datetime) : M Agent unit :=
  a <- get ;;
  raise_if (bool_decide (ag_status a = AG_ARCHIVED))
    (InvalidStateTransition "Agent" (agent_status_value (ag_status a)) "disabled") ;;;
  ag_set_status AG_DISABLED at_.

Definition ag_archive (at_ : datetime) : M Agent unit :=
  a <- get ;;
  if bool_decide (ag_status a = AG_ARCHIVED) then ret tt else ag_set_status AG_ARCHIVED at_.

Inductive ag_op : Type :=
| AgActivate (r : AgentRevision) (at_ : datetime) | AgDisable (at_ : datetime) | AgArchive (at_ : datetime).
Definition ag_exec (o : ag_op) : M Agent unit :=
  match o with
  | AgActivate r t => ag_activate r t
  | AgDisable t => ag_disable t
  | AgArchive t => ag_archive t
  end.

(** ** Properties *)
Lemma agent_instructions_ok s s' : validate_agent_instructions s = Ok s' -> s' = s.
Proof. unfold validate_agent_instructions. repeat case_match; congruence. Qed.
Lemma runtime_kind_ok s s' : validate_runtime_kind s = Ok s' -> s' = s.
Proof. unfold validate_runtime_kind. case_match; congruence. Qed.

Lemma agent_revision_new_inv `{Digest} id aid v ins kind cfg src at_ r :
  AgentRevision_new id aid v ins kind cfg src at_ = Ok r ->
  exists c bytes t,
    1 <= v /\ ensure_json_value cfg = Ok c /\
    encode (canonical_revision_content ins kind c) = Ok bytes /\ ensure_utc at_ = Ok t /\
    r = mkAgentRevision id aid v ins kind c (sha256_hex bytes) src t /\
    AgentRevision_init id aid v ins kind c (sha256_hex bytes) src (utc t) = Ok r.
Proof.
  unfold AgentRevision_new. destruct (v <? 1) eqn:Ev; [done|].
  destruct (validate_agent_instructions ins) as [i|] eqn:Ei; cbn [res_bind]; [|done].
  apply agent_instructions_ok in Ei as ->.
  destruct (validate_runtime_kind kind) as [k|] eqn:Ek; cbn [res_bind]; [|done].
  apply runtime_kind_ok in Ek as ->.
  destruct (ensure_json_value cfg) as [c|]; cbn [res_bind]; [|done].
  destruct (encode _) as [bytes|] eqn:Ee; cbn [res_bind]; [|done].
  destruct (ensure_utc at_) as [t|] eqn:Et; cbn [res_bind]; [|done].
  intros Hr. exists c, bytes, t. split_and!; try done; [lia|]. revert Hr.
  unfold AgentRevision_init.
  destruct (validate_agent_instructions ins); cbn [res_bind]; [|done].
  destruct (validate_runtime_kind kind); cbn [res_bind]; [|done].
  rewrite ensure_json_to_py. cbn [res_bind]. rewrite Ee. cbn [res_bind].
  rewrite bool_decide_eq_true_2 by done. cbn [negb].
  destruct (is_sha256_hex _); cbn [negb]; [|done]. rewrite ensure_utc_utc. by intros [= <-].
Qed.

(** The canonical text says everything: it determines instructions, runtime kind and, up
    to the order of entries and the form of floats, the configuration. *)
Lemma runtime_kind_plain kind k : validate_runtime_kind kind = Ok k -> plain kind = true.
Proof.
  unfold validate_runtime_kind. destruct (empty_str kind || _); cbn [orb]; [done|].
  destruct (machine_key _ kind) eqn:E; cbn [negb]; [|done]. intros _. apply machine_key_chars in E.
  apply forallb_forall. intros c Hc%list_elem_of_In. rewrite Forall_forall in E. specialize (E c Hc).
  revert E. unfold is_lower_digit, is_lower, scalar. cbv beta. lia.
Qed.
Definition revision_content (instructions runtime_kind : str) (runtime_config : json) : json :=
  JDict [(u "instructions", JStr instructions); (u "runtime_kind", JStr runtime_kind); (u "runtime_config", runtime_config)].
Lemma revision_content_plain ins kind cfg k :
  plain ins = true -> validate_runtime_kind kind = Ok k -> plain_json cfg -> plain_json (revision_content ins kind cfg).
Proof.
  intros Hi Hk%runtime_kind_plain Hc. apply plain_dict. split; [by apply (bool_decide_unpack _); vm_compute|].
  repeat (apply Forall_cons; split; [split; [reflexivity|assumption]|]). by apply Forall_nil.
Qed.
Lemma revision_content_inj ins kind cfg ins' kind' cfg' :
  normal_json (revision_content ins kind cfg) = normal_json (revision_content ins' kind' cfg') ->
  ins = ins' /\ kind = kind' /\ normal_json cfg = normal_json cfg'.
Proof.
  cbn [revision_content normal_json map fst snd]. generalize (normal_json cfg) (normal_json cfg').
  vm_compute. by intros c c' [= -> -> ->].
Qed.

(** C38: a revision [AgentRevision.new] returns keeps the given instructions, runtime kind
    and configuration, and passes the integrity check that every load repeats; and its
    digest covers all three.  A row with the digest of the revision passes that check
    only if its instructions and its runtime kind are those of the revision and its
    configuration is that of the revision up to the order of dictionary entries and the
    form of floats, or if the canonical texts of these two very contents differ and have
    the same SHA-256 (for texts of Unicode scalar values: a lone surrogate prints like half of the
    character a pair stands for, and for what Python documents of [repr] of a float). *)
Theorem agent_revision_integrity `{FloatRepr} id aid v ins kind cfg src at_ r :
  AgentRevision_new id aid v ins kind cfg src at_ = Ok r ->
  av_instructions r = ins /\ av_runtime_kind r = kind /\ 1 <= av_version r /\
  ensure_json_value cfg = Ok (av_runtime_config r) /\
  AgentRevision_init (av_id r) (av_agent_id r) (av_version r) (av_instructions r) (av_runtime_kind r)
    (av_runtime_config r) (av_content_sha256 r) (av_source_kind r) (utc (av_created_at r)) = Ok r /\
  (plain ins = true -> plain_json (av_runtime_config r) ->
   forall id' aid' v' ins' kind' cfg' src' at' r',
     plain ins' = true -> plain_json cfg' ->
     AgentRevision_init id' aid' v' ins' kind' cfg' (av_content_sha256 r) src' at' = Ok r' ->
     ins' = ins /\ kind' = kind /\ normal_json cfg' = normal_json (av_runtime_config r) \/
     exists b b', encode (canonical_revision_content ins kind (av_runtime_config r)) = Ok b /\
       encode (canonical_revision_content ins' kind' cfg') = Ok b' /\ b <> b' /\ sha256_hex b = sha256_hex b').
Proof.
  intros (c & b & t & Hv & Hc & Hb & _ & -> & Hi)%agent_revision_new_inv. cbn in *.
  split_and!; try done. intros Hins Hcfg id' aid' v' ins' kind' cfg' src' at' r' Hins' Hcfg'.
  assert (Hk : exists k, validate_runtime_kind kind = Ok k).
  { revert Hi. unfold AgentRevision_init. destruct (validate_agent_instructions ins); cbn [res_bind]; [|done].
    destruct (validate_runtime_kind kind) as [k|]; [by exists k|done]. }
  destruct Hk as [k Hk]. unfold AgentRevision_init.
  destruct (validate_agent_instructions ins'); cbn [res_bind]; [|done].
  destruct (validate_runtime_kind kind') as [k'|] eqn:Hk'; cbn [res_bind]; [|done].
  rewrite ensure_json_to_py. cbn [res_bind].
  destruct (encode (canonical_revision_content ins' kind' cfg')) as [b'|] eqn:E; cbn [res_bind]; [|done].
  case_bool_decide as Hs; cbn [negb]; [|done]. intros _.
  destruct (decide (b' = b)) as [->|Hne]; [left|right; by exists b, b'].
  apply revision_content_inj, (dumps_bytes_inj _ _ b); [by eapply revision_content_plain..|exact E|exact Hb].
Qed.

(** The check refuses other instructions under the digest of a revision: their texts, and
    here their digests, differ. *)
Definition toy_revision : res AgentRevision :=
  @AgentRevision_new toy_digest (mkId (u "r")) (mkId (u "a")) 1 (u "be brief") (u "claude_cli")
    (PyDict [(PyStr (u "model"), PyStr (u "m")); (PyStr (u "effort"), PyInt 1)]) AS_OPERATOR (utc 5).
Lemma agent_revision_integrity_witness :
  exists r, toy_revision = Ok r /\ av_instructions r = u "be brief" /\ av_version r = 1 /\
    forall ins' cfg' r', plain ins' = true -> plain_json cfg' ->
      @AgentRevision_init toy_digest (av_id r) (av_agent_id r) 1 ins' (u "claude_cli") cfg' (av_content_sha256 r)
        AS_OPERATOR (utc 5) = Ok r' ->
      ins' = u "be brief" /\ normal_json cfg' = normal_json (av_runtime_config r) \/
      exists b b', encode (@canonical_revision_content toy_digest (u "be brief") (u "claude_cli") (av_runtime_config r)) = Ok b /\
        encode (@canonical_revision_content toy_digest ins' (u "claude_cli") cfg') = Ok b' /\ b <> b' /\
        @sha256_hex toy_digest b = @sha256_hex toy_digest b'.
Proof.
  destruct toy_revision as [r|e] eqn:E; [|exfalso; revert E; vm_compute; congruence].
  exists r. pose proof (@agent_revision_integrity toy_digest toy_float_repr _ _ _ _ _ _ _ _ _ E) as (Hi & _ & _ & Hc & _ & Hd).
  split; [reflexivity|]. split; [exact Hi|]. split; [revert E; vm_compute; intros [= <-]; reflexivity|].
  assert (Hp : plain_json (av_runtime_config r)).
  { cbn in Hc. injection Hc as <-. apply plain_dict. split; [|by repeat constructor].
    apply (bool_decide_unpack _). vm_compute. exact I. }
  intros ins' cfg' r' Hins' Hcfg' Er.
  destruct (Hd eq_refl Hp _ _ _ _ _ _ _ _ _ Hins' Hcfg' Er) as [(-> & _ & Hn)|Hs]; [by left|by right].
Defined.
