(* ===== verification/SkillEntity.v ===== *)
(** * Skills

    [src/friday/domain/skill.py]: the [Skill] aggregate, immutable skill
    revisions with their integrity digest, the bindings of tasks to skills and
    the frozen skill resolution of a run. *)

From S2P Require Import Prelude Values Canonical AgentEntity.

Open Scope Z_scope.

Definition MAX_SKILL_KEY_LENGTH : Z := 96.
Definition MAX_SKILL_INSTRUCTIONS_LENGTH : Z := 32000.
Definition MAX_SKILLS_PER_TASK : Z := 16.

Inductive SkillStatus : Type := SK_ACTIVE | SK_DISABLED | SK_ARCHIVED.
#[global] Instance SkillStatus_eq_dec : EqDecision SkillStatus.
Proof. solve_decision. Defined.
Definition skill_status_value (s : SkillStatus) : string :=
  match s with SK_ACTIVE => "active" | SK_DISABLED => "disabled" | SK_ARCHIVED => "archived" end.

Inductive SkillRevisionSourceKind : Type := SS_OPERATOR | SS_IMPORTED | SS_GENERATED.
#[global] Instance SkillRevisionSourceKind_eq_dec : EqDecision SkillRevisionSourceKind.
Proof. solve_decision. Defined.
Definition skill_source_value (s : SkillRevisionSourceKind) : string :=
  match s with SS_OPERATOR => "operator" | SS_IMPORTED => "imported" | SS_GENERATED => "generated" end.

(** The test [value != value.lower()] is implied by the pattern, whose
    alphabet has no upper-case letter. *)
Definition validate_skill_key (value : str) : res str :=
  if empty_str value || (len value >? MAX_SKILL_KEY_LENGTH)
     || negb (machine_key (fun c => (c =? 46) || (c =? 45)) value)
  then Raise (DomainValidationError "Skill.key must be lowercase dot-or-hyphen separated machine identity")
  else Ok value.

Definition validate_skill_instructions (value : str) : res str :=
  if empty_str value || (len value >? MAX_SKILL_INSTRUCTIONS_LENGTH)
  then Raise (DomainValidationError
         "SkillRevision.instructions must be non-empty and within the maximum length")
  else match encode value with
       | Raise _ => Raise (DomainValidationError "SkillRevision.instructions must be UTF-8 encodable")
       | Ok _ =>
           if existsb disallowed_control value
           then Raise (DomainValidationError
                  "SkillRevision.instructions contains disallowed control content")
           else Ok value
       end.

(** ** Revisions *)
Record SkillRevision : Type := mkSkillRevision {
  kr_id : SkillRevisionId; kr_skill_id : SkillId; kr_version : Z; kr_instructions : str;
  kr_content_sha256 : str; kr_source_kind : SkillRevisionSourceKind; kr_created_at : Z;
  kr_promotion_request_id : option str }.

Section Revisions.
Context `{Digest}.

(** [hashlib.sha256(instructions.encode("utf-8")).hexdigest()] *)
Definition skill_digest (instructions : str) : res str :=
  res_bind (encode instructions) (fun bytes => Ok (sha256_hex bytes)).

(** [SkillRevision.__post_init__]; an empty promotion id is as good as none. *)
Definition SkillRevision_init (id : SkillRevisionId) (skill_id : SkillId) (version : Z) (instructions : str)
    (content_sha256 : str) (source_kind : SkillRevisionSourceKind) (created_at : datetime)
    (promotion_request_id : option str) : res SkillRevision :=
  res_bind (validate_skill_instructions instructions) (fun _ =>
  res_bind (skill_digest instructions) (fun digest =>
  if negb (bool_decide (content_sha256 = digest))
  then Raise (DomainValidationError "skill_integrity_failed")
  else if negb (is_sha256_hex content_sha256)
  then Raise (DomainValidationError "SkillRevision.content_sha256 must be lowercase sha256")
  else if bool_decide (source_kind = SS_GENERATED) && negb (not_none promotion_request_id)
  then Raise (DomainValidationError "generated SkillRevision requires an approved promotion request")
  else if negb (bool_decide (source_kind = SS_GENERATED))
          && match promotion_request_id with Some p => negb (empty_str p) | None => false end
  then Raise (DomainValidationError "only generated SkillRevisions may carry promotion provenance")
  else res_bind (ensure_utc created_at) (fun t =>
    Ok (mkSkillRevision id skill_id version instructions content_sha256 source_kind t
          promotion_request_id)))).

Definition SkillRevision_new (id : SkillRevisionId) (skill_id : SkillId) (version : Z) (instructions : str)
    (source_kind : SkillRevisionSourceKind) (created_at : datetime) (promotion_request_id : option str)
    : res SkillRevision :=
  if version <? 1 then Raise (DomainValidationError "SkillRevision.version must be positive")
  else if bool_decide (source_kind = SS_GENERATED) && negb (not_none promotion_request_id)
  then Raise (DomainValidationError "generated SkillRevision requires an approved promotion request")
  else if negb (bool_decide (source_kind = SS_GENERATED)) && not_none promotion_request_id
  then Raise (DomainValidationError "only generated SkillRevisions may carry promotion provenance")
  else
    res_bind (validate_skill_instructions instructions) (fun instructions =>
    res_bind (skill_digest instructions) (fun digest =>
    res_bind (ensure_utc created_at) (fun t =>
    SkillRevision_init id skill_id version instructions digest source_kind (utc t) promotion_request_id))).

(** A revision that a load would accept: the digest is the digest of its text. *)
Definition skill_revision_sealed (r : SkillRevision) : Prop :=
  1 <= kr_version r /\
  SkillRevision_init (kr_id r) (kr_skill_id r) (kr_version r) (kr_instructions r) (kr_content_sha256 r)
    (kr_source_kind r) (utc (kr_created_at r)) (kr_promotion_request_id r) = Ok r.

Lemma skill_revision_init_sealed id sid v ins sha src at_ p r :
  SkillRevision_init id sid v ins sha src at_ p = Ok r ->
  kr_id r = id /\ kr_skill_id r = sid /\ kr_version r = v /\ kr_instructions r = ins /\
  kr_source_kind r = src /\ kr_promotion_request_id r = p /\
  SkillRevision_init id sid v ins sha src (utc (kr_created_at r)) p = Ok r /\ kr_content_sha256 r = sha.
Proof.
  unfold SkillRevision_init. destruct (validate_skill_instructions ins); cbn [res_bind]; [|done].
  destruct (skill_digest ins); cbn [res_bind]; [|done]. repeat (case_match; [done|]).
  destruct (ensure_utc at_) as [t|] eqn:Et; cbn [res_bind]; [|done]. intros [= <-]. cbn.
  by rewrite Z.sub_0_r.
Qed.
Lemma skill_revision_new_sealed id sid v ins src at_ p r :
  SkillRevision_new id sid v ins src at_ p = Ok r ->
  skill_revision_sealed r /\ kr_id r = id /\ kr_skill_id r = sid /\ kr_version r = v.
Proof.
  unfold SkillRevision_new. destruct (v <? 1) eqn:Ev; [done|]. repeat (case_match; [done|]).
  destruct (validate_skill_instructions ins) as [i|] eqn:Ei; cbn [res_bind]; [|done].
  destruct (skill_digest i); cbn [res_bind]; [|done].
  destruct (ensure_utc at_) as [t|] eqn:Et; cbn [res_bind]; [|done].
  intros (<- & <- & <- & <- & <- & <- & Hr & <-)%skill_revision_init_sealed.
  repeat split; [lia|done].
Qed.
End Revisions.

(** ** Bindings and resolutions *)
Record TaskSkillBinding : Type := mkTaskSkill {
  tk_task_id : TaskId; tk_skill_id : SkillId; tk_position : Z; tk_created_at : Z }.
Definition TaskSkillBinding_new (task_id : TaskId) (skill_id : SkillId) (position : Z) (created_at : datetime)
    : res TaskSkillBinding :=
  if negb ((1 <=? position) && (position <=? MAX_SKILLS_PER_TASK))
  then Raise (DomainValidationError "TaskSkillBinding.position is out of range")
  else res_bind (ensure_utc created_at) (fun t => Ok (mkTaskSkill task_id skill_id position t)).

Record RunSkillResolution : Type := mkSkillResolution {
  sr_id : RunSkillResolutionId; sr_run_id : RunId; sr_resolved_at : Z }.
Record RunSkillBinding : Type := mkSkillBinding {
  sb_run_id : RunId; sb_skill_id : SkillId; sb_revision_id : SkillRevisionId; sb_position : Z }.
Definition RunSkillBinding_new (run_id : RunId) (skill_id : SkillId) (revision_id : SkillRevisionId)
    (position : Z) : res RunSkillBinding :=
  if negb ((1 <=? position) && (position <=? MAX_SKILLS_PER_TASK))
  then Raise (DomainValidationError "RunSkillBinding.position is out of range")
  else Ok (mkSkillBinding run_id skill_id revision_id position).

(** ** The [Skill] aggregate *)
Record Skill : Type := mkSkill {
  sk_id : SkillId; sk_key : str; sk_display_name : str; sk_description : str;
  sk_status : SkillStatus; sk_active_revision_id : option SkillRevisionId;
  sk_created_at : Z; sk_updated_at : Z }.

Definition Skill_new (id : SkillId) (key display_name description : str) (created_at : datetime) : res Skill :=
  if empty_str (strip display_name)
  then Raise (DomainValidationError "Skill.display_name must not be empty")
  else res_bind (ensure_utc created_at) (fun now =>
       res_bind (validate_skill_key key) (fun key' =>
       Ok (mkSkill id key' (strip display_name) (strip description) SK_ACTIVE None now now))).

Definition sk_require_not_archived (target : string) : M Skill unit :=
  k <- get ;;
  raise_if (bool_decide (sk_status k = SK_ARCHIVED))
    (InvalidStateTransition "Skill" (skill_status_value (sk_status k)) target).

(** Activation keeps the status: a disabled skill stays disabled. *)
Definition sk_activate (revision : SkillRevision) (at_ : datetime) : M Skill unit :=
  sk_require_not_archived "activate" ;;;
  k <- get ;;
  raise_if (negb (id_eqb (kr_skill_id revision) (sk_id k)))
    (DomainValidationError "Skill revision does not belong to skill") ;;;
  t <- lift (ensure_utc at_) ;;
  modify (fun k => mkSkill (sk_id k) (sk_key k) (sk_display_name k) (sk_description k) (sk_status k)
                     (Some (kr_id revision)) (sk_created_at k) t).
Definition sk_set_status (s : SkillStatus) (at_ : datetime) : M Skill unit :=
  t <- lift (ensure_utc at_) ;;
  modify (fun k => mkSkill (sk_id k) (sk_key k) (sk_display_name k) (sk_description k) s
                     (sk_active_revision_id k) (sk_created_at k) t).
Definition sk_disable (at_ : datetime) : M Skill unit :=
  sk_require_not_archived "disabled" ;;;
  sk_set_status SK_DISABLED at_.
Definition sk_archive (at_ : datetime) : M Skill unit :=
  k <- get ;;
  if bool_decide (sk_status k = SK_ARCHIVED) then ret tt else sk_set_status SK_ARCHIVED at_.

Inductive sk_op : Type :=
| SkActivate (r : SkillRevision) (at_ : datetime) | SkDisable (at_ : datetime) | SkArchive (at_ : datetime).
Definition sk_exec (o : sk_op) : M Skill unit :=
  match o with
  | SkActivate r t => sk_activate r t
  | SkDisable t => sk_disable t
  | SkArchive t => sk_archive t
  end.
Definition sk_init (x : Skill) : Prop := exists id k n d at_, Skill_new id k n d at_ = Ok x.

Lemma sk_exec_id o x : sk_id (snd (sk_exec o x)) = sk_id x.
Proof.
  destruct x, o; cbv [sk_exec sk_activate sk_disable sk_archive sk_set_status sk_require_not_archived];
    repeat (progress cbv [bind get gets modify lift raise_if ret raise fst snd]; repeat case_match;
            simplify_eq/=); done.
Qed.
(** An archived skill is final. *)
Lemma sk_archived_final o x x' : sk_exec o x = (Ok tt, x') -> sk_status x = SK_ARCHIVED -> x' = x.
Proof. destruct x, o; cbn [sk_status]; intros E ->; revert E; vm_compute; congruence. Qed.
