(* ===== verification/ConversationEntity.v ===== *)
(** * Conversations

    [src/friday/domain/conversation.py] and [conversation_turn.py]: a
    conversation, and the immutable turns that were turned into tasks and runs. *)

From S2P Require Import Prelude Values.

Open Scope Z_scope.

Definition MAX_CONVERSATION_INPUT_CHARS : Z := 8000.
Definition MAX_CLIENT_TURN_ID_CHARS : Z := 200.
Definition MAX_RECOGNITION_LANGUAGE_CHARS : Z := 35.

Inductive ConversationInputMode : Type := IM_TYPED | IM_PUSH_TO_TALK | IM_HANDS_FREE.
#[global] Instance ConversationInputMode_eq_dec : EqDecision ConversationInputMode.
Proof. solve_decision. Defined.

Record Conversation : Type := mkConversation {
  cv_id : ConversationId; cv_created_at : Z; cv_updated_at : Z }.
Definition Conversation_new (id : ConversationId) (created_at : datetime) : res Conversation :=
  res_bind (ensure_utc created_at) (fun t => Ok (mkConversation id t t)).
Definition cv_touch (at_ : datetime) : M Conversation unit :=
  t <- lift (ensure_utc at_) ;;
  modify (fun c => mkConversation (cv_id c) (cv_created_at c) t).

Record ConversationTurn : Type := mkTurn {
  ct_id : ConversationTurnId; ct_conversation_id : ConversationId; ct_client_turn_id : str;
  ct_input_text : str; ct_input_mode : ConversationInputMode; ct_recognition_language : option str;
  ct_task_id : TaskId; ct_run_id : RunId; ct_created_at : Z }.

(** [_bounded] *)
Definition turn_bounded (value : str) (limit : Z) : res str :=
  let normalized := strip value in
  if empty_str normalized
  then Raise (DomainValidationError "ConversationTurn field must not be empty after trimming")
  else if len normalized >? limit
  then Raise (DomainValidationError "ConversationTurn field is too long")
  else Ok normalized.

Definition turn_language (recognition_language : option str) : res (option str) :=
  match recognition_language with
  | Some l => res_bind (turn_bounded l MAX_RECOGNITION_LANGUAGE_CHARS) (fun l' => Ok (Some l'))
  | None => Ok None
  end.
Definition ConversationTurn_new (id : ConversationTurnId) (conversation_id : ConversationId)
    (client_turn_id input_text : str) (input_mode : ConversationInputMode)
    (recognition_language : option str) (task_id : TaskId) (run_id : RunId) (created_at : datetime)
    : res ConversationTurn :=
  res_bind (turn_language recognition_language) (fun language =>
  res_bind (turn_bounded client_turn_id MAX_CLIENT_TURN_ID_CHARS) (fun client =>
  res_bind (turn_bounded input_text MAX_CONVERSATION_INPUT_CHARS) (fun text =>
  res_bind (ensure_utc created_at) (fun t =>
  Ok (mkTurn id conversation_id client text input_mode language task_id run_id t))))).

(** A stored turn passes the constructor again, unchanged. *)
Definition turn_canonical (x : ConversationTurn) : Prop :=
  ConversationTurn_new (ct_id x) (ct_conversation_id x) (ct_client_turn_id x) (ct_input_text x)
    (ct_input_mode x) (ct_recognition_language x) (ct_task_id x) (ct_run_id x) (utc (ct_created_at x)) = Ok x.

Lemma turn_bounded_ok v n s : turn_bounded v n = Ok s -> s = strip v /\ turn_bounded s n = Ok s.
Proof.
  unfold turn_bounded. destruct (empty_str (strip v)) eqn:E; [done|].
  destruct (len (strip v) >? n) eqn:El; [done|]. intros [= <-]. by rewrite strip_idem, E, El.
Qed.
Lemma turn_new_canonical id cid c txt m l tk r at_ x :
  ConversationTurn_new id cid c txt m l tk r at_ = Ok x ->
  turn_canonical x /\ ct_id x = id /\ ct_conversation_id x = cid /\ ct_client_turn_id x = strip c /\
  ct_run_id x = r /\ ct_task_id x = tk.
Proof.
  unfold ConversationTurn_new at 1. destruct (turn_language l) as [l'|] eqn:El; cbn [res_bind]; [|done].
  destruct (turn_bounded c _) as [c'|] eqn:Ec; cbn [res_bind]; [|done].
  destruct (turn_bounded txt _) as [t'|] eqn:Et; cbn [res_bind]; [|done].
  destruct (ensure_utc at_) as [t|]; cbn [res_bind]; [|done]. intros [= <-].
  apply turn_bounded_ok in Ec as [-> Hc], Et as [-> Ht]. repeat split; cbn; try done.
  unfold turn_canonical, ConversationTurn_new; cbn.
  assert (E : turn_language l' = Ok l').
  { destruct l as [l|]; cbn in El; [|by injection El as <-].
    destruct (turn_bounded l _) as [l0|] eqn:E0; [|done]. injection El as <-.
    apply turn_bounded_ok in E0 as [_ E0]. cbn. by rewrite E0. }
  rewrite E. cbn [res_bind]. rewrite Hc. cbn [res_bind]. rewrite Ht. cbn [res_bind]. by rewrite Z.sub_0_r.
Qed.
