(* ===== verification/WorkflowGraph.v ===== *)
(** * Workflow definitions

    [src/friday/domain/workflow.py]: immutable workflow revisions and the DAG
    contract.  [validate_workflow_dag] is Kahn's algorithm over dictionaries;
    proved: it terminates, never raises [KeyError], and accepts a graph exactly
    when the graph is well formed and acyclic. *)

From S2P Require Import Prelude Values Canonical.
From stdpp Require Import relations.

Open Scope Z_scope.

Definition MAX_WORKFLOW_NODES : Z := 64.
Definition MAX_WORKFLOW_EDGES : Z := 256.
Definition MAX_WORKFLOW_KEY_LENGTH : Z := 128.
Definition MAX_WORKFLOW_OBJECTIVE_LENGTH : Z := 4000.
Definition MAX_WORKFLOW_OUTPUT_LENGTH : Z := 4000.
Definition MAX_WORKFLOW_INPUT_BYTES : Z := 16384.
Definition MAX_WORKFLOW_INPUT_DEPTH : Z := 8.
Definition MAX_WORKFLOW_INPUT_NODES : Z := 256.

(** [_KEY.fullmatch]: [[a-z][a-z0-9]*(?:[._-][a-z0-9]+)*] *)
Definition key_fullmatch : str -> bool := machine_key (fun c => (c =? 46) || (c =? 95) || (c =? 45)).

Definition check_text (value : str) (name : string) (maximum : Z) : res str :=
  if empty_str value || (len value >? maximum)
  then Raise (DomainValidationError (name +:+ " must be non-empty and within the maximum length"))
  else Ok value.

Definition validate_workflow_key (value : str) : res str :=
  if empty_str value || (len value >? MAX_WORKFLOW_KEY_LENGTH) || negb (key_fullmatch value)
  then Raise (DomainValidationError "Workflow.key must be a stable machine-readable identifier")
  else Ok value.

(** [sum(f(v) for v in vs)] where [f] may raise. *)
Fixpoint sum_res (l : list (res Z)) : res Z :=
  match l with
  | [] => Ok 0
  | r :: l' => res_bind r (fun a => res_bind (sum_res l') (fun b => Ok (a + b)))
  end.

Fixpoint json_stats (value : json) (depth : Z) : res Z :=
  if depth >? MAX_WORKFLOW_INPUT_DEPTH
  then Raise (DomainValidationError "WorkflowNode.input_payload exceeds maximum depth")
  else match value with
       | JDict d => res_bind (sum_res (map (fun p => json_stats (snd p) (depth + 1)) d))
                             (fun n => Ok (1 + n))
       | JList l => res_bind (sum_res (map (fun v => json_stats v (depth + 1)) l))
                             (fun n => Ok (1 + n))
       | _ => Ok 1
       end.

Section Content.
Context `{Digest}.

Definition validate_workflow_input (value : pyval) : res json :=
  res_bind (ensure_json_value value) (fun result =>
  res_bind (encode (json_dumps false result)) (fun bytes =>
  if len bytes >? MAX_WORKFLOW_INPUT_BYTES
  then Raise (DomainValidationError "WorkflowNode.input_payload exceeds maximum bytes")
  else res_bind (json_stats result 0) (fun n =>
    if n >? MAX_WORKFLOW_INPUT_NODES
    then Raise (DomainValidationError "WorkflowNode.input_payload exceeds maximum nodes")
    else Ok result))).
End Content.

Record WorkflowNode : Type := mkNode {
  wn_id : WorkflowNodeId; wn_revision_id : WorkflowRevisionId; wn_node_key : str;
  wn_target_agent_id : AgentId; wn_objective : str; wn_input_payload : json;
  wn_expected_output_contract : str; wn_created_at : Z }.

Record WorkflowEdge : Type := mkEdge {
  we_id : WorkflowEdgeId; we_revision_id : WorkflowRevisionId;
  we_from_node_id : WorkflowNodeId; we_to_node_id : WorkflowNodeId; we_created_at : Z }.

(** [WorkflowNode(...)]: the payload a node stores is the object it was given,
    which [validate_workflow_input] has found to be JSON. *)
Definition WorkflowNode_new `{Digest} (id : WorkflowNodeId) (revision_id : WorkflowRevisionId)
    (node_key : str) (target_agent_id : AgentId) (objective : str) (input_payload : pyval)
    (expected_output_contract : str) (created_at : datetime) : res WorkflowNode :=
  if empty_str node_key || (len node_key >? 128) || negb (key_fullmatch node_key)
  then Raise (DomainValidationError "WorkflowNode.node_key is invalid")
  else
    res_bind (check_text objective "WorkflowNode.objective" MAX_WORKFLOW_OBJECTIVE_LENGTH) (fun _ =>
    res_bind (check_text expected_output_contract "WorkflowNode.expected_output_contract"
                MAX_WORKFLOW_OUTPUT_LENGTH) (fun _ =>
    res_bind (validate_workflow_input input_payload) (fun payload =>
    res_bind (ensure_utc created_at) (fun t =>
    Ok (mkNode id revision_id node_key target_agent_id objective payload
          expected_output_contract t))))).

Definition WorkflowEdge_new (id : WorkflowEdgeId) (revision_id : WorkflowRevisionId)
    (from_node_id to_node_id : WorkflowNodeId) (created_at : datetime) : res WorkflowEdge :=
  if id_eqb from_node_id to_node_id
  then Raise (DomainValidationError "WorkflowEdge cannot be a self-edge")
  else res_bind (ensure_utc created_at) (fun t =>
    Ok (mkEdge id revision_id from_node_id to_node_id t)).

Definition validate_workflow_revision_ownership (expected_revision_id : WorkflowRevisionId)
    (nodes : list WorkflowNode) (edges : list WorkflowEdge) : res unit :=
  if existsb (fun n => negb (id_eqb (wn_revision_id n) expected_revision_id)) nodes
  then Raise (DomainValidationError "WorkflowNode ownership does not match revision")
  else if existsb (fun e => negb (id_eqb (we_revision_id e) expected_revision_id)) edges
  then Raise (DomainValidationError "WorkflowEdge ownership does not match revision")
  else Ok tt.

(** ** [validate_workflow_dag] *)

(** [d[k]] *)
Definition getitem {K V} `{Countable K} (d : gmap K V) (k : K) : res V :=
  match d !! k with Some v => Ok v | None => Raise KeyError end.

(** [sorted(xs, key=str)] on identifiers *)
Definition sorted_str {k} (xs : list (Id k)) : list (Id k) := order_by value xs.

Abbreviation Pair := (WorkflowNodeId * WorkflowNodeId)%type.

Record scan : Type := mkScan {
  pairs : gset Pair;
  indegree : gmap WorkflowNodeId Z;
  outgoing : gmap WorkflowNodeId (list WorkflowNodeId) }.

(** The body of [for e in edges] *)
Definition scan_edge (revision_id : WorkflowRevisionId) (ids : gset WorkflowNodeId)
    (e : WorkflowEdge) (s : scan) : res scan :=
  if negb (id_eqb (we_revision_id e) revision_id)
  then Raise (DomainValidationError "WorkflowEdge ownership does not match revision")
  else if bool_decide (we_from_node_id e ∉ ids) || bool_decide (we_to_node_id e ∉ ids)
  then Raise (DomainValidationError "WorkflowEdge endpoint does not belong to revision")
  else let pair := (we_from_node_id e, we_to_node_id e) in
  if bool_decide (pair ∈ pairs s)
  then Raise (DomainValidationError "duplicate WorkflowEdge")
  else
    res_bind (getitem (indegree s) (we_to_node_id e)) (fun d =>
    res_bind (getitem (outgoing s) (we_from_node_id e)) (fun out =>
    Ok (mkScan ({[pair]} ∪ pairs s) (<[we_to_node_id e := d + 1]> (indegree s))
               (<[we_from_node_id e := out ++ [we_to_node_id e]]> (outgoing s))))).

Fixpoint scan_edges (revision_id : WorkflowRevisionId) (ids : gset WorkflowNodeId)
    (edges : list WorkflowEdge) (s : scan) : res scan :=
  match edges with
  | [] => Ok s
  | e :: es => res_bind (scan_edge revision_id ids e s) (scan_edges revision_id ids es)
  end.

(** The inner loop over the targets of the node just popped *)
Fixpoint relax (targets : list WorkflowNodeId) (queue : list WorkflowNodeId)
    (deg : gmap WorkflowNodeId Z) : res (list WorkflowNodeId * gmap WorkflowNodeId Z) :=
  match targets with
  | [] => Ok (queue, deg)
  | target :: ts =>
      res_bind (getitem deg target) (fun d =>
      let deg' := <[target := d - 1]> deg in
      if d - 1 =? 0 then relax ts (sorted_str (queue ++ [target])) deg'
      else relax ts queue deg')
  end.

(** [while queue: ...]; the result is [visited].  [None] is out of fuel. *)
Fixpoint kahn (fuel : nat) (out : gmap WorkflowNodeId (list WorkflowNodeId))
    (queue : list WorkflowNodeId) (deg : gmap WorkflowNodeId Z) (visited : Z) : option (res Z) :=
  match queue with
  | [] => Some (Ok visited)
  | current :: queue' =>
      match fuel with
      | O => None
      | S fuel' =>
          match res_bind (getitem out current) (fun ts => relax (sorted_str ts) queue' deg) with
          | Raise e => Some (Raise e)
          | Ok (queue'', deg') => kahn fuel' out queue'' deg' (visited + 1)
          end
      end
  end.

Definition validate_workflow_dag (nodes : list WorkflowNode) (edges : list WorkflowEdge) : res unit :=
  match nodes with
  | [] => Raise (DomainValidationError "WorkflowRevision requires at least one node")
  | n0 :: _ =>
    if (len nodes >? MAX_WORKFLOW_NODES) || (len edges >? MAX_WORKFLOW_EDGES)
    then Raise (DomainValidationError "WorkflowRevision graph exceeds limits")
    else
    let ids : gset WorkflowNodeId := list_to_set (map wn_id nodes) in
    if negb (Z.of_nat (size ids) =? len nodes)
    then Raise (DomainValidationError "duplicate WorkflowNode.id")
    else
    let revision_ids : gset WorkflowRevisionId := list_to_set (map wn_revision_id nodes) in
    if negb (Z.of_nat (size revision_ids) =? 1)
    then Raise (DomainValidationError "WorkflowNode ownership does not match revision")
    else
    (* [next(iter(revision_ids))] of a singleton set *)
    let revision_id := wn_revision_id n0 in
    let keys := map wn_node_key nodes in
    if negb (Z.of_nat (size (list_to_set keys : gset str)) =? len keys)
    then Raise (DomainValidationError "duplicate WorkflowNode.node_key")
    else
    let s0 := mkScan ∅ (list_to_map (map (fun n => (wn_id n, 0)) nodes))
                       (list_to_map (map (fun n => (wn_id n, [])) nodes)) in
    res_bind (scan_edges revision_id ids edges s0) (fun s =>
    let queue := sorted_str (map fst (filter (fun p => p.2 = 0) (map_to_list (indegree s)))) in
    match kahn (length nodes) (outgoing s) queue (indegree s) 0 with
    | None => Raise (OtherError "out of fuel")
    | Some (Raise e) => Raise e
    | Some (Ok visited) =>
        if negb (visited =? len nodes)
        then Raise (DomainValidationError "WorkflowRevision graph contains a cycle")
        else Ok tt
    end)
  end.

(** ** The graph a revision describes *)
Definition edge_pair (e : WorkflowEdge) : Pair := (we_from_node_id e, we_to_node_id e).

(** The edge relation, from predecessor to successor. *)
Definition edge_rel (P : list Pair) (a b : WorkflowNodeId) : Prop := (a, b) ∈ P.

Definition acyclic (P : list Pair) : Prop := forall x, ~ tc (edge_rel P) x x.

(** What an edge list must satisfy, given the pairs [P] already seen. *)
Definition edges_ok (rev : WorkflowRevisionId) (ids : gset WorkflowNodeId) (P : list Pair)
    (es : list WorkflowEdge) : Prop :=
  Forall (fun e => we_revision_id e = rev /\ we_from_node_id e ∈ ids /\ we_to_node_id e ∈ ids) es
  /\ NoDup (P ++ map edge_pair es).

(** The number of edges into [x] from nodes outside [V]. *)
Definition deg_of (P : list Pair) (V : list WorkflowNodeId) (x : WorkflowNodeId) : Z :=
  Z.of_nat (length (filter (fun e : Pair => e.2 = x /\ e.1 ∉ V) P)).
Definition succs (P : list Pair) (x : WorkflowNodeId) : list WorkflowNodeId :=
  map snd (filter (fun e : Pair => e.1 = x) P).

Lemma deg_of_snoc P V a b x :
  deg_of (P ++ [(a, b)]) V x = deg_of P V x + (if bool_decide (b = x /\ a ∉ V) then 1 else 0).
Proof.
  unfold deg_of. rewrite filter_app, length_app, Nat2Z.inj_add. f_equal.
  rewrite filter_cons, filter_nil. case_decide; case_bool_decide; simpl in *; done || tauto.
Qed.

Lemma succs_snoc P a b x :
  succs (P ++ [(a, b)]) x = succs P x ++ (if bool_decide (a = x) then [b] else []).
Proof.
  unfold succs. rewrite filter_app, map_app. f_equal.
  rewrite filter_cons, filter_nil. case_decide; case_bool_decide; simpl in *; done || tauto.
Qed.

Lemma elem_of_succs P x y : y ∈ succs P x <-> (x, y) ∈ P.
Proof.
  unfold succs. split.
  - intros (e & -> & H)%list_elem_of_fmap. apply list_elem_of_filter in H as [<- H].
    by destruct e.
  - intros H. apply list_elem_of_fmap. exists (x, y). split; [done|].
    by apply list_elem_of_filter.
Qed.

Lemma NoDup_succs P x : NoDup P -> NoDup (succs P x).
Proof.
  intros HP. unfold succs. apply NoDup_fmap_2_strong; [|by apply NoDup_filter].
  intros [a b] [a' b'] H1 H2 E. apply list_elem_of_filter in H1 as [? _], H2 as [? _].
  simpl in *. by subst.
Qed.

(** What the dictionaries hold after the pairs [P] have been scanned. *)
Record scan_ok (ids : gset WorkflowNodeId) (P : list Pair) (s : scan) : Prop := {
  scan_pairs : forall p, p ∈ pairs s <-> p ∈ P;
  scan_indegree : forall x, indegree s !! x = if bool_decide (x ∈ ids) then Some (deg_of P [] x) else None;
  scan_outgoing : forall x, outgoing s !! x = if bool_decide (x ∈ ids) then Some (succs P x) else None }.

Lemma scan_edge_spec rev ids e P s :
  scan_ok ids P s ->
  match scan_edge rev ids e s with
  | Ok s' => scan_ok ids (P ++ [edge_pair e]) s' /\ we_revision_id e = rev /\
             we_from_node_id e ∈ ids /\ we_to_node_id e ∈ ids /\ edge_pair e ∉ P
  | Raise x => (exists msg, x = DomainValidationError msg) /\
      ~ (we_revision_id e = rev /\ we_from_node_id e ∈ ids /\ we_to_node_id e ∈ ids /\ edge_pair e ∉ P)
  end.
Proof.
  intros [Hp Hi Ho]. unfold scan_edge, id_eqb, edge_pair. destruct e as [? r a b ?]; cbn.
  destruct (decide (r = rev)) as [->|Hr].
  2: { rewrite bool_decide_eq_false_2 by done. simpl. split; [by eexists | tauto]. }
  rewrite bool_decide_eq_true_2 by done. simpl.
  destruct (decide (a ∈ ids)) as [Ha|Ha].
  2: { rewrite bool_decide_eq_true_2 by done. simpl. split; [by eexists | tauto]. }
  destruct (decide (b ∈ ids)) as [Hb|Hb].
  2: { rewrite (bool_decide_eq_true_2 (b ∉ ids)), orb_true_r by done. split; [by eexists | tauto]. }
  rewrite (bool_decide_eq_false_2 (a ∉ ids)), (bool_decide_eq_false_2 (b ∉ ids)) by tauto. simpl.
  case_bool_decide as Hd; rewrite Hp in Hd; [split; [by eexists | tauto]|].
  unfold getitem. rewrite Hi, Ho, !bool_decide_eq_true_2 by done. simpl.
  split; [|by repeat split].
  split; simpl.
  - intros p. rewrite elem_of_union, elem_of_singleton, Hp, elem_of_app, list_elem_of_singleton. tauto.
  - intros x. rewrite deg_of_snoc. destruct (decide (b = x)) as [->|Hne].
    + rewrite lookup_insert_eq. rewrite !bool_decide_eq_true_2; try done.
      split; [done|apply not_elem_of_nil].
    + rewrite lookup_insert_ne by done. rewrite Hi. case_bool_decide; [|done].
      rewrite bool_decide_eq_false_2 by tauto. f_equal. lia.
  - intros x. rewrite succs_snoc. destruct (decide (a = x)) as [->|Hne].
    + rewrite lookup_insert_eq. by rewrite !bool_decide_eq_true_2.
    + rewrite lookup_insert_ne by done. rewrite Ho. case_bool_decide; [|done].
      rewrite bool_decide_eq_false_2 by done. by rewrite app_nil_r.
Qed.

Lemma scan_edges_spec rev ids es P s :
  NoDup P -> scan_ok ids P s ->
  match scan_edges rev ids es s with
  | Ok s' => scan_ok ids (P ++ map edge_pair es) s' /\ edges_ok rev ids P es
  | Raise x => (exists msg, x = DomainValidationError msg) /\ ~ edges_ok rev ids P es
  end.
Proof.
  revert P s. induction es as [|e es IH]; intros P s HP Hs; simpl.
  { unfold edges_ok. rewrite !app_nil_r. split_and!; auto. }
  pose proof (scan_edge_spec rev ids e P s Hs) as He.
  assert (Happ : P ++ edge_pair e :: map edge_pair es = (P ++ [edge_pair e]) ++ map edge_pair es)
    by by rewrite <- app_assoc.
  destruct (scan_edge rev ids e s) as [s'|x]; simpl.
  - destruct He as (Hs' & Hr & Hf & Ht & Hn).
    assert (HP' : NoDup (P ++ [edge_pair e])).
    { apply NoDup_app. split_and!; [done| |apply NoDup_singleton].
      intros p Hin. rewrite list_elem_of_singleton. by intros ->. }
    specialize (IH _ _ HP' Hs').
    unfold edges_ok in *. cbn [map]. rewrite Happ.
    destruct (scan_edges rev ids es s'); [|].
    + destruct IH as (? & ? & ?). split_and!; try done. by constructor.
    + destruct IH as (? & Hno). split; [done|]. intros [HF ?]. apply Hno.
      by apply Forall_cons in HF as [_ HF].
  - destruct He as [? Hno]. split; [done|]. unfold edges_ok. cbn [map]. rewrite Happ.
    intros [HF HN]. apply Forall_cons in HF as [HF _]. apply Hno.
    split_and!; try apply HF. apply NoDup_app in HN as [HN _].
    apply NoDup_app in HN as (_ & HN & _). intros Hin. by eapply HN, list_elem_of_singleton.
Qed.

(** ** Kahn's algorithm *)
Lemma deg_of_pop P V c x :
  NoDup P -> c ∉ V ->
  deg_of P (c :: V) x = deg_of P V x - (if bool_decide ((c, x) ∈ P) then 1 else 0).
Proof.
  intros HP Hc. unfold deg_of. induction HP as [|[a b] P Hn HP IH]; [by simpl|].
  rewrite !filter_cons. revert IH.
  destruct (decide ((a, b) = (c, x))) as [[= -> ->]|Hne].
  - rewrite (bool_decide_eq_false_2 ((c, x) ∈ P)), (bool_decide_eq_true_2 ((c, x) ∈ (c, x) :: P))
      by (done || apply list_elem_of_here).
    intros IH. rewrite decide_False by (simpl; set_solver).
    rewrite decide_True by done. simpl. lia.
  - rewrite (bool_decide_ext ((c, x) ∈ (a, b) :: P) ((c, x) ∈ P)) by (rewrite elem_of_cons; naive_solver).
    intros IH. destruct (decide (b = x /\ a ∉ V)) as [[-> Ha]|Hno].
    + rewrite decide_True by (simpl; split; [done|]; rewrite not_elem_of_cons; naive_solver).
      rewrite decide_True by done. simpl. lia.
    + rewrite decide_False by (simpl; rewrite not_elem_of_cons; tauto).
      rewrite decide_False by done. done.
Qed.

Lemma deg_of_nonneg P V x : 0 <= deg_of P V x.
Proof. unfold deg_of. lia. Qed.

Lemma deg_of_zero P V x : deg_of P V x = 0 <-> forall a, edge_rel P a x -> a ∈ V.
Proof.
  unfold deg_of, edge_rel. split.
  - intros H a Ha. destruct (decide (a ∈ V)) as [|Hn]; [done|].
    assert (Hin : (a, x) ∈ filter (fun e : Pair => e.2 = x /\ e.1 ∉ V) P)
      by (by apply list_elem_of_filter).
    destruct (filter _ P); [by apply not_elem_of_nil in Hin | simpl in H; lia].
  - intros H. destruct (filter _ P) as [|e l] eqn:E; [done|].
    assert (Hin : e ∈ filter (fun e : Pair => e.2 = x /\ e.1 ∉ V) P)
      by (rewrite E; apply list_elem_of_here).
    apply list_elem_of_filter in Hin as [[<- Hn] Hin]. destruct e. by destruct Hn; apply H.
Qed.

Lemma relax_spec (N : gset WorkflowNodeId) ts Q D f :
  (forall x, x ∈ N -> D !! x = Some (f x)) ->
  NoDup ts -> (forall t, t ∈ ts -> t ∈ N /\ t ∉ Q) -> NoDup Q ->
  exists Q' D', relax ts Q D = Ok (Q', D') /\ NoDup Q' /\
    (forall x, x ∈ N -> D' !! x = Some (f x - (if bool_decide (x ∈ ts) then 1 else 0))) /\
    (forall x, x ∈ Q' <-> x ∈ Q \/ (x ∈ ts /\ f x = 1)).
Proof.
  revert Q D f. induction ts as [|t ts IH]; intros Q D f HD Hts Hin HQ; simpl.
  { exists Q, D. split_and!; try done.
    - intros x Hx. rewrite HD by done. f_equal. lia.
    - intros x. split; [auto|]. intros [?|[H _]]; [done|]. by apply not_elem_of_nil in H. }
  apply NoDup_cons in Hts as [Hnt Hts]. destruct (Hin t) as [HtN HtQ]; [apply list_elem_of_here|].
  unfold getitem. rewrite HD by done. simpl.
  set (f' x := if bool_decide (x = t) then f t - 1 else f x).
  assert (HD' : forall x, x ∈ N -> <[t := f t - 1]> D !! x = Some (f' x)).
  { intros x Hx. unfold f'. case_bool_decide as E; subst; [by rewrite lookup_insert_eq|].
    rewrite lookup_insert_ne by done. auto. }
  assert (Hf : forall x, f x - (if bool_decide (x ∈ t :: ts) then 1 else 0)
                       = f' x - (if bool_decide (x ∈ ts) then 1 else 0)).
  { intros x. unfold f'. repeat case_bool_decide; subst; set_solver by lia. }
  assert (Hts' : forall x, x ∈ ts /\ f' x = 1 <-> x ∈ ts /\ f x = 1).
  { intros x. unfold f'. case_bool_decide; subst; tauto. }
  destruct (Z.eqb_spec (f t - 1) 0) as [E0|E0].
  - edestruct (IH (sorted_str (Q ++ [t]))) as (Q' & D' & -> & HQ' & HD'' & HE); [done|done| | |].
    { intros x Hx. split; [apply Hin, elem_of_cons; auto|]. unfold sorted_str.
      rewrite elem_of_order_by, elem_of_app, list_elem_of_singleton.
      intros [Hq| ->]; [|done]. eapply (Hin x); [by apply elem_of_cons; auto | done]. }
    { unfold sorted_str. rewrite order_by_perm. apply NoDup_app. split_and!; [done| |apply NoDup_singleton].
      intros x Hx ->%list_elem_of_singleton. done. }
    exists Q', D'. split_and!; try done.
    + intros x Hx. rewrite HD'', Hf by done. done.
    + intros x. rewrite HE. unfold sorted_str. rewrite elem_of_order_by, elem_of_app,
        list_elem_of_singleton, elem_of_cons, Hts'. split; [|naive_solver].
      intros [[?| ->]|?]; [tauto | right; split; [tauto|lia] | tauto].
  - edestruct (IH Q) as (Q' & D' & -> & HQ' & HD'' & HE); [done|done| |done|].
    { intros x Hx. apply Hin, elem_of_cons. auto. }
    exists Q', D'. split_and!; try done.
    + intros x Hx. rewrite HD'', Hf by done. done.
    + intros x. rewrite HE, elem_of_cons, Hts'. split; [tauto|].
      intros [?|[[->|?] ?]]; [tauto | lia | tauto].
Qed.

(** [V], most recent first, lists each node after all of its predecessors. *)
Fixpoint topo (P : list Pair) (V : list WorkflowNodeId) : Prop :=
  match V with
  | [] => True
  | x :: V' => (forall a, edge_rel P a x -> a ∈ V') /\ topo P V'
  end.

Lemma topo_acc P V x : topo P V -> x ∈ V -> Acc (edge_rel P) x.
Proof.
  revert x. induction V as [|y V IH]; intros x HV Hx; [by apply not_elem_of_nil in Hx|].
  destruct HV as [Hy HV]. apply elem_of_cons in Hx as [->|Hx]; [|by apply IH].
  constructor. intros a Ha. by apply IH, Hy.
Qed.

Lemma topo_pred P V a x : topo P V -> x ∈ V -> edge_rel P a x -> a ∈ V.
Proof.
  induction V as [|y V IH]; intros HV Hx Ha; [by apply not_elem_of_nil in Hx|].
  destruct HV as [Hy HV]. apply elem_of_cons in Hx as [->|Hx]; apply elem_of_cons; auto.
Qed.

Lemma tc_last {A} (R : relation A) x y : tc R x y -> exists z, R z y /\ rtc R x z.
Proof.
  induction 1 as [x y H|x y z H _ (w & Hw & Hr)]; [exists x; split; [done|constructor]|].
  exists w. split; [done|]. by eapply rtc_l.
Qed.

Lemma tc_flip {A} (R : relation A) x y : tc (flip R) x y -> tc R y x.
Proof.
  induction 1 as [x y H|x y z H _ IH]; [by apply tc_once|]. by eapply tc_r.
Qed.

Lemma acc_no_cycle {A} (R : relation A) x : Acc R x -> ~ tc R x x.
Proof.
  induction 1 as [x _ IH]. intros (z & Hz & Hr)%tc_last. apply (IH z Hz).
  by eapply tc_rtc_r; [apply tc_once|].
Qed.

Record kahn_inv (P : list Pair) (N : gset WorkflowNodeId) (V Q : list WorkflowNodeId)
    (D : gmap WorkflowNodeId Z) : Prop := {
  ki_visited : NoDup V; ki_sub : forall x, x ∈ V -> x ∈ N;
  ki_deg : forall x, x ∈ N -> D !! x = Some (deg_of P V x);
  ki_queue : NoDup Q; ki_ready : forall x, x ∈ Q <-> x ∈ N /\ x ∉ V /\ deg_of P V x = 0;
  ki_topo : topo P V }.

Lemma kahn_step P N V Q c D out :
  NoDup P -> (forall a b, (a, b) ∈ P -> a ∈ N /\ b ∈ N) ->
  (forall x, x ∈ N -> out !! x = Some (succs P x)) ->
  kahn_inv P N V (c :: Q) D ->
  exists Q' D', res_bind (getitem out c) (fun ts => relax (sorted_str ts) Q D) = Ok (Q', D') /\
    kahn_inv P N (c :: V) Q' D'.
Proof.
  intros HP HN Hout [HV Hsub HD HQ Hr Ht].
  destruct (proj1 (Hr c)) as (HcN & HcV & Hc0); [apply list_elem_of_here|].
  apply NoDup_cons in HQ as [HcQ HQ].
  unfold getitem. rewrite Hout by done. simpl.
  assert (Hs : forall x, x ∈ sorted_str (succs P c) <-> (c, x) ∈ P)
    by (intros x; unfold sorted_str; by rewrite elem_of_order_by, elem_of_succs).
  destruct (relax_spec N (sorted_str (succs P c)) Q D (deg_of P V))
    as (Q' & D' & -> & HQ' & HD' & HE); try done.
  { unfold sorted_str. rewrite order_by_perm. by apply NoDup_succs. }
  { intros t Htt%Hs. split; [by apply (HN c)|]. intros HtQ.
    destruct (proj1 (Hr t)) as (_ & _ & Hz); [by apply elem_of_cons; right|].
    by apply HcV, (proj1 (deg_of_zero P V t) Hz). }
  exists Q', D'. split; [done|].
  assert (Hdeg : forall x, deg_of P V x - (if bool_decide (x ∈ sorted_str (succs P c)) then 1 else 0)
                           = deg_of P (c :: V) x).
  { intros x. rewrite deg_of_pop by done. by erewrite bool_decide_ext by apply Hs. }
  split; try done.
  - by constructor.
  - intros x [->|Hx]%elem_of_cons; auto.
  - intros x Hx. by rewrite HD', Hdeg.
  - intros x. rewrite HE, Hs. specialize (Hr x). rewrite elem_of_cons in Hr.
    pose proof (deg_of_pop P V c x HP HcV) as Hp. rewrite not_elem_of_cons.
    pose proof (deg_of_nonneg P (c :: V) x). case_bool_decide as Hcx.
    + destruct (HN _ _ Hcx). destruct (deg_of_zero P V x) as [Hz _].
      assert (deg_of P V x <> 0) by (intros E; by apply HcV, Hz).
      assert (x <> c) by (intros ->; by apply HcV, (proj1 (deg_of_zero P V c) Hc0)).
      assert (x ∉ V) by (intros HxV; by apply HcV, (topo_pred P V c x)).
      split; [intros [Hq|[_ ?]]|intros (_ & _ & ?)].
      * exfalso. tauto.
      * split_and!; try done. lia.
      * right. split; [done|lia].
    + rewrite Z.sub_0_r in Hp. rewrite Hp. split; [|tauto].
      intros [Hx|[? _]]; [|done]. split_and!; try tauto. by intros ->.
  - split; [|done]. by apply deg_of_zero.
Qed.

Lemma NoDup_size_le (N : gset WorkflowNodeId) V :
  NoDup V -> (forall x, x ∈ V -> x ∈ N) -> (length V <= size N)%nat.
Proof.
  intros HV Hsub. rewrite <- (size_list_to_set (C := gset WorkflowNodeId) V HV).
  apply subseteq_size. intros x Hx%elem_of_list_to_set. auto.
Qed.

(** The loop terminates within the fuel, and stops with nothing left to pop. *)
Lemma kahn_run P N out fuel V Q D :
  NoDup P -> (forall a b, (a, b) ∈ P -> a ∈ N /\ b ∈ N) ->
  (forall x, x ∈ N -> out !! x = Some (succs P x)) ->
  kahn_inv P N V Q D -> (size N <= fuel + length V)%nat ->
  exists V' D', kahn fuel out Q D (len V) = Some (Ok (len V')) /\ kahn_inv P N V' [] D'.
Proof.
  intros HP HN Hout. revert V Q D. induction fuel as [|fuel IH]; intros V [|c Q] D HI Hf; simpl.
  - by exists V, D.
  - destruct (kahn_step P N V Q c D out) as (Q' & D' & _ & HI'); try done.
    pose proof (NoDup_size_le N (c :: V) (ki_visited _ _ _ _ _ HI') (ki_sub _ _ _ _ _ HI')).
    simpl in *. lia.
  - by exists V, D.
  - destruct (kahn_step P N V Q c D out) as (Q' & D' & -> & HI'); try done.
    destruct (IH (c :: V) Q' D') as (V' & D'' & Hk & HI''); [done|simpl; lia|].
    exists V', D''. split; [|done]. rewrite <- Hk. f_equal. unfold len. simpl. lia.
Qed.

(** Once the queue is empty, everything was visited iff there is no cycle. *)
Lemma kahn_done P N V D :
  (forall a b, (a, b) ∈ P -> a ∈ N /\ b ∈ N) ->
  kahn_inv P N V [] D -> (length V = size N <-> acyclic P).
Proof.
  intros HN [HV Hsub _ _ Hr Ht]. split.
  - intros Hl x Hc. eapply acc_no_cycle, Hc. apply (topo_acc P V x Ht).
    destruct (tc_last _ _ _ Hc) as (z & Hz & _). destruct (HN _ _ Hz) as [_ HxN].
    assert (HE : (list_to_set V : gset WorkflowNodeId) = N).
    { apply set_subseteq_size_eq; [set_solver|]. rewrite size_list_to_set by done. lia. }
    rewrite <- HE in HxN. by apply elem_of_list_to_set in HxN.
  - intros Hac. destruct (decide (N ⊆ list_to_set V)) as [HNV|Hno].
    { apply Nat.le_antisymm; [by apply NoDup_size_le|].
      rewrite <- (size_list_to_set (C := gset WorkflowNodeId) V HV). by apply subseteq_size. }
    exfalso. apply Hno. intros x HxN. apply elem_of_list_to_set.
    assert (Hsn : sn (flip (edge_rel P)) x).
    { apply tc_finite_sn.
      - intros y Hy%tc_flip. by apply (Hac y).
      - exists (elements N). intros y Hy%tc_flip. apply elem_of_elements.
        destruct Hy as [y x' Hy|y x' z Hy _]; by apply (HN y x'). }
    induction Hsn as [x _ IH]. destruct (decide (x ∈ V)) as [|HnV]; [done|].
    destruct (decide (deg_of P V x = 0)) as [E|E].
    + assert (Hq : x ∈ []) by (by apply Hr). by apply not_elem_of_nil in Hq.
    + exfalso. apply E, deg_of_zero. intros a Ha. apply IH; [done|]. by apply (HN a x).
Qed.

(** [len(set(xs)) != len(xs)] tests for duplicates. *)
Lemma size_set_NoDup {A} `{Countable A} (l : list A) :
  size (list_to_set l : gset A) = length l <-> NoDup l.
Proof.
  split; [|apply size_list_to_set].
  induction l as [|x l IH]; simpl; [constructor|].
  destruct (decide (x ∈ l)) as [Hx|Hx].
  - intros E. exfalso. assert (Hle : forall l' : list A, (size (list_to_set l' : gset A) <= length l')%nat).
    { induction l' as [|y l' IH']; [done|]. simpl.
      pose proof (size_union_alt {[y]} (list_to_set l' : gset A)) as Hu.
      rewrite size_singleton in Hu.
      pose proof (subseteq_size (list_to_set l' ∖ {[y]} : gset A) (list_to_set l') ltac:(set_solver)). lia. }
    specialize (Hle l). rewrite (subseteq_union_1_L {[x]} (list_to_set l)) in E by set_solver. lia.
  - rewrite size_union, size_singleton by set_solver. intros E. constructor; [done|]. apply IH. lia.
Qed.

(** [len(set(xs)) == 1] tests that all are the same. *)
Lemma size_set_one {A} `{Countable A} (x : A) (l : list A) :
  size (list_to_set (x :: l) : gset A) = 1%nat <-> Forall (fun y => y = x) (x :: l).
Proof.
  rewrite Forall_forall. split.
  - intros (y & Hy)%size_1_elem_of. intros z Hz.
    assert (forall w, w ∈ x :: l -> w = y) as Hall.
    { intros w Hw. apply (elem_of_singleton (C := gset A)). rewrite <- Hy. by apply elem_of_list_to_set. }
    rewrite (Hall z Hz). symmetry. apply Hall, list_elem_of_here.
  - intros Hall. assert ((list_to_set (x :: l) : gset A) = {[x]}) as ->.
    { apply set_eq. intros z. rewrite elem_of_list_to_set, elem_of_singleton. split; [auto|].
      intros ->. apply list_elem_of_here. }
    apply size_singleton.
Qed.

(** The contract [validate_workflow_dag] enforces. *)
Definition dag_spec (nodes : list WorkflowNode) (edges : list WorkflowEdge) : Prop :=
  nodes <> [] /\ len nodes <= MAX_WORKFLOW_NODES /\ len edges <= MAX_WORKFLOW_EDGES /\
  NoDup (map wn_id nodes) /\ NoDup (map wn_node_key nodes) /\
  (exists rev, Forall (fun n => wn_revision_id n = rev) nodes /\
               Forall (fun e => we_revision_id e = rev) edges) /\
  Forall (fun e => we_from_node_id e ∈ map wn_id nodes /\ we_to_node_id e ∈ map wn_id nodes) edges /\
  NoDup (map edge_pair edges) /\ acyclic (map edge_pair edges).

Lemma scan_start nodes :
  NoDup (map wn_id nodes) ->
  scan_ok (list_to_set (map wn_id nodes)) []
    (mkScan ∅ (list_to_map (map (fun n => (wn_id n, 0)) nodes))
              (list_to_map (map (fun n => (wn_id n, [])) nodes))).
Proof.
  assert (Hm : forall {V} (v : V) x, NoDup (map wn_id nodes) ->
    (list_to_map (map (fun n => (wn_id n, v)) nodes) : gmap WorkflowNodeId V) !! x
    = if bool_decide (x ∈ (list_to_set (map wn_id nodes) : gset WorkflowNodeId)) then Some v else None).
  { intros V v x. induction nodes as [|n l IH]; simpl; [done|].
    intros [Hn Hnd]%NoDup_cons. destruct (decide (wn_id n = x)) as [<-|Hne].
    - rewrite lookup_insert_eq, bool_decide_eq_true_2; [done|set_solver].
    - rewrite lookup_insert_ne, IH by done. erewrite bool_decide_ext; [reflexivity|set_solver]. }
  intros Hnd. split; simpl.
  - intros p. split; [set_solver|]. by intros ?%not_elem_of_nil.
  - intros x. by rewrite Hm.
  - intros x. by rewrite Hm.
Qed.

Lemma kahn_start ids P s :
  scan_ok ids P s ->
  kahn_inv P ids []
    (sorted_str (map fst (filter (fun p => p.2 = 0) (map_to_list (indegree s))))) (indegree s).
Proof.
  intros [_ Hi _]. split; simpl; try done.
  - constructor.
  - intros x Hx%not_elem_of_nil. done.
  - intros x Hx. by rewrite Hi, bool_decide_eq_true_2.
  - unfold sorted_str. rewrite order_by_perm. apply NoDup_fmap_2_strong.
    + intros [a d] [b d'] [_ Ha]%list_elem_of_filter [_ Hb]%list_elem_of_filter E. simpl in E. subst b.
      apply elem_of_map_to_list in Ha, Hb. congruence.
    + apply NoDup_filter, NoDup_map_to_list.
  - intros x. unfold sorted_str. rewrite elem_of_order_by. split.
    + intros ([y d] & -> & [E Hd]%list_elem_of_filter)%list_elem_of_fmap. simpl in *. subst d.
      apply elem_of_map_to_list in Hd. rewrite Hi in Hd. case_bool_decide; [|done].
      simplify_eq. split_and!; [done|apply not_elem_of_nil|congruence].
    + intros (Hx & _ & E). apply list_elem_of_fmap. exists (x, 0). split; [done|].
      apply list_elem_of_filter. split; [done|]. apply elem_of_map_to_list.
      by rewrite Hi, bool_decide_eq_true_2, E.
Qed.

Lemma acyclic_dec_run nodes edges rev s :
  NoDup (map wn_id nodes) -> scan_ok (list_to_set (map wn_id nodes)) (map edge_pair edges) s ->
  edges_ok rev (list_to_set (map wn_id nodes)) [] edges ->
  exists visited, kahn (length nodes) (outgoing s)
      (sorted_str (map fst (filter (fun p => p.2 = 0) (map_to_list (indegree s))))) (indegree s) 0
      = Some (Ok visited) /\ (visited = len nodes <-> acyclic (map edge_pair edges)).
Proof.
  intros Hnd Hs [Hf HP]. simpl in HP. rewrite Forall_forall in Hf.
  set (N := list_to_set (map wn_id nodes) : gset WorkflowNodeId) in *.
  assert (HN : forall a b, (a, b) ∈ map edge_pair edges -> a ∈ N /\ b ∈ N).
  { intros a b (e & [= -> ->] & He)%list_elem_of_fmap. by destruct (Hf e He). }
  assert (Hsz : size N = length nodes) by (unfold N; rewrite size_list_to_set, length_map; done).
  assert (Ho : forall x, x ∈ N -> outgoing s !! x = Some (succs (map edge_pair edges) x))
    by (intros x Hx; by rewrite (scan_outgoing _ _ _ Hs), bool_decide_eq_true_2).
  edestruct (kahn_run _ N _ (length nodes) [] _ _ HP HN Ho (kahn_start _ _ _ Hs))
    as (V & D & Hk & HI); [simpl; lia|].
  exists (len V). split; [done|]. rewrite <- (kahn_done _ N V D HN HI), Hsz. unfold len. lia.
Qed.

(** The edge conditions of [dag_spec] are those the scan checks. *)
Lemma edges_ok_spec n0 l edges :
  Forall (fun n => wn_revision_id n = wn_revision_id n0) (n0 :: l) ->
  edges_ok (wn_revision_id n0) (list_to_set (map wn_id (n0 :: l))) [] edges <->
  (exists rev, Forall (fun n => wn_revision_id n = rev) (n0 :: l) /\
               Forall (fun e => we_revision_id e = rev) edges) /\
  Forall (fun e => we_from_node_id e ∈ map wn_id (n0 :: l) /\
                   we_to_node_id e ∈ map wn_id (n0 :: l)) edges /\
  NoDup (map edge_pair edges).
Proof.
  intros Hn. unfold edges_ok. rewrite !Forall_forall. setoid_rewrite elem_of_list_to_set. split.
  - intros [He Hd]. split_and!; [|firstorder|done].
    exists (wn_revision_id n0). rewrite !Forall_forall in *. firstorder.
  - intros ((rev & Hn' & He) & Hends & Hd). apply Forall_cons in Hn' as [<- _].
    rewrite Forall_forall in He. split; [|done]. intros e Hin. split; auto.
Qed.

Lemma dag_correct nodes edges :
  (validate_workflow_dag nodes edges = Ok tt <-> dag_spec nodes edges) /\
  (forall e, validate_workflow_dag nodes edges = Raise e -> exists msg, e = DomainValidationError msg).
Proof.
  unfold validate_workflow_dag, dag_spec. destruct nodes as [|n0 l]; [naive_solver|].
  set (nodes := n0 :: l).
  destruct (len nodes >? MAX_WORKFLOW_NODES) eqn:E1; cbn [orb]; [split; [split; [done|intros (_ & ? & ? & _); lia]|naive_solver]|].
  destruct (len edges >? MAX_WORKFLOW_EDGES) eqn:E2; cbn [orb]; [split; [split; [done|intros (_ & ? & ? & _); lia]|naive_solver]|].
  destruct (Z.eqb_spec (Z.of_nat (size (list_to_set (map wn_id nodes) : gset WorkflowNodeId))) (len nodes))
    as [E3|E3]; cbn [negb].
  2: { split; [split; [done|]|naive_solver]. intros (_ & _ & _ & H%size_set_NoDup & _).
       rewrite length_map in H. unfold len in E3. simpl in *. lia. }
  assert (Hnd : NoDup (map wn_id nodes)).
  { apply size_set_NoDup. rewrite length_map. unfold len in E3. simpl in *. lia. }
  destruct (Z.eqb_spec (Z.of_nat (size (list_to_set (map wn_revision_id nodes) : gset WorkflowRevisionId))) 1)
    as [E4|E4]; cbn [negb].
  2: { split; [split; [done|]|naive_solver]. intros (_ & _ & _ & _ & _ & (rev & HF & _) & _).
       exfalso. apply E4. apply (Nat2Z.inj_iff _ 1). apply size_set_one.
       apply (Forall_map wn_revision_id _ nodes). apply Forall_cons in HF as HF'. destruct HF' as [<- _].
       done. }
  apply (Nat2Z.inj_iff _ 1), size_set_one in E4.
  apply (Forall_map wn_revision_id (fun y => y = wn_revision_id n0) nodes) in E4.
  destruct (Z.eqb_spec (Z.of_nat (size (list_to_set (map wn_node_key nodes) : gset str)))
              (len (map wn_node_key nodes))) as [E5|E5]; cbn [negb].
  2: { split; [split; [done|]|naive_solver]. intros (_ & _ & _ & _ & H%size_set_NoDup & _).
       unfold len in E5. simpl in *. lia. }
  apply Nat2Z.inj_iff, size_set_NoDup in E5.
  pose proof (scan_edges_spec (wn_revision_id n0) (list_to_set (map wn_id nodes)) edges [] _
                ltac:(constructor) (scan_start nodes Hnd)) as Hs.
  pose proof (edges_ok_spec n0 l edges E4) as Heq.
  destruct (scan_edges _ _ _ _) as [s|x]; cbn [res_bind app] in Hs |- *.
  - destruct Hs as [Hs Hok].
    destruct (acyclic_dec_run nodes edges _ s Hnd Hs Hok) as (visited & -> & Hac).
    apply Heq in Hok. destruct (Z.eqb_spec visited (len nodes)) as [E|E]; cbn [negb].
    + split; [|done]. split; [intros _|done]. destruct Hok as (? & ? & ?). split_and!; try done; try lia.
      by apply Hac.
    + split; [|naive_solver]. split; [done|]. intros H. exfalso. apply E, Hac. apply H.
  - destruct Hs as [[msg ->] Hno]. split; [|naive_solver]. split; [done|].
    intros (_ & _ & _ & _ & _ & H1 & H2 & H3 & _). exfalso. by apply Hno, Heq.
Qed.

Lemma dag_accepts nodes edges : validate_workflow_dag nodes edges = Ok tt <-> dag_spec nodes edges.
Proof. apply dag_correct. Qed.

(** C13: [validate_workflow_dag] accepts a graph exactly when the graph is well
    formed (within limits, no duplicate node ids or keys, one owning revision,
    endpoints among the nodes, no duplicate edge) and has no cycle; it always
    terminates, and what it rejects it rejects with [DomainValidationError],
    never with a [KeyError] of the dictionaries it works on. *)
Theorem validate_workflow_dag_correct nodes edges :
  (validate_workflow_dag nodes edges = Ok tt <-> dag_spec nodes edges) /\
  (forall e, validate_workflow_dag nodes edges = Raise e -> exists msg, e = DomainValidationError msg).
Proof. apply dag_correct. Qed.
