(* ===== verification/WorkflowEntity.v ===== *)
(** * Workflow revisions and workflows

    [src/friday/domain/workflow.py]: the canonical content of a revision, its
    integrity digest, [WorkflowRevision] and the [Workflow] aggregate.  Proved:
    a revision that [new] returns passes the integrity check it will meet when
    it is loaded again, its digest does not depend on the order in which nodes
    and edges were listed, and an archived workflow is frozen. *)

From S2P Require Import Prelude Values Canonical WorkflowGraph.

Open Scope Z_scope.

Inductive WorkflowStatus : Type := WACTIVE | WDISABLED | WARCHIVED.
#[global] Instance WorkflowStatus_eq_dec : EqDecision WorkflowStatus.
Proof. solve_decision. Defined.
Definition workflow_status_value (s : WorkflowStatus) : string :=
  match s with WACTIVE => "active" | WDISABLED => "disabled" | WARCHIVED => "archived" end.

Inductive WorkflowRevisionSourceKind : Type := WS_OPERATOR | WS_IMPORTED.

Record WorkflowRevision : Type := mkRevision {
  wr_id : WorkflowRevisionId; wr_workflow_id : WorkflowId; wr_version : Z;
  wr_content_sha256 : str; wr_source_kind : WorkflowRevisionSourceKind;
  wr_nodes : list WorkflowNode; wr_edges : list WorkflowEdge; wr_created_at : Z }.

(** [{n.id: n.node_key for n in nodes}]: a later node overrides an earlier one. *)
Definition by_id (nodes : list WorkflowNode) : gmap WorkflowNodeId str :=
  list_to_map (reverse (map (fun n => (wn_id n, wn_node_key n)) nodes)).

Definition node_payload (n : WorkflowNode) : json :=
  JDict [(u "node_key", JStr (wn_node_key n));
         (u "target_agent_id", JStr (value (wn_target_agent_id n)));
         (u "objective", JStr (wn_objective n));
         (u "input_payload", wn_input_payload n);
         (u "expected_output_contract", JStr (wn_expected_output_contract n))].

Definition edge_payload (k : str * str) : json :=
  JDict [(u "from", JStr k.1); (u "to", JStr k.2)].

(** [(by_id[e.from_node_id], by_id[e.to_node_id])], paired with its edge. *)
Fixpoint edge_keys (m : gmap WorkflowNodeId str) (edges : list WorkflowEdge) : res (list (str * str)) :=
  match edges with
  | [] => Ok []
  | e :: es =>
      res_bind (getitem m (we_from_node_id e)) (fun a =>
      res_bind (getitem m (we_to_node_id e)) (fun b =>
      res_bind (edge_keys m es) (fun ks => Ok ((a, b) :: ks))))
  end.

Section Content.
Context `{Digest}.

(** The payload of an edge is a function of its sort key, so the keys are
    sorted and rendered. *)
Definition canonical_workflow_content (nodes : list WorkflowNode) (edges : list WorkflowEdge) : res str :=
  res_bind (edge_keys (by_id nodes) edges) (fun ks =>
  Ok (json_dumps false (JDict
    [(u "nodes", JList (map node_payload (order_by wn_node_key nodes)));
     (u "edges", JList (map edge_payload (merge_sort (key2_le id) ks)))]))).

(** [WorkflowRevision.__post_init__] *)
Definition WorkflowRevision_init (id : WorkflowRevisionId) (workflow_id : WorkflowId) (version : Z)
    (content_sha256 : str) (source_kind : WorkflowRevisionSourceKind)
    (nodes : list WorkflowNode) (edges : list WorkflowEdge) (created_at : datetime) : res WorkflowRevision :=
  if version <? 1 then Raise (DomainValidationError "WorkflowRevision.version must be positive")
  else
    res_bind (validate_workflow_revision_ownership id nodes edges) (fun _ =>
    res_bind (validate_workflow_dag nodes edges) (fun _ =>
    res_bind (canonical_workflow_content nodes edges) (fun content =>
    res_bind (encode content) (fun bytes =>
    if negb (bool_decide (content_sha256 = sha256_hex bytes))
    then Raise (DomainValidationError "workflow_integrity_failed")
    else if negb (is_sha256_hex content_sha256)
    then Raise (DomainValidationError "WorkflowRevision.content_sha256 must be lowercase sha256")
    else res_bind (ensure_utc created_at) (fun t =>
      Ok (mkRevision id workflow_id version content_sha256 source_kind nodes edges t)))))).

(** [WorkflowRevision.new] *)
Definition WorkflowRevision_new (id : WorkflowRevisionId) (workflow_id : WorkflowId) (version : Z)
    (nodes : list WorkflowNode) (edges : list WorkflowEdge)
    (source_kind : WorkflowRevisionSourceKind) (created_at : datetime) : res WorkflowRevision :=
  res_bind (validate_workflow_revision_ownership id nodes edges) (fun _ =>
  res_bind (validate_workflow_dag nodes edges) (fun _ =>
  res_bind (canonical_workflow_content nodes edges) (fun content =>
  res_bind (encode content) (fun bytes =>
  WorkflowRevision_init id workflow_id version (sha256_hex bytes) source_kind nodes edges
    created_at)))).
End Content.

(** ** The [Workflow] aggregate *)
Record Workflow : Type := mkWorkflow {
  wf_id : WorkflowId; wf_key : str; wf_display_name : str; wf_description : str;
  wf_status : WorkflowStatus; wf_active_revision_id : option WorkflowRevisionId;
  wf_created_at : Z; wf_updated_at : Z }.

Definition Workflow_new (id : WorkflowId) (key display_name description : str) (created_at : datetime)
    : res Workflow :=
  if empty_str (strip display_name)
  then Raise (DomainValidationError "Workflow.display_name must not be empty")
  else res_bind (ensure_utc created_at) (fun now =>
       res_bind (validate_workflow_key key) (fun key' =>
       Ok (mkWorkflow id key' (strip display_name) (strip description) WACTIVE None now now))).

(** The tuple assignments evaluate their right-hand sides first, so a naive
    timestamp leaves the workflow as it was. *)
Definition wf_activate (revision : WorkflowRevision) (at_ : datetime) : M Workflow unit :=
  w <- get ;;
  raise_if (bool_decide (wf_status w = WARCHIVED))
    (InvalidStateTransition "Workflow" (workflow_status_value (wf_status w)) "activate") ;;;
  raise_if (negb (id_eqb (wr_workflow_id revision) (wf_id w)))
    (DomainValidationError "Workflow revision does not belong to workflow") ;;;
  t <- lift (ensure_utc at_) ;;
  modify (fun w => mkWorkflow (wf_id w) (wf_key w) (wf_display_name w) (wf_description w) WACTIVE
                     (Some (wr_id revision)) (wf_created_at w) t).

Definition wf_disable (at_ : datetime) : M Workflow unit :=
  w <- get ;;
  raise_if (bool_decide (wf_status w = WARCHIVED))
    (InvalidStateTransition "Workflow" (workflow_status_value (wf_status w)) "disabled") ;;;
  t <- lift (ensure_utc at_) ;;
  modify (fun w => mkWorkflow (wf_id w) (wf_key w) (wf_display_name w) (wf_description w) WDISABLED
                     (wf_active_revision_id w) (wf_created_at w) t).

Definition wf_archive (at_ : datetime) : M Workflow unit :=
  w <- get ;;
  if bool_decide (wf_status w = WARCHIVED) then ret tt
  else
    t <- lift (ensure_utc at_) ;;
    modify (fun w => mkWorkflow (wf_id w) (wf_key w) (wf_display_name w) (wf_description w) WARCHIVED
                       (wf_active_revision_id w) (wf_created_at w) t).

(** ** Listing order is immaterial *)
Lemma edge_rel_perm P P' : P ≡ₚ P' -> forall a b, edge_rel P a b <-> edge_rel P' a b.
Proof. intros HP a b. unfold edge_rel. by rewrite HP. Qed.

Lemma acyclic_perm P P' : P ≡ₚ P' -> acyclic P -> acyclic P'.
Proof.
  intros HP Ha x Hx. apply (Ha x). revert Hx. generalize x at 2 4. intros y.
  induction 1 as [a b Hab|a b c Hab _ IH].
  - apply tc_once. by apply (edge_rel_perm P P').
  - eapply tc_l; [|done]. by apply (edge_rel_perm P P').
Qed.

Lemma dag_spec_perm nodes nodes' edges edges' :
  nodes ≡ₚ nodes' -> edges ≡ₚ edges' -> dag_spec nodes edges -> dag_spec nodes' edges'.
Proof.
  intros HN HE (H1 & H2 & H3 & H4 & H5 & (rev & H6 & H6') & H7 & H8 & H9). unfold dag_spec, len in *.
  assert (HP : map edge_pair edges ≡ₚ map edge_pair edges') by by apply Permutation_map.
  split_and!.
  - intros ->. by apply Permutation_nil_r in HN.
  - by rewrite <- HN.
  - by rewrite <- HE.
  - by rewrite <- (Permutation_map wn_id HN).
  - by rewrite <- (Permutation_map wn_node_key HN).
  - exists rev. by rewrite <- HN, <- HE.
  - rewrite <- HE. eapply List.Forall_impl; [|exact H7]. intros e [Ha Hb].
    by rewrite (Permutation_map wn_id HN) in Ha, Hb.
  - by rewrite <- HP.
  - by eapply acyclic_perm.
Qed.

Lemma ownership_perm id nodes nodes' edges edges' :
  nodes ≡ₚ nodes' -> edges ≡ₚ edges' ->
  validate_workflow_revision_ownership id nodes edges = Ok tt ->
  validate_workflow_revision_ownership id nodes' edges' = Ok tt.
Proof.
  assert (Hex : forall {A} (f : A -> bool) l l', l ≡ₚ l' -> existsb f l = existsb f l').
  { intros A f l l' HP. induction HP; simpl; try congruence. destruct (f x), (f y); done. }
  intros HN HE. unfold validate_workflow_revision_ownership.
  by rewrite (Hex _ _ _ _ HN), (Hex _ _ _ _ HE).
Qed.

Lemma by_id_perm nodes nodes' :
  NoDup (map wn_id nodes) -> nodes ≡ₚ nodes' -> by_id nodes = by_id nodes'.
Proof.
  intros Hnd HN. unfold by_id. apply list_to_map_proper.
  - rewrite fmap_reverse, reverse_Permutation. by rewrite <- list_fmap_compose.
  - rewrite !reverse_Permutation. by apply Permutation_map.
Qed.

Lemma by_id_lookup nodes x :
  x ∈ map wn_id nodes -> exists k, by_id nodes !! x = Some k.
Proof.
  intros (n & -> & Hn)%list_elem_of_fmap. unfold by_id.
  destruct (list_to_map _ !! wn_id n) eqn:E; [by eexists|].
  apply not_elem_of_list_to_map in E. destruct E.
  rewrite fmap_reverse, elem_of_reverse, <- list_fmap_compose. apply list_elem_of_fmap. by exists n.
Qed.

Lemma edge_keys_ok nodes edges :
  Forall (fun e => we_from_node_id e ∈ map wn_id nodes /\ we_to_node_id e ∈ map wn_id nodes) edges ->
  edge_keys (by_id nodes) edges =
  Ok (map (fun e => (default [] (by_id nodes !! we_from_node_id e),
                     default [] (by_id nodes !! we_to_node_id e))) edges).
Proof.
  induction 1 as [|e es [Hf Ht] _ IH]; simpl; [done|].
  apply by_id_lookup in Hf as [a Ha], Ht as [b Hb]. unfold getitem.
  by rewrite Ha, Hb, IH.
Qed.

Lemma canonical_perm `{Digest} nodes nodes' edges edges' :
  dag_spec nodes edges -> nodes ≡ₚ nodes' -> edges ≡ₚ edges' ->
  canonical_workflow_content nodes edges = canonical_workflow_content nodes' edges'.
Proof.
  intros Hs HN HE. pose proof (dag_spec_perm _ _ _ _ HN HE Hs) as Hs'.
  destruct Hs as (_ & _ & _ & Hi & Hk & _ & Hf & _), Hs' as (_ & _ & _ & _ & _ & _ & Hf' & _).
  unfold canonical_workflow_content. rewrite !edge_keys_ok by done. cbn [res_bind].
  rewrite <- (by_id_perm nodes nodes') by done.
  assert (Hn : order_by wn_node_key nodes = order_by wn_node_key nodes').
  { apply order_by_unique; [|done]. intros x y Hx Hy E.
    apply list_elem_of_lookup in Hx as [i Hx], Hy as [j Hy].
    assert (i = j) as ->; [|congruence].
    eapply (NoDup_lookup (map wn_node_key nodes)); [done| |];
      rewrite list_lookup_fmap; [by rewrite Hx | by rewrite Hy, E]. }
  rewrite Hn. do 3 f_equal. erewrite (merge_sort_unique (key2_le id)); [reflexivity| |].
  - intros x y _ _ Hxy Hyx. by apply (key2_le_antisymm id).
  - by apply Permutation_map.
Qed.

(** ** Properties *)

Lemma revision_new_inv `{Digest} id wid v nodes edges kind at_ r :
  WorkflowRevision_new id wid v nodes edges kind at_ = Ok r ->
  exists content bytes t,
    1 <= v /\ validate_workflow_revision_ownership id nodes edges = Ok tt /\
    validate_workflow_dag nodes edges = Ok tt /\
    canonical_workflow_content nodes edges = Ok content /\ encode content = Ok bytes /\
    is_sha256_hex (sha256_hex bytes) = true /\ ensure_utc at_ = Ok t /\
    r = mkRevision id wid v (sha256_hex bytes) kind nodes edges t.
Proof.
  unfold WorkflowRevision_new, WorkflowRevision_init.
  destruct (validate_workflow_revision_ownership id nodes edges) as [[]|]; simpl; [|done].
  destruct (validate_workflow_dag nodes edges) as [[]|]; simpl; [|done].
  destruct (canonical_workflow_content nodes edges) as [content|]; simpl; [|done].
  destruct (encode content) as [bytes|] eqn:Ee; simpl; [|done].
  destruct (v <? 1) eqn:Ev; [done|]. rewrite bool_decide_eq_true_2 by done. simpl.
  destruct (is_sha256_hex _) eqn:Es; simpl; [|done].
  destruct (ensure_utc at_) as [t|] eqn:Et; simpl; [|done]. intros [= <-].
  exists content, bytes, t. split_and!; try done. lia.
Qed.

Lemma revision_new_intro `{Digest} id wid v nodes edges kind at_ content bytes t :
  1 <= v -> validate_workflow_revision_ownership id nodes edges = Ok tt ->
  validate_workflow_dag nodes edges = Ok tt ->
  canonical_workflow_content nodes edges = Ok content -> encode content = Ok bytes ->
  is_sha256_hex (sha256_hex bytes) = true -> ensure_utc at_ = Ok t ->
  WorkflowRevision_init id wid v (sha256_hex bytes) kind nodes edges at_ =
    Ok (mkRevision id wid v (sha256_hex bytes) kind nodes edges t) /\
  WorkflowRevision_new id wid v nodes edges kind at_ =
    Ok (mkRevision id wid v (sha256_hex bytes) kind nodes edges t).
Proof.
  intros Hv Ho Hd Hc He Hs Ht.
  assert (Hi : WorkflowRevision_init id wid v (sha256_hex bytes) kind nodes edges at_ =
    Ok (mkRevision id wid v (sha256_hex bytes) kind nodes edges t)).
  { unfold WorkflowRevision_init. replace (v <? 1) with false by lia.
    rewrite Ho, Hd, Hc. cbn [res_bind]. rewrite He. cbn [res_bind].
    rewrite bool_decide_eq_true_2 by done. rewrite Hs. cbn [negb]. by rewrite Ht. }
  split; [done|]. unfold WorkflowRevision_new. rewrite Ho, Hd, Hc. cbn [res_bind]. by rewrite He.
Qed.

(** C31: a revision [WorkflowRevision.new] returns owns a well-formed acyclic
    graph and passes the integrity check of [__post_init__] when it is built
    again from its stored fields; listing the same nodes and edges in another
    order is accepted too and yields the same content digest. *)
Theorem workflow_revision_integrity `{Digest} id wid v nodes edges kind at_ r :
  WorkflowRevision_new id wid v nodes edges kind at_ = Ok r ->
  validate_workflow_dag (wr_nodes r) (wr_edges r) = Ok tt /\
  WorkflowRevision_init (wr_id r) (wr_workflow_id r) (wr_version r) (wr_content_sha256 r)
    (wr_source_kind r) (wr_nodes r) (wr_edges r) (utc (wr_created_at r)) = Ok r /\
  (forall nodes' edges', nodes ≡ₚ nodes' -> edges ≡ₚ edges' ->
     exists r', WorkflowRevision_new id wid v nodes' edges' kind at_ = Ok r' /\
                wr_content_sha256 r' = wr_content_sha256 r).
Proof.
  intros (content & bytes & t & Hv & Ho & Hd & Hc & He & Hs & Ht & ->)%revision_new_inv. cbn.
  split_and!; [done| |].
  - by eapply revision_new_intro; try done; apply ensure_utc_utc.
  - intros nodes' edges' HN HE. apply dag_accepts in Hd.
    exists (mkRevision id wid v (sha256_hex bytes) kind nodes' edges' t). split; [|done].
    eapply (revision_new_intro id wid v nodes' edges'); try done.
    + by eapply ownership_perm.
    + apply dag_accepts. by eapply dag_spec_perm.
    + rewrite <- Hc. symmetry. by apply canonical_perm.
Qed.

(** Two small graphs to run the definitions on. *)
Definition ex_rev : WorkflowRevisionId := mkId (u "rev").
Definition ex_node (name : string) : WorkflowNode :=
  mkNode (mkId (u name)) ex_rev (u name) (mkId (u "agent")) (u "do it") (JDict []) (u "text") 0.
Definition ex_edge (a b : string) : WorkflowEdge :=
  mkEdge (mkId (u a ++ u b)) ex_rev (mkId (u a)) (mkId (u b)) 0.

Example dag_diamond :
  validate_workflow_dag [ex_node "a"; ex_node "b"; ex_node "c"; ex_node "d"]
    [ex_edge "a" "b"; ex_edge "a" "c"; ex_edge "b" "d"; ex_edge "c" "d"] = Ok tt.
Proof. vm_compute. reflexivity. Qed.

Example dag_cycle :
  validate_workflow_dag [ex_node "a"; ex_node "b"; ex_node "c"]
    [ex_edge "a" "b"; ex_edge "b" "c"; ex_edge "c" "b"]
  = Raise (DomainValidationError "WorkflowRevision graph contains a cycle").
Proof. vm_compute. reflexivity. Qed.

Lemma workflow_revision_integrity_witness :
  exists r r', @WorkflowRevision_new toy_digest ex_rev (mkId (u "w")) 1 [ex_node "a"; ex_node "b"]
                 [ex_edge "a" "b"] WS_OPERATOR (utc 3) = Ok r /\
               @WorkflowRevision_new toy_digest ex_rev (mkId (u "w")) 1 [ex_node "b"; ex_node "a"]
                 [ex_edge "a" "b"] WS_OPERATOR (utc 3) = Ok r' /\
               wr_content_sha256 r' = wr_content_sha256 r.
Proof.
  assert (E : exists r, @WorkflowRevision_new toy_digest ex_rev (mkId (u "w")) 1
    [ex_node "a"; ex_node "b"] [ex_edge "a" "b"] WS_OPERATOR (utc 3) = Ok r).
  { eexists. vm_compute. reflexivity. }
  destruct E as [r E]. exists r.
  pose proof (@workflow_revision_integrity toy_digest _ _ _ _ _ _ _ _ E) as (_ & _ & Hp).
  destruct (Hp [ex_node "b"; ex_node "a"] [ex_edge "a" "b"]) as (r' & Hr' & Hs);
    [constructor | reflexivity |].
  exists r'. exact (conj E (conj Hr' Hs)).
Defined.

Inductive wf_op : Type :=
| WfActivate (r : WorkflowRevision) (at_ : datetime) | WfDisable (at_ : datetime)
| WfArchive (at_ : datetime).
Definition wf_exec (o : wf_op) : M Workflow unit :=
  match o with
  | WfActivate r t => wf_activate r t
  | WfDisable t => wf_disable t
  | WfArchive t => wf_archive t
  end.
Definition wf_init (w : Workflow) : Prop :=
  exists id key name descr t, Workflow_new id key name descr t = Ok w.

(** What the calls so far have established about the active revision. *)
Definition wf_log : Type := Workflow * list WorkflowRevision.
Definition wf_log_exec (o : wf_op) (s : wf_log) : wf_log :=
  (snd (wf_exec o s.1), match o with WfActivate r _ => r :: s.2 | _ => s.2 end).

(** [key] is machine readable, names are trimmed, and the active revision is
    one that was activated and belongs to this workflow. *)
Definition wf_inv (s : wf_log) : Prop :=
  let w := s.1 in
  validate_workflow_key (wf_key w) = Ok (wf_key w) /\
  strip (wf_display_name w) = wf_display_name w /\ wf_display_name w <> [] /\
  (forall rid, wf_active_revision_id w = Some rid ->
     exists r, r ∈ s.2 /\ wr_id r = rid /\ wr_workflow_id r = wf_id w).

Lemma wf_exec_archived o w :
  wf_status w = WARCHIVED -> snd (wf_exec o w) = w.
Proof.
  intros Hs. destruct o; cbv [wf_exec wf_activate wf_disable wf_archive bind get raise_if ret raise];
    rewrite Hs; reflexivity.
Qed.

Lemma wf_exec_inv o s : wf_inv s -> wf_inv (wf_log_exec o s).
Proof.
  destruct s as [w rs]. intros (Hk & Hn & Hne & Ha). unfold wf_inv, wf_log_exec. cbn [fst snd].
  destruct o as [r t|t|t]; cbn [wf_exec];
    cbv [wf_activate wf_disable wf_archive bind get gets raise_if ret raise lift modify id_eqb].
  - destruct (bool_decide (wf_status w = WARCHIVED)); simpl.
    { split_and!; try done. intros rid Hr. destruct (Ha rid Hr) as (r' & ? & ?).
      exists r'. split; [by right|done]. }
    case_bool_decide as Hid; simpl.
    2: { split_and!; try done. intros rid Hr. destruct (Ha rid Hr) as (r' & ? & ?).
         exists r'. split; [by right|done]. }
    destruct (ensure_utc t); simpl; split_and!; try done.
    + intros rid [= <-]. exists r. split; [by left|done].
    + intros rid Hr. destruct (Ha rid Hr) as (r' & ? & ?). exists r'. split; [by right|done].
  - destruct (bool_decide (wf_status w = WARCHIVED)); simpl; [done|].
    destruct (ensure_utc t); simpl; done.
  - destruct (bool_decide (wf_status w = WARCHIVED)); simpl; [done|].
    destruct (ensure_utc t); simpl; done.
Qed.

(** Along every sequence of calls on a Workflow its key stays a valid
    machine-readable key and its display name trimmed and non-empty, and its
    active revision is always one that was activated on it and belongs to it;
    once archived, no call changes the Workflow again. *)
Theorem workflow_lifecycle w ops more :
  wf_init w ->
  let s := foldl (fun s o => wf_log_exec o s) (w, []) ops in
  wf_inv s /\
  (wf_status s.1 = WARCHIVED -> (foldl (fun s o => wf_log_exec o s) s more).1 = s.1).
Proof.
  intros (id & key & name & descr & t & E).
  assert (H0 : wf_inv (w, [])).
  { unfold Workflow_new in E. destruct (strip name) as [|c l] eqn:Es; simpl in E; [done|].
    destruct (ensure_utc t); simpl in E; [|done].
    destruct (validate_workflow_key key) as [key'|] eqn:Ek; simpl in E; [|done]. simplify_eq.
    assert (key' = key) as -> by (unfold validate_workflow_key in Ek; case_match; congruence).
    unfold wf_inv. simpl. split_and!; try done. rewrite <- Es. apply strip_idem. }
  intros s. split.
  - subst s. revert H0. generalize (w, [] : list WorkflowRevision).
    induction ops as [|o ops IH]; intros s0 H0; simpl; [done|]. by apply IH, wf_exec_inv.
  - clearbody s. revert s. induction more as [|o more IH]; intros s Hs; simpl; [done|].
    assert (Ho : (wf_log_exec o s).1 = s.1) by by apply wf_exec_archived.
    rewrite IH; rewrite Ho; done.
Qed.

Definition ex_workflow : Workflow :=
  mkWorkflow (mkId (u "w")) (u "daily.report") (u "Daily") (u "") WACTIVE None 1 1.

Lemma workflow_lifecycle_witness :
  (foldl (fun s o => wf_log_exec o s) (wf_log_exec (WfArchive (utc 2)) (ex_workflow, []))
     [WfDisable (utc 5)]).1 = (wf_log_exec (WfArchive (utc 2)) (ex_workflow, [])).1.
Proof.
  apply (workflow_lifecycle ex_workflow [WfArchive (utc 2)] [WfDisable (utc 5)]); [|reflexivity].
  exists (mkId (u "w")), (u "daily.report"), (u " Daily "), (u ""), (utc 1). reflexivity.
Defined.
