(* ===== verification/WorkflowExecutionEntity.v ===== *)
(** * Workflow executions

    [src/friday/domain/workflow_execution.py]: the durable state of one run of
    a workflow graph and of each of its nodes.  Proved: whatever the
    constructors accept stays acceptable to them under every transition that
    returns, terminal values are frozen, and the node transitions are atomic. *)

From S2P Require Import Prelude Values WorkflowGraph.

Open Scope Z_scope.

Inductive WorkflowExecutionStatus : Type := XRUNNING | XSUCCEEDED | XFAILED | XCANCELLED.
#[global] Instance WorkflowExecutionStatus_eq_dec : EqDecision WorkflowExecutionStatus.
Proof. solve_decision. Defined.
Definition wx_status_value (s : WorkflowExecutionStatus) : string :=
  match s with
  | XRUNNING => "running" | XSUCCEEDED => "succeeded" | XFAILED => "failed" | XCANCELLED => "cancelled"
  end.

Inductive WorkflowNodeExecutionStatus : Type :=
| NPENDING | NDISPATCHED | NSUCCEEDED | NFAILED | NCANCELLED | NBLOCKED.
#[global] Instance WorkflowNodeExecutionStatus_eq_dec : EqDecision WorkflowNodeExecutionStatus.
Proof. solve_decision. Defined.
Definition nx_status_value (s : WorkflowNodeExecutionStatus) : string :=
  match s with
  | NPENDING => "pending" | NDISPATCHED => "dispatched" | NSUCCEEDED => "succeeded"
  | NFAILED => "failed" | NCANCELLED => "cancelled" | NBLOCKED => "blocked"
  end.

Definition TERMINAL_WORKFLOW_EXECUTION_STATUSES : list WorkflowExecutionStatus :=
  [XSUCCEEDED; XFAILED; XCANCELLED].
Definition TERMINAL_WORKFLOW_NODE_EXECUTION_STATUSES : list WorkflowNodeExecutionStatus :=
  [NSUCCEEDED; NFAILED; NCANCELLED; NBLOCKED].
Definition wx_terminal (s : WorkflowExecutionStatus) : bool :=
  bool_decide (s ∈ TERMINAL_WORKFLOW_EXECUTION_STATUSES).
Definition nx_terminal (s : WorkflowNodeExecutionStatus) : bool :=
  bool_decide (s ∈ TERMINAL_WORKFLOW_NODE_EXECUTION_STATUSES).

Definition validate_sha256 (value : str) (field_name : string) : res str :=
  if is_sha256_hex value then Ok value
  else Raise (DomainValidationError (field_name +:+ " must be a lowercase sha256")).

(** [not s] for an optional string *)
Definition opt_falsy (s : option str) : bool :=
  match s with None => true | Some s => empty_str s end.
(** [s is not None and not s.strip()] *)
Definition opt_blank (s : option str) : bool :=
  match s with None => false | Some s => empty_str (strip s) end.

Definition validate_failure (code message : option str) (required : bool) : res unit :=
  if required && (opt_falsy code || opt_falsy message)
  then Raise (DomainValidationError "failed workflow state requires failure code and message")
  else if opt_blank code then Raise (DomainValidationError "failure code must not be empty")
  else if opt_blank message then Raise (DomainValidationError "failure message must not be empty")
  else Ok tt.

Record WorkflowExecution : Type := mkExecution {
  wx_id : WorkflowExecutionId; wx_root_run_id : RunId; wx_workflow_id : WorkflowId;
  wx_workflow_revision_id : WorkflowRevisionId; wx_workflow_content_sha256 : str;
  wx_status : WorkflowExecutionStatus; wx_started_at : Z; wx_completed_at : option Z;
  wx_failure_code : option str; wx_failure_message : option str }.

Definition set_wx_status (v : WorkflowExecutionStatus) (x : WorkflowExecution) : WorkflowExecution :=
  mkExecution (wx_id x) (wx_root_run_id x) (wx_workflow_id x) (wx_workflow_revision_id x)
    (wx_workflow_content_sha256 x) v (wx_started_at x) (wx_completed_at x) (wx_failure_code
    x) (wx_failure_message x).
Definition set_wx_completed_at (v : option Z) (x : WorkflowExecution) : WorkflowExecution :=
  mkExecution (wx_id x) (wx_root_run_id x) (wx_workflow_id x) (wx_workflow_revision_id x)
    (wx_workflow_content_sha256 x) (wx_status x) (wx_started_at x) v (wx_failure_code x)
    (wx_failure_message x).
Definition set_wx_failure_code (v : option str) (x : WorkflowExecution) : WorkflowExecution :=
  mkExecution (wx_id x) (wx_root_run_id x) (wx_workflow_id x) (wx_workflow_revision_id x)
    (wx_workflow_content_sha256 x) (wx_status x) (wx_started_at x) (wx_completed_at x) v
    (wx_failure_message x).
Definition set_wx_failure_message (v : option str) (x : WorkflowExecution) : WorkflowExecution :=
  mkExecution (wx_id x) (wx_root_run_id x) (wx_workflow_id x) (wx_workflow_revision_id x)
    (wx_workflow_content_sha256 x) (wx_status x) (wx_started_at x) (wx_completed_at x)
    (wx_failure_code x) v.


(** The checks of [WorkflowExecution.__post_init__] on normalised times *)
Definition wx_validate (x : WorkflowExecution) : res unit :=
  let bad msg := Raise (DomainValidationError msg) in
  res_bind (validate_sha256 (wx_workflow_content_sha256 x) "WorkflowExecution.workflow_content_sha256") (fun _ =>
  if match wx_completed_at x with Some c => c <? wx_started_at x | None => false end
  then bad "WorkflowExecution.completed_at precedes WorkflowExecution.started_at"
  else if bool_decide (wx_status x = XRUNNING) && not_none (wx_completed_at x)
  then bad "running WorkflowExecution cannot be completed"
  else if bool_decide (wx_status x = XRUNNING)
          && (not_none (wx_failure_code x) || not_none (wx_failure_message x))
  then bad "running WorkflowExecution cannot have a failure"
  else if negb (bool_decide (wx_status x = XRUNNING)) && negb (not_none (wx_completed_at x))
  then bad "terminal WorkflowExecution requires completed_at"
  else if bool_decide (wx_status x = XSUCCEEDED)
          && (not_none (wx_failure_code x) || not_none (wx_failure_message x))
  then bad "succeeded WorkflowExecution cannot have a failure"
  else if bool_decide (wx_status x = XCANCELLED) && not_none (wx_failure_code x)
  then bad "cancelled WorkflowExecution cannot have a failure code"
  else validate_failure (wx_failure_code x) (wx_failure_message x) (bool_decide (wx_status x = XFAILED))).

(** [WorkflowExecution(...)] on normalised times *)
Definition WorkflowExecution_init (x : WorkflowExecution) : res WorkflowExecution :=
  res_bind (wx_validate x) (fun _ => Ok x).

(** The CHECK constraint [ck_workflow_executions_state_shape] *)
Definition ck_workflow_executions_state_shape (x : WorkflowExecution) : bool :=
  let no_failure := negb (not_none (wx_failure_code x)) && negb (not_none (wx_failure_message x)) in
  match wx_status x with
  | XRUNNING => negb (not_none (wx_completed_at x)) && no_failure
  | XSUCCEEDED => not_none (wx_completed_at x) && no_failure
  | XFAILED => not_none (wx_completed_at x) && not_none (wx_failure_code x)
               && not_none (wx_failure_message x)
  | XCANCELLED => not_none (wx_completed_at x) && negb (not_none (wx_failure_code x))
  end.

Definition wx_require_running (target : WorkflowExecutionStatus) : M WorkflowExecution unit :=
  st <- gets wx_status ;;
  raise_if (negb (bool_decide (st = XRUNNING)))
    (InvalidStateTransition "WorkflowExecution" (wx_status_value st) (wx_status_value target)).

Definition wx_precedes : exn :=
  DomainValidationError "WorkflowExecution.completed_at precedes WorkflowExecution.started_at".

(** [succeed] assigns [completed_at] before it checks it. *)
Definition wx_succeed (at_ : datetime) : M WorkflowExecution unit :=
  wx_require_running XSUCCEEDED ;;;
  t <- lift (ensure_utc at_) ;;
  modify (set_wx_completed_at (Some t)) ;;;
  s <- gets wx_started_at ;;
  raise_if (t <? s) wx_precedes ;;;
  modify (set_wx_failure_code None) ;;;
  modify (set_wx_failure_message None) ;;;
  modify (set_wx_status XSUCCEEDED).

Definition wx_fail (at_ : datetime) (failure_code failure_message : str) : M WorkflowExecution unit :=
  wx_require_running XFAILED ;;;
  lift (validate_failure (Some failure_code) (Some failure_message) true) ;;;
  t <- lift (ensure_utc at_) ;;
  s <- gets wx_started_at ;;
  raise_if (t <? s) wx_precedes ;;;
  modify (set_wx_completed_at (Some t)) ;;;
  modify (set_wx_failure_code (Some failure_code)) ;;;
  modify (set_wx_failure_message (Some failure_message)) ;;;
  modify (set_wx_status XFAILED).

Definition wx_cancel (at_ : datetime) (message : option str) : M WorkflowExecution unit :=
  wx_require_running XCANCELLED ;;;
  t <- lift (ensure_utc at_) ;;
  s <- gets wx_started_at ;;
  raise_if (t <? s) wx_precedes ;;;
  raise_if (opt_blank message)
    (DomainValidationError "WorkflowExecution cancellation message must not be empty") ;;;
  modify (set_wx_completed_at (Some t)) ;;;
  modify (set_wx_failure_code None) ;;;
  modify (set_wx_failure_message message) ;;;
  modify (set_wx_status XCANCELLED).

(** ** Node executions *)
Record WorkflowNodeExecution : Type := mkNodeExecution {
  nx_id : WorkflowNodeExecutionId; nx_workflow_execution_id : WorkflowExecutionId;
  nx_workflow_node_id : WorkflowNodeId; nx_workflow_revision_id : WorkflowRevisionId;
  nx_node_key : str; nx_target_agent_id : AgentId;
  nx_target_agent_revision_id : AgentRevisionId; nx_target_agent_revision_sha256 : str;
  nx_status : WorkflowNodeExecutionStatus; nx_created_at : Z;
  nx_child_task_id : option TaskId; nx_child_run_id : option RunId;
  nx_child_execution_id : option RunId; nx_result_payload : json;
  nx_failure_code : option str; nx_failure_message : option str; nx_started_at : option Z;
  nx_completed_at : option Z }.

Definition set_nx_status (v : WorkflowNodeExecutionStatus) (x : WorkflowNodeExecution) : WorkflowNodeExecution :=
  mkNodeExecution (nx_id x) (nx_workflow_execution_id x) (nx_workflow_node_id x)
    (nx_workflow_revision_id x) (nx_node_key x) (nx_target_agent_id x)
    (nx_target_agent_revision_id x) (nx_target_agent_revision_sha256 x) v (nx_created_at x)
    (nx_child_task_id x) (nx_child_run_id x) (nx_child_execution_id x) (nx_result_payload x)
    (nx_failure_code x) (nx_failure_message x) (nx_started_at x) (nx_completed_at x).
Definition set_nx_child_task_id (v : option TaskId) (x : WorkflowNodeExecution) : WorkflowNodeExecution :=
  mkNodeExecution (nx_id x) (nx_workflow_execution_id x) (nx_workflow_node_id x)
    (nx_workflow_revision_id x) (nx_node_key x) (nx_target_agent_id x)
    (nx_target_agent_revision_id x) (nx_target_agent_revision_sha256 x) (nx_status x)
    (nx_created_at x) v (nx_child_run_id x) (nx_child_execution_id x) (nx_result_payload x)
    (nx_failure_code x) (nx_failure_message x) (nx_started_at x) (nx_completed_at x).
Definition set_nx_child_run_id (v : option RunId) (x : WorkflowNodeExecution) : WorkflowNodeExecution :=
  mkNodeExecution (nx_id x) (nx_workflow_execution_id x) (nx_workflow_node_id x)
    (nx_workflow_revision_id x) (nx_node_key x) (nx_target_agent_id x)
    (nx_target_agent_revision_id x) (nx_target_agent_revision_sha256 x) (nx_status x)
    (nx_created_at x) (nx_child_task_id x) v (nx_child_execution_id x) (nx_result_payload x)
    (nx_failure_code x) (nx_failure_message x) (nx_started_at x) (nx_completed_at x).
Definition set_nx_child_execution_id (v : option RunId) (x : WorkflowNodeExecution) : WorkflowNodeExecution :=
  mkNodeExecution (nx_id x) (nx_workflow_execution_id x) (nx_workflow_node_id x)
    (nx_workflow_revision_id x) (nx_node_key x) (nx_target_agent_id x)
    (nx_target_agent_revision_id x) (nx_target_agent_revision_sha256 x) (nx_status x)
    (nx_created_at x) (nx_child_task_id x) (nx_child_run_id x) v (nx_result_payload x)
    (nx_failure_code x) (nx_failure_message x) (nx_started_at x) (nx_completed_at x).
Definition set_nx_result_payload (v : json) (x : WorkflowNodeExecution) : WorkflowNodeExecution :=
  mkNodeExecution (nx_id x) (nx_workflow_execution_id x) (nx_workflow_node_id x)
    (nx_workflow_revision_id x) (nx_node_key x) (nx_target_agent_id x)
    (nx_target_agent_revision_id x) (nx_target_agent_revision_sha256 x) (nx_status x)
    (nx_created_at x) (nx_child_task_id x) (nx_child_run_id x) (nx_child_execution_id x) v
    (nx_failure_code x) (nx_failure_message x) (nx_started_at x) (nx_completed_at x).
Definition set_nx_failure_code (v : option str) (x : WorkflowNodeExecution) : WorkflowNodeExecution :=
  mkNodeExecution (nx_id x) (nx_workflow_execution_id x) (nx_workflow_node_id x)
    (nx_workflow_revision_id x) (nx_node_key x) (nx_target_agent_id x)
    (nx_target_agent_revision_id x) (nx_target_agent_revision_sha256 x) (nx_status x)
    (nx_created_at x) (nx_child_task_id x) (nx_child_run_id x) (nx_child_execution_id x)
    (nx_result_payload x) v (nx_failure_message x) (nx_started_at x) (nx_completed_at x).
Definition set_nx_failure_message (v : option str) (x : WorkflowNodeExecution) : WorkflowNodeExecution :=
  mkNodeExecution (nx_id x) (nx_workflow_execution_id x) (nx_workflow_node_id x)
    (nx_workflow_revision_id x) (nx_node_key x) (nx_target_agent_id x)
    (nx_target_agent_revision_id x) (nx_target_agent_revision_sha256 x) (nx_status x)
    (nx_created_at x) (nx_child_task_id x) (nx_child_run_id x) (nx_child_execution_id x)
    (nx_result_payload x) (nx_failure_code x) v (nx_started_at x) (nx_completed_at x).
Definition set_nx_started_at (v : option Z) (x : WorkflowNodeExecution) : WorkflowNodeExecution :=
  mkNodeExecution (nx_id x) (nx_workflow_execution_id x) (nx_workflow_node_id x)
    (nx_workflow_revision_id x) (nx_node_key x) (nx_target_agent_id x)
    (nx_target_agent_revision_id x) (nx_target_agent_revision_sha256 x) (nx_status x)
    (nx_created_at x) (nx_child_task_id x) (nx_child_run_id x) (nx_child_execution_id x)
    (nx_result_payload x) (nx_failure_code x) (nx_failure_message x) v (nx_completed_at x).
Definition set_nx_completed_at (v : option Z) (x : WorkflowNodeExecution) : WorkflowNodeExecution :=
  mkNodeExecution (nx_id x) (nx_workflow_execution_id x) (nx_workflow_node_id x)
    (nx_workflow_revision_id x) (nx_node_key x) (nx_target_agent_id x)
    (nx_target_agent_revision_id x) (nx_target_agent_revision_sha256 x) (nx_status x)
    (nx_created_at x) (nx_child_task_id x) (nx_child_run_id x) (nx_child_execution_id x)
    (nx_result_payload x) (nx_failure_code x) (nx_failure_message x) (nx_started_at x) v.


(** [self.started_at or self.created_at] *)
Definition nx_start_time (x : WorkflowNodeExecution) : Z := default (nx_created_at x) (nx_started_at x).

(** The CHECK constraint [ck_workflow_node_executions_state_shape] *)
Definition ck_workflow_node_executions_state_shape (x : WorkflowNodeExecution) : bool :=
  let no_child := negb (not_none (nx_child_task_id x)) && negb (not_none (nx_child_run_id x))
                  && negb (not_none (nx_child_execution_id x)) in
  let all_child := not_none (nx_child_task_id x) && not_none (nx_child_run_id x)
                   && not_none (nx_child_execution_id x) in
  let started := not_none (nx_started_at x) in
  let completed := not_none (nx_completed_at x) in
  let no_failure := negb (not_none (nx_failure_code x)) && negb (not_none (nx_failure_message x)) in
  let full_failure := not_none (nx_failure_code x) && not_none (nx_failure_message x) in
  match nx_status x with
  | NPENDING => no_child && negb started && negb completed && no_failure
  | NDISPATCHED => all_child && started && negb completed && no_failure
  | NSUCCEEDED => all_child && started && completed && no_failure
  | NFAILED => all_child && started && completed && full_failure
  | NCANCELLED => completed && no_failure && (no_child && negb started || all_child && started)
  | NBLOCKED => completed && no_child && full_failure
  end.

(** [_validate_status_shape] *)
Definition nx_validate_status_shape (x : WorkflowNodeExecution) : res unit :=
  let bad msg := Raise (DomainValidationError msg) in
  let has_child := not_none (nx_child_task_id x) || not_none (nx_child_run_id x)
                   || not_none (nx_child_execution_id x) in
  let all_child := not_none (nx_child_task_id x) && not_none (nx_child_run_id x)
                   && not_none (nx_child_execution_id x) in
  let started := not_none (nx_started_at x) in
  let completed := not_none (nx_completed_at x) in
  let failure := not_none (nx_failure_code x) || not_none (nx_failure_message x) in
  match nx_status x with
  | NPENDING =>
      if has_child || started || completed then bad "pending WorkflowNodeExecution cannot have a child"
      else if failure then bad "pending WorkflowNodeExecution cannot have a failure" else Ok tt
  | NDISPATCHED =>
      if negb all_child || negb started || completed
      then bad "dispatched WorkflowNodeExecution child shape is invalid"
      else if failure then bad "dispatched WorkflowNodeExecution cannot have a failure" else Ok tt
  | NSUCCEEDED =>
      if negb all_child || negb started || negb completed
      then bad "succeeded WorkflowNodeExecution child shape is invalid"
      else if failure then bad "succeeded WorkflowNodeExecution cannot have a failure" else Ok tt
  | NFAILED =>
      if negb all_child || negb started || negb completed
      then bad "failed WorkflowNodeExecution child shape is invalid"
      else validate_failure (nx_failure_code x) (nx_failure_message x) true
  | NCANCELLED =>
      if negb completed then bad "cancelled WorkflowNodeExecution requires completed_at"
      else if failure then bad "cancelled WorkflowNodeExecution cannot have a failure" else Ok tt
  | NBLOCKED =>
      if negb completed then bad "blocked WorkflowNodeExecution requires completed_at"
      else if has_child then bad "blocked WorkflowNodeExecution cannot have a child"
      else validate_failure (nx_failure_code x) (nx_failure_message x) true
  end.

(** The checks of [WorkflowNodeExecution.__post_init__] on normalised times;
    the result payload is a JSON value by typing. *)
Definition nx_validate (x : WorkflowNodeExecution) : res unit :=
  let bad msg := Raise (DomainValidationError msg) in
  if empty_str (nx_node_key x) || (len (nx_node_key x) >? 128) || negb (key_fullmatch (nx_node_key x))
  then bad "WorkflowNodeExecution.node_key is invalid"
  else
  res_bind (validate_sha256 (nx_target_agent_revision_sha256 x)
              "WorkflowNodeExecution.target_agent_revision_sha256") (fun _ =>
  if match nx_started_at x with Some s => s <? nx_created_at x | None => false end
  then bad "WorkflowNodeExecution.started_at precedes created_at"
  else if match nx_completed_at x with Some c => c <? nx_start_time x | None => false end
  then bad "WorkflowNodeExecution.completed_at precedes start/creation time"
  else
  res_bind (validate_failure (nx_failure_code x) (nx_failure_message x) false) (fun _ =>
  nx_validate_status_shape x)).

(** [WorkflowNodeExecution(...)] on normalised times *)
Definition WorkflowNodeExecution_init (x : WorkflowNodeExecution) : res WorkflowNodeExecution :=
  res_bind (nx_validate x) (fun _ => Ok x).

Definition nx_require_status (target : WorkflowNodeExecutionStatus)
    (allowed : list WorkflowNodeExecutionStatus) : M WorkflowNodeExecution unit :=
  st <- gets nx_status ;;
  raise_if (negb (bool_decide (st ∈ allowed)))
    (InvalidStateTransition "WorkflowNodeExecution" (nx_status_value st) (nx_status_value target)).

Definition nx_dispatch (child_task_id : TaskId) (child_run_id child_execution_id : RunId)
    (at_ : datetime) : M WorkflowNodeExecution unit :=
  nx_require_status NDISPATCHED [NPENDING] ;;;
  x <- get ;;
  raise_if (not_none (nx_child_task_id x) || not_none (nx_child_run_id x)
            || not_none (nx_child_execution_id x))
    (DomainValidationError "WorkflowNodeExecution has already been dispatched") ;;;
  t <- lift (ensure_utc at_) ;;
  raise_if (t <? nx_created_at x)
    (DomainValidationError "WorkflowNodeExecution.started_at precedes created_at") ;;;
  modify (set_nx_child_task_id (Some child_task_id)) ;;;
  modify (set_nx_child_run_id (Some child_run_id)) ;;;
  modify (set_nx_child_execution_id (Some child_execution_id)) ;;;
  modify (set_nx_started_at (Some t)) ;;;
  modify (set_nx_completed_at None) ;;;
  modify (set_nx_failure_code None) ;;;
  modify (set_nx_failure_message None) ;;;
  modify (set_nx_status NDISPATCHED).

(** [completed_at = ensure_utc(at)], refused before the start. *)
Definition nx_completion (at_ : datetime) : M WorkflowNodeExecution Z :=
  t <- lift (ensure_utc at_) ;;
  s <- gets nx_start_time ;;
  raise_if (t <? s)
    (DomainValidationError "WorkflowNodeExecution.completed_at precedes start/creation time") ;;;
  ret t.

Definition nx_succeed (at_ : datetime) (result_payload : pyval) : M WorkflowNodeExecution unit :=
  nx_require_status NSUCCEEDED [NDISPATCHED] ;;;
  t <- nx_completion at_ ;;
  p <- lift (ensure_json_value result_payload) ;;
  modify (set_nx_result_payload p) ;;;
  modify (set_nx_completed_at (Some t)) ;;;
  modify (set_nx_failure_code None) ;;;
  modify (set_nx_failure_message None) ;;;
  modify (set_nx_status NSUCCEEDED).

Definition nx_fail (at_ : datetime) (failure_code failure_message : str) : M WorkflowNodeExecution unit :=
  nx_require_status NFAILED [NDISPATCHED] ;;;
  lift (validate_failure (Some failure_code) (Some failure_message) true) ;;;
  t <- nx_completion at_ ;;
  modify (set_nx_completed_at (Some t)) ;;;
  modify (set_nx_failure_code (Some failure_code)) ;;;
  modify (set_nx_failure_message (Some failure_message)) ;;;
  modify (set_nx_status NFAILED).

Definition nx_cancel (at_ : datetime) : M WorkflowNodeExecution unit :=
  nx_require_status NCANCELLED [NPENDING; NDISPATCHED] ;;;
  t <- nx_completion at_ ;;
  modify (set_nx_completed_at (Some t)) ;;;
  modify (set_nx_failure_code None) ;;;
  modify (set_nx_failure_message None) ;;;
  modify (set_nx_status NCANCELLED).

Definition nx_block (at_ : datetime) (failure_code failure_message : str) : M WorkflowNodeExecution unit :=
  nx_require_status NBLOCKED [NPENDING] ;;;
  lift (validate_failure (Some failure_code) (Some failure_message) true) ;;;
  t <- lift (ensure_utc at_) ;;
  c <- gets nx_created_at ;;
  raise_if (t <? c)
    (DomainValidationError "WorkflowNodeExecution.completed_at precedes created_at") ;;;
  modify (set_nx_completed_at (Some t)) ;;;
  modify (set_nx_failure_code (Some failure_code)) ;;;
  modify (set_nx_failure_message (Some failure_message)) ;;;
  modify (set_nx_status NBLOCKED).

(** ** Transitions as a machine *)
Inductive nx_op : Type :=
| NxDispatch (t : TaskId) (r e : RunId) (at_ : datetime)
| NxSucceed (at_ : datetime) (payload : pyval)
| NxFail (at_ : datetime) (code message : str)
| NxCancel (at_ : datetime)
| NxBlock (at_ : datetime) (code message : str).

Definition nx_exec (o : nx_op) : M WorkflowNodeExecution unit :=
  match o with
  | NxDispatch t r e a => nx_dispatch t r e a
  | NxSucceed a p => nx_succeed a p
  | NxFail a c m => nx_fail a c m
  | NxCancel a => nx_cancel a
  | NxBlock a c m => nx_block a c m
  end.

Ltac nx_cases :=
  cbv [nx_exec nx_dispatch nx_succeed nx_fail nx_cancel nx_block nx_require_status nx_completion
       bind get gets modify lift raise_if ret raise];
  cbn [nx_id nx_workflow_execution_id nx_workflow_node_id nx_workflow_revision_id nx_node_key
       nx_target_agent_id nx_target_agent_revision_id nx_target_agent_revision_sha256 nx_status
       nx_created_at nx_child_task_id nx_child_run_id nx_child_execution_id nx_result_payload
       nx_failure_code nx_failure_message nx_started_at nx_completed_at fst snd negb
       set_nx_status set_nx_child_task_id set_nx_child_run_id set_nx_child_execution_id
       set_nx_result_payload set_nx_failure_code set_nx_failure_message set_nx_started_at
       set_nx_completed_at].
Ltac nx_split :=
  closed_tests; cbn [negb];
  repeat (split_match; cbn [negb andb orb] in *; simplify_eq); intros; simplify_eq.

Lemma nx_exec_raise o x e x' : nx_exec o x = (Raise e, x') -> x' = x.
Proof.
  destruct x as [? ? ? ? ? ? ? ? s ? ? ? ? ? ? ? ? ?]. destruct o, s; nx_cases; nx_split; done.
Qed.

Lemma nx_exec_terminal o x :
  nx_terminal (nx_status x) = true -> fst (nx_exec o x) <> Ok tt.
Proof.
  destruct x as [? ? ? ? ? ? ? ? s ? ? ? ? ? ? ? ? ?]; cbn [nx_status]. intros Hs.
  destruct s; try done; destruct o; nx_cases; closed_tests; cbn [negb]; done.
Qed.

(** The identity checks of [nx_validate]; no transition touches them. *)
Definition nx_identity_ok (x : WorkflowNodeExecution) : bool :=
  negb (empty_str (nx_node_key x) || (len (nx_node_key x) >? 128) || negb (key_fullmatch (nx_node_key x)))
  && is_sha256_hex (nx_target_agent_revision_sha256 x).

Lemma nx_validate_spec x :
  nx_validate x = Ok tt <->
  nx_identity_ok x = true /\
  (forall s, nx_started_at x = Some s -> nx_created_at x <= s) /\
  (forall c, nx_completed_at x = Some c -> nx_start_time x <= c) /\
  opt_blank (nx_failure_code x) = false /\ opt_blank (nx_failure_message x) = false /\
  nx_validate_status_shape x = Ok tt.
Proof.
  unfold nx_validate, nx_identity_ok, validate_sha256, validate_failure.
  destruct (_ || _ || _); cbn [negb andb]; [naive_solver|].
  destruct (is_sha256_hex _); cbn [res_bind]; [|naive_solver].
  destruct (nx_started_at x) as [s|] eqn:Es.
  - destruct (s <? nx_created_at x) eqn:E1; [split; [done|]; intros (_ & H & _); specialize (H s eq_refl); lia|].
    destruct (nx_completed_at x) as [c|] eqn:Ec.
    + destruct (c <? nx_start_time x) eqn:E2; [split; [done|]; intros (_ & _ & H & _); specialize (H c eq_refl); lia|].
      destruct (opt_blank _), (opt_blank _); cbn [res_bind]; try naive_solver.
      split; [|tauto]. intros H. split_and!; try done; intros ? [= <-]; lia.
    + destruct (opt_blank _), (opt_blank _); cbn [res_bind]; try naive_solver.
      split; [|tauto]. intros H. split_and!; try done; intros ? [= <-]; lia.
  - destruct (nx_completed_at x) as [c|] eqn:Ec.
    + destruct (c <? nx_start_time x) eqn:E2; [split; [done|]; intros (_ & _ & H & _); specialize (H c eq_refl); lia|].
      destruct (opt_blank _), (opt_blank _); cbn [res_bind]; try naive_solver.
      split; [|tauto]. intros H. split_and!; try done; intros ? [= <-]; lia.
    + destruct (opt_blank _), (opt_blank _); cbn [res_bind]; naive_solver.
Qed.

Lemma validate_failure_true c m :
  validate_failure (Some c) (Some m) true = Ok tt ->
  empty_str c = false /\ empty_str m = false /\ empty_str (strip c) = false /\ empty_str (strip m) = false.
Proof.
  unfold validate_failure, opt_falsy, opt_blank. cbn [andb].
  destruct (empty_str c), (empty_str m), (empty_str (strip c)), (empty_str (strip m)); done.
Qed.

Lemma nx_exec_returns o x :
  wp (nx_exec o) (fun r x' => r = Ok tt -> nx_validate x = Ok tt -> nx_validate x' = Ok tt) x.
Proof.
  destruct o; cbn [nx_exec];
    unfold nx_dispatch, nx_succeed, nx_fail, nx_cancel, nx_block, nx_require_status, nx_completion;
    returns; intros _; rewrite !nx_validate_spec; intros (Hid & Hst & Hcp & Hfc & Hfm & Hsh).
  all: repeat match goal with
    | H : negb _ = false |- _ => apply negb_false_iff, bool_decide_eq_true in H
    | H : validate_failure (Some _) (Some _) true = Ok ?v |- _ =>
        destruct v; apply validate_failure_true in H as (? & ? & ? & ?)
    | H : _ ∈ [_] |- _ => apply list_elem_of_singleton in H
    | H : _ ∈ [_; _] |- _ => apply elem_of_cons in H as [H|H]
    end.
  all: destruct x; unfold nx_identity_ok, nx_start_time, nx_validate_status_shape in *; cbn in *; subst.
  all: repeat match goal with
    | H : context [not_none ?o] |- _ => destruct o; cbn [not_none negb andb orb] in H; try discriminate
    end.
  all: split_and!; try done; try (intros ? [= <-]; cbn in *; lia).
  all: unfold validate_failure, opt_falsy, opt_blank; repeat match goal with H : empty_str _ = false |- _ => rewrite H end; done.
Qed.

Lemma nx_exec_valid o x : nx_validate x = Ok tt -> nx_validate (snd (nx_exec o x)) = Ok tt.
Proof.
  pose proof (nx_exec_returns o x) as Hw. unfold wp in Hw.
  destruct (nx_exec o x) as [[[]|e] x'] eqn:E; simpl in *; [by apply Hw|].
  by rewrite (nx_exec_raise _ _ _ _ E).
Qed.


Definition ex_node_execution : WorkflowNodeExecution :=
  mkNodeExecution (mkId (u "n")) (mkId (u "e")) (mkId (u "wn")) (mkId (u "rev")) (u "fetch.data")
    (mkId (u "a")) (mkId (u "ar")) (replicate 64 97) NPENDING 5 None None None JNull None None None None.


(** ** The execution *)
Inductive wx_op : Type :=
| WxSucceed (at_ : datetime) | WxFail (at_ : datetime) (code message : str)
| WxCancel (at_ : datetime) (message : option str).
Definition wx_exec (o : wx_op) : M WorkflowExecution unit :=
  match o with
  | WxSucceed a => wx_succeed a
  | WxFail a c m => wx_fail a c m
  | WxCancel a m => wx_cancel a m
  end.

Lemma wx_exec_cases o x :
  wp (wx_exec o) (fun r x' =>
    (r = Ok tt -> wx_status x = XRUNNING /\ (wx_validate x = Ok tt -> wx_validate x' = Ok tt)) /\
    (forall e, r = Raise e -> x' = x \/
       exists at_ t, o = WxSucceed at_ /\ ensure_utc at_ = Ok t /\ t < wx_started_at x /\
                     wx_status x = XRUNNING /\ x' = set_wx_completed_at (Some t) x)) x.
Proof.
  destruct o; cbn [wx_exec]; unfold wx_succeed, wx_fail, wx_cancel, wx_require_running; returns.
  all: split; [try done|intros e' He'; simplify_eq/=; try (by left)].
  all: repeat match goal with
    | H : negb _ = false |- _ => apply negb_false_iff, bool_decide_eq_true in H
    | H : validate_failure (Some _) (Some _) true = Ok ?v |- _ =>
        destruct v; apply validate_failure_true in H as (? & ? & ? & ?)
    end.
  all: destruct x; unfold wx_validate, validate_failure in *; cbn in *; subst.
  - right. exists at_, a. split_and!; try done. lia.
  - intros _. split; [done|]. destruct (validate_sha256 _ _); cbn; [|done].
    rewrite Heqb0. done.
  - intros _. split; [done|]. destruct (validate_sha256 _ _); cbn; [|done].
    rewrite Heqb0. unfold opt_falsy, opt_blank.
    repeat match goal with H : empty_str _ = false |- _ => rewrite H end. done.
  - intros _. split; [done|]. destruct (validate_sha256 _ _); cbn; [|done].
    rewrite Heqb0. cbn. rewrite Heqb1. done.
Qed.

(** C36: a workflow execution the constructor accepts stays acceptable to it
    under every [succeed], [fail] and [cancel] call that returns, and only a
    running one lets such a call return; a call that raises leaves the
    execution as it was, except that [succeed] with a time before [started_at]
    has already stored that time when it raises. *)
Theorem workflow_execution_lifecycle o x :
  wx_validate x = Ok tt ->
  (fst (wx_exec o x) = Ok tt -> wx_status x = XRUNNING /\ wx_validate (snd (wx_exec o x)) = Ok tt) /\
  (forall e, fst (wx_exec o x) = Raise e ->
     snd (wx_exec o x) = x \/
     exists at_ t, o = WxSucceed at_ /\ ensure_utc at_ = Ok t /\ t < wx_started_at x /\
       wx_status x = XRUNNING /\ snd (wx_exec o x) = set_wx_completed_at (Some t) x).
Proof.
  intros Hv. destruct (wx_exec_cases o x) as [H1 H2]. split; [|done].
  intros Hr. destruct (H1 Hr). auto.
Qed.

Definition ex_execution : WorkflowExecution :=
  mkExecution (mkId (u "e")) (mkId (u "r")) (mkId (u "w")) (mkId (u "rev")) (replicate 64 97)
    XRUNNING 5 None None None.

Lemma workflow_execution_lifecycle_witness :
  wx_validate (snd (wx_exec (WxFail (utc 9) (u "code") (u "msg")) ex_execution)) = Ok tt.
Proof.
  apply (workflow_execution_lifecycle (WxFail (utc 9) (u "code") (u "msg")) ex_execution); reflexivity.
Defined.

(** ** Bindings at the end of [workflow_execution.py] *)
Record RunWorkflowResolution : Type := mkWorkflowResolution {
  wl_id : RunWorkflowResolutionId; wl_run_id : RunId; wl_workflow_id : WorkflowId;
  wl_workflow_revision_id : WorkflowRevisionId; wl_content_sha256 : str; wl_resolved_at : Z }.
Definition RunWorkflowResolution_new (id : RunWorkflowResolutionId) (run_id : RunId)
    (workflow_id : WorkflowId) (revision : WorkflowRevisionId) (content_sha256 : str)
    (resolved_at : datetime) : res RunWorkflowResolution :=
  res_bind (validate_sha256 content_sha256 "RunWorkflowResolution.content_sha256") (fun _ =>
  res_bind (ensure_utc resolved_at) (fun t =>
  Ok (mkWorkflowResolution id run_id workflow_id revision content_sha256 t))).

Record TaskWorkflowBinding : Type := mkTaskWorkflow {
  tw_task_id : TaskId; tw_workflow_id : WorkflowId; tw_created_at : Z; tw_updated_at : Z }.
Definition TaskWorkflowBinding_init (task_id : TaskId) (workflow_id : WorkflowId)
    (created_at updated_at : datetime) : res TaskWorkflowBinding :=
  res_bind (ensure_utc created_at) (fun c =>
  res_bind (ensure_utc updated_at) (fun t =>
  if t <? c
  then Raise (DomainValidationError
         "TaskWorkflowBinding.updated_at precedes TaskWorkflowBinding.created_at")
  else Ok (mkTaskWorkflow task_id workflow_id c t))).
Definition TaskWorkflowBinding_new (task_id : TaskId) (workflow_id : WorkflowId) (at_ : datetime)
    : res TaskWorkflowBinding :=
  res_bind (ensure_utc at_) (fun now => TaskWorkflowBinding_init task_id workflow_id (utc now) (utc now)).
Definition tw_updated (b : TaskWorkflowBinding) (workflow_id : WorkflowId) (at_ : datetime)
    : res TaskWorkflowBinding :=
  TaskWorkflowBinding_init (tw_task_id b) workflow_id (utc (tw_created_at b)) at_.
