(* ===== verification/ImprovementEntity.v ===== *)
(** * Skill evaluation, improvement and promotion: the values

    [src/friday/domain/skill_evidence_snapshot.py], [skill_evaluation.py],
    [skill_improvement.py], [skill_promotion.py], [skill_improvement_policy.py]
    and [skill_improvement_work.py].  All are frozen dataclasses: a change is
    [dataclasses.replace], which builds a new object and runs [__post_init__]
    again, modelled by a record update followed by the [_check]. *)

From S2P Require Import Prelude Values Canonical AgentEntity SkillEntity RetryPolicy WorkflowExecutionEntity.

Open Scope Z_scope.

(** ** Dictionaries as JSON values *)

(** [set(d) == {...}] and [set(d) <= {...}] *)
Definition keys_within (ks : list string) (d : list (str * json)) : bool :=
  forallb (fun p : str * json => bool_decide (fst p ∈ map u ks)) d.
Definition keys_are (ks : list string) (d : list (str * json)) : bool :=
  keys_within ks d && forallb (fun k => not_none (dict_get (u k) d)) ks.
(** [d.get(key)] *)
Definition json_get (key : string) (d : list (str * json)) : json := default JNull (dict_get (u key) d).
Definition is_json_str (j : json) : bool := match j with JStr _ => true | _ => false end.
Definition is_json_dict (j : json) : bool := match j with JDict _ => true | _ => false end.

Section Digests.
Context `{Digest}.
(** [json.dumps(value, sort_keys=True, separators=(",", ":")).encode("utf-8")] and its digest *)
Definition canonical_bytes (j : json) : res (list Z) := encode (json_dumps true j).
Definition json_sha256 (j : json) : res str := res_bind (canonical_bytes j) (fun b => Ok (sha256_hex b)).
End Digests.

(** ** Evidence ([skill_evidence_snapshot.py]) *)
Definition MAX_EVIDENCE_ENTRIES : Z := 200.
Definition MAX_EVIDENCE_ID_LENGTH : Z := 128.
Definition EVIDENCE_KINDS : list str := [u "usage"; u "feedback"; u "manual"].
Definition MAX_EVIDENCE_BYTES : Z := 64000.

Definition malformed {A} : res A := Raise (DomainValidationError "evidence snapshot provenance is malformed").
(** The loop that wraps raw items as entries of one kind *)
Fixpoint wrap_items (kind : string) (items : list json) : res (list json) :=
  match items with
  | [] => Ok []
  | JDict item :: items' =>
      res_bind (wrap_items kind items') (fun rest =>
      Ok (JDict [(u "id", json_get "id" item); (u "kind", JStr (u kind)); (u "payload", JDict item)] :: rest))
  | _ :: _ => malformed
  end.
Definition items_of (key : string) (d : list (str * json)) : res (list json) :=
  match dict_get (u key) d with
  | None => Ok []
  | Some (JList l) => Ok l
  | Some _ => malformed
  end.
Definition evidence_entries (value : json) : res (list json) :=
  match value with
  | JDict d =>
      if keys_are ["version"; "entries"]%string d then
        if negb (json_eqb (json_get "version" d) (JInt 1))
        then Raise (DomainValidationError "evidence snapshot version is unsupported")
        else match json_get "entries" d with
             | JList l => Ok l
             | _ => Raise (DomainValidationError "evidence snapshot entries are invalid or unbounded")
             end
      else if keys_are ["items"]%string d then res_bind (items_of "items" d) (wrap_items "manual")
      else if keys_within ["usage"; "feedback"]%string d then
        res_bind (items_of "usage" d) (fun usage => res_bind (wrap_items "usage" usage) (fun l =>
        res_bind (items_of "feedback" d) (fun feedback => res_bind (wrap_items "feedback" feedback) (fun l' =>
        Ok (l ++ l')))))
      else Raise (DomainValidationError "evidence snapshot does not match the canonical schema")
  | _ => Raise (DomainValidationError "evidence snapshot does not match the canonical schema")
  end.

Definition bad_entry {A} : res A := Raise (DomainValidationError "evidence snapshot entry provenance is malformed").
(** One entry; a payload is a JSON value by typing. *)
Definition normalize_entry (ids : list str) (entry : json) : res (str * json) :=
  match entry with
  | JDict d =>
      if negb (keys_are ["id"; "kind"; "payload"]%string d) then bad_entry
      else match json_get "id" d, json_get "kind" d with
           | JStr entry_id, JStr kind =>
               if empty_str entry_id || (len entry_id >? MAX_EVIDENCE_ID_LENGTH) || bool_decide (entry_id ∈ ids)
                  || negb (bool_decide (kind ∈ EVIDENCE_KINDS)) then bad_entry
               else if bool_decide (kind ∈ [u "usage"; u "feedback"]) && negb (is_json_dict (json_get "payload" d))
               then bad_entry
               else Ok (entry_id, JDict [(u "id", JStr entry_id); (u "kind", JStr kind);
                                         (u "payload", json_get "payload" d)])
           | _, _ => bad_entry
           end
  | _ => bad_entry
  end.
Fixpoint normalize_entries (ids : list str) (entries : list json) : res (list (str * json)) :=
  match entries with
  | [] => Ok []
  | e :: es => res_bind (normalize_entry ids e) (fun p =>
               res_bind (normalize_entries (fst p :: ids) es) (fun ps => Ok (p :: ps)))
  end.
(** The entries with their ids, and the canonical package they form *)
Definition canonical_entries (value : json) : res (list (str * json)) :=
  res_bind (evidence_entries value) (fun entries =>
  if len entries >? MAX_EVIDENCE_ENTRIES
  then Raise (DomainValidationError "evidence snapshot entries are invalid or unbounded")
  else normalize_entries [] entries).
Definition package (entries : list (str * json)) : json :=
  JDict [(u "version", JInt 1); (u "entries", JList (map snd entries))].
Definition canonicalize_evidence (value : json) : res json :=
  res_bind (canonical_entries value) (fun entries => Ok (package entries)).
Definition evidence_ids_from_payload (value : json) : res (list str) :=
  res_bind (canonical_entries value) (fun entries => Ok (map fst entries)).

Record SkillEvidenceSnapshot : Type := mkEvidence {
  es_id : SkillEvidenceSnapshotId; es_skill_id : SkillId; es_base_revision_id : SkillRevisionId;
  es_evidence : json; es_content_sha256 : str; es_created_at : Z }.

Section Evidence.
Context `{Digest}.
Definition evidence_payload_hash (value : json) : res str := res_bind (canonicalize_evidence value) json_sha256.

(** Evidence of a run names the skill and the revision the snapshot is about. *)
Definition entry_within (skill : SkillId) (base : SkillRevisionId) (entry : json) : bool :=
  match entry with
  | JDict d =>
      match json_get "kind" d, json_get "payload" d with
      | JStr kind, payload =>
          negb (bool_decide (kind ∈ [u "usage"; u "feedback"]))
          || match payload with
             | JDict p => json_eqb (json_get "skill_id" p) (JStr (value skill))
                          && json_eqb (json_get "revision_id" p) (JStr (value base))
             | _ => false
             end
      | _, _ => true
      end
  | _ => true
  end.
Definition SkillEvidenceSnapshot_init (id : SkillEvidenceSnapshotId) (skill : SkillId) (base : SkillRevisionId)
    (evidence : json) (content_sha256 : str) (created_at : datetime) : res SkillEvidenceSnapshot :=
  if negb (is_sha256_hex content_sha256)
  then Raise (DomainValidationError "evidence snapshot hash must be lowercase sha256")
  else
  res_bind (canonical_entries evidence) (fun entries =>
  res_bind (evidence_payload_hash (package entries)) (fun hash =>
  if negb (bool_decide (hash = content_sha256))
  then Raise (DomainValidationError "evidence snapshot hash mismatch")
  else if negb (forallb (fun e : str * json => entry_within skill base (snd e)) entries)
  then Raise (DomainValidationError "evidence snapshot crosses Skill revision provenance")
  else
  res_bind (canonical_bytes (package entries)) (fun bytes =>
  if len bytes >? MAX_EVIDENCE_BYTES
  then Raise (DomainValidationError "evidence snapshot exceeds the bounded package size")
  else res_bind (ensure_utc created_at) (fun t =>
       Ok (mkEvidence id skill base (package entries) content_sha256 t))))).
Definition SkillEvidenceSnapshot_new (id : SkillEvidenceSnapshotId) (skill : SkillId) (base : SkillRevisionId)
    (evidence : pyval) (created_at : datetime) : res SkillEvidenceSnapshot :=
  res_bind (ensure_json_value evidence) (fun value =>
  res_bind (canonicalize_evidence value) (fun normalized =>
  res_bind (canonical_bytes normalized) (fun bytes =>
  if len bytes >? MAX_EVIDENCE_BYTES
  then Raise (DomainValidationError "evidence snapshot exceeds the bounded package size")
  else res_bind (ensure_utc created_at) (fun t =>
       SkillEvidenceSnapshot_init id skill base normalized (sha256_hex bytes) (utc t))))).
End Evidence.

(** ** Evaluation ([skill_evaluation.py]) *)
Inductive EvaluationSuiteStatus : Type := SUITE_ACTIVE | SUITE_DISABLED.
#[global] Instance EvaluationSuiteStatus_eq_dec : EqDecision EvaluationSuiteStatus.
Proof. solve_decision. Defined.
Inductive EvaluationRunStatus : Type := EV_SUCCEEDED | EV_FAILED.
#[global] Instance EvaluationRunStatus_eq_dec : EqDecision EvaluationRunStatus.
Proof. solve_decision. Defined.
Definition CANONICAL_DETERMINISTIC_EVALUATOR_VERSION : str := u "deterministic-evaluator-v2".
Definition CANONICAL_BRAIN_EVALUATOR_VERSION : str := u "brain-only-evaluator-v2".

Record SkillEvaluationSuite : Type := mkSuite {
  es_suite_id : SkillEvaluationSuiteId; es_suite_skill_id : SkillId; es_name : str; es_description : str;
  es_status : EvaluationSuiteStatus; es_suite_created_at : Z; es_suite_updated_at : Z }.
Definition SkillEvaluationSuite_check (x : SkillEvaluationSuite) : res SkillEvaluationSuite :=
  if empty_str (strip (es_name x)) || (len (es_name x) >? 256)
  then Raise (DomainValidationError "evaluation suite name must be present and bounded")
  else Ok x.

Record SkillEvaluationCase : Type := mkCase {
  ec_id : SkillEvaluationCaseId; ec_suite_id : SkillEvaluationSuiteId; ec_position : Z; ec_input : str;
  ec_expected_properties : json; ec_grading_kind : str; ec_created_at : Z; ec_updated_at : Z }.
Definition SkillEvaluationCase_check (x : SkillEvaluationCase) : res SkillEvaluationCase :=
  if (ec_position x <? 1) || empty_str (ec_input x) || empty_str (ec_grading_kind x)
  then Raise (DomainValidationError "evaluation case requires position, input, and grading kind")
  else Ok x.

Record SkillEvaluationRun : Type := mkEvaluationRun {
  er_id : SkillEvaluationRunId; er_suite_id : SkillEvaluationSuiteId; er_skill_id : SkillId;
  er_revision_id : option SkillRevisionId; er_proposal_id : option SkillImprovementProposalId;
  er_status : EvaluationRunStatus; er_evaluator_version : str; er_started_at : Z; er_completed_at : Z;
  er_aggregate_result : json; er_suite_snapshot : json; er_runtime_fingerprint : str;
  er_target_content_sha256 : str; er_runtime_metadata : json; er_call_usage : json }.

(** One case of a stored snapshot: its fields, its position, a new id *)
Definition snapshot_case_ok (ids : list str) (position : Z) (item : json) : option str :=
  match item with
  | JDict d =>
      match json_get "id" d, json_get "input" d, json_get "expected_properties" d, json_get "grading_kind" d with
      | JStr case_id, JStr input, JDict _, JStr _ =>
          if keys_are ["id"; "position"; "input"; "expected_properties"; "grading_kind"]%string d
             && negb (bool_decide (case_id ∈ ids)) && json_eqb (json_get "position" d) (JInt position)
             && negb (empty_str input)
          then Some case_id else None
      | _, _, _, _ => None
      end
  | _ => None
  end.
Fixpoint snapshot_cases_ok (ids : list str) (position : Z) (items : list json) : bool :=
  match items with
  | [] => true
  | item :: items' =>
      match snapshot_case_ok ids position item with
      | Some case_id => snapshot_cases_ok (case_id :: ids) (position + 1) items'
      | None => false
      end
  end.
Definition snapshot_ok (snapshot : json) : bool :=
  match snapshot with
  | JDict d =>
      keys_are ["cases"]%string d
      && match json_get "cases" d with
         | JList (x :: l) => snapshot_cases_ok [] 1 (x :: l)
         | _ => false
         end
  | _ => false
  end.
Definition SkillEvaluationRun_check (x : SkillEvaluationRun) : res SkillEvaluationRun :=
  let bad msg := Raise (DomainValidationError msg) in
  if empty_str (er_evaluator_version x) || negb (is_sha256_hex (er_runtime_fingerprint x))
     || negb (is_sha256_hex (er_target_content_sha256 x))
  then bad "evaluation run requires evaluator version and sha256 fingerprint"
  else if Bool.eqb (not_none (er_revision_id x)) (not_none (er_proposal_id x))
  then bad "evaluation run must target exactly one revision or proposal"
  else if negb (snapshot_ok (er_suite_snapshot x)) then bad "evaluation run suite snapshot is malformed"
  else if negb (is_json_dict (er_runtime_metadata x)) then bad "evaluation run runtime metadata is malformed"
  else if match er_call_usage x with JNull | JDict _ => false | _ => true end
  then bad "evaluation run call usage is malformed"
  else Ok x.

(** Scores are floats. *)
Record SkillEvaluationCaseResult : Type := mkCaseResult {
  cr_evaluation_run_id : SkillEvaluationRunId; cr_case_id : SkillEvaluationCaseId;
  cr_status : EvaluationRunStatus; cr_score : dyadic; cr_reason_code : option str;
  cr_bounded_details : str; cr_output_sha256 : str }.
Definition SkillEvaluationCaseResult_check (x : SkillEvaluationCaseResult) : res SkillEvaluationCaseResult :=
  if negb (dy_leb (0, 0) (cr_score x) && dy_leb (cr_score x) dy_one) || (len (cr_bounded_details x) >? 4000)
  then Raise (DomainValidationError "invalid evaluation case result")
  else if negb (is_sha256_hex (cr_output_sha256 x))
  then Raise (DomainValidationError "evaluation output hash must be sha256")
  else Ok x.

Inductive CandidateComparisonResult : Type := CC_BETTER | CC_WORSE | CC_EQUIVALENT | CC_MIXED | CC_INCONCLUSIVE.
#[global] Instance CandidateComparisonResult_eq_dec : EqDecision CandidateComparisonResult.
Proof. solve_decision. Defined.
Definition comparison_result_value (r : CandidateComparisonResult) : string :=
  match r with
  | CC_BETTER => "better" | CC_WORSE => "worse" | CC_EQUIVALENT => "equivalent" | CC_MIXED => "mixed"
  | CC_INCONCLUSIVE => "inconclusive"
  end.
Inductive CandidateRecommendation : Type := CR_ELIGIBLE | CR_NOT_ELIGIBLE | CR_REQUIRES_MANUAL_OVERRIDE.
#[global] Instance CandidateRecommendation_eq_dec : EqDecision CandidateRecommendation.
Proof. solve_decision. Defined.
Definition recommendation_value (r : CandidateRecommendation) : string :=
  match r with
  | CR_ELIGIBLE => "eligible" | CR_NOT_ELIGIBLE => "not_eligible"
  | CR_REQUIRES_MANUAL_OVERRIDE => "requires_manual_override"
  end.

Record SkillCandidateEvaluation : Type := mkCandidate {
  ce_id : SkillCandidateEvaluationId; ce_proposal_id : SkillImprovementProposalId;
  ce_baseline_evaluation_run_id : SkillEvaluationRunId; ce_candidate_evaluation_run_id : SkillEvaluationRunId;
  ce_comparison_policy_version : str; ce_result : CandidateComparisonResult;
  ce_recommendation : CandidateRecommendation; ce_score_delta : dyadic; ce_regression_count : Z;
  ce_improvement_count : Z; ce_inconclusive_count : Z; ce_report_sha256 : str; ce_created_at : Z;
  ce_comparison_report : json }.
Definition SkillCandidateEvaluation_check `{Digest} (x : SkillCandidateEvaluation) : res SkillCandidateEvaluation :=
  let bad msg := Raise (DomainValidationError msg) in
  if empty_str (ce_comparison_policy_version x) || negb (is_sha256_hex (ce_report_sha256 x))
  then bad "candidate comparison requires a policy version and sha256 report"
  else if Z.min (ce_regression_count x) (Z.min (ce_improvement_count x) (ce_inconclusive_count x)) <? 0
  then bad "candidate comparison counts must be non-negative"
  else if negb (is_json_dict (ce_comparison_report x)) then bad "candidate comparison report must be an object"
  else res_bind (json_sha256 (ce_comparison_report x)) (fun hash =>
       if negb (bool_decide (hash = ce_report_sha256 x)) then bad "candidate comparison report hash mismatch"
       else Ok x).

(** ** Proposals ([skill_improvement.py]) *)
Inductive SkillProposalStatus : Type :=
| SP_DRAFT | SP_READY_FOR_EVALUATION | SP_EVALUATING | SP_READY_FOR_REVIEW | SP_APPROVED | SP_REJECTED
| SP_SUPERSEDED | SP_CANCELLED | SP_EXPIRED | SP_PROMOTED.
#[global] Instance SkillProposalStatus_eq_dec : EqDecision SkillProposalStatus.
Proof. solve_decision. Defined.

Record SkillImprovementProposal : Type := mkProposal {
  ip_id : SkillImprovementProposalId; ip_skill_id : SkillId; ip_base_revision_id : SkillRevisionId;
  ip_status : SkillProposalStatus; ip_trigger_kind : str; ip_evidence_snapshot_id : SkillEvidenceSnapshotId;
  ip_evidence_snapshot_hash : str; ip_proposed_instructions : str; ip_proposed_content_sha256 : str;
  ip_rationale : str; ip_generator_version : str; ip_candidate_prompt_version : str;
  ip_candidate_prompt_sha256 : str; ip_created_at : Z }.
Definition set_ip_status (s : SkillProposalStatus) (x : SkillImprovementProposal) : SkillImprovementProposal :=
  mkProposal (ip_id x) (ip_skill_id x) (ip_base_revision_id x) s (ip_trigger_kind x) (ip_evidence_snapshot_id x)
    (ip_evidence_snapshot_hash x) (ip_proposed_instructions x) (ip_proposed_content_sha256 x) (ip_rationale x)
    (ip_generator_version x) (ip_candidate_prompt_version x) (ip_candidate_prompt_sha256 x) (ip_created_at x).
Definition SkillImprovementProposal_check `{Digest} (x : SkillImprovementProposal) : res SkillImprovementProposal :=
  let bad msg := Raise (DomainValidationError msg) in
  res_bind (validate_skill_instructions (ip_proposed_instructions x)) (fun instructions =>
  if empty_str (ip_trigger_kind x) || empty_str (ip_generator_version x) || (len (ip_rationale x) >? 8000)
  then bad "proposal metadata must be present and bounded"
  else if empty_str (ip_candidate_prompt_version x) || (len (ip_candidate_prompt_version x) >? 128)
  then bad "proposal candidate prompt version must be bounded"
  else if negb (len (ip_evidence_snapshot_hash x) =? 64) then bad "proposal evidence snapshot must be sha256"
  else if negb (is_sha256_hex (ip_candidate_prompt_sha256 x)) then bad "proposal candidate prompt must be sha256"
  else res_bind (skill_digest instructions) (fun digest =>
       if negb (bool_decide (ip_proposed_content_sha256 x = digest))
       then bad "proposal content hash does not match instructions" else Ok x)).

(** ** Promotions and rollbacks ([skill_promotion.py]) *)
Inductive PromotionRequestStatus : Type := PR_PENDING | PR_APPROVED | PR_REJECTED | PR_STALE | PR_CANCELLED | PR_PROMOTED.
#[global] Instance PromotionRequestStatus_eq_dec : EqDecision PromotionRequestStatus.
Proof. solve_decision. Defined.
Inductive RollbackRequestStatus : Type := RB_PENDING | RB_APPROVED | RB_REJECTED | RB_STALE | RB_CANCELLED | RB_COMPLETED.
#[global] Instance RollbackRequestStatus_eq_dec : EqDecision RollbackRequestStatus.
Proof. solve_decision. Defined.

Record SkillPromotionRequest : Type := mkPromotion {
  pq_id : SkillPromotionRequestId; pq_proposal_id : SkillImprovementProposalId; pq_skill_id : SkillId;
  pq_base_revision_id : SkillRevisionId; pq_expected_active_revision_id : SkillRevisionId;
  pq_candidate_sha256 : str; pq_candidate_evaluation_id : SkillCandidateEvaluationId;
  pq_comparison_report_sha256 : str; pq_target_revision_id : SkillRevisionId; pq_target_version : Z;
  pq_authorization_fingerprint : str; pq_status : PromotionRequestStatus; pq_created_at : Z;
  pq_resolved_at : option Z; pq_resolver : option str; pq_promoted_revision_id : option SkillRevisionId;
  pq_approval_request_id : option ApprovalRequestId }.
Definition SkillPromotionRequest_check (x : SkillPromotionRequest) : res SkillPromotionRequest :=
  let bad msg := Raise (DomainValidationError msg) in
  if negb (is_sha256_hex (pq_candidate_sha256 x) && is_sha256_hex (pq_comparison_report_sha256 x)
           && is_sha256_hex (pq_authorization_fingerprint x))
  then bad "promotion fingerprints must be sha256 hex"
  else if pq_target_version x <? 1 then bad "promotion target version must be positive"
  else if bool_decide (pq_status x = PR_PROMOTED)
          && negb (opt_id_eqb (pq_promoted_revision_id x) (pq_target_revision_id x))
  then bad "promoted SkillPromotionRequest must identify its target revision"
  else Ok x.
Definition set_pq_fingerprint (v : str) (x : SkillPromotionRequest) : SkillPromotionRequest :=
  mkPromotion (pq_id x) (pq_proposal_id x) (pq_skill_id x) (pq_base_revision_id x)
    (pq_expected_active_revision_id x) (pq_candidate_sha256 x) (pq_candidate_evaluation_id x)
    (pq_comparison_report_sha256 x) (pq_target_revision_id x) (pq_target_version x) v (pq_status x)
    (pq_created_at x) (pq_resolved_at x) (pq_resolver x) (pq_promoted_revision_id x) (pq_approval_request_id x).
Definition set_pq_promoted (v : option SkillRevisionId) (x : SkillPromotionRequest) : SkillPromotionRequest :=
  mkPromotion (pq_id x) (pq_proposal_id x) (pq_skill_id x) (pq_base_revision_id x)
    (pq_expected_active_revision_id x) (pq_candidate_sha256 x) (pq_candidate_evaluation_id x)
    (pq_comparison_report_sha256 x) (pq_target_revision_id x) (pq_target_version x)
    (pq_authorization_fingerprint x) (pq_status x) (pq_created_at x) (pq_resolved_at x) (pq_resolver x) v
    (pq_approval_request_id x).
Definition resolve_pq (s : PromotionRequestStatus) (at_ : Z) (resolver : option str) (x : SkillPromotionRequest)
    : SkillPromotionRequest :=
  mkPromotion (pq_id x) (pq_proposal_id x) (pq_skill_id x) (pq_base_revision_id x)
    (pq_expected_active_revision_id x) (pq_candidate_sha256 x) (pq_candidate_evaluation_id x)
    (pq_comparison_report_sha256 x) (pq_target_revision_id x) (pq_target_version x)
    (pq_authorization_fingerprint x) s (pq_created_at x) (Some at_) resolver (pq_promoted_revision_id x)
    (pq_approval_request_id x).

Record SkillRollbackRequest : Type := mkRollback {
  rb_id : SkillRollbackRequestId; rb_skill_id : SkillId; rb_expected_current_revision_id : SkillRevisionId;
  rb_target_revision_id : SkillRevisionId; rb_reason : str; rb_authorization_fingerprint : str;
  rb_status : RollbackRequestStatus; rb_created_at : Z; rb_resolved_at : option Z; rb_resolver : option str;
  rb_approval_request_id : option ApprovalRequestId }.
Definition SkillRollbackRequest_check (x : SkillRollbackRequest) : res SkillRollbackRequest :=
  if empty_str (strip (rb_reason x)) || (len (rb_reason x) >? 4000)
  then Raise (DomainValidationError "rollback reason must be present and bounded")
  else if negb (is_sha256_hex (rb_authorization_fingerprint x))
  then Raise (DomainValidationError "rollback authorization fingerprint must be sha256")
  else Ok x.
Definition set_rb_fingerprint (v : str) (x : SkillRollbackRequest) : SkillRollbackRequest :=
  mkRollback (rb_id x) (rb_skill_id x) (rb_expected_current_revision_id x) (rb_target_revision_id x) (rb_reason x)
    v (rb_status x) (rb_created_at x) (rb_resolved_at x) (rb_resolver x) (rb_approval_request_id x).
Definition resolve_rb (s : RollbackRequestStatus) (at_ : Z) (resolver : option str) (x : SkillRollbackRequest)
    : SkillRollbackRequest :=
  mkRollback (rb_id x) (rb_skill_id x) (rb_expected_current_revision_id x) (rb_target_revision_id x) (rb_reason x)
    (rb_authorization_fingerprint x) s (rb_created_at x) (Some at_) resolver (rb_approval_request_id x).

(** ** Policies ([skill_improvement_policy.py]) *)
Definition CANONICAL_GENERATOR_VERSION : str := u "brain-candidate-generator-v2".
Definition CANONICAL_COMPARISON_POLICY_VERSION : str := u "comparison-v1".
Record SkillImprovementPolicy : Type := mkImprovementPolicy {
  sp_skill_id : SkillId; sp_enabled : bool; sp_minimum_usage_records : Z; sp_minimum_failures : Z;
  sp_minimum_harmful_feedback : Z; sp_evaluation_suite_id : SkillEvaluationSuiteId; sp_cooldown_seconds : Z;
  sp_max_open_proposals : Z; sp_evidence_window_size : Z; sp_generator_version : str;
  sp_comparison_policy_version : str; sp_created_at : Z; sp_updated_at : Z; sp_last_triggered_at : option Z }.
Definition SkillImprovementPolicy_check (x : SkillImprovementPolicy) : res SkillImprovementPolicy :=
  let bad msg := Raise (DomainValidationError msg) in
  if (Z.min (sp_minimum_usage_records x) (Z.min (sp_minimum_failures x)
        (Z.min (sp_minimum_harmful_feedback x) (sp_cooldown_seconds x))) <? 0)
     || negb (sp_max_open_proposals x =? 1)
     || negb ((1 <=? sp_evidence_window_size x) && (sp_evidence_window_size x <=? 200))
  then bad "invalid skill improvement policy thresholds"
  else if negb (bool_decide (sp_generator_version x = CANONICAL_GENERATOR_VERSION))
  then bad "generator version is not code-owned"
  else if negb (bool_decide (sp_comparison_policy_version x = CANONICAL_COMPARISON_POLICY_VERSION))
  then bad "comparison policy version is not code-owned"
  else Ok x.
(** [replace(policy, created_at=..., updated_at=..., last_triggered_at=...)] *)
Definition stamp_policy (created updated : Z) (triggered : option Z) (x : SkillImprovementPolicy)
    : SkillImprovementPolicy :=
  mkImprovementPolicy (sp_skill_id x) (sp_enabled x) (sp_minimum_usage_records x) (sp_minimum_failures x)
    (sp_minimum_harmful_feedback x) (sp_evaluation_suite_id x) (sp_cooldown_seconds x) (sp_max_open_proposals x)
    (sp_evidence_window_size x) (sp_generator_version x) (sp_comparison_policy_version x) created updated triggered.

(** ** Improvement work ([skill_improvement_work.py]) *)
Inductive SkillImprovementWorkState : Type :=
| IW_EVIDENCE_SELECTION | IW_CANDIDATE_GENERATION | IW_BASELINE_EVALUATION | IW_CANDIDATE_EVALUATION
| IW_COMPARISON | IW_READY_FOR_REVIEW | IW_FAILED | IW_COMPLETE.
#[global] Instance SkillImprovementWorkState_eq_dec : EqDecision SkillImprovementWorkState.
Proof. solve_decision. Defined.
Record SkillImprovementWork : Type := mkWork {
  iw_id : SkillImprovementWorkId; iw_skill_id : SkillId; iw_state : SkillImprovementWorkState;
  iw_proposal_id : option SkillImprovementProposalId; iw_attempt_count : Z; iw_next_attempt_at : Z;
  iw_claimed_by : option str; iw_claim_token : option str; iw_claim_generation : Z;
  iw_lease_expires_at : option Z; iw_failure_code : option str; iw_failure_detail : option str;
  iw_created_at : Z; iw_updated_at : Z }.
Definition is_code_char (c : Z) : bool :=
  ((97 <=? c) && (c <=? 122)) || ((48 <=? c) && (c <=? 57)) || (c =? 95).
Definition SkillImprovementWork_check (x : SkillImprovementWork) : res SkillImprovementWork :=
  let bad msg := Raise (DomainValidationError msg) in
  if (iw_attempt_count x <? 0) || (iw_claim_generation x <? 0)
  then bad "improvement work counters must be non-negative"
  else if match iw_failure_code x with
          | Some c => empty_str c || (len c >? 128) || negb (forallb is_code_char c)
          | None => false
          end
  then bad "improvement work failure code is invalid"
  else if match iw_failure_detail x with Some t => len t >? 1000 | None => false end
  then bad "improvement work failure detail is too long"
  else Ok x.
