(* ===== verification/Tables.v ===== *)
(** * The tables

    The rows that have no component of their own ([domain/agent.py] and
    [domain/skill_usage.py]), and [Db]: the tables that
    the modelled use cases read and write, one field each, filled with domain
    objects.  A table is a finite map keyed by its primary key, or a list in
    insertion order where the key is composite. *)

From S2P Require Import Prelude Values RunEntity TaskEntity StepEntity ToolEntity ApprovalEntity.
From S2P Require Import EventEntity ScheduleEntity ScheduleDelivery DelegationEntity WorkQueue.
From S2P Require Import DeliveryEntity AgentEntity SkillEntity ConversationEntity WorkflowEntity WorkflowExecutionEntity.
From S2P Require Import MemoryContext MemoryQuery ImprovementEntity.

Open Scope Z_scope.

(** ** Evidence rows ([domain/agent.py], [skill_usage.py]) *)
Record RunAgentResolution : Type := mkAgentResolution {
  ar_id : RunAgentResolutionId; ar_run_id : RunId; ar_agent_id : AgentId;
  ar_revision_id : AgentRevisionId; ar_resolved_at : Z }.

Inductive SkillUsageOutcome : Type := USUCCEEDED | UFAILED | UCANCELLED | URESOLUTION_FAILED.
#[global] Instance SkillUsageOutcome_eq_dec : EqDecision SkillUsageOutcome.
Proof. solve_decision. Defined.

Record SkillUsageRecord : Type := mkUsage {
  ur_id : SkillUsageRecordId; ur_run_id : RunId; ur_task_id : TaskId; ur_skill_id : SkillId;
  ur_revision_id : SkillRevisionId; ur_position : Z; ur_resolution_id : str; ur_execution_id : RunId;
  ur_attempt_number : Z; ur_started_at : option Z; ur_completed_at : Z; ur_outcome : SkillUsageOutcome;
  ur_failure_code : option str; ur_tool_call_count : Z; ur_approval_count : Z;
  ur_duration_ms : option Z; ur_created_at : Z }.

Definition SkillUsageRecord_check (r : SkillUsageRecord) : res SkillUsageRecord :=
  let bad msg := Raise (DomainValidationError msg) in
  if (ur_position r <? 1) || (ur_attempt_number r <? 1)
  then bad "skill usage position and attempt must be positive"
  else if (ur_tool_call_count r <? 0) || (ur_approval_count r <? 0)
  then bad "skill usage counts must be non-negative"
  else if match ur_duration_ms r with Some d => d <? 0 | None => false end
  then bad "skill usage duration must be non-negative"
  else if bool_decide (ur_outcome r = UFAILED) && opt_falsy (ur_failure_code r)
  then bad "failed skill usage requires a failure code"
  else if negb (bool_decide (ur_outcome r = UFAILED)) && not_none (ur_failure_code r)
  then bad "only failed skill usage may have a failure code"
  else Ok r.

Inductive SkillFeedbackRating : Type := FR_HELPFUL | FR_NEUTRAL | FR_HARMFUL.
Record SkillRunFeedback : Type := mkFeedback {
  fb_id : SkillRunFeedbackId; fb_run_id : RunId; fb_skill_id : SkillId; fb_revision_id : SkillRevisionId;
  fb_rating : SkillFeedbackRating; fb_note : str; fb_created_by : str; fb_created_at : Z }.
Definition SkillRunFeedback_new (id : SkillRunFeedbackId) (run_id : RunId) (skill_id : SkillId)
    (revision_id : SkillRevisionId) (rating : SkillFeedbackRating) (note created_by : str) (created_at : datetime)
    : res SkillRunFeedback :=
  if empty_str (strip created_by) || (len created_by >? 128)
  then Raise (DomainValidationError "feedback created_by must be present and bounded")
  else if len note >? 4000 then Raise (DomainValidationError "feedback note must be bounded")
  else res_bind (ensure_utc created_at) (fun t =>
       Ok (mkFeedback id run_id skill_id revision_id rating note created_by t)).

(** ** The tables *)
Record Db : Type := mkDb {
  db_tasks : gmap TaskId Task; db_runs : gmap RunId Run; db_steps : gmap RunStepId RunStep;
  db_approvals : gmap ApprovalRequestId ApprovalRequest;
  db_tools : gmap ToolInvocationId ToolInvocation; db_artifacts : gmap ArtifactId Artifact;
  db_schedules : gmap ScheduleId Schedule; db_fires : gmap ScheduleFireId ScheduleFire;
  db_delivery_policies : gmap ScheduleId ScheduleDeliveryPolicy;
  db_delivery_plans : gmap ScheduleFireDeliveryPlanId ScheduleFireDeliveryPlan;
  db_deliveries : gmap DeliveryId OutboundDelivery;
  db_attempts : gmap DeliveryAttemptId DeliveryAttempt;
  db_delegations : gmap DelegationRequestId DelegationRequest;
  db_executions : gmap WorkflowExecutionId WorkflowExecution;
  db_node_executions : gmap WorkflowNodeExecutionId WorkflowNodeExecution;
  db_queue : gmap RunId RunWorkItem; db_run_events : list RunEvent;
  db_run_seq : gmap RunId Z; db_task_events : list TaskEvent; db_task_seq : gmap TaskId Z;
  db_agents : gmap AgentId Agent; db_agent_revisions : gmap AgentRevisionId AgentRevision;
  db_task_agents : gmap TaskId TaskAgentBinding; db_workflows : gmap WorkflowId Workflow;
  db_workflow_revisions : gmap WorkflowRevisionId WorkflowRevision;
  db_task_workflows : gmap TaskId TaskWorkflowBinding;
  db_workflow_resolutions : gmap RunId RunWorkflowResolution;
  db_skill_resolutions : gmap RunId RunSkillResolution;
  db_skill_bindings : list RunSkillBinding;
  db_agent_resolutions : gmap RunId RunAgentResolution;
  db_usage : gmap (RunId * SkillId) SkillUsageRecord;
  db_feedback : gmap SkillRunFeedbackId SkillRunFeedback; db_skills : gmap SkillId Skill;
  db_skill_revisions : gmap SkillRevisionId SkillRevision;
  db_task_skills : list TaskSkillBinding;
  db_conversations : gmap ConversationId Conversation;
  db_turns : gmap ConversationTurnId ConversationTurn;
  db_memory_records : gmap MemoryRetrievalRecordId MemoryRetrievalRecord;
  db_suites : gmap SkillEvaluationSuiteId SkillEvaluationSuite;
  db_cases : gmap SkillEvaluationCaseId SkillEvaluationCase;
  db_evaluation_runs : gmap SkillEvaluationRunId SkillEvaluationRun;
  db_case_results : list SkillEvaluationCaseResult;
  db_candidates : gmap SkillCandidateEvaluationId SkillCandidateEvaluation;
  db_proposals : gmap SkillImprovementProposalId SkillImprovementProposal;
  db_improvement_work : gmap SkillImprovementWorkId SkillImprovementWork;
  db_evidence : gmap SkillEvidenceSnapshotId SkillEvidenceSnapshot;
  db_improvement_policies : gmap SkillId SkillImprovementPolicy;
  db_promotions : gmap SkillPromotionRequestId SkillPromotionRequest;
  db_rollbacks : gmap SkillRollbackRequestId SkillRollbackRequest }.

Definition set_db_tasks (v : gmap TaskId Task) (x : Db) : Db :=
  mkDb v (db_runs x) (db_steps x) (db_approvals x) (db_tools x) (db_artifacts x)
    (db_schedules x) (db_fires x) (db_delivery_policies x) (db_delivery_plans x)
    (db_deliveries x) (db_attempts x) (db_delegations x) (db_executions x)
    (db_node_executions x) (db_queue x) (db_run_events x) (db_run_seq x) (db_task_events x)
    (db_task_seq x) (db_agents x) (db_agent_revisions x) (db_task_agents x) (db_workflows x)
    (db_workflow_revisions x) (db_task_workflows x) (db_workflow_resolutions x)
    (db_skill_resolutions x) (db_skill_bindings x) (db_agent_resolutions x) (db_usage x)
    (db_feedback x) (db_skills x) (db_skill_revisions x) (db_task_skills x)
    (db_conversations x) (db_turns x) (db_memory_records x) (db_suites x) (db_cases x)
    (db_evaluation_runs x) (db_case_results x) (db_candidates x) (db_proposals x)
    (db_improvement_work x) (db_evidence x) (db_improvement_policies x) (db_promotions x)
    (db_rollbacks x).
Definition set_db_runs (v : gmap RunId Run) (x : Db) : Db :=
  mkDb (db_tasks x) v (db_steps x) (db_approvals x) (db_tools x) (db_artifacts x)
    (db_schedules x) (db_fires x) (db_delivery_policies x) (db_delivery_plans x)
    (db_deliveries x) (db_attempts x) (db_delegations x) (db_executions x)
    (db_node_executions x) (db_queue x) (db_run_events x) (db_run_seq x) (db_task_events x)
    (db_task_seq x) (db_agents x) (db_agent_revisions x) (db_task_agents x) (db_workflows x)
    (db_workflow_revisions x) (db_task_workflows x) (db_workflow_resolutions x)
    (db_skill_resolutions x) (db_skill_bindings x) (db_agent_resolutions x) (db_usage x)
    (db_feedback x) (db_skills x) (db_skill_revisions x) (db_task_skills x)
    (db_conversations x) (db_turns x) (db_memory_records x) (db_suites x) (db_cases x)
    (db_evaluation_runs x) (db_case_results x) (db_candidates x) (db_proposals x)
    (db_improvement_work x) (db_evidence x) (db_improvement_policies x) (db_promotions x)
    (db_rollbacks x).
Definition set_db_steps (v : gmap RunStepId RunStep) (x : Db) : Db :=
  mkDb (db_tasks x) (db_runs x) v (db_approvals x) (db_tools x) (db_artifacts x)
    (db_schedules x) (db_fires x) (db_delivery_policies x) (db_delivery_plans x)
    (db_deliveries x) (db_attempts x) (db_delegations x) (db_executions x)
    (db_node_executions x) (db_queue x) (db_run_events x) (db_run_seq x) (db_task_events x)
    (db_task_seq x) (db_agents x) (db_agent_revisions x) (db_task_agents x) (db_workflows x)
    (db_workflow_revisions x) (db_task_workflows x) (db_workflow_resolutions x)
    (db_skill_resolutions x) (db_skill_bindings x) (db_agent_resolutions x) (db_usage x)
    (db_feedback x) (db_skills x) (db_skill_revisions x) (db_task_skills x)
    (db_conversations x) (db_turns x) (db_memory_records x) (db_suites x) (db_cases x)
    (db_evaluation_runs x) (db_case_results x) (db_candidates x) (db_proposals x)
    (db_improvement_work x) (db_evidence x) (db_improvement_policies x) (db_promotions x)
    (db_rollbacks x).
Definition set_db_approvals (v : gmap ApprovalRequestId ApprovalRequest) (x : Db) : Db :=
  mkDb (db_tasks x) (db_runs x) (db_steps x) v (db_tools x) (db_artifacts x) (db_schedules
    x) (db_fires x) (db_delivery_policies x) (db_delivery_plans x) (db_deliveries x)
    (db_attempts x) (db_delegations x) (db_executions x) (db_node_executions x) (db_queue x)
    (db_run_events x) (db_run_seq x) (db_task_events x) (db_task_seq x) (db_agents x)
    (db_agent_revisions x) (db_task_agents x) (db_workflows x) (db_workflow_revisions x)
    (db_task_workflows x) (db_workflow_resolutions x) (db_skill_resolutions x)
    (db_skill_bindings x) (db_agent_resolutions x) (db_usage x) (db_feedback x) (db_skills
    x) (db_skill_revisions x) (db_task_skills x) (db_conversations x) (db_turns x)
    (db_memory_records x) (db_suites x) (db_cases x) (db_evaluation_runs x) (db_case_results
    x) (db_candidates x) (db_proposals x) (db_improvement_work x) (db_evidence x)
    (db_improvement_policies x) (db_promotions x) (db_rollbacks x).
Definition set_db_tools (v : gmap ToolInvocationId ToolInvocation) (x : Db) : Db :=
  mkDb (db_tasks x) (db_runs x) (db_steps x) (db_approvals x) v (db_artifacts x)
    (db_schedules x) (db_fires x) (db_delivery_policies x) (db_delivery_plans x)
    (db_deliveries x) (db_attempts x) (db_delegations x) (db_executions x)
    (db_node_executions x) (db_queue x) (db_run_events x) (db_run_seq x) (db_task_events x)
    (db_task_seq x) (db_agents x) (db_agent_revisions x) (db_task_agents x) (db_workflows x)
    (db_workflow_revisions x) (db_task_workflows x) (db_workflow_resolutions x)
    (db_skill_resolutions x) (db_skill_bindings x) (db_agent_resolutions x) (db_usage x)
    (db_feedback x) (db_skills x) (db_skill_revisions x) (db_task_skills x)
    (db_conversations x) (db_turns x) (db_memory_records x) (db_suites x) (db_cases x)
    (db_evaluation_runs x) (db_case_results x) (db_candidates x) (db_proposals x)
    (db_improvement_work x) (db_evidence x) (db_improvement_policies x) (db_promotions x)
    (db_rollbacks x).
Definition set_db_artifacts (v : gmap ArtifactId Artifact) (x : Db) : Db :=
  mkDb (db_tasks x) (db_runs x) (db_steps x) (db_approvals x) (db_tools x) v (db_schedules
    x) (db_fires x) (db_delivery_policies x) (db_delivery_plans x) (db_deliveries x)
    (db_attempts x) (db_delegations x) (db_executions x) (db_node_executions x) (db_queue x)
    (db_run_events x) (db_run_seq x) (db_task_events x) (db_task_seq x) (db_agents x)
    (db_agent_revisions x) (db_task_agents x) (db_workflows x) (db_workflow_revisions x)
    (db_task_workflows x) (db_workflow_resolutions x) (db_skill_resolutions x)
    (db_skill_bindings x) (db_agent_resolutions x) (db_usage x) (db_feedback x) (db_skills
    x) (db_skill_revisions x) (db_task_skills x) (db_conversations x) (db_turns x)
    (db_memory_records x) (db_suites x) (db_cases x) (db_evaluation_runs x) (db_case_results
    x) (db_candidates x) (db_proposals x) (db_improvement_work x) (db_evidence x)
    (db_improvement_policies x) (db_promotions x) (db_rollbacks x).
Definition set_db_schedules (v : gmap ScheduleId Schedule) (x : Db) : Db :=
  mkDb (db_tasks x) (db_runs x) (db_steps x) (db_approvals x) (db_tools x) (db_artifacts
    x) v (db_fires x) (db_delivery_policies x) (db_delivery_plans x) (db_deliveries x)
    (db_attempts x) (db_delegations x) (db_executions x) (db_node_executions x) (db_queue x)
    (db_run_events x) (db_run_seq x) (db_task_events x) (db_task_seq x) (db_agents x)
    (db_agent_revisions x) (db_task_agents x) (db_workflows x) (db_workflow_revisions x)
    (db_task_workflows x) (db_workflow_resolutions x) (db_skill_resolutions x)
    (db_skill_bindings x) (db_agent_resolutions x) (db_usage x) (db_feedback x) (db_skills
    x) (db_skill_revisions x) (db_task_skills x) (db_conversations x) (db_turns x)
    (db_memory_records x) (db_suites x) (db_cases x) (db_evaluation_runs x) (db_case_results
    x) (db_candidates x) (db_proposals x) (db_improvement_work x) (db_evidence x)
    (db_improvement_policies x) (db_promotions x) (db_rollbacks x).
Definition set_db_fires (v : gmap ScheduleFireId ScheduleFire) (x : Db) : Db :=
  mkDb (db_tasks x) (db_runs x) (db_steps x) (db_approvals x) (db_tools x) (db_artifacts
    x) (db_schedules x) v (db_delivery_policies x) (db_delivery_plans x) (db_deliveries x)
    (db_attempts x) (db_delegations x) (db_executions x) (db_node_executions x) (db_queue x)
    (db_run_events x) (db_run_seq x) (db_task_events x) (db_task_seq x) (db_agents x)
    (db_agent_revisions x) (db_task_agents x) (db_workflows x) (db_workflow_revisions x)
    (db_task_workflows x) (db_workflow_resolutions x) (db_skill_resolutions x)
    (db_skill_bindings x) (db_agent_resolutions x) (db_usage x) (db_feedback x) (db_skills
    x) (db_skill_revisions x) (db_task_skills x) (db_conversations x) (db_turns x)
    (db_memory_records x) (db_suites x) (db_cases x) (db_evaluation_runs x) (db_case_results
    x) (db_candidates x) (db_proposals x) (db_improvement_work x) (db_evidence x)
    (db_improvement_policies x) (db_promotions x) (db_rollbacks x).
Definition set_db_delivery_policies (v : gmap ScheduleId ScheduleDeliveryPolicy) (x : Db) : Db :=
  mkDb (db_tasks x) (db_runs x) (db_steps x) (db_approvals x) (db_tools x) (db_artifacts
    x) (db_schedules x) (db_fires x) v (db_delivery_plans x) (db_deliveries x) (db_attempts
    x) (db_delegations x) (db_executions x) (db_node_executions x) (db_queue x)
    (db_run_events x) (db_run_seq x) (db_task_events x) (db_task_seq x) (db_agents x)
    (db_agent_revisions x) (db_task_agents x) (db_workflows x) (db_workflow_revisions x)
    (db_task_workflows x) (db_workflow_resolutions x) (db_skill_resolutions x)
    (db_skill_bindings x) (db_agent_resolutions x) (db_usage x) (db_feedback x) (db_skills
    x) (db_skill_revisions x) (db_task_skills x) (db_conversations x) (db_turns x)
    (db_memory_records x) (db_suites x) (db_cases x) (db_evaluation_runs x) (db_case_results
    x) (db_candidates x) (db_proposals x) (db_improvement_work x) (db_evidence x)
    (db_improvement_policies x) (db_promotions x) (db_rollbacks x).
Definition set_db_delivery_plans (v : gmap ScheduleFireDeliveryPlanId ScheduleFireDeliveryPlan) (x : Db) : Db :=
  mkDb (db_tasks x) (db_runs x) (db_steps x) (db_approvals x) (db_tools x) (db_artifacts
    x) (db_schedules x) (db_fires x) (db_delivery_policies x) v (db_deliveries x)
    (db_attempts x) (db_delegations x) (db_executions x) (db_node_executions x) (db_queue x)
    (db_run_events x) (db_run_seq x) (db_task_events x) (db_task_seq x) (db_agents x)
    (db_agent_revisions x) (db_task_agents x) (db_workflows x) (db_workflow_revisions x)
    (db_task_workflows x) (db_workflow_resolutions x) (db_skill_resolutions x)
    (db_skill_bindings x) (db_agent_resolutions x) (db_usage x) (db_feedback x) (db_skills
    x) (db_skill_revisions x) (db_task_skills x) (db_conversations x) (db_turns x)
    (db_memory_records x) (db_suites x) (db_cases x) (db_evaluation_runs x) (db_case_results
    x) (db_candidates x) (db_proposals x) (db_improvement_work x) (db_evidence x)
    (db_improvement_policies x) (db_promotions x) (db_rollbacks x).
Definition set_db_deliveries (v : gmap DeliveryId OutboundDelivery) (x : Db) : Db :=
  mkDb (db_tasks x) (db_runs x) (db_steps x) (db_approvals x) (db_tools x) (db_artifacts
    x) (db_schedules x) (db_fires x) (db_delivery_policies x) (db_delivery_plans x) v
    (db_attempts x) (db_delegations x) (db_executions x) (db_node_executions x) (db_queue x)
    (db_run_events x) (db_run_seq x) (db_task_events x) (db_task_seq x) (db_agents x)
    (db_agent_revisions x) (db_task_agents x) (db_workflows x) (db_workflow_revisions x)
    (db_task_workflows x) (db_workflow_resolutions x) (db_skill_resolutions x)
    (db_skill_bindings x) (db_agent_resolutions x) (db_usage x) (db_feedback x) (db_skills
    x) (db_skill_revisions x) (db_task_skills x) (db_conversations x) (db_turns x)
    (db_memory_records x) (db_suites x) (db_cases x) (db_evaluation_runs x) (db_case_results
    x) (db_candidates x) (db_proposals x) (db_improvement_work x) (db_evidence x)
    (db_improvement_policies x) (db_promotions x) (db_rollbacks x).
Definition set_db_attempts (v : gmap DeliveryAttemptId DeliveryAttempt) (x : Db) : Db :=
  mkDb (db_tasks x) (db_runs x) (db_steps x) (db_approvals x) (db_tools x) (db_artifacts
    x) (db_schedules x) (db_fires x) (db_delivery_policies x) (db_delivery_plans x)
    (db_deliveries x) v (db_delegations x) (db_executions x) (db_node_executions x)
    (db_queue x) (db_run_events x) (db_run_seq x) (db_task_events x) (db_task_seq x)
    (db_agents x) (db_agent_revisions x) (db_task_agents x) (db_workflows x)
    (db_workflow_revisions x) (db_task_workflows x) (db_workflow_resolutions x)
    (db_skill_resolutions x) (db_skill_bindings x) (db_agent_resolutions x) (db_usage x)
    (db_feedback x) (db_skills x) (db_skill_revisions x) (db_task_skills x)
    (db_conversations x) (db_turns x) (db_memory_records x) (db_suites x) (db_cases x)
    (db_evaluation_runs x) (db_case_results x) (db_candidates x) (db_proposals x)
    (db_improvement_work x) (db_evidence x) (db_improvement_policies x) (db_promotions x)
    (db_rollbacks x).
Definition set_db_delegations (v : gmap DelegationRequestId DelegationRequest) (x : Db) : Db :=
  mkDb (db_tasks x) (db_runs x) (db_steps x) (db_approvals x) (db_tools x) (db_artifacts
    x) (db_schedules x) (db_fires x) (db_delivery_policies x) (db_delivery_plans x)
    (db_deliveries x) (db_attempts x) v (db_executions x) (db_node_executions x) (db_queue
    x) (db_run_events x) (db_run_seq x) (db_task_events x) (db_task_seq x) (db_agents x)
    (db_agent_revisions x) (db_task_agents x) (db_workflows x) (db_workflow_revisions x)
    (db_task_workflows x) (db_workflow_resolutions x) (db_skill_resolutions x)
    (db_skill_bindings x) (db_agent_resolutions x) (db_usage x) (db_feedback x) (db_skills
    x) (db_skill_revisions x) (db_task_skills x) (db_conversations x) (db_turns x)
    (db_memory_records x) (db_suites x) (db_cases x) (db_evaluation_runs x) (db_case_results
    x) (db_candidates x) (db_proposals x) (db_improvement_work x) (db_evidence x)
    (db_improvement_policies x) (db_promotions x) (db_rollbacks x).
Definition set_db_executions (v : gmap WorkflowExecutionId WorkflowExecution) (x : Db) : Db :=
  mkDb (db_tasks x) (db_runs x) (db_steps x) (db_approvals x) (db_tools x) (db_artifacts
    x) (db_schedules x) (db_fires x) (db_delivery_policies x) (db_delivery_plans x)
    (db_deliveries x) (db_attempts x) (db_delegations x) v (db_node_executions x) (db_queue
    x) (db_run_events x) (db_run_seq x) (db_task_events x) (db_task_seq x) (db_agents x)
    (db_agent_revisions x) (db_task_agents x) (db_workflows x) (db_workflow_revisions x)
    (db_task_workflows x) (db_workflow_resolutions x) (db_skill_resolutions x)
    (db_skill_bindings x) (db_agent_resolutions x) (db_usage x) (db_feedback x) (db_skills
    x) (db_skill_revisions x) (db_task_skills x) (db_conversations x) (db_turns x)
    (db_memory_records x) (db_suites x) (db_cases x) (db_evaluation_runs x) (db_case_results
    x) (db_candidates x) (db_proposals x) (db_improvement_work x) (db_evidence x)
    (db_improvement_policies x) (db_promotions x) (db_rollbacks x).
Definition set_db_node_executions (v : gmap WorkflowNodeExecutionId WorkflowNodeExecution) (x : Db) : Db :=
  mkDb (db_tasks x) (db_runs x) (db_steps x) (db_approvals x) (db_tools x) (db_artifacts
    x) (db_schedules x) (db_fires x) (db_delivery_policies x) (db_delivery_plans x)
    (db_deliveries x) (db_attempts x) (db_delegations x) (db_executions x) v (db_queue x)
    (db_run_events x) (db_run_seq x) (db_task_events x) (db_task_seq x) (db_agents x)
    (db_agent_revisions x) (db_task_agents x) (db_workflows x) (db_workflow_revisions x)
    (db_task_workflows x) (db_workflow_resolutions x) (db_skill_resolutions x)
    (db_skill_bindings x) (db_agent_resolutions x) (db_usage x) (db_feedback x) (db_skills
    x) (db_skill_revisions x) (db_task_skills x) (db_conversations x) (db_turns x)
    (db_memory_records x) (db_suites x) (db_cases x) (db_evaluation_runs x) (db_case_results
    x) (db_candidates x) (db_proposals x) (db_improvement_work x) (db_evidence x)
    (db_improvement_policies x) (db_promotions x) (db_rollbacks x).
Definition set_db_queue (v : gmap RunId RunWorkItem) (x : Db) : Db :=
  mkDb (db_tasks x) (db_runs x) (db_steps x) (db_approvals x) (db_tools x) (db_artifacts
    x) (db_schedules x) (db_fires x) (db_delivery_policies x) (db_delivery_plans x)
    (db_deliveries x) (db_attempts x) (db_delegations x) (db_executions x)
    (db_node_executions x) v (db_run_events x) (db_run_seq x) (db_task_events x)
    (db_task_seq x) (db_agents x) (db_agent_revisions x) (db_task_agents x) (db_workflows x)
    (db_workflow_revisions x) (db_task_workflows x) (db_workflow_resolutions x)
    (db_skill_resolutions x) (db_skill_bindings x) (db_agent_resolutions x) (db_usage x)
    (db_feedback x) (db_skills x) (db_skill_revisions x) (db_task_skills x)
    (db_conversations x) (db_turns x) (db_memory_records x) (db_suites x) (db_cases x)
    (db_evaluation_runs x) (db_case_results x) (db_candidates x) (db_proposals x)
    (db_improvement_work x) (db_evidence x) (db_improvement_policies x) (db_promotions x)
    (db_rollbacks x).
Definition set_db_run_events (v : list RunEvent) (x : Db) : Db :=
  mkDb (db_tasks x) (db_runs x) (db_steps x) (db_approvals x) (db_tools x) (db_artifacts
    x) (db_schedules x) (db_fires x) (db_delivery_policies x) (db_delivery_plans x)
    (db_deliveries x) (db_attempts x) (db_delegations x) (db_executions x)
    (db_node_executions x) (db_queue x) v (db_run_seq x) (db_task_events x) (db_task_seq x)
    (db_agents x) (db_agent_revisions x) (db_task_agents x) (db_workflows x)
    (db_workflow_revisions x) (db_task_workflows x) (db_workflow_resolutions x)
    (db_skill_resolutions x) (db_skill_bindings x) (db_agent_resolutions x) (db_usage x)
    (db_feedback x) (db_skills x) (db_skill_revisions x) (db_task_skills x)
    (db_conversations x) (db_turns x) (db_memory_records x) (db_suites x) (db_cases x)
    (db_evaluation_runs x) (db_case_results x) (db_candidates x) (db_proposals x)
    (db_improvement_work x) (db_evidence x) (db_improvement_policies x) (db_promotions x)
    (db_rollbacks x).
Definition set_db_run_seq (v : gmap RunId Z) (x : Db) : Db :=
  mkDb (db_tasks x) (db_runs x) (db_steps x) (db_approvals x) (db_tools x) (db_artifacts
    x) (db_schedules x) (db_fires x) (db_delivery_policies x) (db_delivery_plans x)
    (db_deliveries x) (db_attempts x) (db_delegations x) (db_executions x)
    (db_node_executions x) (db_queue x) (db_run_events x) v (db_task_events x) (db_task_seq
    x) (db_agents x) (db_agent_revisions x) (db_task_agents x) (db_workflows x)
    (db_workflow_revisions x) (db_task_workflows x) (db_workflow_resolutions x)
    (db_skill_resolutions x) (db_skill_bindings x) (db_agent_resolutions x) (db_usage x)
    (db_feedback x) (db_skills x) (db_skill_revisions x) (db_task_skills x)
    (db_conversations x) (db_turns x) (db_memory_records x) (db_suites x) (db_cases x)
    (db_evaluation_runs x) (db_case_results x) (db_candidates x) (db_proposals x)
    (db_improvement_work x) (db_evidence x) (db_improvement_policies x) (db_promotions x)
    (db_rollbacks x).
Definition set_db_task_events (v : list TaskEvent) (x : Db) : Db :=
  mkDb (db_tasks x) (db_runs x) (db_steps x) (db_approvals x) (db_tools x) (db_artifacts
    x) (db_schedules x) (db_fires x) (db_delivery_policies x) (db_delivery_plans x)
    (db_deliveries x) (db_attempts x) (db_delegations x) (db_executions x)
    (db_node_executions x) (db_queue x) (db_run_events x) (db_run_seq x) v (db_task_seq x)
    (db_agents x) (db_agent_revisions x) (db_task_agents x) (db_workflows x)
    (db_workflow_revisions x) (db_task_workflows x) (db_workflow_resolutions x)
    (db_skill_resolutions x) (db_skill_bindings x) (db_agent_resolutions x) (db_usage x)
    (db_feedback x) (db_skills x) (db_skill_revisions x) (db_task_skills x)
    (db_conversations x) (db_turns x) (db_memory_records x) (db_suites x) (db_cases x)
    (db_evaluation_runs x) (db_case_results x) (db_candidates x) (db_proposals x)
    (db_improvement_work x) (db_evidence x) (db_improvement_policies x) (db_promotions x)
    (db_rollbacks x).
Definition set_db_task_seq (v : gmap TaskId Z) (x : Db) : Db :=
  mkDb (db_tasks x) (db_runs x) (db_steps x) (db_approvals x) (db_tools x) (db_artifacts
    x) (db_schedules x) (db_fires x) (db_delivery_policies x) (db_delivery_plans x)
    (db_deliveries x) (db_attempts x) (db_delegations x) (db_executions x)
    (db_node_executions x) (db_queue x) (db_run_events x) (db_run_seq x) (db_task_events x)
    v (db_agents x) (db_agent_revisions x) (db_task_agents x) (db_workflows x)
    (db_workflow_revisions x) (db_task_workflows x) (db_workflow_resolutions x)
    (db_skill_resolutions x) (db_skill_bindings x) (db_agent_resolutions x) (db_usage x)
    (db_feedback x) (db_skills x) (db_skill_revisions x) (db_task_skills x)
    (db_conversations x) (db_turns x) (db_memory_records x) (db_suites x) (db_cases x)
    (db_evaluation_runs x) (db_case_results x) (db_candidates x) (db_proposals x)
    (db_improvement_work x) (db_evidence x) (db_improvement_policies x) (db_promotions x)
    (db_rollbacks x).
Definition set_db_agents (v : gmap AgentId Agent) (x : Db) : Db :=
  mkDb (db_tasks x) (db_runs x) (db_steps x) (db_approvals x) (db_tools x) (db_artifacts
    x) (db_schedules x) (db_fires x) (db_delivery_policies x) (db_delivery_plans x)
    (db_deliveries x) (db_attempts x) (db_delegations x) (db_executions x)
    (db_node_executions x) (db_queue x) (db_run_events x) (db_run_seq x) (db_task_events x)
    (db_task_seq x) v (db_agent_revisions x) (db_task_agents x) (db_workflows x)
    (db_workflow_revisions x) (db_task_workflows x) (db_workflow_resolutions x)
    (db_skill_resolutions x) (db_skill_bindings x) (db_agent_resolutions x) (db_usage x)
    (db_feedback x) (db_skills x) (db_skill_revisions x) (db_task_skills x)
    (db_conversations x) (db_turns x) (db_memory_records x) (db_suites x) (db_cases x)
    (db_evaluation_runs x) (db_case_results x) (db_candidates x) (db_proposals x)
    (db_improvement_work x) (db_evidence x) (db_improvement_policies x) (db_promotions x)
    (db_rollbacks x).
Definition set_db_agent_revisions (v : gmap AgentRevisionId AgentRevision) (x : Db) : Db :=
  mkDb (db_tasks x) (db_runs x) (db_steps x) (db_approvals x) (db_tools x) (db_artifacts
    x) (db_schedules x) (db_fires x) (db_delivery_policies x) (db_delivery_plans x)
    (db_deliveries x) (db_attempts x) (db_delegations x) (db_executions x)
    (db_node_executions x) (db_queue x) (db_run_events x) (db_run_seq x) (db_task_events x)
    (db_task_seq x) (db_agents x) v (db_task_agents x) (db_workflows x)
    (db_workflow_revisions x) (db_task_workflows x) (db_workflow_resolutions x)
    (db_skill_resolutions x) (db_skill_bindings x) (db_agent_resolutions x) (db_usage x)
    (db_feedback x) (db_skills x) (db_skill_revisions x) (db_task_skills x)
    (db_conversations x) (db_turns x) (db_memory_records x) (db_suites x) (db_cases x)
    (db_evaluation_runs x) (db_case_results x) (db_candidates x) (db_proposals x)
    (db_improvement_work x) (db_evidence x) (db_improvement_policies x) (db_promotions x)
    (db_rollbacks x).
Definition set_db_task_agents (v : gmap TaskId TaskAgentBinding) (x : Db) : Db :=
  mkDb (db_tasks x) (db_runs x) (db_steps x) (db_approvals x) (db_tools x) (db_artifacts
    x) (db_schedules x) (db_fires x) (db_delivery_policies x) (db_delivery_plans x)
    (db_deliveries x) (db_attempts x) (db_delegations x) (db_executions x)
    (db_node_executions x) (db_queue x) (db_run_events x) (db_run_seq x) (db_task_events x)
    (db_task_seq x) (db_agents x) (db_agent_revisions x) v (db_workflows x)
    (db_workflow_revisions x) (db_task_workflows x) (db_workflow_resolutions x)
    (db_skill_resolutions x) (db_skill_bindings x) (db_agent_resolutions x) (db_usage x)
    (db_feedback x) (db_skills x) (db_skill_revisions x) (db_task_skills x)
    (db_conversations x) (db_turns x) (db_memory_records x) (db_suites x) (db_cases x)
    (db_evaluation_runs x) (db_case_results x) (db_candidates x) (db_proposals x)
    (db_improvement_work x) (db_evidence x) (db_improvement_policies x) (db_promotions x)
    (db_rollbacks x).
Definition set_db_workflows (v : gmap WorkflowId Workflow) (x : Db) : Db :=
  mkDb (db_tasks x) (db_runs x) (db_steps x) (db_approvals x) (db_tools x) (db_artifacts
    x) (db_schedules x) (db_fires x) (db_delivery_policies x) (db_delivery_plans x)
    (db_deliveries x) (db_attempts x) (db_delegations x) (db_executions x)
    (db_node_executions x) (db_queue x) (db_run_events x) (db_run_seq x) (db_task_events x)
    (db_task_seq x) (db_agents x) (db_agent_revisions x) (db_task_agents x) v
    (db_workflow_revisions x) (db_task_workflows x) (db_workflow_resolutions x)
    (db_skill_resolutions x) (db_skill_bindings x) (db_agent_resolutions x) (db_usage x)
    (db_feedback x) (db_skills x) (db_skill_revisions x) (db_task_skills x)
    (db_conversations x) (db_turns x) (db_memory_records x) (db_suites x) (db_cases x)
    (db_evaluation_runs x) (db_case_results x) (db_candidates x) (db_proposals x)
    (db_improvement_work x) (db_evidence x) (db_improvement_policies x) (db_promotions x)
    (db_rollbacks x).
Definition set_db_workflow_revisions (v : gmap WorkflowRevisionId WorkflowRevision) (x : Db) : Db :=
  mkDb (db_tasks x) (db_runs x) (db_steps x) (db_approvals x) (db_tools x) (db_artifacts
    x) (db_schedules x) (db_fires x) (db_delivery_policies x) (db_delivery_plans x)
    (db_deliveries x) (db_attempts x) (db_delegations x) (db_executions x)
    (db_node_executions x) (db_queue x) (db_run_events x) (db_run_seq x) (db_task_events x)
    (db_task_seq x) (db_agents x) (db_agent_revisions x) (db_task_agents x) (db_workflows x)
    v (db_task_workflows x) (db_workflow_resolutions x) (db_skill_resolutions x)
    (db_skill_bindings x) (db_agent_resolutions x) (db_usage x) (db_feedback x) (db_skills
    x) (db_skill_revisions x) (db_task_skills x) (db_conversations x) (db_turns x)
    (db_memory_records x) (db_suites x) (db_cases x) (db_evaluation_runs x) (db_case_results
    x) (db_candidates x) (db_proposals x) (db_improvement_work x) (db_evidence x)
    (db_improvement_policies x) (db_promotions x) (db_rollbacks x).
Definition set_db_task_workflows (v : gmap TaskId TaskWorkflowBinding) (x : Db) : Db :=
  mkDb (db_tasks x) (db_runs x) (db_steps x) (db_approvals x) (db_tools x) (db_artifacts
    x) (db_schedules x) (db_fires x) (db_delivery_policies x) (db_delivery_plans x)
    (db_deliveries x) (db_attempts x) (db_delegations x) (db_executions x)
    (db_node_executions x) (db_queue x) (db_run_events x) (db_run_seq x) (db_task_events x)
    (db_task_seq x) (db_agents x) (db_agent_revisions x) (db_task_agents x) (db_workflows x)
    (db_workflow_revisions x) v (db_workflow_resolutions x) (db_skill_resolutions x)
    (db_skill_bindings x) (db_agent_resolutions x) (db_usage x) (db_feedback x) (db_skills
    x) (db_skill_revisions x) (db_task_skills x) (db_conversations x) (db_turns x)
    (db_memory_records x) (db_suites x) (db_cases x) (db_evaluation_runs x) (db_case_results
    x) (db_candidates x) (db_proposals x) (db_improvement_work x) (db_evidence x)
    (db_improvement_policies x) (db_promotions x) (db_rollbacks x).
Definition set_db_workflow_resolutions (v : gmap RunId RunWorkflowResolution) (x : Db) : Db :=
  mkDb (db_tasks x) (db_runs x) (db_steps x) (db_approvals x) (db_tools x) (db_artifacts
    x) (db_schedules x) (db_fires x) (db_delivery_policies x) (db_delivery_plans x)
    (db_deliveries x) (db_attempts x) (db_delegations x) (db_executions x)
    (db_node_executions x) (db_queue x) (db_run_events x) (db_run_seq x) (db_task_events x)
    (db_task_seq x) (db_agents x) (db_agent_revisions x) (db_task_agents x) (db_workflows x)
    (db_workflow_revisions x) (db_task_workflows x) v (db_skill_resolutions x)
    (db_skill_bindings x) (db_agent_resolutions x) (db_usage x) (db_feedback x) (db_skills
    x) (db_skill_revisions x) (db_task_skills x) (db_conversations x) (db_turns x)
    (db_memory_records x) (db_suites x) (db_cases x) (db_evaluation_runs x) (db_case_results
    x) (db_candidates x) (db_proposals x) (db_improvement_work x) (db_evidence x)
    (db_improvement_policies x) (db_promotions x) (db_rollbacks x).
Definition set_db_skill_resolutions (v : gmap RunId RunSkillResolution) (x : Db) : Db :=
  mkDb (db_tasks x) (db_runs x) (db_steps x) (db_approvals x) (db_tools x) (db_artifacts
    x) (db_schedules x) (db_fires x) (db_delivery_policies x) (db_delivery_plans x)
    (db_deliveries x) (db_attempts x) (db_delegations x) (db_executions x)
    (db_node_executions x) (db_queue x) (db_run_events x) (db_run_seq x) (db_task_events x)
    (db_task_seq x) (db_agents x) (db_agent_revisions x) (db_task_agents x) (db_workflows x)
    (db_workflow_revisions x) (db_task_workflows x) (db_workflow_resolutions x) v
    (db_skill_bindings x) (db_agent_resolutions x) (db_usage x) (db_feedback x) (db_skills
    x) (db_skill_revisions x) (db_task_skills x) (db_conversations x) (db_turns x)
    (db_memory_records x) (db_suites x) (db_cases x) (db_evaluation_runs x) (db_case_results
    x) (db_candidates x) (db_proposals x) (db_improvement_work x) (db_evidence x)
    (db_improvement_policies x) (db_promotions x) (db_rollbacks x).
Definition set_db_skill_bindings (v : list RunSkillBinding) (x : Db) : Db :=
  mkDb (db_tasks x) (db_runs x) (db_steps x) (db_approvals x) (db_tools x) (db_artifacts
    x) (db_schedules x) (db_fires x) (db_delivery_policies x) (db_delivery_plans x)
    (db_deliveries x) (db_attempts x) (db_delegations x) (db_executions x)
    (db_node_executions x) (db_queue x) (db_run_events x) (db_run_seq x) (db_task_events x)
    (db_task_seq x) (db_agents x) (db_agent_revisions x) (db_task_agents x) (db_workflows x)
    (db_workflow_revisions x) (db_task_workflows x) (db_workflow_resolutions x)
    (db_skill_resolutions x) v (db_agent_resolutions x) (db_usage x) (db_feedback x)
    (db_skills x) (db_skill_revisions x) (db_task_skills x) (db_conversations x) (db_turns
    x) (db_memory_records x) (db_suites x) (db_cases x) (db_evaluation_runs x)
    (db_case_results x) (db_candidates x) (db_proposals x) (db_improvement_work x)
    (db_evidence x) (db_improvement_policies x) (db_promotions x) (db_rollbacks x).
Definition set_db_agent_resolutions (v : gmap RunId RunAgentResolution) (x : Db) : Db :=
  mkDb (db_tasks x) (db_runs x) (db_steps x) (db_approvals x) (db_tools x) (db_artifacts
    x) (db_schedules x) (db_fires x) (db_delivery_policies x) (db_delivery_plans x)
    (db_deliveries x) (db_attempts x) (db_delegations x) (db_executions x)
    (db_node_executions x) (db_queue x) (db_run_events x) (db_run_seq x) (db_task_events x)
    (db_task_seq x) (db_agents x) (db_agent_revisions x) (db_task_agents x) (db_workflows x)
    (db_workflow_revisions x) (db_task_workflows x) (db_workflow_resolutions x)
    (db_skill_resolutions x) (db_skill_bindings x) v (db_usage x) (db_feedback x) (db_skills
    x) (db_skill_revisions x) (db_task_skills x) (db_conversations x) (db_turns x)
    (db_memory_records x) (db_suites x) (db_cases x) (db_evaluation_runs x) (db_case_results
    x) (db_candidates x) (db_proposals x) (db_improvement_work x) (db_evidence x)
    (db_improvement_policies x) (db_promotions x) (db_rollbacks x).
Definition set_db_usage (v : gmap (RunId * SkillId) SkillUsageRecord) (x : Db) : Db :=
  mkDb (db_tasks x) (db_runs x) (db_steps x) (db_approvals x) (db_tools x) (db_artifacts
    x) (db_schedules x) (db_fires x) (db_delivery_policies x) (db_delivery_plans x)
    (db_deliveries x) (db_attempts x) (db_delegations x) (db_executions x)
    (db_node_executions x) (db_queue x) (db_run_events x) (db_run_seq x) (db_task_events x)
    (db_task_seq x) (db_agents x) (db_agent_revisions x) (db_task_agents x) (db_workflows x)
    (db_workflow_revisions x) (db_task_workflows x) (db_workflow_resolutions x)
    (db_skill_resolutions x) (db_skill_bindings x) (db_agent_resolutions x) v (db_feedback
    x) (db_skills x) (db_skill_revisions x) (db_task_skills x) (db_conversations x)
    (db_turns x) (db_memory_records x) (db_suites x) (db_cases x) (db_evaluation_runs x)
    (db_case_results x) (db_candidates x) (db_proposals x) (db_improvement_work x)
    (db_evidence x) (db_improvement_policies x) (db_promotions x) (db_rollbacks x).
Definition set_db_feedback (v : gmap SkillRunFeedbackId SkillRunFeedback) (x : Db) : Db :=
  mkDb (db_tasks x) (db_runs x) (db_steps x) (db_approvals x) (db_tools x) (db_artifacts
    x) (db_schedules x) (db_fires x) (db_delivery_policies x) (db_delivery_plans x)
    (db_deliveries x) (db_attempts x) (db_delegations x) (db_executions x)
    (db_node_executions x) (db_queue x) (db_run_events x) (db_run_seq x) (db_task_events x)
    (db_task_seq x) (db_agents x) (db_agent_revisions x) (db_task_agents x) (db_workflows x)
    (db_workflow_revisions x) (db_task_workflows x) (db_workflow_resolutions x)
    (db_skill_resolutions x) (db_skill_bindings x) (db_agent_resolutions x) (db_usage x) v
    (db_skills x) (db_skill_revisions x) (db_task_skills x) (db_conversations x) (db_turns
    x) (db_memory_records x) (db_suites x) (db_cases x) (db_evaluation_runs x)
    (db_case_results x) (db_candidates x) (db_proposals x) (db_improvement_work x)
    (db_evidence x) (db_improvement_policies x) (db_promotions x) (db_rollbacks x).
Definition set_db_skills (v : gmap SkillId Skill) (x : Db) : Db :=
  mkDb (db_tasks x) (db_runs x) (db_steps x) (db_approvals x) (db_tools x) (db_artifacts
    x) (db_schedules x) (db_fires x) (db_delivery_policies x) (db_delivery_plans x)
    (db_deliveries x) (db_attempts x) (db_delegations x) (db_executions x)
    (db_node_executions x) (db_queue x) (db_run_events x) (db_run_seq x) (db_task_events x)
    (db_task_seq x) (db_agents x) (db_agent_revisions x) (db_task_agents x) (db_workflows x)
    (db_workflow_revisions x) (db_task_workflows x) (db_workflow_resolutions x)
    (db_skill_resolutions x) (db_skill_bindings x) (db_agent_resolutions x) (db_usage x)
    (db_feedback x) v (db_skill_revisions x) (db_task_skills x) (db_conversations x)
    (db_turns x) (db_memory_records x) (db_suites x) (db_cases x) (db_evaluation_runs x)
    (db_case_results x) (db_candidates x) (db_proposals x) (db_improvement_work x)
    (db_evidence x) (db_improvement_policies x) (db_promotions x) (db_rollbacks x).
Definition set_db_skill_revisions (v : gmap SkillRevisionId SkillRevision) (x : Db) : Db :=
  mkDb (db_tasks x) (db_runs x) (db_steps x) (db_approvals x) (db_tools x) (db_artifacts
    x) (db_schedules x) (db_fires x) (db_delivery_policies x) (db_delivery_plans x)
    (db_deliveries x) (db_attempts x) (db_delegations x) (db_executions x)
    (db_node_executions x) (db_queue x) (db_run_events x) (db_run_seq x) (db_task_events x)
    (db_task_seq x) (db_agents x) (db_agent_revisions x) (db_task_agents x) (db_workflows x)
    (db_workflow_revisions x) (db_task_workflows x) (db_workflow_resolutions x)
    (db_skill_resolutions x) (db_skill_bindings x) (db_agent_resolutions x) (db_usage x)
    (db_feedback x) (db_skills x) v (db_task_skills x) (db_conversations x) (db_turns x)
    (db_memory_records x) (db_suites x) (db_cases x) (db_evaluation_runs x) (db_case_results
    x) (db_candidates x) (db_proposals x) (db_improvement_work x) (db_evidence x)
    (db_improvement_policies x) (db_promotions x) (db_rollbacks x).
Definition set_db_task_skills (v : list TaskSkillBinding) (x : Db) : Db :=
  mkDb (db_tasks x) (db_runs x) (db_steps x) (db_approvals x) (db_tools x) (db_artifacts
    x) (db_schedules x) (db_fires x) (db_delivery_policies x) (db_delivery_plans x)
    (db_deliveries x) (db_attempts x) (db_delegations x) (db_executions x)
    (db_node_executions x) (db_queue x) (db_run_events x) (db_run_seq x) (db_task_events x)
    (db_task_seq x) (db_agents x) (db_agent_revisions x) (db_task_agents x) (db_workflows x)
    (db_workflow_revisions x) (db_task_workflows x) (db_workflow_resolutions x)
    (db_skill_resolutions x) (db_skill_bindings x) (db_agent_resolutions x) (db_usage x)
    (db_feedback x) (db_skills x) (db_skill_revisions x) v (db_conversations x) (db_turns x)
    (db_memory_records x) (db_suites x) (db_cases x) (db_evaluation_runs x) (db_case_results
    x) (db_candidates x) (db_proposals x) (db_improvement_work x) (db_evidence x)
    (db_improvement_policies x) (db_promotions x) (db_rollbacks x).
Definition set_db_conversations (v : gmap ConversationId Conversation) (x : Db) : Db :=
  mkDb (db_tasks x) (db_runs x) (db_steps x) (db_approvals x) (db_tools x) (db_artifacts
    x) (db_schedules x) (db_fires x) (db_delivery_policies x) (db_delivery_plans x)
    (db_deliveries x) (db_attempts x) (db_delegations x) (db_executions x)
    (db_node_executions x) (db_queue x) (db_run_events x) (db_run_seq x) (db_task_events x)
    (db_task_seq x) (db_agents x) (db_agent_revisions x) (db_task_agents x) (db_workflows x)
    (db_workflow_revisions x) (db_task_workflows x) (db_workflow_resolutions x)
    (db_skill_resolutions x) (db_skill_bindings x) (db_agent_resolutions x) (db_usage x)
    (db_feedback x) (db_skills x) (db_skill_revisions x) (db_task_skills x) v (db_turns x)
    (db_memory_records x) (db_suites x) (db_cases x) (db_evaluation_runs x) (db_case_results
    x) (db_candidates x) (db_proposals x) (db_improvement_work x) (db_evidence x)
    (db_improvement_policies x) (db_promotions x) (db_rollbacks x).
Definition set_db_turns (v : gmap ConversationTurnId ConversationTurn) (x : Db) : Db :=
  mkDb (db_tasks x) (db_runs x) (db_steps x) (db_approvals x) (db_tools x) (db_artifacts
    x) (db_schedules x) (db_fires x) (db_delivery_policies x) (db_delivery_plans x)
    (db_deliveries x) (db_attempts x) (db_delegations x) (db_executions x)
    (db_node_executions x) (db_queue x) (db_run_events x) (db_run_seq x) (db_task_events x)
    (db_task_seq x) (db_agents x) (db_agent_revisions x) (db_task_agents x) (db_workflows x)
    (db_workflow_revisions x) (db_task_workflows x) (db_workflow_resolutions x)
    (db_skill_resolutions x) (db_skill_bindings x) (db_agent_resolutions x) (db_usage x)
    (db_feedback x) (db_skills x) (db_skill_revisions x) (db_task_skills x)
    (db_conversations x) v (db_memory_records x) (db_suites x) (db_cases x)
    (db_evaluation_runs x) (db_case_results x) (db_candidates x) (db_proposals x)
    (db_improvement_work x) (db_evidence x) (db_improvement_policies x) (db_promotions x)
    (db_rollbacks x).
Definition set_db_memory_records (v : gmap MemoryRetrievalRecordId MemoryRetrievalRecord) (x : Db) : Db :=
  mkDb (db_tasks x) (db_runs x) (db_steps x) (db_approvals x) (db_tools x) (db_artifacts
    x) (db_schedules x) (db_fires x) (db_delivery_policies x) (db_delivery_plans x)
    (db_deliveries x) (db_attempts x) (db_delegations x) (db_executions x)
    (db_node_executions x) (db_queue x) (db_run_events x) (db_run_seq x) (db_task_events x)
    (db_task_seq x) (db_agents x) (db_agent_revisions x) (db_task_agents x) (db_workflows x)
    (db_workflow_revisions x) (db_task_workflows x) (db_workflow_resolutions x)
    (db_skill_resolutions x) (db_skill_bindings x) (db_agent_resolutions x) (db_usage x)
    (db_feedback x) (db_skills x) (db_skill_revisions x) (db_task_skills x)
    (db_conversations x) (db_turns x) v (db_suites x) (db_cases x) (db_evaluation_runs x)
    (db_case_results x) (db_candidates x) (db_proposals x) (db_improvement_work x)
    (db_evidence x) (db_improvement_policies x) (db_promotions x) (db_rollbacks x).
Definition set_db_suites (v : gmap SkillEvaluationSuiteId SkillEvaluationSuite) (x : Db) : Db :=
  mkDb (db_tasks x) (db_runs x) (db_steps x) (db_approvals x) (db_tools x) (db_artifacts
    x) (db_schedules x) (db_fires x) (db_delivery_policies x) (db_delivery_plans x)
    (db_deliveries x) (db_attempts x) (db_delegations x) (db_executions x)
    (db_node_executions x) (db_queue x) (db_run_events x) (db_run_seq x) (db_task_events x)
    (db_task_seq x) (db_agents x) (db_agent_revisions x) (db_task_agents x) (db_workflows x)
    (db_workflow_revisions x) (db_task_workflows x) (db_workflow_resolutions x)
    (db_skill_resolutions x) (db_skill_bindings x) (db_agent_resolutions x) (db_usage x)
    (db_feedback x) (db_skills x) (db_skill_revisions x) (db_task_skills x)
    (db_conversations x) (db_turns x) (db_memory_records x) v (db_cases x)
    (db_evaluation_runs x) (db_case_results x) (db_candidates x) (db_proposals x)
    (db_improvement_work x) (db_evidence x) (db_improvement_policies x) (db_promotions x)
    (db_rollbacks x).
Definition set_db_cases (v : gmap SkillEvaluationCaseId SkillEvaluationCase) (x : Db) : Db :=
  mkDb (db_tasks x) (db_runs x) (db_steps x) (db_approvals x) (db_tools x) (db_artifacts
    x) (db_schedules x) (db_fires x) (db_delivery_policies x) (db_delivery_plans x)
    (db_deliveries x) (db_attempts x) (db_delegations x) (db_executions x)
    (db_node_executions x) (db_queue x) (db_run_events x) (db_run_seq x) (db_task_events x)
    (db_task_seq x) (db_agents x) (db_agent_revisions x) (db_task_agents x) (db_workflows x)
    (db_workflow_revisions x) (db_task_workflows x) (db_workflow_resolutions x)
    (db_skill_resolutions x) (db_skill_bindings x) (db_agent_resolutions x) (db_usage x)
    (db_feedback x) (db_skills x) (db_skill_revisions x) (db_task_skills x)
    (db_conversations x) (db_turns x) (db_memory_records x) (db_suites x) v
    (db_evaluation_runs x) (db_case_results x) (db_candidates x) (db_proposals x)
    (db_improvement_work x) (db_evidence x) (db_improvement_policies x) (db_promotions x)
    (db_rollbacks x).
Definition set_db_evaluation_runs (v : gmap SkillEvaluationRunId SkillEvaluationRun) (x : Db) : Db :=
  mkDb (db_tasks x) (db_runs x) (db_steps x) (db_approvals x) (db_tools x) (db_artifacts
    x) (db_schedules x) (db_fires x) (db_delivery_policies x) (db_delivery_plans x)
    (db_deliveries x) (db_attempts x) (db_delegations x) (db_executions x)
    (db_node_executions x) (db_queue x) (db_run_events x) (db_run_seq x) (db_task_events x)
    (db_task_seq x) (db_agents x) (db_agent_revisions x) (db_task_agents x) (db_workflows x)
    (db_workflow_revisions x) (db_task_workflows x) (db_workflow_resolutions x)
    (db_skill_resolutions x) (db_skill_bindings x) (db_agent_resolutions x) (db_usage x)
    (db_feedback x) (db_skills x) (db_skill_revisions x) (db_task_skills x)
    (db_conversations x) (db_turns x) (db_memory_records x) (db_suites x) (db_cases x) v
    (db_case_results x) (db_candidates x) (db_proposals x) (db_improvement_work x)
    (db_evidence x) (db_improvement_policies x) (db_promotions x) (db_rollbacks x).
Definition set_db_case_results (v : list SkillEvaluationCaseResult) (x : Db) : Db :=
  mkDb (db_tasks x) (db_runs x) (db_steps x) (db_approvals x) (db_tools x) (db_artifacts
    x) (db_schedules x) (db_fires x) (db_delivery_policies x) (db_delivery_plans x)
    (db_deliveries x) (db_attempts x) (db_delegations x) (db_executions x)
    (db_node_executions x) (db_queue x) (db_run_events x) (db_run_seq x) (db_task_events x)
    (db_task_seq x) (db_agents x) (db_agent_revisions x) (db_task_agents x) (db_workflows x)
    (db_workflow_revisions x) (db_task_workflows x) (db_workflow_resolutions x)
    (db_skill_resolutions x) (db_skill_bindings x) (db_agent_resolutions x) (db_usage x)
    (db_feedback x) (db_skills x) (db_skill_revisions x) (db_task_skills x)
    (db_conversations x) (db_turns x) (db_memory_records x) (db_suites x) (db_cases x)
    (db_evaluation_runs x) v (db_candidates x) (db_proposals x) (db_improvement_work x)
    (db_evidence x) (db_improvement_policies x) (db_promotions x) (db_rollbacks x).
Definition set_db_candidates (v : gmap SkillCandidateEvaluationId SkillCandidateEvaluation) (x : Db) : Db :=
  mkDb (db_tasks x) (db_runs x) (db_steps x) (db_approvals x) (db_tools x) (db_artifacts
    x) (db_schedules x) (db_fires x) (db_delivery_policies x) (db_delivery_plans x)
    (db_deliveries x) (db_attempts x) (db_delegations x) (db_executions x)
    (db_node_executions x) (db_queue x) (db_run_events x) (db_run_seq x) (db_task_events x)
    (db_task_seq x) (db_agents x) (db_agent_revisions x) (db_task_agents x) (db_workflows x)
    (db_workflow_revisions x) (db_task_workflows x) (db_workflow_resolutions x)
    (db_skill_resolutions x) (db_skill_bindings x) (db_agent_resolutions x) (db_usage x)
    (db_feedback x) (db_skills x) (db_skill_revisions x) (db_task_skills x)
    (db_conversations x) (db_turns x) (db_memory_records x) (db_suites x) (db_cases x)
    (db_evaluation_runs x) (db_case_results x) v (db_proposals x) (db_improvement_work x)
    (db_evidence x) (db_improvement_policies x) (db_promotions x) (db_rollbacks x).
Definition set_db_proposals (v : gmap SkillImprovementProposalId SkillImprovementProposal) (x : Db) : Db :=
  mkDb (db_tasks x) (db_runs x) (db_steps x) (db_approvals x) (db_tools x) (db_artifacts
    x) (db_schedules x) (db_fires x) (db_delivery_policies x) (db_delivery_plans x)
    (db_deliveries x) (db_attempts x) (db_delegations x) (db_executions x)
    (db_node_executions x) (db_queue x) (db_run_events x) (db_run_seq x) (db_task_events x)
    (db_task_seq x) (db_agents x) (db_agent_revisions x) (db_task_agents x) (db_workflows x)
    (db_workflow_revisions x) (db_task_workflows x) (db_workflow_resolutions x)
    (db_skill_resolutions x) (db_skill_bindings x) (db_agent_resolutions x) (db_usage x)
    (db_feedback x) (db_skills x) (db_skill_revisions x) (db_task_skills x)
    (db_conversations x) (db_turns x) (db_memory_records x) (db_suites x) (db_cases x)
    (db_evaluation_runs x) (db_case_results x) (db_candidates x) v (db_improvement_work x)
    (db_evidence x) (db_improvement_policies x) (db_promotions x) (db_rollbacks x).
Definition set_db_improvement_work (v : gmap SkillImprovementWorkId SkillImprovementWork) (x : Db) : Db :=
  mkDb (db_tasks x) (db_runs x) (db_steps x) (db_approvals x) (db_tools x) (db_artifacts
    x) (db_schedules x) (db_fires x) (db_delivery_policies x) (db_delivery_plans x)
    (db_deliveries x) (db_attempts x) (db_delegations x) (db_executions x)
    (db_node_executions x) (db_queue x) (db_run_events x) (db_run_seq x) (db_task_events x)
    (db_task_seq x) (db_agents x) (db_agent_revisions x) (db_task_agents x) (db_workflows x)
    (db_workflow_revisions x) (db_task_workflows x) (db_workflow_resolutions x)
    (db_skill_resolutions x) (db_skill_bindings x) (db_agent_resolutions x) (db_usage x)
    (db_feedback x) (db_skills x) (db_skill_revisions x) (db_task_skills x)
    (db_conversations x) (db_turns x) (db_memory_records x) (db_suites x) (db_cases x)
    (db_evaluation_runs x) (db_case_results x) (db_candidates x) (db_proposals x) v
    (db_evidence x) (db_improvement_policies x) (db_promotions x) (db_rollbacks x).
Definition set_db_evidence (v : gmap SkillEvidenceSnapshotId SkillEvidenceSnapshot) (x : Db) : Db :=
  mkDb (db_tasks x) (db_runs x) (db_steps x) (db_approvals x) (db_tools x) (db_artifacts
    x) (db_schedules x) (db_fires x) (db_delivery_policies x) (db_delivery_plans x)
    (db_deliveries x) (db_attempts x) (db_delegations x) (db_executions x)
    (db_node_executions x) (db_queue x) (db_run_events x) (db_run_seq x) (db_task_events x)
    (db_task_seq x) (db_agents x) (db_agent_revisions x) (db_task_agents x) (db_workflows x)
    (db_workflow_revisions x) (db_task_workflows x) (db_workflow_resolutions x)
    (db_skill_resolutions x) (db_skill_bindings x) (db_agent_resolutions x) (db_usage x)
    (db_feedback x) (db_skills x) (db_skill_revisions x) (db_task_skills x)
    (db_conversations x) (db_turns x) (db_memory_records x) (db_suites x) (db_cases x)
    (db_evaluation_runs x) (db_case_results x) (db_candidates x) (db_proposals x)
    (db_improvement_work x) v (db_improvement_policies x) (db_promotions x) (db_rollbacks x).
Definition set_db_improvement_policies (v : gmap SkillId SkillImprovementPolicy) (x : Db) : Db :=
  mkDb (db_tasks x) (db_runs x) (db_steps x) (db_approvals x) (db_tools x) (db_artifacts
    x) (db_schedules x) (db_fires x) (db_delivery_policies x) (db_delivery_plans x)
    (db_deliveries x) (db_attempts x) (db_delegations x) (db_executions x)
    (db_node_executions x) (db_queue x) (db_run_events x) (db_run_seq x) (db_task_events x)
    (db_task_seq x) (db_agents x) (db_agent_revisions x) (db_task_agents x) (db_workflows x)
    (db_workflow_revisions x) (db_task_workflows x) (db_workflow_resolutions x)
    (db_skill_resolutions x) (db_skill_bindings x) (db_agent_resolutions x) (db_usage x)
    (db_feedback x) (db_skills x) (db_skill_revisions x) (db_task_skills x)
    (db_conversations x) (db_turns x) (db_memory_records x) (db_suites x) (db_cases x)
    (db_evaluation_runs x) (db_case_results x) (db_candidates x) (db_proposals x)
    (db_improvement_work x) (db_evidence x) v (db_promotions x) (db_rollbacks x).
Definition set_db_promotions (v : gmap SkillPromotionRequestId SkillPromotionRequest) (x : Db) : Db :=
  mkDb (db_tasks x) (db_runs x) (db_steps x) (db_approvals x) (db_tools x) (db_artifacts
    x) (db_schedules x) (db_fires x) (db_delivery_policies x) (db_delivery_plans x)
    (db_deliveries x) (db_attempts x) (db_delegations x) (db_executions x)
    (db_node_executions x) (db_queue x) (db_run_events x) (db_run_seq x) (db_task_events x)
    (db_task_seq x) (db_agents x) (db_agent_revisions x) (db_task_agents x) (db_workflows x)
    (db_workflow_revisions x) (db_task_workflows x) (db_workflow_resolutions x)
    (db_skill_resolutions x) (db_skill_bindings x) (db_agent_resolutions x) (db_usage x)
    (db_feedback x) (db_skills x) (db_skill_revisions x) (db_task_skills x)
    (db_conversations x) (db_turns x) (db_memory_records x) (db_suites x) (db_cases x)
    (db_evaluation_runs x) (db_case_results x) (db_candidates x) (db_proposals x)
    (db_improvement_work x) (db_evidence x) (db_improvement_policies x) v (db_rollbacks x).
Definition set_db_rollbacks (v : gmap SkillRollbackRequestId SkillRollbackRequest) (x : Db) : Db :=
  mkDb (db_tasks x) (db_runs x) (db_steps x) (db_approvals x) (db_tools x) (db_artifacts
    x) (db_schedules x) (db_fires x) (db_delivery_policies x) (db_delivery_plans x)
    (db_deliveries x) (db_attempts x) (db_delegations x) (db_executions x)
    (db_node_executions x) (db_queue x) (db_run_events x) (db_run_seq x) (db_task_events x)
    (db_task_seq x) (db_agents x) (db_agent_revisions x) (db_task_agents x) (db_workflows x)
    (db_workflow_revisions x) (db_task_workflows x) (db_workflow_resolutions x)
    (db_skill_resolutions x) (db_skill_bindings x) (db_agent_resolutions x) (db_usage x)
    (db_feedback x) (db_skills x) (db_skill_revisions x) (db_task_skills x)
    (db_conversations x) (db_turns x) (db_memory_records x) (db_suites x) (db_cases x)
    (db_evaluation_runs x) (db_case_results x) (db_candidates x) (db_proposals x)
    (db_improvement_work x) (db_evidence x) (db_improvement_policies x) (db_promotions x) v.

(** The database of a new installation *)
Definition empty_db : Db :=
  mkDb ∅ ∅ ∅ ∅ ∅ ∅ ∅ ∅ ∅ ∅ ∅ ∅ ∅ ∅ ∅ ∅ [] ∅ [] ∅ ∅ ∅ ∅ ∅ ∅ ∅ ∅ ∅ [] ∅ ∅ ∅ ∅ ∅ [] ∅ ∅ ∅ ∅ ∅ ∅ [] ∅ ∅ ∅ ∅ ∅ ∅ ∅.
