(* ===== verification/Codec.v ===== *)
(** * Columns

    What the row mappers of [src/friday/infrastructure/persistence/mappers.py]
    share: reading identifiers, enumerations, timestamps, failures and tool
    provenance back from columns.  The database driver is the class [Driver]:
    SQLite returns a timestamp without its time zone, PostgreSQL with it. *)

From S2P Require Import Prelude Values RunEntity TaskEntity StepEntity ToolEntity ApprovalEntity.
From S2P Require Import EventEntity ScheduleEntity ScheduleDelivery DelegationEntity AgentEntity.
From S2P Require Import WorkflowEntity WorkflowExecutionEntity SkillEntity ConversationEntity Tables.

Open Scope Z_scope.

(** A sequence of column reads *)
Notation "x <~ e ;; k" := (res_bind e (fun x => k))
  (at level 100, e at next level, right associativity) : py_scope.

(** ** Identifiers

    [uuid.UUID(value)]: the prefixes [urn:] and [uuid:] are erased wherever they
    occur, then braces at both ends, then hyphens; 32 characters that [int(_,
    16)] reads must remain.  (Decimal digits outside ASCII, which [int] also
    reads, are left out.) *)
Fixpoint erase (pat : str) (skip : nat) (s : str) : str :=
  match s with
  | [] => []
  | c :: s' =>
      match skip with
      | S k => erase pat k s'
      | O => if bool_decide (take (length pat) s = pat) then erase pat (length pat - 1) s'
             else c :: erase pat 0 s'
      end
  end.
Definition is_brace (c : Z) : bool := (c =? 123) || (c =? 125).
Fixpoint drop_braces (s : str) : str :=
  match s with
  | c :: s' => if is_brace c then drop_braces s' else s
  | [] => []
  end.
Definition is_hex (c : Z) : bool := is_hex_digit c || ((65 <=? c) && (c <=? 70)).
(** Digits, single underscores between them; [d]: the last character was a digit *)
Fixpoint hex_digits (d : bool) (s : str) : bool :=
  match s with
  | [] => d
  | c :: s' => if is_hex c then hex_digits true s' else (c =? 95) && d && hex_digits false s'
  end.
(** [int(s, 16)] succeeds: a sign and the prefix [0x] are allowed. *)
Definition int16_ok (s : str) : bool :=
  let s := strip s in
  let s := match s with c :: s' => if (c =? 43) || (c =? 45) then s' else s | [] => [] end in
  hex_digits false s ||
  match s with
  | 48 :: x :: s' => ((x =? 120) || (x =? 88)) &&
      (hex_digits false s' || match s' with 95 :: s'' => hex_digits false s'' | _ => false end)
  | _ => false
  end.
Definition uuid_ok (s : str) : bool :=
  let hex := erase (u "-") 0 (reverse (drop_braces (reverse (drop_braces
               (erase (u "uuid:") 0 (erase (u "urn:") 0 s)))))) in
  (len hex =? 32) && int16_ok hex.

(** [SomeId.parse] *)
Definition id_parse {k} (s : str) : res (Id k) :=
  if empty_str s then Raise (DomainValidationError "identifier must not be empty")
  else if uuid_ok s then Ok (mkId s)
  else Raise (DomainValidationError "identifier must be a canonical UUID string").
(** [SomeId.parse(c) if c else None] *)
Definition opt_id_parse {k} (c : option str) : res (option (Id k)) :=
  match c with
  | None | Some [] => Ok None
  | Some s => i <~ id_parse s ;; Ok (Some i)
  end.

(** An identifier object: its text was accepted when it was made. *)
Definition id_ok {k} (i : Id k) : Prop := uuid_ok (value i) = true.
Definition opt_id_ok {k} (o : option (Id k)) : Prop := forall i, o = Some i -> id_ok i.

Lemma uuid_ok_nonempty s : uuid_ok s = true -> empty_str s = false.
Proof. by destruct s. Qed.
Lemma id_parse_ok {k} (i : Id k) : id_ok i -> id_parse (value i) = Ok i.
Proof. unfold id_ok, id_parse. intros H. rewrite (uuid_ok_nonempty _ H), H. by destruct i. Qed.
Lemma opt_id_parse_ok {k} (o : option (Id k)) : opt_id_ok o -> opt_id_parse (value <$> o) = Ok o.
Proof.
  destruct o as [i|]; [|done]. intros H. specialize (H i eq_refl). cbn.
  unfold opt_id_parse. destruct (value i) eqn:E; [by apply uuid_ok_nonempty in H; rewrite E in H|].
  rewrite <- E, id_parse_ok by done. done.
Qed.

Example uuid_ok_canonical :
  uuid_ok (u "123e4567-e89b-42d3-a456-426614174000") = true /\
  uuid_ok (u "{123E4567E89B42D3A456426614174000}") = true /\
  uuid_ok (u "urn:uuid:123e4567-e89b-42d3-a456-426614174000") = true /\
  uuid_ok (u "123e4567-e89b-42d3-a456-42661417400") = false /\ uuid_ok (u "task-1") = false.
Proof. split_and!; reflexivity. Qed.

(** ** Enumerations: [SomeEnum(column)] looks the value up. *)
Class Enum (A : Type) : Type := {
  enum_all : list A;
  enum_value : A -> string;
  enum_find : forall x, List.find (fun y => bool_decide (u (enum_value y) = u (enum_value x))) enum_all = Some x }.
Definition enum_of {A} `{Enum A} (s : str) : res A :=
  match List.find (fun y => bool_decide (u (enum_value y) = s)) enum_all with
  | Some x => Ok x
  | None => Raise (ValueError "not a valid enumeration value")
  end.
Lemma enum_of_value {A} `{Enum A} (x : A) : enum_of (u (enum_value x)) = Ok x.
Proof. unfold enum_of. by rewrite enum_find. Qed.

Definition failure_cause_value (c : FailureCause) : string :=
  match c with
  | FC_VALIDATION => "validation" | FC_TOOL => "tool" | FC_RUNTIME => "runtime"
  | FC_APPROVAL => "approval" | FC_CANCELLED => "cancelled" | FC_TIMEOUT => "timeout"
  | FC_INTERNAL => "internal" end.
Definition run_event_type_value (x : RunEventType) : string :=
  match x with
  | RUN_CREATED => "run_created" | RUN_STARTED => "run_started"
  | RUN_WAITING_FOR_APPROVAL => "run_waiting_for_approval"
  | RUN_WAITING_FOR_DELEGATION => "run_waiting_for_delegation" | RUN_RESUMED => "run_resumed"
  | RUN_SUCCEEDED => "run_succeeded" | RUN_FAILED => "run_failed"
  | RUN_CANCELLED => "run_cancelled" | STEP_CREATED => "step_created"
  | STEP_STARTED => "step_started" | STEP_SUCCEEDED => "step_succeeded"
  | STEP_FAILED => "step_failed" | STEP_SKIPPED => "step_skipped"
  | STEP_CANCELLED => "step_cancelled" | APPROVAL_REQUESTED => "approval_requested"
  | APPROVAL_RESOLVED => "approval_resolved"
  | TOOL_INVOCATION_REQUESTED => "tool_invocation_requested"
  | TOOL_INVOCATION_STARTED => "tool_invocation_started"
  | TOOL_INVOCATION_SUCCEEDED => "tool_invocation_succeeded"
  | TOOL_INVOCATION_FAILED => "tool_invocation_failed"
  | TOOL_INVOCATION_CANCELLED => "tool_invocation_cancelled"
  | ARTIFACT_CREATED => "artifact_created" | AGENT_FINISHED => "agent_finished"
  | DELEGATION_DISPATCHED => "delegation_dispatched"
  | DELEGATION_SUCCEEDED => "delegation_succeeded"
  | WORKFLOW_EXECUTION_STARTED => "workflow_execution_started"
  | WORKFLOW_NODE_DISPATCHED => "workflow_node_dispatched"
  | WORKFLOW_NODE_SUCCEEDED => "workflow_node_succeeded"
  | WORKFLOW_NODE_FAILED => "workflow_node_failed"
  | WORKFLOW_NODE_CANCELLED => "workflow_node_cancelled"
  | WORKFLOW_NODE_BLOCKED => "workflow_node_blocked"
  | WORKFLOW_EXECUTION_SUCCEEDED => "workflow_execution_succeeded"
  | WORKFLOW_EXECUTION_FAILED => "workflow_execution_failed"
  | DELEGATION_FAILED => "delegation_failed" | DELEGATION_CANCELLED => "delegation_cancelled"
  | MEMORY_CONTEXT_ATTACHED => "memory_context_attached"
  | MEMORY_RETRIEVAL_DEGRADED => "memory_retrieval_degraded"
  | MEMORY_WRITE_REQUESTED => "memory_write_requested"
  | MEMORY_WRITE_COMMITTED => "memory_write_committed"
  | MEMORY_WRITE_CONFLICTED => "memory_write_conflicted"
  | MEMORY_INDEX_MARKED_STALE => "memory_index_marked_stale" end.

Definition task_event_type_value (x : TaskEventType) : string :=
  match x with
  | TASK_COMPLETED => "task_completed" | TASK_FAILED => "task_failed"
  | TASK_CANCELLED => "task_cancelled" end.

Definition approval_subject_value (x : ApprovalSubjectKind) : string :=
  match x with
  | SUBJ_RUN => "run" | SUBJ_SKILL_PROMOTION => "skill_promotion"
  | SUBJ_SKILL_ROLLBACK => "skill_rollback" end.

Definition schedule_kind_value (x : ScheduleKind) : string :=
  match x with
  | SK_ONCE => "once" | SK_CRON => "cron" end.

Definition usage_outcome_value (x : SkillUsageOutcome) : string :=
  match x with
  | USUCCEEDED => "succeeded" | UFAILED => "failed" | UCANCELLED => "cancelled"
  | URESOLUTION_FAILED => "resolution_failed" end.

Definition plan_status_value (x : DeliveryPlanStatus) : string :=
  match x with
  | PLAN_READY => "ready" | PLAN_SUPPRESSED => "suppressed" end.

Definition agent_source_value (x : AgentRevisionSourceKind) : string :=
  match x with
  | AS_OPERATOR => "operator" | AS_IMPORTED => "imported" end.

Definition workflow_source_value (x : WorkflowRevisionSourceKind) : string :=
  match x with
  | WS_OPERATOR => "operator" | WS_IMPORTED => "imported" end.

#[export] Instance FailureCause_enum : Enum FailureCause.
Proof.
  refine {|
    enum_all := [FC_VALIDATION; FC_TOOL; FC_RUNTIME; FC_APPROVAL; FC_CANCELLED; FC_TIMEOUT;
      FC_INTERNAL];
    enum_value := failure_cause_value;
    enum_find := _ |}. by intros [].
Defined.
#[export] Instance RunEventType_enum : Enum RunEventType.
Proof.
  refine {|
    enum_all := [RUN_CREATED; RUN_STARTED; RUN_WAITING_FOR_APPROVAL; RUN_WAITING_FOR_DELEGATION;
      RUN_RESUMED; RUN_SUCCEEDED; RUN_FAILED; RUN_CANCELLED; STEP_CREATED; STEP_STARTED;
      STEP_SUCCEEDED; STEP_FAILED; STEP_SKIPPED; STEP_CANCELLED; APPROVAL_REQUESTED;
      APPROVAL_RESOLVED; TOOL_INVOCATION_REQUESTED; TOOL_INVOCATION_STARTED;
      TOOL_INVOCATION_SUCCEEDED; TOOL_INVOCATION_FAILED; TOOL_INVOCATION_CANCELLED;
      ARTIFACT_CREATED; AGENT_FINISHED; DELEGATION_DISPATCHED; DELEGATION_SUCCEEDED;
      WORKFLOW_EXECUTION_STARTED; WORKFLOW_NODE_DISPATCHED; WORKFLOW_NODE_SUCCEEDED;
      WORKFLOW_NODE_FAILED; WORKFLOW_NODE_CANCELLED; WORKFLOW_NODE_BLOCKED;
      WORKFLOW_EXECUTION_SUCCEEDED; WORKFLOW_EXECUTION_FAILED; DELEGATION_FAILED;
      DELEGATION_CANCELLED; MEMORY_CONTEXT_ATTACHED; MEMORY_RETRIEVAL_DEGRADED;
      MEMORY_WRITE_REQUESTED; MEMORY_WRITE_COMMITTED; MEMORY_WRITE_CONFLICTED;
      MEMORY_INDEX_MARKED_STALE];
    enum_value := run_event_type_value;
    enum_find := _ |}. by intros [].
Defined.
#[export] Instance TaskEventType_enum : Enum TaskEventType.
Proof.
  refine {|
    enum_all := [TASK_COMPLETED; TASK_FAILED; TASK_CANCELLED];
    enum_value := task_event_type_value;
    enum_find := _ |}. by intros [].
Defined.
#[export] Instance ApprovalSubjectKind_enum : Enum ApprovalSubjectKind.
Proof.
  refine {|
    enum_all := [SUBJ_RUN; SUBJ_SKILL_PROMOTION; SUBJ_SKILL_ROLLBACK];
    enum_value := approval_subject_value;
    enum_find := _ |}. by intros [].
Defined.
#[export] Instance ScheduleKind_enum : Enum ScheduleKind.
Proof.
  refine {|
    enum_all := [SK_ONCE; SK_CRON];
    enum_value := schedule_kind_value;
    enum_find := _ |}. by intros [].
Defined.
#[export] Instance SkillUsageOutcome_enum : Enum SkillUsageOutcome.
Proof.
  refine {|
    enum_all := [USUCCEEDED; UFAILED; UCANCELLED; URESOLUTION_FAILED];
    enum_value := usage_outcome_value;
    enum_find := _ |}. by intros [].
Defined.
#[export] Instance DeliveryPlanStatus_enum : Enum DeliveryPlanStatus.
Proof.
  refine {|
    enum_all := [PLAN_READY; PLAN_SUPPRESSED];
    enum_value := plan_status_value;
    enum_find := _ |}. by intros [].
Defined.
#[export] Instance AgentRevisionSourceKind_enum : Enum AgentRevisionSourceKind.
Proof.
  refine {|
    enum_all := [AS_OPERATOR; AS_IMPORTED];
    enum_value := agent_source_value;
    enum_find := _ |}. by intros [].
Defined.
#[export] Instance WorkflowRevisionSourceKind_enum : Enum WorkflowRevisionSourceKind.
Proof.
  refine {|
    enum_all := [WS_OPERATOR; WS_IMPORTED];
    enum_value := workflow_source_value;
    enum_find := _ |}. by intros [].
Defined.
#[export] Instance RunStatus_enum : Enum RunStatus.
Proof.
  refine {|
    enum_all := [RQUEUED; RRUNNING; RWAITING_FOR_APPROVAL; RWAITING_FOR_DELEGATION;
      RWAITING_FOR_WORKFLOW; RSUCCEEDED; RFAILED; RCANCELLED];
    enum_value := run_status_value;
    enum_find := _ |}. by intros [].
Defined.
#[export] Instance TaskStatus_enum : Enum TaskStatus.
Proof.
  refine {|
    enum_all := [TPENDING; TACTIVE; TCOMPLETED; TFAILED; TCANCELLED];
    enum_value := task_status_value;
    enum_find := _ |}. by intros [].
Defined.
#[export] Instance RunStepStatus_enum : Enum RunStepStatus.
Proof.
  refine {|
    enum_all := [SPENDING; SRUNNING; SWAITING_FOR_APPROVAL; SSUCCEEDED; SFAILED; SSKIPPED;
      SCANCELLED];
    enum_value := step_status_value;
    enum_find := _ |}. by intros [].
Defined.
#[export] Instance ToolInvocationStatus_enum : Enum ToolInvocationStatus.
Proof.
  refine {|
    enum_all := [IREQUESTED; IRUNNING; ISUCCEEDED; IFAILED; ICANCELLED];
    enum_value := tool_status_value;
    enum_find := _ |}. by intros [].
Defined.
#[export] Instance ApprovalStatus_enum : Enum ApprovalStatus.
Proof.
  refine {|
    enum_all := [APENDING; AAPPROVED; AREJECTED; ACANCELLED; AEXPIRED];
    enum_value := approval_status_value;
    enum_find := _ |}. by intros [].
Defined.
#[export] Instance ApprovalCategory_enum : Enum ApprovalCategory.
Proof.
  refine {|
    enum_all := [CAT_TOOL_EXECUTION; CAT_FILESYSTEM_WRITE; CAT_NETWORK_ACCESS; CAT_COMPUTER_USE;
      CAT_EXTERNAL_COMMUNICATION; CAT_OTHER];
    enum_value := approval_category_value;
    enum_find := _ |}. by intros [].
Defined.
#[export] Instance ArtifactKind_enum : Enum ArtifactKind.
Proof.
  refine {|
    enum_all := [AK_TEXT; AK_FILE; AK_DIRECTORY; AK_URL; AK_JSON; AK_IMAGE; AK_OTHER];
    enum_value := artifact_kind_value;
    enum_find := _ |}. by intros [].
Defined.
#[export] Instance ScheduleStatus_enum : Enum ScheduleStatus.
Proof.
  refine {|
    enum_all := [SCH_ACTIVE; SCH_PAUSED; SCH_COMPLETED; SCH_CANCELLED];
    enum_value := schedule_status_value;
    enum_find := _ |}. by intros [].
Defined.
#[export] Instance DelegationStatus_enum : Enum DelegationStatus.
Proof.
  refine {|
    enum_all := [DREQUESTED; DDISPATCHED; DSUCCEEDED; DFAILED; DCANCELLED];
    enum_value := delegation_status_value;
    enum_find := _ |}. by intros [].
Defined.
#[export] Instance AgentStatus_enum : Enum AgentStatus.
Proof.
  refine {|
    enum_all := [AG_ACTIVE; AG_DISABLED; AG_ARCHIVED];
    enum_value := agent_status_value;
    enum_find := _ |}. by intros [].
Defined.
#[export] Instance WorkflowStatus_enum : Enum WorkflowStatus.
Proof.
  refine {|
    enum_all := [WACTIVE; WDISABLED; WARCHIVED];
    enum_value := workflow_status_value;
    enum_find := _ |}. by intros [].
Defined.
#[export] Instance WorkflowExecutionStatus_enum : Enum WorkflowExecutionStatus.
Proof.
  refine {|
    enum_all := [XRUNNING; XSUCCEEDED; XFAILED; XCANCELLED];
    enum_value := wx_status_value;
    enum_find := _ |}. by intros [].
Defined.
#[export] Instance WorkflowNodeExecutionStatus_enum : Enum WorkflowNodeExecutionStatus.
Proof.
  refine {|
    enum_all := [NPENDING; NDISPATCHED; NSUCCEEDED; NFAILED; NCANCELLED; NBLOCKED];
    enum_value := nx_status_value;
    enum_find := _ |}. by intros [].
Defined.

(** ** Timestamps *)

(** What comes back when a timestamp is stored: the same wall time, with the
    zone (PostgreSQL) or without (SQLite). *)
Class Driver : Type := persist_dt : datetime -> datetime.
Class DriverSpec `{Driver} : Prop :=
  persist_dt_utc t : persist_dt (utc t) = utc t \/ persist_dt (utc t) = mkDatetime t None.
Definition sqlite : Driver := fun d => mkDatetime (dt_wall d) None.
Lemma sqlite_spec : @DriverSpec sqlite.
Proof. intros t. by right. Qed.

(** [read_back_utc] *)
Definition read_back_utc (v : datetime) : datetime :=
  if is_aware v then v else mkDatetime (dt_wall v) (Some 0).
(** An entity's timestamp attribute is kept as its instant. *)
Definition instant (v : datetime) : Z := dt_wall v - default 0 (dt_offset v).

Lemma read_back_persist `{DriverSpec} t : read_back_utc (persist_dt (utc t)) = utc t.
Proof. destruct (persist_dt_utc t) as [->| ->]; done. Qed.
Lemma instant_persist `{DriverSpec} t : instant (read_back_utc (persist_dt (utc t))) = t.
Proof. rewrite read_back_persist. unfold instant. cbn. lia. Qed.
Definition persist_opt `{Driver} (o : option datetime) : option datetime := persist_dt <$> o.
Lemma opt_instant_persist `{DriverSpec} (o : option Z) :
  ((fun v => instant (read_back_utc v)) <$> persist_opt (utc <$> o)) = o.
Proof. destruct o; [|done]. cbn. by rewrite instant_persist. Qed.
Lemma opt_read_back_persist `{DriverSpec} (o : option Z) :
  (read_back_utc <$> persist_opt (utc <$> o)) = (utc <$> o).
Proof. destruct o; [|done]. cbn. by rewrite read_back_persist. Qed.

(** ** Failures: a JSON object in one column *)
Definition jfield (key : str) (d : list (str * json)) : res json :=
  match List.find (fun p => bool_decide (fst p = key)) d with
  | Some (_, v) => Ok v
  | None => Raise KeyError
  end.
Definition as_str (j : json) : res str :=
  match j with JStr s => Ok s | _ => Raise (OtherError "TypeError") end.
Definition as_bool (j : json) : res bool :=
  match j with JBool b => Ok b | _ => Raise (OtherError "TypeError") end.

Definition failure_to_dict (o : option Failure) : json :=
  match o with
  | None => JNull
  | Some f =>
      JDict [(u "code", JStr (fl_code f)); (u "message", JStr (fl_message f));
             (u "retryable", JBool (fl_retryable f));
             (u "cause", JStr (u (enum_value (fl_cause f)))); (u "details", fl_details f)]
  end.
(** A field of another JSON type is refused; [Failure] would accept some. *)
Definition failure_from_dict (data : json) : res (option Failure) :=
  match data with
  | JNull => Ok None
  | JDict d =>
      code <~ jfield (u "code") d ;; code <~ as_str code ;;
      message <~ jfield (u "message") d ;; message <~ as_str message ;;
      retryable <~ jfield (u "retryable") d ;; retryable <~ as_bool retryable ;;
      cause <~ jfield (u "cause") d ;; cause <~ as_str cause ;; cause <~ enum_of cause ;;
      details <~ jfield (u "details") d ;;
      f <~ Failure_new code message retryable cause (to_py details) ;;
      Ok (Some f)
  | _ => Raise (OtherError "TypeError")
  end.
Lemma jfield_here k v d : jfield k ((k, v) :: d) = Ok v.
Proof. unfold jfield. cbn. by rewrite bool_decide_eq_true_2. Qed.
Lemma jfield_next k k' v d : k' <> k -> jfield k ((k', v) :: d) = jfield k d.
Proof. intros H. unfold jfield. cbn. by rewrite bool_decide_eq_false_2. Qed.
Definition failure_ok (o : option Failure) : Prop :=
  forall f, o = Some f -> empty_str (strip (fl_code f)) = false /\ empty_str (strip (fl_message f)) = false.
Lemma failure_from_to o : failure_ok o -> failure_from_dict (failure_to_dict o) = Ok o.
Proof.
  destruct o as [f|]; [|done]. intros H. destruct (H f eq_refl) as [Hc Hm].
  unfold failure_to_dict, failure_from_dict.
  do 5 (rewrite ?jfield_next by done; rewrite jfield_here; cbn [res_bind as_str as_bool];
        rewrite ?enum_of_value).
  unfold Failure_new.
  rewrite Hc, Hm, ensure_json_to_py. by destruct f.
Qed.

(** ** Tool provenance: four columns, all set or none *)
Definition provenance_from_row (kind target remote_name fingerprint : option str)
    : res (option ToolProvenance) :=
  match kind, target, remote_name, fingerprint with
  | None, None, None, None => Ok None
  | Some k, Some t, Some r, Some f => p <~ ToolProvenance_new k t r f ;; Ok (Some p)
  | _, _, _, _ => Raise (ValueError "tool invocation has partial provenance columns")
  end.
Definition provenance_ok (o : option ToolProvenance) : Prop :=
  forall p, o = Some p ->
    ToolProvenance_new (pv_kind p) (pv_target p) (pv_remote_name p) (pv_binding_fingerprint p) = Ok p.
Lemma provenance_from_to o :
  provenance_ok o ->
  provenance_from_row (pv_kind <$> o) (pv_target <$> o) (pv_remote_name <$> o)
    (pv_binding_fingerprint <$> o) = Ok o.
Proof. destruct o as [p|]; [|done]. intros H. cbn. by rewrite (H p eq_refl). Qed.
