(* ===== verification/RowMappers.v ===== *)
(** * Row mappers: tasks, runs, evidence and schedules

    [src/friday/infrastructure/persistence/mappers.py] with the row classes of
    [models.py].  For each entity: its row, [<e>_to_row], [<e>_from_row], the row
    as the driver gives it back ([<Row>_stored]), and the round trip: a stored
    entity is read back unchanged.  A timestamp column is a [datetime], a JSON
    column a [json] with [JNull] for NULL. *)

From S2P Require Import Prelude Values RunEntity TaskEntity StepEntity ToolEntity ApprovalEntity.
From S2P Require Import EventEntity ScheduleEntity ScheduleDelivery DelegationEntity AgentEntity.
From S2P Require Import WorkQueue WorkflowEntity WorkflowExecutionEntity SkillEntity ConversationEntity Tables Codec.

Open Scope Z_scope.

(** [SomeId.parse(c) if c is not None else None] *)
Definition opt_id_parse_null {k} (c : option str) : res (option (Id k)) :=
  match c with
  | None => Ok None
  | Some s => i <~ id_parse s ;; Ok (Some i)
  end.
Lemma opt_id_parse_null_ok {k} (o : option (Id k)) : opt_id_ok o -> opt_id_parse_null (value <$> o) = Ok o.
Proof. destruct o as [i|]; [|done]. intros H. cbn. by rewrite id_parse_ok by by apply H. Qed.

(** Undoing the columns one by one *)
Ltac columns :=
  repeat first
    [ rewrite id_parse_ok by done | rewrite opt_id_parse_ok by done
    | rewrite opt_id_parse_null_ok by done | rewrite enum_of_value
    | rewrite failure_from_to by done | rewrite instant_persist | rewrite opt_instant_persist
    | rewrite read_back_persist | rewrite opt_read_back_persist | progress cbn [res_bind] ].

(** What [approval_to_row] writes into [subject_id]: the [subject_id] property,
    for requests that belong to no run *)
Definition subject_column (x : ApprovalRequest) : option str :=
  match ap_run_id x with
  | Some _ => None
  | None => Some (match ap_subject_id x with Some (c :: s) => c :: s | _ => u "None" end)
  end.

(** [ScheduleDeliveryPolicy.reconstruct] *)
Definition ScheduleDeliveryPolicy_reconstruct (schedule_id : ScheduleId) (route_id : str) (enabled : bool)
    (created_at updated_at : datetime) : res ScheduleDeliveryPolicy :=
  r <~ validate_route_id route_id ;;
  c <~ ensure_utc created_at ;;
  t <~ ensure_utc updated_at ;;
  if t <? c then Raise policy_order_error else Ok (mkDeliveryPolicy schedule_id r enabled c t).

(** The one content source of a delivery plan, which the entity does not keep *)
Inductive DeliveryContentSource : Type := FINAL_AGENT_SUMMARY_V1.
#[export] Instance DeliveryContentSource_enum : Enum DeliveryContentSource.
Proof.
  refine {| enum_all := [FINAL_AGENT_SUMMARY_V1];
            enum_value := fun _ => "final_agent_summary_v1"%string; enum_find := _ |}. by intros [].
Defined.
Definition DeliveryPlan_from_source (source : DeliveryContentSource) := DeliveryPlan_init.

(** *** [TaskRow] *)
Record TaskRow : Type := mkTaskRow {
  TaskRow_id : str; TaskRow_title : str;
  TaskRow_description : str; TaskRow_status : str; TaskRow_created_at : datetime;
  TaskRow_started_at : option datetime; TaskRow_completed_at : option datetime;
  TaskRow_failed_at : option datetime; TaskRow_cancelled_at : option datetime;
  TaskRow_failure : json }.
Definition task_to_row (x : Task) : TaskRow :=
  mkTaskRow (value (task_id x)) (task_title x)
    (task_description x) (u (enum_value (task_status x))) (utc (task_created_at x))
    (utc <$> task_started_at x) (utc <$> task_completed_at x) (utc <$> task_failed_at x)
    (utc <$> task_cancelled_at x) (failure_to_dict (task_failure x)).
Definition task_from_row (row : TaskRow) : res Task :=
  let 'mkTaskRow id title description status created_at started_at completed_at failed_at
    cancelled_at failure := row in
  id <~ id_parse id ;;
  status <~ enum_of status ;;
  failure <~ failure_from_dict failure ;;
  Ok (mkTask id title description status (instant (read_back_utc created_at))
    ((fun v => instant (read_back_utc v)) <$> started_at)
    ((fun v => instant (read_back_utc v)) <$> completed_at)
    ((fun v => instant (read_back_utc v)) <$> failed_at)
    ((fun v => instant (read_back_utc v)) <$> cancelled_at) failure).
Definition TaskRow_stored `{Driver} (row : TaskRow) : TaskRow :=
  let 'mkTaskRow id title description status created_at started_at completed_at failed_at
    cancelled_at failure := row in
  mkTaskRow id title description status (persist_dt created_at) (persist_opt started_at)
    (persist_opt completed_at) (persist_opt failed_at) (persist_opt cancelled_at) failure.
Definition task_storable (x : Task) : Prop :=
  id_ok (task_id x) /\ failure_ok (task_failure x).
Lemma task_roundtrip `{DriverSpec} x :
  task_storable x -> task_from_row (TaskRow_stored (task_to_row x)) = Ok x.
Proof.
  intros Hx; unfold task_storable in Hx; destruct_and? Hx. unfold task_from_row, TaskRow_stored, task_to_row.
  columns. by destruct x.
Qed.

(** *** [RunRow] *)
Record RunRow : Type := mkRunRow {
  RunRow_id : str; RunRow_task_id : str;
  RunRow_execution_id : str; RunRow_status : str; RunRow_created_at : datetime;
  RunRow_started_at : option datetime; RunRow_ended_at : option datetime; RunRow_failure : json;
  RunRow_approval_request_id : option str; RunRow_delegation_request_id : option str;
  RunRow_workflow_execution_id : option str }.
Definition run_to_row (x : Run) : RunRow :=
  mkRunRow (value (run_id x)) (value (run_task_id x))
    (value (run_execution_id x)) (u (enum_value (run_status x))) (utc (run_created_at x))
    (utc <$> run_started_at x) (utc <$> run_ended_at x) (failure_to_dict (run_failure x))
    (value <$> run_approval_request_id x) (value <$> run_delegation_request_id x)
    (value <$> run_workflow_execution_id x).
Definition run_from_row (row : RunRow) : res Run :=
  let 'mkRunRow id task_id execution_id status created_at started_at ended_at failure
    approval_request_id delegation_request_id workflow_execution_id := row in
  id <~ id_parse id ;;
  task_id <~ id_parse task_id ;;
  execution_id <~ id_parse execution_id ;;
  status <~ enum_of status ;;
  failure <~ failure_from_dict failure ;;
  approval_request_id <~ opt_id_parse approval_request_id ;;
  delegation_request_id <~ opt_id_parse delegation_request_id ;;
  workflow_execution_id <~ opt_id_parse workflow_execution_id ;;
  Ok (mkRun id task_id execution_id status (instant (read_back_utc created_at))
    ((fun v => instant (read_back_utc v)) <$> started_at)
    ((fun v => instant (read_back_utc v)) <$> ended_at) failure approval_request_id
    delegation_request_id workflow_execution_id).
Definition RunRow_stored `{Driver} (row : RunRow) : RunRow :=
  let 'mkRunRow id task_id execution_id status created_at started_at ended_at failure
    approval_request_id delegation_request_id workflow_execution_id := row in
  mkRunRow id task_id execution_id status (persist_dt created_at) (persist_opt started_at)
    (persist_opt ended_at) failure approval_request_id delegation_request_id
    workflow_execution_id.
Definition run_storable (x : Run) : Prop :=
  id_ok (run_id x) /\ id_ok (run_task_id x) /\
  id_ok (run_execution_id x) /\ failure_ok (run_failure x) /\
  opt_id_ok (run_approval_request_id x) /\ opt_id_ok (run_delegation_request_id x) /\
  opt_id_ok (run_workflow_execution_id x).
Lemma run_roundtrip `{DriverSpec} x :
  run_storable x -> run_from_row (RunRow_stored (run_to_row x)) = Ok x.
Proof.
  intros Hx; unfold run_storable in Hx; destruct_and? Hx. unfold run_from_row, RunRow_stored, run_to_row.
  columns. by destruct x.
Qed.

(** *** [RunStepRow] *)
Record RunStepRow : Type := mkRunStepRow {
  RunStepRow_id : str; RunStepRow_run_id : str;
  RunStepRow_name : str; RunStepRow_position : Z; RunStepRow_status : str;
  RunStepRow_created_at : datetime; RunStepRow_started_at : option datetime;
  RunStepRow_ended_at : option datetime; RunStepRow_failure : json;
  RunStepRow_approval_request_id : option str }.
Definition run_step_to_row (x : RunStep) : RunStepRow :=
  mkRunStepRow (value (step_id x))
    (value (step_run_id x)) (step_name x) (step_position x) (u (enum_value (step_status x)))
    (utc (step_created_at x)) (utc <$> step_started_at x) (utc <$> step_ended_at x)
    (failure_to_dict (step_failure x)) (value <$> step_approval_request_id x).
Definition run_step_from_row (row : RunStepRow) : res RunStep :=
  let 'mkRunStepRow id run_id name position status created_at started_at ended_at failure
    approval_request_id := row in
  id <~ id_parse id ;;
  run_id <~ id_parse run_id ;;
  status <~ enum_of status ;;
  failure <~ failure_from_dict failure ;;
  approval_request_id <~ opt_id_parse approval_request_id ;;
  Ok (mkStep id run_id name position status (instant (read_back_utc created_at))
    ((fun v => instant (read_back_utc v)) <$> started_at)
    ((fun v => instant (read_back_utc v)) <$> ended_at) failure approval_request_id).
Definition RunStepRow_stored `{Driver} (row : RunStepRow) : RunStepRow :=
  let 'mkRunStepRow id run_id name position status created_at started_at ended_at failure
    approval_request_id := row in
  mkRunStepRow id run_id name position status (persist_dt created_at) (persist_opt started_at)
    (persist_opt ended_at) failure approval_request_id.
Definition run_step_storable (x : RunStep) : Prop :=
  id_ok (step_id x) /\
  id_ok (step_run_id x) /\ failure_ok (step_failure x) /\ opt_id_ok (step_approval_request_id x).
Lemma run_step_roundtrip `{DriverSpec} x :
  run_step_storable x -> run_step_from_row (RunStepRow_stored (run_step_to_row x)) = Ok x.
Proof.
  intros Hx; unfold run_step_storable in Hx; destruct_and? Hx. unfold run_step_from_row, RunStepRow_stored, run_step_to_row.
  columns. by destruct x.
Qed.

(** *** [ApprovalRequestRow] *)
Record ApprovalRequestRow : Type := mkApprovalRequestRow {
  ApprovalRequestRow_id : str;
  ApprovalRequestRow_run_id : option str; ApprovalRequestRow_step_id : option str;
  ApprovalRequestRow_category : str; ApprovalRequestRow_summary : str;
  ApprovalRequestRow_reason : str; ApprovalRequestRow_requested_action : str;
  ApprovalRequestRow_requested_input : json; ApprovalRequestRow_status : str;
  ApprovalRequestRow_requested_at : datetime; ApprovalRequestRow_expires_at : option datetime;
  ApprovalRequestRow_resolved_at : option datetime;
  ApprovalRequestRow_resolution_note : option str; ApprovalRequestRow_resolver : option str;
  ApprovalRequestRow_authorization_fingerprint : option str;
  ApprovalRequestRow_consumed_at : option datetime; ApprovalRequestRow_subject_kind : str;
  ApprovalRequestRow_subject_id : option str }.
Definition approval_to_row (x : ApprovalRequest) : ApprovalRequestRow :=
  mkApprovalRequestRow
    (value (ap_id x)) (value <$> ap_run_id x) (value <$> ap_step_id x)
    (u (enum_value (ap_category x))) (ap_summary x) (ap_reason x) (ap_requested_action x)
    (ap_requested_input x) (u (enum_value (ap_status x))) (utc (ap_requested_at x))
    (utc <$> ap_expires_at x) (utc <$> ap_resolved_at x) (ap_resolution_note x) (ap_resolver x)
    (ap_authorization_fingerprint x) (utc <$> ap_consumed_at x)
    (u (enum_value (ap_subject_kind x))) (subject_column x).
Definition approval_from_row (row : ApprovalRequestRow) : res ApprovalRequest :=
  let 'mkApprovalRequestRow id run_id step_id category summary reason requested_action
    requested_input status requested_at expires_at resolved_at resolution_note resolver
    authorization_fingerprint consumed_at subject_kind subject_id := row in
  id <~ id_parse id ;;
  run_id <~ opt_id_parse run_id ;;
  step_id <~ opt_id_parse step_id ;;
  category <~ enum_of category ;;
  status <~ enum_of status ;;
  subject_kind <~ enum_of subject_kind ;;
  Ok (mkApproval id run_id category summary reason requested_action requested_input status
    (instant (read_back_utc requested_at)) step_id
    ((fun v => instant (read_back_utc v)) <$> expires_at)
    ((fun v => instant (read_back_utc v)) <$> resolved_at) resolution_note resolver
    authorization_fingerprint ((fun v => instant (read_back_utc v)) <$> consumed_at) subject_kind
    subject_id).
Definition ApprovalRequestRow_stored `{Driver} (row : ApprovalRequestRow) : ApprovalRequestRow :=
  let 'mkApprovalRequestRow id run_id step_id category summary reason requested_action
    requested_input status requested_at expires_at resolved_at resolution_note resolver
    authorization_fingerprint consumed_at subject_kind subject_id := row in
  mkApprovalRequestRow id run_id step_id category summary reason requested_action requested_input
    status (persist_dt requested_at) (persist_opt expires_at) (persist_opt resolved_at)
    resolution_note resolver authorization_fingerprint (persist_opt consumed_at) subject_kind
    subject_id.
Definition approval_storable (x : ApprovalRequest) : Prop :=
  id_ok (ap_id x) /\
  opt_id_ok (ap_run_id x) /\ opt_id_ok (ap_step_id x) /\ subject_column x = ap_subject_id x.
Lemma approval_roundtrip `{DriverSpec} x :
  approval_storable x -> approval_from_row (ApprovalRequestRow_stored (approval_to_row x)) = Ok x.
Proof.
  intros Hx; unfold approval_storable in Hx; destruct_and? Hx. unfold approval_from_row, ApprovalRequestRow_stored, approval_to_row.
  columns. replace (subject_column x) with (ap_subject_id x) by done. by destruct x.
Qed.

(** *** [ToolInvocationRow] *)
Record ToolInvocationRow : Type := mkToolInvocationRow {
  ToolInvocationRow_id : str;
  ToolInvocationRow_run_id : str; ToolInvocationRow_step_id : option str;
  ToolInvocationRow_approval_request_id : option str; ToolInvocationRow_tool_name : str;
  ToolInvocationRow_requested_input : json; ToolInvocationRow_status : str;
  ToolInvocationRow_requested_at : datetime; ToolInvocationRow_started_at : option datetime;
  ToolInvocationRow_completed_at : option datetime; ToolInvocationRow_output : json;
  ToolInvocationRow_output_set : bool; ToolInvocationRow_failure : json;
  ToolInvocationRow_provenance_kind : option str;
  ToolInvocationRow_provenance_target : option str;
  ToolInvocationRow_provenance_remote_name : option str;
  ToolInvocationRow_provenance_binding_fingerprint : option str }.
Definition tool_invocation_to_row (x : ToolInvocation) : ToolInvocationRow :=
  mkToolInvocationRow
    (value (tool_id x)) (value (tool_run_id x)) (value <$> tool_step_id x)
    (value <$> tool_approval_request_id x) (tool_tool_name x) (tool_requested_input x)
    (u (enum_value (tool_status x))) (utc (tool_requested_at x)) (utc <$> tool_started_at x)
    (utc <$> tool_completed_at x) (tool_output x) (tool_output_set x)
    (failure_to_dict (tool_failure x)) (pv_kind <$> tool_provenance x)
    (pv_target <$> tool_provenance x) (pv_remote_name <$> tool_provenance x)
    (pv_binding_fingerprint <$> tool_provenance x).
Definition tool_invocation_from_row (row : ToolInvocationRow) : res ToolInvocation :=
  let 'mkToolInvocationRow id run_id step_id approval_request_id tool_name requested_input status
    requested_at started_at completed_at output output_set failure provenance_kind
    provenance_target provenance_remote_name provenance_binding_fingerprint := row in
  id <~ id_parse id ;;
  run_id <~ id_parse run_id ;;
  step_id <~ opt_id_parse step_id ;;
  approval_request_id <~ opt_id_parse approval_request_id ;;
  status <~ enum_of status ;;
  failure <~ failure_from_dict failure ;;
  provenance <~ provenance_from_row provenance_kind provenance_target provenance_remote_name
    provenance_binding_fingerprint ;; Ok (mkTool id run_id tool_name requested_input status
    (instant (read_back_utc requested_at)) step_id approval_request_id
    ((fun v => instant (read_back_utc v)) <$> started_at)
    ((fun v => instant (read_back_utc v)) <$> completed_at) output output_set failure provenance).
Definition ToolInvocationRow_stored `{Driver} (row : ToolInvocationRow) : ToolInvocationRow :=
  let 'mkToolInvocationRow id run_id step_id approval_request_id tool_name requested_input status
    requested_at started_at completed_at output output_set failure provenance_kind
    provenance_target provenance_remote_name provenance_binding_fingerprint := row in
  mkToolInvocationRow id run_id step_id approval_request_id tool_name requested_input status
    (persist_dt requested_at) (persist_opt started_at) (persist_opt completed_at) output
    output_set failure provenance_kind provenance_target provenance_remote_name
    provenance_binding_fingerprint.
Definition tool_invocation_storable (x : ToolInvocation) : Prop :=
  id_ok (tool_id x) /\
  id_ok (tool_run_id x) /\ opt_id_ok (tool_step_id x) /\
  opt_id_ok (tool_approval_request_id x) /\ failure_ok (tool_failure x) /\
  provenance_ok (tool_provenance x).
Lemma tool_invocation_roundtrip `{DriverSpec} x :
  tool_invocation_storable x -> tool_invocation_from_row (ToolInvocationRow_stored (tool_invocation_to_row x)) = Ok x.
Proof.
  intros Hx; unfold tool_invocation_storable in Hx; destruct_and? Hx. unfold tool_invocation_from_row, ToolInvocationRow_stored, tool_invocation_to_row.
  columns. rewrite provenance_from_to by done. columns. by destruct x.
Qed.

(** *** [ArtifactRow] *)
Record ArtifactRow : Type := mkArtifactRow {
  ArtifactRow_id : str; ArtifactRow_run_id : str;
  ArtifactRow_step_id : option str; ArtifactRow_kind : str; ArtifactRow_name : str;
  ArtifactRow_media_type : str; ArtifactRow_location : str; ArtifactRow_created_at : datetime;
  ArtifactRow_size : option Z; ArtifactRow_checksum : option str;
  ArtifactRow_artifact_metadata : json }.
Definition artifact_to_row (x : Artifact) : ArtifactRow :=
  mkArtifactRow (value (art_id x))
    (value (art_run_id x)) (value <$> art_step_id x) (u (enum_value (art_kind x))) (art_name x)
    (art_media_type x) (art_location x) (utc (art_created_at x)) (art_size x) (art_checksum x)
    (art_metadata x).
Definition artifact_from_row (row : ArtifactRow) : res Artifact :=
  let 'mkArtifactRow id run_id step_id kind name media_type location created_at size checksum
    artifact_metadata := row in
  id <~ id_parse id ;;
  run_id <~ id_parse run_id ;;
  step_id <~ opt_id_parse step_id ;;
  kind <~ enum_of kind ;;
  Artifact_new id run_id kind name media_type location (read_back_utc created_at) step_id size
    checksum (to_py artifact_metadata).
Definition ArtifactRow_stored `{Driver} (row : ArtifactRow) : ArtifactRow :=
  let 'mkArtifactRow id run_id step_id kind name media_type location created_at size checksum
    artifact_metadata := row in
  mkArtifactRow id run_id step_id kind name media_type location (persist_dt created_at) size
    checksum artifact_metadata.
Definition artifact_storable (x : Artifact) : Prop :=
  id_ok (art_id x) /\
  id_ok (art_run_id x) /\ opt_id_ok (art_step_id x) /\
  Artifact_new (art_id x) (art_run_id x) (art_kind x) (art_name x) (art_media_type x) (art_location x) (utc (art_created_at x)) (art_step_id x) (art_size x) (art_checksum x) (to_py (art_metadata x)) = Ok x.
Lemma artifact_roundtrip `{DriverSpec} x :
  artifact_storable x -> artifact_from_row (ArtifactRow_stored (artifact_to_row x)) = Ok x.
Proof.
  intros Hx; unfold artifact_storable in Hx; destruct_and? Hx. unfold artifact_from_row, ArtifactRow_stored, artifact_to_row.
  by columns.
Qed.

(** *** [RunEventRow] *)
Record RunEventRow : Type := mkRunEventRow {
  RunEventRow_id : str; RunEventRow_run_id : str;
  RunEventRow_step_id : option str; RunEventRow_type : str; RunEventRow_sequence : Z;
  RunEventRow_occurred_at : datetime; RunEventRow_payload : json }.
Definition run_event_to_row (x : RunEvent) : RunEventRow :=
  mkRunEventRow (value (ev_id x))
    (value (ev_run_id x)) (value <$> ev_step_id x) (u (enum_value (ev_type x))) (ev_sequence x)
    (utc (ev_occurred_at x)) (ev_payload x).
Definition run_event_from_row (row : RunEventRow) : res RunEvent :=
  let 'mkRunEventRow id run_id step_id type_ sequence occurred_at payload := row in
  id <~ id_parse id ;;
  run_id <~ id_parse run_id ;;
  step_id <~ opt_id_parse step_id ;;
  type_ <~ enum_of type_ ;;
  RunEvent_new id run_id type_ sequence (read_back_utc occurred_at) (to_py payload) step_id.
Definition RunEventRow_stored `{Driver} (row : RunEventRow) : RunEventRow :=
  let 'mkRunEventRow id run_id step_id type_ sequence occurred_at payload := row in
  mkRunEventRow id run_id step_id type_ sequence (persist_dt occurred_at) payload.
Definition run_event_storable (x : RunEvent) : Prop :=
  id_ok (ev_id x) /\
  id_ok (ev_run_id x) /\ opt_id_ok (ev_step_id x) /\ 1 <= ev_sequence x.
Lemma run_event_roundtrip `{DriverSpec} x :
  run_event_storable x -> run_event_from_row (RunEventRow_stored (run_event_to_row x)) = Ok x.
Proof.
  intros Hx; unfold run_event_storable in Hx; destruct_and? Hx. unfold run_event_from_row, RunEventRow_stored, run_event_to_row.
  columns. rewrite RunEvent_new_ok by lia. by destruct x.
Qed.

(** *** [TaskEventRow] *)
Record TaskEventRow : Type := mkTaskEventRow {
  TaskEventRow_id : str;
  TaskEventRow_task_id : str; TaskEventRow_type : str; TaskEventRow_sequence : Z;
  TaskEventRow_occurred_at : datetime; TaskEventRow_payload : json }.
Definition task_event_to_row (x : TaskEvent) : TaskEventRow :=
  mkTaskEventRow
    (value (tev_id x)) (value (tev_task_id x)) (u (enum_value (tev_type x))) (tev_sequence x)
    (utc (tev_occurred_at x)) (tev_payload x).
Definition task_event_from_row (row : TaskEventRow) : res TaskEvent :=
  let 'mkTaskEventRow id task_id type_ sequence occurred_at payload := row in
  id <~ id_parse id ;;
  task_id <~ id_parse task_id ;;
  type_ <~ enum_of type_ ;;
  TaskEvent_new id task_id type_ sequence (read_back_utc occurred_at) (to_py payload).
Definition TaskEventRow_stored `{Driver} (row : TaskEventRow) : TaskEventRow :=
  let 'mkTaskEventRow id task_id type_ sequence occurred_at payload := row in
  mkTaskEventRow id task_id type_ sequence (persist_dt occurred_at) payload.
Definition task_event_storable (x : TaskEvent) : Prop :=
  id_ok (tev_id x) /\
  id_ok (tev_task_id x) /\ 1 <= tev_sequence x.
Lemma task_event_roundtrip `{DriverSpec} x :
  task_event_storable x -> task_event_from_row (TaskEventRow_stored (task_event_to_row x)) = Ok x.
Proof.
  intros Hx; unfold task_event_storable in Hx; destruct_and? Hx. unfold task_event_from_row, TaskEventRow_stored, task_event_to_row.
  columns. rewrite TaskEvent_new_ok by lia. by destruct x.
Qed.

(** *** [ScheduleRow] *)
Record ScheduleRow : Type := mkScheduleRow {
  ScheduleRow_id : str; ScheduleRow_task_id : str;
  ScheduleRow_kind : str; ScheduleRow_cron : option str; ScheduleRow_run_at : option datetime;
  ScheduleRow_timezone : str; ScheduleRow_status : str;
  ScheduleRow_next_fire_at : option datetime; ScheduleRow_created_at : datetime;
  ScheduleRow_updated_at : datetime }.
Definition schedule_to_row (x : Schedule) : ScheduleRow :=
  mkScheduleRow (value (sc_id x))
    (value (sc_task_id x)) (u (enum_value (sc_kind x))) (sc_cron x) (utc <$> sc_run_at x)
    (sc_timezone x) (u (enum_value (sc_status x))) (utc <$> sc_next_fire_at x)
    (utc (sc_created_at x)) (utc (sc_updated_at x)).
Definition schedule_from_row (row : ScheduleRow) : res Schedule :=
  let 'mkScheduleRow id task_id kind cron run_at timezone status next_fire_at created_at
    updated_at := row in
  id <~ id_parse id ;;
  task_id <~ id_parse task_id ;;
  kind <~ enum_of kind ;;
  status <~ enum_of status ;;
  Ok (mkSchedule id task_id kind cron ((fun v => instant (read_back_utc v)) <$> run_at) timezone
    status ((fun v => instant (read_back_utc v)) <$> next_fire_at)
    (instant (read_back_utc created_at)) (instant (read_back_utc updated_at))).
Definition ScheduleRow_stored `{Driver} (row : ScheduleRow) : ScheduleRow :=
  let 'mkScheduleRow id task_id kind cron run_at timezone status next_fire_at created_at
    updated_at := row in
  mkScheduleRow id task_id kind cron (persist_opt run_at) timezone status
    (persist_opt next_fire_at) (persist_dt created_at) (persist_dt updated_at).
Definition schedule_storable (x : Schedule) : Prop :=
  id_ok (sc_id x) /\ id_ok (sc_task_id x).
Lemma schedule_roundtrip `{DriverSpec} x :
  schedule_storable x -> schedule_from_row (ScheduleRow_stored (schedule_to_row x)) = Ok x.
Proof.
  intros Hx; unfold schedule_storable in Hx; destruct_and? Hx. unfold schedule_from_row, ScheduleRow_stored, schedule_to_row.
  columns. by destruct x.
Qed.

(** *** [ScheduleFireRow] *)
Record ScheduleFireRow : Type := mkScheduleFireRow {
  ScheduleFireRow_id : str;
  ScheduleFireRow_schedule_id : str; ScheduleFireRow_scheduled_for : datetime;
  ScheduleFireRow_fired_at : datetime; ScheduleFireRow_run_id : str }.
Definition schedule_fire_to_row (x : ScheduleFire) : ScheduleFireRow :=
  mkScheduleFireRow
    (value (sf_id x)) (value (sf_schedule_id x)) (utc (sf_scheduled_for x)) (utc (sf_fired_at x))
    (value (sf_run_id x)).
Definition schedule_fire_from_row (row : ScheduleFireRow) : res ScheduleFire :=
  let 'mkScheduleFireRow id schedule_id scheduled_for fired_at run_id := row in
  id <~ id_parse id ;;
  schedule_id <~ id_parse schedule_id ;;
  run_id <~ id_parse run_id ;;
  ScheduleFire_new id schedule_id (read_back_utc scheduled_for) (read_back_utc fired_at) run_id.
Definition ScheduleFireRow_stored `{Driver} (row : ScheduleFireRow) : ScheduleFireRow :=
  let 'mkScheduleFireRow id schedule_id scheduled_for fired_at run_id := row in
  mkScheduleFireRow id schedule_id (persist_dt scheduled_for) (persist_dt fired_at) run_id.
Definition schedule_fire_storable (x : ScheduleFire) : Prop :=
  id_ok (sf_id x) /\
  id_ok (sf_schedule_id x) /\ id_ok (sf_run_id x).
Lemma schedule_fire_roundtrip `{DriverSpec} x :
  schedule_fire_storable x -> schedule_fire_from_row (ScheduleFireRow_stored (schedule_fire_to_row x)) = Ok x.
Proof.
  intros Hx; unfold schedule_fire_storable in Hx; destruct_and? Hx. unfold schedule_fire_from_row, ScheduleFireRow_stored, schedule_fire_to_row.
  columns. unfold ScheduleFire_new. rewrite !ensure_utc_utc. by destruct x.
Qed.

(** *** [ScheduleDeliveryPolicyRow] *)
Record ScheduleDeliveryPolicyRow : Type := mkScheduleDeliveryPolicyRow {
  ScheduleDeliveryPolicyRow_schedule_id : str; ScheduleDeliveryPolicyRow_route_id : str;
  ScheduleDeliveryPolicyRow_enabled : bool; ScheduleDeliveryPolicyRow_created_at : datetime;
  ScheduleDeliveryPolicyRow_updated_at : datetime }.
Definition schedule_delivery_policy_to_row (x : ScheduleDeliveryPolicy) : ScheduleDeliveryPolicyRow :=
  mkScheduleDeliveryPolicyRow
    (value (dp_schedule_id x)) (dp_route_id x) (dp_enabled x) (utc (dp_created_at x))
    (utc (dp_updated_at x)).
Definition schedule_delivery_policy_from_row (row : ScheduleDeliveryPolicyRow) : res ScheduleDeliveryPolicy :=
  let 'mkScheduleDeliveryPolicyRow schedule_id route_id enabled created_at updated_at := row in
  schedule_id <~ id_parse schedule_id ;;
  ScheduleDeliveryPolicy_reconstruct schedule_id route_id enabled (read_back_utc created_at)
    (read_back_utc updated_at).
Definition ScheduleDeliveryPolicyRow_stored `{Driver} (row : ScheduleDeliveryPolicyRow) : ScheduleDeliveryPolicyRow :=
  let 'mkScheduleDeliveryPolicyRow schedule_id route_id enabled created_at updated_at := row in
  mkScheduleDeliveryPolicyRow schedule_id route_id enabled (persist_dt created_at)
    (persist_dt updated_at).
Definition schedule_delivery_policy_storable (x : ScheduleDeliveryPolicy) : Prop :=
  id_ok (dp_schedule_id x) /\
  ScheduleDeliveryPolicy_reconstruct (dp_schedule_id x) (dp_route_id x) (dp_enabled x) (utc (dp_created_at x)) (utc (dp_updated_at x)) = Ok x.
Lemma schedule_delivery_policy_roundtrip `{DriverSpec} x :
  schedule_delivery_policy_storable x -> schedule_delivery_policy_from_row (ScheduleDeliveryPolicyRow_stored (schedule_delivery_policy_to_row x)) = Ok x.
Proof.
  intros Hx; unfold schedule_delivery_policy_storable in Hx; destruct_and? Hx. unfold schedule_delivery_policy_from_row, ScheduleDeliveryPolicyRow_stored, schedule_delivery_policy_to_row.
  by columns.
Qed.

(** *** [ScheduleFireDeliveryPlanRow] *)
Record ScheduleFireDeliveryPlanRow : Type := mkScheduleFireDeliveryPlanRow {
  ScheduleFireDeliveryPlanRow_id : str; ScheduleFireDeliveryPlanRow_schedule_fire_id : str;
  ScheduleFireDeliveryPlanRow_schedule_id : str; ScheduleFireDeliveryPlanRow_execution_id : str;
  ScheduleFireDeliveryPlanRow_route_id : str;
  ScheduleFireDeliveryPlanRow_route_fingerprint : option str;
  ScheduleFireDeliveryPlanRow_route_max_body_chars : option Z;
  ScheduleFireDeliveryPlanRow_content_source : str; ScheduleFireDeliveryPlanRow_status : str;
  ScheduleFireDeliveryPlanRow_reason_code : option str;
  ScheduleFireDeliveryPlanRow_content_rejected_run_id : option str;
  ScheduleFireDeliveryPlanRow_created_at : datetime }.
Definition schedule_fire_delivery_plan_to_row (x : ScheduleFireDeliveryPlan) : ScheduleFireDeliveryPlanRow :=
  mkScheduleFireDeliveryPlanRow
    (value (pl_id x)) (value (pl_schedule_fire_id x)) (value (pl_schedule_id x))
    (value (pl_execution_id x)) (pl_route_id x) (pl_route_fingerprint x)
    (pl_route_max_body_chars x) (u (enum_value FINAL_AGENT_SUMMARY_V1))
    (u (enum_value (pl_status x))) (pl_reason_code x) (value <$> pl_content_rejected_run_id x)
    (utc (pl_created_at x)).
Definition schedule_fire_delivery_plan_from_row (row : ScheduleFireDeliveryPlanRow) : res ScheduleFireDeliveryPlan :=
  let 'mkScheduleFireDeliveryPlanRow id schedule_fire_id schedule_id execution_id route_id
    route_fingerprint route_max_body_chars content_source status reason_code
    content_rejected_run_id created_at := row in
  id <~ id_parse id ;;
  schedule_fire_id <~ id_parse schedule_fire_id ;;
  schedule_id <~ id_parse schedule_id ;;
  execution_id <~ id_parse execution_id ;;
  content_source <~ enum_of content_source ;;
  status <~ enum_of status ;;
  content_rejected_run_id <~ opt_id_parse_null content_rejected_run_id ;;
  DeliveryPlan_from_source content_source id schedule_fire_id schedule_id execution_id route_id
    route_fingerprint route_max_body_chars status reason_code content_rejected_run_id
    (read_back_utc created_at).
Definition ScheduleFireDeliveryPlanRow_stored `{Driver} (row : ScheduleFireDeliveryPlanRow) : ScheduleFireDeliveryPlanRow :=
  let 'mkScheduleFireDeliveryPlanRow id schedule_fire_id schedule_id execution_id route_id
    route_fingerprint route_max_body_chars content_source status reason_code
    content_rejected_run_id created_at := row in
  mkScheduleFireDeliveryPlanRow id schedule_fire_id schedule_id execution_id route_id
    route_fingerprint route_max_body_chars content_source status reason_code
    content_rejected_run_id (persist_dt created_at).
Definition schedule_fire_delivery_plan_storable (x : ScheduleFireDeliveryPlan) : Prop :=
  id_ok (pl_id x) /\ id_ok (pl_schedule_fire_id x) /\ id_ok (pl_schedule_id x) /\
  id_ok (pl_execution_id x) /\ opt_id_ok (pl_content_rejected_run_id x) /\
  DeliveryPlan_init (pl_id x) (pl_schedule_fire_id x) (pl_schedule_id x) (pl_execution_id x) (pl_route_id x) (pl_route_fingerprint x) (pl_route_max_body_chars x) (pl_status x) (pl_reason_code x) (pl_content_rejected_run_id x) (utc (pl_created_at x)) = Ok x.
Lemma schedule_fire_delivery_plan_roundtrip `{DriverSpec} x :
  schedule_fire_delivery_plan_storable x -> schedule_fire_delivery_plan_from_row (ScheduleFireDeliveryPlanRow_stored (schedule_fire_delivery_plan_to_row x)) = Ok x.
Proof.
  intros Hx; unfold schedule_fire_delivery_plan_storable in Hx; destruct_and? Hx. unfold schedule_fire_delivery_plan_from_row, ScheduleFireDeliveryPlanRow_stored, schedule_fire_delivery_plan_to_row.
  by columns.
Qed.
