(* ===== verification/Store.v ===== *)
(** * The store and the unit of work

    [src/friday/infrastructure/persistence/repositories.py] and
    [unit_of_work.py].  A [World] is the durable database, the session of the running
    transaction, and how far the clock and the id generator have advanced.
    [with_uow] and [commit] give a use case the semantics of its [with] block:
    what is not committed is gone when the block is left.

    Conventions.  A repository returns fresh domain objects, so a use case
    changes a row only through [save] or an [UPDATE].  A duplicate primary key
    is reported by the [add] rather than by the flush that follows it; both end
    the transaction.  [commit] checks the uniqueness constraints the modelled
    use cases can run into.  Foreign keys and the other SQL errors are not
    modelled. *)

From S2P Require Import Prelude Values RunEntity TaskEntity StepEntity ToolEntity ApprovalEntity.
From S2P Require Import EventEntity ScheduleEntity ScheduleDelivery RetryPolicy DelegationEntity WorkQueue.
From S2P Require Import DeliveryEntity AgentEntity WorkflowEntity WorkflowExecutionEntity SkillEntity ConversationEntity MemoryQuery ImprovementEntity Tables.

Open Scope Z_scope.

(** ** The world of a use case *)
Record World : Type := mkWorld { durable : Db; staged : Db; draws : nat; ticks : nat }.

(** [uuid.uuid4()] and [Clock.now()]: the n-th identifier drawn and the n-th
    clock reading. *)
Class Env : Type := { uuid4 : nat -> str; clock_at : nat -> Z }.

Definition U (A : Type) : Type := M World A.

Definition set_staged (d : Db) (w : World) : World := mkWorld (durable w) d (draws w) (ticks w).

(** A read of, and a write to, the session's view of the database. *)
Definition db {A} (f : Db -> A) : U A := gets (fun w => f (staged w)).
Definition upd (f : Db -> Db) : U unit := modify (fun w => set_staged (f (staged w)) w).

Section Session.
Context `{Env}.

(** [SomeId.new()] *)
Definition new_id {k} : U (Id k) := fun w =>
  (Ok (mkId (uuid4 (draws w))), mkWorld (durable w) (staged w) (S (draws w)) (ticks w)).
Definition uuid4_hex : U str := fun w =>
  (Ok (uuid4 (draws w)), mkWorld (durable w) (staged w) (S (draws w)) (ticks w)).
(** [self._clock.now()] *)
Definition now : U Z := fun w =>
  (Ok (clock_at (ticks w)), mkWorld (durable w) (staged w) (draws w) (S (ticks w))).
End Session.

(** [UniqueConstraint(columns)] on a table; a row whose key is [None] (a NULL
    column) never conflicts. *)
Definition unique_key {K V A} `{Countable K} `{EqDecision A} (key : V -> option A) (t : gmap K V) : bool :=
  bool_decide (NoDup (omap (fun x : K * V => key x.2) (map_to_list t))).

(** [CheckConstraint(condition)] *)
Definition rows_satisfy {K V} `{Countable K} (p : V -> bool) (t : gmap K V) : bool :=
  forallb (fun x : K * V => p x.2) (map_to_list t).
(** [length(column) BETWEEN low AND high] *)
Definition sql_length (low high : Z) (s : str) : bool := (low <=? len s) && (len s <=? high).

(** The partial indexes on open proposals and on active improvement work *)
Definition proposal_open (s : SkillProposalStatus) : bool :=
  bool_decide (s ∈ [SP_DRAFT; SP_READY_FOR_EVALUATION; SP_EVALUATING; SP_READY_FOR_REVIEW; SP_APPROVED]).
Definition work_active (s : SkillImprovementWorkState) : bool :=
  bool_decide (s ∈ [IW_EVIDENCE_SELECTION; IW_CANDIDATE_GENERATION; IW_BASELINE_EVALUATION;
                    IW_CANDIDATE_EVALUATION; IW_COMPARISON; IW_FAILED]).
(** The constraints on skill evaluation, improvement and promotion; statuses are in
    range by typing, and what a composite foreign key refers to is not checked. *)
Definition suites_integrity (d : Db) : bool :=
  unique_key (fun x => Some (es_suite_skill_id x, es_name x)) (db_suites d)
  && rows_satisfy (fun x => sql_length 1 256 (es_name x)) (db_suites d).
Definition ck_grading_kinds : list string :=
  ["exact_match"; "contains_all"; "contains_none"; "json_schema"; "required_keys"; "tool_proposal_shape"].
Definition cases_integrity (d : Db) : bool :=
  unique_key (fun x => Some (ec_suite_id x, ec_position x)) (db_cases d)
  && rows_satisfy (fun x => (0 <? ec_position x) && sql_length 1 32000 (ec_input x)
                            && bool_decide (ec_grading_kind x ∈ map u ck_grading_kinds)) (db_cases d).
Definition evaluation_runs_integrity (d : Db) : bool :=
  rows_satisfy (fun x => xorb (not_none (er_revision_id x)) (not_none (er_proposal_id x))
                         && is_sha256_hex (er_runtime_fingerprint x) && is_sha256_hex (er_target_content_sha256 x))
    (db_evaluation_runs d).
Definition case_results_integrity (d : Db) : bool :=
  bool_decide (NoDup (map (fun r => (cr_evaluation_run_id r, cr_case_id r)) (db_case_results d)))
  && forallb (fun r => dy_leb (0, 0) (cr_score r) && dy_leb (cr_score r) dy_one && is_sha256_hex (cr_output_sha256 r))
       (db_case_results d).
Definition proposals_integrity (d : Db) : bool :=
  unique_key (fun x => Some (ip_skill_id x, ip_base_revision_id x, ip_evidence_snapshot_hash x, ip_generator_version x))
    (db_proposals d)
  && unique_key (fun x => if proposal_open (ip_status x) then Some (ip_skill_id x) else None) (db_proposals d)
  && rows_satisfy (fun x => is_sha256_hex (ip_evidence_snapshot_hash x) && is_sha256_hex (ip_proposed_content_sha256 x)
                            && is_sha256_hex (ip_candidate_prompt_sha256 x)) (db_proposals d).
Definition ck_failure_code (c : str) : bool :=
  sql_length 1 128 c && forallb (fun x => ((97 <=? x) && (x <=? 122)) || ((48 <=? x) && (x <=? 57)) || (x =? 95)) c.
Definition work_integrity (d : Db) : bool :=
  unique_key (fun x => if work_active (iw_state x) then Some (iw_skill_id x) else None) (db_improvement_work d)
  && rows_satisfy (fun x =>
       (0 <=? iw_attempt_count x) && (0 <=? iw_claim_generation x)
       && match iw_failure_code x with None => true | Some c => ck_failure_code c end
       && Bool.eqb (not_none (iw_claimed_by x)) (not_none (iw_claim_token x))
       && Bool.eqb (not_none (iw_claimed_by x)) (not_none (iw_lease_expires_at x))
       && match iw_failure_detail x with None => true | Some t => sql_length 1 512 t end) (db_improvement_work d).
Definition candidates_integrity (d : Db) : bool :=
  unique_key (fun x => Some (ce_proposal_id x)) (db_candidates d)
  && unique_key (fun x => Some (ce_candidate_evaluation_run_id x)) (db_candidates d)
  && rows_satisfy (fun x => (0 <=? ce_regression_count x) && (0 <=? ce_improvement_count x)
                            && (0 <=? ce_inconclusive_count x) && is_sha256_hex (ce_report_sha256 x)) (db_candidates d).
Definition promotions_integrity (d : Db) : bool :=
  unique_key (fun x => Some (pq_proposal_id x)) (db_promotions d)
  && unique_key (fun x => Some (pq_target_revision_id x)) (db_promotions d)
  && unique_key pq_approval_request_id (db_promotions d)
  && rows_satisfy (fun x => (0 <? pq_target_version x) && is_sha256_hex (pq_candidate_sha256 x)
                            && is_sha256_hex (pq_comparison_report_sha256 x)
                            && is_sha256_hex (pq_authorization_fingerprint x)
                            && not_none (pq_approval_request_id x)) (db_promotions d).
Definition rollbacks_integrity (d : Db) : bool :=
  unique_key rb_approval_request_id (db_rollbacks d)
  && rows_satisfy (fun x => is_sha256_hex (rb_authorization_fingerprint x) && not_none (rb_approval_request_id x)
                            && negb (id_eqb (rb_target_revision_id x) (rb_expected_current_revision_id x)))
       (db_rollbacks d).
Definition improvement_policies_integrity (d : Db) : bool :=
  rows_satisfy (fun x => (0 <=? sp_minimum_usage_records x) && (0 <=? sp_minimum_failures x)
                         && (0 <=? sp_minimum_harmful_feedback x) && (0 <=? sp_cooldown_seconds x)
                         && (sp_max_open_proposals x =? 1)
                         && (1 <=? sp_evidence_window_size x) && (sp_evidence_window_size x <=? 200))
    (db_improvement_policies d).
Definition evidence_integrity (d : Db) : bool := rows_satisfy (fun x => is_sha256_hex (es_content_sha256 x)) (db_evidence d).
Definition improvement_integrity (d : Db) : bool :=
  suites_integrity d && cases_integrity d && evaluation_runs_integrity d && case_results_integrity d
  && proposals_integrity d && work_integrity d && candidates_integrity d && promotions_integrity d
  && rollbacks_integrity d && improvement_policies_integrity d && evidence_integrity d.

(** The uniqueness and check constraints that guard a commit. *)
Definition integrity (d : Db) : bool :=
  unique_key (fun s => Some (step_run_id s, step_position s)) (db_steps d) &&
  unique_key (fun f => Some (sf_schedule_id f, sf_scheduled_for f)) (db_fires d) &&
  unique_key (fun p => Some (pl_schedule_fire_id p)) (db_delivery_plans d) &&
  unique_key od_source_tool_invocation_id (db_deliveries d) &&
  unique_key od_source_schedule_fire_id (db_deliveries d) &&
  unique_key (fun a => Some (da_delivery_id a, da_claim_generation a)) (db_attempts d) &&
  unique_key (fun x => Some (dl_authorization_fingerprint x)) (db_delegations d) &&
  unique_key dl_child_task_id (db_delegations d) && unique_key dl_child_run_id (db_delegations d) &&
  unique_key (fun a => Some (ag_key a)) (db_agents d) &&
  unique_key (fun r => Some (av_agent_id r, av_version r)) (db_agent_revisions d) &&
  unique_key (fun k => Some (sk_key k)) (db_skills d) &&
  unique_key (fun r => Some (kr_skill_id r, kr_version r)) (db_skill_revisions d) &&
  unique_key kr_promotion_request_id (db_skill_revisions d) &&
  bool_decide (NoDup (map (fun b => (tk_task_id b, tk_skill_id b)) (db_task_skills d))) &&
  bool_decide (NoDup (map (fun b => (tk_task_id b, tk_position b)) (db_task_skills d))) &&
  unique_key (fun t => Some (ct_conversation_id t, ct_client_turn_id t)) (db_turns d) &&
  unique_key (fun t => Some (ct_run_id t)) (db_turns d) &&
  unique_key (fun w => Some (wf_key w)) (db_workflows d) &&
  unique_key (fun r => Some (wr_workflow_id r, wr_version r)) (db_workflow_revisions d) &&
  unique_key (fun x => Some (wx_root_run_id x)) (db_executions d) &&
  unique_key (fun n => Some (nx_workflow_execution_id n, nx_workflow_node_id n)) (db_node_executions d) &&
  unique_key nx_child_task_id (db_node_executions d) && unique_key nx_child_run_id (db_node_executions d) &&
  forallb (fun x : WorkflowExecutionId * WorkflowExecution => ck_workflow_executions_state_shape x.2)
    (map_to_list (db_executions d)) &&
  forallb (fun x : WorkflowNodeExecutionId * WorkflowNodeExecution => ck_workflow_node_executions_state_shape x.2)
    (map_to_list (db_node_executions d)) &&
  forallb (fun x : RunId * Run => ck_runs_wait_marker_shape x.2) (map_to_list (db_runs d)) &&
  forallb (fun x : MemoryRetrievalRecordId * MemoryRetrievalRecord => bool_decide (NoDup (map ri_rank (mr_items x.2))))
    (map_to_list (db_memory_records d)) &&
  forallb (fun x : ScheduleId * Schedule => schedule_checks x.2) (map_to_list (db_schedules d)) &&
  improvement_integrity d.

(** [uow.commit()] *)
Definition commit : U unit := fun w =>
  if integrity (staged w)
  then (Ok tt, mkWorld (staged w) (staged w) (draws w) (ticks w))
  else (Raise (EntityConflict "write violated a uniqueness or state constraint"),
        mkWorld (durable w) (durable w) (draws w) (ticks w)).

(** [with uow_factory() as uow: body] *)
Definition with_uow {A} (body : U A) : U A := fun w =>
  match body (mkWorld (durable w) (durable w) (draws w) (ticks w)) with
  | (r, w') => (r, mkWorld (durable w') (durable w') (draws w') (ticks w'))
  end.

(** Running a queue operation on the session's queue *)
Definition on_queue {A} (m : M Queue A) : U A := fun w =>
  match m (db_queue (staged w)) with
  | (r, q) => (r, set_staged (set_db_queue q (staged w)) w)
  end.

(** ** Repositories *)

(** [session.add(row)] and [session.merge(row)] *)
Definition add_row {k V} (get : Db -> gmap (Id k) V) (set : gmap (Id k) V -> Db -> Db)
    (id : Id k) (v : V) : U unit :=
  t <- db get ;;
  match t !! id with
  | Some _ => raise (EntityConflict "write violated a uniqueness or state constraint")
  | None => upd (fun d => set (<[id := v]> (get d)) d)
  end.
Definition save_row {k V} (get : Db -> gmap (Id k) V) (set : gmap (Id k) V -> Db -> Db)
    (id : Id k) (v : V) : U unit :=
  upd (fun d => set (<[id := v]> (get d)) d).

(** [SELECT ... WHERE p ORDER BY key] *)
Definition select {K V} `{Countable K} (p : V -> bool) (key : V -> list Z) (t : gmap K V) : list V :=
  order_by key (filter (fun v => p v = true) (map snd (map_to_list t))).

(** The same with [LIMIT] and a keyset cursor: only rows after it *)
Definition after_cursor {V} (key : V -> list Z) (cursor : option (list Z)) (v : V) : bool :=
  match cursor with Some c => negb (lex_leb (key v) c) | None => true end.
Definition select_page {K V} `{Countable K} (p : V -> bool) (key : V -> list Z) (limit : nat)
    (cursor : option (list Z)) (t : gmap K V) : list V :=
  take limit (select (fun v => p v && after_cursor key cursor v) key t).

(** [TaskRepository] *)
Definition tasks_get (id : TaskId) : U (option Task) := db (fun d => db_tasks d !! id).
Definition tasks_add (t : Task) : U unit := add_row db_tasks set_db_tasks (task_id t) t.
Definition tasks_save (t : Task) : U unit := save_row db_tasks set_db_tasks (task_id t) t.

(** [RunRepository] *)
Definition run_key (r : Run) : list Z := run_created_at r :: value (run_id r).
Definition run_in_execution (e : RunId) (r : Run) : bool := id_eqb (run_execution_id r) e.
Definition execution_runs (e : RunId) (d : Db) : list Run := select (run_in_execution e) run_key (db_runs d).

Definition runs_get (id : RunId) : U (option Run) := db (fun d => db_runs d !! id).
Definition runs_add (r : Run) : U unit := add_row db_runs set_db_runs (run_id r) r.
Definition runs_save (r : Run) : U unit := save_row db_runs set_db_runs (run_id r) r.
Definition runs_list_for_task (t : TaskId) : U (list Run) :=
  db (fun d => select (fun r => id_eqb (run_task_id r) t) run_key (db_runs d)).
Definition runs_list_for_execution (e : RunId) : U (list Run) := db (execution_runs e).
(** the no-op [UPDATE] that takes the lineage's write lock *)
Definition runs_lock_execution_lineage (e : RunId) : U bool :=
  db (fun d => bool_decide (execution_runs e d <> [])).

Fixpoint ordinal_of (id : RunId) (n : Z) (l : list Run) : Z :=
  match l with
  | [] => 0
  | r :: l' => if id_eqb (run_id r) id then n else ordinal_of id (n + 1) l'
  end.
Definition runs_ordinal_for_execution (id : RunId) : U Z :=
  db (fun d => match db_runs d !! id with
               | None => 0
               | Some r => ordinal_of id 1 (execution_runs (run_execution_id r) d)
               end).
(** [ORDER BY created_at DESC, id DESC LIMIT 1] *)
Definition runs_get_latest_for_execution (e : RunId) : U (option Run) :=
  db (fun d => reverse (execution_runs e d) !! 0%nat).

(** [RunStepRepository] *)
Definition step_key (s : RunStep) : list Z := step_position s :: value (step_id s).
Definition steps_get (id : RunStepId) : U (option RunStep) := db (fun d => db_steps d !! id).
Definition steps_add (s : RunStep) : U unit := add_row db_steps set_db_steps (step_id s) s.
Definition steps_save (s : RunStep) : U unit := save_row db_steps set_db_steps (step_id s) s.
Definition steps_list_for_run (r : RunId) : U (list RunStep) :=
  db (fun d => select (fun s => id_eqb (step_run_id s) r) step_key (db_steps d)).
Definition steps_has_non_terminal_for_run (r : RunId) : U bool :=
  db (fun d => existsb (fun s => id_eqb (step_run_id s) r && negb (step_terminal (step_status s)))
                 (map snd (map_to_list (db_steps d)))).

(** [ApprovalRepository] *)
Definition approval_key (a : ApprovalRequest) : list Z := ap_requested_at a :: value (ap_id a).
Definition approvals_get (id : ApprovalRequestId) : U (option ApprovalRequest) :=
  db (fun d => db_approvals d !! id).
Definition approvals_add (a : ApprovalRequest) : U unit := add_row db_approvals set_db_approvals (ap_id a) a.
Definition approvals_save (a : ApprovalRequest) : U unit := save_row db_approvals set_db_approvals (ap_id a) a.
Definition approval_pending_for (r : RunId) (a : ApprovalRequest) : bool :=
  opt_id_eqb (ap_run_id a) r && bool_decide (ap_status a = APENDING).
Definition approvals_list_pending_for_run (r : RunId) : U (list ApprovalRequest) :=
  db (fun d => select (approval_pending_for r) approval_key (db_approvals d)).
Definition approvals_has_pending_for_run (r : RunId) : U bool :=
  db (fun d => existsb (approval_pending_for r) (map snd (map_to_list (db_approvals d)))).
Definition approvals_list_for_run (r : RunId) : U (list ApprovalRequest) :=
  db (fun d => select (fun a => opt_id_eqb (ap_run_id a) r) approval_key (db_approvals d)).
Definition approval_due (at_ : Z) (a : ApprovalRequest) : bool :=
  bool_decide (ap_status a = APENDING) && col_le (ap_expires_at a) at_.
Definition approvals_list_due_for_expiry (at_ : Z) (limit : nat) : U (list ApprovalRequest) :=
  db (fun d => take limit (select (approval_due at_) approval_key (db_approvals d))).
(** [UPDATE ... SET consumed_at WHERE id AND status = approved AND consumed_at IS NULL] *)
Definition approvals_consume_if_unconsumed (id : ApprovalRequestId) (at_ : Z) : U bool :=
  a <- approvals_get id ;;
  match a with
  | Some a =>
      if bool_decide (ap_status a = AAPPROVED) && negb (not_none (ap_consumed_at a))
      then approvals_save (set_ap_consumed_at (Some at_) a) ;;; ret true
      else ret false
  | None => ret false
  end.

(** [ToolInvocationRepository] *)
Definition tool_key (t : ToolInvocation) : list Z := tool_requested_at t :: value (tool_id t).
Definition tools_get (id : ToolInvocationId) : U (option ToolInvocation) := db (fun d => db_tools d !! id).
Definition tools_add (t : ToolInvocation) : U unit := add_row db_tools set_db_tools (tool_id t) t.
Definition tools_save (t : ToolInvocation) : U unit := save_row db_tools set_db_tools (tool_id t) t.
Definition tools_list_for_run (r : RunId) : U (list ToolInvocation) :=
  db (fun d => select (fun t => id_eqb (tool_run_id t) r) tool_key (db_tools d)).
Definition tools_list_for_step (s : RunStepId) : U (list ToolInvocation) :=
  db (fun d => select (fun t => opt_id_eqb (tool_step_id t) s) tool_key (db_tools d)).
Definition tools_has_non_terminal_for_run (r : RunId) : U bool :=
  db (fun d => existsb (fun t => id_eqb (tool_run_id t) r && negb (tool_terminal (tool_status t)))
                 (map snd (map_to_list (db_tools d)))).

(** [RunEventStore] and [TaskEventStore]: the counter row holds the next
    sequence number and is created at 1. *)
Definition events_reserve_sequences (r : RunId) (count : Z) : U Z :=
  n <- db (fun d => default 1 (db_run_seq d !! r)) ;;
  upd (fun d => set_db_run_seq (<[r := n + count]> (db_run_seq d)) d) ;;;
  ret n.
Definition events_append (e : RunEvent) : U unit :=
  upd (fun d => set_db_run_events (db_run_events d ++ [e]) d).
Definition run_events_of (d : Db) (r : RunId) : list RunEvent :=
  order_by (fun e => [ev_sequence e]) (filter (fun e => id_eqb (ev_run_id e) r = true) (db_run_events d)).
Definition events_list_for_run (r : RunId) : U (list RunEvent) := db (fun d => run_events_of d r).
(** [ORDER BY sequence DESC LIMIT 1] *)
Definition events_latest_of_type_for_run (r : RunId) (type_ : RunEventType) : U (option RunEvent) :=
  db (fun d => last (filter (fun e => bool_decide (ev_type e = type_) = true) (run_events_of d r))).
Definition task_events_reserve_sequences (t : TaskId) (count : Z) : U Z :=
  n <- db (fun d => default 1 (db_task_seq d !! t)) ;;
  upd (fun d => set_db_task_seq (<[t := n + count]> (db_task_seq d)) d) ;;;
  ret n.
Definition task_events_append (e : TaskEvent) : U unit :=
  upd (fun d => set_db_task_events (db_task_events d ++ [e]) d).

(** [DelegationRequestRepository] *)
Definition delegation_key (x : DelegationRequest) : list Z := dl_created_at x :: value (dl_id x).
Definition delegations_get (id : DelegationRequestId) : U (option DelegationRequest) :=
  db (fun d => db_delegations d !! id).
Definition delegations_has_dispatched_for_run (r : RunId) : U bool :=
  db (fun d => existsb (fun x => id_eqb (dl_parent_run_id x) r && bool_decide (dl_status x = DDISPATCHED))
                 (map snd (map_to_list (db_delegations d)))).
(** The join on [child_run_id] with the runs of the execution *)
Definition child_in_execution (d : Db) (e : RunId) (x : DelegationRequest) : bool :=
  match dl_child_run_id x with
  | Some c => match db_runs d !! c with Some r => run_in_execution e r | None => false end
  | None => false
  end.
Definition delegations_get_for_child_execution (e : RunId) : U (option DelegationRequest) :=
  db (fun d => select (child_in_execution d e) delegation_key (db_delegations d) !! 0%nat).
(** [UPDATE ... WHERE id AND status = dispatched] *)
Definition delegations_finalize_if_dispatched (id : DelegationRequestId) (status : DelegationStatus)
    (completed_at : Z) (failure_code : option str) : U bool :=
  x <- delegations_get id ;;
  match x with
  | Some x =>
      if bool_decide (dl_status x = DDISPATCHED)
      then save_row db_delegations set_db_delegations id
             (set_dl_failure_code failure_code (set_dl_completed_at (Some completed_at) (set_dl_status status x)))
           ;;; ret true
      else ret false
  | None => ret false
  end.

Definition delegations_add (x : DelegationRequest) : U unit :=
  add_row db_delegations set_db_delegations (dl_id x) x.
Definition delegations_list_for_run (r : RunId) : U (list DelegationRequest) :=
  db (fun d => select (fun x => id_eqb (dl_parent_run_id x) r) delegation_key (db_delegations d)).
(** [SELECT count( * )] over the requests that have a child run *)
Definition count_materialized (p : DelegationRequest -> bool) : U Z :=
  db (fun d => len (List.filter (fun x => p x && not_none (dl_child_run_id x))
                      (map snd (map_to_list (db_delegations d))))).
Definition delegations_count_materialized_for_run (r : RunId) : U Z :=
  count_materialized (fun x => id_eqb (dl_parent_run_id x) r).
Definition delegations_count_materialized_for_tree (root : DelegationRequestId) : U Z :=
  count_materialized (fun x => id_eqb (dl_root_delegation_id x) root).
(** The no-op UPDATEs that take a row's write lock *)
Definition delegations_lock_tree_for_dispatch (root : DelegationRequestId) : U bool :=
  db (fun d => not_none (db_delegations d !! root)).
Definition runs_lock_for_delegation_dispatch (r : RunId) : U bool :=
  db (fun d => not_none (db_runs d !! r)).
Definition delegations_get_for_child_task (t : TaskId) : U (option DelegationRequest) :=
  db (fun d => select (fun x => opt_id_eqb (dl_child_task_id x) t) delegation_key
                 (db_delegations d) !! 0%nat).

(** [AgentRepository], [AgentRevisionRepository], [TaskAgentBindingRepository].
    A loaded revision is rebuilt through its constructor, which accepts what
    was stored ([AgentEntity.agent_revision_new_inv]). *)
Definition agents_get (id : AgentId) : U (option Agent) := db (fun d => db_agents d !! id).
Definition agents_add (x : Agent) : U unit := add_row db_agents set_db_agents (ag_id x) x.
Definition agents_save (x : Agent) : U unit := save_row db_agents set_db_agents (ag_id x) x.
Definition agents_get_by_key (key : str) : U (option Agent) :=
  db (fun d => List.find (fun a => bool_decide (ag_key a = key)) (map snd (map_to_list (db_agents d)))).
Definition agent_revisions_get (id : AgentRevisionId) : U (option AgentRevision) :=
  db (fun d => db_agent_revisions d !! id).
Definition agent_revisions_add (x : AgentRevision) : U unit :=
  add_row db_agent_revisions set_db_agent_revisions (av_id x) x.
Definition agent_revisions_list_for_agent (a : AgentId) : U (list AgentRevision) :=
  db (fun d => select (fun r => id_eqb (av_agent_id r) a) (fun r => [av_version r]) (db_agent_revisions d)).
(** [coalesce(max(version), 0) + 1] *)
Definition agent_revisions_next_version (a : AgentId) : U Z :=
  db (fun d => foldr Z.max 0 (map av_version
                 (List.filter (fun r => id_eqb (av_agent_id r) a)
                    (map snd (map_to_list (db_agent_revisions d))))) + 1).
Definition task_agents_get (t : TaskId) : U (option TaskAgentBinding) := db (fun d => db_task_agents d !! t).
Definition task_agents_replace (t : TaskId) (binding : option TaskAgentBinding) : U unit :=
  upd (fun d => set_db_task_agents
    (match binding with Some b => <[ta_task_id b := b]> | None => id end (delete t (db_task_agents d))) d).

(** [RunAgentResolutionRepository.add_if_claimed]: [INSERT ... SELECT] from the
    claimed work item, [ON CONFLICT (run_id) DO NOTHING] *)
Definition agent_resolutions_add_if_claimed (x : RunAgentResolution) (c : Claim) (now : Z) : U bool :=
  claimed <- db (fun d => match db_queue d !! ar_run_id x with
                          | Some w => fence c now w && not_none (wi_lease_expires_at w)
                          | None => false end) ;;
  existing <- db (fun d => db_agent_resolutions d !! ar_run_id x) ;;
  if claimed && negb (not_none existing)
  then upd (fun d => set_db_agent_resolutions (<[ar_run_id x := x]> (db_agent_resolutions d)) d) ;;; ret true
  else ret false.

(** [TaskWorkflowBindingRepository] *)
Definition task_workflows_get_by_task_id (t : TaskId) : U (option TaskWorkflowBinding) :=
  db (fun d => db_task_workflows d !! t).
Definition node_executions_get_by_child_task_id (t : TaskId) : U (option WorkflowNodeExecution) :=
  db (fun d => select (fun x => opt_id_eqb (nx_child_task_id x) t) (fun x => value (nx_id x))
                 (db_node_executions d) !! 0%nat).

(** [ArtifactRepository] *)
Definition artifacts_get (id : ArtifactId) : U (option Artifact) := db (fun d => db_artifacts d !! id).
Definition artifacts_add (x : Artifact) : U unit := add_row db_artifacts set_db_artifacts (art_id x) x.
Definition artifacts_list_for_run (r : RunId) : U (list Artifact) :=
  db (fun d => select (fun a => id_eqb (art_run_id a) r) (fun a => art_created_at a :: value (art_id a))
                 (db_artifacts d)).

(** [WorkflowExecutionRepository], [WorkflowNodeExecutionRepository] *)
Definition execution_key (x : WorkflowExecution) : list Z := wx_started_at x :: value (wx_id x).
Definition executions_list_by_root_run_id (r : RunId) : U (list WorkflowExecution) :=
  db (fun d => select (fun x => id_eqb (wx_root_run_id x) r) execution_key (db_executions d)).
Definition node_executions_get_by_child_execution_id (e : RunId) : U (option WorkflowNodeExecution) :=
  db (fun d => select (fun x => opt_id_eqb (nx_child_execution_id x) e) (fun x => value (nx_id x))
                 (db_node_executions d) !! 0%nat).

(** [ScheduleRepository.complete_for_task] *)
Definition schedule_open (s : Schedule) : bool := bool_decide (sc_status s ∈ [SCH_ACTIVE; SCH_PAUSED]).
Definition schedules_complete_for_task (t : TaskId) (at_ : Z) (cancelled : bool) : U unit :=
  let status := if cancelled then SCH_CANCELLED else SCH_COMPLETED in
  upd (fun d => set_db_schedules
    ((fun s => if id_eqb (sc_task_id s) t && schedule_open s
               then set_sc_updated_at at_ (set_sc_next_fire_at None (set_sc_status status s)) else s)
     <$> db_schedules d) d).

(** The rest of [ScheduleRepository], [ScheduleFireRepository] *)
Definition schedules_get (id : ScheduleId) : U (option Schedule) := db (fun d => db_schedules d !! id).
Definition schedules_add (x : Schedule) : U unit := add_row db_schedules set_db_schedules (sc_id x) x.
Definition schedules_save (x : Schedule) : U unit := save_row db_schedules set_db_schedules (sc_id x) x.
Definition schedules_list_for_task (t : TaskId) (limit : nat) : U (list Schedule) :=
  db (fun d => take limit (select (fun s => id_eqb (sc_task_id s) t)
                 (fun s => sc_created_at s :: value (sc_id s)) (db_schedules d))).
Definition schedule_due (now : Z) (s : Schedule) : bool :=
  bool_decide (sc_status s = SCH_ACTIVE)
  && match sc_next_fire_at s with Some t => t <=? now | None => false end.
Definition schedules_list_due (now : Z) (limit : nat) : U (list Schedule) :=
  db (fun d => take limit (select (schedule_due now)
                 (fun s => default 0 (sc_next_fire_at s) :: value (sc_id s)) (db_schedules d))).
Definition schedule_fires_add (x : ScheduleFire) : U unit := add_row db_fires set_db_fires (sf_id x) x.
(** The join of the fires of the schedule with the live runs of their executions *)
Definition fires_has_non_terminal_execution_for_schedule (s : ScheduleId) : U bool :=
  db (fun d => existsb (fun f => id_eqb (sf_schedule_id f) s &&
                 existsb (fun r => run_in_execution (sf_run_id f) r && negb (run_terminal (run_status r)))
                   (map snd (map_to_list (db_runs d))))
                 (map snd (map_to_list (db_fires d)))).

(** [ScheduleDeliveryPolicyRepository], [ScheduleFireDeliveryPlanRepository] *)
Definition delivery_policies_get_for_schedule (s : ScheduleId) : U (option ScheduleDeliveryPolicy) :=
  db (fun d => db_delivery_policies d !! s).
(** Both arms write only while the schedule row is not terminal; an existing
    row keeps its creation time. *)
Definition delivery_policies_put_for_nonterminal_schedule (p : ScheduleDeliveryPolicy) : U bool :=
  schedule <- schedules_get (dp_schedule_id p) ;;
  if match schedule with Some s => negb (schedule_terminal (sc_status s)) | None => false end then
    existing <- delivery_policies_get_for_schedule (dp_schedule_id p) ;;
    let row := match existing with
               | Some e => mkDeliveryPolicy (dp_schedule_id p) (dp_route_id p) (dp_enabled p)
                             (dp_created_at e) (dp_updated_at p)
               | None => p end in
    save_row db_delivery_policies set_db_delivery_policies (dp_schedule_id p) row ;;;
    ret true
  else ret false.
Definition delivery_plans_add_for_fire (p : ScheduleFireDeliveryPlan) (f : ScheduleFire) : U unit :=
  raise_if (negb (id_eqb (pl_schedule_fire_id p) (sf_id f))
            || negb (id_eqb (pl_schedule_id p) (sf_schedule_id f))
            || negb (id_eqb (pl_execution_id p) (sf_run_id f)))
    (ValueError "delivery plan must bind exactly to its ScheduleFire") ;;;
  add_row db_delivery_plans set_db_delivery_plans (pl_id p) p.

(** Skill and agent resolutions, bindings, and usage records *)
Definition skill_resolutions_get (r : RunId) : U (option RunSkillResolution) :=
  db (fun d => db_skill_resolutions d !! r).
Definition skill_resolutions_add (x : RunSkillResolution) : U unit :=
  add_row db_skill_resolutions set_db_skill_resolutions (sr_run_id x) x.
Definition agent_resolutions_get (r : RunId) : U (option RunAgentResolution) :=
  db (fun d => db_agent_resolutions d !! r).
Definition agent_resolutions_add (x : RunAgentResolution) : U unit :=
  add_row db_agent_resolutions set_db_agent_resolutions (ar_run_id x) x.
Definition skill_bindings_list_for_run (r : RunId) : U (list RunSkillBinding) :=
  db (fun d => order_by (fun b => [sb_position b])
                 (filter (fun b => id_eqb (sb_run_id b) r = true) (db_skill_bindings d))).
Definition skill_bindings_add_all (l : list RunSkillBinding) : U unit :=
  upd (fun d => set_db_skill_bindings (db_skill_bindings d ++ l) d).
Definition usage_get_for_run_skill (r : RunId) (s : SkillId) : U (option SkillUsageRecord) :=
  db (fun d => db_usage d !! (r, s)).
(** [INSERT ... ON CONFLICT (run_id, skill_id) DO NOTHING] *)
Definition usage_add (x : SkillUsageRecord) : U unit :=
  let key := (ur_run_id x, ur_skill_id x) in
  upd (fun d => match db_usage d !! key with
                | Some _ => d
                | None => set_db_usage (<[key := x]> (db_usage d)) d
                end).

(** ** Database invariants

    [winv I]: both the durable database and the session satisfy [I].  An
    invariant of the tables is carried through every use case by the closure
    lemmas below; only the operations that write need an argument. *)
Definition winv (I : Db -> Prop) (w : World) : Prop := I (durable w) /\ I (staged w).

Section Winv.
Context (I : Db -> Prop).

Lemma preserves_db {A} (f : Db -> A) : preserves (winv I) (db f).
Proof. by intros w. Qed.
Lemma preserves_upd f : (forall d, I d -> I (f d)) -> preserves (winv I) (upd f).
Proof. intros Hf w [Hd Hs]. split; simpl; auto. Qed.
Lemma preserves_new_id `{Env} {k} : preserves (winv I) (new_id (k := k)).
Proof. by intros w. Qed.
Lemma preserves_uuid4_hex `{Env} : preserves (winv I) uuid4_hex.
Proof. by intros w. Qed.
Lemma preserves_now `{Env} : preserves (winv I) now.
Proof. by intros w. Qed.
Lemma preserves_commit : preserves (winv I) commit.
Proof. intros w [Hd Hs]. unfold commit. by destruct (integrity _). Qed.
Lemma preserves_with_uow {A} (m : U A) : preserves (winv I) m -> preserves (winv I) (with_uow m).
Proof.
  intros Hm w [Hd _]. unfold with_uow.
  specialize (Hm (mkWorld (durable w) (durable w) (draws w) (ticks w)) ltac:(done)).
  destruct (m _) as [r w']. by destruct Hm.
Qed.
Lemma preserves_on_queue {A} (m : M Queue A) :
  (forall d q, I d -> I (set_db_queue q d)) -> preserves (winv I) (on_queue m).
Proof.
  intros Hq w [Hd Hs]. unfold on_queue. destruct (m _) as [r q]. split; simpl; auto.
Qed.
Lemma preserves_add_row {k V} get set (id : Id k) (v : V) :
  (forall d, I d -> I (set (<[id := v]> (get d)) d)) -> preserves (winv I) (add_row get set id v).
Proof.
  intros Hs. unfold add_row. apply preserves_bind; [apply preserves_db|].
  intros t. destruct (t !! id); [apply preserves_raise | by apply preserves_upd].
Qed.
End Winv.

#[export] Hint Resolve preserves_db preserves_new_id preserves_uuid4_hex preserves_now preserves_commit
  preserves_with_uow : py.

(** Walk down a use case: structural rules, then the hint database. *)
Ltac keeps_step :=
  lazymatch goal with
  | |- preserves _ (with_uow _) => apply preserves_with_uow
  | |- preserves _ (bind _ _) => apply preserves_bind; [|intros]
  | |- preserves _ (for_each _ _) => apply preserves_for_each; intros
  | |- preserves _ (collect _ _) => apply preserves_collect; intros
  | |- preserves _ (try_except _ _) =>
      apply preserves_try; [|intros; unfold option_map, from_option; cbn beta iota]
  | |- preserves _ (match ?x with _ => _ end) => destruct x
  | |- preserves _ (let _ := _ in _) => cbv zeta
  | |- match (match ?x with _ => _ end) with _ => _ end => destruct x
  | |- match ?x with _ => _ end => destruct x
  | |- True => exact I
  end.
Ltac keeps := repeat first [ solve [auto with py nocore] | keeps_step ].

(** [keeps], opening whatever has no lemma *)
Ltac unfold_head :=
  match goal with |- preserves _ ?m =>
    let rec head t := lazymatch t with ?f _ => head f | _ => t end in
    let h := head m in unfold h end.
Ltac keeps_all := repeat (progress keeps || unfold_head).
