(* ===== verification/WorkflowStore.v ===== *)
(** * Repositories of the workflow tables

    [WorkflowRepository], [WorkflowRevisionRepository],
    [WorkflowExecutionRepository], [WorkflowNodeExecutionRepository],
    [RunWorkflowResolutionRepository] and [TaskWorkflowBindingRepository] of
    [src/friday/infrastructure/persistence/repositories.py].

    A stored revision holds its nodes and edges; loading it rebuilds it through
    its constructor, which accepts what was stored
    ([AgentMappers.workflow_revision_roundtrip]), with its nodes in key order. *)

From S2P Require Import Prelude Values RunEntity EventEntity WorkQueue WorkflowGraph WorkflowEntity.
From S2P Require Import WorkflowExecutionEntity SkillEntity ConversationEntity Tables Store.

Open Scope Z_scope.

(** ** [WorkflowRepository] *)
Definition workflow_key (w : Workflow) : list Z := wf_created_at w :: value (wf_id w).
Definition workflows_add (w : Workflow) : U unit := add_row db_workflows set_db_workflows (wf_id w) w.
Definition workflows_get (id : WorkflowId) : U (option Workflow) := db (fun d => db_workflows d !! id).
Definition workflows_get_by_key (key : str) : U (option Workflow) :=
  db (fun d => List.find (fun w => bool_decide (wf_key w = key)) (map snd (map_to_list (db_workflows d)))).
Definition workflows_save (w : Workflow) : U unit := save_row db_workflows set_db_workflows (wf_id w) w.
Definition workflows_list (limit : nat) : U (list Workflow) :=
  db (fun d => take limit (select (fun _ => true) workflow_key (db_workflows d))).

(** ** [WorkflowRevisionRepository] *)

(** [_load]: nodes come back ordered by key. *)
Definition load_revision (r : WorkflowRevision) : WorkflowRevision :=
  mkRevision (wr_id r) (wr_workflow_id r) (wr_version r) (wr_content_sha256 r) (wr_source_kind r)
    (order_by wn_node_key (wr_nodes r)) (wr_edges r) (wr_created_at r).
Definition workflow_revisions_add (r : WorkflowRevision) : U unit :=
  add_row db_workflow_revisions set_db_workflow_revisions (wr_id r) r.
Definition workflow_revisions_get (id : WorkflowRevisionId) : U (option WorkflowRevision) :=
  db (fun d => load_revision <$> db_workflow_revisions d !! id).
Definition workflow_revisions_list_for_workflow (w : WorkflowId) : U (list WorkflowRevision) :=
  db (fun d => map load_revision
                 (select (fun r => id_eqb (wr_workflow_id r) w) (fun r => [wr_version r])
                    (db_workflow_revisions d))).
(** [coalesce(max(version), 0) + 1] *)
Definition workflow_revisions_next_version (w : WorkflowId) : U Z :=
  db (fun d => foldr Z.max 0 (map wr_version
                 (List.filter (fun r => id_eqb (wr_workflow_id r) w)
                    (map snd (map_to_list (db_workflow_revisions d))))) + 1).

(** ** [WorkflowExecutionRepository] *)
Definition ConcurrencyConflict : exn := OtherError "ConcurrencyConflict".
Definition executions_create (x : WorkflowExecution) : U unit :=
  add_row db_executions set_db_executions (wx_id x) x.
Definition executions_get (id : WorkflowExecutionId) : U (option WorkflowExecution) :=
  db (fun d => db_executions d !! id).
(** [UPDATE ... WHERE id AND status = running]; when no row matched, the same
    outcome already stored is accepted. *)
Definition executions_update_status (id : WorkflowExecutionId) (status : WorkflowExecutionStatus)
    (completed_at : option Z) (failure_code failure_message : option str) : U unit :=
  row <- db (fun d => db_executions d !! id) ;;
  match row with
  | Some x =>
      if bool_decide (wx_status x = XRUNNING)
      then save_row db_executions set_db_executions id
             (set_wx_failure_message failure_message (set_wx_failure_code failure_code
               (set_wx_completed_at completed_at (set_wx_status status x))))
      else raise_if (negb (bool_decide (wx_status x = status))) ConcurrencyConflict
  | None => raise ConcurrencyConflict
  end.
(** A running execution with a dispatched node whose latest child run is
    terminal *)
Definition latest_of_execution (d : Db) (e : RunId) : option Run := reverse (execution_runs e d) !! 0%nat.
Definition recoverable (d : Db) (x : WorkflowExecution) : bool :=
  bool_decide (wx_status x = XRUNNING) &&
  existsb (fun n => id_eqb (nx_workflow_execution_id n) (wx_id x)
                    && bool_decide (nx_status n = NDISPATCHED)
                    && match nx_child_execution_id n with
                       | Some e => match latest_of_execution d e with
                                   | Some r => run_terminal (run_status r) | None => false end
                       | None => false end)
    (map snd (map_to_list (db_node_executions d))).
Definition executions_list_recoverable (limit : nat) : U (list WorkflowExecution) :=
  db (fun d => take limit (select (recoverable d) execution_key (db_executions d))).

(** ** [WorkflowNodeExecutionRepository] *)
Definition node_executions_create (n : WorkflowNodeExecution) : U unit :=
  add_row db_node_executions set_db_node_executions (nx_id n) n.
Definition node_executions_get (id : WorkflowNodeExecutionId) : U (option WorkflowNodeExecution) :=
  db (fun d => db_node_executions d !! id).
Definition expected_statuses (status : WorkflowNodeExecutionStatus) : list WorkflowNodeExecutionStatus :=
  match status with
  | NDISPATCHED | NBLOCKED | NPENDING => [NPENDING]
  | NSUCCEEDED | NFAILED => [NDISPATCHED]
  | NCANCELLED => [NPENDING; NDISPATCHED]
  end.
(** [UPDATE ... WHERE id AND status IN expected]; a terminal outcome already
    stored is accepted, a second dispatch never is. *)
Definition node_executions_update_status (id : WorkflowNodeExecutionId) (status : WorkflowNodeExecutionStatus)
    (child_task_id : option TaskId) (child_run_id child_execution_id : option RunId)
    (result_payload : json) (failure_code failure_message : option str)
    (started_at completed_at : option Z) : U unit :=
  row <- db (fun d => db_node_executions d !! id) ;;
  match row with
  | Some n =>
      if bool_decide (nx_status n ∈ expected_statuses status)
      then save_row db_node_executions set_db_node_executions id
             (mkNodeExecution (nx_id n) (nx_workflow_execution_id n) (nx_workflow_node_id n)
                (nx_workflow_revision_id n) (nx_node_key n) (nx_target_agent_id n)
                (nx_target_agent_revision_id n) (nx_target_agent_revision_sha256 n) status
                (nx_created_at n) child_task_id child_run_id child_execution_id result_payload
                failure_code failure_message started_at completed_at)
      else raise_if (negb (bool_decide (nx_status n = status) && negb (bool_decide (status = NDISPATCHED))))
             ConcurrencyConflict
  | None => raise ConcurrencyConflict
  end.
Definition node_key2 (n : WorkflowNodeExecution) : str * str := (nx_node_key n, value (nx_id n)).
(** [SELECT ... WHERE workflow_execution_id ORDER BY node_key, id] *)
Definition nodes_of_execution (d : Db) (e : WorkflowExecutionId) : list WorkflowNodeExecution :=
  merge_sort (key2_le node_key2)
    (filter (fun n => id_eqb (nx_workflow_execution_id n) e = true)
       (map snd (map_to_list (db_node_executions d)))).
Definition node_executions_list_by_execution (e : WorkflowExecutionId) : U (list WorkflowNodeExecution) :=
  db (fun d => nodes_of_execution d e).

(** ** [RunWorkflowResolutionRepository], [TaskWorkflowBindingRepository] *)
Definition workflow_resolutions_create (x : RunWorkflowResolution) : U unit :=
  add_row db_workflow_resolutions set_db_workflow_resolutions (wl_run_id x) x.
Definition workflow_resolutions_get_by_run_id (r : RunId) : U (option RunWorkflowResolution) :=
  db (fun d => db_workflow_resolutions d !! r).
(** [INSERT ... SELECT] from the claimed work item, [ON CONFLICT (run_id) DO NOTHING] *)
Definition workflow_resolutions_add_if_claimed (x : RunWorkflowResolution) (c : Claim) (now : Z) : U bool :=
  claimed <- db (fun d => match db_queue d !! wl_run_id x with
                          | Some w => fence c now w && not_none (wi_lease_expires_at w)
                          | None => false end) ;;
  existing <- db (fun d => db_workflow_resolutions d !! wl_run_id x) ;;
  if claimed && negb (not_none existing)
  then upd (fun d => set_db_workflow_resolutions (<[wl_run_id x := x]> (db_workflow_resolutions d)) d) ;;; ret true
  else ret false.

Definition task_workflows_bind (b : TaskWorkflowBinding) : U unit :=
  save_row db_task_workflows set_db_task_workflows (tw_task_id b) b.
Definition task_workflows_unbind (t : TaskId) : U unit :=
  upd (fun d => set_db_task_workflows (delete t (db_task_workflows d)) d).
