(* ===== verification/DeliveryStore.v ===== *)
(** * Repositories of the delivery tables

    [OutboundDeliveryRepository], [DeliveryAttemptRepository] and the reads and
    the one guarded [UPDATE] of [ScheduleFireDeliveryPlanRepository] in
    [src/friday/infrastructure/persistence/repositories.py].  Every write of a
    delivery after its insertion is one conditional [UPDATE]. *)

From S2P Require Import Prelude Values RunEntity EventEntity ScheduleEntity ScheduleDelivery.
From S2P Require Import DeliveryEntity WorkQueue SkillEntity ConversationEntity Tables Store WorkflowStore.

Open Scope Z_scope.

(** Proof of ownership of one delivery ([application/delivery_lifecycle.py]) *)
Record DeliveryClaim : Type := mkDeliveryClaim {
  dc_delivery_id : DeliveryId; dc_worker_id : str; dc_claim_token : str; dc_claim_generation : Z;
  dc_acquired_at : Z; dc_lease_expires_at : Z }.

(** ** [OutboundDeliveryRepository] *)
Definition deliveries_add (x : OutboundDelivery) : U unit :=
  add_row db_deliveries set_db_deliveries (od_id x) x.
Definition deliveries_get (id : DeliveryId) : U (option OutboundDelivery) := db (fun d => db_deliveries d !! id).
(** The two lookups by source; the source columns are unique. *)
Definition delivery_where (p : OutboundDelivery -> bool) (d : Db) : option OutboundDelivery :=
  List.find p (map snd (map_to_list (db_deliveries d))).
Definition deliveries_get_by_source_tool_invocation_id (i : ToolInvocationId) : U (option OutboundDelivery) :=
  db (delivery_where (fun x => bool_decide (od_source_tool_invocation_id x = Some i))).
Definition deliveries_get_by_source_schedule_fire_id (f : ScheduleFireId) : U (option OutboundDelivery) :=
  db (delivery_where (fun x => bool_decide (od_source_schedule_fire_id x = Some f))).

Definition delivery_due (now : Z) (x : OutboundDelivery) : bool :=
  bool_decide (od_status x = DQUEUED) && (od_available_at x <=? now).
Definition deliveries_list_due (now : Z) (limit : nat) : U (list OutboundDelivery) :=
  db (fun d => take limit (select (delivery_due now) (fun x => od_available_at x :: value (od_id x))
                             (db_deliveries d))).
Definition claim_expired (now : Z) (x : OutboundDelivery) : bool :=
  bool_decide (od_status x = DSENDING)
  && match od_claim_expires_at x with Some e => e <=? now | None => false end.
Definition deliveries_find_expired_claims (now : Z) (limit : nat) : U (list OutboundDelivery) :=
  db (fun d => take limit (select (claim_expired now)
                 (fun x => default 0 (od_claim_expires_at x) :: value (od_id x)) (db_deliveries d))).

(** [UPDATE ... WHERE id AND p]: whether one row was changed *)
Definition update_delivery (id : DeliveryId) (p : OutboundDelivery -> bool)
    (f : OutboundDelivery -> OutboundDelivery) : U bool :=
  row <- db (fun d => db_deliveries d !! id) ;;
  match row with
  | Some x => if p x then save_row db_deliveries set_db_deliveries id (f x) ;;; ret true else ret false
  | None => ret false
  end.

(** [try_claim]: the new generation *)
Definition claim_row (worker_id claim_token : str) (now lease_expires_at : Z) (x : OutboundDelivery)
    : OutboundDelivery :=
  set_od_updated_at now (set_od_attempt_count (od_attempt_count x + 1)
    (set_od_claim_expires_at (Some lease_expires_at)
      (set_od_claim_generation (od_claim_generation x + 1)
        (set_od_claim_token (Some claim_token) (set_od_claim_owner (Some worker_id)
          (set_od_status DSENDING x)))))).
Definition deliveries_try_claim (id : DeliveryId) (worker_id claim_token : str) (now lease_expires_at : Z)
    : U (option Z) :=
  claimed <- update_delivery id (delivery_due now) (claim_row worker_id claim_token now lease_expires_at) ;;
  if claimed then row <- deliveries_get id ;; ret (od_claim_generation <$> row) else ret None.

(** [_active_claim_predicate] *)
Definition active_claim (c : DeliveryClaim) (now : Z) (x : OutboundDelivery) : bool :=
  bool_decide (od_status x = DSENDING) && col_eq (od_claim_owner x) (dc_worker_id c)
  && col_eq (od_claim_token x) (dc_claim_token c) && (od_claim_generation x =? dc_claim_generation c)
  && match od_claim_expires_at x with Some e => now <? e | None => false end.
Definition claim_active_in (d : Db) (c : DeliveryClaim) (now : Z) : bool :=
  match db_deliveries d !! dc_delivery_id c with Some x => active_claim c now x | None => false end.
Definition deliveries_is_claim_active (c : DeliveryClaim) (now : Z) : U bool :=
  db (fun d => claim_active_in d c now).
Definition deliveries_mark_dispatch_started (c : DeliveryClaim) (now : Z) : U bool :=
  update_delivery (dc_delivery_id c)
    (fun x => active_claim c now x && negb (not_none (od_dispatch_started_at x)))
    (fun x => set_od_updated_at now (set_od_dispatch_started_at (Some now) x)).

(** Only the columns of the lifecycle are in the SET clause. *)
Definition with_lifecycle (y x : OutboundDelivery) : OutboundDelivery :=
  set_od_updated_at (od_updated_at y) (set_od_delivered_at (od_delivered_at y)
    (set_od_failure_message (od_failure_message y) (set_od_failure_code (od_failure_code y)
      (set_od_provider_message_id (od_provider_message_id y)
        (set_od_claim_expires_at (od_claim_expires_at y) (set_od_claim_token (od_claim_token y)
          (set_od_claim_owner (od_claim_owner y) (set_od_available_at (od_available_at y)
            (set_od_status (od_status y) x))))))))).
Definition deliveries_save_claimed_lifecycle (y : OutboundDelivery) (c : DeliveryClaim) (now : Z) : U bool :=
  update_delivery (od_id y)
    (fun x => active_claim c now x
              && (negb (bool_decide (od_status y = DQUEUED)) || negb (not_none (od_dispatch_started_at x))))
    (with_lifecycle y).

(** [_expired_claim_predicate] and the three recovery writes *)
Definition expired_claim (generation now : Z) (x : OutboundDelivery) : bool :=
  claim_expired now x && (od_claim_generation x =? generation).
Definition unclaim (x : OutboundDelivery) : OutboundDelivery :=
  set_od_claim_expires_at None (set_od_claim_token None (set_od_claim_owner None x)).
Definition end_expired (status : DeliveryStatus) (now : Z) (code message : str) (x : OutboundDelivery)
    : OutboundDelivery :=
  set_od_updated_at now (set_od_failure_message (Some message) (set_od_failure_code (Some code)
    (unclaim (set_od_status status x)))).
Definition deliveries_requeue_expired_pre_dispatch (id : DeliveryId) (generation now available_at : Z) : U bool :=
  update_delivery id
    (fun x => expired_claim generation now x && negb (not_none (od_dispatch_started_at x)))
    (fun x => set_od_updated_at now (unclaim (set_od_available_at available_at (set_od_status DQUEUED x)))).
Definition deliveries_fail_expired_pre_dispatch (id : DeliveryId) (generation now : Z) (code message : str)
    : U bool :=
  update_delivery id
    (fun x => expired_claim generation now x && negb (not_none (od_dispatch_started_at x)))
    (end_expired DFAILED now code message).
Definition deliveries_mark_expired_post_dispatch_ambiguous (id : DeliveryId) (generation now : Z)
    (code message : str) : U bool :=
  update_delivery id
    (fun x => expired_claim generation now x && not_none (od_dispatch_started_at x))
    (end_expired DAMBIGUOUS now code message).

(** ** [DeliveryAttemptRepository] *)

(** [INSERT ... SELECT] from the delivery whose boundary was crossed at
    [started_at] under this claim *)
Definition attempts_begin_for_claim (id : DeliveryAttemptId) (c : DeliveryClaim) (started_at now : Z) : U bool :=
  row <- db (fun d => db_deliveries d !! dc_delivery_id c) ;;
  match row with
  | Some x =>
      if active_claim c now x && bool_decide (od_dispatch_started_at x = Some started_at)
      then add_row db_attempts set_db_attempts id
             (mkAttempt id (od_id x) (od_claim_generation x) started_at None AO_IN_PROGRESS None) ;;;
           ret true
      else ret false
  | None => ret false
  end.

(** The attempt of a generation ([UNIQUE(delivery_id, claim_generation)]) *)
Definition attempt_of (d : Db) (id : DeliveryId) (generation : Z) : option DeliveryAttempt :=
  List.find (fun a => id_eqb (da_delivery_id a) id && (da_claim_generation a =? generation))
    (map snd (map_to_list (db_attempts d))).
Definition attempts_get_for_generation (id : DeliveryId) (generation : Z) : U (option DeliveryAttempt) :=
  db (fun d => attempt_of d id generation).
Definition open_attempt (d : Db) (id : DeliveryId) (generation : Z) : option DeliveryAttempt :=
  match attempt_of d id generation with
  | Some a => if bool_decide (da_outcome a = AO_IN_PROGRESS) then Some a else None
  | None => None
  end.
(** [_validated_terminal_write] *)
Definition validated_terminal_write (id : DeliveryId) (generation now : Z) (outcome : DeliveryAttemptOutcome)
    (failure_code : option str) : U (option str) :=
  a <- db (fun d => open_attempt d id generation) ;;
  lift (validate_delivery_attempt_shape outcome (match a with Some a => da_started_at a | None => now end)
          (Some now) failure_code).
(** [UPDATE ... WHERE delivery_id AND claim_generation AND in_progress AND p] *)
Definition close_attempt (id : DeliveryId) (generation now : Z) (outcome : DeliveryAttemptOutcome)
    (code : option str) (p : Db -> bool) : U bool :=
  a <- db (fun d => open_attempt d id generation) ;;
  allowed <- db p ;;
  match a with
  | Some a =>
      if allowed
      then save_row db_attempts set_db_attempts (da_id a)
             (mkAttempt (da_id a) (da_delivery_id a) (da_claim_generation a) (da_started_at a)
                (Some now) outcome code) ;;;
           ret true
      else ret false
  | None => ret false
  end.
Definition attempts_complete_for_claim (c : DeliveryClaim) (now : Z) (outcome : DeliveryAttemptOutcome)
    (failure_code : option str) : U bool :=
  code <- validated_terminal_write (dc_delivery_id c) (dc_claim_generation c) now outcome failure_code ;;
  close_attempt (dc_delivery_id c) (dc_claim_generation c) now outcome code (fun d => claim_active_in d c now).
Definition attempts_close_expired_as_ambiguous (id : DeliveryId) (generation now : Z) (failure_code : str)
    : U bool :=
  code <- validated_terminal_write id generation now AO_AMBIGUOUS (Some failure_code) ;;
  close_attempt id generation now AO_AMBIGUOUS code
    (fun d => match db_deliveries d !! id with
              | Some x => expired_claim generation now x && not_none (od_dispatch_started_at x)
              | None => false end).

(** ** [ScheduleFireDeliveryPlanRepository] *)
Definition plans_get_by_fire (f : ScheduleFireId) : U (option ScheduleFireDeliveryPlan) :=
  db (fun d => List.find (fun p => id_eqb (pl_schedule_fire_id p) f) (map snd (map_to_list (db_delivery_plans d)))).
(** A ready plan without a delivery, whose execution's latest run succeeded and
    was not rejected before *)
Definition plan_ready (d : Db) (p : ScheduleFireDeliveryPlan) : bool :=
  bool_decide (pl_status p = PLAN_READY)
  && negb (not_none (delivery_where (fun x => bool_decide (od_source_schedule_fire_id x
                                                           = Some (pl_schedule_fire_id p))) d))
  && match latest_of_execution d (pl_execution_id p) with
     | Some r => bool_decide (run_status r = RSUCCEEDED)
                 && negb (bool_decide (pl_content_rejected_run_id p = Some (run_id r)))
     | None => false
     end.
Definition plans_list_ready_without_delivery (limit : nat) : U (list ScheduleFireId) :=
  db (fun d => map pl_schedule_fire_id
                 (take limit (select (plan_ready d) (fun p => pl_created_at p :: value (pl_id p))
                                (db_delivery_plans d)))).
Definition reject_content (r : RunId) (p : ScheduleFireDeliveryPlan) : ScheduleFireDeliveryPlan :=
  mkPlan (pl_id p) (pl_schedule_fire_id p) (pl_schedule_id p) (pl_execution_id p) (pl_route_id p)
    (pl_route_fingerprint p) (pl_route_max_body_chars p) (pl_status p) (pl_reason_code p) (Some r)
    (pl_created_at p).
Definition plans_mark_content_rejected (f : ScheduleFireId) (r : RunId) : U bool :=
  plan <- plans_get_by_fire f ;;
  match plan with
  | Some p => if bool_decide (pl_status p = PLAN_READY)
              then save_row db_delivery_plans set_db_delivery_plans (pl_id p) (reject_content r p) ;;; ret true
              else ret false
  | None => ret false
  end.
