(* ===== verification/SkillStore.v ===== *)
(** * Repositories of skills and conversations

    [SkillRepository], [SkillRevisionRepository], [TaskSkillBindingRepository],
    [SkillRunFeedbackRepository], the claim-fenced insert of
    [RunSkillResolutionRepository], [ConversationRepository] and
    [ConversationTurnRepository] in
    [src/friday/infrastructure/persistence/repositories.py]. *)

From S2P Require Import Prelude Values RunEntity WorkQueue SkillEntity ConversationEntity Tables Store.

Open Scope Z_scope.

(** A cursor counts only when both of its parts are given. *)
Definition page_cursor (created_at : option Z) (id : option str) : option (list Z) :=
  match created_at, id with Some t, Some i => Some (t :: i) | _, _ => None end.

(** ** Skills.  A loaded revision is rebuilt through its constructor, which
    accepts what was stored ([SkillEntity.skill_revision_sealed]). *)
Definition skill_key (x : Skill) : list Z := sk_created_at x :: value (sk_id x).
Definition skills_get (id : SkillId) : U (option Skill) := db (fun d => db_skills d !! id).
Definition skills_add (x : Skill) : U unit := add_row db_skills set_db_skills (sk_id x) x.
Definition skills_save (x : Skill) : U unit := save_row db_skills set_db_skills (sk_id x) x.
Definition skills_get_by_key (key : str) : U (option Skill) :=
  db (fun d => List.find (fun x => bool_decide (sk_key x = key)) (map snd (map_to_list (db_skills d)))).
Definition skills_list (limit : nat) : U (list Skill) :=
  db (fun d => take limit (select (fun _ => true) skill_key (db_skills d))).
Definition skills_list_page (limit : nat) (after_created_at : option Z) (after_id : option str) : U (list Skill) :=
  db (fun d => select_page (fun _ => true) skill_key limit (page_cursor after_created_at after_id) (db_skills d)).

Definition skill_revisions_add (x : SkillRevision) : U unit :=
  add_row db_skill_revisions set_db_skill_revisions (kr_id x) x.
Definition skill_revisions_get (id : SkillRevisionId) : U (option SkillRevision) :=
  db (fun d => db_skill_revisions d !! id).
Definition revisions_of (s : SkillId) (d : Db) : list SkillRevision :=
  select (fun r => id_eqb (kr_skill_id r) s) (fun r => [kr_version r]) (db_skill_revisions d).
Definition skill_revisions_list_for_skill (s : SkillId) : U (list SkillRevision) := db (revisions_of s).
(** newest first *)
Definition skill_revisions_list_for_skill_page (s : SkillId) (limit : nat) (before_version : option Z)
    : U (list SkillRevision) :=
  db (fun d => take limit (List.filter
        (fun r => match before_version with Some v => kr_version r <? v | None => true end)
        (reverse (revisions_of s d)))).
Definition skill_revisions_next_version (s : SkillId) : U Z :=
  db (fun d => foldr Z.max 0 (map kr_version
                 (List.filter (fun r => id_eqb (kr_skill_id r) s)
                    (map snd (map_to_list (db_skill_revisions d))))) + 1).

Definition task_skills_list_for_task (t : TaskId) : U (list TaskSkillBinding) :=
  db (fun d => order_by (fun b => [tk_position b])
                 (List.filter (fun b => id_eqb (tk_task_id b) t) (db_task_skills d))).
Definition task_skills_replace (t : TaskId) (bindings : list TaskSkillBinding) : U unit :=
  upd (fun d => set_db_task_skills
    (List.filter (fun b => negb (id_eqb (tk_task_id b) t)) (db_task_skills d) ++ bindings) d).

(** [INSERT ... SELECT] from the claimed work item, [ON CONFLICT (run_id) DO NOTHING] *)
Definition skill_resolutions_add_if_claimed (x : RunSkillResolution) (c : Claim) (now : Z) : U bool :=
  claimed <- db (fun d => match db_queue d !! sr_run_id x with
                          | Some w => fence c now w && not_none (wi_lease_expires_at w)
                          | None => false end) ;;
  existing <- db (fun d => db_skill_resolutions d !! sr_run_id x) ;;
  if claimed && negb (not_none existing)
  then upd (fun d => set_db_skill_resolutions (<[sr_run_id x := x]> (db_skill_resolutions d)) d) ;;; ret true
  else ret false.

Definition feedback_add (x : SkillRunFeedback) : U unit := add_row db_feedback set_db_feedback (fb_id x) x.
Definition feedback_list_for_run_skill (r : RunId) (s : SkillId) : U (list SkillRunFeedback) :=
  db (fun d => select (fun x => id_eqb (fb_run_id x) r && id_eqb (fb_skill_id x) s)
                 (fun x => fb_created_at x :: value (fb_id x)) (db_feedback d)).

(** ** Conversations *)
Definition conversations_add (x : Conversation) : U unit :=
  add_row db_conversations set_db_conversations (cv_id x) x.
Definition conversations_get (id : ConversationId) : U (option Conversation) :=
  db (fun d => db_conversations d !! id).
Definition conversations_save (x : Conversation) : U unit :=
  save_row db_conversations set_db_conversations (cv_id x) x.

Definition turn_key (x : ConversationTurn) : list Z := ct_created_at x :: value (ct_id x).
Definition turns_add (x : ConversationTurn) : U unit := add_row db_turns set_db_turns (ct_id x) x.
Definition turns_get (id : ConversationTurnId) : U (option ConversationTurn) := db (fun d => db_turns d !! id).
(** The two lookups by unique columns *)
Definition turn_where (p : ConversationTurn -> bool) (d : Db) : option ConversationTurn :=
  List.find p (map snd (map_to_list (db_turns d))).
Definition turn_for_client (c : ConversationId) (client_turn_id : str) (x : ConversationTurn) : bool :=
  id_eqb (ct_conversation_id x) c && bool_decide (ct_client_turn_id x = client_turn_id).
Definition turns_get_by_client_turn_id (c : ConversationId) (client_turn_id : str) : U (option ConversationTurn) :=
  db (turn_where (turn_for_client c client_turn_id)).
Definition turns_get_by_run (r : RunId) : U (option ConversationTurn) :=
  db (turn_where (fun x => id_eqb (ct_run_id x) r)).
Definition turns_list_for_conversation_page (c : ConversationId) (limit : nat) (after_created_at : option Z)
    (after_id : option str) : U (list ConversationTurn) :=
  db (fun d => select_page (fun x => id_eqb (ct_conversation_id x) c) turn_key limit
                 (page_cursor after_created_at after_id) (db_turns d)).
(** The newest turns before the cursor, oldest first *)
Definition turns_before (c : ConversationId) (cursor : option (list Z)) (limit : nat) (d : Db)
    : list ConversationTurn :=
  reverse (take limit (reverse (select
    (fun x => id_eqb (ct_conversation_id x) c
              && match cursor with Some k => negb (lex_leb k (turn_key x)) | None => true end)
    turn_key (db_turns d)))).
Definition turns_list_recent_before (c : ConversationId) (before_created_at : option Z) (before_id : option str)
    (limit : nat) : U (list ConversationTurn) :=
  db (turns_before c (page_cursor before_created_at before_id) limit).
