(* ===== verification/ImprovementStore.v ===== *)
(** * Repositories of skill evaluation, improvement and promotion

    [SkillEvaluationSuiteRepository], [SkillEvaluationCaseRepository],
    [SkillEvaluationRunRepository], [SkillEvaluationCaseResultRepository],
    [SkillCandidateEvaluationRepository], [SkillImprovementProposalRepository],
    [SkillImprovementWorkRepository], [SkillEvidenceSnapshotRepository],
    [SkillImprovementPolicyRepository], [SkillPromotionRequestRepository] and
    [SkillRollbackRequestRepository] in
    [src/friday/infrastructure/persistence/repositories.py], with
    [SkillUsageRecordRepository.list_for_skill]. *)

From S2P Require Import Prelude Values SkillEntity ImprovementEntity Tables Store SkillStore.

Open Scope Z_scope.

(** ** Evaluation *)
Definition suites_get (id : SkillEvaluationSuiteId) : U (option SkillEvaluationSuite) := db (fun d => db_suites d !! id).
Definition suites_add (x : SkillEvaluationSuite) : U unit := add_row db_suites set_db_suites (es_suite_id x) x.
Definition suite_cases (s : SkillEvaluationSuiteId) (d : Db) : list SkillEvaluationCase :=
  select (fun x => id_eqb (ec_suite_id x) s) (fun x => [ec_position x]) (db_cases d).
Definition cases_list_for_suite (s : SkillEvaluationSuiteId) : U (list SkillEvaluationCase) := db (suite_cases s).
Definition cases_add (x : SkillEvaluationCase) : U unit := add_row db_cases set_db_cases (ec_id x) x.
Definition evaluation_runs_get (id : SkillEvaluationRunId) : U (option SkillEvaluationRun) :=
  db (fun d => db_evaluation_runs d !! id).
Definition evaluation_runs_add (x : SkillEvaluationRun) : U unit :=
  add_row db_evaluation_runs set_db_evaluation_runs (er_id x) x.
Definition case_results_add_all (l : list SkillEvaluationCaseResult) : U unit :=
  upd (fun d => set_db_case_results (db_case_results d ++ l) d).
Definition case_results_of (r : SkillEvaluationRunId) (d : Db) : list SkillEvaluationCaseResult :=
  order_by (fun x => value (cr_case_id x))
    (List.filter (fun x => id_eqb (cr_evaluation_run_id x) r) (db_case_results d)).
Definition case_results_list_for_run (r : SkillEvaluationRunId) : U (list SkillEvaluationCaseResult) :=
  db (case_results_of r).
Definition candidates_add (x : SkillCandidateEvaluation) : U unit := add_row db_candidates set_db_candidates (ce_id x) x.
Definition candidate_for (p : SkillImprovementProposalId) (d : Db) : option SkillCandidateEvaluation :=
  List.find (fun x => id_eqb (ce_proposal_id x) p) (map snd (map_to_list (db_candidates d))).
Definition candidates_get_for_proposal (p : SkillImprovementProposalId) : U (option SkillCandidateEvaluation) :=
  db (candidate_for p).

(** ** Proposals and their evidence *)
Definition proposals_get (id : SkillImprovementProposalId) : U (option SkillImprovementProposal) :=
  db (fun d => db_proposals d !! id).
Definition proposals_add (x : SkillImprovementProposal) : U unit := add_row db_proposals set_db_proposals (ip_id x) x.
Definition proposals_save (x : SkillImprovementProposal) : U unit := save_row db_proposals set_db_proposals (ip_id x) x.
Definition proposals_list_for_skill (s : SkillId) : U (list SkillImprovementProposal) :=
  db (fun d => select (fun x => id_eqb (ip_skill_id x) s) (fun x => ip_created_at x :: value (ip_id x)) (db_proposals d)).
Definition evidence_get (id : SkillEvidenceSnapshotId) : U (option SkillEvidenceSnapshot) := db (fun d => db_evidence d !! id).
Definition evidence_add (x : SkillEvidenceSnapshot) : U unit := add_row db_evidence set_db_evidence (es_id x) x.
(** newest first *)
Definition usage_list_for_skill (s : SkillId) (limit : nat) : U (list SkillUsageRecord) :=
  db (fun d => take limit (reverse (select (fun x => id_eqb (ur_skill_id x) s)
                 (fun x => ur_completed_at x :: value (ur_id x)) (db_usage d)))).

(** ** Policies *)
Definition improvement_policies_get (s : SkillId) : U (option SkillImprovementPolicy) :=
  db (fun d => db_improvement_policies d !! s).
Definition improvement_policies_save (x : SkillImprovementPolicy) : U unit :=
  upd (fun d => set_db_improvement_policies (<[sp_skill_id x := x]> (db_improvement_policies d)) d).
Definition enabled_policies (limit : nat) (d : Db) : list SkillImprovementPolicy :=
  take limit (select sp_enabled (fun x => sp_updated_at x :: value (sp_skill_id x)) (db_improvement_policies d)).
Definition improvement_policies_list_enabled (limit : nat) : U (list SkillImprovementPolicy) := db (enabled_policies limit).
(** [(now - policy.last_triggered_at).total_seconds() < policy.cooldown_seconds] *)
Definition cooling_down (t : Z) (x : SkillImprovementPolicy) : bool :=
  match sp_last_triggered_at x with Some l => t - l <? sp_cooldown_seconds x * 1000000 | None => false end.
Definition LIST_ALL : nat := Z.to_nat 100000.
Definition improvement_policies_list_due_enabled (t : Z) (limit : nat) : U (list SkillImprovementPolicy) :=
  db (fun d => take limit (List.filter (fun x => negb (cooling_down t x)) (enabled_policies LIST_ALL d))).

(** ** Improvement work *)
Definition work_get (id : SkillImprovementWorkId) : U (option SkillImprovementWork) := db (fun d => db_improvement_work d !! id).
Definition work_save (x : SkillImprovementWork) : U unit :=
  save_row db_improvement_work set_db_improvement_work (iw_id x) x.
(** Active work of a skill; [FAILED] counts, as it is tried again. *)
Definition active_work (s : SkillId) (d : Db) : list SkillImprovementWork :=
  select (fun x => id_eqb (iw_skill_id x) s && work_active (iw_state x))
    (fun x => iw_created_at x :: value (iw_id x)) (db_improvement_work d).
Definition work_get_active_for_skill (s : SkillId) : U (option SkillImprovementWork) := db (fun d => head (active_work s d)).
(** [INSERT ... ON CONFLICT DO NOTHING] *)
Definition work_add_if_active_absent (x : SkillImprovementWork) : U bool :=
  existing <- work_get (iw_id x) ;;
  active <- work_get_active_for_skill (iw_skill_id x) ;;
  if not_none existing || (work_active (iw_state x) && not_none active) then ret false
  else work_save x ;;; ret true.
Definition claimable_work (s : SkillId) (t : Z) (x : SkillImprovementWork) : bool :=
  id_eqb (iw_skill_id x) s && work_active (iw_state x) && (iw_next_attempt_at x <=? t)
  && (negb (not_none (iw_claimed_by x)) || match iw_lease_expires_at x with Some l => l <=? t | None => false end).
Definition claim_work (worker token : str) (t lease : Z) (x : SkillImprovementWork) : SkillImprovementWork :=
  mkWork (iw_id x) (iw_skill_id x) (iw_state x) (iw_proposal_id x) (iw_attempt_count x) (iw_next_attempt_at x)
    (Some worker) (Some token) (iw_claim_generation x + 1) (Some lease) (iw_failure_code x) (iw_failure_detail x)
    (iw_created_at x) t.
Definition work_claim_for_skill (s : SkillId) (worker token : str) (t lease : Z) : U (option SkillImprovementWork) :=
  rows <- db (fun d => List.filter (claimable_work s t) (map snd (map_to_list (db_improvement_work d)))) ;;
  match rows with
  | [] => ret None
  | _ :: _ =>
      upd (fun d => set_db_improvement_work
             ((fun x => if claimable_work s t x then claim_work worker token t lease x else x) <$> db_improvement_work d) d) ;;;
      work_get_active_for_skill s
  end.
Definition work_fence (worker token : str) (generation t : Z) (x : SkillImprovementWork) : bool :=
  bool_decide (iw_claimed_by x = Some worker) && bool_decide (iw_claim_token x = Some token)
  && (iw_claim_generation x =? generation)
  && match iw_lease_expires_at x with Some l => t <? l | None => false end.
Definition work_save_if_claimed (x : SkillImprovementWork) (worker token : str) (generation t : Z) : U bool :=
  stored <- work_get (iw_id x) ;;
  match stored with
  | Some y => if work_fence worker token generation t y then work_save x ;;; ret true else ret false
  | None => ret false
  end.

(** ** Promotion and rollback requests *)
Definition promotions_get (id : SkillPromotionRequestId) : U (option SkillPromotionRequest) := db (fun d => db_promotions d !! id).
Definition promotions_add (x : SkillPromotionRequest) : U unit := add_row db_promotions set_db_promotions (pq_id x) x.
Definition promotions_save (x : SkillPromotionRequest) : U unit := save_row db_promotions set_db_promotions (pq_id x) x.
Definition rollbacks_get (id : SkillRollbackRequestId) : U (option SkillRollbackRequest) := db (fun d => db_rollbacks d !! id).
Definition rollbacks_add (x : SkillRollbackRequest) : U unit := add_row db_rollbacks set_db_rollbacks (rb_id x) x.
Definition rollbacks_save (x : SkillRollbackRequest) : U unit := save_row db_rollbacks set_db_rollbacks (rb_id x) x.
