(* ===== verification/Transactions.v ===== *)
(** * Following a transaction through a few tables

    A Hoare logic for use cases that write more than one row: [view] is the part
    of the database a component owns, [steps] says what a piece of a transaction
    turns it into, [same] that a piece leaves it alone, [lands] that whatever the
    transaction commits satisfies the component's invariant, and [commits] what it
    has committed when it returns. *)

From S2P Require Import Prelude Values WorkQueue SkillEntity ConversationEntity Tables Store.

Open Scope Z_scope.

(** [pure m R]: whatever [m] returns satisfies [R]. *)
Definition pure {A} (m : U A) (R : A -> Prop) : Prop := yields (fun _ => True) m R.

Lemma pure_any {A} (m : U A) : pure m (fun _ => True).
Proof. intros w _. by destruct (m w) as [[]]. Qed.
Lemma pure_ret {A} (a : A) (R : A -> Prop) : R a -> pure (ret a) R.
Proof. by intros Ha w. Qed.
Lemma pure_bind {A B} (m : U A) (f : A -> U B) Q R :
  pure m Q -> (forall a, Q a -> pure (f a) R) -> pure (bind m f) R.
Proof. apply yields_bind. Qed.
(** A step whose result is not used *)
Ltac p_skip := eapply pure_bind; [apply pure_any|intros ? _].

(** A view of the database without the work queue *)
Class View {V} (view : Db -> V) : Prop := view_queue : forall q d, view (set_db_queue q d) = view d.

Section Views.
Context {V : Type} (view : Db -> V).

(** Steps of the transaction: [durable] stays put, and [P] turns into [Q]. *)
Definition steps {A} (D : Db) (P : V -> Prop) (m : U A) (Q : A -> V -> Prop) : Prop :=
  forall w, durable w = D -> P (view (staged w)) ->
    match m w with
    | (Ok a, w') => durable w' = D /\ Q a (view (staged w'))
    | (Raise _, w') => durable w' = D
    end.
(** Nothing happens to the view. *)
Definition same (D : Db) (v : V) (w : World) : Prop := durable w = D /\ view (staged w) = v.

Section Rules.
Context (D : Db).

Lemma steps_bind {A B} P (m : U A) (f : A -> U B) Q R :
  steps D P m Q -> (forall a, steps D (Q a) (f a) R) -> steps D P (bind m f) R.
Proof.
  intros Hm Hf w Hw HP. specialize (Hm w Hw HP). unfold bind. destruct (m w) as [[a|e] w']; [|done].
  destruct Hm as [Hw' HQ]. by apply Hf.
Qed.
Lemma steps_mono {A} (P P' : V -> Prop) (m : U A) (Q Q' : A -> V -> Prop) :
  steps D P m Q -> (forall v, P' v -> P v) -> (forall a v, Q a v -> Q' a v) -> steps D P' m Q'.
Proof.
  intros Hm HP HQ w Hw HPw. specialize (Hm w Hw (HP _ HPw)). destruct (m w) as [[a|e] w']; [|done].
  destruct Hm as [? ?]. auto.
Qed.
Lemma steps_also {A} P (m : U A) Q R :
  steps D P m Q -> pure m R -> steps D P m (fun a v => Q a v /\ R a).
Proof.
  intros Hm Hp w Hw HP. specialize (Hm w Hw HP). specialize (Hp w I). destruct (m w) as [[a|e] w']; [|done].
  destruct Hm, Hp. auto.
Qed.
(** From the exact view to a property of it *)
Lemma steps_at {A} (P : V -> Prop) (m : U A) Q :
  (forall v, P v -> steps D (fun v' => v' = v) m Q) -> steps D P m Q.
Proof. intros Hm w Hw HP. by apply (Hm _ HP). Qed.
(** A step that leaves the view alone *)
Lemma steps_same {A} P (m : U A) (R : A -> Prop) :
  (forall v, preserves (same D v) m) -> pure m R -> steps D P m (fun a v => P v /\ R a).
Proof.
  intros Hm Hp w Hw HP. specialize (Hm _ w (conj Hw eq_refl)). specialize (Hp w I).
  destruct (m w) as [[a|e] w']; cbn in *; [|by destruct Hm].
  destruct Hm as [Hd He], Hp as [_ HR]. by rewrite He.
Qed.
Lemma steps_ret {A} (P : V -> Prop) (a : A) Q : (forall v, P v -> Q a v) -> steps D P (ret a) Q.
Proof. intros HQ w Hw HP. by split; [|apply HQ]. Qed.
Lemma steps_raise {A} P e (Q : A -> V -> Prop) : steps D P (raise e) Q.
Proof. by intros w. Qed.
(** A pure fact in the precondition *)
Lemma steps_fact {A} P (F : Prop) (m : U A) Q :
  (F -> steps D P m Q) -> steps D (fun v => P v /\ F) m Q.
Proof. intros Hm w Hw [HP HF]. by apply Hm. Qed.
Lemma steps_db {A} P (f : Db -> A) Q :
  (forall d, P (view d) -> Q (f d) (view d)) -> steps D P (db f) Q.
Proof. intros HQ w Hw HP. split; [done|]. by apply HQ. Qed.
Lemma steps_upd P f (Q : V -> Prop) :
  (forall d, P (view d) -> Q (view (f d))) -> steps D P (upd f) (fun _ => Q).
Proof. intros HQ w Hw HP. split; [done|]. by apply HQ. Qed.
(** A step that leaves the view alone, its result unused or known *)
Lemma steps_frame {A B} P (m : U A) (f : A -> U B) Q :
  (forall v, preserves (same D v) m) -> (forall a, steps D P (f a) Q) -> steps D P (bind m f) Q.
Proof.
  intros Hm Hf. eapply steps_bind; [apply (steps_same _ _ (fun _ => True) Hm), pure_any|].
  intros a. by apply steps_fact.
Qed.
Lemma steps_know {A B} P (m : U A) (f : A -> U B) R Q :
  (forall v, preserves (same D v) m) -> pure m R -> (forall a, R a -> steps D P (f a) Q) ->
  steps D P (bind m f) Q.
Proof.
  intros Hm HR Hf. eapply steps_bind; [apply (steps_same _ _ _ Hm HR)|].
  intros a. apply steps_fact, Hf.
Qed.

Lemma same_db {A} v (f : Db -> A) : preserves (same D v) (db f).
Proof. by intros w. Qed.
Lemma same_new_id `{Env} {k} v : preserves (same D v) (@new_id _ k).
Proof. by intros w. Qed.
Lemma same_uuid4_hex `{Env} v : preserves (same D v) uuid4_hex.
Proof. by intros w. Qed.
Lemma same_now `{Env} v : preserves (same D v) now.
Proof. by intros w. Qed.
Lemma same_on_queue `{!View view} {A} v (m : M Queue A) : preserves (same D v) (on_queue m).
Proof.
  intros w [Hd Hs]. unfold on_queue. destruct (m _) as [r q]. split; [done|]. cbn. by rewrite view_queue.
Qed.
Lemma same_upd v f : (forall d, view (f d) = view d) -> preserves (same D v) (upd f).
Proof. intros Hf w [Hd Hs]. split; [done|]. cbn. by rewrite Hf. Qed.
Lemma same_add {k X} v get set (i : Id k) (x : X) :
  (forall m d, view (set m d) = view d) -> preserves (same D v) (add_row get set i x).
Proof.
  intros Hs. unfold add_row. apply preserves_bind; [apply same_db|]. intros m.
  destruct (m !! i); [apply preserves_raise|]. apply same_upd. intros d. apply Hs.
Qed.
End Rules.

(** A transaction that does not commit leaves the database alone. *)
Lemma steps_with_uow {A} D (P : V -> Prop) (m : U A) Q w :
  durable w = D -> P (view D) -> steps D P m Q ->
  durable (snd (with_uow m w)) = D /\ forall a, fst (with_uow m w) = Ok a -> exists v, Q a v.
Proof.
  intros Hw HP Hm. unfold with_uow. specialize (Hm (mkWorld (durable w) (durable w) (draws w) (ticks w))).
  cbn in Hm. rewrite Hw in *. specialize (Hm eq_refl HP). destruct (m _) as [[a|e] w']; [|done].
  destruct Hm as [Hd HQ]. split; [done|]. intros ? [= <-]. by eexists.
Qed.

(** ** What a transaction that returns has committed; one that raises has
    committed nothing *)
Definition commits {A} (D : Db) (P : V -> Prop) (m : U A) (R : A -> V -> Prop) : Prop :=
  forall w, durable w = D -> P (view (staged w)) ->
    match m w with (Ok a, w') => R a (view (durable w')) | (Raise _, w') => durable w' = D end.

Section Commits.
Context (D : Db).

Lemma commits_bind {A B} P (m : U A) (f : A -> U B) Q R :
  steps D P m Q -> (forall a, commits D (Q a) (f a) R) -> commits D P (bind m f) R.
Proof.
  intros Hm Hf w Hw HP. specialize (Hm w Hw HP). unfold bind. destruct (m w) as [[a|e] w']; [|done].
  destruct Hm as [Hw' HQ]. by apply (Hf a).
Qed.
Lemma commits_know {A B} P (m : U A) (f : A -> U B) F R :
  (forall v, preserves (same D v) m) -> pure m F -> (forall a, F a -> commits D P (f a) R) ->
  commits D P (bind m f) R.
Proof.
  intros Hm HF Hf. eapply commits_bind; [apply (steps_same _ _ _ _ Hm HF)|].
  intros a w Hw [HP Ha]. by apply (Hf a).
Qed.
Lemma commits_frame {A B} P (m : U A) (f : A -> U B) R :
  (forall v, preserves (same D v) m) -> (forall a, commits D P (f a) R) -> commits D P (bind m f) R.
Proof. intros Hm Hf. eapply commits_know; [exact Hm|apply pure_any|]. by intros a _. Qed.
Lemma commits_at {A} (P : V -> Prop) (m : U A) R :
  (forall v, P v -> commits D (fun v' => v' = v) m R) -> commits D P m R.
Proof. intros Hm w Hw HP. by apply (Hm _ HP). Qed.
Lemma commits_fact {A} P (F : Prop) (m : U A) R :
  (F -> commits D P m R) -> commits D (fun v => P v /\ F) m R.
Proof. intros Hm w Hw [HP HF]. by apply Hm. Qed.
Lemma commits_ret {A} P (a : A) (R : A -> V -> Prop) : R a (view D) -> commits D P (ret a) R.
Proof. intros HR w Hw HP. cbn. by rewrite Hw. Qed.
Lemma commits_db {A} P (f : Db -> A) (R : A -> V -> Prop) :
  (forall d, P (view d) -> R (f d) (view D)) -> commits D P (db f) R.
Proof. intros HR w Hw HP. cbn. rewrite Hw. by apply HR. Qed.
Lemma commits_raise {A} P e (R : A -> V -> Prop) : commits D P (raise e) R.
Proof. by intros w. Qed.
Lemma commits_commit {A} (P : V -> Prop) (a : A) (R : A -> V -> Prop) :
  (forall v, P v -> R a v) -> commits D P (commit ;;; ret a) R.
Proof. intros HP w Hw Hs. unfold bind, commit. destruct (integrity _); cbn; auto. Qed.
Lemma commits_with_uow {A} (P : V -> Prop) (m : U A) R w :
  durable w = D -> P (view D) -> commits D P m R ->
  match with_uow m w with (Ok a, w') => R a (view (durable w')) | (Raise _, w') => durable w' = D end.
Proof.
  intros Hw HP Hm. unfold with_uow. specialize (Hm (mkWorld (durable w) (durable w) (draws w) (ticks w))).
  cbn in Hm. rewrite Hw in *. specialize (Hm eq_refl HP). by destruct (m _) as [[] w'].
Qed.
End Commits.

(** ** What a transaction commits *)
Context (good : V -> Prop).

Definition lands {A} (D : Db) (P : V -> Prop) (m : U A) : Prop :=
  forall w, durable w = D -> P (view (staged w)) -> good (view (durable (snd (m w)))).

Section Lands.
Context (D : Db) (HD : good (view D)).

Lemma lands_bind {A B} P (m : U A) (f : A -> U B) Q :
  steps D P m Q -> (forall a, lands D (Q a) (f a)) -> lands D P (bind m f).
Proof.
  intros Hm Hf w Hw HP. specialize (Hm w Hw HP). unfold bind. destruct (m w) as [[a|e] w']; cbn.
  - destruct Hm as [Hw' HQ]. by apply (Hf a).
  - by rewrite Hm.
Qed.
Lemma lands_at {A} (P : V -> Prop) (m : U A) :
  (forall v, P v -> lands D (fun v' => v' = v) m) -> lands D P m.
Proof. intros Hm w Hw HP. by apply (Hm _ HP). Qed.
Lemma lands_ret {A} P (a : A) : lands D P (ret a).
Proof. intros w Hw HP. cbn. by rewrite Hw. Qed.
Lemma lands_raise {A} P e : lands D P (raise (A := A) e).
Proof. intros w Hw HP. cbn. by rewrite Hw. Qed.
Lemma lands_commit {A} (P : V -> Prop) (a : A) :
  (forall v, P v -> good v) -> lands D P (commit ;;; ret a).
Proof. intros HP w Hw Hs. unfold bind, commit. destruct (integrity _); cbn; [auto|by rewrite Hw]. Qed.
Lemma lands_commit_last (P : V -> Prop) : (forall v, P v -> good v) -> lands D P commit.
Proof. intros HP w Hw Hs. unfold commit. destruct (integrity _); cbn; [auto|by rewrite Hw]. Qed.
Lemma lands_frame {A B} P (m : U A) (f : A -> U B) :
  (forall v, preserves (same D v) m) -> (forall a, lands D P (f a)) -> lands D P (bind m f).
Proof.
  intros Hm Hf. eapply lands_bind; [apply (steps_same _ _ _ (fun _ => True) Hm), pure_any|].
  intros a w Hw [HP _]. by apply Hf.
Qed.
Lemma lands_know {A B} P (m : U A) (f : A -> U B) R :
  (forall v, preserves (same D v) m) -> pure m R -> (forall a, R a -> lands D P (f a)) ->
  lands D P (bind m f).
Proof.
  intros Hm HR Hf. eapply lands_bind; [apply (steps_same _ _ _ _ Hm HR)|].
  intros a w Hw [HP Ha]. by apply (Hf a).
Qed.
Lemma lands_with_uow {A} (P : V -> Prop) (m : U A) w :
  durable w = D -> P (view D) -> lands D P m -> good (view (durable (snd (with_uow m w)))).
Proof.
  intros Hw HP Hm. unfold with_uow. specialize (Hm (mkWorld (durable w) (durable w) (draws w) (ticks w))).
  cbn in Hm. rewrite Hw in *. specialize (Hm eq_refl HP). by destruct (m _) as [r w'].
Qed.
End Lands.
End Views.
#[export] Hint Resolve same_db same_new_id same_uuid4_hex same_now : py.
Ltac same_tables :=
  lazymatch goal with
  | |- preserves _ (upd _) => apply same_upd; by intros []
  | |- preserves _ (save_row _ _ _ _) => apply same_upd; by intros []
  | |- preserves _ (add_row _ _ _ _) => apply same_add; by intros ? []
  | |- preserves _ (on_queue _) => apply same_on_queue; apply _
  end.
#[export] Hint Extern 3 (preserves (same _ _ _) _) => same_tables : py.

(** Walking past the steps that leave the view alone *)
Ltac s_skip := eapply steps_frame; [intros ?; solve [keeps_all]|intros ?].
Ltac s_know R := eapply steps_know; [intros ?; solve [keeps_all]|R|].
Ltac c_skip := eapply commits_frame; [intros ?; solve [keeps_all]|intros ?].
Ltac c_know R := eapply commits_know; [intros ?; solve [keeps_all]|R|].
Ltac l_skip := eapply lands_frame; [assumption|intros ?; solve [keeps_all]|intros ?].
Ltac l_know R := eapply lands_know; [assumption|intros ?; solve [keeps_all]|R|].
