(* ===== verification/Lifecycle.v ===== *)
(** * Shared lifecycle mechanics

    [src/friday/application/lifecycle_events.py], [skill_usage.py],
    [retry_inheritance.py] and [delegation_reconciliation.py]: what several use
    cases do inside their own transaction, plus the proof that the event log of
    every run stays numbered 1, 2, 3, ... without gaps. *)

From S2P Require Import Prelude Values RunEntity TaskEntity StepEntity ToolEntity ApprovalEntity.
From S2P Require Import EventEntity ScheduleEntity DeliveryEntity DelegationEntity WorkQueue.
From S2P Require Import WorkflowExecutionEntity SkillEntity ConversationEntity Tables Store.
From Stdlib Require Import SpecFloat.

Open Scope Z_scope.

(** ** Results *)
Record RunResult : Type := mkRunResult {
  rr_id : RunId; rr_task_id : TaskId; rr_status : RunStatus; rr_created_at : Z;
  rr_failure : option Failure; rr_execution_id : RunId }.
Definition run_result (r : Run) : RunResult :=
  mkRunResult (run_id r) (run_task_id r) (run_status r) (run_created_at r) (run_failure r)
    (run_execution_id r).
Record TaskResult : Type := mkTaskResult {
  tr_id : TaskId; tr_title : str; tr_description : str; tr_status : TaskStatus;
  tr_created_at : Z; tr_failure : option Failure }.
Definition task_result (t : Task) : TaskResult :=
  mkTaskResult (task_id t) (task_title t) (task_description t) (task_status t) (task_created_at t)
    (task_failure t).
Record RunStepResult : Type := mkStepResult {
  str_id : RunStepId; str_run_id : RunId; str_name : str; str_position : Z;
  str_status : RunStepStatus; str_failure : option Failure }.
Definition step_result (s : RunStep) : RunStepResult :=
  mkStepResult (step_id s) (step_run_id s) (step_name s) (step_position s) (step_status s) (step_failure s).

(** ** [LifecycleEvents] *)
Definition EventSpec : Type := RunEventType * json * option RunStepId.

Definition id_payload {k} (key : string) (i : Id k) : json := JDict [(u key, JStr (value i))].
Definition str_of (s : string) : json := JStr (u s).

Section Mechanics.
Context `{Env}.

(** [for offset, spec in enumerate(specs)] *)
Fixpoint append_from (r : RunId) (t : Z) (sequence : Z) (specs : list EventSpec) : U unit :=
  match specs with
  | [] => ret tt
  | (type_, payload, step) :: specs' =>
      id <- new_id ;;
      e <- lift (RunEvent_new id r type_ sequence (utc t) (to_py payload) step) ;;
      events_append e ;;;
      append_from r t (sequence + 1) specs'
  end.

Definition append_run_events (run : Run) (t : Z) (specs : list EventSpec) : U unit :=
  start <- events_reserve_sequences (run_id run) (len specs) ;;
  append_from (run_id run) t start specs.

(** Python evaluates [TaskEventId.new()] before [reserve_sequences]. *)
Definition append_task_event (task : Task) (t : Z) (type_ : TaskEventType) (payload : json) : U unit :=
  id <- new_id ;;
  n <- task_events_reserve_sequences (task_id task) 1 ;;
  e <- lift (TaskEvent_new id (task_id task) type_ n (utc t) (to_py payload)) ;;
  task_events_append e.

Definition cancel_tools (tools : list ToolInvocation) (t : Z) : U (list EventSpec) :=
  collect tools (fun tool =>
    if tool_terminal (tool_status tool) then ret []
    else
      let* (tool', _) := call (tool_cancel (utc t)) tool in
      tools_save tool' ;;;
      ret [(TOOL_INVOCATION_CANCELLED, id_payload "tool_invocation_id" (tool_id tool'),
            tool_step_id tool')]).

(** The cascade shared by every terminal transition of a run: steps in order,
    each with its tools, then the tools that belong to no step. *)
Definition cancel_steps (run : Run) (t : Z) : U (list EventSpec) :=
  steps <- steps_list_for_run (run_id run) ;;
  collect steps (fun step =>
    if step_terminal (step_status step) then ret []
    else
      let* (step', _) := call (step_cancel (utc t)) step in
      steps_save step' ;;;
      tools <- tools_list_for_step (step_id step') ;;
      specs <- cancel_tools tools t ;;
      ret ((STEP_CANCELLED, id_payload "step_id" (step_id step'), Some (step_id step')) :: specs)).

(** ** [skill_usage.py] *)
Definition outcome (s : RunStatus) : res SkillUsageOutcome :=
  match s with
  | RSUCCEEDED => Ok USUCCEEDED | RFAILED => Ok UFAILED | RCANCELLED => Ok UCANCELLED
  | _ => Raise KeyError
  end.

Definition float_of_Z (z : Z) : spec_float := binary_normalize 53 1024 z 0 false.
(** [int(x)]: truncation *)
Definition int_of_float (f : spec_float) : Z :=
  match f with
  | S754_finite s m e =>
      let v := if 0 <=? e then Z.pos m * 2 ^ e else Z.pos m / 2 ^ (- e) in
      if s then - v else v
  | _ => 0
  end.
(** [int(delta.total_seconds() * 1000)] on a duration in microseconds *)
Definition duration_ms (us : Z) : Z :=
  int_of_float (SFmul 53 1024 (SFdiv 53 1024 (float_of_Z us) (float_of_Z 1000000)) (float_of_Z 1000)).

Definition materialize_skill_usage_in_uow (id : RunId) (t : Z) : U (list SkillUsageRecord) :=
  run <- runs_get id ;;
  run <- need run (RunNotFound (value id)) ;;
  raise_if (negb (run_terminal (run_status run)))
    (EntityConflict "skill usage is materialized only for terminal runs") ;;;
  resolution <- skill_resolutions_get (run_id run) ;;
  match resolution with
  | None => ret []
  | Some resolution =>
      tools <- tools_list_for_run (run_id run) ;;
      approvals <- approvals_list_for_run (run_id run) ;;
      attempt <- runs_ordinal_for_execution (run_id run) ;;
      raise_if (attempt <? 1) (EntityConflict "terminal Run is missing its execution ordinal") ;;;
      bindings <- skill_bindings_list_for_run (run_id run) ;;
      collect bindings (fun binding =>
        prior <- usage_get_for_run_skill (run_id run) (sb_skill_id binding) ;;
        match prior with
        | Some prior => ret [prior]
        | None =>
            let ended := default t (run_ended_at run) in
            let duration := (fun s => duration_ms (ended - s)) <$> run_started_at run in
            uid <- new_id ;;
            o <- lift (outcome (run_status run)) ;;
            record <- lift (SkillUsageRecord_check
              (mkUsage uid (run_id run) (run_task_id run) (sb_skill_id binding)
                 (sb_revision_id binding) (sb_position binding) (value (sr_id resolution))
                 (run_execution_id run) attempt (run_started_at run) ended o
                 (fl_code <$> run_failure run) (len tools) (len approvals) duration t)) ;;
            usage_add record ;;;
            ret [record]
        end)
  end.

(** ** [retry_inheritance.py] *)
Fixpoint copy_bindings (retry : RunId) (l : list RunSkillBinding) : res (list RunSkillBinding) :=
  match l with
  | [] => Ok []
  | b :: l' =>
      res_bind (RunSkillBinding_new retry (sb_skill_id b) (sb_revision_id b) (sb_position b)) (fun b' =>
      res_bind (copy_bindings retry l') (fun bs => Ok (b' :: bs)))
  end.

Definition inherit_frozen_resolutions_in_uow (source retry : Run) : U unit :=
  skill <- skill_resolutions_get (run_id source) ;;
  (match skill with
   | None => ret tt
   | Some s =>
       rid <- new_id ;;
       skill_resolutions_add (mkSkillResolution rid (run_id retry) (sr_resolved_at s)) ;;;
       bindings <- skill_bindings_list_for_run (run_id source) ;;
       copies <- lift (copy_bindings (run_id retry) bindings) ;;
       skill_bindings_add_all copies
   end) ;;;
  agent <- agent_resolutions_get (run_id source) ;;
  match agent with
  | None => ret tt
  | Some a =>
      aid <- new_id ;;
      agent_resolutions_add (mkAgentResolution aid (run_id retry) (ar_agent_id a) (ar_revision_id a)
        (ar_resolved_at a))
  end.

(** ** [delegation_reconciliation.py] *)
Definition delegation_payload (request : DelegationRequest) (child : Run) (status : DelegationStatus)
    (extra : list (str * json)) : json :=
  JDict ([(u "delegation_request_id", JStr (value (dl_id request)));
          (u "child_run_id", JStr (value (run_id child)));
          (u "status", str_of (delegation_status_value status))] ++ extra).

(** Outcome of the latest attempt: status, event type, failure code, payload *)
Definition delegation_outcome (request : DelegationRequest) (latest : Run)
    : DelegationStatus * RunEventType * option str * json :=
  match run_status latest with
  | RSUCCEEDED =>
      (DSUCCEEDED, DELEGATION_SUCCEEDED, None, delegation_payload request latest DSUCCEEDED [])
  | RFAILED =>
      let code := default (u "child_run_failed") (fl_code <$> run_failure latest) in
      (DFAILED, DELEGATION_FAILED, Some code,
       delegation_payload request latest DFAILED [(u "failure_code", JStr code)])
  | _ => (DCANCELLED, DELEGATION_CANCELLED, None, delegation_payload request latest DCANCELLED [])
  end.

(** Waking the parent that waits for [request] *)
Definition wake_parent (request : DelegationRequest) (event_type : RunEventType) (payload : json)
    (t : Z) : U unit :=
  parent <- runs_get (dl_parent_run_id request) ;;
  match parent with
  | None => ret tt
  | Some parent =>
      if negb (bool_decide (run_status parent = RWAITING_FOR_DELEGATION))
         || negb (bool_decide (run_delegation_request_id parent = Some (dl_id request)))
      then ret tt
      else
        let* (parent', _) := call (run_resume_from_delegation (utc t)) parent in
        runs_save parent' ;;;
        on_queue (enqueue (run_id parent') t t) ;;;
        append_run_events parent' t
          [(event_type, payload, None);
           (RUN_RESUMED, JDict [(u "run_id", JStr (value (run_id parent')));
                                (u "delegation_request_id", JStr (value (dl_id request)))], None)]
  end.

Definition reconcile_child_terminal_in_uow (child_run : Run) (t : Z) : U unit :=
  locked <- runs_lock_execution_lineage (run_execution_id child_run) ;;
  if negb locked then ret tt
  else
  request <- delegations_get_for_child_execution (run_execution_id child_run) ;;
  match request with
  | None => ret tt
  | Some request =>
    if negb (bool_decide (dl_status request = DDISPATCHED)) then ret tt
    else
    latest <- runs_get_latest_for_execution (run_execution_id child_run) ;;
    match latest with
    | None => ret tt
    | Some latest =>
      if negb (run_terminal (run_status latest)) then ret tt
      else
      let '(status, event_type, failure_code, payload) := delegation_outcome request latest in
      won <- delegations_finalize_if_dispatched (dl_id request) status t failure_code ;;
      if negb won then ret tt
      else
      (* the in-memory snapshot follows the durable row *)
      let* (request', _) :=
        match status, failure_code with
        | DSUCCEEDED, _ => call (dl_succeed (utc t)) request
        | DFAILED, Some code => call (dl_fail (utc t) code) request
        | DFAILED, None => raise AssertionError
        | _, _ => call (dl_cancel (utc t)) request
        end in
      wake_parent request' event_type payload t
    end
  end.
End Mechanics.

Example duration_truncates : duration_ms 1001000 = 1000 /\ duration_ms 1500000 = 1500.
Proof. split; reflexivity. Qed.

(** ** The event log

    The sequence numbers of a run's events, in log order. *)
Definition seqs (r : RunId) (d : Db) : list Z :=
  map ev_sequence (filter (fun e => ev_run_id e = r) (db_run_events d)).
Definition next_seq (r : RunId) (d : Db) : Z := default 1 (db_run_seq d !! r).

(** The log is numbered 1, 2, 3, ... and the counter is one ahead of it. *)
Definition log_ok (d : Db) : Prop :=
  forall r, 1 <= next_seq r d /\ seqs r d = seqZ 1 (next_seq r d - 1).

Definition task_seqs (t : TaskId) (d : Db) : list Z :=
  map tev_sequence (filter (fun e => tev_task_id e = t) (db_task_events d)).
Definition next_task_seq (t : TaskId) (d : Db) : Z := default 1 (db_task_seq d !! t).
Definition task_log_ok (d : Db) : Prop :=
  forall t, 1 <= next_task_seq t d /\ task_seqs t d = seqZ 1 (next_task_seq t d - 1).

Section EventLog.
Context `{Env}.

(** What [append_run_events] adds to the log. *)
Definition logged (r : RunId) (t n : Z) (specs : list EventSpec) (evs : list RunEvent) : Prop :=
  map ev_sequence evs = seqZ n (len specs) /\
  Forall (fun e => ev_run_id e = r /\ ev_occurred_at e = t) evs /\
  map (fun e => (ev_type e, ev_payload e, ev_step_id e)) evs = specs.

Lemma append_from_spec r t n specs w :
  1 <= n ->
  exists evs k, append_from r t n specs w =
    (Ok tt, mkWorld (durable w) (set_db_run_events (db_run_events (staged w) ++ evs) (staged w))
              k (ticks w)) /\
    logged r t n specs evs.
Proof.
  revert n w. induction specs as [|[[ty p] st] specs IH]; intros n w Hn; simpl.
  - exists [], (draws w). split; [|by repeat constructor].
    rewrite app_nil_r. by destruct w as [? [] ? ?].
  - unfold bind at 1. unfold new_id. cbn [fst snd]. unfold bind at 1, lift.
    rewrite RunEvent_new_ok by lia. unfold bind, events_append, upd, modify.
    match goal with |- context [append_from r t (n + 1) specs ?w'] =>
      destruct (IH (n + 1) w') as (evs & k & -> & Hs & Hf & Hm); [lia|] end.
    eexists (_ :: evs), k. split; [|split_and!].
    + simpl. f_equal. f_equal. rewrite <- app_assoc. by destruct w as [? [] ? ?].
    + simpl. unfold len in *. simpl. rewrite Hs.
      replace (Z.of_nat (S (length specs))) with (Z.succ (Z.of_nat (length specs))) by lia.
      rewrite (seqZ_cons n) by lia. f_equal. f_equal; lia.
    + by constructor.
    + simpl. by rewrite Hm.
Qed.

(** [append_run_events] never raises once the counter is positive, and this
    is exactly what it does. *)
Lemma append_run_events_spec run t specs w :
  1 <= next_seq (run_id run) (staged w) ->
  exists evs k, append_run_events run t specs w =
    (Ok tt, mkWorld (durable w)
       (set_db_run_events (db_run_events (staged w) ++ evs)
          (set_db_run_seq (<[run_id run := next_seq (run_id run) (staged w) + len specs]>
                             (db_run_seq (staged w))) (staged w))) k (ticks w)) /\
    logged (run_id run) t (next_seq (run_id run) (staged w)) specs evs.
Proof.
  intros Hn. unfold append_run_events, events_reserve_sequences, db, gets, upd, modify, bind, ret.
  cbn [fst snd]. fold (next_seq (run_id run) (staged w)).
  match goal with |- context [append_from ?r ?t ?n ?s ?w'] =>
    destruct (append_from_spec r t n s w' Hn) as (evs & k & -> & Hl) end.
  by exists evs, k.
Qed.

Lemma seqs_app r t n specs evs d d' :
  logged r t n specs evs -> db_run_events d' = db_run_events d ++ evs ->
  forall r', seqs r' d' = seqs r' d ++ (if decide (r' = r) then seqZ n (len specs) else []).
Proof.
  intros (Hs & Hf & _) E r'. unfold seqs. rewrite E, filter_app, map_app. f_equal.
  rewrite Forall_forall in Hf. case_decide as Hr; subst.
  - rewrite <- Hs. f_equal. apply filter_all. intros e He. by apply Hf.
  - rewrite filter_none; [done|]. intros e He.
    destruct (Hf e He). congruence.
Qed.

Lemma log_ok_logged d r t specs evs :
  log_ok d -> logged r t (next_seq r d) specs evs ->
  log_ok (set_db_run_events (db_run_events d ++ evs)
            (set_db_run_seq (<[r := next_seq r d + len specs]> (db_run_seq d)) d)).
Proof.
  intros Hs Hl r'. specialize (Hs r') as [Hp Hq].
  rewrite (seqs_app _ _ _ _ _ d _ Hl) by by destruct d.
  unfold next_seq in *. destruct d; cbn in *. unfold len in *.
  case_decide as Hr; subst.
  - rewrite lookup_insert_eq. cbn. split; [lia|]. unfold seqs in *. cbn in *. rewrite Hq.
    set (m := default 1 _) in *.
    replace (m + Z.of_nat (length specs) - 1) with ((m - 1) + Z.of_nat (length specs)) by lia.
    rewrite seqZ_app by lia. f_equal. f_equal. lia.
  - rewrite lookup_insert_ne by done. rewrite app_nil_r. done.
Qed.

Lemma log_ok_append run t specs : preserves (winv log_ok) (append_run_events run t specs).
Proof.
  intros w [Hd Hs]. destruct (append_run_events_spec run t specs w) as (evs & k & -> & Hl);
    [apply Hs|]. split; [done|]. by eapply log_ok_logged.
Qed.

Lemma append_task_event_spec task t ty p w :
  1 <= next_task_seq (task_id task) (staged w) ->
  append_task_event task t ty p w =
    (Ok tt, mkWorld (durable w)
       (set_db_task_events (db_task_events (staged w) ++
          [mkTaskEvent (mkId (uuid4 (draws w))) (task_id task) ty
             (next_task_seq (task_id task) (staged w)) t p])
          (set_db_task_seq (<[task_id task := next_task_seq (task_id task) (staged w) + 1]>
                              (db_task_seq (staged w))) (staged w))) (S (draws w)) (ticks w)).
Proof.
  intros Hn. unfold append_task_event, task_events_reserve_sequences, task_events_append, new_id,
    db, gets, upd, modify, bind, ret, lift. cbn [fst snd].
  fold (next_task_seq (task_id task) (staged w)).
  rewrite TaskEvent_new_ok by done. done.
Qed.

Lemma task_log_ok_append task t ty p : preserves (winv task_log_ok) (append_task_event task t ty p).
Proof.
  intros w [Hd Hs]. rewrite append_task_event_spec by apply Hs.
  split; [done|]. cbn [staged snd]. intros x. specialize (Hs x) as [Hp Hq].
  unfold task_seqs, next_task_seq in *. destruct (staged w); cbn in *.
  rewrite filter_app, map_app. destruct (decide (x = task_id task)) as [->|Hne].
  - rewrite lookup_insert_eq, (filter_all _ [_]) by (intros ? ->%list_elem_of_singleton; done).
    rewrite Hq. set (m := default 1 _) in *. cbn. split; [lia|].
    replace (m + 1 - 1) with ((m - 1) + 1) by lia. rewrite seqZ_app by lia. f_equal.
    rewrite seqZ_cons, seqZ_nil by lia. f_equal. lia.
  - rewrite lookup_insert_ne by done.
    rewrite (filter_none _ [_]) by (intros ? ->%list_elem_of_singleton; cbn; congruence).
    rewrite app_nil_r. done.
Qed.
End EventLog.

(** Both logs, and any property of the tables only one component writes: the
    workflow executions and their nodes, the deliveries and their attempts, the
    conversation turns, the skill revisions that promotion generates. *)
Definition Executions : Type :=
  gmap WorkflowExecutionId WorkflowExecution * gmap WorkflowNodeExecutionId WorkflowNodeExecution.
Definition executions_of (d : Db) : Executions := (db_executions d, db_node_executions d).
Definition Deliveries : Type := gmap DeliveryId OutboundDelivery * gmap DeliveryAttemptId DeliveryAttempt.
Definition deliveries_of (d : Db) : Deliveries := (db_deliveries d, db_attempts d).
Definition Turns : Type := gmap ConversationTurnId ConversationTurn.
Definition generated (r : SkillRevision) : bool := bool_decide (kr_source_kind r = SS_GENERATED).
Definition Generated : Type := gmap SkillRevisionId SkillRevision.
Definition generated_of (d : Db) : Generated := filter (fun p => generated p.2 = true) (db_skill_revisions d).
Definition Parts : Type := Executions * Deliveries * Turns * Generated.
Definition parts_of (d : Db) : Parts := (executions_of d, deliveries_of d, db_turns d, generated_of d).
Definition logs_ok (Q : Parts -> Prop) (d : Db) : Prop :=
  (log_ok d /\ task_log_ok d) /\ Q (parts_of d).

Lemma logs_append_run `{Env} Q run t specs : preserves (winv (logs_ok Q)) (append_run_events run t specs).
Proof.
  intros w [[[Hd1 Hd2] HQd] [[Hs1 Hs2] HQs]].
  pose proof (log_ok_append run t specs w (conj Hd1 Hs1)) as [Hl1 Hl2].
  destruct (append_run_events_spec run t specs w) as (evs & k & E & _); [apply Hs1|].
  rewrite E in *. by destruct w as [? [] ? ?].
Qed.
Lemma logs_append_task `{Env} Q task t ty p : preserves (winv (logs_ok Q)) (append_task_event task t ty p).
Proof.
  intros w [[[Hd1 Hd2] HQd] [[Hs1 Hs2] HQs]].
  pose proof (task_log_ok_append task t ty p w (conj Hd2 Hs2)) as [Hl1 Hl2].
  rewrite append_task_event_spec in * by apply Hs2. by destruct w as [? [] ? ?].
Qed.
#[export] Hint Resolve logs_append_run logs_append_task : py.

(** Writes to the other tables leave the logs alone. *)
Ltac logs_tables :=
  let H := fresh in
  lazymatch goal with
  | |- preserves _ (upd _) => apply preserves_upd; intros ? H; exact H
  | |- preserves _ (save_row _ _ _ _) => apply preserves_upd; intros ? H; exact H
  | |- preserves _ (add_row _ _ _ _) => apply preserves_add_row; intros ? H; exact H
  | |- preserves _ (on_queue _) => apply preserves_on_queue; intros ? ? H; exact H
  end.

#[export] Hint Extern 3 (preserves (winv (logs_ok _)) _) => logs_tables : py.

Section LogsOfHelpers.
Context `{Env} (Q : Parts -> Prop).

Lemma logs_cancel_tools tools t : preserves (winv (logs_ok Q)) (cancel_tools tools t).
Proof. unfold cancel_tools, tools_save, save_row. keeps. Qed.
#[local] Hint Resolve logs_cancel_tools : py.
Lemma logs_cancel_steps run t : preserves (winv (logs_ok Q)) (cancel_steps run t).
Proof. unfold cancel_steps, steps_list_for_run, tools_list_for_step, steps_save, save_row. keeps. Qed.
Lemma logs_usage_add x : preserves (winv (logs_ok Q)) (usage_add x).
Proof. apply preserves_upd. intros d Hd. by destruct (db_usage d !! _). Qed.
#[local] Hint Resolve logs_usage_add : py.
Lemma logs_materialize id t : preserves (winv (logs_ok Q)) (materialize_skill_usage_in_uow id t).
Proof.
  unfold materialize_skill_usage_in_uow, runs_get, skill_resolutions_get, tools_list_for_run,
    approvals_list_for_run, runs_ordinal_for_execution, skill_bindings_list_for_run,
    usage_get_for_run_skill. keeps.
Qed.
Lemma logs_inherit a b : preserves (winv (logs_ok Q)) (inherit_frozen_resolutions_in_uow a b).
Proof.
  unfold inherit_frozen_resolutions_in_uow, skill_resolutions_get, skill_resolutions_add,
    skill_bindings_list_for_run, skill_bindings_add_all, agent_resolutions_get, agent_resolutions_add.
  keeps.
Qed.
Lemma logs_wake_parent r e p t : preserves (winv (logs_ok Q)) (wake_parent r e p t).
Proof. unfold wake_parent, runs_get, runs_save, save_row. keeps. Qed.
#[local] Hint Resolve logs_wake_parent : py.
Lemma logs_reconcile run t : preserves (winv (logs_ok Q)) (reconcile_child_terminal_in_uow run t).
Proof.
  unfold reconcile_child_terminal_in_uow, runs_lock_execution_lineage,
    delegations_get_for_child_execution, runs_get_latest_for_execution,
    delegations_finalize_if_dispatched, delegations_get, save_row. keeps.
Qed.
End LogsOfHelpers.
#[export] Hint Resolve logs_cancel_tools logs_cancel_steps logs_materialize logs_inherit
  logs_wake_parent logs_reconcile : py.
