(* ===== verification/MemoryAudit.v ===== *)
(** * The audit of memory retrievals

    [MemoryRetrievalRecordRepository] of [infrastructure/persistence/repositories.py],
    and the transaction in which the agent run processor records what it
    retrieved ([_record_memory_events] and [_build_memory_retrieval_record] of
    [src/friday/application/agent_run_processor.py]): the run's events and one
    record with the provenance of every excerpt, never its text, fenced by the
    claim. *)

From S2P Require Import Prelude Values RunEntity EventEntity WorkQueue MemoryContext MemoryQuery.
From S2P Require Import Tables Store Lifecycle.

Open Scope Z_scope.

(** ** [MemoryRetrievalRecordRepository] *)
Definition MAX_MEMORY_RETRIEVAL_ITEMS_PER_RECORD : Z := 50.
Definition memory_records_add (x : MemoryRetrievalRecord) : U unit :=
  raise_if (len (mr_items x) >? MAX_MEMORY_RETRIEVAL_ITEMS_PER_RECORD)
    (ValueError "MemoryRetrievalRecord.items exceeds the item cap per record") ;;;
  add_row db_memory_records set_db_memory_records (mr_id x) x.
(** The items come back in rank order. *)
Definition memory_records_get (id : MemoryRetrievalRecordId) : U (option MemoryRetrievalRecord) :=
  db (fun d =>
    match db_memory_records d !! id with
    | Some x => Some (mkRetrievalRecord (mr_id x) (mr_run_id x) (mr_turn_number x) (mr_query_hash x)
        (mr_source_snapshot_id x) (mr_index_snapshot_id x) (mr_created_at x) (mr_candidate_count x)
        (mr_selected_count x) (order_by (fun i => [ri_rank i]) (mr_items x)))
    | None => None
    end).

(** ** [_build_memory_retrieval_record] *)
Definition retrieval_item (p : MemoryProvenance) : res MemoryRetrievalItem :=
  MemoryRetrievalItem_check
    (mkRetrievalItem (mp_path p) (mp_heading p) (mp_start_line p) (mp_end_line p) (mp_content_hash p) (mp_rank p)
       (mp_methods p) (mp_truncated p)).
Fixpoint retrieval_items (l : list MemoryProvenance) : res (list MemoryRetrievalItem) :=
  match l with
  | [] => Ok []
  | p :: l' => res_bind (retrieval_item p) (fun i => res_bind (retrieval_items l') (fun items => Ok (i :: items)))
  end.

Section Audit.
Context `{Env}.

(** [query_hash] is the property of the query. *)
Definition build_memory_retrieval_record (run : RunId) (turn : Z) (query_hash : res str) (memory : MemoryContext)
    (t : Z) : U MemoryRetrievalRecord :=
  items <- lift (retrieval_items (mc_provenance memory)) ;;
  id <- new_id ;;
  hash <- lift query_hash ;;
  created_at <- lift (ensure_utc (utc t)) ;;
  ret (mkRetrievalRecord id run turn hash
         (match mc_provenance memory with p :: _ => Some (mp_source_snapshot_id p) | [] => None end)
         (mc_index_snapshot_id memory) created_at (len (mc_excerpts memory)) (len (mc_excerpts memory)) items).

Definition memory_event_specs (memory : MemoryContext) : list EventSpec :=
  let mode := str_of (retrieval_mode_value (mc_mode memory)) in
  (MEMORY_CONTEXT_ATTACHED, JDict [(u "mode", mode); (u "excerpt_count", JInt (len (mc_excerpts memory)))], None)
  :: match mc_degraded_reason memory with
     | Some reason => [(MEMORY_RETRIEVAL_DEGRADED, JDict [(u "mode", mode); (u "reason", JStr reason)], None)]
     | None => []
     end.

(** [_record_memory_events] *)
Definition record_memory_events (run_id_ : RunId) (c : Claim) (turn : Z) (query_hash : res str)
    (memory : MemoryContext) : U unit :=
  with_uow (
    t <- now ;;
    active <- on_queue (is_claim_active run_id_ c t) ;;
    raise_if (negb active) (ClaimLost "claim is no longer active; refusing memory retrieval audit") ;;;
    run <- runs_get run_id_ ;;
    match run with
    | Some run =>
        t' <- now ;;
        append_run_events run t' (memory_event_specs memory) ;;;
        t'' <- now ;;
        record <- build_memory_retrieval_record run_id_ turn query_hash memory t'' ;;
        memory_records_add record
    | None => ret tt
    end ;;;
    commit).
End Audit.
