(* ===== verification/RunUseCases.v ===== *)
(** * Run and task use cases

    [src/friday/application/run_lifecycle.py], [task_lifecycle.py],
    [create_task.py] and [start_run.py]: each [execute] is one transaction. *)

From S2P Require Import Prelude Values RunEntity TaskEntity StepEntity ToolEntity ApprovalEntity.
From S2P Require Import EventEntity ScheduleEntity DelegationEntity WorkQueue.
From S2P Require Import WorkflowExecutionEntity SkillEntity ConversationEntity Tables Store Lifecycle.

Open Scope Z_scope.

Definition run_spec (type_ : RunEventType) (run : Run) : EventSpec :=
  (type_, id_payload "run_id" (run_id run), None).

Section RunUseCases.
Context `{Env}.

(** [uow.runs.get(id)], refusing a missing run *)
Definition need_run (id : RunId) : U Run :=
  run <- runs_get id ;; need run (RunNotFound (value id)).
Definition need_task (id : TaskId) : U Task :=
  task <- tasks_get id ;; need task (TaskNotFound (value id)).

Definition fail_run_event_specs (run : Run) (t : Z) (failure : Failure) : U (Run * list EventSpec) :=
  let* (run', _) := call (run_fail (utc t) failure) run in
  runs_save run' ;;;
  specs <- cancel_steps run' t ;;
  tools <- tools_list_for_run (run_id run') ;;
  more <- cancel_tools tools t ;;
  ret (run', specs ++ more ++
    [(RUN_FAILED, JDict [(u "run_id", JStr (value (run_id run')));
                         (u "failure_code", JStr (fl_code failure))], None)]).

Definition succeed_run_event_specs (run : Run) (t : Z) : U (Run * list EventSpec) :=
  let* (run', _) := call (run_succeed (utc t)) run in
  runs_save run' ;;;
  ret (run', [run_spec RUN_SUCCEEDED run']).

Definition cancel_pending_approvals (run : Run) (t : Z) : U (list EventSpec) :=
  approvals <- approvals_list_pending_for_run (run_id run) ;;
  collect approvals (fun approval =>
    let* (approval', _) := call (ap_cancel (utc t) (Some (u "run cancelled"))) approval in
    approvals_save approval' ;;;
    ret [(APPROVAL_RESOLVED,
          JDict [(u "approval_request_id", JStr (value (ap_id approval')));
                 (u "status", str_of (approval_status_value (ap_status approval')))],
          ap_step_id approval')]).

(** [_RunCancellation._cancel_run] *)
Definition cancel_run (run : Run) (t : Z) : U Run :=
  let* (run', _) := call (run_cancel (utc t)) run in
  runs_save run' ;;;
  specs1 <- cancel_pending_approvals run' t ;;
  on_queue (wq_remove (run_id run')) ;;;
  specs2 <- cancel_steps run' t ;;
  tools <- tools_list_for_run (run_id run') ;;
  specs3 <- cancel_tools tools t ;;
  append_run_events run' t (run_spec RUN_CANCELLED run' :: specs1 ++ specs2 ++ specs3) ;;;
  reconcile_child_terminal_in_uow run' t ;;;
  materialize_skill_usage_in_uow (run_id run') t ;;;
  ret run'.

Definition GetRun (id : RunId) : U RunResult :=
  with_uow (run <- need_run id ;; ret (run_result run)).

Definition ListRunsForTask (id : TaskId) : U (list RunResult) :=
  with_uow (need_task id ;;; runs <- runs_list_for_task id ;; ret (map run_result runs)).

Definition StartQueuedRun (id : RunId) : U RunResult :=
  with_uow (
    run <- need_run id ;;
    if bool_decide (run_status run = RRUNNING) then commit ;;; ret (run_result run)
    else
    raise_if (negb (bool_decide (run_status run = RQUEUED))) (EntityConflict "run cannot start") ;;;
    task <- need_task (run_task_id run) ;;
    raise_if (negb (bool_decide (task_status task = TACTIVE)))
      (EntityConflict "owning task is not active") ;;;
    t <- now ;;
    let* (run', _) := call (run_start (utc t)) run in
    runs_save run' ;;;
    append_run_events run' t [run_spec RUN_STARTED run'] ;;;
    commit ;;;
    ret (run_result run')).

Definition CompleteRun (id : RunId) : U RunResult :=
  with_uow (
    run <- need_run id ;;
    if bool_decide (run_status run = RSUCCEEDED) then commit ;;; ret (run_result run)
    else
    raise_if (run_terminal (run_status run)) (EntityConflict "run is terminal") ;;;
    raise_if (negb (bool_decide (run_status run = RRUNNING))) (EntityConflict "run cannot complete") ;;;
    steps <- steps_list_for_run (run_id run) ;;
    raise_if (existsb (fun s => negb (step_terminal (step_status s))) steps)
      (EntityConflict "run has non-terminal steps") ;;;
    tools <- tools_list_for_run (run_id run) ;;
    raise_if (existsb (fun x => negb (tool_terminal (tool_status x))) tools)
      (EntityConflict "run has non-terminal tool invocations") ;;;
    dispatched <- delegations_has_dispatched_for_run (run_id run) ;;
    raise_if dispatched (EntityConflict "run has an active delegation") ;;;
    t <- now ;;
    let* (run', specs) := succeed_run_event_specs run t in
    on_queue (wq_remove (run_id run')) ;;;
    append_run_events run' t specs ;;;
    reconcile_child_terminal_in_uow run' t ;;;
    materialize_skill_usage_in_uow (run_id run') t ;;;
    commit ;;;
    ret (run_result run')).

Definition FailRun (id : RunId) (failure : Failure) : U RunResult :=
  with_uow (
    run <- need_run id ;;
    if bool_decide (run_status run = RFAILED) then
      raise_if (negb (opt_failure_eqb (run_failure run) failure))
        (EntityConflict "run failure is immutable") ;;;
      commit ;;; ret (run_result run)
    else
    raise_if (run_terminal (run_status run)) (EntityConflict "run is terminal") ;;;
    raise_if (negb (bool_decide (run_status run = RRUNNING))) (EntityConflict "run cannot fail") ;;;
    t <- now ;;
    let* (run', specs) := fail_run_event_specs run t failure in
    append_run_events run' t specs ;;;
    on_queue (wq_remove (run_id run')) ;;;
    reconcile_child_terminal_in_uow run' t ;;;
    materialize_skill_usage_in_uow (run_id run') t ;;;
    commit ;;;
    ret (run_result run')).

Definition CancelRun (id : RunId) : U RunResult :=
  with_uow (
    run <- need_run id ;;
    if bool_decide (run_status run = RCANCELLED) then commit ;;; ret (run_result run)
    else if run_terminal (run_status run) then
      latest <- runs_get_latest_for_execution (run_execution_id run) ;;
      match latest with
      | Some latest =>
          if negb (run_terminal (run_status latest)) then
            t <- now ;;
            latest' <- cancel_run latest t ;;
            commit ;;;
            ret (run_result latest')
          else raise (EntityConflict "run is terminal")
      | None => raise (EntityConflict "run is terminal")
      end
    else
    executions <- executions_list_by_root_run_id (run_id run) ;;
    raise_if (existsb (fun x => bool_decide (wx_status x = XRUNNING)) executions
              && bool_decide (run_status run = RWAITING_FOR_WORKFLOW))
      WorkflowCancelNotSupportedWhileActive ;;;
    t <- now ;;
    run' <- cancel_run run t ;;
    commit ;;;
    ret (run_result run')).

Definition ListRunsByExecution (id : RunId) : U (list RunResult) :=
  with_uow (
    run <- need_run id ;;
    runs <- runs_list_for_execution (run_execution_id run) ;;
    ret (map run_result runs)).

Definition GetLatestRunForExecution (id : RunId) : U RunResult :=
  with_uow (
    run <- need_run id ;;
    latest <- runs_get_latest_for_execution (run_execution_id run) ;;
    ret (run_result (default run latest))).

(** Creating the next attempt of an execution, shared by the manual and the
    automatic retry: the row, its frozen resolutions, the work item. *)
Definition retry_payload (task : TaskId) (source : RunId) : json :=
  JDict [(u "task_id", JStr (value task)); (u "retry_of", JStr (value source))].

Definition RetryFailedRun (id : RunId) : U RunResult :=
  with_uow (
    source <- need_run id ;;
    raise_if (negb (bool_decide (run_status source = RFAILED)))
      (EntityConflict "only failed runs may be retried") ;;;
    node <- node_executions_get_by_child_execution_id (run_execution_id source) ;;
    raise_if (not_none node) WorkflowNodeManualRetryForbidden ;;;
    delegation <- delegations_get_for_child_execution (run_execution_id source) ;;
    raise_if (not_none delegation) DelegatedManualRetryForbidden ;;;
    task <- need_task (run_task_id source) ;;
    runs <- runs_list_for_task (task_id task) ;;
    latest <- need (reverse runs !! 0%nat) IndexError ;;
    raise_if (negb (id_eqb (run_id latest) (run_id source)))
      (EntityConflict "only latest attempt may be retried") ;;;
    raise_if (existsb (fun r => negb (run_terminal (run_status r))) runs)
      (EntityConflict "task already has non-terminal run") ;;;
    raise_if (negb (bool_decide (task_status task = TACTIVE))) (EntityConflict "task is not retryable") ;;;
    t <- now ;;
    rid <- new_id ;;
    retry <- lift (Run_new rid (task_id task) (utc t) (Some (run_execution_id source))) ;;
    runs_add retry ;;;
    inherit_frozen_resolutions_in_uow source retry ;;;
    on_queue (enqueue (run_id retry) t t) ;;;
    append_run_events retry t [(RUN_CREATED, retry_payload (task_id task) (run_id source), None)] ;;;
    commit ;;;
    ret (run_result retry)).
End RunUseCases.
