(* ===== verification/TaskUseCases.v ===== *)
(** * Task use cases

    [src/friday/application/create_task.py], [start_run.py] and
    [task_lifecycle.py]. *)

From S2P Require Import Prelude Values RunEntity TaskEntity StepEntity ToolEntity ApprovalEntity.
From S2P Require Import EventEntity ScheduleEntity DelegationEntity WorkQueue.
From S2P Require Import WorkflowExecutionEntity SkillEntity ConversationEntity Tables Store Lifecycle RunUseCases.

Open Scope Z_scope.

Section TaskUseCases.
Context `{Env}.

Definition CreateTask (title description : str) : U TaskId :=
  tid <- new_id ;;
  t <- now ;;
  task <- lift (Task_new tid title description (utc t)) ;;
  with_uow (tasks_add task ;;; commit) ;;;
  ret (task_id task).

Definition ensure_task_can_own_a_run (task : Task) (t : Z) : U unit :=
  if bool_decide (task_status task = TPENDING) then
    let* (task', _) := call (task_start (utc t)) task in tasks_save task'
  else raise_if (negb (bool_decide (task_status task = TACTIVE)))
         (EntityConflict "Task cannot start a run").

(** [StartRun.execute_in_uow] *)
Definition start_run_in_uow (task : Task) (t : Z) : U (TaskId * RunId) :=
  ensure_task_can_own_a_run task t ;;;
  rid <- new_id ;;
  run <- lift (Run_new rid (task_id task) (utc t) None) ;;
  runs_add run ;;;
  on_queue (enqueue (run_id run) t t) ;;;
  eid <- new_id ;;
  n <- events_reserve_sequences (run_id run) 1 ;;
  e <- lift (RunEvent_new eid (run_id run) RUN_CREATED n (utc t)
               (to_py (id_payload "task_id" (task_id task))) None) ;;
  events_append e ;;;
  ret (task_id task, run_id run).

Definition StartRun (id : TaskId) : U (TaskId * RunId) :=
  with_uow (
    task <- need_task id ;;
    t <- now ;;
    result <- start_run_in_uow task t ;;
    commit ;;;
    ret result).

Definition GetTask (id : TaskId) : U TaskResult :=
  with_uow (task <- need_task id ;; ret (task_result task)).

Definition ListTasks (limit : nat) : U (list TaskResult) :=
  with_uow (
    tasks <- db (fun d => take limit (select (fun _ => true)
               (fun t => task_created_at t :: value (task_id t)) (db_tasks d))) ;;
    ret (map task_result tasks)).

(** [_TaskCancellation._cancel_run] *)
Definition cancel_run_of_task (run : Run) (t : Z) : U unit :=
  let* (run', _) := call (run_cancel (utc t)) run in
  runs_save run' ;;;
  specs1 <- cancel_steps run' t ;;
  tools <- tools_list_for_run (run_id run') ;;
  specs2 <- cancel_tools tools t ;;
  append_run_events run' t (run_spec RUN_CANCELLED run' :: specs1 ++ specs2) ;;;
  materialize_skill_usage_in_uow (run_id run') t ;;;
  ret tt.

Definition CancelTask (id : TaskId) : U TaskResult :=
  with_uow (
    task <- need_task id ;;
    t <- now ;;
    if bool_decide (task_status task = TCANCELLED) then commit ;;; ret (task_result task)
    else
    raise_if (task_terminal (task_status task)) (EntityConflict "task is terminal") ;;;
    runs <- runs_list_for_task (task_id task) ;;
    for_each runs (fun run =>
      if run_terminal (run_status run) then ret tt
      else
        executions <- executions_list_by_root_run_id (run_id run) ;;
        raise_if (existsb (fun x => bool_decide (wx_status x = XRUNNING)) executions)
          WorkflowCancelNotSupportedWhileActive) ;;;
    let* (task', _) := call (task_cancel (utc t)) task in
    tasks_save task' ;;;
    schedules_complete_for_task (task_id task') t true ;;;
    append_task_event task' t TASK_CANCELLED (id_payload "task_id" (task_id task')) ;;;
    runs <- runs_list_for_task (task_id task') ;;
    for_each runs (fun run =>
      if run_terminal (run_status run) then ret tt else cancel_run_of_task run t) ;;;
    commit ;;;
    ret (task_result task')).

Definition CompleteTask (id : TaskId) : U TaskResult :=
  with_uow (
    task <- need_task id ;;
    if bool_decide (task_status task = TCOMPLETED) then commit ;;; ret (task_result task)
    else
    raise_if (task_terminal (task_status task)) (EntityConflict "task is terminal") ;;;
    raise_if (negb (bool_decide (task_status task = TACTIVE))) (EntityConflict "task cannot complete") ;;;
    runs <- runs_list_for_task (task_id task) ;;
    raise_if (existsb (fun r => negb (run_terminal (run_status r))) runs)
      (EntityConflict "task has non-terminal runs") ;;;
    steps <- collect runs (fun r => steps_list_for_run (run_id r)) ;;
    raise_if (existsb (fun s => negb (step_terminal (step_status s))) steps)
      (EntityConflict "task has non-terminal steps") ;;;
    tools <- collect runs (fun r => tools_list_for_run (run_id r)) ;;
    raise_if (existsb (fun x => negb (tool_terminal (tool_status x))) tools)
      (EntityConflict "task has non-terminal tool invocations") ;;;
    t <- now ;;
    let* (task', _) := call (task_complete (utc t)) task in
    tasks_save task' ;;;
    schedules_complete_for_task (task_id task') t false ;;;
    append_task_event task' t TASK_COMPLETED (id_payload "task_id" (task_id task')) ;;;
    commit ;;;
    ret (task_result task')).

Definition FailTask (id : TaskId) (failure : Failure) : U TaskResult :=
  with_uow (
    task <- need_task id ;;
    if bool_decide (task_status task = TFAILED) then
      raise_if (negb (opt_failure_eqb (task_failure task) failure))
        (EntityConflict "task failure is immutable") ;;;
      commit ;;; ret (task_result task)
    else
    raise_if (task_terminal (task_status task)) (EntityConflict "task is terminal") ;;;
    t <- now ;;
    let* (task', _) := call (task_fail (utc t) failure) task in
    tasks_save task' ;;;
    schedules_complete_for_task (task_id task') t false ;;;
    append_task_event task' t TASK_FAILED
      (JDict [(u "task_id", JStr (value (task_id task'))); (u "failure_code", JStr (fl_code failure))]) ;;;
    commit ;;;
    ret (task_result task')).
End TaskUseCases.
