(* ===== verification/StepUseCases.v ===== *)
(** * Step and tool-invocation use cases

    [src/friday/application/run_step_lifecycle.py] and
    [tool_invocation_lifecycle.py]. *)

From S2P Require Import Prelude Values RunEntity TaskEntity StepEntity ToolEntity ApprovalEntity.
From S2P Require Import EventEntity ScheduleEntity DelegationEntity WorkQueue.
From S2P Require Import WorkflowExecutionEntity SkillEntity ConversationEntity Tables Store Lifecycle RunUseCases.

Open Scope Z_scope.

Section StepUseCases.
Context `{Env}.

Definition step_spec (type_ : RunEventType) (step : RunStep) : EventSpec :=
  (type_, id_payload "step_id" (step_id step), Some (step_id step)).

(** [max((step.position for step in steps), default=-1) + 1] *)
Definition next_position (steps : list RunStep) : Z :=
  match steps with
  | [] => 0
  | s :: l => foldl (fun m x => Z.max m (step_position x)) (step_position s) l + 1
  end.

Definition CreateOrderedStep (id : RunId) (name : str) : U RunStepResult :=
  with_uow (
    run <- need_run id ;;
    raise_if (negb (bool_decide (run_status run ∈ [RQUEUED; RRUNNING])))
      (EntityConflict "run cannot accept steps") ;;;
    steps <- steps_list_for_run (run_id run) ;;
    let position := next_position steps in
    t <- now ;;
    sid <- new_id ;;
    step <- lift (RunStep_new sid (run_id run) name position (utc t)) ;;
    steps_add step ;;;
    append_run_events run t
      [(STEP_CREATED, JDict [(u "step_id", JStr (value (step_id step))); (u "position", JInt position)],
        Some (step_id step))] ;;;
    commit ;;;
    ret (step_result step)).

Definition need_step (id : RunStepId) : U RunStep :=
  step <- steps_get id ;; need step (RunStepNotFound (value id)).

Definition GetRunStep (id : RunStepId) : U RunStepResult :=
  with_uow (step <- need_step id ;; ret (step_result step)).
Definition ListRunStepsForRun (id : RunId) : U (list RunStepResult) :=
  with_uow (need_run id ;;; steps <- steps_list_for_run id ;; ret (map step_result steps)).

(** [_StepLifecycle._load] *)
Definition load_step (id : RunStepId) : U (RunStep * Run) :=
  step <- need_step id ;;
  run <- need_run (step_run_id step) ;;
  ret (step, run).

Definition StartStep (id : RunStepId) : U RunStepResult :=
  with_uow (
    let* (step, run) := load_step id in
    if bool_decide (step_status step = SRUNNING) then commit ;;; ret (step_result step)
    else
    raise_if (negb (bool_decide (step_status step = SPENDING))
              || negb (bool_decide (run_status run = RRUNNING))) (EntityConflict "step cannot start") ;;;
    t <- now ;;
    let* (step', _) := call (step_start (utc t)) step in
    steps_save step' ;;;
    append_run_events run t [step_spec STEP_STARTED step'] ;;;
    commit ;;;
    ret (step_result step')).

Definition CompleteStep (id : RunStepId) : U RunStepResult :=
  with_uow (
    let* (step, run) := load_step id in
    if bool_decide (step_status step = SSUCCEEDED) then commit ;;; ret (step_result step)
    else
    raise_if (negb (bool_decide (step_status step = SRUNNING))) (EntityConflict "step cannot complete") ;;;
    t <- now ;;
    let* (step', _) := call (step_succeed (utc t)) step in
    steps_save step' ;;;
    append_run_events run t [step_spec STEP_SUCCEEDED step'] ;;;
    commit ;;;
    ret (step_result step')).

Definition FailStep (id : RunStepId) (failure : Failure) : U RunStepResult :=
  with_uow (
    let* (step, run) := load_step id in
    if bool_decide (step_status step = SFAILED) then
      raise_if (negb (opt_failure_eqb (step_failure step) failure))
        (EntityConflict "step failure is immutable") ;;;
      commit ;;; ret (step_result step)
    else
    raise_if (negb (bool_decide (step_status step = SRUNNING))) (EntityConflict "step cannot fail") ;;;
    t <- now ;;
    let* (step', _) := call (step_fail (utc t) failure) step in
    steps_save step' ;;;
    tools <- tools_list_for_step (step_id step') ;;
    specs <- cancel_tools tools t ;;
    append_run_events run t (specs ++
      [(STEP_FAILED, JDict [(u "step_id", JStr (value (step_id step')));
                            (u "failure_code", JStr (fl_code failure))], Some (step_id step'))]) ;;;
    commit ;;;
    ret (step_result step')).

Definition SkipPendingStep (id : RunStepId) : U RunStepResult :=
  with_uow (
    let* (step, run) := load_step id in
    if bool_decide (step_status step = SSKIPPED) then commit ;;; ret (step_result step)
    else
    raise_if (negb (bool_decide (step_status step = SPENDING))) (EntityConflict "step cannot skip") ;;;
    t <- now ;;
    let* (step', _) := call (step_skip (utc t)) step in
    steps_save step' ;;;
    append_run_events run t [step_spec STEP_SKIPPED step'] ;;;
    commit ;;;
    ret (step_result step')).

Definition CancelStep (id : RunStepId) : U RunStepResult :=
  with_uow (
    let* (step, run) := load_step id in
    if bool_decide (step_status step = SCANCELLED) then commit ;;; ret (step_result step)
    else
    raise_if (step_terminal (step_status step)) (EntityConflict "step is terminal") ;;;
    t <- now ;;
    let* (step', _) := call (step_cancel (utc t)) step in
    steps_save step' ;;;
    tools <- tools_list_for_step (step_id step') ;;
    specs <- cancel_tools tools t ;;
    append_run_events run t (step_spec STEP_CANCELLED step' :: specs) ;;;
    commit ;;;
    ret (step_result step')).

(** ** Tool invocations *)
Definition need_tool (id : ToolInvocationId) : U ToolInvocation :=
  tool <- tools_get id ;; need tool (ToolInvocationNotFound (value id)).

Definition GetToolInvocation (id : ToolInvocationId) : U ToolInvocation := with_uow (need_tool id).
Definition ListToolInvocationsForRun (id : RunId) : U (list ToolInvocation) :=
  with_uow (need_run id ;;; tools_list_for_run id).
Definition ListToolInvocationsForStep (id : RunStepId) : U (list ToolInvocation) :=
  with_uow (need_step id ;;; tools_list_for_step id).

(** The step a request names must belong to the run and be running. *)
Definition check_request_step (run : Run) (step : option RunStepId) : U unit :=
  match step with
  | None => ret tt
  | Some sid =>
      s <- need_step sid ;;
      raise_if (negb (id_eqb (step_run_id s) (run_id run))) (EntityConflict "step does not belong to run") ;;;
      raise_if (negb (bool_decide (step_status s = SRUNNING)))
        (EntityConflict "step cannot accept tool invocations")
  end.
(** The approval a request names must be approved, for this run and step. *)
Definition check_request_approval (run : Run) (step : option RunStepId)
    (approval : option ApprovalRequestId) : U unit :=
  match approval with
  | None => ret tt
  | Some aid =>
      a <- approvals_get aid ;;
      a <- need a (EntityConflict "referenced approval request does not exist") ;;
      raise_if (negb (opt_id_eqb (ap_run_id a) (run_id run)))
        (EntityConflict "approval request does not belong to run") ;;;
      raise_if (not_none (ap_step_id a) && negb (bool_decide (ap_step_id a = step)))
        (EntityConflict "approval request is scoped to a different step") ;;;
      raise_if (negb (bool_decide (ap_status a = AAPPROVED)))
        (EntityConflict "only an approved request may authorize an invocation")
  end.

Definition RequestToolInvocation (id : RunId) (tool_name : str) (requested_input : pyval)
    (step : option RunStepId) (approval : option ApprovalRequestId) : U ToolInvocation :=
  with_uow (
    run <- need_run id ;;
    raise_if (negb (bool_decide (run_status run = RRUNNING)))
      (EntityConflict "run cannot accept tool invocations") ;;;
    check_request_step run step ;;;
    check_request_approval run step approval ;;;
    t <- now ;;
    iid <- new_id ;;
    invocation <- lift (ToolInvocation_new iid (run_id run) tool_name requested_input (utc t) step
                          approval None) ;;
    tools_add invocation ;;;
    append_run_events run t
      [(TOOL_INVOCATION_REQUESTED,
        JDict [(u "tool_invocation_id", JStr (value (tool_id invocation)));
               (u "tool_name", JStr (tool_tool_name invocation));
               (u "approval_request_id", opt_id_json approval)],
        tool_step_id invocation)] ;;;
    commit ;;;
    ret invocation).

(** [_ToolInvocationTransition._load] *)
Definition load_tool (id : ToolInvocationId) : U (ToolInvocation * Run) :=
  tool <- need_tool id ;;
  run <- need_run (tool_run_id tool) ;;
  ret (tool, run).

Definition commit_with_event (run : Run) (tool : ToolInvocation) (type_ : RunEventType)
    (extra : list (str * json)) : U ToolInvocation :=
  t <- now ;;
  tools_save tool ;;;
  append_run_events run t
    [(type_, JDict ((u "tool_invocation_id", JStr (value (tool_id tool))) :: extra), tool_step_id tool)] ;;;
  commit ;;;
  ret tool.

Definition MarkToolInvocationRunning (id : ToolInvocationId) : U ToolInvocation :=
  with_uow (
    let* (tool, run) := load_tool id in
    if bool_decide (tool_status tool = IRUNNING) then commit ;;; ret tool
    else
    raise_if (negb (bool_decide (tool_status tool = IREQUESTED)))
      (EntityConflict "tool invocation cannot start") ;;;
    t <- now ;;
    let* (tool', _) := call (tool_start (utc t)) tool in
    commit_with_event run tool' TOOL_INVOCATION_STARTED []).

Definition MarkToolInvocationSucceeded (id : ToolInvocationId) (output : json) : U ToolInvocation :=
  with_uow (
    let* (tool, run) := load_tool id in
    if bool_decide (tool_status tool = ISUCCEEDED) then
      raise_if (negb (json_eqb (tool_output tool) output))
        (EntityConflict "tool invocation output is immutable") ;;;
      commit ;;; ret tool
    else
    raise_if (tool_terminal (tool_status tool)) (EntityConflict "tool invocation is terminal") ;;;
    raise_if (negb (bool_decide (tool_status tool = IRUNNING)))
      (EntityConflict "tool invocation cannot succeed") ;;;
    t <- now ;;
    let* (tool', _) := call (tool_succeed (utc t) (Some (to_py output))) tool in
    commit_with_event run tool' TOOL_INVOCATION_SUCCEEDED []).

Definition MarkToolInvocationFailed (id : ToolInvocationId) (failure : Failure) : U ToolInvocation :=
  with_uow (
    let* (tool, run) := load_tool id in
    if bool_decide (tool_status tool = IFAILED) then
      raise_if (negb (opt_failure_eqb (tool_failure tool) failure))
        (EntityConflict "tool invocation failure is immutable") ;;;
      commit ;;; ret tool
    else
    raise_if (tool_terminal (tool_status tool)) (EntityConflict "tool invocation is terminal") ;;;
    raise_if (negb (bool_decide (tool_status tool = IRUNNING)))
      (EntityConflict "tool invocation cannot fail") ;;;
    t <- now ;;
    let* (tool', _) := call (tool_fail (utc t) failure) tool in
    commit_with_event run tool' TOOL_INVOCATION_FAILED [(u "failure_code", JStr (fl_code failure))]).

Definition CancelToolInvocation (id : ToolInvocationId) : U ToolInvocation :=
  with_uow (
    let* (tool, run) := load_tool id in
    if bool_decide (tool_status tool = ICANCELLED) then commit ;;; ret tool
    else
    raise_if (tool_terminal (tool_status tool)) (EntityConflict "tool invocation is terminal") ;;;
    t <- now ;;
    let* (tool', _) := call (tool_cancel (utc t)) tool in
    commit_with_event run tool' TOOL_INVOCATION_CANCELLED []).
End StepUseCases.
