(* ===== verification/ApprovalUseCases.v ===== *)
(** * Approval use cases

    [src/friday/application/approval_workflow.py] and
    [tool_authorization.py]: parking a run on a human decision and waking it
    when the decision is made. *)

From S2P Require Import Prelude Values RunEntity TaskEntity StepEntity ToolEntity ApprovalEntity.
From S2P Require Import EventEntity ScheduleEntity Canonical DelegationEntity WorkQueue.
From S2P Require Import WorkflowExecutionEntity SkillEntity ConversationEntity Tables Store Lifecycle RunUseCases StepUseCases.

Open Scope Z_scope.

(** [RequestApprovalCommand] *)
Record RequestApprovalCommand : Type := mkRequestApproval {
  ra_run_id : RunId; ra_category : ApprovalCategory; ra_summary : str; ra_reason : str;
  ra_requested_action : str; ra_requested_input : pyval; ra_step_id : option RunStepId;
  ra_expires_at : option datetime; ra_authorization_fingerprint : option str }.

Section Fingerprint.
Context `{Digest}.

Definition AUTHORIZATION_FINGERPRINT_VERSION : Z := 2.

(** [ToolCall.tool] and [ToolCall.tool_input] *)
Record ToolCall : Type := mkToolCall { tc_tool : str; tc_tool_input : json }.

Definition opt_id_str {k} (o : option (Id k)) : str :=
  match o with Some i => value i | None => [] end.

Definition compute_authorization_fingerprint (run : RunId) (step : option RunStepId)
    (tool_call : ToolCall) (authorization_scope : option str) : res str :=
  let material := join [10]
    [int_repr AUTHORIZATION_FINGERPRINT_VERSION; value run; opt_id_str step; tc_tool tool_call;
     json_dumps true (tc_tool_input tool_call); default [] authorization_scope] in
  res_bind (encode material) (fun bytes => Ok (sha256_hex bytes)).

Definition compute_legacy_authorization_fingerprint (run : RunId) (step : option RunStepId)
    (tool_call : ToolCall) : res str :=
  let material := join [10]
    [u "1"; value run; opt_id_str step; tc_tool tool_call; json_dumps true (tc_tool_input tool_call)] in
  res_bind (encode material) (fun bytes => Ok (sha256_hex bytes)).
End Fingerprint.

Definition authorizes (fingerprint : str) (a : ApprovalRequest) : bool :=
  bool_decide (ap_status a = AAPPROVED)
  && bool_decide (ap_authorization_fingerprint a = Some fingerprint)
  && negb (ap_is_consumed a).
Definition find_authorizing_approval (approvals : list ApprovalRequest) (fingerprint : str)
    : option ApprovalRequest :=
  List.find (authorizes fingerprint) approvals.

Section ApprovalUseCases.
Context `{Env}.

Definition need_approval (id : ApprovalRequestId) : U ApprovalRequest :=
  a <- approvals_get id ;; need a (ApprovalNotFound (value id)).

Definition GetApproval (id : ApprovalRequestId) : U ApprovalRequest := with_uow (need_approval id).
Definition ListPendingApprovalsForRun (id : RunId) : U (list ApprovalRequest) :=
  with_uow (need_run id ;;; approvals_list_pending_for_run id).
Definition ListApprovalsForRun (id : RunId) : U (list ApprovalRequest) :=
  with_uow (need_run id ;;; approvals_list_for_run id).

(** The step named by the command must belong to the run and be running. *)
Definition load_waiting_step (run : Run) (step : option RunStepId) : U (option RunStep) :=
  match step with
  | None => ret None
  | Some sid =>
      s <- need_step sid ;;
      raise_if (negb (id_eqb (step_run_id s) (run_id run))) (EntityConflict "step does not belong to run") ;;;
      raise_if (negb (bool_decide (step_status s = SRUNNING)))
        (EntityConflict "step cannot wait for approval") ;;;
      ret (Some s)
  end.

Definition approval_payload (a : ApprovalRequest) : json :=
  JDict [(u "approval_request_id", JStr (value (ap_id a)));
         (u "category", str_of (approval_category_value (ap_category a)));
         (u "step_id", opt_id_json (ap_step_id a))].
Definition waiting_specs (run : Run) (a : ApprovalRequest) : list EventSpec :=
  [(APPROVAL_REQUESTED, approval_payload a, ap_step_id a);
   (RUN_WAITING_FOR_APPROVAL,
    JDict [(u "run_id", JStr (value (run_id run))); (u "approval_request_id", JStr (value (ap_id a)))],
    ap_step_id a)].

Definition new_approval (c : RequestApprovalCommand) (run : Run) (t : Z) : U ApprovalRequest :=
  aid <- new_id ;;
  lift (ApprovalRequest_new aid (Some (run_id run)) (ra_category c) (ra_summary c) (ra_reason c)
          (ra_requested_action c) (ra_requested_input c) (utc t) (ra_step_id c) (ra_expires_at c)
          (ra_authorization_fingerprint c) SUBJ_RUN None).

Definition park_step (step : option RunStep) (t : Z) (a : ApprovalRequest) : U unit :=
  match step with
  | None => ret tt
  | Some s =>
      let* (s', _) := call (step_wait_for_approval (utc t) (ap_id a)) s in
      steps_save s'
  end.

Definition RequestApproval (c : RequestApprovalCommand) : U ApprovalRequest :=
  with_uow (
    run <- need_run (ra_run_id c) ;;
    raise_if (negb (bool_decide (run_status run = RRUNNING)))
      (EntityConflict "run cannot wait for approval") ;;;
    step <- load_waiting_step run (ra_step_id c) ;;
    pending <- approvals_list_pending_for_run (run_id run) ;;
    raise_if (negb (bool_decide (pending = []))) (EntityConflict "run already has a pending approval") ;;;
    t <- now ;;
    a <- new_approval c run t ;;
    approvals_add a ;;;
    let* (run', _) := call (run_wait_for_approval (utc t) (ap_id a)) run in
    runs_save run' ;;;
    on_queue (wq_remove (run_id run')) ;;;
    park_step step t a ;;;
    append_run_events run' t (waiting_specs run' a) ;;;
    commit ;;;
    ret a).

(** The claim-aware variant of a worker *)
Definition RequestToolApproval (c : RequestApprovalCommand) (claim : Claim) : U ApprovalRequest :=
  with_uow (
    t <- now ;;
    active <- on_queue (is_claim_active (ra_run_id c) claim t) ;;
    raise_if (negb active) (ClaimLost "claim is no longer active; refusing to request approval") ;;;
    run <- need_run (ra_run_id c) ;;
    raise_if (negb (bool_decide (run_status run = RRUNNING)))
      (EntityConflict "run cannot wait for approval") ;;;
    step <- load_waiting_step run (ra_step_id c) ;;
    pending <- approvals_list_pending_for_run (run_id run) ;;
    raise_if (negb (bool_decide (pending = []))) (EntityConflict "run already has a pending approval") ;;;
    a <- new_approval c run t ;;
    approvals_add a ;;;
    let* (run', _) := call (run_wait_for_approval (utc t) (ap_id a)) run in
    runs_save run' ;;;
    removed <- on_queue (remove_if_claimed (run_id run') claim t) ;;
    raise_if (negb removed) (ClaimLost "claim lost while parking the run for approval") ;;;
    park_step step t a ;;;
    append_run_events run' t (waiting_specs run' a) ;;;
    commit ;;;
    ret a).

Definition transition_approval_in_transaction (a : ApprovalRequest) (target : ApprovalStatus) (t : Z)
    (resolver note : option str) : U ApprovalRequest :=
  if bool_decide (ap_status a = target) then ret a
  else
  raise_if (negb (bool_decide (ap_status a = APENDING))) (EntityConflict "approval request is terminal") ;;;
  let* (a', _) :=
    match target with
    | AAPPROVED =>
        r <- need resolver (EntityConflict "approved approval requires a resolver") ;;
        call (ap_approve (utc t) r note) a
    | AREJECTED =>
        r <- need resolver (EntityConflict "rejected approval requires a resolver") ;;
        call (ap_reject (utc t) r note) a
    | ACANCELLED => call (ap_cancel (utc t) note) a
    | AEXPIRED => call (ap_expire (utc t)) a
    | APENDING => raise (EntityConflict "approval request transition is not terminal")
    end in
  approvals_save a' ;;;
  ret a'.

(** The run the approval belongs to, and its step *)
Definition load_approval_run (a : ApprovalRequest) : U (option Run) :=
  match ap_run_id a with None => ret None | Some rid => run <- need_run rid ;; ret (Some run) end.
Definition load_approval_step (a : ApprovalRequest) (run : option Run) : U (option RunStep) :=
  match ap_step_id a with
  | None => ret None
  | Some sid =>
      run <- need run (EntityConflict "non-run approval cannot reference a step") ;;
      step <- need_step sid ;;
      raise_if (negb (id_eqb (step_run_id step) (run_id run))) (EntityConflict "step does not belong to run") ;;;
      ret (Some step)
  end.

Definition resume_step (a : ApprovalRequest) (step : option RunStep) (t : Z) : U unit :=
  match step with
  | None => ret tt
  | Some s =>
      if bool_decide (step_status s = SWAITING_FOR_APPROVAL)
         && opt_id_eqb (step_approval_request_id s) (ap_id a)
      then let* (s', _) := call (step_resume (utc t)) s in steps_save s'
      else ret tt
  end.

(** Resume the run if it still waits on this approval; the extra event *)
Definition resume_run (a : ApprovalRequest) (run : Run) (t : Z) : U (Run * list EventSpec) :=
  if bool_decide (run_status run = RWAITING_FOR_APPROVAL)
     && opt_id_eqb (run_approval_request_id run) (ap_id a)
  then
    let* (run', _) := call (run_resume (utc t)) run in
    runs_save run' ;;;
    on_queue (enqueue (run_id run') t t) ;;;
    ret (run', [(RUN_RESUMED,
      JDict [(u "run_id", JStr (value (run_id run'))); (u "approval_request_id", JStr (value (ap_id a)))],
      ap_step_id a)])
  else ret (run, []).

(** [_ApprovalResolution._resolve] *)
Definition resolve (a : ApprovalRequest) (target : ApprovalStatus) (t : Z)
    (resolver note : option str) : U ApprovalRequest :=
  if bool_decide (ap_status a = target) then commit ;;; ret a
  else
  raise_if (negb (bool_decide (ap_status a = APENDING))) (EntityConflict "approval request is terminal") ;;;
  run <- load_approval_run a ;;
  step <- load_approval_step a run ;;
  a' <- transition_approval_in_transaction a target t resolver note ;;
  match run with
  | None => commit ;;; ret a'
  | Some run =>
      resume_step a' step t ;;;
      let* (run', specs) := resume_run a' run t in
      append_run_events run' t
        ((APPROVAL_RESOLVED,
          JDict [(u "approval_request_id", JStr (value (ap_id a')));
                 (u "resolution", str_of (approval_status_value (ap_status a')))],
          ap_step_id a') :: specs) ;;;
      commit ;;;
      ret a'
  end.

Definition ApproveRequest (id : ApprovalRequestId) (resolver : str) (note : option str) : U ApprovalRequest :=
  with_uow (a <- need_approval id ;; t <- now ;; resolve a AAPPROVED t (Some resolver) note).
Definition RejectRequest (id : ApprovalRequestId) (resolver : str) (note : option str) : U ApprovalRequest :=
  with_uow (a <- need_approval id ;; t <- now ;; resolve a AREJECTED t (Some resolver) note).
Definition CancelApproval (id : ApprovalRequestId) (note : option str) : U ApprovalRequest :=
  with_uow (a <- need_approval id ;; t <- now ;; resolve a ACANCELLED t None note).
Definition ExpireApproval (id : ApprovalRequestId) : U ApprovalRequest :=
  with_uow (
    a <- need_approval id ;;
    t <- now ;;
    (if bool_decide (ap_status a = APENDING) then
       e <- need (ap_expires_at a) (EntityConflict "approval request has no expiry deadline") ;;
       raise_if (t <? e) (EntityConflict "approval request expiry is not due")
     else ret tt) ;;;
    resolve a AEXPIRED t None None).
End ApprovalUseCases.
