(* ===== verification/ToolExecution.v ===== *)
(** * Claim-aware tool execution and artifacts

    [src/friday/application/claim_aware_tool_execution.py],
    [tool_gateway.py] and [artifact_use_cases.py].  [ExecuteToolAction.execute]
    is three transactions around one side effect: authorise and record
    ([authorize_action]), check the claim once more ([recheck_claim]), let the
    gateway act, record the result ([record_result]).  Each transaction is a
    definition of its own, so that other use cases can run in between;
    [AgentLoop.execute_tool_action] composes them. *)

From S2P Require Import Prelude Values RunEntity TaskEntity StepEntity ToolEntity ApprovalEntity.
From S2P Require Import EventEntity ScheduleEntity Canonical DelegationEntity WorkQueue.
From S2P Require Import WorkflowExecutionEntity SkillEntity ConversationEntity Tables Store Lifecycle RunUseCases StepUseCases.
From S2P Require Import ApprovalUseCases.

Open Scope Z_scope.

(** ** The gateway's values ([tool_gateway.py]) *)

(** [TOOL_NAME_PATTERN.match]: [^[a-z][a-z0-9_]*\.[a-z][a-z0-9_]*$], where [$]
    also matches before a final line feed. *)
Definition is_name_char (c : Z) : bool := is_lower_digit c || (c =? 95).
Fixpoint name_tail (second : bool) (s : str) : bool :=
  match s with
  | [] => second
  | [10] => second
  | c :: s' =>
      if is_name_char c then name_tail second s'
      else if second then false
      else if c =? 46
           then match s' with c' :: s'' => is_lower c' && name_tail true s'' | [] => false end
           else false
  end.
Definition tool_name_match (s : str) : bool :=
  match s with c :: s' => is_lower c && name_tail false s' | [] => false end.

(** [ToolCall(tool, tool_input)] *)
Definition ToolCall_new (tool : str) (tool_input : pyval) : res ToolCall :=
  if negb (tool_name_match tool)
  then Raise (ToolInputInvalid "tool name does not match the required pattern")
  else match tool_input with
       | PyDict _ => res_bind (ensure_json_value tool_input) (fun j => Ok (mkToolCall tool j))
       | _ => Raise (ToolInputInvalid "tool input must be a JSON object")
       end.

Record ToolRiskAssessment : Type := mkRisk {
  rk_tool : str; rk_read_only : bool; rk_approval_required : bool; rk_category : ApprovalCategory;
  rk_summary : str; rk_authorization_scope : option str; rk_provenance : option ToolProvenance }.
Definition ToolRiskAssessment_check (r : ToolRiskAssessment) : res ToolRiskAssessment :=
  if empty_str (strip (rk_summary r)) then Raise (ValueError "risk assessment summary must not be empty")
  else if not_none (rk_provenance r) && empty_str (strip (default [] (rk_authorization_scope r)))
  then Raise (ValueError "a risk assessment with external provenance must carry an authorization scope")
  else Ok r.

Record ArtifactCandidate : Type := mkCandidate {
  ac_kind : ArtifactKind; ac_name : str; ac_media_type : str; ac_location : str;
  ac_size : option Z; ac_checksum : option str }.
Definition starts_with (p s : str) : bool := bool_decide (take (length p) s = p).
Definition ArtifactCandidate_check (a : ArtifactCandidate) : res ArtifactCandidate :=
  if empty_str (strip (ac_name a)) then Raise (ValueError "artifact candidate name must not be empty")
  else if empty_str (strip (ac_media_type a))
  then Raise (ValueError "artifact candidate media_type must not be empty")
  else if empty_str (strip (ac_location a))
  then Raise (ValueError "artifact candidate location must not be empty")
  else if starts_with (u "/") (ac_location a) || starts_with (u "..") (ac_location a)
  then Raise (ValueError "artifact candidate location must be workspace-relative")
  else if match ac_size a with Some s => s <? 0 | None => false end
  then Raise (ValueError "artifact candidate size must be non-negative")
  else Ok a.

(** [status] is [succeeded] or [failed]. *)
Record ToolExecutionResult : Type := mkToolResult {
  xr_succeeded : bool; xr_output : json; xr_failure : option Failure;
  xr_artifacts : list ArtifactCandidate }.
Definition ToolExecutionResult_check (r : ToolExecutionResult) : res ToolExecutionResult :=
  if negb (xr_succeeded r) && negb (not_none (xr_failure r))
  then Raise (ValueError "a 'failed' result requires a failure")
  else if xr_succeeded r && not_none (xr_failure r)
  then Raise (ValueError "a 'succeeded' result must not carry a failure")
  else Ok r.
Definition result_succeeded (output : json) (artifacts : list ArtifactCandidate) : ToolExecutionResult :=
  mkToolResult true output None artifacts.
Definition result_failed (failure : Failure) (output : json) : ToolExecutionResult :=
  mkToolResult false output (Some failure) [].

(** [cancellation_requested] is the lease flag of the worker, which the gateway
    may poll. *)
Record ToolExecutionRequest : Type := mkToolRequest {
  xq_invocation_id : ToolInvocationId; xq_run_id : RunId; xq_step_id : option RunStepId;
  xq_call : ToolCall; xq_timeout_seconds : option Z }.

(** ** [ExecuteToolAction] *)

(** [ToolActionOutcome] *)
Inductive ToolActionOutcome : Type :=
| OutcomeApprovalRequired (risk : ToolRiskAssessment) (fingerprint : str)
| OutcomeExecuted (risk : ToolRiskAssessment) (fingerprint : str) (invocation : ToolInvocationId)
    (result : ToolExecutionResult) (replayed : bool).

(** What the authorising transaction decides: a finished outcome, or an
    invocation to execute. *)
Inductive Authorization : Type :=
| AuthReplay (invocation : ToolInvocationId) (result : ToolExecutionResult)
| AuthApprovalRequired
| AuthStarted (invocation : ToolInvocationId).

(** The consumed approvals for this exact action, under either fingerprint *)
Definition consumed_for (fingerprint legacy : str) (a : ApprovalRequest) : bool :=
  bool_decide (ap_status a = AAPPROVED) && ap_is_consumed a &&
  (bool_decide (ap_authorization_fingerprint a = Some fingerprint) ||
   bool_decide (ap_authorization_fingerprint a = Some legacy)).

(** The inner loop of [_find_replay] *)
Fixpoint replay_of (legacy : str) (a : ApprovalRequest) (tools : list ToolInvocation)
    : res (option (ToolInvocationId * ToolExecutionResult)) :=
  match tools with
  | [] => Ok None
  | x :: tools' =>
      if negb (opt_id_eqb (tool_approval_request_id x) (ap_id a)) then replay_of legacy a tools'
      else if bool_decide (ap_authorization_fingerprint a = Some legacy) && not_none (tool_provenance x)
      then replay_of legacy a tools'
      else match tool_status x with
           | ISUCCEEDED => Ok (Some (tool_id x, result_succeeded (tool_output x) []))
           | IFAILED =>
               match tool_failure x with
               | Some f => Ok (Some (tool_id x, result_failed f JNull))
               | None => Raise AssertionError
               end
           | _ => Raise (ToolExecutionAmbiguous
                    "a prior protected execution for this exact action is not terminal")
           end
  end.

Section ToolExecution.
Context `{Env} `{Digest}.

Definition require_claim (run : RunId) (c : Claim) (t : Z) : U unit :=
  active <- on_queue (is_claim_active run c t) ;;
  raise_if (negb active) (ClaimLost "claim is no longer active; refusing tool execution step").

(** The outer loop of [_find_replay] *)
Fixpoint find_replay (legacy : str) (consumed : list ApprovalRequest)
    : U (option (ToolInvocationId * ToolExecutionResult)) :=
  match consumed with
  | [] => ret None
  | a :: consumed' =>
      match ap_run_id a with
      | None => find_replay legacy consumed'
      | Some rid =>
          tools <- tools_list_for_run rid ;;
          r <- lift (replay_of legacy a tools) ;;
          match r with
          | Some r => ret (Some r)
          | None => find_replay legacy consumed'
          end
      end
  end.

(** Creating the invocation, already running *)
Definition start_invocation (run : Run) (step : option RunStepId) (call_ : ToolCall)
    (risk : ToolRiskAssessment) (approval : option ApprovalRequestId) (t : Z) : U ToolInvocationId :=
  iid <- new_id ;;
  invocation <- lift (ToolInvocation_new iid (run_id run) (tc_tool call_) (to_py (tc_tool_input call_))
                        (utc t) step approval (rk_provenance risk)) ;;
  tools_add invocation ;;;
  let* (started, _) := call (tool_start (utc t)) invocation in
  tools_save started ;;;
  append_run_events run t
    [(TOOL_INVOCATION_REQUESTED,
      JDict [(u "tool_invocation_id", JStr (value (tool_id started)));
             (u "tool_name", JStr (tool_tool_name started))], step);
     (TOOL_INVOCATION_STARTED, id_payload "tool_invocation_id" (tool_id started), step)] ;;;
  commit ;;;
  ret (tool_id started).

(** Transaction A *)
Definition authorize_action (run_id_ : RunId) (step : option RunStepId) (call_ : ToolCall)
    (risk : ToolRiskAssessment) (fingerprint : str) (c : Claim) : U Authorization :=
  with_uow (
    t <- now ;;
    require_claim run_id_ c t ;;;
    run <- need_run run_id_ ;;
    raise_if (negb (bool_decide (run_status run = RRUNNING))) (EntityConflict "run is not running") ;;;
    if negb (rk_approval_required risk) then
      iid <- start_invocation run step call_ risk None t ;;
      ret (AuthStarted iid)
    else
    approvals <- approvals_list_for_run run_id_ ;;
    legacy <- lift (compute_legacy_authorization_fingerprint run_id_ step call_) ;;
    replay <- find_replay legacy (List.filter (consumed_for fingerprint legacy) approvals) ;;
    match replay with
    | Some (iid, result) => commit ;;; ret (AuthReplay iid result)
    | None =>
        match find_authorizing_approval approvals fingerprint with
        | None => commit ;;; ret AuthApprovalRequired
        | Some a =>
            let* (a', _) := call (ap_consume (utc t)) a in
            approvals_save a' ;;;
            iid <- start_invocation run step call_ risk (Some (ap_id a')) t ;;
            ret (AuthStarted iid)
        end
    end).

(** The durable claim check right before the side effect *)
Definition recheck_claim (run : RunId) (c : Claim) : U unit :=
  with_uow (t <- now ;; require_claim run c t ;;; commit).

(** [_artifact_from] *)
Definition artifact_from (candidate : ArtifactCandidate) (run : RunId) (step : option RunStepId) (t : Z)
    : U Artifact :=
  aid <- new_id ;;
  lift (Artifact_new aid run (ac_kind candidate) (ac_name candidate) (ac_media_type candidate)
          (ac_location candidate) (utc t) step (ac_size candidate) (ac_checksum candidate) PyNone).

Definition artifact_spec (a : Artifact) (step : option RunStepId) : EventSpec :=
  (ARTIFACT_CREATED,
   JDict [(u "artifact_id", JStr (value (art_id a))); (u "kind", str_of (artifact_kind_value (art_kind a)));
          (u "location", JStr (art_location a))], step).

(** Transaction B *)
Definition record_result (run_id_ : RunId) (step : option RunStepId) (iid : ToolInvocationId)
    (result : ToolExecutionResult) (c : Claim) : U unit :=
  with_uow (
    t <- now ;;
    require_claim run_id_ c t ;;;
    run <- need_run run_id_ ;;
    persisted <- tools_get iid ;;
    persisted <- need persisted (EntityConflict "tool invocation is no longer running") ;;
    raise_if (negb (bool_decide (tool_status persisted = IRUNNING)))
      (EntityConflict "tool invocation is no longer running") ;;;
    let* (persisted', event) :=
      (if xr_succeeded result then
         let* (x, _) := call (tool_succeed (utc t) (Some (to_py (xr_output result)))) persisted in
         ret (x, (TOOL_INVOCATION_SUCCEEDED, id_payload "tool_invocation_id" iid, step))
       else
         f <- need (xr_failure result) AssertionError ;;
         let* (x, _) := call (tool_fail (utc t) f) persisted in
         ret (x, (TOOL_INVOCATION_FAILED,
                  JDict [(u "tool_invocation_id", JStr (value iid)); (u "failure_code", JStr (fl_code f))],
                  step))) in
    tools_save persisted' ;;;
    specs <- collect (xr_artifacts result) (fun candidate =>
      a <- artifact_from candidate run_id_ step t ;;
      artifacts_add a ;;;
      ret [artifact_spec a step]) ;;
    append_run_events run t (event :: specs) ;;;
    commit).

End ToolExecution.

(** ** Artifacts ([artifact_use_cases.py]) *)
Record RecordArtifactCommand : Type := mkRecordArtifact {
  cm_run_id : RunId; cm_kind : ArtifactKind; cm_name : str; cm_media_type : str; cm_location : str;
  cm_step_id : option RunStepId; cm_size : option Z; cm_checksum : option str; cm_metadata : pyval;
  cm_artifact_id : option ArtifactId }.

(** [_same_recording]: identical data but for the time *)
Definition same_recording (a b : Artifact) : bool :=
  id_eqb (art_run_id a) (art_run_id b) && bool_decide (art_step_id a = art_step_id b) &&
  bool_decide (art_kind a = art_kind b) &&
  bool_decide (art_name a = art_name b) && bool_decide (art_media_type a = art_media_type b) &&
  bool_decide (art_location a = art_location b) && bool_decide (art_size a = art_size b) &&
  bool_decide (art_checksum a = art_checksum b) && json_eqb (art_metadata a) (art_metadata b).

Section Artifacts.
Context `{Env}.

Definition GetArtifact (id : ArtifactId) : U Artifact :=
  with_uow (a <- artifacts_get id ;; need a (OtherError "ArtifactNotFound")).
Definition ListArtifactsForRun (id : RunId) : U (list Artifact) :=
  with_uow (need_run id ;;; artifacts_list_for_run id).

(** A fresh artifact: stored, with its event *)
Definition record_artifact (run : Run) (a : Artifact) (t : Z) : U Artifact :=
  artifacts_add a ;;;
  append_run_events run t [artifact_spec a (art_step_id a)] ;;;
  commit ;;;
  ret a.

Definition RecordArtifact (c : RecordArtifactCommand) : U Artifact :=
  with_uow (
    run <- need_run (cm_run_id c) ;;
    raise_if (negb (bool_decide (run_status run = RRUNNING))) (EntityConflict "run cannot record artifacts") ;;;
    match cm_step_id c with
    | None => ret tt
    | Some sid =>
        s <- need_step sid ;;
        raise_if (negb (id_eqb (step_run_id s) (run_id run))) (EntityConflict "step does not belong to run")
    end ;;;
    t <- now ;;
    aid <- match cm_artifact_id c with Some i => ret i | None => new_id end ;;
    a <- lift (Artifact_new aid (run_id run) (cm_kind c) (cm_name c) (cm_media_type c) (cm_location c)
                 (utc t) (cm_step_id c) (cm_size c) (cm_checksum c) (cm_metadata c)) ;;
    match cm_artifact_id c with
    | None => record_artifact run a t
    | Some i =>
        existing <- artifacts_get i ;;
        match existing with
        | None => record_artifact run a t
        | Some e =>
            raise_if (negb (same_recording e a)) (EntityConflict "artifact identity is immutable") ;;;
            commit ;;;
            ret e
        end
    end).
End Artifacts.
