(* ===== verification/RuntimeActions.v ===== *)
(** * Brain actions

    [src/friday/application/runtime_actions.py]: the actions the brain may
    propose, and the validator every proposal goes through before anything is
    authorised or executed.  A proposal is whatever [json.loads] returned, so it
    may hold [NaN] and lone surrogates. *)

From S2P Require Import Prelude Values Canonical PyText AgentEntity ToolEntity ToolExecution.

Open Scope Z_scope.

Definition MAX_SUMMARY_CHARS : Z := 4000.
Definition MAX_REASON_CHARS : Z := 2000.
Definition MAX_TOOL_NAME_CHARS : Z := 128.
Definition MAX_YIELD_DELAY_SECONDS : Z := 86400.
Definition MAX_DELEGATION_INPUT_BYTES : Z := 16384.
Definition MAX_DELEGATION_INPUT_DEPTH : Z := 6.
Definition MAX_DELEGATION_INPUT_NODES : Z := 128.
Definition MAX_DELEGATION_OBJECTIVE_CHARS : Z := 4000.
Definition MAX_DELEGATION_OUTPUT_CONTRACT_CHARS : Z := 4000.

Inductive BrainAction : Type :=
| FinishAction (summary : str) (details : json)
| FailAction (reason : str)
| YieldAction (delay_seconds : option Z) (reason : option str)
| InvokeToolAction (tool : str) (tool_input : json) (reason : option str)
| DelegateAction (target_agent_key objective : str) (input_payload : json) (expected_output_contract : str)
    (reason : option str).

Definition BrainResponseInvalid : exn := OtherError "BrainResponseInvalid".

(** ** Dictionaries as [json.loads] builds them *)
Abbreviation pydict := (list (pyval * pyval)).
(** [raw.get(key)], where a missing key reads as [None], and [key in raw] *)
Fixpoint py_lookup (key : str) (raw : pydict) : option pyval :=
  match raw with
  | [] => None
  | (PyStr k, v) :: raw' => if bool_decide (k = key) then Some v else py_lookup key raw'
  | _ :: raw' => py_lookup key raw'
  end.
Definition py_get (key : string) (raw : pydict) : pyval := default PyNone (py_lookup (u key) raw).

(** [sorted(keys)] compares strings with strings and numbers with numbers. *)
Definition is_py_str (v : pyval) : bool := match v with PyStr _ => true | _ => false end.
Definition is_py_num (v : pyval) : bool :=
  match v with PyBool _ | PyInt _ | PyFloat _ _ | PyNonFinite _ => true | _ => false end.
Definition sortable (keys : list pyval) : bool :=
  forallb is_py_str keys || forallb is_py_num keys || (len keys <? 2).

Definition require_dict (value : pyval) : res pydict :=
  match value with PyDict d => Ok d | _ => Raise BrainResponseInvalid end.
Definition require_str (value : pyval) (min_length max_length : Z) : res str :=
  match value with
  | PyStr s => if (len s <? min_length) || (len s >? max_length) then Raise BrainResponseInvalid else Ok s
  | _ => Raise BrainResponseInvalid
  end.
Definition key_allowed (allowed : list string) (k : pyval) : bool :=
  match k with PyStr s => bool_decide (s ∈ map u allowed) | _ => false end.
Definition reject_unknown_keys (raw : pydict) (allowed : list string) : res unit :=
  let unknown := List.filter (fun k => negb (key_allowed allowed k)) (map fst raw) in
  match unknown with
  | [] => Ok tt
  | _ => if sortable unknown then Raise BrainResponseInvalid else Raise (OtherError "TypeError")
  end.

(** [if "reason" in raw: ...] *)
Definition optional_reason (raw : pydict) : res (option str) :=
  match py_lookup (u "reason") raw with
  | None => Ok None
  | Some v => res_bind (require_str v 0 MAX_REASON_CHARS) (fun s => Ok (Some s))
  end.

(** ** One parser per action *)
Definition parse_finish (raw : pydict) : res BrainAction :=
  res_bind (reject_unknown_keys raw ["version"; "action"; "result"]%string) (fun _ =>
  res_bind (require_dict (py_get "result" raw)) (fun result =>
  res_bind (reject_unknown_keys result ["summary"; "details"]%string) (fun _ =>
  res_bind (require_str (py_get "summary" result) 1 MAX_SUMMARY_CHARS) (fun summary =>
  res_bind (ensure_json_value (py_get "details" result)) (fun details =>
  Ok (FinishAction summary details)))))).

Definition parse_fail (raw : pydict) : res BrainAction :=
  res_bind (reject_unknown_keys raw ["version"; "action"; "reason"]%string) (fun _ =>
  res_bind (require_str (py_get "reason" raw) 1 MAX_REASON_CHARS) (fun reason =>
  Ok (FailAction reason))).

Definition optional_delay (raw : pydict) : res (option Z) :=
  match py_lookup (u "delay_seconds") raw with
  | None => Ok None
  | Some (PyInt n) =>
      if (n <? 0) || (n >? MAX_YIELD_DELAY_SECONDS) then Raise BrainResponseInvalid else Ok (Some n)
  | Some _ => Raise BrainResponseInvalid
  end.
Definition parse_yield (raw : pydict) : res BrainAction :=
  res_bind (reject_unknown_keys raw ["version"; "action"; "delay_seconds"; "reason"]%string) (fun _ =>
  res_bind (optional_delay raw) (fun delay =>
  res_bind (optional_reason raw) (fun reason =>
  Ok (YieldAction delay reason)))).

Definition parse_invoke_tool (raw : pydict) : res BrainAction :=
  res_bind (reject_unknown_keys raw ["version"; "action"; "tool"; "input"; "reason"]%string) (fun _ =>
  res_bind (require_str (py_get "tool" raw) 1 MAX_TOOL_NAME_CHARS) (fun tool =>
  if negb (tool_name_match tool) then Raise BrainResponseInvalid else
  res_bind (require_dict (py_get "input" raw)) (fun input =>
  res_bind (ensure_json_value (PyDict input)) (fun tool_input =>
  res_bind (optional_reason raw) (fun reason =>
  Ok (InvokeToolAction tool tool_input reason)))))).

(** [_json_complexity] *)
Fixpoint json_complexity (value : json) (depth : Z) : Z * Z :=
  match value with
  | JDict d =>
      foldl (fun acc x => (acc.1 + (1 + len x.1 + x.2.1), Z.max acc.2 x.2.2)) (1, depth)
        (map (fun p => (fst p, json_complexity (snd p) (depth + 1))) d)
  | JList l =>
      foldl (fun acc x => (acc.1 + x.1, Z.max acc.2 x.2)) (1, depth)
        (map (fun v => json_complexity v (depth + 1)) l)
  | _ => (1, depth)
  end.

(** [except DomainValidationError as exc: raise BrainResponseInvalid(...)] *)
Definition or_invalid {A} (r : res A) : res A :=
  match r with Raise (DomainValidationError _) => Raise BrainResponseInvalid | _ => r end.

Section Parse.
Context `{Digest}.

(** The three limits of a delegated input *)
Definition bounded_input (input : json) : res unit :=
  res_bind (encode (json_dumps false input)) (fun bytes =>
  let '(nodes, depth) := json_complexity input 0 in
  if (len bytes >? MAX_DELEGATION_INPUT_BYTES) || (depth >? MAX_DELEGATION_INPUT_DEPTH)
     || (nodes >? MAX_DELEGATION_INPUT_NODES)
  then Raise BrainResponseInvalid else Ok tt).
Definition parse_delegate (raw : pydict) : res BrainAction :=
  res_bind (reject_unknown_keys raw ["version"; "action"; "target_agent_key"; "objective"; "input";
                                     "expected_output_contract"; "reason"]%string) (fun _ =>
  res_bind (require_str (py_get "target_agent_key" raw) 1 MAX_AGENT_KEY_LENGTH) (fun raw_key =>
  res_bind (or_invalid (validate_agent_key raw_key)) (fun key =>
  res_bind (require_str (py_get "objective" raw) 1 MAX_DELEGATION_OBJECTIVE_CHARS) (fun objective =>
  res_bind (require_str (py_get "expected_output_contract" raw) 1 MAX_DELEGATION_OUTPUT_CONTRACT_CHARS)
    (fun expected =>
  res_bind (require_dict (py_get "input" raw)) (fun input_raw =>
  res_bind (or_invalid (ensure_json_value (PyDict input_raw))) (fun input =>
  res_bind (bounded_input input) (fun _ =>
  res_bind (optional_reason raw) (fun reason =>
  Ok (DelegateAction key objective input expected reason)))))))))).

(** [_PARSERS] *)
Definition parsers : list (str * (pydict -> res BrainAction)) :=
  [(u "finish", parse_finish); (u "fail", parse_fail); (u "yield", parse_yield);
   (u "invoke_tool", parse_invoke_tool); (u "delegate", parse_delegate)].

(** [version != RUNTIME_ACTION_VERSION]: [1.0] is equal to [1], [True] is
    refused before. *)
Definition version_supported (v : pyval) : bool :=
  match v with
  | PyInt n => n =? 1
  | PyFloat m e => num_eqb (m, e) (1, 0)
  | _ => false
  end.
Definition parse_brain_action (raw : pyval) : res BrainAction :=
  res_bind (require_dict raw) (fun envelope =>
  if negb (version_supported (py_get "version" envelope)) then Raise BrainResponseInvalid
  else match py_get "action" envelope with
       | PyStr action =>
           match dict_get action parsers with
           | Some parser => parser envelope
           | None => Raise BrainResponseInvalid
           end
       | _ => Raise BrainResponseInvalid
       end).

(** ** The contract *)

(** An action within the limits of the contract *)
Definition reason_ok (r : option str) : Prop := match r with Some s => len s <= MAX_REASON_CHARS | None => True end.
Definition is_object (j : json) : Prop := match j with JDict _ => True | _ => False end.
Definition action_ok (a : BrainAction) : Prop :=
  match a with
  | FinishAction s _ => 1 <= len s <= MAX_SUMMARY_CHARS
  | FailAction r => 1 <= len r <= MAX_REASON_CHARS
  | YieldAction d r => match d with Some n => 0 <= n <= MAX_YIELD_DELAY_SECONDS | None => True end /\ reason_ok r
  | InvokeToolAction t i r =>
      1 <= len t <= MAX_TOOL_NAME_CHARS /\ tool_name_match t = true /\ is_object i /\ reason_ok r
  | DelegateAction k o i c r =>
      1 <= len k <= MAX_AGENT_KEY_LENGTH /\ validate_agent_key k = Ok k /\
      1 <= len o <= MAX_DELEGATION_OBJECTIVE_CHARS /\ 1 <= len c <= MAX_DELEGATION_OUTPUT_CONTRACT_CHARS /\
      is_object i /\ bounded_input i = Ok tt /\ reason_ok r
  end.

(** The envelope of an action, as the contract prescribes it *)
Definition fields (l : list (string * pyval)) : pyval := PyDict (map (fun p => (PyStr (u (fst p)), snd p)) l).
Definition reason_field (r : option str) : list (string * pyval) :=
  match r with Some s => [("reason"%string, PyStr s)] | None => [] end.
Definition action_fields (a : BrainAction) : list (string * pyval) :=
  match a with
  | FinishAction s d => [("action"%string, PyStr (u "finish"));
                         ("result"%string, fields [("summary"%string, PyStr s); ("details"%string, to_py d)])]
  | FailAction r => [("action"%string, PyStr (u "fail")); ("reason"%string, PyStr r)]
  | YieldAction d r =>
      ("action"%string, PyStr (u "yield")) ::
      match d with Some n => [("delay_seconds"%string, PyInt n)] | None => [] end ++ reason_field r
  | InvokeToolAction t i r =>
      [("action"%string, PyStr (u "invoke_tool")); ("tool"%string, PyStr t); ("input"%string, to_py i)] ++ reason_field r
  | DelegateAction k o i c r =>
      [("action"%string, PyStr (u "delegate")); ("target_agent_key"%string, PyStr k); ("objective"%string, PyStr o);
       ("input"%string, to_py i); ("expected_output_contract"%string, PyStr c)] ++ reason_field r
  end.
Definition action_envelope (a : BrainAction) : pyval := fields (("version"%string, PyInt 1) :: action_fields a).
End Parse.

(** ** Properties *)

(** Evaluating a parser on an envelope whose keys are known *)
Ltac parse_eval :=
  lazy -[require_str ensure_json_value tool_name_match bounded_input validate_agent_key to_py Z.ltb Z.gtb orb
         MAX_SUMMARY_CHARS MAX_REASON_CHARS MAX_TOOL_NAME_CHARS MAX_YIELD_DELAY_SECONDS MAX_AGENT_KEY_LENGTH
         MAX_DELEGATION_OBJECTIVE_CHARS MAX_DELEGATION_OUTPUT_CONTRACT_CHARS].
Section Facts.
Context `{Digest}.

Lemma res_bind_ok {A B} (r : res A) (f : A -> res B) b :
  res_bind r f = Ok b -> exists a, r = Ok a /\ f a = Ok b.
Proof. destruct r as [a|e]; [|done]. intros E. by exists a. Qed.
Lemma res_bind_raise {A B} (r : res A) (f : A -> res B) e :
  res_bind r f = Raise e -> r = Raise e \/ exists a, r = Ok a /\ f a = Raise e.
Proof. destruct r as [a|e']; [right; by exists a|left; by injection H0 as ->]. Qed.

Lemma require_str_ok v lo hi s : require_str v lo hi = Ok s -> v = PyStr s /\ lo <= len s <= hi.
Proof.
  destruct v as [|s'|?|?|? ?|?|?|?|?]; try done. cbn. destruct (_ || _) eqn:E; [done|]. intros [= ->].
  apply orb_false_iff in E as [E1 E2]. split; [done|lia].
Qed.
Lemma require_str_str s lo hi : lo <= len s <= hi -> require_str (PyStr s) lo hi = Ok s.
Proof. intros Hl. cbn. rewrite (proj2 (orb_false_iff _ _)); [done|]. split; lia. Qed.
Lemma reason_sound raw r : optional_reason raw = Ok r -> reason_ok r.
Proof.
  unfold optional_reason. destruct (py_lookup _ raw); [|by intros [= <-]].
  intros (s & Hs & [= <-])%res_bind_ok. by apply require_str_ok in Hs as [_ [_ ?]].
Qed.
Lemma ensure_object d j : ensure_json_value (PyDict d) = Ok j -> is_object j.
Proof. cbn. by intros (d' & _ & [= <-])%res_bind_ok. Qed.

(** Every accepted proposal is within the contract. *)
Lemma parse_sound raw a : parse_brain_action raw = Ok a -> action_ok a.
Proof.
  unfold parse_brain_action. intros (env & _ & E)%res_bind_ok. destruct (version_supported _); [|done].
  cbn [negb] in E. destruct (py_get "action" env); try done. unfold parsers in E. cbn [dict_get] in E.
  repeat (case_bool_decide; [clear -E; revert E|]); try done.
  - intros (_ & _ & (d & _ & (_ & _ & (s & Hs & (j & _ & [= <-])%res_bind_ok)%res_bind_ok)%res_bind_ok)%res_bind_ok)%res_bind_ok.
    by apply require_str_ok in Hs as [_ ?].
  - intros (_ & _ & (s & Hs & [= <-])%res_bind_ok)%res_bind_ok. by apply require_str_ok in Hs as [_ ?].
  - intros (_ & _ & (d & Hd & (r & Hr & [= <-])%res_bind_ok)%res_bind_ok)%res_bind_ok.
    split; [|by eapply reason_sound]. unfold optional_delay in Hd.
    destruct (py_lookup _ env) as [[]|]; try done; [|by injection Hd as <-].
    destruct (_ || _) eqn:E; [done|]. injection Hd as <-. apply orb_false_iff in E as [? ?]. lia.
  - intros (_ & _ & (t & Ht & E)%res_bind_ok)%res_bind_ok. apply require_str_ok in Ht as [_ Ht].
    destruct (tool_name_match t) eqn:Em; [|done]. cbn [negb] in E.
    destruct (res_bind_ok _ _ _ E) as (d & _ & (i & Hi & (r & Hr & [= <-])%res_bind_ok)%res_bind_ok).
    split_and!; [lia..|done|by eapply ensure_object|by eapply reason_sound].
  - intros (_ & _ & (k & Hk & (k' & Hk' & (o & Ho & (c & Hc & (d & _ & (i & Hi & (l & Hl & (r & Hr & [= <-])%res_bind_ok)%res_bind_ok)%res_bind_ok)%res_bind_ok)%res_bind_ok)%res_bind_ok)%res_bind_ok)%res_bind_ok)%res_bind_ok.
    apply require_str_ok in Hk as [_ Hk], Ho as [_ Ho], Hc as [_ Hc].
    assert (k' = k /\ validate_agent_key k = Ok k) as [-> Hv].
    { unfold validate_agent_key in *. destruct (_ || _); [done|]. by injection Hk' as <-. }
    split_and!; try lia; try done; [|by destruct l|by eapply reason_sound].
    destruct (ensure_json_value (PyDict d)) as [i'|e] eqn:Ej; [|by destruct e]. injection Hi as <-.
    by eapply ensure_object.
Qed.

Lemma delay_ok n : 0 <= n <= MAX_YIELD_DELAY_SECONDS -> (n <? 0) || (n >? MAX_YIELD_DELAY_SECONDS) = false.
Proof. intros Hn. apply orb_false_iff. split; lia. Qed.
Lemma object_to_py i : is_object i -> exists d, to_py i = PyDict d.
Proof. destruct i; try done. intros _. cbn. by eexists. Qed.

(** Every action within the contract is accepted, as it is. *)
Lemma parse_complete a : action_ok a -> parse_brain_action (action_envelope a) = Ok a.
Proof.
  destruct a as [s d|r|dl r|t i r|k o i c r]; cbn [action_ok]; unfold action_envelope.
  - intros Hs. parse_eval. rewrite require_str_str by done. parse_eval. by rewrite ensure_json_to_py.
  - intros Hr. parse_eval. by rewrite require_str_str.
  - intros [Hd Hr]. destruct dl as [n|], r as [s|]; parse_eval; rewrite ?delay_ok by done; parse_eval;
      rewrite ?require_str_str by (split; [apply len_nonneg|exact Hr]); done.
  - intros (Ht & Hm & Hi & Hr). destruct (object_to_py i Hi) as [d Ed].
    destruct r as [s|]; parse_eval; rewrite require_str_str by done; parse_eval; rewrite Hm; parse_eval;
      rewrite Ed; parse_eval; rewrite <- Ed, ensure_json_to_py; parse_eval;
      rewrite ?require_str_str by (split; [apply len_nonneg|exact Hr]); done.
  - intros (Hk & Hv & Ho & Hc & Hi & Hb & Hr). destruct (object_to_py i Hi) as [d Ed].
    destruct r as [s|]; parse_eval; rewrite require_str_str by done; parse_eval; rewrite Hv; parse_eval;
      rewrite require_str_str by done; parse_eval; rewrite require_str_str by done; parse_eval;
      rewrite Ed; parse_eval; rewrite <- Ed, ensure_json_to_py; parse_eval; rewrite Hb; parse_eval;
      rewrite ?require_str_str by (split; [apply len_nonneg|exact Hr]); done.
Qed.

(** Where a refusal comes from *)
Lemma reject_raises raw allowed e :
  Forall (fun p => is_py_str (fst p) = true) raw -> reject_unknown_keys raw allowed = Raise e -> e = BrainResponseInvalid.
Proof.
  intros Hk. unfold reject_unknown_keys.
  assert (Hs : forallb is_py_str (List.filter (fun k => negb (key_allowed allowed k)) (map fst raw)) = true).
  { apply forallb_forall. intros k [Hin _]%filter_In. apply in_map_iff in Hin as (p & <- & Hin).
    by apply (proj1 (Forall_forall _ _) Hk), list_elem_of_In. }
  destruct (List.filter _ _) as [|k l]; [done|]. unfold sortable. rewrite Hs. by intros [= <-].
Qed.
Lemma require_str_raises v lo hi e : require_str v lo hi = Raise e -> e = BrainResponseInvalid.
Proof. destruct v; cbn; try (by intros [= <-]). destruct (_ || _); [by intros [= <-]|done]. Qed.
Lemma require_dict_raises v e : require_dict v = Raise e -> e = BrainResponseInvalid.
Proof. destruct v; cbn; congruence. Qed.
Lemma reason_raises raw e : optional_reason raw = Raise e -> e = BrainResponseInvalid.
Proof.
  unfold optional_reason. destruct (py_lookup _ raw); [|done].
  intros [?%require_str_raises|(s & _ & ?)]%res_bind_raise; done.
Qed.
Lemma encode_raises s e : encode s = Raise e -> e = OtherError "UnicodeEncodeError".
Proof.
  induction s as [|c s IH]; cbn; [done|]. intros [Hc|(b & _ & [Hs|(bs & _ & ?)]%res_bind_raise)]%res_bind_raise;
    [|by apply IH|done]. unfold utf8_char in Hc. repeat case_match; congruence.
Qed.

(** A dictionary of JSON values *)
Definition json_dict (d : pydict) : Prop := exists l, PyDict d = to_py (JDict l).
Lemma json_dict_keys d : json_dict d -> Forall (fun p => is_py_str (fst p) = true) d.
Proof. intros [l [= ->]]. apply Forall_fmap, Forall_true. done. Qed.
Lemma json_dict_get key d : json_dict d -> exists j, py_get key d = to_py j.
Proof.
  intros [l [= ->]]. unfold py_get. induction l as [|[k v] l [j IH]]; cbn; [by exists JNull|].
  case_bool_decide; [by exists v|by exists j].
Qed.
Lemma to_py_dict j d : to_py j = PyDict d -> json_dict d.
Proof. destruct j; try done. intros E. by eexists. Qed.
Lemma require_json_dict key d d' : json_dict d -> require_dict (py_get key d) = Ok d' ->
  json_dict d' /\ py_get key d = PyDict d'.
Proof.
  intros Hd. destruct (json_dict_get key d Hd) as [j E]. rewrite E.
  destruct j; cbn; try done. intros [= <-]. split; [by eexists|done].
Qed.
Lemma ensure_json_dict d : json_dict d -> exists j, ensure_json_value (PyDict d) = Ok j /\ PyDict d = to_py j.
Proof. intros [l E]. exists (JDict l). rewrite E. by rewrite ensure_json_to_py. Qed.

(** The refusals of a parser's steps on JSON values *)
Ltac raises :=
  repeat match goal with
  | E : res_bind _ _ = Raise _ |- _ => apply res_bind_raise in E as [E|(? & ? & E)]
  | E : require_str _ _ _ = Raise _ |- _ => apply require_str_raises in E; subst; by left
  | E : require_dict _ = Raise _ |- _ => apply require_dict_raises in E; subst; by left
  | E : optional_reason _ = Raise _ |- _ => apply reason_raises in E; subst; by left
  | E : require_dict (py_get _ ?d) = Ok _, Hd : json_dict ?d |- _ => apply (require_json_dict _ _ _ Hd) in E as [? E]
  | E : reject_unknown_keys ?d _ = Raise _, Hd : json_dict ?d |- _ =>
      apply (reject_raises _ _ _ (json_dict_keys _ Hd)) in E; subst; by left
  | E : context [ensure_json_value (PyDict ?d)], Hd : json_dict ?d |- _ =>
      let j := fresh "j" in let Ej := fresh "Ej" in
      destruct (ensure_json_dict d Hd) as (j & Ej & ?); rewrite Ej in E; clear Ej; cbn [or_invalid] in E
  | E : Ok _ = Ok _ |- _ => injection E as <-
  | E : Raise BrainResponseInvalid = Raise _ |- _ => injection E as <-; by left
  | E : Ok _ = Raise _ |- _ => done
  end.

Definition surrogate_input (e : exn) (raw : pyval) : Prop :=
  e = OtherError "UnicodeEncodeError" /\
  exists d i, raw = PyDict d /\ py_get "input" d = to_py i /\ encode (json_dumps false i) = Raise e.
Lemma parse_raises j e :
  parse_brain_action (to_py j) = Raise e -> e = BrainResponseInvalid \/ surrogate_input e (to_py j).
Proof.
  unfold parse_brain_action. intros E. raises.
  assert (Hraw : to_py j = PyDict x) by (destruct j; cbn in *; congruence). rewrite Hraw.
  apply to_py_dict in Hraw. clear H0. destruct (version_supported _); cbn [negb] in E; raises.
  destruct (py_get "action" x); raises. unfold parsers in E. cbn [dict_get] in E.
  repeat (case_bool_decide; [clear H0|]); cbn beta in E; raises.
  - unfold parse_finish in E. raises. destruct (json_dict_get "details" x1) as [jd Ejd]; [done|].
    by rewrite Ejd, ensure_json_to_py in E.
  - unfold parse_fail in E. raises.
  - unfold parse_yield in E. raises. unfold optional_delay in E.
    destruct (py_lookup _ x) as [[]|]; raises. destruct (_ || _); raises.
  - unfold parse_invoke_tool in E. raises. destruct (tool_name_match _); cbn [negb] in E; raises.
  - unfold parse_delegate in E. raises.
    + unfold validate_agent_key in E. destruct (_ || _); cbn in E; raises.
    + unfold bounded_input in E. raises.
      * right. pose proof (encode_raises _ _ E) as ->. split; [done|]. exists x, j0. split_and!; [done| |done].
        congruence.
      * destruct (json_complexity j0 0). destruct (_ || _); raises.
Qed.
End Facts.

(** C24: the validator of brain proposals is exact: whatever it accepts is within
    every limit of the contract (text lengths, delay, tool name, agent key, size,
    depth and node count of a delegated input), and every action within the limits
    is accepted unchanged from the envelope the contract prescribes. *)
Theorem brain_action_contract `{Digest} :
  (forall raw a, parse_brain_action raw = Ok a -> action_ok a) /\
  (forall a, action_ok a -> parse_brain_action (action_envelope a) = Ok a).
Proof. split; [apply parse_sound|apply parse_complete]. Qed.

(** The proposal [{"version": 1, "action": "finish", "result": {"summary": s,
    "details": NaN}}], which [json.loads] reads without complaint *)
Definition nan_finish (s : str) : pyval :=
  fields [("version"%string, PyInt 1); ("action"%string, PyStr (u "finish"));
          ("result"%string, fields [("summary"%string, PyStr s); ("details"%string, PyNonFinite true)])].


Lemma brain_action_contract_witness :
  let a := InvokeToolAction (u "fs.read") (JDict [(u "path", JStr (u "notes.md"))]) (Some (u "look it up")) in
  @action_ok toy_digest a /\ @parse_brain_action toy_digest (action_envelope a) = Ok a.
Proof.
  cbv zeta. assert (Ha : @action_ok toy_digest (InvokeToolAction (u "fs.read") (JDict [(u "path", JStr (u "notes.md"))])
    (Some (u "look it up")))) by (vm_compute; repeat split; discriminate).
  split; [exact Ha|]. apply (proj2 (@brain_action_contract toy_digest)). exact Ha.
Defined.
