(* ===== verification/AgentUseCases.v ===== *)
(** * Agent use cases

    [src/friday/application/agent_registry.py] and
    [brain_runtime_registry.py]: creating agents and immutable revisions,
    binding tasks to agents, and freezing the agent identity of a run. *)

From S2P Require Import Prelude Values RunEntity TaskEntity StepEntity ToolEntity ApprovalEntity.
From S2P Require Import EventEntity ScheduleEntity Canonical DelegationEntity WorkQueue AgentEntity.
From S2P Require Import WorkflowExecutionEntity SkillEntity ConversationEntity Tables Store Lifecycle RunUseCases.

Open Scope Z_scope.

(** ** [brain_runtime_registry.py] *)
Definition DEFAULT_RUNTIME_KIND : str := u "claude_cli".
Definition MAX_RUNTIME_CONFIG_BYTES : Z := 512.
Definition MAX_RUNTIME_CONFIG_NODES : Z := 32.
Definition MAX_RUNTIME_CONFIG_DEPTH : Z := 4.

(** [_config_complexity]: structural node count and deepest nesting *)
Fixpoint config_complexity (value : json) (depth : Z) : Z * Z :=
  match value with
  | JDict d =>
      foldl (fun acc x => (acc.1 + (1 + len x.1 + x.2.1), Z.max acc.2 x.2.2)) (1, depth)
        (map (fun p => (fst p, config_complexity (snd p) (depth + 1))) d)
  | JList l =>
      foldl (fun acc x => (acc.1 + (1 + x.1), Z.max acc.2 x.2)) (1, depth)
        (map (fun v => config_complexity v (depth + 1)) l)
  | _ => (1, depth)
  end.

Definition UnknownBrainRuntimeKind : exn := OtherError "UnknownBrainRuntimeKind".
Definition InvalidBrainRuntimeConfig : exn := OtherError "InvalidBrainRuntimeConfig".

(** [_RUNTIME_CONFIG_POLICIES]: the one policy accepts the empty object. *)
Definition runtime_config_policy (runtime_kind : str) : option (json -> res json) :=
  if bool_decide (runtime_kind = DEFAULT_RUNTIME_KIND)
  then Some (fun value => match value with JDict [] => Ok value | _ => Raise InvalidBrainRuntimeConfig end)
  else None.

(** A registry is the list of the kinds registered with it; the factories are
    outside the model. *)
Definition BrainRuntimeRegistry : Type := list str.
Definition register (runtime_kind : str) (reg : BrainRuntimeRegistry) : res BrainRuntimeRegistry :=
  if empty_str runtime_kind then Raise (ValueError "runtime_kind must not be empty")
  else if negb (not_none (runtime_config_policy runtime_kind))
  then Raise (ValueError "no code-owned runtime configuration policy")
  else Ok (runtime_kind :: reg).
Definition is_registered (reg : BrainRuntimeRegistry) (runtime_kind : str) : bool :=
  bool_decide (runtime_kind ∈ reg).

Definition validate_runtime_config `{Digest} (reg : BrainRuntimeRegistry) (runtime_kind : str)
    (runtime_config : pyval) : res json :=
  if negb (is_registered reg runtime_kind) then Raise UnknownBrainRuntimeKind
  else
    match res_bind (ensure_json_value runtime_config) (fun j =>
          res_bind (encode (json_dumps true j)) (fun bytes => Ok (j, bytes))) with
    | Raise _ => Raise InvalidBrainRuntimeConfig
    | Ok (normalized, bytes) =>
        let '(nodes, depth) := config_complexity normalized 0 in
        if (len bytes >? MAX_RUNTIME_CONFIG_BYTES) || (nodes >? MAX_RUNTIME_CONFIG_NODES)
           || (depth >? MAX_RUNTIME_CONFIG_DEPTH)
        then Raise InvalidBrainRuntimeConfig
        else match runtime_config_policy runtime_kind with
             | Some policy => policy normalized
             | None => Raise KeyError
             end
    end.

(** [except InvalidStateTransition as exc: raise EntityConflict(str(exc))] *)
Definition transition_conflict (e : exn) : option exn :=
  match e with
  | InvalidStateTransition ent cur tgt => 
      Some (EntityConflict (ent +:+ " cannot transition from '" +:+ cur +:+ "' to '" +:+ tgt +:+ "'"))
  | _ => None
  end.

Section AgentUseCases.
Context `{Env} `{Digest}.

Definition CreateAgent (key display_name description : str) : U Agent :=
  aid <- new_id ;;
  t <- now ;;
  agent <- lift (Agent_new aid key display_name description (utc t)) ;;
  with_uow (agents_add agent ;;; commit) ;;;
  ret agent.

Definition need_agent (id : AgentId) : U Agent :=
  a <- agents_get id ;; need a (AgentNotFound (value id)).

Definition CreateAgentRevision (reg : BrainRuntimeRegistry) (id : AgentId) (instructions runtime_kind : str)
    (runtime_config : pyval) (source_kind : AgentRevisionSourceKind) : U AgentRevision :=
  raise_if (negb (is_registered reg runtime_kind)) UnknownBrainRuntimeKind ;;;
  config <- lift (validate_runtime_config reg runtime_kind runtime_config) ;;
  with_uow (
    agent <- need_agent id ;;
    raise_if (bool_decide (ag_status agent = AG_ARCHIVED))
      (EntityConflict "archived agent cannot receive revisions") ;;;
    rid <- new_id ;;
    version <- agent_revisions_next_version id ;;
    t <- now ;;
    revision <- lift (AgentRevision_new rid id version instructions runtime_kind (to_py config)
                        source_kind (utc t)) ;;
    agent_revisions_add revision ;;;
    commit ;;;
    ret revision).

Definition ActivateAgentRevision (id : AgentId) (revision_id : AgentRevisionId) : U Agent :=
  with_uow (
    agent <- need_agent id ;;
    revision <- agent_revisions_get revision_id ;;
    revision <- need revision (OtherError "AgentRevisionNotFound") ;;
    t <- now ;;
    let* (agent', _) :=
      try_except (call (ag_activate revision (utc t)) agent)
        (fun e => option_map raise (transition_conflict e)) in
    agents_save agent' ;;;
    commit ;;;
    ret agent').

(** [_AgentLifecycle._change] *)
Definition change_agent (id : AgentId) (action : datetime -> M Agent unit) : U Agent :=
  with_uow (
    agent <- need_agent id ;;
    t <- now ;;
    let* (agent', _) := call (action (utc t)) agent in
    agents_save agent' ;;;
    commit ;;;
    ret agent').
Definition DisableAgent (id : AgentId) : U Agent := change_agent id ag_disable.
Definition ArchiveAgent (id : AgentId) : U Agent := change_agent id ag_archive.

Definition GetAgent (id : AgentId) : U Agent := with_uow (need_agent id).
Definition ListAgentRevisions (id : AgentId) : U (list AgentRevision) :=
  with_uow (need_agent id ;;; agent_revisions_list_for_agent id).

Definition WorkflowBindingError : exn := OtherError "WorkflowBindingError".

Definition ReplaceTaskAgent (task_id_ : TaskId) (agent_id : option AgentId)
    : U (option TaskAgentBinding) :=
  with_uow (
    need_task task_id_ ;;;
    node <- node_executions_get_by_child_task_id task_id_ ;;
    raise_if (not_none node) WorkflowBindingError ;;;
    workflow <- task_workflows_get_by_task_id task_id_ ;;
    raise_if (not_none agent_id && not_none workflow) WorkflowBindingError ;;;
    delegation <- delegations_get_for_child_task task_id_ ;;
    raise_if (match delegation with
              | Some x => bool_decide (dl_status x ∈ [DDISPATCHED; DSUCCEEDED; DFAILED; DCANCELLED])
              | None => false end) (EntityConflict "delegated_task_agent_binding_frozen") ;;;
    binding <- match agent_id with
               | None => ret None
               | Some aid =>
                   agent <- need_agent aid ;;
                   raise_if (negb (bool_decide (ag_status agent = AG_ACTIVE))
                             || negb (not_none (ag_active_revision_id agent)))
                     (EntityConflict "task bindings require active agents with an active revision") ;;;
                   t <- now ;;
                   ret (Some (mkTaskAgent task_id_ aid t))
               end ;;
    task_agents_replace task_id_ binding ;;;
    commit ;;;
    ret binding).

(** ** [ResolveRunAgent] *)
Definition conflict (msg : string) : exn := EntityConflict msg.

(** The frozen resolution must agree with the provenance of the run. *)
Definition check_existing (run : Run) (existing : RunAgentResolution)
    (incoming : option DelegationRequest) (node : option WorkflowNodeExecution) : U unit :=
  match node with
  | None => ret tt
  | Some n =>
      raise_if (negb (opt_id_eqb (nx_child_task_id n) (run_task_id run))
                || negb (id_eqb (ar_agent_id existing) (nx_target_agent_id n))
                || negb (id_eqb (ar_revision_id existing) (nx_target_agent_revision_id n)))
        (conflict "workflow_target_agent_mismatch") ;;;
      binding <- task_agents_get (run_task_id run) ;;
      raise_if (match binding with
                | None => true
                | Some b => negb (id_eqb (ta_agent_id b) (nx_target_agent_id n)) end)
        (conflict "workflow_target_agent_mismatch")
  end ;;;
  raise_if (match incoming with
            | Some x => negb (id_eqb (ar_agent_id existing) (dl_target_agent_id x))
            | None => false end) (conflict "delegation_target_agent_mismatch").

(** Publishing the resolution under the claim *)
Definition publish_resolution (run : Run) (agent_id : AgentId) (revision : AgentRevisionId) (c : Claim)
    : U (option RunAgentResolution) :=
  rid <- new_id ;;
  t <- now ;;
  let resolution := mkAgentResolution rid (run_id run) agent_id revision t in
  t1 <- now ;;
  added <- agent_resolutions_add_if_claimed resolution c t1 ;;
  (if negb added then
     won <- agent_resolutions_get (run_id run) ;;
     raise_if (not_none won) (conflict "another resolver won the freeze race") ;;;
     raise (ClaimLost "agent resolution claim is stale or expired")
   else ret tt) ;;;
  t2 <- now ;;
  active <- on_queue (is_claim_active (run_id run) c t2) ;;
  raise_if (negb active) (ClaimLost "agent resolution claim expired before commit") ;;;
  commit ;;;
  ret (Some resolution).

(** The runtime of a revision must be one this installation can run. *)
Definition require_runtime (reg : BrainRuntimeRegistry) (revision : AgentRevision) : U unit :=
  raise_if (negb (is_registered reg (av_runtime_kind revision))) UnknownBrainRuntimeKind ;;;
  lift (validate_runtime_config reg (av_runtime_kind revision) (to_py (av_runtime_config revision))) ;;;
  ret tt.

Definition resolve_run_agent (reg : BrainRuntimeRegistry) (id : RunId) (c : Claim)
    : U (option RunAgentResolution) :=
  with_uow (
    run <- need_run id ;;
    t <- now ;;
    active <- on_queue (is_claim_active (run_id run) c t) ;;
    raise_if (negb active) (ClaimLost "agent resolution requires an exact active worker claim") ;;;
    existing <- agent_resolutions_get (run_id run) ;;
    incoming <- delegations_get_for_child_execution (run_execution_id run) ;;
    node <- node_executions_get_by_child_execution_id (run_execution_id run) ;;
    match existing with
    | Some e => check_existing run e incoming node ;;; ret (Some e)
    | None =>
    binding <- task_agents_get (run_task_id run) ;;
    match binding with
    | None =>
        raise_if (not_none node) (conflict "workflow_child_agent_binding_missing") ;;;
        raise_if (not_none incoming) (conflict "delegated_child_agent_binding_missing") ;;;
        ret None
    | Some b =>
    match node with
    | Some n =>
        raise_if (negb (opt_id_eqb (nx_child_task_id n) (run_task_id run))
                  || negb (id_eqb (ta_agent_id b) (nx_target_agent_id n)))
          (conflict "workflow_target_agent_mismatch") ;;;
        revision <- agent_revisions_get (nx_target_agent_revision_id n) ;;
        revision <- need revision (conflict "workflow_target_revision_mismatch") ;;
        raise_if (negb (id_eqb (av_agent_id revision) (nx_target_agent_id n))
                  || negb (bool_decide (av_content_sha256 revision = nx_target_agent_revision_sha256 n)))
          (conflict "workflow_target_revision_mismatch") ;;;
        require_runtime reg revision ;;;
        publish_resolution run (nx_target_agent_id n) (av_id revision) c
    | None =>
        raise_if (match incoming with
                  | Some x => negb (id_eqb (ta_agent_id b) (dl_target_agent_id x))
                  | None => false end) (conflict "delegation_target_agent_mismatch") ;;;
        agent <- agents_get (ta_agent_id b) ;;
        agent <- need agent (conflict "bound agent is no longer resolvable") ;;
        raise_if (negb (bool_decide (ag_status agent = AG_ACTIVE)))
          (conflict "bound agent is no longer resolvable") ;;;
        active_revision <- need (ag_active_revision_id agent) (conflict "bound agent is no longer resolvable") ;;
        revision <- agent_revisions_get active_revision ;;
        revision <- need revision (conflict "active agent revision does not exist") ;;
        raise_if (negb (id_eqb (av_agent_id revision) (ag_id agent)))
          (conflict "active agent revision ownership mismatch") ;;;
        require_runtime reg revision ;;;
        publish_resolution run (ag_id agent) (av_id revision) c
    end
    end
    end).

(** Provenance conflicts are final; the others may be a lost freeze race. *)
Definition semantic_conflict (e : exn) : bool :=
  match e with
  | EntityConflict m =>
      bool_decide (m ∈ ["delegation_target_agent_mismatch"; "delegated_child_agent_binding_missing";
                        "workflow_target_agent_mismatch"; "workflow_target_revision_mismatch";
                        "workflow_child_agent_binding_missing"]%string)
  | _ => false
  end.

Definition ResolveRunAgent (reg : BrainRuntimeRegistry) (id : RunId) (c : Claim)
    : U (option RunAgentResolution) :=
  try_except (resolve_run_agent reg id c) (fun e =>
    if is_entity_conflict e && negb (semantic_conflict e) then
      Some (with_uow (
        t <- now ;;
        active <- on_queue (is_claim_active id c t) ;;
        raise_if (negb active) (ClaimLost "agent resolution claim is stale or expired") ;;;
        winner <- agent_resolutions_get id ;;
        match winner with
        | Some r => ret (Some r)
        | None => raise e
        end))
    else None).
End AgentUseCases.
