(* ===== verification/SkillUseCases.v ===== *)
(** * Skill use cases

    [src/friday/application/skill_registry.py] and [AddSkillRunFeedback] of
    [skill_usage.py]: creating skills and immutable revisions, binding tasks to
    skills, and freezing the skills of a run under its claim. *)

From S2P Require Import Prelude Values RunEntity TaskEntity StepEntity ToolEntity ApprovalEntity.
From S2P Require Import EventEntity ScheduleEntity Canonical DelegationEntity WorkQueue AgentEntity.
From S2P Require Import WorkflowExecutionEntity SkillEntity ConversationEntity Tables Store SkillStore.
From S2P Require Import Lifecycle RunUseCases.

Open Scope Z_scope.

Definition SkillRevisionNotFound : exn := OtherError "SkillRevisionNotFound".

Section SkillUseCases.
Context `{Env} `{Digest}.

Definition CreateSkill (key display_name description : str) : U Skill :=
  sid <- new_id ;;
  t <- now ;;
  skill <- lift (Skill_new sid key display_name description (utc t)) ;;
  with_uow (skills_add skill ;;; commit) ;;;
  ret skill.

Definition need_skill (id : SkillId) : U Skill :=
  x <- skills_get id ;; need x (SkillNotFound (value id)).

Definition CreateSkillRevision (id : SkillId) (instructions : str) (source_kind : SkillRevisionSourceKind)
    : U SkillRevision :=
  with_uow (
    skill <- need_skill id ;;
    raise_if (bool_decide (sk_status skill = SK_ARCHIVED))
      (EntityConflict "archived skill cannot receive revisions") ;;;
    raise_if (bool_decide (source_kind = SS_GENERATED))
      (EntityConflict "generated revisions can only be created by promotion") ;;;
    rid <- new_id ;;
    version <- skill_revisions_next_version id ;;
    t <- now ;;
    revision <- lift (SkillRevision_new rid id version instructions source_kind (utc t) None) ;;
    skill_revisions_add revision ;;;
    commit ;;;
    ret revision).

(** A revision of another skill is handed to [activate], which refuses it. *)
Definition ActivateSkillRevision (id : SkillId) (revision_id : SkillRevisionId) : U Skill :=
  with_uow (
    skill <- need_skill id ;;
    revision <- skill_revisions_get revision_id ;;
    revision <- need revision SkillRevisionNotFound ;;
    skill <- (if negb (id_eqb (kr_skill_id revision) id) then
                t <- now ;;
                let* (skill', _) := call (sk_activate revision (utc t)) skill in
                ret skill'
              else ret skill) ;;
    raise_if (bool_decide (kr_source_kind revision = SS_GENERATED))
      (EntityConflict "generated revisions require approved promotion") ;;;
    current <- match sk_active_revision_id skill with
               | Some active => skill_revisions_get active
               | None => ret None
               end ;;
    raise_if (match current with Some c => kr_version revision <=? kr_version c | None => false end)
      (EntityConflict "historical revisions require approved rollback") ;;;
    t <- now ;;
    let* (skill', _) := call (sk_activate revision (utc t)) skill in
    skills_save skill' ;;;
    commit ;;;
    ret skill').

(** [_SkillLifecycle._change] *)
Definition change_skill (id : SkillId) (action : datetime -> M Skill unit) : U Skill :=
  with_uow (
    skill <- need_skill id ;;
    t <- now ;;
    let* (skill', _) := call (action (utc t)) skill in
    skills_save skill' ;;;
    commit ;;;
    ret skill').
Definition DisableSkill (id : SkillId) : U Skill := change_skill id sk_disable.
Definition ArchiveSkill (id : SkillId) : U Skill := change_skill id sk_archive.

(** Reads *)
Definition GetSkill (id : SkillId) : U Skill := with_uow (need_skill id).
Definition list_revisions (id : SkillId) : U (list SkillRevision) :=
  with_uow (need_skill id ;;; skill_revisions_list_for_skill id).
Definition list_revisions_page (id : SkillId) (limit : nat) (before_version : option Z) : U (list SkillRevision) :=
  with_uow (need_skill id ;;; skill_revisions_list_for_skill_page id limit before_version).
Definition get_revision (id : SkillId) (revision_id : SkillRevisionId) : U SkillRevision :=
  with_uow (
    need_skill id ;;;
    revision <- skill_revisions_get revision_id ;;
    revision <- need revision SkillRevisionNotFound ;;
    raise_if (negb (id_eqb (kr_skill_id revision) id)) SkillRevisionNotFound ;;;
    ret revision).
Definition ListSkills (limit : nat) (after_created_at : option Z) (after_id : option str) : U (list Skill) :=
  with_uow (skills_list_page limit after_created_at after_id).

(** [enumerate(skill_ids, start=1)] *)
Fixpoint task_bindings (t : TaskId) (position : Z) (ids : list SkillId) : U (list TaskSkillBinding) :=
  match ids with
  | [] => ret []
  | id :: ids' =>
      skill <- need_skill id ;;
      raise_if (negb (bool_decide (sk_status skill = SK_ACTIVE)) || negb (not_none (sk_active_revision_id skill)))
        (EntityConflict "task bindings require active skills with an active revision") ;;;
      at_ <- now ;;
      b <- lift (TaskSkillBinding_new t id position (utc at_)) ;;
      rest <- task_bindings t (position + 1) ids' ;;
      ret (b :: rest)
  end.
Definition ReplaceTaskSkills (t : TaskId) (ids : list SkillId) : U (list TaskSkillBinding) :=
  raise_if ((Z.of_nat (length ids) >? MAX_SKILLS_PER_TASK) || negb (bool_decide (NoDup ids)))
    (EntityConflict "skill_ids must be unique and within the task skill limit") ;;;
  with_uow (
    need_task t ;;;
    bindings <- task_bindings t 1 ids ;;
    task_skills_replace t bindings ;;;
    commit ;;;
    ret bindings).

(** ** [ResolveRunSkills] *)
Fixpoint resolve_bindings (r : RunId) (l : list TaskSkillBinding) : U (list RunSkillBinding) :=
  match l with
  | [] => ret []
  | b :: l' =>
      skill <- skills_get (tk_skill_id b) ;;
      skill <- need skill (EntityConflict "bound skill is no longer resolvable") ;;
      raise_if (negb (bool_decide (sk_status skill = SK_ACTIVE)))
        (EntityConflict "bound skill is no longer resolvable") ;;;
      revision <- need (sk_active_revision_id skill) (EntityConflict "bound skill is no longer resolvable") ;;
      frozen <- lift (RunSkillBinding_new r (sk_id skill) revision (tk_position b)) ;;
      rest <- resolve_bindings r l' ;;
      ret (frozen :: rest)
  end.
Definition resolve_run_skills (id : RunId) (c : Claim) : U (list RunSkillBinding) :=
  with_uow (
    run <- need_run id ;;
    t <- now ;;
    active <- on_queue (is_claim_active (run_id run) c t) ;;
    raise_if (negb active) (ClaimLost "skill resolution requires an exact active worker claim") ;;;
    existing <- skill_resolutions_get (run_id run) ;;
    match existing with
    | Some _ => skill_bindings_list_for_run (run_id run)
    | None =>
        bound <- task_skills_list_for_task (run_task_id run) ;;
        bindings <- resolve_bindings (run_id run) bound ;;
        rid <- new_id ;;
        t <- now ;;
        let resolution := mkSkillResolution rid (run_id run) t in
        t1 <- now ;;
        added <- skill_resolutions_add_if_claimed resolution c t1 ;;
        (if negb added then
           won <- skill_resolutions_get (run_id run) ;;
           raise_if (not_none won) (EntityConflict "another resolver won the freeze race") ;;;
           raise (ClaimLost "skill resolution claim is stale or expired")
         else ret tt) ;;;
        skill_bindings_add_all bindings ;;;
        t2 <- now ;;
        active <- on_queue (is_claim_active (run_id run) c t2) ;;
        raise_if (negb active) (ClaimLost "skill resolution claim expired before commit") ;;;
        commit ;;;
        ret bindings
    end).
Definition ResolveRunSkills (id : RunId) (c : Claim) : U (list RunSkillBinding) :=
  try_except (resolve_run_skills id c) (fun e =>
    if is_entity_conflict e then
      Some (with_uow (
        t <- now ;;
        active <- on_queue (is_claim_active id c t) ;;
        raise_if (negb active) (ClaimLost "skill resolution claim is stale or expired") ;;;
        winner <- skill_resolutions_get id ;;
        match winner with
        | Some _ => skill_bindings_list_for_run id
        | None => raise e
        end))
    else None).

Definition AddSkillRunFeedback (r : RunId) (s : SkillId) (rating : SkillFeedbackRating) (note created_by : str)
    : U SkillRunFeedback :=
  with_uow (
    need_run r ;;;
    need_skill s ;;;
    bindings <- skill_bindings_list_for_run r ;;
    binding <- need (List.find (fun b => id_eqb (sb_skill_id b) s) bindings)
                 (EntityConflict "feedback requires a frozen skill binding") ;;
    fid <- new_id ;;
    t <- now ;;
    feedback <- lift (SkillRunFeedback_new fid r s (sb_revision_id binding) rating note created_by (utc t)) ;;
    feedback_add feedback ;;;
    commit ;;;
    ret feedback).
End SkillUseCases.

(** The two loops only read. *)
Lemma preserves_task_bindings `{Env} I t p ids : preserves (winv I) (task_bindings t p ids).
Proof. revert p. induction ids; intros p; cbn [task_bindings]; unfold need_skill, skills_get; keeps. Qed.
Lemma preserves_resolve_bindings I r l : preserves (winv I) (resolve_bindings r l).
Proof. induction l; cbn [resolve_bindings]; unfold skills_get; keeps. Qed.
#[export] Hint Resolve preserves_task_bindings preserves_resolve_bindings : py.
