(* ===== verification/SkillPromotion.v ===== *)
(** * Skill promotion and rollback

    [src/friday/application/skill_promotion.py]: a reviewed candidate becomes the
    active revision of its skill, or an earlier revision is restored, only with an
    approval that names the exact request. *)

From S2P Require Import Prelude Values RunEntity ApprovalEntity Canonical DelegationEntity WorkQueue SkillEntity.
From S2P Require Import ImprovementEntity Tables Store SkillStore ImprovementStore Lifecycle RunUseCases ApprovalUseCases.
From S2P Require Import SkillUseCases.

Open Scope Z_scope.

Section Fingerprints.
Context `{Digest}.

Definition promotion_material (x : SkillPromotionRequest) : json :=
  JDict [(u "version", JInt 1); (u "promotion_request_id", JStr (value (pq_id x)));
         (u "approval_request_id", opt_id_json (pq_approval_request_id x));
         (u "proposal_id", JStr (value (pq_proposal_id x))); (u "skill_id", JStr (value (pq_skill_id x)));
         (u "base_revision_id", JStr (value (pq_base_revision_id x)));
         (u "current_active_revision_id", JStr (value (pq_expected_active_revision_id x)));
         (u "candidate_sha256", JStr (pq_candidate_sha256 x));
         (u "candidate_evaluation_id", JStr (value (pq_candidate_evaluation_id x)));
         (u "comparison_report_sha256", JStr (pq_comparison_report_sha256 x));
         (u "target_revision_id", JStr (value (pq_target_revision_id x)));
         (u "target_version", JInt (pq_target_version x))].
Definition promotion_fingerprint (x : SkillPromotionRequest) : res str := json_sha256 (promotion_material x).
Definition rollback_material (x : SkillRollbackRequest) : json :=
  JDict [(u "version", JInt 1); (u "rollback_request_id", JStr (value (rb_id x)));
         (u "approval_request_id", opt_id_json (rb_approval_request_id x));
         (u "skill_id", JStr (value (rb_skill_id x)));
         (u "current_revision_id", JStr (value (rb_expected_current_revision_id x)));
         (u "target_revision_id", JStr (value (rb_target_revision_id x))); (u "reason", JStr (rb_reason x))].
Definition rollback_fingerprint (x : SkillRollbackRequest) : res str := json_sha256 (rollback_material x).
End Fingerprints.

Definition CLOSED_PROPOSAL_STATUSES : list SkillProposalStatus :=
  [SP_REJECTED; SP_SUPERSEDED; SP_CANCELLED; SP_EXPIRED; SP_PROMOTED].

(** [a or b] on optional strings *)
Definition or_else (a b : option str) : option str :=
  match a with Some s => if empty_str s then b else a | None => b end.

(** The approval is the one made for this very request. *)
Definition approval_for (kind : ApprovalSubjectKind) (subject fingerprint : str) (a : ApprovalRequest) : bool :=
  bool_decide (ap_subject_kind a = kind) && bool_decide (ap_subject_id a = Some subject)
  && bool_decide (ap_authorization_fingerprint a = Some fingerprint).

Definition NO_FINGERPRINT : str := replicate 64 48.

Section SkillPromotion.
Context `{Env} `{Digest}.

(** ** Shared steps *)
Definition load_promotion_proposal (x : SkillPromotionRequest) : U SkillImprovementProposal :=
  proposal <- proposals_get (pq_proposal_id x) ;;
  proposal <- need proposal (EntityConflict "promotion proposal was not found") ;;
  raise_if (negb (id_eqb (ip_id proposal) (pq_proposal_id x)) || negb (id_eqb (ip_skill_id proposal) (pq_skill_id x)))
    (EntityConflict "promotion proposal does not belong to request") ;;;
  raise_if (bool_decide (ip_status proposal ∈ CLOSED_PROPOSAL_STATUSES))
    (EntityConflict "promotion proposal is already closed") ;;;
  ret proposal.

Definition load_promotion_approval (x : SkillPromotionRequest) : U (option ApprovalRequest) :=
  match pq_approval_request_id x with
  | None => ret None
  | Some id =>
      a <- approvals_get id ;;
      a <- need a (EntityConflict "promotion approval was not found") ;;
      raise_if (negb (approval_for SUBJ_SKILL_PROMOTION (value (pq_id x)) (pq_authorization_fingerprint x) a))
        (EntityConflict "promotion approval does not belong to request") ;;;
      ret (Some a)
  end.
Definition load_rollback_approval (x : SkillRollbackRequest) : U (option ApprovalRequest) :=
  match rb_approval_request_id x with
  | None => ret None
  | Some id =>
      a <- approvals_get id ;;
      a <- need a (EntityConflict "rollback approval was not found") ;;
      raise_if (negb (approval_for SUBJ_SKILL_ROLLBACK (value (rb_id x)) (rb_authorization_fingerprint x) a))
        (EntityConflict "rollback approval does not belong to request") ;;;
      ret (Some a)
  end.

(** [_stage_terminal_promotion] *)
Definition stage_terminal_promotion (x : SkillPromotionRequest) (proposal : SkillImprovementProposal)
    (promotion_status : PromotionRequestStatus) (proposal_status : SkillProposalStatus) (t : Z)
    (resolver : option str) (approval : option ApprovalRequest) (approval_status : option ApprovalStatus)
    : U SkillPromotionRequest :=
  match approval_status with
  | None => ret tt
  | Some target =>
      a <- need approval (EntityConflict "promotion request has no canonical approval") ;;
      transition_approval_in_transaction a target t resolver None ;;;
      ret tt
  end ;;;
  terminal <- lift (SkillPromotionRequest_check (resolve_pq promotion_status t resolver x)) ;;
  promotions_save terminal ;;;
  closed <- lift (SkillImprovementProposal_check (set_ip_status proposal_status proposal)) ;;
  proposals_save closed ;;;
  ret terminal.

(** ** Promotion *)
Definition promotion_input (x : SkillPromotionRequest) (approval_id : ApprovalRequestId)
    (proposal : SkillImprovementProposal) (comparison : SkillCandidateEvaluation) : json :=
  JDict [(u "promotion_request_id", JStr (value (pq_id x))); (u "approval_request_id", JStr (value approval_id));
         (u "proposal_id", JStr (value (pq_proposal_id x))); (u "skill_id", JStr (value (pq_skill_id x)));
         (u "base_revision_id", JStr (value (pq_base_revision_id x)));
         (u "current_active_revision_id", JStr (value (pq_expected_active_revision_id x)));
         (u "target_revision_id", JStr (value (pq_target_revision_id x)));
         (u "candidate_instructions", JStr (ip_proposed_instructions proposal));
         (u "candidate_sha256", JStr (pq_candidate_sha256 x));
         (u "candidate_evaluation_id", JStr (value (pq_candidate_evaluation_id x)));
         (u "comparison_report_sha256", JStr (pq_comparison_report_sha256 x));
         (u "target_version", JInt (pq_target_version x));
         (u "evidence_snapshot_id", JStr (value (ip_evidence_snapshot_id proposal)));
         (u "evidence_snapshot_hash", JStr (ip_evidence_snapshot_hash proposal));
         (u "comparison_report", ce_comparison_report comparison);
         (u "recommendation", str_of (recommendation_value (ce_recommendation comparison)));
         (u "authorization_fingerprint", JStr (pq_authorization_fingerprint x))].

Definition RequestSkillPromotion (proposal_id : SkillImprovementProposalId) : U SkillPromotionRequest :=
  with_uow (
    proposal <- proposals_get proposal_id ;;
    comparison <- candidates_get_for_proposal proposal_id ;;
    proposal <- need proposal (EntityConflict "proposal is not ready for promotion review") ;;
    comparison <- need comparison (EntityConflict "proposal is not ready for promotion review") ;;
    raise_if (negb (bool_decide (ip_status proposal = SP_READY_FOR_REVIEW)))
      (EntityConflict "proposal is not ready for promotion review") ;;;
    raise_if (negb (bool_decide (ce_recommendation comparison = CR_ELIGIBLE)))
      (EntityConflict "comparison is not eligible for ordinary promotion approval") ;;;
    skill <- need_skill (ip_skill_id proposal) ;;
    raise_if (negb (bool_decide (sk_status skill = SK_ACTIVE))) (EntityConflict "only an active skill can be promoted") ;;;
    raise_if (negb (opt_id_eqb (sk_active_revision_id skill) (ip_base_revision_id proposal)))
      (EntityConflict "proposal base is no longer active") ;;;
    target_revision_id <- new_id ;;
    approval_id <- new_id ;;
    request_id <- new_id ;;
    target_version <- skill_revisions_next_version (sk_id skill) ;;
    t <- now ;;
    request <- lift (SkillPromotionRequest_check
      (mkPromotion request_id (ip_id proposal) (sk_id skill) (ip_base_revision_id proposal)
         (ip_base_revision_id proposal) (ip_proposed_content_sha256 proposal) (ce_id comparison)
         (ce_report_sha256 comparison) target_revision_id target_version NO_FINGERPRINT PR_PENDING t None None None
         (Some approval_id))) ;;
    fingerprint <- lift (promotion_fingerprint request) ;;
    request <- lift (SkillPromotionRequest_check (set_pq_fingerprint fingerprint request)) ;;
    promotions_add request ;;;
    a <- lift (ApprovalRequest_new approval_id None CAT_OTHER (u "Approve Skill promotion")
           (u "A reviewed Skill candidate is ready to become active.") (u "skill.promote")
           (to_py (promotion_input request approval_id proposal comparison)) (utc t) None None
           (Some fingerprint) SUBJ_SKILL_PROMOTION (Some (value request_id))) ;;
    approvals_add a ;;;
    commit ;;;
    ret request).

(** Anything the approval was given for that has changed since *)
Definition promotion_stale (x : SkillPromotionRequest) (proposal : SkillImprovementProposal)
    (comparison : option SkillCandidateEvaluation) (skill : option Skill) (next_version : Z) (fingerprint : str)
    (a : ApprovalRequest) : bool :=
  match comparison, skill with
  | Some comparison, Some skill =>
      negb (bool_decide (ip_status proposal = SP_READY_FOR_REVIEW))
      || negb (id_eqb (ip_base_revision_id proposal) (pq_base_revision_id x))
      || negb (bool_decide (ip_proposed_content_sha256 proposal = pq_candidate_sha256 x))
      || negb (id_eqb (ce_id comparison) (pq_candidate_evaluation_id x))
      || negb (bool_decide (ce_report_sha256 comparison = pq_comparison_report_sha256 x))
      || negb (bool_decide (ce_recommendation comparison = CR_ELIGIBLE))
      || negb (bool_decide (sk_status skill = SK_ACTIVE))
      || negb (opt_id_eqb (sk_active_revision_id skill) (pq_expected_active_revision_id x))
      || negb (next_version =? pq_target_version x)
      || negb (bool_decide (fingerprint = pq_authorization_fingerprint x))
      || negb (approval_for SUBJ_SKILL_PROMOTION (value (pq_id x)) (pq_authorization_fingerprint x) a)
  | _, _ => true
  end.

Definition ExecuteSkillPromotion (request_id : SkillPromotionRequestId) (resolver : option str)
    : U SkillPromotionRequest :=
  with_uow (
    request <- promotions_get request_id ;;
    request <- need request (EntityConflict "promotion request was not found") ;;
    raise_if (negb (bool_decide (pq_status request = PR_PENDING))) (EntityConflict "promotion request is not pending") ;;;
    proposal <- load_promotion_proposal request ;;
    a <- load_promotion_approval request ;;
    a <- need a (EntityConflict "promotion request has no canonical approval") ;;
    raise_if (negb (bool_decide (ap_status a = AAPPROVED)) || ap_is_consumed a)
      (EntityConflict "promotion requires one unconsumed approved request") ;;;
    comparison <- candidates_get_for_proposal (pq_proposal_id request) ;;
    skill <- skills_get (pq_skill_id request) ;;
    next_version <- skill_revisions_next_version (pq_skill_id request) ;;
    fingerprint <- lift (promotion_fingerprint request) ;;
    t <- now ;;
    let resolver' := or_else resolver (ap_resolver a) in
    if promotion_stale request proposal comparison skill next_version fingerprint a then
      stage_terminal_promotion request proposal PR_STALE SP_SUPERSEDED t resolver' (Some a) None ;;;
      commit ;;;
      raise (EntityConflict "promotion request is stale")
    else
    skill <- need skill AssertionError ;;
    revision <- lift (SkillRevision_new (pq_target_revision_id request) (sk_id skill) (pq_target_version request)
                  (ip_proposed_instructions proposal) SS_GENERATED (utc t) (Some (value (pq_id request)))) ;;
    skill_revisions_add revision ;;;
    completed <- lift (SkillPromotionRequest_check (set_pq_promoted (Some (kr_id revision)) request)) ;;
    completed <- stage_terminal_promotion completed proposal PR_PROMOTED SP_PROMOTED t resolver' (Some a) None ;;
    let* (skill', _) := call (sk_activate revision (utc t)) skill in
    skills_save skill' ;;;
    consumed <- approvals_consume_if_unconsumed (ap_id a) t ;;
    raise_if (negb consumed) (EntityConflict "promotion approval was already consumed") ;;;
    commit ;;;
    ret completed).

(** [RejectSkillPromotion] and [CancelSkillPromotion] differ in the statuses and the resolver. *)
Definition close_promotion (request_id : SkillPromotionRequestId) (promotion_status : PromotionRequestStatus)
    (proposal_status : SkillProposalStatus) (approval_status : ApprovalStatus) (resolver : option str)
    : U SkillPromotionRequest :=
  with_uow (
    request <- promotions_get request_id ;;
    request <- need request (EntityConflict "promotion request is not pending") ;;
    raise_if (negb (bool_decide (pq_status request = PR_PENDING))) (EntityConflict "promotion request is not pending") ;;;
    proposal <- load_promotion_proposal request ;;
    a <- load_promotion_approval request ;;
    t <- now ;;
    closed <- stage_terminal_promotion request proposal promotion_status proposal_status t resolver a
                (if not_none a then Some approval_status else None) ;;
    commit ;;;
    ret closed).
Definition RejectSkillPromotion (request_id : SkillPromotionRequestId) (resolver : str) : U SkillPromotionRequest :=
  close_promotion request_id PR_REJECTED SP_REJECTED AREJECTED (Some resolver).
Definition CancelSkillPromotion (request_id : SkillPromotionRequestId) : U SkillPromotionRequest :=
  close_promotion request_id PR_CANCELLED SP_CANCELLED ACANCELLED None.

(** ** Rollback *)
Definition RequestSkillRollback (skill_id : SkillId) (target_revision_id : SkillRevisionId) (reason : str)
    : U SkillRollbackRequest :=
  with_uow (
    skill <- skills_get skill_id ;;
    target <- skill_revisions_get target_revision_id ;;
    skill <- need skill (SkillNotFound (value skill_id)) ;;
    let invalid := EntityConflict "rollback target or current revision is invalid" in
    raise_if (negb (bool_decide (sk_status skill = SK_ACTIVE))) invalid ;;;
    current <- need (sk_active_revision_id skill) invalid ;;
    target <- need target invalid ;;
    raise_if (negb (id_eqb (kr_skill_id target) skill_id)) invalid ;;;
    raise_if (id_eqb target_revision_id current) (EntityConflict "rollback target is already active") ;;;
    approval_id <- new_id ;;
    request_id <- new_id ;;
    t <- now ;;
    request <- lift (SkillRollbackRequest_check
      (mkRollback request_id skill_id current target_revision_id reason NO_FINGERPRINT RB_PENDING t None None
         (Some approval_id))) ;;
    fingerprint <- lift (rollback_fingerprint request) ;;
    request <- lift (SkillRollbackRequest_check (set_rb_fingerprint fingerprint request)) ;;
    rollbacks_add request ;;;
    a <- lift (ApprovalRequest_new approval_id None CAT_OTHER (u "Approve Skill rollback") (rb_reason request)
           (u "skill.rollback")
           (to_py (JDict [(u "rollback_request_id", JStr (value request_id));
                          (u "skill_id", JStr (value skill_id));
                          (u "target_revision_id", JStr (value target_revision_id));
                          (u "authorization_fingerprint", JStr fingerprint)]))
           (utc t) None None (Some fingerprint) SUBJ_SKILL_ROLLBACK (Some (value request_id))) ;;
    approvals_add a ;;;
    commit ;;;
    ret request).

Definition rollback_stale (x : SkillRollbackRequest) (skill : option Skill) (target : option SkillRevision)
    (fingerprint : str) (a : ApprovalRequest) : bool :=
  match skill, target with
  | Some skill, Some target =>
      negb (bool_decide (sk_status skill = SK_ACTIVE))
      || negb (id_eqb (kr_skill_id target) (rb_skill_id x))
      || opt_id_eqb (sk_active_revision_id skill) (kr_id target)
      || negb (opt_id_eqb (sk_active_revision_id skill) (rb_expected_current_revision_id x))
      || negb (bool_decide (fingerprint = rb_authorization_fingerprint x))
      || negb (approval_for SUBJ_SKILL_ROLLBACK (value (rb_id x)) (rb_authorization_fingerprint x) a)
  | _, _ => true
  end.

Definition ExecuteSkillRollback (request_id : SkillRollbackRequestId) (resolver : option str)
    : U SkillRollbackRequest :=
  with_uow (
    request <- rollbacks_get request_id ;;
    request <- need request (EntityConflict "rollback request was not found") ;;
    if bool_decide (rb_status request = RB_COMPLETED) then ret request else
    raise_if (negb (bool_decide (rb_status request = RB_PENDING))) (EntityConflict "rollback request is not pending") ;;;
    approval_id <- need (rb_approval_request_id request) (EntityConflict "rollback request has no canonical approval") ;;
    a <- approvals_get approval_id ;;
    a <- need a (EntityConflict "rollback approval was not found") ;;
    raise_if (negb (bool_decide (ap_status a = AAPPROVED)) || ap_is_consumed a)
      (EntityConflict "rollback requires one unconsumed approved request") ;;;
    skill <- skills_get (rb_skill_id request) ;;
    target <- skill_revisions_get (rb_target_revision_id request) ;;
    t <- now ;;
    fingerprint <- lift (rollback_fingerprint request) ;;
    let resolver' := or_else resolver (ap_resolver a) in
    if rollback_stale request skill target fingerprint a then
      stale <- lift (SkillRollbackRequest_check (resolve_rb RB_STALE t resolver' request)) ;;
      rollbacks_save stale ;;;
      commit ;;;
      raise (EntityConflict "rollback request is stale")
    else
    skill <- need skill AssertionError ;;
    target <- need target AssertionError ;;
    let* (skill', _) := call (sk_activate target (utc t)) skill in
    skills_save skill' ;;;
    completed <- lift (SkillRollbackRequest_check (resolve_rb RB_COMPLETED t resolver' request)) ;;
    rollbacks_save completed ;;;
    consumed <- approvals_consume_if_unconsumed (ap_id a) t ;;
    raise_if (negb consumed) (EntityConflict "rollback approval was already consumed") ;;;
    commit ;;;
    ret completed).

(** [RejectSkillRollback] and [CancelSkillRollback] *)
Definition close_rollback (request_id : SkillRollbackRequestId) (status : RollbackRequestStatus)
    (approval_status : ApprovalStatus) (resolver : option str) : U SkillRollbackRequest :=
  with_uow (
    request <- rollbacks_get request_id ;;
    request <- need request (EntityConflict "rollback request is not pending") ;;
    raise_if (negb (bool_decide (rb_status request = RB_PENDING))) (EntityConflict "rollback request is not pending") ;;;
    a <- load_rollback_approval request ;;
    match a with
    | Some a => t <- now ;; transition_approval_in_transaction a approval_status t resolver None ;;; ret tt
    | None => ret tt
    end ;;;
    t <- now ;;
    closed <- lift (SkillRollbackRequest_check
      (resolve_rb status t (if not_none resolver then resolver else rb_resolver request) request)) ;;
    rollbacks_save closed ;;;
    commit ;;;
    ret closed).
Definition RejectSkillRollback (request_id : SkillRollbackRequestId) (resolver : str) : U SkillRollbackRequest :=
  close_rollback request_id RB_REJECTED AREJECTED (Some resolver).
Definition CancelSkillRollback (request_id : SkillRollbackRequestId) : U SkillRollbackRequest :=
  close_rollback request_id RB_CANCELLED ACANCELLED None.
End SkillPromotion.
