(* ===== verification/SkillEvaluation.v ===== *)
(** * Skill evaluation

    [src/friday/application/skill_evaluation.py]: deterministic graders, frozen
    suites, evaluation runs over supplied outputs, and the comparison of a
    candidate with the baseline of its skill.  The JSON Schema validator is the
    class [JsonSchema]; the brain that produces outputs is an argument. *)

From S2P Require Import Prelude Values Canonical PyText RetryPolicy JsonText SkillEntity ImprovementEntity.
From S2P Require Import WorkQueue WorkflowExecutionEntity Tables Codec Store SkillStore ImprovementStore Lifecycle.
From S2P Require Import RunUseCases RuntimeActions RuntimeContext SkillUseCases.

Open Scope Z_scope.

(** [jsonschema]'s [Draft202012Validator.check_schema], and [validate] on a value *)
Inductive SchemaOutcome : Type := SchemaAccepts | SchemaRejects | SchemaInvalid.
Class JsonSchema : Type := { schema_ok : json -> bool; schema_validate : json -> pyval -> SchemaOutcome }.

Inductive EvaluationKind : Type :=
| EXACT_MATCH | CONTAINS_ALL | CONTAINS_NONE | JSON_SCHEMA | REQUIRED_KEYS | TOOL_PROPOSAL_SHAPE.
Definition evaluation_kinds : list (str * EvaluationKind) :=
  [(u "exact_match", EXACT_MATCH); (u "contains_all", CONTAINS_ALL); (u "contains_none", CONTAINS_NONE);
   (u "json_schema", JSON_SCHEMA); (u "required_keys", REQUIRED_KEYS); (u "tool_proposal_shape", TOOL_PROPOSAL_SHAPE)].
(** [EvaluationKind(kind)] *)
Definition evaluation_kind (kind : str) : option EvaluationKind := dict_get kind evaluation_kinds.

Record EvaluationResult : Type := mkEvaluation {
  ev_passed : bool; ev_score : dyadic; ev_reason_code : option str; ev_details : str; ev_output_sha256 : str }.
Record BrainOnlyEvaluationRequest : Type := mkBrainEvaluation {
  be_instructions : str; be_cases : list (str * str); be_max_response_chars : Z }.

Definition MAX_SUITE_CASES : Z := 100.
Definition MAX_SUITE_INPUT_CHARS : Z := 200000.
Definition COMPARISON_POLICIES : list str := [u "comparison-v1"].
Definition RUNTIME_CONFIG_VERSION : str := u "skill-evaluation-runtime-v2".
Definition RUNTIME_METADATA_KEYS : list string :=
  ["runtime_config_version"; "model"; "adapter"; "adapter_protocol"; "system_prompt_version"; "evaluator_version";
   "input_limit_chars"; "response_limit_chars"; "tool_simulation_fixture_version"; "brain_configuration"]%string.

(** [except ValueError], of which [UnicodeEncodeError] and [JSONDecodeError] are subclasses *)
Definition catches_value_error (e : exn) : bool :=
  is_value_error e || match e with
                      | OtherError c => bool_decide (c ∈ ["UnicodeEncodeError"; "JSONDecodeError"]%string)
                      | _ => false
                      end.

(** [_expected_list]: a missing key reads as an empty list *)
Fixpoint all_strings (l : list json) : option (list str) :=
  match l with
  | [] => Some []
  | JStr s :: l' => match all_strings l' with Some ss => Some (s :: ss) | None => None end
  | _ :: _ => None
  end.
Definition expected_list (expected : list (str * json)) (key : string) : res (list str) :=
  let bad := Raise (ValueError "expected_properties must be a list of strings") in
  match dict_get (u key) expected with
  | None => Ok []
  | Some (JList l) => match all_strings l with Some ss => Ok ss | None => bad end
  | Some _ => bad
  end.
(** [_json_object]; [except JSONDecodeError] *)
Definition is_decode_error (e : exn) : bool :=
  match e with OtherError c => bool_decide (c = "JSONDecodeError"%string) | _ => false end.
Definition json_object (output : str) : res (option pydict) :=
  match json_loads output with
  | Ok (PyDict d) => Ok (Some d)
  | Ok _ => Ok None
  | Raise e => if is_decode_error e then Ok None else Raise e
  end.
Definition has_key (d : pydict) (k : str) : bool := not_none (py_lookup k d).

Section Graders.
Context `{Digest} `{JsonSchema}.
(** [_custom]: evaluators registered by code under further names *)
Context (custom : list (str * (str -> json -> res EvaluationResult))).

(** [register] *)
Definition register_check (key : str) : res unit :=
  if empty_str key || not_none (evaluation_kind key) || not_none (dict_get key custom)
  then Raise (ValueError "evaluation key must be a unique registered custom key") else Ok tt.

Definition output_hash (output : str) : res str := res_bind (encode output) (fun b => Ok (sha256_hex b)).

(** What one of the code's own evaluators says of an output *)
Definition tool_proposal_ok (obj : option pydict) (expected : list (str * json)) : res bool :=
  match obj with
  | None => Ok false
  | Some d =>
      match py_get "tool" d, py_get "tool_input" d with
      | PyStr tool, PyDict tool_input =>
          let named := match dict_get (u "required_tool") expected with
                       | None | Some JNull => true
                       | Some j => json_eqb (JStr tool) j
                       end in
          if negb named then Ok false
          else match dict_get (u "required_input_keys") expected with
               | None => Ok true
               | Some _ => res_bind (expected_list expected "required_input_keys") (fun keys =>
                           Ok (forallb (has_key tool_input) keys))
               end
      | _, _ => Ok false
      end
  end.
Definition expectation_met (kind : EvaluationKind) (output : str) (expected : list (str * json)) : res bool :=
  match kind with
  | EXACT_MATCH =>
      match json_get "value" expected with
      | JStr s => Ok (bool_decide (output = s))
      | _ => Raise (ValueError "exact_match requires string value")
      end
  | CONTAINS_ALL => res_bind (expected_list expected "values") (fun l => Ok (forallb (fun x => contains x output) l))
  | CONTAINS_NONE =>
      res_bind (expected_list expected "values") (fun l => Ok (negb (existsb (fun x => contains x output) l)))
  | JSON_SCHEMA =>
      res_bind (json_object output) (fun obj =>
      match json_get "schema" expected with
      | JDict schema =>
          match schema_validate (JDict schema) (match obj with Some d => PyDict d | None => PyNone end) with
          | SchemaInvalid => Raise (ValueError "json_schema has an invalid schema")
          | SchemaRejects => Ok false
          | SchemaAccepts => Ok (not_none obj)
          end
      | _ => Raise (ValueError "json_schema requires an object-valued schema")
      end)
  | REQUIRED_KEYS =>
      res_bind (json_object output) (fun obj =>
      res_bind (expected_list expected "required_keys") (fun required =>
      Ok (match obj with Some d => forallb (has_key d) required | None => false end)))
  | TOOL_PROPOSAL_SHAPE => res_bind (json_object output) (fun obj => tool_proposal_ok obj expected)
  end.
Definition graded (ok : bool) (hash : str) : EvaluationResult :=
  if ok then mkEvaluation true (1, 0) None (u "passed") hash
  else mkEvaluation false (0, 0) (Some (u "expectation_not_met")) (u "expectation_not_met") hash.
(** [DeterministicEvaluatorRegistry.evaluate] *)
Definition evaluate (kind output : str) (expected : list (str * json)) : res EvaluationResult :=
  res_bind (output_hash output) (fun hash =>
  match dict_get kind custom with
  | Some evaluator => evaluator output (JDict expected)
  | None =>
      match evaluation_kind kind with
      | None => Raise (ValueError "evaluator is not registered")
      | Some k => res_bind (expectation_met k output expected) (fun ok => Ok (graded ok hash))
      end
  end).

(** ** Validation of suites and runtimes *)
(** [_validate_expected_properties] *)
Definition as_conflict {A} (msg : string) (r : res A) : res A :=
  match r with Raise e => if catches_value_error e then Raise (EntityConflict msg) else Raise e | Ok a => Ok a end.
Definition validate_expected_properties (kind : str) (expected : json) : res (list (str * json)) :=
  match expected with
  | JDict d =>
      match evaluation_kind kind with
      | None => Raise (EntityConflict "evaluation kind is not code-owned")
      | Some CONTAINS_ALL | Some CONTAINS_NONE =>
          res_bind (as_conflict "evaluation expected_properties shape is invalid" (expected_list d "values")) (fun _ => Ok d)
      | Some REQUIRED_KEYS =>
          res_bind (as_conflict "evaluation expected_properties shape is invalid" (expected_list d "required_keys"))
            (fun _ => Ok d)
      | Some EXACT_MATCH =>
          if is_json_str (json_get "value" d) then Ok d
          else Raise (EntityConflict "exact_match requires a string value")
      | Some JSON_SCHEMA =>
          match json_get "schema" d with
          | JDict schema =>
              if schema_ok (JDict schema) then Ok d else Raise (EntityConflict "json_schema is invalid")
          | _ => Raise (EntityConflict "json_schema requires an object-valued schema")
          end
      | Some TOOL_PROPOSAL_SHAPE =>
          if negb (keys_within ["required_tool"; "required_input_keys"]%string d)
          then Raise (EntityConflict "tool_proposal_shape expected_properties is invalid")
          else if match dict_get (u "required_tool") d with Some j => negb (is_json_str j) | None => false end
          then Raise (EntityConflict "tool_proposal_shape required_tool must be a string")
          else res_bind (as_conflict "tool_proposal_shape expected_properties is invalid"
                 (expected_list d "required_input_keys")) (fun _ => Ok d)
      end
  | _ => Raise (EntityConflict "evaluation expected_properties must be an object")
  end.

(** A case of a frozen suite *)
Record FrozenCase : Type := mkFrozenCase {
  fc_id : SkillEvaluationCaseId; fc_input : str; fc_expected : list (str * json); fc_kind : str }.
Definition case_json (case_id : str) (position : Z) (input : str) (expected : json) (kind : str) : json :=
  JDict [(u "id", JStr case_id); (u "position", JInt position); (u "input", JStr input);
         (u "expected_properties", expected); (u "grading_kind", JStr kind)].
Definition snapshot_malformed {A} : res A := Raise (EntityConflict "evaluation suite snapshot is malformed").
(** One case, with the size it takes; [position] is an [int] and no [bool]. *)
Definition validate_case (ids : list str) (expected_position : Z) (raw_case : json) : res (FrozenCase * Z) :=
  match raw_case with
  | JDict d =>
      if negb (keys_are ["id"; "position"; "input"; "expected_properties"; "grading_kind"]%string d)
      then snapshot_malformed
      else match json_get "id" d, json_get "position" d, json_get "input" d, json_get "grading_kind" d with
           | JStr case_id, JInt position, JStr input, JStr kind =>
               if empty_str case_id || bool_decide (case_id ∈ ids) || negb (position =? expected_position)
                  || negb ((1 <=? len input) && (len input <=? 32000))
               then snapshot_malformed
               else res_bind (id_parse case_id) (fun id =>
                    res_bind (validate_expected_properties kind (json_get "expected_properties" d)) (fun expected =>
                    Ok (mkFrozenCase id input expected kind,
                        len (json_dumps true (case_json case_id position input (JDict expected) kind)))))
           | _, _, _, _ => snapshot_malformed
           end
  | _ => snapshot_malformed
  end.
Fixpoint validate_cases (ids : list str) (position : Z) (raw_cases : list json) : res (list FrozenCase * Z) :=
  match raw_cases with
  | [] => Ok ([], 0)
  | c :: cs => res_bind (validate_case ids position c) (fun p =>
               res_bind (validate_cases (value (fc_id (fst p)) :: ids) (position + 1) cs) (fun q =>
               Ok (fst p :: fst q, snd p + snd q)))
  end.
(** [_validate_suite_snapshot] *)
Definition validate_suite_snapshot (snapshot : json) : res (list FrozenCase) :=
  match snapshot with
  | JDict d =>
      if negb (keys_are ["cases"]%string d) then snapshot_malformed
      else match json_get "cases" d with
           | JList l =>
               if negb ((1 <=? len l) && (len l <=? MAX_SUITE_CASES)) then snapshot_malformed
               else res_bind (validate_cases [] 1 l) (fun p =>
                    if snd p >? MAX_SUITE_INPUT_CHARS
                    then Raise (EntityConflict "evaluation suite input is too large") else Ok (fst p))
           | _ => snapshot_malformed
           end
  | _ => snapshot_malformed
  end.

(** [isinstance(value, int)] holds of booleans too. *)
Definition json_int (j : json) : option Z :=
  match j with JInt z => Some z | JBool b => Some (if b then 1 else 0) | _ => None end.
Definition str_or_none (j : json) : bool := match j with JNull | JStr _ => true | _ => false end.
Definition deterministic_runtime_metadata : json :=
  JDict [(u "runtime_config_version", JStr RUNTIME_CONFIG_VERSION); (u "model", JNull);
         (u "adapter", JStr (u "deterministic")); (u "adapter_protocol", JStr (u "deterministic-evaluator-v2"));
         (u "system_prompt_version", JNull); (u "evaluator_version", JStr CANONICAL_DETERMINISTIC_EVALUATOR_VERSION);
         (u "input_limit_chars", JInt MAX_SUITE_INPUT_CHARS); (u "response_limit_chars", JInt 0);
         (u "tool_simulation_fixture_version", JStr (u "none")); (u "brain_configuration", JDict [])].
Definition validate_runtime_metadata (metadata : json) (evaluator_version : str) : res json :=
  match metadata with
  | JDict d =>
      if negb (keys_are RUNTIME_METADATA_KEYS d)
      then Raise (EntityConflict
             "evaluation runtime metadata must contain exactly the code-owned stable configuration keys")
      else if json_eqb (json_get "runtime_config_version" d) (JStr RUNTIME_CONFIG_VERSION)
              && json_eqb (json_get "evaluator_version" d) (JStr evaluator_version)
              && is_json_str (json_get "adapter" d) && is_json_str (json_get "adapter_protocol" d)
              && str_or_none (json_get "model" d) && str_or_none (json_get "system_prompt_version" d)
              && is_json_str (json_get "tool_simulation_fixture_version" d)
              && match json_int (json_get "input_limit_chars" d) with Some n => 1 <=? n | None => false end
              && match json_int (json_get "response_limit_chars" d) with Some n => 0 <=? n | None => false end
              && is_json_dict (json_get "brain_configuration" d)
      then Ok metadata
      else Raise (EntityConflict "evaluation runtime metadata is not code-owned")
  | _ => Raise (EntityConflict
           "evaluation runtime metadata must contain exactly the code-owned stable configuration keys")
  end.
(** [_runtime_fingerprint] *)
Definition runtime_fingerprint (metadata : json) : res str := json_sha256 metadata.
End Graders.

(** ** Scores *)

(** The exact sum; CPython's compensated [sum] agrees on the 0 and 1 of the code's own
    evaluators. *)
Definition dy_add (x y : dyadic) : dyadic :=
  let k := Z.min x.2 y.2 in (x.1 * 2 ^ (x.2 - k) + y.1 * 2 ^ (y.2 - k), k).
Definition dy_neg (x : dyadic) : dyadic := (- x.1, x.2).
(** The double nearest to [x / n]; scores do not overflow. *)
Definition float_div (x : dyadic) (n : Z) : dyadic :=
  default (0, 0) (if 0 <=? x.2 then float_of_ratio (x.1 * 2 ^ x.2) n else float_of_ratio x.1 (n * 2 ^ (- x.2))).
Definition float_sub (x y : dyadic) : dyadic := float_div (dy_add x (dy_neg y)) 1.
Definition aggregate (results : list SkillEvaluationCaseResult) : json :=
  let score := float_div (foldl dy_add (0, 0) (map cr_score results)) (len results) in
  JDict [(u "case_count", JInt (len results));
         (u "passed", JInt (len (List.filter (fun r => num_eqb (cr_score r) (1, 0)) results)));
         (u "score", JFloat score.1 score.2)].

Section Evaluation.
Context `{Env} `{Digest} `{JsonSchema}.
Context (custom : list (str * (str -> json -> res EvaluationResult))).

(** ** Evaluation runs *)
(** The target of a run: its content digest *)
Definition evaluation_target (suite : SkillEvaluationSuite) (revision_id : option SkillRevisionId)
    (proposal_id : option SkillImprovementProposalId) : U str :=
  match revision_id, proposal_id with
  | Some rid, _ =>
      revision <- skill_revisions_get rid ;;
      revision <- need revision SkillRevisionNotFound ;;
      raise_if (negb (id_eqb (kr_skill_id revision) (es_suite_skill_id suite)))
        (EntityConflict "evaluation revision does not belong to suite skill") ;;;
      ret (kr_content_sha256 revision)
  | None, Some pid =>
      proposal <- proposals_get pid ;;
      proposal <- need proposal (EntityConflict "evaluation proposal does not belong to suite skill") ;;
      raise_if (negb (id_eqb (ip_skill_id proposal) (es_suite_skill_id suite)))
        (EntityConflict "evaluation proposal does not belong to suite skill") ;;;
      digest <- lift (skill_digest (ip_proposed_instructions proposal)) ;;
      raise_if (negb (bool_decide (digest = ip_proposed_content_sha256 proposal))) SkillIntegrityFailed ;;;
      ret (ip_proposed_content_sha256 proposal)
  | None, None => raise AssertionError
  end.
Definition live_snapshot (cases : list SkillEvaluationCase) : json :=
  JDict [(u "cases", JList (map (fun c => case_json (value (ec_id c)) (ec_position c) (ec_input c)
                                            (ec_expected_properties c) (ec_grading_kind c)) cases))].
Definition active_suite (suite_id : SkillEvaluationSuiteId) : U SkillEvaluationSuite :=
  suite <- suites_get suite_id ;;
  suite <- need suite (EntityConflict "evaluation suite not found") ;;
  raise_if (negb (bool_decide (es_status suite = SUITE_ACTIVE))) (EntityConflict "evaluation suite is not active") ;;;
  ret suite.
Definition suite_cases_nonempty (suite_id : SkillEvaluationSuiteId) : U (list SkillEvaluationCase) :=
  cases <- cases_list_for_suite suite_id ;;
  raise_if (len cases =? 0) (EntityConflict "evaluation suite requires at least one case") ;;;
  ret cases.
(** [set(outputs) == expected_ids]; the values are strings by typing *)
Definition outputs_complete (outputs : list (str * str)) (cases : list FrozenCase) : bool :=
  forallb (fun p : str * str => bool_decide (fst p ∈ map (fun c => value (fc_id c)) cases)) outputs
  && forallb (fun c => not_none (dict_get (value (fc_id c)) outputs)) cases.

(** One graded case *)
Definition grade_case (run : SkillEvaluationRunId) (outputs : list (str * str)) (c : FrozenCase)
    : res SkillEvaluationCaseResult :=
  res_bind (validate_expected_properties (fc_kind c) (JDict (fc_expected c))) (fun expected =>
  res_bind (as_conflict "evaluation case is not valid for its code-owned evaluator"
              (evaluate custom (fc_kind c) (default [] (dict_get (value (fc_id c)) outputs)) expected)) (fun r =>
  SkillEvaluationCaseResult_check
    (mkCaseResult run (fc_id c) (if ev_passed r then EV_SUCCEEDED else EV_FAILED) (ev_score r) (ev_reason_code r)
       (slice_to 4000 (ev_details r)) (ev_output_sha256 r)))).
Fixpoint grade_cases (run : SkillEvaluationRunId) (outputs : list (str * str)) (cases : list FrozenCase)
    : res (list SkillEvaluationCaseResult) :=
  match cases with
  | [] => Ok []
  | c :: cs => res_bind (grade_case run outputs c) (fun r =>
               res_bind (grade_cases run outputs cs) (fun rs => Ok (r :: rs)))
  end.

Definition RunSkillEvaluation (suite_id : SkillEvaluationSuiteId) (revision_id : option SkillRevisionId)
    (proposal_id : option SkillImprovementProposalId) (outputs : list (str * str)) (evaluator_version : str)
    (suite_snapshot : option json) (fingerprint : option str) (metadata : option json) (call_usage : json)
    : U SkillEvaluationRun :=
  raise_if (Bool.eqb (not_none revision_id) (not_none proposal_id))
    (EntityConflict "evaluation must target exactly one revision or proposal") ;;;
  with_uow (
    suite <- active_suite suite_id ;;
    need_skill (es_suite_skill_id suite) ;;;
    target_hash <- evaluation_target suite revision_id proposal_id ;;
    cases <- suite_cases_nonempty (es_suite_id suite) ;;
    let frozen_snapshot := default (live_snapshot cases) suite_snapshot in
    frozen_cases <- lift (validate_suite_snapshot frozen_snapshot) ;;
    raise_if (negb (outputs_complete outputs frozen_cases))
      (EntityConflict "evaluation outputs must contain exactly every frozen case") ;;;
    t <- now ;;
    metadata <- lift (validate_runtime_metadata (default deterministic_runtime_metadata metadata) evaluator_version) ;;
    computed <- lift (runtime_fingerprint metadata) ;;
    raise_if (match fingerprint with Some f => negb (bool_decide (f = computed)) | None => false end)
      (EntityConflict "evaluation runtime fingerprint does not match its configuration") ;;;
    raise_if (negb (bool_decide (evaluator_version ∈ [CANONICAL_DETERMINISTIC_EVALUATOR_VERSION;
                                                       CANONICAL_BRAIN_EVALUATOR_VERSION])))
      (EntityConflict "evaluation runtime version is not code-owned") ;;;
    run_id_ <- new_id ;;
    let run aggregate_result :=
      SkillEvaluationRun_check (mkEvaluationRun run_id_ (es_suite_id suite) (es_suite_skill_id suite) revision_id
        proposal_id EV_SUCCEEDED evaluator_version t t aggregate_result frozen_snapshot computed target_hash
        metadata call_usage) in
    lift (run (JDict [])) ;;;
    results <- lift (grade_cases run_id_ outputs frozen_cases) ;;
    run <- lift (run (aggregate results)) ;;
    evaluation_runs_add run ;;;
    case_results_add_all results ;;;
    commit ;;;
    ret run).

(** ** Evaluation by a brain

    [answer] is the evaluator with its [last_call_metadata], called outside any
    transaction. *)
Definition brain_evaluation_input (suite_id : SkillEvaluationSuiteId) (revision_id : option SkillRevisionId)
    (proposal_id : option SkillImprovementProposalId) : U (json * list SkillEvaluationCase * BrainOnlyEvaluationRequest) :=
  with_uow (
    suite <- active_suite suite_id ;;
    instructions <- match revision_id, proposal_id with
      | Some rid, _ =>
          revision <- skill_revisions_get rid ;;
          revision <- need revision (EntityConflict "evaluation revision does not belong to suite skill") ;;
          raise_if (negb (id_eqb (kr_skill_id revision) (es_suite_skill_id suite)))
            (EntityConflict "evaluation revision does not belong to suite skill") ;;;
          ret (kr_instructions revision)
      | None, Some pid =>
          evaluation_target suite None (Some pid) ;;;
          proposal <- proposals_get pid ;;
          proposal <- need proposal AssertionError ;;
          ret (ip_proposed_instructions proposal)
      | None, None => raise AssertionError
      end ;;
    cases <- suite_cases_nonempty suite_id ;;
    ret (live_snapshot cases, cases,
         mkBrainEvaluation instructions (map (fun c => (value (ec_id c), ec_input c)) cases) 40000)).
Definition brain_runtime_metadata (adapter : str) (metadata : list (str * json)) (evaluator_version : str)
    (max_response_chars : Z) : json :=
  let model := match json_get "model" metadata with JStr s => JStr s | _ => JNull end in
  JDict [(u "runtime_config_version", JStr RUNTIME_CONFIG_VERSION); (u "model", model); (u "adapter", JStr adapter);
         (u "adapter_protocol", JStr (u "brain-only-evaluation-v2"));
         (u "system_prompt_version", JStr (u "claude-evaluation-v2"));
         (u "evaluator_version", JStr evaluator_version); (u "input_limit_chars", JInt MAX_SUITE_INPUT_CHARS);
         (u "response_limit_chars", JInt max_response_chars);
         (u "tool_simulation_fixture_version", JStr (u "none"));
         (u "brain_configuration", JDict [(u "mode", json_get "mode" metadata);
                                          (u "adapter_version", json_get "adapter_version" metadata)])].
Definition RunBrainOnlySkillEvaluation (adapter : str)
    (answer : BrainOnlyEvaluationRequest -> res (list (str * str)) * list (str * json))
    (suite_id : SkillEvaluationSuiteId) (revision_id : option SkillRevisionId)
    (proposal_id : option SkillImprovementProposalId) (evaluator_version : str) : U SkillEvaluationRun :=
  raise_if (Bool.eqb (not_none revision_id) (not_none proposal_id))
    (EntityConflict "evaluation must target exactly one revision or proposal") ;;;
  input <- brain_evaluation_input suite_id revision_id proposal_id ;;
  let '(snapshot, cases, request) := input in
  let '(outputs, metadata) := answer request in
  outputs <- lift outputs ;;
  raise_if (negb (forallb (fun p : str * str => bool_decide (fst p ∈ map (fun c => value (ec_id c)) cases)) outputs
                  && forallb (fun c => not_none (dict_get (value (ec_id c)) outputs)) cases))
    (EntityConflict "evaluation outputs must contain exactly every frozen case") ;;;
  let runtime := brain_runtime_metadata adapter metadata evaluator_version (be_max_response_chars request) in
  fingerprint <- lift (runtime_fingerprint runtime) ;;
  let usage := match json_get "usage" metadata with JDict d => JDict d | _ => JNull end in
  RunSkillEvaluation suite_id revision_id proposal_id outputs evaluator_version (Some snapshot) (Some fingerprint)
    (Some runtime) usage.

(** ** Comparison *)
Definition snapshot_ids (snapshot : json) : list str :=
  match snapshot with
  | JDict d =>
      match json_get "cases" d with
      | JList l => remove_dups (omap (fun item => match item with
                                 | JDict c => match json_get "id" c with JStr s => Some s | _ => None end
                                 | _ => None end) l)
      | _ => []
      end
  | _ => []
  end.
Definition same_ids (a b : list str) : bool :=
  forallb (fun x => bool_decide (x ∈ b)) a && forallb (fun x => bool_decide (x ∈ a)) b.
Definition result_ids (l : list SkillEvaluationCaseResult) : list str := map (fun r => value (cr_case_id r)) l.
Definition score_of (l : list SkillEvaluationCaseResult) (c : SkillEvaluationCaseId) : dyadic :=
  match List.find (fun r => id_eqb (cr_case_id r) c) l with Some r => cr_score r | None => (0, 0) end.

(** Regressions, improvements and unchanged cases of the candidate *)
Record Tally : Type := mkTally { ta_regressions : Z; ta_improvements : Z; ta_inconclusive : Z }.
Definition tally_case (candidate : list SkillEvaluationCaseResult) (k : Tally) (b : SkillEvaluationCaseResult) : Tally :=
  let c := score_of candidate (cr_case_id b) in
  if negb (dy_leb (cr_score b) c) then mkTally (ta_regressions k + 1) (ta_improvements k) (ta_inconclusive k)
  else if negb (dy_leb c (cr_score b)) then mkTally (ta_regressions k) (ta_improvements k + 1) (ta_inconclusive k)
  else mkTally (ta_regressions k) (ta_improvements k) (ta_inconclusive k + 1).
Definition tally (baseline candidate : list SkillEvaluationCaseResult) : Tally :=
  foldl (tally_case candidate) (mkTally 0 0 0) baseline.
Definition aggregate_score (r : SkillEvaluationRun) : option dyadic :=
  match er_aggregate_result r with JDict d => num_val (json_get "score" d) | _ => None end.

(** Both runs graded each case of the suite once. *)
Definition complete_results (ids : list str) (baseline candidate : list SkillEvaluationCaseResult) : bool :=
  negb (bool_decide (ids = [])) && (len baseline =? len ids) && (len candidate =? len ids)
  && same_ids (result_ids baseline) ids && same_ids (result_ids candidate) ids.
(** The verdict on two runs of one frozen suite *)
Definition verdict (baseline candidate : SkillEvaluationRun)
    (baseline_results candidate_results : list SkillEvaluationCaseResult)
    : CandidateComparisonResult * CandidateRecommendation * dyadic * Tally :=
  let ids := snapshot_ids (er_suite_snapshot baseline) in
  if negb (complete_results ids baseline_results candidate_results) then
    (CC_INCONCLUSIVE, CR_NOT_ELIGIBLE, (0, 0),
     mkTally 0 0 (Z.max 1 (len ids - Z.min (len baseline_results) (len candidate_results))))
  else
  let k := tally baseline_results candidate_results in
  match aggregate_score candidate, aggregate_score baseline with
  | Some c, Some b =>
      let delta := float_sub c b in
      if negb (ta_regressions k =? 0) then
        (if negb (ta_improvements k =? 0) then CC_MIXED else CC_WORSE, CR_NOT_ELIGIBLE, delta, k)
      else if negb (ta_improvements k =? 0) then (CC_BETTER, CR_ELIGIBLE, delta, k)
      else (CC_EQUIVALENT, CR_REQUIRES_MANUAL_OVERRIDE, delta, k)
  | _, _ => (CC_INCONCLUSIVE, CR_NOT_ELIGIBLE, (0, 0), mkTally (ta_regressions k) (ta_improvements k) (len ids))
  end.

(** A case on which the candidate scores lower, and one on which it scores higher *)
Definition worse_case (candidate : list SkillEvaluationCaseResult) (b : SkillEvaluationCaseResult) : bool :=
  negb (dy_leb (cr_score b) (score_of candidate (cr_case_id b))).
Definition better_case (candidate : list SkillEvaluationCaseResult) (b : SkillEvaluationCaseResult) : bool :=
  dy_leb (cr_score b) (score_of candidate (cr_case_id b)) && negb (dy_leb (score_of candidate (cr_case_id b)) (cr_score b)).
Lemma tally_from candidate baseline k :
  ta_regressions (foldl (tally_case candidate) k baseline)
    = ta_regressions k + len (List.filter (worse_case candidate) baseline) /\
  ta_improvements (foldl (tally_case candidate) k baseline)
    = ta_improvements k + len (List.filter (better_case candidate) baseline).
Proof.
  revert k. induction baseline as [|b l IH]; intros k; [unfold len; cbn; lia|]. cbn [foldl List.filter].
  destruct (IH (tally_case candidate k b)) as [-> ->]. unfold tally_case, worse_case, better_case.
  destruct (dy_leb (cr_score b) _), (dy_leb _ (cr_score b)); unfold len; cbn -[Z.of_nat]; cbn [length]; lia.
Qed.
Lemma filter_len_zero {A} (p : A -> bool) l : (len (List.filter p l) =? 0) = true <-> Forall (fun x => p x = false) l.
Proof.
  induction l as [|x l IH]; [by split|]. cbn [List.filter]. rewrite Forall_cons. destruct (p x); [|by rewrite IH; intuition].
  unfold len. cbn [length]. split; [intros E%Z.eqb_eq; exfalso; revert E; clear; lia|]. by intros [? _].
Qed.
Lemma verdict_tally baseline candidate br cr :
  let k := snd (verdict baseline candidate br cr) in
  snd (fst (fst (verdict baseline candidate br cr))) = CR_ELIGIBLE -> ta_regressions k = 0 /\ 0 < ta_improvements k.
Proof.
  cbn zeta. unfold verdict, tally. destruct (tally_from cr br (mkTally 0 0 0)) as [Hr Hi]. cbn [ta_regressions ta_improvements] in Hr, Hi.
  destruct (negb (complete_results _ _ _)); [done|].
  destruct (aggregate_score candidate), (aggregate_score baseline); try done.
  destruct (negb (ta_regressions _ =? 0)) eqn:E1; [by destruct (negb _)|].
  destruct (negb (ta_improvements _ =? 0)) eqn:E2; [|done]. intros _. cbn [snd]. unfold len in *. lia.
Qed.
Definition comparison_report (proposal : SkillImprovementProposal) (baseline candidate : SkillEvaluationRun)
    (result : CandidateComparisonResult) (recommendation : CandidateRecommendation) (delta : dyadic) (k : Tally)
    (policy_version : str) : json :=
  JDict [(u "proposal_id", JStr (value (ip_id proposal))); (u "baseline_run_id", JStr (value (er_id baseline)));
         (u "candidate_run_id", JStr (value (er_id candidate)));
         (u "runtime_fingerprint", JStr (er_runtime_fingerprint baseline));
         (u "score_delta", JFloat delta.1 delta.2); (u "regression_count", JInt (ta_regressions k));
         (u "improvement_count", JInt (ta_improvements k)); (u "inconclusive_count", JInt (ta_inconclusive k));
         (u "result", str_of (comparison_result_value result));
         (u "recommendation", str_of (recommendation_value recommendation));
         (u "comparison_policy_version", JStr policy_version)].

(** The first transaction: the baseline belongs to the base of the proposal. *)
Definition comparison_baseline (proposal_id : SkillImprovementProposalId) (baseline_id : SkillEvaluationRunId)
    : U SkillEvaluationRun :=
  with_uow (
    proposal <- proposals_get proposal_id ;;
    baseline <- evaluation_runs_get baseline_id ;;
    let missing := EntityConflict "proposal or baseline evaluation was not found" in
    proposal <- need proposal missing ;;
    baseline <- need baseline missing ;;
    raise_if (negb (id_eqb (er_skill_id baseline) (ip_skill_id proposal))
              || negb (opt_id_eqb (er_revision_id baseline) (ip_base_revision_id proposal)))
      (EntityConflict "baseline evaluation does not match proposal base revision") ;;;
    base <- skill_revisions_get (ip_base_revision_id proposal) ;;
    base <- need base (EntityConflict "baseline evaluation target integrity failed") ;;
    raise_if (negb (bool_decide (er_target_content_sha256 baseline = kr_content_sha256 base)))
      (EntityConflict "baseline evaluation target integrity failed") ;;;
    existing <- candidates_get_for_proposal proposal_id ;;
    raise_if (not_none existing) (EntityConflict "proposal already has an immutable comparison") ;;;
    ret baseline).
(** The last transaction *)
Definition record_comparison (proposal_id : SkillImprovementProposalId) (baseline_id candidate_id : SkillEvaluationRunId)
    (policy_version : str) : U SkillCandidateEvaluation :=
  with_uow (
    proposal <- proposals_get proposal_id ;;
    baseline <- evaluation_runs_get baseline_id ;;
    candidate <- evaluation_runs_get candidate_id ;;
    let missing := EntityConflict "comparison inputs disappeared" in
    proposal <- need proposal missing ;;
    baseline <- need baseline missing ;;
    candidate <- need candidate missing ;;
    raise_if (negb (opt_id_eqb (er_proposal_id candidate) (ip_id proposal))
              || negb (id_eqb (er_skill_id candidate) (ip_skill_id proposal))
              || negb (bool_decide (er_runtime_fingerprint baseline = er_runtime_fingerprint candidate))
              || negb (json_eqb (er_suite_snapshot baseline) (er_suite_snapshot candidate))
              || negb (bool_decide (er_evaluator_version baseline = er_evaluator_version candidate))
              || bool_decide (er_target_content_sha256 baseline = er_target_content_sha256 candidate)
              || negb (bool_decide (er_target_content_sha256 candidate = ip_proposed_content_sha256 proposal)))
      (EntityConflict "comparison requires identical frozen evaluation configuration") ;;;
    baseline_results <- case_results_list_for_run (er_id baseline) ;;
    candidate_results <- case_results_list_for_run (er_id candidate) ;;
    let '(result, recommendation, delta, k) := verdict baseline candidate baseline_results candidate_results in
    let report := comparison_report proposal baseline candidate result recommendation delta k policy_version in
    report_sha256 <- lift (json_sha256 report) ;;
    comparison_id <- new_id ;;
    t <- now ;;
    comparison <- lift (SkillCandidateEvaluation_check
      (mkCandidate comparison_id (ip_id proposal) (er_id baseline) (er_id candidate) policy_version result
         recommendation delta (ta_regressions k) (ta_improvements k) (ta_inconclusive k) report_sha256 t report)) ;;
    candidates_add comparison ;;;
    reviewed <- lift (SkillImprovementProposal_check (set_ip_status SP_READY_FOR_REVIEW proposal)) ;;
    proposals_save reviewed ;;;
    commit ;;;
    ret comparison).
(** Either the outputs of the candidate or a finished evaluation run of it *)
Definition CompareSkillImprovementProposal (proposal_id : SkillImprovementProposalId) (baseline_id : SkillEvaluationRunId)
    (candidate_outputs : option (list (str * str))) (candidate_evaluation_run_id : option SkillEvaluationRunId)
    (policy_version : str) : U SkillCandidateEvaluation :=
  raise_if (Bool.eqb (not_none candidate_outputs) (not_none candidate_evaluation_run_id))
    (EntityConflict "comparison requires candidate outputs or one candidate evaluation run") ;;;
  raise_if (negb (bool_decide (policy_version ∈ COMPARISON_POLICIES)))
    (EntityConflict "comparison policy is not code-owned") ;;;
  baseline <- comparison_baseline proposal_id baseline_id ;;
  candidate_id <- match candidate_evaluation_run_id, candidate_outputs with
    | Some id, _ =>
        with_uow (run <- evaluation_runs_get id ;; need run (EntityConflict "candidate evaluation run was not found")) ;;;
        ret id
    | None, Some outputs =>
        run <- RunSkillEvaluation (er_suite_id baseline) None (Some proposal_id) outputs (er_evaluator_version baseline)
                 (Some (er_suite_snapshot baseline)) (Some (er_runtime_fingerprint baseline))
                 (Some (er_runtime_metadata baseline)) JNull ;;
        ret (er_id run)
    | None, None => raise AssertionError
    end ;;
  record_comparison proposal_id baseline_id candidate_id policy_version.

(** ** Suites *)
Definition suite_case_size (c : str * json * str) : Z :=
  let '(input, expected, kind) := c in
  len (json_dumps true (JDict [(u "input", JStr input); (u "expected_properties", expected);
                               (u "grading_kind", JStr kind)])).
Definition check_suite_case (c : str * json * str) : res unit :=
  let '(input, expected, kind) := c in
  if empty_str input || (len input >? 32000) then Raise (EntityConflict "evaluation case input is invalid")
  else res_bind (validate_expected_properties kind expected) (fun _ => Ok tt).
Fixpoint add_cases (suite : SkillEvaluationSuiteId) (t position : Z) (cases : list (str * json * str)) : U unit :=
  match cases with
  | [] => ret tt
  | (input, expected, kind) :: cases' =>
      id <- new_id ;;
      c <- lift (SkillEvaluationCase_check (mkCase id suite position input expected kind t t)) ;;
      cases_add c ;;;
      add_cases suite t (position + 1) cases'
  end.
Fixpoint check_suite_cases (cases : list (str * json * str)) : res unit :=
  match cases with [] => Ok tt | c :: cs => res_bind (check_suite_case c) (fun _ => check_suite_cases cs) end.
Definition CreateSkillEvaluationSuite (skill_id : SkillId) (name description : str) (cases : list (str * json * str))
    : U SkillEvaluationSuite :=
  raise_if (len cases =? 0) (EntityConflict "evaluation suite requires at least one case") ;;;
  raise_if ((len cases >? MAX_SUITE_CASES) || (foldr Z.add 0 (map suite_case_size cases) >? MAX_SUITE_INPUT_CHARS))
    (EntityConflict "evaluation suite is too large") ;;;
  lift (check_suite_cases cases) ;;;
  with_uow (
    need_skill skill_id ;;;
    t <- now ;;
    id <- new_id ;;
    suite <- lift (SkillEvaluationSuite_check (mkSuite id skill_id name description SUITE_ACTIVE t t)) ;;
    suites_add suite ;;;
    add_cases id t 1 cases ;;;
    commit ;;;
    ret suite).
End Evaluation.

(** ** What a comparison concludes *)
Lemma existsb_len {A} (p : A -> bool) l : negb (len (List.filter p l) =? 0) = existsb p l.
Proof.
  induction l as [|x l IH]; [done|]. cbn [List.filter existsb]. destruct (p x); [|done].
  unfold len. cbn [length orb]. apply negb_true_iff, Z.eqb_neq. lia.
Qed.

(** C5: the verdict on a candidate is decided case by case, never by the averages.  It is
    eligible for promotion exactly when both runs graded each case of the frozen suite
    once, both have a score, no case is worse than in the baseline and some case is
    better; with no case worse and none better it is equivalent and needs an override;
    in every other case it is not eligible: mixed, worse or inconclusive. *)
Theorem verdict_case_by_case baseline candidate br cr :
  let v := verdict baseline candidate br cr in
  let worse := existsb (worse_case cr) br in
  let better := existsb (better_case cr) br in
  (fst (fst (fst v)), snd (fst (fst v))) =
  if complete_results (snapshot_ids (er_suite_snapshot baseline)) br cr
     && not_none (aggregate_score candidate) && not_none (aggregate_score baseline)
  then if worse then (if better then CC_MIXED else CC_WORSE, CR_NOT_ELIGIBLE)
       else if better then (CC_BETTER, CR_ELIGIBLE) else (CC_EQUIVALENT, CR_REQUIRES_MANUAL_OVERRIDE)
  else (CC_INCONCLUSIVE, CR_NOT_ELIGIBLE).
Proof.
  cbv zeta. unfold verdict, tally. destruct (tally_from cr br (mkTally 0 0 0)) as [Hr Hi]. cbn [ta_regressions ta_improvements] in Hr, Hi.
  destruct (complete_results _ _ _); cbn [negb andb]; [|done].
  destruct (aggregate_score candidate), (aggregate_score baseline); try done. cbn [not_none andb].
  rewrite Hr, Hi, !Z.add_0_l, !existsb_len.
  by destruct (existsb (worse_case cr) br), (existsb (better_case cr) br).
Qed.

(** The candidate answers one case better and one as before. *)
Definition ex_case (n : Z) : SkillEvaluationCaseId := mkId (int_repr n).
Definition ex_result (n score : Z) : SkillEvaluationCaseResult :=
  mkCaseResult (mkId (u "run")) (ex_case n) EV_SUCCEEDED (score, 0) None [] [].
Definition ex_run (score : Z) : SkillEvaluationRun :=
  mkEvaluationRun (mkId (u "run")) (mkId (u "suite")) (mkId (u "skill")) None None EV_SUCCEEDED [] 0 0
    (JDict [(u "score", JFloat score 0)])
    (JDict [(u "cases", JList (map (fun n => JDict [(u "id", JStr (int_repr n))]) [1; 2]))]) [] [] JNull JNull.
Example verdict_example :
  (verdict (ex_run 0) (ex_run 1) [ex_result 1 0; ex_result 2 1] [ex_result 2 1; ex_result 1 1]).1.1.2 = CR_ELIGIBLE /\
  (verdict (ex_run 0) (ex_run 1) [ex_result 1 0; ex_result 2 1] [ex_result 2 0; ex_result 1 1]).1.1
    = (CC_MIXED, CR_NOT_ELIGIBLE).
Proof. vm_compute. by split. Qed.
