(* ===== verification/SkillImprovement.v ===== *)
(** * Skill improvement

    [src/friday/application/skill_improvement.py] (evidence, candidates and
    proposals), [skill_improvement_policy.py] (when a skill is due) and
    [EvaluateDueSkillImprovementPolicies] of [worker_maintenance.py], which takes
    due skills from evidence to a reviewed comparison.  The brain that writes
    candidates and the one that runs cases are arguments. *)

From S2P Require Import Prelude Values Canonical RetryPolicy JsonText SkillEntity ImprovementEntity.
From S2P Require Import WorkQueue WorkflowExecutionEntity Tables Codec Store SkillStore ImprovementStore Lifecycle.
From S2P Require Import RunUseCases RuntimeActions SkillUseCases SkillEvaluation.

Open Scope Z_scope.

Definition GENERATOR_CONFIG_FINGERPRINT : str := CANONICAL_GENERATOR_VERSION.
Definition CANDIDATE_PROMPT_VERSION : str := u "candidate-prompt-v1".
Definition MAX_CANDIDATE_PROMPT_CHARS : Z := 120000.
Definition MAX_CANDIDATE_RESPONSE_CHARS : Z := 40000.

Record CandidateOutput : Type := mkCandidateOutput {
  co_proposed_instructions : str; co_rationale : str; co_addressed_evidence_ids : list str; co_content_sha256 : str }.
Record CandidateGenerationRequest : Type := mkGenerationRequest {
  cg_base_instructions : str; cg_evidence_snapshot_hash : str; cg_snapshot_id : SkillEvidenceSnapshotId;
  cg_snapshot_payload : json; cg_base_revision_id : SkillRevisionId; cg_base_content_sha256 : str;
  cg_max_response_chars : Z; cg_generator_config_fingerprint : str }.

(** [str(value)] of enumerations *)
Definition feedback_rating_value (r : SkillFeedbackRating) : string :=
  match r with FR_HELPFUL => "helpful" | FR_NEUTRAL => "neutral" | FR_HARMFUL => "harmful" end.
Definition opt_str_json (o : option str) : json := match o with Some s => JStr s | None => JNull end.
Definition opt_int_json (o : option Z) : json := match o with Some z => JInt z | None => JNull end.

Section Candidates.
Context `{Digest}.

(** ** The prompt *)
Definition build_candidate_prompt (q : CandidateGenerationRequest) : res str :=
  res_bind (evidence_ids_from_payload (cg_snapshot_payload q)) (fun ids =>
  Ok (json_dumps true (JDict
    [(u "contract", JDict [(u "version", JInt 1);
       (u "required_fields", JList (map (fun f => JStr (u f))
          ["version"; "proposed_instructions"; "rationale"; "addressed_evidence_ids"]%string))]);
     (u "prompt_version", JStr CANDIDATE_PROMPT_VERSION);
     (u "base_instructions", JStr (cg_base_instructions q));
     (u "base_revision_id", JStr (value (cg_base_revision_id q)));
     (u "base_content_sha256", JStr (cg_base_content_sha256 q));
     (u "evidence_snapshot_id", JStr (value (cg_snapshot_id q)));
     (u "evidence_snapshot", cg_snapshot_payload q);
     (u "evidence_snapshot_hash", JStr (cg_evidence_snapshot_hash q));
     (u "evidence_ids", JList (map JStr (order_by id ids)));
     (u "instruction", JStr (u "Return only one JSON candidate object; never propose tool use."));
     (u "generator_config_fingerprint", JStr (cg_generator_config_fingerprint q))]))).
Definition candidate_prompt_sha256 (prompt : str) : res str :=
  res_bind (encode prompt) (fun b => Ok (sha256_hex b)).
(** [CandidateGenerationRequest.__post_init__] *)
Definition CandidateGenerationRequest_check (q : CandidateGenerationRequest) : res CandidateGenerationRequest :=
  let bad msg := Raise (DomainValidationError msg) in
  if empty_str (cg_base_instructions q) || (len (cg_base_instructions q) >? 32000)
  then bad "candidate base instructions must be bounded"
  else if negb (is_sha256_hex (cg_evidence_snapshot_hash q))
          || negb ((1 <=? cg_max_response_chars q) && (cg_max_response_chars q <=? MAX_CANDIDATE_RESPONSE_CHARS))
  then bad "candidate generation request is invalid"
  else
  res_bind (skill_digest (cg_base_instructions q)) (fun digest =>
  if negb (bool_decide (cg_base_content_sha256 q = digest)) then bad "candidate base revision integrity failed"
  else if negb (bool_decide (cg_generator_config_fingerprint q = GENERATOR_CONFIG_FINGERPRINT))
  then bad "candidate generator configuration is not code-owned"
  else
  res_bind (evidence_payload_hash (cg_snapshot_payload q)) (fun hash =>
  if negb (bool_decide (hash = cg_evidence_snapshot_hash q)) then bad "candidate evidence snapshot integrity failed"
  else
  res_bind (evidence_ids_from_payload (cg_snapshot_payload q)) (fun ids =>
  if (len ids >? 200) || existsb (fun i => len i >? 128) ids then bad "candidate evidence package is bounded"
  else
  res_bind (build_candidate_prompt q) (fun prompt =>
  if len prompt >? MAX_CANDIDATE_PROMPT_CHARS then bad "candidate generation prompt is too large" else Ok q)))).

(** ** What a brain may answer *)
Definition CANDIDATE_FIELDS : list string :=
  ["version"; "proposed_instructions"; "rationale"; "addressed_evidence_ids"]%string.
Definition py_keys_are (ks : list string) (d : pydict) : bool :=
  forallb (fun p : pyval * pyval => match fst p with PyStr k => bool_decide (k ∈ map u ks) | _ => false end) d
  && forallb (fun k => has_key d (u k)) ks.
(** [value == 1] *)
Definition py_is_one (v : pyval) : bool :=
  match v with PyInt z => z =? 1 | PyBool b => b | PyFloat m e => num_eqb (m, e) (1, 0) | _ => false end.
Fixpoint evidence_refs (allowed : list str) (l : list pyval) : option (list str) :=
  match l with
  | [] => Some []
  | PyStr s :: l' =>
      if bool_decide (s ∈ allowed)
      then match evidence_refs allowed l' with Some ss => Some (s :: ss) | None => None end
      else None
  | _ :: _ => None
  end.
Definition parse_candidate_output (raw : str) (allowed : list str) : res CandidateOutput :=
  let bad msg := Raise (DomainValidationError msg) in
  match json_loads raw with
  | Raise e => if is_decode_error e then bad "candidate output must be strict JSON" else Raise e
  | Ok (PyDict d) =>
      if negb (py_keys_are CANDIDATE_FIELDS d) then bad "candidate output fields must match the strict contract"
      else match py_get "proposed_instructions" d, py_get "rationale" d with
           | PyStr instructions, PyStr rationale =>
               if negb (py_is_one (py_get "version" d)) then bad "candidate output has invalid scalar fields"
               else match py_get "addressed_evidence_ids" d with
                    | PyList l =>
                        match evidence_refs allowed l with
                        | Some ids =>
                            if empty_str instructions || (len instructions >? 32000) || (len rationale >? 8000)
                            then bad "candidate output exceeds bounded fields"
                            else match encode instructions with
                                 | Ok b => Ok (mkCandidateOutput instructions rationale ids (sha256_hex b))
                                 | Raise _ => bad "candidate instructions must be UTF-8"
                                 end
                        | None => bad "candidate output references evidence outside the frozen snapshot"
                        end
                    | _ => bad "candidate output references evidence outside the frozen snapshot"
                    end
           | _, _ => bad "candidate output has invalid scalar fields"
           end
  | Ok _ => bad "candidate output fields must match the strict contract"
  end.
End Candidates.

Section SkillImprovement.
Context `{Env} `{Digest} `{JsonSchema}.

(** ** Evidence and proposals *)
Definition CreateSkillEvidenceSnapshot (skill_id : SkillId) (base_revision_id : SkillRevisionId) (evidence : pyval)
    : U SkillEvidenceSnapshot :=
  with_uow (
    need_skill skill_id ;;;
    base <- skill_revisions_get base_revision_id ;;
    base <- need base SkillRevisionNotFound ;;
    raise_if (negb (id_eqb (kr_skill_id base) skill_id))
      (EntityConflict "evidence snapshot base revision does not belong to skill") ;;;
    id <- new_id ;;
    t <- now ;;
    snapshot <- lift (SkillEvidenceSnapshot_new id skill_id base_revision_id evidence (utc t)) ;;
    evidence_add snapshot ;;;
    commit ;;;
    ret snapshot).

Definition CreateSkillImprovementProposal (skill_id : SkillId) (base_revision_id : SkillRevisionId) (trigger_kind : str)
    (evidence_snapshot_id : SkillEvidenceSnapshotId) (evidence_snapshot_hash generator_version : str)
    (candidate_prompt_version prompt_sha256 raw_candidate : str) : U SkillImprovementProposal :=
  with_uow (
    raise_if (negb (bool_decide (generator_version = GENERATOR_CONFIG_FINGERPRINT)))
      (EntityConflict "candidate generator provenance is not code-owned") ;;;
    need_skill skill_id ;;;
    base <- skill_revisions_get base_revision_id ;;
    base <- need base SkillRevisionNotFound ;;
    raise_if (negb (id_eqb (kr_skill_id base) skill_id))
      (EntityConflict "proposal base revision does not belong to skill") ;;;
    snapshot <- evidence_get evidence_snapshot_id ;;
    snapshot <- need snapshot (EntityConflict "evidence snapshot not found") ;;
    raise_if (negb (id_eqb (es_skill_id snapshot) skill_id)
              || negb (id_eqb (es_base_revision_id snapshot) base_revision_id))
      (EntityConflict "evidence snapshot does not match proposal base") ;;;
    raise_if (negb (bool_decide (es_content_sha256 snapshot = evidence_snapshot_hash)))
      (EntityConflict "evidence snapshot hash does not match frozen snapshot") ;;;
    allowed <- lift (evidence_ids_from_payload (es_evidence snapshot)) ;;
    candidate <- lift (parse_candidate_output raw_candidate allowed) ;;
    raise_if (bool_decide (co_content_sha256 candidate = kr_content_sha256 base))
      (EntityConflict "candidate must differ from base revision") ;;;
    id <- new_id ;;
    t <- now ;;
    proposal <- lift (SkillImprovementProposal_check
      (mkProposal id skill_id base_revision_id SP_READY_FOR_EVALUATION trigger_kind evidence_snapshot_id
         evidence_snapshot_hash (co_proposed_instructions candidate) (co_content_sha256 candidate)
         (co_rationale candidate) generator_version candidate_prompt_version prompt_sha256 t)) ;;
    proposals_add proposal ;;;
    commit ;;;
    ret proposal).

(** The request that is put to the generator *)
Definition generation_request (skill_id : SkillId) (base_revision_id : SkillRevisionId)
    (evidence_snapshot_id : SkillEvidenceSnapshotId) (evidence_snapshot_hash base_instructions : str)
    : U CandidateGenerationRequest :=
  input <- with_uow (
    snapshot <- evidence_get evidence_snapshot_id ;;
    base <- skill_revisions_get base_revision_id ;;
    let missing := EntityConflict "candidate generation inputs were not found" in
    snapshot <- need snapshot missing ;;
    base <- need base missing ;;
    raise_if (negb (id_eqb (es_skill_id snapshot) skill_id)
              || negb (id_eqb (es_base_revision_id snapshot) base_revision_id)
              || negb (bool_decide (es_content_sha256 snapshot = evidence_snapshot_hash)))
      (EntityConflict "candidate generation inputs do not match the frozen snapshot") ;;;
    raise_if (negb (bool_decide (kr_instructions base = base_instructions)))
      (EntityConflict "candidate base instructions do not match the persisted base") ;;;
    ret (es_evidence snapshot, kr_content_sha256 base)) ;;
  lift (CandidateGenerationRequest_check
    (mkGenerationRequest base_instructions evidence_snapshot_hash evidence_snapshot_id (fst input) base_revision_id
       (snd input) MAX_CANDIDATE_RESPONSE_CHARS GENERATOR_CONFIG_FINGERPRINT)).
Definition GenerateSkillImprovementProposal (generate_candidate : CandidateGenerationRequest -> res str)
    (skill_id : SkillId) (base_revision_id : SkillRevisionId) (trigger_kind : str)
    (evidence_snapshot_id : SkillEvidenceSnapshotId) (evidence_snapshot_hash generator_version base_instructions : str)
    : U SkillImprovementProposal :=
  raise_if (negb (bool_decide (generator_version = GENERATOR_CONFIG_FINGERPRINT)))
    (EntityConflict "candidate generator provenance is not code-owned") ;;;
  request <- generation_request skill_id base_revision_id evidence_snapshot_id evidence_snapshot_hash base_instructions ;;
  prompt <- lift (build_candidate_prompt request) ;;
  raw <- lift (generate_candidate request) ;;
  prompt_sha256 <- lift (candidate_prompt_sha256 prompt) ;;
  CreateSkillImprovementProposal skill_id base_revision_id trigger_kind evidence_snapshot_id evidence_snapshot_hash
    generator_version CANDIDATE_PROMPT_VERSION prompt_sha256 raw.

Definition CancelSkillImprovementProposal (proposal_id : SkillImprovementProposalId) : U SkillImprovementProposal :=
  with_uow (
    proposal <- proposals_get proposal_id ;;
    proposal <- need proposal (EntityConflict "skill improvement proposal not found") ;;
    raise_if (bool_decide (ip_status proposal ∈ [SP_PROMOTED; SP_CANCELLED; SP_REJECTED]))
      (EntityConflict "proposal is already closed") ;;;
    cancelled <- lift (SkillImprovementProposal_check (set_ip_status SP_CANCELLED proposal)) ;;
    proposals_save cancelled ;;;
    commit ;;;
    ret cancelled).

(** ** Policies *)
Definition SaveSkillImprovementPolicy (policy : SkillImprovementPolicy) : U SkillImprovementPolicy :=
  with_uow (
    need_skill (sp_skill_id policy) ;;;
    suite <- suites_get (sp_evaluation_suite_id policy) ;;
    let foreign := EntityConflict "policy evaluation suite does not belong to skill" in
    suite <- need suite foreign ;;
    raise_if (negb (id_eqb (es_suite_skill_id suite) (sp_skill_id policy))) foreign ;;;
    cases <- cases_list_for_suite (es_suite_id suite) ;;
    raise_if (len cases =? 0) (EntityConflict "policy evaluation suite requires at least one case") ;;;
    current <- improvement_policies_get (sp_skill_id policy) ;;
    created <- match current with Some c => ret (sp_created_at c) | None => now end ;;
    updated <- now ;;
    saved <- lift (SkillImprovementPolicy_check (stamp_policy created updated
      (match current with Some c => sp_last_triggered_at c | None => None end) policy)) ;;
    improvement_policies_save saved ;;;
    commit ;;;
    ret saved).

Definition new_work (id : SkillImprovementWorkId) (skill_id : SkillId) (state : SkillImprovementWorkState)
    (proposal : option SkillImprovementProposalId) (t : Z) : SkillImprovementWork :=
  mkWork id skill_id state proposal 0 t None None 0 None None None t t.
Definition resumable_proposal (skill_id : SkillId) : U (option SkillImprovementProposal) :=
  l <- proposals_list_for_skill skill_id ;;
  ret (List.find (fun p => bool_decide (ip_status p = SP_READY_FOR_EVALUATION)) l).
Definition policy_open (s : SkillProposalStatus) : bool :=
  negb (bool_decide (s ∈ [SP_CANCELLED; SP_REJECTED; SP_PROMOTED])).
Fixpoint feedback_of (skill_id : SkillId) (usage : list SkillUsageRecord) : U (list SkillRunFeedback) :=
  match usage with
  | [] => ret []
  | x :: usage' =>
      l <- feedback_list_for_run_skill (ur_run_id x) skill_id ;;
      l' <- feedback_of skill_id usage' ;;
      ret (l ++ l')
  end.
Definition count {A} (p : A -> bool) (l : list A) : Z := len (List.filter p l).
(** The unit of work always has a repository of improvement work, so the branches for
    one that lacks it are not modelled. *)
Definition RunSkillImprovementPolicyNow (skill_id : SkillId) : U bool :=
  with_uow (
    policy <- improvement_policies_get skill_id ;;
    match policy with
    | None => ret false
    | Some policy =>
        if negb (sp_enabled policy) then ret false else
        t <- now ;;
        active <- work_get_active_for_skill skill_id ;;
        if not_none active then ret true else
        resumable <- resumable_proposal skill_id ;;
        match resumable with
        | Some p =>
            id <- new_id ;;
            work <- lift (SkillImprovementWork_check (new_work id skill_id IW_CANDIDATE_GENERATION (Some (ip_id p)) t)) ;;
            work_add_if_active_absent work ;;;
            commit ;;;
            ret true
        | None =>
            if cooling_down t policy then ret false else
            usage <- usage_list_for_skill skill_id (Z.to_nat (sp_evidence_window_size policy)) ;;
            feedback <- feedback_of skill_id usage ;;
            proposals <- proposals_list_for_skill skill_id ;;
            if (len usage <? sp_minimum_usage_records policy)
               || (count (fun x => bool_decide (ur_outcome x = UFAILED)) usage <? sp_minimum_failures policy)
               || (count (fun x => match fb_rating x with FR_HARMFUL => true | _ => false end) feedback
                   <? sp_minimum_harmful_feedback policy)
               || (sp_max_open_proposals policy <=? count (fun p => policy_open (ip_status p)) proposals)
            then ret false else
            id <- new_id ;;
            work <- lift (SkillImprovementWork_check (new_work id skill_id IW_EVIDENCE_SELECTION None t)) ;;
            work_add_if_active_absent work ;;;
            commit ;;;
            ret true
        end
    end).
Definition MarkSkillImprovementPolicyTriggered (skill_id : SkillId) : U unit :=
  with_uow (
    policy <- improvement_policies_get skill_id ;;
    match policy with
    | None => ret tt
    | Some policy =>
        t <- now ;;
        stamped <- lift (SkillImprovementPolicy_check (stamp_policy (sp_created_at policy) t (Some t) policy)) ;;
        improvement_policies_save stamped ;;;
        commit
    end).

(** ** The maintenance tick ([EvaluateDueSkillImprovementPolicies]) *)
Definition LEASE_DURATION : Z := 300 * 1000000.
Definition claim_improvement_work (worker : str) (skill_id : SkillId) : U (option SkillImprovementWork) :=
  with_uow (
    t <- now ;;
    token <- uuid4_hex ;;
    work <- work_claim_for_skill skill_id worker token t (t + LEASE_DURATION) ;;
    commit ;;;
    ret work).
(** [replace(current, state=..., ...)]; two states give the claim up. *)
Definition advanced (state : SkillImprovementWorkState) (proposal : option SkillImprovementProposalId) (t : Z)
    (x : SkillImprovementWork) : SkillImprovementWork :=
  let gives_up := bool_decide (state ∈ [IW_READY_FOR_REVIEW; IW_FAILED]) in
  mkWork (iw_id x) (iw_skill_id x) state (match proposal with Some p => Some p | None => iw_proposal_id x end)
    (iw_attempt_count x + 1) (iw_next_attempt_at x) (if gives_up then None else iw_claimed_by x)
    (if gives_up then None else iw_claim_token x) (iw_claim_generation x)
    (if gives_up then None else iw_lease_expires_at x) (iw_failure_code x) (iw_failure_detail x) (iw_created_at x) t.
Definition advance_work (worker : str) (work : SkillImprovementWork) (state : SkillImprovementWorkState)
    (proposal : option SkillImprovementProposalId) : U unit :=
  with_uow (
    current <- work_get (iw_id work) ;;
    match current with
    | None => ret tt
    | Some current =>
        t <- now ;;
        claimed <- lift (SkillImprovementWork_check (advanced state proposal t current)) ;;
        token <- need (iw_claim_token work) AssertionError ;;
        t' <- now ;;
        saved <- work_save_if_claimed claimed worker token (iw_claim_generation work) t' ;;
        raise_if (negb saved) (EntityConflict "improvement work claim was lost") ;;;
        commit
    end).
Definition failed_work (next updated : Z) (x : SkillImprovementWork) : SkillImprovementWork :=
  mkWork (iw_id x) (iw_skill_id x) IW_FAILED (iw_proposal_id x) (iw_attempt_count x + 1) next None None
    (iw_claim_generation x) None (Some (u "work_failed")) (Some (u "improvement work did not complete"))
    (iw_created_at x) updated.
Definition fail_work (worker : str) (skill_id : SkillId) : U unit :=
  with_uow (
    work <- work_get_active_for_skill skill_id ;;
    match work with
    | None => ret tt
    | Some work =>
        t <- now ;;
        t' <- now ;;
        failed <- lift (SkillImprovementWork_check
          (failed_work (t + Z.min 3600 (2 ^ Z.min (iw_attempt_count work) 10) * 1000000) t' work)) ;;
        (if not_none (iw_claimed_by work) then
           t'' <- now ;;
           work_save_if_claimed failed worker (default [] (iw_claim_token work)) (iw_claim_generation work) t'' ;;;
           ret tt
         else work_save failed) ;;;
        commit
    end).
Definition complete_work_and_trigger (worker : str) (work : SkillImprovementWork) (skill_id : SkillId)
    (proposal_id : SkillImprovementProposalId) : U unit :=
  with_uow (
    policy <- improvement_policies_get skill_id ;;
    current <- work_get (iw_id work) ;;
    let missing := EntityConflict "improvement work completion inputs disappeared" in
    policy <- need policy missing ;;
    current <- need current missing ;;
    t <- now ;;
    ready <- lift (SkillImprovementWork_check (advanced IW_READY_FOR_REVIEW (Some proposal_id) t current)) ;;
    token <- need (iw_claim_token work) AssertionError ;;
    t' <- now ;;
    saved <- work_save_if_claimed ready worker token (iw_claim_generation work) t' ;;
    raise_if (negb saved) (EntityConflict "improvement work claim was lost") ;;;
    triggered <- now ;;
    updated <- now ;;
    stamped <- lift (SkillImprovementPolicy_check (stamp_policy (sp_created_at policy) updated (Some triggered) policy)) ;;
    improvement_policies_save stamped ;;;
    commit).

(** The evidence a policy selects: the recent runs of the active revision *)
Definition usage_evidence (x : SkillUsageRecord) : json :=
  JDict [(u "id", JStr (u "usage:" ++ value (ur_id x))); (u "skill_id", JStr (value (ur_skill_id x)));
         (u "revision_id", JStr (value (ur_revision_id x))); (u "run_id", JStr (value (ur_run_id x)));
         (u "outcome", str_of (usage_outcome_value (ur_outcome x))); (u "failure_code", opt_str_json (ur_failure_code x));
         (u "tool_call_count", JInt (ur_tool_call_count x)); (u "approval_count", JInt (ur_approval_count x));
         (u "duration_ms", opt_int_json (ur_duration_ms x))].
Definition feedback_evidence (x : SkillRunFeedback) : json :=
  JDict [(u "id", JStr (u "feedback:" ++ value (fb_id x))); (u "skill_id", JStr (value (fb_skill_id x)));
         (u "revision_id", JStr (value (fb_revision_id x))); (u "run_id", JStr (value (fb_run_id x)));
         (u "rating", str_of (feedback_rating_value (fb_rating x))); (u "note", JStr (fb_note x))].
Definition select_evidence (skill_id : SkillId) : U (json * SkillRevision * str) :=
  with_uow (
    policy <- improvement_policies_get skill_id ;;
    skill <- skills_get skill_id ;;
    let inactive := EntityConflict "due policy requires an active skill revision" in
    policy <- need policy inactive ;;
    skill <- need skill inactive ;;
    active <- need (sk_active_revision_id skill) inactive ;;
    base <- skill_revisions_get active ;;
    base <- need base (EntityConflict "active skill revision was not found") ;;
    usage <- usage_list_for_skill skill_id (Z.to_nat (sp_evidence_window_size policy)) ;;
    let usage := List.filter (fun x => id_eqb (ur_revision_id x) (kr_id base)) usage in
    feedback <- feedback_of skill_id usage ;;
    let feedback := List.filter (fun x => id_eqb (fb_revision_id x) (kr_id base)) feedback in
    ret (JDict [(u "usage", JList (map usage_evidence usage)); (u "feedback", JList (map feedback_evidence feedback))],
         base, sp_generator_version policy)).
Definition generate_one (generate_candidate : CandidateGenerationRequest -> res str) (skill_id : SkillId)
    : U SkillImprovementProposal :=
  selected <- select_evidence skill_id ;;
  let '(evidence, base, generator_version) := selected in
  snapshot <- CreateSkillEvidenceSnapshot skill_id (kr_id base) (to_py evidence) ;;
  GenerateSkillImprovementProposal generate_candidate skill_id (kr_id base) (u "policy") (es_id snapshot)
    (es_content_sha256 snapshot) generator_version (kr_instructions base).
Definition evaluate_one (adapter : str) (answer : BrainOnlyEvaluationRequest -> res (list (str * str)) * list (str * json))
    (worker : str) (skill_id : SkillId) (proposal_id : SkillImprovementProposalId) (work : SkillImprovementWork) : U unit :=
  input <- with_uow (
    policy <- improvement_policies_get skill_id ;;
    proposal <- proposals_get proposal_id ;;
    let missing := EntityConflict "proposal evaluation inputs disappeared" in
    policy <- need policy missing ;;
    proposal <- need proposal missing ;;
    ret (policy, ip_base_revision_id proposal)) ;;
  let '(policy, base_revision_id) := input in
  let run revision proposal :=
    RunBrainOnlySkillEvaluation [] adapter answer (sp_evaluation_suite_id policy) revision proposal
      CANONICAL_BRAIN_EVALUATOR_VERSION in
  advance_work worker work IW_BASELINE_EVALUATION (Some proposal_id) ;;;
  baseline <- run (Some base_revision_id) None ;;
  advance_work worker work IW_CANDIDATE_EVALUATION (Some proposal_id) ;;;
  candidate <- run None (Some proposal_id) ;;
  advance_work worker work IW_COMPARISON (Some proposal_id) ;;;
  CompareSkillImprovementProposal [] proposal_id (er_id baseline) None (Some (er_id candidate))
    (sp_comparison_policy_version policy) ;;;
  ret tt.

(** One due skill: [true] when it was taken to a comparison *)
Definition improve_skill (generate_candidate : CandidateGenerationRequest -> res str) (adapter : str)
    (answer : BrainOnlyEvaluationRequest -> res (list (str * str)) * list (str * json)) (worker : str)
    (skill_id : SkillId) : U bool :=
  due <- RunSkillImprovementPolicyNow skill_id ;;
  if negb due then ret false else
  work <- claim_improvement_work worker skill_id ;;
  match work with
  | None => ret false
  | Some work =>
      resumable <- with_uow (resumable_proposal skill_id) ;;
      proposal <- match resumable with
        | None =>
            advance_work worker work IW_CANDIDATE_GENERATION None ;;;
            generate_one generate_candidate skill_id
        | Some p => advance_work worker work IW_CANDIDATE_GENERATION (Some (ip_id p)) ;;; ret p
        end ;;
      evaluate_one adapter answer worker skill_id (ip_id proposal) work ;;;
      complete_work_and_trigger worker work skill_id (ip_id proposal) ;;;
      ret true
  end.
(** [except (ApplicationError, ValueError)]: not a domain error *)
Definition caught_by_tick (is_application_error : exn -> bool) (e : exn) : bool :=
  is_application_error e || catches_value_error e.
Fixpoint improve_skills (is_application_error : exn -> bool) (one : SkillId -> U bool) (worker : str) (batch : Z)
    (completed : Z) (skills : list SkillId) : U Z :=
  match skills with
  | [] => ret completed
  | s :: skills' =>
      if batch <=? completed then ret completed else
      done_ <- try_except (one s) (fun e =>
        if caught_by_tick is_application_error e then Some (fail_work worker s ;;; ret false) else None) ;;
      improve_skills is_application_error one worker batch (if done_ : bool then completed + 1 else completed) skills'
  end.
(** [execute] with both brains configured; without them it returns before anything is
    written. *)
Definition EvaluateDueSkillImprovementPolicies (is_application_error : exn -> bool)
    (generate_candidate : CandidateGenerationRequest -> res str) (adapter : str)
    (answer : BrainOnlyEvaluationRequest -> res (list (str * str)) * list (str * json)) (worker : str) (batch : Z) : U Z :=
  skills <- with_uow (
    t <- now ;;
    policies <- improvement_policies_list_due_enabled t (Z.to_nat (Z.max (batch * 10) 100)) ;;
    ret (map sp_skill_id policies)) ;;
  improve_skills is_application_error (improve_skill generate_candidate adapter answer worker) worker batch 0 skills.
End SkillImprovement.
