(* ===== verification/ConversationUseCases.v ===== *)
(** * Conversation use cases

    [src/friday/application/submit_conversation_turn.py],
    [conversation_lifecycle.py] and [ConversationContextAssembler] of
    [conversation_context.py]: a submitted turn becomes one task and one queued
    run, once per client turn id. *)

From S2P Require Import Prelude Values RunEntity TaskEntity StepEntity ToolEntity ApprovalEntity.
From S2P Require Import EventEntity ScheduleEntity Canonical PyText DelegationEntity WorkQueue AgentEntity.
From S2P Require Import WorkflowExecutionEntity SkillEntity ConversationEntity Tables Store WorkflowStore SkillStore.
From S2P Require Import Lifecycle RunUseCases TaskUseCases RuntimeContext.

Open Scope Z_scope.

Definition CONVERSATION_TASK_TITLE_CHARS : Z := 120.
Definition ConversationNotFound : exn := OtherError "ConversationNotFound".
Definition ConversationTurnNotFound : exn := OtherError "ConversationTurnNotFound".

Definition title_for (input_text : str) : str :=
  let collapsed := join (u " ") (split_words input_text) in
  if len collapsed <=? CONVERSATION_TASK_TITLE_CHARS then collapsed
  else rstrip (slice_to (CONVERSATION_TASK_TITLE_CHARS - 1) collapsed) ++ [8230].

Record SubmitConversationTurnCommand : Type := mkSubmit {
  sub_conversation_id : ConversationId; sub_client_turn_id : str; sub_input_text : str;
  sub_input_mode : ConversationInputMode; sub_recognition_language : option str }.
Record SubmitConversationTurnResult : Type := mkSubmitted {
  sub_conversation : ConversationId; sub_turn_id : ConversationTurnId; sub_task_id : TaskId;
  sub_run_id : RunId; sub_deduplicated : bool }.
Definition submit_result (turn : ConversationTurn) (deduplicated : bool) : SubmitConversationTurnResult :=
  mkSubmitted (ct_conversation_id turn) (ct_id turn) (ct_task_id turn) (ct_run_id turn) deduplicated.

Section ConversationUseCases.
Context `{Env}.

(** ** [SubmitConversationTurn] *)
Definition assert_same_payload (turn : ConversationTurn) (c : SubmitConversationTurnCommand) : U unit :=
  canonical <- lift (ConversationTurn_new (ct_id turn) (sub_conversation_id c) (strip (sub_client_turn_id c))
                       (sub_input_text c) (sub_input_mode c) (sub_recognition_language c) (ct_task_id turn)
                       (ct_run_id turn) (utc (ct_created_at turn))) ;;
  raise_if (negb (bool_decide ((ct_input_text turn, ct_input_mode turn, ct_recognition_language turn)
                               = (ct_input_text canonical, ct_input_mode canonical,
                                  ct_recognition_language canonical))))
    (EntityConflict "client_turn_id is already bound to a different payload").

Definition materialize_turn (c : SubmitConversationTurnCommand) : U SubmitConversationTurnResult :=
  let client_turn_id := strip (sub_client_turn_id c) in
  with_uow (
    conversation <- conversations_get (sub_conversation_id c) ;;
    conversation <- need conversation ConversationNotFound ;;
    existing <- turns_get_by_client_turn_id (sub_conversation_id c) client_turn_id ;;
    match existing with
    | Some turn => assert_same_payload turn c ;;; ret (submit_result turn true)
    | None =>
        t <- now ;;
        tid <- new_id ;;
        task <- lift (Task_new tid (title_for (sub_input_text c)) (sub_input_text c) (utc t)) ;;
        tasks_add task ;;;
        started <- start_run_in_uow task t ;;
        cid <- new_id ;;
        turn <- lift (ConversationTurn_new cid (sub_conversation_id c) client_turn_id (sub_input_text c)
                        (sub_input_mode c) (sub_recognition_language c) started.1 started.2 (utc t)) ;;
        turns_add turn ;;;
        let* (conversation', _) := call (cv_touch (utc t)) conversation in
        conversations_save conversation' ;;;
        commit ;;;
        ret (submit_result turn false)
    end).

(** [_existing] *)
Definition existing_turn (c : SubmitConversationTurnCommand) : U (option SubmitConversationTurnResult) :=
  turn <- with_uow (turns_get_by_client_turn_id (sub_conversation_id c) (strip (sub_client_turn_id c))) ;;
  match turn with
  | None => ret None
  | Some turn => assert_same_payload turn c ;;; ret (Some (submit_result turn true))
  end.

Definition SubmitConversationTurn (c : SubmitConversationTurnCommand) : U SubmitConversationTurnResult :=
  try_except (materialize_turn c) (fun e =>
    if is_entity_conflict e then
      Some (replay <- existing_turn c ;;
            match replay with Some r => ret r | None => raise e end)
    else None).

(** ** [conversation_lifecycle.py] *)
Definition ConversationResult : Type := ConversationId * Z * Z.
Definition conversation_result (x : Conversation) : ConversationResult :=
  (cv_id x, cv_created_at x, cv_updated_at x).
(** A turn's result has the fields of the turn. *)
Definition conversation_turn_result (x : ConversationTurn) : ConversationTurn := x.

Definition CreateConversation : U ConversationResult :=
  cid <- new_id ;;
  t <- now ;;
  conversation <- lift (Conversation_new cid (utc t)) ;;
  with_uow (conversations_add conversation ;;; commit) ;;;
  ret (conversation_result conversation).
Definition GetConversation (id : ConversationId) : U ConversationResult :=
  conversation <- with_uow (conversations_get id) ;;
  conversation <- need conversation ConversationNotFound ;;
  ret (conversation_result conversation).
Definition turns_page (id : ConversationId) (limit : nat) (after_created_at : option Z) (after_id : option str)
    : U (list ConversationTurn) :=
  turns <- with_uow (
    conversation <- conversations_get id ;;
    need conversation ConversationNotFound ;;;
    turns_list_for_conversation_page id limit after_created_at after_id) ;;
  ret (map conversation_turn_result turns).
Definition recent_turns_page (id : ConversationId) (limit : nat) (before_created_at : option Z)
    (before_id : option str) : U (list ConversationTurn) :=
  turns <- with_uow (
    conversation <- conversations_get id ;;
    need conversation ConversationNotFound ;;;
    turns_list_recent_before id before_created_at before_id limit) ;;
  ret (map conversation_turn_result turns).
Definition GetConversationTurn (id : ConversationTurnId) : U ConversationTurn :=
  turn <- with_uow (turns_get id) ;;
  turn <- need turn ConversationTurnNotFound ;;
  ret (conversation_turn_result turn).

(** ** [ConversationContextAssembler] *)
Record Assembler : Type := mkAssembler { as_max_turns : Z; as_max_chars : Z; as_max_message_chars : Z }.
Definition Assembler_new (max_turns max_chars max_message_chars : Z) : res Assembler :=
  if Z.min max_turns (Z.min max_chars max_message_chars) <? 1
  then Raise (ValueError "conversation context bounds must be positive")
  else Ok (mkAssembler max_turns max_chars max_message_chars).

Definition resolve_effective_run_id (turn : ConversationTurn) : U RunId :=
  run <- runs_get (ct_run_id turn) ;;
  match run with
  | None => ret (ct_run_id turn)
  | Some r =>
      if run_terminal (run_status r) then
        latest <- runs_get_latest_for_execution (run_execution_id r) ;;
        ret (match latest with Some l => run_id l | None => ct_run_id turn end)
      else ret (ct_run_id turn)
  end.
Definition summary_of (event : option RunEvent) : option str :=
  match event with
  | Some e => match ev_payload e with
              | JDict p => match dict_get (u "summary") p with
                           | Some (JStr s) => if empty_str (strip s) then None else Some s
                           | _ => None
                           end
              | _ => None
              end
  | None => None
  end.
Fixpoint messages_for (a : Assembler) (turns : list ConversationTurn) : U (list ConversationMessage) :=
  match turns with
  | [] => ret []
  | turn :: turns' =>
      effective <- resolve_effective_run_id turn ;;
      event <- events_latest_of_type_for_run effective AGENT_FINISHED ;;
      rest <- messages_for a turns' ;;
      ret (mkMessage CR_USER (clip_collapsed (ct_input_text turn) (as_max_message_chars a))
           :: match summary_of event with
              | Some s => [mkMessage CR_FRIDAY (clip_collapsed s (as_max_message_chars a))]
              | None => []
              end ++ rest)
  end.
Definition message_chars (messages : list ConversationMessage) : Z :=
  foldr Z.add 0 (map (fun m => len (cm_text m)) messages).
(** [while sum(...) > max_chars and messages] *)
Fixpoint drop_exchanges (max_chars : Z) (messages : list ConversationMessage) (dropped : Z)
    : list ConversationMessage * Z :=
  match messages with
  | [] => ([], dropped)
  | _ :: rest =>
      if message_chars messages >? max_chars then
        match rest with
        | mkMessage CR_FRIDAY _ :: rest' => drop_exchanges max_chars rest' (dropped + 1)
        | _ => drop_exchanges max_chars rest (dropped + 1)
        end
      else (messages, dropped)
  end.
Definition EMPTY_CONVERSATION_CONTEXT : ConversationContext := mkConversationContext [] 0.
Definition assemble (a : Assembler) (r : RunId) : U ConversationContext :=
  window <- with_uow (
    current <- turns_get_by_run r ;;
    current <- match current with
               | Some c => ret (Some c)
               | None =>
                   run <- runs_get r ;;
                   match run with
                   | Some x => turns_get_by_run (run_execution_id x)
                   | None => ret None
                   end
               end ;;
    match current with
    | None => ret None
    | Some c =>
        window <- turns_list_recent_before (ct_conversation_id c) (Some (ct_created_at c)) (Some (value (ct_id c)))
                    (Z.to_nat (as_max_turns a + 1)) ;;
        let dropped := Z.max 0 (Z.of_nat (length window) - as_max_turns a) in
        messages <- messages_for a (drop (Z.to_nat dropped) window) ;;
        ret (Some (messages, dropped))
    end) ;;
  ret (match window with
       | None => EMPTY_CONVERSATION_CONTEXT
       | Some (messages, dropped) =>
           let '(messages, dropped) := drop_exchanges (as_max_chars a) messages dropped in
           mkConversationContext messages dropped
       end).
End ConversationUseCases.

Lemma title_for_bounded s : len (title_for s) <= CONVERSATION_TASK_TITLE_CHARS.
Proof.
  unfold title_for, CONVERSATION_TASK_TITLE_CHARS. destruct (_ <=? _) eqn:E; [lia|].
  rewrite len_app. change (len [8230]) with 1.
  destruct (rstrip_prefix (slice_to (120 - 1) (join (u " ") (split_words s)))) as (p & Hp & _).
  pose proof (slice_to_le (120 - 1) (join (u " ") (split_words s))) as Hl. rewrite Hp, len_app in Hl.
  pose proof (len_nonneg p). lia.
Qed.
(** Whatever is dropped, what is left fits. *)
Lemma drop_exchanges_fit m l n : 0 <= m -> message_chars (drop_exchanges m l n).1 <= m.
Proof.
  intros Hm. enough (Hk : forall k l n, (length l <= k)%nat -> message_chars (drop_exchanges m l n).1 <= m)
    by (by apply (Hk (length l))).
  clear l n. induction k as [|k IH]; intros [|x rest] n Hl; cbn [length drop_exchanges fst] in *; try done; [lia|].
  destruct (_ >? m) eqn:E; [|cbn [fst]; lia]. destruct rest as [|[[] t] rest']; cbn [length] in *; apply IH; cbn [length]; lia.
Qed.
