(* ===== verification/WorkflowUseCases.v ===== *)
(** * Workflow registry

    [src/friday/application/workflow_registry.py]: creating workflows and
    their immutable revisions, activating, disabling and archiving. *)

From S2P Require Import Prelude Values RunEntity Canonical WorkQueue AgentEntity WorkflowGraph.
From S2P Require Import WorkflowEntity WorkflowExecutionEntity SkillEntity ConversationEntity Tables Codec Store WorkflowStore.
From S2P Require Import AgentUseCases.

Open Scope Z_scope.

Record WorkflowNodeInput : Type := mkNodeInput {
  ni_node_key : str; ni_target_agent_id : str; ni_objective : str; ni_input_payload : pyval;
  ni_expected_output_contract : str }.
Record WorkflowEdgeInput : Type := mkEdgeInput { ei_from_node : str; ei_to_node : str }.

Definition WorkflowNotFound : exn := OtherError "WorkflowNotFound".
Definition WorkflowRevisionNotFound : exn := OtherError "WorkflowRevisionNotFound".

Section WorkflowUseCases.
Context `{Env} `{Digest}.

Definition CreateWorkflow (key display_name description : str) : U Workflow :=
  wid <- new_id ;;
  t <- now ;;
  workflow <- lift (Workflow_new wid key display_name description (utc t)) ;;
  with_uow (workflows_add workflow ;;; commit) ;;;
  ret workflow.

Definition need_workflow (id : WorkflowId) : U Workflow :=
  w <- workflows_get id ;; need w WorkflowNotFound.

(** [for item in nodes]: the values and [by_key], in which a later node
    replaces an earlier one with its key *)
Fixpoint make_nodes (revision_id : WorkflowRevisionId) (items : list WorkflowNodeInput)
    : U (list WorkflowNode) :=
  match items with
  | [] => ret []
  | item :: items' =>
      agent_id <- lift (id_parse (ni_target_agent_id item)) ;;
      agent <- agents_get agent_id ;;
      raise_if (negb (not_none agent)) (EntityConflict "workflow target agent not found") ;;;
      nid <- new_id ;;
      t <- now ;;
      node <- lift (WorkflowNode_new nid revision_id (ni_node_key item) agent_id (ni_objective item)
                      (ni_input_payload item) (ni_expected_output_contract item) (utc t)) ;;
      rest <- make_nodes revision_id items' ;;
      ret (node :: rest)
  end.
Definition by_key_of (nodes : list WorkflowNode) : gmap str WorkflowNode :=
  foldl (fun m n => <[wn_node_key n := n]> m) ∅ nodes.

Fixpoint make_edges (revision_id : WorkflowRevisionId) (by_key : gmap str WorkflowNode)
    (items : list WorkflowEdgeInput) : U (list WorkflowEdge) :=
  match items with
  | [] => ret []
  | item :: items' =>
      eid <- new_id ;;
      from <- lift (getitem by_key (ei_from_node item)) ;;
      to <- lift (getitem by_key (ei_to_node item)) ;;
      t <- now ;;
      edge <- lift (WorkflowEdge_new eid revision_id (wn_id from) (wn_id to) (utc t)) ;;
      rest <- make_edges revision_id by_key items' ;;
      ret (edge :: rest)
  end.

Definition CreateWorkflowRevision (id : WorkflowId) (nodes : list WorkflowNodeInput)
    (edges : list WorkflowEdgeInput) (source_kind : WorkflowRevisionSourceKind) : U WorkflowRevision :=
  with_uow (
    workflow <- need_workflow id ;;
    raise_if (bool_decide (wf_status workflow = WARCHIVED))
      (EntityConflict "archived workflow cannot receive revisions") ;;;
    rid <- new_id ;;
    node_values <- make_nodes rid nodes ;;
    let by_key := by_key_of node_values in
    raise_if (existsb (fun e => negb (not_none (by_key !! ei_from_node e))
                                || negb (not_none (by_key !! ei_to_node e))) edges)
      (DomainValidationError "WorkflowEdge endpoint does not belong to revision") ;;;
    edge_values <- make_edges rid by_key edges ;;
    version <- workflow_revisions_next_version id ;;
    t <- now ;;
    revision <- lift (WorkflowRevision_new rid id version node_values edge_values source_kind (utc t)) ;;
    workflow_revisions_add revision ;;;
    commit ;;;
    ret revision).

(** Running a method of the aggregate, its [InvalidStateTransition] reported as
    a conflict *)
Definition change_or_conflict (m : M Workflow unit) (workflow : Workflow) : U (Workflow * unit) :=
  try_except (call m workflow) (fun e => option_map raise (transition_conflict e)).

Definition ActivateWorkflowRevision (id : WorkflowId) (revision_id : WorkflowRevisionId) : U Workflow :=
  with_uow (
    workflow <- need_workflow id ;;
    revision <- workflow_revisions_get revision_id ;;
    revision <- need revision WorkflowRevisionNotFound ;;
    t <- now ;;
    let* (workflow', _) := change_or_conflict (wf_activate revision (utc t)) workflow in
    workflows_save workflow' ;;;
    commit ;;;
    ret workflow').

(** [_WorkflowLifecycle._change] *)
Definition change_workflow (id : WorkflowId) (action : datetime -> M Workflow unit) : U Workflow :=
  with_uow (
    workflow <- need_workflow id ;;
    t <- now ;;
    let* (workflow', _) := change_or_conflict (action (utc t)) workflow in
    workflows_save workflow' ;;;
    commit ;;;
    ret workflow').
Definition DisableWorkflow (id : WorkflowId) : U Workflow := change_workflow id wf_disable.
Definition ArchiveWorkflow (id : WorkflowId) : U Workflow := change_workflow id wf_archive.

Definition GetWorkflow (id : WorkflowId) : U Workflow := with_uow (need_workflow id).
Definition ListWorkflowRevisions (id : WorkflowId) : U (list WorkflowRevision) :=
  with_uow (need_workflow id ;;; workflow_revisions_list_for_workflow id).
Definition ListWorkflows (limit : nat) : U (list Workflow) := with_uow (workflows_list limit).
End WorkflowUseCases.
