(* ===== verification/WorkflowEngine.v ===== *)
(** * The workflow engine

    [src/friday/application/workflow_execution_use_cases.py] and
    [workflow_context.py]: binding tasks to workflows, freezing a run to one
    revision, starting an execution under the root run's claim, and advancing
    it after its children's outcomes.

    A Python dictionary of node executions is its list of keys in insertion
    order ([order]) and a finite map ([nxs]).  The scheduler's [while True] loop
    takes fuel; one unit per node and one more is enough
    ([WorkflowProgress.scheduling_terminates]). *)

From S2P Require Import Prelude Values RunEntity TaskEntity EventEntity Canonical WorkQueue AgentEntity.
From S2P Require Import WorkflowGraph WorkflowEntity WorkflowExecutionEntity SkillEntity ConversationEntity Tables Store.
From S2P Require Import WorkflowStore Lifecycle RunUseCases TaskUseCases AgentUseCases.
From S2P Require Import WorkflowUseCases.

Open Scope Z_scope.

(** Node executions by the node they execute *)
Abbreviation Nodes := (gmap WorkflowNodeId WorkflowNodeExecution).

Definition WorkflowIntegrityError : exn := OtherError "WorkflowIntegrityError".
Definition WorkflowExecutionError : exn := OtherError "WorkflowExecutionError".

Definition MAX_WORKFLOW_CONTEXT_CHARS : Z := 6000.
Definition MAX_WORKFLOW_PREDECESSOR_RESULT_CHARS : Z := 2000.

Definition join_lines (lines : list str) : str := join [10] lines.

(** [d[k]] for every [k] of a list *)
Fixpoint getitems {K V} `{Countable K} (d : gmap K V) (ks : list K) : res (list V) :=
  match ks with
  | [] => Ok []
  | k :: ks' => res_bind (getitem d k) (fun v => res_bind (getitems d ks') (fun vs => Ok (v :: vs)))
  end.
(** [{item.key: item for item in l}] *)
Definition dict_by {K V} `{Countable K} (key : V -> K) (l : list V) : gmap K V :=
  foldl (fun m v => <[key v := v]> m) ∅ l.

Section Context_.
Context `{Env} `{Digest}.

(** [next(node for node in nodes if node.id == id)] *)
Definition node_with_id (nodes : list WorkflowNode) (id : WorkflowNodeId) : option WorkflowNode :=
  List.find (fun n => id_eqb (wn_id n) id) nodes.
Definition node_key_of (nodes : list WorkflowNode) (id : WorkflowNodeId) : str :=
  match node_with_id nodes id with Some n => wn_node_key n | None => [] end.
Definition predecessors_of (edges : list WorkflowEdge) (id : WorkflowNodeId) : list WorkflowNodeId :=
  map we_from_node_id (List.filter (fun e => id_eqb (we_to_node_id e) id) edges).

(** The lines of the predecessors of a node *)
Fixpoint predecessor_lines (nodes : list WorkflowNode)
    (all_nodes : gmap WorkflowNodeId WorkflowNodeExecution) (ids : list WorkflowNodeId) : res (list str) :=
  match ids with
  | [] => Ok []
  | id :: ids' =>
      let unavailable := Raise (ValueError "workflow_predecessor_context_unavailable") in
      match all_nodes !! id with
      | None => unavailable
      | Some p =>
          if negb (bool_decide (nx_status p = NSUCCEEDED)) || json_eqb (nx_result_payload p) JNull
          then unavailable
          else
            let result := json_dumps true (nx_result_payload p) in
            if len result >? MAX_WORKFLOW_PREDECESSOR_RESULT_CHARS
            then Raise (WorkflowNodeContextTooLarge
                          "a predecessor result exceeds the durable workflow context bound")
            else
              res_bind (predecessor_lines nodes all_nodes ids') (fun rest =>
              Ok ((u "- " ++ node_key_of nodes id ++ u ": " ++ result) :: rest))
      end
  end.

Definition build_workflow_node_context (nx : WorkflowNodeExecution) : U str :=
  execution <- executions_get (nx_workflow_execution_id nx) ;;
  execution <- need execution (ValueError "workflow_execution_context_missing") ;;
  revision <- workflow_revisions_get (wx_workflow_revision_id execution) ;;
  workflow <- workflows_get (wx_workflow_id execution) ;;
  revision <- need revision (ValueError "workflow_execution_context_invalid") ;;
  workflow <- need workflow (ValueError "workflow_execution_context_invalid") ;;
  raise_if (negb (id_eqb (wr_workflow_id revision) (wf_id workflow)))
    (ValueError "workflow_execution_context_invalid") ;;;
  definition <- need (node_with_id (wr_nodes revision) (nx_workflow_node_id nx))
                  (ValueError "workflow_node_context_invalid") ;;
  raise_if (negb (bool_decide (wn_node_key definition = nx_node_key nx)))
    (ValueError "workflow_node_context_invalid") ;;;
  let head :=
    [u "# WORKFLOW NODE";
     u "workflow_key: " ++ wf_key workflow;
     u "workflow_revision_version: " ++ int_repr (wr_version revision);
     u "workflow_revision_sha256: " ++ wx_workflow_content_sha256 execution;
     u "node_key: " ++ wn_node_key definition;
     u "objective: " ++ wn_objective definition;
     u "input_payload: " ++ json_dumps true (wn_input_payload definition);
     u "expected_output_contract: " ++ wn_expected_output_contract definition] in
  let predecessors := order_by (node_key_of (wr_nodes revision))
                        (predecessors_of (wr_edges revision) (wn_id definition)) in
  lines <-
    match predecessors with
    | [] => ret head
    | _ =>
        nodes <- node_executions_list_by_execution (wx_id execution) ;;
        rest <- lift (predecessor_lines (wr_nodes revision) (dict_by nx_workflow_node_id nodes) predecessors) ;;
        ret (head ++ [u "# WORKFLOW PREDECESSORS"] ++ rest)
    end ;;
  let rendered := join_lines lines in
  raise_if (len rendered >? MAX_WORKFLOW_CONTEXT_CHARS)
    (WorkflowNodeContextTooLarge "the aggregate workflow context exceeds the durable bound") ;;;
  ret rendered.
End Context_.

(** ** Integrity of a frozen revision *)
Section Integrity.
Context `{Env} `{Digest}.

(** [_workflow_digest] *)
Definition workflow_digest (r : WorkflowRevision) : res str :=
  res_bind (canonical_workflow_content (wr_nodes r) (wr_edges r)) (fun content =>
  res_bind (encode content) (fun bytes => Ok (sha256_hex bytes))).

(** [except (DomainValidationError, TypeError, ValueError)] *)
Definition as_integrity_error (e : exn) : exn :=
  match e with DomainValidationError _ => WorkflowIntegrityError
             | _ => if is_value_error e then WorkflowIntegrityError else e end.

(** [_validate_revision_integrity] *)
Definition validate_revision_integrity (workflow : Workflow) (r : WorkflowRevision) : res str :=
  if negb (id_eqb (wr_workflow_id r) (wf_id workflow)) then Raise WorkflowIntegrityError
  else
    match res_bind (validate_workflow_revision_ownership (wr_id r) (wr_nodes r) (wr_edges r)) (fun _ =>
          res_bind (validate_workflow_dag (wr_nodes r) (wr_edges r)) (fun _ => workflow_digest r)) with
    | Raise e => Raise (as_integrity_error e)
    | Ok digest => if negb (bool_decide (digest = wr_content_sha256 r))
                   then Raise WorkflowIntegrityError else Ok digest
    end.

(** [_load_active_revision] *)
Definition load_active_revision (id : WorkflowId) : U (Workflow * WorkflowRevision * str) :=
  workflow <- need_workflow id ;;
  raise_if (bool_decide (wf_status workflow = WARCHIVED)) WorkflowBindingError ;;;
  raise_if (negb (bool_decide (wf_status workflow = WACTIVE))) WorkflowBindingError ;;;
  revision_id <- need (wf_active_revision_id workflow) WorkflowBindingError ;;
  revision <- workflow_revisions_get revision_id ;;
  revision <- need revision WorkflowRevisionNotFound ;;
  digest <- lift (validate_revision_integrity workflow revision) ;;
  ret (workflow, revision, digest).

(** [_load_frozen_revision] *)
Definition load_frozen_revision (id : WorkflowId) (revision_id : WorkflowRevisionId) (expected_digest : str)
    : U (Workflow * WorkflowRevision) :=
  workflow <- need_workflow id ;;
  revision <- workflow_revisions_get revision_id ;;
  revision <- need revision WorkflowRevisionNotFound ;;
  digest <- lift (validate_revision_integrity workflow revision) ;;
  raise_if (negb (bool_decide (digest = expected_digest))
            || negb (bool_decide (wr_content_sha256 revision = expected_digest)))
    WorkflowIntegrityError ;;;
  ret (workflow, revision).

(** [_ensure_agent_snapshot] *)
Definition ensure_agent_snapshot (reg : BrainRuntimeRegistry) (node : WorkflowNode) : U AgentRevision :=
  agent <- agents_get (wn_target_agent_id node) ;;
  agent <- need agent WorkflowIntegrityError ;;
  raise_if (negb (bool_decide (ag_status agent = AG_ACTIVE))) WorkflowIntegrityError ;;;
  revision_id <- need (ag_active_revision_id agent) WorkflowIntegrityError ;;
  revision <- agent_revisions_get revision_id ;;
  revision <- need revision WorkflowIntegrityError ;;
  raise_if (negb (id_eqb (av_agent_id revision) (ag_id agent))) WorkflowIntegrityError ;;;
  digest <- match encode (canonical_revision_content (av_instructions revision) (av_runtime_kind revision)
                            (av_runtime_config revision)) with
            | Ok bytes => ret (sha256_hex bytes)
            | Raise _ => raise WorkflowIntegrityError end ;;
  raise_if (negb (bool_decide (av_content_sha256 revision = digest))) WorkflowIntegrityError ;;;
  raise_if (negb (is_registered reg (av_runtime_kind revision))) WorkflowIntegrityError ;;;
  match validate_runtime_config reg (av_runtime_kind revision) (to_py (av_runtime_config revision)) with
  | Ok _ => ret revision
  | Raise _ => raise WorkflowIntegrityError
  end.
End Integrity.

(** ** Persisting and reporting *)
Section Steps.
Context `{Env} `{Digest}.

(** [_persist_node], [_persist_execution] *)
Definition persist_node (n : WorkflowNodeExecution) : U unit :=
  node_executions_update_status (nx_id n) (nx_status n) (nx_child_task_id n) (nx_child_run_id n)
    (nx_child_execution_id n) (nx_result_payload n) (nx_failure_code n) (nx_failure_message n)
    (nx_started_at n) (nx_completed_at n).
Definition persist_execution (x : WorkflowExecution) : U unit :=
  executions_update_status (wx_id x) (wx_status x) (wx_completed_at x) (wx_failure_code x)
    (wx_failure_message x).

(** [payload.get("node_execution_id", payload.get("workflow_execution_id"))] *)
Definition event_marker (payload : list (str * json)) : option json :=
  match dict_get (u "node_execution_id") payload with
  | Some v => Some v
  | None => dict_get (u "workflow_execution_id") payload
  end.
Definition same_marker (type_ : RunEventType) (marker : json) (e : RunEvent) : bool :=
  bool_decide (ev_type e = type_) &&
  match ev_payload e with
  | JDict p => match event_marker p with Some m => json_eqb m marker | None => json_eqb JNull marker end
  | _ => false
  end.
(** [_emit_workflow_event]: at most one event of a type per marker *)
Definition emit_workflow_event (execution : WorkflowExecution) (type_ : RunEventType)
    (payload : list (str * json)) (t : Z) : U unit :=
  root_run <- runs_get (wx_root_run_id execution) ;;
  match root_run with
  | None => ret tt
  | Some root_run =>
      seen <- match event_marker payload with
              | None | Some JNull => ret false
              | Some marker =>
                  events <- events_list_for_run (run_id root_run) ;;
                  ret (existsb (same_marker type_ marker) events)
              end ;;
      if seen then ret tt else append_run_events root_run t [(type_, JDict payload, None)]
  end.

(** [_emit_node_event] *)
Definition emit_node_event (n : WorkflowNodeExecution) (type_ : RunEventType) (t : Z) : U unit :=
  execution <- executions_get (nx_workflow_execution_id n) ;;
  match execution with
  | None => ret tt
  | Some x =>
      emit_workflow_event x type_
        [(u "workflow_execution_id", JStr (value (wx_id x)));
         (u "node_execution_id", JStr (value (nx_id n))); (u "node_key", JStr (nx_node_key n))] t
  end.

(** [_root_workflow_result] *)
Definition root_workflow_result (execution : WorkflowExecution) (workflow : Workflow)
    (revision : WorkflowRevision) (nodes : list WorkflowNodeExecution) : list (str * json) :=
  let ordered := merge_sort (key2_le node_key2) nodes in
  [(u "workflow_execution_id", JStr (value (wx_id execution)));
   (u "workflow_id", JStr (value (wf_id workflow)));
   (u "workflow_key", JStr (wf_key workflow));
   (u "workflow_revision_id", JStr (value (wr_id revision)));
   (u "workflow_revision_version", JInt (wr_version revision));
   (u "workflow_revision_sha256", JStr (wx_workflow_content_sha256 execution));
   (u "nodes", JDict (map (fun n => (nx_node_key n, nx_result_payload n)) ordered))].

(** ** Scheduling *)

(** [_dispatch_node]: the node execution it leaves *)
Definition dispatch_node (nx : WorkflowNodeExecution) (node : WorkflowNode) (t : Z) : U WorkflowNodeExecution :=
  if negb (bool_decide (nx_status nx = NPENDING)) then ret nx else
  too_large <- try_except (build_workflow_node_context nx ;;; ret None)
                 (fun e => match e with WorkflowNodeContextTooLarge msg => Some (ret (Some msg)) | _ => None end) ;;
  match too_large with
  | Some msg =>
      let* (nx', _) := call (nx_block (utc t) (u "workflow_context_too_large") (u msg)) nx in
      persist_node nx' ;;;
      emit_node_event nx' WORKFLOW_NODE_BLOCKED t ;;;
      ret nx'
  | None =>
      tid <- new_id ;;
      child_task <- lift (Task_new tid (take 4000 (u "Workflow: " ++ wn_node_key node)) (wn_objective node) (utc t)) ;;
      tasks_add child_task ;;;
      task_agents_replace (task_id child_task)
        (Some (mkTaskAgent (task_id child_task) (nx_target_agent_id nx) t)) ;;;
      let* (_, child_run_id) := start_run_in_uow child_task t in
      child_run <- runs_get child_run_id ;;
      child_run <- need child_run WorkflowExecutionError ;;
      let* (nx', _) := call (nx_dispatch (task_id child_task) (run_id child_run) (run_execution_id child_run)
                               (utc t)) nx in
      persist_node nx' ;;;
      emit_node_event nx' WORKFLOW_NODE_DISPATCHED t ;;;
      ret nx'
  end.

(** [_predecessors] *)
Definition predecessors (edges : list WorkflowEdge) : gmap WorkflowNodeId (list WorkflowNodeId) :=
  foldl (fun m e =>
    let m := match m !! we_from_node_id e with Some _ => m | None => <[we_from_node_id e := []]> m end in
    <[we_to_node_id e := default [] (m !! we_to_node_id e) ++ [we_from_node_id e]]> m) ∅ edges.
Definition preds_of (preds : gmap WorkflowNodeId (list WorkflowNodeId)) (id : WorkflowNodeId) :=
  default [] (preds !! id).

Definition unsuccessful (s : WorkflowNodeExecutionStatus) : bool :=
  bool_decide (s ∈ [NFAILED; NCANCELLED; NBLOCKED]).
Definition succeeded (s : WorkflowNodeExecutionStatus) : bool := bool_decide (s = NSUCCEEDED).

Definition sort_ids (by_id : gmap WorkflowNodeId WorkflowNode) (ids : list WorkflowNodeId) : list WorkflowNodeId :=
  merge_sort (key2_le (fun id => (match by_id !! id with Some n => wn_node_key n | None => [] end, value id))) ids.

(** One iteration of the [for] loop of [_schedule_to_fixed_point] *)
Definition schedule_node (by_id : gmap WorkflowNodeId WorkflowNode)
    (preds : gmap WorkflowNodeId (list WorkflowNodeId)) (t : Z) (nxs : Nodes) (id : WorkflowNodeId)
    : U (Nodes * bool) :=
  nx <- lift (getitem nxs id) ;;
  if negb (bool_decide (nx_status nx = NPENDING)) then ret (nxs, false) else
  ps <- lift (getitems nxs (preds_of preds id)) ;;
  let statuses := map nx_status ps in
  if existsb unsuccessful statuses then
    let* (nx', _) := call (nx_block (utc t) (u "blocked_by_predecessor")
                             (u "A predecessor Workflow node did not succeed")) nx in
    persist_node nx' ;;;
    emit_node_event nx' WORKFLOW_NODE_BLOCKED t ;;;
    ret (<[id := nx']> nxs, true)
  else if forallb succeeded statuses then
    node <- lift (getitem by_id id) ;;
    nx' <- dispatch_node nx node t ;;
    ret (<[id := nx']> nxs, true)
  else ret (nxs, false).

(** The [for] loop *)
Fixpoint schedule_pass (by_id : gmap WorkflowNodeId WorkflowNode)
    (preds : gmap WorkflowNodeId (list WorkflowNodeId)) (t : Z) (ids : list WorkflowNodeId) (nxs : Nodes)
    : U (Nodes * bool) :=
  match ids with
  | [] => ret (nxs, false)
  | id :: ids' =>
      let* (nxs1, c1) := schedule_node by_id preds t nxs id in
      let* (nxs2, c2) := schedule_pass by_id preds t ids' nxs1 in
      ret (nxs2, c1 || c2)
  end.

(** The [while] loop; [None] when the fuel ran out *)
Fixpoint schedule_loop (fuel : nat) (by_id : gmap WorkflowNodeId WorkflowNode)
    (preds : gmap WorkflowNodeId (list WorkflowNodeId)) (t : Z) (order : list WorkflowNodeId) (nxs : Nodes)
    : U (option Nodes) :=
  match fuel with
  | O => ret None
  | S fuel' =>
      let* (nxs', changed) := schedule_pass by_id preds t (sort_ids by_id order) nxs in
      if changed then schedule_loop fuel' by_id preds t order nxs' else ret (Some nxs')
  end.

(** [_schedule_to_fixed_point] *)
Definition out_of_fuel : exn := OtherError "scheduling out of fuel".
Definition schedule_to_fixed_point (by_id : gmap WorkflowNodeId WorkflowNode)
    (preds : gmap WorkflowNodeId (list WorkflowNodeId)) (t : Z) (order : list WorkflowNodeId) (nxs : Nodes)
    : U Nodes :=
  result <- schedule_loop (S (length order)) by_id preds t order nxs ;;
  need result out_of_fuel.

(** [list(node_executions.values())] *)
Definition values_of (order : list WorkflowNodeId) (nxs : Nodes) : list WorkflowNodeExecution :=
  omap (fun id => nxs !! id) order.
End Steps.

(** ** Finishing *)
Section Finish.
Context `{Env} `{Digest}.

Definition nonempty_or (s : option str) (fallback : string) : str :=
  match s with Some (c :: s') => c :: s' | _ => u fallback end.
Definition node_in (s : WorkflowNodeExecutionStatus) (nodes : list WorkflowNodeExecution)
    : option WorkflowNodeExecution :=
  List.find (fun n => bool_decide (nx_status n = s)) nodes.

(** The three ways an execution whose nodes are all terminal, but not all
    successful, ends *)
Inductive Ending : Type := EndFailed (code message : str) | EndCancelled.
Definition ending (nodes : list WorkflowNodeExecution) : Ending :=
  match node_in NFAILED nodes, node_in NCANCELLED nodes with
  | Some n, _ => EndFailed (nonempty_or (nx_failure_code n) "workflow_node_failed")
                   (nonempty_or (nx_failure_message n) "A Workflow node failed")
  | None, Some _ => EndCancelled
  | None, None =>
      match node_in NBLOCKED nodes with
      | Some b =>
          if bool_decide (nx_failure_code b = Some (u "blocked_by_predecessor"))
          then EndFailed (u "workflow_node_blocked") (u "A Workflow node was blocked by a predecessor")
          else EndFailed (nonempty_or (nx_failure_code b) "workflow_node_blocked")
                 (nonempty_or (nx_failure_message b) "A Workflow node was blocked by a predecessor")
      | None => EndFailed (u "workflow_node_blocked") (u "A Workflow node was blocked by a predecessor")
      end
  end.

Definition failed_payload (x : WorkflowExecution) (code message : str) : list (str * json) :=
  [(u "workflow_execution_id", JStr (value (wx_id x))); (u "failure_code", JStr code);
   (u "failure_message", JStr message)].

(** The root run, if it still waits, takes the outcome and leaves the queue. *)
Definition close_root {A} (root_run : option Run) (argument : res A) (m : A -> M Run unit)
    (remover : RunId -> U unit) : U unit :=
  match root_run with
  | Some r =>
      if bool_decide (run_status r = RWAITING_FOR_WORKFLOW)
      then a <- lift argument ;;
           let* (r', _) := call (m a) r in
           runs_save r' ;;; remover (run_id r')
      else ret tt
  | None => ret tt
  end.

(** [_finish_if_terminal]: the execution it leaves *)
Definition finish_if_terminal (execution : WorkflowExecution) (nodes : list WorkflowNodeExecution)
    (t : Z) (remover : RunId -> U unit) : U WorkflowExecution :=
  if match nodes with [] => true | _ => false end || existsb (fun n => negb (nx_terminal (nx_status n))) nodes
  then ret execution else
  root_run <- runs_get (wx_root_run_id execution) ;;
  raise_if (match root_run with
            | Some r => bool_decide (run_status r = RWAITING_FOR_WORKFLOW)
                        && negb (opt_id_eqb (run_workflow_execution_id r) (wx_id execution))
            | None => false end) WorkflowIntegrityError ;;;
  if forallb (fun n => succeeded (nx_status n)) nodes then
    let* (workflow, revision) := load_frozen_revision (wx_workflow_id execution)
                                   (wx_workflow_revision_id execution)
                                   (wx_workflow_content_sha256 execution) in
    let result := root_workflow_result execution workflow revision nodes in
    let* (x, _) := call (wx_succeed (utc t)) execution in
    persist_execution x ;;;
    emit_workflow_event x WORKFLOW_EXECUTION_SUCCEEDED result t ;;;
    close_root root_run (Ok tt) (fun _ => run_succeed_workflow (utc t)) remover ;;;
    ret x
  else
    match ending nodes with
    | EndFailed code message =>
        let* (x, _) := call (wx_fail (utc t) code message) execution in
        persist_execution x ;;;
        emit_workflow_event x WORKFLOW_EXECUTION_FAILED (failed_payload x code message) t ;;;
        close_root root_run (Failure_new code message false FC_RUNTIME PyNone) (run_fail_workflow (utc t))
          remover ;;;
        ret x
    | EndCancelled =>
        let* (x, _) := call (wx_cancel (utc t) (Some (u "A Workflow node was cancelled"))) execution in
        persist_execution x ;;;
        emit_workflow_event x WORKFLOW_EXECUTION_FAILED
          (failed_payload x (u "workflow_node_cancelled") (u "A Workflow node was cancelled")) t ;;;
        close_root root_run (Ok tt) (fun _ => run_cancel_workflow (utc t)) remover ;;;
        ret x
    end.

(** [_require_binding_exclusive], [_require_active_claim], [_remove_root_claim] *)
Definition require_binding_exclusive (t : TaskId) : U unit :=
  b <- task_agents_get t ;; raise_if (not_none b) WorkflowBindingError.
Definition require_active_claim (r : RunId) (c : Claim) (t : Z) (msg : string) : U unit :=
  active <- on_queue (is_claim_active r c t) ;; raise_if (negb active) (ClaimLost msg).
Definition remove_root_claim (c : Claim) (t : Z) (r : RunId) : U unit :=
  removed <- on_queue (remove_if_claimed r c t) ;;
  raise_if (negb removed) (ClaimLost "Workflow bootstrap lost the exact root Run claim").
End Finish.

(** ** Use cases *)
Section UseCases.
Context `{Env} `{Digest}.

Definition BindTaskWorkflow (id : TaskId) (workflow_id : WorkflowId) : U TaskWorkflowBinding :=
  with_uow (
    need_task id ;;;
    workflow <- need_workflow workflow_id ;;
    raise_if (bool_decide (wf_status workflow = WARCHIVED)) WorkflowBindingError ;;;
    require_binding_exclusive id ;;;
    existing <- task_workflows_get_by_task_id id ;;
    t <- now ;;
    binding <- lift (match existing with
                     | Some b => tw_updated b workflow_id (utc t)
                     | None => TaskWorkflowBinding_new id workflow_id (utc t)
                     end) ;;
    task_workflows_bind binding ;;;
    commit ;;;
    ret binding).

Definition UnbindTaskWorkflow (id : TaskId) : U unit :=
  with_uow (need_task id ;;; task_workflows_unbind id ;;; commit).

Definition ResolveRunWorkflow (rid : RunId) (workflow_id : WorkflowId) (c : Claim) : U RunWorkflowResolution :=
  with_uow (
    t <- now ;;
    require_active_claim rid c t "workflow operation requires an exact active claim" ;;;
    run <- need_run rid ;;
    require_binding_exclusive (run_task_id run) ;;;
    existing <- workflow_resolutions_get_by_run_id (run_id run) ;;
    match existing with
    | Some x =>
        raise_if (negb (id_eqb (wl_workflow_id x) workflow_id)) WorkflowBindingError ;;;
        load_frozen_revision (wl_workflow_id x) (wl_workflow_revision_id x) (wl_content_sha256 x) ;;;
        t' <- now ;;
        require_active_claim (run_id run) c t' "workflow resolution claim expired" ;;;
        ret x
    | None =>
        binding <- task_workflows_get_by_task_id (run_task_id run) ;;
        raise_if (negb (match binding with Some b => id_eqb (tw_workflow_id b) workflow_id | None => false end))
          WorkflowBindingError ;;;
        raise_if (negb (bool_decide (run_status run ∈ [RQUEUED; RRUNNING]))) WorkflowBindingError ;;;
        loaded <- load_active_revision workflow_id ;;
        let '(workflow, revision, digest) := loaded in
        lid <- new_id ;;
        x <- lift (RunWorkflowResolution_new lid (run_id run) (wf_id workflow) (wr_id revision) digest (utc t)) ;;
        added <- workflow_resolutions_add_if_claimed x c t ;;
        raise_if (negb added) (ClaimLost "workflow resolution claim was lost before publication") ;;;
        t' <- now ;;
        require_active_claim (run_id run) c t' "workflow resolution claim expired before commit" ;;;
        commit ;;;
        ret x
    end).

(** The frozen resolution of the root run, made now when it has none *)
Definition resolution_for (root_run : Run) (workflow_id : WorkflowId) (t : Z) : U RunWorkflowResolution :=
  resolution <- workflow_resolutions_get_by_run_id (run_id root_run) ;;
  resolution <-
    match resolution with
    | None =>
        binding <- task_workflows_get_by_task_id (run_task_id root_run) ;;
        raise_if (negb (match binding with Some b => id_eqb (tw_workflow_id b) workflow_id | None => false end))
          WorkflowBindingError ;;;
        loaded <- load_active_revision workflow_id ;;
        let '(workflow, revision, digest) := loaded in
        lid <- new_id ;;
        lift (RunWorkflowResolution_new lid (run_id root_run) (wf_id workflow) (wr_id revision) digest (utc t))
    | Some x => raise_if (negb (id_eqb (wl_workflow_id x) workflow_id)) WorkflowBindingError ;;; ret x
    end ;;
  raise_if (negb (id_eqb (wl_run_id resolution) (run_id root_run))) WorkflowIntegrityError ;;;
  ret resolution.

(** What makes a stored execution and the root run's resolution agree *)
Definition resolution_matches (resolution : option RunWorkflowResolution) (r : RunId) (x : WorkflowExecution) : bool :=
  match resolution with
  | Some l => id_eqb (wl_run_id l) r && id_eqb (wl_workflow_id l) (wx_workflow_id x)
              && id_eqb (wl_workflow_revision_id l) (wx_workflow_revision_id x)
              && bool_decide (wl_content_sha256 l = wx_workflow_content_sha256 x)
  | None => false
  end.

(** [StartWorkflowExecution] on a root run that already has its execution *)
Definition replay_start (root_run : Run) (workflow_id : WorkflowId) (x : WorkflowExecution) : U WorkflowExecution :=
  raise_if (negb (id_eqb (wx_workflow_id x) workflow_id)) WorkflowBindingError ;;;
  raise_if (negb (id_eqb (wx_root_run_id x) (run_id root_run))) WorkflowIntegrityError ;;;
  raise_if (negb (opt_id_eqb (run_workflow_execution_id root_run) (wx_id x))) WorkflowIntegrityError ;;;
  raise_if (negb (bool_decide (run_status root_run ∈
                    [RWAITING_FOR_WORKFLOW; RSUCCEEDED; RFAILED; RCANCELLED]))) WorkflowIntegrityError ;;;
  resolution <- workflow_resolutions_get_by_run_id (run_id root_run) ;;
  raise_if (negb (resolution_matches resolution (run_id root_run) x)) WorkflowIntegrityError ;;;
  load_frozen_revision (wx_workflow_id x) (wx_workflow_revision_id x) (wx_workflow_content_sha256 x) ;;;
  commit ;;;
  ret x.

Definition sorted_nodes (nodes : list WorkflowNode) : list WorkflowNode :=
  merge_sort (key2_le (fun n => (wn_node_key n, value (wn_id n)))) nodes.

(** The Agent snapshot of every node, keyed by Agent *)
Fixpoint agent_snapshots (reg : BrainRuntimeRegistry) (nodes : list WorkflowNode)
    (acc : gmap AgentId AgentRevision) : U (gmap AgentId AgentRevision) :=
  match nodes with
  | [] => ret acc
  | n :: nodes' =>
      revision <- ensure_agent_snapshot reg n ;;
      agent_snapshots reg nodes' (<[wn_target_agent_id n := revision]> acc)
  end.

Fixpoint create_node_executions (x : WorkflowExecution) (revision : WorkflowRevision)
    (agents : gmap AgentId AgentRevision) (t : Z) (nodes : list WorkflowNode) (acc : Nodes) : U Nodes :=
  match nodes with
  | [] => ret acc
  | n :: nodes' =>
      snapshot <- lift (getitem agents (wn_target_agent_id n)) ;;
      nid <- new_id ;;
      nx <- lift (WorkflowNodeExecution_init
              (mkNodeExecution nid (wx_id x) (wn_id n) (wr_id revision) (wn_node_key n)
                 (wn_target_agent_id n) (av_id snapshot) (av_content_sha256 snapshot) NPENDING t
                 None None None JNull None None None None)) ;;
      node_executions_create nx ;;;
      create_node_executions x revision agents t nodes' (<[wn_id n := nx]> acc)
  end.

(** The roots are dispatched before the scheduling loop. *)
Fixpoint dispatch_roots (by_id : gmap WorkflowNodeId WorkflowNode)
    (preds : gmap WorkflowNodeId (list WorkflowNodeId)) (t : Z) (ids : list WorkflowNodeId) (nxs : Nodes)
    : U Nodes :=
  match ids with
  | [] => ret nxs
  | id :: ids' =>
      match preds_of preds id with
      | [] =>
          nx <- lift (getitem nxs id) ;;
          node <- lift (getitem by_id id) ;;
          nx' <- dispatch_node nx node t ;;
          dispatch_roots by_id preds t ids' (<[id := nx']> nxs)
      | _ => dispatch_roots by_id preds t ids' nxs
      end
  end.

(** [StartWorkflowExecution] on a running root run without an execution *)
Definition bootstrap (reg : BrainRuntimeRegistry) (root_run : Run) (workflow_id : WorkflowId) (c : Claim)
    : U WorkflowExecution :=
  t <- now ;;
  require_active_claim (run_id root_run) c t "workflow operation requires an exact active claim" ;;;
  raise_if (negb (bool_decide (run_status root_run = RRUNNING))) WorkflowExecutionError ;;;
  raise_if (not_none (run_workflow_execution_id root_run)) WorkflowIntegrityError ;;;
  require_binding_exclusive (run_task_id root_run) ;;;
  resolution <- resolution_for root_run workflow_id t ;;
  let* (workflow, revision) := load_frozen_revision (wl_workflow_id resolution)
                                 (wl_workflow_revision_id resolution) (wl_content_sha256 resolution) in
  let nodes := sorted_nodes (wr_nodes revision) in
  agents <- agent_snapshots reg nodes ∅ ;;
  stored <- workflow_resolutions_get_by_run_id (run_id root_run) ;;
  (if not_none stored then ret tt else workflow_resolutions_create resolution) ;;;
  xid <- new_id ;;
  x <- lift (WorkflowExecution_init
         (mkExecution xid (run_id root_run) (wf_id workflow) (wr_id revision) (wl_content_sha256 resolution)
            XRUNNING t None None None)) ;;
  executions_create x ;;;
  emit_workflow_event x WORKFLOW_EXECUTION_STARTED [(u "workflow_execution_id", JStr (value (wx_id x)))] t ;;;
  nxs <- create_node_executions x revision agents t nodes ∅ ;;
  let order := map wn_id nodes in
  let preds := predecessors (wr_edges revision) in
  let by_id := dict_by wn_id (wr_nodes revision) in
  nxs <- dispatch_roots by_id preds t (sort_ids by_id order) nxs ;;
  nxs <- schedule_to_fixed_point by_id preds t order nxs ;;
  let* (root_run', _) := call (run_wait_for_workflow (utc t) (wx_id x)) root_run in
  runs_save root_run' ;;;
  x' <- finish_if_terminal x (values_of order nxs) t (remove_root_claim c t) ;;
  (if bool_decide (wx_status x' = XRUNNING) then remove_root_claim c t (run_id root_run') else ret tt) ;;;
  commit ;;;
  ret x'.

Definition StartWorkflowExecution (reg : BrainRuntimeRegistry) (root_run_id : RunId) (workflow_id : WorkflowId)
    (c : Claim) : U WorkflowExecution :=
  with_uow (
    root_run <- need_run root_run_id ;;
    existing <- executions_list_by_root_run_id root_run_id ;;
    match existing with
    | [] => bootstrap reg root_run workflow_id c
    | [x] => replay_start root_run workflow_id x
    | _ => raise WorkflowIntegrityError
    end).

(** *** [ReconcileWorkflowExecution] *)

(** The checks of one stored node execution *)
Definition check_node (x : WorkflowExecution) (by_id : gmap WorkflowNodeId WorkflowNode)
    (n : WorkflowNodeExecution) : U unit :=
  raise_if (negb (id_eqb (nx_workflow_revision_id n) (wx_workflow_revision_id x))) WorkflowIntegrityError ;;;
  definition <- lift (getitem by_id (nx_workflow_node_id n)) ;;
  raise_if (negb (bool_decide (nx_node_key n = wn_node_key definition))
            || negb (id_eqb (nx_target_agent_id n) (wn_target_agent_id definition))) WorkflowIntegrityError ;;;
  agent_revision <- agent_revisions_get (nx_target_agent_revision_id n) ;;
  raise_if (negb match agent_revision with
                 | Some r => id_eqb (av_agent_id r) (nx_target_agent_id n)
                             && bool_decide (av_content_sha256 r = nx_target_agent_revision_sha256 n)
                 | None => false end) WorkflowIntegrityError ;;;
  match nx_child_task_id n with
  | None => ret tt
  | Some task =>
      binding <- task_agents_get task ;;
      raise_if (negb match binding with Some b => id_eqb (ta_agent_id b) (nx_target_agent_id n)
                                      | None => false end) WorkflowIntegrityError
  end ;;;
  match nx_child_task_id n, nx_child_run_id n, nx_child_execution_id n with
  | Some task, Some run, Some execution =>
      child <- runs_get run ;;
      raise_if (negb match child with
                     | Some r => id_eqb (run_execution_id r) execution && id_eqb (run_task_id r) task
                     | None => false end) WorkflowIntegrityError
  | _, _, _ => ret tt
  end.

(** [_failure_from_child] *)
Definition failure_from_child (r : Run) : str * str :=
  match run_failure r with
  | Some f => (fl_code f, fl_message f)
  | None => (u "child_run_failed", u "Workflow child Run failed")
  end.

(** [_bounded_child_result]: the details of the child's answer are dropped when
    they make the result longer than 8000 characters. *)
Definition bounded_child_result (child : Run) (completed_at : Z) : U json :=
  event <- events_latest_of_type_for_run (run_id child) AGENT_FINISHED ;;
  let payload := match event with Some e => match ev_payload e with JDict p => p | _ => [] end | None => [] end in
  let summary := match dict_get (u "summary") payload with Some (JStr s) => s | _ => [] end in
  let base := [(u "child_run_id", JStr (value (run_id child)));
               (u "child_execution_id", JStr (value (run_execution_id child)));
               (u "completed_at", JStr (isoformat (default completed_at (run_ended_at child))));
               (u "summary", JStr (take 4000 summary))] in
  let result := match dict_get (u "details") payload with
                | None | Some JNull => base
                | Some details => base ++ [(u "details", details)] end in
  ret (JDict (if len (json_dumps true (JDict result)) >? 8000 then base else result)).

(** One child outcome, recorded on its node *)
Definition reconcile_child (t : Z) (n : WorkflowNodeExecution) : U WorkflowNodeExecution :=
  if negb (bool_decide (nx_status n = NDISPATCHED)) then ret n else
  execution <- need (nx_child_execution_id n) WorkflowIntegrityError ;;
  child <- runs_get_latest_for_execution execution ;;
  match child with
  | None => ret n
  | Some child =>
      match run_status child with
      | RSUCCEEDED =>
          result <- bounded_child_result child t ;;
          let* (n', _) := call (nx_succeed (utc t) (to_py result)) n in
          persist_node n' ;;; emit_node_event n' WORKFLOW_NODE_SUCCEEDED t ;;; ret n'
      | RFAILED =>
          let '(code, message) := failure_from_child child in
          let* (n', _) := call (nx_fail (utc t) code message) n in
          persist_node n' ;;; emit_node_event n' WORKFLOW_NODE_FAILED t ;;; ret n'
      | RCANCELLED =>
          let* (n', _) := call (nx_cancel (utc t)) n in
          persist_node n' ;;; emit_node_event n' WORKFLOW_NODE_CANCELLED t ;;; ret n'
      | _ => ret n
      end
  end.

(** [_reconcile_dispatched_children] *)
Fixpoint reconcile_children (t : Z) (nodes : list WorkflowNodeExecution) (nxs : Nodes) : U Nodes :=
  match nodes with
  | [] => ret nxs
  | n :: nodes' =>
      n' <- reconcile_child t n ;;
      reconcile_children t nodes' (<[nx_workflow_node_id n := n']> nxs)
  end.

(** Advancing a running execution *)
Definition advance (x : WorkflowExecution) (revision : WorkflowRevision) (nodes : list WorkflowNodeExecution)
    (t : Z) : U Nodes :=
  let by_id := dict_by wn_id (wr_nodes revision) in
  let order := map nx_workflow_node_id nodes in
  nxs <- reconcile_children t (merge_sort (key2_le node_key2) nodes) (dict_by nx_workflow_node_id nodes) ;;
  nxs <- schedule_to_fixed_point by_id (predecessors (wr_edges revision)) t order nxs ;;
  finish_if_terminal x (values_of order nxs) t (fun r => on_queue (wq_remove r)) ;;;
  ret nxs.

Definition ReconcileWorkflowExecution (id : WorkflowExecutionId) : U (list WorkflowNodeExecution) :=
  with_uow (
    x <- executions_get id ;;
    x <- need x WorkflowExecutionError ;;
    nodes <- node_executions_list_by_execution (wx_id x) ;;
    resolution <- workflow_resolutions_get_by_run_id (wx_root_run_id x) ;;
    raise_if (negb (resolution_matches resolution (wx_root_run_id x) x)) WorkflowIntegrityError ;;;
    let* (_, revision) := load_frozen_revision (wx_workflow_id x) (wx_workflow_revision_id x)
                            (wx_workflow_content_sha256 x) in
    let by_id := dict_by wn_id (wr_nodes revision) in
    raise_if (negb (len nodes =? Z.of_nat (size by_id))
              || negb (bool_decide (list_to_set (C := gset WorkflowNodeId) (map nx_workflow_node_id nodes)
                                    = dom by_id))) WorkflowIntegrityError ;;;
    raise_if (existsb (fun n => negb (id_eqb (nx_workflow_execution_id n) (wx_id x))) nodes)
      WorkflowIntegrityError ;;;
    for_each nodes (check_node x by_id) ;;;
    let order := map nx_workflow_node_id nodes in
    t <- now ;;
    nxs <- (if bool_decide (wx_status x = XRUNNING)
            then advance x revision nodes t
            else ret (dict_by nx_workflow_node_id nodes)) ;;
    commit ;;;
    ret (merge_sort (key2_le node_key2) (values_of order nxs))).
End UseCases.
