(* ===== verification/Snapshot.v ===== *)
(** * The snapshot a brain turn starts from

    [_load_snapshot] of [src/friday/application/agent_run_processor.py] and what it
    calls: one read-only transaction that collects a run's durable state, with the
    results of its delegations stripped of every authority value of the delegated
    subtree.  Proved: the walk over the subtree ends, collects exactly the
    authority values of all its runs, and none of them reaches the snapshot. *)

From S2P Require Import Prelude Values RunEntity TaskEntity StepEntity ToolEntity ApprovalEntity.
From S2P Require Import EventEntity Canonical PyText Regex ResultSafety DelegationEntity WorkQueue AgentEntity.
From S2P Require Import SkillEntity ConversationEntity WorkflowExecutionEntity Tables Store SkillStore Lifecycle.
From S2P Require Import RuntimeContext AgentUseCases WorkflowEngine.

Open Scope Z_scope.

Definition MAX_RECENT_EVENTS : nat := 50.
Definition AgentIntegrityFailed : exn := OtherError "AgentIntegrityFailed".

(** ** Reads *)

(** [ORDER BY key DESC LIMIT limit], oldest first *)
Definition recent {A} (limit : nat) (l : list A) : list A := reverse (take limit (reverse l)).

Definition approvals_list_recent_for_run (r : RunId) (limit : nat) : U (list ApprovalRequest) :=
  l <- approvals_list_for_run r ;; ret (recent limit l).
Definition artifacts_list_recent_for_run (r : RunId) (limit : nat) : U (list Artifact) :=
  l <- artifacts_list_for_run r ;; ret (recent limit l).
Definition tools_list_recent_for_run (r : RunId) (limit : nat) : U (list ToolInvocation) :=
  l <- tools_list_for_run r ;; ret (recent limit l).
Definition events_list_recent_for_run (r : RunId) (limit : nat) : U (list RunEvent) :=
  l <- events_list_for_run r ;; ret (recent limit l).
Definition agent_key2 (a : Agent) : str * str := (ag_key a, value (ag_id a)).
Definition agents_list (limit : nat) : U (list Agent) :=
  db (fun d => take limit (select (fun _ => true) (fun a => ag_created_at a :: value (ag_id a)) (db_agents d))).

(** ** [_delegated_lineage_authority_values]

    The walk reads only, so it is a function of the transaction's view of the
    database.  [remember] drops [None] and empty strings; every value the walk
    meets is a string. *)
Definition remember (v : option str) : list str :=
  match v with Some s => if empty_str s then [] else [s] | None => [] end.
Definition run_authority (d : Db) (r : Run) : list str :=
  remember (value <$> run_approval_request_id r)
  ++ match db_queue d !! run_id r with Some item => remember (wi_claim_token item) | None => [] end
  ++ concat (map (fun s => remember (value <$> step_approval_request_id s))
       (select (fun s => id_eqb (step_run_id s) (run_id r)) step_key (db_steps d)))
  ++ concat (map (fun a => remember (Some (value (ap_id a))) ++ remember (ap_authorization_fingerprint a))
       (select (fun a => opt_id_eqb (ap_run_id a) (run_id r)) approval_key (db_approvals d)))
  ++ concat (map (fun i => remember (Some (value (tool_id i))) ++ remember (value <$> tool_approval_request_id i)
                           ++ match tool_provenance i with
                              | Some p => remember (Some (pv_binding_fingerprint p))
                              | None => []
                              end)
       (select (fun i => id_eqb (tool_run_id i) (run_id r)) tool_key (db_tools d))).
Definition run_delegations (d : Db) (r : Run) : list DelegationRequest :=
  select (fun x => id_eqb (dl_parent_run_id x) (run_id r)) delegation_key (db_delegations d).
(** The execution a request was materialised as, when its child is stored *)
Definition child_execution (d : Db) (x : DelegationRequest) : option RunId :=
  match dl_child_run_id x with
  | Some c => match db_runs d !! c with Some child => Some (run_execution_id child) | None => None end
  | None => None
  end.

(** The state of the walk; the top of the stack is the end of the Python list. *)
Record Walk : Type := mkWalk {
  wk_pending : list RunId; wk_seen_executions : list RunId; wk_seen_requests : list DelegationRequestId;
  wk_values : list str }.
Definition walk_request (d : Db) (k : Walk) (x : DelegationRequest) : Walk :=
  if bool_decide (dl_id x ∈ wk_seen_requests k) then k
  else mkWalk (match child_execution d x with Some e => e :: wk_pending k | None => wk_pending k end)
         (wk_seen_executions k) (dl_id x :: wk_seen_requests k)
         (remember (Some (dl_authorization_fingerprint x)) ++ wk_values k).
Definition walk_run (d : Db) (k : Walk) (r : Run) : Walk :=
  foldl (walk_request d)
    (mkWalk (wk_pending k) (wk_seen_executions k) (wk_seen_requests k) (run_authority d r ++ wk_values k))
    (run_delegations d r).
(** [while pending_executions]; [None] when the fuel runs out *)
Fixpoint walk_lineage (fuel : nat) (d : Db) (k : Walk) : option (list str) :=
  match fuel with
  | O => None
  | S fuel' =>
      match wk_pending k with
      | [] => Some (wk_values k)
      | e :: pending =>
          if bool_decide (e ∈ wk_seen_executions k)
          then walk_lineage fuel' d (mkWalk pending (wk_seen_executions k) (wk_seen_requests k) (wk_values k))
          else walk_lineage fuel' d
                 (foldl (walk_run d)
                    (mkWalk pending (e :: wk_seen_executions k) (wk_seen_requests k) (wk_values k))
                    (execution_runs e d))
      end
  end.
Definition lineage_start (e : RunId) (request : DelegationRequest) : Walk :=
  mkWalk [e] [] [dl_id request] (remember (Some (dl_authorization_fingerprint request))).
(** Every stored request pushes one execution at most. *)
Definition lineage_fuel (d : Db) : nat := S (S (size (db_delegations d))).
Definition lineage_values (d : Db) (e : RunId) (request : DelegationRequest) : option (list str) :=
  walk_lineage (lineage_fuel d) d (lineage_start e request).
(** [tuple(sorted(values, key=...))] *)
Definition delegated_lineage_authority_values (d : Db) (e : RunId) (request : DelegationRequest)
    : list AuthorityValue :=
  map AuthStr (order_by id (remove_dups (default [] (lineage_values d e request)))).

Section Snapshot.
Context `{Env} `{Digest} `{Unicode}.

(** ** Delegations *)

(** The loop over the successful runs of the child, newest first *)
Fixpoint finished_result (authority : list AuthorityValue) (candidates : list Run) : U (option str * json) :=
  match candidates with
  | [] => ret (None, JNull)
  | r :: candidates' =>
      finished <- events_latest_of_type_for_run (run_id r) AGENT_FINISHED ;;
      match ev_payload <$> finished with
      | Some (JDict p) =>
          ret (project_delegated_result (match dict_get (u "summary") p with Some (JStr s) => Some s | _ => None end)
                 (default JNull (dict_get (u "details") p)) authority)
      | _ => finished_result authority candidates'
      end
  end.
Definition delegation_view (request : DelegationRequest) : U DelegationView :=
  target <- agents_get (dl_target_agent_id request) ;;
  let target_key := match target with Some a => ag_key a | None => value (dl_target_agent_id request) end in
  child <- match dl_child_run_id request with Some c => runs_get c | None => ret None end ;;
  match child with
  | None => ret (mkView request target_key None None JNull [])
  | Some child =>
      let execution := run_execution_id child in
      if bool_decide (dl_status request = DSUCCEEDED) then
        authority <- db (fun d => delegated_lineage_authority_values d execution request) ;;
        runs <- runs_list_for_execution execution ;;
        result <- finished_result authority
                    (reverse (List.filter (fun r => bool_decide (run_status r = RSUCCEEDED)) runs)) ;;
        ret (mkView request target_key (Some (value execution)) (fst result) (snd result) authority)
      else ret (mkView request target_key (Some (value execution)) None JNull [])
  end.
Fixpoint delegation_views (requests : list DelegationRequest) : U (list DelegationView) :=
  match requests with
  | [] => ret []
  | x :: requests' => v <- delegation_view x ;; vs <- delegation_views requests' ;; ret (v :: vs)
  end.

(** ** Agents *)

(** [except DomainValidationError as exc: raise AgentIntegrityFailed()] *)
Definition load_agent_revision (id : AgentRevisionId) : U (option AgentRevision) :=
  try_except (agent_revisions_get id)
    (fun e => match e with DomainValidationError _ => Some (raise AgentIntegrityFailed) | _ => None end).
Fixpoint delegation_targets (max_targets : Z) (agents : list Agent) (targets : list DelegationTarget)
    : U (list DelegationTarget) :=
  match agents with
  | [] => ret targets
  | a :: agents' =>
      match ag_active_revision_id a with
      | Some rid =>
          if bool_decide (ag_status a = AG_ACTIVE) && (len targets <? max_targets) then
            revision <- load_agent_revision rid ;;
            delegation_targets max_targets agents'
              (if match revision with Some v => id_eqb (av_agent_id v) (ag_id a) | None => false end
               then targets ++ [mkTarget (ag_key a) (ag_display_name a) (ag_description a)] else targets)
          else delegation_targets max_targets agents' targets
      | None => delegation_targets max_targets agents' targets
      end
  end.

Definition check_agent (reg : BrainRuntimeRegistry) (resolution : RunAgentResolution) (identity : option Agent)
    (revision : option AgentRevision) : res (RunAgentResolution * Agent * AgentRevision) :=
  match identity, revision with
  | Some a, Some v =>
      if negb (id_eqb (ar_agent_id resolution) (ag_id a)) || negb (id_eqb (ar_revision_id resolution) (av_id v))
         || negb (id_eqb (av_agent_id v) (ag_id a))
      then Raise AgentIntegrityFailed
      else res_bind (encode (canonical_revision_content (av_instructions v) (av_runtime_kind v) (av_runtime_config v)))
             (fun bytes =>
                if negb (bool_decide (av_content_sha256 v = sha256_hex bytes)) then Raise AgentIntegrityFailed
                else match validate_runtime_config reg (av_runtime_kind v) (to_py (av_runtime_config v)) with
                     | Ok _ => Ok (resolution, a, v)
                     | Raise _ => Raise AgentIntegrityFailed
                     end)
  | _, _ => Raise AgentIntegrityFailed
  end.
Definition load_agent (reg : BrainRuntimeRegistry) (r : RunId)
    : U (option (RunAgentResolution * Agent * AgentRevision)) :=
  resolution <- agent_resolutions_get r ;;
  match resolution with
  | None => ret None
  | Some x =>
      identity <- agents_get (ar_agent_id x) ;;
      revision <- load_agent_revision (ar_revision_id x) ;;
      agent <- lift (check_agent reg x identity revision) ;;
      ret (Some agent)
  end.

(** ** Skills: [None] is the early return of the snapshot *)
Fixpoint load_skills (bindings : list RunSkillBinding) : U (option (list (RunSkillBinding * Skill * SkillRevision))) :=
  match bindings with
  | [] => ret (Some [])
  | b :: bindings' =>
      skill <- skills_get (sb_skill_id b) ;;
      revision <- skill_revisions_get (sb_revision_id b) ;;
      match skill, revision with
      | Some k, Some v =>
          if negb (id_eqb (kr_skill_id v) (sb_skill_id b)) then ret None
          else
            digest <- lift (skill_digest (kr_instructions v)) ;;
            raise_if (negb (bool_decide (digest = kr_content_sha256 v))) SkillIntegrityFailed ;;;
            rest <- load_skills bindings' ;;
            ret (match rest with Some l => Some ((b, k, v) :: l) | None => None end)
      | _, _ => ret None
      end
  end.

(** [_workflow_context_for_run] *)
Definition workflow_context_for_run (execution : RunId) : U (option str) :=
  node <- node_executions_get_by_child_execution_id execution ;;
  match node with
  | None => ret None
  | Some n => context <- build_workflow_node_context n ;; ret (Some context)
  end.

(** ** [_load_snapshot] *)
Definition load_snapshot (reg : BrainRuntimeRegistry) (max_targets : Z) (run_id_ : RunId) (task_id_ : TaskId)
    (turn_notes : list str) : U (option RunSnapshot) :=
  with_uow (
    task <- tasks_get task_id_ ;;
    run <- runs_get run_id_ ;;
    match task, run with
    | Some task, Some run =>
        if negb (bool_decide (run_status run = RRUNNING)) then ret None else
        events <- events_list_recent_for_run run_id_ MAX_RECENT_EVENTS ;;
        bindings <- skill_bindings_list_for_run run_id_ ;;
        skills <- load_skills bindings ;;
        match skills with
        | None => ret None
        | Some skills =>
            agent <- load_agent reg run_id_ ;;
            targets <- (if not_none agent then
                          agents <- agents_list 100000 ;;
                          delegation_targets max_targets (merge_sort (key2_le agent_key2) agents) []
                        else ret []) ;;
            requests <- delegations_list_for_run run_id_ ;;
            views <- delegation_views requests ;;
            incoming <- delegations_get_for_child_execution (run_execution_id run) ;;
            steps <- steps_list_for_run run_id_ ;;
            approvals <- approvals_list_recent_for_run run_id_ MAX_RECENT_EVENTS ;;
            invocations <- tools_list_recent_for_run run_id_ MAX_RECENT_EVENTS ;;
            artifacts <- artifacts_list_recent_for_run run_id_ MAX_RECENT_EVENTS ;;
            workflow <- workflow_context_for_run (run_execution_id run) ;;
            ret (Some (mkSnapshot task run steps approvals invocations artifacts events turn_notes skills agent
                         targets views incoming workflow))
        end
    | _, _ => ret None
    end).

(** [_finish_blocker] *)
Definition finish_blocker (r : RunId) : U (option str) :=
  with_uow (
    steps <- steps_has_non_terminal_for_run r ;;
    if (steps : bool) then ret (Some (u "one or more steps are not terminal")) else
    tools <- tools_has_non_terminal_for_run r ;;
    if (tools : bool) then ret (Some (u "one or more tool invocations are not terminal")) else
    approvals <- approvals_has_pending_for_run r ;;
    if (approvals : bool) then ret (Some (u "one or more approvals are pending")) else
    delegations <- delegations_has_dispatched_for_run r ;;
    ret (if (delegations : bool) then Some (u "one or more delegations are active") else None)).
End Snapshot.

(** ** The walk over the delegated subtree *)

(** The executions of the subtree: the delegated one, and every execution that a
    run of the subtree delegated to *)
Inductive in_lineage (d : Db) (e0 : RunId) : RunId -> Prop :=
| lineage_root : in_lineage d e0 e0
| lineage_child e r x e' :
    in_lineage d e0 e -> r ∈ execution_runs e d -> x ∈ run_delegations d r -> child_execution d x = Some e' ->
    in_lineage d e0 e'.
(** The authority values of one execution *)
Definition execution_authority (d : Db) (e : RunId) (v : str) : Prop :=
  exists r, r ∈ execution_runs e d /\
    (v ∈ run_authority d r \/ exists x, x ∈ run_delegations d r /\ v ∈ remember (Some (dl_authorization_fingerprint x))).
Definition lineage_authority (d : Db) (e0 : RunId) (request : DelegationRequest) (v : str) : Prop :=
  v ∈ remember (Some (dl_authorization_fingerprint request)) \/
  exists e, in_lineage d e0 e /\ execution_authority d e v.

Section Walks.
(** Requests are stored under their own id. *)
Context (d : Db) (e0 : RunId) (request : DelegationRequest).
Context (Hkeys : forall i x, db_delegations d !! i = Some x -> dl_id x = i).
Context (Hrequest : db_delegations d !! dl_id request = Some request) (Hchild : child_execution d request = Some e0).

Lemma run_delegations_stored r x : x ∈ run_delegations d r -> db_delegations d !! dl_id x = Some x.
Proof.
  unfold run_delegations, select. rewrite elem_of_order_by, list_elem_of_filter, list_elem_of_fmap.
  intros [_ ([i y] & -> & Hin)]. apply elem_of_map_to_list in Hin. cbn. by rewrite (Hkeys i y).
Qed.

(** What the walk knows: everything it holds belongs to the subtree, and what it
    has seen is either in its values or still to be visited. *)
Record walk_ok (k : Walk) : Prop := {
  wo_pending : forall e, e ∈ wk_pending k -> in_lineage d e0 e;
  wo_seen : forall e, e ∈ wk_seen_executions k -> in_lineage d e0 e;
  wo_values : forall v, v ∈ wk_values k -> lineage_authority d e0 request v;
  wo_root : e0 ∈ wk_pending k ++ wk_seen_executions k;
  wo_own : forall v, v ∈ remember (Some (dl_authorization_fingerprint request)) -> v ∈ wk_values k;
  wo_requests : forall i, i ∈ wk_seen_requests k -> exists x, db_delegations d !! i = Some x /\
    (forall v, v ∈ remember (Some (dl_authorization_fingerprint x)) -> v ∈ wk_values k) /\
    (forall e, child_execution d x = Some e -> e ∈ wk_pending k ++ wk_seen_executions k);
  wo_distinct : NoDup (wk_seen_requests k) }.
(** A run of which nothing is left to do *)
Definition run_walked (k : Walk) (r : Run) : Prop :=
  (forall v, v ∈ run_authority d r -> v ∈ wk_values k) /\
  (forall x, x ∈ run_delegations d r -> dl_id x ∈ wk_seen_requests k).
Definition executions_walked (k : Walk) (es : list RunId) : Prop :=
  forall e r, e ∈ es -> r ∈ execution_runs e d -> run_walked k r.
(** The walk only learns. *)
Definition learns (k k' : Walk) : Prop :=
  wk_values k ⊆ wk_values k' /\ wk_seen_requests k ⊆ wk_seen_requests k' /\
  wk_seen_executions k' = wk_seen_executions k.
Lemma learns_refl k : learns k k.
Proof. done. Qed.
Lemma learns_trans k1 k2 k3 : learns k1 k2 -> learns k2 k3 -> learns k1 k3.
Proof. intros (?&?&E) (?&?&E'). split_and!; [set_solver..|congruence]. Qed.
Lemma run_walked_learns k k' r : learns k k' -> run_walked k r -> run_walked k' r.
Proof. intros (Hv & Hr & _) [H1 H2]. split; [intros v Hin%H1|intros x Hin%H2]; set_solver. Qed.

(** The requests not seen yet, each of which may still push an execution *)
Definition unseen (k : Walk) : nat := length (wk_pending k) + (size (db_delegations d) - length (wk_seen_requests k)).

Lemma seen_requests_bound k : walk_ok k -> (length (wk_seen_requests k) <= size (db_delegations d))%nat.
Proof.
  intros Hk. rewrite <- (size_dom (D := gset DelegationRequestId)).
  rewrite <- (size_list_to_set (C := gset DelegationRequestId) (wk_seen_requests k)) by apply Hk.
  apply subseteq_size. intros i Hi%elem_of_list_to_set. apply elem_of_dom.
  destruct (wo_requests k Hk i Hi) as (x & -> & _). by eexists.
Qed.

Lemma walk_request_ok k e r x : walk_ok k -> in_lineage d e0 e -> r ∈ execution_runs e d -> x ∈ run_delegations d r ->
  let k' := walk_request d k x in
  walk_ok k' /\ learns k k' /\ dl_id x ∈ wk_seen_requests k' /\ (unseen k' <= unseen k)%nat.
Proof.
  intros Hk He Hr Hx. cbv zeta. unfold walk_request. case_bool_decide as Hs; [done|].
  pose proof (run_delegations_stored r x Hx) as Hst.
  assert (Hk' : walk_ok (mkWalk (match child_execution d x with Some e => e :: wk_pending k | None => wk_pending k end)
    (wk_seen_executions k) (dl_id x :: wk_seen_requests k)
    (remember (Some (dl_authorization_fingerprint x)) ++ wk_values k))).
  { destruct Hk as [H1 H2 H3 H4 H5 H6 H7]. split; cbn [wk_pending wk_seen_executions wk_seen_requests wk_values].
    - intros e'. destruct (child_execution d x) as [ex|] eqn:E; [|apply H1].
      intros [->|?]%elem_of_cons; [by eapply lineage_child|by apply H1].
    - done.
    - intros v [Hv|Hv]%elem_of_app; [|by apply H3]. right. exists e. split; [done|]. exists r. split; [done|].
      right. by exists x.
    - destruct (child_execution d x); set_solver.
    - intros v Hv%H5. set_solver.
    - intros i [->|Hi]%elem_of_cons.
      + exists x. split; [done|]. split; [set_solver|]. intros e' ->. set_solver.
      + destruct (H6 i Hi) as (y & Hy & Hf & Hc). exists y. split; [done|]. split; [set_solver|].
        intros e' He'%Hc. destruct (child_execution d x); set_solver.
    - by constructor. }
  pose proof (seen_requests_bound _ Hk') as Hb. cbn in Hb.
  split; [done|]. split; [unfold learns; cbn; split_and!; [set_solver..|done]|]. split; [cbn; set_solver|].
  unfold unseen. cbn. destruct (child_execution d x); cbn; lia.
Qed.

Lemma walk_requests_ok e r l k : walk_ok k -> in_lineage d e0 e -> r ∈ execution_runs e d ->
  (forall x, x ∈ l -> x ∈ run_delegations d r) ->
  let k' := foldl (walk_request d) k l in
  walk_ok k' /\ learns k k' /\ (forall x, x ∈ l -> dl_id x ∈ wk_seen_requests k') /\ (unseen k' <= unseen k)%nat.
Proof.
  revert k. induction l as [|x l IH]; intros k Hk He Hr Hl; cbn [foldl].
  { split_and!; [done|done|by intros x ?%not_elem_of_nil|lia]. }
  destruct (walk_request_ok k e r x) as (Hk1 & Hl1 & Hs1 & Hu1); [done..|apply Hl; left|].
  destruct (IH (walk_request d k x)) as (Hk2 & Hl2 & Hs2 & Hu2); [done..|intros y Hy; apply Hl; by right|].
  split_and!; [done|by eapply learns_trans| |lia].
  intros y [->|Hy]%elem_of_cons; [|by apply Hs2]. destruct Hl2 as (_ & Hin & _). by apply Hin.
Qed.

Lemma walk_run_ok e r k : walk_ok k -> in_lineage d e0 e -> r ∈ execution_runs e d ->
  let k' := walk_run d k r in
  walk_ok k' /\ learns k k' /\ run_walked k' r /\ (unseen k' <= unseen k)%nat.
Proof.
  intros Hk He Hr. cbv zeta. unfold walk_run.
  set (k1 := mkWalk (wk_pending k) (wk_seen_executions k) (wk_seen_requests k) (run_authority d r ++ wk_values k)).
  assert (Hk1 : walk_ok k1).
  { destruct Hk as [H1 H2 H3 H4 H5 H6 H7]. split; [done|done| |done| | |done]; cbn [wk_values wk_seen_requests k1].
    - intros v [Hv|Hv]%elem_of_app; [|by apply H3]. right. exists e. split; [done|]. exists r. auto.
    - intros v Hv%H5. set_solver.
    - intros i (x & Hx & Hf & Hc)%H6. exists x. split; [done|]. split; [set_solver|done]. }
  destruct (walk_requests_ok e r (run_delegations d r) k1) as (Hk2 & Hl2 & Hs2 & Hu2); [done..|].
  split_and!; [done| | |done].
  - eapply learns_trans; [|exact Hl2]. unfold learns. cbn. split_and!; [set_solver..|done].
  - split; [|exact Hs2]. intros v Hv. apply (proj1 Hl2). cbn. set_solver.
Qed.

Lemma walk_runs_ok e l k : walk_ok k -> in_lineage d e0 e -> (forall r, r ∈ l -> r ∈ execution_runs e d) ->
  let k' := foldl (walk_run d) k l in
  walk_ok k' /\ learns k k' /\ (forall r, r ∈ l -> run_walked k' r) /\ (unseen k' <= unseen k)%nat.
Proof.
  revert k. induction l as [|r l IH]; intros k Hk He Hl; cbn [foldl].
  { split_and!; [done|done|by intros x ?%not_elem_of_nil|lia]. }
  destruct (walk_run_ok e r k) as (Hk1 & Hl1 & Hs1 & Hu1); [done..|apply Hl; left|].
  destruct (IH (walk_run d k r)) as (Hk2 & Hl2 & Hs2 & Hu2); [done..|intros y Hy; apply Hl; by right|].
  split_and!; [done|by eapply learns_trans| |lia].
  intros y [->|Hy]%elem_of_cons; [|by apply Hs2]. by eapply run_walked_learns.
Qed.

Lemma walk_all_ok fuel k : walk_ok k -> executions_walked k (wk_seen_executions k) -> (unseen k < fuel)%nat ->
  exists k', walk_ok k' /\ executions_walked k' (wk_seen_executions k') /\ wk_pending k' = [] /\
             walk_lineage fuel d k = Some (wk_values k').
Proof.
  revert k. induction fuel as [|fuel IH]; intros k Hk Hw Hf; [lia|]. cbn [walk_lineage].
  destruct (wk_pending k) as [|e pending] eqn:E; [by exists k|].
  assert (He : in_lineage d e0 e) by (apply (wo_pending k Hk); rewrite E; left).
  case_bool_decide as Hs.
  - apply IH; cbn; [|done|unfold unseen in *; rewrite E in Hf; cbn in *; lia].
    destruct Hk as [H1 H2 H3 H4 H5 H6 H7]. rewrite E in *. split; cbn; try done; [set_solver..|].
    intros i (x & Hx & Hf' & Hc)%H6. exists x. split_and!; [done..|]. intros e' He'%Hc. set_solver.
  - set (k1 := mkWalk pending (e :: wk_seen_executions k) (wk_seen_requests k) (wk_values k)).
    assert (Hk1 : walk_ok k1).
    { destruct Hk as [H1 H2 H3 H4 H5 H6 H7]. rewrite E in *. split; cbn; try done; [set_solver..|].
      intros i (x & Hx & Hf' & Hc)%H6. exists x. split_and!; [done..|]. intros e' He'%Hc. set_solver. }
    destruct (walk_runs_ok e (execution_runs e d) k1) as (Hk2 & Hl2 & Hs2 & Hu2); [done..|].
    apply IH; [done| |unfold unseen in *; rewrite E in Hf; cbn in *; lia].
    destruct Hl2 as (Hv & Hq & Hx). rewrite Hx. cbn. intros e' r [->|He']%elem_of_cons Hr; [by apply Hs2|].
    apply (run_walked_learns k1); [done|]. by apply (Hw e').
Qed.

(** The walk ends, and what it has collected is what the subtree holds. *)
Lemma lineage_values_exact :
  exists values, lineage_values d e0 request = Some values /\
                 forall v, v ∈ values <-> lineage_authority d e0 request v.
Proof.
  unfold lineage_values.
  destruct (walk_all_ok (lineage_fuel d) (lineage_start e0 request)) as (k & Hk & Hw & Hp & ->).
  - split; cbn; [|set_solver|by left|set_solver|done| |apply NoDup_singleton].
    + intros e ->%list_elem_of_singleton. constructor.
    + intros i ->%list_elem_of_singleton. exists request. split; [done|]. split; [done|].
      intros e. rewrite Hchild. intros [= <-]. left.
  - by intros e r ?%not_elem_of_nil.
  - unfold unseen, lineage_fuel. cbn. lia.
  - exists (wk_values k). split; [done|]. intros v. split; [apply (wo_values k Hk)|].
    assert (Hall : forall e, in_lineage d e0 e -> e ∈ wk_seen_executions k).
    { induction 1 as [|e r x e' _ IHe Hr Hx Hc].
      - pose proof (wo_root k Hk) as Hin. by rewrite Hp in Hin.
      - destruct (Hw e r IHe Hr) as [_ Hseen]. destruct (wo_requests k Hk _ (Hseen x Hx)) as (y & Hy & _ & Hcy).
        rewrite (run_delegations_stored r x Hx) in Hy. injection Hy as <-. specialize (Hcy _ Hc).
        by rewrite Hp in Hcy. }
    intros [Hv|(e & He%Hall & r & Hr & Hv)]; [by apply (wo_own k Hk)|].
    destruct (Hw e r He Hr) as [Hra Hrx]. destruct Hv as [Hv|(x & Hx & Hv)]; [by apply Hra|].
    destruct (wo_requests k Hk _ (Hrx x Hx)) as (y & Hy & Hf & _).
    rewrite (run_delegations_stored r x Hx) in Hy. injection Hy as <-. by apply Hf.
Qed.
Lemma delegated_lineage_exact v :
  AuthStr v ∈ delegated_lineage_authority_values d e0 request <-> lineage_authority d e0 request v.
Proof.
  destruct lineage_values_exact as (values & E & Hv). unfold delegated_lineage_authority_values. rewrite E.
  change (default [] (Some values)) with values. rewrite list_elem_of_fmap. split.
  - intros (v' & [= <-] & Hin). rewrite elem_of_order_by, elem_of_remove_dups in Hin. by apply Hv.
  - intros Hin%Hv. exists v. split; [done|]. by rewrite elem_of_order_by, elem_of_remove_dups.
Qed.
End Walks.

(** ** What a delegated subtree holds, by the rows of the database

    The specification the walk is measured by: it names the stored rows and columns
    and nothing of the walk. *)
Definition nonempty_text (v : str) : Prop := v <> [].

(** The credentials of one run: the approval it waits for, the token of its claim,
    its approvals and their fingerprints, its tool invocations *)
Inductive run_holds (d : Db) (r : Run) : str -> Prop :=
| holds_wait a : run_approval_request_id r = Some a -> run_holds d r (value a)
| holds_token item v : db_queue d !! run_id r = Some item -> wi_claim_token item = Some v -> run_holds d r v
| holds_step i s a : db_steps d !! i = Some s -> step_run_id s = run_id r -> step_approval_request_id s = Some a ->
    run_holds d r (value a)
| holds_approval i a : db_approvals d !! i = Some a -> ap_run_id a = Some (run_id r) -> run_holds d r (value (ap_id a))
| holds_fingerprint i a v : db_approvals d !! i = Some a -> ap_run_id a = Some (run_id r) ->
    ap_authorization_fingerprint a = Some v -> run_holds d r v
| holds_tool i x : db_tools d !! i = Some x -> tool_run_id x = run_id r -> run_holds d r (value (tool_id x))
| holds_tool_approval i x a : db_tools d !! i = Some x -> tool_run_id x = run_id r ->
    tool_approval_request_id x = Some a -> run_holds d r (value a)
| holds_binding i x p : db_tools d !! i = Some x -> tool_run_id x = run_id r -> tool_provenance x = Some p ->
    run_holds d r (pv_binding_fingerprint p).
(** [r] belongs to the subtree below [request]: a run of the execution it was
    materialised as, or of one a run of the subtree delegated to *)
Inductive below (d : Db) (request : DelegationRequest) : Run -> Prop :=
| below_child c child i r : dl_child_run_id request = Some c -> db_runs d !! c = Some child ->
    db_runs d !! i = Some r -> run_execution_id r = run_execution_id child -> below d request r
| below_nested r j x c child i r' : below d request r -> db_delegations d !! j = Some x ->
    dl_parent_run_id x = run_id r -> dl_child_run_id x = Some c -> db_runs d !! c = Some child ->
    db_runs d !! i = Some r' -> run_execution_id r' = run_execution_id child -> below d request r'.
Definition subtree_holds (d : Db) (request : DelegationRequest) (v : str) : Prop :=
  nonempty_text v /\
  (v = dl_authorization_fingerprint request \/
   exists r, below d request r /\
     (run_holds d r v \/
      exists j x, db_delegations d !! j = Some x /\ dl_parent_run_id x = run_id r /\
                  v = dl_authorization_fingerprint x)).

Lemma elem_of_remember v o : v ∈ remember o <-> o = Some v /\ nonempty_text v.
Proof.
  unfold nonempty_text. destruct o as [[|c s]|]; cbn; rewrite ?list_elem_of_singleton, ?elem_of_nil; naive_solver.
Qed.
Lemma elem_of_rows {K A} `{Countable K} (p : A -> bool) key (t : gmap K A) x :
  x ∈ select p key t <-> exists i, t !! i = Some x /\ p x = true.
Proof.
  unfold select. rewrite elem_of_order_by, list_elem_of_filter, list_elem_of_fmap. split.
  - intros [Hp ([i y] & -> & Hin)]. exists i. by apply elem_of_map_to_list in Hin.
  - intros (i & Hi & Hp). split; [done|]. exists (i, x). split; [done|]. by apply elem_of_map_to_list.
Qed.
Lemma elem_of_concat_rows {K A} `{Countable K} (f : A -> list str) (p : A -> bool) key (t : gmap K A) v :
  v ∈ concat (map f (select p key t)) <-> exists i x, t !! i = Some x /\ p x = true /\ v ∈ f x.
Proof.
  rewrite list_elem_of_In, in_concat. setoid_rewrite in_map_iff. split.
  - intros (l & (x & <- & Hx) & Hv). apply list_elem_of_In in Hx, Hv. apply elem_of_rows in Hx as (i & ? & ?). eauto.
  - intros (i & x & Hi & Hp & Hv). exists (f x). split; [|by apply list_elem_of_In].
    exists x. split; [done|]. apply list_elem_of_In, elem_of_rows. eauto.
Qed.
Lemma in_execution_rows d e r : r ∈ execution_runs e d <-> exists i, db_runs d !! i = Some r /\ run_execution_id r = e.
Proof.
  unfold execution_runs, run_in_execution. rewrite elem_of_rows. unfold id_eqb. by setoid_rewrite bool_decide_eq_true.
Qed.
Lemma in_delegation_rows d r x :
  x ∈ run_delegations d r <-> exists j, db_delegations d !! j = Some x /\ dl_parent_run_id x = run_id r.
Proof. unfold run_delegations. rewrite elem_of_rows. unfold id_eqb. by setoid_rewrite bool_decide_eq_true. Qed.
Lemma child_execution_rows d x e :
  child_execution d x = Some e <->
  exists c child, dl_child_run_id x = Some c /\ db_runs d !! c = Some child /\ run_execution_id child = e.
Proof. unfold child_execution. repeat case_match; naive_solver. Qed.

Lemma run_authority_rows d r v : v ∈ run_authority d r <-> nonempty_text v /\ run_holds d r v.
Proof.
  unfold run_authority. rewrite !elem_of_app, !elem_of_concat_rows. unfold id_eqb, opt_id_eqb.
  setoid_rewrite bool_decide_eq_true. repeat setoid_rewrite elem_of_app. repeat setoid_rewrite elem_of_remember. split.
  - intros [(Hm & ?)|[Hq|[(i & s & ? & ? & Hs & ?)|[(i & a & ? & ? & [[[= <-] ?]|[? ?]])|(i & x & ? & ? & Hx)]]]].
    + apply fmap_Some in Hm as (a & ? & ->). split; [done|]. by eapply holds_wait.
    + destruct (db_queue d !! run_id r) eqn:?; [|by apply not_elem_of_nil in Hq].
      apply elem_of_remember in Hq as [? ?]. split; [done|]. by eapply holds_token.
    + apply fmap_Some in Hs as (a & ? & ->). split; [done|]. by eapply holds_step.
    + split; [done|]. by eapply holds_approval.
    + split; [done|]. by eapply holds_fingerprint.
    + destruct Hx as [[[= <-] ?]|[[Hx ?]|Hx]]; [split; [done|]; by eapply holds_tool| |].
      * apply fmap_Some in Hx as (a & ? & ->). split; [done|]. by eapply holds_tool_approval.
      * destruct (tool_provenance x) eqn:?; [|by apply not_elem_of_nil in Hx].
        apply elem_of_remember in Hx as [[= <-] ?]. split; [done|]. by eapply holds_binding.
  - intros [Hne Hv]. destruct Hv as [a E|item w Hq E|i s a Hi Hr E|i a Hi Hr|i a w Hi Hr E|i x Hi Hr|i x a Hi Hr E|i x p Hi Hr E].
    + left. by rewrite E.
    + right. left. rewrite Hq, E. by apply elem_of_remember.
    + do 2 right. left. exists i, s. rewrite E. auto.
    + do 3 right. left. exists i, a. auto.
    + do 3 right. left. exists i, a. auto.
    + do 4 right. exists i, x. auto.
    + do 4 right. exists i, x. rewrite E. split_and!; [done..|]. right. by left.
    + do 4 right. exists i, x. rewrite E. split_and!; [done..|]. do 2 right. by apply elem_of_remember.
Qed.

Lemma below_lineage d request e0 r : child_execution d request = Some e0 ->
  below d request r <-> exists e, in_lineage d e0 e /\ r ∈ execution_runs e d.
Proof.
  intros He0. split.
  - induction 1 as [c child i r Hc Hch Hr E|r j x c child i r' _ (e & He & Hin) Hj Hp Hc Hch Hr' E].
    + exists e0. split; [constructor|]. apply in_execution_rows. exists i. split; [done|]. rewrite E.
      apply child_execution_rows in He0 as (c' & child' & ? & ? & ?). congruence.
    + exists (run_execution_id r'). split; [|apply in_execution_rows; eauto].
      eapply lineage_child; [exact He|exact Hin|by apply in_delegation_rows; eauto|].
      apply child_execution_rows. eauto.
  - intros (e & He & Hin). revert r Hin. induction He as [|e r x e' _ IH Hr Hx Hc]; intros r' Hr'.
    + apply in_execution_rows in Hr' as (i & Hi & E). apply child_execution_rows in He0 as (c & child & ? & ? & ?).
      eapply below_child; [done..|congruence].
    + apply in_execution_rows in Hr' as (i & Hi & E). apply child_execution_rows in Hc as (c & child & ? & ? & ?).
      apply in_delegation_rows in Hx as (j & ? & ?). eapply below_nested; [by apply IH|done..|congruence].
Qed.
(** The two readings of the subtree agree. *)
Lemma subtree_holds_lineage d request e0 v : child_execution d request = Some e0 ->
  subtree_holds d request v <-> lineage_authority d e0 request v.
Proof.
  intros He0. unfold subtree_holds, lineage_authority, execution_authority. rewrite elem_of_remember.
  setoid_rewrite (below_lineage d request e0); [|done]. setoid_rewrite run_authority_rows.
  setoid_rewrite elem_of_remember. setoid_rewrite in_delegation_rows. naive_solver.
Qed.
