(* ===== verification/DeliveryUseCases.v ===== *)
(** * Outbound delivery use cases

    [src/friday/application/delivery_lifecycle.py], the transaction of the
    [message.send] tool ([message_tool_gateway.py]) and
    [MaterializeScheduledAnswerDeliveries] of [worker_maintenance.py]. *)

From S2P Require Import Prelude Values RunEntity EventEntity ScheduleEntity ScheduleDelivery Canonical.
From S2P Require Import DeliveryEntity RetryPolicy WorkQueue SkillEntity ConversationEntity Tables Store WorkflowStore DeliveryStore.
From S2P Require Import WorkflowEngine.

Open Scope Z_scope.

Definition PRE_DISPATCH_ATTEMPTS_EXHAUSTED : str := u "delivery_pre_dispatch_attempts_exhausted".
Definition LEASE_EXPIRED_AFTER_DISPATCH : str := u "delivery_lease_expired_after_dispatch".
Definition PRE_DISPATCH_EXHAUSTED_MESSAGE : str :=
  u "Delivery lease expired before dispatch and the retry budget is exhausted; no external message was sent.".
Definition POST_DISPATCH_AMBIGUOUS_MESSAGE : str :=
  u "Delivery lease expired after the dispatch boundary was crossed; the external message may or may not have been sent.".
Definition TransactionFailure (msg : string) : exn := OtherError "TransactionFailure".

Section Lifecycle.
Context `{Env} `{FloatPow} `{Digest}.

(** ** Recovery of expired claims *)

(** [_recover_one] *)
Definition recover_delivery (policy : RetryPolicy) (x : OutboundDelivery) (now : Z) : U bool :=
  if not_none (od_dispatch_started_at x) then
    closed <- attempts_close_expired_as_ambiguous (od_id x) (od_claim_generation x) now
                LEASE_EXPIRED_AFTER_DISPATCH ;;
    raise_if (negb closed)
      (TransactionFailure "delivery attempt history is inconsistent at post-dispatch recovery") ;;;
    parked <- deliveries_mark_expired_post_dispatch_ambiguous (od_id x) (od_claim_generation x) now
                LEASE_EXPIRED_AFTER_DISPATCH POST_DISPATCH_AMBIGUOUS_MESSAGE ;;
    raise_if (negb parked) (TransactionFailure "delivery claim changed during post-dispatch recovery") ;;;
    ret true
  else if od_attempt_count x <? rp_max_attempts policy then
    delay <- lift (compute_delay policy (od_attempt_count x + 1)) ;;
    deliveries_requeue_expired_pre_dispatch (od_id x) (od_claim_generation x) now (now + delay)
  else
    deliveries_fail_expired_pre_dispatch (od_id x) (od_claim_generation x) now
      PRE_DISPATCH_ATTEMPTS_EXHAUSTED PRE_DISPATCH_EXHAUSTED_MESSAGE.
Fixpoint recover_deliveries (policy : RetryPolicy) (now : Z) (expired : list OutboundDelivery) : U nat :=
  match expired with
  | [] => ret 0%nat
  | x :: expired' =>
      recovered <- recover_delivery policy x now ;;
      n <- recover_deliveries policy now expired' ;;
      ret ((if recovered : bool then 1 else 0) + n)%nat
  end.
Definition RecoverExpiredDeliveryClaims (policy : RetryPolicy) (limit : nat) (now : Z) : U nat :=
  expired <- deliveries_find_expired_claims now limit ;;
  recover_deliveries policy now expired.

(** ** Claiming *)
Fixpoint claim_first_delivery (worker_id : str) (now lease_expires_at : Z) (candidates : list OutboundDelivery)
    : U (option DeliveryClaim) :=
  match candidates with
  | [] => commit ;;; ret None
  | x :: candidates' =>
      token <- uuid4_hex ;;
      generation <- deliveries_try_claim (od_id x) worker_id token now lease_expires_at ;;
      match generation with
      | None => claim_first_delivery worker_id now lease_expires_at candidates'
      | Some g => commit ;;; ret (Some (mkDeliveryClaim (od_id x) worker_id token g now lease_expires_at))
      end
  end.
Definition ClaimNextDelivery (policy : RetryPolicy) (worker_id : str) (lease : Z) (limit : nat)
    : U (option DeliveryClaim) :=
  raise_if (lease <=? 0) (ValueError "lease_duration must be greater than zero") ;;;
  raise_if (limit <? 1)%nat (ValueError "candidate_limit must be at least 1") ;;;
  lift (validate_claim_identity_value worker_id "worker_id") ;;;
  with_uow (
    t <- now ;;
    RecoverExpiredDeliveryClaims policy limit t ;;;
    candidates <- deliveries_list_due t limit ;;
    claim_first_delivery worker_id t (t + lease) candidates).

Definition VerifyDeliveryClaim (c : DeliveryClaim) : U bool :=
  with_uow (t <- now ;; active <- deliveries_is_claim_active c t ;; commit ;;; ret active).

(** ** The dispatch boundary *)
Definition BeginDeliveryAttempt (c : DeliveryClaim) : U Z :=
  let* (marked, t) := with_uow (
    t <- now ;;
    marked <- deliveries_mark_dispatch_started c t ;;
    (if marked : bool then
       aid <- new_id ;;
       begun <- attempts_begin_for_claim aid c t t ;;
       raise_if (negb begun)
         (TransactionFailure "dispatch boundary could not open its delivery attempt ledger row")
     else ret tt) ;;;
    commit ;;;
    ret (marked, t)) in
  raise_if (negb marked) (ClaimLost "dispatch boundary lost claim for delivery") ;;;
  ret t.

(** ** Outcomes *)
Inductive DeliveryOutcome : Type :=
| OutDeliver (provider_message_id : option str)
| OutFail (code message : str)
| OutAmbiguous (code message : str)
| OutRouteAmbiguous (code message : str).
Definition outcome_transition (o : DeliveryOutcome) (now : Z) : M OutboundDelivery unit :=
  match o with
  | OutDeliver p => od_deliver (utc now) p
  | OutFail c m => od_fail (utc now) c m
  | OutAmbiguous c m => od_mark_ambiguous (utc now) c m
  | OutRouteAmbiguous c m => od_mark_route_ambiguous (utc now) c m
  end.
Definition attempt_outcome (s : DeliveryStatus) : option DeliveryAttemptOutcome :=
  match s with
  | DDELIVERED => Some AO_DELIVERED | DFAILED => Some AO_FAILED | DAMBIGUOUS => Some AO_AMBIGUOUS
  | _ => None
  end.
Definition outcome_lost : exn := ClaimLost "outcome lost claim for delivery".

(** [_apply] *)
Definition PersistDeliveryOutcome (c : DeliveryClaim) (o : DeliveryOutcome) : U unit :=
  with_uow (
    t <- now ;;
    x <- deliveries_get (dc_delivery_id c) ;;
    x <- need x outcome_lost ;;
    raise_if (negb (bool_decide (od_status x = DSENDING))
              || negb (bool_decide (od_claim_owner x = Some (dc_worker_id c)))
              || negb (bool_decide (od_claim_token x = Some (dc_claim_token c)))
              || negb (od_claim_generation x =? dc_claim_generation c)) outcome_lost ;;;
    let* (y, _) := call (outcome_transition o t) x in
    (if not_none (od_dispatch_started_at y) then
       outcome <- need (attempt_outcome (od_status y))
                    (TransactionFailure "post-dispatch outcome requires a terminal delivery state") ;;
       completed <- attempts_complete_for_claim c t outcome (od_failure_code y) ;;
       raise_if (negb completed) (ClaimLost "outcome attempt lost claim for delivery")
     else ret tt) ;;;
    saved <- deliveries_save_claimed_lifecycle y c t ;;
    raise_if (negb saved) outcome_lost ;;;
    commit).

End Lifecycle.

(** The columns of [MessagingRoute] the dispatcher and the tool read *)
Record MessagingRoute : Type := mkRoute {
  rt_route_id : str; rt_enabled : bool; rt_fingerprint : str; rt_max_body_chars : Z }.

(** ** [message.send] *)
Section MessageSend.
Context `{Env} `{Digest}.

(** [_assert_existing] *)
Definition matches_message (x : OutboundDelivery) (run : RunId) (route : MessagingRoute) (body : str)
    (available_at : Z) : bool :=
  bool_decide (od_source_kind x = AGENT_REQUEST) && id_eqb (od_source_run_id x) run
  && bool_decide (od_route_id x = rt_route_id route)
  && bool_decide (od_route_fingerprint x = rt_fingerprint route) && negb (not_none (od_subject x))
  && bool_decide (od_body x = body) && (od_available_at x =? available_at).
Definition accept_existing (x : OutboundDelivery) (run : RunId) (route : MessagingRoute) (body : str)
    (available_at : Z) : U DeliveryId :=
  raise_if (negb (matches_message x run route body available_at))
    (EntityConflict "existing outbound delivery does not match message invocation") ;;;
  ret (od_id x).

(** The transaction of [execute], on the route, body and time [_parse] accepted *)
Definition send_message (route : MessagingRoute) (body : str) (available_at t : Z) (run : RunId)
    (invocation : ToolInvocationId) : U DeliveryId :=
  with_uow (
    existing <- deliveries_get_by_source_tool_invocation_id invocation ;;
    match existing with
    | Some x => accept_existing x run route body available_at
    | None =>
        did <- new_id ;;
        x <- lift (OutboundDelivery_new did AGENT_REQUEST run (Some invocation) None (rt_route_id route)
                     (rt_fingerprint route) body (utc available_at) (utc t) None None) ;;
        try_except (deliveries_add x ;;; commit ;;; ret (od_id x))
          (fun e => if is_entity_conflict e then Some (
             existing <- deliveries_get_by_source_tool_invocation_id invocation ;;
             existing <- need existing e ;;
             accept_existing existing run route body available_at) else None)
    end).
Definition SendMessage (route : MessagingRoute) (body : str) (deliver_at : option Z) (run : RunId)
    (invocation : ToolInvocationId) : U DeliveryId :=
  t <- now ;;
  send_message route body (default t deliver_at) t run invocation.
End MessageSend.

(** ** Scheduled answers *)

(** [canonical_final_agent_summary] *)
Definition canonical_final_agent_summary (event : option RunEvent) : option str :=
  match event with
  | Some e =>
      if bool_decide (ev_type e = AGENT_FINISHED)
      then match ev_payload e with
           | JDict p => match dict_get (u "summary") p with Some (JStr s) => Some s | _ => None end
           | _ => None
           end
      else None
  | None => None
  end.

(** [summary.replace("\r\n", "\n").replace("\r", "\n")] *)
Fixpoint normalize_newlines (s : str) : str :=
  match s with
  | 13 :: (10 :: s') => 10 :: normalize_newlines s'
  | 13 :: s' => 10 :: normalize_newlines s'
  | c :: s' => c :: normalize_newlines s'
  | [] => []
  end.
(** [unicodedata.category(char) == "Cc"]: the C0 and C1 controls and DEL *)
Definition is_control (c : Z) : bool := (c <? 32) || ((127 <=? c) && (c <=? 159)).
(** [ScheduledAnswerContentGate.validate] *)
Definition content_gate (summary : option str) (max_body_chars : option Z) : option str :=
  match summary with
  | None => None
  | Some s =>
      let normalized := strip (normalize_newlines s) in
      match max_body_chars with
      | None => None
      | Some m =>
          if empty_str normalized || (m <=? 0) || (len normalized >? Z.min m MAX_BODY_LENGTH) then None
          else if existsb (fun c => is_control c && negb (c =? 10)) normalized then None
          else match encode normalized with Ok _ => Some normalized | Raise _ => None end
      end
  end.

Section Materialize.
Context `{Env} `{Digest}.

Definition reject_answer (f : ScheduleFireId) (r : RunId) : U bool :=
  rejected <- plans_mark_content_rejected f r ;;
  (if rejected : bool then commit else ret tt) ;;;
  ret false.
(** [_materialize_one]; a plan has only one content source. *)
Definition materialize_answer (f : ScheduleFireId) : U bool :=
  with_uow (
    plan <- plans_get_by_fire f ;;
    match plan with
    | None => ret false
    | Some p =>
        if negb (bool_decide (pl_status p = PLAN_READY)) then ret false else
        existing <- deliveries_get_by_source_schedule_fire_id (pl_schedule_fire_id p) ;;
        if not_none existing then ret false else
        run <- runs_get_latest_for_execution (pl_execution_id p) ;;
        match run with
        | None => ret false
        | Some r =>
            if negb (id_eqb (run_execution_id r) (pl_execution_id p)) then ret false else
            if negb (bool_decide (run_status r = RSUCCEEDED)) then ret false else
            event <- events_latest_of_type_for_run (run_id r) AGENT_FINISHED ;;
            match content_gate (canonical_final_agent_summary event) (pl_route_max_body_chars p),
                  pl_route_fingerprint p with
            | Some body, Some fingerprint =>
                t <- now ;;
                did <- new_id ;;
                x <- lift (OutboundDelivery_new did SCHEDULED_RUN_ANSWER (run_id r) None
                             (Some (pl_schedule_fire_id p)) (pl_route_id p) fingerprint body (utc t) (utc t)
                             None None) ;;
                deliveries_add x ;;;
                commit ;;;
                ret true
            | _, _ => reject_answer (pl_schedule_fire_id p) (run_id r)
            end
        end
    end).
(** Each candidate's faults are isolated. *)
Fixpoint materialize_answers (fires : list ScheduleFireId) : U nat :=
  match fires with
  | [] => ret 0%nat
  | f :: fires' =>
      done <- try_except (materialize_answer f) (fun _ => Some (ret false)) ;;
      n <- materialize_answers fires' ;;
      ret ((if done : bool then 1 else 0) + n)%nat
  end.
Definition MaterializeScheduledAnswerDeliveries (batch : nat) : U nat :=
  fires <- with_uow (plans_list_ready_without_delivery batch) ;;
  materialize_answers fires.
End Materialize.
