(* ===== verification/DelegationUseCases.v ===== *)
(** * Delegation use cases

    [src/friday/application/delegation.py]: recording a delegation contract,
    and dispatching one: a running parent run is parked on a child run that is
    materialised in the same transaction, within budgets per run and per
    delegation tree and a bound on the depth. *)

From S2P Require Import Prelude Values RunEntity TaskEntity StepEntity ToolEntity ApprovalEntity.
From S2P Require Import EventEntity ScheduleEntity Canonical DelegationEntity WorkQueue AgentEntity.
From S2P Require Import WorkflowExecutionEntity SkillEntity ConversationEntity Tables Store Lifecycle RunUseCases TaskUseCases.
From S2P Require Import StepUseCases AgentUseCases.

Open Scope Z_scope.

Definition MAX_DISPATCH_INPUT_BYTES : Z := 16384.

(** The limits a [DispatchDelegation] is constructed with *)
Record DispatchLimits : Type := mkLimits {
  lim_per_run : Z; lim_per_tree : Z; lim_depth : Z }.
Definition default_limits : DispatchLimits :=
  mkLimits MAX_DELEGATIONS_PER_RUN MAX_DELEGATIONS_PER_TREE MAX_DELEGATION_DEPTH.
(** [DispatchDelegation.__init__] *)
Definition DispatchLimits_check (l : DispatchLimits) : res DispatchLimits :=
  if lim_per_run l <? 1 then Raise (ValueError "max_delegations_per_run must be positive")
  else if lim_per_tree l <? 1 then Raise (ValueError "max_delegations_per_tree must be positive")
  else if lim_depth l <? 1 then Raise (ValueError "max_delegation_depth must be >= 1")
  else Ok l.

Section DelegationUseCases.
Context `{Env} `{Digest}.

(** A step that scopes a delegation must belong to the parent run. *)
Definition check_parent_step (parent : RunId) (step : option RunStepId) : U unit :=
  match step with
  | None => ret tt
  | Some sid =>
      s <- need_step sid ;;
      raise_if (negb (id_eqb (step_run_id s) parent))
        (EntityConflict "parent_run_step_id must belong to the parent run")
  end.

Definition agent_available (a : Agent) : bool :=
  bool_decide (ag_status a = AG_ACTIVE) && not_none (ag_active_revision_id a).

Definition CreateDelegationRequest (parent : RunId) (target : AgentId) (objective : str)
    (input_payload : pyval) (contract : str) (step : option RunStepId) : U DelegationRequest :=
  with_uow (
    need_run parent ;;;
    check_parent_step parent step ;;;
    agent <- need_agent target ;;
    raise_if (negb (agent_available agent))
      (EntityConflict "delegation target requires an active agent with an active revision") ;;;
    did <- new_id ;;
    t <- now ;;
    request <- lift (DelegationRequest_new did parent target objective input_payload contract (utc t)
                       step None None) ;;
    delegations_add request ;;;
    commit ;;;
    ret request).

Definition GetDelegationRequest (id : DelegationRequestId) : U DelegationRequest :=
  with_uow (x <- delegations_get id ;; need x (DelegationRequestNotFound (value id))).
Definition ListDelegationsForRun (id : RunId) : U (list DelegationRequest) :=
  with_uow (need_run id ;;; delegations_list_for_run id).

(** The root and depth a new hop inherits from the delegation its parent's
    execution came from *)
Definition hop_of (limits : DispatchLimits) (incoming : option DelegationRequest)
    : U (option DelegationRequestId * Z) :=
  match incoming with
  | None => ret (None, 1)
  | Some x =>
      raise_if (lim_depth limits <? dl_depth x + 1) (EntityConflict "delegation_depth_exhausted") ;;;
      ret (Some (dl_root_delegation_id x), dl_depth x + 1)
  end.

(** The write fences and the two budgets *)
Definition check_budgets (limits : DispatchLimits) (parent : RunId) (root : option DelegationRequestId)
    : U unit :=
  match root with
  | None => ret tt
  | Some r =>
      locked <- delegations_lock_tree_for_dispatch r ;;
      raise_if (negb locked) (EntityConflict "delegation_lineage_invalid")
  end ;;;
  locked <- runs_lock_for_delegation_dispatch parent ;;
  raise_if (negb locked) (RunNotFound (value parent)) ;;;
  direct <- delegations_count_materialized_for_run parent ;;
  raise_if (lim_per_run limits <=? direct) (EntityConflict "delegation_budget_exhausted") ;;;
  match root with
  | None => ret tt
  | Some r =>
      tree <- delegations_count_materialized_for_tree r ;;
      raise_if (lim_per_tree limits <=? tree) (EntityConflict "delegation_budget_exhausted")
  end.

(** The target agent, resolvable by this installation *)
Definition resolve_target (reg : BrainRuntimeRegistry) (key : str) : U Agent :=
  agent <- agents_get_by_key key ;;
  agent <- need agent (EntityConflict "delegation_target_not_found") ;;
  raise_if (negb (bool_decide (ag_status agent = AG_ACTIVE)))
    (EntityConflict "delegation_target_unavailable") ;;;
  active <- need (ag_active_revision_id agent) (EntityConflict "delegation_target_unavailable") ;;
  revision <- agent_revisions_get active ;;
  revision <- need revision (EntityConflict "delegation_target_revision_unavailable") ;;
  raise_if (negb (id_eqb (av_agent_id revision) (ag_id agent)))
    (EntityConflict "delegation_target_revision_unavailable") ;;;
  raise_if (negb (is_registered reg (av_runtime_kind revision)))
    (EntityConflict "delegation_target_runtime_unavailable") ;;;
  match validate_runtime_config reg (av_runtime_kind revision) (to_py (av_runtime_config revision)) with
  | Ok _ => ret agent
  | Raise _ => raise (EntityConflict "delegation_target_runtime_unavailable")
  end.

(** The child task, bound to the target agent, with its first run *)
Definition start_child (objective : str) (agent : AgentId) (t : Z) : U (TaskId * RunId) :=
  tid <- new_id ;;
  task <- lift (Task_new tid (take 4000%nat (u "Delegated: " ++ objective)) objective (utc t)) ;;
  tasks_add task ;;;
  task_agents_replace (task_id task) (Some (mkTaskAgent (task_id task) agent t)) ;;;
  start_run_in_uow task t.

Definition dispatch_specs (request : DelegationRequest) (parent : Run) (child_task : TaskId)
    (child_run : RunId) (agent : AgentId) : list EventSpec :=
  [(DELEGATION_DISPATCHED,
    JDict [(u "delegation_request_id", JStr (value (dl_id request)));
           (u "child_task_id", JStr (value child_task)); (u "child_run_id", JStr (value child_run));
           (u "target_agent_id", JStr (value agent));
           (u "status", str_of (delegation_status_value (dl_status request)))], None);
   (RUN_WAITING_FOR_DELEGATION,
    JDict [(u "run_id", JStr (value (run_id parent)));
           (u "delegation_request_id", JStr (value (dl_id request)))], None)].

Definition DispatchDelegation (reg : BrainRuntimeRegistry) (limits : DispatchLimits) (parent_id : RunId)
    (c : Claim) (target_key objective : str) (input_payload : pyval) (contract : str)
    (step : option RunStepId) : U DelegationRequest :=
  with_uow (
    t <- now ;;
    active <- on_queue (is_claim_active parent_id c t) ;;
    raise_if (negb active) (ClaimLost "delegation dispatch requires an exact active claim") ;;;
    parent <- need_run parent_id ;;
    raise_if (negb (bool_decide (run_status parent = RRUNNING)))
      (EntityConflict "delegation parent must be running") ;;;
    incoming <- delegations_get_for_child_execution (run_execution_id parent) ;;
    let* (root, depth) := hop_of limits incoming in
    check_budgets limits (run_id parent) root ;;;
    input <- lift (ensure_json_value input_payload) ;;
    bytes <- lift (encode (json_dumps false input)) ;;
    raise_if (MAX_DISPATCH_INPUT_BYTES <? len bytes) (EntityConflict "delegation_input_too_large") ;;;
    check_parent_step (run_id parent) step ;;;
    agent <- resolve_target reg target_key ;;
    did <- new_id ;;
    request <- lift (DelegationRequest_new did (run_id parent) (ag_id agent) objective (to_py input)
                       contract (utc t) step root (Some depth)) ;;
    let* (child_task, child_run) := start_child (dl_objective request) (ag_id agent) t in
    let* (request', _) := call (dl_dispatch child_task child_run (utc t)) request in
    delegations_add request' ;;;
    let* (parent', _) := call (run_wait_for_delegation (utc t) (dl_id request')) parent in
    runs_save parent' ;;;
    removed <- on_queue (remove_if_claimed (run_id parent') c t) ;;
    raise_if (negb removed) (ClaimLost "delegation dispatch lost claim") ;;;
    append_run_events parent' t (dispatch_specs request' parent' child_task child_run (ag_id agent)) ;;;
    commit ;;;
    ret request').
End DelegationUseCases.
