(* ===== verification/ScheduleUseCases.v ===== *)
(** * Schedule use cases

    [src/friday/application/schedule_recurrence.py], [schedule_lifecycle.py],
    [put_schedule_delivery_policy.py] and [materialize_due_schedule.py].  Cron
    expansion (croniter) and the time zone database are the class [Calendar];
    the resolver of delivery routes is a parameter. *)

From S2P Require Import Prelude Values RunEntity TaskEntity StepEntity ToolEntity ApprovalEntity.
From S2P Require Import EventEntity ScheduleEntity ScheduleDelivery DelegationEntity WorkQueue.
From S2P Require Import WorkflowExecutionEntity SkillEntity ConversationEntity Tables Store Lifecycle RunUseCases TaskUseCases.
From S2P Require Import AgentUseCases.

Open Scope Z_scope.

(** [zone_known]: [ZoneInfo(name)] exists.  [from_wall zone w]: the instant of
    the wall time [w] (the earlier one when ambiguous); [to_wall]: the wall time
    of an instant.  [cron_next expr zone t]: croniter's next local occurrence
    after the instant [t], [None] when it refuses the expression. *)
Class Calendar : Type := {
  zone_known : str -> bool;
  from_wall : str -> Z -> Z;
  to_wall : str -> Z -> Z;
  cron_next : str -> str -> Z -> option Z }.

(** What the code relies on: the next occurrence is in the future. *)
Class CalendarSpec `{Calendar} : Prop :=
  cron_next_later : forall e z t t', cron_next e z t = Some t' -> t < t'.

(** [len(s.split())]: the number of whitespace-separated words *)
Fixpoint word_count (in_word : bool) (s : str) : Z :=
  match s with
  | [] => if in_word then 1 else 0
  | c :: s' => if is_space c then (if in_word then 1 else 0) + word_count false s'
               else word_count true s'
  end.

Section Recurrence.
Context `{Calendar}.

(** [_resolve_run_at] *)
Definition resolve_run_at (value : datetime) (timezone : str) : res Z :=
  if is_aware value then ensure_utc value
  else
    let t := from_wall timezone (dt_wall value) in
    if negb (to_wall timezone t =? dt_wall value)
    then Raise (DomainValidationError "Schedule.run_at is a nonexistent local time")
    else Ok t.

(** [_next_cron] *)
Definition next_cron (expression timezone : str) (after : datetime) : res Z :=
  if negb (word_count false expression =? 5)
  then Raise (DomainValidationError "Schedule.cron must have exactly five fields (no seconds)")
  else res_bind (ensure_utc after) (fun t =>
       match cron_next expression timezone t with
       | Some t' => Ok t'
       | None => Raise (DomainValidationError "Schedule.cron is invalid")
       end).

Definition first_occurrence (kind : ScheduleKind) (cron : option str) (run_at : option datetime)
    (timezone : str) (now : datetime) : res (option Z) :=
  res_bind (validate_timezone zone_known timezone) (fun _ =>
  match kind with
  | SK_ONCE =>
      match run_at with
      | None => Ok None
      | Some r =>
          res_bind (resolve_run_at r timezone) (fun value =>
          res_bind (ensure_utc now) (fun t =>
          if value <=? t then Raise (DomainValidationError "Schedule.run_at must be in the future")
          else Ok (Some value)))
      end
  | SK_CRON =>
      match cron with
      | None => Raise AssertionError
      | Some c => res_bind (next_cron c timezone now) (fun t => Ok (Some t))
      end
  end).

Definition next_occurrence (s : Schedule) (after : datetime) : res (option Z) :=
  match sc_kind s with
  | SK_ONCE =>
      match sc_run_at s with
      | Some r => res_bind (ensure_utc after) (fun t => Ok (if r >? t then Some r else None))
      | None => Ok None
      end
  | SK_CRON =>
      match sc_cron s with
      | None => Raise AssertionError
      | Some c => res_bind (next_cron c (sc_timezone s) after) (fun t => Ok (Some t))
      end
  end.

Definition coalesced_next (s : Schedule) (now : datetime) : res (option Z) :=
  match sc_kind s with
  | SK_ONCE => Ok None
  | SK_CRON =>
      match sc_cron s with
      | None => Raise AssertionError
      | Some c => res_bind (next_cron c (sc_timezone s) now) (fun t => Ok (Some t))
      end
  end.
End Recurrence.

Record CreateScheduleCommand : Type := mkCreateSchedule {
  cs_task_id : TaskId; cs_kind : ScheduleKind; cs_cron : option str; cs_run_at : option datetime;
  cs_timezone : str }.

Inductive ScheduleAction : Type := SchedulePause | ScheduleResume | ScheduleCancel.

Section ScheduleUseCases.
Context `{Env} `{Calendar}.

Definition CreateSchedule (c : CreateScheduleCommand) : U Schedule :=
  with_uow (
    task <- need_task (cs_task_id c) ;;
    t <- now ;;
    lift (validate_timezone zone_known (cs_timezone c)) ;;;
    run_at <- match cs_kind c, cs_run_at c with
              | SK_ONCE, Some r => r' <- lift (resolve_run_at r (cs_timezone c)) ;; ret (Some (utc r'))
              | _, r => ret r
              end ;;
    sid <- new_id ;;
    first <- lift (first_occurrence (cs_kind c) (cs_cron c) run_at (cs_timezone c) (utc t)) ;;
    schedule <- lift (Schedule_new zone_known sid (task_id task) (cs_kind c) (cs_cron c) run_at
                        (cs_timezone c) (utc t) (option_map utc first)) ;;
    schedules_add schedule ;;;
    commit ;;;
    ret schedule).

Definition need_schedule (id : ScheduleId) (task : option TaskId) : U Schedule :=
  s <- schedules_get id ;;
  s <- need s (ScheduleNotFound (value id)) ;;
  raise_if (match task with Some t => negb (id_eqb (sc_task_id s) t) | None => false end)
    (ScheduleNotFound (value id)) ;;;
  ret s.

(** [ScheduleControl._change] *)
Definition ScheduleControl (id : ScheduleId) (action : ScheduleAction) (task : option TaskId) : U Schedule :=
  with_uow (
    s <- need_schedule id task ;;
    t <- now ;;
    let* (s', _) :=
      try_except
        (match action with
         | ScheduleResume =>
             next <- lift (next_occurrence s (utc t)) ;;
             call (sc_resume (utc t) (option_map utc next)) s
         | SchedulePause => call (sc_pause (utc t)) s
         | ScheduleCancel => call (sc_cancel (utc t)) s
         end)
        (fun e => option_map raise (transition_conflict e)) in
    schedules_save s' ;;;
    commit ;;;
    ret s').

Definition GetSchedule (id : ScheduleId) (task : option TaskId) : U Schedule :=
  with_uow (need_schedule id task).
Definition ListSchedulesForTask (t : TaskId) (limit : nat) : U (list Schedule) :=
  with_uow (schedules_list_for_task t limit).

Definition PutScheduleDeliveryPolicy (id : ScheduleId) (task : TaskId) (route_id : str) (enabled : bool)
    : U ScheduleDeliveryPolicy :=
  with_uow (
    s <- need_schedule id (Some task) ;;
    raise_if (schedule_terminal (sc_status s))
      (EntityConflict "terminal schedule cannot own delivery policy") ;;;
    t <- now ;;
    policy <- delivery_policies_get_for_schedule (sc_id s) ;;
    policy' <- match policy with
               | None => lift (ScheduleDeliveryPolicy_new (sc_id s) route_id enabled (utc t))
               | Some p =>
                   let* (p1, _) := call (dp_update_route route_id (utc t)) p in
                   let* (p2, _) := call (dp_set_enabled enabled (utc t)) p1 in
                   ret p2
               end ;;
    ok <- delivery_policies_put_for_nonterminal_schedule policy' ;;
    raise_if (negb ok) (EntityConflict "schedule became terminal while updating delivery policy") ;;;
    commit ;;;
    ret policy').

(** ** [MaterializeDueSchedules] *)

(** The plan frozen for a fire, from the authority its route resolves to *)
Definition plan_for (resolve_route : str -> option DeliveryRouteAuthority) (policy : ScheduleDeliveryPolicy)
    (id : ScheduleFireDeliveryPlanId) (fire : ScheduleFire) (t : Z) : res ScheduleFireDeliveryPlan :=
  let suppressed reason :=
    DeliveryPlan_suppressed id (sf_id fire) (sf_schedule_id fire) (sf_run_id fire) (dp_route_id policy)
      reason (utc t) in
  match resolve_route (dp_route_id policy) with
  | None => suppressed (u "schedule_delivery_route_missing")
  | Some a =>
      if negb (bool_decide (ra_route_id a = dp_route_id policy))
      then suppressed (u "schedule_delivery_route_missing")
      else if negb (ra_enabled a) then suppressed (u "schedule_delivery_route_disabled")
      else DeliveryPlan_ready id (sf_id fire) (sf_schedule_id fire) (sf_run_id fire)
             (dp_route_id policy) (ra_fingerprint a) (ra_max_body_chars a) (utc t)
  end.

Definition plan_delivery (resolve_route : str -> option DeliveryRouteAuthority) (fire : ScheduleFire)
    (t : Z) : U unit :=
  policy <- delivery_policies_get_for_schedule (sf_schedule_id fire) ;;
  match policy with
  | None => ret tt
  | Some p =>
      if dp_enabled p then
        pid <- new_id ;;
        plan <- lift (plan_for resolve_route p pid fire t) ;;
        delivery_plans_add_for_fire plan fire
      else ret tt
  end.

(** One occurrence: the run, the fire and its plan, the next occurrence *)
Definition fire_schedule (resolve_route : str -> option DeliveryRouteAuthority) (s : Schedule)
    (occurrence : Z) (task : Task) (t : Z) : U bool :=
  let* (_, run) := start_run_in_uow task t in
  root <- runs_get run ;;
  raise_if (match root with Some r => negb (id_eqb (run_id r) (run_execution_id r)) | None => true end)
    (EntityConflict "scheduled fire requires a root execution run") ;;;
  fid <- new_id ;;
  fire <- lift (ScheduleFire_new fid (sc_id s) (utc occurrence) (utc t) run) ;;
  schedule_fires_add fire ;;;
  plan_delivery resolve_route fire t ;;;
  next <- lift (coalesced_next s (utc t)) ;;
  let* (s', _) := call (sc_advance_after_fire (utc t) (option_map utc next)) s in
  schedules_save s' ;;;
  commit ;;;
  ret true.

(** The body of [_materialize_one] *)
Definition materialize_in_uow (resolve_route : str -> option DeliveryRouteAuthority) (id : ScheduleId)
    : U bool :=
  with_uow (
    schedule <- schedules_get id ;;
    t <- now ;;
    match schedule with
    | None => ret false
    | Some s =>
        if negb (schedule_due t s) then ret false
        else
        task <- need_task (sc_task_id s) ;;
        if negb (bool_decide (task_status task ∈ [TPENDING; TACTIVE])) then
          let* (s', _) := call (sc_complete (utc t)) s in
          schedules_save s' ;;;
          commit ;;;
          ret false
        else
        busy <- fires_has_non_terminal_execution_for_schedule (sc_id s) ;;
        if busy then commit ;;; ret false
        else
        occurrence <- need (sc_next_fire_at s) AssertionError ;;
        fire_schedule resolve_route s occurrence task t
    end).
Definition materialize_one (resolve_route : str -> option DeliveryRouteAuthority) (id : ScheduleId)
    : U bool :=
  try_except (materialize_in_uow resolve_route id)
    (fun e => if is_entity_conflict e then Some (ret false) else None).

(** Every other exception of one schedule is logged and the batch goes on. *)
Fixpoint materialize_all (resolve_route : str -> option DeliveryRouteAuthority) (ids : list ScheduleId)
    : U Z :=
  match ids with
  | [] => ret 0
  | id :: ids' =>
      fired <- try_except (materialize_one resolve_route id) (fun _ => Some (ret false)) ;;
      n <- materialize_all resolve_route ids' ;;
      ret ((if fired : bool then 1 else 0) + n)
  end.

Definition MaterializeDueSchedules (resolve_route : str -> option DeliveryRouteAuthority)
    (batch_size : nat) : U Z :=
  due <- with_uow (t <- now ;; schedules_list_due t batch_size) ;;
  materialize_all resolve_route (map sc_id due).
End ScheduleUseCases.
