(* ===== verification/WorkerUseCases.v ===== *)
(** * Worker coordination and maintenance

    [src/friday/application/worker_coordination.py] and the lease and approval
    ticks of [worker_maintenance.py]: claiming, renewing, releasing, the three
    outcomes of a processed run, lease recovery and approval expiry. *)

From S2P Require Import Prelude Values RunEntity TaskEntity StepEntity ToolEntity ApprovalEntity.
From S2P Require Import EventEntity ScheduleEntity Canonical RetryPolicy DelegationEntity WorkQueue.
From S2P Require Import WorkflowExecutionEntity SkillEntity ConversationEntity Tables Store Lifecycle RunUseCases ApprovalUseCases.

Open Scope Z_scope.

Record RunClaimResult : Type := mkClaimResult {
  rc_run_id : RunId; rc_task_id : TaskId; rc_claim : Claim; rc_attempt_number : Z;
  rc_acquired_at : Z; rc_lease_expires_at : Z }.

(** A run with nothing to execute: terminal, or parked. *)
Definition parked (s : RunStatus) : bool :=
  bool_decide (s ∈ [RWAITING_FOR_APPROVAL; RWAITING_FOR_DELEGATION; RWAITING_FOR_WORKFLOW]).
Definition not_runnable (r : option Run) : bool :=
  match r with None => true | Some r => run_terminal (run_status r) || parked (run_status r) end.

Section WorkerUseCases.
Context `{Env}.

(** One candidate of [ClaimNextRun]: [Some] result ends the loop. *)
Definition claim_candidate (worker_id : str) (lease_duration t : Z) (id : RunId)
    : U (option RunClaimResult) :=
  claim_token <- uuid4_hex ;;
  let lease_expires_at := t + lease_duration in
  claimed <- on_queue (try_claim id worker_id claim_token t lease_expires_at) ;;
  if negb claimed then ret None
  else
  run <- runs_get id ;;
  match run with
  | Some run =>
      if not_runnable (Some run) then on_queue (wq_remove id) ;;; ret None
      else
      run' <- (if bool_decide (run_status run = RQUEUED) then
                 let* (run', _) := call (run_start (utc t)) run in
                 runs_save run' ;;;
                 append_run_events run' t [run_spec RUN_STARTED run'] ;;;
                 ret run'
               else ret run) ;;
      item <- on_queue (wq_get id) ;;
      item <- need item AssertionError ;;
      commit ;;;
      attempt <- runs_ordinal_for_execution (run_id run') ;;
      ret (Some (mkClaimResult (run_id run') (run_task_id run')
        (mkClaim worker_id claim_token (wi_claim_generation item)) attempt t lease_expires_at))
  | None => on_queue (wq_remove id) ;;; ret None
  end.

Fixpoint claim_first (worker_id : str) (lease_duration t : Z) (candidates : list (RunId * RunWorkItem))
    : U (option RunClaimResult) :=
  match candidates with
  | [] => commit ;;; ret None
  | (id, _) :: rest =>
      r <- claim_candidate worker_id lease_duration t id ;;
      match r with
      | Some r => ret (Some r)
      | None => claim_first worker_id lease_duration t rest
      end
  end.

Definition ClaimNextRun (worker_id : str) (lease_duration : Z) (candidate_limit : nat)
    : U (option RunClaimResult) :=
  with_uow (
    t <- now ;;
    candidates <- on_queue (find_due_candidates t candidate_limit) ;;
    claim_first worker_id lease_duration t candidates).

(** The fenced queue operations commit first and then report a lost claim. *)
Definition fenced (op : Z -> M Queue bool) (msg : string) : U Z :=
  let* (t, ok) := with_uow (t <- now ;; ok <- on_queue (op t) ;; commit ;;; ret (t, ok)) in
  raise_if (negb ok) (ClaimLost msg) ;;;
  ret t.

Definition RenewRunLease (lease_duration : Z) (id : RunId) (c : Claim) : U Z :=
  t <- fenced (fun t => renew_lease id c t (t + lease_duration)) "lease renewal lost" ;;
  ret (t + lease_duration).
Definition ReleaseRunClaim (id : RunId) (c : Claim) : U unit :=
  fenced (release_claim id c) "claim release lost" ;;; ret tt.
Definition RequeueClaimedRun (id : RunId) (c : Claim) (available_at : Z) : U unit :=
  fenced (fun t => requeue_claimed id c available_at t t) "requeue lost claim" ;;; ret tt.
Definition CompleteRunWorkItem (id : RunId) (c : Claim) : U unit :=
  fenced (remove_if_claimed id c) "work item completion lost claim" ;;; ret tt.
Definition VerifyRunClaim (id : RunId) (c : Claim) : U bool :=
  with_uow (t <- now ;; active <- on_queue (is_claim_active id c t) ;; commit ;;; ret active).

(** [uow.commit(); raise e] *)
Definition commit_raise {A} (e : exn) : U A := commit ;;; raise e.

(** Creating the automatic retry of a failed attempt *)
Definition create_retry `{FloatPow} (policy : RetryPolicy) (run : Run) (attempt_number t : Z) : U unit :=
  rid <- new_id ;;
  retry <- lift (Run_new rid (run_task_id run) (utc t) (Some (run_execution_id run))) ;;
  runs_add retry ;;;
  inherit_frozen_resolutions_in_uow run retry ;;;
  delay <- lift (compute_delay policy (attempt_number + 1)) ;;
  on_queue (enqueue (run_id retry) (t + delay) t) ;;;
  append_run_events retry t [(RUN_CREATED, retry_payload (run_task_id run) (run_id run), None)].

Definition ApplyFailedOutcome `{FloatPow} (policy : RetryPolicy) (id : RunId) (c : Claim)
    (failure : Failure) : U RunResult :=
  with_uow (
    t <- now ;;
    run <- runs_get id ;;
    match run with
    | None => commit_raise (RunNotFound (value id))
    | Some run =>
      locked <- runs_lock_execution_lineage (run_execution_id run) ;;
      if negb locked then commit_raise (RunNotFound (value id))
      else
      removed <- on_queue (remove_if_claimed id c t) ;;
      if negb removed then commit_raise (ClaimLost "failed outcome lost claim")
      else
      let* (run', specs) := fail_run_event_specs run t failure in
      append_run_events run' t specs ;;;
      materialize_skill_usage_in_uow (run_id run') t ;;;
      attempt_number <- runs_ordinal_for_execution (run_id run') ;;
      (if is_retry_allowed policy attempt_number failure
       then create_retry policy run' attempt_number t
       else reconcile_child_terminal_in_uow run' t) ;;;
      commit ;;;
      ret (run_result run')
    end).

Definition ApplySucceededOutcome (id : RunId) (c : Claim) (final_response : option (str * json))
    : U RunResult :=
  with_uow (
    t <- now ;;
    run <- need_run id ;;
    steps <- steps_list_for_run (run_id run) ;;
    raise_if (existsb (fun s => negb (step_terminal (step_status s))) steps)
      (EntityConflict "run has non-terminal steps") ;;;
    tools <- tools_list_for_run (run_id run) ;;
    raise_if (existsb (fun x => negb (tool_terminal (tool_status x))) tools)
      (EntityConflict "run has non-terminal tool invocations") ;;;
    has_steps <- steps_has_non_terminal_for_run id ;;
    has_tools <- tools_has_non_terminal_for_run id ;;
    raise_if (has_steps || has_tools) (EntityConflict "run has non-terminal children") ;;;
    has_approvals <- approvals_has_pending_for_run id ;;
    raise_if has_approvals (EntityConflict "run has pending approvals") ;;;
    dispatched <- delegations_has_dispatched_for_run id ;;
    raise_if dispatched (EntityConflict "run has an active delegation") ;;;
    removed <- on_queue (remove_if_claimed id c t) ;;
    raise_if (negb removed) (ClaimLost "successful outcome lost claim") ;;;
    let* (run', specs) := succeed_run_event_specs run t in
    let specs := match final_response with
                 | None => specs
                 | Some (summary, details) =>
                     (AGENT_FINISHED, JDict [(u "summary", JStr (take 4000%nat summary));
                                             (u "details", details)], None) :: specs
                 end in
    append_run_events run' t specs ;;;
    reconcile_child_terminal_in_uow run' t ;;;
    materialize_skill_usage_in_uow (run_id run') t ;;;
    commit ;;;
    ret (run_result run')).

(** [item.claimed_by != worker_id or item.claim_token != ... or ...] *)
Definition item_claim_differs (w : RunWorkItem) (c : Claim) : bool :=
  negb (bool_decide (wi_claimed_by w = Some (cl_worker_id c)))
  || negb (bool_decide (wi_claim_token w = Some (cl_token c)))
  || negb (wi_claim_generation w =? cl_generation c).

(** The work item of a run that was resumed before its processor reported
    back belongs to someone else. *)
Definition resolved_meanwhile (run : Run) (item : option RunWorkItem) (c : Claim) (msg : string)
    : U RunResult :=
  match item with
  | None => commit ;;; ret (run_result run)
  | Some w =>
      if item_claim_differs w c then commit_raise (ClaimLost "stale waiting outcome")
      else commit_raise (EntityConflict msg)
  end.
(** Drop the work item of a parked run, if it is still there. *)
Definition drop_item (run : Run) (item : option RunWorkItem) (c : Claim) : U RunResult :=
  match item with
  | None => commit ;;; ret (run_result run)
  | Some _ =>
      t <- now ;;
      removed <- on_queue (remove_if_claimed (run_id run) c t) ;;
      raise_if (negb removed) (ClaimLost "waiting outcome lost claim") ;;;
      commit ;;;
      ret (run_result run)
  end.

Definition ApplyWaitingOutcome (id : RunId) (c : Claim) (aid : ApprovalRequestId) : U RunResult :=
  with_uow (
    run <- runs_get id ;;
    match run with
    | None => commit_raise (RunNotFound (value id))
    | Some run =>
    approval <- approvals_get aid ;;
    match approval with
    | None => commit_raise (ApprovalNotFound (value aid))
    | Some approval =>
    if negb (opt_id_eqb (ap_run_id approval) (run_id run))
    then commit_raise (EntityConflict "approval request does not belong to run")
    else
    item <- on_queue (wq_get id) ;;
    if bool_decide (run_status run = RRUNNING) && approval_terminal (ap_status approval)
    then resolved_meanwhile run item c "processor reported waiting_for_approval after approval resolution"
    else if negb (bool_decide (run_status run = RWAITING_FOR_APPROVAL))
    then commit_raise (EntityConflict "processor reported waiting_for_approval but the run is not waiting")
    else if negb (opt_id_eqb (run_approval_request_id run) (ap_id approval))
    then commit_raise (EntityConflict "run is waiting for a different approval request")
    else if negb (bool_decide (ap_status approval ∈ APENDING :: TERMINAL_APPROVAL_STATUSES))
    then commit_raise (EntityConflict "approval request has an invalid status")
    else drop_item run item c
    end
    end).

Definition ApplyWaitingForDelegationOutcome (id : RunId) (c : Claim) (did : DelegationRequestId)
    : U RunResult :=
  with_uow (
    run <- runs_get id ;;
    match run with
    | None => commit_raise (RunNotFound (value id))
    | Some run =>
    request <- delegations_get did ;;
    match request with
    | None => commit_raise (DelegationRequestNotFound (value did))
    | Some request =>
    if negb (id_eqb (dl_parent_run_id request) (run_id run))
    then commit_raise (EntityConflict "delegation request does not belong to run")
    else
    item <- on_queue (wq_get id) ;;
    if bool_decide (run_status run = RRUNNING) && delegation_terminal (dl_status request)
    then resolved_meanwhile run item c
           "processor reported waiting_for_delegation after delegation resolution"
    else if negb (bool_decide (run_status run = RWAITING_FOR_DELEGATION))
    then commit_raise
           (EntityConflict "processor reported waiting_for_delegation but the run is not waiting")
    else if negb (opt_id_eqb (run_delegation_request_id run) (dl_id request))
    then commit_raise (EntityConflict "run is waiting for a different delegation request")
    else if negb (bool_decide (dl_status request = DDISPATCHED))
    then commit_raise (EntityConflict "delegation request has an invalid status")
    else drop_item run item c
    end
    end).

(** ** Maintenance ticks *)
Fixpoint count_true (l : list (U bool)) : U Z :=
  match l with
  | [] => ret 0
  | m :: l' => b <- m ;; n <- count_true l' ;; ret ((if b : bool then 1 else 0) + n)
  end.

Definition RecoverExpiredLeases (batch_size : nat) : U Z :=
  with_uow (
    t <- now ;;
    expired <- on_queue (find_expired_claims t batch_size) ;;
    recovered <- count_true (map (fun x : RunId * RunWorkItem =>
      run <- runs_get x.1 ;;
      if not_runnable run then on_queue (remove_if_lease_expired x.1 t)
      else on_queue (clear_expired_claim x.1 t)) expired) ;;
    commit ;;;
    ret recovered).

Definition ExpireDueApprovals (batch_size : nat) : U (list ApprovalRequest) :=
  due <- with_uow (t <- now ;; due <- approvals_list_due_for_expiry t batch_size ;; commit ;;; ret due) ;;
  collect due (fun a =>
    try_except (r <- ExpireApproval (ap_id a) ;; ret [r])
      (fun e => if is_entity_conflict e then Some (ret []) else None)).
End WorkerUseCases.
