(* ===== verification/System.v ===== *)
(** * The application as a machine

    Every modelled use case is one atomic step on the world.  A history starts
    from an empty database and runs any use cases in any order with any
    arguments: concurrent API requests and workers interleave at transaction
    boundaries, and [ExpireDueApprovals], which uses several transactions, is a
    sequence of them; a tool execution is three operations, between which
    anything may happen. *)

From S2P Require Import Prelude Values RunEntity TaskEntity StepEntity ToolEntity ApprovalEntity.
From S2P Require Import EventEntity ScheduleEntity ScheduleDelivery Canonical RetryPolicy.
From S2P Require Import DelegationEntity WorkQueue AgentEntity WorkflowExecutionEntity SkillEntity ConversationEntity Tables Store.
From S2P Require Import Lifecycle RunUseCases TaskUseCases StepUseCases ApprovalUseCases.
From S2P Require Import ToolExecution AgentUseCases DelegationUseCases ScheduleUseCases.
From S2P Require Import WorkerUseCases WorkflowGraph WorkflowEntity WorkflowStore WorkflowUseCases WorkflowEngine.
From S2P Require Import MemoryContext MemoryQuery MemoryAudit.
From S2P Require Import DeliveryEntity DeliveryStore DeliveryUseCases SkillStore SkillUseCases ConversationUseCases.
From S2P Require Import ImprovementEntity SkillPromotion SkillEvaluation SkillImprovement.

Open Scope Z_scope.

(** Skill evaluation, improvement and promotion.  The pieces of the maintenance tick
    that are transactions of their own are also operations of their own; brains,
    schema validators and custom evaluators are whatever they are. *)
Inductive improvement_op : Type :=
| OpCreateSkillEvaluationSuite (schema : JsonSchema) (s : SkillId) (name description : str) (cases : list (str * json * str))
| OpRunSkillEvaluation (schema : JsonSchema) (custom : list (str * (str -> json -> res EvaluationResult)))
    (suite : SkillEvaluationSuiteId) (revision : option SkillRevisionId) (proposal : option SkillImprovementProposalId)
    (outputs : list (str * str)) (evaluator_version : str) (snapshot : option json) (fingerprint : option str)
    (metadata : option json) (usage : json)
| OpRunBrainOnlySkillEvaluation (schema : JsonSchema) (custom : list (str * (str -> json -> res EvaluationResult)))
    (adapter : str) (answer : BrainOnlyEvaluationRequest -> res (list (str * str)) * list (str * json))
    (suite : SkillEvaluationSuiteId) (revision : option SkillRevisionId) (proposal : option SkillImprovementProposalId)
    (evaluator_version : str)
| OpCompareSkillImprovementProposal (schema : JsonSchema) (custom : list (str * (str -> json -> res EvaluationResult)))
    (proposal : SkillImprovementProposalId) (baseline : SkillEvaluationRunId) (outputs : option (list (str * str)))
    (candidate : option SkillEvaluationRunId) (policy_version : str)
| OpRecordComparison (proposal : SkillImprovementProposalId) (baseline candidate : SkillEvaluationRunId) (policy_version : str)
| OpCreateSkillEvidenceSnapshot (s : SkillId) (base : SkillRevisionId) (evidence : pyval)
| OpCreateSkillImprovementProposal (s : SkillId) (base : SkillRevisionId) (trigger_kind : str)
    (e : SkillEvidenceSnapshotId) (hash generator_version prompt_version prompt_sha256 raw_candidate : str)
| OpGenerateSkillImprovementProposal (generate : CandidateGenerationRequest -> res str) (s : SkillId)
    (base : SkillRevisionId) (trigger_kind : str) (e : SkillEvidenceSnapshotId)
    (hash generator_version base_instructions : str)
| OpCancelSkillImprovementProposal (p : SkillImprovementProposalId)
| OpSaveSkillImprovementPolicy (policy : SkillImprovementPolicy)
| OpRunSkillImprovementPolicyNow (s : SkillId)
| OpMarkSkillImprovementPolicyTriggered (s : SkillId)
| OpClaimImprovementWork (worker : str) (s : SkillId)
| OpAdvanceImprovementWork (worker : str) (work : SkillImprovementWork) (state : SkillImprovementWorkState)
    (p : option SkillImprovementProposalId)
| OpFailImprovementWork (worker : str) (s : SkillId)
| OpCompleteImprovementWork (worker : str) (work : SkillImprovementWork) (s : SkillId) (p : SkillImprovementProposalId)
| OpEvaluateDuePolicies (schema : JsonSchema) (is_application_error : exn -> bool)
    (generate : CandidateGenerationRequest -> res str) (adapter : str)
    (answer : BrainOnlyEvaluationRequest -> res (list (str * str)) * list (str * json)) (worker : str) (batch : Z)
| OpRequestSkillPromotion (p : SkillImprovementProposalId)
| OpExecuteSkillPromotion (q : SkillPromotionRequestId) (resolver : option str)
| OpRejectSkillPromotion (q : SkillPromotionRequestId) (resolver : str)
| OpCancelSkillPromotion (q : SkillPromotionRequestId)
| OpRequestSkillRollback (s : SkillId) (target : SkillRevisionId) (reason : str)
| OpExecuteSkillRollback (q : SkillRollbackRequestId) (resolver : option str)
| OpRejectSkillRollback (q : SkillRollbackRequestId) (resolver : str)
| OpCancelSkillRollback (q : SkillRollbackRequestId).

Inductive app_op : Type :=
| OpCreateTask (title description : str)
| OpStartRun (t : TaskId)
| OpCancelTask (t : TaskId)
| OpCompleteTask (t : TaskId)
| OpFailTask (t : TaskId) (f : Failure)
| OpStartQueuedRun (r : RunId)
| OpCompleteRun (r : RunId)
| OpFailRun (r : RunId) (f : Failure)
| OpCancelRun (r : RunId)
| OpRetryFailedRun (r : RunId)
| OpCreateOrderedStep (r : RunId) (name : str)
| OpStartStep (s : RunStepId)
| OpCompleteStep (s : RunStepId)
| OpFailStep (s : RunStepId) (f : Failure)
| OpSkipPendingStep (s : RunStepId)
| OpCancelStep (s : RunStepId)
| OpRequestToolInvocation (r : RunId) (name : str) (input : pyval) (s : option RunStepId)
    (a : option ApprovalRequestId)
| OpMarkToolRunning (i : ToolInvocationId)
| OpMarkToolSucceeded (i : ToolInvocationId) (output : json)
| OpMarkToolFailed (i : ToolInvocationId) (f : Failure)
| OpCancelToolInvocation (i : ToolInvocationId)
| OpRequestApproval (c : RequestApprovalCommand)
| OpRequestToolApproval (c : RequestApprovalCommand) (claim : Claim)
| OpApproveRequest (a : ApprovalRequestId) (resolver : str) (note : option str)
| OpRejectRequest (a : ApprovalRequestId) (resolver : str) (note : option str)
| OpCancelApproval (a : ApprovalRequestId) (note : option str)
| OpExpireApproval (a : ApprovalRequestId)
| OpClaimNextRun (worker : str) (lease : Z) (limit : nat)
| OpRenewRunLease (lease : Z) (r : RunId) (c : Claim)
| OpReleaseRunClaim (r : RunId) (c : Claim)
| OpRequeueClaimedRun (r : RunId) (c : Claim) (available_at : Z)
| OpCompleteRunWorkItem (r : RunId) (c : Claim)
| OpVerifyRunClaim (r : RunId) (c : Claim)
| OpApplyFailedOutcome (p : RetryPolicy) (r : RunId) (c : Claim) (f : Failure)
| OpApplySucceededOutcome (r : RunId) (c : Claim) (final : option (str * json))
| OpApplyWaitingOutcome (r : RunId) (c : Claim) (a : ApprovalRequestId)
| OpApplyWaitingForDelegationOutcome (r : RunId) (c : Claim) (d : DelegationRequestId)
| OpAuthorizeAction (r : RunId) (s : option RunStepId) (call_ : ToolCall) (risk : ToolRiskAssessment)
    (c : Claim)
| OpRecheckClaim (r : RunId) (c : Claim)
| OpRecordResult (r : RunId) (s : option RunStepId) (i : ToolInvocationId) (result : ToolExecutionResult)
    (c : Claim)
| OpRecordArtifact (c : RecordArtifactCommand)
| OpCreateAgent (key display_name description : str)
| OpCreateAgentRevision (reg : BrainRuntimeRegistry) (a : AgentId) (instructions runtime_kind : str)
    (runtime_config : pyval) (source_kind : AgentRevisionSourceKind)
| OpActivateAgentRevision (a : AgentId) (r : AgentRevisionId)
| OpDisableAgent (a : AgentId)
| OpArchiveAgent (a : AgentId)
| OpReplaceTaskAgent (t : TaskId) (a : option AgentId)
| OpResolveRunAgent (reg : BrainRuntimeRegistry) (r : RunId) (c : Claim)
| OpCreateDelegationRequest (parent : RunId) (target : AgentId) (objective : str) (input : pyval)
    (contract : str) (s : option RunStepId)
| OpDispatchDelegation (reg : BrainRuntimeRegistry) (limits : DispatchLimits) (parent : RunId) (c : Claim)
    (target_key objective : str) (input : pyval) (contract : str) (s : option RunStepId)
| OpCreateSchedule (c : CreateScheduleCommand)
| OpScheduleControl (s : ScheduleId) (action : ScheduleAction) (t : option TaskId)
| OpPutScheduleDeliveryPolicy (s : ScheduleId) (t : TaskId) (route_id : str) (enabled : bool)
| OpMaterializeDueSchedules (resolve_route : str -> option DeliveryRouteAuthority) (batch : nat)
| OpCreateWorkflow (key display_name description : str)
| OpCreateWorkflowRevision (w : WorkflowId) (nodes : list WorkflowNodeInput) (edges : list WorkflowEdgeInput)
    (source_kind : WorkflowRevisionSourceKind)
| OpActivateWorkflowRevision (w : WorkflowId) (r : WorkflowRevisionId)
| OpDisableWorkflow (w : WorkflowId)
| OpArchiveWorkflow (w : WorkflowId)
| OpBindTaskWorkflow (t : TaskId) (w : WorkflowId)
| OpUnbindTaskWorkflow (t : TaskId)
| OpResolveRunWorkflow (r : RunId) (w : WorkflowId) (c : Claim)
| OpStartWorkflowExecution (reg : BrainRuntimeRegistry) (root_run : RunId) (w : WorkflowId) (c : Claim)
| OpReconcileWorkflowExecution (x : WorkflowExecutionId)
| OpSendMessage (route : MessagingRoute) (body : str) (deliver_at : option Z) (r : RunId)
    (i : ToolInvocationId)
| OpMaterializeScheduledAnswers (batch : nat)
| OpClaimNextDelivery (p : RetryPolicy) (worker : str) (lease : Z) (limit : nat)
| OpVerifyDeliveryClaim (c : DeliveryClaim)
| OpBeginDeliveryAttempt (c : DeliveryClaim)
| OpPersistDeliveryOutcome (c : DeliveryClaim) (o : DeliveryOutcome)
| OpCreateSkill (key display_name description : str)
| OpCreateSkillRevision (s : SkillId) (instructions : str) (source_kind : SkillRevisionSourceKind)
| OpActivateSkillRevision (s : SkillId) (r : SkillRevisionId)
| OpDisableSkill (s : SkillId)
| OpArchiveSkill (s : SkillId)
| OpReplaceTaskSkills (t : TaskId) (skills : list SkillId)
| OpResolveRunSkills (r : RunId) (c : Claim)
| OpAddSkillRunFeedback (r : RunId) (s : SkillId) (rating : SkillFeedbackRating) (note created_by : str)
| OpRecordMemoryEvents (r : RunId) (c : Claim) (turn : Z) (query_hash : res str) (memory : MemoryContext)
| OpImprove (o : improvement_op)
| OpCreateConversation
| OpSubmitConversationTurn (c : SubmitConversationTurnCommand)
| OpRecoverExpiredLeases (batch : nat)
| OpExpireDueApprovals (batch : nat).

(** The two use cases of the engine are the only ones that write workflow
    executions and their nodes. *)
Definition engine_op (o : app_op) : bool :=
  match o with OpStartWorkflowExecution _ _ _ _ | OpReconcileWorkflowExecution _ => true | _ => false end.

(** Only these write deliveries and their attempts. *)
Definition delivery_op (o : app_op) : bool :=
  match o with
  | OpSendMessage _ _ _ _ _ | OpMaterializeScheduledAnswers _ | OpClaimNextDelivery _ _ _ _
  | OpBeginDeliveryAttempt _ | OpPersistDeliveryOutcome _ _ => true
  | _ => false
  end.

(** Only this writes conversation turns. *)
Definition conversation_op (o : app_op) : bool :=
  match o with OpSubmitConversationTurn _ => true | _ => false end.

(** Only this writes generated skill revisions. *)
Definition promotion_op (o : app_op) : bool :=
  match o with OpImprove (OpExecuteSkillPromotion _ _) => true | _ => false end.

Definition empty_world : World := mkWorld empty_db empty_db 0 0.

Section System.
Context `{Env} `{FloatPow} `{Digest} `{Calendar}.

Definition discard {A} (m : U A) : U unit := m ;;; ret tt.
Lemma discard_world {A} (m : U A) w : snd (discard m w) = snd (m w).
Proof. unfold discard, bind. by destruct (m w) as [[a|e] w']. Qed.

Definition improvement_exec (o : improvement_op) : U unit :=
  match o with
  | OpCreateSkillEvaluationSuite schema s n d c => discard (CreateSkillEvaluationSuite s n d c)
  | OpRunSkillEvaluation schema k s r p o v sn f m us => discard (RunSkillEvaluation k s r p o v sn f m us)
  | OpRunBrainOnlySkillEvaluation schema k a an s r p v => discard (RunBrainOnlySkillEvaluation k a an s r p v)
  | OpCompareSkillImprovementProposal schema k p b o c v => discard (CompareSkillImprovementProposal k p b o c v)
  | OpRecordComparison p b c v => discard (record_comparison p b c v)
  | OpCreateSkillEvidenceSnapshot s b e => discard (CreateSkillEvidenceSnapshot s b e)
  | OpCreateSkillImprovementProposal s b t e h g pv ps raw =>
      discard (CreateSkillImprovementProposal s b t e h g pv ps raw)
  | OpGenerateSkillImprovementProposal gen s b t e h g i => discard (GenerateSkillImprovementProposal gen s b t e h g i)
  | OpCancelSkillImprovementProposal p => discard (CancelSkillImprovementProposal p)
  | OpSaveSkillImprovementPolicy p => discard (SaveSkillImprovementPolicy p)
  | OpRunSkillImprovementPolicyNow s => discard (RunSkillImprovementPolicyNow s)
  | OpMarkSkillImprovementPolicyTriggered s => MarkSkillImprovementPolicyTriggered s
  | OpClaimImprovementWork w s => discard (claim_improvement_work w s)
  | OpAdvanceImprovementWork w x st p => advance_work w x st p
  | OpFailImprovementWork w s => fail_work w s
  | OpCompleteImprovementWork w x s p => complete_work_and_trigger w x s p
  | OpEvaluateDuePolicies schema ae gen a an w n => discard (EvaluateDueSkillImprovementPolicies ae gen a an w n)
  | OpRequestSkillPromotion p => discard (RequestSkillPromotion p)
  | OpExecuteSkillPromotion q r => discard (ExecuteSkillPromotion q r)
  | OpRejectSkillPromotion q r => discard (RejectSkillPromotion q r)
  | OpCancelSkillPromotion q => discard (CancelSkillPromotion q)
  | OpRequestSkillRollback s t r => discard (RequestSkillRollback s t r)
  | OpExecuteSkillRollback q r => discard (ExecuteSkillRollback q r)
  | OpRejectSkillRollback q r => discard (RejectSkillRollback q r)
  | OpCancelSkillRollback q => discard (CancelSkillRollback q)
  end.

Definition app_exec (o : app_op) : U unit :=
  match o with
  | OpCreateTask t d => discard (CreateTask t d)
  | OpStartRun t => discard (StartRun t)
  | OpCancelTask t => discard (CancelTask t)
  | OpCompleteTask t => discard (CompleteTask t)
  | OpFailTask t f => discard (FailTask t f)
  | OpStartQueuedRun r => discard (StartQueuedRun r)
  | OpCompleteRun r => discard (CompleteRun r)
  | OpFailRun r f => discard (FailRun r f)
  | OpCancelRun r => discard (CancelRun r)
  | OpRetryFailedRun r => discard (RetryFailedRun r)
  | OpCreateOrderedStep r n => discard (CreateOrderedStep r n)
  | OpStartStep s => discard (StartStep s)
  | OpCompleteStep s => discard (CompleteStep s)
  | OpFailStep s f => discard (FailStep s f)
  | OpSkipPendingStep s => discard (SkipPendingStep s)
  | OpCancelStep s => discard (CancelStep s)
  | OpRequestToolInvocation r n i s a => discard (RequestToolInvocation r n i s a)
  | OpMarkToolRunning i => discard (MarkToolInvocationRunning i)
  | OpMarkToolSucceeded i o => discard (MarkToolInvocationSucceeded i o)
  | OpMarkToolFailed i f => discard (MarkToolInvocationFailed i f)
  | OpCancelToolInvocation i => discard (CancelToolInvocation i)
  | OpRequestApproval c => discard (RequestApproval c)
  | OpRequestToolApproval c cl => discard (RequestToolApproval c cl)
  | OpApproveRequest a r n => discard (ApproveRequest a r n)
  | OpRejectRequest a r n => discard (RejectRequest a r n)
  | OpCancelApproval a n => discard (CancelApproval a n)
  | OpExpireApproval a => discard (ExpireApproval a)
  | OpClaimNextRun w l n => discard (ClaimNextRun w l n)
  | OpRenewRunLease l r c => discard (RenewRunLease l r c)
  | OpReleaseRunClaim r c => discard (ReleaseRunClaim r c)
  | OpRequeueClaimedRun r c a => discard (RequeueClaimedRun r c a)
  | OpCompleteRunWorkItem r c => discard (CompleteRunWorkItem r c)
  | OpVerifyRunClaim r c => discard (VerifyRunClaim r c)
  | OpApplyFailedOutcome p r c f => discard (ApplyFailedOutcome p r c f)
  | OpApplySucceededOutcome r c f => discard (ApplySucceededOutcome r c f)
  | OpApplyWaitingOutcome r c a => discard (ApplyWaitingOutcome r c a)
  | OpApplyWaitingForDelegationOutcome r c d => discard (ApplyWaitingForDelegationOutcome r c d)
  | OpAuthorizeAction r s call_ risk c =>
      fingerprint <- lift (compute_authorization_fingerprint r s call_ (rk_authorization_scope risk)) ;;
      discard (authorize_action r s call_ risk fingerprint c)
  | OpRecheckClaim r c => recheck_claim r c
  | OpRecordResult r s i result c => record_result r s i result c
  | OpRecordArtifact c => discard (RecordArtifact c)
  | OpCreateAgent k n d => discard (CreateAgent k n d)
  | OpCreateAgentRevision reg a i k c s => discard (CreateAgentRevision reg a i k c s)
  | OpActivateAgentRevision a r => discard (ActivateAgentRevision a r)
  | OpDisableAgent a => discard (DisableAgent a)
  | OpArchiveAgent a => discard (ArchiveAgent a)
  | OpReplaceTaskAgent t a => discard (ReplaceTaskAgent t a)
  | OpResolveRunAgent reg r c => discard (ResolveRunAgent reg r c)
  | OpCreateDelegationRequest p t o i c s => discard (CreateDelegationRequest p t o i c s)
  | OpDispatchDelegation reg l p c k o i ct s => discard (DispatchDelegation reg l p c k o i ct s)
  | OpCreateSchedule c => discard (CreateSchedule c)
  | OpScheduleControl s a t => discard (ScheduleControl s a t)
  | OpPutScheduleDeliveryPolicy s t r e => discard (PutScheduleDeliveryPolicy s t r e)
  | OpMaterializeDueSchedules rr n => discard (MaterializeDueSchedules rr n)
  | OpCreateWorkflow k n d => discard (CreateWorkflow k n d)
  | OpCreateWorkflowRevision w n e s => discard (CreateWorkflowRevision w n e s)
  | OpActivateWorkflowRevision w r => discard (ActivateWorkflowRevision w r)
  | OpDisableWorkflow w => discard (DisableWorkflow w)
  | OpArchiveWorkflow w => discard (ArchiveWorkflow w)
  | OpBindTaskWorkflow t w => discard (BindTaskWorkflow t w)
  | OpUnbindTaskWorkflow t => UnbindTaskWorkflow t
  | OpResolveRunWorkflow r w c => discard (ResolveRunWorkflow r w c)
  | OpStartWorkflowExecution reg r w c => discard (StartWorkflowExecution reg r w c)
  | OpReconcileWorkflowExecution x => discard (ReconcileWorkflowExecution x)
  | OpSendMessage route b at_ r i => discard (SendMessage route b at_ r i)
  | OpMaterializeScheduledAnswers n => discard (MaterializeScheduledAnswerDeliveries n)
  | OpClaimNextDelivery p w l n => discard (ClaimNextDelivery p w l n)
  | OpVerifyDeliveryClaim c => discard (VerifyDeliveryClaim c)
  | OpBeginDeliveryAttempt c => discard (BeginDeliveryAttempt c)
  | OpPersistDeliveryOutcome c o => PersistDeliveryOutcome c o
  | OpCreateSkill k n d => discard (CreateSkill k n d)
  | OpCreateSkillRevision k i s => discard (CreateSkillRevision k i s)
  | OpActivateSkillRevision k r => discard (ActivateSkillRevision k r)
  | OpDisableSkill k => discard (DisableSkill k)
  | OpArchiveSkill k => discard (ArchiveSkill k)
  | OpReplaceTaskSkills t l => discard (ReplaceTaskSkills t l)
  | OpResolveRunSkills r c => discard (ResolveRunSkills r c)
  | OpAddSkillRunFeedback r k g n b => discard (AddSkillRunFeedback r k g n b)
  | OpRecordMemoryEvents r c n h m => record_memory_events r c n h m
  | OpImprove o => improvement_exec o
  | OpCreateConversation => discard CreateConversation
  | OpSubmitConversationTurn c => discard (SubmitConversationTurn c)
  | OpRecoverExpiredLeases n => discard (RecoverExpiredLeases n)
  | OpExpireDueApprovals n => discard (ExpireDueApprovals n)
  end.

(** The worlds some history of use cases leads to. *)
Definition reachable : World -> Prop := reach (fun w => w = empty_world) app_exec.

(** Running a fixed history. *)
Definition run_history (ops : list app_op) (w : World) : World :=
  foldl (fun w o => snd (app_exec o w)) w ops.

Lemma run_history_reachable ops w : reachable w -> reachable (run_history ops w).
Proof.
  revert w. induction ops as [|o ops IH]; intros w Hw; simpl; [done|].
  apply IH. by apply reach_op.
Qed.
End System.

(** ** Concrete histories *)

(** A toy environment: the n-th identifier is [id-n], the clock ticks a
    microsecond at a time. *)
Definition toy_env : Env :=
  {| uuid4 := fun n => u "id-" ++ int_repr (Z.of_nat n); clock_at := fun n => 1000 + Z.of_nat n |}.
(** Wall time is UTC and every cron expression fires once a second. *)
Definition toy_calendar : Calendar :=
  {| zone_known := fun z => bool_decide (z = u "UTC"); from_wall := fun _ t => t; to_wall := fun _ t => t;
     cron_next := fun _ _ t => Some (t + 1000000) |}.
Definition toy_id {k} (n : Z) : Id k := mkId (u "id-" ++ int_repr n).

(** A task is created, its run started and claimed by a worker, a step is added
    and started, and the run is cancelled by its owner. *)
Definition toy_ops : list app_op :=
  [OpCreateTask (u "buy milk") (u ""); OpStartRun (toy_id 0); OpClaimNextRun (u "w1") 1000 5;
   OpCreateOrderedStep (toy_id 1) (u "plan"); OpStartStep (toy_id 5); OpCancelRun (toy_id 1)].
Definition toy_world : World :=
  @run_history toy_env toy_pow toy_digest toy_calendar toy_ops empty_world.

Lemma toy_reachable : @reachable toy_env toy_pow toy_digest toy_calendar toy_world.
Proof. apply run_history_reachable. by apply reach_init. Qed.

