(* ===== verification/AgentLoop.v ===== *)
(** * The agent run processor

    [src/friday/application/agent_run_processor.py], with [run_processor.py], the
    values of [brain_runtime.py] and [ExecuteToolAction.execute]: the loop that
    drives a claimed run through brain turns.

    Brain, tools, memory, clocks and everybody else are an [Outside]: a state [X] of
    its own, a step for every call out, and [meanwhile], the use cases that other
    processes (the API, other workers, the heartbeat, a tool that calls back) run
    before the next transaction of the processor begins.  Readings of the
    monotonic clock are whole nanoseconds. *)

From S2P Require Import Prelude Values RunEntity TaskEntity StepEntity ToolEntity ApprovalEntity.
From S2P Require Import EventEntity Canonical PyText Regex ResultSafety MemoryContext MemoryQuery RetryPolicy DelegationEntity WorkQueue.
From S2P Require Import AgentEntity SkillEntity ConversationEntity WorkflowExecutionEntity Tables Store Transactions.
From S2P Require Import Lifecycle RunUseCases TaskUseCases StepUseCases MemoryAudit ApprovalUseCases ToolExecution RuntimeActions RuntimeContext AgentUseCases.
From S2P Require Import SkillUseCases ConversationUseCases Snapshot DelegationUseCases ScheduleUseCases WorkerUseCases System.

Open Scope Z_scope.

#[global] Instance exn_eq_dec : EqDecision exn.
Proof. solve_decision. Defined.

(** ** Values ([run_processor.py], [brain_runtime.py]) *)

(** [is_lease_lost] belongs to the [Outside]. *)
Record ClaimContext : Type := mkClaimContext {
  cx_run_id : RunId; cx_task_id : TaskId; cx_claim : Claim; cx_attempt_number : Z }.

Inductive OutcomeKind : Type := OK_SUCCEEDED | OK_FAILED | OK_WAITING_FOR_APPROVAL | OK_WAITING_FOR_DELEGATION | OK_YIELDED.
#[global] Instance OutcomeKind_eq_dec : EqDecision OutcomeKind.
Proof. solve_decision. Defined.
Record ProcessingOutcome : Type := mkOutcome {
  oc_kind : OutcomeKind; oc_failure : option Failure; oc_available_at : option Z;
  oc_approval_request_id : option ApprovalRequestId; oc_delegation_request_id : option DelegationRequestId;
  oc_final_response : option (str * json) }.
(** [__post_init__]; the kind is one of the five by typing. *)
Definition ProcessingOutcome_check (o : ProcessingOutcome) : res ProcessingOutcome :=
  let kind_is k := bool_decide (oc_kind o = k) in
  let bad msg := Raise (ValueError msg) in
  if kind_is OK_FAILED && negb (not_none (oc_failure o)) then bad "a 'failed' outcome requires a failure"
  else if negb (kind_is OK_FAILED) && not_none (oc_failure o) then bad "only a 'failed' outcome may carry a failure"
  else if kind_is OK_WAITING_FOR_APPROVAL && negb (not_none (oc_approval_request_id o))
  then bad "a 'waiting_for_approval' outcome requires approval_request_id"
  else if negb (kind_is OK_WAITING_FOR_APPROVAL) && not_none (oc_approval_request_id o)
  then bad "only a 'waiting_for_approval' outcome may carry approval_request_id"
  else if kind_is OK_WAITING_FOR_DELEGATION && negb (not_none (oc_delegation_request_id o))
  then bad "a 'waiting_for_delegation' outcome requires delegation_request_id"
  else if negb (kind_is OK_WAITING_FOR_DELEGATION) && not_none (oc_delegation_request_id o)
  then bad "only a 'waiting_for_delegation' outcome may carry delegation_request_id"
  else if negb (kind_is OK_SUCCEEDED) && not_none (oc_final_response o)
  then bad "only a 'succeeded' outcome may carry final_response"
  else if kind_is OK_YIELDED && negb (not_none (oc_available_at o)) then bad "a 'yielded' outcome requires available_at"
  else if negb (kind_is OK_YIELDED) && not_none (oc_available_at o)
  then bad "only a 'yielded' outcome may carry available_at"
  else Ok o.
Definition outcome_succeeded (summary : str) (details : json) : ProcessingOutcome :=
  mkOutcome OK_SUCCEEDED None None None None (Some (summary, details)).
Definition outcome_failed (f : Failure) : ProcessingOutcome := mkOutcome OK_FAILED (Some f) None None None None.
Definition waiting_for_approval (a : ApprovalRequestId) : ProcessingOutcome :=
  mkOutcome OK_WAITING_FOR_APPROVAL None None (Some a) None None.
Definition waiting_for_delegation (d : DelegationRequestId) : ProcessingOutcome :=
  mkOutcome OK_WAITING_FOR_DELEGATION None None None (Some d) None.
Definition yielded (available_at : Z) : ProcessingOutcome := mkOutcome OK_YIELDED None (Some available_at) None None None.
Lemma outcomes_accepted s d f a r t o :
  o ∈ [outcome_succeeded s d; outcome_failed f; waiting_for_approval a; waiting_for_delegation r; yielded t] ->
  ProcessingOutcome_check o = Ok o.
Proof. rewrite !elem_of_cons, elem_of_nil. by intros [->|[->|[->|[->|[->|[]]]]]]. Qed.

Record BrainRequest : Type := mkBrainRequest {
  bq_run_id : RunId; bq_task_id : TaskId; bq_turn_number : Z; bq_attempt_number : Z; bq_context : str;
  bq_tool_manifest : list ToolDescriptor; bq_max_response_bytes : Z; bq_timeout_seconds : option Z }.
Definition BrainRequest_check (q : BrainRequest) : res BrainRequest :=
  if bq_turn_number q <? 1 then Raise (ValueError "turn_number must be >= 1")
  else if bq_attempt_number q <? 1 then Raise (ValueError "attempt_number must be >= 1")
  else if empty_str (strip (bq_context q)) then Raise (ValueError "context must not be empty")
  else if bq_max_response_bytes q <=? 0 then Raise (ValueError "max_response_bytes must be positive")
  else if match bq_timeout_seconds q with Some t => t <=? 0 | None => false end
  then Raise (ValueError "timeout_seconds must be positive when set")
  else Ok q.
(** [usage] is a JSON value by typing. *)
Record BrainResponse : Type := mkBrainResponse {
  bs_action : BrainAction; bs_model : option str; bs_usage : json; bs_repaired : bool }.
(** What [next_action] may raise *)
Inductive BrainError : Type :=
| BrainInvalid (msg : str) | BrainTimeout (msg : str) | BrainUnavailable (msg : str) | BrainProtocolError (msg : str)
| BrainRaised (e : exn).

Definition MAX_TURN_NOTE_CHARS : Z := 500.
Definition MEMORY_WRITE_TOOLS : list str := [u "memory.create_note"; u "memory.append_managed_note"].

Record RuntimeLimits : Type := mkRuntimeLimits {
  rl_max_turns_per_claim : Z; rl_max_tool_calls_per_claim : Z; rl_max_context_chars : Z; rl_max_response_bytes : Z;
  rl_max_yield_seconds : Z; rl_max_processing_seconds : Z; rl_max_skill_context_chars : Z;
  rl_max_agent_context_chars : Z; rl_max_delegations_per_run : Z; rl_max_delegations_per_tree : Z;
  rl_max_delegation_targets : Z; rl_max_delegation_depth : Z }.
Definition RuntimeLimits_check (l : RuntimeLimits) : res RuntimeLimits :=
  let bad msg := Raise (ValueError msg) in
  if rl_max_turns_per_claim l <? 1 then bad "max_turns_per_claim must be >= 1"
  else if rl_max_tool_calls_per_claim l <? 1 then bad "max_tool_calls_per_claim must be >= 1"
  else if rl_max_context_chars l <? MIN_CONTEXT_CHARS then bad "max_context_chars is too small"
  else if rl_max_response_bytes l <=? 0 then bad "max_response_bytes must be positive"
  else if rl_max_yield_seconds l <? 0 then bad "max_yield_seconds must be >= 0"
  else if rl_max_processing_seconds l <=? 0 then bad "max_processing_seconds must be positive"
  else if negb ((0 <? rl_max_skill_context_chars l) && (rl_max_skill_context_chars l <? rl_max_context_chars l))
  then bad "max_skill_context_chars must be positive and below max_context_chars"
  else if negb ((0 <? rl_max_agent_context_chars l) && (rl_max_agent_context_chars l <=? rl_max_context_chars l))
  then bad "max_agent_context_chars must be positive and at most max_context_chars"
  else if rl_max_delegations_per_run l <? 1 then bad "max_delegations_per_run must be positive"
  else if rl_max_delegations_per_tree l <? 1 then bad "max_delegations_per_tree must be positive"
  else if rl_max_delegation_targets l <? 1 then bad "max_delegation_targets must be positive"
  else if rl_max_delegation_depth l <? 1 then bad "max_delegation_depth must be >= 1"
  else Ok l.

(** [except ApplicationError]: the classes of [application/errors.py] the model names by
    [OtherError]; the others are constructors of [exn] *)
Definition APPLICATION_ERRORS : list string :=
  ["ConversationNotFound"; "ConversationTurnNotFound"; "ArtifactNotFound"; "SkillRevisionNotFound";
   "SkillEvidenceSnapshotNotFound"; "SkillEvaluationSuiteNotFound"; "SkillEvaluationRunNotFound";
   "SkillImprovementProposalNotFound"; "SkillPromotionRequestNotFound"; "SkillRollbackRequestNotFound";
   "AgentRevisionNotFound"; "AgentIntegrityFailed"; "WorkflowIntegrityFailed"; "WorkflowNotFound";
   "WorkflowRevisionNotFound"; "WorkflowExecutionError"; "WorkflowIntegrityError"; "WorkflowBindingError";
   "UnknownBrainRuntimeKind"; "InvalidBrainRuntimeConfig"; "SkillIntegrityFailed"; "SkillResolutionFailed";
   "ConcurrencyConflict"; "TransactionFailure"; "BrainUnavailable"; "BrainTimeout"; "BrainProtocolError";
   "BrainResponseInvalid"; "ToolNotFound"; "ToolExecutionDenied"; "ToolApprovalRequired"; "WorkspaceAccessDenied";
   "RuntimeBudgetExceeded"]%string.
Definition is_application_error (e : exn) : bool :=
  match e with
  | DomainValidationError _ | InvalidStateTransition _ _ _ | ValueError _ | WorkflowNodeContextTooLarge _
  | AssertionError | IndexError | KeyError => false
  | OtherError cls => bool_decide (cls ∈ APPLICATION_ERRORS)
  | _ => true
  end.
(** [str(exc)], as far as the model keeps messages: the class name stands for the
    message of the errors that carry no other argument in the model *)
Definition exn_text (e : exn) : str :=
  match e with
  | DomainValidationError m | EntityConflict m | ClaimLost m | ToolInputInvalid m | ToolExecutionAmbiguous m
  | ValueError m | WorkflowNodeContextTooLarge m => u m
  | DelegatedManualRetryForbidden => u "delegated_manual_retry_forbidden"
  | WorkflowNodeManualRetryForbidden => u "workflow_node_manual_retry_forbidden"
  | WorkflowCancelNotSupportedWhileActive => u "workflow_cancel_not_supported_while_active"
  | TaskNotFound i => u "Task not found: " ++ i
  | RunNotFound i => u "Run not found: " ++ i
  | ScheduleNotFound i => u "Schedule not found: " ++ i
  | RunStepNotFound i => u "Run step not found: " ++ i
  | ApprovalNotFound i => u "Approval request not found: " ++ i
  | ToolInvocationNotFound i => u "Tool invocation not found: " ++ i
  | SkillNotFound i => u "Skill not found: " ++ i
  | AgentNotFound i => u "Agent not found: " ++ i
  | DelegationRequestNotFound i => u "Delegation request not found: " ++ i
  | InvalidStateTransition entity current target =>
      u entity ++ u " cannot transition from '" ++ u current ++ u "' to '" ++ u target ++ u "'"
  | AssertionError | IndexError | KeyError => []
  | OtherError cls => u cls
  end.
Definition ToolNotFound : exn := OtherError "ToolNotFound".

(** ** The outside *)
Record Outside (X : Type) : Type := mkOutside {
  meanwhile : World -> X -> list app_op * X;
  monotonic : X -> Z * X;
  is_lease_lost : X -> bool * X;
  next_action : BrainRequest -> X -> (BrainError + BrainResponse) * X;
  list_tools : X -> list ToolDescriptor * X;
  assess : ToolCall -> X -> res ToolRiskAssessment * X;
  gateway_execute : ToolExecutionRequest -> X -> res ToolExecutionResult * X;
  memory_retriever : option (MemoryQuery -> X -> res MemoryContext * X) }.
Arguments meanwhile {X} _ _ _.
Arguments monotonic {X} _ _.
Arguments is_lease_lost {X} _ _.
Arguments next_action {X} _ _ _.
Arguments list_tools {X} _ _.
Arguments assess {X} _ _ _.
Arguments gateway_execute {X} _ _ _.
Arguments memory_retriever {X} _.

(** What the processor is built with *)
Record Config : Type := mkConfig {
  cf_limits : RuntimeLimits; cf_registry : BrainRuntimeRegistry; cf_dispatch_limits : DispatchLimits;
  cf_query_builder : MemoryQueryBuilder; cf_conversation_context : option Assembler }.
(** [dispatch_delegation or DispatchDelegation(...)] *)
Definition default_dispatch_limits (l : RuntimeLimits) : DispatchLimits :=
  mkLimits (rl_max_delegations_per_run l) (rl_max_delegations_per_tree l) (rl_max_delegation_depth l).

(** [_is_successful_memory_write] *)
Definition is_successful_memory_write (tool : str) (succeeded : bool) : bool :=
  bool_decide (tool ∈ MEMORY_WRITE_TOOLS) && succeeded.

(** The local variables of [process] *)
Record LoopState : Type := mkLoop {
  ls_turn_notes : list str; ls_tool_calls : Z; ls_memory : option MemoryContext; ls_refresh_available : bool;
  ls_refresh_needed : bool; ls_retrieval_is_refresh : bool; ls_previous_objective : option (str * str) }.

(** A body that returns from [process], or goes on with a value *)
Definition early {S A B} (m : M S (ProcessingOutcome + A)) (k : A -> M S (ProcessingOutcome + B))
    : M S (ProcessingOutcome + B) :=
  bind m (fun r => match r with inl o => ret (inl o) | inr a => k a end).
Notation "x <-? m ;; k" := (early m (fun x => k)) (at level 100, m at next level, right associativity) : py_scope.

Section Processor.
Context `{Env} `{FloatPow} `{Digest} `{Calendar} `{Unicode} {X : Type} (out : Outside X) (cf : Config).

Definition Proc (A : Type) : Type := M (World * X) A.
(** One transaction (or clock reading) of the processor, after whatever the others
    did in the meantime *)
Definition own {A} (m : U A) : Proc A := fun '(w, x) =>
  let '(ops, x') := meanwhile out w x in
  let '(r, w') := m (run_history ops w) in
  (r, (w', x')).
(** A call out *)
Definition outside {A} (f : X -> A * X) : Proc A := fun '(w, x) => let '(a, x') := f x in (Ok a, (w, x')).
Definition outside_res {A} (f : X -> res A * X) : Proc A := fun '(w, x) => let '(r, x') := f x in (r, (w, x')).

(** ** Small steps *)
Definition yield_now : Proc ProcessingOutcome := t <- own now ;; ret (yielded t).
Definition return_yield {A} : Proc (ProcessingOutcome + A) := o <- yield_now ;; ret (inl o).

(** [_failed] *)
Definition failed (code : string) (message : str) (retryable : bool) (cause : FailureCause) : res ProcessingOutcome :=
  let bounded := slice_to 2000 (strip message) in
  let bounded := if empty_str bounded then u code else bounded in
  res_bind (Failure_new (u code) bounded retryable cause PyNone) (fun f => Ok (outcome_failed f)).
Definition return_failed {A} (code message : string) : Proc (ProcessingOutcome + A) :=
  o <- lift (failed code (u message) false FC_RUNTIME) ;; ret (inl o).

(** [_claim_holds] *)
Definition claim_holds (c : ClaimContext) : Proc bool :=
  lost <- outside (is_lease_lost out) ;;
  if (lost : bool) then ret false else own (VerifyRunClaim (cx_run_id c) (cx_claim c)).
(** [if not self._claim_holds(context): return self._yield_now()] *)
Definition require_holding (c : ClaimContext) : Proc (ProcessingOutcome + unit) :=
  holds <- claim_holds c ;; if (holds : bool) then ret (inr tt) else return_yield.
(** [if self._monotonic() >= deadline: return self._yield_now()] *)
Definition require_time (deadline : Z) : Proc (ProcessingOutcome + unit) :=
  t <- outside (monotonic out) ;; if deadline <=? t then return_yield else ret (inr tt).

(** ** Resolution *)
Definition resolving {A} (m : Proc A) (integrity_failed : exn) (integrity_code integrity_message : string)
    (code message : string) : Proc (ProcessingOutcome + unit) :=
  try_except (m ;;; ret (inr tt)) (fun e =>
    match e with
    | ClaimLost _ => Some return_yield
    | _ =>
        if bool_decide (e = integrity_failed) then Some (return_failed integrity_code integrity_message)
        else if is_application_error e then Some (return_failed code message)
        else None
    end).
Definition resolve_skills (c : ClaimContext) : Proc (ProcessingOutcome + unit) :=
  resolving (own (ResolveRunSkills (cx_run_id c) (cx_claim c))) SkillIntegrityFailed
    "skill_integrity_failed" "skill integrity verification failed"
    "skill_resolution_failed" "skill resolution failed".
Definition resolve_agent (c : ClaimContext) : Proc (ProcessingOutcome + unit) :=
  resolving (own (ResolveRunAgent (cf_registry cf) (cx_run_id c) (cx_claim c))) AgentIntegrityFailed
    "agent_integrity_failed" "agent integrity verification failed"
    "agent_resolution_failed" "agent resolution failed".

(** ** Snapshot, memory and context *)
Definition take_snapshot (c : ClaimContext) (turn_notes : list str) : Proc (ProcessingOutcome + RunSnapshot) :=
  try_except
    (s <- own (load_snapshot (cf_registry cf) (rl_max_delegation_targets (cf_limits cf)) (cx_run_id c) (cx_task_id c)
                 turn_notes) ;;
     match s with Some s => ret (inr s) | None => return_yield end)
    (fun e =>
       if bool_decide (e = SkillIntegrityFailed)
       then Some (return_failed "skill_integrity_failed" "skill integrity verification failed")
       else if bool_decide (e = AgentIntegrityFailed)
       then Some (return_failed "agent_integrity_failed" "agent integrity verification failed")
       else None).
Definition assemble_conversation (c : ClaimContext) : Proc (option ConversationContext) :=
  match cf_conversation_context cf with
  | Some a => x <- own (assemble a (cx_run_id c)) ;; ret (Some x)
  | None => ret None
  end.

Definition memory_snapshot (s : RunSnapshot) : MemoryRunSnapshot :=
  mkMemorySnapshot (task_title (sn_task s)) (task_description (sn_task s)) (task_title (sn_task s))
    (map step_name (sn_steps s)) (map fl_code (omap step_failure (sn_steps s)))
    (map tool_tool_name (sn_invocations s)) None.
Definition empty_memory (mode : RetrievalMode) (reason : option str) : MemoryContext :=
  mkMemoryContext mode [] [] reason IX_DISABLED 0 None.
(** [_retrieve_memory]: [None] when the claim is lost.  The assertion that there is
    a retriever lies inside the [try]. *)
Definition retrieve_memory (c : ClaimContext) (s : RunSnapshot) (turn : Z) : Proc (option MemoryContext) :=
  match build_query (cf_query_builder cf) (memory_snapshot s) with
  | None => ret (Some (empty_memory RM_DISABLED None))
  | Some query =>
      memory <- try_except
                  (match memory_retriever out with
                   | Some retrieve => outside_res (retrieve query)
                   | None => raise AssertionError
                   end)
                  (fun _ => Some (ret (empty_memory RM_UNAVAILABLE (Some (u "memory retrieval is unavailable"))))) ;;
      holds <- claim_holds c ;;
      if negb holds then ret None
      else try_except
             (own (record_memory_events (cx_run_id c) (cx_claim c) turn (query_hash query) memory) ;;; ret (Some memory))
             (fun e => match e with ClaimLost _ => Some (ret None) | _ => None end)
  end.
(** The refresh policy of the loop *)
Definition refresh_memory (c : ClaimContext) (s : RunSnapshot) (turn : Z) (l : LoopState)
    : Proc (ProcessingOutcome + LoopState) :=
  let objective := (task_title (sn_task s), task_description (sn_task s)) in
  let changed := match ls_previous_objective l with Some o => negb (bool_decide (objective = o)) | None => false end in
  let needed := if changed then ls_refresh_available l else ls_refresh_needed l in
  let is_refresh := if changed then needed else ls_retrieval_is_refresh l in
  if needed then
    memory <- retrieve_memory c s turn ;;
    match memory with
    | None => return_yield
    | Some _ => ret (inr (mkLoop (ls_turn_notes l) (ls_tool_calls l) memory
                            (if is_refresh then false else ls_refresh_available l) false false (Some objective)))
    end
  else ret (inr (mkLoop (ls_turn_notes l) (ls_tool_calls l) (ls_memory l) (ls_refresh_available l) needed is_refresh
                   (Some objective))).

Definition context_budget : ContextBudget :=
  mkBudget (rl_max_context_chars (cf_limits cf)) DEFAULT_MEMORY_CONTEXT_CHARS DEFAULT_CONVERSATION_CONTEXT_CHARS
    (Some (rl_max_skill_context_chars (cf_limits cf))) (Some (rl_max_agent_context_chars (cf_limits cf))).
Definition render_context (c : ClaimContext) (s : RunSnapshot) (turn : Z) (memory : option MemoryContext)
    (conversation : option ConversationContext) : Proc (ProcessingOutcome + str) :=
  try_except
    (tools <- outside (list_tools out) ;;
     document <- lift (build_runtime_context s tools (cx_attempt_number c) turn context_budget memory conversation
                         (sn_workflow_context s)) ;;
     ret (inr document))
    (fun e =>
       if bool_decide (e = SkillContextTooLarge)
       then Some (return_failed "skill_context_too_large" "frozen skill context exceeds budget")
       else if bool_decide (e = AgentContextTooLarge)
       then Some (return_failed "agent_context_too_large" "frozen Agent context exceeds budget")
       else if bool_decide (e = DelegatedContextTooLarge)
       then Some (return_failed "delegated_context_too_large" "delegated input exceeds the runtime context budget")
       else None).

(** ** The brain *)
Definition brain_failure (e : BrainError) : res ProcessingOutcome :=
  match e with
  | BrainInvalid m => failed "brain_response_invalid" m true FC_RUNTIME
  | BrainTimeout m => failed "brain_timeout" m true FC_TIMEOUT
  | BrainUnavailable m => failed "brain_unavailable" m true FC_RUNTIME
  | BrainProtocolError m => failed "brain_protocol_error" m true FC_RUNTIME
  | BrainRaised e => Raise e
  end.
Definition ask_brain (c : ClaimContext) (turn deadline : Z) (document : str) : Proc (ProcessingOutcome + BrainResponse) :=
  t <- outside (monotonic out) ;;
  let remaining := deadline - t in
  if remaining <=? 0 then return_yield else
  tools <- outside (list_tools out) ;;
  request <- lift (BrainRequest_check (mkBrainRequest (cx_run_id c) (cx_task_id c) turn (cx_attempt_number c) document
                     tools (rl_max_response_bytes (cf_limits cf)) (Some remaining))) ;;
  _ <-? require_time deadline ;;
  response <- outside (next_action out request) ;;
  match response with
  | inl e => o <- lift (brain_failure e) ;; ret (inl o)
  | inr r => ret (inr r)
  end.

(** ** Tools *)

(** [ExecuteToolAction.execute] *)
Definition execute_tool_action (run : RunId) (step : option RunStepId) (call_ : ToolCall) (c : Claim)
    (timeout : option Z) : Proc ToolActionOutcome :=
  risk <- outside_res (assess out call_) ;;
  fingerprint <- lift (compute_authorization_fingerprint run step call_ (rk_authorization_scope risk)) ;;
  auth <- own (authorize_action run step call_ risk fingerprint c) ;;
  match auth with
  | AuthReplay iid result => ret (OutcomeExecuted risk fingerprint iid result true)
  | AuthApprovalRequired => ret (OutcomeApprovalRequired risk fingerprint)
  | AuthStarted iid =>
      own (recheck_claim run c) ;;;
      result <- outside_res (gateway_execute out (mkToolRequest iid run step call_ timeout)) ;;
      own (record_result run step iid result c) ;;;
      ret (OutcomeExecuted risk fingerprint iid result false)
  end.

(** What one dispatched action leaves: the outcome that ends the processing, or
    [None]; a note for the next turns; whether a tool call was spent; whether it
    wrote to the memory *)
Definition Dispatched : Type := option ProcessingOutcome * option str * bool * bool.
Definition stop (o : ProcessingOutcome) : Dispatched := (Some o, None, false, false).
Definition stop_yield : Proc Dispatched := o <- yield_now ;; ret (stop o).
Definition stop_failed (code : string) (message : str) (retryable : bool) (cause : FailureCause) : Proc Dispatched :=
  o <- lift (failed code message retryable cause) ;; ret (stop o).

(** [_request_approval] *)
Definition request_approval (c : ClaimContext) (reason : option str) (call_ : ToolCall) : Proc ProcessingOutcome :=
  risk <- outside_res (assess out call_) ;;
  fingerprint <- lift (compute_authorization_fingerprint (cx_run_id c) None call_ (rk_authorization_scope risk)) ;;
  let command := mkRequestApproval (cx_run_id c) (rk_category risk) (rk_summary risk) (default [] reason)
                   (tc_tool call_) (to_py (tc_tool_input call_)) None None (Some fingerprint) in
  try_except (a <- own (RequestToolApproval command (cx_claim c)) ;; ret (waiting_for_approval (ap_id a)))
    (fun e => match e with ClaimLost _ => Some yield_now | _ => None end).

Definition tool_note (call_ : ToolCall) (succeeded replayed : bool) : str :=
  u "invoked " ++ tc_tool call_ ++ u " -> " ++ u (if succeeded then "succeeded" else "failed")
  ++ (if replayed then u " (replayed durable result)" else []).
(** [_dispatch_tool] *)
Definition dispatch_tool (c : ClaimContext) (tool : str) (tool_input : json) (reason : option str) (deadline : Z)
    : Proc Dispatched :=
  t <- outside (monotonic out) ;;
  let remaining := deadline - t in
  if remaining <=? 0 then stop_yield else
  match ToolCall_new tool (to_py tool_input) with
  | Raise (ToolInputInvalid m) =>
      ret (None, Some (u "invalid tool input for " ++ tool ++ u ": " ++ u m), false, false)
  | Raise e => raise e
  | Ok call_ =>
      r <- try_except
        (result <- execute_tool_action (cx_run_id c) None call_ (cx_claim c) (Some remaining) ;; ret (inr result))
        (fun e =>
           match e with
           | ToolExecutionAmbiguous m =>
               Some (o <- lift (failed "tool_execution_ambiguous" (u m) false FC_TOOL) ;; ret (inl o))
           | ClaimLost _ => Some return_yield
           | _ => if bool_decide (e = ToolNotFound)
                  then Some (o <- lift (failed "tool_not_found" (u "brain proposed an unregistered tool: " ++ tool) true
                                          FC_TOOL) ;; ret (inl o))
                  else None
           end) ;;
      match r with
      | inl o => ret (stop o)
      | inr (OutcomeApprovalRequired _ _) => o <- request_approval c reason call_ ;; ret (stop o)
      | inr (OutcomeExecuted _ _ _ result replayed) =>
          ret (None, Some (tool_note call_ (xr_succeeded result) replayed), true,
               is_successful_memory_write (tc_tool call_) (xr_succeeded result))
      end
  end.

(** ** [_dispatch] *)
Definition delegation_failure_code (e : exn) : string :=
  match e with
  | EntityConflict m =>
      if bool_decide (m ∈ ["delegation_budget_exhausted"; "delegation_depth_exhausted"]%string) then m
      else "delegation_dispatch_failed"
  | _ => "delegation_dispatch_failed"
  end.
Definition dispatch_delegate (c : ClaimContext) (target_key objective : str) (input : json) (contract : str)
    : Proc Dispatched :=
  try_except
    (request <- own (DispatchDelegation (cf_registry cf) (cf_dispatch_limits cf) (cx_run_id c) (cx_claim c) target_key
                       objective (to_py input) contract None) ;;
     ret (Some (waiting_for_delegation (dl_id request)), Some (u "delegated to " ++ target_key), false, false))
    (fun e =>
       match e with
       | ClaimLost _ => Some stop_yield
       | _ => if is_application_error e
              then Some (stop_failed (delegation_failure_code e) (exn_text e) false FC_RUNTIME) else None
       end).
Definition dispatch (c : ClaimContext) (action : BrainAction) (deadline : Z) : Proc Dispatched :=
  match action with
  | FinishAction summary details =>
      blocker <- own (finish_blocker (cx_run_id c)) ;;
      match blocker with
      | Some b => ret (None, Some (u "finish rejected: " ++ b), false, false)
      | None =>
          holds <- claim_holds c ;;
          if negb holds then stop_yield else ret (stop (outcome_succeeded summary details))
      end
  | FailAction reason => stop_failed "agent_reported_failure" reason false FC_RUNTIME
  | YieldAction delay_seconds _ =>
      let delay := Z.min (default 0 delay_seconds) (rl_max_yield_seconds (cf_limits cf)) in
      t <- own now ;;
      ret (stop (yielded (t + delay * 1000000)))
  | DelegateAction key objective input contract _ => dispatch_delegate c key objective input contract
  | InvokeToolAction tool tool_input reason => dispatch_tool c tool tool_input reason deadline
  end.

(** ** [process] *)

(** After an action that did not end the processing *)
Definition after_dispatch (l : LoopState) (note : option str) (tool_call_used memory_write : bool)
    : Proc (ProcessingOutcome + LoopState) :=
  let notes := match note with
               | Some n => ls_turn_notes l ++ [slice_to MAX_TURN_NOTE_CHARS n]
               | None => ls_turn_notes l
               end in
  if tool_call_used then
    let calls := ls_tool_calls l + 1 in
    let needed := if memory_write then ls_refresh_available l else ls_refresh_needed l in
    let is_refresh := if memory_write then needed else ls_retrieval_is_refresh l in
    if rl_max_tool_calls_per_claim (cf_limits cf) <=? calls then return_yield
    else ret (inr (mkLoop notes calls (ls_memory l) (ls_refresh_available l) needed is_refresh (ls_previous_objective l)))
  else ret (inr (mkLoop notes (ls_tool_calls l) (ls_memory l) (ls_refresh_available l) (ls_refresh_needed l)
                   (ls_retrieval_is_refresh l) (ls_previous_objective l))).

Definition turn_body (c : ClaimContext) (turn deadline : Z) (l : LoopState) : Proc (ProcessingOutcome + LoopState) :=
  _ <-? require_time deadline ;;
  _ <-? require_holding c ;;
  _ <-? resolve_skills c ;;
  _ <-? resolve_agent c ;;
  snapshot <-? take_snapshot c (ls_turn_notes l) ;;
  conversation <- assemble_conversation c ;;
  l <-? refresh_memory c snapshot turn l ;;
  document <-? render_context c snapshot turn (ls_memory l) conversation ;;
  response <-? ask_brain c turn deadline document ;;
  _ <-? require_holding c ;;
  _ <-? require_time deadline ;;
  d <- dispatch c (bs_action response) deadline ;;
  match d with
  | (Some outcome, _, _, _) => ret (inl outcome)
  | (None, note, tool_call_used, memory_write) => after_dispatch l note tool_call_used memory_write
  end.
Fixpoint turns (n : nat) (c : ClaimContext) (turn deadline : Z) (l : LoopState) : Proc ProcessingOutcome :=
  match n with
  | O => yield_now
  | S n' =>
      r <- turn_body c turn deadline l ;;
      match r with inl o => ret o | inr l' => turns n' c (turn + 1) deadline l' end
  end.
Definition loop_start : LoopState := mkLoop [] 0 None true (not_none (memory_retriever out)) false None.
Definition process (c : ClaimContext) : Proc ProcessingOutcome :=
  t <- outside (monotonic out) ;;
  turns (Z.to_nat (rl_max_turns_per_claim (cf_limits cf))) c 1 (t + rl_max_processing_seconds (cf_limits cf)) loop_start.
End Processor.
