(* ===== verification/EventLogs.v ===== *)
(** * Gapless event logs

    The events of each run and of each task are numbered 1, 2, 3, ... in every
    database a history of use cases leads to. *)

From S2P Require Import Prelude Values RunEntity TaskEntity StepEntity ToolEntity ApprovalEntity.
From S2P Require Import EventEntity ScheduleEntity ScheduleDelivery Canonical RetryPolicy.
From S2P Require Import DelegationEntity WorkQueue AgentEntity WorkflowExecutionEntity SkillEntity ConversationEntity Tables Store.
From S2P Require Import Lifecycle RunUseCases TaskUseCases StepUseCases ApprovalUseCases.
From S2P Require Import ToolExecution AgentUseCases DelegationUseCases ScheduleUseCases.
From S2P Require Import WorkerUseCases WorkflowGraph WorkflowEntity WorkflowStore WorkflowUseCases WorkflowEngine.
From S2P Require Import DeliveryEntity DeliveryStore DeliveryUseCases SkillStore SkillUseCases ConversationUseCases.
From S2P Require Import ImprovementEntity ImprovementStore SkillPromotion SkillEvaluation SkillImprovement System.

Open Scope Z_scope.

(** ** Gapless logs *)

(** Opening the repositories, and the pieces of use cases without a lemma of
    their own. *)
Ltac open_repos :=
  unfold discard, load_step, load_tool, need_run, need_task, need_step, need_tool, need_approval,
    tasks_get, tasks_add, tasks_save, runs_get, runs_add, runs_save, runs_list_for_task,
    runs_list_for_execution, runs_lock_execution_lineage, runs_ordinal_for_execution,
    runs_get_latest_for_execution, steps_get, steps_add, steps_save, steps_list_for_run,
    steps_has_non_terminal_for_run, approvals_get, approvals_add, approvals_save,
    approvals_list_pending_for_run, approvals_has_pending_for_run, approvals_list_for_run,
    approvals_list_due_for_expiry, tools_get, tools_add, tools_save, tools_list_for_run,
    tools_list_for_step, tools_has_non_terminal_for_run, delegations_get,
    delegations_has_dispatched_for_run, delegations_get_for_child_execution,
    executions_list_by_root_run_id, node_executions_get_by_child_execution_id,
    schedules_complete_for_task, save_row, commit_raise in *.

Section LogsOfUseCases.
Context `{Env} `{FloatPow} `{Digest} `{Calendar} (Q : Parts -> Prop).

Lemma logs_fail_specs run t f : preserves (winv (logs_ok Q)) (fail_run_event_specs run t f).
Proof. unfold fail_run_event_specs. open_repos. keeps. Qed.
Lemma logs_succeed_specs run t : preserves (winv (logs_ok Q)) (succeed_run_event_specs run t).
Proof. unfold succeed_run_event_specs. open_repos. keeps. Qed.
#[local] Hint Resolve logs_fail_specs logs_succeed_specs : py.
Lemma logs_cancel_run run t : preserves (winv (logs_ok Q)) (cancel_run run t).
Proof. unfold cancel_run, cancel_pending_approvals. open_repos. keeps. Qed.
Lemma logs_cancel_run_of_task run t : preserves (winv (logs_ok Q)) (cancel_run_of_task run t).
Proof. unfold cancel_run_of_task. open_repos. keeps. Qed.
#[local] Hint Resolve logs_cancel_run logs_cancel_run_of_task : py.

Lemma logs_commit_with_event run x ty e : preserves (winv (logs_ok Q)) (commit_with_event run x ty e).
Proof. unfold commit_with_event. open_repos. keeps. Qed.
#[local] Hint Resolve logs_commit_with_event : py.

Lemma logs_transition a tg t r n :
  preserves (winv (logs_ok Q)) (transition_approval_in_transaction a tg t r n).
Proof. unfold transition_approval_in_transaction. open_repos. keeps. Qed.
Lemma logs_resume_step a s t : preserves (winv (logs_ok Q)) (resume_step a s t).
Proof. unfold resume_step. open_repos. keeps. Qed.
Lemma logs_resume_run a r t : preserves (winv (logs_ok Q)) (resume_run a r t).
Proof. unfold resume_run. open_repos. keeps. Qed.
#[local] Hint Resolve logs_transition logs_resume_step logs_resume_run : py.
Lemma logs_resolve a tg t r n : preserves (winv (logs_ok Q)) (resolve a tg t r n).
Proof. unfold resolve, load_approval_run, load_approval_step. open_repos. keeps. Qed.
#[local] Hint Resolve logs_resolve : py.
Lemma logs_expire a : preserves (winv (logs_ok Q)) (ExpireApproval a).
Proof. unfold ExpireApproval. open_repos. keeps. Qed.
#[local] Hint Resolve logs_expire : py.

(** [StartRun] draws the event id before it reserves the sequence. *)
Lemma logs_start_run_event {A} id r ty t p st (x : A) :
  preserves (winv (logs_ok Q)) (n <- events_reserve_sequences r 1 ;;
    e <- lift (RunEvent_new id r ty n (utc t) (to_py p) st) ;; events_append e ;;; ret x).
Proof.
  intros w [Hd [[Hs1 Hs2] HQ]].
  unfold events_reserve_sequences, events_append, bind, db, gets, upd, modify, lift, ret. cbn [fst snd].
  fold (next_seq r (staged w)). rewrite RunEvent_new_ok by apply Hs1. split; [done|]. cbn [snd staged].
  refine (conj (conj _ _) _); [|by destruct (staged w)..].
  apply (log_ok_logged (staged w) r t [(ty, p, st)]
           [mkRunEvent id r ty (next_seq r (staged w)) t p st]); [done|].
  split_and!; [|by repeat constructor|done]. by rewrite seqZ_cons, seqZ_nil.
Qed.
#[local] Hint Resolve logs_start_run_event : py.
Lemma logs_start_run task t : preserves (winv (logs_ok Q)) (start_run_in_uow task t).
Proof. unfold start_run_in_uow, ensure_task_can_own_a_run. open_repos. keeps. Qed.
#[local] Hint Resolve logs_start_run : py.

Lemma logs_fenced op msg : preserves (winv (logs_ok Q)) (fenced op msg).
Proof. unfold fenced. keeps. Qed.
Lemma logs_claim_candidate wk l t id : preserves (winv (logs_ok Q)) (claim_candidate wk l t id).
Proof. unfold claim_candidate. open_repos. keeps. Qed.
#[local] Hint Resolve logs_fenced logs_claim_candidate : py.
Lemma logs_claim_first wk l t cs : preserves (winv (logs_ok Q)) (claim_first wk l t cs).
Proof. induction cs as [|[id w] cs IH]; cbn [claim_first]; keeps. Qed.
Lemma logs_create_retry p run n t : preserves (winv (logs_ok Q)) (create_retry p run n t).
Proof. unfold create_retry. open_repos. keeps. Qed.
Lemma logs_require_claim r c t : preserves (winv (logs_ok Q)) (require_claim r c t).
Proof. unfold require_claim. keeps. Qed.
Lemma logs_find_replay l cs : preserves (winv (logs_ok Q)) (find_replay l cs).
Proof. induction cs as [|a cs IH]; cbn [find_replay]; open_repos; keeps. Qed.
Lemma logs_start_invocation r s c k a t : preserves (winv (logs_ok Q)) (start_invocation r s c k a t).
Proof. unfold start_invocation. open_repos. keeps. Qed.
Lemma logs_record_artifact r a t : preserves (winv (logs_ok Q)) (record_artifact r a t).
Proof. unfold record_artifact, artifacts_add. keeps. Qed.
#[local] Hint Resolve logs_require_claim logs_find_replay logs_start_invocation logs_record_artifact : py.
Lemma logs_record c : preserves (winv (logs_ok Q)) (RecordArtifact c).
Proof. unfold RecordArtifact, artifacts_get. open_repos. keeps. Qed.
#[local] Hint Resolve logs_record : py.
Lemma logs_authorize r s c k f cl : preserves (winv (logs_ok Q)) (authorize_action r s c k f cl).
Proof. unfold authorize_action. open_repos. keeps. Qed.
Lemma logs_record_result r s i x c : preserves (winv (logs_ok Q)) (record_result r s i x c).
Proof. unfold record_result, artifact_from, artifacts_add. open_repos. keeps. Qed.
Lemma logs_task_agents t b : preserves (winv (logs_ok Q)) (task_agents_replace t b).
Proof. by apply preserves_upd. Qed.
#[local] Hint Resolve logs_authorize logs_record_result logs_task_agents : py.
Lemma logs_publish r a v c : preserves (winv (logs_ok Q)) (publish_resolution r a v c).
Proof. unfold publish_resolution, agent_resolutions_add_if_claimed, agent_resolutions_get. keeps. Qed.
#[local] Hint Resolve logs_publish : py.
Lemma logs_resolve_agent reg r c : preserves (winv (logs_ok Q)) (resolve_run_agent reg r c).
Proof.
  unfold resolve_run_agent, check_existing, require_runtime, agent_resolutions_get, task_agents_get,
    agents_get, agent_revisions_get. open_repos. keeps.
Qed.
#[local] Hint Resolve logs_resolve_agent : py.
Lemma logs_dispatch reg l p c k o i ct s : preserves (winv (logs_ok Q)) (DispatchDelegation reg l p c k o i ct s).
Proof.
  unfold DispatchDelegation, hop_of, check_budgets, check_parent_step, resolve_target, start_child,
    delegations_lock_tree_for_dispatch, runs_lock_for_delegation_dispatch,
    delegations_count_materialized_for_run, delegations_count_materialized_for_tree, count_materialized,
    agents_get_by_key, agent_revisions_get, delegations_add. open_repos. keeps.
Qed.
Lemma logs_materialize_one rr i : preserves (winv (logs_ok Q)) (materialize_one rr i).
Proof.
  unfold materialize_one, materialize_in_uow, fire_schedule, plan_delivery, schedules_get, schedules_save,
    schedule_fires_add, delivery_plans_add_for_fire, delivery_policies_get_for_schedule,
    fires_has_non_terminal_execution_for_schedule. open_repos. keeps.
Qed.
#[local] Hint Resolve logs_dispatch logs_materialize_one : py.
Lemma logs_materialize_all rr l : preserves (winv (logs_ok Q)) (materialize_all rr l).
Proof. induction l; cbn [materialize_all]; keeps. Qed.
#[local] Hint Resolve logs_materialize_all : py.
Lemma logs_count_true l : Forall (preserves (winv (logs_ok Q))) l -> preserves (winv (logs_ok Q)) (count_true l).
Proof. induction 1; cbn [count_true]; keeps. Qed.
#[local] Hint Resolve logs_claim_first logs_create_retry : py.
#[local] Hint Extern 2 (preserves _ (count_true _)) =>
  apply logs_count_true, Forall_fmap, Forall_forall; intros; cbn; keeps_all : py.

(** *** Workflows *)
Ltac open_workflows :=
  unfold need_workflow, require_binding_exclusive, require_active_claim, workflows_get, workflows_add, workflows_save, workflow_revisions_get,
    workflow_revisions_add, workflow_revisions_next_version, agents_get, agent_revisions_get,
    task_agents_get, executions_get, node_executions_list_by_execution, workflow_resolutions_create,
    workflow_resolutions_get_by_run_id, workflow_resolutions_add_if_claimed, task_workflows_bind,
    task_workflows_unbind, task_workflows_get_by_task_id,
    events_list_for_run, events_latest_of_type_for_run; open_repos.

Lemma logs_change_workflow m x : preserves (winv (logs_ok Q)) (change_or_conflict m x).
Proof. unfold change_or_conflict. keeps. Qed.
Lemma logs_make_nodes rid items : preserves (winv (logs_ok Q)) (make_nodes rid items).
Proof. induction items; cbn [make_nodes]; open_workflows; keeps. Qed.
Lemma logs_make_edges rid by_key items : preserves (winv (logs_ok Q)) (make_edges rid by_key items).
Proof. induction items; cbn [make_edges]; keeps. Qed.
Lemma logs_load_frozen i r d : preserves (winv (logs_ok Q)) (load_frozen_revision i r d).
Proof. unfold load_frozen_revision. open_workflows. keeps. Qed.
Lemma logs_load_active i : preserves (winv (logs_ok Q)) (load_active_revision i).
Proof. unfold load_active_revision. open_workflows. keeps. Qed.
#[local] Hint Resolve logs_change_workflow logs_make_nodes logs_make_edges logs_load_frozen logs_load_active : py.
Lemma logs_remove_root c t r : preserves (winv (logs_ok Q)) (remove_root_claim c t r).
Proof. unfold remove_root_claim. keeps. Qed.
Lemma logs_resolution_for r i t : preserves (winv (logs_ok Q)) (resolution_for r i t).
Proof. unfold resolution_for. open_workflows. keeps. Qed.
Lemma logs_replay r i x : preserves (winv (logs_ok Q)) (replay_start r i x).
Proof. unfold replay_start. open_workflows. keeps. Qed.
Lemma logs_snapshots reg l acc : preserves (winv (logs_ok Q)) (agent_snapshots reg l acc).
Proof.
  revert acc. induction l; intros acc; cbn [agent_snapshots]; unfold ensure_agent_snapshot;
    open_workflows; keeps.
Qed.
Lemma logs_emit x ty p t : preserves (winv (logs_ok Q)) (emit_workflow_event x ty p t).
Proof. unfold emit_workflow_event. open_workflows. keeps. Qed.
#[local] Hint Resolve logs_remove_root logs_resolution_for logs_replay logs_snapshots logs_emit : py.
Lemma logs_emit_node n ty t : preserves (winv (logs_ok Q)) (emit_node_event n ty t).
Proof. unfold emit_node_event. open_workflows. keeps. Qed.
Lemma logs_context n : preserves (winv (logs_ok Q)) (build_workflow_node_context n).
Proof. unfold build_workflow_node_context. open_workflows. keeps. Qed.
Lemma logs_check_node x by_id n : preserves (winv (logs_ok Q)) (check_node x by_id n).
Proof. unfold check_node. open_workflows. keeps. Qed.
Lemma logs_child_result r t : preserves (winv (logs_ok Q)) (bounded_child_result r t).
Proof. unfold bounded_child_result. open_workflows. keeps. Qed.
Lemma logs_close {A} r (a : res A) m rm :
  (forall i, preserves (winv (logs_ok Q)) (rm i)) -> preserves (winv (logs_ok Q)) (close_root r a m rm).
Proof. intros Hrm. unfold close_root. open_repos. keeps. Qed.
#[local] Hint Resolve logs_emit_node logs_context logs_check_node logs_child_result : py.

Section Engine.
(** [Q] says nothing of the executions. *)
Context (HQ : forall x x' y z g, Q (x, y, z, g) -> Q (x', y, z, g)).

Lemma logs_executions_set (m : gmap WorkflowExecutionId WorkflowExecution) d :
  logs_ok Q d -> logs_ok Q (set_db_executions m d).
Proof. intros [Hl Hq]. split; [exact Hl|exact (HQ _ _ _ _ _ Hq)]. Qed.
Lemma logs_nodes_set (m : gmap WorkflowNodeExecutionId WorkflowNodeExecution) d :
  logs_ok Q d -> logs_ok Q (set_db_node_executions m d).
Proof. intros [Hl Hq]. split; [exact Hl|exact (HQ _ _ _ _ _ Hq)]. Qed.
Lemma logs_executions_create x : preserves (winv (logs_ok Q)) (executions_create x).
Proof. apply preserves_add_row. intros d. apply logs_executions_set. Qed.
Lemma logs_nodes_create n : preserves (winv (logs_ok Q)) (node_executions_create n).
Proof. apply preserves_add_row. intros d. apply logs_nodes_set. Qed.
Lemma logs_persist_node n : preserves (winv (logs_ok Q)) (persist_node n).
Proof.
  unfold persist_node, node_executions_update_status, save_row. keeps.
  apply preserves_upd. intros d. apply logs_nodes_set.
Qed.
Lemma logs_persist_execution x : preserves (winv (logs_ok Q)) (persist_execution x).
Proof.
  unfold persist_execution, executions_update_status, save_row. keeps.
  apply preserves_upd. intros d. apply logs_executions_set.
Qed.
#[local] Hint Resolve logs_executions_create logs_nodes_create logs_persist_node logs_persist_execution : py.
Lemma logs_dispatch_node nx n t : preserves (winv (logs_ok Q)) (dispatch_node nx n t).
Proof. unfold dispatch_node. open_repos. keeps. Qed.
#[local] Hint Resolve logs_dispatch_node : py.
Lemma logs_schedule_node b p t nxs i : preserves (winv (logs_ok Q)) (schedule_node b p t nxs i).
Proof. unfold schedule_node. keeps. Qed.
#[local] Hint Resolve logs_schedule_node : py.
Lemma logs_schedule_pass b p t ids nxs : preserves (winv (logs_ok Q)) (schedule_pass b p t ids nxs).
Proof. revert nxs. induction ids; intros nxs; cbn [schedule_pass]; keeps. Qed.
#[local] Hint Resolve logs_schedule_pass : py.
Lemma logs_schedule_loop f b p t o nxs : preserves (winv (logs_ok Q)) (schedule_loop f b p t o nxs).
Proof. revert nxs. induction f; intros nxs; cbn [schedule_loop]; keeps. Qed.
Lemma logs_create_nodes x r a t l acc : preserves (winv (logs_ok Q)) (create_node_executions x r a t l acc).
Proof. revert acc. induction l; intros acc; cbn [create_node_executions]; keeps. Qed.
Lemma logs_dispatch_roots b p t ids nxs : preserves (winv (logs_ok Q)) (dispatch_roots b p t ids nxs).
Proof. revert nxs. induction ids; intros nxs; cbn [dispatch_roots]; keeps. Qed.
Lemma logs_finish x l t rm :
  (forall i, preserves (winv (logs_ok Q)) (rm i)) -> preserves (winv (logs_ok Q)) (finish_if_terminal x l t rm).
Proof.
  intros Hrm. pose proof (fun A r a m => @logs_close A r a m rm Hrm).
  unfold finish_if_terminal. open_repos. keeps.
Qed.
#[local] Hint Resolve logs_schedule_loop logs_create_nodes logs_dispatch_roots logs_finish : py.
Lemma logs_reconcile_children t l nxs : preserves (winv (logs_ok Q)) (reconcile_children t l nxs).
Proof.
  revert nxs. induction l; intros nxs; cbn [reconcile_children]; unfold reconcile_child; open_repos; keeps.
Qed.
#[local] Hint Resolve logs_reconcile_children : py.
Lemma logs_start_execution reg r w c : preserves (winv (logs_ok Q)) (StartWorkflowExecution reg r w c).
Proof.
  unfold StartWorkflowExecution, bootstrap, schedule_to_fixed_point. open_workflows. keeps.
Qed.
Lemma logs_reconcile_execution x : preserves (winv (logs_ok Q)) (ReconcileWorkflowExecution x).
Proof.
  unfold ReconcileWorkflowExecution, advance, schedule_to_fixed_point. open_workflows. keeps.
Qed.
End Engine.
#[local] Hint Resolve logs_start_execution logs_reconcile_execution : py.

(** *** Deliveries *)
Section Delivering.
(** [Q] says nothing of the deliveries. *)
Context (HR : forall x y y' z g, Q (x, y, z, g) -> Q (x, y', z, g)).

Lemma logs_deliveries_set (m : gmap DeliveryId OutboundDelivery) d :
  logs_ok Q d -> logs_ok Q (set_db_deliveries m d).
Proof. intros [Hl Hq]. split; [exact Hl|exact (HR _ _ _ _ _ Hq)]. Qed.
Lemma logs_attempts_set (m : gmap DeliveryAttemptId DeliveryAttempt) d :
  logs_ok Q d -> logs_ok Q (set_db_attempts m d).
Proof. intros [Hl Hq]. split; [exact Hl|exact (HR _ _ _ _ _ Hq)]. Qed.
Lemma logs_deliveries_add x : preserves (winv (logs_ok Q)) (deliveries_add x).
Proof. apply preserves_add_row. intros d. apply logs_deliveries_set. Qed.
Lemma logs_update_delivery i p f : preserves (winv (logs_ok Q)) (update_delivery i p f).
Proof.
  unfold update_delivery, save_row. keeps. apply preserves_upd. intros d. apply logs_deliveries_set.
Qed.
Lemma logs_begin_attempt i c s t : preserves (winv (logs_ok Q)) (attempts_begin_for_claim i c s t).
Proof.
  unfold attempts_begin_for_claim. keeps. apply preserves_add_row. intros d. apply logs_attempts_set.
Qed.
Lemma logs_close_attempt i g t o c p : preserves (winv (logs_ok Q)) (close_attempt i g t o c p).
Proof. unfold close_attempt, save_row. keeps. apply preserves_upd. intros ?. apply logs_attempts_set. Qed.
#[local] Hint Resolve logs_deliveries_add logs_update_delivery logs_begin_attempt logs_close_attempt : py.
Lemma logs_recover_delivery p x t : preserves (winv (logs_ok Q)) (recover_delivery p x t).
Proof. unfold recover_delivery. keeps_all. Qed.
#[local] Hint Resolve logs_recover_delivery : py.
Lemma logs_recover_deliveries p t l : preserves (winv (logs_ok Q)) (recover_deliveries p t l).
Proof. induction l; cbn [recover_deliveries]; keeps. Qed.
Lemma logs_claim_delivery w t e l : preserves (winv (logs_ok Q)) (claim_first_delivery w t e l).
Proof. induction l; cbn [claim_first_delivery]; keeps_all. Qed.
Lemma logs_materialize_answers l : preserves (winv (logs_ok Q)) (materialize_answers l).
Proof. induction l; cbn [materialize_answers]; keeps_all. Qed.
End Delivering.
#[local] Hint Resolve logs_recover_deliveries logs_claim_delivery logs_materialize_answers
  logs_deliveries_add logs_update_delivery logs_begin_attempt logs_close_attempt : py.

(** *** Conversations *)
Section Conversing.
(** [Q] says nothing of the turns. *)
Context (HT : forall x z z' g, Q (x, z, g) -> Q (x, z', g)).
Lemma logs_turns_add x : preserves (winv (logs_ok Q)) (turns_add x).
Proof. apply preserves_add_row. intros d [Hl Hq]. split; [exact Hl|exact (HT _ _ _ _ Hq)]. Qed.
End Conversing.
#[local] Hint Resolve logs_turns_add : py.

(** *** Skills *)
(** A revision that an operator writes is not a generated one. *)
Lemma generated_insert x d : generated x = false -> db_skill_revisions d !! kr_id x = None ->
  generated_of (set_db_skill_revisions (<[kr_id x := x]> (db_skill_revisions d)) d) = generated_of d.
Proof. intros Hx Hn. unfold generated_of. cbn. apply map_filter_insert_not'; cbn; [by rewrite Hx|]. intros y Hy. congruence. Qed.
Lemma logs_revision_add x : generated x = false -> preserves (winv (logs_ok Q)) (skill_revisions_add x).
Proof.
  intros Hx w [Hd Hs]. unfold skill_revisions_add, add_row, db, gets, upd, modify, bind, raise.
  destruct (db_skill_revisions (staged w) !! kr_id x) eqn:E; [done|]. split; [done|]. cbn.
  destruct Hs as [Hl Hq]. split; [exact Hl|]. unfold parts_of. rewrite generated_insert by done. exact Hq.
Qed.
Lemma operator_revision id k v i s t x : SkillRevision_new id k v i s t None = Ok x -> generated x = false.
Proof.
  intros Hx. destruct (decide (s = SS_GENERATED)) as [->|Hs].
  { revert Hx. unfold SkillRevision_new. by case_match. }
  revert Hx. unfold SkillRevision_new. repeat (case_match; [done|]).
  destruct (validate_skill_instructions i); cbn [res_bind]; [|done].
  destruct (skill_digest _); cbn [res_bind]; [|done]. destruct (ensure_utc t); cbn [res_bind]; [|done].
  intros (_ & _ & _ & _ & Hk & _)%skill_revision_init_sealed.
  unfold generated. rewrite Hk. by apply bool_decide_eq_false.
Qed.
Lemma logs_lift_revision {A} id k v i s t (f : SkillRevision -> U A) :
  (forall x, generated x = false -> preserves (winv (logs_ok Q)) (f x)) ->
  preserves (winv (logs_ok Q)) (x <- lift (SkillRevision_new id k v i s t None) ;; f x).
Proof.
  intros Hf w Hw. unfold bind, lift. destruct (SkillRevision_new _ _ _ _ _ _ _) as [x|] eqn:E; [|done].
  by apply Hf; [eapply operator_revision|].
Qed.
Lemma logs_create_skill_revision k i s : preserves (winv (logs_ok Q)) (CreateSkillRevision k i s).
Proof.
  unfold CreateSkillRevision, need_skill, skills_get, skill_revisions_next_version.
  apply preserves_with_uow. do 6 (apply preserves_bind; [keeps_all|intros ?]).
  apply logs_lift_revision. intros x Hx. apply preserves_bind; [by apply logs_revision_add|]. intros ?. keeps.
Qed.
#[local] Hint Resolve logs_create_skill_revision : py.

(** *** Skill improvement *)
Lemma logs_consume i t : preserves (winv (logs_ok Q)) (approvals_consume_if_unconsumed i t).
Proof. unfold approvals_consume_if_unconsumed. open_repos. keeps. Qed.
Lemma logs_add_cases s t n l : preserves (winv (logs_ok Q)) (add_cases s t n l).
Proof. revert n. induction l as [|[[i e] g] l IH]; intros n; cbn [add_cases]; keeps_all. Qed.
Lemma logs_feedback_of s l : preserves (winv (logs_ok Q)) (feedback_of s l).
Proof. induction l; cbn [feedback_of]; keeps_all. Qed.
#[local] Hint Resolve logs_consume logs_add_cases logs_feedback_of : py.
Lemma logs_improve_skills ae one w n l : (forall s, preserves (winv (logs_ok Q)) (one s)) ->
  forall k, preserves (winv (logs_ok Q)) (improve_skills ae one w n k l).
Proof. intros Ho. induction l; intros k; cbn [improve_skills]; keeps_all. Qed.
Lemma logs_improve_skill `{JsonSchema} gen a an w s : preserves (winv (logs_ok Q)) (improve_skill gen a an w s).
Proof. keeps_all. Qed.
#[local] Hint Resolve logs_improve_skill logs_improve_skills : py.
Section Promoting.
(** [Q] says nothing of the generated revisions. *)
Context (HG : forall x g g', Q (x, g) -> Q (x, g')).
Lemma logs_generated_add x : preserves (winv (logs_ok Q)) (skill_revisions_add x).
Proof. apply preserves_add_row. intros d [Hl Hq]. split; [exact Hl|exact (HG _ _ _ Hq)]. Qed.
End Promoting.
Lemma logs_improvement_exec o :
  (promotion_op (OpImprove o) = true -> forall x g g', Q (x, g) -> Q (x, g')) ->
  preserves (winv (logs_ok Q)) (improvement_exec o).
Proof.
  intros HG. destruct o; cbn [improvement_exec]; try specialize (HG eq_refl);
    try pose proof (logs_generated_add HG) as Hadd; try (clear HG; keeps_all).
Qed.
#[local] Hint Resolve logs_improvement_exec : py.

(** The writes of a component need [Q] to say nothing of its tables. *)
Lemma logs_app_exec o :
  (engine_op o = true -> forall x x' y z g, Q (x, y, z, g) -> Q (x', y, z, g)) ->
  (delivery_op o = true -> forall x y y' z g, Q (x, y, z, g) -> Q (x, y', z, g)) ->
  (conversation_op o = true -> forall x z z' g, Q (x, z, g) -> Q (x, z', g)) ->
  (promotion_op o = true -> forall x g g', Q (x, g) -> Q (x, g')) ->
  preserves (winv (logs_ok Q)) (app_exec o).
Proof.
  intros HQ HR HT HG. destruct o; cbn [app_exec]; try specialize (HQ eq_refl); try specialize (HR eq_refl);
    try specialize (HT eq_refl);
    keeps_all.
Qed.
End LogsOfUseCases.

Lemma reachable_logs `{Env} `{FloatPow} `{Digest} `{Calendar} w :
  reachable w -> winv (logs_ok (fun _ => True)) w.
Proof.
  revert w. apply reach_invariant; [|intros o w; by apply logs_app_exec]. intros w ->. by repeat split.
Qed.

(** C1: in every database that any history of use cases leads to, the events of
    each run are numbered 1, 2, 3, ... in the order they were appended, without
    gaps or repeats, and the run's sequence counter is one past the last of
    them; the same holds for the events of each task. *)
Theorem event_logs_gapless `{Env} `{FloatPow} `{Digest} `{Calendar} w :
  reachable w ->
  (forall r, seqs r (durable w) = seqZ 1 (next_seq r (durable w) - 1)) /\
  (forall t, task_seqs t (durable w) = seqZ 1 (next_task_seq t (durable w) - 1)).
Proof.
  intros [[[Hr Ht] _] _]%reachable_logs. split; intros x; [apply Hr|apply Ht].
Qed.

Lemma event_logs_gapless_witness :
  seqs (toy_id 1) (durable toy_world) = [1; 2; 3; 4; 5; 6] /\
  task_seqs (toy_id 0) (durable toy_world) = [].
Proof.
  destruct (@event_logs_gapless toy_env toy_pow toy_digest toy_calendar toy_world toy_reachable) as [Hr Ht].
  rewrite (Hr (toy_id 1)), (Ht (toy_id 0)). split; vm_compute; reflexivity.
Defined.
