(* ===== verification/Rows.v ===== *)
(** * What a transaction may do to stored rows

    Every table with its entity, as one family: how rows are filed, what makes
    a row valid, and which transitions a row may take ([RunStart], [RunFail],
    ... for a run, none for an artifact).  The rules of this file follow rows
    through a transaction: a row that was read, and every value its methods
    return, descends from the committed row ([fact]), and only such values are
    stored. *)

From S2P Require Import Prelude Values RunEntity TaskEntity StepEntity ToolEntity ApprovalEntity.
From S2P Require Import EventEntity ScheduleEntity ScheduleDelivery Canonical DelegationEntity.
From S2P Require Import WorkQueue AgentEntity WorkflowGraph WorkflowEntity WorkflowExecutionEntity.
From S2P Require Import SkillEntity ConversationEntity ImprovementEntity Tables Store WorkflowStore DeliveryStore SkillStore.
From S2P Require Import ImprovementStore Lifecycle WorkflowEngine.

Open Scope Z_scope.

(** ** The tables *)
Inductive Tab : Set :=
| TbRun | TbTask | TbStep | TbTool | TbApproval | TbSchedule | TbDelegation | TbAgent
| TbWorkflow | TbExecution | TbNode | TbSkill | TbConversation
| TbArtifact | TbFire | TbPlan | TbRevision | TbAgentResolution | TbSkillResolution
| TbWorkflowRevision | TbWorkflowResolution | TbSkillRevision | TbTurn | TbFeedback
| TbProposal | TbPromotion | TbRollback | TbSuite | TbCase | TbEvaluationRun | TbCandidate | TbEvidence.
#[export] Instance Tab_eq_dec : EqDecision Tab.
Proof. solve_decision. Defined.

Definition tb_kind (t : Tab) : id_kind :=
  match t with
  | TbRun | TbAgentResolution | TbSkillResolution | TbWorkflowResolution => KRun
  | TbTask => KTask | TbStep => KStep | TbTool => KTool
  | TbApproval => KApproval | TbSchedule => KSchedule | TbDelegation => KDelegation
  | TbAgent => KAgent | TbArtifact => KArtifact | TbFire => KFire | TbPlan => KPlan
  | TbRevision => KAgentRevision | TbWorkflow => KWorkflow | TbWorkflowRevision => KWorkflowRevision
  | TbExecution => KWorkflowExecution | TbNode => KWorkflowNodeExecution
  | TbSkill => KSkill | TbSkillRevision => KSkillRevision | TbConversation => KConversation
  | TbTurn => KTurn | TbFeedback => KSkillFeedback
  | TbProposal => KProposal | TbPromotion => KPromotion | TbRollback => KRollback | TbSuite => KSuite | TbCase => KCase
  | TbEvaluationRun => KEvaluationRun | TbCandidate => KCandidateEvaluation | TbEvidence => KEvidence
  end.
Definition tb_row (t : Tab) : Type :=
  match t with
  | TbRun => Run | TbTask => Task | TbStep => RunStep | TbTool => ToolInvocation
  | TbApproval => ApprovalRequest | TbSchedule => Schedule | TbDelegation => DelegationRequest
  | TbAgent => Agent | TbArtifact => Artifact | TbFire => ScheduleFire
  | TbPlan => ScheduleFireDeliveryPlan | TbRevision => AgentRevision
  | TbAgentResolution => RunAgentResolution | TbSkillResolution => RunSkillResolution
  | TbWorkflow => Workflow | TbWorkflowRevision => WorkflowRevision
  | TbExecution => WorkflowExecution | TbNode => WorkflowNodeExecution
  | TbWorkflowResolution => RunWorkflowResolution | TbSkill => Skill | TbSkillRevision => SkillRevision
  | TbConversation => Conversation | TbTurn => ConversationTurn | TbFeedback => SkillRunFeedback
  | TbProposal => SkillImprovementProposal | TbPromotion => SkillPromotionRequest | TbRollback => SkillRollbackRequest
  | TbSuite => SkillEvaluationSuite | TbCase => SkillEvaluationCase | TbEvaluationRun => SkillEvaluationRun
  | TbCandidate => SkillCandidateEvaluation | TbEvidence => SkillEvidenceSnapshot
  end.
Abbreviation tb_map t := (gmap (Id (tb_kind t)) (tb_row t)).

Definition tb_get (t : Tab) : Db -> tb_map t :=
  match t with
  | TbRun => db_runs | TbTask => db_tasks | TbStep => db_steps | TbTool => db_tools
  | TbApproval => db_approvals | TbSchedule => db_schedules | TbDelegation => db_delegations
  | TbAgent => db_agents | TbArtifact => db_artifacts | TbFire => db_fires
  | TbPlan => db_delivery_plans | TbRevision => db_agent_revisions
  | TbAgentResolution => db_agent_resolutions | TbSkillResolution => db_skill_resolutions
  | TbWorkflow => db_workflows | TbWorkflowRevision => db_workflow_revisions
  | TbExecution => db_executions | TbNode => db_node_executions
  | TbWorkflowResolution => db_workflow_resolutions | TbSkill => db_skills
  | TbSkillRevision => db_skill_revisions | TbConversation => db_conversations | TbTurn => db_turns
  | TbFeedback => db_feedback
  | TbProposal => db_proposals | TbPromotion => db_promotions | TbRollback => db_rollbacks | TbSuite => db_suites
  | TbCase => db_cases | TbEvaluationRun => db_evaluation_runs | TbCandidate => db_candidates | TbEvidence => db_evidence
  end.
Definition tb_set (t : Tab) : tb_map t -> Db -> Db :=
  match t with
  | TbRun => set_db_runs | TbTask => set_db_tasks | TbStep => set_db_steps | TbTool => set_db_tools
  | TbApproval => set_db_approvals | TbSchedule => set_db_schedules
  | TbDelegation => set_db_delegations | TbAgent => set_db_agents | TbArtifact => set_db_artifacts
  | TbFire => set_db_fires | TbPlan => set_db_delivery_plans | TbRevision => set_db_agent_revisions
  | TbAgentResolution => set_db_agent_resolutions | TbSkillResolution => set_db_skill_resolutions
  | TbWorkflow => set_db_workflows | TbWorkflowRevision => set_db_workflow_revisions
  | TbExecution => set_db_executions | TbNode => set_db_node_executions
  | TbWorkflowResolution => set_db_workflow_resolutions | TbSkill => set_db_skills
  | TbSkillRevision => set_db_skill_revisions | TbConversation => set_db_conversations | TbTurn => set_db_turns
  | TbFeedback => set_db_feedback
  | TbProposal => set_db_proposals | TbPromotion => set_db_promotions | TbRollback => set_db_rollbacks
  | TbSuite => set_db_suites | TbCase => set_db_cases | TbEvaluationRun => set_db_evaluation_runs
  | TbCandidate => set_db_candidates | TbEvidence => set_db_evidence
  end.
Definition tb_key (t : Tab) : tb_row t -> Id (tb_kind t) :=
  match t with
  | TbRun => run_id | TbTask => task_id | TbStep => step_id | TbTool => tool_id
  | TbApproval => ap_id | TbSchedule => sc_id | TbDelegation => dl_id | TbAgent => ag_id
  | TbArtifact => art_id | TbFire => sf_id | TbPlan => pl_id | TbRevision => av_id
  | TbAgentResolution => ar_run_id | TbSkillResolution => sr_run_id
  | TbWorkflow => wf_id | TbWorkflowRevision => wr_id | TbExecution => wx_id | TbNode => nx_id
  | TbWorkflowResolution => wl_run_id | TbSkill => sk_id | TbSkillRevision => kr_id
  | TbConversation => cv_id | TbTurn => ct_id | TbFeedback => fb_id
  | TbProposal => ip_id | TbPromotion => pq_id | TbRollback => rb_id | TbSuite => es_suite_id | TbCase => ec_id
  | TbEvaluationRun => er_id | TbCandidate => ce_id | TbEvidence => es_id
  end.

Lemma tb_get_set_eq t m d : tb_get t (tb_set t m d) = m.
Proof. by destruct t. Qed.
Lemma tb_get_set_ne t t' m d : t <> t' -> tb_get t' (tb_set t m d) = tb_get t' d.
Proof. by destruct t, t'. Qed.

(** ** Transitions of a row

    One call of a method that returned.  The two unguarded schedule methods are only
    called on open schedules. *)
Definition sc_next (x x' : Schedule) : Prop :=
  schedule_open x = true /\ exists o, sc_exec o x = (Ok tt, x').
(** A dispatched delegation is not ended by its methods but by the [UPDATE] of
    [finalize_if_dispatched]: the status, the time and the failure code, which a failed
    one gets as the child run reported it ([fail] would have stripped it), and no other
    column. *)
Definition dl_finalised (x x' : DelegationRequest) : Prop :=
  dl_status x = DDISPATCHED /\ exists st t f, delegation_terminal st = true /\
    not_none f = bool_decide (st = DFAILED) /\
    x' = set_dl_failure_code f (set_dl_completed_at (Some t) (set_dl_status st x)).
Definition dl_next (x x' : DelegationRequest) : Prop :=
  (exists o, dl_exec o x = (Ok tt, x')) \/ dl_finalised x x'.

(** The guarded [UPDATE]s of workflow executions and their nodes: the columns
    that identify the row never change. *)
Definition wx_next (x x' : WorkflowExecution) : Prop :=
  wx_status x = XRUNNING /\
  exists st c f m, x' = set_wx_failure_message m (set_wx_failure_code f
                          (set_wx_completed_at c (set_wx_status st x))).
Definition nx_next (x x' : WorkflowNodeExecution) : Prop :=
  nx_status x ∈ expected_statuses (nx_status x') /\
  exists st ct cr ce p f m s c, x' = mkNodeExecution (nx_id x) (nx_workflow_execution_id x)
    (nx_workflow_node_id x) (nx_workflow_revision_id x) (nx_node_key x) (nx_target_agent_id x)
    (nx_target_agent_revision_id x) (nx_target_agent_revision_sha256 x) st (nx_created_at x)
    ct cr ce p f m s c.

(** A ready plan records the run whose answer was refused. *)
Definition pl_next (x x' : ScheduleFireDeliveryPlan) : Prop :=
  pl_status x = PLAN_READY /\ exists r, x' = reject_content r x.

(** Only the status of a proposal moves; a promotion or rollback request is resolved
    once. *)
Definition ip_next (x x' : SkillImprovementProposal) : Prop := exists s, x' = set_ip_status s x.
Definition pq_next (x x' : SkillPromotionRequest) : Prop :=
  pq_status x = PR_PENDING /\
  exists (s : PromotionRequestStatus) t r p, s <> PR_PENDING /\ x' = resolve_pq s t r (set_pq_promoted p x) /\
    (s = PR_PROMOTED -> p = Some (pq_target_revision_id x)).
Definition rb_next (x x' : SkillRollbackRequest) : Prop :=
  rb_status x = RB_PENDING /\ exists (s : RollbackRequestStatus) t r, s <> RB_PENDING /\ x' = resolve_rb s t r x.

Definition tb_next (t : Tab) : tb_row t -> tb_row t -> Prop :=
  match t with
  | TbRun => fun x x' => exists o, run_exec o x = (Ok tt, x')
  | TbTask => fun x x' => exists o, task_exec o x = (Ok tt, x')
  | TbStep => fun x x' => exists o, step_exec o x = (Ok tt, x')
  | TbTool => fun x x' => exists o, tool_exec o x = (Ok tt, x')
  | TbApproval => fun x x' => exists o, ap_exec o x = (Ok tt, x')
  | TbSchedule => sc_next
  | TbDelegation => dl_next
  | TbAgent => fun x x' => exists o, ag_exec o x = (Ok tt, x')
  | TbWorkflow => fun x x' => exists o, wf_exec o x = (Ok tt, x')
  | TbExecution => wx_next
  | TbNode => nx_next
  | TbPlan => pl_next
  | TbSkill => fun x x' => exists o, sk_exec o x = (Ok tt, x')
  | TbConversation => fun x x' => exists t, cv_touch t x = (Ok tt, x')
  | TbProposal => ip_next
  | TbPromotion => pq_next
  | TbRollback => rb_next
  | _ => fun _ _ => False
  end.
(** Any number of transitions *)
Definition evolves (t : Tab) : tb_row t -> tb_row t -> Prop := rtc (tb_next t).

(** What [Agent] and [AgentRevision] promise about a stored row *)
Definition ag_init (x : Agent) : Prop := exists id k n d at_, Agent_new id k n d at_ = Ok x.
Definition revision_sealed `{Digest} (r : AgentRevision) : Prop :=
  exists b, encode (canonical_revision_content (av_instructions r) (av_runtime_kind r) (av_runtime_config r))
            = Ok b /\ av_content_sha256 r = sha256_hex b.

(** A stored workflow revision still passes its own constructor: its nodes and
    edges are its own, form an acyclic graph, and have the stored digest. *)
Definition workflow_revision_sealed `{Digest} (r : WorkflowRevision) : Prop :=
  WorkflowRevision_init (wr_id r) (wr_workflow_id r) (wr_version r) (wr_content_sha256 r)
    (wr_source_kind r) (wr_nodes r) (wr_edges r) (utc (wr_created_at r)) = Ok r.

(** The frozen evidence has the stored hash and stays within its skill revision; an
    eligible comparison found an improvement and no regression. *)
Definition evidence_sealed `{Digest} (x : SkillEvidenceSnapshot) : Prop :=
  evidence_payload_hash (es_evidence x) = Ok (es_content_sha256 x) /\
  exists entries, es_evidence x = package entries /\
    forallb (fun e : str * json => entry_within (es_skill_id x) (es_base_revision_id x) (snd e)) entries = true.
Definition comparison_sealed `{Digest} (x : SkillCandidateEvaluation) : Prop :=
  SkillCandidateEvaluation_check x = Ok x /\
  (ce_recommendation x = CR_ELIGIBLE -> ce_regression_count x = 0 /\ 0 < ce_improvement_count x).

Definition tb_ok `{Digest} (t : Tab) : tb_row t -> Prop :=
  match t with
  | TbRun => run_reach
  | TbTask => task_reach
  | TbStep => step_reach
  | TbTool => tool_reach
  | TbApproval => reach ap_init ap_exec
  | TbSchedule => fun x => schedule_checks x = true
  | TbDelegation => dl_intent
  | TbAgent => reach ag_init ag_exec
  | TbRevision => revision_sealed
  | TbWorkflow => reach wf_init wf_exec
  | TbWorkflowRevision => workflow_revision_sealed
  | TbSkill => reach sk_init sk_exec
  | TbSkillRevision => skill_revision_sealed
  | TbTurn => turn_canonical
  | TbProposal => fun x => SkillImprovementProposal_check x = Ok x
  | TbPromotion => fun x => SkillPromotionRequest_check x = Ok x
  | TbRollback => fun x => SkillRollbackRequest_check x = Ok x
  | TbSuite => fun x => SkillEvaluationSuite_check x = Ok x
  | TbCase => fun x => SkillEvaluationCase_check x = Ok x
  | TbEvaluationRun => fun x => SkillEvaluationRun_check x = Ok x
  | TbCandidate => comparison_sealed
  | TbEvidence => evidence_sealed
  | _ => fun _ => True
  end.

Lemma reach_next {O S} (init : S -> Prop) (exec : O -> M S unit) o x x' :
  exec o x = (Ok tt, x') -> reach init exec x -> reach init exec x'.
Proof. intros E Hr. replace x' with (snd (exec o x)) by (by rewrite E). by apply reach_op. Qed.

Lemma sc_exec_id o x : sc_id (snd (sc_exec o x)) = sc_id x.
Proof.
  destruct x, o; cbv [sc_exec sc_pause sc_resume sc_cancel sc_complete sc_advance_after_fire];
    repeat (progress cbv [bind gets modify lift raise_if ret raise fst snd]; repeat case_match;
            simplify_eq/=); done.
Qed.
Lemma dl_exec_id o x : dl_id (snd (dl_exec o x)) = dl_id x.
Proof.
  destruct x as [? ? ? ? ? ? ? s ? ? ? ? ? ? ? ? ?], o, s; dl_cases; dl_split; done.
Qed.
Lemma ag_exec_id o x : ag_id (snd (ag_exec o x)) = ag_id x.
Proof.
  destruct x, o; cbv [ag_exec ag_activate ag_disable ag_archive ag_set_status];
    repeat (progress cbv [bind get gets modify lift raise_if ret raise fst snd]; repeat case_match;
            simplify_eq/=); done.
Qed.

Lemma wf_exec_id o x : wf_id (snd (wf_exec o x)) = wf_id x.
Proof.
  destruct x, o; cbv [wf_exec wf_activate wf_disable wf_archive];
    repeat (progress cbv [bind get gets modify lift raise_if ret raise fst snd]; repeat case_match;
            simplify_eq/=); done.
Qed.

Ltac next_key E lem :=
  match type of E with ?ex ?o ?x = (_, ?x') =>
    change (tb_key _ ?y) with (tb_key _ y) in *;
    replace x' with (snd (ex o x)) by (by rewrite E); apply lem end.
Lemma tb_next_key t x x' : tb_next t x x' -> tb_key t x' = tb_key t x.
Proof.
  destruct t; cbn [tb_next tb_key tb_row]; try done;
    [ intros [o E] .. | intros [_ [o E]] | intros [[o E]|(_ & st & a & f & _ & _ & ->)]; [|by destruct x] | intros [o E]
    | intros [o E] | intros (_ & st & c & f & m & ->); by destruct x
    | by intros (_ & st & ct & cr & ce & p & f & m & s & c & ->) | intros [o E] | intros [o E] | by intros (_ & r & ->)
    | by intros (s & ->) | by intros (_ & s & a & r & p & _ & -> & _) | by intros (_ & s & a & r & _ & ->) ].
  - next_key E run_exec_identity.
  - next_key E task_exec_identity.
  - next_key E step_exec_identity.
  - next_key E tool_exec_identity.
  - next_key E ap_exec_identity.
  - next_key E sc_exec_id.
  - next_key E dl_exec_id.
  - next_key E ag_exec_id.
  - next_key E wf_exec_id.
  - next_key E sk_exec_id.
  - revert E. unfold cv_touch, bind, lift. destruct (ensure_utc o); [|done]. by intros [= <-].
Qed.
Lemma pq_next_check x x' : pq_next x x' -> SkillPromotionRequest_check x = Ok x -> SkillPromotionRequest_check x' = Ok x'.
Proof.
  intros (_ & s & t & r & p & _ & -> & Hp). unfold SkillPromotionRequest_check. cbn.
  case_match; [done|]. case_match; [done|]. intros _. case_bool_decide as Hs; cbn; [|done].
  rewrite (Hp Hs). unfold opt_id_eqb, id_eqb. by rewrite bool_decide_eq_true_2.
Qed.
Lemma rb_next_check x x' : rb_next x x' -> SkillRollbackRequest_check x = Ok x -> SkillRollbackRequest_check x' = Ok x'.
Proof.
  intros (_ & s & t & r & _ & ->). unfold SkillRollbackRequest_check. cbn [rb_reason rb_authorization_fingerprint resolve_rb].
  by repeat case_match.
Qed.
Lemma ip_next_check `{Digest} x x' :
  ip_next x x' -> SkillImprovementProposal_check x = Ok x -> SkillImprovementProposal_check x' = Ok x'.
Proof.
  intros (s & ->). unfold SkillImprovementProposal_check.
  cbn [set_ip_status ip_proposed_instructions ip_trigger_kind ip_generator_version ip_rationale ip_candidate_prompt_version
    ip_evidence_snapshot_hash ip_candidate_prompt_sha256 ip_proposed_content_sha256].
  destruct (validate_skill_instructions _); cbn [res_bind]; [|done]. repeat (case_match; [done|]).
  destruct (skill_digest _); cbn [res_bind]; [|done]. by case_match.
Qed.
Lemma tb_next_ok `{Digest} t x x' : tb_next t x x' -> tb_ok t x -> tb_ok t x'.
Proof.
  destruct t; cbn [tb_next tb_ok tb_row]; try done;
    [ intros [o E]; by eapply reach_next .. | intros [_ [o E]] Hx
    | intros [[o E]|(_ & st & a & f & _ & _ & ->)] Hx | intros [o E]; by eapply reach_next
    | intros [o E]; by eapply reach_next | intros [o E]; by eapply reach_next
    | by apply ip_next_check | by apply pq_next_check | by apply rb_next_check ].
  - replace x' with (snd (sc_exec o x)) by (by rewrite E). by apply sc_exec_checks.
  - replace x' with (snd (dl_exec o x)) by (by rewrite E). by apply dl_exec_intent.
  - destruct x, Hx. by split.
Qed.

(** ** Valid databases and their histories *)

(** Every row is filed under its own id and is a valid entity. *)
Definition rows_valid `{Digest} (d : Db) : Prop :=
  forall t i v, tb_get t d !! i = Some v -> tb_key t v = i /\ tb_ok t v.
(** Every row of [d0] is still there in [d], moved only by its own transitions. *)
Definition rows_evolve (d0 d : Db) : Prop :=
  forall t i v0, tb_get t d0 !! i = Some v0 -> exists v, tb_get t d !! i = Some v /\ evolves t v0 v.

#[export] Instance rows_evolve_preorder : PreOrder rows_evolve.
Proof.
  split.
  - intros d t i v Hv. exists v. split; [done|]. apply rtc_refl.
  - intros a b c Hab Hbc t i v Hv. destruct (Hab t i v Hv) as (v' & Hv' & Hr).
    destruct (Hbc t i v' Hv') as (w & Hw & Hr'). exists w. split; [done|]. unfold evolves in *; by etrans.
Qed.

(** The skills of a resolved run stay as they were frozen. *)
Definition frozen_skills (r : RunId) (d : Db) : list RunSkillBinding :=
  filter (fun b => id_eqb (sb_run_id b) r = true) (db_skill_bindings d).
Definition skills_kept (d0 d : Db) : Prop :=
  forall r, db_skill_resolutions d0 !! r <> None -> frozen_skills r d = frozen_skills r d0.

(** Only resolved runs have skills. *)
Definition bindings_marked (d : Db) : Prop :=
  forall b, b ∈ db_skill_bindings d -> db_skill_resolutions d !! sb_run_id b <> None.

Create HintDb yd.

Section Transactions.
Context `{Digest} (d0 : Db).

(** The invariant of a transaction that started from [d0] *)
Definition tx_inv (d : Db) : Prop := (rows_valid d /\ rows_evolve d0 d) /\ skills_kept d0 d /\ bindings_marked d.
Abbreviation J := (winv tx_inv).

(** What is known for good about a value read from the session, and about what
    its methods return: it is valid, and it descends from the committed row, if
    there was one. *)
Definition fact (t : Tab) (v : tb_row t) : Prop :=
  tb_ok t v /\ forall v0, tb_get t d0 !! tb_key t v = Some v0 -> evolves t v0 v.

Lemma fact_read t d i v : tx_inv d -> tb_get t d !! i = Some v -> fact t v.
Proof.
  intros [[Hr He] _] Hv. destruct (Hr t i v Hv) as [Hk Ho]. split; [done|].
  intros v0 H0. rewrite Hk in H0. destruct (He t i v0 H0) as (v' & Hv' & Hs). congruence.
Qed.
Lemma fact_next t v v' : tb_next t v v' -> fact t v -> fact t v'.
Proof.
  intros Hn [Ho Hs]. split; [by eapply tb_next_ok|]. intros v0. rewrite (tb_next_key _ _ _ Hn).
  intros H0. eapply rtc_r; [by apply Hs|done].
Qed.
Lemma fact_fresh t d v : tx_inv d -> tb_get t d !! tb_key t v = None -> tb_ok t v -> fact t v.
Proof.
  intros [[_ He] _] Hn Ho. split; [done|]. intros v0 H0. destruct (He t _ v0 H0) as (v' & Hv' & _). congruence.
Qed.

Lemma tx_inv_set t m d :
  tx_inv d ->
  (forall i v, m !! i = Some v -> tb_key t v = i /\ tb_ok t v) ->
  (forall i v, tb_get t d !! i = Some v -> exists v', m !! i = Some v' /\
     (tb_get t d !! i = Some v' \/ evolves t v v' \/ fact t v')) ->
  tx_inv (tb_set t m d).
Proof.
  intros [[Hr He] [Hb Hmk]] Hm Hk. split; [|split; [by destruct t|]].
  2: { intros b Hin. assert (Hin' : b ∈ db_skill_bindings d) by (by destruct t). specialize (Hmk b Hin').
       destruct (decide (t = TbSkillResolution)) as [->|Hne]; [|by destruct t]. cbn.
       destruct (db_skill_resolutions d !! sb_run_id b) as [v|] eqn:E; [|done].
       destruct (Hk _ v E) as (v' & Hv' & _). cbn in Hv'. by rewrite Hv'. }
  split; intros t' i v.
  - destruct (decide (t = t')) as [<-|Hne]; [rewrite tb_get_set_eq; apply Hm|].
    rewrite tb_get_set_ne by done. apply Hr.
  - intros Hv. destruct (He t' i v Hv) as (w & Hw & Hs).
    destruct (decide (t = t')) as [<-|Hne]; [|rewrite tb_get_set_ne by done; by exists w].
    rewrite tb_get_set_eq. destruct (Hk i w Hw) as (w' & Hw' & Hc). exists w'. split; [done|].
    destruct Hc as [Hc|[Hc|[_ Hc]]].
    + congruence.
    + unfold evolves in *; by etrans.
    + apply Hc. by rewrite (proj1 (Hm i w' Hw')).
Qed.
Lemma tx_inv_insert t v d : tx_inv d -> fact t v -> tx_inv (tb_set t (<[tb_key t v := v]> (tb_get t d)) d).
Proof.
  intros Hd Hf. apply tx_inv_set; [done| |].
  - intros i w. destruct (decide (tb_key t v = i)) as [<-|Hne].
    + rewrite lookup_insert_eq. intros [= <-]. split; [done|apply Hf].
    + rewrite lookup_insert_ne by done. apply (proj1 Hd).
  - intros i w Hw. destruct (decide (tb_key t v = i)) as [<-|Hne].
    + exists v. rewrite lookup_insert_eq. auto.
    + exists w. rewrite lookup_insert_ne by done. auto.
Qed.
(** Writes to anything else *)
Lemma tx_inv_frame d d' :
  (forall t, tb_get t d' = tb_get t d) -> db_skill_bindings d' = db_skill_bindings d -> tx_inv d -> tx_inv d'.
Proof.
  intros E Eb [[Hr He] [Hb Hm]]. split; [split; intros t; rewrite E; [apply Hr|apply He]|].
  split; [intros r Hr'; unfold frozen_skills; rewrite Eb; by apply Hb|].
  intros b. rewrite Eb. intros Hb'. specialize (Hm b Hb'). pose proof (E TbSkillResolution) as Et. cbn in Et. by rewrite Et.
Qed.
(** Resolving a run: the marker and the skills it freezes *)
Lemma unresolved_before d r : tx_inv d -> db_skill_resolutions d !! r = None -> db_skill_resolutions d0 !! r = None.
Proof.
  intros [[_ He] _] Hn. destruct (db_skill_resolutions d0 !! r) as [v|] eqn:E; [|done].
  destruct (He TbSkillResolution r v E) as (v' & Hv & _). discriminate (eq_trans (eq_sym Hn) Hv).
Qed.
Lemma tx_inv_freeze x l d :
  tx_inv d -> db_skill_resolutions d !! sr_run_id x = None -> (forall b, b ∈ l -> sb_run_id b = sr_run_id x) ->
  tx_inv (set_db_skill_bindings (db_skill_bindings d ++ l)
            (set_db_skill_resolutions (<[sr_run_id x := x]> (db_skill_resolutions d)) d)).
Proof.
  intros Hd Hx Hl. destruct (tx_inv_insert TbSkillResolution x d Hd) as [Hrows [Hk Hm]].
  { by eapply (fact_fresh TbSkillResolution). }
  split; [destruct Hrows as [Hr He]; split; intros t; [specialize (Hr t)|specialize (He t)]; by destruct t|].
  split.
  - intros r Hr. etrans; [|exact (Hk r Hr)]. unfold frozen_skills. cbn.
    rewrite filter_app, (filter_none _ l), app_nil_r; [done|].
    intros b Hin E. apply Hr. apply bool_decide_eq_true in E as <-. rewrite (Hl b Hin). by eapply unresolved_before.
  - intros b. cbn. rewrite elem_of_app. intros [Hb|Hb]; [by apply Hm|]. by rewrite (Hl b Hb), lookup_insert_eq.
Qed.

(** *** Rules *)
Lemma yields_db {A} (f : Db -> A) (Q : A -> Prop) :
  (forall d, tx_inv d -> Q (f d)) -> yields J (db f) Q.
Proof. intros Hf w [Hd Hs]. split; [done|]. by apply Hf. Qed.
Lemma yields_true {A} (m : U A) (Q : A -> Prop) : yields J m Q -> yields J m (fun _ => True).
Proof. intros Hm. by eapply yields_mono. Qed.
Lemma yields_ret_true {A} (a : A) : yields J (ret a) (fun _ => True).
Proof. by intros w. Qed.
Lemma yields_with_uow {A} (m : U A) : yields J m (fun _ => True) -> yields J (with_uow m) (fun _ => True).
Proof. intros Hm. apply preserves_yields, preserves_with_uow. by eapply yields_preserves. Qed.
Lemma yields_frame f :
  (forall d t, tb_get t (f d) = tb_get t d) -> (forall d, db_skill_bindings (f d) = db_skill_bindings d) ->
  yields J (upd f) (fun _ => True).
Proof. intros Hf Hb. apply preserves_yields, preserves_upd. intros d. by apply tx_inv_frame. Qed.
Lemma yields_on_queue {A} (m : M Queue A) : yields J (on_queue m) (fun _ => True).
Proof. apply preserves_yields, preserves_on_queue. intros d q. apply tx_inv_frame; [by intros []|done]. Qed.

(** A read, a write of something that descends from what was read, and the
    insertion of a new entity *)
Lemma yields_get t i : yields J (db (fun d => tb_get t d !! i)) (fun o => forall v, o = Some v -> fact t v).
Proof. apply yields_db. intros d Hd v Hv. by eapply fact_read. Qed.
Lemma yields_get_key t i :
  yields J (db (fun d => tb_get t d !! i)) (fun o => forall v, o = Some v -> fact t v /\ tb_key t v = i).
Proof.
  apply yields_db. intros d Hd v Hv. split; [by eapply fact_read|]. by apply (proj1 (proj1 Hd) t i v).
Qed.
Lemma select_fact t d p o : tx_inv d -> forall v, v ∈ select p o (tb_get t d) -> fact t v.
Proof.
  intros Hd v. unfold select. rewrite elem_of_order_by.
  intros [_ ([i w] & -> & Hv)%list_elem_of_fmap]%list_elem_of_filter.
  apply elem_of_map_to_list in Hv. by eapply fact_read.
Qed.
Lemma yields_select t p o :
  yields J (db (fun d => select p o (tb_get t d))) (fun l => forall v, v ∈ l -> fact t v).
Proof. apply yields_db. intros d Hd. by apply select_fact. Qed.
Lemma yields_select_dep t (p : Db -> tb_row t -> bool) o n :
  yields J (db (fun d => select (p d) o (tb_get t d) !! n)) (fun x => forall v, x = Some v -> fact t v).
Proof. apply yields_db. intros d Hd v Hv%list_elem_of_lookup_2. by eapply select_fact. Qed.
Lemma yields_save t v : fact t v -> yields J (save_row (tb_get t) (tb_set t) (tb_key t v) v) (fun _ => True).
Proof. intros Hf. apply preserves_yields, preserves_upd. intros d Hd. by apply tx_inv_insert. Qed.
Lemma yields_add t v :
  tb_ok t v -> yields J (add_row (tb_get t) (tb_set t) (tb_key t v) v) (fun _ => fact t v).
Proof.
  intros Ho w [Hd Hs]. unfold add_row, db, gets, upd, modify, bind, raise.
  destruct (tb_get t (staged w) !! tb_key t v) eqn:E; [done|].
  assert (Hf : fact t v) by (by eapply fact_fresh). refine (conj (conj Hd _) Hf). by apply tx_inv_insert.
Qed.
(** A method call *)
Lemma yields_method t (m : M (tb_row t) unit) x :
  (forall x', m x = (Ok tt, x') -> tb_next t x x') -> yields J (call m x) (fun p => tb_next t x p.1).
Proof. intros Hm. eapply yields_mono; [apply yields_call|]. intros [x' []]. apply Hm. Qed.
End Transactions.

(** *** New entities *)
Lemma ok_run `{Digest} id t at_ e x : Run_new id t at_ e = Ok x -> tb_ok TbRun x.
Proof. intros E. apply reach_init. by exists id, t, at_, e. Qed.
Lemma ok_task `{Digest} id t d at_ x : Task_new id t d at_ = Ok x -> tb_ok TbTask x.
Proof. intros E. apply reach_init. by exists id, t, d, at_. Qed.
Lemma ok_step `{Digest} id r n p t x : RunStep_new id r n p t = Ok x -> tb_ok TbStep x.
Proof. intros E. apply reach_init. by exists id, r, n, p, t. Qed.
Lemma ok_tool `{Digest} id r n i t s a p x : ToolInvocation_new id r n i t s a p = Ok x -> tb_ok TbTool x.
Proof. intros E. apply reach_init. by exists id, r, n, i, t, s, a, p. Qed.
Lemma ok_approval `{Digest} id rid cat sm rs ac inp t st ex fp sk si x :
  ApprovalRequest_new id rid cat sm rs ac inp t st ex fp sk si = Ok x -> tb_ok TbApproval x.
Proof. intros E. apply reach_init. by exists id, rid, cat, sm, rs, ac, inp, t, st, ex, fp, sk, si. Qed.
Lemma ok_schedule `{Digest} zk id t k c r tz now nx x :
  Schedule_new zk id t k c r tz now nx = Ok x -> tb_ok TbSchedule x.
Proof. intros E. apply (sc_init_checks zk). by exists id, t, k, c, r, tz, now, nx. Qed.
Lemma ok_delegation `{Digest} id run agent obj payload contract at_ step root depth x :
  DelegationRequest_new id run agent obj payload contract at_ step root depth = Ok x -> tb_ok TbDelegation x.
Proof. intros E. by destruct (dl_new_ok _ _ _ _ _ _ _ _ _ _ _ E). Qed.
Lemma ok_agent `{Digest} id k n d at_ x : Agent_new id k n d at_ = Ok x -> tb_ok TbAgent x.
Proof. intros E. apply reach_init. by exists id, k, n, d, at_. Qed.
Lemma ok_revision `{Digest} id aid v ins kind cfg src at_ x :
  AgentRevision_new id aid v ins kind cfg src at_ = Ok x -> tb_ok TbRevision x.
Proof. intros (c & b & t & _ & _ & Hb & _ & -> & _)%agent_revision_new_inv. by exists b. Qed.

Lemma ok_workflow `{Digest} id k n d at_ x : Workflow_new id k n d at_ = Ok x -> tb_ok TbWorkflow x.
Proof. intros E. apply reach_init. by exists id, k, n, d, at_. Qed.
Lemma ok_workflow_revision `{Digest} id wid v nodes edges kind at_ x :
  WorkflowRevision_new id wid v nodes edges kind at_ = Ok x -> tb_ok TbWorkflowRevision x.
Proof.
  intros (c & b & t & Hv & Ho & Hd & Hc & He & Hs & _ & ->)%revision_new_inv.
  by destruct (revision_new_intro id wid v nodes edges kind (utc t) c b t Hv Ho Hd Hc He Hs (ensure_utc_utc t)).
Qed.

Lemma ok_skill `{Digest} id k n d at_ x : Skill_new id k n d at_ = Ok x -> tb_ok TbSkill x.
Proof. intros E. apply reach_init. by exists id, k, n, d, at_. Qed.
Lemma ok_skill_revision `{Digest} id sid v ins src at_ p x :
  SkillRevision_new id sid v ins src at_ p = Ok x -> tb_ok TbSkillRevision x.
Proof. by intros [Hx _]%skill_revision_new_sealed. Qed.
Lemma ok_turn `{Digest} id cid c txt m l tk r at_ x :
  ConversationTurn_new id cid c txt m l tk r at_ = Ok x -> tb_ok TbTurn x.
Proof. by intros [Hx _]%turn_new_canonical. Qed.

Lemma evidence_init_sealed `{Digest} id k b e h at_ x :
  SkillEvidenceSnapshot_init id k b e h at_ = Ok x -> evidence_sealed x.
Proof.
  unfold SkillEvidenceSnapshot_init. case_match; [done|].
  destruct (canonical_entries e) as [entries|]; cbn [res_bind]; [|done].
  destruct (evidence_payload_hash (package entries)) as [hash|] eqn:Eh; cbn [res_bind]; [|done].
  case_bool_decide as Hb; cbn [negb]; [|done]. destruct (forallb _ entries) eqn:Ef; cbn [negb]; [|done].
  destruct (canonical_bytes _); cbn [res_bind]; [|done]. case_match; [done|].
  destruct (ensure_utc at_); cbn [res_bind]; [|done]. intros [= <-]. subst hash. split; [done|]. by exists entries.
Qed.
Lemma ok_evidence `{Digest} id k b e at_ x : SkillEvidenceSnapshot_new id k b e at_ = Ok x -> tb_ok TbEvidence x.
Proof.
  unfold SkillEvidenceSnapshot_new. destruct (ensure_json_value e); cbn [res_bind]; [|done].
  destruct (canonicalize_evidence _); cbn [res_bind]; [|done].
  destruct (canonical_bytes _); cbn [res_bind]; [|done]. case_match; [done|].
  destruct (ensure_utc at_); cbn [res_bind]; [|done]. apply evidence_init_sealed.
Qed.
(** A constructor that checks and returns its argument *)
Ltac checked := unfold res_bind; repeat case_match; intros ?; congruence.
Lemma checked_proposal `{Digest} x y : SkillImprovementProposal_check x = Ok y -> y = x.
Proof. unfold SkillImprovementProposal_check. checked. Qed.
Lemma checked_promotion x y : SkillPromotionRequest_check x = Ok y -> y = x.
Proof. unfold SkillPromotionRequest_check. checked. Qed.
Lemma checked_rollback x y : SkillRollbackRequest_check x = Ok y -> y = x.
Proof. unfold SkillRollbackRequest_check. checked. Qed.
Lemma checked_suite x y : SkillEvaluationSuite_check x = Ok y -> y = x.
Proof. unfold SkillEvaluationSuite_check. checked. Qed.
Lemma checked_case x y : SkillEvaluationCase_check x = Ok y -> y = x.
Proof. unfold SkillEvaluationCase_check. checked. Qed.
Lemma checked_evaluation_run x y : SkillEvaluationRun_check x = Ok y -> y = x.
Proof. unfold SkillEvaluationRun_check. checked. Qed.
Lemma checked_comparison `{Digest} x y : SkillCandidateEvaluation_check x = Ok y -> y = x.
Proof. unfold SkillCandidateEvaluation_check. checked. Qed.
Lemma ok_proposal `{Digest} x y : SkillImprovementProposal_check x = Ok y -> tb_ok TbProposal y.
Proof. intros E. pose proof (checked_proposal _ _ E) as ->. exact E. Qed.
Lemma ok_promotion `{Digest} x y : SkillPromotionRequest_check x = Ok y -> tb_ok TbPromotion y.
Proof. intros E. pose proof (checked_promotion _ _ E) as ->. exact E. Qed.
Lemma ok_rollback `{Digest} x y : SkillRollbackRequest_check x = Ok y -> tb_ok TbRollback y.
Proof. intros E. pose proof (checked_rollback _ _ E) as ->. exact E. Qed.
Lemma ok_suite `{Digest} x y : SkillEvaluationSuite_check x = Ok y -> tb_ok TbSuite y.
Proof. intros E. pose proof (checked_suite _ _ E) as ->. exact E. Qed.
Lemma ok_case `{Digest} x y : SkillEvaluationCase_check x = Ok y -> tb_ok TbCase y.
Proof. intros E. pose proof (checked_case _ _ E) as ->. exact E. Qed.
Lemma ok_evaluation_run `{Digest} x y : SkillEvaluationRun_check x = Ok y -> tb_ok TbEvaluationRun y.
Proof. intros E. pose proof (checked_evaluation_run _ _ E) as ->. exact E. Qed.

#[export] Hint Resolve ok_evidence ok_proposal ok_promotion ok_rollback ok_suite ok_case ok_evaluation_run
  ok_skill ok_skill_revision ok_turn ok_workflow ok_workflow_revision ok_run ok_task ok_step ok_tool ok_approval ok_schedule ok_delegation
  ok_agent ok_revision tb_next_ok fact_next eq_refl
  yields_on_queue yields_ret_true yields_raise yields_raise_if yields_need yields_lift : yd.
(** The tables whose rows have no invariant *)
#[export] Hint Extern 1 (tb_ok _ _) => exact I : yd.

(** The rule of each repository operation *)
Tactic Notation "rule" uconstr(R) := first [apply R | eapply yields_true; apply R].
Ltac repo_rule :=
  lazymatch goal with
  | |- yields _ (runs_get ?i) _ => rule (yields_get _ TbRun i)
  | |- yields _ (tasks_get ?i) _ => rule (yields_get _ TbTask i)
  | |- yields _ (steps_get ?i) _ => rule (yields_get _ TbStep i)
  | |- yields _ (tools_get ?i) _ => rule (yields_get _ TbTool i)
  | |- yields _ (approvals_get ?i) _ => rule (yields_get _ TbApproval i)
  | |- yields _ (schedules_get ?i) _ => rule (yields_get _ TbSchedule i)
  | |- yields _ (delegations_get ?i) _ => rule (yields_get _ TbDelegation i)
  | |- yields _ (agents_get ?i) _ => rule (yields_get _ TbAgent i)
  | |- yields _ (agent_revisions_get ?i) _ => rule (yields_get _ TbRevision i)
  | |- yields _ (artifacts_get ?i) _ => rule (yields_get _ TbArtifact i)
  | |- yields _ (agent_resolutions_get ?i) _ => rule (yields_get _ TbAgentResolution i)
  | |- yields _ (skill_resolutions_get ?i) _ => rule (yields_get _ TbSkillResolution i)
  | |- yields _ (skills_get ?i) _ => rule (yields_get _ TbSkill i)
  | |- yields _ (skill_revisions_get ?i) _ => rule (yields_get _ TbSkillRevision i)
  | |- yields _ (conversations_get ?i) _ => rule (yields_get _ TbConversation i)
  | |- yields _ (turns_get ?i) _ => rule (yields_get _ TbTurn i)
  | |- yields _ (skills_save ?x) _ => rule (yields_save _ TbSkill x)
  | |- yields _ (conversations_save ?x) _ => rule (yields_save _ TbConversation x)
  | |- yields _ (skills_add ?x) _ => rule (yields_add _ TbSkill x)
  | |- yields _ (skill_revisions_add ?x) _ => rule (yields_add _ TbSkillRevision x)
  | |- yields _ (conversations_add ?x) _ => rule (yields_add _ TbConversation x)
  | |- yields _ (turns_add ?x) _ => rule (yields_add _ TbTurn x)
  | |- yields _ (feedback_add ?x) _ => rule (yields_add _ TbFeedback x)
  | |- yields _ (proposals_get ?i) _ => rule (yields_get _ TbProposal i)
  | |- yields _ (promotions_get ?i) _ => rule (yields_get _ TbPromotion i)
  | |- yields _ (rollbacks_get ?i) _ => rule (yields_get _ TbRollback i)
  | |- yields _ (proposals_list_for_skill _) _ => rule (yields_select _ TbProposal)
  | |- yields _ (suites_add ?x) _ => rule (yields_add _ TbSuite x)
  | |- yields _ (cases_add ?x) _ => rule (yields_add _ TbCase x)
  | |- yields _ (evaluation_runs_add ?x) _ => rule (yields_add _ TbEvaluationRun x)
  | |- yields _ (candidates_add ?x) _ => rule (yields_add _ TbCandidate x)
  | |- yields _ (evidence_add ?x) _ => rule (yields_add _ TbEvidence x)
  | |- yields _ (proposals_add ?x) _ => rule (yields_add _ TbProposal x)
  | |- yields _ (promotions_add ?x) _ => rule (yields_add _ TbPromotion x)
  | |- yields _ (rollbacks_add ?x) _ => rule (yields_add _ TbRollback x)
  | |- yields _ (proposals_save ?x) _ => rule (yields_save _ TbProposal x)
  | |- yields _ (promotions_save ?x) _ => rule (yields_save _ TbPromotion x)
  | |- yields _ (rollbacks_save ?x) _ => rule (yields_save _ TbRollback x)
  | |- yields _ (workflows_get ?i) _ => rule (yields_get _ TbWorkflow i)
  | |- yields _ (executions_get ?i) _ => rule (yields_get _ TbExecution i)
  | |- yields _ (workflow_resolutions_get_by_run_id ?i) _ => rule (yields_get _ TbWorkflowResolution i)
  | |- yields _ (workflows_save ?x) _ => rule (yields_save _ TbWorkflow x)
  | |- yields _ (workflows_add ?x) _ => rule (yields_add _ TbWorkflow x)
  | |- yields _ (workflow_revisions_add ?x) _ => rule (yields_add _ TbWorkflowRevision x)
  | |- yields _ (executions_create ?x) _ => rule (yields_add _ TbExecution x)
  | |- yields _ (node_executions_create ?x) _ => rule (yields_add _ TbNode x)
  | |- yields _ (workflow_resolutions_create ?x) _ => rule (yields_add _ TbWorkflowResolution x)
  | |- yields _ (runs_list_for_task _) _ => rule (yields_select _ TbRun)
  | |- yields _ (steps_list_for_run _) _ => rule (yields_select _ TbStep)
  | |- yields _ (tools_list_for_run _) _ => rule (yields_select _ TbTool)
  | |- yields _ (tools_list_for_step _) _ => rule (yields_select _ TbTool)
  | |- yields _ (approvals_list_pending_for_run _) _ => rule (yields_select _ TbApproval)
  | |- yields _ (approvals_list_for_run _) _ => rule (yields_select _ TbApproval)
  | |- yields _ (delegations_get_for_child_execution ?e) _ =>
      rule (yields_select_dep _ TbDelegation (fun d => child_in_execution d e))
  | |- yields _ (runs_save ?x) _ => rule (yields_save _ TbRun x)
  | |- yields _ (tasks_save ?x) _ => rule (yields_save _ TbTask x)
  | |- yields _ (steps_save ?x) _ => rule (yields_save _ TbStep x)
  | |- yields _ (tools_save ?x) _ => rule (yields_save _ TbTool x)
  | |- yields _ (approvals_save ?x) _ => rule (yields_save _ TbApproval x)
  | |- yields _ (schedules_save ?x) _ => rule (yields_save _ TbSchedule x)
  | |- yields _ (agents_save ?x) _ => rule (yields_save _ TbAgent x)
  | |- yields _ (runs_add ?x) _ => rule (yields_add _ TbRun x)
  | |- yields _ (tasks_add ?x) _ => rule (yields_add _ TbTask x)
  | |- yields _ (steps_add ?x) _ => rule (yields_add _ TbStep x)
  | |- yields _ (tools_add ?x) _ => rule (yields_add _ TbTool x)
  | |- yields _ (approvals_add ?x) _ => rule (yields_add _ TbApproval x)
  | |- yields _ (schedules_add ?x) _ => rule (yields_add _ TbSchedule x)
  | |- yields _ (delegations_add ?x) _ => rule (yields_add _ TbDelegation x)
  | |- yields _ (agents_add ?x) _ => rule (yields_add _ TbAgent x)
  | |- yields _ (agent_revisions_add ?x) _ => rule (yields_add _ TbRevision x)
  | |- yields _ (artifacts_add ?x) _ => rule (yields_add _ TbArtifact x)
  | |- yields _ (schedule_fires_add ?x) _ => rule (yields_add _ TbFire x)
  | |- yields _ (skill_resolutions_add ?x) _ => rule (yields_add _ TbSkillResolution x)
  | |- yields _ (agent_resolutions_add ?x) _ => rule (yields_add _ TbAgentResolution x)
  end.

(** Which method a call site uses *)
Ltac method_rule :=
  let go t o := apply (yields_method _ t); intros ? ?; exists o; assumption in
  lazymatch goal with
  | |- yields _ (call (run_start ?t) _) _ => go TbRun (RunStart t)
  | |- yields _ (call (run_wait_for_approval ?t ?a) _) _ => go TbRun (RunWaitForApproval t a)
  | |- yields _ (call (run_wait_for_delegation ?t ?a) _) _ => go TbRun (RunWaitForDelegation t a)
  | |- yields _ (call (run_wait_for_workflow ?t ?a) _) _ => go TbRun (RunWaitForWorkflow t a)
  | |- yields _ (call (run_succeed_workflow ?t) _) _ => go TbRun (RunSucceedWorkflow t)
  | |- yields _ (call (run_fail_workflow ?t ?f) _) _ => go TbRun (RunFailWorkflow t f)
  | |- yields _ (call (run_cancel_workflow ?t) _) _ => go TbRun (RunCancelWorkflow t)
  | |- yields _ (call (wf_activate ?r ?t) _) _ => go TbWorkflow (WfActivate r t)
  | |- yields _ (call (wf_disable ?t) _) _ => go TbWorkflow (WfDisable t)
  | |- yields _ (call (wf_archive ?t) _) _ => go TbWorkflow (WfArchive t)
  | |- yields _ (call (run_resume ?t) _) _ => go TbRun (RunResume t)
  | |- yields _ (call (run_resume_from_delegation ?t) _) _ => go TbRun (RunResumeFromDelegation t)
  | |- yields _ (call (run_succeed ?t) _) _ => go TbRun (RunSucceed t)
  | |- yields _ (call (run_fail ?t ?f) _) _ => go TbRun (RunFail t f)
  | |- yields _ (call (run_cancel ?t) _) _ => go TbRun (RunCancel t)
  | |- yields _ (call (task_start ?t) _) _ => go TbTask (TaskStart t)
  | |- yields _ (call (task_complete ?t) _) _ => go TbTask (TaskComplete t)
  | |- yields _ (call (task_fail ?t ?f) _) _ => go TbTask (TaskFail t f)
  | |- yields _ (call (task_cancel ?t) _) _ => go TbTask (TaskCancel t)
  | |- yields _ (call (step_start ?t) _) _ => go TbStep (StepStart t)
  | |- yields _ (call (step_wait_for_approval ?t ?a) _) _ => go TbStep (StepWaitForApproval t a)
  | |- yields _ (call (step_resume ?t) _) _ => go TbStep (StepResume t)
  | |- yields _ (call (step_succeed ?t) _) _ => go TbStep (StepSucceed t)
  | |- yields _ (call (step_fail ?t ?f) _) _ => go TbStep (StepFail t f)
  | |- yields _ (call (step_skip ?t) _) _ => go TbStep (StepSkip t)
  | |- yields _ (call (step_cancel ?t) _) _ => go TbStep (StepCancel t)
  | |- yields _ (call (tool_start ?t) _) _ => go TbTool (ToolStart t)
  | |- yields _ (call (tool_succeed ?t ?o) _) _ => go TbTool (ToolSucceed t o)
  | |- yields _ (call (tool_fail ?t ?f) _) _ => go TbTool (ToolFail t f)
  | |- yields _ (call (tool_cancel ?t) _) _ => go TbTool (ToolCancel t)
  | |- yields _ (call (ap_approve ?t ?r ?n) _) _ => go TbApproval (ApApprove t r n)
  | |- yields _ (call (ap_reject ?t ?r ?n) _) _ => go TbApproval (ApReject t r n)
  | |- yields _ (call (ap_cancel ?t ?n) _) _ => go TbApproval (ApCancel t n)
  | |- yields _ (call (ap_expire ?t) _) _ => go TbApproval (ApExpire t)
  | |- yields _ (call (ap_consume ?t) _) _ => go TbApproval (ApConsume t)
  | |- yields _ (call (dl_dispatch ?a ?b ?t) _) _ =>
      apply (yields_method _ TbDelegation); intros ? ?; left; exists (DlDispatch a b t); assumption
  | |- yields _ (call (ag_activate ?r ?t) _) _ => go TbAgent (AgActivate r t)
  | |- yields _ (call (ag_disable ?t) _) _ => go TbAgent (AgDisable t)
  | |- yields _ (call (ag_archive ?t) _) _ => go TbAgent (AgArchive t)
  | |- yields _ (call (sk_activate ?r ?t) _) _ => go TbSkill (SkActivate r t)
  | |- yields _ (call (sk_disable ?t) _) _ => go TbSkill (SkDisable t)
  | |- yields _ (call (sk_archive ?t) _) _ => go TbSkill (SkArchive t)
  | |- yields _ (call (cv_touch ?t) _) _ => go TbConversation t
  end.
#[export] Hint Extern 1 (yields _ (call _ _) _) => method_rule : yd.
#[export] Hint Extern 2 (yields _ _ _) => repo_rule : yd.
(** Anything else that only reads, commits, or draws an id or a time *)
#[export] Hint Extern 5 (yields _ _ (fun _ => True)) =>
  apply preserves_yields; solve [auto 2 with py nocore] : yd.

(** Walking down a use case with facts in hand *)
Ltac y_atom := solve [eauto 6 with yd nocore].
Ltac ys :=
  repeat
    lazymatch goal with
    | |- yields _ (bind _ _) _ =>
        first [ eapply yields_bind; [y_atom|intros ? ?; cbn beta in *]
              | eapply (yields_bind _ _ _ (fun _ => True)); [|intros ? _] ]
    | |- yields _ (with_uow _) _ => apply yields_with_uow
    | |- yields _ (for_each _ _) _ => apply yields_for_each; intros ? ?
    | |- yields _ (collect _ _) _ => apply yields_collect; intros ? ?
    | |- yields _ (if ?b then _ else _) _ => destruct b
    | |- yields _ (match ?x with _ => _ end) _ => destruct x; cbn beta iota in *; cbn [fst] in *
    | |- yields _ (let _ := _ in _) _ => cbv zeta
    | |- _ => y_atom
    end.
