(* ===== verification/AgentMappers.v ===== *)
(** * Row mappers: agents, delegations, skills and workflows

    The other half of [mappers.py], organised as [RowMappers]. *)

From S2P Require Import Prelude Values RunEntity TaskEntity StepEntity ToolEntity ApprovalEntity.
From S2P Require Import EventEntity ScheduleEntity ScheduleDelivery Canonical DelegationEntity.
From S2P Require Import AgentEntity WorkQueue WorkflowGraph WorkflowEntity WorkflowExecutionEntity.
From S2P Require Import SkillEntity ConversationEntity Tables Store Lifecycle Codec RowMappers Rows.

Open Scope Z_scope.

(** The digest check of a sealed revision passes. *)
Ltac sealed :=
  match goal with H : revision_sealed _ |- _ =>
    let b := fresh in let Hb := fresh in let Hs := fresh in
    destruct H as (b & Hb & Hs); rewrite Hb; cbn [res_bind];
    rewrite bool_decide_eq_true_2 by done; cbn [negb]
  end.

(** *** [AgentRow] *)
Record AgentRow : Type := mkAgentRow {
  AgentRow_id : str; AgentRow_key : str;
  AgentRow_display_name : str; AgentRow_description : str; AgentRow_status : str;
  AgentRow_active_revision_id : option str; AgentRow_created_at : datetime;
  AgentRow_updated_at : datetime }.
Definition agent_to_row (x : Agent) : AgentRow :=
  mkAgentRow (value (ag_id x)) (ag_key x)
    (ag_display_name x) (ag_description x) (u (enum_value (ag_status x)))
    (value <$> ag_active_revision_id x) (utc (ag_created_at x)) (utc (ag_updated_at x)).
Definition agent_from_row (row : AgentRow) : res Agent :=
  let 'mkAgentRow id key display_name description status active_revision_id created_at
    updated_at := row in
  id <~ id_parse id ;;
  status <~ enum_of status ;;
  active_revision_id <~ opt_id_parse active_revision_id ;;
  Ok (mkAgent id key display_name description status active_revision_id
    (instant (read_back_utc created_at)) (instant (read_back_utc updated_at))).
Definition AgentRow_stored `{Driver} (row : AgentRow) : AgentRow :=
  let 'mkAgentRow id key display_name description status active_revision_id created_at
    updated_at := row in
  mkAgentRow id key display_name description status active_revision_id (persist_dt created_at)
    (persist_dt updated_at).
Definition agent_storable (x : Agent) : Prop :=
  id_ok (ag_id x) /\
  opt_id_ok (ag_active_revision_id x).
Lemma agent_roundtrip `{DriverSpec} x :
  agent_storable x -> agent_from_row (AgentRow_stored (agent_to_row x)) = Ok x.
Proof.
  intros Hx; unfold agent_storable in Hx; destruct_and? Hx. unfold agent_from_row, AgentRow_stored, agent_to_row.
  columns. by destruct x.
Qed.

(** *** [AgentRevisionRow] *)
Record AgentRevisionRow : Type := mkAgentRevisionRow {
  AgentRevisionRow_id : str;
  AgentRevisionRow_agent_id : str; AgentRevisionRow_version : Z;
  AgentRevisionRow_instructions : str; AgentRevisionRow_runtime_kind : str;
  AgentRevisionRow_runtime_config : json; AgentRevisionRow_content_sha256 : str;
  AgentRevisionRow_source_kind : str; AgentRevisionRow_created_at : datetime }.
Definition agent_revision_to_row (x : AgentRevision) : AgentRevisionRow :=
  mkAgentRevisionRow
    (value (av_id x)) (value (av_agent_id x)) (av_version x) (av_instructions x)
    (av_runtime_kind x) (av_runtime_config x) (av_content_sha256 x)
    (u (enum_value (av_source_kind x))) (utc (av_created_at x)).
Definition agent_revision_from_row `{Digest} (row : AgentRevisionRow) : res AgentRevision :=
  let 'mkAgentRevisionRow id agent_id version instructions runtime_kind runtime_config
    content_sha256 source_kind created_at := row in
  expected <~ encode (canonical_revision_content instructions runtime_kind runtime_config) ;;
  if negb (bool_decide (sha256_hex expected = content_sha256)) then Raise (OtherError "AgentIntegrityFailed") else
  id <~ id_parse id ;;
  agent_id <~ id_parse agent_id ;;
  source_kind <~ enum_of source_kind ;;
  AgentRevision_init id agent_id version instructions runtime_kind runtime_config content_sha256
    source_kind (read_back_utc created_at).
Definition AgentRevisionRow_stored `{Driver} (row : AgentRevisionRow) : AgentRevisionRow :=
  let 'mkAgentRevisionRow id agent_id version instructions runtime_kind runtime_config
    content_sha256 source_kind created_at := row in
  mkAgentRevisionRow id agent_id version instructions runtime_kind runtime_config content_sha256
    source_kind (persist_dt created_at).
Definition agent_revision_storable `{Digest} (x : AgentRevision) : Prop :=
  id_ok (av_id x) /\
  id_ok (av_agent_id x) /\ revision_sealed x /\
  AgentRevision_init (av_id x) (av_agent_id x) (av_version x) (av_instructions x) (av_runtime_kind x) (av_runtime_config x) (av_content_sha256 x) (av_source_kind x) (utc (av_created_at x)) = Ok x.
Lemma agent_revision_roundtrip `{DriverSpec} `{Digest} x :
  agent_revision_storable x -> agent_revision_from_row (AgentRevisionRow_stored (agent_revision_to_row x)) = Ok x.
Proof.
  intros Hx; unfold agent_revision_storable in Hx; destruct_and? Hx. unfold agent_revision_from_row, AgentRevisionRow_stored, agent_revision_to_row.
  sealed. by columns.
Qed.

(** *** [TaskAgentBindingRow] *)
Record TaskAgentBindingRow : Type := mkTaskAgentBindingRow {
  TaskAgentBindingRow_task_id : str;
  TaskAgentBindingRow_agent_id : str; TaskAgentBindingRow_created_at : datetime }.
Definition task_agent_binding_to_row (x : TaskAgentBinding) : TaskAgentBindingRow :=
  mkTaskAgentBindingRow
    (value (ta_task_id x)) (value (ta_agent_id x)) (utc (ta_created_at x)).
Definition task_agent_binding_from_row (row : TaskAgentBindingRow) : res TaskAgentBinding :=
  let 'mkTaskAgentBindingRow task_id agent_id created_at := row in
  task_id <~ id_parse task_id ;;
  agent_id <~ id_parse agent_id ;;
  Ok (mkTaskAgent task_id agent_id (instant (read_back_utc created_at))).
Definition TaskAgentBindingRow_stored `{Driver} (row : TaskAgentBindingRow) : TaskAgentBindingRow :=
  let 'mkTaskAgentBindingRow task_id agent_id created_at := row in
  mkTaskAgentBindingRow task_id agent_id (persist_dt created_at).
Definition task_agent_binding_storable (x : TaskAgentBinding) : Prop :=
  id_ok (ta_task_id x) /\
  id_ok (ta_agent_id x).
Lemma task_agent_binding_roundtrip `{DriverSpec} x :
  task_agent_binding_storable x -> task_agent_binding_from_row (TaskAgentBindingRow_stored (task_agent_binding_to_row x)) = Ok x.
Proof.
  intros Hx; unfold task_agent_binding_storable in Hx; destruct_and? Hx. unfold task_agent_binding_from_row, TaskAgentBindingRow_stored, task_agent_binding_to_row.
  columns. by destruct x.
Qed.

(** *** [RunAgentResolutionRow] *)
Record RunAgentResolutionRow : Type := mkRunAgentResolutionRow {
  RunAgentResolutionRow_id : str; RunAgentResolutionRow_run_id : str;
  RunAgentResolutionRow_agent_id : str; RunAgentResolutionRow_revision_id : str;
  RunAgentResolutionRow_resolved_at : datetime }.
Definition run_agent_resolution_to_row (x : RunAgentResolution) : RunAgentResolutionRow :=
  mkRunAgentResolutionRow
    (value (ar_id x)) (value (ar_run_id x)) (value (ar_agent_id x)) (value (ar_revision_id x))
    (utc (ar_resolved_at x)).
Definition run_agent_resolution_from_row (row : RunAgentResolutionRow) : res RunAgentResolution :=
  let 'mkRunAgentResolutionRow id run_id agent_id revision_id resolved_at := row in
  id <~ id_parse id ;;
  run_id <~ id_parse run_id ;;
  agent_id <~ id_parse agent_id ;;
  revision_id <~ id_parse revision_id ;;
  Ok (mkAgentResolution id run_id agent_id revision_id (instant (read_back_utc resolved_at))).
Definition RunAgentResolutionRow_stored `{Driver} (row : RunAgentResolutionRow) : RunAgentResolutionRow :=
  let 'mkRunAgentResolutionRow id run_id agent_id revision_id resolved_at := row in
  mkRunAgentResolutionRow id run_id agent_id revision_id (persist_dt resolved_at).
Definition run_agent_resolution_storable (x : RunAgentResolution) : Prop :=
  id_ok (ar_id x) /\
  id_ok (ar_run_id x) /\ id_ok (ar_agent_id x) /\ id_ok (ar_revision_id x).
Lemma run_agent_resolution_roundtrip `{DriverSpec} x :
  run_agent_resolution_storable x -> run_agent_resolution_from_row (RunAgentResolutionRow_stored (run_agent_resolution_to_row x)) = Ok x.
Proof.
  intros Hx; unfold run_agent_resolution_storable in Hx; destruct_and? Hx. unfold run_agent_resolution_from_row, RunAgentResolutionRow_stored, run_agent_resolution_to_row.
  columns. by destruct x.
Qed.

(** *** [RunSkillResolutionRow] *)
Record RunSkillResolutionRow : Type := mkRunSkillResolutionRow {
  RunSkillResolutionRow_id : str; RunSkillResolutionRow_run_id : str;
  RunSkillResolutionRow_resolved_at : datetime }.
Definition run_skill_resolution_to_row (x : RunSkillResolution) : RunSkillResolutionRow :=
  mkRunSkillResolutionRow
    (value (sr_id x)) (value (sr_run_id x)) (utc (sr_resolved_at x)).
Definition run_skill_resolution_from_row (row : RunSkillResolutionRow) : res RunSkillResolution :=
  let 'mkRunSkillResolutionRow id run_id resolved_at := row in
  id <~ id_parse id ;;
  run_id <~ id_parse run_id ;;
  Ok (mkSkillResolution id run_id (instant (read_back_utc resolved_at))).
Definition RunSkillResolutionRow_stored `{Driver} (row : RunSkillResolutionRow) : RunSkillResolutionRow :=
  let 'mkRunSkillResolutionRow id run_id resolved_at := row in
  mkRunSkillResolutionRow id run_id (persist_dt resolved_at).
Definition run_skill_resolution_storable (x : RunSkillResolution) : Prop :=
  id_ok (sr_id x) /\
  id_ok (sr_run_id x).
Lemma run_skill_resolution_roundtrip `{DriverSpec} x :
  run_skill_resolution_storable x -> run_skill_resolution_from_row (RunSkillResolutionRow_stored (run_skill_resolution_to_row x)) = Ok x.
Proof.
  intros Hx; unfold run_skill_resolution_storable in Hx; destruct_and? Hx. unfold run_skill_resolution_from_row, RunSkillResolutionRow_stored, run_skill_resolution_to_row.
  columns. by destruct x.
Qed.

(** *** [RunSkillBindingRow] *)
Record RunSkillBindingRow : Type := mkRunSkillBindingRow {
  RunSkillBindingRow_run_id : str;
  RunSkillBindingRow_skill_id : str; RunSkillBindingRow_revision_id : str;
  RunSkillBindingRow_position : Z }.
Definition run_skill_binding_to_row (x : RunSkillBinding) : RunSkillBindingRow :=
  mkRunSkillBindingRow
    (value (sb_run_id x)) (value (sb_skill_id x)) (value (sb_revision_id x)) (sb_position x).
Definition run_skill_binding_from_row (row : RunSkillBindingRow) : res RunSkillBinding :=
  let 'mkRunSkillBindingRow run_id skill_id revision_id position := row in
  run_id <~ id_parse run_id ;;
  skill_id <~ id_parse skill_id ;;
  revision_id <~ id_parse revision_id ;;
  RunSkillBinding_new run_id skill_id revision_id position.
Definition RunSkillBindingRow_stored `{Driver} (row : RunSkillBindingRow) : RunSkillBindingRow :=
  let 'mkRunSkillBindingRow run_id skill_id revision_id position := row in
  mkRunSkillBindingRow run_id skill_id revision_id position.
Definition run_skill_binding_storable (x : RunSkillBinding) : Prop :=
  id_ok (sb_run_id x) /\
  id_ok (sb_skill_id x) /\ id_ok (sb_revision_id x) /\
  RunSkillBinding_new (sb_run_id x) (sb_skill_id x) (sb_revision_id x) (sb_position x) = Ok x.
Lemma run_skill_binding_roundtrip `{DriverSpec} x :
  run_skill_binding_storable x -> run_skill_binding_from_row (RunSkillBindingRow_stored (run_skill_binding_to_row x)) = Ok x.
Proof.
  intros Hx; unfold run_skill_binding_storable in Hx; destruct_and? Hx. unfold run_skill_binding_from_row, RunSkillBindingRow_stored, run_skill_binding_to_row.
  by columns.
Qed.

(** *** [SkillUsageRecordRow] *)
Record SkillUsageRecordRow : Type := mkSkillUsageRecordRow {
  SkillUsageRecordRow_id : str;
  SkillUsageRecordRow_run_id : str; SkillUsageRecordRow_task_id : str;
  SkillUsageRecordRow_skill_id : str; SkillUsageRecordRow_revision_id : str;
  SkillUsageRecordRow_position : Z; SkillUsageRecordRow_resolution_id : str;
  SkillUsageRecordRow_execution_id : str; SkillUsageRecordRow_attempt_number : Z;
  SkillUsageRecordRow_started_at : option datetime; SkillUsageRecordRow_completed_at : datetime;
  SkillUsageRecordRow_outcome : str; SkillUsageRecordRow_failure_code : option str;
  SkillUsageRecordRow_tool_call_count : Z; SkillUsageRecordRow_approval_count : Z;
  SkillUsageRecordRow_duration_ms : option Z; SkillUsageRecordRow_created_at : datetime }.
Definition skill_usage_record_to_row (x : SkillUsageRecord) : SkillUsageRecordRow :=
  mkSkillUsageRecordRow
    (value (ur_id x)) (value (ur_run_id x)) (value (ur_task_id x)) (value (ur_skill_id x))
    (value (ur_revision_id x)) (ur_position x) (ur_resolution_id x) (value (ur_execution_id x))
    (ur_attempt_number x) (utc <$> ur_started_at x) (utc (ur_completed_at x))
    (u (enum_value (ur_outcome x))) (ur_failure_code x) (ur_tool_call_count x)
    (ur_approval_count x) (ur_duration_ms x) (utc (ur_created_at x)).
Definition skill_usage_record_from_row (row : SkillUsageRecordRow) : res SkillUsageRecord :=
  let 'mkSkillUsageRecordRow id run_id task_id skill_id revision_id position resolution_id
    execution_id attempt_number started_at completed_at outcome failure_code tool_call_count
    approval_count duration_ms created_at := row in
  id <~ id_parse id ;;
  run_id <~ id_parse run_id ;;
  task_id <~ id_parse task_id ;;
  skill_id <~ id_parse skill_id ;;
  revision_id <~ id_parse revision_id ;;
  execution_id <~ id_parse execution_id ;;
  outcome <~ enum_of outcome ;;
  SkillUsageRecord_check (mkUsage id run_id task_id skill_id revision_id position resolution_id
    execution_id attempt_number ((fun v => instant (read_back_utc v)) <$> started_at)
    (instant (read_back_utc completed_at)) outcome failure_code tool_call_count approval_count
    duration_ms (instant (read_back_utc created_at))).
Definition SkillUsageRecordRow_stored `{Driver} (row : SkillUsageRecordRow) : SkillUsageRecordRow :=
  let 'mkSkillUsageRecordRow id run_id task_id skill_id revision_id position resolution_id
    execution_id attempt_number started_at completed_at outcome failure_code tool_call_count
    approval_count duration_ms created_at := row in
  mkSkillUsageRecordRow id run_id task_id skill_id revision_id position resolution_id
    execution_id attempt_number (persist_opt started_at) (persist_dt completed_at) outcome
    failure_code tool_call_count approval_count duration_ms (persist_dt created_at).
Definition skill_usage_record_storable (x : SkillUsageRecord) : Prop :=
  id_ok (ur_id x) /\
  id_ok (ur_run_id x) /\ id_ok (ur_task_id x) /\ id_ok (ur_skill_id x) /\
  id_ok (ur_revision_id x) /\ id_ok (ur_execution_id x) /\ SkillUsageRecord_check x = Ok x.
Lemma skill_usage_record_roundtrip `{DriverSpec} x :
  skill_usage_record_storable x -> skill_usage_record_from_row (SkillUsageRecordRow_stored (skill_usage_record_to_row x)) = Ok x.
Proof.
  intros Hx; unfold skill_usage_record_storable in Hx; destruct_and? Hx. unfold skill_usage_record_from_row, SkillUsageRecordRow_stored, skill_usage_record_to_row.
  columns. by destruct x.
Qed.

(** *** [DelegationRequestRow] *)
Record DelegationRequestRow : Type := mkDelegationRequestRow {
  DelegationRequestRow_id : str;
  DelegationRequestRow_parent_run_id : str; DelegationRequestRow_parent_run_step_id : option str;
  DelegationRequestRow_target_agent_id : str; DelegationRequestRow_objective : str;
  DelegationRequestRow_input_payload : json; DelegationRequestRow_expected_output_contract : str;
  DelegationRequestRow_authorization_fingerprint : str; DelegationRequestRow_status : str;
  DelegationRequestRow_child_task_id : option str;
  DelegationRequestRow_child_run_id : option str; DelegationRequestRow_created_at : datetime;
  DelegationRequestRow_started_at : option datetime;
  DelegationRequestRow_completed_at : option datetime;
  DelegationRequestRow_failure_code : option str; DelegationRequestRow_root_delegation_id : str;
  DelegationRequestRow_depth : Z }.
Definition delegation_request_to_row (x : DelegationRequest) : DelegationRequestRow :=
  mkDelegationRequestRow
    (value (dl_id x)) (value (dl_parent_run_id x)) (value <$> dl_parent_run_step_id x)
    (value (dl_target_agent_id x)) (dl_objective x) (dl_input_payload x)
    (dl_expected_output_contract x) (dl_authorization_fingerprint x)
    (u (enum_value (dl_status x))) (value <$> dl_child_task_id x) (value <$> dl_child_run_id x)
    (utc (dl_created_at x)) (utc <$> dl_started_at x) (utc <$> dl_completed_at x)
    (dl_failure_code x) (value (dl_root_delegation_id x)) (dl_depth x).
Definition delegation_request_from_row `{Digest} (row : DelegationRequestRow) : res DelegationRequest :=
  let 'mkDelegationRequestRow id parent_run_id parent_run_step_id target_agent_id objective
    input_payload expected_output_contract authorization_fingerprint status child_task_id
    child_run_id created_at started_at completed_at failure_code root_delegation_id
    depth := row in
  id <~ id_parse id ;;
  parent_run_id <~ id_parse parent_run_id ;;
  parent_run_step_id <~ opt_id_parse parent_run_step_id ;;
  target_agent_id <~ id_parse target_agent_id ;;
  status <~ enum_of status ;;
  child_task_id <~ opt_id_parse child_task_id ;;
  child_run_id <~ opt_id_parse child_run_id ;;
  root_delegation_id <~ id_parse root_delegation_id ;;
  DelegationRequest_init id parent_run_id target_agent_id objective (to_py input_payload)
    expected_output_contract authorization_fingerprint status (read_back_utc created_at)
    parent_run_step_id child_task_id child_run_id (read_back_utc <$> started_at)
    (read_back_utc <$> completed_at) failure_code (Some root_delegation_id) (Some depth).
Definition DelegationRequestRow_stored `{Driver} (row : DelegationRequestRow) : DelegationRequestRow :=
  let 'mkDelegationRequestRow id parent_run_id parent_run_step_id target_agent_id objective
    input_payload expected_output_contract authorization_fingerprint status child_task_id
    child_run_id created_at started_at completed_at failure_code root_delegation_id
    depth := row in
  mkDelegationRequestRow id parent_run_id parent_run_step_id target_agent_id objective
    input_payload expected_output_contract authorization_fingerprint status child_task_id
    child_run_id (persist_dt created_at) (persist_opt started_at) (persist_opt completed_at)
    failure_code root_delegation_id depth.
Definition delegation_request_storable `{Digest} (x : DelegationRequest) : Prop :=
  id_ok (dl_id x) /\ id_ok (dl_parent_run_id x) /\ opt_id_ok (dl_parent_run_step_id x) /\
  id_ok (dl_target_agent_id x) /\ opt_id_ok (dl_child_task_id x) /\
  opt_id_ok (dl_child_run_id x) /\ id_ok (dl_root_delegation_id x) /\ dl_reload x = Ok x.
Lemma delegation_request_roundtrip `{DriverSpec} `{Digest} x :
  delegation_request_storable x -> delegation_request_from_row (DelegationRequestRow_stored (delegation_request_to_row x)) = Ok x.
Proof.
  intros Hx; unfold delegation_request_storable in Hx; destruct_and? Hx. unfold delegation_request_from_row, DelegationRequestRow_stored, delegation_request_to_row.
  by columns.
Qed.

(** *** [WorkflowRow] *)
Record WorkflowRow : Type := mkWorkflowRow {
  WorkflowRow_id : str; WorkflowRow_key : str;
  WorkflowRow_display_name : str; WorkflowRow_description : str; WorkflowRow_status : str;
  WorkflowRow_active_revision_id : option str; WorkflowRow_created_at : datetime;
  WorkflowRow_updated_at : datetime }.
Definition workflow_to_row (x : Workflow) : WorkflowRow :=
  mkWorkflowRow (value (wf_id x))
    (wf_key x) (wf_display_name x) (wf_description x) (u (enum_value (wf_status x)))
    (value <$> wf_active_revision_id x) (utc (wf_created_at x)) (utc (wf_updated_at x)).
Definition workflow_from_row (row : WorkflowRow) : res Workflow :=
  let 'mkWorkflowRow id key display_name description status active_revision_id created_at
    updated_at := row in
  id <~ id_parse id ;;
  status <~ enum_of status ;;
  active_revision_id <~ opt_id_parse active_revision_id ;;
  Ok (mkWorkflow id key display_name description status active_revision_id
    (instant (read_back_utc created_at)) (instant (read_back_utc updated_at))).
Definition WorkflowRow_stored `{Driver} (row : WorkflowRow) : WorkflowRow :=
  let 'mkWorkflowRow id key display_name description status active_revision_id created_at
    updated_at := row in
  mkWorkflowRow id key display_name description status active_revision_id (persist_dt created_at)
    (persist_dt updated_at).
Definition workflow_storable (x : Workflow) : Prop :=
  id_ok (wf_id x) /\
  opt_id_ok (wf_active_revision_id x).
Lemma workflow_roundtrip `{DriverSpec} x :
  workflow_storable x -> workflow_from_row (WorkflowRow_stored (workflow_to_row x)) = Ok x.
Proof.
  intros Hx; unfold workflow_storable in Hx; destruct_and? Hx. unfold workflow_from_row, WorkflowRow_stored, workflow_to_row.
  columns. by destruct x.
Qed.

(** *** [WorkflowNodeRow] *)
Record WorkflowNodeRow : Type := mkWorkflowNodeRow {
  WorkflowNodeRow_id : str;
  WorkflowNodeRow_revision_id : str; WorkflowNodeRow_node_key : str;
  WorkflowNodeRow_target_agent_id : str; WorkflowNodeRow_objective : str;
  WorkflowNodeRow_input_payload : json; WorkflowNodeRow_expected_output_contract : str;
  WorkflowNodeRow_created_at : datetime }.
Definition workflow_node_to_row (x : WorkflowNode) : WorkflowNodeRow :=
  mkWorkflowNodeRow
    (value (wn_id x)) (value (wn_revision_id x)) (wn_node_key x) (value (wn_target_agent_id x))
    (wn_objective x) (wn_input_payload x) (wn_expected_output_contract x) (utc (wn_created_at x)).
Definition workflow_node_from_row `{Digest} (row : WorkflowNodeRow) : res WorkflowNode :=
  let 'mkWorkflowNodeRow id revision_id node_key target_agent_id objective input_payload
    expected_output_contract created_at := row in
  id <~ id_parse id ;;
  revision_id <~ id_parse revision_id ;;
  target_agent_id <~ id_parse target_agent_id ;;
  WorkflowNode_new id revision_id node_key target_agent_id objective (to_py input_payload)
    expected_output_contract (read_back_utc created_at).
Definition WorkflowNodeRow_stored `{Driver} (row : WorkflowNodeRow) : WorkflowNodeRow :=
  let 'mkWorkflowNodeRow id revision_id node_key target_agent_id objective input_payload
    expected_output_contract created_at := row in
  mkWorkflowNodeRow id revision_id node_key target_agent_id objective input_payload
    expected_output_contract (persist_dt created_at).
Definition workflow_node_storable `{Digest} (x : WorkflowNode) : Prop :=
  id_ok (wn_id x) /\
  id_ok (wn_revision_id x) /\ id_ok (wn_target_agent_id x) /\
  WorkflowNode_new (wn_id x) (wn_revision_id x) (wn_node_key x) (wn_target_agent_id x) (wn_objective x) (to_py (wn_input_payload x)) (wn_expected_output_contract x) (utc (wn_created_at x)) = Ok x.
Lemma workflow_node_roundtrip `{DriverSpec} `{Digest} x :
  workflow_node_storable x -> workflow_node_from_row (WorkflowNodeRow_stored (workflow_node_to_row x)) = Ok x.
Proof.
  intros Hx; unfold workflow_node_storable in Hx; destruct_and? Hx. unfold workflow_node_from_row, WorkflowNodeRow_stored, workflow_node_to_row.
  by columns.
Qed.

(** *** [WorkflowEdgeRow] *)
Record WorkflowEdgeRow : Type := mkWorkflowEdgeRow {
  WorkflowEdgeRow_id : str;
  WorkflowEdgeRow_revision_id : str; WorkflowEdgeRow_from_node_id : str;
  WorkflowEdgeRow_to_node_id : str; WorkflowEdgeRow_created_at : datetime }.
Definition workflow_edge_to_row (x : WorkflowEdge) : WorkflowEdgeRow :=
  mkWorkflowEdgeRow
    (value (we_id x)) (value (we_revision_id x)) (value (we_from_node_id x))
    (value (we_to_node_id x)) (utc (we_created_at x)).
Definition workflow_edge_from_row (row : WorkflowEdgeRow) : res WorkflowEdge :=
  let 'mkWorkflowEdgeRow id revision_id from_node_id to_node_id created_at := row in
  id <~ id_parse id ;;
  revision_id <~ id_parse revision_id ;;
  from_node_id <~ id_parse from_node_id ;;
  to_node_id <~ id_parse to_node_id ;;
  WorkflowEdge_new id revision_id from_node_id to_node_id (read_back_utc created_at).
Definition WorkflowEdgeRow_stored `{Driver} (row : WorkflowEdgeRow) : WorkflowEdgeRow :=
  let 'mkWorkflowEdgeRow id revision_id from_node_id to_node_id created_at := row in
  mkWorkflowEdgeRow id revision_id from_node_id to_node_id (persist_dt created_at).
Definition workflow_edge_storable (x : WorkflowEdge) : Prop :=
  id_ok (we_id x) /\
  id_ok (we_revision_id x) /\ id_ok (we_from_node_id x) /\ id_ok (we_to_node_id x) /\
  WorkflowEdge_new (we_id x) (we_revision_id x) (we_from_node_id x) (we_to_node_id x) (utc (we_created_at x)) = Ok x.
Lemma workflow_edge_roundtrip `{DriverSpec} x :
  workflow_edge_storable x -> workflow_edge_from_row (WorkflowEdgeRow_stored (workflow_edge_to_row x)) = Ok x.
Proof.
  intros Hx; unfold workflow_edge_storable in Hx; destruct_and? Hx. unfold workflow_edge_from_row, WorkflowEdgeRow_stored, workflow_edge_to_row.
  by columns.
Qed.

(** *** [WorkflowExecutionRow] *)
Record WorkflowExecutionRow : Type := mkWorkflowExecutionRow {
  WorkflowExecutionRow_id : str;
  WorkflowExecutionRow_root_run_id : str; WorkflowExecutionRow_workflow_id : str;
  WorkflowExecutionRow_workflow_revision_id : str;
  WorkflowExecutionRow_workflow_content_sha256 : str; WorkflowExecutionRow_status : str;
  WorkflowExecutionRow_started_at : datetime;
  WorkflowExecutionRow_completed_at : option datetime;
  WorkflowExecutionRow_failure_code : option str;
  WorkflowExecutionRow_failure_message : option str }.
Definition workflow_execution_to_row (x : WorkflowExecution) : WorkflowExecutionRow :=
  mkWorkflowExecutionRow
    (value (wx_id x)) (value (wx_root_run_id x)) (value (wx_workflow_id x))
    (value (wx_workflow_revision_id x)) (wx_workflow_content_sha256 x)
    (u (enum_value (wx_status x))) (utc (wx_started_at x)) (utc <$> wx_completed_at x)
    (wx_failure_code x) (wx_failure_message x).
Definition workflow_execution_from_row (row : WorkflowExecutionRow) : res WorkflowExecution :=
  let 'mkWorkflowExecutionRow id root_run_id workflow_id workflow_revision_id
    workflow_content_sha256 status started_at completed_at failure_code failure_message := row in
  id <~ id_parse id ;;
  root_run_id <~ id_parse root_run_id ;;
  workflow_id <~ id_parse workflow_id ;;
  workflow_revision_id <~ id_parse workflow_revision_id ;;
  status <~ enum_of status ;;
  WorkflowExecution_init (mkExecution id root_run_id workflow_id workflow_revision_id
    workflow_content_sha256 status (instant (read_back_utc started_at))
    ((fun v => instant (read_back_utc v)) <$> completed_at) failure_code failure_message).
Definition WorkflowExecutionRow_stored `{Driver} (row : WorkflowExecutionRow) : WorkflowExecutionRow :=
  let 'mkWorkflowExecutionRow id root_run_id workflow_id workflow_revision_id
    workflow_content_sha256 status started_at completed_at failure_code failure_message := row in
  mkWorkflowExecutionRow id root_run_id workflow_id workflow_revision_id workflow_content_sha256
    status (persist_dt started_at) (persist_opt completed_at) failure_code failure_message.
Definition workflow_execution_storable (x : WorkflowExecution) : Prop :=
  id_ok (wx_id x) /\
  id_ok (wx_root_run_id x) /\ id_ok (wx_workflow_id x) /\ id_ok (wx_workflow_revision_id x) /\
  wx_validate x = Ok tt.
Lemma workflow_execution_roundtrip `{DriverSpec} x :
  workflow_execution_storable x -> workflow_execution_from_row (WorkflowExecutionRow_stored (workflow_execution_to_row x)) = Ok x.
Proof.
  intros Hx; unfold workflow_execution_storable in Hx; destruct_and? Hx. unfold workflow_execution_from_row, WorkflowExecutionRow_stored, workflow_execution_to_row.
  columns. unfold WorkflowExecution_init. replace (mkExecution _ _ _ _ _ _ _ _ _ _) with x by (by destruct x). by replace (wx_validate x) with (Ok tt).
Qed.

(** *** [WorkflowNodeExecutionRow] *)
Record WorkflowNodeExecutionRow : Type := mkWorkflowNodeExecutionRow {
  WorkflowNodeExecutionRow_id : str; WorkflowNodeExecutionRow_workflow_execution_id : str;
  WorkflowNodeExecutionRow_workflow_node_id : str;
  WorkflowNodeExecutionRow_workflow_revision_id : str; WorkflowNodeExecutionRow_node_key : str;
  WorkflowNodeExecutionRow_target_agent_id : str;
  WorkflowNodeExecutionRow_target_agent_revision_id : str;
  WorkflowNodeExecutionRow_target_agent_revision_sha256 : str;
  WorkflowNodeExecutionRow_status : str; WorkflowNodeExecutionRow_child_task_id : option str;
  WorkflowNodeExecutionRow_child_run_id : option str;
  WorkflowNodeExecutionRow_child_execution_id : option str;
  WorkflowNodeExecutionRow_result_payload : json;
  WorkflowNodeExecutionRow_failure_code : option str;
  WorkflowNodeExecutionRow_failure_message : option str;
  WorkflowNodeExecutionRow_created_at : datetime;
  WorkflowNodeExecutionRow_started_at : option datetime;
  WorkflowNodeExecutionRow_completed_at : option datetime }.
Definition workflow_node_execution_to_row (x : WorkflowNodeExecution) : WorkflowNodeExecutionRow :=
  mkWorkflowNodeExecutionRow
    (value (nx_id x)) (value (nx_workflow_execution_id x)) (value (nx_workflow_node_id x))
    (value (nx_workflow_revision_id x)) (nx_node_key x) (value (nx_target_agent_id x))
    (value (nx_target_agent_revision_id x)) (nx_target_agent_revision_sha256 x)
    (u (enum_value (nx_status x))) (value <$> nx_child_task_id x) (value <$> nx_child_run_id x)
    (value <$> nx_child_execution_id x) (nx_result_payload x) (nx_failure_code x)
    (nx_failure_message x) (utc (nx_created_at x)) (utc <$> nx_started_at x)
    (utc <$> nx_completed_at x).
Definition workflow_node_execution_from_row (row : WorkflowNodeExecutionRow) : res WorkflowNodeExecution :=
  let 'mkWorkflowNodeExecutionRow id workflow_execution_id workflow_node_id workflow_revision_id
    node_key target_agent_id target_agent_revision_id target_agent_revision_sha256 status
    child_task_id child_run_id child_execution_id result_payload failure_code failure_message
    created_at started_at completed_at := row in
  id <~ id_parse id ;;
  workflow_execution_id <~ id_parse workflow_execution_id ;;
  workflow_node_id <~ id_parse workflow_node_id ;;
  workflow_revision_id <~ id_parse workflow_revision_id ;;
  target_agent_id <~ id_parse target_agent_id ;;
  target_agent_revision_id <~ id_parse target_agent_revision_id ;;
  status <~ enum_of status ;;
  child_task_id <~ opt_id_parse child_task_id ;;
  child_run_id <~ opt_id_parse child_run_id ;;
  child_execution_id <~ opt_id_parse child_execution_id ;;
  WorkflowNodeExecution_init (mkNodeExecution id workflow_execution_id workflow_node_id
    workflow_revision_id node_key target_agent_id target_agent_revision_id
    target_agent_revision_sha256 status (instant (read_back_utc created_at)) child_task_id
    child_run_id child_execution_id result_payload failure_code failure_message
    ((fun v => instant (read_back_utc v)) <$> started_at)
    ((fun v => instant (read_back_utc v)) <$> completed_at)).
Definition WorkflowNodeExecutionRow_stored `{Driver} (row : WorkflowNodeExecutionRow) : WorkflowNodeExecutionRow :=
  let 'mkWorkflowNodeExecutionRow id workflow_execution_id workflow_node_id workflow_revision_id
    node_key target_agent_id target_agent_revision_id target_agent_revision_sha256 status
    child_task_id child_run_id child_execution_id result_payload failure_code failure_message
    created_at started_at completed_at := row in
  mkWorkflowNodeExecutionRow id workflow_execution_id workflow_node_id workflow_revision_id
    node_key target_agent_id target_agent_revision_id target_agent_revision_sha256 status
    child_task_id child_run_id child_execution_id result_payload failure_code failure_message
    (persist_dt created_at) (persist_opt started_at) (persist_opt completed_at).
Definition workflow_node_execution_storable (x : WorkflowNodeExecution) : Prop :=
  id_ok (nx_id x) /\ id_ok (nx_workflow_execution_id x) /\ id_ok (nx_workflow_node_id x) /\
  id_ok (nx_workflow_revision_id x) /\ id_ok (nx_target_agent_id x) /\
  id_ok (nx_target_agent_revision_id x) /\ opt_id_ok (nx_child_task_id x) /\
  opt_id_ok (nx_child_run_id x) /\ opt_id_ok (nx_child_execution_id x) /\ nx_validate x = Ok tt.
Lemma workflow_node_execution_roundtrip `{DriverSpec} x :
  workflow_node_execution_storable x -> workflow_node_execution_from_row (WorkflowNodeExecutionRow_stored (workflow_node_execution_to_row x)) = Ok x.
Proof.
  intros Hx; unfold workflow_node_execution_storable in Hx; destruct_and? Hx. unfold workflow_node_execution_from_row, WorkflowNodeExecutionRow_stored, workflow_node_execution_to_row.
  columns. unfold WorkflowNodeExecution_init. replace (mkNodeExecution _ _ _ _ _ _ _ _ _ _ _ _ _ _ _ _ _ _) with x by (by destruct x). by replace (nx_validate x) with (Ok tt).
Qed.

(** *** [RunWorkflowResolutionRow] *)
Record RunWorkflowResolutionRow : Type := mkRunWorkflowResolutionRow {
  RunWorkflowResolutionRow_id : str; RunWorkflowResolutionRow_run_id : str;
  RunWorkflowResolutionRow_workflow_id : str;
  RunWorkflowResolutionRow_workflow_revision_id : str;
  RunWorkflowResolutionRow_content_sha256 : str;
  RunWorkflowResolutionRow_resolved_at : datetime }.
Definition run_workflow_resolution_to_row (x : RunWorkflowResolution) : RunWorkflowResolutionRow :=
  mkRunWorkflowResolutionRow
    (value (wl_id x)) (value (wl_run_id x)) (value (wl_workflow_id x))
    (value (wl_workflow_revision_id x)) (wl_content_sha256 x) (utc (wl_resolved_at x)).
Definition run_workflow_resolution_from_row (row : RunWorkflowResolutionRow) : res RunWorkflowResolution :=
  let 'mkRunWorkflowResolutionRow id run_id workflow_id workflow_revision_id content_sha256
    resolved_at := row in
  id <~ id_parse id ;;
  run_id <~ id_parse run_id ;;
  workflow_id <~ id_parse workflow_id ;;
  workflow_revision_id <~ id_parse workflow_revision_id ;;
  RunWorkflowResolution_new id run_id workflow_id workflow_revision_id content_sha256
    (read_back_utc resolved_at).
Definition RunWorkflowResolutionRow_stored `{Driver} (row : RunWorkflowResolutionRow) : RunWorkflowResolutionRow :=
  let 'mkRunWorkflowResolutionRow id run_id workflow_id workflow_revision_id content_sha256
    resolved_at := row in
  mkRunWorkflowResolutionRow id run_id workflow_id workflow_revision_id content_sha256
    (persist_dt resolved_at).
Definition run_workflow_resolution_storable (x : RunWorkflowResolution) : Prop :=
  id_ok (wl_id x) /\ id_ok (wl_run_id x) /\ id_ok (wl_workflow_id x) /\
  id_ok (wl_workflow_revision_id x) /\
  RunWorkflowResolution_new (wl_id x) (wl_run_id x) (wl_workflow_id x) (wl_workflow_revision_id x) (wl_content_sha256 x) (utc (wl_resolved_at x)) = Ok x.
Lemma run_workflow_resolution_roundtrip `{DriverSpec} x :
  run_workflow_resolution_storable x -> run_workflow_resolution_from_row (RunWorkflowResolutionRow_stored (run_workflow_resolution_to_row x)) = Ok x.
Proof.
  intros Hx; unfold run_workflow_resolution_storable in Hx; destruct_and? Hx. unfold run_workflow_resolution_from_row, RunWorkflowResolutionRow_stored, run_workflow_resolution_to_row.
  by columns.
Qed.

(** *** [TaskWorkflowBindingRow] *)
Record TaskWorkflowBindingRow : Type := mkTaskWorkflowBindingRow {
  TaskWorkflowBindingRow_task_id : str; TaskWorkflowBindingRow_workflow_id : str;
  TaskWorkflowBindingRow_created_at : datetime; TaskWorkflowBindingRow_updated_at : datetime }.
Definition task_workflow_binding_to_row (x : TaskWorkflowBinding) : TaskWorkflowBindingRow :=
  mkTaskWorkflowBindingRow
    (value (tw_task_id x)) (value (tw_workflow_id x)) (utc (tw_created_at x))
    (utc (tw_updated_at x)).
Definition task_workflow_binding_from_row (row : TaskWorkflowBindingRow) : res TaskWorkflowBinding :=
  let 'mkTaskWorkflowBindingRow task_id workflow_id created_at updated_at := row in
  task_id <~ id_parse task_id ;;
  workflow_id <~ id_parse workflow_id ;;
  TaskWorkflowBinding_init task_id workflow_id (read_back_utc created_at)
    (read_back_utc updated_at).
Definition TaskWorkflowBindingRow_stored `{Driver} (row : TaskWorkflowBindingRow) : TaskWorkflowBindingRow :=
  let 'mkTaskWorkflowBindingRow task_id workflow_id created_at updated_at := row in
  mkTaskWorkflowBindingRow task_id workflow_id (persist_dt created_at) (persist_dt updated_at).
Definition task_workflow_binding_storable (x : TaskWorkflowBinding) : Prop :=
  id_ok (tw_task_id x) /\ id_ok (tw_workflow_id x) /\
  TaskWorkflowBinding_init (tw_task_id x) (tw_workflow_id x) (utc (tw_created_at x)) (utc (tw_updated_at x)) = Ok x.
Lemma task_workflow_binding_roundtrip `{DriverSpec} x :
  task_workflow_binding_storable x -> task_workflow_binding_from_row (TaskWorkflowBindingRow_stored (task_workflow_binding_to_row x)) = Ok x.
Proof.
  intros Hx; unfold task_workflow_binding_storable in Hx; destruct_and? Hx. unfold task_workflow_binding_from_row, TaskWorkflowBindingRow_stored, task_workflow_binding_to_row.
  by columns.
Qed.

(** *** [WorkflowRevisionRow]: a revision is its row, its nodes and its edges. *)
Record WorkflowRevisionRow : Type := mkWorkflowRevisionRow {
  WorkflowRevisionRow_id : str; WorkflowRevisionRow_workflow_id : str;
  WorkflowRevisionRow_version : Z; WorkflowRevisionRow_content_sha256 : str;
  WorkflowRevisionRow_source_kind : str; WorkflowRevisionRow_created_at : datetime }.
Definition workflow_revision_to_row (x : WorkflowRevision) : WorkflowRevisionRow :=
  mkWorkflowRevisionRow (value (wr_id x)) (value (wr_workflow_id x)) (wr_version x)
    (wr_content_sha256 x) (u (enum_value (wr_source_kind x))) (utc (wr_created_at x)).
Definition WorkflowIntegrityFailed : exn := OtherError "WorkflowIntegrityFailed".
(** Whatever the constructor objects to is an integrity failure. *)
Definition workflow_revision_from_rows `{Digest} (row : WorkflowRevisionRow) (nodes : list WorkflowNode)
    (edges : list WorkflowEdge) : res WorkflowRevision :=
  let 'mkWorkflowRevisionRow id workflow_id version content_sha256 source_kind created_at := row in
  match
    id <~ id_parse id ;;
    workflow_id <~ id_parse workflow_id ;;
    source_kind <~ enum_of source_kind ;;
    WorkflowRevision_init id workflow_id version content_sha256 source_kind nodes edges
      (read_back_utc created_at)
  with
  | Ok r => Ok r
  | Raise _ => Raise WorkflowIntegrityFailed
  end.
Definition WorkflowRevisionRow_stored `{Driver} (row : WorkflowRevisionRow) : WorkflowRevisionRow :=
  let 'mkWorkflowRevisionRow id workflow_id version content_sha256 source_kind created_at := row in
  mkWorkflowRevisionRow id workflow_id version content_sha256 source_kind (persist_dt created_at).
Definition workflow_revision_storable `{Digest} (x : WorkflowRevision) : Prop :=
  id_ok (wr_id x) /\ id_ok (wr_workflow_id x) /\
  WorkflowRevision_init (wr_id x) (wr_workflow_id x) (wr_version x) (wr_content_sha256 x)
    (wr_source_kind x) (wr_nodes x) (wr_edges x) (utc (wr_created_at x)) = Ok x.
Definition workflow_revision_read `{Driver} `{Digest} (x : WorkflowRevision) : res WorkflowRevision :=
  workflow_revision_from_rows (WorkflowRevisionRow_stored (workflow_revision_to_row x))
    (wr_nodes x) (wr_edges x).
Lemma workflow_revision_roundtrip `{DriverSpec} `{Digest} x :
  workflow_revision_storable x -> workflow_revision_read x = Ok x.
Proof.
  intros (Hi & Hw & E). unfold workflow_revision_read, workflow_revision_from_rows,
    WorkflowRevisionRow_stored, workflow_revision_to_row.
  columns. by rewrite E.
Qed.

(** ** All entities as one family *)
Inductive Entity : Set :=
| ETask | ERun | ERunStep | EApprovalRequest | EToolInvocation
| EArtifact | ERunEvent | ETaskEvent | ESchedule | EScheduleFire | EScheduleDeliveryPolicy
| EScheduleFireDeliveryPlan | EAgent | EAgentRevision | ETaskAgentBinding | ERunAgentResolution
| ERunSkillResolution | ERunSkillBinding | ESkillUsageRecord | EDelegationRequest | EWorkflow
| EWorkflowNode | EWorkflowEdge | EWorkflowExecution | EWorkflowNodeExecution
| ERunWorkflowResolution | ETaskWorkflowBinding | EWorkflowRevision.
Definition entity (e : Entity) : Type :=
  match e with
  | ETask => Task | ERun => Run | ERunStep => RunStep | EApprovalRequest => ApprovalRequest
  | EToolInvocation => ToolInvocation | EArtifact => Artifact | ERunEvent => RunEvent
  | ETaskEvent => TaskEvent | ESchedule => Schedule | EScheduleFire => ScheduleFire
  | EScheduleDeliveryPolicy => ScheduleDeliveryPolicy
  | EScheduleFireDeliveryPlan => ScheduleFireDeliveryPlan | EAgent => Agent
  | EAgentRevision => AgentRevision | ETaskAgentBinding => TaskAgentBinding
  | ERunAgentResolution => RunAgentResolution | ERunSkillResolution => RunSkillResolution
  | ERunSkillBinding => RunSkillBinding | ESkillUsageRecord => SkillUsageRecord
  | EDelegationRequest => DelegationRequest | EWorkflow => Workflow
  | EWorkflowNode => WorkflowNode | EWorkflowEdge => WorkflowEdge
  | EWorkflowExecution => WorkflowExecution | EWorkflowNodeExecution => WorkflowNodeExecution
  | ERunWorkflowResolution => RunWorkflowResolution
  | ETaskWorkflowBinding => TaskWorkflowBinding | EWorkflowRevision => WorkflowRevision end.
Definition entity_row (e : Entity) : Type :=
  match e with
  | ETask => TaskRow | ERun => RunRow | ERunStep => RunStepRow
  | EApprovalRequest => ApprovalRequestRow | EToolInvocation => ToolInvocationRow
  | EArtifact => ArtifactRow | ERunEvent => RunEventRow | ETaskEvent => TaskEventRow
  | ESchedule => ScheduleRow | EScheduleFire => ScheduleFireRow
  | EScheduleDeliveryPolicy => ScheduleDeliveryPolicyRow
  | EScheduleFireDeliveryPlan => ScheduleFireDeliveryPlanRow | EAgent => AgentRow
  | EAgentRevision => AgentRevisionRow | ETaskAgentBinding => TaskAgentBindingRow
  | ERunAgentResolution => RunAgentResolutionRow | ERunSkillResolution => RunSkillResolutionRow
  | ERunSkillBinding => RunSkillBindingRow | ESkillUsageRecord => SkillUsageRecordRow
  | EDelegationRequest => DelegationRequestRow | EWorkflow => WorkflowRow
  | EWorkflowNode => WorkflowNodeRow | EWorkflowEdge => WorkflowEdgeRow
  | EWorkflowExecution => WorkflowExecutionRow
  | EWorkflowNodeExecution => WorkflowNodeExecutionRow
  | ERunWorkflowResolution => RunWorkflowResolutionRow
  | ETaskWorkflowBinding => TaskWorkflowBindingRow | EWorkflowRevision => WorkflowRevisionRow end.
(** [<e>_to_row] *)
Definition write_row (e : Entity) : entity e -> entity_row e :=
  match e with
  | ETask => task_to_row | ERun => run_to_row | ERunStep => run_step_to_row
  | EApprovalRequest => approval_to_row | EToolInvocation => tool_invocation_to_row
  | EArtifact => artifact_to_row | ERunEvent => run_event_to_row
  | ETaskEvent => task_event_to_row | ESchedule => schedule_to_row
  | EScheduleFire => schedule_fire_to_row
  | EScheduleDeliveryPolicy => schedule_delivery_policy_to_row
  | EScheduleFireDeliveryPlan => schedule_fire_delivery_plan_to_row | EAgent => agent_to_row
  | EAgentRevision => agent_revision_to_row | ETaskAgentBinding => task_agent_binding_to_row
  | ERunAgentResolution => run_agent_resolution_to_row
  | ERunSkillResolution => run_skill_resolution_to_row
  | ERunSkillBinding => run_skill_binding_to_row
  | ESkillUsageRecord => skill_usage_record_to_row
  | EDelegationRequest => delegation_request_to_row | EWorkflow => workflow_to_row
  | EWorkflowNode => workflow_node_to_row | EWorkflowEdge => workflow_edge_to_row
  | EWorkflowExecution => workflow_execution_to_row
  | EWorkflowNodeExecution => workflow_node_execution_to_row
  | ERunWorkflowResolution => run_workflow_resolution_to_row
  | ETaskWorkflowBinding => task_workflow_binding_to_row
  | EWorkflowRevision => workflow_revision_to_row end.
(** The row as the driver gives it back, through [<e>_from_row] *)
Definition read_back `{Driver} `{Digest} (e : Entity) : entity e -> res (entity e) :=
  match e with
  | ETask => fun x => task_from_row (TaskRow_stored (task_to_row x))
  | ERun => fun x => run_from_row (RunRow_stored (run_to_row x))
  | ERunStep => fun x => run_step_from_row (RunStepRow_stored (run_step_to_row x))
  | EApprovalRequest => fun x => approval_from_row (ApprovalRequestRow_stored (approval_to_row x))
  | EToolInvocation => fun x => tool_invocation_from_row (ToolInvocationRow_stored (tool_invocation_to_row x))
  | EArtifact => fun x => artifact_from_row (ArtifactRow_stored (artifact_to_row x))
  | ERunEvent => fun x => run_event_from_row (RunEventRow_stored (run_event_to_row x))
  | ETaskEvent => fun x => task_event_from_row (TaskEventRow_stored (task_event_to_row x))
  | ESchedule => fun x => schedule_from_row (ScheduleRow_stored (schedule_to_row x))
  | EScheduleFire => fun x => schedule_fire_from_row (ScheduleFireRow_stored (schedule_fire_to_row x))
  | EScheduleDeliveryPolicy => fun x => schedule_delivery_policy_from_row (ScheduleDeliveryPolicyRow_stored (schedule_delivery_policy_to_row x))
  | EScheduleFireDeliveryPlan => fun x => schedule_fire_delivery_plan_from_row (ScheduleFireDeliveryPlanRow_stored (schedule_fire_delivery_plan_to_row x))
  | EAgent => fun x => agent_from_row (AgentRow_stored (agent_to_row x))
  | EAgentRevision => fun x => agent_revision_from_row (AgentRevisionRow_stored (agent_revision_to_row x))
  | ETaskAgentBinding => fun x => task_agent_binding_from_row (TaskAgentBindingRow_stored (task_agent_binding_to_row x))
  | ERunAgentResolution => fun x => run_agent_resolution_from_row (RunAgentResolutionRow_stored (run_agent_resolution_to_row x))
  | ERunSkillResolution => fun x => run_skill_resolution_from_row (RunSkillResolutionRow_stored (run_skill_resolution_to_row x))
  | ERunSkillBinding => fun x => run_skill_binding_from_row (RunSkillBindingRow_stored (run_skill_binding_to_row x))
  | ESkillUsageRecord => fun x => skill_usage_record_from_row (SkillUsageRecordRow_stored (skill_usage_record_to_row x))
  | EDelegationRequest => fun x => delegation_request_from_row (DelegationRequestRow_stored (delegation_request_to_row x))
  | EWorkflow => fun x => workflow_from_row (WorkflowRow_stored (workflow_to_row x))
  | EWorkflowNode => fun x => workflow_node_from_row (WorkflowNodeRow_stored (workflow_node_to_row x))
  | EWorkflowEdge => fun x => workflow_edge_from_row (WorkflowEdgeRow_stored (workflow_edge_to_row x))
  | EWorkflowExecution => fun x => workflow_execution_from_row (WorkflowExecutionRow_stored (workflow_execution_to_row x))
  | EWorkflowNodeExecution => fun x => workflow_node_execution_from_row (WorkflowNodeExecutionRow_stored (workflow_node_execution_to_row x))
  | ERunWorkflowResolution => fun x => run_workflow_resolution_from_row (RunWorkflowResolutionRow_stored (run_workflow_resolution_to_row x))
  | ETaskWorkflowBinding => fun x => task_workflow_binding_from_row (TaskWorkflowBindingRow_stored (task_workflow_binding_to_row x))
  | EWorkflowRevision => workflow_revision_read end.
(** Identifiers are UUIDs, failures are not blank, and the object satisfies its
    own constructor. *)
Definition storable `{Digest} (e : Entity) : entity e -> Prop :=
  match e with
  | ETask => task_storable | ERun => run_storable | ERunStep => run_step_storable
  | EApprovalRequest => approval_storable | EToolInvocation => tool_invocation_storable
  | EArtifact => artifact_storable | ERunEvent => run_event_storable
  | ETaskEvent => task_event_storable | ESchedule => schedule_storable
  | EScheduleFire => schedule_fire_storable
  | EScheduleDeliveryPolicy => schedule_delivery_policy_storable
  | EScheduleFireDeliveryPlan => schedule_fire_delivery_plan_storable
  | EAgent => agent_storable | EAgentRevision => agent_revision_storable
  | ETaskAgentBinding => task_agent_binding_storable
  | ERunAgentResolution => run_agent_resolution_storable
  | ERunSkillResolution => run_skill_resolution_storable
  | ERunSkillBinding => run_skill_binding_storable
  | ESkillUsageRecord => skill_usage_record_storable
  | EDelegationRequest => delegation_request_storable | EWorkflow => workflow_storable
  | EWorkflowNode => workflow_node_storable | EWorkflowEdge => workflow_edge_storable
  | EWorkflowExecution => workflow_execution_storable
  | EWorkflowNodeExecution => workflow_node_execution_storable
  | ERunWorkflowResolution => run_workflow_resolution_storable
  | ETaskWorkflowBinding => task_workflow_binding_storable
  | EWorkflowRevision => workflow_revision_storable end.

(** C39: the 28 modelled kinds of entity survive the database: tasks, runs, run steps,
    approvals, tool invocations, artifacts, run and task events; schedules, their fires,
    delivery policies and delivery plans; agents, their revisions, task bindings and
    resolutions; skill resolutions, skill bindings and skill usage of runs; delegation
    requests; workflows, their revisions, nodes and edges, workflow executions, node
    executions, workflow resolutions and task workflow bindings.  The row the mapper of
    the kind writes, as an SQLite or PostgreSQL driver gives it back (with or without the
    time zone of its timestamps), is mapped to the very same entity, for every entity
    whose identifiers are UUIDs, whose failures are not blank and which its own
    constructor accepts.  The mappers of skills and their revisions, of skill
    evaluation, improvement and promotion, of conversations, deliveries, work items and
    the memory index are not among them. *)
Theorem rows_roundtrip `{DriverSpec} `{Digest} (e : Entity) (x : entity e) :
  storable e x -> read_back e x = Ok x.
Proof.
  revert x. destruct e.
  - apply task_roundtrip.
  - apply run_roundtrip.
  - apply run_step_roundtrip.
  - apply approval_roundtrip.
  - apply tool_invocation_roundtrip.
  - apply artifact_roundtrip.
  - apply run_event_roundtrip.
  - apply task_event_roundtrip.
  - apply schedule_roundtrip.
  - apply schedule_fire_roundtrip.
  - apply schedule_delivery_policy_roundtrip.
  - apply schedule_fire_delivery_plan_roundtrip.
  - apply agent_roundtrip.
  - apply agent_revision_roundtrip.
  - apply task_agent_binding_roundtrip.
  - apply run_agent_resolution_roundtrip.
  - apply run_skill_resolution_roundtrip.
  - apply run_skill_binding_roundtrip.
  - apply skill_usage_record_roundtrip.
  - apply delegation_request_roundtrip.
  - apply workflow_roundtrip.
  - apply workflow_node_roundtrip.
  - apply workflow_edge_roundtrip.
  - apply workflow_execution_roundtrip.
  - apply workflow_node_execution_roundtrip.
  - apply run_workflow_resolution_roundtrip.
  - apply task_workflow_binding_roundtrip.
  - apply workflow_revision_roundtrip.
Qed.

(** A failed run, through SQLite. *)
Definition ex_uuid : str := u "123e4567-e89b-42d3-a456-426614174000".
Definition ex_failed_run : Run :=
  mkRun (mkId ex_uuid) (mkId ex_uuid) (mkId ex_uuid) RFAILED 5 (Some 6) (Some 9)
    (Some (mkFailure (u "tool_failed") (u "no such file") true FC_TOOL JNull)) None None None.
Lemma rows_roundtrip_witness : @read_back sqlite toy_digest ERun ex_failed_run = Ok ex_failed_run.
Proof.
  apply (@rows_roundtrip sqlite sqlite_spec toy_digest ERun).
  split; [reflexivity|]. split; [reflexivity|]. split; [reflexivity|].
  split; [intros f [= <-]; split; reflexivity|]. split_and!; intros ? [=].
Defined.
