(* ===== verification/RowHistory.v ===== *)
(** * The history of stored rows

    What every use case may do to the rows of the tables of [Rows]: whatever is
    stored was made by its entity's constructor and methods, and a stored row
    changes only through the transitions of its entity, in every history of use
    cases.  Terminal rows, and the rows of the tables without transitions, are
    therefore never written again. *)

From S2P Require Import MemoryContext MemoryQuery MemoryAudit.
From S2P Require Import Prelude Values RunEntity TaskEntity StepEntity ToolEntity ApprovalEntity.
From S2P Require Import EventEntity ScheduleEntity ScheduleDelivery Canonical RetryPolicy.
From S2P Require Import DelegationEntity WorkQueue AgentEntity WorkflowExecutionEntity SkillEntity ConversationEntity Tables Store.
From S2P Require Import Lifecycle RunUseCases TaskUseCases StepUseCases ApprovalUseCases.
From S2P Require Import ToolExecution AgentUseCases DelegationUseCases ScheduleUseCases.
From S2P Require Import WorkerUseCases WorkflowGraph WorkflowEntity WorkflowStore WorkflowUseCases.
From S2P Require Import WorkflowEngine DeliveryEntity DeliveryStore DeliveryUseCases.
From S2P Require Import SkillStore SkillUseCases ConversationUseCases ImprovementEntity ImprovementStore.
From S2P Require Import SkillPromotion SkillEvaluation SkillImprovement System Rows.

Open Scope Z_scope.

(** A write to the tables of [Rows] that is none *)
Ltac y_frame := apply yields_frame; [intros ? []; reflexivity|by intros []].

(** Opening the reads that have no rule of their own *)
Ltac open_reads :=
  unfold discard, runs_ordinal_for_execution, runs_lock_execution_lineage,
    delegations_has_dispatched_for_run, executions_list_by_root_run_id,
    node_executions_get_by_child_execution_id, node_executions_get_by_child_task_id,
    task_workflows_get_by_task_id, delegations_get_for_child_task, task_agents_get,
    agents_get_by_key, agent_revisions_next_version, delivery_policies_get_for_schedule,
    delegations_lock_tree_for_dispatch, runs_lock_for_delegation_dispatch,
    delegations_count_materialized_for_run, delegations_count_materialized_for_tree,
    count_materialized, fires_has_non_terminal_execution_for_schedule, schedules_list_due,
    steps_has_non_terminal_for_run, tools_has_non_terminal_for_run, approvals_has_pending_for_run,
    approvals_list_due_for_expiry, skill_bindings_list_for_run, usage_get_for_run_skill, commit_raise.

Section Helpers.
Context `{Env} `{Digest} (d0 : Db).
Abbreviation J := (winv (tx_inv d0)).
Abbreviation F := (fact d0).

Lemma y_latest e :
  yields J (runs_get_latest_for_execution e) (fun o => forall r, o = Some r -> F TbRun r).
Proof.
  apply yields_db. intros d Hd r Hr%list_elem_of_lookup_2. rewrite elem_of_reverse in Hr.
  by eapply (select_fact _ TbRun).
Qed.
Lemma y_append run t specs : yields J (append_run_events run t specs) (fun _ => True).
Proof.
  unfold append_run_events, events_reserve_sequences. ys; [y_frame|].
  match goal with |- yields _ (append_from _ _ ?n _) _ => generalize n end.
  induction specs as [|[[ty p] st] specs IH]; intros n; cbn [append_from]; unfold events_append; ys.
  y_frame.
Qed.
Lemma y_append_task task t ty p : yields J (append_task_event task t ty p) (fun _ => True).
Proof. unfold append_task_event, task_events_reserve_sequences, task_events_append. ys; y_frame. Qed.
#[local] Hint Resolve y_latest y_append y_append_task : yd.

Lemma y_cancel_tools tools t :
  (forall x, x ∈ tools -> F TbTool x) -> yields J (cancel_tools tools t) (fun _ => True).
Proof. intros Ht. unfold cancel_tools. ys. Qed.
#[local] Hint Resolve y_cancel_tools : yd.
Lemma y_cancel_steps run t : yields J (cancel_steps run t) (fun _ => True).
Proof. unfold cancel_steps. ys. Qed.
Lemma y_usage_add x : yields J (usage_add x) (fun _ => True).
Proof. apply yields_frame; [intros d []|intros d]; by destruct (db_usage d !! _). Qed.
#[local] Hint Resolve y_usage_add : yd.
Lemma y_materialize i t : yields J (materialize_skill_usage_in_uow i t) (fun _ => True).
Proof. unfold materialize_skill_usage_in_uow. open_reads. ys. Qed.
Lemma copied_run retry l l' : copy_bindings retry l = Ok l' -> forall b, b ∈ l' -> sb_run_id b = retry.
Proof.
  revert l'. induction l as [|x l IH]; intros l' E b Hb; cbn in E; [injection E as <-; by apply elem_of_nil in Hb|].
  destruct (RunSkillBinding_new _ _ _ _) as [x'|] eqn:Ex; [|done]. cbn in E.
  destruct (copy_bindings retry l) as [l0|]; [|done]. injection E as <-.
  apply elem_of_cons in Hb as [->|Hb]; [|by eapply IH].
  revert Ex. unfold RunSkillBinding_new. case_match; [done|]. by intros [= <-].
Qed.
(** A marker and the skills it freezes are added together. *)
Lemma y_copy_skills x r retry : sr_run_id x = retry ->
  yields J (skill_resolutions_add x ;;;
            bindings <- skill_bindings_list_for_run r ;;
            copies <- lift (copy_bindings retry bindings) ;;
            skill_bindings_add_all copies) (fun _ => True).
Proof.
  intros <- w [Hd Hs].
  unfold skill_resolutions_add, skill_bindings_list_for_run, skill_bindings_add_all, add_row, db, gets, upd, modify,
    lift, bind, raise.
  destruct (db_skill_resolutions (staged w) !! sr_run_id x) eqn:En; [done|]. cbn.
  destruct (copy_bindings (sr_run_id x) _) as [l|e] eqn:El.
  - refine (conj (conj Hd _) I). apply tx_inv_freeze; [done..|exact (copied_run _ _ _ El)].
  - split; [done|]. apply (tx_inv_insert _ TbSkillResolution); [done|]. by eapply (fact_fresh _ TbSkillResolution).
Qed.
Lemma y_inherit a b : yields J (inherit_frozen_resolutions_in_uow a b) (fun _ => True).
Proof.
  unfold inherit_frozen_resolutions_in_uow. apply (yields_bind _ _ _ (fun _ => True)); [y_atom|intros s _].
  apply (yields_bind _ _ _ (fun _ => True)); [|intros _ _; ys]. destruct s as [s|]; [|y_atom].
  apply (yields_bind _ _ _ (fun _ => True)); [y_atom|intros rid _]. by apply y_copy_skills.
Qed.
Lemma y_wake_parent r e p t : yields J (wake_parent r e p t) (fun _ => True).
Proof. unfold wake_parent. ys. Qed.
#[local] Hint Resolve y_wake_parent : yd.
Lemma y_finalize i st t f :
  delegation_terminal st = true -> not_none f = bool_decide (st = DelegationEntity.DFAILED) ->
  yields J (delegations_finalize_if_dispatched i st t f) (fun _ => True).
Proof.
  intros Hst. set (failed := bool_decide (st = _)). intros Hcode. unfold delegations_finalize_if_dispatched.
  eapply yields_bind; [apply (yields_get_key _ TbDelegation)|]. intros [x|] Hx; [|y_atom].
  destruct (Hx x eq_refl) as [Hf Hk]. case_bool_decide as Hd; ys. rewrite <- Hk.
  match goal with |- context [save_row _ _ _ ?v] =>
    change (dl_id x) with (tb_key TbDelegation v); apply (yields_save _ TbDelegation v) end.
  eapply fact_next; [|exact Hf]. right. split; [done|]. by exists st, t, f.
Qed.
Lemma y_reconcile run t : yields J (reconcile_child_terminal_in_uow run t) (fun _ => True).
Proof.
  unfold reconcile_child_terminal_in_uow. open_reads.
  eapply (yields_bind _ _ _ (fun _ => True)); [y_atom|]. intros b _. destruct (negb b); [y_atom|].
  eapply yields_bind; [y_atom|]. intros [x|] _; [|y_atom]. destruct (negb _); [y_atom|].
  eapply yields_bind; [y_atom|]. intros [l|] _; [|y_atom]. destruct (negb _); [y_atom|].
  assert (Hst : delegation_terminal (delegation_outcome x l).1.1.1 = true /\
      not_none (delegation_outcome x l).1.2 = bool_decide ((delegation_outcome x l).1.1.1 = DelegationEntity.DFAILED))
    by (unfold delegation_outcome; by destruct (run_status l)).
  destruct (delegation_outcome x l) as [[[st ty] f] p]. cbn in Hst. destruct Hst as [Hst Hcode].
  eapply yields_bind; [by apply y_finalize|]. intros won _. ys.
Qed.
End Helpers.
#[export] Hint Resolve y_latest y_append y_append_task y_cancel_tools y_cancel_steps y_materialize
  y_inherit y_reconcile : yd.

Section UseCases.
Context `{Env} `{FloatPow} `{Digest} (d0 : Db).
Abbreviation J := (winv (tx_inv d0)).
Abbreviation F := (fact d0).

(** [need]ing a row *)
Ltac y_need := eapply yields_bind; [y_atom|]; intros o Ho; eapply yields_mono; [apply yields_need|]; eauto.
Lemma y_need_run i : yields J (need_run i) (fun x => F TbRun x).
Proof. y_need. Qed.
Lemma y_need_task i : yields J (need_task i) (fun x => F TbTask x).
Proof. y_need. Qed.
Lemma y_need_step i : yields J (need_step i) (fun x => F TbStep x).
Proof. y_need. Qed.
Lemma y_need_tool i : yields J (need_tool i) (fun x => F TbTool x).
Proof. y_need. Qed.
Lemma y_need_approval i : yields J (need_approval i) (fun x => F TbApproval x).
Proof. y_need. Qed.
Lemma y_need_agent i : yields J (need_agent i) (fun x => F TbAgent x).
Proof. y_need. Qed.
Lemma y_need_schedule i t : yields J (need_schedule i t) (fun x => F TbSchedule x).
Proof.
  eapply yields_bind; [y_atom|]. intros o Ho. eapply yields_bind; [apply yields_need|]. intros s ->.
  eapply yields_bind; [y_atom|]. intros _ _. eapply yields_mono; [apply yields_ret|]. intros ? ->. auto.
Qed.
#[local] Hint Resolve y_need_run y_need_task y_need_step y_need_tool y_need_approval y_need_agent
  y_need_schedule : yd.

Lemma y_load_step i : yields J (load_step i) (fun p => F TbStep p.1 /\ F TbRun p.2).
Proof.
  eapply yields_bind; [y_atom|]. intros s Hs. eapply yields_bind; [y_atom|]. intros r Hr.
  eapply yields_mono; [apply yields_ret|]. by intros p ->.
Qed.
Lemma y_load_tool i : yields J (load_tool i) (fun p => F TbTool p.1 /\ F TbRun p.2).
Proof.
  eapply yields_bind; [y_atom|]. intros s Hs. eapply yields_bind; [y_atom|]. intros r Hr.
  eapply yields_mono; [apply yields_ret|]. by intros p ->.
Qed.
#[local] Hint Resolve y_load_step y_load_tool : yd.

Lemma y_fail_specs run t f : F TbRun run -> yields J (fail_run_event_specs run t f) (fun _ => True).
Proof. intros Hr. unfold fail_run_event_specs. ys. Qed.
Lemma y_succeed_specs run t : F TbRun run -> yields J (succeed_run_event_specs run t) (fun _ => True).
Proof. intros Hr. unfold succeed_run_event_specs. ys. Qed.
#[local] Hint Resolve y_fail_specs y_succeed_specs : yd.
Lemma y_cancel_run run t : F TbRun run -> yields J (cancel_run run t) (fun _ => True).
Proof. intros Hr. unfold cancel_run, cancel_pending_approvals. ys. Qed.
Lemma y_cancel_run_of_task run t : F TbRun run -> yields J (cancel_run_of_task run t) (fun _ => True).
Proof. intros Hr. unfold cancel_run_of_task. ys. Qed.
Lemma y_commit_with_event run x ty e : F TbTool x -> yields J (commit_with_event run x ty e) (fun _ => True).
Proof. intros Hx. unfold commit_with_event. ys. Qed.
#[local] Hint Resolve y_cancel_run y_cancel_run_of_task y_commit_with_event : yd.

(** *** Approvals *)
Lemma y_transition a tg t r n :
  F TbApproval a -> yields J (transition_approval_in_transaction a tg t r n) (fun _ => True).
Proof.
  intros Ha. unfold transition_approval_in_transaction. destruct (bool_decide _); [y_atom|].
  eapply yields_bind; [y_atom|intros _ _].
  eapply (yields_bind _ _ _ (fun p => tb_next TbApproval a p.1)).
  - destruct tg; try y_atom; (eapply yields_bind; [y_atom|intros ? _; y_atom]).
  - intros [a' []] Hn. cbn [fst] in Hn. ys.
Qed.
Lemma y_resume_step a s t :
  (forall x, s = Some x -> F TbStep x) -> yields J (resume_step a s t) (fun _ => True).
Proof. intros Hs. unfold resume_step. ys. Qed.
Lemma y_resume_run a r t : F TbRun r -> yields J (resume_run a r t) (fun _ => True).
Proof. intros Hr. unfold resume_run. ys. Qed.
#[local] Hint Resolve y_transition y_resume_step y_resume_run : yd.

Lemma y_load_waiting_step r i :
  yields J (load_waiting_step r i) (fun o => forall s, o = Some s -> F TbStep s).
Proof.
  destruct i as [i|]; cbn [load_waiting_step].
  - eapply yields_bind; [y_atom|]. intros s Hs. do 2 (eapply yields_bind; [y_atom|intros _ _]).
    eapply yields_mono; [apply yields_ret|]. by intros o -> x [= <-].
  - eapply yields_mono; [apply yields_ret|]. by intros o ->.
Qed.
Lemma y_load_approval_run a :
  yields J (load_approval_run a) (fun o => forall s, o = Some s -> F TbRun s).
Proof.
  unfold load_approval_run. destruct (ap_run_id a) as [i|].
  - eapply yields_bind; [y_atom|]. intros s Hs.
    eapply yields_mono; [apply yields_ret|]. by intros o -> x [= <-].
  - eapply yields_mono; [apply yields_ret|]. by intros o ->.
Qed.
Lemma y_load_approval_step a r :
  yields J (load_approval_step a r) (fun o => forall s, o = Some s -> F TbStep s).
Proof.
  unfold load_approval_step. destruct (ap_step_id a) as [i|].
  - eapply yields_bind; [y_atom|intros ? _]. eapply yields_bind; [y_atom|]. intros s Hs.
    eapply yields_bind; [y_atom|intros _ _].
    eapply yields_mono; [apply yields_ret|]. by intros o -> x [= <-].
  - eapply yields_mono; [apply yields_ret|]. by intros o ->.
Qed.
Lemma y_new_approval c r t : yields J (new_approval c r t) (fun a => tb_ok TbApproval a).
Proof.
  unfold new_approval. eapply (yields_bind _ _ _ (fun _ => True)); [y_atom|]. intros i _.
  eapply yields_mono; [apply yields_lift|]. intros a Ha. eapply ok_approval. exact Ha.
Qed.
Lemma y_park_step s t a :
  (forall x, s = Some x -> F TbStep x) -> yields J (park_step s t a) (fun _ => True).
Proof. intros Hs. unfold park_step. ys. Qed.
#[local] Hint Resolve y_load_waiting_step y_load_approval_run y_load_approval_step y_new_approval
  y_park_step : yd.

Lemma y_resolve a tg t r n : F TbApproval a -> yields J (resolve a tg t r n) (fun _ => True).
Proof. intros Ha. unfold resolve. ys. Qed.
#[local] Hint Resolve y_resolve : yd.
Lemma y_expire i : yields J (ExpireApproval i) (fun _ => True).
Proof. unfold ExpireApproval. ys. Qed.
#[local] Hint Resolve y_expire : yd.

(** *** Runs and workers *)
Lemma y_events_reserve r n : yields J (events_reserve_sequences r n) (fun _ => True).
Proof. unfold events_reserve_sequences. ys. y_frame. Qed.
Lemma y_events_append e : yields J (events_append e) (fun _ => True).
Proof. unfold events_append. y_frame. Qed.
#[local] Hint Resolve y_events_reserve y_events_append : yd.
Lemma y_start_run x t : F TbTask x -> yields J (start_run_in_uow x t) (fun _ => True).
Proof. intros Hx. unfold start_run_in_uow, ensure_task_can_own_a_run. ys. Qed.
Lemma y_claim_candidate wk l t i : yields J (claim_candidate wk l t i) (fun _ => True).
Proof. unfold claim_candidate. open_reads. ys. Qed.
#[local] Hint Resolve y_start_run y_claim_candidate : yd.
Lemma y_claim_first wk l t cs : yields J (claim_first wk l t cs) (fun _ => True).
Proof. induction cs as [|[i w] cs IH]; cbn [claim_first]; ys. Qed.
Lemma y_create_retry p r n t : yields J (create_retry p r n t) (fun _ => True).
Proof. unfold create_retry. ys. Qed.
Lemma y_fenced op msg : yields J (fenced op msg) (fun _ => True).
Proof. unfold fenced. ys. Qed.
Lemma y_count_true l :
  Forall (fun m => yields J m (fun _ => True)) l -> yields J (count_true l) (fun _ => True).
Proof. induction 1; cbn [count_true]; ys. Qed.
End UseCases.
#[export] Hint Resolve y_need_run y_need_task y_need_step y_need_tool y_need_approval y_need_agent
  y_need_schedule y_load_step y_load_tool y_fail_specs y_succeed_specs y_cancel_run
  y_cancel_run_of_task y_commit_with_event y_transition y_resume_step y_resume_run
  y_load_waiting_step y_load_approval_run y_load_approval_step y_new_approval y_park_step y_resolve
  y_expire y_events_reserve y_events_append y_start_run y_claim_candidate y_claim_first
  y_create_retry y_fenced y_count_true : yd.

(** ** Schedules

    [pause], [resume] and [cancel] check the status themselves; [complete] and
    [advance_after_fire] are called on schedules found due. *)
Lemma sc_pause_open t s s' : sc_pause t s = (Ok tt, s') -> schedule_open s = true.
Proof. destruct s as [? ? ? ? ? ? st ? ? ?], st; by sc_cases; closed_tests. Qed.
Lemma sc_resume_open t n s s' : sc_resume t n s = (Ok tt, s') -> schedule_open s = true.
Proof. destruct s as [? ? ? ? ? ? st ? ? ?], st; by sc_cases; closed_tests. Qed.
Lemma sc_cancel_open t s s' : sc_cancel t s = (Ok tt, s') -> schedule_open s = true.
Proof. destruct s as [? ? ? ? ? ? st ? ? ?], st; by sc_cases; closed_tests. Qed.
Lemma schedule_due_open t s : schedule_due t s = true -> schedule_open s = true.
Proof.
  unfold schedule_due, schedule_open. intros [Hs _]%andb_prop. apply bool_decide_eq_true in Hs.
  by rewrite Hs.
Qed.

(** A step whose result does not matter *)
Ltac y_skip x := eapply (yields_bind _ _ _ (fun _ => True)); [first [y_atom|eapply yields_true; y_atom]|intros x _].

Section UseCases2.
Context `{Env} `{FloatPow} `{Digest} `{Calendar} (d0 : Db).
Abbreviation J := (winv (tx_inv d0)).
Abbreviation F := (fact d0).

Lemma y_sc_pause t s : yields J (call (sc_pause t) s) (fun p => tb_next TbSchedule s p.1).
Proof. apply (yields_method _ TbSchedule). intros s' E. split; [by eapply sc_pause_open|by exists (ScPause t)]. Qed.
Lemma y_sc_resume t n s : yields J (call (sc_resume t n) s) (fun p => tb_next TbSchedule s p.1).
Proof. apply (yields_method _ TbSchedule). intros s' E. split; [by eapply sc_resume_open|by exists (ScResume t n)]. Qed.
Lemma y_sc_cancel t s : yields J (call (sc_cancel t) s) (fun p => tb_next TbSchedule s p.1).
Proof. apply (yields_method _ TbSchedule). intros s' E. split; [by eapply sc_cancel_open|by exists (ScCancel t)]. Qed.
Lemma y_sc_complete t s :
  schedule_open s = true -> yields J (call (sc_complete t) s) (fun p => tb_next TbSchedule s p.1).
Proof. intros Ho. apply (yields_method _ TbSchedule). intros s' E. split; [done|by exists (ScComplete t)]. Qed.
Lemma y_sc_advance t n s :
  schedule_open s = true -> yields J (call (sc_advance_after_fire t n) s) (fun p => tb_next TbSchedule s p.1).
Proof. intros Ho. apply (yields_method _ TbSchedule). intros s' E. split; [done|by exists (ScAdvance t n)]. Qed.
#[local] Hint Resolve y_sc_pause y_sc_resume y_sc_cancel y_sc_complete y_sc_advance : yd.

(** The bulk close is [complete] or [cancel] on each open schedule. *)
Lemma y_schedules_complete i t b : yields J (schedules_complete_for_task i t b) (fun _ => True).
Proof.
  apply preserves_yields. unfold schedules_complete_for_task. apply preserves_upd. intros d Hd.
  set (f := fun s => if id_eqb (sc_task_id s) i && schedule_open s
    then set_sc_updated_at t (set_sc_next_fire_at None (set_sc_status (if b then SCH_CANCELLED else SCH_COMPLETED) s))
    else s).
  assert (Hf : forall s, f s = s \/ sc_next s (f s)).
  { intros s. unfold f. destruct (_ && _) eqn:E; [right|by left].
    apply andb_prop in E as [_ Ho]. split; [done|]. destruct b.
    - exists (ScCancel (utc t)). revert Ho. unfold schedule_open.
      destruct s as [? ? ? ? ? ? st ? ? ?], st; sc_cases; closed_tests; try done; by rewrite ensure_utc_utc.
    - exists (ScComplete (utc t)). cbv [sc_exec sc_complete bind lift modify].
      by rewrite ensure_utc_utc. }
  apply (tx_inv_set _ TbSchedule); [done| |]; intros j s; cbn [tb_get tb_row tb_kind tb_key].
  - intros (s0 & <- & Hs)%lookup_fmap_Some. destruct Hd as [[Hv _] _]. destruct (Hv TbSchedule j s0 Hs) as [Hk Ho].
    destruct (Hf s0) as [->|Hn]; [done|]. split.
    + rewrite <- Hk. apply (tb_next_key TbSchedule _ _ Hn).
    + by apply (tb_next_ok TbSchedule _ _ Hn).
  - intros Hs. exists (f s). split; [by rewrite lookup_fmap, Hs|].
    destruct (Hf s) as [->|Hn]; [by left|right; left; by apply rtc_once].
Qed.

Lemma y_schedule_control i a t : yields J (ScheduleControl i a t) (fun _ => True).
Proof.
  unfold ScheduleControl. apply yields_with_uow. eapply yields_bind; [y_atom|]. intros s Hs.
  y_skip n.
  eapply (yields_bind _ _ _ (fun p => tb_next TbSchedule s p.1)).
  - apply yields_try.
    + destruct a; try y_atom. eapply (yields_bind _ _ _ (fun _ => True)); [y_atom|intros next _; y_atom].
    + intros e. unfold transition_conflict. destruct e; cbn; try done; y_atom.
  - intros [s' []] Hn. cbn [fst] in Hn. ys.
Qed.
Lemma y_policies p : yields J (save_row db_delivery_policies set_db_delivery_policies (dp_schedule_id p) p)
  (fun _ => True).
Proof. unfold save_row. y_frame. Qed.
#[local] Hint Resolve y_policies : yd.
Lemma y_put_policy p : yields J (delivery_policies_put_for_nonterminal_schedule p) (fun _ => True).
Proof.
  unfold delivery_policies_put_for_nonterminal_schedule, save_row. open_reads. ys. all: y_frame.
Qed.
Lemma y_plan rr f t : yields J (plan_delivery rr f t) (fun _ => True).
Proof.
  unfold plan_delivery, delivery_plans_add_for_fire. open_reads. ys.
  eapply yields_true. apply (yields_add _ TbPlan). exact I.
Qed.
#[local] Hint Resolve y_put_policy y_plan : yd.
Lemma y_fire_schedule rr s o task t :
  F TbSchedule s -> schedule_open s = true -> F TbTask task ->
  yields J (fire_schedule rr s o task t) (fun _ => True).
Proof. intros Hs Ho Ht. unfold fire_schedule. ys. Qed.
Lemma y_materialize_one rr i : yields J (materialize_one rr i) (fun _ => True).
Proof.
  unfold materialize_one. apply yields_try.
  - unfold materialize_in_uow. apply yields_with_uow. eapply yields_bind; [y_atom|]. intros o Ho.
    y_skip t. destruct o as [s|]; [|y_atom].
    specialize (Ho s eq_refl). destruct (schedule_due t s) eqn:Hd; cbn [negb]; [|y_atom].
    apply schedule_due_open in Hd. eapply yields_bind; [y_atom|]. intros task Ht.
    destruct (negb _); [ys|]. open_reads. y_skip busy.
    destruct busy; [ys|]. y_skip occ. by apply y_fire_schedule.
  - intros e. destruct (is_entity_conflict e); cbn; [y_atom|done].
Qed.
Lemma y_materialize_all rr l : yields J (materialize_all rr l) (fun _ => True).
Proof.
  induction l as [|i l IH]; cbn [materialize_all]; [y_atom|].
  eapply (yields_bind _ _ _ (fun _ => True)).
  - apply yields_try; [apply y_materialize_one|]. intros e. cbn. y_atom.
  - intros b _. ys.
Qed.

(** *** Tool execution and artifacts *)
Lemma y_require_claim r c t : yields J (require_claim r c t) (fun _ => True).
Proof. unfold require_claim. ys. Qed.
Lemma y_find_replay l cs : yields J (find_replay l cs) (fun _ => True).
Proof. induction cs as [|a cs IH]; cbn [find_replay]; ys. Qed.
Lemma y_start_invocation r s c k a t : yields J (start_invocation r s c k a t) (fun _ => True).
Proof. unfold start_invocation. ys. Qed.
#[local] Hint Resolve y_require_claim y_find_replay y_start_invocation : yd.
Lemma find_authorizing_in l f a : find_authorizing_approval l f = Some a -> a ∈ l.
Proof. unfold find_authorizing_approval. intros [E _]%List.find_some. by apply list_elem_of_In. Qed.
Lemma y_authorize r s c k f cl : yields J (authorize_action r s c k f cl) (fun _ => True).
Proof.
  unfold authorize_action. apply yields_with_uow.
  y_skip t. y_skip u0. y_skip run.
  y_skip u1. destruct (negb _); [ys|].
  eapply yields_bind; [y_atom|]. intros l Hl. y_skip lg. y_skip rp.
  destruct rp as [[]|]; [ys|]. destruct (find_authorizing_approval l f) as [a|] eqn:E; [|ys].
  apply find_authorizing_in, Hl in E. ys.
Qed.
Lemma y_record_artifact r a t : yields J (record_artifact r a t) (fun _ => True).
Proof. unfold record_artifact. ys. Qed.
#[local] Hint Resolve y_record_artifact : yd.
Lemma y_RecordArtifact c : yields J (RecordArtifact c) (fun _ => True).
Proof. unfold RecordArtifact. ys. Qed.
Lemma y_record_result r s i x c : yields J (record_result r s i x c) (fun _ => True).
Proof.
  unfold record_result, artifact_from. apply yields_with_uow.
  y_skip t. y_skip u0. y_skip run.
  eapply yields_bind; [y_atom|]. intros o Ho. eapply yields_bind; [apply yields_need|]. intros v Hv.
  specialize (Ho v Hv). y_skip u1.
  eapply (yields_bind _ _ _ (fun p => F TbTool p.1)).
  - destruct (xr_succeeded x).
    + eapply yields_bind; [y_atom|]. intros [x' []] Hn. eapply yields_mono; [apply yields_ret|].
      intros ? ->. cbn [fst] in *. by eapply fact_next.
    + y_skip u2. eapply yields_bind; [y_atom|]. intros [x' []] Hn.
      eapply yields_mono; [apply yields_ret|]. intros ? ->. cbn [fst] in *. by eapply fact_next.
  - intros [x' e] Hx. cbn [fst] in Hx. ys.
Qed.
End UseCases2.
#[export] Hint Resolve y_schedules_complete y_schedule_control y_put_policy y_materialize_all
  y_require_claim y_authorize y_RecordArtifact y_record_result : yd.

(** *** Workflows *)
Section Workflows.
Context `{Env} `{FloatPow} `{Digest} `{Calendar} (d0 : Db).
Abbreviation J := (winv (tx_inv d0)).
Abbreviation F := (fact d0).

Ltac open_workflow_reads :=
  unfold require_binding_exclusive, require_active_claim, workflow_revisions_get,
    workflow_revisions_next_version, events_list_for_run, events_latest_of_type_for_run,
    node_executions_list_by_execution; open_reads.

Lemma y_need_workflow i : yields J (need_workflow i) (fun x => F TbWorkflow x).
Proof. eapply yields_bind; [y_atom|]; intros o Ho; eapply yields_mono; [apply yields_need|]; eauto. Qed.
#[local] Hint Resolve y_need_workflow : yd.
Lemma y_change_workflow m x :
  (forall x', m x = (Ok tt, x') -> tb_next TbWorkflow x x') ->
  yields J (change_or_conflict m x) (fun p => tb_next TbWorkflow x p.1).
Proof.
  intros Hm. unfold change_or_conflict. apply yields_try; [by apply (yields_method _ TbWorkflow)|].
  intros e. unfold transition_conflict. destruct e; cbn; try done; y_atom.
Qed.
(** Saving what a method of a workflow left *)
Lemma y_save_changed m x :
  (exists o, m = wf_exec o) -> F TbWorkflow x ->
  yields J (p <- change_or_conflict m x ;; match p with (x', _) =>
              workflows_save x' ;;; commit ;;; ret x' end) (fun _ => True).
Proof.
  intros [o ->] Hx. eapply yields_bind; [apply y_change_workflow; intros x' E; by exists o|].
  intros [x' []] Hn. cbn [fst] in Hn. ys.
Qed.
Lemma y_change i a : (forall t, exists o, a t = wf_exec o) -> yields J (change_workflow i a) (fun _ => True).
Proof.
  intros Ha. unfold change_workflow. apply yields_with_uow. eapply yields_bind; [y_atom|]. intros x Hx.
  y_skip t. by apply y_save_changed.
Qed.
Lemma y_disable i : yields J (DisableWorkflow i) (fun _ => True).
Proof. apply y_change. intros t. by exists (WfDisable t). Qed.
Lemma y_archive i : yields J (ArchiveWorkflow i) (fun _ => True).
Proof. apply y_change. intros t. by exists (WfArchive t). Qed.
Lemma y_activate i r : yields J (ActivateWorkflowRevision i r) (fun _ => True).
Proof.
  unfold ActivateWorkflowRevision. open_workflow_reads. apply yields_with_uow.
  eapply yields_bind; [y_atom|]. intros x Hx. y_skip o. y_skip v. y_skip t.
  apply y_save_changed; [|done]. by exists (WfActivate v (utc t)).
Qed.
Lemma y_make_nodes r l : yields J (make_nodes r l) (fun _ => True).
Proof. induction l; cbn [make_nodes]; ys. Qed.
Lemma y_make_edges r m l : yields J (make_edges r m l) (fun _ => True).
Proof. induction l; cbn [make_edges]; ys. Qed.
#[local] Hint Resolve y_make_nodes y_make_edges : yd.
Lemma y_create_revision i n e k : yields J (CreateWorkflowRevision i n e k) (fun _ => True).
Proof. unfold CreateWorkflowRevision. open_workflow_reads. ys. Qed.
Lemma y_bind_task b : yields J (task_workflows_bind b) (fun _ => True).
Proof. unfold task_workflows_bind, save_row. y_frame. Qed.
Lemma y_unbind_task t : yields J (task_workflows_unbind t) (fun _ => True).
Proof. unfold task_workflows_unbind. y_frame. Qed.
#[local] Hint Resolve y_bind_task y_unbind_task : yd.
Lemma y_workflow_resolution x c t : yields J (workflow_resolutions_add_if_claimed x c t) (fun _ => True).
Proof.
  intros w [Hd Hs]. unfold workflow_resolutions_add_if_claimed, db, gets, upd, modify, bind, ret.
  destruct (db_workflow_resolutions (staged w) !! wl_run_id x) as [y|] eqn:E;
    cbn [not_none negb andb]; rewrite ?andb_false_r, ?andb_true_r; [done|].
  destruct (match db_queue _ !! _ with Some _ => _ | None => _ end); [|done].
  refine (conj (conj Hd _) I). apply (tx_inv_insert _ TbWorkflowResolution); [done|].
  by eapply (fact_fresh _ TbWorkflowResolution).
Qed.
Lemma y_load_frozen i r e : yields J (load_frozen_revision i r e) (fun _ => True).
Proof. unfold load_frozen_revision. open_workflow_reads. ys. Qed.
Lemma y_load_active i : yields J (load_active_revision i) (fun _ => True).
Proof. unfold load_active_revision. open_workflow_reads. ys. Qed.
#[local] Hint Resolve y_workflow_resolution y_load_frozen y_load_active : yd.
Lemma y_resolve_workflow r i c : yields J (ResolveRunWorkflow r i c) (fun _ => True).
Proof. unfold ResolveRunWorkflow. open_workflow_reads. ys. Qed.

(** **** The engine *)
Lemma y_update_execution i st c f m : yields J (executions_update_status i st c f m) (fun _ => True).
Proof.
  unfold executions_update_status.
  eapply yields_bind; [apply (yields_get_key _ TbExecution)|]. intros [x|] Hx; [|y_atom].
  destruct (Hx x eq_refl) as [Hf Hk]. case_bool_decide as Hd; [|ys]. rewrite <- Hk.
  match goal with |- context [save_row _ _ _ ?v] =>
    replace (tb_key TbExecution x) with (tb_key TbExecution v) by (by destruct x);
    apply (yields_save _ TbExecution v) end.
  eapply fact_next; [|exact Hf]. split; [done|]. by exists st, c, f, m.
Qed.
Lemma y_update_node i st ct cr ce p f m s c :
  yields J (node_executions_update_status i st ct cr ce p f m s c) (fun _ => True).
Proof.
  unfold node_executions_update_status.
  eapply yields_bind; [apply (yields_get_key _ TbNode)|]. intros [x|] Hx; [|y_atom].
  destruct (Hx x eq_refl) as [Hf Hk]. case_bool_decide as Hd; [|ys]. rewrite <- Hk.
  match goal with |- context [save_row _ _ _ ?v] =>
    change (tb_key TbNode x) with (tb_key TbNode v); apply (yields_save _ TbNode v) end.
  eapply fact_next; [|exact Hf]. split; [done|]. by exists st, ct, cr, ce, p, f, m, s, c.
Qed.
Lemma y_emit x ty p t : yields J (emit_workflow_event x ty p t) (fun _ => True).
Proof. unfold emit_workflow_event. open_workflow_reads. ys. Qed.
#[local] Hint Resolve y_update_execution y_update_node y_emit : yd.
Lemma y_emit_node n ty t : yields J (emit_node_event n ty t) (fun _ => True).
Proof. unfold emit_node_event. ys. Qed.
Lemma y_persist_node n : yields J (persist_node n) (fun _ => True).
Proof. apply y_update_node. Qed.
Lemma y_persist_execution x : yields J (persist_execution x) (fun _ => True).
Proof. apply y_update_execution. Qed.
Lemma y_task_agents_replace t b : yields J (task_agents_replace t b) (fun _ => True).
Proof. unfold task_agents_replace. y_frame. Qed.
Lemma y_context n : yields J (build_workflow_node_context n) (fun _ => True).
Proof. unfold build_workflow_node_context. open_workflow_reads. ys. Qed.
Lemma y_any_call {O A} (m : M O A) x : yields J (call m x) (fun _ => True).
Proof. intros w Hw. unfold call. by destruct (m x) as [[]]. Qed.
#[local] Hint Extern 4 (yields _ (call _ _) (fun _ => True)) => apply y_any_call : yd.
#[local] Hint Resolve y_emit_node y_persist_node y_persist_execution y_task_agents_replace y_context : yd.
Lemma y_dispatch_node nx n t : yields J (dispatch_node nx n t) (fun _ => True).
Proof.
  unfold dispatch_node. destruct (negb _); [y_atom|].
  eapply (yields_bind _ _ _ (fun _ => True)).
  - apply yields_try; [ys|]. intros []; cbn; try done; y_atom.
  - intros [msg|] _; ys.
Qed.
#[local] Hint Resolve y_dispatch_node : yd.
Lemma y_schedule_node b p t nxs i : yields J (schedule_node b p t nxs i) (fun _ => True).
Proof. unfold schedule_node. ys. Qed.
#[local] Hint Resolve y_schedule_node : yd.
Lemma y_schedule_pass b p t ids nxs : yields J (schedule_pass b p t ids nxs) (fun _ => True).
Proof. revert nxs. induction ids; intros nxs; cbn [schedule_pass]; ys. Qed.
#[local] Hint Resolve y_schedule_pass : yd.
Lemma y_schedule_loop f b p t o nxs : yields J (schedule_loop f b p t o nxs) (fun _ => True).
Proof. revert nxs. induction f; intros nxs; cbn [schedule_loop]; ys. Qed.
#[local] Hint Resolve y_schedule_loop : yd.
Lemma y_schedule b p t o nxs : yields J (schedule_to_fixed_point b p t o nxs) (fun _ => True).
Proof. unfold schedule_to_fixed_point. ys. Qed.
Lemma y_close {A} r (a : res A) m rm :
  (forall x, r = Some x -> F TbRun x) ->
  (forall y x, yields J (call (m y) x) (fun p => tb_next TbRun x p.1)) ->
  (forall i, yields J (rm i) (fun _ => True)) -> yields J (close_root r a m rm) (fun _ => True).
Proof.
  intros Hr Hm Hrm. unfold close_root. destruct r as [x|]; [|y_atom].
  case_bool_decide; [|y_atom]. y_skip y. eapply yields_bind; [apply Hm|]. intros [x' []] Hn.
  cbn [fst] in Hn. specialize (Hr x eq_refl). ys.
Qed.
Lemma y_finish x l t rm :
  (forall i, yields J (rm i) (fun _ => True)) -> yields J (finish_if_terminal x l t rm) (fun _ => True).
Proof.
  intros Hrm. unfold finish_if_terminal. destruct (_ || _); [y_atom|].
  eapply yields_bind; [y_atom|]. intros r Hr. y_skip u0.
  destruct (forallb _ l); [|destruct (ending l)]; ys; (apply y_close; [done| |done]); intros ? ?; y_atom.
Qed.
Lemma y_remove_root c t r : yields J (remove_root_claim c t r) (fun _ => True).
Proof. unfold remove_root_claim. ys. Qed.
Lemma y_resolution_for r i t : yields J (resolution_for r i t) (fun _ => True).
Proof. unfold resolution_for. open_workflow_reads. ys. Qed.
Lemma y_snapshots reg l acc : yields J (agent_snapshots reg l acc) (fun _ => True).
Proof.
  revert acc. induction l; intros acc; cbn [agent_snapshots]; unfold ensure_agent_snapshot; ys.
Qed.
Lemma y_create_nodes x r a t l acc : yields J (create_node_executions x r a t l acc) (fun _ => True).
Proof. revert acc. induction l; intros acc; cbn [create_node_executions]; ys. Qed.
Lemma y_dispatch_roots b p t ids nxs : yields J (dispatch_roots b p t ids nxs) (fun _ => True).
Proof. revert nxs. induction ids; intros nxs; cbn [dispatch_roots]; ys. Qed.
#[local] Hint Resolve y_schedule y_finish y_remove_root y_resolution_for y_snapshots y_create_nodes
  y_dispatch_roots : yd.
Lemma y_replay r i x : yields J (replay_start r i x) (fun _ => True).
Proof. unfold replay_start. open_workflow_reads. ys. Qed.
Lemma y_bootstrap reg r i c : F TbRun r -> yields J (bootstrap reg r i c) (fun _ => True).
Proof. intros Hr. unfold bootstrap. open_workflow_reads. ys. Qed.
#[local] Hint Resolve y_replay y_bootstrap : yd.
Lemma y_start_execution reg r i c : yields J (StartWorkflowExecution reg r i c) (fun _ => True).
Proof. unfold StartWorkflowExecution. open_workflow_reads. ys. Qed.
Lemma y_check_node x b n : yields J (check_node x b n) (fun _ => True).
Proof. unfold check_node. open_workflow_reads. ys. Qed.
Lemma y_child_result r t : yields J (bounded_child_result r t) (fun _ => True).
Proof.
  unfold bounded_child_result, events_latest_of_type_for_run.
  eapply (yields_bind _ _ _ (fun _ => True)); [y_atom|]. intros e _. apply yields_ret_true.
Qed.
#[local] Hint Resolve y_child_result : yd.
Lemma y_reconcile_child t n : yields J (reconcile_child t n) (fun _ => True).
Proof. unfold reconcile_child. ys. Qed.
#[local] Hint Resolve y_check_node y_reconcile_child : yd.
Lemma y_reconcile_children t l nxs : yields J (reconcile_children t l nxs) (fun _ => True).
Proof. revert nxs. induction l; intros nxs; cbn [reconcile_children]; ys. Qed.
#[local] Hint Resolve y_reconcile_children : yd.
Lemma y_reconcile_execution x : yields J (ReconcileWorkflowExecution x) (fun _ => True).
Proof. unfold ReconcileWorkflowExecution, advance. open_workflow_reads. ys. Qed.
End Workflows.
#[export] Hint Resolve y_need_workflow y_disable y_archive y_activate y_create_revision y_bind_task
  y_unbind_task y_resolve_workflow y_start_execution y_reconcile_execution : yd.

(** *** Deliveries: their tables are no part of the family. *)
Section Deliveries.
Context `{Env} `{FloatPow} `{Digest} (d0 : Db).
Abbreviation J := (winv (tx_inv d0)).

Lemma y_deliveries_add x : yields J (deliveries_add x) (fun _ => True).
Proof. unfold deliveries_add, add_row. ys. y_frame. Qed.
Lemma y_update_delivery i p f : yields J (update_delivery i p f) (fun _ => True).
Proof. unfold update_delivery, save_row. ys. y_frame. Qed.
Lemma y_begin_attempt i c s t : yields J (attempts_begin_for_claim i c s t) (fun _ => True).
Proof. unfold attempts_begin_for_claim, add_row. ys. y_frame. Qed.
Lemma y_close_attempt i g t o c p : yields J (close_attempt i g t o c p) (fun _ => True).
Proof. unfold close_attempt, save_row. ys. y_frame. Qed.
#[local] Hint Resolve y_deliveries_add y_update_delivery y_begin_attempt y_close_attempt : yd.

Lemma y_mark_rejected f r : yields J (plans_mark_content_rejected f r) (fun _ => True).
Proof.
  unfold plans_mark_content_rejected, plans_get_by_fire.
  eapply yields_bind.
  - apply yields_db. intros d Hd. instantiate (1 := fun o => forall p, o = Some p -> fact d0 TbPlan p).
    intros p Hp. apply find_some in Hp as [Hin _]. apply list_elem_of_In, list_elem_of_fmap in Hin
      as ([i p'] & -> & Hin%elem_of_map_to_list). by eapply (fact_read _ TbPlan).
  - intros [p|] Hp; [|ys]. destruct (bool_decide _) eqn:E; [|ys]. apply bool_decide_eq_true in E.
    eapply (yields_bind _ _ _ (fun _ => True)); [|intros; ys].
    change (pl_id p) with (tb_key TbPlan (reject_content r p)). apply (yields_save _ TbPlan).
    eapply fact_next; [|by apply Hp]. split; [done|]. by exists r.
Qed.
#[local] Hint Resolve y_mark_rejected : yd.
Lemma y_materialize_answer f : yields J (materialize_answer f) (fun _ => True).
Proof.
  unfold materialize_answer, reject_answer, plans_get_by_fire, deliveries_get_by_source_schedule_fire_id,
    events_latest_of_type_for_run. ys.
Qed.
#[local] Hint Resolve y_materialize_answer : yd.
Lemma y_materialize_answers l : yields J (materialize_answers l) (fun _ => True).
Proof.
  induction l; cbn [materialize_answers]; ys. apply yields_try; [ys|]. intros e. cbn. ys.
Qed.
Lemma y_recover_delivery p x t : yields J (recover_delivery p x t) (fun _ => True).
Proof.
  unfold recover_delivery, attempts_close_expired_as_ambiguous, validated_terminal_write,
    deliveries_mark_expired_post_dispatch_ambiguous, deliveries_requeue_expired_pre_dispatch,
    deliveries_fail_expired_pre_dispatch. ys.
Qed.
#[local] Hint Resolve y_recover_delivery : yd.
Lemma y_recover_deliveries p t l : yields J (recover_deliveries p t l) (fun _ => True).
Proof. induction l; cbn [recover_deliveries]; ys. Qed.
Lemma y_claim_delivery w t e l : yields J (claim_first_delivery w t e l) (fun _ => True).
Proof. induction l; cbn [claim_first_delivery]; unfold deliveries_try_claim, deliveries_get; ys. Qed.
#[local] Hint Resolve y_materialize_answers y_recover_deliveries y_claim_delivery : yd.
Lemma y_claim_next_delivery p w l n : yields J (ClaimNextDelivery p w l n) (fun _ => True).
Proof. unfold ClaimNextDelivery, RecoverExpiredDeliveryClaims, deliveries_find_expired_claims, deliveries_list_due. ys. Qed.
Lemma y_begin_delivery c : yields J (BeginDeliveryAttempt c) (fun _ => True).
Proof. unfold BeginDeliveryAttempt, deliveries_mark_dispatch_started. ys. Qed.
Lemma y_persist_delivery c o : yields J (PersistDeliveryOutcome c o) (fun _ => True).
Proof.
  unfold PersistDeliveryOutcome, deliveries_get, attempts_complete_for_claim, validated_terminal_write,
    deliveries_save_claimed_lifecycle. ys.
Qed.
Lemma y_send_message r b a t run i : yields J (send_message r b a t run i) (fun _ => True).
Proof.
  unfold send_message, accept_existing, deliveries_get_by_source_tool_invocation_id. ys.
  apply yields_try; [ys|]. intros e. destruct (is_entity_conflict e); cbn; [ys|done].
Qed.
End Deliveries.
#[export] Hint Resolve y_materialize_answers y_claim_next_delivery y_begin_delivery y_persist_delivery
  y_send_message : yd.

(** *** Skills and conversations *)
Section Skills.
Context `{Env} `{FloatPow} `{Digest} `{Calendar} (d0 : Db).
Abbreviation J := (winv (tx_inv d0)).
Abbreviation F := (fact d0).

Ltac open_skills :=
  unfold skill_revisions_next_version, task_skills_list_for_task, skill_bindings_list_for_run,
    turns_get_by_client_turn_id; open_reads.
Lemma y_need_skill i : yields J (need_skill i) (fun x => F TbSkill x).
Proof. eapply yields_bind; [y_atom|]; intros o Ho; eapply yields_mono; [apply yields_need|]; eauto. Qed.
#[local] Hint Resolve y_need_skill : yd.
Lemma y_create_skill_revision i ins k : yields J (CreateSkillRevision i ins k) (fun _ => True).
Proof. unfold CreateSkillRevision. open_skills. ys. Qed.
Lemma y_activate_skill i r : yields J (ActivateSkillRevision i r) (fun _ => True).
Proof.
  unfold ActivateSkillRevision. apply yields_with_uow. eapply yields_bind; [y_atom|]. intros x Hx.
  y_skip o. y_skip v. eapply (yields_bind _ _ _ (fun y => F TbSkill y)).
  - destruct (negb _); [|by intros w]. y_skip t. eapply yields_bind; [y_atom|].
    intros [x' []] Hn w Hw. split; [done|]. by eapply fact_next.
  - intros y Hy. ys.
Qed.
Lemma y_task_skills t l : yields J (task_skills_replace t l) (fun _ => True).
Proof. unfold task_skills_replace. y_frame. Qed.
#[local] Hint Resolve y_task_skills : yd.
Lemma y_replace_skills t l : yields J (ReplaceTaskSkills t l) (fun _ => True).
Proof. unfold ReplaceTaskSkills. ys. Qed.
Lemma resolved_run r l : yields J (resolve_bindings r l) (fun bs => forall b, b ∈ bs -> sb_run_id b = r).
Proof.
  induction l as [|t l IH]; cbn [resolve_bindings]; [intros w Hw; split; [done|]; intros b Hb; by apply elem_of_nil in Hb|].
  y_skip o. y_skip k. y_skip c. y_skip v. eapply yields_bind; [apply yields_lift|]. intros f Hf.
  eapply yields_bind; [apply IH|]. intros bs Hbs w Hw. split; [done|]. intros b [->|Hb]%elem_of_cons; [|by apply Hbs].
  revert Hf. unfold RunSkillBinding_new. case_match; [done|]. by intros [= <-].
Qed.
Lemma y_freeze {A} x bs c t (lost : U unit) (k : U A) :
  (forall b, b ∈ bs -> sb_run_id b = sr_run_id x) -> yields J lost (fun _ => False) -> yields J k (fun _ => True) ->
  yields J (added <- skill_resolutions_add_if_claimed x c t ;;
            (if negb added then lost else ret tt) ;;;
            skill_bindings_add_all bs ;;;
            k) (fun _ => True).
Proof.
  intros Hbs Hl Hk w [Hd Hs].
  unfold skill_resolutions_add_if_claimed, skill_bindings_add_all, db, gets, upd, modify, bind, ret.
  destruct (db_skill_resolutions (staged w) !! sr_run_id x) as [y|] eqn:E;
    cbn [not_none negb andb]; rewrite ?andb_false_r, ?andb_true_r.
  all: specialize (Hl w (conj Hd Hs)).
  - cbn [negb]. by destruct (lost w) as [[] ?]; [destruct Hl|].
  - destruct (match db_queue _ !! _ with Some _ => _ | None => _ end); cbn [negb].
    + apply Hk. split; [done|]. exact (tx_inv_freeze d0 x bs _ Hs E Hbs).
    + by destruct (lost w) as [[] ?]; [destruct Hl|].
Qed.
Lemma y_resolve_skills r c : yields J (ResolveRunSkills r c) (fun _ => True).
Proof.
  unfold ResolveRunSkills. apply yields_try.
  - unfold resolve_run_skills. open_skills. apply yields_with_uow. eapply yields_bind; [y_atom|]. intros run Hrun.
    y_skip t. y_skip a. y_skip x. y_skip o. destruct o; [y_atom|]. y_skip l.
    eapply yields_bind; [apply resolved_run|]. intros bs Hbs. y_skip rid. y_skip t0. y_skip t1.
    apply (y_freeze (mkSkillResolution rid (run_id run) t0)); [done| |ys]. y_skip won. y_skip y. by intros w.
  - intros e. destruct (is_entity_conflict e); cbn; open_skills; [ys|done].
Qed.
Lemma y_feedback r k g n b : yields J (AddSkillRunFeedback r k g n b) (fun _ => True).
Proof. unfold AddSkillRunFeedback. open_skills. ys. Qed.
Lemma y_submit c : yields J (SubmitConversationTurn c) (fun _ => True).
Proof.
  unfold SubmitConversationTurn. apply yields_try.
  - unfold materialize_turn, assert_same_payload. open_skills. ys.
  - intros e. destruct (is_entity_conflict e); cbn; [|done]. unfold existing_turn, assert_same_payload. open_skills. ys.
Qed.
End Skills.
#[export] Hint Resolve y_need_skill y_create_skill_revision y_activate_skill y_replace_skills y_resolve_skills
  y_feedback y_submit : yd.

(** *** Skill evaluation, improvement and promotion *)
Section Improvement.
Context `{Env} `{FloatPow} `{Digest} `{Calendar} (d0 : Db).
Abbreviation J := (winv (tx_inv d0)).
Abbreviation F := (fact d0).

Ltac open_improvement :=
  unfold need_skill, skill_revisions_next_version, suites_get, cases_list_for_suite, evaluation_runs_get,
    candidates_get_for_proposal, case_results_list_for_run, evidence_get, usage_list_for_skill, improvement_policies_get,
    work_get, work_get_active_for_skill, feedback_list_for_run_skill; open_reads.

Lemma fact_status p s q : F TbProposal p -> SkillImprovementProposal_check (set_ip_status s p) = Ok q -> F TbProposal q.
Proof. intros Hp ->%checked_proposal. eapply fact_next; [|exact Hp]. by exists s. Qed.
Lemma fact_promotion x s t r p y : F TbPromotion x -> pq_status x = PR_PENDING -> s <> PR_PENDING ->
  SkillPromotionRequest_check (resolve_pq s t r (set_pq_promoted p x)) = Ok y -> F TbPromotion y.
Proof.
  intros Hx Hp Hs E. pose proof (checked_promotion _ _ E) as ->. eapply fact_next; [|exact Hx]. split; [done|].
  exists s, t, r, p. split; [done|]. split; [done|]. intros ->. revert E. unfold SkillPromotionRequest_check. cbn.
  repeat (case_match; [done|]). intros _. unfold opt_id_eqb in *. by destruct (bool_decide_reflect (p = Some (pq_target_revision_id x))).
Qed.
Lemma set_promoted_same x : set_pq_promoted (pq_promoted_revision_id x) x = x.
Proof. by destruct x. Qed.
Lemma fact_rollback x s t r y : F TbRollback x -> rb_status x = RB_PENDING -> s <> RB_PENDING ->
  SkillRollbackRequest_check (resolve_rb s t r x) = Ok y -> F TbRollback y.
Proof.
  intros Hx Hp Hs E. pose proof (checked_rollback _ _ E) as ->. eapply fact_next; [|exact Hx]. split; [done|].
  by exists s, t, r.
Qed.
#[local] Hint Resolve fact_status : yd.

Lemma y_policy_save x : yields J (improvement_policies_save x) (fun _ => True).
Proof. unfold improvement_policies_save. y_frame. Qed.
Lemma y_work_save x : yields J (work_save x) (fun _ => True).
Proof. unfold work_save, save_row. y_frame. Qed.
Lemma y_case_results l : yields J (case_results_add_all l) (fun _ => True).
Proof. unfold case_results_add_all. y_frame. Qed.
#[local] Hint Resolve y_policy_save y_work_save y_case_results : yd.
Lemma y_work_add x : yields J (work_add_if_active_absent x) (fun _ => True).
Proof. unfold work_add_if_active_absent. open_improvement. ys. Qed.
Lemma y_work_claim s w k t l : yields J (work_claim_for_skill s w k t l) (fun _ => True).
Proof.
  unfold work_claim_for_skill. y_skip rows. destruct rows; [ys|]. open_improvement.
  eapply (yields_bind _ _ _ (fun _ => True)); [y_frame|intros _ _; ys].
Qed.
Lemma y_work_fenced x w k g t : yields J (work_save_if_claimed x w k g t) (fun _ => True).
Proof. unfold work_save_if_claimed. open_improvement. ys. Qed.
Lemma y_feedback_of s l : yields J (feedback_of s l) (fun _ => True).
Proof. induction l; cbn [feedback_of]; open_improvement; ys. Qed.
Lemma y_add_cases s t n l : yields J (add_cases s t n l) (fun _ => True).
Proof. revert n. induction l as [|[[i e] g] l IH]; intros n; cbn [add_cases]; ys. Qed.
#[local] Hint Resolve y_work_add y_work_claim y_work_fenced y_feedback_of y_add_cases : yd.
Lemma y_approval_consume i t : yields J (approvals_consume_if_unconsumed i t) (fun _ => True).
Proof.
  unfold approvals_consume_if_unconsumed. eapply yields_bind; [y_atom|]. intros [a|] Ha; [|y_atom].
  specialize (Ha a eq_refl). destruct (_ && _) eqn:E; [|y_atom]. apply andb_prop in E as [Ea Ec].
  eapply (yields_bind _ _ _ (fun _ => True)); [|intros _ _; y_atom]. apply (yields_save _ TbApproval). eapply fact_next; [|exact Ha].
  exists (ApConsume (utc t)). apply bool_decide_eq_true in Ea. destruct (ap_consumed_at a) eqn:Ec'; [done|].
  cbv [ap_exec ap_consume bind get gets raise_if lift modify ret]. rewrite Ea, bool_decide_true by done. cbn [negb]. rewrite Ec'. cbn [negb not_none]. by rewrite ensure_utc_utc.
Qed.
#[local] Hint Resolve y_approval_consume : yd.

(** **** Promotion and rollback *)
Lemma y_load_proposal x : yields J (load_promotion_proposal x) (fun p => F TbProposal p).
Proof.
  unfold load_promotion_proposal. eapply yields_bind; [y_atom|]. intros o Ho.
  eapply yields_bind; [apply yields_need|]. intros p ->. y_skip u0. y_skip u1.
  eapply yields_mono; [apply yields_ret|]. intros ? ->. auto.
Qed.
Lemma y_load_approval (o : option ApprovalRequestId) e (p : ApprovalRequest -> bool) e' :
  yields J (match o with
            | None => ret None
            | Some id => a <- approvals_get id ;; a <- need a e ;; raise_if (negb (p a)) e' ;;; ret (Some a)
            end) (fun o => forall a, o = Some a -> F TbApproval a).
Proof.
  destruct o as [i|]; [|eapply yields_mono; [apply yields_ret|]; by intros ? ->].
  eapply yields_bind; [y_atom|]. intros o Ho. eapply yields_bind; [apply yields_need|]. intros a ->. y_skip u0.
  eapply yields_mono; [apply yields_ret|]. intros ? -> ? [= <-]. auto.
Qed.
Lemma y_load_promotion_approval x :
  yields J (load_promotion_approval x) (fun o => forall a, o = Some a -> F TbApproval a).
Proof. apply y_load_approval. Qed.
Lemma y_load_rollback_approval x :
  yields J (load_rollback_approval x) (fun o => forall a, o = Some a -> F TbApproval a).
Proof. apply y_load_approval. Qed.
Lemma y_stage x p s sp t r a sa :
  (forall y, SkillPromotionRequest_check (resolve_pq s t r x) = Ok y -> F TbPromotion y) ->
  F TbProposal p -> (forall v, a = Some v -> F TbApproval v) ->
  yields J (stage_terminal_promotion x p s sp t r a sa) (fun _ => True).
Proof.
  intros Hx Hp Ha. unfold stage_terminal_promotion.
  eapply (yields_bind _ _ _ (fun _ => True)).
  - destruct sa; [|y_atom]. eapply yields_bind; [apply yields_need|]. intros v Hv. ys.
  - intros _ _. eapply yields_bind; [apply yields_lift|]. intros y Hy%Hx. y_skip u1.
    eapply yields_bind; [apply yields_lift|]. intros q Hq. cbn beta in Hq. y_skip u2. y_atom.
Qed.
#[local] Hint Resolve y_load_proposal y_load_promotion_approval y_load_rollback_approval : yd.
Lemma y_request_promotion i : yields J (RequestSkillPromotion i) (fun _ => True).
Proof. unfold RequestSkillPromotion. open_improvement. ys. Qed.
Lemma y_close_promotion q s sp sa r : s <> PR_PENDING -> yields J (close_promotion q s sp sa r) (fun _ => True).
Proof.
  intros Hs. unfold close_promotion. apply yields_with_uow. eapply yields_bind; [y_atom|]. intros o Ho.
  eapply yields_bind; [apply yields_need|]. intros x ->. specialize (Ho x eq_refl).
  eapply yields_bind; [apply yields_raise_if|]. intros _ Hp%negb_false_iff%bool_decide_eq_true.
  eapply yields_bind; [y_atom|]. intros p Hpr. eapply yields_bind; [y_atom|]. intros a Ha. y_skip t.
  eapply (yields_bind _ _ _ (fun _ => True)); [|intros ? _; ys]. apply y_stage; [|done..]. intros y Hy. rewrite <- (set_promoted_same x) in Hy.
  by refine (fact_promotion _ _ _ _ _ _ Ho Hp _ Hy).
Qed.
Lemma y_execute_promotion q r : yields J (ExecuteSkillPromotion q r) (fun _ => True).
Proof.
  unfold ExecuteSkillPromotion. open_improvement. apply yields_with_uow. eapply yields_bind; [y_atom|]. intros o Ho.
  eapply yields_bind; [apply yields_need|]. intros x ->. specialize (Ho x eq_refl).
  eapply yields_bind; [apply yields_raise_if|]. intros _ Hp%negb_false_iff%bool_decide_eq_true.
  eapply yields_bind; [y_atom|]. intros p Hpr. eapply yields_bind; [y_atom|]. intros oa Hoa.
  eapply yields_bind; [apply yields_need|]. intros a ->. specialize (Hoa a eq_refl). y_skip u1. y_skip c.
  eapply yields_bind; [y_atom|]. intros k Hk. y_skip v. y_skip f. y_skip t. cbv zeta. destruct (promotion_stale _ _ _ _ _ _ _).
  - eapply (yields_bind _ _ _ (fun _ => True)); [|intros ? _; ys]. apply y_stage; [|done|by intros ? [= <-]]. intros y Hy.
    rewrite <- (set_promoted_same x) in Hy. by refine (fact_promotion _ _ _ _ _ _ Ho Hp _ Hy).
  - eapply yields_bind; [apply yields_need|]. intros k' ->. specialize (Hk k' eq_refl).
    eapply yields_bind; [y_atom|]. intros rev Hrev. cbn beta in *. y_skip u2.
    eapply yields_bind; [apply yields_lift|]. intros y Hy. pose proof (checked_promotion _ _ Hy) as ->.
    eapply (yields_bind _ _ _ (fun _ => True)); [|intros ? _; ys]. apply y_stage; [|done|by intros ? [= <-]]. intros z Hz. by refine (fact_promotion _ _ _ _ _ _ Ho Hp _ Hz).
Qed.
Lemma y_request_rollback s t r : yields J (RequestSkillRollback s t r) (fun _ => True).
Proof. unfold RequestSkillRollback. open_improvement. ys. Qed.
Lemma y_close_rollback q s sa r : s <> RB_PENDING -> yields J (close_rollback q s sa r) (fun _ => True).
Proof.
  intros Hs. unfold close_rollback. apply yields_with_uow. eapply yields_bind; [y_atom|]. intros o Ho.
  eapply yields_bind; [apply yields_need|]. intros x ->. specialize (Ho x eq_refl).
  eapply yields_bind; [apply yields_raise_if|]. intros _ Hp%negb_false_iff%bool_decide_eq_true.
  eapply yields_bind; [y_atom|]. intros a Ha. eapply (yields_bind _ _ _ (fun _ => True)); [destruct a; ys|intros _ _]. y_skip t.
  eapply yields_bind; [apply yields_lift|]. intros y Hy.
  assert (Hf : F TbRollback y) by (by refine (fact_rollback _ _ _ _ _ Ho Hp _ Hy)). ys.
Qed.
Lemma y_execute_rollback q r : yields J (ExecuteSkillRollback q r) (fun _ => True).
Proof.
  unfold ExecuteSkillRollback. open_improvement. apply yields_with_uow. eapply yields_bind; [y_atom|]. intros o Ho.
  eapply yields_bind; [apply yields_need|]. intros x ->. specialize (Ho x eq_refl). destruct (bool_decide _); [y_atom|].
  eapply yields_bind; [apply yields_raise_if|]. intros _ Hp%negb_false_iff%bool_decide_eq_true.
  y_skip i. eapply yields_bind; [y_atom|]. intros oa Hoa.
  eapply yields_bind; [apply yields_need|]. intros a ->. specialize (Hoa a eq_refl). y_skip u1.
  eapply yields_bind; [y_atom|]. intros k Hk. y_skip v. y_skip t. y_skip f. cbv zeta. destruct (rollback_stale _ _ _ _ _).
  - eapply yields_bind; [apply yields_lift|]. intros y Hy. assert (Hf : F TbRollback y) by (by refine (fact_rollback _ _ _ _ _ Ho Hp _ Hy)). ys.
  - eapply yields_bind; [apply yields_need|]. intros k' ->. specialize (Hk k' eq_refl). y_skip tg.
    eapply yields_bind; [y_atom|]. intros [k2 []] Hn. cbn [fst] in *. y_skip u2.
    eapply yields_bind; [apply yields_lift|]. intros y Hy. assert (Hf : F TbRollback y) by (by refine (fact_rollback _ _ _ _ _ Ho Hp _ Hy)). ys.
Qed.
#[local] Hint Resolve y_request_promotion y_execute_promotion y_request_rollback y_execute_rollback : yd.
(** **** Evaluation *)
Lemma y_run_evaluation `{JsonSchema} k su r p o v sn f m us :
  yields J (RunSkillEvaluation k su r p o v sn f m us) (fun _ => True).
Proof. unfold RunSkillEvaluation, active_suite, suite_cases_nonempty, evaluation_target. open_improvement. ys. Qed.
#[local] Hint Resolve y_run_evaluation : yd.
Lemma y_run_brain `{JsonSchema} k a an su r p v :
  yields J (RunBrainOnlySkillEvaluation k a an su r p v) (fun _ => True).
Proof.
  unfold RunBrainOnlySkillEvaluation, brain_evaluation_input, active_suite, suite_cases_nonempty, evaluation_target.
  open_improvement. ys.
Qed.
Lemma y_record_comparison p b c v : yields J (record_comparison p b c v) (fun _ => True).
Proof.
  unfold record_comparison. open_improvement. apply yields_with_uow. eapply yields_bind; [y_atom|]. intros o Ho.
  y_skip ob. y_skip oc. cbv zeta. eapply yields_bind; [apply yields_need|]. intros x ->. specialize (Ho x eq_refl).
  y_skip br. y_skip cr. y_skip u0. y_skip lb. y_skip lc.
  pose proof (verdict_tally br cr lb lc) as Hv. cbn zeta in Hv. destruct (verdict br cr lb lc) as [[[re rc] de] k].
  y_skip h. y_skip i. y_skip t. eapply yields_bind; [apply yields_lift|]. intros y Hy.
  pose proof (checked_comparison _ _ Hy) as ->. cbn [fst snd] in Hv.
  eapply (yields_bind _ _ _ (fun _ => True)); [eapply yields_true; by apply (yields_add _ TbCandidate)|intros _ _].
  eapply yields_bind; [apply yields_lift|]. intros z Hz. cbn beta in Hz. ys.
Qed.
#[local] Hint Resolve y_run_brain y_record_comparison : yd.
Lemma y_compare `{JsonSchema} k p b o c v : yields J (CompareSkillImprovementProposal k p b o c v) (fun _ => True).
Proof. unfold CompareSkillImprovementProposal, comparison_baseline. open_improvement. ys. Qed.
Lemma y_create_suite `{JsonSchema} s n d c : yields J (CreateSkillEvaluationSuite s n d c) (fun _ => True).
Proof. unfold CreateSkillEvaluationSuite. open_improvement. ys. Qed.
#[local] Hint Resolve y_compare y_create_suite : yd.

(** **** Proposals, policies and their maintenance *)
Lemma y_create_evidence s b e : yields J (CreateSkillEvidenceSnapshot s b e) (fun _ => True).
Proof. unfold CreateSkillEvidenceSnapshot. open_improvement. ys. Qed.
Lemma y_create_proposal s b t e h g pv ps raw :
  yields J (CreateSkillImprovementProposal s b t e h g pv ps raw) (fun _ => True).
Proof. unfold CreateSkillImprovementProposal. open_improvement. ys. Qed.
#[local] Hint Resolve y_create_evidence y_create_proposal : yd.
Lemma y_generate_proposal gen s b t e h g i :
  yields J (GenerateSkillImprovementProposal gen s b t e h g i) (fun _ => True).
Proof. unfold GenerateSkillImprovementProposal, generation_request. open_improvement. ys. Qed.
#[local] Hint Resolve y_generate_proposal : yd.
Lemma y_cancel_proposal p : yields J (CancelSkillImprovementProposal p) (fun _ => True).
Proof.
  unfold CancelSkillImprovementProposal. apply yields_with_uow. eapply yields_bind; [y_atom|]. intros o Ho.
  eapply yields_bind; [apply yields_need|]. intros x ->. specialize (Ho x eq_refl). y_skip u0.
  eapply yields_bind; [apply yields_lift|]. intros z Hz. cbn beta in Hz. ys.
Qed.
Lemma y_save_policy p : yields J (SaveSkillImprovementPolicy p) (fun _ => True).
Proof. unfold SaveSkillImprovementPolicy. open_improvement. ys. Qed.
Lemma y_policy_now s : yields J (RunSkillImprovementPolicyNow s) (fun _ => True).
Proof. unfold RunSkillImprovementPolicyNow, resumable_proposal. open_improvement. ys. Qed.
Lemma y_mark_triggered s : yields J (MarkSkillImprovementPolicyTriggered s) (fun _ => True).
Proof. unfold MarkSkillImprovementPolicyTriggered. open_improvement. ys. Qed.
Lemma y_claim_work w s : yields J (claim_improvement_work w s) (fun _ => True).
Proof. unfold claim_improvement_work. ys. Qed.
Lemma y_advance_work w x st p : yields J (advance_work w x st p) (fun _ => True).
Proof. unfold advance_work. open_improvement. ys. Qed.
Lemma y_fail_work w s : yields J (fail_work w s) (fun _ => True).
Proof. unfold fail_work. open_improvement. ys. Qed.
Lemma y_complete_work w x s p : yields J (complete_work_and_trigger w x s p) (fun _ => True).
Proof. unfold complete_work_and_trigger. open_improvement. ys. Qed.
#[local] Hint Resolve y_cancel_proposal y_save_policy y_policy_now y_mark_triggered y_claim_work y_advance_work
  y_fail_work y_complete_work : yd.
Lemma y_improve_skill `{JsonSchema} gen a an w s : yields J (improve_skill gen a an w s) (fun _ => True).
Proof. unfold improve_skill, generate_one, select_evidence, evaluate_one, resumable_proposal. open_improvement. ys. Qed.
Lemma y_improve_skills ae one w n l : (forall s, yields J (one s) (fun _ => True)) ->
  forall k, yields J (improve_skills ae one w n k l) (fun _ => True).
Proof.
  intros Ho. induction l as [|s l IH]; intros k; cbn [improve_skills]; [y_atom|]. destruct (_ <=? _); [y_atom|].
  eapply (yields_bind _ _ _ (fun _ => True)); [|intros b _; apply IH].
  apply yields_try; [apply Ho|]. intros e. destruct (caught_by_tick ae e); cbn; [ys|done].
Qed.
Lemma y_improvement_exec o : yields J (improvement_exec o) (fun _ => True).
Proof.
  destruct o; cbn [improvement_exec]; unfold discard, RejectSkillPromotion, CancelSkillPromotion, RejectSkillRollback,
    CancelSkillRollback; try (ys; fail).
  all: try (eapply (yields_bind _ _ _ (fun _ => True)); [|intros ? _; y_atom]).
  - unfold EvaluateDueSkillImprovementPolicies, improvement_policies_list_due_enabled. 
    eapply (yields_bind _ _ _ (fun _ => True)); [ys|intros l _].
    apply y_improve_skills. intros s0. apply y_improve_skill.
  - by apply y_close_promotion.
  - by apply y_close_promotion.
  - by apply y_close_rollback.
  - by apply y_close_rollback.
Qed.
End Improvement.
#[export] Hint Resolve y_improvement_exec : yd.

Section UseCases3.
Context `{Env} `{FloatPow} `{Digest} `{Calendar} (d0 : Db).
Abbreviation J := (winv (tx_inv d0)).
Abbreviation F := (fact d0).

(** *** Agents and delegations *)
Lemma y_task_agents t b : yields J (task_agents_replace t b) (fun _ => True).
Proof. unfold task_agents_replace. y_frame. Qed.
#[local] Hint Resolve y_task_agents : yd.
Lemma y_activate_agent i r : yields J (ActivateAgentRevision i r) (fun _ => True).
Proof.
  unfold ActivateAgentRevision. apply yields_with_uow. eapply yields_bind; [y_atom|]. intros a Ha.
  y_skip o. y_skip v. y_skip n. eapply (yields_bind _ _ _ (fun p => tb_next TbAgent a p.1)).
  - apply yields_try; [y_atom|]. intros e. unfold transition_conflict. destruct e; cbn; try done; y_atom.
  - intros [a' []] Hn. cbn [fst] in Hn. ys.
Qed.
Lemma y_add_if_claimed x c t : yields J (agent_resolutions_add_if_claimed x c t) (fun _ => True).
Proof.
  intros w [Hd Hs]. unfold agent_resolutions_add_if_claimed, db, gets, upd, modify, bind, ret.
  destruct (db_agent_resolutions (staged w) !! ar_run_id x) as [y|] eqn:E;
    cbn [not_none negb andb]; rewrite ?andb_false_r, ?andb_true_r; [done|].
  destruct (match db_queue _ !! _ with Some _ => _ | None => _ end); [|done].
  refine (conj (conj Hd _) I). apply (tx_inv_insert _ TbAgentResolution); [done|].
  by eapply (fact_fresh _ TbAgentResolution).
Qed.
#[local] Hint Resolve y_add_if_claimed : yd.
Lemma y_publish r a v c : yields J (publish_resolution r a v c) (fun _ => True).
Proof. unfold publish_resolution. ys. Qed.
#[local] Hint Resolve y_publish : yd.
Lemma y_resolve_agent reg r c : yields J (ResolveRunAgent reg r c) (fun _ => True).
Proof.
  unfold ResolveRunAgent. apply yields_try.
  - unfold resolve_run_agent, check_existing, require_runtime. open_reads. ys.
  - intros e. destruct (_ && _); cbn; [ys|done].
Qed.
Lemma y_dispatch reg l p c k o i ct s : yields J (DispatchDelegation reg l p c k o i ct s) (fun _ => True).
Proof.
  unfold DispatchDelegation, hop_of, check_budgets, check_parent_step, resolve_target, start_child.
  open_reads. ys.
Qed.
#[local] Hint Resolve y_activate_agent y_resolve_agent y_dispatch : yd.

Lemma y_expire_due n : yields J (ExpireDueApprovals n) (fun _ => True).
Proof.
  unfold ExpireDueApprovals. open_reads. ys. apply yields_try; [ys|].
  intros e. destruct (is_entity_conflict e); cbn; [ys|done].
Qed.
(** The audit of a retrieval writes a table of its own. *)
Lemma y_memory_records x : yields J (memory_records_add x) (fun _ => True).
Proof.
  unfold memory_records_add. y_skip t. unfold add_row. y_skip m. destruct (m !! mr_id x); [y_atom|y_frame].
Qed.
#[local] Hint Resolve y_memory_records : yd.
Lemma y_memory_events r c n h m : yields J (record_memory_events r c n h m) (fun _ => True).
Proof. unfold record_memory_events, build_memory_retrieval_record. open_reads. ys. Qed.
#[local] Hint Resolve y_expire_due y_memory_events : yd.

Lemma y_app_exec o : yields J (app_exec o) (fun _ => True).
Proof.
  destruct o; cbn [app_exec];
  unfold CreateTask, StartRun, CancelTask, CompleteTask, FailTask, StartQueuedRun, CompleteRun,
    FailRun, CancelRun, RetryFailedRun, CreateOrderedStep, StartStep, CompleteStep, FailStep,
    SkipPendingStep, CancelStep, RequestToolInvocation, check_request_step, check_request_approval,
    MarkToolInvocationRunning, MarkToolInvocationSucceeded, MarkToolInvocationFailed,
    CancelToolInvocation, RequestApproval, RequestToolApproval,
    ApproveRequest, RejectRequest, CancelApproval, ClaimNextRun, RenewRunLease,
    ReleaseRunClaim, RequeueClaimedRun, CompleteRunWorkItem, VerifyRunClaim, ApplyFailedOutcome,
    ApplySucceededOutcome, ApplyWaitingOutcome, ApplyWaitingForDelegationOutcome,
    resolved_meanwhile, drop_item, RecoverExpiredLeases, recheck_claim, CreateAgent,
    CreateAgentRevision, DisableAgent, ArchiveAgent, change_agent, ReplaceTaskAgent,
    CreateDelegationRequest, check_parent_step, CreateSchedule, PutScheduleDeliveryPolicy,
    MaterializeDueSchedules, MaterializeScheduledAnswerDeliveries, plans_list_ready_without_delivery,
    VerifyDeliveryClaim, deliveries_is_claim_active, SendMessage, CreateWorkflow, BindTaskWorkflow, UnbindTaskWorkflow,
    require_binding_exclusive, CreateSkill, DisableSkill, ArchiveSkill, change_skill, CreateConversation; open_reads; ys;
    repeat match goal with H : _ /\ _ |- _ => destruct H end; cbn [fst] in *; ys;
    try (eapply yields_true; y_atom).
  apply y_count_true, Forall_fmap, Forall_forall. intros x _. cbn. ys.
Qed.
End UseCases3.

(** ** Sessions are closed between use cases *)
Definition synced (w : World) : Prop := staged w = durable w.

Section Synced.
Context `{Env} `{FloatPow} `{Digest} `{Calendar}.
Lemma synced_with_uow {A} (m : U A) : preserves synced (with_uow m).
Proof. intros w _. unfold with_uow. destruct (m _) as [[a|e] w']; reflexivity. Qed.
Lemma synced_now : preserves synced now.
Proof. by intros w. Qed.
Lemma synced_new_id {k} : preserves synced (@new_id _ k).
Proof. by intros w. Qed.
#[local] Hint Resolve synced_with_uow synced_now synced_new_id : py.
Lemma synced_materialize_all rr l : preserves synced (materialize_all rr l).
Proof. induction l; cbn [materialize_all]; unfold materialize_one, materialize_in_uow; keeps. Qed.
#[local] Hint Resolve synced_materialize_all : py.

Lemma synced_materialize_answers l : preserves synced (materialize_answers l).
Proof. induction l; cbn [materialize_answers]; unfold materialize_answer; keeps. Qed.
#[local] Hint Resolve synced_materialize_answers : py.

Lemma synced_improve_skill `{JsonSchema} gen a an w s : preserves synced (improve_skill gen a an w s).
Proof. keeps_all. Qed.
Lemma synced_improve_skills ae one w n l : (forall s, preserves synced (one s)) ->
  forall k, preserves synced (improve_skills ae one w n k l).
Proof. intros Ho. induction l; intros k; cbn [improve_skills]; keeps_all. Qed.
#[local] Hint Resolve synced_improve_skill synced_improve_skills : py.
Lemma synced_improvement_exec o : preserves synced (improvement_exec o).
Proof. destruct o; cbn [improvement_exec]; keeps_all. Qed.
#[local] Hint Resolve synced_improvement_exec : py.
Lemma synced_app_exec o : preserves synced (app_exec o).
Proof.
  destruct o; cbn [app_exec]; unfold discard; try apply preserves_bind; try (intros; apply preserves_ret);
    try apply synced_with_uow; try apply preserves_lift; intros;
    unfold CreateTask, RenewRunLease, ReleaseRunClaim, RequeueClaimedRun, CompleteRunWorkItem,
      ExpireDueApprovals, ExpireApproval, authorize_action, ResolveRunAgent, resolve_run_agent, CreateAgent,
      CreateAgentRevision, MaterializeDueSchedules, MaterializeScheduledAnswerDeliveries,
      ClaimNextDelivery, BeginDeliveryAttempt, PersistDeliveryOutcome, VerifyDeliveryClaim, SendMessage,
      send_message, CreateWorkflow, fenced, CreateSkill, ReplaceTaskSkills, ResolveRunSkills, resolve_run_skills,
      SubmitConversationTurn, materialize_turn, existing_turn, assert_same_payload, CreateConversation; keeps.
Qed.
End Synced.

Section Reachable.
Context `{Env} `{FloatPow} `{Digest} `{Calendar}.

Lemma reachable_synced w : reachable w -> synced w.
Proof. apply reach_invariant; [by intros ? ->|]. intros o s. apply synced_app_exec. Qed.
Lemma app_exec_tx o w :
  rows_valid (durable w) -> bindings_marked (durable w) -> synced w ->
  tx_inv (durable w) (durable (snd (app_exec o w))).
Proof.
  intros He Hm Hs. assert (Hi : winv (tx_inv (durable w)) w) by (split; rewrite ?Hs; (split; [by split|by split])).
  pose proof (y_app_exec (durable w) o w Hi) as Hy. unfold yields in Hy.
  destruct (app_exec o w) as [[a|e] w']; apply Hy.
Qed.
Lemma reachable_valid w : reachable w -> (rows_valid (durable w) /\ bindings_marked (durable w)) /\ synced w.
Proof.
  revert w. apply reach_invariant.
  - intros w ->. split; [split|done]; [intros [] i v Hi; done|by intros b ?%elem_of_nil].
  - intros o w [[He Hm] Hs]. split; [|by apply synced_app_exec].
    destruct (app_exec_tx o w He Hm Hs) as [[Hv _] [_ Hm']]. done.
Qed.
Lemma reachable_rows_valid w : reachable w -> rows_valid (durable w).
Proof. by intros [[Hv _] _]%reachable_valid. Qed.
Lemma app_exec_evolves o w : reachable w ->
  rows_evolve (durable w) (durable (snd (app_exec o w))) /\ skills_kept (durable w) (durable (snd (app_exec o w))).
Proof. intros [[Hv Hm] Hs]%reachable_valid. by destruct (app_exec_tx o w Hv Hm Hs) as [[_ He] [Hk _]]. Qed.
Lemma history_evolves w ops : reachable w -> rows_evolve (durable w) (durable (run_history ops w)).
Proof.
  revert w. induction ops as [|o ops IH]; intros w Hw; [done|].
  transitivity (durable (snd (app_exec o w))); [|by apply IH, reach_op]. by apply app_exec_evolves.
Qed.
Lemma history_skills w ops r x : reachable w -> db_skill_resolutions (durable w) !! r = Some x ->
  db_skill_resolutions (durable (run_history ops w)) !! r = Some x /\
  frozen_skills r (durable (run_history ops w)) = frozen_skills r (durable w).
Proof.
  revert w. induction ops as [|o ops IH]; intros w Hw Hr; [done|].
  destruct (app_exec_evolves o w Hw) as [He Hk]. destruct (He TbSkillResolution r x Hr) as (x' & Hx & Hs).
  assert (x' = x) as -> by (by destruct Hs).
  destruct (IH _ (reach_op _ _ o w Hw) Hx) as [E Ef]. split; [done|].
  etrans; [exact Ef|]. apply Hk. by rewrite Hr.
Qed.
End Reachable.

(** ** Properties *)


(** The toy history after its fourth operation: the run is running. *)
Definition toy_running : World :=
  @run_history toy_env toy_pow toy_digest toy_calendar (take 4 toy_ops) empty_world.
Lemma toy_running_reachable : @reachable toy_env toy_pow toy_digest toy_calendar toy_running.
Proof. apply run_history_reachable. by apply reach_init. Qed.


(** Rows whose status is terminal.  An approved request can still be consumed
    once. *)
Definition row_done (t : Tab) : tb_row t -> bool :=
  match t with
  | TbRun => fun x => run_terminal (run_status x)
  | TbTask => fun x => task_terminal (task_status x)
  | TbStep => fun x => step_terminal (step_status x)
  | TbTool => fun x => tool_terminal (tool_status x)
  | TbApproval => fun x => approval_terminal (ap_status x)
                           && (negb (bool_decide (ap_status x = AAPPROVED)) || ap_is_consumed x)
  | TbSchedule => fun x => schedule_terminal (sc_status x)
  | TbDelegation => fun x => delegation_terminal (dl_status x)
  | TbAgent => fun x => bool_decide (ag_status x = AG_ARCHIVED)
  | TbWorkflow => fun x => bool_decide (wf_status x = WARCHIVED)
  | TbSkill => fun x => bool_decide (sk_status x = SK_ARCHIVED)
  | TbConversation | TbProposal => fun _ => false
  | TbPromotion => fun x => negb (bool_decide (pq_status x = PR_PENDING))
  | TbRollback => fun x => negb (bool_decide (rb_status x = RB_PENDING))
  | TbExecution => fun x => wx_terminal (wx_status x)
  | TbNode => fun x => nx_terminal (nx_status x)
  | TbPlan => fun x => bool_decide (pl_status x = PLAN_SUPPRESSED)
  | _ => fun _ => true
  end.

Lemma ap_resolve_pending tg t rs n x x' : ap_resolve tg t rs n x = (Ok tt, x') -> ap_status x = APENDING.
Proof.
  unfold ap_resolve, ap_require_status. cbv [bind gets raise_if ret raise].
  destruct (ap_status x); closed_tests; done.
Qed.
Lemma ap_done_stuck o x x' : ap_exec o x = (Ok tt, x') -> row_done TbApproval x = false.
Proof.
  unfold row_done, ap_is_consumed.
  destruct o; cbn [ap_exec]; try (intros E%ap_resolve_pending; by rewrite E).
  unfold ap_consume. cbv [bind gets raise_if ret raise].
  destruct (ap_status x), (ap_consumed_at x) eqn:Ec; closed_tests; cbn [negb]; rewrite ?Ec; done.
Qed.

Lemma ag_archived_final o x x' : ag_exec o x = (Ok tt, x') -> ag_status x = AG_ARCHIVED -> x' = x.
Proof. destruct x, o; cbn; intros E ->; revert E; vm_compute; congruence. Qed.
Lemma wf_archived_final o x x' : wf_exec o x = (Ok tt, x') -> wf_status x = WARCHIVED -> x' = x.
Proof. destruct x, o; cbn; intros E ->; revert E; vm_compute; congruence. Qed.

(** A transition of a row that is done changes nothing: archiving what is
    archived succeeds, everything else is refused. *)
Lemma tb_next_done t x x' : tb_next t x x' -> row_done t x = true -> x' = x.
Proof.
  destruct t; cbn [tb_next row_done tb_row]; try done; try (intros [o E] Hd).
  - destruct (run_exec_terminal o x Hd); congruence.
  - destruct (task_exec_terminal o x Hd); congruence.
  - destruct (step_exec_terminal o x Hd); congruence.
  - destruct (tool_exec_terminal o x Hd); congruence.
  - apply ap_done_stuck in E. cbn [row_done] in E. congruence.
  - by destruct x as [? ? ? ? ? ? [] ? ? ?].
  - intros [[o E]|(Hs & _)] Hd; [|by rewrite Hs in Hd].
    destruct (dl_exec_terminal o x Hd); rewrite E in *; done.
  - apply bool_decide_eq_true in Hd. by eapply ag_archived_final.
  - apply bool_decide_eq_true in Hd. by eapply wf_archived_final.
  - by rewrite o in Hd.
  - exfalso. destruct (nx_status x'), (nx_status x); cbn in *; set_solver.
  - apply bool_decide_eq_true in Hd. by eapply sk_archived_final.
  - by rewrite o in Hd.
  - by rewrite o in Hd.
  - by rewrite o in Hd.
Qed.
Lemma evolves_done t x x' : evolves t x x' -> row_done t x = true -> x' = x.
Proof.
  intros He Hd. induction He as [|x y z Hn _ IH]; [done|].
  rewrite (tb_next_done _ _ _ Hn Hd) in *. by apply IH.
Qed.

(** [d] has the finished rows of [d0], unchanged. *)
Definition keeps_done (d0 d : Db) : Prop :=
  forall t i v, tb_get t d0 !! i = Some v -> row_done t v = true -> tb_get t d !! i = Some v.

(** C2: once a stored run, task, step, tool invocation, approval, schedule,
    delegation, workflow execution or node execution is in a terminal status (an
    approved request: once consumed), a promotion or rollback request is resolved, or
    an agent, workflow or skill is archived, no later history of use cases changes
    that row in any way; the rows of artifacts, schedule fires, agent, workflow and
    skill revisions, frozen resolutions, conversation turns, feedback, suppressed
    delivery plans, evaluation suites and their cases, evaluation runs, comparisons
    and evidence snapshots are final when stored. *)
Theorem terminal_rows_frozen `{Env} `{FloatPow} `{Digest} `{Calendar} w ops :
  reachable w -> keeps_done (durable w) (durable (run_history ops w)).
Proof.
  intros Hw t i v Hv Hd. destruct (history_evolves w ops Hw t i v Hv) as (v' & Hv' & He).
  by rewrite (evolves_done _ _ _ He Hd) in Hv'.
Qed.

(** The cancelled run of the toy history survives a worker, a retry and a
    second cancellation. *)
Lemma terminal_rows_frozen_witness :
  db_runs (durable (@run_history toy_env toy_pow toy_digest toy_calendar
    [OpClaimNextRun (u "w2") 10 5; OpRetryFailedRun (toy_id 1); OpCancelTask (toy_id 0)] toy_world))
    !! toy_id 1 = db_runs (durable toy_world) !! toy_id 1.
Proof.
  pose proof (@terminal_rows_frozen toy_env toy_pow toy_digest toy_calendar toy_world
    [OpClaimNextRun (u "w2") 10 5; OpRetryFailedRun (toy_id 1); OpCancelTask (toy_id 0)]
    toy_reachable TbRun (toy_id 1)) as Hr. cbn [tb_get tb_kind tb_row row_done] in Hr.
  destruct (db_runs (durable toy_world) !! toy_id 1) as [r|] eqn:E.
  - apply Hr; [reflexivity|]. revert E. vm_compute. intros [= <-]. reflexivity.
  - revert E. vm_compute. congruence.
Defined.

(** The rows of the tables of [Rows] are filed under their ids; those of the tables named
    here, no others, have the shape that goes with it. *)
Record db_valid `{Digest} (d : Db) : Prop := {
  dv_keys : forall t i v, tb_get t d !! i = Some v -> tb_key t v = i;
  dv_runs : forall i r, db_runs d !! i = Some r -> run_id r = i /\ run_inv r;
  dv_tasks : forall i x, db_tasks d !! i = Some x -> task_id x = i /\ task_shape x;
  dv_steps : forall i s, db_steps d !! i = Some s -> step_id s = i /\ step_shape s;
  dv_tools : forall i x, db_tools d !! i = Some x -> tool_id x = i /\ tool_shape x;
  dv_schedules : forall i x, db_schedules d !! i = Some x -> sc_id x = i /\ schedule_checks x = true;
  dv_delegations : forall i x, db_delegations d !! i = Some x -> dl_id x = i /\ dl_intent x;
  dv_revisions : forall i x, db_agent_revisions d !! i = Some x -> av_id x = i /\ revision_sealed x;
  dv_workflow_revisions : forall i x, db_workflow_revisions d !! i = Some x ->
    wr_id x = i /\ workflow_revision_sealed x;
  dv_skill_revisions : forall i x, db_skill_revisions d !! i = Some x -> kr_id x = i /\ skill_revision_sealed x;
  dv_turns : forall i x, db_turns d !! i = Some x -> ct_id x = i /\ turn_canonical x;
  dv_proposals : forall i x, db_proposals d !! i = Some x -> ip_id x = i /\ SkillImprovementProposal_check x = Ok x;
  dv_evidence : forall i x, db_evidence d !! i = Some x -> es_id x = i /\ evidence_sealed x;
  dv_comparisons : forall i x, db_candidates d !! i = Some x -> ce_id x = i /\ comparison_sealed x;
  dv_approvals : forall i x, db_approvals d !! i = Some x -> ap_id x = i /\ ap_shape x;
  dv_promotions : forall i x, db_promotions d !! i = Some x -> pq_id x = i /\ SkillPromotionRequest_check x = Ok x;
  dv_rollbacks : forall i x, db_rollbacks d !! i = Some x -> rb_id x = i /\ SkillRollbackRequest_check x = Ok x;
  dv_suites : forall i x, db_suites d !! i = Some x -> es_suite_id x = i /\ SkillEvaluationSuite_check x = Ok x;
  dv_cases : forall i x, db_cases d !! i = Some x -> ec_id x = i /\ SkillEvaluationCase_check x = Ok x;
  dv_evaluation_runs : forall i x, db_evaluation_runs d !! i = Some x ->
    er_id x = i /\ SkillEvaluationRun_check x = Ok x }.


