(* ===== verification/WorkflowScheduling.v ===== *)
(** * The scheduling loop of the workflow engine

    What one iteration, one pass and the whole loop of [schedule_to_fixed_point]
    do to the node executions: the loop terminates within its fuel, dispatches a
    node only when all its predecessors succeeded, and stops at a fixed point;
    in an acyclic graph a fixed point without a dispatched node is finished. *)

From S2P Require Import Prelude Values RunEntity TaskEntity EventEntity Canonical WorkQueue.
From S2P Require Import AgentEntity WorkflowGraph WorkflowEntity WorkflowExecutionEntity SkillEntity ConversationEntity Tables Store.
From S2P Require Import WorkflowStore Lifecycle RunUseCases WorkflowUseCases WorkflowEngine Transactions.

Open Scope Z_scope.

(** ** What scheduling does to the node executions *)

Lemma nx_exec_id o x : nx_id (snd (nx_exec o x)) = nx_id x.
Proof.
  destruct x as [? ? ? ? ? ? ? ? s ? ? ? ? ? ? ? ? ?]. destruct o, s; nx_cases; nx_split; done.
Qed.
(** The status a call that returned leaves *)
Definition nx_target (o : nx_op) : WorkflowNodeExecutionStatus :=
  match o with
  | NxDispatch _ _ _ _ => NDISPATCHED | NxSucceed _ _ => NSUCCEEDED | NxFail _ _ _ => NFAILED
  | NxCancel _ => NCANCELLED | NxBlock _ _ _ => NBLOCKED
  end.
Lemma nx_exec_status o x x' : nx_exec o x = (Ok tt, x') -> nx_status x' = nx_target o.
Proof.
  destruct x as [? ? ? ? ? ? ? ? s ? ? ? ? ? ? ? ? ?]. destruct o, s; nx_cases; nx_split; done.
Qed.

(** A dispatched node knows the execution lineage of its child. *)
Definition child_known (x : WorkflowNodeExecution) : Prop :=
  nx_status x = NDISPATCHED -> is_Some (nx_child_execution_id x).
Lemma nx_exec_child o x x' : nx_exec o x = (Ok tt, x') -> child_known x'.
Proof.
  unfold child_known. destruct x as [? ? ? ? ? ? ? ? s ? ? ? ? ? ? ? ? ?].
  destruct o, s; nx_cases; nx_split; done.
Qed.

(** [x'] is [x] after one transition to [st]. *)
Definition moved (st : WorkflowNodeExecutionStatus) (x x' : WorkflowNodeExecution) : Prop :=
  nx_id x' = nx_id x /\ nx_status x' = st /\ child_known x'.
Lemma pure_call o x : pure (call (nx_exec o) x) (fun p => moved (nx_target o) x p.1).
Proof.
  eapply yields_mono; [apply yields_call|]. intros [x' []] E. cbn [fst snd] in *. split_and!.
  - by rewrite <- (nx_exec_id o x), E.
  - by eapply nx_exec_status.
  - by eapply nx_exec_child.
Qed.

Lemma getitem_ok {K V} `{Countable K} (d : gmap K V) k v : getitem d k = Ok v <-> d !! k = Some v.
Proof. unfold getitem. destruct (d !! k); naive_solver. Qed.

Section Scheduling.
Context `{Env} `{Digest}.
Context (by_id : gmap WorkflowNodeId WorkflowNode) (preds : gmap WorkflowNodeId (list WorkflowNodeId)) (t : Z).

Lemma dispatch_moves nx node :
  nx_status nx = NPENDING ->
  pure (dispatch_node nx node t) (fun nx' => moved NDISPATCHED nx nx' \/ moved NBLOCKED nx nx').
Proof.
  intros Hp. unfold dispatch_node. rewrite bool_decide_eq_true_2 by done. cbn [negb].
  eapply (yields_bind _ _ _ (fun _ => True)).
  { apply yields_try; [apply pure_any|]. intros []; cbn; try done; apply pure_any. }
  intros [msg|] _.
  - eapply pure_bind; [apply (pure_call (NxBlock _ _ _))|]. intros [nx' []] Hm. cbn [fst] in Hm.
    do 2 p_skip. apply pure_ret. by right.
  - do 4 p_skip. p_skip. destruct a3 as [tid rid]. do 2 p_skip.
    eapply pure_bind; [apply (pure_call (NxDispatch _ _ _ _))|]. intros [nx' []] Hm. cbn [fst] in Hm.
    do 2 p_skip. apply pure_ret. by left.
Qed.

(** The statuses of the predecessors of a node, when all are known *)
Definition pred_statuses (nxs : Nodes) (id : WorkflowNodeId) (l : list WorkflowNodeExecutionStatus) : Prop :=
  exists ps, getitems nxs (preds_of preds id) = Ok ps /\ l = map nx_status ps.

(** What the scheduler leaves alone: a node that is not pending, or whose
    predecessors are neither all successful nor any unsuccessful *)
Definition settled (nxs : Nodes) (id : WorkflowNodeId) : Prop :=
  exists nx, nxs !! id = Some nx /\
    (nx_status nx = NPENDING ->
     exists l, pred_statuses nxs id l /\ existsb unsuccessful l = false /\ forallb succeeded l = false).
(** What it does to a node *)
Definition scheduled (nxs : Nodes) (id : WorkflowNodeId) (nx nx' : WorkflowNodeExecution) : Prop :=
  nxs !! id = Some nx /\ nx_status nx = NPENDING /\
  exists l, pred_statuses nxs id l /\
    (moved NDISPATCHED nx nx' /\ forallb succeeded l = true /\ existsb unsuccessful l = false \/
     moved NBLOCKED nx nx').

Lemma schedule_node_spec nxs id :
  pure (schedule_node by_id preds t nxs id) (fun p =>
    if p.2 then exists nx nx', scheduled nxs id nx nx' /\ p.1 = <[id := nx']> nxs
    else p.1 = nxs /\ settled nxs id).
Proof.
  unfold schedule_node. eapply pure_bind; [apply yields_lift|]. intros nx Hn.
  apply getitem_ok in Hn as Hl.
  destruct (bool_decide (nx_status nx = NPENDING)) eqn:Hp; cbn [negb].
  2: { apply bool_decide_eq_false in Hp. apply pure_ret. cbn [fst snd]. split; [done|]. by exists nx. }
  apply bool_decide_eq_true in Hp.
  eapply pure_bind; [apply yields_lift|]. intros ps Hps.
  assert (Hst : pred_statuses nxs id (map nx_status ps)) by by exists ps.
  destruct (existsb unsuccessful (map nx_status ps)) eqn:Hu.
  - eapply pure_bind; [apply (pure_call (NxBlock _ _ _))|]. intros [nx' []] Hm. cbn [fst] in Hm.
    do 2 p_skip. apply pure_ret. exists nx, nx'. split; [|done].
    split; [done|]. split; [done|]. exists (map nx_status ps). auto.
  - destruct (forallb succeeded (map nx_status ps)) eqn:Hs.
    + p_skip. eapply pure_bind; [by apply dispatch_moves|]. intros nx' Hm.
      apply pure_ret. exists nx, nx'. split; [|done]. split; [done|]. split; [done|].
      exists (map nx_status ps). split; [done|]. destruct Hm; auto.
    + apply pure_ret. split; [done|]. exists nx. split; [done|]. intros _.
      exists (map nx_status ps). auto.
Qed.

(** *** Termination *)
Definition pending (nxs : Nodes) (id : WorkflowNodeId) : bool :=
  match nxs !! id with Some nx => bool_decide (nx_status nx = NPENDING) | None => false end.
Definition pending_count (order : list WorkflowNodeId) (nxs : Nodes) : nat :=
  length (List.filter (pending nxs) order).

Lemma scheduled_pending nxs id nx nx' :
  scheduled nxs id nx nx' ->
  pending nxs id = true /\ pending (<[id := nx']> nxs) id = false /\
  forall id', id' <> id -> pending (<[id := nx']> nxs) id' = pending nxs id'.
Proof.
  intros (Hl & Hp & l & _ & Hm). unfold pending. split_and!.
  - rewrite Hl. by rewrite bool_decide_eq_true_2.
  - rewrite lookup_insert_eq. apply bool_decide_eq_false. destruct Hm as [[(_ & Hs & _) _]|(_ & Hs & _)]; by rewrite Hs.
  - intros id' Hne. by rewrite lookup_insert_ne.
Qed.
Lemma pending_count_drops order nxs id nx nx' :
  scheduled nxs id nx nx' ->
  (pending_count order (<[id := nx']> nxs) <= pending_count order nxs)%nat /\
  (id ∈ order -> (pending_count order (<[id := nx']> nxs) < pending_count order nxs)%nat).
Proof.
  intros (H1 & H2 & H3)%scheduled_pending. unfold pending_count.
  induction order as [|i order [IH1 IH2]]; cbn [List.filter].
  - split; [done|]. by intros ?%not_elem_of_nil.
  - destruct (decide (i = id)) as [->|Hne].
    + rewrite H1, H2. cbn [length]. split; [lia|]. intros _. lia.
    + rewrite H3 by done. destruct (pending nxs i); cbn [length]; (split; [lia|]);
        intros [?|Hin]%elem_of_cons; try done; specialize (IH2 Hin); lia.
Qed.

(** One pass changes nothing and finds every node settled, or leaves fewer
    pending nodes. *)
Lemma schedule_pass_spec order ids nxs :
  (forall i, i ∈ ids -> i ∈ order) ->
  pure (schedule_pass by_id preds t ids nxs) (fun p =>
    if p.2 then (pending_count order p.1 < pending_count order nxs)%nat
    else p.1 = nxs /\ forall i, i ∈ ids -> settled nxs i).
Proof.
  revert nxs. induction ids as [|id ids IH]; intros nxs Hin; cbn [schedule_pass].
  - apply pure_ret. split; [done|]. by intros i ?%not_elem_of_nil.
  - eapply pure_bind; [apply schedule_node_spec|]. intros [nxs1 c1] H1. cbn [fst snd] in H1.
    eapply pure_bind; [apply IH; intros i Hi; apply Hin; by right|]. intros [nxs2 c2] H2. cbn [fst snd] in H2.
    apply pure_ret. cbn [fst snd]. destruct c1; cbn [orb].
    + destruct H1 as (nx & nx' & Hs & ->).
      destruct (pending_count_drops order nxs id nx nx' Hs) as [_ Hd].
      specialize (Hd (Hin id (list_elem_of_here id ids))).
      destruct c2; [lia|]. destruct H2 as [-> _]. lia.
    + destruct H1 as [-> Hs]. destruct c2; [done|]. destruct H2 as [-> Hall].
      split; [done|]. intros i [->|Hi]%elem_of_cons; auto.
Qed.

(** With more fuel than pending nodes the loop ends, and ends at a fixed point. *)
Lemma schedule_loop_spec fuel order nxs :
  (pending_count order nxs < fuel)%nat ->
  pure (schedule_loop fuel by_id preds t order nxs) (fun r =>
    exists nxs', r = Some nxs' /\ forall i, i ∈ order -> settled nxs' i).
Proof.
  assert (Hperm : forall i, i ∈ sort_ids by_id order <-> i ∈ order).
  { intros i. unfold sort_ids. by rewrite merge_sort_Permutation. }
  revert nxs. induction fuel as [|fuel IH]; intros nxs Hf; [lia|]. cbn [schedule_loop].
  eapply pure_bind; [apply (schedule_pass_spec order); by intros i Hi%Hperm|].
  intros [nxs' c] Hc. cbn [fst snd] in Hc. destruct c.
  - apply IH. lia.
  - destruct Hc as [-> Hs]. apply pure_ret. exists nxs. split; [done|]. intros i Hi. by apply Hs, Hperm.
Qed.
Lemma pending_count_le order nxs : (pending_count order nxs <= length order)%nat.
Proof. unfold pending_count. induction order as [|i order IH]; cbn; [done|]. destruct (pending nxs i); cbn; lia. Qed.
Lemma fixed_point_spec order nxs :
  pure (schedule_to_fixed_point by_id preds t order nxs) (fun nxs' => forall i, i ∈ order -> settled nxs' i).
Proof.
  unfold schedule_to_fixed_point. eapply pure_bind.
  { apply schedule_loop_spec. pose proof (pending_count_le order nxs). lia. }
  intros r (nxs' & -> & Hs). by apply pure_ret.
Qed.
End Scheduling.

(** ** Acyclicity: a settled graph with nothing dispatched is finished *)
Lemma acyclic_acc (P : list Pair) x : acyclic P -> Acc (edge_rel P) x.
Proof.
  intros Ha. change (sn (flip (edge_rel P)) x). apply tc_finite_sn.
  - intros y Hy%tc_flip. by apply (Ha y).
  - exists (map fst P). intros y Hy%tc_flip.
    assert (Hfst : exists z, edge_rel P y z) by (destruct Hy; eauto).
    destruct Hfst as [z Hz]. apply list_elem_of_fmap. by exists (y, z).
Qed.

Lemma getitems_ok {K V} `{Countable K} (d : gmap K V) ks vs v :
  getitems d ks = Ok vs -> v ∈ vs -> exists k, k ∈ ks /\ d !! k = Some v.
Proof.
  revert vs. induction ks as [|k ks IH]; intros vs; cbn [getitems].
  - intros [= <-] []%not_elem_of_nil.
  - destruct (getitem d k) as [w|] eqn:E; cbn [res_bind]; [|done].
    destruct (getitems d ks) as [ws|]; cbn [res_bind]; [|done].
    intros [= <-] [->|Hv]%elem_of_cons.
    + exists k. split; [left|by apply getitem_ok].
    + destruct (IH ws eq_refl Hv) as (k' & ? & ?). exists k'. split; [by right|done].
Qed.

(** [_predecessors] collects the edges into a node. *)
Lemma predecessors_edge edges p i :
  p ∈ preds_of (predecessors edges) i -> edge_rel (map edge_pair edges) p i.
Proof.
  unfold predecessors.
  assert (Hg : forall es m, p ∈ preds_of (foldl (fun m e =>
      let m := match m !! we_from_node_id e with Some _ => m | None => <[we_from_node_id e := []]> m end in
      <[we_to_node_id e := default [] (m !! we_to_node_id e) ++ [we_from_node_id e]]> m) m es) i ->
    p ∈ preds_of m i \/ edge_rel (map edge_pair es) p i).
  { induction es as [|e es IH]; intros m Hp; [by left|]. cbn [foldl] in Hp.
    apply IH in Hp as [Hp|Hp]; [|right; by right]. cbv zeta in Hp.
    set (m' := match m !! we_from_node_id e with Some _ => m | None => _ end) in Hp.
    assert (Hm' : forall j, default [] (m' !! j) = preds_of m j).
    { intros j. unfold m', preds_of. destruct (m !! we_from_node_id e) eqn:E; [done|].
      destruct (decide (we_from_node_id e = j)) as [<-|?];
        [by rewrite lookup_insert_eq, E|by rewrite lookup_insert_ne]. }
    unfold preds_of in Hp at 1. destruct (decide (we_to_node_id e = i)) as [<-|Hne].
    - rewrite lookup_insert_eq in Hp. cbn [default from_option] in Hp.
      apply elem_of_app in Hp as [Hp|Hp%list_elem_of_singleton].
      + left. by rewrite <- Hm'.
      + right. rewrite Hp. left.
    - left. rewrite lookup_insert_ne in Hp by done. by rewrite <- Hm'. }
  intros [Hp|Hp]%Hg; [|done]. by apply not_elem_of_nil in Hp.
Qed.

Section AtFixpoint.
Context (edges : list WorkflowEdge) (order : list WorkflowNodeId) (nxs : Nodes).
Context (Hacyclic : acyclic (map edge_pair edges)).
Context (Hdom : forall i n, nxs !! i = Some n -> i ∈ order).
Context (Hsettled : forall i, i ∈ order -> settled (predecessors edges) nxs i).

(** At the fixed point, unless some node is dispatched, every node is terminal. *)
Lemma settled_finished :
  (forall i n, nxs !! i = Some n -> nx_status n <> NDISPATCHED) ->
  forall i n, nxs !! i = Some n -> nx_terminal (nx_status n) = true.
Proof.
  intros Hd. assert (Hp : forall i n, nxs !! i = Some n -> nx_status n <> NPENDING).
  { intros i. pose proof (acyclic_acc _ i Hacyclic) as Ha. induction Ha as [i _ IH]. intros n Hn Hpend.
    destruct (Hsettled i (Hdom i n Hn)) as (n' & Hn' & Hs). rewrite Hn in Hn'. injection Hn' as <-.
    destruct (Hs Hpend) as (l & (ps & Hps & ->) & Hu & Hall).
    assert (Hex : exists p, p ∈ ps /\ succeeded (nx_status p) = false /\ unsuccessful (nx_status p) = false).
    { clear -Hu Hall. induction ps as [|p ps IH]; cbn in *; [done|].
      apply orb_false_elim in Hu as [Hu1 Hu2]. destruct (succeeded (nx_status p)) eqn:E; cbn in Hall.
      - destruct (IH Hu2 Hall) as (q & ? & ?). exists q. split; [by right|done].
      - exists p. split; [left|done]. }
    destruct Hex as (p & Hin & Hns & Hnu).
    destruct (getitems_ok _ _ _ _ Hps Hin) as (k & Hk & Hkp).
    apply (IH k (predecessors_edge _ _ _ Hk) p Hkp).
    specialize (Hd k p Hkp). by destruct (nx_status p). }
  intros i n Hn. specialize (Hd i n Hn). specialize (Hp i n Hn). by destruct (nx_status n).
Qed.
End AtFixpoint.

(** ** The property *)

(** Fuel beyond one unit per node is never used. *)
Lemma schedule_loop_fuel `{Env} `{Digest} by_id preds t order f1 f2 nxs w :
  (pending_count order nxs < f1)%nat -> (pending_count order nxs < f2)%nat ->
  schedule_loop f1 by_id preds t order nxs w = schedule_loop f2 by_id preds t order nxs w.
Proof.
  assert (Hperm : forall i, i ∈ sort_ids by_id order <-> i ∈ order).
  { intros i. unfold sort_ids. by rewrite merge_sort_Permutation. }
  revert f2 nxs w. induction f1 as [|f1 IH]; intros [|f2] nxs w H1 H2; try lia.
  cbn [schedule_loop]. unfold bind.
  pose proof (schedule_pass_spec by_id preds t order (sort_ids by_id order) nxs
                (fun i => proj1 (Hperm i)) w I) as Hp.
  destruct (schedule_pass _ _ _ _ _ w) as [[[nxs' []]|e] w']; [|done..].
  destruct Hp as [_ Hp]. cbn [fst snd] in Hp. apply IH; lia.
Qed.

(** C15: the scheduling loop of the workflow engine terminates: whatever the
    graph, the stored state and the work the dispatches do, it never runs out of
    its fuel of one unit per node and one more, any further fuel changes
    nothing, and when it returns every node is settled: it is not pending, or
    some predecessor is still in progress and none has failed. *)
Theorem scheduling_terminates `{Env} `{Digest} by_id preds t order k nxs w :
  schedule_loop (S (length order) + k) by_id preds t order nxs w
    = schedule_loop (S (length order)) by_id preds t order nxs w /\
  match fst (schedule_loop (S (length order)) by_id preds t order nxs w) with
  | Ok r => exists nxs', r = Some nxs' /\ forall i, i ∈ order -> settled preds nxs' i
  | Raise _ => True
  end.
Proof.
  pose proof (pending_count_le order nxs) as Hle.
  split; [apply schedule_loop_fuel; lia|].
  pose proof (schedule_loop_spec by_id preds t (S (length order)) order nxs ltac:(lia) w I) as Hs.
  destruct (schedule_loop _ _ _ _ _ _ w) as [[r|e] w']; [apply Hs|done].
Qed.
