(* ===== verification/WorkflowProgress.v ===== *)
(** * The workflow engine makes progress

    The transactions of the two engine use cases leave every running execution
    with a dispatched node: no history of use cases ever strands one. *)

From S2P Require Import Prelude Values RunEntity TaskEntity StepEntity ToolEntity ApprovalEntity.
From S2P Require Import EventEntity ScheduleEntity ScheduleDelivery Canonical RetryPolicy.
From S2P Require Import DelegationEntity WorkQueue AgentEntity WorkflowGraph WorkflowEntity.
From S2P Require Import WorkflowExecutionEntity SkillEntity ConversationEntity Tables Store WorkflowStore Lifecycle RunUseCases.
From S2P Require Import TaskUseCases StepUseCases ApprovalUseCases ToolExecution AgentUseCases.
From S2P Require Import DelegationUseCases ScheduleUseCases WorkerUseCases WorkflowUseCases.
From S2P Require Import WorkflowEngine WorkflowScheduling Transactions System EventLogs Rows RowHistory.

Open Scope Z_scope.

(** ** Dictionaries built from lists *)
Lemma dict_by_lookup {K V} `{Countable K} (key : V -> K) (l : list V) k v :
  dict_by key l !! k = Some v -> v ∈ l /\ key v = k.
Proof.
  unfold dict_by.
  assert (Hg : forall m : gmap K V, foldl (fun m v => <[key v := v]> m) m l !! k = Some v ->
    (v ∈ l /\ key v = k) \/ m !! k = Some v).
  { induction l as [|a l IH]; intros m; cbn [foldl]; [auto|]. intros [[Hin Hk]|Hm]%IH.
    - left. split; [by right|done].
    - destruct (decide (key a = k)) as [<-|Hne].
      + rewrite lookup_insert_eq in Hm. injection Hm as ->. left. split; [left|done].
      + rewrite lookup_insert_ne in Hm by done. by right. }
  intros [?|He]%Hg; [done|]. by rewrite lookup_empty in He.
Qed.
Lemma dict_by_NoDup {K V} `{Countable K} (key : V -> K) (l : list V) v :
  NoDup (map key l) -> v ∈ l -> dict_by key l !! key v = Some v.
Proof.
  unfold dict_by. intros Hnd Hin. generalize (∅ : gmap K V).
  assert (Hg : forall l (m : gmap K V), key v ∉ map key l ->
    foldl (fun m v => <[key v := v]> m) m l !! key v = m !! key v).
  { clear. induction l as [|a l IH]; intros m Hn; [done|]. cbn [foldl map] in *.
    apply not_elem_of_cons in Hn as [Hne Hn]. rewrite IH by done. by apply lookup_insert_ne. }
  induction l as [|a l IH]; intros m; [by apply not_elem_of_nil in Hin|].
  cbn [foldl map] in *. apply NoDup_cons in Hnd as [Hn Hnd].
  apply elem_of_cons in Hin as [->|Hin]; [|by apply IH].
  rewrite Hg by done. apply lookup_insert_eq.
Qed.
Lemma dict_by_dom {K V} `{Countable K} (key : V -> K) (l : list V) v :
  v ∈ l -> key v ∈ dom (dict_by key l).
Proof.
  unfold dict_by.
  assert (Hg : forall k (m : gmap K V), k ∈ dom m \/ k ∈ map key l ->
    k ∈ dom (foldl (fun m v => <[key v := v]> m) m l)).
  { clear. induction l as [|a l IH]; intros k m; cbn [foldl map]; [by intros [?|?%not_elem_of_nil]|].
    intros Hk. apply IH. rewrite dom_insert, elem_of_union, elem_of_singleton.
    destruct Hk as [?|[?|?]%elem_of_cons]; auto. }
  intros Hv. apply Hg. right. by apply list_elem_of_fmap_2.
Qed.

(** ** The stored executions during a transaction *)

(** Some node of the execution is dispatched, so its child will bring the
    engine back. *)
Definition has_dispatched (V : Executions) (x : WorkflowExecutionId) : Prop :=
  exists i n, V.2 !! i = Some n /\ nx_workflow_execution_id n = x /\ nx_status n = NDISPATCHED.
Definition children_known (V : Executions) : Prop := map_Forall (fun _ n => child_known n) V.2.
Definition progress (V : Executions) : Prop :=
  children_known V /\ forall x e, V.1 !! x = Some e -> wx_status e = XRUNNING -> has_dispatched V x.

(** While execution [X], with nodes [L], is being advanced: every other
    execution is fine, and the node objects in hand are the stored ones. *)
Record live (X : WorkflowExecutionId) (L : list WorkflowNodeId) (nxs : Nodes) (V : Executions) : Prop := {
  lv_children : children_known V;
  lv_others : forall x e, x <> X -> V.1 !! x = Some e -> wx_status e = XRUNNING -> has_dispatched V x;
  lv_stored : forall i n, nxs !! i = Some n -> exists row, V.2 !! nx_id n = Some row /\
                nx_status row = nx_status n /\ nx_workflow_execution_id row = X;
  lv_inj : forall i j m n, nxs !! i = Some m -> nxs !! j = Some n -> nx_id m = nx_id n -> i = j;
  lv_dom : forall i n, nxs !! i = Some n -> i ∈ L }.

(** Storing a row of [X] at a key no other node in hand has *)
Lemma live_put X L nxs V i n row :
  live X L nxs V -> i ∈ L -> nx_status row = nx_status n -> nx_workflow_execution_id row = X ->
  child_known row ->
  (forall j m, j <> i -> nxs !! j = Some m -> nx_id m <> nx_id n) ->
  (forall old, V.2 !! nx_id n = Some old -> nx_workflow_execution_id old = X) ->
  live X L (<[i := n]> nxs) (V.1, <[nx_id n := row]> V.2).
Proof.
  intros [Hc Ho Hs Hi Hd] Hin Hst Hx Hrow Hother Hold. split.
  - by apply map_Forall_insert_2.
  - intros x e Hne He Hr. destruct (Ho x e Hne He Hr) as (k & m & Hk & Hmx & Hmd).
    exists k, m. cbn [snd]. rewrite lookup_insert_ne; [done|]. intros <-.
    apply Hne. rewrite <- Hmx. by apply Hold.
  - intros j m Hm. cbn [snd]. destruct (decide (i = j)) as [<-|Hne].
    + rewrite lookup_insert_eq in Hm. injection Hm as <-. exists row. by rewrite lookup_insert_eq.
    + rewrite lookup_insert_ne in Hm by done. destruct (Hs j m Hm) as (r & Hr & ?).
      exists r. rewrite lookup_insert_ne; [done|]. intros Heq. by apply (Hother j m).
  - intros j k a b Ha Hb Hab.
    destruct (decide (i = j)) as [<-|Hj], (decide (i = k)) as [<-|Hk]; try done;
      rewrite ?lookup_insert_eq, ?lookup_insert_ne in Ha by done;
      rewrite ?lookup_insert_eq, ?lookup_insert_ne in Hb by done; simplify_eq.
    + exfalso. by apply (Hother k b).
    + exfalso. by apply (Hother j a).
    + by apply (Hi j k a b).
  - intros j m Hm. destruct (decide (i = j)) as [<-|Hne]; [done|].
    rewrite lookup_insert_ne in Hm by done. by apply (Hd j m).
Qed.
(** The row of a node in hand takes its new state; a new row is added. *)
Lemma live_update X L nxs V i n n' row :
  live X L nxs V -> nxs !! i = Some n -> nx_id n' = nx_id n ->
  nx_status row = nx_status n' -> nx_workflow_execution_id row = X -> child_known row ->
  live X L (<[i := n']> nxs) (V.1, <[nx_id n' := row]> V.2).
Proof.
  intros Hl Hn Hid Hst Hx Hc. destruct (lv_stored _ _ _ _ Hl i n Hn) as (old & Hold & _ & Hox).
  apply live_put; [done|by eapply lv_dom|done|done|done| |].
  - intros j m Hne Hm Heq. apply Hne. eapply (lv_inj _ _ _ _ Hl); [done..|congruence].
  - intros r. rewrite Hid, Hold. by intros [= <-].
Qed.
Lemma live_add X L nxs V i n :
  live X L nxs V -> V.2 !! nx_id n = None -> nx_workflow_execution_id n = X -> i ∈ L -> child_known n ->
  live X L (<[i := n]> nxs) (V.1, <[nx_id n := n]> V.2).
Proof.
  intros Hl Hf Hx Hin Hc. apply live_put; try done; [|congruence].
  intros j m _ Hm Heq. destruct (lv_stored _ _ _ _ Hl j m Hm) as (r & Hr & _). congruence.
Qed.

(** Transactions are followed through the executions and their nodes. *)
Abbreviation steps := (Transactions.steps executions_of).
Abbreviation same := (Transactions.same executions_of).
Abbreviation lands := (Transactions.lands executions_of progress).
#[export] Instance executions_view : View executions_of.
Proof. by intros q []. Qed.

Section Frames.
Context `{Env} `{Digest} (D : Db) (V : Executions).

Lemma same_append r t n specs : preserves (same D V) (append_from r t n specs).
Proof. revert n. induction specs as [|[[ty p] s] specs IH]; intros n; cbn [append_from]; keeps_all. Qed.
#[local] Hint Resolve same_append : py.
Lemma same_emit x ty p t : preserves (same D V) (emit_workflow_event x ty p t).
Proof. keeps_all. Qed.
#[local] Hint Resolve same_emit : py.
Lemma same_emit_node n ty t : preserves (same D V) (emit_node_event n ty t).
Proof. keeps_all. Qed.
Lemma same_context n : preserves (same D V) (build_workflow_node_context n).
Proof. keeps_all. Qed.
Lemma same_start_run x t : preserves (same D V) (start_run_in_uow x t).
Proof. keeps_all. Qed.
Lemma same_child_result r t : preserves (same D V) (bounded_child_result r t).
Proof. unfold bounded_child_result, events_latest_of_type_for_run. apply preserves_bind; [apply same_db|]. intros e. apply preserves_ret. Qed.
Lemma same_snapshots reg l acc : preserves (same D V) (agent_snapshots reg l acc).
Proof. revert acc. induction l; intros acc; cbn [agent_snapshots]; keeps_all. Qed.
Lemma same_load_frozen i r e : preserves (same D V) (load_frozen_revision i r e).
Proof. keeps_all. Qed.
Lemma same_resolution_for r i t : preserves (same D V) (resolution_for r i t).
Proof. keeps_all. Qed.
Lemma same_check_node x b n : preserves (same D V) (check_node x b n).
Proof. keeps_all. Qed.
Lemma same_close {A} r (a : res A) m rm :
  (forall i, preserves (same D V) (rm i)) -> preserves (same D V) (close_root r a m rm).
Proof. intros Hrm. unfold close_root, runs_save. keeps. Qed.
End Frames.
#[export] Hint Resolve same_append same_emit same_emit_node same_context same_start_run same_child_result
  same_snapshots same_load_frozen same_resolution_for same_check_node : py.

(** ** Advancing one execution *)
Section Advance.
Context `{Env} `{Digest} (D : Db) (X : WorkflowExecutionId) (L : list WorkflowNodeId).
Abbreviation Live := (live X L).

Lemma steps_persist_node nxs i n n' :
  nxs !! i = Some n -> nx_id n' = nx_id n -> child_known n' ->
  steps D (Live nxs) (persist_node n') (fun _ => Live (<[i := n']> nxs)).
Proof.
  intros Hn Hid Hc w Hw Hl. destruct (lv_stored _ _ _ _ Hl i n Hn) as (row & Hr & Hst & Hx).
  unfold persist_node, node_executions_update_status, bind, db, gets. cbn [executions_of snd] in Hr.
  rewrite Hid, Hr. destruct (bool_decide (nx_status row ∈ _)).
  - split; [done|]. cbn [save_row upd modify snd staged set_staged].
    replace (executions_of _) with ((executions_of (staged w)).1,
      <[nx_id n' := mkNodeExecution (nx_id row) (nx_workflow_execution_id row) (nx_workflow_node_id row)
                (nx_workflow_revision_id row) (nx_node_key row) (nx_target_agent_id row)
                (nx_target_agent_revision_id row) (nx_target_agent_revision_sha256 row) (nx_status n')
                (nx_created_at row) (nx_child_task_id n') (nx_child_run_id n') (nx_child_execution_id n')
                (nx_result_payload n') (nx_failure_code n') (nx_failure_message n') (nx_started_at n')
                (nx_completed_at n')]> (executions_of (staged w)).2) by (rewrite Hid; by destruct (staged w)).
    by eapply live_update.
  - destruct (bool_decide (nx_status row = nx_status n')) eqn:E; cbn; [|done].
    apply bool_decide_eq_true in E. unfold raise_if, raise, ret. destruct (negb (negb _)); [done|]. split; [done|].
    pose proof (live_update X L nxs _ i n n' row Hl Hn Hid E Hx (lv_children _ _ _ _ Hl _ _ Hr)) as Hu.
    rewrite (insert_id _ (nx_id n') row) in Hu by (by rewrite Hid). by destruct (executions_of (staged w)).
Qed.

Lemma steps_node_create nxs i n :
  nx_workflow_execution_id n = X -> i ∈ L -> child_known n ->
  steps D (Live nxs) (node_executions_create n) (fun _ => Live (<[i := n]> nxs)).
Proof.
  intros Hx Hi Hc w Hw Hl. unfold node_executions_create, add_row, bind, db, gets. cbn [fst snd].
  destruct (db_node_executions (staged w) !! nx_id n) eqn:E; [done|]. split; [done|].
  pose proof (live_add X L nxs _ i n Hl E Hx Hi Hc) as Hu. cbn. by destruct (staged w).
Qed.
Lemma steps_execution_create x :
  wx_id x = X -> steps D progress (executions_create x) (fun _ => Live ∅).
Proof.
  intros Hx w Hw [HC HP]. unfold executions_create, add_row, bind, db, gets. cbn [fst snd].
  destruct (db_executions (staged w) !! wx_id x) eqn:E; [done|]. split; [done|].
  destruct w as [? d ? ?]. destruct d. cbn in *. split.
  - exact HC.
  - intros y e Hne. cbn. rewrite lookup_insert_ne by congruence. intros He Hr.
    exact (HP y e He Hr).
  - intros i n Hn. by rewrite lookup_empty in Hn.
  - intros i j m n Hn. by rewrite lookup_empty in Hn.
  - intros i n Hn. by rewrite lookup_empty in Hn.
Qed.
(** Once [X] has ended, every execution is fine. *)
Lemma steps_persist_execution x nxs :
  wx_id x = X -> wx_status x <> XRUNNING ->
  steps D (Live nxs) (persist_execution x) (fun _ => progress).
Proof.
  intros Hx Hnr w Hw [Hc Ho _ _ _]. unfold persist_execution, executions_update_status, bind, db, gets.
  cbn [fst snd]. destruct (db_executions (staged w) !! wx_id x) as [row|] eqn:E; [|done].
  assert (Hdone : forall y e V, V.2 = (executions_of (staged w)).2 ->
            y <> X -> (executions_of (staged w)).1 !! y = Some e -> wx_status e = XRUNNING -> has_dispatched V y).
  { intros y e V HV Hne He Hr. unfold has_dispatched. rewrite HV. by apply (Ho y e). }
  destruct (bool_decide (wx_status row = XRUNNING)).
  - split; [done|]. split; [by destruct (staged w)|]. intros y e He Hr. destruct (decide (y = X)) as [->|Hne].
    + exfalso. revert He. cbn. destruct (staged w). cbn. rewrite Hx, lookup_insert_eq. intros [= <-].
      apply Hnr. by destruct row.
    + apply (Hdone y e); [by destruct (staged w)|done| |done].
      revert He. cbn. destruct (staged w). cbn. by rewrite lookup_insert_ne by congruence.
  - destruct (bool_decide (wx_status row = wx_status x)) eqn:Es; cbn; [|done].
    apply bool_decide_eq_true in Es. split; [done|]. split; [done|]. intros y e He Hr.
    destruct (decide (y = X)) as [->|Hne]; [|by apply (Hdone y e)].
    cbn in He. rewrite Hx in E. congruence.
Qed.

(** Persisting a node that made a transition, reporting it, and returning it *)
Lemma steps_moved nxs i n n' st ty t :
  nxs !! i = Some n -> moved st n n' ->
  steps D (Live nxs) (persist_node n' ;;; emit_node_event n' ty t ;;; ret n')
    (fun r => Live (<[i := r]> nxs)).
Proof.
  intros Hn (Hid & _ & Hc). eapply steps_bind; [by eapply steps_persist_node|]. intros []. s_skip.
  by apply steps_ret.
Qed.
Lemma steps_ret_same nxs i n : nxs !! i = Some n -> steps D (Live nxs) (ret n) (fun r => Live (<[i := r]> nxs)).
Proof. intros Hn. apply steps_ret. intros V. by rewrite insert_id. Qed.

Lemma steps_dispatch nxs i n node t :
  nxs !! i = Some n -> steps D (Live nxs) (dispatch_node n node t) (fun r => Live (<[i := r]> nxs)).
Proof.
  intros Hn. unfold dispatch_node. destruct (negb _); [by apply steps_ret_same|].
  s_skip. destruct a as [msg|].
  - s_know ltac:(apply (pure_call (NxBlock _ _ _))). intros [n' []] Hm. by eapply steps_moved.
  - do 4 s_skip. s_skip. destruct a3 as [tid rid]. do 2 s_skip.
    s_know ltac:(apply (pure_call (NxDispatch _ _ _ _))). intros [n' []] Hm. by eapply steps_moved.
Qed.

Lemma steps_schedule_node by_id preds t nxs i :
  steps D (Live nxs) (schedule_node by_id preds t nxs i) (fun p => Live p.1).
Proof.
  unfold schedule_node. s_know ltac:(apply yields_lift). intros n Hn%getitem_ok.
  destruct (negb _); [by apply steps_ret|]. s_skip. destruct (existsb _ _).
  - s_know ltac:(apply (pure_call (NxBlock _ _ _))). intros [n' []] (Hid & _ & Hc).
    eapply steps_bind; [by eapply steps_persist_node|]. intros []. s_skip. by apply steps_ret.
  - destruct (forallb _ _); [|by apply steps_ret]. s_skip.
    eapply steps_bind; [by apply steps_dispatch|]. intros n'. by apply steps_ret.
Qed.
Lemma steps_schedule_pass by_id preds t ids nxs :
  steps D (Live nxs) (schedule_pass by_id preds t ids nxs) (fun p => Live p.1).
Proof.
  revert nxs. induction ids as [|i ids IH]; intros nxs; cbn [schedule_pass]; [by apply steps_ret|].
  eapply steps_bind; [apply steps_schedule_node|]. intros [nxs1 c1].
  eapply steps_bind; [apply IH|]. intros [nxs2 c2]. by apply steps_ret.
Qed.
Lemma steps_schedule_loop fuel by_id preds t order nxs :
  steps D (Live nxs) (schedule_loop fuel by_id preds t order nxs)
    (fun r V => forall nxs', r = Some nxs' -> Live nxs' V).
Proof.
  revert nxs. induction fuel as [|fuel IH]; intros nxs; cbn [schedule_loop]; [by apply steps_ret|].
  eapply steps_bind; [apply steps_schedule_pass|]. intros [nxs' []]; [apply IH|].
  apply steps_ret. by intros V Hl ? [= <-].
Qed.
Lemma steps_fixed_point by_id preds t nxs :
  steps D (Live nxs) (schedule_to_fixed_point by_id preds t L nxs)
    (fun nxs' V => Live nxs' V /\ forall i, i ∈ L -> settled preds nxs' i).
Proof.
  apply (steps_also _ D); [|apply fixed_point_spec]. unfold schedule_to_fixed_point.
  eapply steps_bind; [apply steps_schedule_loop|]. intros [nxs'|]; [|apply steps_raise].
  apply steps_ret. auto.
Qed.
Lemma steps_dispatch_roots by_id preds t ids nxs :
  steps D (Live nxs) (dispatch_roots by_id preds t ids nxs) Live.
Proof.
  revert nxs. induction ids as [|i ids IH]; intros nxs; cbn [dispatch_roots]; [by apply steps_ret|].
  destruct (preds_of preds i); [|apply IH]. s_know ltac:(apply yields_lift). intros n Hn%getitem_ok.
  s_skip. eapply steps_bind; [by apply steps_dispatch|]. intros n'. apply IH.
Qed.
Lemma steps_create_nodes x rev agents t nodes acc :
  wx_id x = X -> (forall n, n ∈ nodes -> wn_id n ∈ L) ->
  steps D (Live acc) (create_node_executions x rev agents t nodes acc) Live.
Proof.
  intros Hx. revert acc. induction nodes as [|n nodes IH]; intros acc Hin; cbn [create_node_executions];
    [by apply steps_ret|].
  s_skip. s_skip. s_know ltac:(apply yields_lift). intros nx Hnx.
  eapply steps_bind.
  - apply (steps_node_create acc (wn_id n)); [|apply Hin; left|];
      (revert Hnx; unfold WorkflowNodeExecution_init; destruct (nx_validate _); cbn; by intros [= <-]).
  - intros []. apply IH. intros m Hm. apply Hin. by right.
Qed.

(** One child's outcome *)
Lemma steps_reconcile_child t nxs i n :
  nxs !! i = Some n -> steps D (Live nxs) (reconcile_child t n) (fun r => Live (<[i := r]> nxs)).
Proof.
  intros Hn. unfold reconcile_child. destruct (negb _); [by apply steps_ret_same|].
  s_skip. s_skip. destruct a0 as [child|]; [|by apply steps_ret_same].
  destruct (run_status child); try by apply steps_ret_same.
  - s_skip. s_know ltac:(apply (pure_call (NxSucceed _ _))). intros [n' []] Hm. by eapply steps_moved.
  - destruct (failure_from_child child). s_know ltac:(apply (pure_call (NxFail _ _ _))).
    intros [n' []] Hm. by eapply steps_moved.
  - s_know ltac:(apply (pure_call (NxCancel _))). intros [n' []] Hm. by eapply steps_moved.
Qed.
Lemma steps_reconcile_children t nodes nxs :
  NoDup (map nx_workflow_node_id nodes) ->
  (forall n, n ∈ nodes -> nxs !! nx_workflow_node_id n = Some n) ->
  steps D (Live nxs) (reconcile_children t nodes nxs) Live.
Proof.
  revert nxs. induction nodes as [|n nodes IH]; intros nxs Hnd Hin; cbn [reconcile_children];
    [by apply steps_ret|]. apply NoDup_cons in Hnd as [Hn Hnd].
  eapply steps_bind; [apply steps_reconcile_child, Hin; left|]. intros n'. apply IH; [done|].
  intros m Hm. rewrite lookup_insert_ne; [apply Hin; by right|].
  intros Heq. apply Hn. rewrite Heq. by apply list_elem_of_fmap_2.
Qed.

(** *** The end of the transaction *)

(** A settled graph either still has a dispatched node, or is finished. *)
Lemma live_progress edges nxs V :
  acyclic (map edge_pair edges) -> L <> [] -> Live nxs V ->
  (forall i, i ∈ L -> settled (predecessors edges) nxs i) ->
  match values_of L nxs with [] => true | _ => false end
    || existsb (fun n => negb (nx_terminal (nx_status n))) (values_of L nxs) = true -> progress V.
Proof.
  intros Ha HL Hlive Hs Hopen.
  assert (Hv : forall n, n ∈ values_of L nxs <-> exists i, nxs !! i = Some n).
  { intros n. unfold values_of. rewrite list_elem_of_omap. split; [intros (i & _ & Hi); by exists i|].
    intros [i Hi]. exists i. split; [by eapply lv_dom|done]. }
  destruct (existsb (fun n => bool_decide (nx_status n = NDISPATCHED)) (values_of L nxs)) eqn:E.
  - apply existsb_exists in E as (n & Hn & Hd%bool_decide_eq_true).
    apply list_elem_of_In, Hv in Hn as [i Hi]. split; [by eapply lv_children|]. intros x e He Hr. destruct (decide (x = X)) as [->|Hne].
    + destruct (lv_stored _ _ _ _ Hlive i n Hi) as (row & Hrow & Hst & Hx).
      exists (nx_id n), row. by rewrite Hst.
    + by eapply lv_others.
  - exfalso. assert (Hnd : forall i n, nxs !! i = Some n -> nx_status n <> NDISPATCHED).
    { intros i n Hi Hd. rewrite (proj2 (existsb_exists _ _)) in E; [done|]. exists n.
      split; [apply list_elem_of_In, Hv; by exists i|by apply bool_decide_eq_true]. }
    pose proof (settled_finished edges L nxs Ha (lv_dom _ _ _ _ Hlive) Hs Hnd) as Hterm.
    destruct (values_of L nxs) as [|n0 l] eqn:Ev.
    + destruct L as [|i0 L']; [done|]. destruct (Hs i0 (list_elem_of_here _ _)) as (n & Hn & _).
      assert (Hin : n ∈ []) by (apply Hv; by exists i0). by apply not_elem_of_nil in Hin.
    + cbn [orb] in Hopen. apply existsb_exists in Hopen as (n & Hn & Ht).
      apply list_elem_of_In, Hv in Hn as [i Hi]. by rewrite (Hterm i n Hi) in Ht.
Qed.

Lemma wx_exec_ended o x x' : wx_exec o x = (Ok tt, x') -> wx_id x' = wx_id x /\ wx_status x' <> XRUNNING.
Proof.
  destruct x as [? ? ? ? ? s ? ? ? ?].
  destruct o; cbv [wx_exec wx_succeed wx_fail wx_cancel wx_require_running bind get gets modify lift raise_if ret raise];
    intros E; repeat split_match; by simplify_eq.
Qed.
Lemma steps_finish edges nxs x t rm :
  acyclic (map edge_pair edges) -> L <> [] -> wx_id x = X ->
  (forall r V, preserves (same D V) (rm r)) ->
  steps D (fun V => Live nxs V /\ forall i, i ∈ L -> settled (predecessors edges) nxs i)
    (finish_if_terminal x (values_of L nxs) t rm) (fun _ => progress).
Proof.
  intros Ha HL Hx Hrm. apply steps_fact. intros Hs. unfold finish_if_terminal. destruct (_ || _) eqn:E.
  { apply steps_ret. intros V Hl. by eapply live_progress. }
  s_skip. s_skip.
  assert (Hend : forall A o ty p (r : option Run) (arg : res A) m x', wx_exec o x = (Ok tt, x') ->
    steps D (Live nxs) (persist_execution x' ;;; emit_workflow_event x' ty p t ;;;
      close_root r arg m rm ;;; ret x') (fun _ => progress)).
  { intros A o ty p r arg m x' [Hid Hst]%wx_exec_ended.
    eapply steps_bind; [apply steps_persist_execution; [congruence|done]|]. intros []. s_skip.
    apply steps_frame; [intros V; by apply same_close|]. intros []. by apply steps_ret. }
  assert (Hcall : forall o, pure (call (wx_exec o) x) (fun p => wx_exec o x = (Ok tt, p.1))).
  { intros o. eapply yields_mono; [apply yields_call|]. intros [x' []] Ex. exact Ex. }
  destruct (forallb _ _); [|destruct (ending _) as [code message|]].
  - s_skip. destruct a1 as [wf rev]. s_know ltac:(apply (Hcall (WxSucceed _))). intros [x' []] Hc.
    by eapply Hend.
  - s_know ltac:(apply (Hcall (WxFail _ _ _))). intros [x' []] Hc. by eapply Hend.
  - s_know ltac:(apply (Hcall (WxCancel _ _))). intros [x' []] Hc. by eapply Hend.
Qed.
End Advance.

(** ** The two use cases of the engine *)

Section EngineUseCases.
Context `{Env} `{Digest} (D : Db) (HD : progress (executions_of D)).

(** A revision that passed [_validate_revision_integrity] is a non-empty DAG. *)
Lemma frozen_revision_dag i r e :
  pure (load_frozen_revision i r e)
    (fun p => acyclic (map edge_pair (wr_edges p.2)) /\ wr_nodes p.2 <> []).
Proof.
  unfold load_frozen_revision. do 3 p_skip. eapply pure_bind; [apply yields_lift|]. intros dg Hdg.
  p_skip. apply pure_ret. cbn [snd]. revert Hdg. unfold validate_revision_integrity.
  destruct (negb _); [done|].
  destruct (validate_workflow_revision_ownership _ _ _) as [[]|]; cbn [res_bind]; [|done].
  destruct (validate_workflow_dag _ _) as [[]|] eqn:Ed; cbn [res_bind]; [|done]. intros _.
  apply dag_accepts in Ed. unfold dag_spec in Ed. tauto.
Qed.

Lemma bootstrap_lands reg root_run i c : lands D progress (bootstrap reg root_run i c).
Proof.
  unfold bootstrap. do 6 l_skip.
  l_know ltac:(apply frozen_revision_dag). intros [wf rev] [Ha Hne]. cbn [snd] in Ha, Hne.
  set (nodes := sorted_nodes (wr_nodes rev)).
  assert (Hperm : nodes ≡ₚ wr_nodes rev) by apply merge_sort_Permutation.
  do 4 l_skip. l_know ltac:(apply yields_lift). intros x Hx.
  assert (Hxid : wx_id x = a8).
  { revert Hx. unfold WorkflowExecution_init. destruct (wx_validate _); cbn; by intros [= <-]. }
  eapply lands_bind; [assumption|by apply steps_execution_create|]. intros []. l_skip.
  eapply lands_bind; [assumption|apply (steps_create_nodes _ _ (map wn_id nodes)); [done|]|].
  { intros n Hn. by apply list_elem_of_fmap_2. }
  intros nxs. eapply lands_bind; [assumption|apply steps_dispatch_roots|]. intros nxs'.
  eapply lands_bind; [assumption|apply steps_fixed_point|]. intros nxs''. l_know ltac:(apply pure_any). intros [root' []] _.
  l_skip. eapply lands_bind; [assumption| |].
  - eapply steps_finish; [exact Ha| |exact Hxid|].
    + intros En%map_eq_nil. apply Hne. rewrite En in Hperm. by apply Permutation_nil_l in Hperm.
    + intros r V. keeps_all.
  - intros x'. l_skip. apply lands_commit; [done|auto].
Qed.
Lemma start_execution_lands reg r i c w :
  durable w = D -> progress (executions_of (durable (snd (StartWorkflowExecution reg r i c w)))).
Proof.
  intros Hw. apply (lands_with_uow _ _ D progress); [done|done|].
  do 2 l_skip. destruct a0 as [|x []]; [apply bootstrap_lands| |by apply lands_raise].
  unfold replay_start. do 7 l_skip. apply lands_commit; [done|auto].
Qed.

(** The stored nodes of an execution are the ones in hand. *)
Lemma live_stored X nodes V :
  progress V -> (forall n, n ∈ nodes -> V.2 !! nx_id n = Some n /\ nx_workflow_execution_id n = X) ->
  live X (map nx_workflow_node_id nodes) (dict_by nx_workflow_node_id nodes) V.
Proof.
  intros [HC HP] Hn. split; [done|..].
  - intros x e _ He Hr. by apply (HP x e).
  - intros i n [Hin _]%dict_by_lookup. destruct (Hn n Hin). by exists n.
  - intros i j m n [Hm <-]%dict_by_lookup [Hin <-]%dict_by_lookup Heq.
    destruct (Hn m Hm) as [Hsm _], (Hn n Hin) as [Hsn _]. rewrite Heq in Hsm. congruence.
  - intros i n [Hin <-]%dict_by_lookup. by apply list_elem_of_fmap_2.
Qed.

(** The check that compares the stored nodes with the revision's *)
Lemma nodes_cover (nodes : list WorkflowNodeExecution) (defs : list WorkflowNode) :
  let by_id := dict_by wn_id defs in
  defs <> [] ->
  negb (len nodes =? Z.of_nat (size by_id))
    || negb (bool_decide (list_to_set (C := gset WorkflowNodeId) (map nx_workflow_node_id nodes) = dom by_id))
    = false ->
  NoDup (map nx_workflow_node_id nodes) /\ nodes <> [].
Proof.
  intros by_id Hd [Hlen Hset]%orb_false_elim.
  apply negb_false_iff, bool_decide_eq_true in Hset. apply negb_false_iff, Z.eqb_eq in Hlen.
  split.
  - apply size_set_NoDup. rewrite Hset, size_dom, length_map. unfold len in Hlen. lia.
  - intros ->. destruct defs as [|d defs]; [done|].
    pose proof (dict_by_dom wn_id (d :: defs) d (list_elem_of_here _ _)) as Hin. fold by_id in Hin.
    rewrite <- Hset in Hin. by apply not_elem_of_empty in Hin.
Qed.

Lemma reconcile_execution_lands i w :
  durable w = D -> (forall k n, db_node_executions D !! k = Some n -> nx_id n = k) ->
  progress (executions_of (durable (snd (ReconcileWorkflowExecution i w)))).
Proof.
  intros Hw Hkeys. apply (lands_with_uow _ _ D (fun V => V = executions_of D)); [done|done|].
  do 2 l_skip. rename a0 into x.
  eapply (lands_bind _ _ D HD _ _ _ (fun nodes V => V = executions_of D /\ forall n, n ∈ nodes ->
    V.2 !! nx_id n = Some n /\ nx_workflow_execution_id n = wx_id x)).
  { apply steps_db. intros d Hd. split; [done|]. intros n. unfold nodes_of_execution.
    rewrite merge_sort_Permutation, list_elem_of_filter. intros [Hx%bool_decide_eq_true Hin]. split; [|done].
    apply list_elem_of_fmap in Hin as ([k n'] & -> & Hk%elem_of_map_to_list). cbn [snd] in *.
    pose proof (f_equal snd Hd) as Hd2. cbn in Hd2 |- *. rewrite Hd2 in *.
    by rewrite (Hkeys k n'). }
  intros nodes. l_skip. l_skip.
  l_know ltac:(apply frozen_revision_dag). intros [wf rev] [Ha Hne]. cbn [snd] in Ha, Hne.
  l_know ltac:(apply yields_raise_if). intros [] Hcov. apply nodes_cover in Hcov as [Hnd Hnodes]; [|done].
  do 3 l_skip. destruct (bool_decide (wx_status x = XRUNNING)).
  - eapply lands_bind; [assumption| |intros nxs; apply lands_commit; [done|]; intros V HV; exact HV].
    unfold advance. 
    eapply steps_bind. 
    { eapply steps_mono; [apply steps_reconcile_children| |intros ? ? HQ; exact HQ].
      - by rewrite merge_sort_Permutation.
      - intros n. rewrite merge_sort_Permutation. by apply dict_by_NoDup.
      - intros V [HV Hst]. apply live_stored; [by rewrite HV|exact Hst]. }
    intros nxs. eapply steps_bind; [apply steps_fixed_point|]. intros nxs'.
    eapply steps_bind; [eapply steps_finish; [exact Ha| |reflexivity|]|].
    + by intros ?%map_eq_nil.
    + intros r V. keeps_all.
    + intros x'. by apply steps_ret.
  - l_skip. apply lands_commit; [done|]. intros V [-> _]. exact HD.
Qed.
End EngineUseCases.

(** ** Properties *)

(** Executions progress in every reachable world. *)
Lemma reachable_progress `{Env} `{FloatPow} `{Digest} `{Calendar} w :
  reachable w -> winv (logs_ok (fun V => progress V.1.1.1)) w.
Proof.
  intros Hr. enough (winv (logs_ok (fun V => progress V.1.1.1)) w /\ reachable w) by tauto.
  revert w Hr. apply reach_invariant.
  { intros w ->. split; [|by apply reach_init]. split; split; try (by repeat split); split; try done; by intros ? ? ?. }
  intros o w [[[Hl HP] Hs] Hr]. split; [|by apply reach_op].
  destruct (engine_op o) eqn:Eo;
    [|apply logs_app_exec; [congruence|auto..|exact (conj (conj Hl HP) Hs)]].
  assert (Hl' : winv (logs_ok (fun _ => True)) (snd (app_exec o w))).
  { apply logs_app_exec; [done..|]. split; [by split|split; [apply Hs|done]]. }
  assert (Hp : progress (executions_of (durable (snd (app_exec o w))))).
  { pose proof (reachable_rows_valid w Hr) as Hv.
    destruct o; try done; cbn [app_exec]; unfold discard, bind.
    - pose proof (start_execution_lands (durable w) HP reg root_run w0 c w eq_refl) as Hp.
      by destruct (StartWorkflowExecution _ _ _ _ w) as [[]].
    - pose proof (reconcile_execution_lands (durable w) HP x w eq_refl (fun k n Hn => proj1 (Hv TbNode k n Hn))) as Hp.
      by destruct (ReconcileWorkflowExecution _ w) as [[]]. }
  pose proof (reachable_synced _ (reach_op _ _ o w Hr)) as Hsync. unfold synced in Hsync.
  split; [|rewrite Hsync]; (split; [apply Hl'|exact Hp]).
Qed.

(** C14: no history of use cases strands a workflow execution: every running
    one has a dispatched node with a known child, and as soon as the latest run
    of that child's lineage is terminal the execution is among those
    [list_recoverable] selects for reconciliation. *)
Theorem no_execution_stranded `{Env} `{FloatPow} `{Digest} `{Calendar} w x e :
  reachable w -> db_executions (durable w) !! x = Some e -> wx_status e = XRUNNING ->
  exists i n child, db_node_executions (durable w) !! i = Some n /\
    nx_workflow_execution_id n = x /\ nx_status n = NDISPATCHED /\
    nx_child_execution_id n = Some child /\
    forall r, latest_of_execution (durable w) child = Some r -> run_terminal (run_status r) = true ->
      recoverable (durable w) e = true.
Proof.
  intros Hr He Hrun. destruct (reachable_progress w Hr) as [[_ [Hc Hp]] _].
  destruct (Hp x e He Hrun) as (i & n & Hn & Hx & Hd). destruct (Hc i n Hn Hd) as [child Hchild].
  exists i, n, child. split_and!; try done. intros r Hlatest Ht. unfold recoverable.
  destruct (reachable_rows_valid w Hr TbExecution x e He) as [Hid _].
  rewrite bool_decide_eq_true_2 by done. apply existsb_exists. exists n. split.
  - apply list_elem_of_In, list_elem_of_fmap. exists (i, n). by rewrite elem_of_map_to_list.
  - rewrite Hchild, Hlatest, Ht, Hx. cbn [tb_key] in Hid. unfold id_eqb.
    by rewrite !bool_decide_eq_true_2.
Qed.

(** A concrete workflow history: two nodes in a row, [gather] before [write],
    executed under the claimed root run. *)
Definition uuid_of (n : Z) : str := u "00000000-0000-4000-8000-" ++ pad 12 n.
Definition wf_env : Env :=
  {| uuid4 := fun n => uuid_of (Z.of_nat n); clock_at := fun n => 1000 + Z.of_nat n |}.
Definition wid {k} (n : Z) : Id k := mkId (uuid_of n).
Definition wf_registry : BrainRuntimeRegistry := [u "claude_cli"].
Definition wf_ops : list app_op :=
  [OpCreateTask (u "report") (u ""); OpStartRun (wid 0);
   OpCreateAgent (u "writer") (u "Writer") (u "writes");
   OpCreateAgentRevision wf_registry (wid 3) (u "write well") (u "claude_cli") (PyDict []) AS_OPERATOR;
   OpActivateAgentRevision (wid 3) (wid 4);
   OpCreateWorkflow (u "reporting") (u "Reporting") (u "two steps");
   OpCreateWorkflowRevision (wid 5)
     [mkNodeInput (u "gather") (uuid_of 3) (u "gather facts") (PyDict []) (u "facts");
      mkNodeInput (u "write") (uuid_of 3) (u "write it up") (PyDict []) (u "a report")]
     [mkEdgeInput (u "gather") (u "write")] WS_OPERATOR;
   OpActivateWorkflowRevision (wid 5) (wid 6);
   OpBindTaskWorkflow (wid 0) (wid 5);
   OpClaimNextRun (u "w1") 1000000 5].
Definition wf_world_at (ops : list app_op) : World :=
  @run_history wf_env toy_pow toy_digest toy_calendar ops empty_world.

Definition wf_claimed : World := wf_world_at wf_ops.
Definition root_claim : Claim :=
  match db_queue (durable wf_claimed) !! wid 1 with
  | Some w => mkClaim (u "w1") (default [] (wi_claim_token w)) (wi_claim_generation w)
  | None => mkClaim [] [] 0
  end.
Definition wf_start : app_op := OpStartWorkflowExecution wf_registry (wid 1) (wid 5) root_claim.
(** The execution and the node executions of the history *)
Definition wf_started : World := wf_world_at (wf_ops ++ [wf_start]).

Lemma wf_started_reachable : @reachable wf_env toy_pow toy_digest toy_calendar wf_started.
Proof. apply run_history_reachable. by apply reach_init. Qed.

(** The started execution waits for [gather]; [write] is still pending. *)
Lemma no_execution_stranded_witness :
  exists e i n child, db_executions (durable wf_started) !! wid 13 = Some e /\ wx_status e = XRUNNING /\
    db_node_executions (durable wf_started) !! i = Some n /\ nx_workflow_execution_id n = wid 13 /\
    nx_status n = NDISPATCHED /\ nx_child_execution_id n = Some child.
Proof.
  assert (He : exists e, db_executions (durable wf_started) !! wid 13 = Some e /\ wx_status e = XRUNNING).
  { destruct (db_executions (durable wf_started) !! wid 13) as [e|] eqn:E; revert E; vm_compute;
      [intros [= <-]; eexists; by split|congruence]. }
  destruct He as (e & He & Hrun).
  destruct (@no_execution_stranded wf_env toy_pow toy_digest toy_calendar wf_started (wid 13) e
    wf_started_reachable He Hrun) as (i & n & child & Hn & Hx & Hd & Hc & _).
  exists e, i, n, child.
  exact (conj He (conj Hrun (conj Hn (conj Hx (conj Hd Hc))))).
Defined.
