(* ===== verification/DeliveryHistory.v ===== *)
(** * The ledger of a delivery tells the truth

    The attempts of a delivery are its ledger: one row for the crossing of the
    dispatch boundary, open while the delivery is being sent and closed with the
    outcome of the delivery.  The invariant [ledger] holds after every history
    of use cases, and deliveries only move forward ([goes]). *)

From S2P Require Import Prelude Values RunEntity EventEntity ScheduleEntity ScheduleDelivery Canonical.
From S2P Require Import DeliveryEntity RetryPolicy WorkQueue SkillEntity ConversationEntity Tables Store WorkflowStore DeliveryStore.
From S2P Require Import Transactions Lifecycle WorkflowEngine DeliveryUseCases ScheduleUseCases System EventLogs.
From S2P Require Import RowHistory.

Open Scope Z_scope.

Abbreviation steps := (Transactions.steps deliveries_of).
Abbreviation same := (Transactions.same deliveries_of).
#[export] Instance deliveries_view : View deliveries_of.
Proof. by intros q []. Qed.

(** ** The ledger *)
Section Ledger.
Context `{Digest}.

Definition od_sealed (x : OutboundDelivery) : Prop := body_digest (od_body x) = Ok (od_body_sha256 x).
(** The outcome a delivery past the boundary shows in its attempt *)
Definition ledger_outcome (s : DeliveryStatus) : option DeliveryAttemptOutcome :=
  match s with DSENDING => Some AO_IN_PROGRESS | _ => attempt_outcome s end.
Definition agrees (x : OutboundDelivery) (a : DeliveryAttempt) : Prop :=
  od_dispatch_started_at x = Some (da_started_at a) /\ da_claim_generation a = od_claim_generation x /\
  ledger_outcome (od_status x) = Some (da_outcome a) /\ DeliveryAttempt_init a = Ok a.

Record ledger (V : Deliveries) : Prop := {
  lg_row : forall i x, V.1 !! i = Some x -> od_id x = i /\ od_shape x /\ od_sealed x;
  lg_attempt : forall k a, V.2 !! k = Some a ->
    da_id a = k /\ exists x, V.1 !! da_delivery_id a = Some x /\ agrees x a;
  lg_crossed : forall i x t, V.1 !! i = Some x -> od_dispatch_started_at x = Some t ->
    exists k a, V.2 !! k = Some a /\ da_delivery_id a = i;
  lg_unique : forall k k' a a', V.2 !! k = Some a -> V.2 !! k' = Some a' ->
    da_delivery_id a = da_delivery_id a' -> k = k' }.

(** ** Forward movement *)
Definition later (x0 x : OutboundDelivery) : Prop :=
  od_authority x = od_authority x0 /\ od_claim_generation x0 <= od_claim_generation x /\
  (forall t, od_dispatch_started_at x0 = Some t -> od_dispatch_started_at x = Some t) /\
  (delivery_terminal (od_status x0) = true -> x = x0).
Definition attempt_later (a0 a : DeliveryAttempt) : Prop :=
  a = a0 \/ da_outcome a0 = AO_IN_PROGRESS /\ da_outcome a <> AO_IN_PROGRESS /\ da_id a = da_id a0 /\
            da_delivery_id a = da_delivery_id a0 /\ da_claim_generation a = da_claim_generation a0 /\
            da_started_at a = da_started_at a0.
Definition goes (V0 V : Deliveries) : Prop :=
  (forall i x0, V0.1 !! i = Some x0 -> exists x, V.1 !! i = Some x /\ later x0 x) /\
  (forall k a0, V0.2 !! k = Some a0 -> exists a, V.2 !! k = Some a /\ attempt_later a0 a).

#[export] Instance later_preorder : PreOrder later.
Proof.
  split; [by intros x|]. intros x y z (A1 & G1 & M1 & T1) (A2 & G2 & M2 & T2). split_and!.
  - congruence.
  - lia.
  - auto.
  - intros Ht. specialize (T1 Ht). subst y. auto.
Qed.
#[export] Instance attempt_later_preorder : PreOrder attempt_later.
Proof.
  split; [by left|]. intros a b c [->|(I1 & N1 & E1)] [->|(I2 & N2 & E2)].
  - by left.
  - by right.
  - by right.
  - congruence.
Qed.
#[export] Instance goes_preorder : PreOrder goes.
Proof.
  split.
  - intros V. split; intros i x Hx; exists x; (split; [done|reflexivity]).
  - intros U V W [D1 A1] [D2 A2]. split.
    + intros i x Hx. destruct (D1 i x Hx) as (y & Hy & Hl). destruct (D2 i y Hy) as (z & Hz & Hl').
      exists z. split; [done|]. by etrans.
    + intros i x Hx. destruct (A1 i x Hx) as (y & Hy & Hl). destruct (A2 i y Hy) as (z & Hz & Hl').
      exists z. split; [done|]. by etrans.
Qed.

(** *** Moves that keep the ledger *)
Lemma ledger_insert V i x x' :
  ledger V -> V.1 !! i = Some x -> od_id x' = i -> od_shape x' -> od_sealed x' ->
  od_dispatch_started_at x = None -> od_dispatch_started_at x' = None ->
  ledger (<[i := x']> V.1, V.2).
Proof.
  intros [Hr Ha Hc Hu] Hx Hid Hs Hd Hm Hm'. split; cbn [fst snd].
  - intros j y Hy. destruct (decide (i = j)) as [<-|Hne].
    + rewrite lookup_insert_eq in Hy. by injection Hy as <-.
    + rewrite lookup_insert_ne in Hy by done. by apply Hr.
  - intros k a Hk. destruct (Ha k a Hk) as (Hka & y & Hy & Hag). split; [done|]. exists y.
    rewrite lookup_insert_ne; [done|]. intros ->. destruct Hag as [Hag _]. congruence.
  - intros j y t Hy Ht. destruct (decide (i = j)) as [<-|Hne].
    + rewrite lookup_insert_eq in Hy. congruence.
    + rewrite lookup_insert_ne in Hy by done. by eapply Hc.
  - exact Hu.
Qed.
Lemma ledger_new V i x :
  ledger V -> V.1 !! i = None -> od_id x = i -> od_shape x -> od_sealed x ->
  od_dispatch_started_at x = None -> ledger (<[i := x]> V.1, V.2).
Proof.
  intros [Hr Ha Hc Hu] Hx Hid Hs Hd Hm. split; cbn [fst snd].
  - intros j y Hy. destruct (decide (i = j)) as [<-|Hne].
    + rewrite lookup_insert_eq in Hy. by injection Hy as <-.
    + rewrite lookup_insert_ne in Hy by done. by apply Hr.
  - intros k a Hk. destruct (Ha k a Hk) as (Hka & y & Hy & Hag). split; [done|]. exists y.
    rewrite lookup_insert_ne; [done|]. congruence.
  - intros j y t Hy Ht. destruct (decide (i = j)) as [<-|Hne].
    + rewrite lookup_insert_eq in Hy. congruence.
    + rewrite lookup_insert_ne in Hy by done. by eapply Hc.
  - exact Hu.
Qed.
(** The delivery and its only attempt change together. *)
Lemma ledger_both V i x k a' x' :
  ledger V -> V.1 !! i = Some x -> od_id x' = i -> od_shape x' -> od_sealed x' ->
  da_id a' = k -> da_delivery_id a' = i -> agrees x' a' ->
  (forall k' a, V.2 !! k' = Some a -> da_delivery_id a = i -> k' = k) ->
  (forall a, V.2 !! k = Some a -> da_delivery_id a = i) ->
  ledger (<[i := x']> V.1, <[k := a']> V.2).
Proof.
  intros [Hr Ha Hc Hu] Hx Hid Hs Hd Hka Hda Hag Honly Hself. split; cbn [fst snd].
  - intros j y Hy. destruct (decide (i = j)) as [<-|Hne].
    + rewrite lookup_insert_eq in Hy. by injection Hy as <-.
    + rewrite lookup_insert_ne in Hy by done. by apply Hr.
  - intros k' a Hk'. destruct (decide (k = k')) as [<-|Hne].
    + rewrite lookup_insert_eq in Hk'. injection Hk' as <-. split; [done|]. exists x'.
      rewrite Hda. by rewrite lookup_insert_eq.
    + rewrite lookup_insert_ne in Hk' by done. destruct (Ha k' a Hk') as (Hk2 & y & Hy & Hay).
      split; [done|]. exists y. rewrite lookup_insert_ne; [done|]. intros He. apply Hne. symmetry. by eapply Honly.
  - intros j y t Hy Ht. destruct (decide (i = j)) as [<-|Hne].
    + exists k, a'. by rewrite lookup_insert_eq.
    + rewrite lookup_insert_ne in Hy by done. destruct (Hc j y t Hy Ht) as (k' & a & Hk' & Hja).
      exists k', a. rewrite lookup_insert_ne; [done|]. intros <-. apply Hne. rewrite <- Hja. symmetry. by apply Hself.
  - intros k1 k2 a1 a2 H1 H2 He.
    destruct (decide (k = k1)) as [<-|N1], (decide (k = k2)) as [<-|N2]; try done;
      rewrite ?lookup_insert_eq in H1; rewrite ?lookup_insert_eq in H2;
      rewrite ?lookup_insert_ne in H1 by done; rewrite ?lookup_insert_ne in H2 by done.
    + injection H1 as <-. symmetry. apply (Honly k2 a2 H2). congruence.
    + injection H2 as <-. apply (Honly k1 a1 H1). congruence.
    + by eapply Hu.
Qed.

Lemma goes_insert V i x x' : V.1 !! i = Some x -> later x x' -> goes V (<[i := x']> V.1, V.2).
Proof.
  intros Hx Hl. split; [|intros k a Hk; exists a; by split].
  intros j y Hy. destruct (decide (i = j)) as [<-|Hne].
  - exists x'. cbn [fst]. rewrite lookup_insert_eq. split; [done|]. by replace y with x by congruence.
  - exists y. cbn [fst]. rewrite lookup_insert_ne by done. by split.
Qed.
Lemma goes_new V i x : V.1 !! i = None -> goes V (<[i := x]> V.1, V.2).
Proof.
  intros Hx. split; [|intros k a Hk; exists a; by split].
  intros j y Hy. exists y. cbn [fst]. rewrite lookup_insert_ne by congruence. by split.
Qed.
Lemma goes_attempt V k a :
  (forall a0, V.2 !! k = Some a0 -> attempt_later a0 a) -> goes V (V.1, <[k := a]> V.2).
Proof.
  intros Ha. split; [intros i x Hx; exists x; by split|]. intros k' a' Hk'.
  destruct (decide (k = k')) as [<-|Hne].
  - exists a. cbn [snd]. rewrite lookup_insert_eq. auto.
  - exists a'. cbn [snd]. rewrite lookup_insert_ne by done. split; [done|reflexivity].
Qed.
Lemma goes_both V i x x' k a :
  V.1 !! i = Some x -> later x x' -> (forall a0, V.2 !! k = Some a0 -> attempt_later a0 a) ->
  goes V (<[i := x']> V.1, <[k := a]> V.2).
Proof.
  intros Hx Hl Ha. etrans; [by eapply goes_insert|]. by apply (goes_attempt (_, _)).
Qed.
End Ledger.

(** ** The guarded writes, one row at a time *)
Section Writes.
Context `{Digest}.

(** A write of a delivery that has not crossed the boundary *)
Record pre_write (x x' : OutboundDelivery) : Prop := {
  pw_shape : od_shape x'; pw_later : later x x'; pw_id : od_id x' = od_id x;
  pw_sealed : od_sealed x -> od_sealed x'; pw_before : od_dispatch_started_at x = None;
  pw_after : od_dispatch_started_at x' = None }.
(** A write of one that has *)
Record post_write (x x' : OutboundDelivery) : Prop := {
  qw_shape : od_shape x'; qw_later : later x x'; qw_id : od_id x' = od_id x;
  qw_sealed : od_sealed x -> od_sealed x';
  qw_crossed : od_dispatch_started_at x' = od_dispatch_started_at x;
  qw_generation : od_claim_generation x' = od_claim_generation x }.

Lemma authority_sealed x x' : od_authority x' = od_authority x -> od_id x' = od_id x /\ (od_sealed x -> od_sealed x').
Proof. unfold od_authority, od_sealed. intros E. simplify_eq. split; [done|congruence]. Qed.

Lemma claim_write w k t e x :
  delivery_due t x = true -> od_shape x -> pre_write x (claim_row w k t e x).
Proof.
  destruct x as [? ? ? ? ? ? ? ? ? ? s ? ? ? ? ? ? ? ? ? ? ? ? ds]. unfold delivery_due.
  intros [Hq _]%andb_true_iff Hs. apply bool_decide_eq_true in Hq. cbn in Hq. subst s.
  unfold od_shape in Hs. cbn -[Z.lt Z.le] in Hs. destruct_and?. destruct ds; [done|].
  split; try done; unfold od_shape, later, claim_row; cbn -[Z.lt Z.le]; split_and!; try done; lia.
Qed.
Lemma requeue_write t a x :
  od_status x = DSENDING -> od_dispatch_started_at x = None -> od_shape x ->
  pre_write x (set_od_updated_at t (unclaim (set_od_available_at a (set_od_status DQUEUED x)))).
Proof.
  destruct x as [? ? ? ? ? ? ? ? ? ? s ? ? ? ? ? ? ? ? ? ? ? ? ds]. cbn. intros -> -> Hs.
  unfold od_shape in Hs. cbn -[Z.lt Z.le] in Hs. destruct_and?.
  split; try done; unfold od_shape, later; cbn -[Z.lt Z.le]; split_and!; try done; lia.
Qed.
Lemma fail_write t c m x :
  od_status x = DSENDING -> od_dispatch_started_at x = None -> od_shape x ->
  pre_write x (end_expired DFAILED t c m x).
Proof.
  destruct x as [? ? ? ? ? ? ? ? ? ? s ? ? ? ? ? ? ? ? ? ? ? ? ds]. cbn. intros -> -> Hs.
  unfold od_shape in Hs. cbn -[Z.lt Z.le] in Hs. destruct_and?.
  split; try done; unfold od_shape, later; cbn -[Z.lt Z.le]; split_and!; try done; lia.
Qed.
Lemma park_write t c m x :
  od_status x = DSENDING -> od_shape x -> post_write x (end_expired DAMBIGUOUS t c m x).
Proof.
  destruct x as [? ? ? ? ? ? ? ? ? ? s ? ? ? ? ? ? ? ? ? ? ? ? ds]. cbn. intros -> Hs.
  unfold od_shape in Hs. cbn -[Z.lt Z.le] in Hs. destruct_and?.
  split; try done; unfold od_shape, later; cbn -[Z.lt Z.le]; split_and!; try done; lia.
Qed.
(** Crossing the boundary *)
Lemma mark_write t x :
  od_status x = DSENDING -> od_dispatch_started_at x = None -> od_shape x ->
  let x' := set_od_updated_at t (set_od_dispatch_started_at (Some t) x) in
  od_shape x' /\ later x x' /\ od_id x' = od_id x /\ (od_sealed x -> od_sealed x') /\ 0 < od_claim_generation x'.
Proof.
  destruct x as [? ? ? ? ? ? ? ? ? ? s ? ? ? ? ? ? ? ? ? ? ? ? ds]. cbn. intros -> -> Hs.
  unfold od_shape in Hs. cbn -[Z.lt Z.le] in Hs. destruct_and?.
  unfold od_shape, later; cbn -[Z.lt Z.le]; split_and!; try done; lia.
Qed.

(** Persisting an outcome writes exactly what the aggregate decided. *)
Definition outcome_op (o : DeliveryOutcome) (t : Z) : od_op :=
  match o with
  | OutDeliver p => OdDeliver (utc t) p | OutFail c m => OdFail (utc t) c m
  | OutAmbiguous c m => OdMarkAmbiguous (utc t) c m | OutRouteAmbiguous c m => OdMarkRouteAmbiguous (utc t) c m
  end.
Lemma outcome_is_op o t : outcome_transition o t = od_exec (outcome_op o t).
Proof. by destruct o. Qed.
Lemma outcome_lifecycle o t x y :
  outcome_transition o t x = (Ok tt, y) ->
  with_lifecycle y x = y /\ od_status x = DSENDING /\ od_dispatch_started_at y = od_dispatch_started_at x /\
  od_claim_generation y = od_claim_generation x /\ od_status y <> DQUEUED /\
  attempt_outcome (od_status y) = ledger_outcome (od_status y) /\
  ledger_outcome (od_status y) <> Some AO_IN_PROGRESS.
Proof.
  rewrite outcome_is_op.
  destruct x as [? ? ? ? ? ? ? ? ? ? s ? ? ? ? ? ? ? ? ? ? ? ? ds].
  destruct o, s, ds; cbn [outcome_op]; od_cases; od_split; done.
Qed.
Lemma outcome_write o t x y :
  outcome_transition o t x = (Ok tt, y) -> od_shape x -> post_write x (with_lifecycle y x).
Proof.
  intros E Hs. destruct (outcome_lifecycle _ _ _ _ E) as (-> & Hst & Hds & Hg & _).
  rewrite outcome_is_op in E. pose proof (od_exec_authority (outcome_op o t) x) as Ha. rewrite E in Ha. cbn in Ha.
  destruct (authority_sealed x y Ha). split; try done; [by eapply od_exec_shape|].
  split_and!; [done|lia|congruence|]. by rewrite Hst.
Qed.
End Writes.

(** ** Transactions *)
Section Transactions_.
Context `{Env} `{FloatPow} `{Digest} (D : Db) (V0 : Deliveries).

(** The invariant, relative to where the history started *)
Definition sound (V : Deliveries) : Prop := ledger V /\ goes V0 V.

Lemma sound_pre V i x x' :
  sound V -> V.1 !! i = Some x -> pre_write x x' -> sound (<[i := x']> V.1, V.2).
Proof.
  intros [Hl Hg] Hx [Hs Hla Hid Hse Hb Ha]. destruct (lg_row _ Hl i x Hx) as (Hi & _ & Hsx). split.
  - apply (ledger_insert _ _ x); auto; congruence.
  - etrans; [done|]. by eapply goes_insert.
Qed.

(** The exact effect of a conditional [UPDATE] *)
Lemma steps_update v i p f :
  steps D (fun V => V = v) (update_delivery i p f)
    (fun b V => if b : bool then exists x, v.1 !! i = Some x /\ p x = true /\ V = (<[i := f x]> v.1, v.2) else V = v).
Proof.
  intros w Hw Hv. unfold update_delivery, bind, db, gets. cbn [fst snd].
  destruct (db_deliveries (staged w) !! i) as [x|] eqn:E; [|done].
  destruct (p x) eqn:Ep; [|done]. split; [done|]. exists x. rewrite <- Hv.
  split; [done|]. split; [done|]. by destruct (staged w).
Qed.
(** One that keeps the invariant *)
Lemma steps_update_sound i p f :
  (forall x, od_shape x -> p x = true -> pre_write x (f x)) ->
  steps D sound (update_delivery i p f) (fun _ => sound).
Proof.
  intros Hf. apply steps_at. intros v Hv. eapply steps_mono; [apply (steps_update v)|done|].
  intros [] V; cbn; [|by intros ->]. intros (x & Hx & Hp & ->). eapply sound_pre; [done..|].
  apply Hf; [|done]. by apply (lg_row _ (proj1 Hv) i x Hx).
Qed.

(** Closing the attempt of a generation, after validating its terminal shape *)
Lemma steps_close v i g t o code p :
  ledger v ->
  steps D (fun V => V = v) (c <- validated_terminal_write i g t o code ;; close_attempt i g t o c p)
    (fun b V => if b : bool
       then exists a c, v.2 !! da_id a = Some a /\ da_delivery_id a = i /\ da_claim_generation a = g /\
              da_outcome a = AO_IN_PROGRESS /\
              validate_delivery_attempt_shape o (da_started_at a) (Some t) code = Ok c /\
              V = (v.1, <[da_id a := mkAttempt (da_id a) (da_delivery_id a) (da_claim_generation a)
                                       (da_started_at a) (Some t) o c]> v.2)
       else V = v).
Proof.
  intros Hl w Hw Hv. unfold validated_terminal_write, close_attempt, bind, db, gets, lift. cbn [fst snd].
  destruct (open_attempt (staged w) i g) as [a|] eqn:Ea; cbn [fst snd].
  - unfold open_attempt in Ea. destruct (attempt_of (staged w) i g) as [a'|] eqn:Eo; [|done].
    destruct (bool_decide _) eqn:Eb; [|done]. injection Ea as ->. apply bool_decide_eq_true in Eb.
    unfold attempt_of in Eo. apply find_some in Eo as [Hin [Hi%bool_decide_eq_true Hg%Z.eqb_eq]%andb_true_iff].
    apply list_elem_of_In, list_elem_of_fmap in Hin as ([k a'] & -> & Hk%elem_of_map_to_list). cbn [snd] in *.
    assert (Hk' : v.2 !! k = Some a') by (by rewrite <- Hv).
    destruct (lg_attempt _ Hl k a' Hk') as [Hid _].
    destruct (validate_delivery_attempt_shape _ _ _ _) as [c|] eqn:Ec; [|done].
    destruct (p (staged w)); [|done]. split; [done|]. exists a', c. rewrite Hid.
    split_and!; try done. rewrite <- Hv. by destruct (staged w).
  - destruct (validate_delivery_attempt_shape _ _ _ _); [|done]. by destruct (p (staged w)).
Qed.

Lemma terminal_shape o s t code c :
  validate_delivery_attempt_shape o s (Some t) code = Ok c -> o <> AO_IN_PROGRESS ->
  c = code /\ validate_delivery_attempt_shape o s (Some t) c = Ok c.
Proof.
  intros E Ho. assert (c = code) as ->.
  { revert E. unfold validate_delivery_attempt_shape.
    destruct o; [done|..]; (destruct (t <? s); [done|]); destruct code as [k|]; cbn; try done;
      try (by intros [= <-]);
      (destruct (negb (stable_code k)); [done|]); (destruct (len k >? _); [done|]); by intros [= <-]. }
  done.
Qed.
(** The delivery and its open attempt end together. *)
Lemma sound_post v i a x x' t o c :
  sound v -> v.2 !! da_id a = Some a -> da_delivery_id a = i -> da_outcome a = AO_IN_PROGRESS ->
  validate_delivery_attempt_shape o (da_started_at a) (Some t) c = Ok c -> o <> AO_IN_PROGRESS ->
  v.1 !! i = Some x -> post_write x x' -> ledger_outcome (od_status x') = Some o ->
  sound (<[i := x']> v.1, <[da_id a := mkAttempt (da_id a) (da_delivery_id a) (da_claim_generation a)
                                  (da_started_at a) (Some t) o c]> v.2).
Proof.
  intros [Hl Hg] Ha Hi Ho Hc Hne Hx [Hs Hla Hid Hse Hcr Hge] Hst.
  destruct (lg_row _ Hl i x Hx) as (Hxi & _ & Hsx).
  destruct (lg_attempt _ Hl _ a Ha) as (_ & y & Hy & Hds & Hgen & _ & Hinit).
  rewrite Hi, Hx in Hy. injection Hy as <-. split.
  - apply (ledger_both v i x); auto; [congruence| | |].
    + split_and!; cbn; [congruence|congruence|done|].
      revert Hinit. unfold DeliveryAttempt_init. cbn. destruct (_ <=? 0); [done|]. by rewrite Hc.
    + intros k' a' Hk' Hd'. eapply (lg_unique _ Hl); [done..|congruence].
    + intros a' Ha'. congruence.
  - etrans; [done|]. apply (goes_both _ _ x); [done|done|]. intros a0 Ha0. assert (a0 = a) as -> by congruence.
    right. by rewrite Ho.
Qed.

Lemma steps_recover_delivery p x t : steps D sound (recover_delivery p x t) (fun _ => sound).
Proof.
  unfold recover_delivery. destruct (not_none (od_dispatch_started_at x)); [|destruct (_ <? _)].
  - apply steps_at. intros v Hv. eapply steps_bind; [by apply steps_close, Hv|].
    intros [|]; cbn [raise_if negb]; [|intros w ? ?; cbn; done].
    apply steps_at. intros v' (a & c & Ha & Hi & Hgen & Ho & Hc & ->). s_skip.
    eapply steps_bind; [apply steps_update|]. intros [|]; cbn [raise_if negb]; [|intros w ? ?; cbn; done].
    s_skip. apply steps_ret. intros V (y & Hy & [He Hm]%andb_true_iff & ->). cbn [fst snd] in *.
    apply andb_true_iff in He as [He _]. unfold claim_expired in He. apply andb_true_iff in He as [He _].
    apply bool_decide_eq_true in He.
    destruct (terminal_shape _ _ _ _ _ Hc) as [-> Hc']; [done|].
    eapply (sound_post v); try done. apply park_write; [done|]. by apply (lg_row _ (proj1 Hv) _ y Hy).
  - s_know ltac:(apply yields_lift). intros delay _. apply steps_update_sound.
    intros y Hs [He Hm]%andb_true_iff. apply andb_true_iff in He as [He _].
    unfold claim_expired in He. apply andb_true_iff in He as [He%bool_decide_eq_true _].
    apply requeue_write; [done| |done]. by destruct (od_dispatch_started_at y).
  - apply steps_update_sound. intros y Hs [He Hm]%andb_true_iff. apply andb_true_iff in He as [He _].
    unfold claim_expired in He. apply andb_true_iff in He as [He%bool_decide_eq_true _].
    apply fail_write; [done| |done]. by destruct (od_dispatch_started_at y).
Qed.
Lemma steps_recover_deliveries p t l : steps D sound (recover_deliveries p t l) (fun _ => sound).
Proof.
  induction l as [|x l IH]; cbn [recover_deliveries]; [by apply steps_ret|].
  eapply steps_bind; [apply steps_recover_delivery|]. intros b. eapply steps_bind; [apply IH|]. intros n.
  by apply steps_ret.
Qed.

(** A new delivery *)
Lemma steps_add x : od_shape x -> od_sealed x -> od_dispatch_started_at x = None ->
  steps D sound (deliveries_add x) (fun _ => sound).
Proof.
  intros Hs Hse Hd w Hw [Hl Hg]. unfold deliveries_add, add_row, bind, db, gets. cbn [fst snd].
  destruct (db_deliveries (staged w) !! od_id x) eqn:E; [done|]. split; [done|].
  change (sound (deliveries_of (set_db_deliveries (<[od_id x := x]> (db_deliveries (staged w))) (staged w)))).
  replace (deliveries_of _) with (<[od_id x := x]> (deliveries_of (staged w)).1, (deliveries_of (staged w)).2)
    by (by destruct (staged w)).
  split; [by apply ledger_new|]. etrans; [done|]. by apply goes_new.
Qed.
Lemma new_delivery_ok id k r tool fire route fp body av cr sub sha x :
  OutboundDelivery_new id k r tool fire route fp body av cr sub sha = Ok x ->
  od_shape x /\ od_sealed x /\ od_dispatch_started_at x = None.
Proof.
  intros E. destruct (od_new_shape _ _ _ _ _ _ _ _ _ _ _ _ _ E) as (Hs & _ & Hd). split; [done|]. split; [done|].
  revert E. unfold OutboundDelivery_new. destruct (body_digest body); cbn [res_bind]; [|done].
  destruct (match sha with Some _ => _ | None => _ end); [done|].
  destruct (ensure_utc cr); cbn [res_bind]; [|done]. destruct (ensure_utc av); cbn [res_bind]; [|done].
  unfold OutboundDelivery_init.
  repeat match goal with
    | |- res_bind ?r _ = Ok _ -> _ => destruct r; cbn [res_bind]; [|done]
    | |- (if ?b then _ else _) = Ok _ -> _ => destruct b; [done|] end.
  by intros [= <-].
Qed.


(** A handler that only reads *)
Abbreviation lands := (Transactions.lands deliveries_of sound).
Lemma lands_try {A} P (m : U A) h :
  lands D P m -> (forall e m' D', h e = Some m' -> forall v, preserves (same D' v) m') ->
  lands D P (try_except m h).
Proof.
  intros Hm Hh w Hw HP. specialize (Hm w Hw HP). unfold try_except. destruct (m w) as [[a|e] w']; [done|].
  destruct (h e) as [m'|] eqn:Ee; [|done]. cbn in Hm.
  destruct (Hh e m' (durable w') Ee _ w' (conj eq_refl eq_refl)) as [Hd _]. by rewrite Hd.
Qed.
End Transactions_.

Abbreviation lands V0 := (Transactions.lands deliveries_of (sound V0)).

(** ** Use cases *)
Section UseCases.
Context `{Env} `{FloatPow} `{Digest} (V0 : Deliveries).

(** What every use case keeps *)
Definition kept (w : World) : Prop := sound V0 (deliveries_of (durable w)).

Lemma keeps_uow {A} (m : U A) :
  (forall D, sound V0 (deliveries_of D) -> Transactions.lands deliveries_of (sound V0) D (sound V0) m) ->
  preserves kept (with_uow m).
Proof. intros Hm w Hw. by apply (lands_with_uow _ _ (durable w) (sound V0)); [|done|apply Hm]. Qed.
Ltac uow := apply keeps_uow; intros D HD.
Lemma lands_claim D w t e l :
  sound V0 (deliveries_of D) -> lands V0 D (sound V0) (claim_first_delivery w t e l).
Proof.
  intros HD. induction l as [|x l IH]; cbn [claim_first_delivery]; [by apply lands_commit|].
  l_skip. eapply lands_bind; [assumption| |].
  - unfold deliveries_try_claim. eapply steps_bind; [apply steps_update_sound|].
    + intros y Hs Hd. by apply claim_write.
    + intros b. instantiate (1 := fun _ => sound V0). destruct b; [s_skip|]; by apply steps_ret.
  - intros [g|]; [by apply lands_commit|exact IH].
Qed.
Lemma kept_claim p w l n : preserves kept (ClaimNextDelivery p w l n).
Proof.
  unfold ClaimNextDelivery. do 3 (apply preserves_bind; [keeps|intros _]). uow. l_skip.
  eapply lands_bind; [assumption| |].
  - unfold RecoverExpiredDeliveryClaims. s_skip. apply steps_recover_deliveries.
  - intros n'. l_skip. by apply lands_claim.
Qed.

(** Crossing the boundary and opening the attempt *)
Lemma kept_begin c : preserves kept (BeginDeliveryAttempt c).
Proof.
  unfold BeginDeliveryAttempt. apply preserves_bind; [|intros [? ?]; keeps]. uow. l_know ltac:(apply pure_any). intros t _.
  apply lands_at. intros v Hv. eapply lands_bind; [assumption|apply steps_update|].
  intros [|]; [|l_skip; by apply lands_commit; [|intros ? ->]].
  apply lands_at. intros v' (x & Hx & [Ha Hm]%andb_true_iff & ->).
  assert (Hst : od_status x = DSENDING).
  { unfold active_claim in Ha. repeat apply andb_true_iff in Ha as [Ha ?]. by apply bool_decide_eq_true in Ha. }
  assert (Hds : od_dispatch_started_at x = None) by (by destruct (od_dispatch_started_at x)).
  destruct Hv as [Hl Hg]. destruct (lg_row _ Hl _ x Hx) as (Hid & Hs & Hse).
  destruct (mark_write t x Hst Hds Hs) as (Hs' & Hla & Hid' & Hse' & Hgen). cbv zeta in *.
  set (x' := set_od_updated_at t (set_od_dispatch_started_at (Some t) x)) in *.
  eapply (lands_bind _ _ _ HD _ _ _ (fun _ => sound V0)); [|intros []; by apply lands_commit].
  s_skip. rename a into aid. eapply steps_bind.
  - instantiate (1 := fun b V => if b : bool then sound V0 V else True).
    intros w Hw Hv. unfold attempts_begin_for_claim, bind, db, gets. cbn [fst snd].
    pose proof (f_equal fst Hv) as Hv1. pose proof (f_equal snd Hv) as Hv2. cbn in Hv1, Hv2.
    rewrite Hv1, lookup_insert_eq. destruct (_ && _); [|done].
    unfold add_row, bind, db, gets. cbn [fst snd].
    destruct (db_attempts (staged w) !! aid) eqn:Eaid; [done|]. split; [done|].
    change (sound V0 (deliveries_of (set_db_attempts (<[aid := mkAttempt aid (od_id x') (od_claim_generation x') t None
      AO_IN_PROGRESS None]> (db_attempts (staged w))) (staged w)))).
    replace (deliveries_of _) with (<[dc_delivery_id c := x']> v.1,
      <[aid := mkAttempt aid (od_id x') (od_claim_generation x') t None AO_IN_PROGRESS None]> v.2)
      by (rewrite <- Hv2, <- Hv1; by destruct (staged w)).
    assert (Hno : forall k a, v.2 !! k = Some a -> da_delivery_id a <> dc_delivery_id c).
    { intros k a Hk Hda. destruct (lg_attempt _ Hl k a Hk) as (_ & y & Hy & Hag & _).
      rewrite Hda, Hx in Hy. congruence. }
    rewrite Hv2 in Eaid. split.
    + apply (ledger_both v _ x); [done|done|congruence|done|by apply Hse'|done|exact (eq_trans Hid' Hid)| | |].
      * split_and!; [done|done|cbn; by rewrite Hst|].
        unfold DeliveryAttempt_init. cbn [da_claim_generation da_outcome da_started_at da_finished_at da_failure_code].
        replace (od_claim_generation x' <=? 0) with false by lia. done.
      * intros k a Hk Hda. by destruct (Hno k a Hk).
      * intros a Ha'. congruence.
    + etrans; [done|]. apply (goes_both _ _ x); [done|done|]. intros a0 Ha0. congruence.
  - intros [|]; cbn [raise_if negb]; [by apply steps_ret|intros w ? ?; cbn; done].
Qed.

(** Persisting an outcome *)
Lemma kept_persist c o : preserves kept (PersistDeliveryOutcome c o).
Proof.
  uow.
  l_know ltac:(apply pure_any). intros t _. apply lands_at. intros v Hv.
  eapply (lands_bind _ _ _ HD _ _ _ (fun x V => V = v /\ x = v.1 !! dc_delivery_id c)).
  { apply steps_db. intros d <-. by split. }
  intros x0. apply lands_at. intros v' [-> Hx0]. l_know ltac:(apply yields_need). intros x ->. symmetry in Hx0.
  l_skip. destruct (lg_row _ (proj1 Hv) _ x Hx0) as (Hid & Hs & Hse).
  l_know ltac:(apply yields_call). intros [y []] E. cbn [fst snd] in E.
  destruct (outcome_lifecycle _ _ _ _ E) as (Hy & Hst & Hds & Hgen & Hnq & Hout & Hterm).
  pose proof (outcome_write _ _ _ _ E Hs) as Hw.
  assert (Hyid : od_id y = dc_delivery_id c) by (rewrite <- Hy; destruct Hw; congruence).
  destruct (not_none (od_dispatch_started_at y)) eqn:Hm.
  - eapply (lands_bind _ _ _ HD _ _ _ (fun _ V => exists a o' c', v.2 !! da_id a = Some a /\
      da_delivery_id a = dc_delivery_id c /\ da_outcome a = AO_IN_PROGRESS /\
      validate_delivery_attempt_shape o' (da_started_at a) (Some t) c' = Ok c' /\
      attempt_outcome (od_status y) = Some o' /\
      V = (v.1, <[da_id a := mkAttempt (da_id a) (da_delivery_id a) (da_claim_generation a)
                               (da_started_at a) (Some t) o' c']> v.2))).
    + s_know ltac:(apply yields_need). intros o' Ho'. eapply steps_bind; [by apply steps_close, Hv|].
      intros [|]; cbn [raise_if negb]; [|intros w ? ?; cbn; done].
      apply steps_ret. intros V (a1 & c1 & Ha & Hda & _ & Ho & Hval & ->).
      assert (Hne : o' <> AO_IN_PROGRESS) by congruence.
      destruct (terminal_shape _ _ _ _ _ Hval Hne) as [-> Hval'].
      exists a1, o', (od_failure_code y). done.
    + intros []. apply lands_at. intros v' (a1 & o' & c' & Ha & Hda & Ho & Hval & Ho' & ->).
      eapply lands_bind; [assumption|apply steps_update|]. intros [|]; cbn [raise_if negb];
        [|intros w Hw' ?; cbn; by rewrite Hw'].
      l_skip. apply lands_commit_last; [done|]. intros V (x' & Hx' & _ & ->). cbn [fst snd] in *.
      rewrite Hyid in Hx' |- *. assert (x' = x) as -> by congruence.
      eapply (sound_post _ v); try done; [congruence|]. rewrite Hy. congruence.
  - l_skip. eapply lands_bind; [assumption|apply steps_update|]. intros [|]; cbn [raise_if negb];
      [|intros w Hw' ?; cbn; by rewrite Hw'].
    l_skip. apply lands_commit_last; [done|]. intros V (x' & Hx' & _ & ->).
    rewrite Hyid in Hx' |- *. assert (x' = x) as -> by congruence. eapply sound_pre; [done..|].
    assert (Hnone : od_dispatch_started_at x = None) by (rewrite <- Hds; by destruct (od_dispatch_started_at y)).
    destruct Hw as [? ? ? ? Hcr ?]. by split.
Qed.

Lemma kept_send route body at_ t run i : preserves kept (send_message route body at_ t run i).
Proof.
  uow.
  l_skip. destruct a as [x|].
  - unfold accept_existing. l_skip. by apply lands_ret.
  - l_skip. l_know ltac:(apply yields_lift). intros x Hx. apply new_delivery_ok in Hx as (Hs & Hse & Hm).
    apply lands_try.
    + eapply lands_bind; [assumption|by apply steps_add|]. intros []. by apply lands_commit.
    + intros e m' D' He v. destruct (is_entity_conflict e); [|done]. injection He as <-. keeps_all.
Qed.
Lemma kept_materialize f : preserves kept (materialize_answer f).
Proof.
  uow.
  assert (Hrej : forall f r, lands V0 D (sound V0) (reject_answer f r)).
  { intros f' r. unfold reject_answer. l_skip. destruct a; [|l_skip; by apply lands_ret].
    intros w Hw HP. unfold bind, commit. destruct (integrity _); cbn; [done|by rewrite Hw]. }
  l_skip. destruct a as [p|]; [|by apply lands_ret].
  destruct (negb _); [by apply lands_ret|]. l_skip. destruct (not_none a); [by apply lands_ret|].
  l_skip. destruct a0 as [r|]; [|by apply lands_ret].
  destruct (negb _); [by apply lands_ret|]. destruct (negb _); [by apply lands_ret|]. l_skip.
  destruct (content_gate _ _) as [body|]; [|done]. destruct (pl_route_fingerprint p) as [fp|]; [|done].
  l_skip. l_skip. l_know ltac:(apply yields_lift). intros x Hx. apply new_delivery_ok in Hx as (Hs & Hse & Hm).
  eapply lands_bind; [assumption|by apply steps_add|]. intros []. by apply lands_commit.
Qed.
End UseCases.

(** ** Histories *)
Section Histories.
Context `{Env} `{FloatPow} `{Digest} `{Calendar}.

Lemma kept_read V0 {A} (m : U A) :
  (forall D v, preserves (same D v) m) -> preserves (kept V0) m.
Proof. intros Hm w Hw. destruct (Hm _ _ w (conj eq_refl eq_refl)) as [Hd _]. unfold kept. by rewrite Hd. Qed.
Lemma kept_answers V0 l : preserves (kept V0) (materialize_answers l).
Proof.
  induction l as [|f l IH]; cbn [materialize_answers]; [apply preserves_ret|].
  apply preserves_bind; [apply preserves_try; [apply kept_materialize|intros e; apply preserves_ret]|].
  intros b. apply preserves_bind; [exact IH|intros n; apply preserves_ret].
Qed.
Lemma kept_app_exec V0 o : delivery_op o = true -> preserves (kept V0) (app_exec o).
Proof.
  destruct o; try done; intros _; cbn [app_exec]; unfold discard, SendMessage, MaterializeScheduledAnswerDeliveries.
  - apply preserves_bind; [|intros; apply preserves_ret].
    apply preserves_bind; [apply kept_read; keeps|intros t; apply kept_send].
  - apply preserves_bind; [|intros; apply preserves_ret]. apply preserves_bind; [|intros l; apply kept_answers].
    apply keeps_uow. intros D HD. unfold plans_list_ready_without_delivery.
    intros w Hw Hs. cbn. by rewrite Hw.
  - apply preserves_bind; [apply kept_claim|intros; apply preserves_ret].
  - apply preserves_bind; [apply kept_begin|intros; apply preserves_ret].
  - apply kept_persist.
Qed.
Lemma step_sound V0 o w : reachable w -> kept V0 w -> kept V0 (snd (app_exec o w)).
Proof.
  intros Hr Hk. destruct (delivery_op o) eqn:Eo; [by apply kept_app_exec|].
  assert (Hw : winv (logs_ok (fun V => sound V0 V.1.1.2)) w).
  { pose proof (reachable_synced w Hr) as Hs. unfold synced in Hs.
    destruct (reachable_logs w Hr) as [[Hl _] _]. split; [|rewrite Hs]; by split. }
  assert (Hw' : winv (logs_ok (fun V => sound V0 V.1.1.2)) (snd (app_exec o w))).
  { apply logs_app_exec; [auto|congruence|auto|auto|done]. }
  apply Hw'.
Qed.
Lemma history_sound V0 ops w : reachable w -> kept V0 w -> kept V0 (run_history ops w).
Proof.
  revert w. induction ops as [|o ops IH]; intros w Hr Hk; [done|]. cbn [run_history foldl].
  apply IH; [by apply reach_op|by apply step_sound].
Qed.
Lemma empty_sound : kept (∅, ∅) empty_world.
Proof.
  split; [|reflexivity]. split; cbn; intros *; rewrite lookup_empty; done.
Qed.
Lemma reachable_ledger w : reachable w -> ledger (deliveries_of (durable w)).
Proof.
  intros Hw. enough (reachable w /\ kept (∅, ∅) w) by (unfold kept, sound in *; tauto).
  revert w Hw. apply reach_invariant; [intros w ->; split; [by apply reach_init|apply empty_sound]|].
  intros o w [Hr Hk]. split; [by apply reach_op|by apply step_sound].
Qed.
Lemma reachable_kept w : reachable w -> kept (deliveries_of (durable w)) w.
Proof. intros Hr. split; [by apply reachable_ledger|reflexivity]. Qed.

(** ** Crossing the boundary *)
Lemma begin_row aid c t t' w w' :
  attempts_begin_for_claim aid c t t' w = (Ok true, w') ->
  db_deliveries (staged w') = db_deliveries (staged w).
Proof.
  unfold attempts_begin_for_claim. intros (o & w1 & [= <- <-] & E)%bind_ok.
  destruct (db_deliveries (staged w) !! _) as [x|]; [|done]. destruct (_ && _); [|done].
  apply bind_ok in E as ([] & w2 & Ha & [= <-]). unfold add_row in Ha.
  apply bind_ok in Ha as (o & w3 & [= <- <-] & Ha). destruct (db_attempts _ !! aid); [done|].
  by injection Ha as <-.
Qed.
Lemma begin_crosses c w t w' :
  BeginDeliveryAttempt c w = (Ok t, w') ->
  exists x x', db_deliveries (durable w) !! dc_delivery_id c = Some x /\ od_dispatch_started_at x = None /\
    db_deliveries (durable w') !! dc_delivery_id c = Some x' /\ od_dispatch_started_at x' = Some t.
Proof.
  unfold BeginDeliveryAttempt. intros (p & w1 & Hu & E)%bind_ok. destruct p as [marked t'].
  destruct marked; [|done]. injection E as -> ->.
  unfold with_uow in Hu. destruct (bind now _ _) as [r w2] eqn:Hb. injection Hu as -> <-.
  apply bind_ok in Hb as (t1 & w3 & Et1 & (b & w4 & Hm & ([] & w5 & Ha & ([] & w6 & Hc & Er)%bind_ok)%bind_ok)%bind_ok).
  unfold now in Et1. injection Et1 as Et1 Ew3. injection Er as -> Et Ew. simplify_eq.
  unfold deliveries_mark_dispatch_started, update_delivery in Hm.
  apply bind_ok in Hm as (o & w7 & [= <- <-] & Hm).
  cbn [staged durable] in Hm. destruct (db_deliveries (durable w) !! dc_delivery_id c) as [x|] eqn:Ex; [|done].
  destruct (active_claim _ _ x && _) eqn:Ea; [|done]. apply andb_true_iff in Ea as [_ Hn].
  injection Hm as <-. cbn [staged durable] in *.
  set (x' := set_od_updated_at _ (set_od_dispatch_started_at _ x)) in *.
  exists x, x'. split; [done|]. split; [by destruct (od_dispatch_started_at x)|].
  split; [|done]. unfold commit in Hc. destruct (integrity (staged w5)); [|done]. injection Hc as <-.
  apply bind_ok in Ha as (aid & w6 & [= <- <-] & (b & w7 & Hb & Er)%bind_ok).
  destruct b; [|done]. injection Er as ->. apply begin_row in Hb. cbn [durable].
  transitivity (db_deliveries (staged w5) !! dc_delivery_id c); [done|]. by rewrite Hb; apply lookup_insert_eq.
Qed.

End Histories.

(** A message is queued, claimed, sent and delivered. *)
Definition toy_route : MessagingRoute := mkRoute (u "ops") true (replicate 64 97) 100.
Definition toy_claim : DeliveryClaim := mkDeliveryClaim (toy_id 0) (u "w1") (u "id-1") 1 1001 1001001.
Definition toy_delivery_ops : list app_op :=
  [OpSendMessage toy_route (u "hello") None (toy_id 1) (toy_id 2);
   OpClaimNextDelivery (mkPolicy 3 10 (1, 0) 100) (u "w1") 1000000 5; OpBeginDeliveryAttempt toy_claim;
   OpPersistDeliveryOutcome toy_claim (OutDeliver None)].
Definition toy_delivery_world (n : nat) : World :=
  @run_history toy_env toy_pow toy_digest toy_calendar (take n toy_delivery_ops) empty_world.
Lemma toy_delivery_reachable n : @reachable toy_env toy_pow toy_digest toy_calendar (toy_delivery_world n).
Proof. apply run_history_reachable. by apply reach_init. Qed.

(** ** Properties *)

(** C17: in every database a history of use cases leads to, the ledger tells the
    truth: a delivery has an attempt exactly when it crossed the dispatch
    boundary, exactly one, opened at the crossing under the claim generation that
    crossed it, open while the delivery is being sent and otherwise closed with
    the delivery's own outcome; every delivery has the shape of its status and the
    digest of its body. *)
Theorem delivery_ledger `{Env} `{FloatPow} `{Digest} `{Calendar} w :
  reachable w -> ledger (deliveries_of (durable w)).
Proof. apply reachable_ledger. Qed.

(** C18: no history of use cases takes a delivery back: it is never deleted, its
    identity, source, route, content and digest never change, its claim
    generation never decreases, a crossed boundary stays crossed, a terminal
    delivery never changes again, and an attempt is closed at most once. *)
Theorem deliveries_move_forward `{Env} `{FloatPow} `{Digest} `{Calendar} w ops :
  reachable w -> goes (deliveries_of (durable w)) (deliveries_of (durable (run_history ops w))).
Proof. intros Hr. by apply history_sound, reachable_kept. Qed.

(** ** Witnesses *)
Lemma delivery_ledger_witness :
  map (fun p => (od_status (snd p), od_dispatch_started_at (snd p)))
    (map_to_list (db_deliveries (durable (toy_delivery_world 3)))) = [(DSENDING, Some 1002)] /\
  map (fun p => (da_outcome (snd p), da_started_at (snd p)))
    (map_to_list (db_attempts (durable (toy_delivery_world 3)))) = [(AO_IN_PROGRESS, 1002)] /\
  @ledger toy_digest (deliveries_of (durable (toy_delivery_world 3))).
Proof.
  split; [vm_compute; reflexivity|]. split; [vm_compute; reflexivity|].
  exact (@delivery_ledger toy_env toy_pow toy_digest toy_calendar (toy_delivery_world 3)
           (toy_delivery_reachable 3)).
Defined.
Lemma deliveries_move_forward_witness :
  map (fun p => (od_status (snd p), da_outcome <$> attempt_of (durable (toy_delivery_world 4)) (fst p) 1))
    (map_to_list (db_deliveries (durable (toy_delivery_world 4)))) = [(DDELIVERED, Some AO_DELIVERED)] /\
  @goes (deliveries_of (durable (toy_delivery_world 3)))
    (deliveries_of (durable (@run_history toy_env toy_pow toy_digest toy_calendar
       [OpPersistDeliveryOutcome toy_claim (OutDeliver None)] (toy_delivery_world 3)))).
Proof.
  split; [vm_compute; reflexivity|].
  exact (@deliveries_move_forward toy_env toy_pow toy_digest toy_calendar (toy_delivery_world 3)
           [OpPersistDeliveryOutcome toy_claim (OutDeliver None)] (toy_delivery_reachable 3)).
Defined.
