(* ===== verification/Dispatcher.v ===== *)
(** * Dispatching deliveries

    The dispatcher of [src/friday/infrastructure/messaging/dispatcher.py], the worker
    around it ([apps/worker/delivery_worker.py]) and the delivery thread of
    [apps/worker/worker_loop.py], as threads that meet the rest of the system between
    their transactions, and the calls they make to the transport.  Proved: whatever is
    interleaved, the transport is called at most once for a delivery, with the content
    and the route the delivery was created for ([at_most_one_send]).

    The transport is a parameter: its answer to a call is part of the schedule, [None]
    when it raised. *)

From S2P Require Import Prelude Values RunEntity EventEntity ScheduleEntity ScheduleDelivery Canonical.
From S2P Require Import DeliveryEntity RetryPolicy WorkQueue SkillEntity ConversationEntity Tables Store WorkflowStore DeliveryStore.
From S2P Require Import Transactions Lifecycle WorkflowEngine DeliveryUseCases ScheduleUseCases System EventLogs.
From S2P Require Import RowHistory DeliveryHistory.

Open Scope Z_scope.

(** ** Threads

    What is left of a thread: a result, a transaction and what follows its outcome, or a
    call of the transport and what follows its answer.  The delivery a call is made for
    is not part of the request; it is kept to count the calls. *)
Inductive TransportOutcome : Type := TO_DELIVERED | TO_FAILED | TO_AMBIGUOUS.
Record TransportResult : Type := mkTransportResult { tr_outcome : TransportOutcome; tr_failure_code : option str }.
Inductive DispatchResult : Type := DR_IDLE | DR_CLAIM_LOST | DR_DELIVERED | DR_FAILED | DR_AMBIGUOUS.

Inductive Thread (A : Type) : Type :=
| Finished (r : res A)
| Transaction {B : Type} (m : U B) (k : res B -> Thread A)
| Sending (d : DeliveryId) (route : MessagingRoute) (body : str) (k : option TransportResult -> Thread A).
Arguments Finished {A} r.
Arguments Transaction {A B} m k.
Arguments Sending {A} d route body k.

(** [k] sees how [m] ended. *)
Fixpoint t_finally {A B} (m : Thread A) (k : res A -> Thread B) : Thread B :=
  match m with
  | Finished r => k r
  | Transaction m k' => Transaction m (fun r => t_finally (k' r) k)
  | Sending d route body k' => Sending d route body (fun answer => t_finally (k' answer) k)
  end.
Definition t_bind {A B} (m : Thread A) (k : A -> Thread B) : Thread B :=
  t_finally m (fun r => match r with Ok a => k a | Raise e => Finished (Raise e) end).
Definition t_ret {A} (a : A) : Thread A := Finished (Ok a).
Definition transact {A} (m : U A) : Thread A := Transaction m Finished.
(** [except ClaimLost] *)
Definition or_claim_lost {A} (default : A) (m : Thread A) : Thread A :=
  t_finally m (fun r => match r with Raise (ClaimLost _) => t_ret default | _ => Finished r end).
Notation "a <~ m ;; k" := (t_bind m (fun a => k)) (at level 100, m at next level, right associativity).

(** ** [DeliveryDispatcher] *)
Section Dispatch.
Context `{Env} `{FloatPow} `{Digest}.

(** [_persist], and the result it leads to *)
Definition persist_or_lost (c : DeliveryClaim) (o : DeliveryOutcome) (result : DispatchResult) : Thread DispatchResult :=
  or_claim_lost DR_CLAIM_LOST (_ <~ transact (PersistDeliveryOutcome c o) ;; t_ret result).
(** The route of the delivery, or why it must be parked ([_park_route_drift]) *)
Definition resolve_message_route (routes : list MessagingRoute) (x : OutboundDelivery)
    : MessagingRoute + (str * str) :=
  match List.find (fun r => bool_decide (rt_route_id r = od_route_id x)) routes with
  | None => inr (u "delivery_route_missing", u "Delivery route is no longer configured; no message was sent.")
  | Some r =>
      if negb (rt_enabled r)
      then inr (u "delivery_route_disabled", u "Delivery route is disabled; no message was sent.")
      else if negb (bool_decide (rt_fingerprint r = od_route_fingerprint x))
      then inr (u "delivery_route_fingerprint_mismatch",
                u "Delivery route authority changed; no message was sent.")
      else inl r
  end.
Definition outcome_of_result (r : option TransportResult) : DeliveryOutcome * DispatchResult :=
  match r with
  | None => (OutAmbiguous (u "delivery_transport_exception")
               (u "Webhook transport failed without a delivery result."), DR_AMBIGUOUS)
  | Some r =>
      match tr_outcome r with
      | TO_DELIVERED => (OutDeliver None, DR_DELIVERED)
      | TO_AMBIGUOUS => (OutAmbiguous (nonempty_or (tr_failure_code r) "webhook_transport_error")
                           (u "Webhook delivery outcome is unknown."), DR_AMBIGUOUS)
      | TO_FAILED => (OutFail (nonempty_or (tr_failure_code r) "webhook_transport_error")
                        (u "Webhook delivery failed."), DR_FAILED)
      end
  end.
(** [_load_claimed_delivery] *)
Definition load_claimed_delivery (i : DeliveryId) : U (option OutboundDelivery) :=
  with_uow (x <- deliveries_get i ;; commit ;;; ret x).

(** What a [DeliveryDispatcher] is built with *)
Record Dispatcher : Type := mkDispatcher {
  dp_policy : RetryPolicy; dp_worker_id : str; dp_lease : Z; dp_candidate_limit : nat;
  dp_routes : list MessagingRoute }.

Definition dispatch_once (s : Dispatcher) : Thread DispatchResult :=
  claim <~ transact (ClaimNextDelivery (dp_policy s) (dp_worker_id s) (dp_lease s) (dp_candidate_limit s)) ;;
  match claim with
  | None => t_ret DR_IDLE
  | Some c =>
      delivery <~ transact (load_claimed_delivery (dc_delivery_id c)) ;;
      match delivery with
      | None => t_ret DR_CLAIM_LOST
      | Some x =>
          if not_none (od_dispatch_started_at x) then
            persist_or_lost c (OutAmbiguous (u "delivery_already_dispatched")
              (u "Delivery was already marked for dispatch; no message was sent.")) DR_AMBIGUOUS
          else
            match resolve_message_route (dp_routes s) x with
            | inr (code, message) => persist_or_lost c (OutRouteAmbiguous code message) DR_AMBIGUOUS
            | inl route =>
                begun <~ or_claim_lost false (_ <~ transact (BeginDeliveryAttempt c) ;; t_ret true) ;;
                if negb begun then t_ret DR_IDLE
                else
                  Sending (dc_delivery_id c) route (od_body x) (fun answer =>
                    let '(outcome, result) := outcome_of_result answer in
                    persist_or_lost c outcome result)
            end
      end
  end.

(** [DeliveryWorker.run_once]; and the first [n] rounds of [_serve_deliveries], which no
    error stops.  A shutdown between rounds is a thread that is not scheduled again. *)
Definition delivery_run_once (s : Dispatcher) : Thread bool :=
  result <~ dispatch_once s ;; t_ret match result with DR_IDLE => false | _ => true end.
Fixpoint serve_deliveries (s : Dispatcher) (n : nat) : Thread unit :=
  match n with
  | O => t_ret tt
  | S n' => t_finally (delivery_run_once s) (fun _ => serve_deliveries s n')
  end.
End Dispatch.

(** ** Any number of threads, beside everything else *)
Abbreviation Request := (DeliveryId * MessagingRoute * str)%type.
Record Pool : Type := mkPool { po_world : World; po_threads : list (Thread unit); po_sent : list Request }.
Inductive Turn : Type :=
| Elsewhere (o : app_op)
| Starts (s : Dispatcher) (rounds : nat)
| Proceeds (i : nat) (answer : option TransportResult).

Section Turns.
Context `{Env} `{FloatPow} `{Digest} `{Calendar}.

Definition turn (p : Pool) (e : Turn) : Pool :=
  let 'mkPool w ths sent := p in
  match e with
  | Elsewhere o => mkPool (snd (app_exec o w)) ths sent
  | Starts s rounds => mkPool w (ths ++ [serve_deliveries s rounds]) sent
  | Proceeds i answer =>
      match ths !! i with
      | Some (Transaction m k) => let '(r, w') := m w in mkPool w' (<[i := k r]> ths) sent
      | Some (Sending d route body k) => mkPool w (<[i := k answer]> ths) (sent ++ [(d, route, body)])
      | Some (Finished _) | None => p
      end
  end.
Definition pool_run (es : list Turn) (w : World) : Pool := foldl turn (mkPool w [] []) es.
End Turns.

Definition sends_of (d : DeliveryId) (sent : list Request) : nat :=
  length (filter (fun q => fst (fst q) = d) sent).

(** ** What a thread may do *)
Section Proper.
Context `{Env} `{FloatPow} `{Digest} `{Calendar}.

(** Any number of use cases later *)
Definition after (w w' : World) : Prop :=
  reachable w' /\ goes (deliveries_of (durable w)) (deliveries_of (durable w')).
Lemma after_refl w : reachable w -> after w w.
Proof. by split. Qed.
Lemma after_trans w1 w2 w3 : after w1 w2 -> after w2 w3 -> after w1 w3.
Proof. intros [_ G1] [R G2]. split; [done|by etrans]. Qed.
Lemma after_op {A} (m : U A) o w :
  (forall w, snd (m w) = snd (app_exec o w)) -> reachable w -> after w (snd (m w)).
Proof.
  intros Em Hr. rewrite Em. split; [by apply reach_op|]. by apply (step_sound _ o w Hr (reachable_kept w Hr)).
Qed.

(** The boundary of [d] has been crossed. *)
Definition crossed (d : DeliveryId) (w : World) : bool :=
  match db_deliveries (durable w) !! d with Some x => not_none (od_dispatch_started_at x) | None => false end.
Lemma crossed_after d w w' : after w w' -> crossed d w = true -> crossed d w' = true.
Proof.
  unfold crossed. intros [_ [Hg _]]. destruct (db_deliveries (durable w) !! d) as [x|] eqn:E; [|done].
  destruct (Hg d x E) as (x' & E' & _ & _ & Hm & _). cbn in E'. rewrite E'.
  destruct (od_dispatch_started_at x) as [t|]; [|done]. by rewrite (Hm t eq_refl).
Qed.

(** What is sent is the stored content, over the route it was created for. *)
Definition fits (q : Request) (w : World) : Prop :=
  let '(d, route, body) := q in
  exists x, db_deliveries (durable w) !! d = Some x /\ od_body x = body /\ rt_enabled route = true /\
    od_route_id x = rt_route_id route /\ od_route_fingerprint x = rt_fingerprint route.
Lemma fits_after q w w' : after w w' -> fits q w -> fits q w'.
Proof.
  destruct q as [[d route] body]. intros [_ [Hg _]] (x & E & Hb & He & Hi & Hf).
  destruct (Hg d x E) as (x' & E' & Ha & _). exists x'. split; [done|]. unfold od_authority in Ha.
  simplify_eq. split_and!; [congruence|done|congruence|congruence].
Qed.

(** A thread holds a licence to send at most one delivery.  It gets one by crossing the
    boundary of a delivery that nobody had crossed, and spends it by sending. *)
Definition earns (l l' : option DeliveryId) (w w' : World) : Prop :=
  match l' with
  | None => True
  | Some d => l = Some d \/ crossed d w = false /\ crossed d w' = true
  end.
Fixpoint proper {A} (l : option DeliveryId) (w : World) (th : Thread A) : Prop :=
  match th with
  | Finished _ => True
  | Transaction m k => forall w1, after w w1 ->
      let '(r, w2) := m w1 in
      after w1 w2 /\ exists l', earns l l' w1 w2 /\ proper l' w2 (k r)
  | Sending d route body k =>
      l = Some d /\ fits (d, route, body) w /\ forall answer, proper None w (k answer)
  end.

Lemma proper_after {A} l w w' (th : Thread A) : after w w' -> proper l w th -> proper l w' th.
Proof.
  intros Ha. revert l. induction th as [r|B m k IH|d route body k IH]; intros l Hp; cbn in *; [done| |].
  - intros w1 Hw1. apply Hp. by eapply after_trans.
  - destruct Hp as (-> & Hf & Hk). split; [done|]. split; [by eapply (fits_after (d, route, body))|].
    intros answer. by apply IH.
Qed.
Lemma proper_licensed {A} l w (th : Thread A) : proper None w th -> proper l w th.
Proof.
  destruct th as [r|B m k|d route body k]; cbn; [done| |by intros [? _]]. intros Hp w1 Hw1. specialize (Hp w1 Hw1).
  destruct (m w1) as [r w2]. destruct Hp as (Ha & l' & He & Hk). split; [done|]. exists l'. split; [|done].
  destruct l' as [d|]; [|done]. destruct He as [He|He]; [done|by right].
Qed.
Lemma proper_finally {A B} l w (m : Thread A) (k : res A -> Thread B) :
  reachable w -> proper l w m -> (forall r w', after w w' -> proper None w' (k r)) -> proper l w (t_finally m k).
Proof.
  intros Hr Hm Hk.
  assert (Hg : forall w', after w w' -> proper l w' m -> proper l w' (t_finally m k)); [|by apply Hg, Hm; apply after_refl].
  clear Hm Hr. revert l. induction m as [r|C m k' IH|d route body k' IH]; intros l w' Ha Hm; cbn in *.
  - by apply proper_licensed, Hk.
  - intros w1 Hw1. specialize (Hm w1 Hw1). destruct (m w1) as [r w2]. destruct Hm as (Ha2 & l' & He & Hm).
    split; [done|]. exists l'. split; [done|]. apply IH; [|done]. by eapply after_trans, after_trans.
  - destruct Hm as (-> & Hf & Hm). split; [done|]. split; [done|]. intros answer. by apply IH.
Qed.
(** A transaction that crosses no boundary *)
Lemma proper_transaction {A B} w (m : U B) (k : res B -> Thread A) :
  (forall w, reachable w -> after w (snd (m w))) ->
  (forall w1, after w w1 -> proper None (snd (m w1)) (k (fst (m w1)))) -> proper None w (Transaction m k).
Proof.
  intros Hm Hk w1 Hw1. specialize (Hm w1 (proj1 Hw1)). specialize (Hk w1 Hw1). destruct (m w1) as [r w2].
  split; [done|]. by exists None.
Qed.
Lemma proper_then {A B} w (m : U B) (f : B -> Thread A) :
  (forall w, reachable w -> after w (snd (m w))) ->
  (forall w1 b, after w w1 -> fst (m w1) = Ok b -> proper None (snd (m w1)) (f b)) ->
  proper None w (b <~ transact m ;; f b).
Proof.
  intros Hm Hf. apply (proper_transaction w m); [done|]. intros w1 Hw1. specialize (Hf w1).
  destruct (fst (m w1)) as [b|e]; [|done]. by apply Hf.
Qed.
End Proper.

(** ** The dispatcher *)
Section Dispatching.
Context `{Env} `{FloatPow} `{Digest} `{Calendar}.

Lemma load_reads i w : reachable w ->
  snd (load_claimed_delivery i w) = w /\
  forall x, fst (load_claimed_delivery i w) = Ok (Some x) -> db_deliveries (durable w) !! i = Some x.
Proof.
  intros Hr. pose proof (proj2 (reachable_valid w Hr)) as Hs. destruct w as [d s n k]. unfold synced in Hs. cbn in Hs. subst s.
  unfold load_claimed_delivery, with_uow, bind, deliveries_get, db, gets, commit. cbn.
  destruct (integrity d); (split; [done|]); cbn; intros x; congruence.
Qed.
Lemma after_load i w : reachable w -> after w (snd (load_claimed_delivery i w)).
Proof. intros Hr. rewrite (proj1 (load_reads i w Hr)). by apply after_refl. Qed.
Lemma after_persist c o w : reachable w -> after w (snd (PersistDeliveryOutcome c o w)).
Proof. by apply (after_op _ (OpPersistDeliveryOutcome c o)). Qed.
Lemma after_begin c w : reachable w -> after w (snd (BeginDeliveryAttempt c w)).
Proof. apply (after_op _ (OpBeginDeliveryAttempt c)). intros w'. cbn [app_exec]. by rewrite discard_world. Qed.
Lemma after_claim p worker lease limit w :
  reachable w -> after w (snd (ClaimNextDelivery p worker lease limit w)).
Proof. apply (after_op _ (OpClaimNextDelivery p worker lease limit)). intros w'. cbn [app_exec]. by rewrite discard_world. Qed.

Lemma proper_persist c o result w : proper None w (persist_or_lost c o result).
Proof.
  apply proper_transaction; [apply after_persist|]. intros w1 _. by destruct (PersistDeliveryOutcome c o w1) as [[?|[]] ?].
Qed.
Lemma resolved_route routes x route : resolve_message_route routes x = inl route ->
  rt_enabled route = true /\ od_route_id x = rt_route_id route /\ od_route_fingerprint x = rt_fingerprint route.
Proof.
  unfold resolve_message_route. destruct (List.find _ routes) as [r|] eqn:E; [|done].
  apply find_some in E as [_ Hi]. apply bool_decide_eq_true in Hi.
  destruct (rt_enabled r) eqn:He; cbn [negb]; [|done]. case_bool_decide as Hf; cbn [negb]; [|done]. by intros [= <-].
Qed.
(** Sending needs the licence that crossing the boundary gives. *)
Lemma proper_begin {A} c w (sends idle : Thread A) :
  proper (Some (dc_delivery_id c)) w sends -> proper None w idle ->
  proper None w (begun <~ or_claim_lost false (_ <~ transact (BeginDeliveryAttempt c) ;; t_ret true) ;;
                 if negb begun then idle else sends).
Proof.
  intros Hs Hi w1 Hw1. pose proof (after_begin c w1 (proj1 Hw1)) as Ha.
  pose proof (begin_crosses c w1) as Hb. destruct (BeginDeliveryAttempt c w1) as [[t|e] w2]; cbn [snd] in Ha.
  - split; [done|]. exists (Some (dc_delivery_id c)). destruct (Hb t w2 eq_refl) as (x & x' & Hx & Hn & Hx' & Ht).
    split; [right; unfold crossed; by rewrite Hx, Hx', Hn, Ht|]. cbn. eapply proper_after, Hs. by eapply after_trans.
  - split; [done|]. exists None. split; [done|]. destruct e; cbn; try done.
    eapply proper_after, Hi. by eapply after_trans.
Qed.
Lemma proper_dispatch s w : proper None w (dispatch_once s).
Proof.
  unfold dispatch_once. apply proper_then; [intros; by apply after_claim|]. intros w1 [c|] Hw1 _; [|done].
  apply proper_then; [apply after_load|]. intros w2 [x|] Hw2 El; [|done].
  destruct (load_reads (dc_delivery_id c) w2 (proj1 Hw2)) as [-> Hl]. specialize (Hl x El).
  destruct (not_none _); [apply proper_persist|].
  destruct (resolve_message_route _ x) as [route|[code message]] eqn:Er; [|apply proper_persist].
  apply resolved_route in Er as (He & Hi & Hf). apply proper_begin; [|done].
  split; [done|]. split; [by exists x|]. intros answer. destruct (outcome_of_result answer). apply proper_persist.
Qed.
Lemma proper_serve s n w : reachable w -> proper None w (serve_deliveries s n).
Proof.
  revert w. induction n as [|n IH]; intros w Hr; [done|]. cbn [serve_deliveries].
  apply proper_finally; [done| |intros r w' Hw'; apply IH, Hw'].
  apply proper_finally; [done|apply proper_dispatch|]. by intros [] w' _.
Qed.

(** ** The licences of a pool *)
Definition licences (d : DeliveryId) (ls : list (option DeliveryId)) : nat :=
  length (filter (fun l => l = Some d) ls).
Lemma licences_cons d l ls : licences d (l :: ls) = (licences d [l] + licences d ls)%nat.
Proof. unfold licences. rewrite !filter_cons. by destruct (decide _). Qed.
Lemma licences_one d l : licences d [l] = if decide (l = Some d) then 1%nat else 0%nat.
Proof. unfold licences. rewrite filter_cons. by destruct (decide _). Qed.
Lemma licences_insert d ls i l l' : ls !! i = Some l ->
  (licences d (<[i := l']> ls) + licences d [l] = licences d ls + licences d [l'])%nat.
Proof.
  revert i. induction ls as [|l0 ls IH]; intros [|i] Hi; try done; cbn in Hi.
  - injection Hi as ->. change (<[0%nat := l']> (l :: ls)) with (l' :: ls).
    rewrite (licences_cons d l' ls), (licences_cons d l ls). lia.
  - specialize (IH i Hi). change (<[S i := l']> (l0 :: ls)) with (l0 :: <[i := l']> ls).
    rewrite (licences_cons d l0 (<[i := l']> ls)), (licences_cons d l0 ls). lia.
Qed.
Lemma licences_app d ls l : licences d (ls ++ [l]) = (licences d ls + licences d [l])%nat.
Proof. unfold licences. by rewrite filter_app, length_app. Qed.
Lemma sends_app d sent q : sends_of d (sent ++ [q]) = (sends_of d sent + sends_of d [q])%nat.
Proof. unfold sends_of. by rewrite filter_app, length_app. Qed.
Lemma sends_one d q : sends_of d [q] = if decide (fst (fst q) = d) then 1%nat else 0%nat.
Proof. unfold sends_of. rewrite filter_cons. by destruct (decide _). Qed.
Definition mark (b : bool) : nat := if b then 1 else 0.

(** Licences and sends together are paid for by crossings since the pool started. *)
Record pool_ok (w0 : World) (p : Pool) (ls : list (option DeliveryId)) : Prop := {
  pk_after : after w0 (po_world p);
  pk_proper : Forall2 (fun l th => proper l (po_world p) th) ls (po_threads p);
  pk_paid : forall d, (licences d ls + sends_of d (po_sent p) + mark (crossed d w0) <= mark (crossed d (po_world p)))%nat;
  pk_fits : Forall (fun q => fits q (po_world p)) (po_sent p) }.

Lemma proper_all w w' ls ths : after w w' ->
  Forall2 (fun l th => proper (A := unit) l w th) ls ths -> Forall2 (fun l th => proper l w' th) ls ths.
Proof. intros Ha Hp. eapply Forall2_impl; [done|]. intros l th. by apply proper_after. Qed.
Lemma fits_all w w' sent : after w w' -> Forall (fun q => fits q w) sent -> Forall (fun q => fits q w') sent.
Proof. intros Ha Hf. eapply Forall_impl; [done|]. intros q. by apply fits_after. Qed.
Lemma mark_after d w w' : after w w' -> (mark (crossed d w) <= mark (crossed d w'))%nat.
Proof. intros Ha. pose proof (crossed_after d w w' Ha) as Hc. destruct (crossed d w); cbn; [|lia]. by rewrite Hc. Qed.

(** The world moved on without the pool. *)
Lemma pool_elsewhere w0 w w' ths sent ls :
  after w w' -> pool_ok w0 (mkPool w ths sent) ls -> pool_ok w0 (mkPool w' ths sent) ls.
Proof.
  intros Ha [Hw Hp Hd Hf]. cbn [po_world po_threads po_sent] in *. split; cbn [po_world po_threads po_sent]; [by eapply after_trans|by eapply proper_all| |by eapply fits_all].
  intros d. pose proof (mark_after d _ _ Ha). specialize (Hd d). lia.
Qed.
Lemma pool_starts w0 w ths sent ls th :
  proper None w th -> pool_ok w0 (mkPool w ths sent) ls -> pool_ok w0 (mkPool w (ths ++ [th]) sent) (ls ++ [None]).
Proof.
  intros Ht [Hw Hp Hd Hf]. cbn [po_world po_threads po_sent] in *. split; cbn [po_world po_threads po_sent]; [done|by apply Forall2_app; [|constructor]| |done].
  intros d. rewrite licences_app, licences_one, decide_False by done. specialize (Hd d). lia.
Qed.
Lemma pool_transaction w0 w ths sent ls i B (m : U B) k :
  ths !! i = Some (Transaction m k) -> pool_ok w0 (mkPool w ths sent) ls ->
  exists ls', pool_ok w0 (mkPool (snd (m w)) (<[i := k (fst (m w))]> ths) sent) ls'.
Proof.
  intros Hi [Hw Hp Hd Hf]. cbn [po_world po_threads po_sent] in *. destruct (Forall2_lookup_r _ _ _ _ _ Hp Hi) as (l & Hl & Ht).
  specialize (Ht w (after_refl w (proj1 Hw))). destruct (m w) as [r w2]. destruct Ht as (Ha & l' & He & Ht).
  exists (<[i := l']> ls). split; cbn [po_world po_threads po_sent snd fst]; [by eapply after_trans| | |by eapply fits_all].
  - apply Forall2_insert; [by eapply proper_all|done].
  - intros d. pose proof (licences_insert d ls i l l' Hl) as E. pose proof (mark_after d _ _ Ha). specialize (Hd d).
    rewrite !licences_one in E. destruct (decide (l' = Some d)) as [->|]; [|lia]. destruct (decide (l = Some d)); [lia|].
    destruct He as [->|[Hn Hy]]; [done|]. rewrite Hn in Hd. rewrite Hy. cbn in *. lia.
Qed.
Lemma pool_sending w0 w ths sent ls i d route body k answer :
  ths !! i = Some (Sending d route body k) -> pool_ok w0 (mkPool w ths sent) ls ->
  pool_ok w0 (mkPool w (<[i := k answer]> ths) (sent ++ [(d, route, body)])) (<[i := None]> ls).
Proof.
  intros Hi [Hw Hp Hd Hf]. cbn [po_world po_threads po_sent] in *. destruct (Forall2_lookup_r _ _ _ _ _ Hp Hi) as (l & Hl & -> & Hfit & Ht).
  split; cbn [po_world po_threads po_sent]; [done| | |].
  - by apply Forall2_insert.
  - intros d'. pose proof (licences_insert d' ls i _ None Hl) as E. specialize (Hd d').
    rewrite (sends_app d' sent (d, route, body)), sends_one. rewrite !licences_one in E. cbn [fst].
    destruct (decide (d = d')) as [->|].
    + rewrite decide_True, decide_False in E by done. lia.
    + rewrite !decide_False in E by congruence. lia.
  - apply Forall_app. split; [done|]. by apply Forall_singleton.
Qed.

Lemma pool_turn w0 p ls e : pool_ok w0 p ls -> exists ls', pool_ok w0 (turn p e) ls'.
Proof.
  destruct p as [w ths sent], e as [o|s rounds|i answer]; intros Hp; cbn [turn].
  - exists ls. eapply pool_elsewhere; [|done]. apply (after_op (app_exec o) o); [done|]. apply (pk_after _ _ _ Hp).
  - exists (ls ++ [None]). apply pool_starts; [|done]. apply proper_serve. apply (pk_after _ _ _ Hp).
  - destruct (ths !! i) as [[r|B m k|d route body k]|] eqn:Ei; try by exists ls.
    + destruct (pool_transaction _ _ _ _ _ _ _ _ _ Ei Hp) as [ls' Hp']. exists ls'. by destruct (m w).
    + eexists. by eapply pool_sending.
Qed.
Lemma pool_turns w0 es p ls : pool_ok w0 p ls -> exists ls', pool_ok w0 (foldl turn p es) ls'.
Proof.
  revert p ls. induction es as [|e es IH]; intros p ls Hp; [by exists ls|]. destruct (pool_turn _ _ _ e Hp) as [ls' Hp'].
  by apply (IH _ ls').
Qed.
Lemma pool_start w : reachable w -> pool_ok w (mkPool w [] []) [].
Proof. intros Hr. split; cbn; [by apply after_refl|constructor|done|constructor]. Qed.
End Dispatching.

(** ** Properties *)

(** C16: no delivery is sent twice.  Start any number of delivery threads, each of any
    number of rounds of [dispatch_once], beside any use cases of everybody else, and let
    them take their steps in any order, stop anywhere and get any answers or exceptions
    from the transport, with claims expiring and being recovered at any point: the
    transport is called at most once for a delivery, only after the durable dispatch
    boundary of that delivery has been crossed, and never if it had been crossed before
    the threads started; and what it is called with is the stored body of the delivery
    over an enabled route with the identity and the fingerprint the delivery was created
    for. *)
Theorem at_most_one_send `{Env} `{FloatPow} `{Digest} `{Calendar} w es :
  reachable w ->
  let p := pool_run es w in
  (forall d, (sends_of d (po_sent p) <= 1)%nat /\
     (crossed d w = true -> sends_of d (po_sent p) = 0%nat) /\
     (crossed d (po_world p) = false -> sends_of d (po_sent p) = 0%nat)) /\
  Forall (fun q => fits q (po_world p)) (po_sent p).
Proof.
  intros Hr p. destruct (pool_turns w es _ _ (pool_start w Hr)) as [ls [_ _ Hd Hf]]. split; [|exact Hf].
  intros d. specialize (Hd d). fold (pool_run es w) in Hd. fold p in Hd. unfold mark in Hd.
  destruct (crossed d w), (crossed d (po_world p)); split_and!; try done; try lia.
Qed.

(** Two workers, one delivery: the first claims it and crosses the boundary, its lease
    runs out and the second parks the delivery, and only then does the first send. *)
Definition toy_dispatcher (worker : string) : Dispatcher :=
  mkDispatcher (mkPolicy 3 10 (1, 0) 100) (u worker) 3 5 [toy_route].
Definition toy_turns : list Turn :=
  [Elsewhere (OpSendMessage toy_route (u "hello") None (toy_id 1) (toy_id 2));
   Starts (toy_dispatcher "w1") 2; Starts (toy_dispatcher "w2") 2; Proceeds 0 None; Proceeds 0 None; Proceeds 0 None;
   Elsewhere (OpCreateTask (u "wait") (u "")); Elsewhere (OpCreateTask (u "wait") (u ""));
   Proceeds 1 None; Proceeds 0 (Some (mkTransportResult TO_DELIVERED None)); Proceeds 0 None; Proceeds 0 None; Proceeds 1 None].
Definition toy_pool (n : nat) : Pool := @pool_run toy_env toy_pow toy_digest toy_calendar (take n toy_turns) empty_world.
Lemma at_most_one_send_witness :
  map (fun p => od_status (snd p)) (map_to_list (db_deliveries (durable (po_world (toy_pool 9))))) = [DAMBIGUOUS] /\
  po_sent (toy_pool 9) = [] /\ po_sent (toy_pool 13) = [(toy_id 0, toy_route, u "hello")] /\
  fits (toy_id 0, toy_route, u "hello") (po_world (toy_pool 13)).
Proof.
  split; [by vm_compute|]. split; [by vm_compute|].
  assert (Hs : po_sent (toy_pool 13) = [(toy_id 0, toy_route, u "hello")]) by by vm_compute. split; [exact Hs|].
  pose proof (@at_most_one_send toy_env toy_pow toy_digest toy_calendar empty_world (take 13 toy_turns)
    (toy_delivery_reachable 0)) as [_ Hf].
  change (pool_run _ _) with (toy_pool 13) in Hf. rewrite Hs in Hf. exact (Forall_inv Hf).
Defined.
