(* ===== verification/ConversationHistory.v ===== *)
(** * Skills and conversations over whole histories

    The skills of a run are chosen once: whatever happens between two
    resolutions, they return the same frozen bindings.  A client turn becomes one
    task and one run, however often it is submitted. *)

From S2P Require Import Prelude Values RunEntity TaskEntity StepEntity ToolEntity ApprovalEntity.
From S2P Require Import EventEntity ScheduleEntity ScheduleDelivery Canonical RetryPolicy.
From S2P Require Import DelegationEntity WorkQueue AgentEntity WorkflowExecutionEntity SkillEntity ConversationEntity.
From S2P Require Import Tables Store Transactions SkillStore Lifecycle RunUseCases TaskUseCases ScheduleUseCases.
From S2P Require Import SkillUseCases ConversationUseCases System EventLogs Rows RowHistory.

Open Scope Z_scope.

(** ** Resolving skills *)
Definition Resolved : Type := gmap RunId Run * gmap RunId RunSkillResolution * list RunSkillBinding.
Definition resolved_of (d : Db) : Resolved := (db_runs d, db_skill_resolutions d, db_skill_bindings d).
#[global] Instance resolved_view : View resolved_of.
Proof. by intros q []. Qed.
Definition bindings_of (r : RunId) (v : Resolved) : list RunSkillBinding :=
  filter (fun b => id_eqb (sb_run_id b) r = true) v.2.
Definition listed (r : RunId) (v : Resolved) : list RunSkillBinding :=
  order_by (fun b => [sb_position b]) (bindings_of r v).
(** The run is resolved, to these skills. *)
Definition resolved_to (r : RunId) (bs : list RunSkillBinding) (v : Resolved) : Prop :=
  v.1.2 !! r <> None /\ bs ≡ₚ bindings_of r v.
Lemma listed_resolved r v : v.1.2 !! r <> None -> resolved_to r (listed r v) v.
Proof. intros Hr. split; [done|]. apply order_by_perm. Qed.

Section Resolving.
Context `{Env} `{Digest} (D : Db) (HM : bindings_marked D) (HR : forall i x, db_runs D !! i = Some x -> run_id x = i).

Lemma steps_add_resolution x c t v :
  steps resolved_of D (fun v' => v' = v) (skill_resolutions_add_if_claimed x c t)
    (fun added v' => if added then v.1.2 !! sr_run_id x = None /\ v' = (v.1.1, <[sr_run_id x := x]> v.1.2, v.2)
                     else v' = v).
Proof.
  intros w Hw Hv. unfold skill_resolutions_add_if_claimed, db, gets, upd, modify, bind, ret.
  destruct (_ && _) eqn:E; [|done]. apply andb_prop in E as [_ En]. split; [done|]. rewrite <- Hv. cbn.
  by destruct (db_skill_resolutions (staged w) !! sr_run_id x).
Qed.
Lemma resolve_bindings_run r l : pure (resolve_bindings r l) (fun bs => forall b, b ∈ bs -> sb_run_id b = r).
Proof.
  induction l as [|t l IH]; cbn [resolve_bindings]; [apply pure_ret; by intros b ?%elem_of_nil|].
  do 4 p_skip. eapply pure_bind; [apply yields_lift|]. intros f Hf.
  eapply pure_bind; [exact IH|]. intros bs Hbs. apply pure_ret. intros b [->|Hb]%elem_of_cons; [|by apply Hbs].
  revert Hf. unfold RunSkillBinding_new. case_match; [done|]. by intros [= <-].
Qed.
Lemma same_resolve_bindings v r l : preserves (same resolved_of D v) (resolve_bindings r l).
Proof. induction l; cbn [resolve_bindings]; keeps_all. Qed.
#[local] Hint Resolve same_resolve_bindings : py.

(** The first resolution of a run *)
Lemma first_resolution v r bs x : v = resolved_of D -> v.1.2 !! r = None -> sr_run_id x = r ->
  (forall b, b ∈ bs -> sb_run_id b = r) -> resolved_to r bs (v.1.1, <[r := x]> v.1.2, v.2 ++ bs).
Proof.
  intros -> Hn <- Hbs. split; cbn; [by rewrite lookup_insert_eq|]. unfold bindings_of. cbn.
  rewrite filter_app, (filter_none _ (db_skill_bindings D)), filter_all; [done| |].
  - intros b Hb. apply bool_decide_eq_true. by apply Hbs.
  - intros b Hb E. apply bool_decide_eq_true in E. apply (HM b Hb). rewrite E. exact Hn.
Qed.
Lemma steps_need_run r v :
  steps resolved_of D (fun v' => v' = v) (need_run r) (fun run v' => v' = v /\ v.1.1 !! r = Some run).
Proof.
  intros w Hw Hv. unfold need_run, runs_get, need, db, gets, bind, ret, raise.
  destruct (db_runs (staged w) !! r) eqn:E; [|done]. split; [done|]. split; [done|]. by rewrite <- Hv.
Qed.
Lemma resolve_commits r c w : durable w = D ->
  match resolve_run_skills r c w with
  | (Ok bs, w') => resolved_to r bs (resolved_of (durable w'))
  | (Raise _, w') => durable w' = D
  end.
Proof.
  intros Hw. unfold resolve_run_skills. eapply (commits_with_uow _ _ (fun v => v = resolved_of D)); [done..|].
  eapply commits_bind; [apply steps_need_run|]. intros run. apply commits_fact. intros Hrun%HR.
  rewrite Hrun. c_skip. c_skip. c_skip.
  eapply commits_bind; [apply (steps_db _ _ _ _ (fun o v => v = resolved_of D /\ o = db_skill_resolutions D !! r))|].
  { intros d Hd. split; [done|]. injection Hd as _ Hm _. by rewrite Hm. }
  intros o. apply commits_fact. intros Ho. destruct o as [x|].
  - apply commits_db. intros d Hd. assert (Hl : resolved_to r (listed r (resolved_of D)) (resolved_of D))
      by (apply listed_resolved; cbn; by rewrite <- Ho). unfold listed in Hl. rewrite <- Hd in Hl at 1. exact Hl.
  - c_skip. c_know ltac:(apply resolve_bindings_run). intros bs Hbs. do 3 c_skip.
    eapply commits_bind; [apply steps_add_resolution|]. intros [|]; cbn [negb].
    + c_skip. eapply commits_bind; [apply (steps_upd _ _ _ _ (fun v => resolved_to r bs v))|].
      { intros d [_ Hd]. pose proof (first_resolution _ r bs (mkSkillResolution a3 r a4) eq_refl (eq_sym Ho) eq_refl Hbs) as Hf.
        replace (resolved_of _) with (db_runs d, db_skill_resolutions d, db_skill_bindings d ++ bs) by (by destruct d).
        injection Hd as -> -> ->. exact Hf. }
      intros []. do 3 c_skip. by apply commits_commit.
    + apply (commits_bind _ _ _ _ _ (fun _ _ => False)); [|by intros ? ? ? []].
      intros w' Hw' Hv. unfold bind, skill_resolutions_get, db, gets, raise_if, raise. by destruct (not_none _).
Qed.

(** Reading the winner of a race *)
Definition reload_winner (e : exn) (r : RunId) (c : Claim) : U (list RunSkillBinding) :=
  with_uow (
    t <- now ;;
    active <- on_queue (is_claim_active r c t) ;;
    raise_if (negb active) (ClaimLost "skill resolution claim is stale or expired") ;;;
    winner <- skill_resolutions_get r ;;
    match winner with
    | Some _ => skill_bindings_list_for_run r
    | None => raise e
    end).
Lemma read_listed r :
  steps resolved_of D (fun v => v = resolved_of D) (skill_bindings_list_for_run r)
    (fun bs v => bs = listed r (resolved_of D)).
Proof. apply steps_db. intros d Hd. unfold listed, bindings_of. by rewrite <- Hd. Qed.
Lemma read_marker r :
  steps resolved_of D (fun v => v = resolved_of D) (skill_resolutions_get r)
    (fun o v => v = resolved_of D /\ o = db_skill_resolutions D !! r).
Proof. apply steps_db. intros d Hd. split; [done|]. injection Hd as _ Hm _. by rewrite Hm. Qed.
Lemma reload_reads e r c w : durable w = D ->
  durable (snd (reload_winner e r c w)) = D /\
  forall bs, fst (reload_winner e r c w) = Ok bs -> resolved_to r bs (resolved_of D) /\ bs = listed r (resolved_of D).
Proof.
  intros Hw.
  assert (Hs : steps resolved_of D (fun v => v = resolved_of D)
    (t <- now ;; active <- on_queue (is_claim_active r c t) ;;
     raise_if (negb active) (ClaimLost "skill resolution claim is stale or expired") ;;;
     winner <- skill_resolutions_get r ;;
     match winner with Some _ => skill_bindings_list_for_run r | None => raise e end)
    (fun bs _ => resolved_to r bs (resolved_of D) /\ bs = listed r (resolved_of D))).
  { do 3 s_skip. eapply steps_bind; [apply read_marker|]. intros o. apply steps_fact. intros Ho.
    destruct o as [x|]; [|apply steps_raise]. eapply steps_mono; [apply read_listed|done|].
    cbn. intros bs v ->. split; [|done]. apply listed_resolved. cbn. by rewrite <- Ho. }
  destruct (steps_with_uow resolved_of D (fun v => v = resolved_of D) _ _ w Hw eq_refl Hs) as [Hd Hr].
  split; [exact Hd|]. intros bs E. by destruct (Hr bs E).
Qed.
(** Resolving a run that is resolved *)
Lemma resolve_again r c w : durable w = D -> db_skill_resolutions D !! r <> None ->
  durable (snd (resolve_run_skills r c w)) = D /\
  forall bs, fst (resolve_run_skills r c w) = Ok bs -> bs = listed r (resolved_of D).
Proof.
  intros Hw Hm. unfold resolve_run_skills.
  match goal with |- context [with_uow ?body w] => assert (Hs : steps resolved_of D (fun v => v = resolved_of D) body
    (fun bs _ => bs = listed r (resolved_of D))) end.
  { eapply steps_bind; [apply steps_need_run|]. intros run. apply steps_fact. intros Hrun%HR. rewrite Hrun.
    do 3 s_skip. eapply steps_bind; [apply read_marker|]. intros o. apply steps_fact. intros ->.
    destruct (db_skill_resolutions D !! r); [apply read_listed|done]. }
  destruct (steps_with_uow resolved_of D (fun v => v = resolved_of D) _ _ w Hw eq_refl Hs) as [Hd Hr].
  split; [exact Hd|]. intros bs E. by destruct (Hr bs E).
Qed.
End Resolving.

Section Histories.
Context `{Env} `{FloatPow} `{Digest} `{Calendar}.

Lemma reachable_run_ids w : reachable w -> forall i x, db_runs (durable w) !! i = Some x -> run_id x = i.
Proof. intros Hw i x Hx. by apply (reachable_rows_valid w Hw TbRun i x). Qed.

(** A resolution that returns has resolved the run, to what it returns. *)
Lemma resolved_by w r c bs w1 : reachable w -> ResolveRunSkills r c w = (Ok bs, w1) ->
  resolved_to r bs (resolved_of (durable w1)).
Proof.
  intros Hw. destruct (reachable_valid w Hw) as [[_ Hm] _]. unfold ResolveRunSkills, try_except.
  pose proof (resolve_commits (durable w) Hm (reachable_run_ids w Hw) r c w eq_refl) as Hr.
  destruct (resolve_run_skills r c w) as [[bs'|e] w'].
  - by intros [= <- <-].
  - destruct (is_entity_conflict e); [|done]. intros E.
    destruct (reload_reads (durable w') e r c w' eq_refl) as [Hd Hb]. unfold reload_winner in Hd, Hb.
    rewrite E in Hd, Hb. cbn in Hd, Hb. rewrite Hd. by apply Hb.
Qed.
(** Resolving it again reads what was frozen. *)
Lemma resolved_again w r c : reachable w -> db_skill_resolutions (durable w) !! r <> None ->
  durable (snd (ResolveRunSkills r c w)) = durable w /\
  forall bs, fst (ResolveRunSkills r c w) = Ok bs -> bs = listed r (resolved_of (durable w)).
Proof.
  intros Hw Hm. unfold ResolveRunSkills, try_except.
  destruct (resolve_again (durable w) (reachable_run_ids w Hw) r c w eq_refl Hm) as [Hd Hb].
  destruct (resolve_run_skills r c w) as [[bs|e] w']; cbn in Hd, Hb; [done|].
  destruct (is_entity_conflict e); [|done].
  destruct (reload_reads (durable w) e r c w' Hd) as [Hd' Hb']. unfold reload_winner in Hd', Hb'.
  split; [exact Hd'|]. intros bs E. by destruct (Hb' bs E).
Qed.
Lemma resolve_is_op r c w : snd (app_exec (OpResolveRunSkills r c) w) = snd (ResolveRunSkills r c w).
Proof. cbn [app_exec]. unfold discard, bind. by destruct (ResolveRunSkills r c w) as [[] ?]. Qed.

End Histories.

(** C20: A run's skills are chosen once.  When a worker has resolved the skills of a run,
    whatever happens afterwards (skills are activated, disabled, archived, the task is bound
    to other skills, the claim expires and other workers take over), the run keeps exactly
    these frozen bindings, and every later resolution of it, by any worker, writes nothing
    and either fails or returns the same bindings, in the order of their positions. *)
Theorem skills_resolved_once `{Env} `{FloatPow} `{Digest} `{Calendar} w r c bs w1 ops :
  reachable w -> ResolveRunSkills r c w = (Ok bs, w1) ->
  let w2 := run_history ops w1 in
  frozen_skills r (durable w2) ≡ₚ bs /\
  forall c', durable (snd (ResolveRunSkills r c' w2)) = durable w2 /\
    forall bs', fst (ResolveRunSkills r c' w2) = Ok bs' ->
      bs' = order_by (fun b => [sb_position b]) (frozen_skills r (durable w2)) /\ bs' ≡ₚ bs.
Proof.
  intros Hw E w2. destruct (resolved_by w r c bs w1 Hw E) as [Hm Hp].
  assert (Hw1 : reachable w1).
  { replace w1 with (snd (app_exec (OpResolveRunSkills r c) w)) by (by rewrite resolve_is_op, E). by apply reach_op. }
  cbn in Hm. destruct (db_skill_resolutions (durable w1) !! r) as [x|] eqn:Ex; [|done].
  destruct (history_skills w1 ops r x Hw1 Ex) as [Ex2 Ef].
  assert (Hperm : frozen_skills r (durable w2) ≡ₚ bs) by (unfold w2; rewrite Ef; by symmetry).
  split; [done|]. intros c'.
  destruct (resolved_again w2 r c' (run_history_reachable _ _ Hw1)) as [Hd Hb]; [unfold w2; by rewrite Ex2|].
  split; [done|]. intros bs' E'. rewrite (Hb bs' E'). split; [done|]. etrans; [apply order_by_perm|exact Hperm].
Qed.

(** A skill is bound, resolved by the first worker, and archived and unbound later. *)
Definition toy_skill_ops : list app_op :=
  [OpCreateTask (u "buy milk") (u ""); OpStartRun (toy_id 0); OpCreateSkill (u "shop.list") (u "Shopping") (u "");
   OpCreateSkillRevision (toy_id 3) (u "Buy local.") SS_OPERATOR; OpActivateSkillRevision (toy_id 3) (toy_id 4);
   OpReplaceTaskSkills (toy_id 0) [toy_id 3]; OpClaimNextRun (u "w1") 1000 5].
Definition toy_skilled : World :=
  @run_history toy_env toy_pow toy_digest toy_calendar toy_skill_ops empty_world.
Definition toy_claim : Claim := mkClaim (u "w1") (u "id-5") 1.
Lemma skills_resolved_once_witness :
  let resolve := @ResolveRunSkills toy_env (toy_id 1) toy_claim in
  let later := @run_history toy_env toy_pow toy_digest toy_calendar
    [OpArchiveSkill (toy_id 3); OpReplaceTaskSkills (toy_id 0) []] (snd (resolve toy_skilled)) in
  let frozen := [mkSkillBinding (toy_id 1) (toy_id 3) (toy_id 4) 1] in
  fst (resolve toy_skilled) = Ok frozen /\ fst (resolve later) = Ok frozen /\
  frozen_skills (toy_id 1) (durable later) ≡ₚ frozen.
Proof.
  cbv zeta. split; [vm_compute; reflexivity|]. split; [vm_compute; reflexivity|].
  refine (proj1 (@skills_resolved_once toy_env toy_pow toy_digest toy_calendar toy_skilled (toy_id 1) toy_claim _
    (snd (@ResolveRunSkills toy_env (toy_id 1) toy_claim toy_skilled)) _ _ _)).
  - apply run_history_reachable. apply reach_init. reflexivity.
  - etrans; [apply surjective_pairing|]. apply (f_equal (fun x => (x, _))). vm_compute. reflexivity.
Defined.

(** ** Turns *)
(** What identifies a submission, and what it says *)
Definition submission_key (c : SubmitConversationTurnCommand) : ConversationId * str :=
  (sub_conversation_id c, strip (sub_client_turn_id c)).
Definition submission_payload (c : SubmitConversationTurnCommand) : str * ConversationInputMode * option str :=
  (strip (sub_input_text c), sub_input_mode c, option_map strip (sub_recognition_language c)).
(** The turn a command stands for, given the ids and the time that were drawn *)
Definition turn_of (c : SubmitConversationTurnCommand) (x : ConversationTurn) : res ConversationTurn :=
  ConversationTurn_new (ct_id x) (sub_conversation_id c) (strip (sub_client_turn_id c)) (sub_input_text c)
    (sub_input_mode c) (sub_recognition_language c) (ct_task_id x) (ct_run_id x) (utc (ct_created_at x)).

Lemma turn_bounded_strip v n : turn_bounded (strip v) n = turn_bounded v n.
Proof. unfold turn_bounded. by rewrite strip_idem. Qed.
(** The constructor sees only what a command says. *)
Lemma turn_of_canonical c c' x :
  submission_key c' = submission_key c -> submission_payload c' = submission_payload c -> turn_of c' x = turn_of c x.
Proof.
  unfold submission_key, submission_payload, turn_of, ConversationTurn_new. intros [= -> ->] [= Ht -> Hl].
  assert (El : turn_language (sub_recognition_language c') = turn_language (sub_recognition_language c)).
  { unfold turn_language. destruct (sub_recognition_language c'), (sub_recognition_language c); cbn in Hl; try done.
    injection Hl as Hl. by rewrite <- turn_bounded_strip, Hl, turn_bounded_strip. }
  assert (Et : forall n, turn_bounded (sub_input_text c') n = turn_bounded (sub_input_text c) n)
    by (intros n; by rewrite <- turn_bounded_strip, Ht, turn_bounded_strip).
  by rewrite El, Et.
Qed.
Lemma turn_of_ok c x y : turn_of c x = Ok y ->
  ct_id y = ct_id x /\ (ct_conversation_id y, ct_client_turn_id y) = submission_key c /\
  (ct_input_text y, ct_input_mode y, ct_recognition_language y) = submission_payload c /\
  ct_task_id y = ct_task_id x /\ ct_run_id y = ct_run_id x /\ ct_created_at y = ct_created_at x.
Proof.
  unfold turn_of, ConversationTurn_new, submission_key, submission_payload.
  destruct (turn_language _) as [l|] eqn:El; cbn [res_bind]; [|done].
  destruct (turn_bounded (strip _) _) as [k|] eqn:Ek; cbn [res_bind]; [|done].
  destruct (turn_bounded (sub_input_text c) _) as [t|] eqn:Et; cbn [res_bind]; [|done].
  apply turn_bounded_ok in Ek as [-> _], Et as [-> _]. rewrite ensure_utc_utc. cbn. intros [= <-]. cbn.
  rewrite strip_idem. repeat split. repeat f_equal.
  destruct (sub_recognition_language c) as [v|]; cbn in El |- *; [|by injection El as <-].
  destruct (turn_bounded v _) as [v'|] eqn:Ev; [|done]. apply turn_bounded_ok in Ev as [-> _]. by injection El as <-.
Qed.

Lemma turn_of_self c y x : turn_of c y = Ok x -> turn_of c x = Ok x.
Proof. intros E. destruct (turn_of_ok c y x E) as (Hi & _ & _ & Ht & Hr & Hc). unfold turn_of in *. by rewrite Hi, Ht, Hr, Hc. Qed.

Definition Spoken : Type := gmap ConversationId Conversation * gmap ConversationTurnId ConversationTurn.
Definition spoken_of (d : Db) : Spoken := (db_conversations d, db_turns d).
#[global] Instance spoken_view : View spoken_of.
Proof. by intros q []. Qed.
Definition turn_name (x : ConversationTurn) : ConversationId * str := (ct_conversation_id x, ct_client_turn_id x).
(** No client turn id is used twice in a conversation. *)
Definition turns_unique (t : gmap ConversationTurnId ConversationTurn) : Prop :=
  forall i j x y, t !! i = Some x -> t !! j = Some y -> turn_name x = turn_name y -> i = j.

Lemma turn_for_client_spec c k x : turn_for_client c k x = true <-> turn_name x = (c, k).
Proof.
  unfold turn_for_client, turn_name, id_eqb. rewrite andb_true_iff, !bool_decide_eq_true. split; [intros [-> ->]|intros [= -> ->]]; done.
Qed.
Lemma turn_found p d x : turn_where p d = Some x -> exists i, db_turns d !! i = Some x /\ p x = true.
Proof.
  intros [Hin Hp]%find_some. apply list_elem_of_In, list_elem_of_fmap in Hin as ([i y] & -> & Hi).
  apply elem_of_map_to_list in Hi. eauto.
Qed.
Lemma turn_not_found p d i x : turn_where p d = None -> db_turns d !! i = Some x -> p x = false.
Proof.
  intros Hn Hx. apply (find_none p _ Hn), list_elem_of_In, list_elem_of_fmap. exists (i, x). split; [done|].
  by apply elem_of_map_to_list.
Qed.
(** The turn of a client turn id is the one that is found. *)
Lemma turn_looked_up c k d i x : turns_unique (db_turns d) -> db_turns d !! i = Some x -> turn_name x = (c, k) ->
  turn_where (turn_for_client c k) d = Some x.
Proof.
  intros Hu Hx Hn. destruct (turn_where _ d) as [y|] eqn:E.
  - apply turn_found in E as (j & Hy & Hp%turn_for_client_spec).
    rewrite (Hu i j x y Hx Hy ltac:(by rewrite Hn, Hp)) in Hx. congruence.
  - apply turn_for_client_spec in Hn. by rewrite (turn_not_found _ _ _ _ E Hx) in Hn.
Qed.

(** [_assert_same_payload] lets a stored turn pass exactly when the command stands for it. *)
Lemma same_payload c x w : turn_name x = submission_key c ->
  (turn_of c x = Ok x -> assert_same_payload x c w = (Ok tt, w)) /\
  (forall a w', assert_same_payload x c w = (Ok a, w') -> turn_of c x = Ok x) /\
  snd (assert_same_payload x c w) = w.
Proof.
  intros Hn. unfold assert_same_payload. change (ConversationTurn_new _ _ _ _ _ _ _ _ _) with (turn_of c x).
  unfold lift, bind, raise_if. destruct (turn_of c x) as [y|e] eqn:E; [|done].
  destruct (turn_of_ok c x y E) as (Hi & Hk & Hp & Ht & Hr & Hc).
  split_and!.
  - intros [= ->]. by rewrite bool_decide_true.
  - case_bool_decide as Hb; [|done]. intros _ _ _. f_equal. destruct x, y; cbn in *. unfold turn_name in Hn. cbn in Hn.
    rewrite <- Hk in Hn. by simplify_eq.
  - by case_bool_decide.
Qed.

(** What a submission that returns leaves behind *)
Definition submitted (c : SubmitConversationTurnCommand) (r : SubmitConversationTurnResult) (v : Spoken) : Prop :=
  turns_unique v.2 /\ v.1 !! sub_conversation_id c <> None /\
  exists x, v.2 !! ct_id x = Some x /\ turn_of c x = Ok x /\ r = submit_result x (sub_deduplicated r).

Section Submitting.
Context `{Env} (D : Db) (HU : turns_unique (db_turns D)) (HT : forall i x, db_turns D !! i = Some x -> ct_id x = i).

Lemma steps_get_conversation c :
  steps spoken_of D (fun v => v = spoken_of D) (conversations_get c)
    (fun o v => v = spoken_of D /\ o = db_conversations D !! c).
Proof. apply steps_db. intros d Hd. split; [done|]. injection Hd as Hc _. by rewrite Hc. Qed.
Lemma steps_get_turn c k :
  steps spoken_of D (fun v => v = spoken_of D) (turns_get_by_client_turn_id c k)
    (fun o v => v = spoken_of D /\ o = turn_where (turn_for_client c k) D).
Proof. apply steps_db. intros d Hd. split; [done|]. injection Hd as _ Ht. unfold turn_where. by rewrite Ht. Qed.
Lemma steps_add_turn x :
  steps spoken_of D (fun v => v = spoken_of D) (turns_add x)
    (fun _ v => v = (db_conversations D, <[ct_id x := x]> (db_turns D)) /\ db_turns D !! ct_id x = None).
Proof.
  intros w Hw Hv. unfold turns_add, add_row, db, gets, upd, modify, bind, raise.
  injection Hv as Hc Ht. destruct (db_turns (staged w) !! ct_id x) eqn:E; [done|]. split; [done|]. cbn.
  rewrite <- Ht. split; [|done]. unfold spoken_of. cbn. by rewrite Hc, Ht.
Qed.
Lemma unique_insert x : db_turns D !! ct_id x = None ->
  (forall i y, db_turns D !! i = Some y -> turn_name y <> turn_name x) ->
  turns_unique (<[ct_id x := x]> (db_turns D)).
Proof.
  intros Hn Hx i j y z. rewrite !lookup_insert_Some. intros [[<- <-]|[Hi Hy]] [[<- <-]|[Hj Hz]] E; [done|..].
  - by destruct (Hx j z Hz).
  - by destruct (Hx i y Hy).
  - exact (HU i j y z Hy Hz E).
Qed.
Lemma submitted_before c x b : turn_of c x = Ok x -> db_turns D !! ct_id x = Some x ->
  db_conversations D !! sub_conversation_id c <> None -> submitted c (submit_result x b) (spoken_of D).
Proof. intros Hx Ht Hc. split; [done|]. split; [done|]. exists x. done. Qed.
Lemma materialize_commits c w : durable w = D ->
  match materialize_turn c w with
  | (Ok r, w') => submitted c r (spoken_of (durable w'))
  | (Raise _, w') => durable w' = D
  end.
Proof.
  intros Hw. unfold materialize_turn. eapply (commits_with_uow _ _ (fun v => v = spoken_of D)); [done..|].
  eapply commits_bind; [apply steps_get_conversation|]. intros o. apply commits_fact. intros Hc.
  eapply commits_know; [intros v; keeps_all|apply yields_need|]. intros conv ->.
  eapply commits_bind; [apply steps_get_turn|]. intros o. apply commits_fact. intros Ho.
  destruct o as [x|].
  - symmetry in Ho. apply turn_found in Ho as (i & Hx & Hp%turn_for_client_spec).
    assert (Hi := HT i x Hx). subst i.
    apply (commits_bind _ _ _ _ _ (fun _ v => v = spoken_of D /\ turn_of c x = Ok x)).
    { intros w' Hw' Hv. destruct (same_payload c x w' Hp) as (_ & Hok & Hst).
      destruct (assert_same_payload x c w') as [[a|e] w''] eqn:E; cbn in Hst; subst w''; [|done].
      split; [done|]. split; [done|]. by eapply Hok. }
    intros _. apply commits_fact. intros Hx'. apply commits_ret. apply submitted_before; [done|done|by rewrite <- Hc].
  - c_skip. c_skip. c_skip. c_skip. c_skip. c_skip. c_know ltac:(apply yields_lift). intros x Hx. cbn beta in Hx.
    change (turn_of c (mkTurn a4 (sub_conversation_id c) [] [] IM_TYPED None a3.1 a3.2 a) = Ok x) in Hx.
    destruct (turn_of_ok c _ x Hx) as (_ & Hk & _). apply turn_of_self in Hx.
    eapply commits_bind; [apply steps_add_turn|]. intros []. apply commits_fact. intros Hn.
    c_skip. destruct a5 as [conv' []].
    eapply commits_bind; [apply (steps_upd _ _ _ _ (fun v => submitted c (submit_result x false) v))|].
    { intros d Hd. replace (spoken_of _) with (<[cv_id conv' := conv']> (db_conversations d), db_turns d) by (by destruct d).
      injection Hd as -> ->. split; [|split].
      - apply unique_insert; [done|]. intros i y Hy Hne.
        pose proof (turn_not_found _ _ i y (eq_sym Ho) Hy) as Hf. apply not_true_iff_false in Hf. apply Hf.
        apply turn_for_client_spec. by rewrite Hne.
      - cbn. destruct (decide (cv_id conv' = sub_conversation_id c)) as [->|Hne];
          [by rewrite lookup_insert_eq|rewrite lookup_insert_ne by done; by rewrite <- Hc].
      - exists x. split; [apply lookup_insert_eq|done]. }
    intros []. by apply commits_commit.
Qed.
Lemma no_conversation c w : durable w = D -> db_conversations D !! sub_conversation_id c = None ->
  fst (materialize_turn c w) = Raise ConversationNotFound.
Proof.
  intros Hw Hn. unfold materialize_turn, with_uow, conversations_get, need, db, gets, bind, raise. cbn.
  by rewrite Hw, Hn.
Qed.
(** Looking the turn up again *)
Lemma existing_reads c w : durable w = D ->
  durable (snd (existing_turn c w)) = D /\
  match fst (existing_turn c w) with
  | Ok (Some r) => exists x, db_turns D !! ct_id x = Some x /\ turn_of c x = Ok x /\ r = submit_result x true
  | _ => True
  end.
Proof.
  intros Hw. unfold existing_turn, bind. destruct (with_uow _ w) as [[o|e] w'] eqn:E.
  - destruct (steps_with_uow spoken_of D (fun v => v = spoken_of D) _ _ w Hw eq_refl
      (steps_get_turn (sub_conversation_id c) (strip (sub_client_turn_id c)))) as [Hd Ho]. rewrite E in Hd, Ho. cbn in Hd.
    destruct (Ho o eq_refl) as (v & _ & Hf). destruct o as [x|]; [|by split].
    symmetry in Hf. apply turn_found in Hf as (i & Hx & Hp%turn_for_client_spec).
    assert (Hi := HT i x Hx). subst i. destruct (same_payload c x w' Hp) as (_ & Hok & Hst).
    destruct (assert_same_payload x c w') as [[a|e] w''] eqn:Ea; cbn in Hst; subst w''; [|by split].
    split; [done|]. exists x. split; [done|]. split; [by eapply Hok|done].
  - split; [|done]. destruct (steps_with_uow spoken_of D (fun v => v = spoken_of D) _ _ w Hw eq_refl
      (steps_get_turn (sub_conversation_id c) (strip (sub_client_turn_id c)))) as [Hd _]. by rewrite E in Hd.
Qed.
Lemma submit_commits c w : durable w = D ->
  match SubmitConversationTurn c w with
  | (Ok r, w') => submitted c r (spoken_of (durable w'))
  | (Raise _, w') => durable w' = D
  end.
Proof.
  intros Hw. unfold SubmitConversationTurn, try_except. pose proof (materialize_commits c w Hw) as Hm.
  pose proof (no_conversation c w Hw) as Hn. destruct (materialize_turn c w) as [[r|e] w']; [done|].
  destruct (is_entity_conflict e) eqn:Ee; [|done]. unfold bind.
  destruct (existing_reads c w' Hm) as [Hd Hr]. destruct (existing_turn c w') as [[[r|]|e'] w'']; cbn in Hd, Hr; [|done..].
  destruct Hr as (x & Hx & Hc & ->). cbn. rewrite Hd. apply submitted_before; [done|done|].
  intros Hnone. specialize (Hn Hnone). by injection Hn as ->.
Qed.

(** Submitting a turn that is stored *)
Lemma submit_again c x w : durable w = D -> db_turns D !! ct_id x = Some x -> turn_name x = submission_key c ->
  db_conversations D !! sub_conversation_id c <> None ->
  durable (snd (SubmitConversationTurn c w)) = D /\
  (turn_of c x = Ok x -> fst (SubmitConversationTurn c w) = Ok (submit_result x true)) /\
  (forall r, fst (SubmitConversationTurn c w) = Ok r -> r = submit_result x true /\ turn_of c x = Ok x).
Proof.
  intros Hw Hx Hk Hc. pose proof (turn_looked_up _ _ D _ x HU Hx Hk) as Hf.
  destruct (db_conversations D !! sub_conversation_id c) as [conv|] eqn:Ec; [|done].
  assert (Hm : forall w, durable w = D ->
    snd (materialize_turn c w) = mkWorld D D (draws w) (ticks w) /\
    fst (materialize_turn c w) = match fst (assert_same_payload x c (mkWorld D D (draws w) (ticks w))) with
                                 | Ok _ => Ok (submit_result x true) | Raise e => Raise e end).
  { clear w Hw. intros w Hw. unfold materialize_turn, with_uow, conversations_get, turns_get_by_client_turn_id, need,
      db, gets, bind, ret. cbn -[turn_where assert_same_payload]. rewrite Hw, Ec. cbn -[turn_where assert_same_payload]. rewrite Hf.
    destruct (same_payload c x (mkWorld D D (draws w) (ticks w)) Hk) as (_ & _ & Hst).
    by destruct (assert_same_payload x c _) as [[] w'']; cbn in Hst; subst w''. }
  assert (He : forall w, durable w = D -> turn_of c x <> Ok x ->
    durable (snd (existing_turn c w)) = D /\ exists e, fst (existing_turn c w) = Raise e).
  { intros w0 Hw0 Hne. unfold existing_turn, with_uow, turns_get_by_client_turn_id, db, gets, bind. cbn -[turn_where assert_same_payload]. rewrite Hw0, Hf.
    destruct (same_payload c x (mkWorld D D (draws w0) (ticks w0)) Hk) as (_ & Hok & Hst).
    destruct (assert_same_payload x c _) as [[a|e] w''] eqn:Ea; cbn in Hst; subst w''; [by destruct (Hne (Hok _ _ eq_refl))|].
    split; [done|]. by exists e. }
  unfold SubmitConversationTurn, try_except. destruct (Hm w Hw) as [Hs Hr].
  destruct (same_payload c x (mkWorld D D (draws w) (ticks w)) Hk) as (Hyes & Hok & _).
  destruct (materialize_turn c w) as [o w'] eqn:Emat. cbn [fst snd] in Hs, Hr. subst w' o.
  destruct (assert_same_payload x c (mkWorld D D (draws w) (ticks w))) as [[a|e] wa] eqn:Ea; cbn.
  - split; [done|]. split; [done|]. intros r [= <-]. split; [done|]. by eapply Hok.
  - assert (Hne : turn_of c x <> Ok x) by (intros Ho; by specialize (Hyes Ho)).
    destruct (is_entity_conflict e); [|done]. unfold bind.
    destruct (He (mkWorld D D (draws w) (ticks w)) eq_refl Hne) as [Hd [e' Hr]].
    by destruct (existing_turn c _) as [[] w'']; cbn in Hd, Hr.
Qed.
End Submitting.

Section TurnHistories.
Context `{Env} `{FloatPow} `{Digest} `{Calendar}.

Lemma reachable_turn_ids w : reachable w -> forall i x, db_turns (durable w) !! i = Some x -> ct_id x = i.
Proof. intros Hw i x Hx. by apply (reachable_rows_valid w Hw TbTurn i x). Qed.
Lemma submit_is_op c w : snd (app_exec (OpSubmitConversationTurn c) w) = snd (SubmitConversationTurn c w).
Proof. cbn [app_exec]. unfold discard, bind. by destruct (SubmitConversationTurn c w) as [[] ?]. Qed.
Lemma reachable_turns_unique w : reachable w -> turns_unique (db_turns (durable w)).
Proof.
  intros Hr. enough (turns_unique (db_turns (durable w)) /\ reachable w) by tauto. revert w Hr. apply reach_invariant.
  { intros w ->. split; [|by apply reach_init]. intros i j x y Hx. done. }
  intros o w [Hu Hr]. split; [|by apply reach_op]. destruct (conversation_op o) eqn:Eo.
  - destruct o; try done. rewrite submit_is_op.
    pose proof (submit_commits (durable w) Hu (reachable_turn_ids w Hr) c w eq_refl) as Hs.
    destruct (SubmitConversationTurn c w) as [[r|e] w']; cbn; [by destruct Hs|by rewrite Hs].
  - assert (Hw : winv (logs_ok (fun V => turns_unique V.1.2)) w).
    { pose proof (reachable_synced w Hr) as Hs. unfold synced in Hs.
      destruct (reachable_logs w Hr) as [[Hl _] _]. split; [|rewrite Hs]; by split. }
    assert (Hw' : winv (logs_ok (fun V => turns_unique V.1.2)) (snd (app_exec o w))).
    { apply logs_app_exec; [auto|auto|congruence|auto|done]. }
    apply Hw'.
Qed.
End TurnHistories.

(** C19: A client turn becomes one task and one run.  When a submission has returned, then
    after any further history a submission with the same conversation and (stripped) client
    turn id creates nothing: it writes nothing at all, it returns only the turn, task and
    run of the first one, marked as deduplicated, and it returns exactly when it says the
    same, that is when its text, mode and language are those of the first up to surrounding
    white space; otherwise it raises. *)
Theorem turn_materialised_once `{Env} `{FloatPow} `{Digest} `{Calendar} w c r w1 ops c' :
  reachable w -> SubmitConversationTurn c w = (Ok r, w1) -> submission_key c' = submission_key c ->
  let w2 := run_history ops w1 in
  durable (snd (SubmitConversationTurn c' w2)) = durable w2 /\
  (submission_payload c' = submission_payload c <-> exists r', fst (SubmitConversationTurn c' w2) = Ok r') /\
  (forall r', fst (SubmitConversationTurn c' w2) = Ok r' ->
     r' = mkSubmitted (sub_conversation r) (sub_turn_id r) (sub_task_id r) (sub_run_id r) true).
Proof.
  intros Hw E Hkey w2.
  pose proof (submit_commits (durable w) (reachable_turns_unique w Hw) (reachable_turn_ids w Hw) c w eq_refl) as Hs.
  rewrite E in Hs. destruct Hs as (_ & Hconv & x & Hx & Hof & Hr). cbn in Hx, Hconv.
  assert (Hw1 : reachable w1).
  { replace w1 with (snd (app_exec (OpSubmitConversationTurn c) w)) by (by rewrite submit_is_op, E). by apply reach_op. }
  assert (Hw2 : reachable w2) by (by apply run_history_reachable).
  destruct (history_evolves w1 ops Hw1 TbTurn (ct_id x) x Hx) as (x' & Hx' & Hev).
  assert (x' = x) as -> by (by destruct Hev).
  destruct (db_conversations (durable w1) !! sub_conversation_id c) as [v|] eqn:Ev; [|done].
  destruct (history_evolves w1 ops Hw1 TbConversation _ v Ev) as (v' & Hv' & _).
  destruct (turn_of_ok c x x Hof) as (_ & Hk & Hp & _).
  destruct (submit_again (durable w2) (reachable_turns_unique w2 Hw2) c' x w2) as (Hd & Hyes & Hno);
    [done|done|by rewrite Hkey|injection Hkey as -> _; intros Hn; discriminate (eq_trans (eq_sym Hv') Hn)|].
  split; [done|]. split; [split|].
  - intros Hpay. eexists. apply Hyes. by rewrite (turn_of_canonical c c' x Hkey Hpay).
  - intros [r' Hr']. destruct (Hno r' Hr') as [_ Ho]. destruct (turn_of_ok c' x x Ho) as (_ & _ & Hp' & _). congruence.
  - intros r' Hr'. destruct (Hno r' Hr') as [-> _]. by rewrite Hr.
Qed.

(** The same words come in twice, with other white space, after the run was claimed. *)
Definition toy_submit (text : string) : SubmitConversationTurnCommand :=
  mkSubmit (toy_id 0) (u "turn-1 ") (u text) IM_TYPED None.
Lemma turn_materialised_once_witness :
  let start := @run_history toy_env toy_pow toy_digest toy_calendar [OpCreateConversation] empty_world in
  let first := @SubmitConversationTurn toy_env (toy_submit "buy milk") start in
  let later := @run_history toy_env toy_pow toy_digest toy_calendar [OpClaimNextRun (u "w1") 1000 5] (snd first) in
  let second := @SubmitConversationTurn toy_env (toy_submit " buy milk") later in
  let other := @SubmitConversationTurn toy_env (toy_submit "buy tea") later in
  fst first = Ok (mkSubmitted (toy_id 0) (toy_id 4) (toy_id 1) (toy_id 2) false) /\
  fst second = Ok (mkSubmitted (toy_id 0) (toy_id 4) (toy_id 1) (toy_id 2) true) /\
  durable (snd second) = durable later /\
  fst other = Raise (EntityConflict "client_turn_id is already bound to a different payload").
Proof.
  cbv zeta. split_and!; [vm_compute; reflexivity|vm_compute; reflexivity| |vm_compute; reflexivity].
  refine (proj1 (@turn_materialised_once toy_env toy_pow toy_digest toy_calendar
    (@run_history toy_env toy_pow toy_digest toy_calendar [OpCreateConversation] empty_world) (toy_submit "buy milk")
    (mkSubmitted (toy_id 0) (toy_id 4) (toy_id 1) (toy_id 2) false) _ [OpClaimNextRun (u "w1") 1000 5]
    (toy_submit " buy milk") _ _ _)).
  - apply run_history_reachable. apply reach_init. reflexivity.
  - etrans; [apply surjective_pairing|]. apply (f_equal (fun x => (x, _))). vm_compute. reflexivity.
  - reflexivity.
Defined.
