(* ===== verification/PromotionHistory.v ===== *)
(** * Promotion over whole histories

    A generated revision of a skill exists only because a person approved exactly it.
    Whatever else happens, in any order, behind each one stands a promotion request
    that names it and is final, an approval given for that request and spent on it,
    and a comparison in which the candidate improved something and regressed nowhere. *)

From S2P Require Import Prelude Values RunEntity TaskEntity StepEntity ToolEntity ApprovalEntity.
From S2P Require Import EventEntity ScheduleEntity ScheduleDelivery Canonical RetryPolicy.
From S2P Require Import DelegationEntity WorkQueue AgentEntity WorkflowExecutionEntity SkillEntity ConversationEntity.
From S2P Require Import ImprovementEntity Tables Store Transactions SkillStore ImprovementStore Lifecycle RunUseCases ScheduleUseCases.
From S2P Require Import ApprovalUseCases Codec SkillUseCases SkillPromotion SkillEvaluation SkillImprovement System EventLogs Rows RowHistory.

Open Scope Z_scope.

(** ** The rows a promotion is made of *)
Record Promoting : Type := mkPromoting {
  vp_requests : gmap SkillPromotionRequestId SkillPromotionRequest;
  vp_approvals : gmap ApprovalRequestId ApprovalRequest;
  vp_revisions : gmap SkillRevisionId SkillRevision;
  vp_comparisons : gmap SkillCandidateEvaluationId SkillCandidateEvaluation;
  vp_proposals : gmap SkillImprovementProposalId SkillImprovementProposal;
  vp_skills : gmap SkillId Skill }.
Definition promoting_of (d : Db) : Promoting :=
  mkPromoting (db_promotions d) (db_approvals d) (db_skill_revisions d) (db_candidates d) (db_proposals d) (db_skills d).
#[global] Instance promoting_view : View promoting_of.
Proof. by intros q []. Qed.

(** The request [x], the approval [a] and the comparison [c] stand behind [r]. *)
Record authorised_by `{Digest} (v : Promoting) (r : SkillRevision) (x : SkillPromotionRequest) (a : ApprovalRequest)
    (c : SkillCandidateEvaluation) : Prop := {
  au_request : vp_requests v !! pq_id x = Some x /\ kr_promotion_request_id r = Some (value (pq_id x));
  au_promoted : pq_status x = PR_PROMOTED /\ pq_promoted_revision_id x = Some (kr_id r);
  au_names : pq_skill_id x = kr_skill_id r /\ pq_target_version x = kr_version r
             /\ pq_candidate_sha256 x = kr_content_sha256 r;
  au_approval : vp_approvals v !! ap_id a = Some a /\ pq_approval_request_id x = Some (ap_id a);
  au_granted : ap_status a = AAPPROVED /\ ap_consumed_at a <> None;
  au_subject : approval_for SUBJ_SKILL_PROMOTION (value (pq_id x)) (pq_authorization_fingerprint x) a = true;
  au_fingerprint : promotion_fingerprint x = Ok (pq_authorization_fingerprint x);
  au_comparison : vp_comparisons v !! ce_id c = Some c /\ pq_candidate_evaluation_id x = ce_id c
                  /\ pq_comparison_report_sha256 x = ce_report_sha256 c /\ ce_proposal_id c = pq_proposal_id x;
  au_eligible : ce_regression_count c = 0 /\ 0 < ce_improvement_count c }.
Definition all_authorised `{Digest} (v : Promoting) : Prop :=
  forall i r, vp_revisions v !! i = Some r -> generated r = true -> exists x a c, authorised_by v r x a c.

(** The three rows are final, so what they authorise stays authorised. *)
Lemma authorised_kept `{Digest} v v' r x a c :
  (vp_requests v' !! pq_id x = vp_requests v !! pq_id x) -> (vp_approvals v' !! ap_id a = vp_approvals v !! ap_id a) ->
  (vp_comparisons v' !! ce_id c = vp_comparisons v !! ce_id c) ->
  authorised_by v r x a c -> authorised_by v' r x a c.
Proof. intros Hx Ha Hc []. split; rewrite ?Hx, ?Ha, ?Hc; done. Qed.

(** One approval stands behind one revision. *)
Lemma authorised_once `{Digest} v r x a c r' x' c' :
  authorised_by v r x a c -> authorised_by v r' x' a c' -> x' = x /\ kr_id r' = kr_id r.
Proof.
  intros [[Hx _] [_ Hr] _ _ _ Hs _ _ _] [[Hx' _] [_ Hr'] _ _ _ Hs' _ _ _].
  unfold approval_for in *. apply andb_prop in Hs as [[_ Hs]%andb_prop _], Hs' as [[_ Hs']%andb_prop _].
  apply bool_decide_eq_true in Hs, Hs'. assert (Hi : pq_id x' = pq_id x).
  { destruct (pq_id x) as [s], (pq_id x') as [s']. cbn in Hs, Hs'. congruence. }
  rewrite Hi in Hx'. assert (x' = x) as -> by congruence. split; [done|congruence].
Qed.

(** ** What the checks of [ExecuteSkillPromotion] establish *)
Section Checks.
Context `{Digest}.

Lemma promotion_fresh x p oc ok v f a : promotion_stale x p oc ok v f a = false ->
  exists c k, oc = Some c /\ ok = Some k /\ ip_proposed_content_sha256 p = pq_candidate_sha256 x /\
    ce_id c = pq_candidate_evaluation_id x /\ ce_report_sha256 c = pq_comparison_report_sha256 x /\
    ce_recommendation c = CR_ELIGIBLE /\ f = pq_authorization_fingerprint x /\
    approval_for SUBJ_SKILL_PROMOTION (value (pq_id x)) (pq_authorization_fingerprint x) a = true.
Proof.
  unfold promotion_stale. destruct oc as [c|], ok as [k|]; try done. rewrite !orb_false_iff, !negb_false_iff.
  unfold id_eqb. rewrite !bool_decide_eq_true. intros H0. exists c, k. tauto.
Qed.
Lemma generated_revision id k v ins t q r : SkillRevision_new id k v ins SS_GENERATED t (Some q) = Ok r ->
  kr_id r = id /\ kr_skill_id r = k /\ kr_version r = v /\ kr_promotion_request_id r = Some q /\
  skill_digest ins = Ok (kr_content_sha256 r).
Proof.
  unfold SkillRevision_new. repeat (case_match; [done|]).
  destruct (validate_skill_instructions ins) as [i|] eqn:Ei; cbn [res_bind]; [|done].
  destruct (skill_digest i) as [h|] eqn:Eh; cbn [res_bind]; [|done]. destruct (ensure_utc t); cbn [res_bind]; [|done].
  assert (i = ins) as ->.
  { revert Ei. unfold validate_skill_instructions. case_match; [done|]. case_match; [|done]. case_match; [done|congruence]. }
  intros (<- & <- & <- & _ & _ & <- & _ & ->)%skill_revision_init_sealed. done.
Qed.
Lemma proposal_digest p : SkillImprovementProposal_check p = Ok p ->
  skill_digest (ip_proposed_instructions p) = Ok (ip_proposed_content_sha256 p).
Proof.
  unfold SkillImprovementProposal_check. destruct (validate_skill_instructions _) as [i|] eqn:Ei; cbn [res_bind]; [|done].
  assert (i = ip_proposed_instructions p) as ->.
  { revert Ei. unfold validate_skill_instructions. case_match; [done|]. case_match; [|done]. case_match; [done|congruence]. }
  repeat (case_match; [done|]). destruct (skill_digest _) as [h|] eqn:Eh; cbn [res_bind]; [|done].
  case_bool_decide as Hb; [|done]. by rewrite Hb.
Qed.
End Checks.

Section Executing.
Context `{Env} `{Digest} (D : Db) (HV : rows_valid D) (HA : all_authorised (promoting_of D)).
Abbreviation here := (fun v => v = promoting_of D).

(** Reads of the tables the transaction has not written yet *)
Lemma steps_read {A B} (g : Promoting -> B) (f : Db -> A) (h : B -> A) :
  (forall d, f d = h (g (promoting_of d))) ->
  steps promoting_of D here (db f) (fun o v => v = promoting_of D /\ o = f D).
Proof. intros Hf. apply steps_db. intros d Hd. split; [done|]. by rewrite !Hf, Hd. Qed.
Lemma steps_get_promotion q :
  steps promoting_of D here (promotions_get q) (fun o v => v = promoting_of D /\ o = db_promotions D !! q).
Proof. exact (steps_read vp_requests (fun d => db_promotions d !! q) (fun m => m !! q) (fun _ => eq_refl)). Qed.
Lemma steps_get_approval i :
  steps promoting_of D here (approvals_get i) (fun o v => v = promoting_of D /\ o = db_approvals D !! i).
Proof. exact (steps_read vp_approvals (fun d => db_approvals d !! i) (fun m => m !! i) (fun _ => eq_refl)). Qed.
Lemma steps_get_proposal i :
  steps promoting_of D here (proposals_get i) (fun o v => v = promoting_of D /\ o = db_proposals D !! i).
Proof. exact (steps_read vp_proposals (fun d => db_proposals d !! i) (fun m => m !! i) (fun _ => eq_refl)). Qed.
Lemma steps_get_skill i :
  steps promoting_of D here (skills_get i) (fun o v => v = promoting_of D /\ o = db_skills D !! i).
Proof. exact (steps_read vp_skills (fun d => db_skills d !! i) (fun m => m !! i) (fun _ => eq_refl)). Qed.
Lemma steps_get_candidate p :
  steps promoting_of D here (candidates_get_for_proposal p) (fun o v => v = promoting_of D /\ o = candidate_for p D).
Proof.
  exact (steps_read vp_comparisons (candidate_for p)
    (fun m => List.find (fun x => id_eqb (ce_proposal_id x) p) (map snd (map_to_list m))) (fun _ => eq_refl)).
Qed.

(** The writes *)
Lemma steps_add_revision v r :
  steps promoting_of D (fun v' => v' = v) (skill_revisions_add r)
    (fun _ v' => v' = mkPromoting (vp_requests v) (vp_approvals v) (<[kr_id r := r]> (vp_revisions v))
                        (vp_comparisons v) (vp_proposals v) (vp_skills v)).
Proof.
  intros w Hw Hv. unfold skill_revisions_add, add_row, db, gets, upd, modify, bind, raise.
  destruct (db_skill_revisions (staged w) !! kr_id r); [done|]. split; [done|]. by rewrite <- Hv.
Qed.
Lemma steps_stage v x p s sp t r a :
  steps promoting_of D (fun v' => v' = v) (stage_terminal_promotion x p s sp t r a None)
    (fun y v' => y = resolve_pq s t r x /\ exists ps,
       v' = mkPromoting (<[pq_id x := resolve_pq s t r x]> (vp_requests v)) (vp_approvals v) (vp_revisions v)
              (vp_comparisons v) ps (vp_skills v)).
Proof.
  unfold stage_terminal_promotion. s_skip. s_know ltac:(apply yields_lift). intros y ->%checked_promotion.
  eapply steps_bind; [apply (steps_upd _ _ _ _ (fun v' => v' = mkPromoting (<[pq_id x := resolve_pq s t r x]> (vp_requests v))
    (vp_approvals v) (vp_revisions v) (vp_comparisons v) (vp_proposals v) (vp_skills v)))|]; [by intros d <-|].
  intros []. s_know ltac:(apply yields_lift). intros q Hq.
  eapply steps_bind; [apply (steps_upd _ _ _ _ (fun v' => exists ps,
       v' = mkPromoting (<[pq_id x := resolve_pq s t r x]> (vp_requests v)) (vp_approvals v) (vp_revisions v)
              (vp_comparisons v) ps (vp_skills v)))|].
  - intros d Hd. exists (<[ip_id q := q]> (db_proposals d)). unfold promoting_of in *. injection Hd as <- <- <- <- _ <-. by destruct d.
  - intros []. apply steps_ret. intros v' [ps ->]. split; [done|]. by exists ps.
Qed.
Lemma steps_save_skill v k :
  steps promoting_of D (fun v' => v' = v) (skills_save k)
    (fun _ v' => exists ks, v' = mkPromoting (vp_requests v) (vp_approvals v) (vp_revisions v) (vp_comparisons v)
                                   (vp_proposals v) ks).
Proof. apply steps_upd. intros d <-. by exists (<[sk_id k := k]> (db_skills d)). Qed.
Lemma steps_consume v i t :
  steps promoting_of D (fun v' => v' = v) (approvals_consume_if_unconsumed i t)
    (fun b v' => if (b : bool) then exists a, vp_approvals v !! i = Some a /\ ap_status a = AAPPROVED /\
       v' = mkPromoting (vp_requests v) (<[ap_id a := set_ap_consumed_at (Some t) a]> (vp_approvals v)) (vp_revisions v)
              (vp_comparisons v) (vp_proposals v) (vp_skills v) else True).
Proof.
  intros w Hw Hv. unfold approvals_consume_if_unconsumed, approvals_get, db, gets, bind. rewrite <- Hv. cbn [vp_approvals promoting_of].
  destruct (db_approvals (staged w) !! i) as [a|]; [|done]. destruct (_ && _) eqn:E; [|done].
  apply andb_prop in E as [E%bool_decide_eq_true _]. split; [done|]. by exists a.
Qed.

(** A commit that is followed by a raise *)
Lemma lands_commit_raise {A} (P : Promoting -> Prop) e :
  (forall v, P v -> all_authorised v) -> lands promoting_of all_authorised D P (commit ;;; raise (A := A) e).
Proof. intros HP w Hw Hs. unfold bind, commit. destruct (integrity _); cbn; [auto|by rewrite Hw]. Qed.

(** Rewriting a pending request, and spending an unspent approval, touch nothing that
    stands behind a revision. *)
Lemma authorised_elsewhere x y b revs ps ks r x0 a0 c0 :
  db_promotions D !! pq_id x = Some x -> pq_status x = PR_PENDING ->
  (forall a, db_approvals D !! ap_id a = Some a -> ap_consumed_at a <> None -> b !! ap_id a = Some a) ->
  authorised_by (promoting_of D) r x0 a0 c0 ->
  authorised_by (mkPromoting (<[pq_id x := y]> (db_promotions D)) b revs (db_candidates D) ps ks) r x0 a0 c0.
Proof.
  intros Hx Hp Hb Ha. eapply authorised_kept; [| | |exact Ha]; destruct Ha as [[Hx0 _] [Hs _] _ [Ha0 _] [_ Hc] _ _ _ _]; cbn in *.
  - apply lookup_insert_ne. intros E. rewrite E in Hx. congruence.
  - by rewrite Ha0, (Hb a0).
  - done.
Qed.

Lemma steps_load_proposal x :
  steps promoting_of D here (load_promotion_proposal x)
    (fun p v => v = promoting_of D /\ db_proposals D !! pq_proposal_id x = Some p).
Proof.
  unfold load_promotion_proposal. eapply steps_bind; [apply steps_get_proposal|]. intros o. apply steps_fact. intros ->.
  s_know ltac:(apply yields_need). intros p Hp. s_skip. s_skip. by apply steps_ret.
Qed.
Lemma steps_load_approval x :
  steps promoting_of D here (load_promotion_approval x)
    (fun oa v => v = promoting_of D /\ forall a, oa = Some a ->
       db_approvals D !! ap_id a = Some a /\ pq_approval_request_id x = Some (ap_id a)).
Proof.
  unfold load_promotion_approval. destruct (pq_approval_request_id x) as [i|] eqn:Ei; [|by apply steps_ret].
  eapply steps_bind; [apply steps_get_approval|]. intros o. apply steps_fact. intros ->.
  s_know ltac:(apply yields_need). intros a Ha. s_skip. apply steps_ret. intros v ->. split; [done|].
  intros ? [= <-]. destruct (HV TbApproval i a Ha) as [Hi _]. cbn in Hi. subst i. done.
Qed.

(** The staged database of a promotion that went through *)
Lemma promoted_ledger x p a c r t res k1 k2 ps ks :
  db_promotions D !! pq_id x = Some x -> pq_status x = PR_PENDING ->
  db_proposals D !! pq_proposal_id x = Some p ->
  db_approvals D !! ap_id a = Some a -> pq_approval_request_id x = Some (ap_id a) ->
  ap_status a = AAPPROVED -> ap_consumed_at a = None ->
  candidate_for (pq_proposal_id x) D = Some c ->
  ip_proposed_content_sha256 p = pq_candidate_sha256 x ->
  ce_id c = pq_candidate_evaluation_id x -> ce_report_sha256 c = pq_comparison_report_sha256 x ->
  ce_recommendation c = CR_ELIGIBLE -> promotion_fingerprint x = Ok (pq_authorization_fingerprint x) ->
  approval_for SUBJ_SKILL_PROMOTION (value (pq_id x)) (pq_authorization_fingerprint x) a = true ->
  sk_id k1 = pq_skill_id x ->
  SkillRevision_new (pq_target_revision_id x) (sk_id k1) (pq_target_version x) (ip_proposed_instructions p)
    SS_GENERATED t (Some (value (pq_id x))) = Ok r ->
  all_authorised (mkPromoting
    (<[pq_id x := resolve_pq PR_PROMOTED k2 res (set_pq_promoted (Some (kr_id r)) x)]> (db_promotions D))
    (<[ap_id a := set_ap_consumed_at (Some k2) a]> (db_approvals D))
    (<[kr_id r := r]> (db_skill_revisions D)) (db_candidates D) ps ks).
Proof.
  intros Hx Hp Hpr Ha Hxa Hst Hco Hc Hsha Hci Hcr Hce Hfp Haf Hk Hr i r0 Hi Hg. cbn in Hi.
  apply generated_revision in Hr as (Hri & Hrk & Hrv & Hrp & Hrs).
  apply lookup_insert_Some in Hi as [[<- <-]|[Hne Hi]].
  - apply find_some in Hc as [Hin Hcp]. apply list_elem_of_In, list_elem_of_fmap in Hin as ([ci c'] & -> & Hcin).
    apply elem_of_map_to_list in Hcin. destruct (HV TbCandidate ci c' Hcin) as [Hcid [_ Hel]]. cbn in *. subst ci.
    exists (resolve_pq PR_PROMOTED k2 res (set_pq_promoted (Some (kr_id r)) x)), (set_ap_consumed_at (Some k2) a), c'.
    split; cbn.
    + split; [apply (lookup_insert_eq _ (pq_id x))|done].
    + done.
    + split_and!; [by rewrite Hrk|done|]. destruct (HV TbProposal _ p Hpr) as [_ Hd%proposal_digest].
      rewrite Hd in Hrs. injection Hrs as <-. congruence.
    + split; [apply (lookup_insert_eq _ (ap_id a))|]. by destruct a.
    + by destruct a.
    + by destruct a.
    + done.
    + unfold id_eqb in Hcp. apply bool_decide_eq_true in Hcp. done.
    + auto.
  - destruct (HA i r0 Hi Hg) as (x0 & a0 & c0 & Hau). exists x0, a0, c0. eapply authorised_elsewhere; [done..| |done].
    intros a1 Ha1 Hc1. rewrite lookup_insert_ne; [done|]. intros E. rewrite E in Ha. congruence.
Qed.
Lemma execute_lands q r w : durable w = D -> all_authorised (promoting_of (durable (snd (ExecuteSkillPromotion q r w)))).
Proof.
  intros Hw. unfold ExecuteSkillPromotion, skill_revisions_next_version.
  apply (lands_with_uow promoting_of all_authorised D here); [done|done|].
  eapply lands_bind; [assumption|apply steps_get_promotion|]. intros o. apply lands_at. intros v [-> Ho].
  l_know ltac:(apply yields_need). intros x Hx. rewrite Hx in Ho. clear o Hx. symmetry in Ho.
  destruct (HV TbPromotion q x) as [Hq _]; [done|]. cbn in Hq. subst q.
  l_know ltac:(apply yields_raise_if). intros [] Hp%negb_false_iff%bool_decide_eq_true.
  eapply lands_bind; [assumption|apply steps_load_proposal|]. intros p. apply lands_at. intros v [-> Hpr].
  eapply lands_bind; [assumption|apply steps_load_approval|]. intros oa. apply lands_at. intros v [-> Hoa].
  l_know ltac:(apply yields_need). intros a ->. destruct (Hoa a eq_refl) as [Ha Hxa].
  l_know ltac:(apply yields_raise_if). intros [] [Hst%negb_false_iff%bool_decide_eq_true Hco]%orb_false_iff.
  unfold ap_is_consumed in Hco. destruct (ap_consumed_at a) eqn:Eco; [done|].
  eapply lands_bind; [assumption|apply steps_get_candidate|]. intros oc. apply lands_at. intros v [-> Hoc].
  eapply lands_bind; [assumption|apply steps_get_skill|]. intros ok. apply lands_at. intros v [-> Hok].
  l_skip. l_know ltac:(apply yields_lift). intros f Hf. l_skip. cbv zeta.
  match goal with |- lands _ _ _ _ (if ?b then _ else _) => destruct b eqn:Estale end.
  - eapply lands_bind; [assumption|apply steps_stage|]. intros y. apply lands_commit_raise.
    intros v [_ [ps ->]] i r0 Hi Hg. destruct (HA i r0 Hi Hg) as (x' & a' & c' & Hau). exists x', a', c'.
    by apply authorised_elsewhere.
  - apply promotion_fresh in Estale as (c & k & -> & -> & Hsha & Hci & Hcr & Hce & -> & Haf).
    l_know ltac:(apply yields_need). intros k' [= <-]. l_know ltac:(apply yields_lift). intros rev Hrev.
    symmetry in Hok, Hoc. destruct (HV TbSkill _ k Hok) as [Hkid _]. cbn in Hkid.
    eapply lands_bind; [assumption|apply steps_add_revision|]. intros []. apply lands_at. intros v ->.
    l_know ltac:(apply yields_lift). intros y ->%checked_promotion.
    eapply lands_bind; [assumption|apply steps_stage|]. intros y. apply lands_at. intros v [-> [ps ->]].
    l_skip. match goal with p : Skill * unit |- _ => destruct p as [k2 []] end.
    eapply lands_bind; [assumption|apply steps_save_skill|]. intros []. apply lands_at. intros v [ks ->].
    eapply lands_bind; [assumption|apply steps_consume|]. intros b. apply lands_at. intros v Hv.
    destruct b; cbn [negb raise_if]; [|intros w0 Hw0 _; cbn; by rewrite Hw0].
    destruct Hv as (a' & Ha' & _ & ->). cbn in Ha'. rewrite Ha in Ha'. injection Ha' as <-.
    eapply lands_frame; [assumption|by intros ? ?|]. intros []. apply lands_commit; [assumption|]. intros v ->. cbn.
    cbn beta in Hrev. eapply (promoted_ledger x p a c rev _ _ k); eauto.
Qed.
End Executing.

(** ** Every history *)
Section Histories.
Context `{Env} `{FloatPow} `{Digest} `{Calendar}.

Lemma execute_is_op q r w :
  snd (app_exec (OpImprove (OpExecuteSkillPromotion q r)) w) = snd (ExecuteSkillPromotion q r w).
Proof. cbn [app_exec improvement_exec]. unfold discard, bind. by destruct (ExecuteSkillPromotion q r w) as [[] ?]. Qed.
(** Other use cases write no generated revision, and leave the final rows alone. *)
Lemma generated_kept o w : reachable w -> promotion_op o = false ->
  generated_of (durable (snd (app_exec o w))) = generated_of (durable w).
Proof.
  intros Hr Ho. pose proof (reachable_synced w Hr) as Hs. unfold synced in Hs.
  assert (Hw : winv (logs_ok (fun V => V.2 = generated_of (durable w))) (snd (app_exec o w))); [|apply Hw].
  apply logs_app_exec; [auto|auto|auto|congruence|].
  destruct (reachable_logs w Hr) as [[Hl _] _]. split; [|rewrite Hs]; by split.
Qed.
Lemma authorised_evolves d d' r x a c : rows_evolve d d' ->
  authorised_by (promoting_of d) r x a c -> authorised_by (promoting_of d') r x a c.
Proof.
  intros He Ha. eapply authorised_kept; [| | |exact Ha]; destruct Ha as [[Hx _] [Hs _] _ [Hap _] [Hst Hco] _ _ [Hc _] _]; cbn in *.
  - destruct (He TbPromotion _ x Hx) as (x' & Hx' & Hev). cbn in Hx'. rewrite Hx, Hx'. f_equal.
    apply (evolves_done TbPromotion _ _ Hev). cbn. by rewrite Hs.
  - destruct (He TbApproval _ a Hap) as (a' & Ha' & Hev). cbn in Ha'. rewrite Hap, Ha'. f_equal.
    apply (evolves_done TbApproval _ _ Hev). cbn. unfold ap_is_consumed. rewrite Hst. by destruct (ap_consumed_at a).
  - destruct (He TbCandidate _ c Hc) as (c' & Hc' & Hev). cbn in Hc'. rewrite Hc, Hc'. f_equal.
    by apply (evolves_done TbCandidate _ _ Hev).
Qed.
Lemma reachable_authorised w : reachable w -> all_authorised (promoting_of (durable w)).
Proof.
  intros Hr. enough (all_authorised (promoting_of (durable w)) /\ reachable w) by tauto. revert w Hr. apply reach_invariant.
  { intros w ->. split; [|by apply reach_init]. intros i r. done. }
  intros o w [HA Hr]. split; [|by apply reach_op]. pose proof (reachable_rows_valid w Hr) as HV.
  destruct (promotion_op o) eqn:Eo.
  - destruct o; try done. destruct o; try done. rewrite execute_is_op. by apply (execute_lands (durable w)).
  - destruct (app_exec_evolves o w Hr) as [He _]. pose proof (generated_kept o w Hr Eo) as Hg. intros i r Hi Hgr.
    assert (Hi' : generated_of (durable w) !! i = Some r).
    { rewrite <- Hg. apply map_lookup_filter_Some_2; done. }
    apply map_lookup_filter_Some_1_1 in Hi'. destruct (HA i r Hi' Hgr) as (x & a & c & Hau). exists x, a, c.
    by eapply authorised_evolves.
Qed.
End Histories.

(** C4: no history of use cases, whatever brains, validators and callers do, makes a
    generated skill revision that was not approved as such.  Behind each stored one
    stands a promotion request that names its id, skill, version and content digest and is
    promoted for good; an approval that was given for that very request under the
    fingerprint of all it names, approved and spent; and the comparison the request
    names, made for its proposal, with an improvement and no regression.  One approval
    never stands behind two revisions. *)
Theorem generated_revisions_authorised `{Env} `{FloatPow} `{Digest} `{Calendar} w i r :
  reachable w -> db_skill_revisions (durable w) !! i = Some r -> kr_source_kind r = SS_GENERATED ->
  exists x a c, authorised_by (promoting_of (durable w)) r x a c /\
    forall j r' x' c', db_skill_revisions (durable w) !! j = Some r' ->
      authorised_by (promoting_of (durable w)) r' x' a c' -> j = i /\ r' = r.
Proof.
  intros Hw Hi Hg. destruct (reachable_authorised w Hw i r Hi) as (x & a & c & Ha).
  { unfold generated. by rewrite Hg. }
  exists x, a, c. split; [done|]. intros j r' x' c' Hj Ha'. destruct (authorised_once _ _ _ _ _ _ _ _ Ha Ha') as [_ Hk].
  pose proof (reachable_rows_valid w Hw) as HV.
  destruct (HV TbSkillRevision i r Hi) as [Hri _], (HV TbSkillRevision j r' Hj) as [Hrj _]. cbn in Hri, Hrj.
  assert (j = i) as -> by congruence. split; [done|congruence].
Qed.

(** A skill whose candidate answers the one case of its suite that the active revision
    does not, from the suite to the promotion; identifiers are 32 decimal digits. *)
Definition uuid_env : Env :=
  {| uuid4 := fun n => let s := int_repr (Z.of_nat n) in replicate (32 - length s) 48 ++ s;
     clock_at := fun n => 1000 + Z.of_nat n |}.
Definition uid {k} (n : nat) : Id k := mkId (@uuid4 uuid_env n).
Definition any_schema : JsonSchema := {| schema_ok := fun _ => true; schema_validate := fun _ _ => SchemaAccepts |}.
Definition toy_answers (text : string) : list (str * str) := [(value (@uid KCase 3), u text)].
Definition toy_evidence : pyval :=
  PyDict [(PyStr (u "items"), PyList [PyDict [(PyStr (u "id"), PyStr (u "note-1"))]])].
(** The digest that [toy_digest] gives the evidence *)
Definition toy_evidence_hash : str := replicate 64 51.
Definition toy_candidate : str := @json_dumps toy_digest true (JDict
  [(u "version", JInt 1); (u "proposed_instructions", JStr (u "Say hi at once.")); (u "rationale", JStr (u ""));
   (u "addressed_evidence_ids", JList [JStr (u "note-1")])]).
Definition toy_promotion_ops : list app_op :=
  [OpCreateSkill (u "greeting") (u "Greeting") (u ""); OpCreateSkillRevision (uid 0) (u "Say hi.") SS_OPERATOR;
   OpActivateSkillRevision (uid 0) (uid 1);
   OpImprove (OpCreateSkillEvaluationSuite any_schema (uid 0) (u "smoke") (u "")
                [(u "hello", JDict [(u "value", JStr (u "hi"))], u "exact_match")]);
   OpImprove (OpRunSkillEvaluation any_schema [] (uid 2) (Some (uid 1)) None (toy_answers "ho")
                CANONICAL_DETERMINISTIC_EVALUATOR_VERSION None None None JNull);
   OpImprove (OpCreateSkillEvidenceSnapshot (uid 0) (uid 1) toy_evidence);
   OpImprove (OpCreateSkillImprovementProposal (uid 0) (uid 1) (u "operator") (uid 5) toy_evidence_hash
                GENERATOR_CONFIG_FINGERPRINT CANDIDATE_PROMPT_VERSION (replicate 64 48) toy_candidate);
   OpImprove (OpCompareSkillImprovementProposal any_schema [] (uid 6) (uid 4) (Some (toy_answers "hi")) None
                (u "comparison-v1"));
   OpImprove (OpRequestSkillPromotion (uid 6)); OpApproveRequest (uid 10) (u "owner") None;
   OpImprove (OpExecuteSkillPromotion (uid 11) None)].
Definition toy_promoted : World := @run_history uuid_env toy_pow toy_digest toy_calendar toy_promotion_ops empty_world.

Lemma generated_revisions_authorised_witness :
  exists r, db_skill_revisions (durable toy_promoted) !! uid 9 = Some r /\ kr_source_kind r = SS_GENERATED /\
    (sk_active_revision_id <$> db_skills (durable toy_promoted) !! uid 0) = Some (Some (kr_id r)) /\
    exists x a c, @authorised_by toy_digest (promoting_of (durable toy_promoted)) r x a c.
Proof.
  destruct (db_skill_revisions (durable toy_promoted) !! uid 9) as [r|] eqn:E; [|exfalso; revert E; vm_compute; congruence].
  assert (Hg : kr_source_kind r = SS_GENERATED) by (revert E; vm_compute; intros [= <-]; reflexivity).
  exists r. split; [reflexivity|]. split; [exact Hg|]. split; [revert E; vm_compute; intros [= <-]; reflexivity|].
  destruct (@generated_revisions_authorised uuid_env toy_pow toy_digest toy_calendar toy_promoted (uid 9) r)
    as (x & a & c & Ha & _); [|exact E|exact Hg|by exists x, a, c].
  apply run_history_reachable. by apply reach_init.
Defined.
