(* ===== verification/AgentLoopFacts.v ===== *)
(** * What the agent run processor can and cannot do

    Proofs about [AgentLoop.process] and the snapshot it loads: its effect on the
    world is a sequence of fenced proposals ([processor_proposes_only]), its calls
    out stay within the configured budgets ([processor_budgets]), and delegated
    authority never reaches the brain ([snapshot_keeps_authority]). *)

From S2P Require Import Prelude Values RunEntity TaskEntity StepEntity ToolEntity ApprovalEntity.
From S2P Require Import EventEntity Canonical PyText Regex ResultSafety MemoryContext MemoryQuery RetryPolicy DelegationEntity WorkQueue.
From S2P Require Import AgentEntity SkillEntity ConversationEntity WorkflowExecutionEntity Tables Store Transactions.
From S2P Require Import Lifecycle RunUseCases TaskUseCases StepUseCases MemoryAudit ApprovalUseCases ToolExecution RuntimeActions RuntimeContext AgentUseCases.
From S2P Require Import SkillUseCases ConversationUseCases Snapshot DelegationUseCases ScheduleUseCases WorkerUseCases System Rows RowHistory AgentLoop.

Open Scope Z_scope.

Create HintDb looks.
Create HintDb moves.
Create HintDb free.

(** ** Reading transactions *)

(** A body that only reads *)
Definition looks {A} (m : U A) : Prop := forall w, snd (m w) = w.
Lemma looks_ret {A} (a : A) : looks (ret a).
Proof. done. Qed.
Lemma looks_raise {A} e : looks (raise (A := A) e).
Proof. done. Qed.
Lemma looks_lift {A} (r : res A) : looks (lift r).
Proof. done. Qed.
Lemma looks_db {A} (f : Db -> A) : looks (db f).
Proof. done. Qed.
Lemma looks_bind {A B} (m : U A) (k : A -> U B) : looks m -> (forall a, looks (k a)) -> looks (bind m k).
Proof.
  intros Hm Hk w. specialize (Hm w). unfold bind. destruct (m w) as [[a|e] w1]; cbn in *; subst; [apply Hk|done].
Qed.
Lemma looks_try {A} (m : U A) h : looks m -> (forall e k, h e = Some k -> looks k) -> looks (try_except m h).
Proof.
  intros Hm Hh w. specialize (Hm w). unfold try_except. destruct (m w) as [[a|e] w1]; cbn in *; subst; [done|].
  destruct (h e) as [k|] eqn:E; [|done]. by apply (Hh e).
Qed.
Lemma looks_if {A} (b : bool) (m k : U A) : looks m -> looks k -> looks (if b then m else k).
Proof. by destruct b. Qed.
#[local] Hint Resolve looks_ret looks_raise looks_lift looks_db looks_bind looks_try looks_if : looks.
Ltac looking :=
  repeat first
    [ solve [auto 1 with looks nocore]
    | apply looks_bind; [|intros ?]
    | apply looks_try; [|intros ? ? ?; repeat case_match; simplify_eq]
    | match goal with |- looks (match ?x with _ => _ end) => destruct x end
    | progress unfold raise_if, need ].
(** The world of a unit of work that read is the world it started from. *)
Lemma with_uow_looks {A} (m : U A) w : looks m -> synced w -> snd (with_uow m w) = w.
Proof.
  intros Hm Hw. unfold with_uow. specialize (Hm (mkWorld (durable w) (durable w) (draws w) (ticks w))).
  destruct (m _) as [r w'] eqn:E. cbn in *. subst w'. destruct w as [d s n k]. unfold synced in Hw. cbn in *. by subst.
Qed.

Lemma reads_bind {A B} (m : U A) (k : A -> U B) w :
  snd (m w) = w -> (forall a, snd (k a w) = w) -> snd (bind m k w) = w.
Proof. intros Hm Hk. unfold bind. destruct (m w) as [[a|e] w1]; cbn in *; subst; [apply Hk|done]. Qed.

Section Reads.
Context `{Env} `{Digest} `{Unicode}.

Lemma looks_finished authority l : looks (finished_result authority l).
Proof. induction l; cbn [finished_result]; unfold events_latest_of_type_for_run; looking; done. Qed.
#[local] Hint Resolve looks_finished : looks.
Lemma looks_view x : looks (delegation_view x).
Proof. unfold delegation_view, agents_get, runs_get, runs_list_for_execution. looking. Qed.
#[local] Hint Resolve looks_view : looks.
Lemma looks_views l : looks (delegation_views l).
Proof. induction l; cbn [delegation_views]; looking; done. Qed.
Lemma looks_revision i : looks (load_agent_revision i).
Proof. unfold load_agent_revision, agent_revisions_get. looking. Qed.
#[local] Hint Resolve looks_views looks_revision : looks.
Lemma looks_targets n l ts : looks (delegation_targets n l ts).
Proof. revert ts. induction l; intros ts; cbn [delegation_targets]; looking; done. Qed.
Lemma looks_agent reg r : looks (load_agent reg r).
Proof. unfold load_agent, agent_resolutions_get, agents_get. looking. Qed.
Lemma looks_skills l : looks (load_skills l).
Proof. induction l; cbn [load_skills]; unfold SkillStore.skills_get, SkillStore.skill_revisions_get; looking; done. Qed.
Lemma looks_workflow e : looks (workflow_context_for_run e).
Proof.
  unfold workflow_context_for_run, WorkflowEngine.build_workflow_node_context,
    node_executions_get_by_child_execution_id, WorkflowStore.executions_get, WorkflowStore.workflow_revisions_get,
    WorkflowStore.workflows_get, WorkflowStore.node_executions_list_by_execution. looking.
Qed.
#[local] Hint Resolve looks_targets looks_agent looks_skills looks_workflow : looks.
Lemma snapshot_reads reg n r t notes w : synced w -> snd (load_snapshot reg n r t notes w) = w.
Proof.
  apply with_uow_looks. unfold approvals_list_recent_for_run, artifacts_list_recent_for_run, tools_list_recent_for_run,
    events_list_recent_for_run, agents_list, tasks_get, runs_get, events_list_for_run, skill_bindings_list_for_run,
    delegations_list_for_run, delegations_get_for_child_execution, steps_list_for_run, approvals_list_for_run,
    tools_list_for_run, artifacts_list_for_run. looking.
Qed.
Lemma blocker_reads r w : synced w -> snd (finish_blocker r w) = w.
Proof.
  apply with_uow_looks. unfold steps_has_non_terminal_for_run, tools_has_non_terminal_for_run,
    approvals_has_pending_for_run, delegations_has_dispatched_for_run. looking.
Qed.
Lemma looks_messages a l : looks (messages_for a l).
Proof.
  induction l; cbn [messages_for]; unfold resolve_effective_run_id, runs_get, runs_get_latest_for_execution,
    events_latest_of_type_for_run; looking; done.
Qed.
#[local] Hint Resolve looks_messages : looks.
Lemma assemble_reads a r w : synced w -> snd (assemble a r w) = w.
Proof.
  intros Hw. unfold assemble. apply reads_bind; [|done]. apply with_uow_looks; [|done].
  unfold SkillStore.turns_get_by_run, runs_get, SkillStore.turns_list_recent_before. looking.
Qed.
End Reads.

(** ** What the processor does to the world *)

(** The use cases the processor runs on its own account: all for its run, all
    fenced by its claim *)
Definition proposes (c : ClaimContext) (o : app_op) : Prop :=
  match o with
  | OpVerifyRunClaim r k | OpResolveRunSkills r k | OpResolveRunAgent _ r k | OpRecordMemoryEvents r k _ _ _
  | OpAuthorizeAction r None _ _ k | OpRecheckClaim r k | OpRecordResult r None _ _ k
  | OpDispatchDelegation _ _ r k _ _ _ _ None => r = cx_run_id c /\ k = cx_claim c
  | OpRequestToolApproval command k => ra_run_id command = cx_run_id c /\ k = cx_claim c
  | _ => False
  end.

(** A relation that contains the calls out, whatever the world *)
Record holds_calls {X} (out : Outside X) (R : relation (World * X)) : Prop := {
  hc_monotonic : forall w x, R (w, x) (w, snd (monotonic out x));
  hc_lease : forall w x, R (w, x) (w, snd (is_lease_lost out x));
  hc_brain : forall q w x, R (w, x) (w, snd (next_action out q x));
  hc_tools : forall w x, R (w, x) (w, snd (list_tools out x));
  hc_assess : forall call_ w x, R (w, x) (w, snd (assess out call_ x));
  hc_gateway : forall q w x, R (w, x) (w, snd (gateway_execute out q x));
  hc_retrieve : forall f q w x, memory_retriever out = Some f -> R (w, x) (w, snd (f q x)) }.

Section Effects.
Context `{Env} `{FloatPow} `{Digest} `{Calendar} `{Unicode} {X : Type} (out : Outside X) (cf : Config).
Context (c : ClaimContext) (R : relation (World * X)) `{!PreOrder R}.
Context (Hown : forall o w x, synced w -> proposes c o -> R (w, x) (snd (app_exec o w), x)).
Context (Hothers : forall w x, synced w -> R (w, x) (run_history (fst (meanwhile out w x)) w, snd (meanwhile out w x))).
Context (Hcalls : holds_calls out R).

(** Everything [m] does is within [R]. *)
Definition moves {A} (m : Proc (X := X) A) : Prop :=
  forall w x, synced w -> synced (fst (snd (m (w, x)))) /\ R (w, x) (snd (m (w, x))).
Lemma moves_ret {A} (a : A) : moves (ret a).
Proof. by intros w x Hw. Qed.
Lemma moves_raise {A} e : moves (raise (A := A) e).
Proof. by intros w x Hw. Qed.
Lemma moves_lift {A} (r : res A) : moves (lift r).
Proof. by intros w x Hw. Qed.
Lemma moves_outside {A} (f : X -> A * X) : (forall w x, R (w, x) (w, snd (f x))) -> moves (outside f).
Proof. intros Hf w x Hw. specialize (Hf w x). cbn. by destruct (f x). Qed.
Lemma moves_outside_res {A} (f : X -> res A * X) : (forall w x, R (w, x) (w, snd (f x))) -> moves (outside_res f).
Proof. intros Hf w x Hw. specialize (Hf w x). cbn. by destruct (f x). Qed.
Lemma moves_monotonic : moves (outside (monotonic out)).
Proof. apply moves_outside, Hcalls. Qed.
Lemma moves_lease : moves (outside (is_lease_lost out)).
Proof. apply moves_outside, Hcalls. Qed.
Lemma moves_next_action q : moves (outside (next_action out q)).
Proof. apply moves_outside, Hcalls. Qed.
Lemma moves_tools : moves (outside (list_tools out)).
Proof. apply moves_outside, Hcalls. Qed.
Lemma moves_assess call_ : moves (outside_res (assess out call_)).
Proof. apply moves_outside_res, Hcalls. Qed.
Lemma moves_gateway q : moves (outside_res (gateway_execute out q)).
Proof. apply moves_outside_res, Hcalls. Qed.
Lemma moves_retrieve q :
  moves (match memory_retriever out with Some f => outside_res (f q) | None => raise AssertionError end).
Proof.
  destruct (memory_retriever out) as [f|] eqn:Ef; [|apply moves_raise].
  apply moves_outside_res. intros w x. by apply (hc_retrieve _ _ Hcalls).
Qed.
Lemma moves_bind {A B} (m : Proc A) (k : A -> Proc B) : moves m -> (forall a, moves (k a)) -> moves (bind m k).
Proof.
  intros Hm Hk w x Hw. specialize (Hm w x Hw). unfold bind. destruct (m (w, x)) as [[a|e] [w1 x1]]; cbn in *; [|done].
  destruct Hm as [Hs HR]. destruct (Hk a w1 x1 Hs) as [? ?]. split; [done|]. by transitivity (w1, x1).
Qed.
Lemma moves_try {A} (m : Proc A) h : moves m -> (forall e k, h e = Some k -> moves k) -> moves (try_except m h).
Proof.
  intros Hm Hh w x Hw. specialize (Hm w x Hw). unfold try_except.
  destruct (m (w, x)) as [[a|e] [w1 x1]]; cbn in *; [done|]. destruct (h e) as [k|] eqn:E; [|done].
  destruct Hm as [Hs HR]. destruct (Hh e k E w1 x1 Hs) as [? ?]. split; [done|]. by transitivity (w1, x1).
Qed.
Lemma moves_early {A B} (m : Proc (ProcessingOutcome + A)) (k : A -> Proc (ProcessingOutcome + B)) :
  moves m -> (forall a, moves (k a)) -> moves (early m k).
Proof. intros Hm Hk. apply moves_bind; [done|]. intros [o|a]; [apply moves_ret|apply Hk]. Qed.

Lemma synced_history ops w : synced w -> synced (run_history ops w).
Proof. revert w. induction ops as [|o ops IH]; intros w Hw; [done|]. apply IH. by apply synced_app_exec. Qed.
(** A transaction of the processor: a read, or one of its use cases *)
Lemma moves_own {A} (m : U A) :
  (forall w, synced w -> snd (m w) = w \/ exists o, proposes c o /\ snd (m w) = snd (app_exec o w)) -> moves (own out m).
Proof.
  intros Hm w x Hw. unfold own. specialize (Hothers w x Hw). destruct (meanwhile out w x) as [ops x1]. cbn in Hothers.
  pose proof (synced_history ops w Hw) as Hs. specialize (Hm _ Hs). destruct (m (run_history ops w)) as [r w2]. cbn in *.
  destruct Hm as [->|(o & Ho & ->)]; [done|]. split; [by apply synced_app_exec|].
  transitivity (run_history ops w, x1); [done|]. by apply Hown.
Qed.
Lemma moves_read {A} (m : U A) : (forall w, synced w -> snd (m w) = w) -> moves (own out m).
Proof. intros Hm. apply moves_own. auto. Qed.
Lemma moves_op {A} (m : U A) o :
  proposes c o -> (forall w, snd (m w) = snd (app_exec o w)) -> moves (own out m).
Proof. intros Ho Hm. apply moves_own. intros w _. right. by exists o. Qed.
Lemma claim_check_reads r k t q : exists b, is_claim_active r k t q = (Ok b, q).
Proof.
  unfold is_claim_active, bind, gets, ret. destruct (q !! r) as [item|]; [|by eexists].
  repeat case_match; simplify_eq; by eexists.
Qed.
(** Reading the clock leaves the world where checking the claim would. *)
Lemma clock_as_check r k w : synced w -> snd (now w) = snd (app_exec (OpVerifyRunClaim r k) w).
Proof.
  intros Hw. cbn [app_exec]. rewrite discard_world. destruct w as [d s n t]. unfold synced in Hw. cbn in Hw. subst s.
  destruct (claim_check_reads r k (clock_at t) (db_queue d)) as [b E].
  assert (Hq : set_db_queue (db_queue d) d = d) by by destruct d.
  unfold VerifyRunClaim, with_uow, now, bind, on_queue. cbn -[set_db_queue is_claim_active].
  rewrite E. cbn -[set_db_queue]. rewrite Hq. unfold commit. cbn. by destruct (integrity d).
Qed.
Lemma moves_clock : moves (own out now).
Proof.
  apply moves_own. intros w Hw. right. exists (OpVerifyRunClaim (cx_run_id c) (cx_claim c)). split; [done|].
  by apply clock_as_check.
Qed.
#[local] Hint Resolve moves_ret moves_raise moves_lift moves_monotonic moves_lease moves_next_action moves_tools
  moves_assess moves_gateway moves_retrieve moves_clock : moves.
Ltac moving :=
  repeat first
    [ solve [auto 1 with moves nocore]
    | apply moves_bind; [|intros ?]
    | apply moves_early; [|intros ?]
    | apply moves_try; [|intros ? ? ?; repeat case_match; simplify_eq]
    | match goal with |- moves (match ?x with _ => _ end) => destruct x end ].
(** One of the use cases *)
Ltac move_op o := apply (moves_op _ o); [done|intros w; cbn [app_exec]; by rewrite ?discard_world].

Lemma moves_yield : moves (yield_now out).
Proof. unfold yield_now. moving. Qed.
Lemma moves_return_yield {A} : moves (return_yield out (A := A)).
Proof. unfold return_yield, yield_now. moving. Qed.
Lemma moves_return_failed {A} code m : moves (return_failed (A := A) code m).
Proof. unfold return_failed. moving. Qed.
Lemma moves_verify : moves (own out (VerifyRunClaim (cx_run_id c) (cx_claim c))).
Proof. move_op (OpVerifyRunClaim (cx_run_id c) (cx_claim c)). Qed.
#[local] Hint Resolve moves_yield moves_return_yield moves_return_failed moves_verify : moves.
Lemma moves_holds : moves (claim_holds out c).
Proof. unfold claim_holds. moving. Qed.
#[local] Hint Resolve moves_holds : moves.
Lemma moves_require_holding : moves (require_holding out c).
Proof. unfold require_holding. moving. Qed.
Lemma moves_require_time d : moves (require_time out d).
Proof. unfold require_time. moving. Qed.
#[local] Hint Resolve moves_require_holding moves_require_time : moves.
Lemma moves_resolve_skills : moves (resolve_skills out c).
Proof.
  unfold resolve_skills, resolving. moving. move_op (OpResolveRunSkills (cx_run_id c) (cx_claim c)).
Qed.
Lemma moves_resolve_agent : moves (resolve_agent out cf c).
Proof.
  unfold resolve_agent, resolving. moving. move_op (OpResolveRunAgent (cf_registry cf) (cx_run_id c) (cx_claim c)).
Qed.
Lemma moves_snapshot notes : moves (take_snapshot out cf c notes).
Proof. unfold take_snapshot. moving. apply moves_read. intros w. apply snapshot_reads. Qed.
Lemma moves_conversation : moves (assemble_conversation out cf c).
Proof. unfold assemble_conversation. moving. apply moves_read. intros w. apply assemble_reads. Qed.
Lemma moves_memory s turn l : moves (refresh_memory out cf c s turn l).
Proof.
  unfold refresh_memory, retrieve_memory. moving.
  match goal with |- moves (own _ (record_memory_events _ _ ?n ?h ?m)) =>
    move_op (OpRecordMemoryEvents (cx_run_id c) (cx_claim c) n h m) end.
Qed.
Lemma moves_render s turn m conv : moves (render_context out cf c s turn m conv).
Proof. unfold render_context. moving. Qed.
Lemma moves_brain turn deadline doc : moves (ask_brain out cf c turn deadline doc).
Proof. unfold ask_brain. moving. Qed.
#[local] Hint Resolve moves_resolve_skills moves_resolve_agent moves_snapshot moves_conversation moves_memory
  moves_render moves_brain : moves.

Lemma moves_authorize call_ risk f :
  compute_authorization_fingerprint (cx_run_id c) None call_ (rk_authorization_scope risk) = Ok f ->
  moves (own out (authorize_action (cx_run_id c) None call_ risk f (cx_claim c))).
Proof.
  intros E. apply (moves_op _ (OpAuthorizeAction (cx_run_id c) None call_ risk (cx_claim c))); [done|].
  intros w. cbn [app_exec]. unfold bind at 1, lift. rewrite E. by rewrite discard_world.
Qed.
Lemma moves_lift_bind {A B} (r : res A) (k : A -> Proc (X := X) B) : (forall a, r = Ok a -> moves (k a)) -> moves (bind (lift r) k).
Proof. intros Hk w x Hw. unfold bind, lift. destruct r as [a|e]; [by apply Hk|done]. Qed.
Lemma moves_execute call_ timeout : moves (execute_tool_action out (cx_run_id c) None call_ (cx_claim c) timeout).
Proof.
  unfold execute_tool_action. apply moves_bind; [moving|]. intros risk. apply moves_lift_bind. intros f E.
  apply moves_bind; [by apply moves_authorize|]. intros [iid result| |iid]; [moving..|].
  apply moves_bind; [move_op (OpRecheckClaim (cx_run_id c) (cx_claim c))|]. intros _.
  apply moves_bind; [moving|]. intros result. apply moves_bind; [|moving].
  move_op (OpRecordResult (cx_run_id c) None iid result (cx_claim c)).
Qed.
#[local] Hint Resolve moves_execute : moves.
Lemma moves_request_approval reason call_ : moves (request_approval out c reason call_).
Proof.
  unfold request_approval. moving.
  match goal with |- moves (own _ (RequestToolApproval ?m _)) => move_op (OpRequestToolApproval m (cx_claim c)) end.
Qed.
#[local] Hint Resolve moves_request_approval : moves.
Lemma moves_dispatch action deadline : moves (dispatch out cf c action deadline).
Proof.
  destruct action; cbn [dispatch]; unfold dispatch_delegate, dispatch_tool, stop_failed, stop_yield; moving.
  - apply moves_read. intros w. apply blocker_reads.
  - move_op (OpDispatchDelegation (cf_registry cf) (cf_dispatch_limits cf) (cx_run_id c) (cx_claim c)
      target_agent_key objective (to_py input_payload) expected_output_contract None).
Qed.
#[local] Hint Resolve moves_dispatch : moves.
Lemma moves_turn turn deadline l : moves (turn_body out cf c turn deadline l).
Proof. unfold turn_body, after_dispatch. moving. Qed.
#[local] Hint Resolve moves_turn : moves.
Lemma moves_turns n turn deadline l : moves (turns out cf n c turn deadline l).
Proof. revert turn l. induction n; intros turn l; cbn [turns]; moving; done. Qed.
#[local] Hint Resolve moves_turns : moves.
Lemma moves_process : moves (process out cf c).
Proof. unfold process. moving. Qed.
End Effects.

(** ** No run ends by the processor's hand *)

(** Runs that are not terminal stay so. *)
Definition stay_open (v v' : gmap RunId Run) : Prop :=
  forall r x, v !! r = Some x -> run_terminal (run_status x) = false ->
    exists x', v' !! r = Some x' /\ run_terminal (run_status x') = false.
#[global] Instance stay_open_preorder : PreOrder stay_open.
Proof.
  split; [intros v r x; by exists x|]. intros v1 v2 v3 H12 H23 r x Hx Ho.
  destruct (H12 r x Hx Ho) as (x' & Hx' & Ho'). by apply (H23 r x').
Qed.
Lemma stay_open_insert v v' r x : stay_open v v' ->
  (v' !! r = None \/ run_terminal (run_status x) = false) -> stay_open v (<[r := x]> v').
Proof.
  intros Hv Hx r' y Hy Ho. destruct (Hv r' y Hy Ho) as (y' & Hy' & Ho').
  destruct (decide (r' = r)) as [->|Hne]; [|exists y'; by rewrite lookup_insert_ne].
  destruct Hx as [Hx|Hx]; [congruence|]. exists x. by rewrite lookup_insert_eq.
Qed.

#[local] Instance runs_view : View db_runs.
Proof. by intros q []. Qed.

Section Open.
Context `{Env} `{FloatPow} `{Digest} `{Calendar} (D : Db).
Abbreviation open_runs := (stay_open (db_runs D)).

Lemma same_append_from v r t n l : preserves (same db_runs D v) (append_from r t n l).
Proof. revert n. induction l as [|[[ty p] st] l IH]; intros n; cbn [append_from]; keeps_all. Qed.
#[local] Hint Resolve same_append_from : py.
Lemma steps_runs_save run (Hr : run_terminal (run_status run) = false) :
  steps db_runs D open_runs (runs_save run) (fun _ => open_runs).
Proof.
  unfold runs_save, save_row. apply steps_upd. intros d Hd.
  apply stay_open_insert; auto.
Qed.
Lemma steps_runs_add run : steps db_runs D open_runs (runs_add run) (fun _ => open_runs).
Proof.
  unfold runs_add, add_row. intros w Hw HP. unfold bind, db, gets, upd, modify.
  destruct (db_runs (staged w) !! run_id run) eqn:E; cbn; [done|]. split; [done|].
  apply stay_open_insert; auto.
Qed.
Lemma pure_wait_approval t a run : pure (call (run_wait_for_approval t a) run)
  (fun p => run_terminal (run_status p.1) = false).
Proof.
  eapply yields_mono; [apply yields_call|]. intros [x []] E. revert E. cbn [fst snd].
  unfold run_wait_for_approval, run_require_status, bind, raise_if, lift, modify, gets.
  repeat (case_match; try discriminate); simplify_eq. by intros [= <-].
Qed.
Lemma pure_wait_delegation t a run : pure (call (run_wait_for_delegation t a) run)
  (fun p => run_terminal (run_status p.1) = false).
Proof.
  eapply yields_mono; [apply yields_call|]. intros [x []] E. revert E. cbn [fst snd].
  unfold run_wait_for_delegation, run_require_status, bind, raise_if, lift, modify, gets.
  repeat (case_match; try discriminate); simplify_eq. by intros [= <-].
Qed.
Lemma approval_open c k w : durable w = D -> open_runs (db_runs (durable (snd (RequestToolApproval c k w)))).
Proof.
  intros Hw. unfold RequestToolApproval, load_waiting_step, new_approval, park_step.
  assert (HD : open_runs (db_runs D)) by reflexivity.
  eapply (lands_with_uow _ _ _ open_runs); [done..|].
  do 10 l_skip. l_know ltac:(apply pure_wait_approval). intros [run' []] Hr. cbn [fst] in Hr.
  eapply lands_bind; [done|by apply steps_runs_save|]. intros [].
  repeat l_skip. by apply lands_commit.
Qed.
Lemma steps_start_child o a t :
  steps db_runs D open_runs (start_child o a t) (fun _ => open_runs).
Proof.
  unfold start_child, start_run_in_uow, ensure_task_can_own_a_run, task_agents_replace. repeat s_skip.
  eapply steps_bind; [apply steps_runs_add|]. intros []. repeat s_skip. by apply steps_ret.
Qed.
Lemma delegation_open reg l p k key o i ct s w : durable w = D ->
  open_runs (db_runs (durable (snd (DispatchDelegation reg l p k key o i ct s w)))).
Proof.
  intros Hw. unfold DispatchDelegation.
  assert (HD : open_runs (db_runs D)) by reflexivity.
  eapply (lands_with_uow _ _ _ open_runs); [done..|].
  do 7 l_skip. destruct a5 as [root depth]. do 8 l_skip. eapply lands_bind; [done|apply steps_start_child|]. intros [task run].
  eapply lands_frame; [done|intros ?; solve [keeps_all]|]. intros [request []]. l_skip.
  l_know ltac:(apply pure_wait_delegation). intros [parent []] Hr. cbn [fst] in Hr.
  eapply lands_bind; [done|by apply steps_runs_save|]. intros [].
  repeat l_skip. by apply lands_commit.
Qed.
(** The other use cases of the processor leave the runs alone. *)
Definition runs_are (v : gmap RunId Run) (d : Db) : Prop := db_runs d = v.
#[local] Hint Extern 3 (preserves (winv (runs_are _)) (upd _)) => apply preserves_upd; by intros [] : py.
#[local] Hint Extern 3 (preserves (winv (runs_are _)) (save_row _ _ _ _)) => apply preserves_upd; by intros [] : py.
#[local] Hint Extern 3 (preserves (winv (runs_are _)) (add_row _ _ _ _)) => apply preserves_add_row; by intros [] : py.
#[local] Hint Extern 3 (preserves (winv (runs_are _)) (on_queue _)) => apply preserves_on_queue; by intros [] : py.
Lemma runs_append_from v r t n l : preserves (winv (runs_are v)) (append_from r t n l).
Proof. revert n. induction l as [|[[ty p] st] l IH]; intros n; cbn [append_from]; keeps_all. Qed.
#[local] Hint Resolve runs_append_from : py.
Lemma runs_find_replay v l x : preserves (winv (runs_are v)) (find_replay l x).
Proof. induction x; cbn [find_replay]; keeps_all. Qed.
Lemma runs_resolve_bindings v r l : preserves (winv (runs_are v)) (resolve_bindings r l).
Proof. induction l; cbn [resolve_bindings]; keeps_all. Qed.
#[local] Hint Resolve runs_find_replay runs_resolve_bindings : py.
Definition parks (o : app_op) : bool :=
  match o with OpRequestToolApproval _ _ | OpDispatchDelegation _ _ _ _ _ _ _ _ _ => true | _ => false end.
Lemma runs_untouched c v o : proposes c o -> parks o = false -> preserves (winv (runs_are v)) (app_exec o).
Proof.
  intros Ho Hp. destruct o; try done; cbn [app_exec]; unfold discard; keeps_all.
Qed.
End Open.

Lemma proposes_open `{Env} `{FloatPow} `{Digest} `{Calendar} c o w : synced w -> proposes c o ->
  stay_open (db_runs (durable w)) (db_runs (durable (snd (app_exec o w)))).
Proof.
  intros Hw Ho. destruct (parks o) eqn:E.
  - destruct o; try done; cbn [app_exec]; rewrite discard_world; [by apply approval_open|by apply delegation_open].
  - pose proof (runs_untouched c (db_runs (durable w)) o Ho E w) as Hp.
    destruct (app_exec o w) as [r w']. destruct Hp as [Hd _]; [|cbn; by rewrite Hd].
    split; [done|]. unfold runs_are. by rewrite Hw.
Qed.

(** C9: the processor only proposes.  Whatever brain, tools, memory and the other
    processes do, the world after [process] is the world before it changed by
    nothing but use cases of the others and use cases of the processor for its own
    run, each fenced by its own claim: any preorder that contains those contains the
    whole processing.  So it ends in a reachable world, every theorem about histories
    holds for it, and while nobody else acts, no run that was open becomes
    terminal. *)
Theorem processor_proposes_only `{Env} `{FloatPow} `{Digest} `{Calendar} `{Unicode} {X} (out : Outside X) cf c w x :
  reachable w ->
  let w' := fst (snd (process out cf c (w, x))) in
  (forall R : relation World, PreOrder R ->
     (forall o w, reachable w -> proposes c o -> R w (snd (app_exec o w))) ->
     (forall w x, reachable w -> R w (run_history (fst (meanwhile out w x)) w)) -> R w w') /\
  reachable w' /\
  ((forall w x, fst (meanwhile out w x) = []) -> stay_open (db_runs (durable w)) (db_runs (durable w'))).
Proof.
  intros Hw. cbv zeta. pose proof (proj2 (reachable_valid w Hw)) as Hs.
  assert (Hgen : forall R : relation World, PreOrder R ->
     (forall o w, reachable w -> proposes c o -> R w (snd (app_exec o w))) ->
     (forall w x, reachable w -> R w (run_history (fst (meanwhile out w x)) w)) ->
     reachable (fst (snd (process out cf c (w, x)))) /\ R w (fst (snd (process out cf c (w, x))))).
  { intros R HR Hown Hothers.
    pose (R' := fun a b : World * X => reachable (fst a) -> reachable (fst b) /\ R (fst a) (fst b)).
    assert (HR' : PreOrder R').
    { split; [by intros a|]. intros a b d Hab Hbd Ha. destruct (Hab Ha) as [Hb ?]. destruct (Hbd Hb) as [? ?].
      split; [done|]. by transitivity (fst b). }
    refine (proj2 (moves_process out cf c R' _ _ _ w x Hs) Hw).
    - intros o w1 x1 _ Ho Hw1. split; [by apply reach_op|by apply Hown].
    - intros w1 x1 _ Hw1. split; [by apply run_history_reachable|by apply Hothers].
    - by split. }
  split_and!.
  - intros R HR Hown Hothers. by apply (Hgen R).
  - by apply (Hgen (fun _ _ => True)).
  - intros Hq. apply (Hgen (fun a b => stay_open (db_runs (durable a)) (db_runs (durable b)))).
    + split; [by intros a|]. intros a b d. by transitivity (db_runs (durable b)).
    + intros o w1 Hw1. apply proposes_open. apply (proj2 (reachable_valid w1 Hw1)).
    + intros w1 x1 _. by rewrite Hq.
Qed.

(** ** Budgets *)

(** A counter of the outside that only brain calls and tool executions can raise,
    by [b] and [g] at most *)
Record costs {X} (out : Outside X) (f : X -> Z) (b g : Z) : Prop := {
  co_meanwhile : forall w x, f (snd (meanwhile out w x)) <= f x;
  co_monotonic : forall x, f (snd (monotonic out x)) <= f x;
  co_lease : forall x, f (snd (is_lease_lost out x)) <= f x;
  co_tools : forall x, f (snd (list_tools out x)) <= f x;
  co_assess : forall call x, f (snd (assess out call x)) <= f x;
  co_retrieve : forall retrieve q x, memory_retriever out = Some retrieve -> f (snd (retrieve q x)) <= f x;
  co_brain : forall q x, f (snd (next_action out q x)) <= f x + b;
  co_gateway : forall q x, f (snd (gateway_execute out q x)) <= f x + g }.

Section Budgets.
Context `{Env} `{FloatPow} `{Digest} `{Calendar} `{Unicode} {X : Type} (out : Outside X) (cf : Config).
Context (f : X -> Z) (b g : Z) (Hf : costs out f b g) (Hb : 0 <= b) (Hg : 0 <= g).

(** [m] raises the counter by [n] at most, [n] depending on what it returns. *)
Definition spends {A} (m : Proc (X := X) A) (n : res A -> Z) : Prop :=
  forall w x, f (snd (snd (m (w, x)))) <= f x + n (fst (m (w, x))).
Definition free {A} (m : Proc (X := X) A) : Prop := spends m (fun _ => 0).

Lemma spends_mono {A} (m : Proc A) n n' : spends m n -> (forall r, n r <= n' r) -> spends m n'.
Proof. intros Hm Hn w x. specialize (Hm w x). specialize (Hn (fst (m (w, x)))). lia. Qed.
Lemma spends_bind {A B} (m : Proc A) (k : A -> Proc B) n n' :
  spends m n -> (forall e, n (Raise e) <= n' (Raise e)) ->
  (forall a, spends (k a) (fun r => n' r - n (Ok a))) -> spends (bind m k) n'.
Proof.
  intros Hm He Hk w x. specialize (Hm w x). unfold bind. destruct (m (w, x)) as [[a|e] [w1 x1]]; cbn in *.
  - specialize (Hk a w1 x1). cbv beta in Hk. lia.
  - specialize (He e). lia.
Qed.
Lemma free_ret {A} (a : A) : free (ret a).
Proof. intros w x. cbn. lia. Qed.
Lemma free_raise {A} e : free (raise (A := A) e).
Proof. intros w x. cbn. lia. Qed.
Lemma free_lift {A} (r : res A) : free (lift r).
Proof. intros w x. cbn. lia. Qed.
Lemma free_own {A} (m : U A) : free (own out m).
Proof.
  intros w x. unfold own. pose proof (co_meanwhile _ _ _ _ Hf w x) as Hm. destruct (meanwhile out w x) as [ops x1].
  destruct (m _) as [r w1]. cbn in *. lia.
Qed.
Lemma spends_outside {A} (h : X -> A * X) n : (forall x, f (snd (h x)) <= f x + n) -> spends (outside h) (fun _ => n).
Proof. intros Hh w x. specialize (Hh x). cbn. destruct (h x). cbn in *. lia. Qed.
Lemma spends_outside_res {A} (h : X -> res A * X) n :
  (forall x, f (snd (h x)) <= f x + n) -> spends (outside_res h) (fun _ => n).
Proof. intros Hh w x. specialize (Hh x). cbn. destruct (h x). cbn in *. lia. Qed.
Lemma free_bind {A B} (m : Proc A) (k : A -> Proc B) : free m -> (forall a, free (k a)) -> free (bind m k).
Proof.
  intros Hm Hk. eapply spends_bind; [exact Hm|done|]. intros a. eapply spends_mono; [apply Hk|]. intros r. cbn. lia.
Qed.
Lemma free_early {A B} (m : Proc (ProcessingOutcome + A)) (k : A -> Proc (ProcessingOutcome + B)) :
  free m -> (forall a, free (k a)) -> free (early m k).
Proof. intros Hm Hk. apply free_bind; [done|]. intros [o|a]; [apply free_ret|apply Hk]. Qed.
(** Handlers cost nothing. *)
Lemma spends_try {A} (m : Proc A) h n : spends m n -> (forall e r, n (Raise e) <= n r) ->
  (forall e k, h e = Some k -> free k) -> spends (try_except m h) n.
Proof.
  intros Hm Hn Hh w x. specialize (Hm w x). unfold try_except. destruct (m (w, x)) as [[a|e] [w1 x1]]; cbn in *; [done|].
  destruct (h e) as [k|] eqn:E; [|done]. specialize (Hh e k E w1 x1). cbv beta in Hh. specialize (Hn e (fst (k (w1, x1)))). lia.
Qed.
Lemma free_try {A} (m : Proc A) h : free m -> (forall e k, h e = Some k -> free k) -> free (try_except m h).
Proof. intros Hm Hh. by apply spends_try. Qed.
#[local] Hint Resolve free_ret free_raise free_lift free_own : free.
Ltac freely :=
  repeat first
    [ solve [auto 1 with free nocore]
    | apply free_bind; [|intros ?]
    | apply free_early; [|intros ?]
    | apply free_try; [|intros ? ? ?; repeat case_match; simplify_eq]
    | match goal with |- free (match ?x with _ => _ end) => destruct x end ].
Lemma free_monotonic : free (outside (monotonic out)).
Proof. apply spends_outside. intros x. pose proof (co_monotonic _ _ _ _ Hf x). lia. Qed.
Lemma free_lease : free (outside (is_lease_lost out)).
Proof. apply spends_outside. intros x. pose proof (co_lease _ _ _ _ Hf x). lia. Qed.
Lemma free_tools : free (outside (list_tools out)).
Proof. apply spends_outside. intros x. pose proof (co_tools _ _ _ _ Hf x). lia. Qed.
Lemma free_assess call_ : free (outside_res (assess out call_)).
Proof. apply spends_outside_res. intros x. pose proof (co_assess _ _ _ _ Hf call_ x). lia. Qed.
#[local] Hint Resolve free_monotonic free_lease free_tools free_assess : free.
Lemma free_yield : free (yield_now out).
Proof. unfold yield_now. freely. Qed.
Lemma free_return_yield {A} : free (return_yield out (A := A)).
Proof. unfold return_yield, yield_now. freely. Qed.
Lemma free_return_failed {A} code m : free (return_failed (A := A) code m).
Proof. unfold return_failed. freely. Qed.
#[local] Hint Resolve free_yield free_return_yield free_return_failed : free.
Lemma free_holds c : free (claim_holds out c).
Proof. unfold claim_holds. freely. Qed.
#[local] Hint Resolve free_holds : free.
Lemma free_require_holding c : free (require_holding out c).
Proof. unfold require_holding. freely. Qed.
Lemma free_require_time d : free (require_time out d).
Proof. unfold require_time. freely. Qed.
#[local] Hint Resolve free_require_holding free_require_time : free.
Lemma free_before_brain c notes :
  free (resolve_skills out c) /\ free (resolve_agent out cf c) /\ free (take_snapshot out cf c notes) /\
  free (assemble_conversation out cf c).
Proof. unfold resolve_skills, resolve_agent, resolving, take_snapshot, assemble_conversation. split_and!; freely. Qed.
Lemma free_retrieve q : free (match memory_retriever out with Some h => outside_res (h q) | None => raise AssertionError end).
Proof.
  destruct (memory_retriever out) as [h|] eqn:E; [|apply free_raise]. apply spends_outside_res. intros x.
  pose proof (co_retrieve _ _ _ _ Hf h q x E). lia.
Qed.
#[local] Hint Resolve free_retrieve : free.
Lemma free_memory c s turn l : free (refresh_memory out cf c s turn l).
Proof. unfold refresh_memory, retrieve_memory. freely. Qed.
Lemma free_render c s turn m conv : free (render_context out cf c s turn m conv).
Proof. unfold render_context. freely. Qed.
#[local] Hint Resolve free_memory free_render : free.
(** After steps that cost nothing, and before them *)
Lemma spends_free {A} (m : Proc A) n : free m -> (forall r, 0 <= n r) -> spends m n.
Proof. intros Hm Hn. eapply spends_mono; [exact Hm|]. exact Hn. Qed.
Lemma spends_skip {A B} (m : Proc A) (k : A -> Proc B) n :
  free m -> (forall r, 0 <= n r) -> (forall a, spends (k a) n) -> spends (bind m k) n.
Proof.
  intros Hm Hn Hk. eapply spends_bind; [exact Hm|intros e; apply Hn|]. intros a.
  eapply spends_mono; [apply Hk|]. intros r. cbn. lia.
Qed.
Lemma spends_skip_early {A B} (m : Proc (ProcessingOutcome + A)) (k : A -> Proc (ProcessingOutcome + B)) n :
  free m -> (forall r, 0 <= n r) -> (forall a, spends (k a) n) -> spends (early m k) n.
Proof.
  intros Hm Hn Hk. apply spends_skip; [done..|]. intros [o|a]; [apply spends_free; [apply free_ret|done]|apply Hk].
Qed.
Lemma spends_then {A B} (m : Proc A) (k : A -> Proc B) n :
  spends m (fun _ => n) -> (forall a, free (k a)) -> spends (bind m k) (fun _ => n).
Proof.
  intros Hm Hk. eapply spends_bind; [exact Hm|done|]. intros a. eapply spends_mono; [apply Hk|]. intros r. cbn. lia.
Qed.

Lemma spends_brain c turn deadline doc : spends (ask_brain out cf c turn deadline doc) (fun _ => b).
Proof.
  unfold ask_brain. apply spends_skip; [freely|done|]. intros t. cbn zeta.
  destruct (_ <=? 0); [apply spends_free; [freely|done]|]. apply spends_skip; [freely|done|]. intros tools.
  apply spends_skip; [freely|done|]. intros q. apply spends_skip_early; [freely|done|]. intros [].
  apply spends_then; [apply spends_outside, (co_brain _ _ _ _ Hf)|]. intros r. freely.
Qed.
(** A tool call costs one execution, whatever becomes of it. *)
Lemma spends_execute c call_ timeout :
  spends (execute_tool_action out (cx_run_id c) None call_ (cx_claim c) timeout) (fun _ => g).
Proof.
  unfold execute_tool_action. do 3 (apply spends_skip; [freely|done|intros ?]).
  destruct a1; [apply spends_free; [freely|done]..|]. apply spends_skip; [freely|done|]. intros _.
  apply spends_then; [apply spends_outside_res, (co_gateway _ _ _ _ Hf)|]. intros r. freely.
Qed.
Lemma free_request_approval c reason call_ : free (request_approval out c reason call_).
Proof. unfold request_approval. freely. Qed.
#[local] Hint Resolve free_request_approval : free.

(** What a dispatched action may cost, by what it leaves *)
Definition action_cost (r : res Dispatched) : Z :=
  match r with Ok (None, _, used, _) => if used then g else 0 | _ => g end.
Lemma action_cost_nonneg r : 0 <= action_cost r.
Proof. destruct r as [[[[[o|] n] []] m]|e]; cbn; lia. Qed.
Lemma spends_dispatch_tool c tool input reason deadline :
  spends (dispatch_tool out c tool input reason deadline) action_cost.
Proof.
  pose proof action_cost_nonneg as Hn.
  unfold dispatch_tool. apply spends_skip; [freely|done|]. intros t. cbn zeta.
  destruct (_ <=? 0); [apply spends_free; [unfold stop_yield; freely|done]|].
  destruct (ToolCall_new _ _) as [call_|e]; [|apply spends_free; [freely|done]].
  eapply (spends_bind _ _ (fun _ => g)); [|done|].
  - apply spends_try; [|done|intros ? ? ?; repeat case_match; simplify_eq; freely].
    apply spends_then; [apply spends_execute|]. intros r. freely.
  - intros [o|[risk f'|risk f' iid result replayed]].
    + intros w x. cbn. lia.
    + eapply spends_bind; [apply free_request_approval|cbn; lia|]. intros o w x. cbn. lia.
    + intros w x. cbn. lia.
Qed.
Lemma spends_dispatch c action deadline : spends (dispatch out cf c action deadline) action_cost.
Proof.
  destruct action; cbn [dispatch]; try apply spends_dispatch_tool;
    (apply spends_free; [|apply action_cost_nonneg]);
    unfold dispatch_delegate, stop_failed, stop_yield; freely.
Qed.

(** What a computation may return *)
Abbreviation gives m Q := (yields (fun _ => True) m Q).
Lemma gives_any {A} (m : Proc (X := X) A) : gives m (fun _ => True).
Proof. intros s _. by destruct (m s) as [[]]. Qed.
Lemma gives_skip {A B} (m : Proc (X := X) A) (k : A -> Proc B) Q : (forall a, gives (k a) Q) -> gives (bind m k) Q.
Proof. intros Hk. eapply yields_bind; [apply gives_any|]. intros a _. apply Hk. Qed.
Lemma spends_know {A B} (m : Proc A) (k : A -> Proc B) n Q :
  free m -> gives m Q -> (forall r, 0 <= n r) -> (forall a, Q a -> spends (k a) n) -> spends (bind m k) n.
Proof.
  intros Hm HQ Hn Hk w x. specialize (Hm w x). specialize (HQ (w, x) I). unfold bind.
  destruct (m (w, x)) as [[a|e] [w1 x1]]; cbn in *.
  - destruct HQ as [_ HQ]. specialize (Hk a HQ w1 x1). lia.
  - specialize (Hn (Raise e)). lia.
Qed.

(** The number of tool calls so far, as the pieces of a turn leave it *)
Definition max_calls : Z := rl_max_tool_calls_per_claim (cf_limits cf).
Definition keeps_calls (l : LoopState) (r : ProcessingOutcome + LoopState) : Prop :=
  match r with inr l' => ls_tool_calls l' = ls_tool_calls l | inl _ => True end.
Lemma gives_yield {A} (Q : ProcessingOutcome + A -> Prop) :
  (forall o, Q (inl o)) -> gives (return_yield out (A := A)) Q.
Proof. intros HQ. unfold return_yield. apply gives_skip. intros o s _. split; [done|apply HQ]. Qed.
Lemma refresh_keeps_calls c s turn l : gives (refresh_memory out cf c s turn l) (keeps_calls l).
Proof.
  unfold refresh_memory. cbv zeta. match goal with |- yields _ (if ?n then _ else _) _ => destruct n end.
  - apply gives_skip. intros [m|]; [by intros s' _|]. by apply gives_yield.
  - by intros s' _.
Qed.
(** One turn: a brain call, and an execution when the loop goes on with one more
    tool call *)
Definition turn_cost (l : LoopState) (r : res (ProcessingOutcome + LoopState)) : Z :=
  match r with Ok (inr l') => b + g * Z.max 0 (ls_tool_calls l' - ls_tool_calls l) | _ => b + g end.
Lemma turn_cost_bound l r : b <= turn_cost l r.
Proof. destruct r as [[o|l']|e]; cbn; nia. Qed.

Lemma spends_after l note used mw :
  spends (after_dispatch out cf l note used mw) (fun r => turn_cost l r - b - (if used then g else 0)).
Proof.
  unfold after_dispatch. cbv zeta. destruct used.
  - destruct (_ <=? _).
    + unfold return_yield. eapply spends_bind; [apply free_yield|cbn; lia|]. intros o w x. cbn. lia.
    + intros w x. cbn. lia.
  - intros w x. cbn. lia.
Qed.
Lemma spends_turn c turn deadline l : spends (turn_body out cf c turn deadline l) (turn_cost l).
Proof.
  assert (Hn : forall l r, 0 <= turn_cost l r) by (intros l' r; pose proof (turn_cost_bound l' r); lia).
  destruct (free_before_brain c (ls_turn_notes l)) as (F1 & F2 & F3 & F4).
  unfold turn_body. apply spends_skip_early; [freely|done|intros _]. apply spends_skip_early; [freely|done|intros _].
  do 3 (apply spends_skip_early; [done|done|intros ?]). apply spends_skip; [done|done|intros conversation].
  apply (spends_know _ _ _ (keeps_calls l)); [apply free_memory|apply refresh_keeps_calls|done|].
  intros [o|l1] Hl; [apply spends_free; [freely|done]|].
  replace (turn_cost l) with (turn_cost l1) by (unfold turn_cost; cbn in Hl; by rewrite Hl).
  apply spends_skip_early; [freely|done|intros doc]. unfold early at 1.
  eapply spends_bind; [apply spends_brain|cbn; lia|]. intros [o|response]; [intros w x; cbn; lia|].
  assert (Hn' : forall r, 0 <= turn_cost l1 r - b) by (intros r; pose proof (turn_cost_bound l1 r); lia).
  do 2 (apply spends_skip_early; [freely|done|intros _]).
  eapply spends_bind; [apply spends_dispatch|cbn; lia|]. intros [[[[o|] note] used] mw].
  - intros w x. cbn. lia.
  - eapply spends_mono; [apply spends_after|]. intros r. cbn. lia.
Qed.
(** A turn that does not end the processing leaves the tool budget open. *)
Definition goes_on (l : LoopState) (r : ProcessingOutcome + LoopState) : Prop :=
  match r with inr l' => ls_tool_calls l <= ls_tool_calls l' < max_calls | inl _ => True end.
Lemma gives_early {A} (m : Proc (X := X) (ProcessingOutcome + A)) k l : (forall a, gives (k a) (goes_on l)) ->
  gives (early m k) (goes_on l).
Proof. intros Hk. apply gives_skip. intros [o|a]; [by intros s _|apply Hk]. Qed.
Lemma turn_goes_on c turn deadline l : ls_tool_calls l < max_calls ->
  gives (turn_body out cf c turn deadline l) (goes_on l).
Proof.
  intros Hl. unfold turn_body. do 5 (apply gives_early; intros ?). apply gives_skip. intros conversation.
  eapply yields_bind; [apply refresh_keeps_calls|]. intros [o|l1] Hl1; [by intros s _|]. cbn in Hl1.
  do 4 (apply gives_early; intros ?). apply gives_skip. intros [[[[o|] note] used] mw]; [by intros s _|].
  unfold after_dispatch. cbv zeta. destruct used; [destruct (_ <=? _) eqn:E; [by apply gives_yield|]|].
  all: intros s _; split; [done|]; cbn; unfold max_calls in *; lia.
Qed.
Lemma spends_turns n c turn deadline l : ls_tool_calls l < max_calls ->
  spends (turns out cf n c turn deadline l) (fun _ => b * Z.of_nat n + g * (max_calls - ls_tool_calls l)).
Proof.
  revert turn l. induction n as [|n IH]; intros turn l Hl; cbn [turns].
  { apply spends_free; [freely|]. intros r. nia. }
  intros w x. pose proof (spends_turn c turn deadline l w x) as Ht.
  pose proof (turn_goes_on c turn deadline l Hl (w, x) I) as Hg'. unfold bind.
  destruct (turn_body _ _ _ _ _ _ (w, x)) as [[[o|l']|e] [w1 x1]]; cbn in *; [nia| |nia].
  destruct Hg' as [_ Hg']. specialize (IH (turn + 1) l' (proj2 Hg') w1 x1). cbv beta in IH. nia.
Qed.
End Budgets.

(** C10: budgets.  Let [f] be any count the outside keeps that only brain calls and
    tool executions raise, by at most [b] and [g].  One processing of a claim
    raises it by at most [b] for each allowed turn and [g] for each allowed tool
    call: with [b = 1] and [g = 0] it is the number of brain calls, with [b = 0] and
    [g = 1] the number of executed side effects, replays and refusals included in
    neither. *)
Theorem processor_budgets `{Env} `{FloatPow} `{Digest} `{Calendar} `{Unicode} {X} (out : Outside X) cf c f b g w x :
  RuntimeLimits_check (cf_limits cf) = Ok (cf_limits cf) -> 0 <= b -> 0 <= g -> costs out f b g ->
  f (snd (snd (process out cf c (w, x))))
  <= f x + b * rl_max_turns_per_claim (cf_limits cf) + g * rl_max_tool_calls_per_claim (cf_limits cf).
Proof.
  intros Hl Hb Hg Hf.
  assert (Hlim : 1 <= rl_max_turns_per_claim (cf_limits cf) /\ 1 <= rl_max_tool_calls_per_claim (cf_limits cf)).
  { unfold RuntimeLimits_check in Hl. destruct (_ <? 1) eqn:E1 in Hl; [done|]. destruct (_ <? 1) eqn:E2 in Hl; [done|]. lia. }
  unfold process, bind. pose proof (free_monotonic out f b g Hf w x) as Hm.
  destruct (outside (monotonic out) (w, x)) as [[t|e] [w1 x1]] eqn:E; cbn in *; [|nia].
  pose proof (spends_turns out cf f b g Hf Hb Hg (Z.to_nat (rl_max_turns_per_claim (cf_limits cf))) c 1
    (t + rl_max_processing_seconds (cf_limits cf)) (loop_start out)) as Ht.
  unfold max_calls in Ht. cbn in Ht. specialize (Ht ltac:(lia) w1 x1). cbv beta in Ht. rewrite Z2Nat.id in Ht by lia. nia.
Qed.

(** ** What a snapshot says of delegations *)
Section Views.
Context `{Env} `{Digest} `{Unicode} (w0 : World).
Abbreviation here := (fun w => w = w0).

Lemma looks_yields {A} (m : U A) : looks m -> yields here m (fun _ => True).
Proof. intros Hm w ->. specialize (Hm w0). destruct (m w0) as [[a|e] w1]; cbn in *; by subst. Qed.
Lemma yields_read {A} (f : Db -> A) : yields here (db f) (fun a => a = f (staged w0)).
Proof. by intros w ->. Qed.

(** The view of a request in the database [d] *)
Definition view_of (d : Db) (x : DelegationRequest) (v : DelegationView) : Prop :=
  dv_request v = x /\
  (forall e, child_execution d x = Some e -> dl_status x = DSUCCEEDED ->
     dv_authority_values v = delegated_lineage_authority_values d e x) /\
  (dv_summary v = None /\ dv_details v = JNull \/
   dl_status x = DSUCCEEDED /\
   exists s j, (dv_summary v, dv_details v) = project_delegated_result s j (dv_authority_values v)).

Lemma finished_projects authority l :
  yields here (finished_result authority l)
    (fun r => r = (None, JNull) \/ exists s j, r = project_delegated_result s j authority).
Proof.
  induction l as [|r l IH]; cbn [finished_result]; [intros w ->; split; [done|by left]|].
  eapply yields_bind; [apply yields_read|]. intros e _. destruct (ev_payload <$> e) as [[]|]; try exact IH.
  intros w ->. split; [done|]. right. eauto.
Qed.
Lemma delegation_view_of x : yields here (delegation_view x) (view_of (staged w0) x).
Proof.
  unfold delegation_view. eapply yields_bind; [apply yields_read|]. intros target _.
  eapply (yields_bind _ _ _ (fun o => child_execution (staged w0) x = (run_execution_id <$> o))).
  { unfold child_execution. destruct (dl_child_run_id x) as [c|]; [|by intros w ->].
    intros w ->. split; [done|]. by destruct (db_runs (staged w0) !! c). }
  intros [child|] Hc; [|by intros w ->; split; [done|split; [done|split; [rewrite Hc; done|by left]]]].
  case_bool_decide as Hs.
  - eapply yields_bind; [apply yields_read|]. intros authority ->. eapply yields_bind; [apply yields_read|].
    intros runs _. eapply yields_bind; [apply finished_projects|]. intros [s j] Hr w ->. split; [done|].
    split; [done|]. split.
    + intros e He _. cbn. rewrite Hc in He. by injection He as <-.
    + cbn. destruct Hr as [[= -> ->]|(s' & j' & ->)]; [by left|]. right. split; [done|]. by exists s', j'.
  - intros w ->. split; [done|]. split; [done|]. split; [done|by left].
Qed.
Lemma delegation_views_of l : yields here (delegation_views l) (fun vs => forall v, v ∈ vs -> exists x, x ∈ l /\ view_of (staged w0) x v).
Proof.
  induction l as [|x l IH]; cbn [delegation_views]; [intros w ->; split; [done|by intros v ?%not_elem_of_nil]|].
  eapply yields_bind; [apply delegation_view_of|]. intros v Hv. eapply yields_bind; [exact IH|]. intros vs Hvs w ->.
  split; [done|]. intros v' [->|Hin]%elem_of_cons; [exists x; split; [left|done]|].
  destruct (Hvs v' Hin) as (y & Hy & Hv'). exists y. split; [by right|done].
Qed.
End Views.

(** The views of a loaded snapshot *)
Lemma snapshot_views `{Env} `{Digest} `{Unicode} reg n r t notes w s w' :
  load_snapshot reg n r t notes w = (Ok (Some s), w') ->
  forall v, v ∈ sn_delegations s -> exists x, x ∈ select (fun x => id_eqb (dl_parent_run_id x) r) delegation_key
    (db_delegations (durable w)) /\ view_of (durable w) x v.
Proof.
  unfold load_snapshot, with_uow. set (w0 := mkWorld (durable w) (durable w) (draws w) (ticks w)).
  match goal with |- context [match ?m w0 with _ => _ end] => set (body := m) end.
  enough (Hb : yields (fun w => w = w0) body (fun o => forall s, o = Some s -> forall v, v ∈ sn_delegations s ->
    exists x, x ∈ select (fun x => id_eqb (dl_parent_run_id x) r) delegation_key (db_delegations (durable w)) /\
      view_of (durable w) x v)).
  { specialize (Hb w0 eq_refl). destruct (body w0) as [[o|e] w1]; [|done]. intros [= -> _].
    destruct Hb as [_ Hb]. by apply Hb. }
  assert (Hskip : forall A B (m : U A) (k : A -> U B) Q, looks m -> (forall a, yields (fun w => w = w0) (k a) Q) ->
    yields (fun w => w = w0) (bind m k) Q).
  { intros A B m k Q Hm Hk. eapply yields_bind; [by apply looks_yields|]. intros a _. apply Hk. }
  unfold body. clear body. unfold tasks_get, runs_get. do 2 (apply Hskip; [looking|intros ?]).
  assert (Hnone : yields (fun w => w = w0) (ret (A := option RunSnapshot) None)
    (fun o => forall s, o = Some s -> forall v, v ∈ sn_delegations s ->
    exists x, x ∈ select (fun x => id_eqb (dl_parent_run_id x) r) delegation_key (db_delegations (durable w)) /\
      view_of (durable w) x v)) by (by intros w1 ->).
  destruct a as [task|], a0 as [run|]; try exact Hnone. destruct (negb _); [exact Hnone|].
  unfold events_list_recent_for_run, events_list_for_run, skill_bindings_list_for_run.
  apply Hskip; [looking|intros events]. apply Hskip; [looking|intros bindings].
  apply Hskip; [apply looks_skills|intros [skills|]]; [|exact Hnone]. apply Hskip; [apply looks_agent|intros agent].
  apply Hskip.
  { destruct (not_none agent); [|looking]. unfold agents_list. apply looks_bind; [looking|]. intros l. apply looks_targets. }
  intros targets. eapply yields_bind; [apply yields_read|]. intros requests ->.
  eapply yields_bind; [apply delegation_views_of|]. intros views Hv.
  unfold delegations_get_for_child_execution, steps_list_for_run, approvals_list_recent_for_run, tools_list_recent_for_run,
    artifacts_list_recent_for_run, approvals_list_for_run, tools_list_for_run, artifacts_list_for_run.
  do 5 (apply Hskip; [looking|intros ?]). apply Hskip; [apply looks_workflow|intros wf].
  intros w1 ->. split; [done|]. intros s1 [= <-] v Hin. exact (Hv v Hin).
Qed.

(** C11: delegated authority stays behind.  In the snapshot of a run, taken from any
    reachable database, the known authority values of every successful delegation
    are exactly those the stored rows of the whole delegated subtree hold (claim
    tokens, approvals, tool invocations and fingerprints of every run of every
    execution that was delegated to, however deep), and when they are opaque
    handles, none of them occurs in the summary or in the details that the snapshot
    carries for it. *)
Theorem snapshot_keeps_authority `{Env} `{FloatPow} `{Digest} `{Calendar} `{Unicode} reg n r t notes w s w' v e :
  reachable w -> load_snapshot reg n r t notes w = (Ok (Some s), w') -> v ∈ sn_delegations s ->
  child_execution (durable w) (dv_request v) = Some e ->
  let held := subtree_holds (durable w) (dv_request v) in
  (dl_status (dv_request v) = DSUCCEEDED -> forall k, AuthStr k ∈ dv_authority_values v <-> held k) /\
  ((forall k, held k -> opaque_value k) -> forall k, held k ->
     (forall text, dv_summary v = Some text -> contains k text = false) /\
     (forall text, text ∈ json_texts (dv_details v) -> contains k text = false)).
Proof.
  intros Hw E Hv He. cbv zeta. destruct (snapshot_views _ _ _ _ _ _ _ _ E v Hv) as (x & Hx & Hr & Ha & Hp).
  rewrite Hr in *. unfold select in Hx. rewrite elem_of_order_by, list_elem_of_filter, list_elem_of_fmap in Hx.
  destruct Hx as [_ ([i y] & -> & Hin)]. apply elem_of_map_to_list in Hin. cbn [snd] in *.
  pose proof (reachable_rows_valid w Hw) as Hrows.
  assert (Hkeys : forall i z, db_delegations (durable w) !! i = Some z -> dl_id z = i)
    by (intros j z Hz; apply (Hrows TbDelegation j z Hz)).
  assert (Hst : db_delegations (durable w) !! dl_id y = Some y) by (by rewrite (Hkeys i y Hin)).
  assert (Hex : forall k, AuthStr k ∈ delegated_lineage_authority_values (durable w) e y <-> subtree_holds (durable w) y k)
    by (intros k; rewrite (subtree_holds_lineage _ _ e) by done; by apply delegated_lineage_exact).
  split; [intros Hs k; by rewrite (Ha e He Hs)|]. intros Ho k Hk.
  destruct Hp as [[-> ->]|(Hs & s0 & j0 & Hp)]; [split; [done|by intros text ?%not_elem_of_nil]|].
  rewrite (Ha e He Hs) in Hp.
  pose proof (projected_clean s0 j0 (delegated_lineage_authority_values (durable w) e y)) as Hc. rewrite <- Hp in Hc.
  destruct Hc as [Hsum Htext]; [intros k' Hk'; by apply Ho, Hex|].
  split; intros text Ht; [eapply Hsum|eapply Htext]; first [by apply Hex|done].
Qed.

(** ** A concrete processing *)

(** A brain that reads a file and then finishes; the outside counts brain calls and
    executions and keeps to itself otherwise. *)
Definition toy_risk (call : ToolCall) : ToolRiskAssessment :=
  mkRisk (tc_tool call) true false CAT_TOOL_EXECUTION (u "reads a file") None None.
Definition toy_outside : Outside (Z * Z) := {|
  meanwhile := fun _ x => ([], x);
  monotonic := fun x => (0, x);
  is_lease_lost := fun x => (false, x);
  next_action := fun q x =>
    (inr (mkBrainResponse (if x.1 =? 0 then InvokeToolAction (u "fs.read") (JDict []) None
                           else FinishAction (u "done") JNull) None JNull false), (x.1 + 1, x.2));
  list_tools := fun x => ([], x);
  assess := fun call x => (Ok (toy_risk call), x);
  gateway_execute := fun _ x => (Ok (result_succeeded JNull []), (x.1, x.2 + 1));
  memory_retriever := None |}.
Definition toy_limits : RuntimeLimits := mkRuntimeLimits 8 4 24000 10000 600 600 12000 12000 3 8 32 3.
Definition toy_config : Config :=
  mkConfig toy_limits [DEFAULT_RUNTIME_KIND] (default_dispatch_limits toy_limits) default_query_builder None.
Definition toy_claimed : World :=
  @run_history toy_env toy_pow toy_digest toy_calendar
    [OpCreateTask (u "buy milk") (u ""); OpStartRun (toy_id 0); OpClaimNextRun (u "w1") 1000000 5] empty_world.
Lemma toy_claimed_reachable : @reachable toy_env toy_pow toy_digest toy_calendar toy_claimed.
Proof. apply run_history_reachable. by apply reach_init. Qed.
Definition toy_context : ClaimContext := mkClaimContext (toy_id 1) (toy_id 0) (mkClaim (u "w1") (u "id-3") 1) 1.
Definition toy_process (x : Z * Z) : res ProcessingOutcome * (World * (Z * Z)) :=
  @process toy_env toy_pow toy_digest toy_calendar ascii_unicode _ toy_outside toy_config toy_context (toy_claimed, x).
Example toy_process_ex :
  fst (toy_process (0, 0)) = Ok (outcome_succeeded (u "done") JNull) /\ snd (snd (toy_process (0, 0))) = (2, 1) /\
  map (fun p => tool_status p.2) (map_to_list (db_tools (durable (fst (snd (toy_process (0, 0))))))) = [ISUCCEEDED].
Proof. vm_compute. auto. Qed.

Lemma processor_proposes_only_witness :
  map (fun p => run_status p.2) (map_to_list (db_runs (durable (fst (snd (toy_process (0, 0))))))) = [RRUNNING] /\
  @reachable toy_env toy_pow toy_digest toy_calendar (fst (snd (toy_process (0, 0)))) /\
  stay_open (db_runs (durable toy_claimed)) (db_runs (durable (fst (snd (toy_process (0, 0)))))).
Proof.
  split; [vm_compute; reflexivity|].
  destruct (@processor_proposes_only toy_env toy_pow toy_digest toy_calendar ascii_unicode _ toy_outside toy_config
    toy_context toy_claimed (0, 0) toy_claimed_reachable) as (_ & Hr & Ho).
  split; [exact Hr|apply Ho; reflexivity].
Defined.
Lemma toy_costs : costs toy_outside fst 1 0 /\ costs toy_outside snd 0 1.
Proof. split; split; intros; cbn in *; try discriminate; lia. Qed.
Lemma processor_budgets_witness :
  fst (snd (snd (toy_process (0, 0)))) <= 8 /\ snd (snd (snd (toy_process (0, 0)))) <= 4.
Proof.
  split.
  - exact (@processor_budgets toy_env toy_pow toy_digest toy_calendar ascii_unicode _ toy_outside toy_config
      toy_context fst 1 0 toy_claimed (0, 0) eq_refl ltac:(lia) ltac:(lia) (proj1 toy_costs)).
  - exact (@processor_budgets toy_env toy_pow toy_digest toy_calendar ascii_unicode _ toy_outside toy_config
      toy_context snd 0 1 toy_claimed (0, 0) eq_refl ltac:(lia) ltac:(lia) (proj2 toy_costs)).
Defined.

(** ** A concrete delegation

    A parent run delegates, the child calls a tool, finishes, and quotes the id of
    its tool invocation in its answer; the parent is claimed again. *)
Definition uuid_env : Env :=
  {| uuid4 := fun n => u "00000000-" ++ int_repr (Z.of_nat n); clock_at := fun n => 1000 + Z.of_nat n |}.
Definition hex_id {k} (n : Z) : Id k := mkId (u "00000000-" ++ int_repr n).
Definition delegating_ops : list app_op :=
  let reg := [DEFAULT_RUNTIME_KIND] in
  let claim worker n := mkClaim (u worker) (u "00000000-" ++ int_repr n) 1 in
  [OpCreateAgent (u "helper") (u "Helper") (u "helps");
   OpCreateAgentRevision reg (hex_id 0) (u "do it") DEFAULT_RUNTIME_KIND (PyDict []) AS_OPERATOR;
   OpActivateAgentRevision (hex_id 0) (hex_id 1);
   OpCreateTask (u "buy milk") (u ""); OpStartRun (hex_id 2); OpClaimNextRun (u "w1") 1000000 5;
   OpDispatchDelegation reg default_limits (hex_id 3) (claim "w1"%string 5) (u "helper") (u "find milk") (PyDict [])
     (u "a summary") None;
   OpClaimNextRun (u "w2") 1000000 5;
   OpRequestToolInvocation (hex_id 9) (u "fs.read") (PyDict []) None None; OpMarkToolRunning (hex_id 15);
   OpMarkToolSucceeded (hex_id 15) JNull;
   OpApplySucceededOutcome (hex_id 9) (claim "w2"%string 13)
     (Some (u "milk found, see 00000000-15", JDict [(u "call", JStr (u "00000000-15"))]));
   OpClaimNextRun (u "w1") 1000000 5].
Definition delegated_world : World :=
  @run_history uuid_env toy_pow toy_digest toy_calendar delegating_ops empty_world.
Lemma delegated_reachable : @reachable uuid_env toy_pow toy_digest toy_calendar delegated_world.
Proof. apply run_history_reachable. by apply reach_init. Qed.
Definition delegated_snapshot : res (option RunSnapshot) * World :=
  @load_snapshot toy_digest ascii_unicode [DEFAULT_RUNTIME_KIND] 5 (hex_id 3) (hex_id 2) [] delegated_world.
(** Its one delegation, its answer cleaned, the known values all handles *)
Definition delegated_facts (r : res (option RunSnapshot) * World) : Prop :=
  match fst r with
  | Ok (Some s) =>
      match sn_delegations s with
      | [v] =>
          child_execution (durable delegated_world) (dv_request v) = Some (hex_id 9) /\
          dl_status (dv_request v) = DSUCCEEDED /\ dv_summary v = Some (u "milk found, see [redacted]") /\
          bool_decide (u "00000000-15" ∈ authority_strings (dv_authority_values v)) = true /\
          forallb (fun a => match a with AuthStr k => forallb is_handle_char k && (8 <? len k) | AuthInt _ => true end)
            (dv_authority_values v) = true
      | _ => False
      end
  | _ => False
  end.
Lemma delegated_facts_hold : delegated_facts delegated_snapshot.
Proof. vm_compute. repeat split; reflexivity. Qed.
Lemma snapshot_keeps_authority_witness :
  exists s v, fst delegated_snapshot = Ok (Some s) /\ sn_delegations s = [v] /\
    subtree_holds (durable delegated_world) (dv_request v) (u "00000000-15") /\
    (forall text, dv_summary v = Some text -> contains (u "00000000-15") text = false) /\
    (forall text, text ∈ json_texts (dv_details v) -> contains (u "00000000-15") text = false).
Proof.
  pose proof delegated_facts_hold as HF. unfold delegated_facts in HF.
  destruct delegated_snapshot as [[[s|]|e] w'] eqn:Es; [|destruct HF..]. cbn [fst] in *.
  destruct (sn_delegations s) as [|v [|? ?]] eqn:Ev; [destruct HF| |destruct HF].
  destruct HF as (Hc & Hst & _ & Hin & Hall). exists s, v. split; [reflexivity|]. split; [exact Ev|].
  destruct (@snapshot_keeps_authority uuid_env toy_pow toy_digest toy_calendar ascii_unicode [DEFAULT_RUNTIME_KIND] 5
    (hex_id 3) (hex_id 2) [] delegated_world s w' v (hex_id 9) delegated_reachable Es
    ltac:(rewrite Ev; left) Hc) as [Hex Hclean].
  specialize (Hex Hst). rewrite forallb_forall in Hall.
  assert (Hheld : subtree_holds (durable delegated_world) (dv_request v) (u "00000000-15")).
  { apply Hex. apply authority_strings_from. by apply bool_decide_eq_true in Hin. }
  split; [exact Hheld|]. apply Hclean; [|exact Hheld].
  intros k Hk. apply Hex in Hk. apply list_elem_of_In in Hk. apply Hall in Hk.
  apply andb_true_iff in Hk as [H1 H2]. apply handle_opaque; [exact H1|lia].
Defined.
