(* ===== verification/ClaimHistory.v ===== *)
(** * Claims over whole histories

    The claim of a worker on a run is held by the row of the run in the work queue.
    Proved here, for every history of use cases: once a claim is not active, nothing
    that anybody does makes it active again. *)

From S2P Require Import Prelude Values RunEntity TaskEntity StepEntity ToolEntity ApprovalEntity.
From S2P Require Import EventEntity ScheduleEntity ScheduleDelivery Canonical RetryPolicy.
From S2P Require Import DelegationEntity WorkQueue AgentEntity WorkflowExecutionEntity SkillEntity ConversationEntity Tables Store.
From S2P Require Import Lifecycle RunUseCases TaskUseCases StepUseCases ApprovalUseCases.
From S2P Require Import ToolExecution AgentUseCases DelegationUseCases ScheduleUseCases.
From S2P Require Import WorkerUseCases WorkflowGraph WorkflowEntity WorkflowStore WorkflowUseCases WorkflowEngine.
From S2P Require Import DeliveryEntity DeliveryStore DeliveryUseCases SkillStore SkillUseCases ConversationUseCases.
From S2P Require Import ImprovementEntity ImprovementStore SkillPromotion SkillEvaluation SkillImprovement System Rows RowHistory.

Open Scope Z_scope.

(** Neither a claim nor a renewal *)
Definition plain (o : wq_op) : Prop := match o with WqTryClaim _ _ _ | WqRenew _ _ => False | _ => True end.

(** ** Properties of the queue that every history keeps *)
Section Queues.
Context `{Env} (J : nat -> nat -> Queue -> Prop).
(** [J] speaks of the queue, the identifiers drawn so far and the clock readings so
    far, and it only gets weaker as these go on. *)
Context (Jlater : forall n n' k k' q, (n <= n')%nat -> (k <= k')%nat -> J n k q -> J n' k' q).
Context (Jplain : forall n k x o t q, plain o -> J n k q -> J n k (snd (wq_exec x t o q))).
Context (Jrenew : forall n k x c l q, J n k q -> J n (S k) (snd (renew_lease x c (clock_at k) (clock_at k + l) q))).
Context (Jclaim : forall n k x w t e q, J n k q -> J (S n) k (snd (try_claim x w (uuid4 n) t e q))).

(** [J] of the stored and of the staged queue; and what is stored has passed [commit]. *)
Inductive kept (w : World) : Prop :=
  Kept (_ : J (draws w) (ticks w) (db_queue (durable w))) (_ : J (draws w) (ticks w) (db_queue (staged w)))
    (_ : integrity (durable w) = true).

Lemma kept_db {A} (f : Db -> A) : preserves kept (db f).
Proof. by intros w. Qed.
Lemma kept_upd f : (forall d, db_queue (f d) = db_queue d) -> preserves kept (upd f).
Proof. intros Hf w [Hd Hs Hi]. split; [done| |done]. cbn. by rewrite Hf. Qed.
Lemma kept_new_id {k} : preserves kept (new_id (k := k)).
Proof. intros w [Hd Hs Hi]. split; [..|done]; (eapply Jlater; [| |eassumption]; cbn; lia). Qed.
Lemma kept_uuid4_hex : preserves kept uuid4_hex.
Proof. intros w [Hd Hs Hi]. split; [..|done]; (eapply Jlater; [| |eassumption]; cbn; lia). Qed.
Lemma kept_now : preserves kept now.
Proof. intros w [Hd Hs Hi]. split; [..|done]; (eapply Jlater; [| |eassumption]; cbn; lia). Qed.
Lemma kept_commit : preserves kept commit.
Proof. intros w [Hd Hs Hi]. unfold commit. by destruct (integrity (staged w)) eqn:E. Qed.
Lemma kept_with_uow {A} (m : U A) : preserves kept m -> preserves kept (with_uow m).
Proof.
  intros Hm w [Hd _ Hi]. unfold with_uow.
  specialize (Hm (mkWorld (durable w) (durable w) (draws w) (ticks w)) ltac:(done)).
  destruct (m _) as [x w']. by destruct Hm.
Qed.
Lemma kept_add_row {k V} get set (id : Id k) (v : V) :
  (forall m d, db_queue (set m d) = db_queue d) -> preserves kept (add_row get set id v).
Proof.
  intros Hs. unfold add_row. apply preserves_bind; [apply kept_db|].
  intros x. destruct (x !! id); [apply preserves_raise | by apply kept_upd].
Qed.
Lemma kept_on_queue {A} (m : M Queue A) : (forall n k q, J n k q -> J n k (snd (m q))) -> preserves kept (on_queue m).
Proof. intros Hm w [Hd Hs Hi]. unfold on_queue. specialize (Hm _ _ _ Hs). by destruct (m _) as [x q]. Qed.
Lemma kept_reading {A} (m : M Queue A) : (forall q, snd (m q) = q) -> preserves kept (on_queue m).
Proof. intros Hm. apply kept_on_queue. intros n k q. by rewrite Hm. Qed.
Lemma kept_exec x t o : plain o -> preserves kept (on_queue (wq_exec x t o)).
Proof. intros Ho. apply kept_on_queue. intros n k q. by apply Jplain. Qed.
(** The unconditional operations return nothing. *)
Lemma kept_unit (m : M Queue unit) o x : plain o -> wq_exec x 0 o = (m ;;; ret true) -> preserves kept (on_queue m).
Proof.
  intros Ho E. apply kept_on_queue. intros n k q Hq. specialize (Jplain n k x o 0 q Ho Hq). revert Jplain.
  rewrite E. unfold bind. by destruct (m q) as [[a|e] q'].
Qed.
#[local] Hint Resolve kept_db kept_new_id kept_uuid4_hex kept_now kept_commit : py.

Ltac leaf :=
  lazymatch goal with
  | |- preserves _ (upd _) => apply kept_upd; done
  | |- preserves _ (save_row _ _ _ _) => apply kept_upd; done
  | |- preserves _ (add_row _ _ _ _) => apply kept_add_row; done
  | |- preserves _ (on_queue (enqueue ?x ?a ?e)) => by apply (kept_unit _ (WqEnqueue a e) x)
  | |- preserves _ (on_queue (wq_remove ?x)) => by apply (kept_unit _ WqRemove x)
  | |- preserves _ (on_queue (release_claim ?x ?k ?n)) => by apply (kept_exec x n (WqRelease k))
  | |- preserves _ (on_queue (requeue_claimed ?x ?k ?a ?e ?n)) => by apply (kept_exec x n (WqRequeue k a e))
  | |- preserves _ (on_queue (remove_if_claimed ?x ?k ?n)) => by apply (kept_exec x n (WqRemoveIfClaimed k))
  | |- preserves _ (on_queue (clear_expired_claim ?x ?n)) => by apply (kept_exec x n WqClearExpired)
  | |- preserves _ (on_queue (remove_if_lease_expired ?x ?n)) => by apply (kept_exec x n WqRemoveIfExpired)
  | |- preserves _ (on_queue (is_claim_active _ _ _)) => apply kept_reading; intros ?; by rewrite is_claim_active_spec
  | |- preserves _ (on_queue _) => by apply kept_reading
  end.
#[local] Hint Extern 3 (preserves kept _) => leaf : py.

Ltac stays := repeat first [ solve [auto with py nocore] | apply kept_with_uow | keeps_step ].
Ltac stays_all := repeat (progress stays || unfold_head).

Section Ops.
Context `{FloatPow} `{Digest} `{Calendar}.

Lemma kept_append_from run t' n l : preserves kept (append_from run t' n l).
Proof. revert n. induction l as [|[[ty p] st] l IH]; intros n; cbn [append_from]; stays_all. Qed.
#[local] Hint Resolve kept_append_from : py.

Lemma kept_usage_add x : preserves kept (usage_add x).
Proof. apply kept_upd. intros d. by destruct (db_usage d !! _). Qed.
Lemma kept_count_true l : Forall (preserves kept) l -> preserves kept (count_true l).
Proof. induction 1; cbn [count_true]; stays. Qed.
#[local] Hint Resolve kept_usage_add : py.
#[local] Hint Extern 2 (preserves _ (count_true _)) =>
  apply kept_count_true, Forall_fmap, Forall_forall; intros; cbn; stays_all : py.

Lemma kept_materialize_all rr l : preserves kept (materialize_all rr l).
Proof. induction l; cbn [materialize_all]; stays_all. Qed.
#[local] Hint Resolve kept_materialize_all : py.

(** *** The engine *)
Lemma kept_make_nodes rid items : preserves kept (make_nodes rid items).
Proof. induction items; cbn [make_nodes]; stays_all. Qed.
Lemma kept_make_edges rid by_key items : preserves kept (make_edges rid by_key items).
Proof. induction items; cbn [make_edges]; stays_all. Qed.
Lemma kept_snapshots reg l acc : preserves kept (agent_snapshots reg l acc).
Proof. revert acc. induction l; intros acc; cbn [agent_snapshots]; stays_all. Qed.
Lemma kept_schedule_pass b p k ids nxs : preserves kept (schedule_pass b p k ids nxs).
Proof. revert nxs. induction ids; intros nxs; cbn [schedule_pass]; stays_all. Qed.
#[local] Hint Resolve kept_make_nodes kept_make_edges kept_snapshots kept_schedule_pass : py.
Lemma kept_schedule_loop f b p k o nxs : preserves kept (schedule_loop f b p k o nxs).
Proof. revert nxs. induction f; intros nxs; cbn [schedule_loop]; stays. Qed.
Lemma kept_create_nodes x rv a k l acc : preserves kept (create_node_executions x rv a k l acc).
Proof. revert acc. induction l; intros acc; cbn [create_node_executions]; stays_all. Qed.
Lemma kept_dispatch_roots b p k ids nxs : preserves kept (dispatch_roots b p k ids nxs).
Proof. revert nxs. induction ids; intros nxs; cbn [dispatch_roots]; stays_all. Qed.
Lemma kept_finish x l k rm :
  (forall i, preserves kept (rm i)) -> preserves kept (finish_if_terminal x l k rm).
Proof. intros Hrm. stays_all. Qed.
#[local] Hint Resolve kept_schedule_loop kept_create_nodes kept_dispatch_roots kept_finish : py.
Lemma kept_reconcile_children k l nxs : preserves kept (reconcile_children k l nxs).
Proof. revert nxs. induction l; intros nxs; cbn [reconcile_children]; stays_all. Qed.
#[local] Hint Resolve kept_reconcile_children : py.

(** *** Deliveries and the improvement of skills *)
Lemma kept_recover_deliveries p k l : preserves kept (recover_deliveries p k l).
Proof. induction l; cbn [recover_deliveries]; stays_all. Qed.
Lemma kept_claim_delivery w k e l : preserves kept (claim_first_delivery w k e l).
Proof. induction l; cbn [claim_first_delivery]; stays_all. Qed.
Lemma kept_materialize_answers l : preserves kept (materialize_answers l).
Proof. induction l; cbn [materialize_answers]; stays_all. Qed.
Lemma kept_add_cases s k n l : preserves kept (add_cases s k n l).
Proof. revert n. induction l as [|[[i e] g] l IH]; intros n; cbn [add_cases]; stays_all. Qed.
Lemma kept_feedback_of s l : preserves kept (feedback_of s l).
Proof. induction l; cbn [feedback_of]; stays_all. Qed.
#[local] Hint Resolve kept_recover_deliveries kept_claim_delivery kept_materialize_answers kept_add_cases
  kept_feedback_of : py.
Lemma kept_improve_skills ae one w n l : (forall s, preserves kept (one s)) ->
  forall k, preserves kept (improve_skills ae one w n k l).
Proof. intros Ho. induction l; intros k; cbn [improve_skills]; stays_all. Qed.
Lemma kept_improve_skill `{JsonSchema} gen a an w s : preserves kept (improve_skill gen a an w s).
Proof. stays_all. Qed.
#[local] Hint Resolve kept_improve_skill kept_improve_skills : py.
Lemma kept_improvement_exec o : preserves kept (improvement_exec o).
Proof. destruct o; cbn [improvement_exec]; stays_all. Qed.
#[local] Hint Resolve kept_improvement_exec : py.

Lemma kept_find_replay l x : preserves kept (find_replay l x).
Proof. induction x; cbn [find_replay]; stays_all. Qed.
Lemma kept_task_bindings x n l : preserves kept (task_bindings x n l).
Proof. revert n. induction l; intros n; cbn [task_bindings]; stays_all. Qed.
Lemma kept_resolve_bindings x l : preserves kept (resolve_bindings x l).
Proof. induction l; cbn [resolve_bindings]; stays_all. Qed.
#[local] Hint Resolve kept_find_replay kept_task_bindings kept_resolve_bindings : py.

(** Nothing but a new claim or a renewal touches the columns of the claim without
    clearing them. *)
Lemma kept_others o : match o with OpClaimNextRun _ _ _ | OpRenewRunLease _ _ _ => False | _ => True end ->
  preserves kept (app_exec o).
Proof. intros Ho. destruct o; try done; clear Ho; cbn [app_exec]; unfold discard; stays_all. Qed.

(** A renewal reads the clock first, and a claim draws its token first. *)
Lemma kept_renewing {A} x c l (f : Z -> bool -> U A) : (forall t ok, preserves kept (f t ok)) ->
  preserves kept (t <- now ;; ok <- on_queue (renew_lease x c t (t + l)) ;; f t ok).
Proof.
  intros Hf w [Hd Hs Hi]. unfold bind, now, on_queue. cbn -[renew_lease].
  pose proof (Jrenew _ _ x c l _ Hs) as Hr. destruct (renew_lease _ _ _ _ _) as [[ok|e] q].
  - apply Hf. split; [|exact Hr|done]. eapply Jlater; [| |exact Hd]; cbn; lia.
  - split; [|exact Hr|done]. eapply Jlater; [| |exact Hd]; cbn; lia.
Qed.
Lemma kept_claiming {A} x wk t e (f : str -> bool -> U A) : (forall tok ok, preserves kept (f tok ok)) ->
  preserves kept (tok <- uuid4_hex ;; ok <- on_queue (try_claim x wk tok t e) ;; f tok ok).
Proof.
  intros Hf w [Hd Hs Hi]. unfold bind, uuid4_hex, on_queue. cbn -[try_claim].
  pose proof (Jclaim _ _ x wk t e _ Hs) as Hc. destruct (try_claim _ _ _ _ _ _) as [[ok|x'] q].
  - apply Hf. split; [|exact Hc|done]. eapply Jlater; [| |exact Hd]; cbn; lia.
  - split; [|exact Hc|done]. eapply Jlater; [| |exact Hd]; cbn; lia.
Qed.
Lemma kept_renew l x c : preserves kept (RenewRunLease l x c).
Proof.
  unfold RenewRunLease, fenced. do 2 (apply preserves_bind; [|intros ?; stays]). apply kept_with_uow, kept_renewing.
  intros t ok. stays.
Qed.
Lemma kept_claim_first wk l t cs : preserves kept (claim_first wk l t cs).
Proof.
  induction cs as [|[x i] cs IH]; cbn [claim_first]; [stays|]. apply preserves_bind; [|intros ?; stays].
  unfold claim_candidate. cbv zeta. apply kept_claiming. intros tok ok. stays_all.
Qed.
Lemma queue_claim wk l n : preserves kept (ClaimNextRun wk l n).
Proof.
  unfold ClaimNextRun. apply kept_with_uow. apply preserves_bind; [stays|]. intros t.
  apply preserves_bind; [stays|]. intros cs. apply kept_claim_first.
Qed.
Lemma queue_app_exec o : preserves kept (app_exec o).
Proof.
  destruct (match o with OpClaimNextRun _ _ _ | OpRenewRunLease _ _ _ => true | _ => false end) eqn:E.
  - destruct o; try done; cbn [app_exec]; unfold discard; (apply preserves_bind; [|intros ?; stays]);
      [apply queue_claim|apply kept_renew].
  - apply kept_others. by destruct o.
Qed.
Lemma kept_history ops w : kept w -> kept (run_history ops w).
Proof. revert w. induction ops as [|o ops IH]; intros w Hw; [done|]. apply IH. by apply queue_app_exec. Qed.
End Ops.
End Queues.

(** ** Tokens *)

(** Every token in the queue has been drawn. *)
Definition drawn `{Env} (n : nat) (tok : str) : Prop := exists i, (i < n)%nat /\ tok = uuid4 i.
Definition tokens_drawn `{Env} (n k : nat) (q : Queue) : Prop :=
  forall x i tok, q !! x = Some i -> wi_claim_token i = Some tok -> drawn n tok.
Lemma drawn_later `{Env} n n' tok : (n <= n')%nat -> drawn n tok -> drawn n' tok.
Proof. intros Hn (i & Hi & E). exists i. split; [lia|done]. Qed.
Lemma exec_token x t o q y i tok :
  snd (wq_exec x t o q) !! y = Some i -> wi_claim_token i = Some tok ->
  (exists i', q !! y = Some i' /\ wi_claim_token i' = Some tok) \/ exists w l, o = WqTryClaim w tok l.
Proof.
  destruct (decide (y = x)) as [->|Hne]; [|rewrite wq_exec_frame by done; eauto].
  rewrite wq_exec_row. destruct o, (q !! x) as [j|]; repeat case_match; intros [= <-]; cbn; eauto; try done.
  intros [= ->]. eauto.
Qed.

Section Tokens.
Context `{Env} `{FloatPow} `{Digest} `{Calendar}.
Abbreviation drawn_in w := (kept tokens_drawn w).

Lemma tokens_kept_app_exec o : preserves (kept tokens_drawn) (app_exec o).
Proof.
  apply queue_app_exec.
  - intros n n' k k' q Hn _ Hq x i tok Hi Ht. eapply drawn_later; [exact Hn|by eapply Hq].
  - intros n k x o' t q Ho Hq y i tok Hi Ht. destruct (exec_token _ _ _ _ _ _ _ Hi Ht) as [(i' & ? & ?)|(w & l & ->)]; [|done].
    by eapply Hq.
  - intros n k x c l q Hq y i tok Hi Ht.
    destruct (exec_token x (clock_at k) (WqRenew c (clock_at k + l)) q y i tok Hi Ht) as [(i' & ? & ?)|(w & l' & ?)]; [|done].
    by eapply Hq.
  - intros n k x w t e q Hq y i tok Hi Ht.
    destruct (exec_token x t (WqTryClaim w (uuid4 n) e) q y i tok Hi Ht) as [(i' & ? & ?)|(w' & l & [= _ <- _])].
    + eapply drawn_later; [|by eapply Hq]. lia.
    + exists n. split; [lia|done].
Qed.
Lemma reachable_tokens w : reachable w -> kept tokens_drawn w.
Proof. revert w. apply reach_invariant; [|apply tokens_kept_app_exec]. by intros w ->. Qed.
End Tokens.

(** ** Lost claims *)
Section Lost.
Context `{Env} `{!Inj (=) (=) uuid4} (r : RunId) (c : Claim) (t : Z).

(** The claim is not active at [t], no clock reading to come is before [t], and the
    token of the claim has been drawn. *)
Record lost (n k : nat) (q : Queue) : Prop := {
  lost_row : active q r c t = false;
  lost_clock : forall m, (k <= m)%nat -> t <= clock_at m;
  lost_token : drawn n (cl_token c) }.

Lemma lost_later n n' k k' q : (n <= n')%nat -> (k <= k')%nat -> lost n k q -> lost n' k' q.
Proof.
  intros Hn Hk [Hr Hc Ht]. split; [done| |by eapply drawn_later]. intros m Hm. apply Hc. lia.
Qed.
Lemma inactive_plain q x o s : plain o -> active q r c t = false -> active (snd (wq_exec x s o q)) r c t = false.
Proof.
  intros Ho Hq. unfold active in *. destruct (decide (r = x)) as [<-|Hne]; [|by rewrite wq_exec_frame].
  rewrite wq_exec_row. destruct (q !! r) as [w|]; [|by destruct o]. destruct o; try done;
    by repeat match goal with |- context [if ?b then _ else _] => destruct b end.
Qed.
Lemma inactive_renew q x k s l : t <= s -> active q r c t = false -> active (snd (renew_lease x k s l q)) r c t = false.
Proof.
  intros Hs Hq. unfold renew_lease, update_where. destruct (q !! x) as [i|] eqn:E; [|done].
  destruct (fence k s i) eqn:Ek; [|done]. cbn. unfold active in *. destruct (decide (r = x)) as [<-|Hne].
  2: { by rewrite lookup_insert_ne. }
  rewrite lookup_insert_eq. rewrite E in Hq. apply not_true_iff_false. intros Hc.
  pose proof (fence_mono _ _ _ _ Hs Hq) as Hi. enough (c = k) by congruence.
  revert Hc Ek. unfold fence, col_eq. destruct k, c. cbn. rewrite !andb_true_iff, !bool_decide_eq_true, !Z.eqb_eq.
  intros [[[-> ->] <-] _] [[[[= ->] [= ->]] ->] _]. done.
Qed.
Lemma inactive_claim q x w tok s e : tok <> cl_token c -> active q r c t = false ->
  active (snd (try_claim x w tok s e q)) r c t = false.
Proof.
  intros Hn Hq. unfold try_claim, update_where. destruct (q !! x) as [i|] eqn:E; [|done].
  destruct (claimable s i); [|done]. cbn. unfold active in *. destruct (decide (r = x)) as [<-|Hne].
  2: { by rewrite lookup_insert_ne. }
  rewrite lookup_insert_eq. unfold fence, col_eq. cbn. rewrite (bool_decide_eq_false_2 (Some tok = _)) by congruence.
  by rewrite andb_false_r.
Qed.

Context `{FloatPow} `{Digest} `{Calendar}.
Lemma lost_app_exec o : preserves (kept lost) (app_exec o).
Proof.
  apply queue_app_exec.
  - intros n n' k k' q. apply lost_later.
  - intros n k x o' s q Ho [Hr Hc Ht]. split; [by apply inactive_plain|done..].
  - intros n k x k' l q [Hr Hc Ht]. split; [|intros m Hm; apply Hc; lia|done].
    apply inactive_renew; [|done]. by apply Hc.
  - intros n k x w s e q [Hr Hc Ht]. split; [|done|by eapply drawn_later; [|done]; lia].
    apply inactive_claim; [|done]. destruct Ht as (i & Hi & ->). intros E. apply (inj uuid4) in E. lia.
Qed.
Lemma lost_history ops w : kept lost w -> kept lost (run_history ops w).
Proof. revert w. induction ops as [|o ops IH]; intros w Hw; [done|]. apply IH. by apply lost_app_exec. Qed.
End Lost.

Lemma drawn_app_exec `{Env} `{FloatPow} `{Digest} `{Calendar} tok o w :
  reachable w -> drawn (draws w) tok -> drawn (draws (snd (app_exec o w))) tok.
Proof.
  intros Hw Hd.
  assert (Hone : preserves (kept (fun n _ _ => drawn n tok)) (app_exec o)).
  { apply queue_app_exec; try done; [intros n n' k k' _ Hn _; by apply drawn_later|].
    intros n k x wk t e q. apply drawn_later. lia. }
  destruct (reachable_tokens w Hw) as [_ _ Hi]. by destruct (Hone w (Kept _ _ Hd Hd Hi)).
Qed.
Lemma drawn_history `{Env} `{FloatPow} `{Digest} `{Calendar} tok ops w :
  reachable w -> drawn (draws w) tok -> drawn (draws (run_history ops w)) tok.
Proof.
  revert w. induction ops as [|o ops IH]; intros w Hw Hd; [done|].
  apply IH; [by apply reach_op|by apply drawn_app_exec].
Qed.
(** A world that some history leads to, where the claim is not active at a time no
    clock reading to come is before *)
Lemma reachable_lost `{Env} `{FloatPow} `{Digest} `{Calendar} w r c t :
  (forall i j, (i <= j)%nat -> clock_at i <= clock_at j) -> reachable w -> drawn (draws w) (cl_token c) ->
  t <= clock_at (ticks w) -> active (db_queue (durable w)) r c t = false -> kept (lost r c t) w.
Proof.
  intros Hc Hw Hd Ht Ha. destruct (reachable_tokens w Hw) as [_ _ Hi]. pose proof (proj2 (reachable_valid w Hw)) as Hs.
  assert (Hl : lost r c t (draws w) (ticks w) (db_queue (durable w))).
  { split; [done| |done]. intros m Hm. etrans; [exact Ht|by apply Hc]. }
  split; [done| |done]. unfold synced in Hs. by rewrite Hs.
Qed.
Lemma reachable_held `{Env} `{FloatPow} `{Digest} `{Calendar} w r c t :
  reachable w -> active (db_queue (durable w)) r c t = true -> drawn (draws w) (cl_token c).
Proof.
  intros Hw. destruct (reachable_tokens w Hw) as [Ht _ _]. unfold active.
  destruct (_ !! r) as [i|] eqn:E; [|done]. unfold fence, col_eq. rewrite !andb_true_iff, !bool_decide_eq_true.
  intros [[[_ Hk] _] _]. by eapply Ht.
Qed.

(** C8: a claim that a worker has lost is lost for good, in the whole system.  Once the
    claim a worker held on a run is not active any more (its lease ran out, the run
    parked, finished, was cancelled, released, requeued or recovered), no history of use
    cases of anybody makes it active again: not a late heartbeat of the worker, and not
    another claim on the same run, even by a worker of the same name at the same
    generation.  It takes a clock that does not go back and identifiers that do not
    repeat. *)
Theorem claim_lost_for_good `{Env} `{FloatPow} `{Digest} `{Calendar} w r c t0 t ops ops' :
  Inj (=) (=) uuid4 -> (forall i j, (i <= j)%nat -> clock_at i <= clock_at j) ->
  reachable w -> active (db_queue (durable w)) r c t0 = true ->
  let w1 := run_history ops w in
  t <= clock_at (ticks w1) -> active (db_queue (durable w1)) r c t = false ->
  forall t', t <= t' -> active (db_queue (durable (run_history ops' w1))) r c t' = false.
Proof.
  intros Hi Hc Hw Ha w1 Ht Hl t' Ht'. pose proof (run_history_reachable ops w Hw) as Hw1. fold w1 in Hw1.
  destruct (lost_history r c t ops' w1) as [[Hr _ _] _ _].
  { apply reachable_lost; try done. eapply drawn_history, reachable_held; done. }
  revert Hr. unfold active. destruct (_ !! r); [|done]. by apply fence_mono.
Qed.

(** A worker claims a run for a microsecond and renews too late; the run is recovered,
    claimed again by a worker of the same name, and the first worker tries once more. *)
Definition unary_env : Env := {| uuid4 := fun n => replicate (S n) 97; clock_at := fun n => 1000 + Z.of_nat n |}.
Lemma unary_inj : Inj (=) (=) (@uuid4 unary_env).
Proof.
  intros i j E%(f_equal length). change (length (replicate (S i) 97) = length (replicate (S j) 97)) in E.
  rewrite !length_replicate in E. lia.
Qed.
Definition unary_id {k} (n : nat) : Id k := mkId (replicate (S n) 97).
Definition late_history (ops : list app_op) (w : World) : World :=
  @run_history unary_env toy_pow toy_digest toy_calendar ops w.
Definition claimed_once : World :=
  late_history [OpCreateTask (u "buy milk") (u ""); OpStartRun (unary_id 0); OpClaimNextRun (u "w1") 1 5] empty_world.
Definition late_claim : Claim := mkClaim (u "w1") (replicate 4 97) 1.
Definition late_renewal : app_op := OpRenewRunLease 10 (unary_id 1) late_claim.
Definition late_ops : list app_op :=
  [OpRecoverExpiredLeases 5; OpClaimNextRun (u "w1") 10 5; late_renewal].
Lemma claim_lost_for_good_witness :
  active (db_queue (durable claimed_once)) (unary_id 1) late_claim 1002 = true /\
  wi_claimed_by <$> db_queue (durable (late_history late_ops (late_history [late_renewal] claimed_once))) !! (unary_id 1 : RunId)
    = Some (Some (cl_worker_id late_claim)) /\
  forall t', 1003 <= t' ->
    active (db_queue (durable (late_history late_ops (late_history [late_renewal] claimed_once)))) (unary_id 1) late_claim t' = false.
Proof.
  split; [by vm_compute|]. split; [by vm_compute|]. intros t' Ht'.
  refine (@claim_lost_for_good unary_env toy_pow toy_digest toy_calendar claimed_once (unary_id 1) late_claim 1002 1003
    [late_renewal] late_ops unary_inj _ _ _ _ _ t' Ht').
  - intros i j Hij. cbn. lia.
  - unfold claimed_once, late_history. apply run_history_reachable. by apply reach_init.
  - by vm_compute.
  - by vm_compute.
  - by vm_compute.
Defined.
