(* ===== verification/Settlement.v ===== *)
(** * Settling a claim

    What the transactions that end the processing of a claimed run do to the claim:
    whether they return, or raise [ClaimLost], the claim is over
    ([failed_releases] and the others).  A piece of a transaction that runs after the
    work item was removed is [calm]: it gives the claim to nobody and does not raise
    [ClaimLost]. *)

From S2P Require Import Prelude Values RunEntity TaskEntity StepEntity ToolEntity ApprovalEntity.
From S2P Require Import EventEntity Canonical RetryPolicy ScheduleEntity DelegationEntity WorkQueue.
From S2P Require Import WorkflowExecutionEntity SkillEntity ConversationEntity Tables Store Lifecycle RunUseCases WorkerUseCases.

Open Scope Z_scope.

(** ** Exceptions other than [ClaimLost] *)

(** An exception that is not [ClaimLost], and a computation that raises no other *)
Definition mild (e : exn) : bool := match e with ClaimLost _ => false | _ => true end.
Definition mild_res {A} (r : res A) : Prop := forall e, r = Raise e -> mild e = true.
Definition mild_method {S A} (m : M S A) : Prop := forall s, mild_res (fst (m s)).

Lemma mild_ok {A} (a : A) : mild_res (Ok a).
Proof. done. Qed.
Lemma mild_raise {A} e : mild e = true -> mild_res (Raise (A := A) e).
Proof. by intros He e' [= <-]. Qed.
Lemma mild_res_bind {A B} (r : res A) (f : A -> res B) : mild_res r -> (forall a, mild_res (f a)) -> mild_res (res_bind r f).
Proof. intros Hr Hf. destruct r as [a|e]; cbn; [apply Hf|]. by intros e' [= <-]; apply Hr. Qed.
Lemma mild_bind {S A B} (m : M S A) (f : A -> M S B) : mild_method m -> (forall a, mild_method (f a)) -> mild_method (bind m f).
Proof.
  intros Hm Hf s. specialize (Hm s). unfold bind. destruct (m s) as [[a|e] s']; cbn in *; [apply Hf|].
  by intros e' [= <-]; apply Hm.
Qed.
Lemma mild_ret {S A} (a : A) : mild_method (ret (S := S) a).
Proof. done. Qed.
Lemma mild_raise_m {S A} e : mild e = true -> mild_method (raise (S := S) (A := A) e).
Proof. intros He s. by apply mild_raise. Qed.
Lemma mild_lift {S A} (r : res A) : mild_res r -> mild_method (lift (S := S) r).
Proof. by intros Hr s. Qed.
Lemma mild_gets {S A} (f : S -> A) : mild_method (gets f).
Proof. done. Qed.
Lemma mild_modify {S} (f : S -> S) : mild_method (modify f).
Proof. done. Qed.
Create HintDb mild.
#[export] Hint Resolve mild_ok mild_ret mild_gets mild_modify : mild.
#[export] Hint Extern 1 (mild_res (Raise _)) => apply mild_raise; reflexivity : mild.
#[export] Hint Extern 1 (mild_method (raise _)) => apply mild_raise_m; reflexivity : mild.
Ltac head_of t := lazymatch t with ?f _ => head_of f | _ => t end.
Ltac mild_step :=
  lazymatch goal with
  | |- mild_res (res_bind _ _) => apply mild_res_bind; [|intros]
  | |- mild_method (bind _ _) => apply mild_bind; [|intros]
  | |- mild_method (lift _) => apply mild_lift
  | |- mild_res (match ?x with _ => _ end) => destruct x
  | |- mild_method (match ?x with _ => _ end) => destruct x
  | |- mild_res (let _ := _ in _) => cbv zeta
  | |- mild_method (let _ := _ in _) => cbv zeta
  end.
Ltac mild_open :=
  match goal with
  | |- mild_res ?m => let h := head_of m in unfold h
  | |- mild_method ?m => let h := head_of m in unfold h
  end.
Ltac milds := repeat first [solve [auto 2 with mild nocore] | mild_step | progress mild_open].


Lemma mild_ensure v : mild_res (ensure_json_value v).
Proof.
  induction v as [| | | | | |l IH|d IH|] using pyval_ind'; cbn; auto with mild.
  - apply mild_res_bind; [|done]. induction IH as [|x l Hx _ IHl]; cbn; auto with mild. milds; done.
  - apply mild_res_bind; [|done]. induction IH as [|[k x] l Hx _ IHl]; cbn; auto with mild. milds; done.
Qed.
#[export] Hint Resolve mild_ensure : mild.

(** ** Calm pieces *)
Section Calm.
Context `{Env} (r : RunId) (c : Claim).

(** Nobody can act under the claim, at any time. *)
Definition idle (q : Queue) : Prop := forall t, active q r c t = false.
Definition calm {A} (m : U A) : Prop := forall w, idle (db_queue (staged w)) ->
  match m w with (Ok _, w') => idle (db_queue (staged w')) | (Raise e, _) => mild e = true end.

Lemma calm_bind {A B} (m : U A) (f : A -> U B) : calm m -> (forall a, calm (f a)) -> calm (bind m f).
Proof. intros Hm Hf w Hw. specialize (Hm w Hw). unfold bind. destruct (m w) as [[a|e] w']; [by apply Hf|done]. Qed.
Lemma calm_ret {A} (a : A) : calm (ret a).
Proof. by intros w. Qed.
Lemma calm_raise {A} e : mild e = true -> calm (raise (A := A) e).
Proof. by intros He w. Qed.
Lemma calm_lift {A} (x : res A) : mild_res x -> calm (lift x).
Proof. intros Hx w Hw. unfold lift. destruct x as [a|e]; [done|by apply Hx]. Qed.
Lemma calm_call {S A} (m : M S A) (s : S) : mild_method m -> calm (call m s).
Proof.
  intros Hm w Hw. specialize (Hm s). unfold call. destruct (m s) as [[a|e] s']; cbn in *; [done|by apply Hm].
Qed.
Lemma calm_db {A} (f : Db -> A) : calm (db f).
Proof. by intros w. Qed.
Lemma calm_upd f : (forall d, db_queue (f d) = db_queue d) -> calm (upd f).
Proof. intros Hf w Hw. cbn. by rewrite Hf. Qed.
Lemma calm_add {k V} get set (id : Id k) (v : V) :
  (forall m d, db_queue (set m d) = db_queue d) -> calm (add_row get set id v).
Proof.
  intros Hs. unfold add_row. apply calm_bind; [apply calm_db|]. intros x.
  destruct (x !! id); [by apply calm_raise|by apply calm_upd].
Qed.
Lemma calm_new_id {k} : calm (new_id (k := k)).
Proof. by intros w. Qed.
Lemma calm_enqueue x a e : calm (on_queue (enqueue x a e)).
Proof.
  intros w Hw. unfold on_queue. destruct (enqueue x a e (db_queue (staged w))) as [[[]|ex] q] eqn:E.
  - cbn. intros t. specialize (Hw t). revert Hw E. unfold enqueue, active, bind, gets, modify.
    destruct (decide (r = x)) as [<-|Hne].
    + destruct (db_queue (staged w) !! r); intros Hw [= <-]; by rewrite lookup_insert_eq.
    + destruct (db_queue (staged w) !! x); intros Hw [= <-]; by rewrite lookup_insert_ne.
  - revert E. unfold enqueue, bind, gets, modify. by destruct (_ !! x).
Qed.
Lemma calm_collect {A B} (l : list A) (f : A -> U (list B)) : (forall a, calm (f a)) -> calm (collect l f).
Proof.
  intros Hf. induction l as [|a l IH]; cbn [collect]; [by apply calm_ret|].
  apply calm_bind; [apply Hf|]. intros ?. apply calm_bind; [done|]. intros ?. by apply calm_ret.
Qed.

Create HintDb calm.
#[local] Hint Resolve calm_ret calm_db calm_new_id calm_enqueue : calm.
Ltac calm_leaf :=
  lazymatch goal with
  | |- calm (raise _) => apply calm_raise; reflexivity
  | |- calm (lift _) => apply calm_lift; solve [milds]
  | |- calm (call _ _) => apply calm_call; solve [milds]
  | |- calm (upd _) => apply calm_upd; done
  | |- calm (save_row _ _ _ _) => apply calm_upd; done
  | |- calm (add_row _ _ _ _) => apply calm_add; done
  end.
#[local] Hint Extern 3 (calm _) => calm_leaf : calm.
Ltac calm_step :=
  lazymatch goal with
  | |- calm (bind _ _) => apply calm_bind; [|intros]
  | |- calm (collect _ _) => apply calm_collect; intros
  | |- calm (match ?x with _ => _ end) => destruct x
  | |- calm (let _ := _ in _) => cbv zeta
  end.
Ltac calm_open := match goal with |- calm ?m => let h := head_of m in unfold h end.
Ltac calms := repeat first [solve [auto 2 with calm nocore] | calm_step | progress calm_open].

Lemma calm_append_from run t n l : calm (append_from run t n l).
Proof. revert n. induction l as [|[[ty p] st] l IH]; intros n; cbn [append_from]; calms; apply IH. Qed.
#[local] Hint Resolve calm_append_from : calm.
Lemma calm_append run t specs : calm (append_run_events run t specs).
Proof. calms. Qed.
#[local] Hint Resolve calm_append : calm.
Lemma calm_usage_add x : calm (usage_add x).
Proof. apply calm_upd. intros d. by destruct (db_usage d !! _). Qed.
#[local] Hint Resolve calm_usage_add : calm.
Lemma calm_materialize id t : calm (materialize_skill_usage_in_uow id t).
Proof. calms. Qed.
Lemma calm_fail_specs run t f : calm (fail_run_event_specs run t f).
Proof. calms. Qed.
Lemma calm_succeed_specs run t : calm (succeed_run_event_specs run t).
Proof. calms. Qed.
Lemma calm_reconcile run t : calm (reconcile_child_terminal_in_uow run t).
Proof. calms. Qed.
Lemma mild_copy_bindings x l : mild_res (copy_bindings x l).
Proof. induction l; cbn [copy_bindings]; milds; done. Qed.
#[local] Hint Resolve mild_copy_bindings : mild.
Lemma calm_inherit a b : calm (inherit_frozen_resolutions_in_uow a b).
Proof. calms. Qed.
#[local] Hint Resolve calm_inherit : calm.
Lemma calm_create_retry `{FloatPow} p run n t : (forall x k, mild_res (fpow x k)) -> calm (create_retry p run n t).
Proof. intros Hp. calms. Qed.
#[local] Hint Resolve calm_materialize calm_fail_specs calm_succeed_specs calm_reconcile : calm.

(** A calm transaction up to its commit *)
Definition closes {A} (m : U A) : Prop := forall w, idle (db_queue (staged w)) ->
  match m w with (Ok _, w') => idle (db_queue (durable w')) | (Raise e, _) => mild e = true end.
Lemma closes_commit {A} (a : A) : closes (commit ;;; ret a).
Proof. intros w Hw. unfold bind, commit. by destruct (integrity (staged w)). Qed.
Lemma closes_bind {A B} (m : U A) (f : A -> U B) : calm m -> (forall a, closes (f a)) -> closes (bind m f).
Proof. intros Hm Hf w Hw. specialize (Hm w Hw). unfold bind. destruct (m w) as [[a|e] w']; [by apply Hf|done]. Qed.
(** ** How a transaction may end *)

(** It returns and the claim is over; or it raises, and then another error than
    [ClaimLost] or when the claim is over as well. *)
Definition over_at (q : Queue) (k : nat) : Prop := idle q \/ exists n, (n < k)%nat /\ active q r c (clock_at n) = false.
Definition ends {A} (x : res A * World) : Prop :=
  match x with
  | (Ok _, w') => idle (db_queue (durable w'))
  | (Raise e, w') => mild e = true \/ over_at (db_queue (durable w')) (ticks w')
  end.
(** A step that only reads *)
Definition peek {A} (m : U A) : Prop := mild_method m /\ forall w, snd (m w) = w.
Lemma peek_db {A} (f : Db -> A) : peek (db f).
Proof. by split. Qed.
Lemma peek_ret {A} (a : A) : peek (ret a).
Proof. by split. Qed.
Lemma peek_raise {A} e : mild e = true -> peek (raise (A := A) e).
Proof. intros He. split; [by apply mild_raise_m|done]. Qed.
Lemma peek_bind {A B} (m : U A) (f : A -> U B) : peek m -> (forall a, peek (f a)) -> peek (bind m f).
Proof.
  intros [Hm Hw] Hf. split; [apply mild_bind; [done|]; intros a; apply Hf|]. intros w. specialize (Hw w).
  unfold bind. destruct (m w) as [[a|e] w']; cbn in *; subst; [apply Hf|done].
Qed.
Lemma peek_wq_get x : peek (on_queue (wq_get x)).
Proof. split; [done|]. by intros [d [] n k]. Qed.
#[local] Hint Resolve peek_db peek_ret peek_wq_get : calm.
#[local] Hint Extern 1 (peek (raise _)) => apply peek_raise; reflexivity : calm.
Ltac peeks_step :=
  lazymatch goal with
  | |- peek (bind _ _) => apply peek_bind; [|intros]
  | |- peek (match ?x with _ => _ end) => destruct x
  | |- peek ?m => let h := head_of m in unfold h
  end.
Ltac peeking := repeat first [solve [auto 1 with calm nocore] | peeks_step].

Lemma ends_peek {A B} (m : U A) (f : A -> U B) w :
  peek m -> (forall a, fst (m w) = Ok a -> ends (f a w)) -> ends (bind m f w).
Proof.
  intros [Hm Hw] Hf. specialize (Hw w). specialize (Hm w). unfold bind. destruct (m w) as [[a|e] w'] eqn:E; cbn in *; subst.
  - by apply Hf.
  - left. by apply Hm.
Qed.
Lemma ends_now {B} (f : Z -> U B) w :
  ends (f (clock_at (ticks w)) (mkWorld (durable w) (staged w) (draws w) (S (ticks w)))) -> ends (bind now f w).
Proof. done. Qed.
Lemma ends_with_uow {A} (m : U A) w :
  ends (m (mkWorld (durable w) (durable w) (draws w) (ticks w))) -> ends (with_uow m w).
Proof. unfold with_uow. by destruct (m _) as [[a|e] w']. Qed.
Lemma ends_mild {A} e w : mild e = true -> ends (raise (A := A) e w).
Proof. intros He. by left. Qed.
(** [uow.commit(); raise e] with nothing staged *)
Lemma ends_commit_raise {A} e w : mild e = true \/ over_at (db_queue (staged w)) (ticks w) -> ends (commit_raise (A := A) e w).
Proof. intros He. unfold commit_raise, bind, commit. destruct (integrity (staged w)); [done|by left]. Qed.
Lemma ends_commit {A} (a : A) w : idle (db_queue (staged w)) -> ends ((commit ;;; ret a) w).
Proof. intros Hi. unfold bind, commit. destruct (integrity (staged w)); [done|by left]. Qed.

(** Removing the work item under the claim *)
Lemma remove_ends {A} t n (f : bool -> U A) w :
  staged w = durable w -> t = clock_at n -> (n < ticks w)%nat -> closes (f true) ->
  (forall w', over_at (db_queue (staged w')) (ticks w') -> over_at (db_queue (durable w')) (ticks w') -> ends (f false w')) ->
  ends (bind (on_queue (remove_if_claimed r c t)) f w).
Proof.
  intros Hs -> Hn Hr Hl. unfold bind, on_queue, remove_if_claimed, delete_where. rewrite Hs.
  assert (Hno : active (db_queue (durable w)) r c (clock_at n) = false ->
    ends (f false (set_staged (set_db_queue (db_queue (durable w)) (durable w)) w))).
  { intros Hi. apply Hl; right; exists n; done. }
  unfold active in Hno. destruct (db_queue (durable w) !! r) as [i|] eqn:E; [|by apply Hno].
  rewrite fence_lease_and. destruct (fence _ _ _); [|by apply Hno].
  specialize (Hr (set_staged (set_db_queue (delete r (db_queue (durable w))) (durable w)) w)).
  assert (Hi : idle (delete r (db_queue (durable w)))) by (intros t; unfold active; by rewrite lookup_delete_eq).
  specialize (Hr Hi). destruct (f true _) as [[a|e] w']; [done|by left].
Qed.

Lemma failed_ends `{FloatPow} policy f w : (forall x k, mild_res (fpow x k)) ->
  ends (ApplyFailedOutcome policy r c f w).
Proof.
  intros Hp. unfold ApplyFailedOutcome. apply ends_with_uow, ends_now. apply ends_peek; [peeking|].
  intros [run|] _; [|apply ends_commit_raise; by left]. apply ends_peek; [peeking|].
  intros [] _; cbn [negb]; [|apply ends_commit_raise; by left].
  apply (remove_ends _ (ticks w)); [done|done|cbn; lia| |intros w' Hs _; apply ends_commit_raise; by right].
  apply closes_bind; [apply calm_fail_specs|]. intros [run' specs].
  apply closes_bind; [apply calm_append|]. intros _.
  apply closes_bind; [apply calm_materialize|]. intros _.
  apply closes_bind; [calms|]. intros k. 
  apply closes_bind; [|intros _; apply closes_commit].
  destruct (is_retry_allowed _ _ _); [by apply calm_create_retry|apply calm_reconcile].
Qed.

Lemma succeeded_ends final w : ends (ApplySucceededOutcome r c final w).
Proof.
  unfold ApplySucceededOutcome. apply ends_with_uow, ends_now.
  do 2 (apply ends_peek; [peeking|]; intros ? _).
  apply ends_peek; [unfold raise_if; peeking|]. intros _ _.
  apply ends_peek; [peeking|]. intros ? _.
  apply ends_peek; [unfold raise_if; peeking|]. intros _ _.
  do 2 (apply ends_peek; [peeking|]; intros ? _).
  apply ends_peek; [unfold raise_if; peeking|]. intros _ _.
  apply ends_peek; [peeking|]. intros ? _.
  apply ends_peek; [unfold raise_if; peeking|]. intros _ _.
  apply ends_peek; [peeking|]. intros ? _.
  apply ends_peek; [unfold raise_if; peeking|]. intros _ _.
  apply (remove_ends _ (ticks w)); [done|done|cbn; lia| |intros w' _ Hd; by right].
  apply closes_bind; [by apply calm_ret|]. intros _.
  apply closes_bind; [apply calm_succeed_specs|]. intros [run' specs]. cbv zeta.
  apply closes_bind; [apply calm_append|]. intros _.
  apply closes_bind; [apply calm_reconcile|]. intros _.
  apply closes_bind; [apply calm_materialize|]. intros _. apply closes_commit.
Qed.

(** *** Waiting and yielding *)
Lemma item_differs_idle i t : item_claim_differs i c = true -> fence c t i = false.
Proof.
  unfold item_claim_differs, fence, col_eq. rewrite !orb_true_iff, !negb_true_iff. intros [[->| ->]| ->]; [done|..];
    by rewrite ?andb_false_r.
Qed.
Lemma meanwhile_ends run item msg w : staged w = durable w -> item = db_queue (staged w) !! r ->
  ends (resolved_meanwhile run item c msg w).
Proof.
  intros Hs ->. unfold resolved_meanwhile. destruct (db_queue (staged w) !! r) as [i|] eqn:E.
  - destruct (item_claim_differs i c) eqn:Ei; apply ends_commit_raise; [right|by left].
    left. intros t. unfold active. rewrite E. by apply item_differs_idle.
  - apply ends_commit. intros t. unfold active. by rewrite E.
Qed.
Lemma drop_ends run item w : staged w = durable w -> run_id run = r -> item = db_queue (staged w) !! r ->
  ends (drop_item run item c w).
Proof.
  intros Hs Hr ->. unfold drop_item. rewrite Hr. destruct (db_queue (staged w) !! r) as [i|] eqn:E.
  - apply ends_now, (remove_ends _ (ticks w)); [done|done|cbn; lia| |intros w' _ Hd; by right].
    apply closes_bind; [by apply calm_ret|]. intros _. apply closes_commit.
  - apply ends_commit. intros t. unfold active. by rewrite E.
Qed.
Ltac ends_refused := first [apply ends_commit_raise; by left].

Lemma waiting_ends aid w : (forall x, db_runs (durable w) !! r = Some x -> run_id x = r) ->
  ends (ApplyWaitingOutcome r c aid w).
Proof.
  intros Hid. unfold ApplyWaitingOutcome. apply ends_with_uow.
  apply ends_peek; [peeking|]. intros [run|] Er; [|ends_refused]. injection Er as Er. apply Hid in Er.
  apply ends_peek; [peeking|]. intros [a|] _; [|ends_refused]. destruct (negb _); [ends_refused|].
  apply ends_peek; [peeking|]. intros item [= <-]. destruct (_ && _); [by apply meanwhile_ends|].
  repeat (destruct (negb _); [ends_refused|]). by apply drop_ends.
Qed.
Lemma delegation_wait_ends did w : (forall x, db_runs (durable w) !! r = Some x -> run_id x = r) ->
  ends (ApplyWaitingForDelegationOutcome r c did w).
Proof.
  intros Hid. unfold ApplyWaitingForDelegationOutcome. apply ends_with_uow.
  apply ends_peek; [peeking|]. intros [run|] Er; [|ends_refused]. injection Er as Er. apply Hid in Er.
  apply ends_peek; [peeking|]. intros [a|] _; [|ends_refused]. destruct (negb _); [ends_refused|].
  apply ends_peek; [peeking|]. intros item [= <-]. destruct (_ && _); [by apply meanwhile_ends|].
  repeat (destruct (negb _); [ends_refused|]). by apply drop_ends.
Qed.
(** Requeueing commits before it reports a lost claim. *)
Lemma requeue_ends a w : ends (RequeueClaimedRun r c a w).
Proof.
  unfold RequeueClaimedRun, fenced, with_uow, requeue_claimed, update_where, bind, now, on_queue, commit. cbn -[integrity set_db_queue].
  assert (Hgone : active (db_queue (durable w)) r c (clock_at (ticks w)) = false ->
    over_at (db_queue (durable w)) (S (ticks w))) by (intros Hi; right; exists (ticks w); split; [lia|done]).
  unfold active in Hgone.
  destruct (db_queue (durable w) !! r) as [i|] eqn:E; [rewrite fence_lease_and; destruct (fence _ _ i) eqn:Ef|];
    cbn -[integrity set_db_queue]; destruct (integrity _); cbn -[integrity set_db_queue]; try by left.
  - intros t. unfold active. cbn. by rewrite lookup_insert_eq.
  - right. by apply Hgone.
  - right. by apply Hgone.
Qed.
End Calm.
