(* ===== verification/WorkerLoop.v ===== *)
(** * The worker loop

    [src/apps/worker/worker_loop.py]: claim a run, keep its lease alive from a second
    thread while the processor works, and settle the claim by what the processor
    returned; with the maintenance tick and the loop around both.

    The threads of a worker meet in the database and in a few flags.  The heartbeat
    thread is composed with the processor: whenever a transaction of the processor
    begins, some heartbeats may have happened first, each of which renews the lease,
    finds it lost or fails with some other error; the last two raise the flag
    [is_lease_lost] reads.  Logging is left out. *)

From S2P Require Import Prelude Values RunEntity TaskEntity StepEntity ToolEntity ApprovalEntity.
From S2P Require Import EventEntity Canonical PyText Regex RetryPolicy ScheduleEntity ScheduleDelivery DelegationEntity WorkQueue.
From S2P Require Import AgentEntity SkillEntity ConversationEntity WorkflowExecutionEntity Tables Store.
From S2P Require Import Lifecycle RunUseCases ToolExecution AgentUseCases ScheduleUseCases WorkerUseCases WorkflowEntity WorkflowStore.
From S2P Require Import WorkflowUseCases WorkflowEngine DeliveryEntity DeliveryUseCases SkillEvaluation SkillImprovement System AgentLoop.

Open Scope Z_scope.

(** ** The heartbeat *)

(** [lease_lost] and [heartbeat_errors] *)
Record Heart : Type := mkHeart { ht_lease_lost : bool; ht_error : option exn }.
Definition heart_start : Heart := mkHeart false None.
(** A heartbeat that comes due runs its renewal, or the transaction fails for a reason
    of its own ([TransactionFailure], a database that cannot be reached) and is rolled
    back. *)
Inductive Beat : Type := BeatRenews | BeatFaults (cls : string).
(** What a renewal leaves behind: after a failure the thread has returned. *)
Definition after_beat (r : res unit) (h : Heart) : Heart :=
  match r with
  | Ok _ => h
  | Raise (ClaimLost _) => mkHeart true (ht_error h)
  | Raise e => mkHeart true (Some e)
  end.

(** What a worker has around it.  [calls] are the calls out of the processor and what
    other processes commit; its own [is_lease_lost] is not used, since the flag is made
    of the heartbeat's and of [shutdown_set].  [beats] says which heartbeats come due
    before the next transaction, and how they go. *)
Record Surroundings (X : Type) : Type := mkSurroundings {
  calls : Outside X;
  shutdown_set : X -> bool * X;
  beats : X -> list Beat * X }.
Arguments calls {X} _.
Arguments shutdown_set {X} _ _.
Arguments beats {X} _ _.

Section Heartbeat.
Context `{Env} `{FloatPow} `{Digest} `{Calendar} {X : Type} (out : Surroundings X).
(** [RenewRunLease] and the claim it renews *)
Context (lease : Z) (c : ClaimContext).

Definition renewal : app_op := OpRenewRunLease lease (cx_run_id c) (cx_claim c).
Fixpoint heartbeats (due : list Beat) (w : World) (h : Heart) : list app_op * Heart :=
  match due with
  | [] => ([], h)
  | b :: due' =>
      if ht_lease_lost h then ([], h)
      else
        match b with
        | BeatRenews =>
            let '(r, w') := app_exec renewal w in
            let '(ops, h') := heartbeats due' w' (after_beat r h) in
            (renewal :: ops, h')
        | BeatFaults cls => heartbeats due' w (after_beat (Raise (OtherError cls)) h)
        end
  end.

Definition lifting {A} (f : X -> A * X) (s : X * Heart) : A * (X * Heart) :=
  let '(a, x) := f s.1 in (a, (x, s.2)).
(** The outside of the processor: the heartbeat is one of the others. *)
Definition beside_heartbeat : Outside (X * Heart) :=
  mkOutside _
    (fun w s =>
       let '(ops, x1) := meanwhile (calls out) w s.1 in
       let '(due, x2) := beats out x1 in
       let '(renewals, h) := heartbeats due (run_history ops w) s.2 in
       (ops ++ renewals, (x2, h)))
    (lifting (monotonic (calls out)))
    (fun s => if ht_lease_lost s.2 then (true, s) else lifting (shutdown_set out) s)
    (fun q => lifting (next_action (calls out) q))
    (lifting (list_tools (calls out)))
    (fun t => lifting (assess (calls out) t))
    (fun q => lifting (gateway_execute (calls out) q))
    (match memory_retriever (calls out) with None => None | Some f => Some (fun q => lifting (f q)) end).
End Heartbeat.

(** ** The worker *)

(** What a [WorkerLoop] is built with *)
Record Worker : Type := mkWorker {
  wk_id : str; wk_lease : Z; wk_candidate_limit : nat; wk_retry_policy : RetryPolicy;
  wk_applies_delegation_waits : bool;
  wk_workflow_starter : option BrainRuntimeRegistry;
  wk_workflow_reconciler : bool;
  wk_uow_factory : bool;
  wk_recovery_batch : nat }.

(** [RunClaimResult] as the processor's [ClaimContext] *)
Definition claim_context (r : RunClaimResult) : ClaimContext :=
  mkClaimContext (rc_run_id r) (rc_task_id r) (rc_claim r) (rc_attempt_number r).

Section WorkerLoop.
Context `{Env} `{FloatPow} `{Digest} `{Calendar} `{Unicode} {X : Type} (out : Surroundings X) (wk : Worker).
Abbreviation Act := (Proc (X := X)).
Abbreviation transaction := (own (calls out)).

(** [except ClaimLost]: logged only *)
Definition unless_fenced (m : Act unit) : Act unit :=
  try_except m (fun e => match e with ClaimLost _ => Some (ret tt) | _ => None end).
(** [except Exception]: logged only *)
Definition isolated {A} (default : A) (m : Act A) : Act A := try_except m (fun _ => Some (ret default)).

Definition apply_failed (c : ClaimContext) (f : Failure) : Act unit :=
  transaction (ApplyFailedOutcome (wk_retry_policy wk) (cx_run_id c) (cx_claim c) f) ;;; ret tt.
Definition fail_as (c : ClaimContext) (code message : string) (retryable : bool) : Act unit :=
  f <- lift (Failure_new (u code) (u message) retryable FC_RUNTIME PyNone) ;; apply_failed c f.

(** [_frozen_workflow_id_for_run] *)
Definition frozen_workflow_id (r : RunId) (t : TaskId) : Act (option WorkflowId) :=
  if negb (wk_uow_factory wk) then ret None
  else
  let* (resolution, binding) := transaction (with_uow (
    resolution <- workflow_resolutions_get_by_run_id r ;;
    binding <- task_workflows_get_by_task_id t ;;
    commit ;;; ret (resolution, binding))) in
  match resolution, binding with
  | Some x, Some b =>
      raise_if (negb (id_eqb (tw_workflow_id b) (wl_workflow_id x))) WorkflowIntegrityError ;;; ret (Some (wl_workflow_id x))
  | Some x, None => ret (Some (wl_workflow_id x))
  | None, Some b => ret (Some (tw_workflow_id b))
  | None, None => ret None
  end.

(** [_reconcile_workflow_child] *)
Definition reconcile_workflow_child (r : RunId) : Act unit :=
  if negb (wk_uow_factory wk) || negb (wk_workflow_reconciler wk) then ret tt
  else isolated tt (
    node <- transaction (with_uow (
      run <- runs_get r ;;
      node <- match run with
              | None => ret None
              | Some run => node_executions_get_by_child_execution_id (run_execution_id run)
              end ;;
      commit ;;; ret node)) ;;
    match node with
    | None => ret tt
    | Some n => transaction (ReconcileWorkflowExecution (nx_workflow_execution_id n)) ;;; ret tt
    end).

(** Routing a run to its workflow instead of to a brain; [true] when it was routed *)
Definition bootstrap_workflow (c : ClaimContext) : Act bool :=
  routed <- try_except (i <- frozen_workflow_id (cx_run_id c) (cx_task_id c) ;; ret (Some i))
              (fun _ => Some (ret None)) ;;
  match routed with
  | None =>
      unless_fenced (fail_as c "workflow_routing_conflict" "Run Workflow routing state is inconsistent." false) ;;;
      ret true
  | Some None => ret false
  | Some (Some workflow_id) =>
      match wk_workflow_starter wk with
      | None =>
          unless_fenced (fail_as c "workflow_bootstrap_not_configured"
            "Workflow execution is not configured for this worker." false) ;;;
          ret true
      | Some reg =>
          started <- try_except
            (transaction (StartWorkflowExecution reg (cx_run_id c) workflow_id (cx_claim c)) ;;; ret true)
            (fun e => Some (ret match e with ClaimLost _ => true | _ => false end)) ;;
          (if (started : bool) then ret tt
           else unless_fenced (fail_as c "workflow_bootstrap_failed"
                  "Workflow execution could not be bootstrapped safely." false)) ;;;
          ret true
      end
  end.

(** [processor.process(context)] beside the heartbeat, up to the end of both *)
Definition process_claim (cf : Config) (c : ClaimContext) : Act (res ProcessingOutcome * Heart) := fun '(w, x) =>
  let '(r, (w1, s1)) := process (beside_heartbeat out (wk_lease wk) c) cf c (w, (x, heart_start)) in
  let '(_, (w2, (x2, h))) := own (beside_heartbeat out (wk_lease wk) c) (ret tt) (w1, s1) in
  (Ok (r, h), (w2, x2)).

(** The [try] block that settles the claim by the outcome; kinds are the five by typing. *)
Definition settle (c : ClaimContext) (o : ProcessingOutcome) : Act unit :=
  let r := cx_run_id c in
  match oc_kind o with
  | OK_SUCCEEDED =>
      transaction (ApplySucceededOutcome r (cx_claim c) (oc_final_response o)) ;;;
      reconcile_workflow_child r
  | OK_FAILED =>
      f <- need (oc_failure o) AssertionError ;;
      apply_failed c f ;;;
      reconcile_workflow_child r
  | OK_WAITING_FOR_APPROVAL =>
      a <- need (oc_approval_request_id o) AssertionError ;;
      transaction (ApplyWaitingOutcome r (cx_claim c) a) ;;; ret tt
  | OK_WAITING_FOR_DELEGATION =>
      d <- need (oc_delegation_request_id o) AssertionError ;;
      raise_if (negb (wk_applies_delegation_waits wk)) (OtherError "RuntimeError") ;;;
      transaction (ApplyWaitingForDelegationOutcome r (cx_claim c) d) ;;; ret tt
  | OK_YIELDED =>
      t <- need (oc_available_at o) AssertionError ;;
      transaction (RequeueClaimedRun r (cx_claim c) t)
  end.

(** What [run_once] does once the processor and the heartbeat have ended *)
Definition conclude (c : ClaimContext) (r : res ProcessingOutcome) (h : Heart) : Act unit :=
  if not_none (ht_error h) then ret tt
  else
  stopping <- outside (shutdown_set out) ;;
  if (stopping : bool) then
    unless_fenced (t <- transaction now ;; transaction (RequeueClaimedRun (cx_run_id c) (cx_claim c) t))
  else if ht_lease_lost h then ret tt
  else
  match r with
  | Raise _ =>
      failed_ <- try_except (fail_as c "processor_exception" "Run processor failed unexpectedly." true ;;; ret true)
                   (fun e => match e with ClaimLost _ => Some (ret false) | _ => None end) ;;
      if (failed_ : bool) then reconcile_workflow_child (cx_run_id c) else ret tt
  | Ok o => unless_fenced (settle c o)
  end.

(** [run_once] from the start of the heartbeat on *)
Definition attend (cf : Config) (c : ClaimContext) : Act unit :=
  let* (r, h) := process_claim cf c in conclude c r h.
(** The rest of [run_once] once a run has been claimed *)
Definition work (cf : Config) (claim : RunClaimResult) : Act unit :=
  let c := claim_context claim in
  routed <- bootstrap_workflow c ;;
  if (routed : bool) then ret tt else attend cf c.

(** [run_once]: whether there was work *)
Definition run_once (processor : option Config) : Act bool :=
  stopping <- outside (shutdown_set out) ;;
  if (stopping : bool) then ret false
  else
  match processor with
  | None => ret false
  | Some cf =>
      claim <- transaction (ClaimNextRun (wk_id wk) (wk_lease wk) (wk_candidate_limit wk)) ;;
      match claim with
      | None => ret false
      | Some claim => work cf claim ;;; ret true
      end
  end.

(** ** Maintenance *)

(** [_recover_running_workflows] *)
Fixpoint reconcile_each (l : list WorkflowExecution) : Act Z :=
  match l with
  | [] => ret 0
  | x :: l' =>
      done <- isolated 0 (transaction (ReconcileWorkflowExecution (wx_id x)) ;;; ret 1) ;;
      n <- reconcile_each l' ;;
      ret (done + n)
  end.
Definition recover_running_workflows : Act Z :=
  if negb (wk_uow_factory wk) || negb (wk_workflow_reconciler wk) then ret 0
  else
  executions <- isolated [] (transaction (with_uow (
    l <- executions_list_recoverable (wk_recovery_batch wk) ;; commit ;;; ret l))) ;;
  reconcile_each executions.

(** What the maintenance tick is built with; the two brains of the improvement tick and
    the refresh of the memory index are calls out. *)
Record Maintenance : Type := mkMaintenance {
  mt_schedules : option ((str -> option DeliveryRouteAuthority) * nat);
  mt_answers : option nat;
  mt_recovery_batch : nat; mt_expiry_batch : nat;
  mt_policies : option (JsonSchema * (CandidateGenerationRequest -> res str) * str *
                        (BrainOnlyEvaluationRequest -> res (list (str * str)) * list (str * json)) * Z);
  mt_refresh_index : option ((X -> res unit * X) * Z);
  mt_interval : Z }.

Section Ticks.
Context (mt : Maintenance) (processor : option Config).

(** [_refresh_memory_index_if_due]; the result is [_last_memory_index_maintenance]. *)
Definition refresh_memory_index_if_due (last : Z) : Act Z :=
  match mt_refresh_index mt with
  | None => ret last
  | Some (refresh, interval) =>
      t <- outside (monotonic (calls out)) ;;
      if t - last <? interval then ret last
      else isolated tt (outside_res refresh) ;;; ret t
  end.

(** [run_maintenance_tick]: no job stops the others *)
Definition run_maintenance_tick (last_index : Z) : Act Z :=
  match mt_schedules mt with
  | Some (resolve_route, batch) => isolated 0 (transaction (MaterializeDueSchedules resolve_route batch))
  | None => ret 0
  end ;;;
  match mt_answers mt with
  | Some batch => isolated 0%nat (transaction (MaterializeScheduledAnswerDeliveries batch))
  | None => ret 0%nat
  end ;;;
  isolated 0 (transaction (RecoverExpiredLeases (mt_recovery_batch mt))) ;;;
  isolated [] (transaction (ExpireDueApprovals (mt_expiry_batch mt))) ;;;
  recover_running_workflows ;;;
  match mt_policies mt with
  | Some (schema, generate, adapter, answer, batch) =>
      isolated 0 (transaction (EvaluateDueSkillImprovementPolicies is_application_error generate adapter answer (wk_id wk) batch))
  | None => ret 0
  end ;;;
  refresh_memory_index_if_due last_index.

(** The first [n] rounds of [serve_forever]; waiting for the poll interval is time that
    passes outside, and the delivery thread is one of the others. *)
Fixpoint serve (n : nat) (last_maintenance last_index : Z) : Act unit :=
  match n with
  | O => ret tt
  | S n' =>
      stopping <- outside (shutdown_set out) ;;
      if (stopping : bool) then ret tt
      else
      t <- outside (monotonic (calls out)) ;;
      let* (last_maintenance', last_index') :=
        (if mt_interval mt <=? t - last_maintenance then
           i <- run_maintenance_tick last_index ;; t' <- outside (monotonic (calls out)) ;; ret (t', i)
         else ret (last_maintenance, last_index)) in
      run_once processor ;;;
      serve n' last_maintenance' last_index'
  end.
End Ticks.
End WorkerLoop.
