(* ===== verification/WorkerHistory.v ===== *)
(** * What a worker does to the world

    Proofs about [WorkerLoop.run_once]: everything an iteration commits is committed
    under the one claim it took ([worker_acts_under_its_claim]). *)

From S2P Require Import Prelude Values RunEntity TaskEntity StepEntity ToolEntity ApprovalEntity.
From S2P Require Import EventEntity Canonical PyText Regex RetryPolicy ScheduleEntity ScheduleDelivery DelegationEntity WorkQueue.
From S2P Require Import AgentEntity SkillEntity ConversationEntity WorkflowExecutionEntity Tables Store Transactions.
From S2P Require Import Lifecycle RunUseCases ToolExecution AgentUseCases ScheduleUseCases WorkerUseCases WorkflowEntity WorkflowStore.
From S2P Require Import WorkflowUseCases WorkflowEngine DeliveryEntity DeliveryUseCases SkillEvaluation SkillImprovement System Rows RowHistory.
From S2P Require Import AgentLoop AgentLoopFacts ClaimHistory Settlement WorkerLoop.

Open Scope Z_scope.

(** The use cases of a worker under a claim: what its processor proposes, the heartbeat,
    settling the claim, starting the workflow of the run; and bringing a workflow up to
    date, which needs no claim. *)
Definition worker_does (c : ClaimContext) (o : app_op) : Prop :=
  proposes c o \/
  match o with
  | OpRenewRunLease _ r k | OpApplyFailedOutcome _ r k _ | OpApplySucceededOutcome r k _ | OpApplyWaitingOutcome r k _
  | OpApplyWaitingForDelegationOutcome r k _ | OpRequeueClaimedRun r k _ | OpStartWorkflowExecution _ r _ k =>
      r = cx_run_id c /\ k = cx_claim c
  | OpReconcileWorkflowExecution _ => True
  | _ => False
  end.

Section Effects.
Context `{Env} `{FloatPow} `{Digest} `{Calendar} `{Unicode} {X : Type} (out : Surroundings X) (wk : Worker).
Context (c : ClaimContext) (R : relation World) `{!PreOrder R}.
Context (Hown : forall o w, synced w -> worker_does c o -> R w (snd (app_exec o w))).
Context (Hothers : forall w x, synced w -> R w (run_history (fst (meanwhile (calls out) w x)) w)).
(** [R] of the worlds, whatever happens outside *)
Definition on_worlds {Y} : relation (World * Y) := fun a b => R (fst a) (fst b).
#[local] Instance on_worlds_preorder {Y} : PreOrder (on_worlds (Y := Y)).
Proof. split; [intros [w x]; unfold on_worlds; reflexivity|]. intros [w1 x1] [w2 x2] [w3 x3]. unfold on_worlds. cbn. by etransitivity. Qed.
Abbreviation acts := (moves (X := X) on_worlds).

Lemma acts_outside {A} (f : X -> A * X) : acts (outside f).
Proof. apply moves_outside. intros w x. unfold on_worlds. reflexivity. Qed.
Lemma calls_on_worlds {Y} (o : Outside Y) : holds_calls o on_worlds.
Proof. split; intros; unfold on_worlds; reflexivity. Qed.
#[local] Hint Resolve moves_ret moves_raise moves_lift acts_outside on_worlds_preorder : moves.
Ltac moving :=
  repeat first
    [ solve [auto 2 with moves nocore]
    | apply moves_bind; [apply _| |intros ?]
    | apply moves_try; [apply _| |intros ? ? ?; repeat case_match; simplify_eq]
    | match goal with |- moves _ (match ?x with _ => _ end) => destruct x end ].

Lemma acts_own {A} (m : U A) :
  (forall w, synced w -> snd (m w) = w \/ exists o, worker_does c o /\ snd (m w) = snd (app_exec o w)) ->
  acts (own (calls out) m).
Proof.
  intros Hm w x Hw. unfold own. specialize (Hothers w x Hw). destruct (meanwhile (calls out) w x) as [ops x1].
  cbn in Hothers. pose proof (synced_history ops w Hw) as Hs. specialize (Hm _ Hs).
  destruct (m (run_history ops w)) as [r w2]. cbn in *. destruct Hm as [->|(o & Ho & ->)]; [done|].
  split; [by apply synced_app_exec|]. unfold on_worlds. cbn. transitivity (run_history ops w); [done|]. by apply Hown.
Qed.
(** A transaction that only reads and commits *)
Definition peeks {A} (m : U A) : Prop := forall w, synced w -> snd (m w) = w.
Lemma peeks_looks {A} (m : U A) : looks m -> peeks m.
Proof. intros Hm w _. apply Hm. Qed.
Lemma peeks_commit : peeks commit.
Proof. intros [d s n k] Hw. unfold synced in Hw. cbn in Hw. subst s. unfold commit. cbn. by destruct (integrity d). Qed.
Lemma peeks_bind {A B} (m : U A) (k : A -> U B) : peeks m -> (forall a, peeks (k a)) -> peeks (bind m k).
Proof.
  intros Hm Hk w Hw. specialize (Hm w Hw). unfold bind. destruct (m w) as [[a|e] w1]; cbn in *; subst; [by apply Hk|done].
Qed.
Lemma acts_read {A} (m : U A) : peeks m -> acts (own (calls out) (with_uow m)).
Proof.
  intros Hm. apply acts_own. intros w Hw. left. unfold with_uow.
  specialize (Hm (mkWorld (durable w) (durable w) (draws w) (ticks w)) eq_refl). destruct (m _) as [r w'].
  cbn in *. subst w'. destruct w as [d s n k]. unfold synced in Hw. cbn in *. by subst.
Qed.
Ltac peeking :=
  repeat first
    [ apply peeks_commit
    | apply peeks_bind; [|intros ?]
    | match goal with |- peeks (match ?x with _ => _ end) => destruct x end
    | apply peeks_looks; by intros ? ].
Lemma acts_op {A} (m : U A) o :
  worker_does c o -> (forall w, snd (m w) = snd (app_exec o w)) -> acts (own (calls out) m).
Proof. intros Ho Hm. apply acts_own. intros w _. right. by exists o. Qed.
Ltac act_op o := apply (acts_op _ o); [by right|intros ?; cbn [app_exec]; by rewrite ?discard_world].

Lemma acts_clock : acts (own (calls out) now).
Proof.
  apply acts_own. intros w Hw. right. exists (OpVerifyRunClaim (cx_run_id c) (cx_claim c)). split; [by left|].
  by apply clock_as_check.
Qed.
Lemma acts_unless_fenced m : acts m -> acts (unless_fenced m).
Proof. intros Hm. unfold unless_fenced. moving; done. Qed.
Lemma acts_isolated {A} (a : A) m : acts m -> acts (isolated a m).
Proof. intros Hm. unfold isolated. moving; done. Qed.
Lemma acts_apply_failed f : acts (apply_failed out wk c f).
Proof.
  unfold apply_failed. moving. act_op (OpApplyFailedOutcome (wk_retry_policy wk) (cx_run_id c) (cx_claim c) f).
Qed.
#[local] Hint Resolve acts_clock acts_unless_fenced acts_isolated acts_apply_failed : moves.
Lemma acts_fail_as code message b : acts (fail_as out wk c code message b).
Proof. unfold fail_as. moving. Qed.
#[local] Hint Resolve acts_fail_as : moves.
Lemma acts_frozen r t : acts (frozen_workflow_id out wk r t).
Proof. unfold frozen_workflow_id, raise_if. moving. apply acts_read. peeking. Qed.
Lemma acts_reconcile r : acts (reconcile_workflow_child out wk r).
Proof.
  unfold reconcile_workflow_child. destruct (_ || _); [apply moves_ret; apply _|]. apply acts_isolated. moving.
  - apply acts_read. peeking.
  - match goal with |- acts (own _ (ReconcileWorkflowExecution ?x)) => act_op (OpReconcileWorkflowExecution x) end.
Qed.
#[local] Hint Resolve acts_frozen acts_reconcile : moves.
Lemma acts_bootstrap : acts (bootstrap_workflow out wk c).
Proof.
  unfold bootstrap_workflow. moving;
    try (apply acts_unless_fenced; moving).
  match goal with |- acts (own _ (StartWorkflowExecution ?g _ ?i _)) =>
    act_op (OpStartWorkflowExecution g (cx_run_id c) i (cx_claim c)) end.
Qed.
Lemma acts_settle o : acts (settle out wk c o).
Proof.
  unfold settle, need, raise_if. moving.
  - match goal with |- acts (own _ (ApplySucceededOutcome _ _ ?f)) =>
      act_op (OpApplySucceededOutcome (cx_run_id c) (cx_claim c) f) end.
  - match goal with |- acts (own _ (ApplyWaitingOutcome _ _ ?f)) =>
      act_op (OpApplyWaitingOutcome (cx_run_id c) (cx_claim c) f) end.
  - match goal with |- acts (own _ (ApplyWaitingForDelegationOutcome _ _ ?f)) =>
      act_op (OpApplyWaitingForDelegationOutcome (cx_run_id c) (cx_claim c) f) end.
  - match goal with |- acts (own _ (RequeueClaimedRun _ _ ?f)) =>
      act_op (OpRequeueClaimedRun (cx_run_id c) (cx_claim c) f) end.
Qed.
#[local] Hint Resolve acts_bootstrap acts_settle : moves.
Lemma acts_conclude r h : acts (conclude out wk c r h).
Proof.
  unfold conclude. moving; try (apply acts_unless_fenced; moving).
  match goal with |- acts (own _ (RequeueClaimedRun _ _ ?f)) =>
    act_op (OpRequeueClaimedRun (cx_run_id c) (cx_claim c) f) end.
Qed.

(** *** Beside the heartbeat *)
Lemma heartbeats_act due w h : synced w ->
  R w (run_history (fst (heartbeats (wk_lease wk) c due w h)) w).
Proof.
  revert w h. induction due as [|b due IH]; intros w h Hw; cbn [heartbeats]; [done|].
  destruct (ht_lease_lost h); [done|]. destruct b as [|cls]; [|by apply IH]. pose proof (synced_app_exec (renewal (wk_lease wk) c) w Hw) as Hs.
  assert (Hr : R w (snd (app_exec (renewal (wk_lease wk) c) w))) by by apply Hown; [|right].
  cbn [run_history]. destruct (app_exec (renewal (wk_lease wk) c) w) as [r w1] eqn:E. cbn [snd] in *.
  specialize (IH w1 (after_beat r h) Hs). destruct (heartbeats _ _ due w1 _) as [ops h']. cbn [fst] in *.
  change (R w (run_history ops (snd (app_exec (renewal (wk_lease wk) c) w)))). rewrite E. by transitivity w1.
Qed.
Lemma others_beside w s : synced w ->
  R w (run_history (fst (meanwhile (beside_heartbeat out (wk_lease wk) c) w s)) w).
Proof.
  intros Hw. cbn. pose proof (Hothers w s.1 Hw) as Ho. destruct (meanwhile (calls out) w s.1) as [ops x1]. cbn [fst] in Ho.
  destruct (beats out x1) as [due x2]. pose proof (synced_history ops w Hw) as Hs.
  pose proof (heartbeats_act due (run_history ops w) s.2 Hs) as Hh.
  destruct (heartbeats _ _ due _ _) as [renewals h]. cbn [fst] in *.
  transitivity (run_history ops w); [done|]. unfold run_history in *. by rewrite foldl_app.
Qed.
Lemma acts_process cf : acts (process_claim out wk cf c).
Proof.
  intros w x Hw. unfold process_claim.
  pose proof (moves_process (beside_heartbeat out (wk_lease wk) c) cf c on_worlds
    (fun o w _ Hs Ho => Hown o w Hs (or_introl Ho)) others_beside (calls_on_worlds _) w (x, heart_start) Hw) as Hp.
  destruct (process _ _ _ _) as [r [w1 s1]]. cbn in Hp. destruct Hp as [Hs Hr].
  pose proof (others_beside w1 s1 Hs) as Ho. unfold own. 
  destruct (meanwhile (beside_heartbeat _ _ _) w1 s1) as [ops [x2 h]]. cbn in *.
  split; [by apply synced_history|]. unfold on_worlds in *. cbn in *. by transitivity w1.
Qed.
Lemma acts_attend cf : acts (attend out wk cf c).
Proof. unfold attend. moving; [apply acts_process|apply acts_conclude]. Qed.
Lemma acts_work cf claim : claim_context claim = c -> acts (work out wk cf claim).
Proof. intros E. unfold work. rewrite E. moving; [apply acts_process|apply acts_conclude]. Qed.
End Effects.

Lemma discarded {A} (m : U A) w : fst (discard m w) = match fst (m w) with Ok _ => Ok tt | Raise e => Raise e end.
Proof. unfold discard, bind. by destruct (m w) as [[a|e] w']. Qed.

(** C7: an iteration of the worker claims at most one run, and everything it does after
    that it does under that one claim.  The iteration either leaves the world alone
    (shutting down, or no processor), or lets the others act and claims; without a claim
    it is done; with one, the rest of the world's change is made of use cases of the
    others, reconciliations of workflows, and use cases for the claimed run that quote
    exactly the claim it was given: any preorder that contains those contains the rest. *)
Theorem worker_acts_under_its_claim `{Env} `{FloatPow} `{Digest} `{Calendar} `{Unicode} {X}
    (out : Surroundings X) wk processor w x :
  reachable w ->
  let w' := fst (snd (run_once out wk processor (w, x))) in
  reachable w' /\
  (w' = w \/
   exists x1, let w0 := run_history (fst (meanwhile (calls out) w x1)) w in
   match ClaimNextRun (wk_id wk) (wk_lease wk) (wk_candidate_limit wk) w0 with
   | (Ok (Some claim), w1) =>
       forall R : relation World, PreOrder R ->
         (forall w x, reachable w -> R w (run_history (fst (meanwhile (calls out) w x)) w)) ->
         (forall o w, reachable w -> worker_does (claim_context claim) o -> R w (snd (app_exec o w))) ->
         R w1 w'
   | (_, w1) => w' = w1
   end).
Proof.
  intros Hw. cbv zeta. destruct (run_once out wk processor (w, x)) as [r [w' x']] eqn:E. cbn [fst snd].
  revert E. unfold run_once, bind, outside, own.
  destruct (shutdown_set out x) as [[] x1]; [by intros [= _ <- _]; split; [|left]|].
  destruct processor as [cf|]; [|by intros [= _ <- _]; split; [|left]].
  destruct (meanwhile (calls out) w x1) as [ops x2] eqn:Em.
  pose proof (run_history_reachable ops w Hw) as Hw0. set (w0 := run_history ops w) in *.
  pose proof (reach_op _ _ (OpClaimNextRun (wk_id wk) (wk_lease wk) (wk_candidate_limit wk)) w0 Hw0) as Hw1.
  cbn [app_exec] in Hw1. rewrite discard_world in Hw1.
  assert (Hx : run_history (fst (meanwhile (calls out) w x1)) w = w0) by by rewrite Em.
  destruct (ClaimNextRun _ _ _ w0) as [[[claim|]|e] w1] eqn:Ec; cbn [snd fst] in *.
  2, 3: (intros [= _ <- _]; split; [done|right; exists x1; by rewrite Hx, Ec]).
  intros E.
  assert (Hgen : forall R : relation World, PreOrder R ->
     (forall w x, reachable w -> R w (run_history (fst (meanwhile (calls out) w x)) w)) ->
     (forall o w, reachable w -> worker_does (claim_context claim) o -> R w (snd (app_exec o w))) ->
     reachable w' /\ R w1 w').
  { intros R HR Hothers Hown.
    pose (R' := fun a b : World => reachable a -> reachable b /\ R a b).
    assert (HR' : PreOrder R').
    { split; [by intros a|]. intros a b d Hab Hbd Ha. destruct (Hab Ha) as [Hb ?]. destruct (Hbd Hb) as [? ?].
      split; [done|]. by transitivity b. }
    assert (Hact : moves (on_worlds R') (work out wk cf claim)).
    { apply (acts_work out wk (claim_context claim) R'); try done.
      - intros o w2 _ Ho Hw2. split; [by apply reach_op|by apply Hown].
      - intros w2 x3 _ Hw2. split; [by apply run_history_reachable|by apply Hothers]. }
    specialize (Hact w1 x2 (proj2 (reachable_valid w1 Hw1))).
    destruct (work out wk cf claim (w1, x2)) as [[a|e] [w2 x3]]; injection E as <- <- <-; by apply Hact. }
  split; [by apply (Hgen (fun _ _ => True))|]. right. exists x1. rewrite Hx, Ec. intros R HR Hothers Hown. by apply Hgen.
Qed.

(** ** The end of a claim *)
Section Ending.
#[local] Existing Instance on_worlds_preorder.
Context `{Env} `{FloatPow} `{Digest} `{Calendar} `{Unicode} {X : Type} (out : Surroundings X) (wk : Worker).
Context (c : ClaimContext).
Context `{!Inj (=) (=) uuid4} (Hclock : forall i j, (i <= j)%nat -> clock_at i <= clock_at j).
Context (Hpow : forall x k, mild_res (fpow x k)).
Abbreviation r := (cx_run_id c).
Abbreviation k := (cx_claim c).

(** The token of the claim has been handed out; and the claim is over, whatever the
    clock will say. *)
Definition handed (w : World) : Prop := reachable w /\ drawn (draws w) (cl_token k).
Definition over (w : World) : Prop := exists t, kept (lost r k t) w.
Definition stays_over : relation World := fun a b => handed a -> handed b /\ (over a -> over b).
#[local] Instance stays_over_preorder : PreOrder stays_over.
Proof.
  split; [by intros w|]. intros w1 w2 w3 H12 H23 Hw. destruct (H12 Hw) as [Hw2 ?]. destruct (H23 Hw2) as [? ?]. auto.
Qed.
Lemma op_stays o w : stays_over w (snd (app_exec o w)).
Proof.
  intros [Hr Hd]. split; [split; [by apply reach_op|by apply drawn_app_exec]|].
  intros [t Ht]. exists t. by apply lost_app_exec.
Qed.
Lemma history_stays ops w : stays_over w (run_history ops w).
Proof.
  revert w. induction ops as [|o ops IH]; intros w; [by intros Hw|]. transitivity (snd (app_exec o w)); [apply op_stays|apply IH].
Qed.
Abbreviation acts := (moves (X := X) (on_worlds stays_over)).
Lemma ending_acts {A} (m : Proc (X := X) A) w x : acts m -> handed w ->
  handed (fst (snd (m (w, x)))) /\ (over w -> over (fst (snd (m (w, x))))).
Proof. intros Hm Hw. destruct (Hm w x (proj2 (reachable_valid w (proj1 Hw)))) as [_ Hs]. by apply Hs. Qed.

(** [m] does not return, and does not raise [ClaimLost], before the claim is over. *)
Definition finishes {A} (m : Proc (X := X) A) : Prop := forall w x, handed w ->
  match m (w, x) with
  | (Ok _, (w', _)) => handed w' /\ over w'
  | (Raise e, (w', _)) => handed w' /\ (mild e = true \/ over w')
  end.
Lemma over_lost w t : handed w -> t <= clock_at (ticks w) -> active (db_queue (durable w)) r k t = false -> over w.
Proof. intros [Hr Hd] Ht Ha. exists t. by apply reachable_lost. Qed.
Lemma finishes_op {A} (m : U A) o :
  (forall w, snd (m w) = snd (app_exec o w)) -> (forall w, reachable w -> ends r k (m w)) -> finishes (own (calls out) m).
Proof.
  intros Ho Hm w x Hw. unfold own. destruct (meanwhile (calls out) w x) as [ops x1].
  destruct (history_stays ops w Hw) as [Hw1 _]. set (w1 := run_history ops w) in *.
  specialize (Hm w1 (proj1 Hw1)). specialize (Ho w1). destruct (op_stays o w1 Hw1) as [Hw2 _]. rewrite <- Ho in Hw2.
  assert (Hover : forall q n, q = db_queue (durable (snd (m w1))) -> n = ticks (snd (m w1)) -> over_at r k q n -> over (snd (m w1))).
  { intros q n -> -> [Hi|(j & Hj & Ha)]; [by eapply over_lost, Hi|].
    eapply over_lost; [done| |exact Ha]. apply Hclock. lia. }
  destruct (m w1) as [[a|e] w2]; cbn in *.
  - split; [done|]. eapply Hover; [done..|by left].
  - split; [done|]. destruct Hm as [Hm|Hm]; [by left|right; by eapply Hover].
Qed.
Lemma finishes_then {A B} (m : Proc A) (f : A -> Proc B) : finishes m -> (forall a, acts (f a)) -> finishes (bind m f).
Proof.
  intros Hm Hf w x Hw. specialize (Hm w x Hw). unfold bind. destruct (m (w, x)) as [[a|e] [w1 x1]]; [|done].
  destruct Hm as [Hw1 Ho]. destruct (ending_acts (f a) w1 x1 (Hf a) Hw1) as [Hw2 Ho2].
  destruct (f a (w1, x1)) as [[b|e] [w2 x2]]; cbn in *; auto.
Qed.
Lemma finishes_after {A B} (m : Proc A) (f : A -> Proc B) :
  acts m -> mild_method m -> (forall a, finishes (f a)) -> finishes (bind m f).
Proof.
  intros Hm Hr Hf w x Hw. destruct (ending_acts m w x Hm Hw) as [Hw1 _]. specialize (Hr (w, x)). unfold bind.
  destruct (m (w, x)) as [[a|e] [w1 x1]]; cbn in *; [by apply Hf|]. split; [done|]. left. by apply Hr.
Qed.

(** *** The heartbeat *)
Lemma integrity_queue q d : integrity (set_db_queue q d) = integrity d.
Proof. by destruct d. Qed.
(** A heartbeat that fails has found the claim lost. *)
Lemma renewal_ends lease w : handed w ->
  match app_exec (renewal lease c) w with
  | (Ok _, _) => True
  | (Raise e, w') => mild e = false /\ over w'
  end.
Proof.
  intros Hw. pose proof (op_stays (renewal lease c) w Hw) as [Hw' _]. destruct (reachable_tokens w (proj1 Hw)) as [_ _ Hi].
  revert Hw'. unfold renewal. cbn [app_exec].
  unfold discard, RenewRunLease, fenced, with_uow, renew_lease, update_where, bind, now, on_queue, commit.
  cbn -[integrity set_db_queue].
  destruct (db_queue (durable w) !! r) as [i|] eqn:E; [destruct (fence _ _ i) eqn:Ef|]; cbn -[integrity set_db_queue];
    rewrite integrity_queue, Hi; cbn -[integrity set_db_queue]; try done; intros Hw'; split; try done;
    (eapply (over_lost _ (clock_at (ticks w))); [exact Hw'|apply Hclock; cbn; lia|]); cbn; unfold active; by rewrite E.
Qed.
(** Unless a heartbeat failed with another error, a lost lease is over. *)
Definition beating {Y} (a : World * (Y * Heart)) : Prop :=
  handed (fst a) /\
  (ht_error (snd (snd a)) = None -> ht_lease_lost (snd (snd a)) = true -> over (fst a)).
Lemma heartbeats_stopped due w h : ht_lease_lost h = true -> heartbeats (wk_lease wk) c due w h = ([], h).
Proof. intros Hl. destruct due; cbn [heartbeats]; [done|]. by rewrite Hl. Qed.
Lemma heartbeats_beat due w h : beating (w, (tt, h)) ->
  beating (run_history (fst (heartbeats (wk_lease wk) c due w h)) w, (tt, snd (heartbeats (wk_lease wk) c due w h))).
Proof.
  revert w h. induction due as [|b due IH]; intros w h Hb; cbn [heartbeats]; [done|].
  destruct (ht_lease_lost h) eqn:El; [done|]. destruct Hb as (Hw & _). cbn [fst snd] in Hw.
  destruct b as [|cls]; [|by rewrite heartbeats_stopped].
  pose proof (renewal_ends (wk_lease wk) w Hw) as Hr. destruct (op_stays (renewal (wk_lease wk) c) w Hw) as [Hw' _].
  destruct (app_exec (renewal (wk_lease wk) c) w) as [res_ w1] eqn:Ea. cbn [snd] in Hw'.
  assert (Hb : beating (w1, (tt, after_beat res_ h))).
  { destruct res_ as [u_|e]; [by split; cbn; rewrite ?El|]. destruct Hr as [Hm Ho]. destruct e; try done. }
  specialize (IH w1 (after_beat res_ h) Hb). destruct (heartbeats _ _ due w1 _) as [ops h'] eqn:Eh. cbn [fst snd] in *.
  replace (run_history (renewal (wk_lease wk) c :: ops) w) with (run_history ops w1); [done|].
  change (run_history (renewal (wk_lease wk) c :: ops) w) with (run_history ops (snd (app_exec (renewal (wk_lease wk) c) w))).
  by rewrite Ea.
Qed.
Lemma others_beat w s : beating (w, s) ->
  beating (run_history (fst (meanwhile (beside_heartbeat out (wk_lease wk) c) w s)) w,
           snd (meanwhile (beside_heartbeat out (wk_lease wk) c) w s)).
Proof.
  destruct s as [x h]. intros (Hw & Hl). cbn in *. destruct (meanwhile (calls out) w x) as [ops x1].
  destruct (beats out x1) as [due x2]. destruct (history_stays ops w Hw) as [Hw1 Ho].
  pose proof (heartbeats_beat due (run_history ops w) h ltac:(split; [done|by intros; apply Ho, Hl])) as Hb.
  destruct (heartbeats _ _ due _ _) as [renewals h']. cbn [fst snd] in *.
  unfold run_history in *. by rewrite foldl_app.
Qed.
(** The calls out of the processor leave the heartbeat alone. *)
Lemma lifting_beats {A} (f : X -> A * X) w s : beating (w, s) -> beating (w, snd (lifting f s)).
Proof. unfold lifting. by destruct (f s.1). Qed.
Lemma beating_calls :
  holds_calls (beside_heartbeat out (wk_lease wk) c) (fun a b : World * (X * Heart) => beating a -> beating b).
Proof.
  split; try (intros; cbn; by apply lifting_beats).
  - intros w s Hb. cbn. destruct (ht_lease_lost s.2); [done|by apply lifting_beats].
  - intros f q w s. cbn. destruct (memory_retriever (calls out)); [|done]. intros [= <-]. apply lifting_beats.
Qed.
Lemma process_beats cf w x res_ h w' x' : handed w -> process_claim out wk cf c (w, x) = (Ok (res_, h), (w', x')) ->
  beating (w', (x', h)).
Proof.
  intros Hw. unfold process_claim.
  pose (R := fun a b : World * (X * Heart) => beating a -> beating b).
  assert (HR : PreOrder R) by (split; [intros a Ha; exact Ha|intros a b d Hab Hbd Ha; exact (Hbd (Hab Ha))]).
  assert (Hm : moves R (process (beside_heartbeat out (wk_lease wk) c) cf c)).
  { apply moves_process; [done|..].
    - intros o w1 s _ _ (Hw1 & Hl). destruct (op_stays o w1 Hw1) as [Hw2 Ho]. split; [done|by intros; apply Ho, Hl].
    - intros w1 s _ Hb. by apply others_beat.
    - apply beating_calls. }
  destruct (Hm w (x, heart_start) (proj2 (reachable_valid w (proj1 Hw)))) as [_ Hb].
  destruct (process _ _ _ _) as [r1 [w1 s1]]. specialize (Hb ltac:(by split)). unfold own.
  pose proof (others_beat w1 s1 Hb) as Hb2. destruct (meanwhile (beside_heartbeat _ _ _) w1 s1) as [ops [x2 h2]].
  cbn in *. by intros [= <- <- <- <-].
Qed.

(** *** Settling *)
Lemma finishes_failed f : finishes (apply_failed out wk c f).
Proof.
  unfold apply_failed. apply finishes_then; [|intros ?; apply moves_ret; apply _].
  apply (finishes_op _ (OpApplyFailedOutcome (wk_retry_policy wk) r k f)).
  - intros w. cbn [app_exec]. by rewrite discard_world.
  - intros w _. by apply failed_ends.
Qed.
Lemma finishes_fail_as code message b : finishes (fail_as out wk c code message b).
Proof.
  unfold fail_as. apply finishes_after; [apply moves_lift; apply _|apply mild_lift; milds|].
  intros f. apply finishes_failed.
Qed.
Lemma acts_reconciling x : acts (reconcile_workflow_child out wk x).
Proof. apply (acts_reconcile out wk c); [apply _|intros; apply op_stays|intros; apply history_stays]. Qed.
Lemma run_ids w x : reachable w -> db_runs (durable w) !! r = Some x -> run_id x = r.
Proof. intros Hw Hx. by apply (reachable_rows_valid w Hw TbRun r x). Qed.
Lemma finishes_settle o : finishes (settle out wk c o).
Proof.
  unfold settle. destruct (oc_kind o).
  - apply finishes_then; [|intros ?; apply acts_reconciling].
    apply (finishes_op _ (OpApplySucceededOutcome r k (oc_final_response o))).
    + intros w. cbn [app_exec]. by rewrite discard_world.
    + intros w _. apply succeeded_ends.
  - apply finishes_after; [unfold need; case_match; [apply moves_ret|apply moves_raise]; apply _|unfold need; milds|].
    intros f. apply finishes_then; [apply finishes_failed|intros ?; apply acts_reconciling].
  - apply finishes_after; [unfold need; case_match; [apply moves_ret|apply moves_raise]; apply _|unfold need; milds|].
    intros a. apply finishes_then; [|intros ?; apply moves_ret; apply _].
    apply (finishes_op _ (OpApplyWaitingOutcome r k a)).
    + intros w. cbn [app_exec]. by rewrite discard_world.
    + intros w Hw. apply waiting_ends. intros x. by apply run_ids.
  - apply finishes_after; [unfold need; case_match; [apply moves_ret|apply moves_raise]; apply _|unfold need; milds|].
    intros d. apply finishes_after; [unfold raise_if; case_match; [apply moves_raise|apply moves_ret]; apply _|unfold raise_if; milds|].
    intros _. apply finishes_then; [|intros ?; apply moves_ret; apply _].
    apply (finishes_op _ (OpApplyWaitingForDelegationOutcome r k d)).
    + intros w. cbn [app_exec]. by rewrite discard_world.
    + intros w Hw. apply delegation_wait_ends. intros x. by apply run_ids.
  - apply finishes_after; [unfold need; case_match; [apply moves_ret|apply moves_raise]; apply _|unfold need; milds|].
    intros t. apply (finishes_op _ (OpRequeueClaimedRun r k t)).
    + intros w. cbn [app_exec]. by rewrite discard_world.
    + intros w _. apply requeue_ends.
Qed.

(** If it returns, the claim is over. *)
Definition leaves_over {A} (x : res A * (World * X)) : Prop := match x with (Ok _, (w', _)) => over w' | _ => True end.
Lemma unless_fenced_over m w x : finishes m -> handed w -> leaves_over (unless_fenced m (w, x)).
Proof.
  intros Hm Hw. specialize (Hm w x Hw). unfold unless_fenced, try_except, leaves_over.
  destruct (m (w, x)) as [[a|e] [w1 x1]]; [by destruct Hm|]. destruct Hm as [_ [Hm|Hm]]; destruct e; done.
Qed.
Lemma conclude_over res_ h w x :
  beating (w, (x, h)) -> ht_error h = None -> leaves_over (conclude out wk c res_ h (w, x)).
Proof.
  intros (Hw & Hl) He. cbn [fst snd] in *. unfold conclude. rewrite He. cbn [not_none].
  unfold bind at 1, outside at 1. destruct (shutdown_set out x) as [[] x1].
  - apply unless_fenced_over; [|done]. apply finishes_after; [|intros [w1 x2]; unfold own; by destruct (meanwhile _ _ _)|].
    + apply (acts_clock out c); [apply _|intros; apply op_stays|intros; apply history_stays].
    + intros t. apply (finishes_op _ (OpRequeueClaimedRun r k t)).
      * intros w1. cbn [app_exec]. by rewrite discard_world.
      * intros w1 _. apply requeue_ends.
  - destruct (ht_lease_lost h); [by apply Hl|]. destruct res_ as [o|e].
    + apply unless_fenced_over; [apply finishes_settle|done].
    + pose proof (finishes_fail_as "processor_exception" "Run processor failed unexpectedly." true w x1 Hw) as Hf.
      unfold leaves_over, bind, try_except. unfold bind in Hf.
      destruct (fail_as _ _ _ _ _ _ (w, x1)) as [[a|e'] [w2 x2]]; cbn.
      * destruct Hf as [Hw2 Ho]. destruct (ending_acts _ w2 x2 (acts_reconciling r) Hw2) as [_ Ho'].
        destruct (reconcile_workflow_child _ _ _ _) as [[b|e'] [w3 x3]]; [by apply Ho'|done].
      * destruct Hf as [_ [Hm|Hm]]; by destruct e'.
Qed.
End Ending.

(** C6: a worker lets go, unless its own heartbeat broke.  When [run_once] returns after it
    has handed a claimed run to its processor, whatever brain, tools, heartbeats, a
    shutdown and the other processes did meanwhile, and whatever the processor returned
    or raised: if no heartbeat failed with anything but [ClaimLost], the claim is over,
    that is, it is not active any more and no later history makes it active again
    (either the outcome was committed with the release of the claim, or the claim had
    been lost before); and if one did, the iteration ends there: nothing is settled, the
    world is the one the processor and the heartbeat left, and the claim is left to its
    lease.  It takes what [claim_lost_for_good] takes, and a float power that never
    raises [ClaimLost]. *)
Theorem claim_settled `{Env} `{FloatPow} `{Digest} `{Calendar} `{Unicode} {X}
    (out : Surroundings X) wk cf c w x w' x' t0 :
  Inj (=) (=) uuid4 -> (forall i j, (i <= j)%nat -> clock_at i <= clock_at j) ->
  (forall b n, mild_res (fpow b n)) ->
  reachable w -> active (db_queue (durable w)) (cx_run_id c) (cx_claim c) t0 = true ->
  attend out wk cf c (w, x) = (Ok tt, (w', x')) ->
  exists outcome heart w1 x1,
    process_claim out wk cf c (w, x) = (Ok (outcome, heart), (w1, x1)) /\
    match ht_error heart with
    | Some _ => w' = w1
    | None => forall ops t, clock_at (ticks w') <= t ->
        active (db_queue (durable (run_history ops w'))) (cx_run_id c) (cx_claim c) t = false
    end.
Proof.
  intros Hi Hc Hp Hw Ha. unfold attend, bind.
  destruct (process_claim out wk cf c (w, x)) as [[[res_ h]|e] [w1 x1]] eqn:Ep; [|done]. intros E.
  pose proof (process_beats out wk c Hc cf w x res_ h w1 x1 (conj Hw (reachable_held _ _ _ _ Hw Ha)) Ep) as Hb.
  exists res_, h, w1, x1. split; [done|]. destruct (ht_error h) eqn:He.
  { revert E. unfold conclude. rewrite He. by intros [= <- _]. }
  intros ops t Ht. pose proof (conclude_over out wk c Hc Hp res_ h w1 x1 Hb He) as Ho. rewrite E in Ho.
  destruct Ho as [t1 Hl]. destruct (lost_history _ _ _ ops w' Hl) as [[Hr _ _] _ _]. destruct Hl as [[_ Hn _] _ _].
  assert (t1 <= t) by (etrans; [by apply Hn|done]).
  revert Hr. unfold active. destruct (_ !! _); [|done]. by apply fence_mono.
Qed.

(** A run is claimed for a second; its processor calls a tool and finishes beside two
    heartbeats per transaction. *)
Definition toy_surroundings : Surroundings (Z * Z) :=
  mkSurroundings _ toy_outside (fun x => (false, x)) (fun x => ([BeatRenews; BeatRenews], x)).
Definition toy_worker : Worker := mkWorker (u "w1") 1000000 5 ex_policy true None false false 5.
Definition toy_settled_claimed : World :=
  @run_history unary_env toy_pow toy_digest toy_calendar
    [OpCreateTask (u "buy milk") (u ""); OpStartRun (unary_id 0); OpClaimNextRun (u "w1") 1000000 5] empty_world.
Definition toy_settled_context : ClaimContext := mkClaimContext (unary_id 1) (unary_id 0) late_claim 1.
Definition toy_attend (out : Surroundings (Z * Z)) : res unit * (World * (Z * Z)) :=
  @attend unary_env toy_pow toy_digest toy_calendar ascii_unicode _ out toy_worker toy_config
    toy_settled_context (toy_settled_claimed, (0, 0)).
Definition toy_processed (out : Surroundings (Z * Z)) : res (res ProcessingOutcome * Heart) * (World * (Z * Z)) :=
  @process_claim unary_env toy_pow toy_digest toy_calendar ascii_unicode _ out toy_worker toy_config
    toy_settled_context (toy_settled_claimed, (0, 0)).
Definition heart_error (p : res (res ProcessingOutcome * Heart) * (World * (Z * Z))) : option exn :=
  match fst p with Ok (_, h) => ht_error h | Raise _ => None end.
(** The same beside a heartbeat that cannot reach the database: the run is left running,
    its claim active, for the lease to expire. *)
Definition toy_unreachable : Surroundings (Z * Z) :=
  mkSurroundings _ toy_outside (fun x => (false, x)) (fun x => ([BeatFaults "TransactionFailure"], x)).
Example faulting_heartbeat_settles_nothing :
  let '(r, (w', _)) := toy_attend toy_unreachable in
  r = Ok tt /\ heart_error (toy_processed toy_unreachable) = Some (OtherError "TransactionFailure") /\
  map (fun p => run_status p.2) (map_to_list (db_runs (durable w'))) = [RRUNNING] /\
  active (db_queue (durable w')) (unary_id 1) late_claim 1003 = true.
Proof. vm_compute. by split_and!. Qed.
Lemma claim_settled_witness :
  active (db_queue (durable toy_settled_claimed)) (unary_id 1) late_claim 1003 = true /\
  fst (toy_attend toy_surroundings) = Ok tt /\
  map (fun p => run_status p.2) (map_to_list (db_runs (durable (fst (snd (toy_attend toy_surroundings)))))) = [RSUCCEEDED] /\
  active (db_queue (durable (late_history [late_renewal] (fst (snd (toy_attend toy_surroundings))))))
    (unary_id 1) late_claim 2000 = false.
Proof.
  split; [by vm_compute|]. split; [by vm_compute|]. split; [by vm_compute|].
  refine (match @claim_settled unary_env toy_pow toy_digest toy_calendar ascii_unicode _ toy_surroundings toy_worker toy_config
    toy_settled_context toy_settled_claimed (0, 0) (fst (snd (toy_attend toy_surroundings)))
    (snd (snd (toy_attend toy_surroundings))) 1003 unary_inj _ _ _ _ _
    with ex_intro _ o (ex_intro _ h (ex_intro _ w1 (ex_intro _ x1 (conj E Hs)))) => _ end).
  - intros i j Hij. cbn. lia.
  - intros b n. done.
  - unfold toy_settled_claimed. apply run_history_reachable. by apply reach_init.
  - by vm_compute.
  - by vm_compute.
  - assert (He : heart_error (toy_processed toy_surroundings) = None) by by vm_compute.
    change (toy_processed toy_surroundings = (Ok (o, h), (w1, x1))) in E. rewrite E in He. cbn in He. rewrite He in Hs.
    apply (Hs [late_renewal] 2000). by vm_compute.
Defined.

Definition toy_queued : World :=
  @run_history unary_env toy_pow toy_digest toy_calendar [OpCreateTask (u "buy milk") (u ""); OpStartRun (unary_id 0)] empty_world.
Definition toy_once : res bool * (World * (Z * Z)) :=
  @run_once unary_env toy_pow toy_digest toy_calendar ascii_unicode _ toy_surroundings toy_worker (Some toy_config) (toy_queued, (0, 0)).
Lemma worker_acts_under_its_claim_witness :
  fst toy_once = Ok true /\
  map (fun p => run_status p.2) (map_to_list (db_runs (durable (fst (snd toy_once))))) = [RSUCCEEDED] /\
  @reachable unary_env toy_pow toy_digest toy_calendar (fst (snd toy_once)).
Proof.
  split; [by vm_compute|]. split; [by vm_compute|].
  refine (proj1 (@worker_acts_under_its_claim unary_env toy_pow toy_digest toy_calendar ascii_unicode _ toy_surroundings
    toy_worker (Some toy_config) toy_queued (0, 0) _)).
  unfold toy_queued. apply run_history_reachable. by apply reach_init.
Defined.
